(* ===== verification/_CoqProject ===== *)
-Q . S2P
Prelude.v
Go.v
Text.v
Common.v
Keys.v
Batch.v
Interfaces.v
Executor.v
StateMachine.v
StepsEthToMvx.v
StepsMvxToEth.v
Machines.v
Monitor.v
SafetyEthToMvx.v
SafetyMvxToEth.v
Erasure.v
Hoist.v
Demo.v
Bridge.v
ExecutorSpec.v
Signatures.v
Topology.v
RoleProviders.v
P2P.v
P2PFacts.v
Adapters.v
GasStation.v
EthClient.v
EthClientFacts.v
Bindings.v
BindingEvents.v
Solidity.v
EnumerableSet.v
EthSafe.v
EthSafeFacts.v
EthBridge.v
EthBridgeFacts.v
EthSolvency.v
EthNode.v
EthRead.v
EthTransfer.v
EthDemo.v
MvxClient.v
MvxClientFacts.v
MvxChain.v
MvxChainFacts.v
EthChain.v
ClientOnChain.v
Liveness.v
Status.v
BatchValidator.v
Relayer.v
Config.v
Api.v
Factory.v
Main.v
FactoryFacts.v
Process.v
ProcessDemo.v
Start.v
StartFacts.v
StartDemo.v
Testnet.v
TestnetDemo.v
TxBatch.v
TxBatchFacts.v
EsdtSafe.v
EsdtSafeFacts.v
MultiTransfer.v
MultiTransferFacts.v
Multisig.v
MultisigFacts.v
MvxContracts.v
MvxContractsFacts.v
MvxContractsSafety.v
MvxRegistry.v
MvxServed.v
MvxNode.v
MvxRound.v
MvxContractsDemo.v
