(* ===== verification/Prelude.v ===== *)
(** * Verification of the Ethereum <-> MultiversX bridge relayer

    The Go relayer under [src/bridge] moves batches of deposits between an Ethereum multisig
    and a MultiversX multisig.  Several relayers run the same program; they agree on a leader
    by the clock, exchange signatures over a peer-to-peer network, and every state change on a
    chain needs a quorum of them.  This library models the relayer as executable functions and
    proves what makes it correct.

    ** How the program is put together

    A relayer runs two state machines, polled once per step duration: Ethereum -> MultiversX
    (five steps) and MultiversX -> Ethereum (ten steps).  The steps call one bridge executor
    per direction, which holds the batch in flight, the action number, the message hash and the
    retry counters, and talks to an Ethereum client, a MultiversX client, a topology handler
    (leader election), a signatures holder, a batch validator and a status handler.  The
    broadcaster feeds the signatures holder with what other relayers sign; the role providers
    keep the whitelists.  The factory creates all of these from the configuration, registers
    what must be polled and what must be closed, and starts and stops them; a web server shows
    their metrics.

    ** How it is modelled

    - [Prelude]: machine integers ([u64], [i64] over [Z]), bytes and hexadecimal texts.
    - [Go]: what the code uses of the language: formatted texts, errors that wrap errors, the
      result type [res], maps visited in an arbitrary order ([map_order]), and the monad
      [M S A] of computations that read and change a state and may panic, with its weakest
      precondition [wp] and totality [total] (returns from every state, without a panic).
    - [Text]: decoding of hexadecimal texts and numbers, splitting, the text of durations.
    - [Common], [Keys]: error values, metric names, address texts; sorted key lists.
    - [Batch] ([clients/batch.go]): batches, deposits, their texts and JSON, status repair.
    - [Interfaces]: the Go interfaces of the executor as records of operations over an
      abstract world, and classes of laws ([MultiversXClientLaws], [EthereumClientLaws],
      [StatusHandlerLaws]) that the clients' files discharge.
    - [Executor] ([bridgeExecutor.go]): state [execState], injected components [executorDeps],
      the constructor and one definition per method.
    - [StateMachine] ([stateMachine.go]); [StepsEthToMvx], [StepsMvxToEth]: the [Execute] of
      each step and the step factories; [Machines]: the two machines of the factory.
    - [Monitor], [Erasure]: an executor with a history of its calls, and the proof that the
      history changes nothing.
    - [Signatures] ([signaturesHolder.go], [messages.go]), [Topology], [RoleProviders], [P2P]
      ([p2p/]), [Adapters] (logger, NTP timer, denied peers, address metrics), [GasStation],
      [EthClient], [MvxClient], [Status] ([status/]), [BatchValidator]: one file per
      component; [P2PFacts], [EthClientFacts], [MvxClientFacts] hold the theorems of the
      larger ones.
    - [Hoist], [Relayer]: moving components into one state, and the executors that
      [ethMultiversXBridgeComponents.go] assembles from them.
    - [Config] ([config/]), [Factory] (the rest of [ethMultiversXBridgeComponents.go]: argument
      checks, keys, clients, broadcaster, half-bridges, [Start], the join loop, [Close]), [Api]
      ([facade/], [api/]), [Main] (the parts of [cmd/bridge], storer and web server start);
      [FactoryFacts] holds the theorems of [Factory].
    - [Process]: the created components running, every activity a step of one relation;
      [Start]: [startRelay] of [main.go], from the parsed command line over the connections and
      the running process to the shutdown, with its theorems in [StartFacts].
    - [Bindings], [BindingEvents] ([clients/ethereum/contract]): the generated callers,
      transactors and event iterators, filters, watchers and parsers.
    - [Solidity]: the monad of a contract call, which reverts as a whole, with checked integers
      and ABI encoding; [EnumerableSet], [EthSafe], [EthBridge] ([src/sol/contracts]): the set of
      relayers, roles and pausing, [ERC20Safe.sol] and [Bridge.sol], as transactions on a chain
      of blocks; [EthSafeFacts], [EthBridgeFacts], [EthSolvency] their invariants.
    - [EthNode]: a node that runs these contracts while others use them, and the bindings over
      it; [EthRead], [EthTransfer]: the Go client's reading and transferring over them.
    - [TxBatch], [EsdtSafe], [MultiTransfer], [Multisig], [MvxContracts] ([src/rs]): the queue of
      batches, the safe, the transfers and the multisig on MultiversX, and the chain on which
      any account calls them; [TxBatchFacts], [EsdtSafeFacts], [MultiTransferFacts],
      [MultisigFacts], [MvxContractsFacts] what each call does, [MvxContractsSafety],
      [MvxRegistry], [MvxServed] the invariants of histories, with the Go client's reading in the
      module [MvxRead] of the latter.
    - [MvxNode]: a node that runs these contracts, calls by name and their views, with the Go
      client over it in its module [MvxNodeFacts]; [MvxRound] a round of proposing, signing and performing.
    - [MvxChain], [EthChain] ([integrationTests/mock]): the two chains as the repository's
      integration tests describe them, with the MultiversX multisig contract;
      [MvxChainFacts] its invariants.  [ClientOnChain]: the MultiversX client over it.
    - [Liveness]: a network of relayers over an abstract description of the chains;
      [Testnet]: the setting of the integration test, which implements that description.
    - [Demo], [ProcessDemo], [TestnetDemo], [StartDemo], [EthDemo],
      [MvxContractsDemo] (with [MvxNodeDemo]): concrete environments for examples and witnesses.

    Code outside the repository is a parameter of the definitions that call it: chain nodes,
    go-ethereum's bound contracts, ERC20 tokens, the MultiversX virtual machine ([vm]), keccak256 and ecrecover, the MultiversX SDK, the network messenger, SHA-256, ECDSA and Ed25519,
    JSON and TOML decoding, HTTP, the key-value store, the clock.  What is assumed of it is
    stated in the classes [ChainLaws], [ProxyLaws], [WireLaws], [StoreLaws], [RelayerLaws],
    [Outside], [StartLaws], [BoundLaws], [AbiLaws], [Erc20Laws], [PaymentLaws], [EthNode.NodeLaws]
    and [MvxNode.RustNode], mostly that a call returns; each has a concrete instance.  Two things
    the code relies on but nobody guarantees are hypotheses of the theorems that need them, and no
    laws: that the address of an enabled batch validator is accepted by [http.NewRequest]
    ([url_accepted]) and that the quorum of the contract fits an [int64] ([quorum_fits]).

    ** What the theorems show

    - Whole runs ([Bridge], [SafetyEthToMvx], [SafetyMvxToEth]): for any number of calls of
      [Execute] neither machine panics or fails, and every call that acts on a chain is
      justified by the calls before it in the same round; recording the history is transparent;
      waiting steps repeat a bounded number of times.
    - Whole process ([Process], [StartFacts]): the same for the components the factory creates,
      under every interleaving of their activities, from the command line to the shutdown; starting
      assumes only laws of code outside the repository, running also the two unchecked inputs above.
    - Ethereum contracts ([EthBridgeFacts], [EthSolvency]): a batch that was handed out never
      changes unless the settle limit is raised, deposits are numbered without gaps, a transfer
      is executed at most once and only for a quorum of distinct relayers, the safe owns what it
      owes; and how the code lets this fail: raised limits reopen a batch that was handed out, and
      a claim of fees takes those of all tokens in one.
    - Client and contracts together ([EthNode], [EthRead], [EthTransfer]): bindings answer what
      the Solidity code answers; fetched batches are the contract's and the same for all relayers
      although the chain moves on, as long as the settle limit is not raised; the hash relayers sign
      is the one the contract checks and stands for one transfer only; what is executed carries the
      signatures of a quorum on it, and prepared transfers are accepted.
    - MultiversX contracts ([MvxContractsSafety], [MvxServed], [MultiTransferFacts]): transfers are
      executed in order, once, by a quorum of staked board members, each of whom sent a signature
      or the proposal; a performed batch loses no transfer; a served batch stays until a quorum
      sets all its statuses - and a batch of six or more cannot get there, because the multisig
      miscounts, unless the owner changes the batch settings meanwhile; the views the relayers ask hold exactly the pending actions
      ([MvxRegistry]); what the Go client reads is what the safe holds ([MvxRead]), each of its
      calls is the contract's view or transaction ([MvxNodeFacts]), and a quorum of honest clients
      gets the next batch performed ([MvxRound]).
    - Bindings ([BindingEvents]): a loop over filtered events ends and misses none.
    - Progress ([Liveness], [Testnet]): any number of relayers taking turns in any order in
      which every one of them leads again and again performs the pending Ethereum batch on the
      MultiversX contract, with exactly its deposits.
    - Contract ([MvxChainFacts], [ClientOnChain]): an action is performed only with a quorum of
      signatures, the state stays well formed, what the client proposes is what it finds again.
    - Executor ([ExecutorSpec]): which batches the nonce check accepts, how statuses are
      repaired, when the constructor fails, that the waiting loops poll at most ten times.
    - Clients: what was asked before a transaction is sent, faithful translation of contract data
      into batches, equality of the parser with a reference, agreement of proposals with queries
      and of hashes between relayers, and which of the executor's laws the clients satisfy.
    - Network, whitelists and election: no replay, acceptance of honest messages, the holder
      refines a log, exactly one leader, whitelist updates are atomic.
    - Services: the gas price is the service's, bounded, with its back-off schedule; validation only
      by the service; metrics survive a restart; which requests the web server serves and how.
    - Factory ([FactoryFacts]): a successful construction registers every component it must;
      [Close] closes all of them whatever fails, and ends the join loop once that loop runs.

    ** Bounds and fuel

    The loops over ten splits are recursion on that number.  The parser of pending batches
    uses as fuel the number of values in the answer, each turn consuming seven; the status
    repair uses the number of statuses asked for, each turn adding one.  The gas station's
    endless loop, the join loop and the machines are run for an arbitrary number of iterations.
    Counts of deposits and statuses are assumed to fit the [int] they are kept in.

    ** What is not modelled

    Goroutines and mutexes: every operation of a component is atomic, and interference happens
    between operations.  Log output, except for what it writes into metrics; what the log websocket
    and the profiler of the web server send.  Of the generated bindings the session and raw types, which forward to
    the modelled ones with stored options.  Events the Solidity contracts emit, and the mock and
    test contracts.  The stubs of the unit tests.  Of the contracts in Rust: events,
    the upgrade of a child contract's code, calls back into a contract during a token transfer, and
    the wrapping, swapping, deposit-wrapping and price contracts, which are parameters.

    ** Plan

    Next: progress of the MultiversX -> Ethereum direction on the two chains; the executor's steps,
    and not only the client's calls, over the contracts in Rust while others use them; the other
    contracts in Rust; the mocks under [testsCommon] that have logic of their own. *)
From stdpp Require Export base gmap strings list fin_maps sorting pretty numbers relations.
From Stdlib Require Export Strings.Byte Strings.Ascii.

(** ** Machine integers *)

Declare Scope go_scope.
Delimit Scope go_scope with go.

Definition two64 : Z := 18446744073709551616.
Definition two63 : Z := 9223372036854775808.

(** Conversion to Go's [uint64]: reduction modulo 2^64. *)
Definition u64 (z : Z) : Z := z `mod` two64.

(** Conversion to Go's [int64] (and [int] on the 64-bit targets of the relayer):
    two's complement reduction. *)
Definition i64 (z : Z) : Z := (z + two63) `mod` two64 - two63.

Notation "a +u b" := (u64 (a + b)) (at level 50, left associativity) : go_scope.
Notation "a *u b" := (u64 (a * b)) (at level 40, left associativity) : go_scope.

Definition is_u64 (z : Z) : Prop := (0 <= z < two64)%Z.

Lemma two64_two63 : two64 = (2 * two63)%Z.
Proof. reflexivity. Qed.

Lemma u64_range z : is_u64 (u64 z).
Proof. unfold is_u64, u64. apply Z.mod_pos_bound. reflexivity. Qed.

Lemma u64_small z : is_u64 z -> u64 z = z.
Proof. unfold is_u64, u64. apply Z.mod_small. Qed.

Lemma i64_small z : (- two63 <= z < two63)%Z -> i64 z = z.
Proof.
  intros H. unfold i64. rewrite Z.mod_small; [lia|].
  rewrite two64_two63. lia.
Qed.

Lemma i64_range z : (- two63 <= i64 z < two63)%Z.
Proof.
  unfold i64. pose proof (Z.mod_pos_bound (z + two63) two64 eq_refl) as H.
  rewrite two64_two63 in *. lia.
Qed.

(** Converting a [uint64] to [int64] and back loses nothing. *)
Lemma i64_negative z : (two63 <= z < two64)%Z -> (i64 z < 0)%Z.
Proof.
  intros H. unfold i64. replace (z + two63)%Z with (z - two63 + 1 * two64)%Z by (unfold two63, two64; lia).
  rewrite Z_mod_plus_full, Z.mod_small; unfold two63, two64 in *; lia.
Qed.

Lemma u64_i64 z : u64 (i64 z) = u64 z.
Proof.
  unfold u64, i64. rewrite Zminus_mod_idemp_l. f_equal. lia.
Qed.

Lemma u64_add_idemp_l a b : u64 (u64 a + b) = u64 (a + b).
Proof. unfold u64. apply Zplus_mod_idemp_l. Qed.

(** ** Bytes *)

Abbreviation byte := Byte.byte.
Abbreviation bytes := (list Byte.byte).

#[global] Instance byte_eq_decision : EqDecision byte := Byte.byte_eq_dec.
#[global] Program Instance byte_countable : Countable byte :=
  inj_countable Byte.to_N Byte.of_N _.
Next Obligation. apply Byte.of_to_N. Qed.

Definition byte_val (b : byte) : Z := Z.of_N (Byte.to_N b).

Definition byte_of_Z (z : Z) : byte :=
  default Byte.x00 (Byte.of_N (Z.to_N (z `mod` 256))).

Lemma byte_val_range b : (0 <= byte_val b < 256)%Z.
Proof. unfold byte_val. pose proof (Byte.to_N_bounded b). lia. Qed.

Lemma byte_val_of_Z z : byte_val (byte_of_Z z) = (z `mod` 256)%Z.
Proof.
  unfold byte_val, byte_of_Z.
  pose proof (Z.mod_pos_bound z 256 eq_refl) as Hr.
  destruct (Byte.of_N (Z.to_N (z `mod` 256))) as [b|] eqn:E; simpl.
  - apply Byte.to_of_N in E. rewrite E. lia.
  - apply Byte.of_N_None_iff in E. lia.
Qed.

#[global] Instance byte_val_inj : Inj (=) (=) byte_val.
Proof.
  intros a b H. unfold byte_val in H. apply N2Z.inj in H.
  pose proof (Byte.of_to_N a) as Ha. pose proof (Byte.of_to_N b) as Hb. congruence.
Qed.

Lemma byte_of_Z_val b : byte_of_Z (byte_val b) = b.
Proof.
  apply byte_val_inj. rewrite byte_val_of_Z. apply Z.mod_small, byte_val_range.
Qed.

(** The unsigned big-endian value of a byte slice: [big.Int.SetBytes] and
    [binary.BigEndian.Uint64]. *)
Definition be_acc (acc : Z) (l : bytes) : Z :=
  foldl (fun a b => (a * 256 + byte_val b)%Z) acc l.
Definition be_val (l : bytes) : Z := be_acc 0 l.

(** [binary.BigEndian.PutUint64] generalised to [n] bytes. *)
Fixpoint be_bytes (n : nat) (z : Z) : bytes :=
  match n with
  | O => []
  | S k => byte_of_Z (z `div` 256 ^ Z.of_nat k) :: be_bytes k z
  end.

Lemma be_bytes_length n z : length (be_bytes n z) = n.
Proof. induction n as [|n IH]; simpl; congruence. Qed.

Lemma be_acc_app acc l1 l2 : be_acc acc (l1 ++ l2) = be_acc (be_acc acc l1) l2.
Proof. unfold be_acc. apply foldl_app. Qed.

Lemma be_acc_bytes n acc z :
  be_acc acc (be_bytes n z) = (acc * 256 ^ Z.of_nat n + z `mod` 256 ^ Z.of_nat n)%Z.
Proof.
  revert acc. induction n as [|n IH]; intros acc; simpl.
  - rewrite Z.mod_1_r. lia.
  - change (be_acc acc (byte_of_Z (z `div` 256 ^ Z.of_nat n) :: be_bytes n z))
      with (be_acc (acc * 256 + byte_val (byte_of_Z (z `div` 256 ^ Z.of_nat n)))%Z (be_bytes n z)).
    rewrite IH, byte_val_of_Z.
    rewrite Nat2Z.inj_succ, Z.pow_succ_r by lia.
    rewrite (Z.mul_comm 256), Z.rem_mul_r by lia. lia.
Qed.

Lemma be_val_bytes n z : (0 <= z < 256 ^ Z.of_nat n)%Z -> be_val (be_bytes n z) = z.
Proof. intros H. unfold be_val. rewrite be_acc_bytes, Z.mod_small by done. lia. Qed.

Lemma be_acc_nonneg acc l : (0 <= acc)%Z -> (0 <= be_acc acc l)%Z.
Proof.
  revert acc. induction l as [|b l IH]; intros acc H; simpl; [done|].
  apply IH. pose proof (byte_val_range b). lia.
Qed.

Lemma be_val_nonneg l : (0 <= be_val l)%Z.
Proof. apply be_acc_nonneg. lia. Qed.

Lemma be_bytes_inj n a b :
  (0 <= a < 256 ^ Z.of_nat n)%Z -> (0 <= b < 256 ^ Z.of_nat n)%Z ->
  be_bytes n a = be_bytes n b -> a = b.
Proof. intros Ha Hb E. rewrite <-(be_val_bytes n a), <-(be_val_bytes n b) by done. by rewrite E. Qed.

(** ** Go strings and hexadecimal text *)

Definition string_of_bytes (l : bytes) : string := String.string_of_list_byte l.
Definition bytes_of_string (s : string) : bytes := String.list_byte_of_string s.

Lemma bytes_string_bytes l : bytes_of_string (string_of_bytes l) = l.
Proof. apply String.list_byte_of_string_of_list_byte. Qed.

Lemma string_bytes_string s : string_of_bytes (bytes_of_string s) = s.
Proof. apply String.string_of_list_byte_of_string. Qed.

#[global] Instance string_of_bytes_inj : Inj (=) (=) string_of_bytes.
Proof. intros a b H. by rewrite <-(bytes_string_bytes a), H, bytes_string_bytes. Qed.

Definition hex_digit (n : Z) : Ascii.ascii :=
  Ascii.ascii_of_N (Z.to_N (if (n <? 10)%Z then 48 + n else 87 + n)%Z).

(** [encoding/hex.EncodeToString]: two lower-case digits per byte. *)
Fixpoint hex_encode (l : bytes) : string :=
  match l with
  | [] => EmptyString
  | b :: l' =>
      String (hex_digit (byte_val b `div` 16)) (String (hex_digit (byte_val b `mod` 16)) (hex_encode l'))
  end.

Lemma hex_digit_inj a b :
  (0 <= a < 16)%Z -> (0 <= b < 16)%Z -> hex_digit a = hex_digit b -> a = b.
Proof.
  intros Ha Hb E. apply (f_equal Ascii.N_of_ascii) in E. unfold hex_digit in E.
  rewrite !Ascii.N_ascii_embedding in E; repeat case_match; lia.
Qed.

#[global] Instance hex_encode_inj : Inj (=) (=) hex_encode.
Proof.
  intros a. induction a as [|x a IH]; intros [|y b] H; [done|discriminate..|].
  cbn [hex_encode] in H. injection H as H1 H2 H3.
  pose proof (byte_val_range x). pose proof (byte_val_range y).
  apply hex_digit_inj in H1; [|split; Z.div_mod_to_equations; lia..].
  apply hex_digit_inj in H2; [|split; Z.div_mod_to_equations; lia..].
  f_equal; [|by apply IH]. apply byte_val_inj. Z.div_mod_to_equations; lia.
Qed.

(** ** Lists *)

(** [tl_ok P tr] holds of a history, newest entry first, when every entry is
    justified by what came before it. *)
Fixpoint tl_ok {A} (P : A -> list A -> Prop) (tr : list A) : Prop :=
  match tr with
  | [] => True
  | e :: old => P e old /\ tl_ok P old
  end.

Lemma tl_ok_lookup {A} (P : A -> list A -> Prop) tr new e old :
  tl_ok P tr -> tr = new ++ e :: old -> P e old.
Proof.
  revert tr. induction new as [|x new IH]; intros [|y tr] H E; simplify_eq/=; destruct H; eauto.
Qed.

Lemma tl_ok_app {A} (P : A -> list A -> Prop) new old : tl_ok P (new ++ old) -> tl_ok P old.
Proof. induction new as [|x new IH]; simpl; [done|]. intros [_ H]. auto. Qed.

(** Iterating a list as a Go [for _, x := range l] loop with an accumulator and
    an early exit. *)
Fixpoint range_loop {A B E} (f : B -> A -> B + E) (acc : B) (l : list A) : B + E :=
  match l with
  | [] => inl acc
  | x :: l' => match f acc x with
               | inl acc' => range_loop f acc' l'
               | inr e => inr e
               end
  end.

(** A loop that appends [f x] for each element computes a map. *)
Lemma foldl_snoc {A B} (f : A -> B) (acc : list B) (l : list A) :
  foldl (fun acc x => acc ++ [f x]) acc l = acc ++ (f <$> l).
Proof.
  revert acc. induction l as [|x l IH]; intros acc; simpl; [by rewrite app_nil_r|].
  rewrite IH. by rewrite <-app_assoc.
Qed.
