(* ===== verification/Go.v ===== *)
(** * The fragment of Go the relayer uses

    Formatted text ([fmt.Sprintf] for the verbs that occur in the sources), error
    values ([errors.New], [fmt.Errorf] with a leading [%w], [errors.Is]), results
    [(value, error)], run-time panics, and a state monad with panics in which the
    methods of the relayer are written.  A small weakest-precondition calculus for
    that monad carries the proofs about whole methods. *)
From S2P Require Import Prelude.

(** ** Formatted values *)

Inductive gval :=
  | GStr (s : string)
  | GInt (z : Z)
  | GBool (b : bool)
  | GBytes (l : bytes)
  | GStrs (l : list string).

Fixpoint join_with (sep : string) (l : list string) : string :=
  match l with
  | [] => ""
  | [s] => s
  | s :: l' => s +:+ sep +:+ join_with sep l'
  end.

Definition bool_text (b : bool) : string := if b then "true" else "false".

(** The default format [%v]. *)
Definition fmt_v (g : gval) : string :=
  match g with
  | GStr s => s
  | GInt z => pretty z
  | GBool b => bool_text b
  | GBytes l => "[" +:+ join_with " " (map (fun b => pretty (byte_val b)) l) +:+ "]"
  | GStrs l => "[" +:+ join_with " " l +:+ "]"
  end.

Definition fmt_s (g : gval) : string :=
  match g with GBytes l => string_of_bytes l | _ => fmt_v g end.

Definition str1 (c : Ascii.ascii) : string := String c EmptyString.

(** [strconv.Quote] on one character of ASCII text. *)
Definition quote_char (c : Ascii.ascii) : string :=
  let n := Z.of_N (Ascii.N_of_ascii c) in
  if (n =? 34)%Z || (n =? 92)%Z then str1 "092"%char +:+ str1 c
  else if (n =? 7)%Z then "\a" else if (n =? 8)%Z then "\b" else if (n =? 12)%Z then "\f"
  else if (n =? 10)%Z then "\n" else if (n =? 13)%Z then "\r" else if (n =? 9)%Z then "\t"
  else if (n =? 11)%Z then "\v"
  else if (n <? 32)%Z || (n =? 127)%Z
       then "\x" +:+ str1 (hex_digit (n `div` 16)) +:+ str1 (hex_digit (n `mod` 16))
  else str1 c.

Fixpoint quote_chars (s : string) : string :=
  match s with
  | EmptyString => EmptyString
  | String c s' => quote_char c +:+ quote_chars s'
  end.

Definition fmt_q (g : gval) : string :=
  str1 "034"%char +:+ quote_chars (fmt_s g) +:+ str1 "034"%char.

Definition fmt_verb (v : Ascii.ascii) (g : gval) : string :=
  if Ascii.eqb v "v" then fmt_v g
  else if Ascii.eqb v "q" then fmt_q g
  else fmt_s g.

(** [fmt.Sprintf] for formats made of plain text and the verbs [%s %d %v %q %w]. *)
Fixpoint sprintf (f : string) (args : list gval) : string :=
  match f with
  | EmptyString => EmptyString
  | String c f' =>
      if Ascii.eqb c "%" then
        match f' with
        | EmptyString => "%!(NOVERB)"
        | String v f'' =>
            match args with
            | [] => "%!" +:+ str1 v +:+ "(MISSING)" +:+ sprintf f'' []
            | a :: args' => fmt_verb v a +:+ sprintf f'' args'
            end
        end
      else String c (sprintf f' args)
  end.

(** ** Errors *)

Inductive error :=
  | ErrNew (pkg_name text : string)
  | Errorf (format : string) (wrapped : error) (args : list gval)
  | ErrExternal (text : string).

(** [err.Error()]: the operand of [%w] is the first one in every format used. *)
Fixpoint error_text (e : error) : string :=
  match e with
  | ErrNew _ t => t
  | Errorf f w args => sprintf f (GStr (error_text w) :: args)
  | ErrExternal t => t
  end.

#[global] Instance gval_eq_dec : EqDecision gval.
Proof. solve_decision. Defined.
#[global] Instance error_eq_dec : EqDecision error.
Proof. solve_decision. Defined.

(** [errors.Is]. *)
Fixpoint errors_Is (e target : error) : bool :=
  bool_decide (e = target) ||
  match e with Errorf _ w _ => errors_Is w target | _ => false end.

(** What a Go function returning [(A, error)] yields: callers look at the value
    only when the error is nil. *)
Inductive res (A : Type) :=
  | Ok (a : A)
  | Err (e : error).
Arguments Ok {A} a.
Arguments Err {A} e.

Lemma Ok_inj {A} (a b : A) : Ok a = Ok b -> a = b.
Proof. by intros [= ->]. Qed.

Definition err_of {A} (r : res A) : option error :=
  match r with Ok _ => None | Err e => Some e end.
Definition ok_of {A} (r : res A) : option A :=
  match r with Ok a => Some a | Err _ => None end.
Definition res_map {A B} (f : A -> B) (r : res A) : res B :=
  match r with Ok a => Ok (f a) | Err e => Err e end.

(** ** Iteration over maps

    Go visits the keys of a map in an unspecified order, which may differ from one loop to the
    next: every function that ranges over a map takes the order of that loop. *)
Record map_order := {
  order_of : list string -> list string;
  order_perm : forall l, order_of l ≡ₚ l
}.

Definition some_order : map_order := {| order_of l := l; order_perm l := Permutation_refl l |}.

(** A second order, to evaluate examples with. *)
Definition reverse_order : map_order := {| order_of := reverse; order_perm := reverse_Permutation |}.

(** The keys a [range] over the map visits. *)
Definition range_keys {A} (o : map_order) (m : gmap string A) : list string := order_of o (map_to_list m).*1.

Lemma range_keys_elem {A} o (m : gmap string A) k : k ∈ range_keys o m <-> is_Some (m !! k).
Proof.
  unfold range_keys. rewrite order_perm, list_elem_of_fmap. split.
  - intros ([k' v] & -> & H). apply elem_of_map_to_list in H. by exists v.
  - intros [v H]. exists (k, v). split; [done|]. by apply elem_of_map_to_list.
Qed.

Lemma range_keys_NoDup {A} o (m : gmap string A) : NoDup (range_keys o m).
Proof. unfold range_keys. rewrite order_perm. apply NoDup_fst_map_to_list. Qed.

(** ** Computations *)

Inductive panic :=
  | NilDereference
  | IndexOutOfRange
  | SliceBoundsOutOfRange
  | DivideByZero
  | PanicValue (text : string).

Inductive outcome (A : Type) :=
  | Ret (a : A)
  | Panic (p : panic).
Arguments Ret {A} a.
Arguments Panic {A} p.

Definition M (S A : Type) : Type := S -> outcome A * S.

#[global] Instance M_ret S : MRet (M S) := fun A a s => (Ret a, s).
#[global] Instance M_bind S : MBind (M S) := fun A B k c s =>
  match c s with
  | (Ret a, s') => k a s'
  | (Panic p, s') => (Panic p, s')
  end.

Definition panics {S A} (p : panic) : M S A := fun s => (Panic p, s).
Definition gets {S A} (f : S -> A) : M S A := fun s => (Ret (f s), s).
Definition modify {S} (f : S -> S) : M S unit := fun s => (Ret tt, f s).

(** Running a computation on a part of the state. *)
Definition zoom {S X A} (get : S -> X) (put : X -> S -> S) (c : M X A) : M S A := fun s =>
  let '(o, x) := c (get s) in (o, put x s).

(** [_, err := c; if err != nil { return err }] and its value-carrying form: the
    continuation runs on success, the error is passed on otherwise. *)
Definition bind_ok {S A B} (c : M S (res A)) (k : A -> M S (res B)) : M S (res B) :=
  r ← c; match r with Ok a => k a | Err e => mret (Err e) end.

Notation "x <?- c ; k" := (bind_ok c (fun x => k))
  (at level 20, c at level 100, k at level 200, only parsing) : go_scope.

(** Dereferencing a pointer. *)
Definition deref {S A} (p : option A) : M S A :=
  match p with Some a => mret a | None => panics NilDereference end.

(** ** Weakest preconditions: the computation returns, and its result is right *)

Definition wp {S A} (c : M S A) (Q : A -> S -> Prop) (s : S) : Prop :=
  match c s with
  | (Ret a, s') => Q a s'
  | (Panic _, _) => False
  end.

Lemma wp_unfold {S A} (c : M S A) Q s :
  wp c Q s <-> exists a s', c s = (Ret a, s') /\ Q a s'.
Proof.
  unfold wp. split.
  - destruct (c s) as [[a|p] s'] eqn:E; [eauto|done].
  - intros (a & s' & -> & H). done.
Qed.

Lemma wp_ret {S A} (a : A) Q (s : S) : Q a s -> wp (mret a) Q s.
Proof. done. Qed.

Lemma wp_bind {S A B} (c : M S A) (k : A -> M S B) Q s :
  wp c (fun a => wp (k a) Q) s -> wp (mbind k c) Q s.
Proof. unfold wp, mbind, M_bind. by destruct (c s) as [[a|p] s']. Qed.

Lemma wp_bind_inv {S A B} (c : M S A) (k : A -> M S B) Q s :
  wp (mbind k c) Q s -> wp c (fun a => wp (k a) Q) s.
Proof. unfold wp, mbind, M_bind. by destruct (c s) as [[a|p] s']. Qed.

Lemma wp_mono {S A} (c : M S A) (Q Q' : A -> S -> Prop) s :
  wp c Q s -> (forall a s', Q a s' -> Q' a s') -> wp c Q' s.
Proof. unfold wp. destruct (c s) as [[a|p] s']; eauto. Qed.

Lemma wp_gets {S A} (f : S -> A) Q s : Q (f s) s -> wp (gets f) Q s.
Proof. done. Qed.

Lemma wp_modify {S} (f : S -> S) Q s : Q tt (f s) -> wp (modify f) Q s.
Proof. done. Qed.

Lemma wp_zoom {S X A} (get : S -> X) put (c : M X A) Q s :
  wp c (fun a x => Q a (put x s)) (get s) -> wp (zoom get put c) Q s.
Proof. unfold wp, zoom. by destruct (c (get s)) as [[a|p] x]. Qed.

Lemma wp_bind_ok {S A B} (c : M S (res A)) (k : A -> M S (res B)) Q s :
  wp c (fun r => wp (match r with Ok a => k a | Err e => mret (Err e) end) Q) s ->
  wp (bind_ok c k) Q s.
Proof. apply wp_bind. Qed.

(** A computation that never panics, whatever the state. *)
Definition total {S A} (c : M S A) : Prop := forall s, wp c (fun _ _ => True) s.

Lemma wp_total {S A} (c : M S A) (Q : A -> S -> Prop) s :
  total c -> (forall a s', c s = (Ret a, s') -> Q a s') -> wp c Q s.
Proof.
  intros Ht H. specialize (Ht s). unfold wp in *.
  destruct (c s) as [[a|p] s'] eqn:E; [auto|done].
Qed.

Lemma total_ret {S A} (a : A) : total (S := S) (mret a).
Proof. done. Qed.

Lemma total_bind {S A B} (c : M S A) (k : A -> M S B) :
  total c -> (forall a, total (k a)) -> total (mbind k c).
Proof.
  intros Hc Hk s. apply wp_bind. eapply wp_mono; [apply Hc|]. intros a s' _. apply Hk.
Qed.

Lemma total_bind_ok {S A B} (c : M S (res A)) (k : A -> M S (res B)) :
  total c -> (forall a, total (k a)) -> total (bind_ok c k).
Proof. intros Hc Hk. apply total_bind; [done|]. intros [a|e]; [done|apply total_ret]. Qed.

Lemma total_gets {S A} (f : S -> A) : total (gets f).
Proof. done. Qed.

Lemma total_modify {S} (f : S -> S) : total (modify f).
Proof. done. Qed.

Lemma total_zoom {S X A} (get : S -> X) put (c : M X A) : total c -> total (zoom get put c).
Proof. intros H s. apply wp_zoom. apply H. Qed.

Create HintDb total discriminated.
#[export] Hint Resolve total_ret total_bind total_bind_ok total_gets total_modify total_zoom : total.

(** Symbolic execution of a method: the structural rules, then a case split on
    whatever the continuation inspects. *)
Ltac wp_step :=
  lazymatch goal with
  | |- wp (mret _) _ _ => apply wp_ret
  | |- wp (mbind _ _) _ _ => apply wp_bind
  | |- wp (bind_ok _ _) _ _ => apply wp_bind_ok
  | |- wp (gets _) _ _ => apply wp_gets
  | |- wp (modify _) _ _ => apply wp_modify
  | |- wp (zoom _ _ _) _ _ => apply wp_zoom
  end.
Ltac wp_run := repeat (wp_step; cbn beta iota).

Ltac solve_total :=
  repeat first
    [ assumption
    | solve [ eauto with total ]
    | apply total_ret | apply total_gets | apply total_modify
    | apply total_bind; [|intros ?]
    | apply total_bind_ok; [|intros ?]
    | apply total_zoom
    | case_match ].

(** ** Reading a run backwards *)

Lemma bind_ret_inv {S A B} (c : M S A) (k : A -> M S B) s b s' :
  mbind k c s = (Ret b, s') -> exists a s1, c s = (Ret a, s1) /\ k a s1 = (Ret b, s').
Proof. unfold mbind, M_bind. destruct (c s) as [[a|p] s1] eqn:Hc; [eauto|done]. Qed.

Lemma bind_ok_inv {S A B} (c : M S (res A)) (k : A -> M S (res B)) s b s' :
  bind_ok c k s = (Ret (Ok b), s') -> exists a s1, c s = (Ret (Ok a), s1) /\ k a s1 = (Ret (Ok b), s').
Proof.
  unfold bind_ok. intros H. apply bind_ret_inv in H as ([a|e] & s1 & Hc & H); [eauto|done].
Qed.
