(* ===== verification/Text.v ===== *)
(** * Hexadecimal texts, numbers and fields

    [encoding/hex.DecodeString], [strconv.ParseUint] in base 16, [big.Int.Bytes] and
    [strings.Split], with the round trips against their inverses; the text of durations. *)
From S2P Require Import Prelude Go.

(** ** Hexadecimal digits *)

Definition hex_value (c : Ascii.ascii) : option Z :=
  let n := Z.of_N (Ascii.N_of_ascii c) in
  if ((48 <=? n) && (n <=? 57))%Z then Some (n - 48)%Z
  else if ((97 <=? n) && (n <=? 102))%Z then Some (n - 87)%Z
  else if ((65 <=? n) && (n <=? 70))%Z then Some (n - 55)%Z
  else None.

Lemma hex_value_digit n : (0 <= n < 16)%Z -> hex_value (hex_digit n) = Some n.
Proof.
  intros H. unfold hex_value, hex_digit. rewrite Ascii.N_ascii_embedding by (case_match; lia).
  destruct (Z.ltb_spec n 10); rewrite Z2N.id by lia.
  - rewrite (proj2 (Z.leb_le 48 _)), (proj2 (Z.leb_le _ 57)) by lia. cbn. f_equal. lia.
  - rewrite (proj2 (Z.leb_gt _ 57)), andb_false_r by lia.
    rewrite (proj2 (Z.leb_le 97 _)), (proj2 (Z.leb_le _ 102)) by lia. cbn. f_equal. lia.
Qed.

Lemma byte_digits b :
  hex_value (hex_digit (byte_val b `div` 16)) = Some (byte_val b `div` 16)%Z /\
  hex_value (hex_digit (byte_val b `mod` 16)) = Some (byte_val b `mod` 16)%Z.
Proof. pose proof (byte_val_range b). split; apply hex_value_digit; Z.div_mod_to_equations; lia. Qed.

(** [hex.DecodeString]: pairs of digits of either case; an invalid character is reported before
    an odd length.  Its text is the [%#U] form of the character, exact for printable ASCII. *)
Definition hex_ErrLength : error := ErrExternal "encoding/hex: odd length hex string".
Definition upper_digit (n : Z) : Ascii.ascii := Ascii.ascii_of_N (Z.to_N (if (n <? 10)%Z then 48 + n else 55 + n)%Z).
Definition upper_hex (n : Z) : string := str1 (upper_digit (n `div` 16)) +:+ str1 (upper_digit (n `mod` 16)).
Definition hex_InvalidByte (c : Ascii.ascii) : error :=
  ErrExternal ("encoding/hex: invalid byte: U+00" +:+ upper_hex (Z.of_N (Ascii.N_of_ascii c)) +:+ " '" +:+ str1 c +:+ "'").

Fixpoint hex_DecodeString (s : string) : res bytes :=
  match s with
  | EmptyString => Ok []
  | String a EmptyString => match hex_value a with None => Err (hex_InvalidByte a) | Some _ => Err hex_ErrLength end
  | String a (String b rest) =>
      match hex_value a with
      | None => Err (hex_InvalidByte a)
      | Some h =>
          match hex_value b with
          | None => Err (hex_InvalidByte b)
          | Some l => res_map (cons (byte_of_Z (h * 16 + l))) (hex_DecodeString rest)
          end
      end
  end.

Lemma hex_decode_encode l : hex_DecodeString (hex_encode l) = Ok l.
Proof.
  induction l as [|b l IH]; [done|]. cbn [hex_encode hex_DecodeString].
  destruct (byte_digits b) as [-> ->]. rewrite IH. cbn. do 2 f_equal.
  rewrite <-(byte_of_Z_val b) at 3. f_equal. Z.div_mod_to_equations; lia.
Qed.

(** ** [strconv.ParseUint(s, 16, 64)] *)

Definition parse_error (s reason : string) : error :=
  ErrExternal ("strconv.ParseUint: parsing " +:+ fmt_q (GStr s) +:+ ": " +:+ reason).

Fixpoint parse_digits (acc : Z) (s : string) : option Z :=
  match s with
  | EmptyString => Some acc
  | String c rest => match hex_value c with None => None | Some d => parse_digits (acc * 16 + d) rest end
  end.

Definition ParseUint16 (s : string) : res Z :=
  match s with
  | EmptyString => Err (parse_error s "invalid syntax")
  | _ => match parse_digits 0 s with
         | None => Err (parse_error s "invalid syntax")
         | Some n => if (n <? two64)%Z then Ok n else Err (parse_error s "value out of range")
         end
  end.

Lemma parse_digits_encode acc l : parse_digits acc (hex_encode l) = Some (be_acc acc l).
Proof.
  revert acc. induction l as [|b l IH]; intros acc; [done|]. cbn [hex_encode parse_digits].
  destruct (byte_digits b) as [-> ->]. rewrite IH. f_equal.
  change (be_acc acc (b :: l)) with (be_acc (acc * 256 + byte_val b) l). f_equal. Z.div_mod_to_equations; lia.
Qed.

Lemma be_acc_bound acc l k : (0 <= acc < k)%Z -> (0 <= be_acc acc l < k * 256 ^ Z.of_nat (length l))%Z.
Proof.
  revert acc k. induction l as [|b l IH]; intros acc k H; cbn [length]; [rewrite Z.mul_1_r; done|].
  change (be_acc acc (b :: l)) with (be_acc (acc * 256 + byte_val b) l). pose proof (byte_val_range b).
  rewrite Nat2Z.inj_succ, Z.pow_succ_r by lia. rewrite Z.mul_assoc. apply IH. lia.
Qed.

Lemma be_val_bound l : (0 <= be_val l < 256 ^ Z.of_nat (length l))%Z.
Proof. pose proof (be_acc_bound 0 l 1 ltac:(lia)). unfold be_val. lia. Qed.

Lemma be_val_8 l : length l = 8 -> is_u64 (be_val l).
Proof. intros H. pose proof (be_val_bound l) as Hb. rewrite H in Hb. exact Hb. Qed.

Lemma ParseUint16_encode l : length l = 8 -> ParseUint16 (hex_encode l) = Ok (be_val l).
Proof.
  intros Hl. pose proof (be_val_8 l Hl) as [_ Hb]. unfold ParseUint16. rewrite parse_digits_encode. fold (be_val l).
  rewrite (proj2 (Z.ltb_lt _ _) Hb). by destruct l.
Qed.

(** ** [big.Int.Bytes]: the absolute value, without leading zeros *)

Definition big_Bytes (z : Z) : bytes :=
  if (z =? 0)%Z then [] else be_bytes (Z.to_nat (Z.log2 (Z.abs z) / 8) + 1) (Z.abs z).

Lemma be_val_big z : be_val (big_Bytes z) = Z.abs z.
Proof.
  unfold big_Bytes. destruct (Z.eqb_spec z 0) as [->|Hz]; [done|]. apply be_val_bytes. split; [lia|].
  pose proof (Z.log2_nonneg (Z.abs z)). pose proof (Z.log2_spec (Z.abs z) ltac:(lia)) as [_ Hs].
  eapply Z.lt_le_trans; [exact Hs|]. change 256%Z with (2 ^ 8)%Z. rewrite <-Z.pow_mul_r by lia.
  apply Z.pow_le_mono_r; [lia|]. Z.div_mod_to_equations; lia.
Qed.

(** ** [strings.Split] by one character *)

Fixpoint strings_Split (sep : Ascii.ascii) (s : string) : list string :=
  match s with
  | EmptyString => [""]
  | String c rest =>
      if Ascii.eqb c sep then "" :: strings_Split sep rest
      else match strings_Split sep rest with
           | f :: fs => String c f :: fs
           | [] => [str1 c]
           end
  end.

Fixpoint free_of (sep : Ascii.ascii) (s : string) : bool :=
  match s with
  | EmptyString => true
  | String c rest => negb (Ascii.eqb c sep) && free_of sep rest
  end.

Lemma split_free sep s : free_of sep s = true -> strings_Split sep s = [s].
Proof.
  induction s as [|c s IH]; [done|]. cbn [free_of strings_Split]. intros [Hc Hs]%andb_true_iff.
  apply negb_true_iff in Hc. by rewrite Hc, IH.
Qed.

Lemma split_app sep s rest : free_of sep s = true -> strings_Split sep (s +:+ String sep rest) = s :: strings_Split sep rest.
Proof.
  induction s as [|c s IH]; cbn [free_of].
  - intros _. change ("" +:+ String sep rest) with (String sep rest). cbn [strings_Split]. by rewrite Ascii.eqb_refl.
  - intros [Hc Hs]%andb_true_iff. apply negb_true_iff in Hc.
    change (String c s +:+ String sep rest) with (String c (s +:+ String sep rest)).
    cbn [strings_Split]. by rewrite Hc, (IH Hs).
Qed.

(** Joining fields that do not contain the separator, then splitting, gives them back. *)
Lemma split_join sep l :
  l <> [] -> Forall (fun s => free_of sep s = true) l -> strings_Split sep (join_with (str1 sep) l) = l.
Proof.
  induction l as [|s [|t l] IH]; intros Hne Hf; [done| |].
  - apply Forall_inv in Hf. by apply split_free.
  - apply Forall_cons in Hf as [Hs Hf]. change (join_with (str1 sep) (s :: t :: l)) with (s +:+ String sep (join_with (str1 sep) (t :: l))).
    rewrite split_app by done. f_equal. by apply IH.
Qed.

Lemma hex_digit_not_at n : (0 <= n < 16)%Z -> Ascii.eqb (hex_digit n) "@" = false.
Proof.
  intros H. destruct (Ascii.eqb_spec (hex_digit n) "@") as [E|]; [|done].
  pose proof (hex_value_digit n H) as Hv. by rewrite E in Hv.
Qed.

Lemma hex_encode_free l : free_of "@" (hex_encode l) = true.
Proof.
  induction l as [|b l IH]; [done|]. cbn [hex_encode free_of]. pose proof (byte_val_range b).
  rewrite !hex_digit_not_at, IH by (Z.div_mod_to_equations; lia). done.
Qed.

(** ** Durations: [Duration.String] of package time, for a number of nanoseconds *)

(** The fraction of [v] in units of [10 ^ prec], without trailing zeros, and the whole part. *)
Fixpoint fmt_frac (prec : nat) (v : Z) (print : bool) (acc : string) : string * Z :=
  match prec with
  | O => (if print then "." +:+ acc else acc, v)
  | S k =>
      let digit := (v `mod` 10)%Z in
      let print := print || negb (digit =? 0)%Z in
      fmt_frac k (v `div` 10)%Z print (if print then pretty digit +:+ acc else acc)
  end.

Definition fmt_unit (prec : nat) (u : Z) (suffix : string) : string :=
  let '(frac, whole) := fmt_frac prec u false "" in pretty whole +:+ frac +:+ suffix.

Definition Duration_String (d : Z) : string :=
  let u := Z.abs d in
  let text :=
    if (u =? 0)%Z then "0s"
    else if (u <? 1000)%Z then fmt_unit 0 u "ns"
    else if (u <? 1000000)%Z then fmt_unit 3 u "µs"
    else if (u <? 1000000000)%Z then fmt_unit 6 u "ms"
    else
      let '(frac, whole) := fmt_frac 9 u false "" in
      let seconds := pretty (whole `mod` 60)%Z +:+ frac +:+ "s" in
      let minutes := (whole `div` 60)%Z in
      if (minutes =? 0)%Z then seconds
      else
        let text := pretty (minutes `mod` 60)%Z +:+ "m" +:+ seconds in
        let hours := (minutes `div` 60)%Z in
        if (hours =? 0)%Z then text else pretty hours +:+ "h" +:+ text in
  if (d <? 0)%Z then "-" +:+ text else text.

Example durations :
  map Duration_String [0; 999; 1500; 99000000; 30000000000; 90500000000; 3600000000000; -1]%Z =
  ["0s"; "999ns"; "1.5µs"; "99ms"; "30s"; "1m30.5s"; "1h0m0s"; "-1ns"].
Proof. vm_compute. reflexivity. Qed.
