(* ===== verification/Common.v ===== *)
(** * Shared constants of the clients

    Sentinels of [src/bridge/clients/errors.go], metric names of [src/bridge/core/constants.go],
    the client status of [src/bridge/bridges/ethMultiversX/constants.go] and the address
    converter of [src/bridge/core/converters/converters.go]. *)
From S2P Require Import Prelude Go.

Definition clients_ErrNilLogger := ErrNew "clients.ErrNilLogger" "nil logger".
Definition clients_ErrNilDataGetter := ErrNew "clients.ErrNilDataGetter" "nil data getter".
Definition clients_ErrNilPrivateKey := ErrNew "clients.ErrNilPrivateKey" "nil private key".
Definition clients_ErrNilBatch := ErrNew "clients.ErrNilBatch" "nil batch".
Definition clients_ErrNilTokensMapper := ErrNew "clients.ErrNilTokensMapper" "nil tokens mapper".
Definition clients_ErrNilStatusHandler := ErrNew "clients.ErrNilStatusHandler" "nil status handler".
Definition clients_ErrNilAddressConverter := ErrNew "clients.ErrNilAddressConverter" "nil address converter".
Definition clients_ErrMultisigContractPaused := ErrNew "clients.ErrMultisigContractPaused" "multisig contract paused".

Definition MetricNumEthClientRequests : string := "num ethereum client requests".
Definition MetricNumEthClientTransactions : string := "num ethereum client transactions".
Definition MetricLastQueriedEthereumBlockNumber : string := "ethereum last queried block number".
Definition MetricEthereumClientStatus : string := "ethereum client status".
Definition MetricLastEthereumClientError : string := "ethereum client last encountered error".
Definition MetricLastQueriedMultiversXBlockNumber : string := "multiversx last queried block number".
Definition MetricMultiversXClientStatus : string := "multiversx client status".
Definition MetricLastMultiversXClientError : string := "multiversx client last encountered error".
Definition MetricRelayerP2PAddresses : string := "relayer P2P addresses".
Definition MetricConnectedP2PAddresses : string := "connected P2P addresses".
Definition MetricLastBlockNonce : string := "last block nonce".

(** [ClientStatus] is an [int]; its [String] method covers the other values too. *)
Definition Available : Z := 0.
Definition Unavailable : Z := 1.
Definition status_String (cs : Z) : string :=
  if (cs =? Available)%Z then "Available"
  else if (cs =? Unavailable)%Z then "Unavailable"
  else sprintf "Invalid status %d" [GInt cs].

(** ** The address converter; the bech32 encoder is the library's. *)
Definition hexPrefix : string := "0x".

Record AddressConverter := { ToBech32String : bytes -> string }.

Definition ToHexString (addressBytes : bytes) : string := hex_encode addressBytes.
Definition ToHexStringWithPrefix (addressBytes : bytes) : string := hexPrefix +:+ hex_encode addressBytes.

Definition in_cutset (c : Ascii.ascii) : bool :=
  Ascii.eqb c "010" || Ascii.eqb c "009" || Ascii.eqb c " ".

Fixpoint trim_left (s : list Ascii.ascii) : list Ascii.ascii :=
  match s with
  | c :: s' => if in_cutset c then trim_left s' else s
  | [] => []
  end.

(** [strings.Trim(input, "\n\t ")]. *)
Definition TrimWhiteSpaceCharacters (input : string) : string :=
  String.string_of_list_ascii (reverse (trim_left (reverse (trim_left (String.list_ascii_of_string input))))).

(** ** Lifting outcomes *)

Definition of_outcome {S A} (o : outcome A) : M S A :=
  match o with Ret a => mret a | Panic p => panics p end.

(** A call whose second result is an error: the error is wrapped with a text. *)
Definition wrap_err {A} (f : error -> error) (r : res A) : res A :=
  match r with Ok a => Ok a | Err e => Err (f e) end.

Definition wrap (format : string) (e : error) : error := Errorf format e [].

Lemma of_outcome_inv {S A} (o : outcome A) (s : S) a s' : of_outcome o s = (Ret a, s') -> o = Ret a /\ s' = s.
Proof. destruct o; cbn; by intros [= -> ->]. Qed.

Ltac inv_run :=
  repeat match goal with
  | H : bind_ok _ _ _ = (Ret (Ok _), _) |- _ => apply bind_ok_inv in H as (? & ? & ? & H)
  | H : mbind _ _ _ = (Ret _, _) |- _ => apply bind_ret_inv in H as (? & ? & ? & H)
  | H : of_outcome _ _ = (Ret _, _) |- _ => apply of_outcome_inv in H as [H ->]
  end.

(** [c] answered [a] in some state of the world. *)
Definition answered {X A} (c : M X A) (a : A) : Prop := exists x x', c x = (Ret a, x').

Lemma total_bind_outcome {S A B} (a : A) (k : A -> M S B) : total (k a) -> total (mbind k (of_outcome (Ret a))).
Proof. intros H s. exact (H s). Qed.

(** [check.IfNil] in the constructors: an absent component is the error [e]. *)
Definition if_nil {A} (component : option A) (e : error) (otherwise : option error) : option error :=
  match component with None => Some e | Some _ => otherwise end.
