(* ===== verification/Keys.v ===== *)
(** * Sorted key lists

    [bytes.Compare], and the loop both key holders of the relayer run: collect the keys of a
    map, then [sort.Slice] them.  Because the keys of a map are distinct and the comparison is
    a total order, the sorted list does not depend on the order the map was visited in. *)
From S2P Require Import Prelude Go.

(** [bytes.Compare]: lexicographic. *)
Fixpoint bytes_Compare (a b : bytes) : comparison :=
  match a, b with
  | [], [] => Eq
  | [], _ :: _ => Lt
  | _ :: _, [] => Gt
  | x :: a', y :: b' =>
      match Z.compare (byte_val x) (byte_val y) with
      | Eq => bytes_Compare a' b'
      | c => c
      end
  end.

(** The order [sort.Slice] establishes with [bytes.Compare(x, y) < 0]. *)
Definition bytes_le (a b : bytes) : Prop := bytes_Compare b a <> Lt.

#[global] Instance bytes_le_dec : RelDecision bytes_le.
Proof. intros a b. unfold bytes_le. destruct (bytes_Compare b a); [left|right|left]; congruence. Defined.

Lemma bytes_Compare_eq a b : bytes_Compare a b = Eq <-> a = b.
Proof.
  revert b. induction a as [|x a IH]; intros [|y b]; simpl; try done.
  destruct (Z.compare_spec (byte_val x) (byte_val y)) as [H| |]; try (split; [done|]; intros [= -> ->]; lia).
  rewrite IH. apply byte_val_inj in H as ->. naive_solver.
Qed.

Lemma bytes_Compare_antisym a b : bytes_Compare b a = CompOpp (bytes_Compare a b).
Proof.
  revert b. induction a as [|x a IH]; intros [|y b]; simpl; try done.
  rewrite (Z.compare_antisym (byte_val x)). destruct (byte_val x ?= byte_val y)%Z; simpl; [apply IH|done..].
Qed.

Lemma bytes_Compare_trans a b c : bytes_Compare a b = Lt -> bytes_Compare b c = Lt -> bytes_Compare a c = Lt.
Proof.
  revert b c. induction a as [|x a IH]; intros [|y b] [|z c]; simpl; try done.
  destruct (Z.compare_spec (byte_val x) (byte_val y)) as [H1|H1|H1]; [|intros _|done].
  - rewrite H1. destruct (byte_val y ?= byte_val z)%Z; try done. by apply IH.
  - destruct (Z.compare_spec (byte_val y) (byte_val z)) as [H2|H2|H2]; [intros _|intros _|done].
    + by rewrite <-H2, (proj2 (Z.compare_lt_iff _ _) H1).
    + rewrite (proj2 (Z.compare_lt_iff _ _)); [done|lia].
Qed.

Lemma bytes_le_alt a b : bytes_le a b <-> bytes_Compare a b = Lt \/ a = b.
Proof.
  unfold bytes_le. rewrite bytes_Compare_antisym, <-bytes_Compare_eq.
  destruct (bytes_Compare a b); naive_solver.
Qed.

#[global] Instance bytes_le_preorder : PreOrder bytes_le.
Proof.
  split.
  - intros a. apply bytes_le_alt. by right.
  - intros a b c. rewrite !bytes_le_alt. intros [H1| ->] [H2| ->]; eauto using bytes_Compare_trans.
Qed.

#[global] Instance bytes_le_antisymm : AntiSymm (=) bytes_le.
Proof.
  intros a b. rewrite !bytes_le_alt. intros [H1| ->] [H2|H2]; try done.
  rewrite bytes_Compare_antisym, H1 in H2. done.
Qed.

#[global] Instance bytes_le_total : Total bytes_le.
Proof.
  intros a b. rewrite !bytes_le_alt. destruct (bytes_Compare a b) eqn:H; [|auto|].
  - apply bytes_Compare_eq in H. auto.
  - right. left. by rewrite bytes_Compare_antisym, H.
Qed.

(** [sort.Slice]: any sorting algorithm yields this list on distinct keys. *)
Definition sort_keys (l : list bytes) : list bytes := merge_sort bytes_le l.

Definition sorted_keys {A} (o : map_order) (m : gmap string A) : list bytes :=
  sort_keys (foldl (fun acc k => acc ++ [bytes_of_string k]) [] (range_keys o m)).

Lemma sort_keys_perm l : sort_keys l ≡ₚ l.
Proof. apply merge_sort_Permutation. Qed.

Lemma sort_keys_sorted l : Sorted bytes_le (sort_keys l).
Proof. apply Sorted_merge_sort, _. Qed.

(** A sorted permutation is unique, so that the choice of the algorithm does not matter. *)
Lemma sort_keys_unique l l' : Sorted bytes_le l' -> l' ≡ₚ l -> l' = sort_keys l.
Proof.
  intros Hs Hp. apply (Sorted_unique bytes_le); [done|apply sort_keys_sorted|].
  by rewrite sort_keys_perm.
Qed.

Section SortedKeys.
Context {A : Type}.
Implicit Type m : gmap string A.

Lemma sorted_keys_perm o m : sorted_keys o m ≡ₚ bytes_of_string <$> (map_to_list m).*1.
Proof.
  unfold sorted_keys. rewrite sort_keys_perm, foldl_snoc. simpl. unfold range_keys.
  by rewrite (order_perm o).
Qed.

Lemma sorted_keys_elem o m k : k ∈ sorted_keys o m <-> is_Some (m !! string_of_bytes k).
Proof.
  rewrite sorted_keys_perm, list_elem_of_fmap. split.
  - intros (s & -> & Hs). rewrite string_bytes_string. apply list_elem_of_fmap in Hs as ([s' v] & -> & Hv).
    apply elem_of_map_to_list in Hv. by exists v.
  - intros [v Hv]. exists (string_of_bytes k). split; [by rewrite bytes_string_bytes|].
    apply list_elem_of_fmap. exists (string_of_bytes k, v). split; [done|]. by apply elem_of_map_to_list.
Qed.

Lemma sorted_keys_NoDup o m : NoDup (sorted_keys o m).
Proof.
  rewrite sorted_keys_perm. apply NoDup_fmap; [|apply NoDup_fst_map_to_list].
  intros a b H. by rewrite <-(string_bytes_string a), H, string_bytes_string.
Qed.

Lemma sorted_keys_sorted o m : Sorted bytes_le (sorted_keys o m).
Proof. apply sort_keys_sorted. Qed.

Lemma sorted_keys_order o o' m : sorted_keys o m = sorted_keys o' m.
Proof.
  apply sort_keys_unique; [apply sorted_keys_sorted|]. rewrite sorted_keys_perm.
  rewrite foldl_snoc. simpl. unfold range_keys. by rewrite (order_perm o').
Qed.
End SortedKeys.
