(* ===== verification/Batch.v ===== *)
(** * Transfer batches

    Models [src/bridge/clients/batch.go] and [clients/constants.go]: the batch and
    deposit structures shared by both half-bridges, their textual and JSON forms
    ([encoding/json] with the struct tags of the source), [Clone] and
    [ResolveNewDeposits].  A nil [Amount] is [None]; the elements of [Deposits] are
    the pointees (both clients append freshly allocated, non-nil deposits). *)
From S2P Require Import Prelude Go.

(** Status bytes of a deposit. *)
Definition Executed : byte := Byte.x03.
Definition Rejected : byte := Byte.x04.

Record DepositTransfer := mkDeposit {
  dt_Nonce : Z;
  dt_ToBytes : bytes;
  dt_DisplayableTo : string;
  dt_FromBytes : bytes;
  dt_DisplayableFrom : string;
  dt_TokenBytes : bytes;
  dt_ConvertedTokenBytes : bytes;
  dt_DisplayableToken : string;
  dt_Amount : option Z
}.

Record TransferBatch := mkBatch {
  tb_ID : Z;
  tb_Deposits : list DepositTransfer;
  tb_Statuses : bytes
}.

#[global] Instance deposit_eq_dec : EqDecision DepositTransfer.
Proof. solve_decision. Defined.
#[global] Instance batch_eq_dec : EqDecision TransferBatch.
Proof. solve_decision. Defined.

Definition set_Statuses (st : bytes) (b : TransferBatch) : TransferBatch :=
  mkBatch (tb_ID b) (tb_Deposits b) st.

(** ** Text *)

Definition newline : string := str1 "010"%char.

(** [%v] of a [*big.Int]. *)
Definition big_text (a : option Z) : string :=
  match a with Some z => pretty z | None => "<nil>" end.

Definition deposit_String (dt : DepositTransfer) : string :=
  sprintf "to: %s, from: %s, token address: %s, amount: %v, deposit nonce: %d"
    [GStr (dt_DisplayableTo dt); GStr (dt_DisplayableFrom dt); GStr (dt_DisplayableToken dt);
     GStr (big_text (dt_Amount dt)); GInt (dt_Nonce dt)].

Definition batch_String (b : TransferBatch) : string :=
  let str := sprintf "Batch id %d:" [GInt (tb_ID b)] in
  let str := foldl (fun acc dt => acc +:+ newline +:+ "  " +:+ deposit_String dt) str (tb_Deposits b) in
  str +:+ newline +:+ "Statuses: " +:+ hex_encode (tb_Statuses b).

(** ** JSON *)

Definition base64_char (n : Z) : Ascii.ascii :=
  Ascii.ascii_of_N (Z.to_N
    (if (n <? 26)%Z then 65 + n else if (n <? 52)%Z then 71 + n
     else if (n <? 62)%Z then n - 4 else if (n =? 62)%Z then 43 else 47)%Z).

(** [base64.StdEncoding], the JSON form of a [[]byte]. *)
Fixpoint base64 (l : bytes) : string :=
  match l with
  | [] => ""
  | [a] =>
      let n := (byte_val a * 65536)%Z in
      str1 (base64_char (n `div` 262144)) +:+ str1 (base64_char ((n `div` 4096) `mod` 64)) +:+ "=="
  | [a; b] =>
      let n := (byte_val a * 65536 + byte_val b * 256)%Z in
      str1 (base64_char (n `div` 262144)) +:+ str1 (base64_char ((n `div` 4096) `mod` 64)) +:+
      str1 (base64_char ((n `div` 64) `mod` 64)) +:+ "="
  | a :: b :: c :: l' =>
      let n := (byte_val a * 65536 + byte_val b * 256 + byte_val c)%Z in
      str1 (base64_char (n `div` 262144)) +:+ str1 (base64_char ((n `div` 4096) `mod` 64)) +:+
      str1 (base64_char ((n `div` 64) `mod` 64)) +:+ str1 (base64_char (n `mod` 64)) +:+ base64 l'
  end.

Definition quot : string := str1 "034"%char.

(** One character inside a JSON string, with the HTML escaping of [json.Marshal];
    bytes above 127 are taken to be well-formed UTF-8 and stay as they are. *)
Definition json_char (c : Ascii.ascii) : string :=
  let n := Z.of_N (Ascii.N_of_ascii c) in
  if (n =? 34)%Z || (n =? 92)%Z then str1 "092"%char +:+ str1 c
  else if (n =? 10)%Z then "\n" else if (n =? 13)%Z then "\r" else if (n =? 9)%Z then "\t"
  else if (n <? 32)%Z || (n =? 60)%Z || (n =? 62)%Z || (n =? 38)%Z
       then "\u00" +:+ str1 (hex_digit (n `div` 16)) +:+ str1 (hex_digit (n `mod` 16))
  else str1 c.

Fixpoint json_chars (s : string) : string :=
  match s with
  | EmptyString => EmptyString
  | String c s' => json_char c +:+ json_chars s'
  end.

Definition json_string (s : string) : string := quot +:+ json_chars s +:+ quot.
Definition json_field (name value : string) : string := quot +:+ name +:+ quot +:+ ":" +:+ value.
Definition json_big (a : option Z) : string :=
  match a with Some z => pretty z | None => "null" end.

Definition json_DepositTransfer (dt : DepositTransfer) : string :=
  "{" +:+ join_with ","
    [json_field "nonce" (pretty (dt_Nonce dt)); json_field "to" (json_string (dt_DisplayableTo dt));
     json_field "from" (json_string (dt_DisplayableFrom dt));
     json_field "token" (json_string (dt_DisplayableToken dt));
     json_field "amount" (json_big (dt_Amount dt))] +:+ "}".

Definition json_TransferBatch (b : TransferBatch) : string :=
  "{" +:+ join_with ","
    [json_field "batchId" (pretty (tb_ID b));
     json_field "deposits" ("[" +:+ join_with "," (map json_DepositTransfer (tb_Deposits b)) +:+ "]");
     json_field "statuses" (json_string (base64 (tb_Statuses b)))] +:+ "}".

(** ** Clone *)

(** The slices are copied element by element; a nil amount becomes zero. *)
Definition deposit_Clone (dt : DepositTransfer) : DepositTransfer :=
  mkDeposit (dt_Nonce dt) (dt_ToBytes dt) (dt_DisplayableTo dt) (dt_FromBytes dt)
    (dt_DisplayableFrom dt) (dt_TokenBytes dt) (dt_ConvertedTokenBytes dt) (dt_DisplayableToken dt)
    (Some (match dt_Amount dt with Some a => a | None => 0%Z end)).

Definition batch_Clone (b : TransferBatch) : TransferBatch :=
  mkBatch (tb_ID b) (foldl (fun acc dt => acc ++ [deposit_Clone dt]) [] (tb_Deposits b)) (tb_Statuses b).

(** ** ResolveNewDeposits *)

(** [for i := newNumDeposits; i < oldLen; i++ { tb.Statuses[i] = Rejected }] from a
    non-negative start; a negative first index panics in the caller. *)
Fixpoint reject_from (i n : nat) (st : bytes) : bytes :=
  match n with
  | O => st
  | S k => reject_from (S i) k (<[i := Rejected]> st)
  end.

(** [for newNumDeposits > len(tb.Statuses) { append(tb.Statuses, Rejected) }]; the
    fuel is the number of deposits asked for, which bounds the missing entries. *)
Fixpoint append_rejected (fuel : nat) (target : nat) (st : bytes) : bytes :=
  match fuel with
  | O => st
  | S k => if Nat.ltb (length st) target then append_rejected k target (st ++ [Rejected]) else st
  end.

Definition ResolveNewDeposits (newNumDeposits : Z) (b : TransferBatch) : outcome TransferBatch :=
  let oldLen := length (tb_Statuses b) in
  if (newNumDeposits =? Z.of_nat oldLen)%Z then Ret b
  else if (newNumDeposits <? 0)%Z then Panic IndexOutOfRange
  else
    let n := Z.to_nat newNumDeposits in
    let st := reject_from n (oldLen - n) (tb_Statuses b) in
    Ret (set_Statuses (append_rejected n n st) b).

(** ** Lemmas *)

Lemma reject_from_spec i n st :
  i + n = length st -> reject_from i n st = take i st ++ replicate n Rejected.
Proof.
  revert i st. induction n as [|n IH]; intros i st Hl; simpl.
  - rewrite take_ge by lia. by rewrite app_nil_r.
  - rewrite IH by (rewrite length_insert; lia).
    rewrite (take_S_r _ i Rejected) by (apply list_lookup_insert_eq; lia).
    rewrite take_insert_ge by lia. by rewrite <-app_assoc.
Qed.

Lemma append_rejected_spec fuel target st :
  target - length st <= fuel ->
  append_rejected fuel target st = st ++ replicate (target - length st) Rejected.
Proof.
  revert st. induction fuel as [|k IH]; intros st Hf; simpl.
  - replace (target - length st) with 0 by lia. by rewrite app_nil_r.
  - destruct (Nat.ltb_spec (length st) target) as [Hlt|Hge].
    + rewrite IH by (rewrite length_app; simpl; lia). rewrite length_app, <-app_assoc. simpl.
      replace (target - length st) with (S (target - (length st + 1))) by lia. done.
    + replace (target - length st) with 0 by lia. by rewrite app_nil_r.
Qed.

(** The statuses the two loops of [ResolveNewDeposits] leave behind. *)
Definition resolved (n : nat) (st : bytes) : bytes :=
  take n st ++ replicate (Nat.max n (length st) - Nat.min n (length st)) Rejected.

Lemma ResolveNewDeposits_resolved n b :
  (0 <= n)%Z ->
  ResolveNewDeposits n b = Ret (set_Statuses (resolved (Z.to_nat n) (tb_Statuses b)) b).
Proof.
  intros Hn. unfold ResolveNewDeposits, resolved. set (st := tb_Statuses b).
  destruct (Z.eqb_spec n (Z.of_nat (length st))) as [->|Hne].
  - rewrite Nat2Z.id, Nat.max_id, Nat.min_id, Nat.sub_diag, take_ge, app_nil_r by lia.
    by destruct b.
  - destruct (Z.ltb_spec n 0) as [?|_]; [lia|]. do 2 f_equal.
    set (k := Z.to_nat n). destruct (Nat.le_gt_cases k (length st)) as [Hle|Hgt].
    + rewrite reject_from_spec by lia. rewrite append_rejected_spec; rewrite length_app, length_take, length_replicate; [|lia].
      replace (k - (k `min` length st + (length st - k))) with 0 by lia. rewrite app_nil_r.
      do 2 f_equal. lia.
    + replace (length st - k) with 0 by lia. simpl. rewrite append_rejected_spec by lia.
      rewrite take_ge by lia. do 2 f_equal. lia.
Qed.

Lemma resolved_length n st : length (resolved n st) = Nat.max n (length st).
Proof. unfold resolved. rewrite length_app, length_take, length_replicate. lia. Qed.

Lemma deposit_Clone_idem dt : deposit_Clone (deposit_Clone dt) = deposit_Clone dt.
Proof. done. Qed.

Lemma batch_Clone_map b :
  batch_Clone b = mkBatch (tb_ID b) (deposit_Clone <$> tb_Deposits b) (tb_Statuses b).
Proof. unfold batch_Clone. by rewrite foldl_snoc. Qed.
