(* ===== verification/Interfaces.v ===== *)
(** * Interfaces between the relayer's components

    The Go interfaces the bridge executor is built on
    ([src/bridge/bridges/ethMultiversX/interface.go], [src/bridge/clients/interface.go],
    [core.StatusHandler] of [src/bridge/core/types.go]) as records of operations over an
    abstract world [X] (the chains, the network, the clients' own state), with the class of
    laws the executor's theorems rely on.  The methods listed are those the executor calls;
    the concrete clients of the later files implement them. *)
From S2P Require Import Prelude Go Batch.

Record MultiversXClient (X : Type) := {
  mx_GetPending : M X (res (option TransferBatch));
  mx_WasProposedTransfer : option TransferBatch -> M X (res bool);
  mx_QuorumReached : Z -> M X (res bool);
  mx_WasExecuted : Z -> M X (res bool);
  mx_GetActionIDForProposeTransfer : option TransferBatch -> M X (res Z);
  mx_WasProposedSetStatus : option TransferBatch -> M X (res bool);
  mx_GetActionIDForSetStatusOnPendingTransfer : option TransferBatch -> M X (res Z);
  mx_GetLastExecutedEthBatchID : M X (res Z);
  mx_GetLastExecutedEthTxID : M X (res Z);
  mx_ProposeSetStatus : option TransferBatch -> M X (res string);
  mx_ProposeTransfer : option TransferBatch -> M X (res string);
  mx_Sign : Z -> M X (res string);
  mx_WasSigned : Z -> M X (res bool);
  mx_PerformAction : Z -> option TransferBatch -> M X (res string);
  mx_CheckClientAvailability : M X (option error)
}.

Record EthereumClient (X : Type) := {
  eth_GetBatch : Z -> M X (res (option TransferBatch));
  eth_WasExecuted : Z -> M X (res bool);
  eth_GenerateMessageHash : option TransferBatch -> M X (res bytes);
  eth_BroadcastSignatureForMessageHash : bytes -> M X unit;
  eth_ExecuteTransfer : bytes -> option TransferBatch -> Z -> M X (res string);
  eth_GetTransactionsStatuses : Z -> M X (res bytes);
  eth_GetQuorumSize : M X (res Z);
  eth_IsQuorumReached : bytes -> M X (res bool);
  eth_CheckClientAvailability : M X (option error)
}.

Record TopologyProvider (X : Type) := { top_MyTurnAsLeader : M X bool }.

Record SignaturesHolder (X : Type) := {
  sig_Signatures : bytes -> M X (list bytes);
  sig_ClearStoredSignatures : M X unit
}.

Record BatchValidator (X : Type) := {
  val_ValidateBatch : option TransferBatch -> M X (res bool)
}.

Record StatusHandler (X : Type) := {
  sh_SetIntMetric : string -> Z -> M X unit;
  sh_AddIntMetric : string -> Z -> M X unit;
  sh_SetStringMetric : string -> string -> M X unit
}.

Arguments mx_GetPending {X} _.
Arguments mx_WasProposedTransfer {X} _ _.
Arguments mx_QuorumReached {X} _ _.
Arguments mx_WasExecuted {X} _ _.
Arguments mx_GetActionIDForProposeTransfer {X} _ _.
Arguments mx_WasProposedSetStatus {X} _ _.
Arguments mx_GetActionIDForSetStatusOnPendingTransfer {X} _ _.
Arguments mx_GetLastExecutedEthBatchID {X} _.
Arguments mx_GetLastExecutedEthTxID {X} _.
Arguments mx_ProposeSetStatus {X} _ _.
Arguments mx_ProposeTransfer {X} _ _.
Arguments mx_Sign {X} _ _.
Arguments mx_WasSigned {X} _ _.
Arguments mx_PerformAction {X} _ _ _.
Arguments mx_CheckClientAvailability {X} _.
Arguments eth_GetBatch {X} _ _.
Arguments eth_WasExecuted {X} _ _.
Arguments eth_GenerateMessageHash {X} _ _.
Arguments eth_BroadcastSignatureForMessageHash {X} _ _.
Arguments eth_ExecuteTransfer {X} _ _ _ _.
Arguments eth_GetTransactionsStatuses {X} _ _.
Arguments eth_GetQuorumSize {X} _.
Arguments eth_IsQuorumReached {X} _ _.
Arguments eth_CheckClientAvailability {X} _.
Arguments top_MyTurnAsLeader {X} _.
Arguments sig_Signatures {X} _ _.
Arguments sig_ClearStoredSignatures {X} _.
Arguments val_ValidateBatch {X} _ _.
Arguments sh_SetIntMetric {X} _ _ _.
Arguments sh_AddIntMetric {X} _ _ _.
Arguments sh_SetStringMetric {X} _ _ _.

(** ** Laws *)

(** Every deposit carries an amount: both clients allocate one for each deposit. *)
Definition amounts_set (b : TransferBatch) : Prop := Forall (fun d => is_Some (dt_Amount d)) (tb_Deposits b).

(** A batch a client hands out: the statuses of a batch in memory fit Go's [len], which is an [int]. *)
Definition go_batch (b : TransferBatch) : Prop :=
  (Z.of_nat (length (tb_Statuses b)) < two63)%Z /\ amounts_set b.

(** A fetch that succeeds yields a batch: both clients return a fresh [&TransferBatch]
    together with a nil error. *)
Definition fetched (r : res (option TransferBatch)) : Prop :=
  match r with
  | Ok None => False
  | Ok (Some b) => go_batch b
  | Err _ => True
  end.

Definition yields_batch {X} (c : M X (res (option TransferBatch))) : Prop :=
  forall x, wp c (fun r _ => fetched r) x.

(** A quorum that fits an [int64], as the executor relies on.  The contract does not enforce it. *)
Definition yields_quorum {X} (c : M X (res Z)) : Prop :=
  forall x, wp c (fun r _ => match r with Ok q => (0 <= q < two63)%Z | Err _ => True end) x.

Class MultiversXClientLaws {X} (c : MultiversXClient X) : Prop := {
  mx_pending_batch : yields_batch (mx_GetPending c);
  mx_total_WasProposedTransfer b : amounts_set b -> total (mx_WasProposedTransfer c (Some b));
  mx_total_QuorumReached a : total (mx_QuorumReached c a);
  mx_total_WasExecuted a : total (mx_WasExecuted c a);
  mx_total_GetActionIDForProposeTransfer b : amounts_set b -> total (mx_GetActionIDForProposeTransfer c (Some b));
  mx_total_WasProposedSetStatus b : amounts_set b -> total (mx_WasProposedSetStatus c (Some b));
  mx_total_GetActionIDForSetStatus b : amounts_set b -> total (mx_GetActionIDForSetStatusOnPendingTransfer c (Some b));
  mx_total_GetLastExecutedEthBatchID : total (mx_GetLastExecutedEthBatchID c);
  mx_total_GetLastExecutedEthTxID : total (mx_GetLastExecutedEthTxID c);
  mx_total_ProposeSetStatus b : amounts_set b -> total (mx_ProposeSetStatus c (Some b));
  mx_total_ProposeTransfer b : amounts_set b -> total (mx_ProposeTransfer c (Some b));
  mx_total_Sign a : total (mx_Sign c a);
  mx_total_WasSigned a : total (mx_WasSigned c a);
  mx_total_PerformAction a b : amounts_set b -> total (mx_PerformAction c a (Some b));
  mx_total_CheckClientAvailability : total (mx_CheckClientAvailability c)
}.

Class EthereumClientLaws {X} (c : EthereumClient X) : Prop := {
  eth_batch : forall n, yields_batch (eth_GetBatch c n);
  eth_total_WasExecuted b : total (eth_WasExecuted c b);
  eth_total_GenerateMessageHash b : amounts_set b -> total (eth_GenerateMessageHash c (Some b));
  eth_total_Broadcast h : total (eth_BroadcastSignatureForMessageHash c h);
  eth_total_ExecuteTransfer h b q : amounts_set b -> (0 <= q)%Z -> total (eth_ExecuteTransfer c h (Some b) q);
  eth_total_GetTransactionsStatuses b : total (eth_GetTransactionsStatuses c b);
  eth_quorum : yields_quorum (eth_GetQuorumSize c);
  eth_total_IsQuorumReached h : total (eth_IsQuorumReached c h);
  eth_total_CheckClientAvailability : total (eth_CheckClientAvailability c)
}.

Class StatusHandlerLaws {X} (c : StatusHandler X) : Prop := {
  sh_total_SetIntMetric k v : total (sh_SetIntMetric c k v);
  sh_total_AddIntMetric k v : total (sh_AddIntMetric c k v);
  sh_total_SetStringMetric k v : total (sh_SetStringMetric c k v)
}.

Lemma yields_batch_total {X} (c : M X (res (option TransferBatch))) : yields_batch c -> total c.
Proof. intros H x. eapply wp_mono; [apply H|done]. Qed.

Lemma yields_quorum_total {X} (c : M X (res Z)) : yields_quorum c -> total c.
Proof. intros H x. eapply wp_mono; [apply H|done]. Qed.

#[export] Hint Resolve mx_total_WasProposedTransfer mx_total_QuorumReached mx_total_WasExecuted
  mx_total_GetActionIDForProposeTransfer mx_total_WasProposedSetStatus mx_total_GetActionIDForSetStatus
  mx_total_GetLastExecutedEthBatchID mx_total_GetLastExecutedEthTxID mx_total_ProposeSetStatus
  mx_total_ProposeTransfer mx_total_Sign mx_total_WasSigned mx_total_PerformAction
  mx_total_CheckClientAvailability eth_total_WasExecuted eth_total_GenerateMessageHash
  eth_total_Broadcast eth_total_ExecuteTransfer eth_total_GetTransactionsStatuses
  eth_total_IsQuorumReached eth_total_CheckClientAvailability
  sh_total_SetIntMetric sh_total_AddIntMetric sh_total_SetStringMetric : total.
