(* ===== verification/Executor.v ===== *)
(** * The bridge executor

    Models [src/bridge/bridges/ethMultiversX/bridgeExecutor.go] (with [constants.go],
    [converters.go] and [errors.go] of the same package).  [executorDeps] is the
    immutable part of the Go struct, [execState] its mutable fields together with the
    world the injected components act on.  Log output has no effect in the model;
    [PrintInfo] keeps its effect on the status handler.  The select between the context
    and the timer is the operation [xd_select] of the world: it tells which branch fired. *)
From S2P Require Import Prelude Go Batch Interfaces.
Open Scope go_scope.

(** ** Constants and sentinels *)

Definition InvalidActionID : Z := 0.
Definition durationLimit : Z := 1000000000.
Definition splits : nat := 10.
Definition minRetries : Z := 1.

Definition MetricNumBatches : string := "num batches".
Definition MetricLastError : string := "last encountered error".

Definition ErrNilBatch := ErrNew "ethmultiversx.ErrNilBatch" "nil batch".
Definition ErrInvalidDepositNonce := ErrNew "ethmultiversx.ErrInvalidDepositNonce" "invalid deposit nonce".
Definition ErrNilLogger := ErrNew "ethmultiversx.ErrNilLogger" "nil logger".
Definition ErrNilMultiversXClient := ErrNew "ethmultiversx.ErrNilMultiversXClient" "nil MultiversX client".
Definition ErrNilEthereumClient := ErrNew "ethmultiversx.ErrNilEthereumClient" "nil Ethereum client".
Definition ErrNilTopologyProvider := ErrNew "ethmultiversx.ErrNilTopologyProvider" "nil topology provider".
Definition ErrInvalidDuration := ErrNew "ethmultiversx.ErrInvalidDuration" "invalid duration".
Definition ErrNilExecutor := ErrNew "ethmultiversx.ErrNilExecutor" "nil bridge executor".
Definition ErrDuplicatedStepIdentifier :=
  ErrNew "ethmultiversx.ErrDuplicatedStepIdentifier" "duplicated step identifier used in multiple steps".
Definition ErrNilStatusHandler := ErrNew "ethmultiversx.ErrNilStatusHandler" "nil status handler".
Definition ErrBatchNotFound := ErrNew "ethmultiversx.ErrBatchNotFound" "batch not found".
Definition ErrNilSignaturesHolder := ErrNew "ethmultiversx.ErrNilSignaturesHolder" "nil signatures holder".
Definition ErrNilBatchValidator := ErrNew "ethmultiversx.ErrNilBatchValidator" "nil batch validator".
Definition clients_ErrInvalidValue := ErrNew "clients.ErrInvalidValue" "invalid value".

Inductive LogLevel := LogTrace | LogDebug | LogInfo | LogWarning | LogError | LogNone.

Inductive logarg :=
  | LVal (g : gval)
  | LErr (e : error).

Coercion LErr : error >-> logarg.
Coercion LVal : gval >-> logarg.

Definition convertObjectToString (a : logarg) : string :=
  match a with
  | LVal (GBytes l) => hex_encode l
  | LVal g => fmt_v g
  | LErr e => error_text e
  end.

(** ** The structure *)

Record executorDeps (X : Type) := {
  topologyProvider : TopologyProvider X;
  multiversXClient : MultiversXClient X;
  ethereumClient : EthereumClient X;
  timeForWaitOnEthereum : Z;
  statusHandler : StatusHandler X;
  sigsHolder : SignaturesHolder X;
  batchValidator : BatchValidator X;
  maxQuorumRetriesOnEthereum : Z;
  maxQuorumRetriesOnMultiversX : Z;
  maxRetriesOnWasProposed : Z;
  level_String : LogLevel -> string;
  xd_select : Z -> M X bool
}.

Record execState (X : Type) := mkExec {
  batch : option TransferBatch;
  actionID : Z;
  msgHash : bytes;
  quorumRetriesOnEthereum : Z;
  quorumRetriesOnMultiversX : Z;
  retriesOnWasProposed : Z;
  world : X
}.

Arguments topologyProvider {X} _.
Arguments multiversXClient {X} _.
Arguments ethereumClient {X} _.
Arguments timeForWaitOnEthereum {X} _.
Arguments statusHandler {X} _.
Arguments sigsHolder {X} _.
Arguments batchValidator {X} _.
Arguments maxQuorumRetriesOnEthereum {X} _.
Arguments maxQuorumRetriesOnMultiversX {X} _.
Arguments maxRetriesOnWasProposed {X} _.
Arguments level_String {X} _ _.
Arguments xd_select {X} _ _.
Arguments mkExec {X} _ _ _ _ _ _ _.
Arguments batch {X} _.
Arguments actionID {X} _.
Arguments msgHash {X} _.
Arguments quorumRetriesOnEthereum {X} _.
Arguments quorumRetriesOnMultiversX {X} _.
Arguments retriesOnWasProposed {X} _.
Arguments world {X} _.

Section Setters.
Context {X : Type}.
Implicit Type s : execState X.

Definition set_batch (b : option TransferBatch) s :=
  mkExec b (actionID s) (msgHash s) (quorumRetriesOnEthereum s) (quorumRetriesOnMultiversX s) (retriesOnWasProposed s) (world s).
Definition set_actionID (a : Z) s :=
  mkExec (batch s) a (msgHash s) (quorumRetriesOnEthereum s) (quorumRetriesOnMultiversX s) (retriesOnWasProposed s) (world s).
Definition set_msgHash (h : bytes) s :=
  mkExec (batch s) (actionID s) h (quorumRetriesOnEthereum s) (quorumRetriesOnMultiversX s) (retriesOnWasProposed s) (world s).
Definition set_qEth (n : Z) s :=
  mkExec (batch s) (actionID s) (msgHash s) n (quorumRetriesOnMultiversX s) (retriesOnWasProposed s) (world s).
Definition set_qMvx (n : Z) s :=
  mkExec (batch s) (actionID s) (msgHash s) (quorumRetriesOnEthereum s) n (retriesOnWasProposed s) (world s).
Definition set_wasProposed (n : Z) s :=
  mkExec (batch s) (actionID s) (msgHash s) (quorumRetriesOnEthereum s) (quorumRetriesOnMultiversX s) n (world s).
Definition set_world (w : X) s :=
  mkExec (batch s) (actionID s) (msgHash s) (quorumRetriesOnEthereum s) (quorumRetriesOnMultiversX s) (retriesOnWasProposed s) w.
End Setters.

(** ** Construction *)

Record ArgsBridgeExecutor (X : Type) := {
  Args_Log : bool;
  Args_TopologyProvider : option (TopologyProvider X);
  Args_MultiversXClient : option (MultiversXClient X);
  Args_EthereumClient : option (EthereumClient X);
  Args_TimeForWaitOnEthereum : Z;
  Args_StatusHandler : option (StatusHandler X);
  Args_SignaturesHolder : option (SignaturesHolder X);
  Args_BatchValidator : option (BatchValidator X);
  Args_MaxQuorumRetriesOnEthereum : Z;
  Args_MaxQuorumRetriesOnMultiversX : Z;
  Args_MaxRestriesOnWasProposed : Z
}.
Arguments Args_Log {X} _.
Arguments Args_TopologyProvider {X} _.
Arguments Args_MultiversXClient {X} _.
Arguments Args_EthereumClient {X} _.
Arguments Args_TimeForWaitOnEthereum {X} _.
Arguments Args_StatusHandler {X} _.
Arguments Args_SignaturesHolder {X} _.
Arguments Args_BatchValidator {X} _.
Arguments Args_MaxQuorumRetriesOnEthereum {X} _.
Arguments Args_MaxQuorumRetriesOnMultiversX {X} _.
Arguments Args_MaxRestriesOnWasProposed {X} _.

Definition invalid_retries (format : string) (got : Z) : error :=
  Errorf format clients_ErrInvalidValue [GInt got; GInt minRetries].

(** The checks in the order of the source; [Args_Log] says whether a logger was given. *)
Definition checkArgs {X} (args : ArgsBridgeExecutor X) : option error :=
  if negb (Args_Log args) then Some ErrNilLogger
  else if bool_decide (is_Some (Args_MultiversXClient args)) then
  if bool_decide (is_Some (Args_EthereumClient args)) then
  if bool_decide (is_Some (Args_TopologyProvider args)) then
  if bool_decide (is_Some (Args_StatusHandler args)) then
  if (Args_TimeForWaitOnEthereum args <? durationLimit)%Z then Some ErrInvalidDuration
  else if bool_decide (is_Some (Args_SignaturesHolder args)) then
  if bool_decide (is_Some (Args_BatchValidator args)) then
  if (Args_MaxQuorumRetriesOnEthereum args <? minRetries)%Z then
    Some (invalid_retries "%w for args.MaxQuorumRetriesOnEthereum, got: %d, minimum: %d" (Args_MaxQuorumRetriesOnEthereum args))
  else if (Args_MaxQuorumRetriesOnMultiversX args <? minRetries)%Z then
    Some (invalid_retries "%w for args.MaxQuorumRetriesOnMultiversX, got: %d, minimum: %d" (Args_MaxQuorumRetriesOnMultiversX args))
  else if (Args_MaxRestriesOnWasProposed args <? minRetries)%Z then
    Some (invalid_retries "%w for args.MaxRestriesOnWasProposed, got: %d, minimum: %d" (Args_MaxRestriesOnWasProposed args))
  else None
  else Some ErrNilBatchValidator
  else Some ErrNilSignaturesHolder
  else Some ErrNilStatusHandler
  else Some ErrNilTopologyProvider
  else Some ErrNilEthereumClient
  else Some ErrNilMultiversXClient.

(** [createBridgeExecutor]; [None] when an injected component is nil, which
    [checkArgs] has excluded.  [lv] and [sel] stand for the logger's level names and
    the runtime's select. *)
Definition createBridgeExecutor {X} (lv : LogLevel -> string) (sel : Z -> M X bool)
    (args : ArgsBridgeExecutor X) : option (executorDeps X) :=
  tp ← Args_TopologyProvider args;
  mx ← Args_MultiversXClient args;
  eth ← Args_EthereumClient args;
  sh ← Args_StatusHandler args;
  sg ← Args_SignaturesHolder args;
  bv ← Args_BatchValidator args;
  Some {| topologyProvider := tp; multiversXClient := mx; ethereumClient := eth;
          timeForWaitOnEthereum := Args_TimeForWaitOnEthereum args; statusHandler := sh;
          sigsHolder := sg; batchValidator := bv;
          maxQuorumRetriesOnEthereum := Args_MaxQuorumRetriesOnEthereum args;
          maxQuorumRetriesOnMultiversX := Args_MaxQuorumRetriesOnMultiversX args;
          maxRetriesOnWasProposed := Args_MaxRestriesOnWasProposed args;
          level_String := lv; xd_select := sel |}.

(** The zero values of the mutable fields; [common.Hash] is 32 zero bytes. *)
Definition initExec {X} (w : X) : execState X :=
  mkExec None 0 (replicate 32 Byte.x00) 0 0 0 w.

Definition NewBridgeExecutor {X} (lv : LogLevel -> string) (sel : Z -> M X bool)
    (args : ArgsBridgeExecutor X) : res (option (executorDeps X)) :=
  match checkArgs args with
  | Some e => Err e
  | None => Ok (createBridgeExecutor lv sel args)
  end.

(** ** Methods *)

Section Executor.
Context {X : Type} (E : executorDeps X).
Abbreviation St := (execState X).

(** A call on an injected component. *)
Definition ext {A} (c : M X A) : M St A := zoom world set_world c.

Fixpoint pairs_text (extras : list logarg) : string :=
  match extras with
  | k :: v :: rest =>
      sprintf " %s = %s" [GStr (convertObjectToString k); GStr (convertObjectToString v)] +:+ pairs_text rest
  | _ => ""
  end.

Definition setExecutionMessageInStatusHandler (level : LogLevel) (message : string)
    (extras : list logarg) : M St unit :=
  let msg := sprintf "%s: %s" [GStr (level_String E level); GStr message] +:+ pairs_text extras in
  ext (sh_SetStringMetric (statusHandler E) MetricLastError msg).

Definition PrintInfo (level : LogLevel) (message : string) (extras : list logarg) : M St unit :=
  match level with
  | LogWarning | LogError => setExecutionMessageInStatusHandler level message extras
  | _ => mret tt
  end.

(** [if err != nil { ... }] without a return. *)
Definition when_err (e : option error) (k : error -> M St unit) : M St unit :=
  match e with Some e => k e | None => mret tt end.

Definition MyTurnAsLeader : M St bool := ext (top_MyTurnAsLeader (topologyProvider E)).

(** On success the batch pointer is dereferenced for the metric. *)
Definition GetBatchFromMultiversX : M St (res (option TransferBatch)) :=
  r ← ext (mx_GetPending (multiversXClient E));
  match r with
  | Ok p =>
      b ← deref p;
      ext (sh_SetIntMetric (statusHandler E) MetricNumBatches (i64 (i64 (tb_ID b) - 1)));;
      mret (Ok p)
  | Err e => mret (Err e)
  end.

Definition StoreBatchFromMultiversX (b : option TransferBatch) : M St (option error) :=
  match b with
  | None => mret (Some ErrNilBatch)
  | Some _ => modify (set_batch b);; mret None
  end.

Definition GetStoredBatch : M St (option TransferBatch) := gets batch.

Definition GetLastExecutedEthBatchIDFromMultiversX : M St (res Z) :=
  r ← ext (mx_GetLastExecutedEthBatchID (multiversXClient E));
  match r with
  | Ok batchID => ext (sh_SetIntMetric (statusHandler E) MetricNumBatches (i64 batchID));; mret (Ok batchID)
  | Err e => mret (Err e)
  end.

(** [verifyDepositNonces]: the deposits must carry the nonces that follow [startNonce - 1]. *)
Fixpoint verifyDepositNonces_loop (startNonce : Z) (dts : list DepositTransfer) : option error :=
  match dts with
  | [] => None
  | dt :: rest =>
      if (dt_Nonce dt =? startNonce)%Z then verifyDepositNonces_loop (startNonce +u 1) rest
      else Some (Errorf "%w for deposit %s, expected: %d" ErrInvalidDepositNonce
                   [GStr (deposit_String dt); GInt startNonce])
  end.

Definition verifyDepositNonces (b : TransferBatch) (lastNonce : Z) : option error :=
  verifyDepositNonces_loop (lastNonce +u 1) (tb_Deposits b).

Definition VerifyLastDepositNonceExecutedOnEthereumBatch : M St (option error) :=
  ob ← gets batch;
  match ob with
  | None => mret (Some ErrNilBatch)
  | Some b =>
      r ← ext (mx_GetLastExecutedEthTxID (multiversXClient E));
      match r with
      | Err e => mret (Some e)
      | Ok lastNonce => mret (verifyDepositNonces b lastNonce)
      end
  end.

Definition GetAndStoreActionIDForProposeTransferOnMultiversX : M St (res Z) :=
  ob ← gets batch;
  match ob with
  | None => mret (Err ErrNilBatch)
  | Some b =>
      aid <?- ext (mx_GetActionIDForProposeTransfer (multiversXClient E) (Some b));
      modify (set_actionID aid);;
      mret (Ok aid)
  end.

Definition GetAndStoreActionIDForProposeSetStatusFromMultiversX : M St (res Z) :=
  ob ← gets batch;
  match ob with
  | None => mret (Err ErrNilBatch)
  | Some b =>
      aid <?- ext (mx_GetActionIDForSetStatusOnPendingTransfer (multiversXClient E) (Some b));
      modify (set_actionID aid);;
      mret (Ok aid)
  end.

Definition GetStoredActionID : M St Z := gets actionID.

Definition WasTransferProposedOnMultiversX : M St (res bool) :=
  ob ← gets batch;
  match ob with
  | None => mret (Err ErrNilBatch)
  | Some b => ext (mx_WasProposedTransfer (multiversXClient E) (Some b))
  end.

Definition ProposeTransferOnMultiversX : M St (option error) :=
  ob ← gets batch;
  match ob with
  | None => mret (Some ErrNilBatch)
  | Some b => r ← ext (mx_ProposeTransfer (multiversXClient E) (Some b)); mret (err_of r)
  end.

Definition ProcessMaxRetriesOnWasTransferProposedOnMultiversX : M St bool :=
  n ← gets retriesOnWasProposed;
  if (n <? maxRetriesOnWasProposed E)%Z
  then modify (set_wasProposed (n +u 1));; mret false
  else mret true.

Definition ResetRetriesOnWasTransferProposedOnMultiversX : M St unit := modify (set_wasProposed 0).

Definition WasSetStatusProposedOnMultiversX : M St (res bool) :=
  ob ← gets batch;
  match ob with
  | None => mret (Err ErrNilBatch)
  | Some b => ext (mx_WasProposedSetStatus (multiversXClient E) (Some b))
  end.

Definition ProposeSetStatusOnMultiversX : M St (option error) :=
  ob ← gets batch;
  match ob with
  | None => mret (Some ErrNilBatch)
  | Some b => r ← ext (mx_ProposeSetStatus (multiversXClient E) (Some b)); mret (err_of r)
  end.

Definition WasActionSignedOnMultiversX : M St (res bool) :=
  aid ← gets actionID; ext (mx_WasSigned (multiversXClient E) aid).

Definition SignActionOnMultiversX : M St (option error) :=
  aid ← gets actionID;
  r ← ext (mx_Sign (multiversXClient E) aid); mret (err_of r).

Definition ProcessQuorumReachedOnMultiversX : M St (res bool) :=
  aid ← gets actionID; ext (mx_QuorumReached (multiversXClient E) aid).

Definition WasTransferPerformedOnEthereum : M St (res bool) :=
  ob ← gets batch;
  match ob with
  | None => mret (Err ErrNilBatch)
  | Some b => ext (eth_WasExecuted (ethereumClient E) (tb_ID b))
  end.

(** True when the timer fired, false when the context ended first. *)
Definition waitWithContextSucceeded : M St bool :=
  ext (xd_select E (timeForWaitOnEthereum E `quot` Z.of_nat splits)%Z).

Fixpoint waitConfirmation_loop (n : nat) : M St unit :=
  match n with
  | O => mret tt
  | S k =>
      ok ← waitWithContextSucceeded;
      wasPerformed ←
        (if (ok : bool) then r ← WasTransferPerformedOnEthereum; mret (match r with Ok b => b | Err _ => false end)
         else mret false);
      if (wasPerformed : bool) then mret tt else waitConfirmation_loop k
  end.

Definition WaitForTransferConfirmation : M St unit := waitConfirmation_loop splits.

Definition GetBatchStatusesFromEthereum : M St (res bytes) :=
  ob ← gets batch;
  match ob with
  | None => mret (Err ErrNilBatch)
  | Some b => ext (eth_GetTransactionsStatuses (ethereumClient E) (tb_ID b))
  end.

Fixpoint waitStatuses_loop (n : nat) : M St bytes :=
  match n with
  | O => mret []
  | S k =>
      ok ← waitWithContextSucceeded;
      if negb ok then mret []
      else
        r ← GetBatchStatusesFromEthereum;
        match r with
        | Err _ => waitStatuses_loop k
        | Ok [] => waitStatuses_loop k
        | Ok statuses => mret statuses
        end
  end.

Definition WaitAndReturnFinalBatchStatuses : M St bytes := waitStatuses_loop splits.

Definition WasActionPerformedOnMultiversX : M St (res bool) :=
  aid ← gets actionID; ext (mx_WasExecuted (multiversXClient E) aid).

Definition PerformActionOnMultiversX : M St (option error) :=
  ob ← gets batch;
  match ob with
  | None => mret (Some ErrNilBatch)
  | Some b =>
      aid ← gets actionID;
      r ← ext (mx_PerformAction (multiversXClient E) aid (Some b)); mret (err_of r)
  end.

(** Calls a method on the stored pointer: a nil batch panics. *)
Definition ResolveNewDepositsStatuses (numDeposits : Z) : M St unit :=
  ob ← gets batch;
  b ← deref ob;
  match ResolveNewDeposits (i64 numDeposits) b with
  | Ret b' => modify (set_batch (Some b'))
  | Panic p => panics p
  end.

Definition ProcessMaxQuorumRetriesOnMultiversX : M St bool :=
  n ← gets quorumRetriesOnMultiversX;
  if (n <? maxQuorumRetriesOnMultiversX E)%Z
  then modify (set_qMvx (n +u 1));; mret false
  else mret true.

Definition ResetRetriesCountOnMultiversX : M St unit := modify (set_qMvx 0).

Definition GetAndStoreBatchFromEthereum (nonce : Z) : M St (option error) :=
  r ← ext (eth_GetBatch (ethereumClient E) nonce);
  match r with
  | Err e => mret (Some e)
  | Ok p =>
      b ← deref p;
      if negb (tb_ID b =? nonce)%Z || (Nat.eqb (length (tb_Deposits b)) 0)
      then mret (Some (Errorf "%w, requested nonce: %d, fetched nonce: %d, num deposits: %d" ErrBatchNotFound
                         [GInt nonce; GInt (tb_ID b); GInt (Z.of_nat (length (tb_Deposits b)))]))
      else modify (set_batch (Some b));; mret None
  end.

Definition SignTransferOnEthereum : M St (option error) :=
  ob ← gets batch;
  match ob with
  | None => mret (Some ErrNilBatch)
  | Some b =>
      r ← ext (eth_GenerateMessageHash (ethereumClient E) (Some b));
      match r with
      | Err e => mret (Some e)
      | Ok hash =>
          modify (set_msgHash hash);;
          ext (eth_BroadcastSignatureForMessageHash (ethereumClient E) hash);;
          mret None
      end
  end.

Definition PerformTransferOnEthereum : M St (option error) :=
  ob ← gets batch;
  match ob with
  | None => mret (Some ErrNilBatch)
  | Some b =>
      r ← ext (eth_GetQuorumSize (ethereumClient E));
      match r with
      | Err e => mret (Some e)
      | Ok quorumSize =>
          h ← gets msgHash;
          r' ← ext (eth_ExecuteTransfer (ethereumClient E) h (Some b) (i64 quorumSize));
          mret (err_of r')
      end
  end.

Definition ProcessQuorumReachedOnEthereum : M St (res bool) :=
  h ← gets msgHash; ext (eth_IsQuorumReached (ethereumClient E) h).

Definition ProcessMaxQuorumRetriesOnEthereum : M St bool :=
  n ← gets quorumRetriesOnEthereum;
  if (n <? maxQuorumRetriesOnEthereum E)%Z
  then modify (set_qEth (n +u 1));; mret false
  else mret true.

Definition ResetRetriesCountOnEthereum : M St unit := modify (set_qEth 0).

Definition ClearStoredP2PSignaturesForEthereum : M St unit :=
  ext (sig_ClearStoredSignatures (sigsHolder E)).

Definition ValidateBatch (b : option TransferBatch) : M St (res bool) :=
  ext (val_ValidateBatch (batchValidator E) b).

Definition CheckMultiversXClientAvailability : M St (option error) :=
  ext (mx_CheckClientAvailability (multiversXClient E)).

Definition CheckEthereumClientAvailability : M St (option error) :=
  ext (eth_CheckClientAvailability (ethereumClient E)).

End Executor.

(** ** Deposit nonces and retry counters *)

(** The nonces are [start], [start + 1], ... in [uint64] arithmetic. *)
Definition consecutive (start : Z) (nonces : list Z) : Prop :=
  forall i n, nonces !! i = Some n -> n = u64 (start + Z.of_nat i).

Lemma consecutive_cons start n ns :
  consecutive start (n :: ns) <-> n = u64 start /\ consecutive (start + 1) ns.
Proof.
  unfold consecutive. split.
  - intros H. split; [by rewrite (H 0%nat n eq_refl), Z.add_0_r|].
    intros i m Hi. rewrite (H (S i) m Hi). f_equal. lia.
  - intros [-> H] [|i] m Hi; simpl in Hi.
    + injection Hi as <-. by rewrite Z.add_0_r.
    + rewrite (H _ _ Hi). f_equal. lia.
Qed.

Lemma verifyDepositNonces_loop_spec start dts :
  verifyDepositNonces_loop (u64 start) dts = None <-> consecutive start (dt_Nonce <$> dts).
Proof.
  revert start. induction dts as [|dt dts IH]; intros start; simpl.
  - split; [|done]. intros _ i n Hi. by rewrite lookup_nil in Hi.
  - rewrite consecutive_cons, <-IH. destruct (Z.eqb_spec (dt_Nonce dt) (u64 start)) as [->|Hne].
    + rewrite u64_add_idemp_l. tauto.
    + split; [done|]. intros [? _]. done.
Qed.

Lemma verifyDepositNonces_spec b last :
  verifyDepositNonces b last = None <-> consecutive (last + 1) (dt_Nonce <$> tb_Deposits b).
Proof. apply verifyDepositNonces_loop_spec. Qed.

Lemma verifyDepositNonces_loop_error start dts e :
  verifyDepositNonces_loop start dts = Some e -> errors_Is e ErrInvalidDepositNonce = true.
Proof.
  revert start. induction dts as [|dt dts IH]; intros start; simpl; [done|].
  case_match; [apply IH|]. intros [= <-]. done.
Qed.

(** A bounded [uint64] counter that is below its limit does not wrap when incremented. *)
Lemma u64_incr n max : is_u64 max -> (0 <= n < max)%Z -> u64 (n + 1) = (n + 1)%Z.
Proof. intros [_ H] ?. apply u64_small. unfold is_u64. lia. Qed.
