(* ===== verification/StateMachine.v ===== *)
(** * The state machine

    Models [src/bridge/stateMachine/stateMachine.go] and the [Step]/[MachineStates] types of
    [src/bridge/core/types.go].  A step is a computation over the state [S] its executor acts
    on; the machine keeps the current step (a Go interface value, nil after a failed lookup)
    next to that state.  [run] iterates [Execute] the way the polling handler does, and
    [reachable] is the set of states such iterations lead to. *)
From S2P Require Import Prelude Go.

Record Step (S : Type) := mkStep {
  Execute : M S string;
  Identifier : string
}.
Arguments mkStep {S} _ _.
Arguments Execute {S} _.
Arguments Identifier {S} _.

Definition ErrNilStepsMap := ErrNew "stateMachine.ErrNilStepsMap" "nil steps map".
Definition ErrNilStep := ErrNew "stateMachine.ErrNilStep" "nil step".
Definition ErrStepNotFound := ErrNew "stateMachine.ErrStepNotFound" "step not found".
Definition sm_ErrNilLogger := ErrNew "stateMachine.ErrNilLogger" "nil logger".
Definition sm_ErrNilStatusHandler := ErrNew "stateMachine.ErrNilStatusHandler" "nil status handler".

Definition MetricCurrentStateMachineStep : string := "current state machine step".

(** The mutable part of the machine. *)
Record smState (S : Type) := mkSm {
  currentStep : option (Step S);
  inner : S
}.
Arguments mkSm {S} _ _.
Arguments currentStep {S} _.
Arguments inner {S} _.

(** The constructor's arguments: a nil map is [None], a nil step in the map is a [None] entry;
    [Sm_StatusHandler] is the status handler's [SetStringMetric]. *)
Record ArgsStateMachine (S : Type) := {
  Sm_Steps : option (gmap string (option (Step S)));
  Sm_StartStateIdentifier : string;
  Sm_Log : bool;
  Sm_StatusHandler : option (string -> string -> M S unit)
}.
Arguments Sm_Steps {S} _.
Arguments Sm_StartStateIdentifier {S} _.
Arguments Sm_Log {S} _.
Arguments Sm_StatusHandler {S} _.

Section StateMachine.
Context {S : Type}.
Implicit Type steps : gmap string (Step S).

Definition getNextStep steps (identifier : string) : res (Step S) :=
  match steps !! identifier with
  | Some s => Ok s
  | None => Err (Errorf "%w for identifier '%s'" ErrStepNotFound [GStr identifier])
  end.

(** The scan for nil steps; Go's map order decides which of several is reported. *)
Fixpoint find_nil_step (l : list (string * option (Step S))) : option string :=
  match l with
  | [] => None
  | (id, None) :: _ => Some id
  | (_, Some _) :: l' => find_nil_step l'
  end.

Definition sm_checkArgs (args : ArgsStateMachine S) : option error :=
  match Sm_Steps args with
  | None => Some ErrNilStepsMap
  | Some m =>
      match find_nil_step (map_to_list m) with
      | Some id => Some (Errorf "%w for identifier %s" ErrNilStep [GStr id])
      | None =>
          if negb (Sm_Log args) then Some sm_ErrNilLogger
          else match Sm_StatusHandler args with
               | None => Some sm_ErrNilStatusHandler
               | Some _ => None
               end
      end
  end.

(** The steps map once [sm_checkArgs] has passed. *)
Definition steps_of (args : ArgsStateMachine S) : gmap string (Step S) := omap id (default ∅ (Sm_Steps args)).

Definition NewStateMachine (args : ArgsStateMachine S) (s : S) : res (smState S) :=
  match sm_checkArgs args with
  | Some e => Err e
  | None => res_map (fun st => mkSm (Some st) s) (getNextStep (steps_of args) (Sm_StartStateIdentifier args))
  end.

(** One turn of the registration loop both step factories run: an identifier that is
    already taken is an error. *)
Definition addStep (dup : error) (machineStates : gmap string (Step S)) (s : Step S)
    : gmap string (Step S) + error :=
  match machineStates !! Identifier s with
  | Some _ => inr (Errorf "%w for identifier '%s'" dup [GStr (Identifier s)])
  | None => inl (<[Identifier s := s]> machineStates)
  end.

Lemma addStep_loop dup (l : list (Step S)) m :
  NoDup (Identifier <$> l) -> (forall s, s ∈ l -> m !! Identifier s = None) ->
  range_loop (addStep dup) m l = inl (list_to_map ((fun s => (Identifier s, s)) <$> l) ∪ m).
Proof.
  revert m. induction l as [|s l IH]; intros m Hnd Hfree; simpl.
  - by rewrite map_empty_union.
  - apply NoDup_cons in Hnd as [Hs Hnd]. unfold addStep at 1.
    rewrite Hfree by set_solver. rewrite IH; [|done|].
    + f_equal. rewrite <-insert_union_r; [by rewrite insert_union_l|].
      apply not_elem_of_list_to_map_1. rewrite <-list_fmap_compose. simpl. done.
    + intros s' Hs'. rewrite lookup_insert_ne; [apply Hfree; set_solver|].
      intros Heq. apply Hs. rewrite Heq. by apply list_elem_of_fmap_2.
Qed.

(** The map the factories build holds exactly the listed steps, each under its identifier. *)
Lemma addStep_lookup dup (l : list (Step S)) m id st :
  NoDup (Identifier <$> l) -> range_loop (addStep dup) ∅ l = inl m ->
  m !! id = Some st <-> st ∈ l /\ Identifier st = id.
Proof.
  intros Hnd Hm. rewrite addStep_loop in Hm by (done || set_solver).
  injection Hm as <-. rewrite map_union_empty, <-elem_of_list_to_map.
  - rewrite list_elem_of_fmap. naive_solver.
  - by rewrite <-list_fmap_compose.
Qed.

Context (setStringMetric : string -> string -> M S unit).

Definition on_inner {A} (c : M S A) : M (smState S) A :=
  zoom inner (fun x m => mkSm (currentStep m) x) c.

Definition executeStep steps : M (smState S) (option error) :=
  cur ← gets currentStep;
  st ← deref cur;
  on_inner (setStringMetric MetricCurrentStateMachineStep (Identifier st));;
  nextStepIdentifier ← on_inner (Execute st);
  match getNextStep steps nextStepIdentifier with
  | Ok st' => modify (fun m => mkSm (Some st') (inner m));; mret None
  | Err e => modify (fun m => mkSm None (inner m));; mret (Some e)
  end.

Definition sm_Execute steps : M (smState S) (option error) := executeStep steps.

(** [n] successive calls of [Execute]; the errors are collected. *)
Fixpoint run steps (n : nat) : M (smState S) (list error) :=
  match n with
  | O => mret []
  | Datatypes.S k =>
      e ← sm_Execute steps;
      es ← run steps k;
      mret (match e with Some e => e :: es | None => es end)
  end.

(** One call of [Execute] that returned without an error. *)
Inductive sm_step steps : relation (smState S) :=
  | SmStep m m' : sm_Execute steps m = (Ret None, m') -> sm_step steps m m'.

Definition reachable steps (m0 m : smState S) : Prop := rtc (sm_step steps) m0 m.

(** ** Lemmas *)

Definition step_in steps (m : smState S) (id : string) (st : Step S) : Prop :=
  currentStep m = Some st /\ steps !! id = Some st.

Hypothesis metric_total : forall k v, total (setStringMetric k v).

(** An invariant of the machine, indexed by the identifier of the current step: every step
    taken from it re-establishes it at the step it names, and that step is in the map. *)
Definition step_invariant steps (I : string -> S -> Prop) : Prop :=
  forall id st s, steps !! id = Some st -> I id s ->
    wp (setStringMetric MetricCurrentStateMachineStep (Identifier st);; Execute st)
       (fun next s' => is_Some (steps !! next) /\ I next s') s.

Definition sm_inv steps (I : string -> S -> Prop) (m : smState S) : Prop :=
  exists id st, step_in steps m id st /\ I id (inner m).

Lemma sm_Execute_inv steps I m :
  step_invariant steps I -> sm_inv steps I m ->
  wp (sm_Execute steps) (fun e m' => e = None /\ sm_inv steps I m') m.
Proof.
  intros Hstep (id & st & [Hcur Hin] & HI).
  specialize (Hstep id st (inner m) Hin HI). apply wp_bind_inv in Hstep.
  unfold sm_Execute, executeStep. wp_run. rewrite Hcur. cbn [deref].
  wp_run. unfold on_inner at 1. wp_run.
  eapply wp_mono; [exact Hstep|]. intros [] s1 H1. cbn beta in *.
  apply wp_bind. unfold on_inner. apply wp_zoom.
  eapply wp_mono; [exact H1|]. intros next s2 [[st' Hst'] HI']. cbn beta in *.
  unfold getNextStep. rewrite Hst'. wp_run. split; [done|].
  exists next, st'. split; [split|]; done.
Qed.

Lemma run_inv steps I n m :
  step_invariant steps I -> sm_inv steps I m ->
  wp (run steps n) (fun es m' => es = [] /\ sm_inv steps I m') m.
Proof.
  intros Hstep. revert m. induction n as [|n IH]; intros m Hm; [done|].
  simpl. wp_step. eapply wp_mono; [by apply sm_Execute_inv|].
  intros e m1 [-> Hm1]. cbn beta. wp_step. eapply wp_mono; [by apply IH|].
  intros es m2 [-> Hm2]. done.
Qed.

Lemma reachable_inv steps I m m' :
  step_invariant steps I -> reachable steps m m' -> sm_inv steps I m -> sm_inv steps I m'.
Proof.
  intros Hstep. induction 1 as [|m1 m2 m3 H _ IH]; [done|]. intros Hm. apply IH.
  destruct H as [? ? Hex]. pose proof (sm_Execute_inv _ _ _ Hstep Hm) as Hwp.
  unfold wp in Hwp. rewrite Hex in Hwp. tauto.
Qed.

End StateMachine.
