(* ===== verification/StepsEthToMvx.v ===== *)
(** * The Ethereum -> MultiversX half-bridge

    Models [src/bridge/bridges/ethMultiversX/steps/ethToMultiversX]: the five steps and
    their factory. *)
From S2P Require Import Prelude Go Batch Interfaces Executor StateMachine.
Open Scope go_scope.

Module EthToMvx.

Definition GettingPendingBatchFromEthereum : string := "get pending batch from Ethereum".
Definition ProposingTransferOnMultiversX : string := "propose transfer".
Definition SigningProposedTransferOnMultiversX : string := "sign proposed transfer".
Definition WaitingForQuorum : string := "wait for quorum".
Definition PerformingActionID : string := "perform action".
Definition NumSteps : nat := 5.

Section Steps.
Context {X : Type} (E : executorDeps X).
Abbreviation St := (execState X).

Definition getPendingStep_Execute : M St string :=
  err ← CheckMultiversXClientAvailability E;
  when_err err (fun e => PrintInfo E LogDebug "MultiversX client unavailable" [LVal (GStr "message"); LErr e]);;
  err ← CheckEthereumClientAvailability E;
  when_err err (fun e => PrintInfo E LogDebug "Ethereum client unavailable" [LVal (GStr "message"); LErr e]);;
  ResetRetriesCountOnMultiversX;;
  r ← GetLastExecutedEthBatchIDFromMultiversX E;
  match r with
  | Err e =>
      PrintInfo E LogError "error fetching last executed eth batch ID" [LVal (GStr "error"); LErr e];;
      mret GettingPendingBatchFromEthereum
  | Ok lastEthBatchExecuted =>
      err ← GetAndStoreBatchFromEthereum E (lastEthBatchExecuted +u 1);
      match err with
      | Some e =>
          PrintInfo E LogDebug "cannot fetch eth batch"
            [LVal (GStr "batch ID"); LVal (GInt (lastEthBatchExecuted +u 1)); LVal (GStr "message"); LErr e];;
          mret GettingPendingBatchFromEthereum
      | None =>
          ob ← GetStoredBatch;
          match ob with
          | None =>
              PrintInfo E LogDebug "no new batch found on eth"
                [LVal (GStr "last executed on MultiversX"); LVal (GInt lastEthBatchExecuted)];;
              mret GettingPendingBatchFromEthereum
          | Some b =>
              v ← ValidateBatch E (Some b);
              match v with
              | Err e =>
                  PrintInfo E LogError "error validating Ethereum batch"
                    [LVal (GStr "error"); LErr e; LVal (GStr "batch"); LVal (GStr (json_TransferBatch b))];;
                  mret GettingPendingBatchFromEthereum
              | Ok false =>
                  PrintInfo E LogError ("batch not valid " +:+ batch_String b) [];;
                  mret GettingPendingBatchFromEthereum
              | Ok true =>
                  PrintInfo E LogInfo ("fetched new batch from Ethereum " +:+ batch_String b) [];;
                  err ← VerifyLastDepositNonceExecutedOnEthereumBatch E;
                  match err with
                  | Some e =>
                      PrintInfo E LogError "verification failed on the new batch from Ethereum"
                        [LVal (GStr "batch ID"); LVal (GInt (lastEthBatchExecuted +u 1)); LVal (GStr "error"); LErr e];;
                      mret GettingPendingBatchFromEthereum
                  | None => mret ProposingTransferOnMultiversX
                  end
              end
          end
      end
  end.

Definition proposeTransferStep_Execute : M St string :=
  ob ← GetStoredBatch;
  match ob with
  | None => PrintInfo E LogDebug "no batch found" [];; mret GettingPendingBatchFromEthereum
  | Some b =>
      r ← WasTransferProposedOnMultiversX E;
      match r with
      | Err e =>
          PrintInfo E LogError "error determining if the batch was proposed or not on MultiversX"
            [LVal (GStr "batch ID"); LVal (GInt (tb_ID b)); LVal (GStr "error"); LErr e];;
          mret GettingPendingBatchFromEthereum
      | Ok true => mret SigningProposedTransferOnMultiversX
      | Ok false =>
          leader ← MyTurnAsLeader E;
          if negb leader then
            PrintInfo E LogDebug "not my turn as leader in this round" [];;
            mret ProposingTransferOnMultiversX
          else
            err ← ProposeTransferOnMultiversX E;
            match err with
            | Some e =>
                PrintInfo E LogError "error proposing transfer on MultiversX"
                  [LVal (GStr "batch ID"); LVal (GInt (tb_ID b)); LVal (GStr "error"); LErr e];;
                mret GettingPendingBatchFromEthereum
            | None => mret SigningProposedTransferOnMultiversX
            end
      end
  end.

Definition signProposedTransferStep_Execute : M St string :=
  ob ← GetStoredBatch;
  match ob with
  | None => PrintInfo E LogDebug "no batch found" [];; mret GettingPendingBatchFromEthereum
  | Some b =>
      r ← GetAndStoreActionIDForProposeTransferOnMultiversX E;
      match r with
      | Err e =>
          PrintInfo E LogError "error fetching action ID"
            [LVal (GStr "batch ID"); LVal (GInt (tb_ID b)); LVal (GStr "error"); LErr e];;
          mret GettingPendingBatchFromEthereum
      | Ok aid =>
          if (aid =? InvalidActionID)%Z then
            PrintInfo E LogError "contract error, got invalid action ID"
              [LVal (GStr "batch ID"); LVal (GInt (tb_ID b)); LVal (GStr "error"); LVal (GStr "<nil>");
               LVal (GStr "action ID"); LVal (GInt aid)];;
            mret GettingPendingBatchFromEthereum
          else
            PrintInfo E LogInfo "fetched action ID"
              [LVal (GStr "action ID"); LVal (GInt aid); LVal (GStr "batch ID"); LVal (GInt (tb_ID b))];;
            w ← WasActionSignedOnMultiversX E;
            match w with
            | Err e =>
                PrintInfo E LogError "error determining if the proposed transfer was signed or not"
                  [LVal (GStr "batch ID"); LVal (GInt (tb_ID b)); LVal (GStr "error"); LErr e];;
                mret GettingPendingBatchFromEthereum
            | Ok true => mret WaitingForQuorum
            | Ok false =>
                err ← SignActionOnMultiversX E;
                match err with
                | Some e =>
                    PrintInfo E LogError "error signing the proposed transfer"
                      [LVal (GStr "batch ID"); LVal (GInt (tb_ID b)); LVal (GStr "error"); LErr e];;
                    mret GettingPendingBatchFromEthereum
                | None => mret WaitingForQuorum
                end
            end
      end
  end.

Definition waitForQuorumStep_Execute : M St string :=
  maxed ← ProcessMaxQuorumRetriesOnMultiversX E;
  if (maxed : bool) then
    PrintInfo E LogDebug "max number of retries reached, resetting counter" [];;
    mret GettingPendingBatchFromEthereum
  else
    r ← ProcessQuorumReachedOnMultiversX E;
    match r with
    | Err e =>
        PrintInfo E LogError "error while checking the quorum" [LVal (GStr "error"); LErr e];;
        mret GettingPendingBatchFromEthereum
    | Ok isQuorumReached =>
        PrintInfo E LogDebug "quorum reached check" [LVal (GStr "is reached"); LVal (GBool isQuorumReached)];;
        if negb isQuorumReached then mret WaitingForQuorum else mret PerformingActionID
    end.

Definition performActionIDStep_Execute : M St string :=
  r ← WasActionPerformedOnMultiversX E;
  match r with
  | Err e =>
      aid ← GetStoredActionID;
      PrintInfo E LogError "error determining if the action ID was proposed or not"
        [LVal (GStr "action ID"); LVal (GInt aid); LVal (GStr "error"); LErr e];;
      mret GettingPendingBatchFromEthereum
  | Ok true =>
      aid ← GetStoredActionID;
      PrintInfo E LogInfo "action ID performed" [LVal (GStr "action ID"); LVal (GInt aid)];;
      mret GettingPendingBatchFromEthereum
  | Ok false =>
      leader ← MyTurnAsLeader E;
      if negb leader then
        PrintInfo E LogDebug "not my turn as leader in this round" [];;
        mret PerformingActionID
      else
        err ← PerformActionOnMultiversX E;
        match err with
        | Some e =>
            aid ← GetStoredActionID;
            PrintInfo E LogError "error performing action ID"
              [LVal (GStr "action ID"); LVal (GInt aid); LVal (GStr "error"); LErr e];;
            mret GettingPendingBatchFromEthereum
        | None => mret PerformingActionID
        end
  end.

Definition getPendingStep := mkStep getPendingStep_Execute GettingPendingBatchFromEthereum.
Definition proposeTransferStep := mkStep proposeTransferStep_Execute ProposingTransferOnMultiversX.
Definition signProposedTransferStep := mkStep signProposedTransferStep_Execute SigningProposedTransferOnMultiversX.
Definition waitForQuorumStep := mkStep waitForQuorumStep_Execute WaitingForQuorum.
Definition performActionIDStep := mkStep performActionIDStep_Execute PerformingActionID.

Definition stepsSlice : list (Step St) :=
  [getPendingStep; proposeTransferStep; signProposedTransferStep; waitForQuorumStep; performActionIDStep].

Definition createMachineStates : res (gmap string (Step St)) :=
  match range_loop (addStep ErrDuplicatedStepIdentifier) ∅ stepsSlice with
  | inl m => Ok m
  | inr e => Err e
  end.

End Steps.

(** A nil executor is [None]. *)
Definition CreateSteps {X} (executor : option (executorDeps X)) : res (gmap string (Step (execState X))) :=
  match executor with
  | None => Err ErrNilExecutor
  | Some E => createMachineStates E
  end.

End EthToMvx.
