(* ===== verification/StepsMvxToEth.v ===== *)
(** * The MultiversX -> Ethereum half-bridge

    Models [src/bridge/bridges/ethMultiversX/steps/multiversxToEth]: the ten steps and
    their factory.  The batch a step reads with [GetStoredBatch] is the executor's own
    pointer, so the assignment [storedBatch.Statuses = statuses] of the resolve step is a
    write to the executor's batch; the batch fetched in the same step is a fresh one. *)
From S2P Require Import Prelude Go Batch Interfaces Executor StateMachine.
Open Scope go_scope.

Module MvxToEth.

Definition GettingPendingBatchFromMultiversX : string := "get pending batch from MultiversX".
Definition SigningProposedTransferOnEthereum : string := "sign proposed transfer".
Definition WaitingForQuorumOnTransfer : string := "wait for quorum on transfer".
Definition PerformingTransfer : string := "perform transfer".
Definition WaitingTransferConfirmation : string := "wait transfer confirmating".
Definition ResolvingSetStatusOnMultiversX : string := "resolve set status".
Definition ProposingSetStatusOnMultiversX : string := "propose set status".
Definition SigningProposedSetStatusOnMultiversX : string := "sign proposed set status".
Definition WaitingForQuorumOnSetStatus : string := "wait for quorum on set status".
Definition PerformingSetStatus : string := "perform set status".
Definition NumSteps : nat := 10.

Section Steps.
Context {X : Type} (E : executorDeps X).
Abbreviation St := (execState X).

Definition resetCountersOnMultiversX : M St unit :=
  ResetRetriesCountOnMultiversX;;
  ResetRetriesOnWasTransferProposedOnMultiversX.

Definition getPendingStep_Execute : M St string :=
  err ← CheckMultiversXClientAvailability E;
  when_err err (fun e => PrintInfo E LogDebug "MultiversX client unavailable" [LVal (GStr "message"); LErr e]);;
  err ← CheckEthereumClientAvailability E;
  when_err err (fun e => PrintInfo E LogDebug "Ethereum client unavailable" [LVal (GStr "message"); LErr e]);;
  ResetRetriesCountOnEthereum;;
  resetCountersOnMultiversX;;
  r ← GetBatchFromMultiversX E;
  match r with
  | Err e =>
      PrintInfo E LogDebug "cannot fetch MultiversX batch" [LVal (GStr "message"); LErr e];;
      mret GettingPendingBatchFromMultiversX
  | Ok None =>
      PrintInfo E LogDebug "no new batch found on MultiversX" [];;
      mret GettingPendingBatchFromMultiversX
  | Ok (Some b) =>
      err ← StoreBatchFromMultiversX (Some b);
      match err with
      | Some e =>
          PrintInfo E LogError "error storing MultiversX batch" [LVal (GStr "error"); LErr e];;
          mret GettingPendingBatchFromMultiversX
      | None =>
          v ← ValidateBatch E (Some b);
          match v with
          | Err e =>
              PrintInfo E LogError "error validating MultiversX batch"
                [LVal (GStr "error"); LErr e; LVal (GStr "batch"); LVal (GStr (json_TransferBatch b))];;
              mret GettingPendingBatchFromMultiversX
          | Ok false =>
              PrintInfo E LogError ("batch not valid " +:+ batch_String b) [];;
              mret GettingPendingBatchFromMultiversX
          | Ok true =>
              PrintInfo E LogInfo ("fetched new batch from MultiversX " +:+ batch_String b) [];;
              w ← WasTransferPerformedOnEthereum E;
              match w with
              | Err e =>
                  PrintInfo E LogError "error determining if transfer was performed or not"
                    [LVal (GStr "error"); LErr e];;
                  mret GettingPendingBatchFromMultiversX
              | Ok true =>
                  PrintInfo E LogInfo "transfer performed" [];;
                  mret ResolvingSetStatusOnMultiversX
              | Ok false => mret SigningProposedTransferOnEthereum
              end
          end
      end
  end.

Definition signProposedTransferStep_Execute : M St string :=
  ob ← GetStoredBatch;
  match ob with
  | None => PrintInfo E LogDebug "nil batch stored" [];; mret GettingPendingBatchFromMultiversX
  | Some b =>
      err ← SignTransferOnEthereum E;
      match err with
      | Some e =>
          PrintInfo E LogError "error signing"
            [LVal (GStr "batch ID"); LVal (GInt (tb_ID b)); LVal (GStr "error"); LErr e];;
          mret GettingPendingBatchFromMultiversX
      | None => mret WaitingForQuorumOnTransfer
      end
  end.

Definition waitForQuorumOnTransferStep_Execute : M St string :=
  maxed ← ProcessMaxQuorumRetriesOnEthereum E;
  if (maxed : bool) then
    PrintInfo E LogDebug "max number of retries reached, resetting counter" [];;
    mret GettingPendingBatchFromMultiversX
  else
    r ← ProcessQuorumReachedOnEthereum E;
    match r with
    | Err e =>
        PrintInfo E LogError "error while checking the quorum on Ethereum" [LVal (GStr "error"); LErr e];;
        mret GettingPendingBatchFromMultiversX
    | Ok isQuorumReached =>
        PrintInfo E LogDebug "quorum reached check" [LVal (GStr "is reached"); LVal (GBool isQuorumReached)];;
        if negb isQuorumReached then mret WaitingForQuorumOnTransfer else mret PerformingTransfer
    end.

Definition performTransferStep_Execute : M St string :=
  r ← WasTransferPerformedOnEthereum E;
  match r with
  | Err e =>
      PrintInfo E LogError "error determining if transfer was performed or not" [LVal (GStr "error"); LErr e];;
      mret GettingPendingBatchFromMultiversX
  | Ok true =>
      PrintInfo E LogInfo "transfer performed" [];;
      mret ResolvingSetStatusOnMultiversX
  | Ok false =>
      leader ← MyTurnAsLeader E;
      if (leader : bool) then
        err ← PerformTransferOnEthereum E;
        match err with
        | Some e =>
            PrintInfo E LogError "error performing transfer on Ethereum" [LVal (GStr "error"); LErr e];;
            mret GettingPendingBatchFromMultiversX
        | None => mret WaitingTransferConfirmation
        end
      else
        PrintInfo E LogDebug "not my turn as leader in this round" [];;
        mret WaitingTransferConfirmation
  end.

Definition waitTransferConfirmationStep_Execute : M St string :=
  WaitForTransferConfirmation E;;
  mret PerformingTransfer.

Definition resolveSetStatusStep_Execute : M St string :=
  ClearStoredP2PSignaturesForEthereum E;;
  ob ← GetStoredBatch;
  match ob with
  | None => PrintInfo E LogDebug "nil batch stored" [];; mret GettingPendingBatchFromMultiversX
  | Some storedBatch =>
      r ← GetBatchFromMultiversX E;
      match r with
      | Err e =>
          PrintInfo E LogError "error while fetching batch" [LVal (GStr "error"); LErr e];;
          mret GettingPendingBatchFromMultiversX
      | Ok None => PrintInfo E LogDebug "nil batch fetched" [];; mret GettingPendingBatchFromMultiversX
      | Ok (Some b) =>
          statuses ← WaitAndReturnFinalBatchStatuses E;
          match statuses with
          | [] => mret GettingPendingBatchFromMultiversX
          | _ :: _ =>
              modify (set_batch (Some (set_Statuses statuses storedBatch)));;
              ResolveNewDepositsStatuses (u64 (Z.of_nat (length (tb_Statuses b))));;
              mret ProposingSetStatusOnMultiversX
          end
      end
  end.

Definition proposeSetStatusStep_Execute : M St string :=
  ob ← GetStoredBatch;
  match ob with
  | None => PrintInfo E LogDebug "nil batch stored" [];; mret GettingPendingBatchFromMultiversX
  | Some b =>
      maxed ← ProcessMaxRetriesOnWasTransferProposedOnMultiversX E;
      if (maxed : bool) then
        PrintInfo E LogDebug "max number of retries reached, resetting counter" [];;
        mret GettingPendingBatchFromMultiversX
      else
        r ← WasSetStatusProposedOnMultiversX E;
        match r with
        | Err e =>
            PrintInfo E LogError "error determining if the set status action was proposed or not on MultiversX"
              [LVal (GStr "batch ID"); LVal (GInt (tb_ID b)); LVal (GStr "error"); LErr e];;
            mret GettingPendingBatchFromMultiversX
        | Ok true => mret SigningProposedSetStatusOnMultiversX
        | Ok false =>
            leader ← MyTurnAsLeader E;
            if negb leader then
              PrintInfo E LogDebug "not my turn as leader in this round" [];;
              mret ProposingSetStatusOnMultiversX
            else
              err ← ProposeSetStatusOnMultiversX E;
              match err with
              | Some e =>
                  PrintInfo E LogError "error proposing transfer on MultiversX"
                    [LVal (GStr "batch ID"); LVal (GInt (tb_ID b)); LVal (GStr "error"); LErr e];;
                  mret GettingPendingBatchFromMultiversX
              | None => mret SigningProposedSetStatusOnMultiversX
              end
        end
  end.

Definition signProposedSetStatusStep_Execute : M St string :=
  ob ← GetStoredBatch;
  match ob with
  | None => PrintInfo E LogDebug "nil stored batch" [];; mret GettingPendingBatchFromMultiversX
  | Some b =>
      r ← GetAndStoreActionIDForProposeSetStatusFromMultiversX E;
      match r with
      | Err e =>
          PrintInfo E LogError "error fetching action ID"
            [LVal (GStr "batch ID"); LVal (GInt (tb_ID b)); LVal (GStr "error"); LErr e];;
          mret GettingPendingBatchFromMultiversX
      | Ok aid =>
          if (aid =? InvalidActionID)%Z then
            PrintInfo E LogError "contract error, got invalid action ID"
              [LVal (GStr "batch ID"); LVal (GInt (tb_ID b)); LVal (GStr "error"); LVal (GStr "<nil>");
               LVal (GStr "action ID"); LVal (GInt aid)];;
            mret GettingPendingBatchFromMultiversX
          else
            PrintInfo E LogInfo "fetched action ID"
              [LVal (GStr "action ID"); LVal (GInt aid); LVal (GStr "batch ID"); LVal (GInt (tb_ID b))];;
            w ← WasActionSignedOnMultiversX E;
            match w with
            | Err e =>
                PrintInfo E LogError "error determining if the proposed transfer was signed or not"
                  [LVal (GStr "batch ID"); LVal (GInt (tb_ID b)); LVal (GStr "error"); LErr e];;
                mret GettingPendingBatchFromMultiversX
            | Ok true => mret WaitingForQuorumOnSetStatus
            | Ok false =>
                err ← SignActionOnMultiversX E;
                match err with
                | Some e =>
                    PrintInfo E LogError "error signing the proposed transfer"
                      [LVal (GStr "batch ID"); LVal (GInt (tb_ID b)); LVal (GStr "error"); LErr e];;
                    mret GettingPendingBatchFromMultiversX
                | None => mret WaitingForQuorumOnSetStatus
                end
            end
      end
  end.

Definition waitForQuorumOnSetStatusStep_Execute : M St string :=
  maxed ← ProcessMaxQuorumRetriesOnMultiversX E;
  if (maxed : bool) then
    PrintInfo E LogDebug "max number of retries reached, resetting counter" [];;
    mret GettingPendingBatchFromMultiversX
  else
    r ← ProcessQuorumReachedOnMultiversX E;
    match r with
    | Err e =>
        PrintInfo E LogError "error while checking the quorum" [LVal (GStr "error"); LErr e];;
        mret GettingPendingBatchFromMultiversX
    | Ok isQuorumReached =>
        PrintInfo E LogDebug "quorum reached check" [LVal (GStr "is reached"); LVal (GBool isQuorumReached)];;
        if negb isQuorumReached then mret WaitingForQuorumOnSetStatus else mret PerformingSetStatus
    end.

Definition performSetStatusStep_Execute : M St string :=
  r ← WasActionPerformedOnMultiversX E;
  match r with
  | Err e =>
      aid ← GetStoredActionID;
      PrintInfo E LogError "error determining if the set status was proposed or not"
        [LVal (GStr "action ID"); LVal (GInt aid); LVal (GStr "error"); LErr e];;
      mret GettingPendingBatchFromMultiversX
  | Ok true =>
      aid ← GetStoredActionID;
      PrintInfo E LogInfo "action ID performed" [LVal (GStr "action ID"); LVal (GInt aid)];;
      mret GettingPendingBatchFromMultiversX
  | Ok false =>
      leader ← MyTurnAsLeader E;
      if negb leader then
        PrintInfo E LogDebug "not my turn as leader in this round" [];;
        mret PerformingSetStatus
      else
        err ← PerformActionOnMultiversX E;
        match err with
        | Some e =>
            aid ← GetStoredActionID;
            PrintInfo E LogError "error performing action ID"
              [LVal (GStr "action ID"); LVal (GInt aid); LVal (GStr "error"); LErr e];;
            mret GettingPendingBatchFromMultiversX
        | None => mret PerformingSetStatus
        end
  end.

Definition getPendingStep := mkStep getPendingStep_Execute GettingPendingBatchFromMultiversX.
Definition signProposedTransferStep := mkStep signProposedTransferStep_Execute SigningProposedTransferOnEthereum.
Definition waitForQuorumOnTransferStep := mkStep waitForQuorumOnTransferStep_Execute WaitingForQuorumOnTransfer.
Definition performTransferStep := mkStep performTransferStep_Execute PerformingTransfer.
Definition waitTransferConfirmationStep := mkStep waitTransferConfirmationStep_Execute WaitingTransferConfirmation.
Definition resolveSetStatusStep := mkStep resolveSetStatusStep_Execute ResolvingSetStatusOnMultiversX.
Definition proposeSetStatusStep := mkStep proposeSetStatusStep_Execute ProposingSetStatusOnMultiversX.
Definition signProposedSetStatusStep := mkStep signProposedSetStatusStep_Execute SigningProposedSetStatusOnMultiversX.
Definition waitForQuorumOnSetStatusStep := mkStep waitForQuorumOnSetStatusStep_Execute WaitingForQuorumOnSetStatus.
Definition performSetStatusStep := mkStep performSetStatusStep_Execute PerformingSetStatus.

Definition stepsSlice : list (Step St) :=
  [getPendingStep; signProposedTransferStep; waitForQuorumOnTransferStep; performTransferStep;
   waitTransferConfirmationStep; resolveSetStatusStep; proposeSetStatusStep; signProposedSetStatusStep;
   waitForQuorumOnSetStatusStep; performSetStatusStep].

Definition createMachineStates : res (gmap string (Step St)) :=
  match range_loop (addStep ErrDuplicatedStepIdentifier) ∅ stepsSlice with
  | inl m => Ok m
  | inr e => Err e
  end.

End Steps.

(** A nil executor is [None]. *)
Definition CreateSteps {X} (executor : option (executorDeps X)) : res (gmap string (Step (execState X))) :=
  match executor with
  | None => Err ErrNilExecutor
  | Some E => createMachineStates E
  end.

End MvxToEth.
