(* ===== verification/Machines.v ===== *)
(** * The two state machines of a relayer

    How [src/bridge/factory/ethMultiversXBridgeComponents.go] puts an executor, its steps and
    a state machine together for each half-bridge, and the lemmas about the step maps both
    directions share. *)
From S2P Require Import Prelude Go Batch Interfaces Executor StateMachine StepsEthToMvx StepsMvxToEth.

Section Machines.
Context {X : Type} (E : executorDeps X).

(** The status handler given to the machine is the executor's. *)
Definition sm_metric (k v : string) : M (execState X) unit := ext (sh_SetStringMetric (statusHandler E) k v).

Definition machineArgs (steps : gmap string (Step (execState X))) (start : string) : ArgsStateMachine (execState X) :=
  {| Sm_Steps := Some (Some <$> steps); Sm_StartStateIdentifier := start; Sm_Log := true;
     Sm_StatusHandler := Some sm_metric |}.

(** The steps map and the machine in its first state. *)
Definition createEthereumToMultiversXStateMachine (s : execState X)
    : res (gmap string (Step (execState X)) * smState (execState X)) :=
  match EthToMvx.CreateSteps (Some E) with
  | Err e => Err e
  | Ok steps =>
      res_map (pair steps)
        (NewStateMachine (machineArgs steps EthToMvx.GettingPendingBatchFromEthereum) s)
  end.

Definition createMultiversXToEthereumStateMachine (s : execState X)
    : res (gmap string (Step (execState X)) * smState (execState X)) :=
  match MvxToEth.CreateSteps (Some E) with
  | Err e => Err e
  | Ok steps =>
      res_map (pair steps)
        (NewStateMachine (machineArgs steps MvxToEth.GettingPendingBatchFromMultiversX) s)
  end.

(** ** Lemmas *)

Lemma find_nil_step_none (m : gmap string (Step (execState X))) :
  find_nil_step (map_to_list (Some <$> m)) = None.
Proof.
  rewrite map_to_list_fmap. induction (map_to_list m) as [|[id st] l IH]; simpl; [done|apply IH].
Qed.

Lemma NewStateMachine_ok steps start st s :
  steps !! start = Some st -> NewStateMachine (machineArgs steps start) s = Ok (mkSm (Some st) s).
Proof.
  intros H. unfold NewStateMachine, sm_checkArgs. cbn [machineArgs Sm_Steps Sm_Log Sm_StatusHandler negb].
  rewrite find_nil_step_none. unfold getNextStep, steps_of. cbn.
  rewrite lookup_omap, lookup_fmap, H. done.
Qed.

Lemma EthToMvx_ids_NoDup : NoDup (Identifier <$> EthToMvx.stepsSlice E).
Proof. apply (bool_decide_unpack _). by vm_compute. Qed.

Lemma MvxToEth_ids_NoDup : NoDup (Identifier <$> MvxToEth.stepsSlice E).
Proof. apply (bool_decide_unpack _). by vm_compute. Qed.

(** The step map a factory builds from a list of steps with distinct identifiers. *)
Definition step_map (l : list (Step (execState X))) : gmap string (Step (execState X)) :=
  list_to_map ((fun s => (Identifier s, s)) <$> l).

Lemma step_map_lookup l id st :
  NoDup (Identifier <$> l) -> step_map l !! id = Some st <-> st ∈ l /\ Identifier st = id.
Proof.
  intros Hnd. unfold step_map. rewrite <-elem_of_list_to_map.
  - rewrite list_elem_of_fmap. naive_solver.
  - by rewrite <-list_fmap_compose.
Qed.

Lemma step_map_is_Some l id :
  NoDup (Identifier <$> l) -> id ∈ Identifier <$> l -> is_Some (step_map l !! id).
Proof.
  intros Hnd Hin. apply list_elem_of_fmap in Hin as (st & -> & Hst).
  exists st. by apply step_map_lookup.
Qed.

Lemma range_addStep l :
  NoDup (Identifier <$> l) -> range_loop (addStep ErrDuplicatedStepIdentifier) ∅ l = inl (step_map l).
Proof. intros H. rewrite addStep_loop by (done || set_solver). by rewrite map_union_empty. Qed.

Lemma EthToMvx_CreateSteps : EthToMvx.CreateSteps (Some E) = Ok (step_map (EthToMvx.stepsSlice E)).
Proof.
  unfold EthToMvx.CreateSteps, EthToMvx.createMachineStates.
  by rewrite range_addStep by apply EthToMvx_ids_NoDup.
Qed.

Lemma MvxToEth_CreateSteps : MvxToEth.CreateSteps (Some E) = Ok (step_map (MvxToEth.stepsSlice E)).
Proof.
  unfold MvxToEth.CreateSteps, MvxToEth.createMachineStates.
  by rewrite range_addStep by apply MvxToEth_ids_NoDup.
Qed.

Lemma EthToMvx_machine s :
  createEthereumToMultiversXStateMachine s =
  Ok (step_map (EthToMvx.stepsSlice E), mkSm (Some (EthToMvx.getPendingStep E)) s).
Proof.
  unfold createEthereumToMultiversXStateMachine. rewrite EthToMvx_CreateSteps.
  rewrite (NewStateMachine_ok _ _ (EthToMvx.getPendingStep E)); [done|].
  apply step_map_lookup; [apply EthToMvx_ids_NoDup|]. split; [constructor|done].
Qed.

Lemma MvxToEth_machine s :
  createMultiversXToEthereumStateMachine s =
  Ok (step_map (MvxToEth.stepsSlice E), mkSm (Some (MvxToEth.getPendingStep E)) s).
Proof.
  unfold createMultiversXToEthereumStateMachine. rewrite MvxToEth_CreateSteps.
  rewrite (NewStateMachine_ok _ _ (MvxToEth.getPendingStep E)); [done|].
  apply step_map_lookup; [apply MvxToEth_ids_NoDup|]. split; [constructor|done].
Qed.

End Machines.
