(* ===== verification/Monitor.v ===== *)
(** * Observing the executor

    An executor whose calls on the outside are recorded: [observed E] is [E] with a history
    of events (newest first) added to its world.  Observation changes nothing else
    ([erases]), so facts about the histories of the observed executor are facts about the
    calls the executor makes.  The safety theorems of the two half-bridges are stated over
    these histories. *)
From S2P Require Import Prelude Go Batch Interfaces Executor StateMachine.

Inductive event :=
  | EvGetPending (r : res (option TransferBatch))
  | EvWasProposedTransfer (b : option TransferBatch) (r : res bool)
  | EvQuorumReached (a : Z) (r : res bool)
  | EvWasExecuted (a : Z) (r : res bool)
  | EvActionIDForTransfer (b : option TransferBatch) (r : res Z)
  | EvWasProposedSetStatus (b : option TransferBatch) (r : res bool)
  | EvActionIDForSetStatus (b : option TransferBatch) (r : res Z)
  | EvLastBatchID (r : res Z)
  | EvLastTxID (r : res Z)
  | EvProposeSetStatus (b : option TransferBatch) (r : res string)
  | EvProposeTransfer (b : option TransferBatch) (r : res string)
  | EvSign (a : Z) (r : res string)
  | EvWasSigned (a : Z) (r : res bool)
  | EvPerformAction (a : Z) (b : option TransferBatch) (r : res string)
  | EvGetBatch (n : Z) (r : res (option TransferBatch))
  | EvEthWasExecuted (n : Z) (r : res bool)
  | EvGenerateHash (b : option TransferBatch) (r : res bytes)
  | EvBroadcast (h : bytes)
  | EvExecuteTransfer (h : bytes) (b : option TransferBatch) (q : Z) (r : res string)
  | EvStatuses (n : Z) (r : res bytes)
  | EvQuorumSize (r : res Z)
  | EvEthQuorum (h : bytes) (r : res bool)
  | EvLeader (r : bool)
  | EvValidate (b : option TransferBatch) (r : res bool)
  | EvClearSignatures.

(** The newest part of a history: back to the last event at which a round starts, and [k] events
    before it. *)
Fixpoint since (starts : event -> bool) (k : nat) (old : list event) : list event :=
  match old with
  | [] => []
  | e :: rest => if starts e then e :: take k rest else e :: since starts k rest
  end.

Lemma since_app starts k new old :
  Forall (fun e => starts e = false) new -> since starts k (new ++ old) = new ++ since starts k old.
Proof. induction 1 as [|e new He _ IH]; [done|]. cbn. by rewrite He, IH. Qed.

Section Observe.
Context {X : Type}.

Definition observe {A} (ev : A -> event) (c : M X A) : M (X * list event) A := fun '(x, tr) =>
  match c x with
  | (Ret a, x') => (Ret a, (x', ev a :: tr))
  | (Panic p, x') => (Panic p, (x', tr))
  end.

Definition silent {A} (c : M X A) : M (X * list event) A := zoom fst (fun x w => (x, snd w)) c.

Context (E : executorDeps X).
Local Abbreviation mx := (multiversXClient E).
Local Abbreviation eth := (ethereumClient E).

Definition observed : executorDeps (X * list event) := {|
  topologyProvider := {| top_MyTurnAsLeader := observe EvLeader (top_MyTurnAsLeader (topologyProvider E)) |};
  multiversXClient := {|
    mx_GetPending := observe EvGetPending (mx_GetPending mx);
    mx_WasProposedTransfer b := observe (EvWasProposedTransfer b) (mx_WasProposedTransfer mx b);
    mx_QuorumReached a := observe (EvQuorumReached a) (mx_QuorumReached mx a);
    mx_WasExecuted a := observe (EvWasExecuted a) (mx_WasExecuted mx a);
    mx_GetActionIDForProposeTransfer b := observe (EvActionIDForTransfer b) (mx_GetActionIDForProposeTransfer mx b);
    mx_WasProposedSetStatus b := observe (EvWasProposedSetStatus b) (mx_WasProposedSetStatus mx b);
    mx_GetActionIDForSetStatusOnPendingTransfer b :=
      observe (EvActionIDForSetStatus b) (mx_GetActionIDForSetStatusOnPendingTransfer mx b);
    mx_GetLastExecutedEthBatchID := observe EvLastBatchID (mx_GetLastExecutedEthBatchID mx);
    mx_GetLastExecutedEthTxID := observe EvLastTxID (mx_GetLastExecutedEthTxID mx);
    mx_ProposeSetStatus b := observe (EvProposeSetStatus b) (mx_ProposeSetStatus mx b);
    mx_ProposeTransfer b := observe (EvProposeTransfer b) (mx_ProposeTransfer mx b);
    mx_Sign a := observe (EvSign a) (mx_Sign mx a);
    mx_WasSigned a := observe (EvWasSigned a) (mx_WasSigned mx a);
    mx_PerformAction a b := observe (EvPerformAction a b) (mx_PerformAction mx a b);
    mx_CheckClientAvailability := silent (mx_CheckClientAvailability mx) |};
  ethereumClient := {|
    eth_GetBatch n := observe (EvGetBatch n) (eth_GetBatch eth n);
    eth_WasExecuted n := observe (EvEthWasExecuted n) (eth_WasExecuted eth n);
    eth_GenerateMessageHash b := observe (EvGenerateHash b) (eth_GenerateMessageHash eth b);
    eth_BroadcastSignatureForMessageHash h :=
      observe (fun _ => EvBroadcast h) (eth_BroadcastSignatureForMessageHash eth h);
    eth_ExecuteTransfer h b q := observe (EvExecuteTransfer h b q) (eth_ExecuteTransfer eth h b q);
    eth_GetTransactionsStatuses n := observe (EvStatuses n) (eth_GetTransactionsStatuses eth n);
    eth_GetQuorumSize := observe EvQuorumSize (eth_GetQuorumSize eth);
    eth_IsQuorumReached h := observe (EvEthQuorum h) (eth_IsQuorumReached eth h);
    eth_CheckClientAvailability := silent (eth_CheckClientAvailability eth) |};
  timeForWaitOnEthereum := timeForWaitOnEthereum E;
  statusHandler := {|
    sh_SetIntMetric k v := silent (sh_SetIntMetric (statusHandler E) k v);
    sh_AddIntMetric k v := silent (sh_AddIntMetric (statusHandler E) k v);
    sh_SetStringMetric k v := silent (sh_SetStringMetric (statusHandler E) k v) |};
  sigsHolder := {|
    sig_Signatures h := silent (sig_Signatures (sigsHolder E) h);
    sig_ClearStoredSignatures := observe (fun _ => EvClearSignatures) (sig_ClearStoredSignatures (sigsHolder E)) |};
  batchValidator := {| val_ValidateBatch b := observe (EvValidate b) (val_ValidateBatch (batchValidator E) b) |};
  maxQuorumRetriesOnEthereum := maxQuorumRetriesOnEthereum E;
  maxQuorumRetriesOnMultiversX := maxQuorumRetriesOnMultiversX E;
  maxRetriesOnWasProposed := maxRetriesOnWasProposed E;
  level_String := level_String E;
  xd_select d := silent (xd_select E d)
|}.

(** The laws the half-bridges need of an executor's environment; the limits on the
    retries are [uint64] values. *)
Class EnvLaws : Prop := {
  env_mx_laws :: MultiversXClientLaws (multiversXClient E);
  env_eth_laws :: EthereumClientLaws (ethereumClient E);
  env_sh_laws :: StatusHandlerLaws (statusHandler E);
  env_total_leader : total (top_MyTurnAsLeader (topologyProvider E));
  env_total_clear : total (sig_ClearStoredSignatures (sigsHolder E));
  env_total_validate b : total (val_ValidateBatch (batchValidator E) (Some b));
  env_total_select d : total (xd_select E d);
  env_u64_quorumEth : is_u64 (maxQuorumRetriesOnEthereum E);
  env_u64_quorumMvx : is_u64 (maxQuorumRetriesOnMultiversX E);
  env_u64_wasProposed : is_u64 (maxRetriesOnWasProposed E)
}.

(** ** Symbolic execution of observed calls *)

Lemma wp_observed {A} (ev : A -> event) (c : M X A) Q b a h qe qm rw x tr :
  total c -> (forall r x', c x = (Ret r, x') -> Q r (mkExec b a h qe qm rw (x', ev r :: tr))) ->
  wp (ext (observe ev c)) Q (mkExec b a h qe qm rw (x, tr)).
Proof.
  intros Ht HQ. unfold ext. apply wp_zoom. cbn. specialize (Ht x). unfold wp in *. cbn.
  destruct (c x) as [[r|p] x'] eqn:Hc; [by apply HQ|done].
Qed.

Lemma wp_silent {A} (c : M X A) Q b a h qe qm rw x tr :
  total c -> (forall r x', Q r (mkExec b a h qe qm rw (x', tr))) ->
  wp (ext (silent c)) Q (mkExec b a h qe qm rw (x, tr)).
Proof.
  intros Ht HQ. unfold ext. apply wp_zoom. unfold silent. apply wp_zoom. cbn.
  apply wp_total; [done|]. intros r x' _. apply HQ.
Qed.

Lemma yields_quorum_range c x q x' :
  yields_quorum (X := X) c -> c x = (Ret (Ok q), x') -> (0 <= i64 q)%Z.
Proof.
  intros H Hc. specialize (H x). unfold wp in H. rewrite Hc in H.
  rewrite i64_small by (unfold two63 in *; lia). lia.
Qed.

Lemma yields_batch_fetched c x r x' :
  yields_batch (X := X) c -> c x = (Ret r, x') -> fetched r.
Proof. intros H Hc. specialize (H x). unfold wp in H. by rewrite Hc in H. Qed.

End Observe.

Arguments EnvLaws {X} E.

(** ** Observation does not change behaviour *)

Section Erase.
Context {X : Type}.

Definition erase (s : execState (X * list event)) : execState X :=
  mkExec (batch s) (actionID s) (msgHash s) (quorumRetriesOnEthereum s) (quorumRetriesOnMultiversX s)
    (retriesOnWasProposed s) (fst (world s)).

Definition erases {A} (c : M (execState (X * list event)) A) (c' : M (execState X) A) : Prop :=
  forall s, c' (erase s) = (fst (c s), erase (snd (c s))).

Lemma erases_ret {A} (a : A) : erases (mret a) (mret a).
Proof. done. Qed.

Lemma erases_panics {A} p : erases (panics (A := A) p) (panics p).
Proof. done. Qed.

Lemma erases_bind {A B} c c' (k : A -> M _ B) k' :
  erases c c' -> (forall a, erases (k a) (k' a)) -> erases (mbind k c) (mbind k' c').
Proof.
  intros Hc Hk s. unfold mbind, M_bind. rewrite Hc.
  destruct (c s) as [[a|p] s']; simpl; [apply Hk|done].
Qed.

Lemma erases_bind_ok {A B} c c' (k : A -> M _ (res B)) k' :
  erases c c' -> (forall a, erases (k a) (k' a)) -> erases (bind_ok c k) (bind_ok c' k').
Proof. intros Hc Hk. apply erases_bind; [done|]. intros [a|e]; [apply Hk|apply erases_ret]. Qed.

Lemma erases_gets {A} (f : execState (X * list event) -> A) (f' : execState X -> A) :
  (forall s, f s = f' (erase s)) -> erases (gets f) (gets f').
Proof. intros H s. unfold gets. simpl. by rewrite H. Qed.

Lemma erases_modify (f : execState (X * list event) -> _) (f' : execState X -> execState X) :
  (forall s, erase (f s) = f' (erase s)) -> erases (modify f) (modify f').
Proof. intros H s. unfold modify. simpl. by rewrite H. Qed.

Lemma erases_observe {A} (ev : A -> event) (c : M X A) : erases (ext (observe ev c)) (ext c).
Proof.
  intros [b a h qe qm rw [x tr]]. unfold ext, zoom, observe, erase. simpl.
  destruct (c x) as [[r|p] x']; done.
Qed.

Lemma erases_silent {A} (c : M X A) : erases (ext (silent c)) (ext c).
Proof.
  intros [b a h qe qm rw [x tr]]. unfold ext, zoom, silent, erase. simpl.
  unfold zoom. simpl. destruct (c x) as [[r|p] x']; done.
Qed.

Lemma erases_deref {A} (p : option A) : erases (deref p) (deref p).
Proof. destruct p; [apply erases_ret|apply erases_panics]. Qed.

End Erase.

Ltac solve_erases :=
  repeat first
    [ apply erases_ret | apply erases_panics | apply erases_deref
    | apply erases_observe | apply erases_silent
    | apply erases_bind; [|intros ?]
    | apply erases_bind_ok; [|intros ?]
    | apply erases_gets; done
    | apply erases_modify; done
    | case_match ].

(** ** Tactics for whole steps *)

#[export] Hint Resolve env_total_leader env_total_clear env_total_validate env_total_select : total.
#[export] Hint Extern 1 (total (mx_GetPending _)) => (apply yields_batch_total, mx_pending_batch) : total.
#[export] Hint Extern 1 (total (eth_GetBatch _ _)) => (apply yields_batch_total, eth_batch) : total.
#[export] Hint Extern 1 (total (eth_GetQuorumSize _)) => (apply yields_quorum_total, eth_quorum) : total.
#[export] Hint Extern 1 (0 <= i64 _)%Z =>
  match goal with H : eth_GetQuorumSize _ _ = (Ret (Ok ?q), _) |- (0 <= i64 ?q)%Z =>
    exact (yields_quorum_range _ _ _ _ eth_quorum H) end : total.
#[export] Hint Extern 1 (amounts_set _) => assumption : total.
#[export] Hint Extern 1 (MultiversXClientLaws _) => (apply env_mx_laws) : total.
#[export] Hint Extern 1 (EthereumClientLaws _) => (apply env_eth_laws) : total.
#[export] Hint Extern 1 (StatusHandlerLaws _) => (apply env_sh_laws) : total.

Ltac unfold_executor :=
  unfold when_err, PrintInfo, setExecutionMessageInStatusHandler, MyTurnAsLeader, GetBatchFromMultiversX, StoreBatchFromMultiversX,
    GetStoredBatch, GetLastExecutedEthBatchIDFromMultiversX, VerifyLastDepositNonceExecutedOnEthereumBatch,
    GetAndStoreActionIDForProposeTransferOnMultiversX, GetAndStoreActionIDForProposeSetStatusFromMultiversX,
    GetStoredActionID, WasTransferProposedOnMultiversX, ProposeTransferOnMultiversX,
    ProcessMaxRetriesOnWasTransferProposedOnMultiversX, ResetRetriesOnWasTransferProposedOnMultiversX,
    WasSetStatusProposedOnMultiversX, ProposeSetStatusOnMultiversX, WasActionSignedOnMultiversX,
    SignActionOnMultiversX, ProcessQuorumReachedOnMultiversX, WasTransferPerformedOnEthereum,
    waitWithContextSucceeded, GetBatchStatusesFromEthereum, WasActionPerformedOnMultiversX,
    PerformActionOnMultiversX, ResolveNewDepositsStatuses, ProcessMaxQuorumRetriesOnMultiversX,
    ResetRetriesCountOnMultiversX, GetAndStoreBatchFromEthereum, SignTransferOnEthereum,
    PerformTransferOnEthereum, ProcessQuorumReachedOnEthereum, ProcessMaxQuorumRetriesOnEthereum,
    ResetRetriesCountOnEthereum, ClearStoredP2PSignaturesForEthereum, ValidateBatch,
    CheckMultiversXClientAvailability, CheckEthereumClientAvailability.

(** Reduce a projection of the observed executor to the observed call. *)
Ltac cbn_observed :=
  cbn [observed multiversXClient ethereumClient topologyProvider statusHandler sigsHolder batchValidator
       xd_select level_String timeForWaitOnEthereum maxQuorumRetriesOnEthereum maxQuorumRetriesOnMultiversX
       maxRetriesOnWasProposed mx_GetPending mx_WasProposedTransfer mx_QuorumReached mx_WasExecuted
       mx_GetActionIDForProposeTransfer mx_WasProposedSetStatus mx_GetActionIDForSetStatusOnPendingTransfer
       mx_GetLastExecutedEthBatchID mx_GetLastExecutedEthTxID mx_ProposeSetStatus mx_ProposeTransfer mx_Sign
       mx_WasSigned mx_PerformAction mx_CheckClientAvailability eth_GetBatch eth_WasExecuted
       eth_GenerateMessageHash eth_BroadcastSignatureForMessageHash eth_ExecuteTransfer
       eth_GetTransactionsStatuses eth_GetQuorumSize eth_IsQuorumReached eth_CheckClientAvailability
       top_MyTurnAsLeader sig_ClearStoredSignatures val_ValidateBatch sh_SetIntMetric sh_AddIntMetric
       sh_SetStringMetric].

(** Reduce the accessors and setters of an explicit executor state. *)
Ltac cbn_state :=
  cbn [batch actionID msgHash quorumRetriesOnEthereum quorumRetriesOnMultiversX retriesOnWasProposed world
       set_batch set_actionID set_msgHash set_qEth set_qMvx set_wasProposed set_world err_of deref negb].

(** A successful fetch returned a batch. *)
Ltac use_fetched :=
  match goal with
  | H : mx_GetPending _ _ = (Ret (Ok ?p), _) |- wp (deref ?p) _ _ =>
      let F := fresh "Hfetched" in
      pose proof (yields_batch_fetched _ _ _ _ (mx_pending_batch) H) as F; destruct p; [destruct F as [? ?]|destruct F]
  | H : eth_GetBatch _ _ _ = (Ret (Ok ?p), _) |- wp (deref ?p) _ _ =>
      let F := fresh "Hfetched" in
      pose proof (yields_batch_fetched _ _ _ _ (eth_batch _) H) as F; destruct p; [destruct F as [? ?]|destruct F]
  end.

(** One step of symbolic execution of an observed method on an explicit state. *)
Ltac obs_step :=
  lazymatch goal with
  | |- wp (ext (observe _ _)) _ _ => apply wp_observed; [solve [eauto with total]|intros ? ? ?]
  | |- wp (ext (silent _)) _ _ => apply wp_silent; [solve [eauto with total]|intros ? ?]
  | |- wp (match negb ?x with _ => _ end) _ _ => destruct x eqn:?; subst
  | |- wp (match ?x with _ => _ end) _ _ => destruct x eqn:?; subst
  | |- wp (deref ?p) _ _ => use_fetched
  | |- wp _ _ _ => wp_step
  end; cbn_state; cbn beta iota.
Ltac obs_run := unfold_executor; cbn_observed; cbn_state; cbn beta iota; repeat obs_step.
