(* ===== verification/SafetyEthToMvx.v ===== *)
(** * Safety of the Ethereum -> MultiversX half-bridge

    The invariant of the five-step machine, indexed by the current step, over the history of
    the executor's calls; every action the relayer sends to MultiversX is justified by what
    it observed before. *)
From S2P Require Import Prelude Go Batch Interfaces Executor StateMachine StepsEthToMvx Machines Monitor.
Import EthToMvx.

Module EthToMvxSafety.

(** [b] is the batch that follows the last one executed on MultiversX: fetched from
    Ethereum under that number, non-empty, accepted by the validator, and its deposits carry
    the nonces that follow the last executed one. *)
Definition verified (b : TransferBatch) (old : list event) : Prop :=
  exists last lastTx,
    EvLastBatchID (Ok last) ∈ old /\ EvGetBatch (u64 (last + 1)) (Ok (Some b)) ∈ old /\
    tb_ID b = u64 (last + 1) /\ tb_Deposits b <> [] /\ EvValidate (Some b) (Ok true) ∈ old /\
    EvLastTxID (Ok lastTx) ∈ old /\ consecutive (lastTx + 1) (dt_Nonce <$> tb_Deposits b).

(** A round starts by asking for the last executed batch. *)
Definition starts (e : event) : bool := match e with EvLastBatchID _ => true | _ => false end.
Abbreviation this_round := (since starts 0).

(** [a] is the action the multisig contract holds for the transfer of [b]. *)
Definition action_for (a : Z) (b : TransferBatch) (old : list event) : Prop :=
  a <> InvalidActionID /\ EvActionIDForTransfer (Some b) (Ok a) ∈ old.

(** What must precede each call that acts on a chain, in the same round; calls of the other
    half-bridge never happen. *)
Definition justified (e : event) (old : list event) : Prop :=
  match e with
  | EvProposeTransfer ob _ =>
      exists b rest, ob = Some b /\ verified b (this_round old) /\
        old = EvLeader true :: EvWasProposedTransfer (Some b) (Ok false) :: rest
  | EvSign a _ =>
      exists b rest, verified b (this_round old) /\ action_for a b (this_round old) /\ old = EvWasSigned a (Ok false) :: rest
  | EvPerformAction a ob _ =>
      exists b rest, ob = Some b /\ verified b (this_round old) /\ action_for a b (this_round old) /\
        EvQuorumReached a (Ok true) ∈ this_round old /\
        old = EvLeader true :: EvWasExecuted a (Ok false) :: rest
  | EvProposeSetStatus _ _ | EvExecuteTransfer _ _ _ _ | EvGenerateHash _ _ | EvBroadcast _
  | EvClearSignatures => False
  | _ => True
  end.

Section Safety.
Context {X : Type} (E : executorDeps X) `{!EnvLaws E}.
Abbreviation OSt := (execState (X * list event)).

Definition hist (s : OSt) : list event := snd (world s).
Definition now (s : OSt) : list event := this_round (hist s).

Definition at_pending (s : OSt) : Prop := True.
Definition at_propose (s : OSt) : Prop := exists b, batch s = Some b /\ verified b (now s).
Definition at_quorum (s : OSt) : Prop :=
  exists b, batch s = Some b /\ verified b (now s) /\ action_for (actionID s) b (now s).
Definition at_perform (s : OSt) : Prop :=
  at_quorum s /\ EvQuorumReached (actionID s) (Ok true) ∈ now s.

Definition at_step (id : string) : OSt -> Prop :=
  if String.eqb id GettingPendingBatchFromEthereum then at_pending
  else if String.eqb id ProposingTransferOnMultiversX then at_propose
  else if String.eqb id SigningProposedTransferOnMultiversX then at_propose
  else if String.eqb id WaitingForQuorum then at_quorum
  else if String.eqb id PerformingActionID then at_perform
  else fun _ => False.

(** The stored batch can be handed to the clients. *)
Definition batch_ok (s : OSt) : Prop := match batch s with Some b => amounts_set b | None => True end.

Definition base (s : OSt) : Prop :=
  tl_ok justified (hist s) /\ batch_ok s /\ (0 <= quorumRetriesOnMultiversX s <= maxQuorumRetriesOnMultiversX E)%Z.

Definition inv (id : string) (s : OSt) : Prop := base s /\ at_step id s.

Lemma verified_cons b e old : verified b old -> verified b (e :: old).
Proof.
  intros (last & lastTx & ? & ? & ? & ? & ? & ? & ?).
  exists last, lastTx. repeat split; try done; by apply list_elem_of_further.
Qed.

Lemma action_for_cons a b e old : action_for a b old -> action_for a b (e :: old).
Proof. intros [? ?]. split; [done|by apply list_elem_of_further]. Qed.

Local Hint Resolve verified_cons action_for_cons list_elem_of_here list_elem_of_further : core.

Lemma at_step_propose s : at_propose s -> at_step ProposingTransferOnMultiversX s.
Proof. done. Qed.
Lemma at_step_sign s : at_propose s -> at_step SigningProposedTransferOnMultiversX s.
Proof. done. Qed.
Lemma at_step_quorum s : at_quorum s -> at_step WaitingForQuorum s.
Proof. done. Qed.
Lemma at_step_perform s : at_perform s -> at_step PerformingActionID s.
Proof. done. Qed.

Definition step_ok (c : M OSt string) (P : OSt -> Prop) : Prop :=
  forall s, base s -> P s -> wp c inv s.

Ltac start :=
  let b := fresh "b" in let a := fresh "a" in let h := fresh "h" in
  let qe := fresh "qe" in let qm := fresh "qm" in let rw := fresh "rw" in
  let x := fresh "x" in let tr := fresh "tr" in
  intros [b a h qe qm rw [x tr]] (Htr & Hset & Hq) HP; unfold now, hist, batch_ok in *;
  cbn [world snd batch quorumRetriesOnMultiversX] in Htr, Hset, Hq.

(** The history only grew by calls that need no justification, and the retry counter is in
    range. *)
Ltac base_ok := split; [split; [cbn; repeat split; try done|split; [unfold batch_ok; cbn; assumption|cbn; try done; try lia]]|].

Lemma getPending_ok : step_ok (getPendingStep_Execute (observed E)) at_pending.
Proof.
  start. pose proof (env_u64_quorumMvx E) as [Hu _].
  unfold getPendingStep_Execute. obs_run. all: base_ok; try exact I.
  all: apply at_step_propose; eexists; split; [done|]; unfold now, hist; cbn [world snd since starts].
  all: apply orb_false_iff in Heqb0 as [Hid Hdep]; apply negb_false_iff, Z.eqb_eq in Hid; apply Nat.eqb_neq in Hdep.
  all: eexists _, _; repeat split; eauto 10; [intros HD; by rewrite HD in Hdep|by apply verifyDepositNonces_spec].
Qed.

Lemma propose_ok : step_ok (proposeTransferStep_Execute (observed E)) at_propose.
Proof.
  start. destruct HP as (b' & Hb & Hv). cbn in Hb, Hv. subst b.
  unfold proposeTransferStep_Execute. obs_run. all: base_ok; try exact I.
  all: try (eexists _, _; split; [done|split; [|done]]; by eauto).
  all: (apply at_step_sign || apply at_step_propose); eexists; split; [done|cbn; by eauto 10].
Qed.

Lemma sign_ok : step_ok (signProposedTransferStep_Execute (observed E)) at_propose.
Proof.
  start. destruct HP as (b' & Hb & Hv). cbn in Hb, Hv. subst b.
  unfold signProposedTransferStep_Execute. obs_run. all: base_ok; try exact I.
  all: match goal with H : (?a =? InvalidActionID)%Z = false |- _ => apply Z.eqb_neq in H end.
  all: try (eexists _, _; split; [by eauto|split; [|done]]; split; by eauto).
  all: apply at_step_quorum; eexists; split; [done|]; cbn; split; [by eauto 10|]; split; by eauto 10.
Qed.

Lemma quorum_ok : step_ok (waitForQuorumStep_Execute (observed E)) at_quorum.
Proof.
  start. pose proof (env_u64_quorumMvx E) as Hu. destruct HP as (b' & Hb & Hv & Ha). cbn in Hb, Hv, Ha. subst b.
  unfold waitForQuorumStep_Execute. obs_run. all: try (apply Z.ltb_lt in Heqb; rewrite (u64_incr _ _ Hu) by lia).
  all: base_ok; try exact I.
  - apply at_step_perform. split; [eexists; split; [done|]; cbn; by eauto 10|cbn]. by eauto.
  - apply at_step_quorum. eexists. split; [done|]. cbn. by eauto 10.
Qed.

Lemma perform_ok : step_ok (performActionIDStep_Execute (observed E)) at_perform.
Proof.
  start. destruct HP as [(b' & Hb & Hv & Ha) Hr]. cbn in Hb, Hv, Ha, Hr. subst b.
  unfold performActionIDStep_Execute. obs_run. all: base_ok; try exact I.
  all: try (eexists _, _; split; [done|]; by eauto 10).
  all: apply at_step_perform; split; [eexists; split; [done|]; cbn; by eauto 10|cbn]; by eauto 10.
Qed.

Abbreviation steps := (step_map (stepsSlice (observed E))).

Lemma at_step_ids id s : at_step id s -> id ∈ Identifier <$> stepsSlice (observed E).
Proof.
  unfold at_step, stepsSlice. cbn. rewrite !elem_of_cons.
  repeat (case_match eqn:Heq; [apply String.eqb_eq in Heq; tauto|clear Heq]); done.
Qed.

Lemma metric_keeps (id k v : string) s : inv id s ->
  wp (sm_metric (observed E) k v) (fun _ s' => inv id s') s.
Proof.
  destruct s as [b a h qe qm rw [x tr]]. intros [Hb Ha]. unfold sm_metric. cbn_observed.
  apply wp_silent; [eauto with total|]. intros _ x'. split; [exact Hb|].
  revert Ha. unfold at_step. by repeat case_match.
Qed.

Lemma inv_step : step_invariant (sm_metric (observed E)) steps inv.
Proof.
  intros id st s Hst Hinv. apply wp_bind. eapply wp_mono; [by apply metric_keeps|].
  clear s Hinv. intros _ s [Hbase Hat]. cbn beta.
  assert (Hall : wp (Execute st) inv s).
  { apply step_map_lookup in Hst as [Hst <-]; [|apply EthToMvx_ids_NoDup].
    unfold stepsSlice in Hst. rewrite !elem_of_cons in Hst.
    destruct Hst as [->|[->|[->|[->|[->|Hst]]]]]; [..|by apply not_elem_of_nil in Hst].
    - by apply getPending_ok.
    - by apply propose_ok.
    - by apply sign_ok.
    - by apply quorum_ok.
    - by apply perform_ok. }
  eapply wp_mono; [exact Hall|]. intros next s' Hn. split; [|exact Hn].
  apply step_map_is_Some; [apply EthToMvx_ids_NoDup|]. eapply at_step_ids, Hn.
Qed.

Lemma inv_init x : sm_inv steps inv (mkSm (Some (getPendingStep (observed E))) (initExec (x, []))).
Proof.
  exists GettingPendingBatchFromEthereum, (getPendingStep (observed E)). split; [split; [done|]|].
  - apply step_map_lookup; [apply EthToMvx_ids_NoDup|]. split; [constructor|done].
  - split; [|exact I]. split; [exact I|]. split; [exact I|]. cbn. pose proof (env_u64_quorumMvx E) as [? _]. lia.
Qed.

End Safety.
End EthToMvxSafety.
