(* ===== verification/SafetyMvxToEth.v ===== *)
(** * Safety of the MultiversX -> Ethereum half-bridge

    The invariant of the ten-step machine, indexed by the current step, over the history of
    the executor's calls: what a relayer signs, executes on Ethereum and proposes back to
    MultiversX is justified by what it observed before. *)
From S2P Require Import Prelude Go Batch Interfaces Executor StateMachine StepsMvxToEth Machines Monitor.
Import MvxToEth.

Module MvxToEthSafety.

(** [b] was handed out by the MultiversX multisig as the pending batch, and the validator
    accepted it. *)
Definition pending (b : TransferBatch) (old : list event) : Prop :=
  EvGetPending (Ok (Some b)) ∈ old /\ EvValidate (Some b) (Ok true) ∈ old.

(** A round starts when a pending batch was fetched and is validated. *)
Definition starts (e : event) : bool := match e with EvValidate _ _ => true | _ => false end.
Abbreviation this_round := (since starts 1).

(** This relayer computed [h] for [b] and sent its signature out. *)
Definition signed (h : bytes) (b : TransferBatch) (old : list event) : Prop :=
  EvGenerateHash (Some b) (Ok h) ∈ old /\ EvBroadcast h ∈ old.

(** [b'] is a pending batch whose transfer was seen executed on Ethereum, with the statuses
    Ethereum reported, adjusted to the number of statuses a pending batch fetched again has. *)
Definition settled (b' : TransferBatch) (old : list event) : Prop :=
  exists b again st,
    pending b old /\ EvEthWasExecuted (tb_ID b) (Ok true) ∈ old /\
    EvGetPending (Ok (Some again)) ∈ old /\ EvStatuses (tb_ID b) (Ok st) ∈ old /\ st <> [] /\
    b' = set_Statuses (resolved (length (tb_Statuses again)) st) b.

(** [a] is the action the multisig contract holds for setting the statuses of [b]. *)
Definition action_for (a : Z) (b : TransferBatch) (old : list event) : Prop :=
  a <> InvalidActionID /\ EvActionIDForSetStatus (Some b) (Ok a) ∈ old.

Definition justified (e : event) (old : list event) : Prop :=
  match e with
  | EvGenerateHash ob _ =>
      exists b, ob = Some b /\ pending b (this_round old) /\ EvEthWasExecuted (tb_ID b) (Ok false) ∈ this_round old
  | EvBroadcast h =>
      exists b rest, pending b (this_round old) /\ old = EvGenerateHash (Some b) (Ok h) :: rest
  | EvExecuteTransfer h ob q _ =>
      exists b qs rest, ob = Some b /\ q = i64 qs /\ pending b (this_round old) /\ signed h b (this_round old) /\
        EvEthQuorum h (Ok true) ∈ this_round old /\
        old = EvQuorumSize (Ok qs) :: EvLeader true :: EvEthWasExecuted (tb_ID b) (Ok false) :: rest
  | EvClearSignatures =>
      exists b, pending b (this_round old) /\ EvEthWasExecuted (tb_ID b) (Ok true) ∈ this_round old
  | EvProposeSetStatus ob _ =>
      exists b rest, ob = Some b /\ settled b (this_round old) /\
        old = EvLeader true :: EvWasProposedSetStatus (Some b) (Ok false) :: rest
  | EvSign a _ =>
      exists b rest, settled b (this_round old) /\ action_for a b (this_round old) /\ old = EvWasSigned a (Ok false) :: rest
  | EvPerformAction a ob _ =>
      exists b rest, ob = Some b /\ settled b (this_round old) /\ action_for a b (this_round old) /\
        EvQuorumReached a (Ok true) ∈ this_round old /\
        old = EvLeader true :: EvWasExecuted a (Ok false) :: rest
  | EvProposeTransfer _ _ | EvGetBatch _ _ | EvActionIDForTransfer _ _ => False
  | _ => True
  end.

Lemma pending_mono b old old' : old ⊆ old' -> pending b old -> pending b old'.
Proof. intros Hs [? ?]. split; by apply Hs. Qed.

Lemma signed_mono h b old old' : old ⊆ old' -> signed h b old -> signed h b old'.
Proof. intros Hs [? ?]. split; by apply Hs. Qed.

Lemma settled_mono b old old' : old ⊆ old' -> settled b old -> settled b old'.
Proof.
  intros Hs (b0 & again & st & Hp & ? & ? & ? & ? & ?).
  exists b0, again, st. repeat split; try by apply Hs. all: by (apply Hs, Hp || done).
Qed.

Lemma action_for_mono a b old old' : old ⊆ old' -> action_for a b old -> action_for a b old'.
Proof. intros Hs [? ?]. split; [done|by apply Hs]. Qed.

Section Safety.
Context {X : Type} (E : executorDeps X) `{!EnvLaws E}.
Abbreviation OSt := (execState (X * list event)).

Definition hist (s : OSt) : list event := snd (world s).
Definition now (s : OSt) : list event := this_round (hist s).

Definition holds (P : TransferBatch -> list event -> Prop) (s : OSt) : Prop :=
  exists b, batch s = Some b /\ P b (now s).

Definition at_sign : OSt -> Prop :=
  holds (fun b old => pending b old /\ EvEthWasExecuted (tb_ID b) (Ok false) ∈ old).
Definition at_quorum (s : OSt) : Prop :=
  holds (fun b old => pending b old /\ signed (msgHash s) b old) s.
Definition at_transfer (s : OSt) : Prop := at_quorum s /\ EvEthQuorum (msgHash s) (Ok true) ∈ now s.
Definition at_resolve : OSt -> Prop :=
  holds (fun b old => pending b old /\ EvEthWasExecuted (tb_ID b) (Ok true) ∈ old).
Definition at_propose : OSt -> Prop := holds settled.
Definition at_action (s : OSt) : Prop :=
  holds (fun b old => settled b old /\ action_for (actionID s) b old) s.
Definition at_perform (s : OSt) : Prop := at_action s /\ EvQuorumReached (actionID s) (Ok true) ∈ now s.

Definition at_step (id : string) : OSt -> Prop :=
  if String.eqb id GettingPendingBatchFromMultiversX then fun _ => True
  else if String.eqb id SigningProposedTransferOnEthereum then at_sign
  else if String.eqb id WaitingForQuorumOnTransfer then at_quorum
  else if String.eqb id PerformingTransfer then at_transfer
  else if String.eqb id WaitingTransferConfirmation then at_transfer
  else if String.eqb id ResolvingSetStatusOnMultiversX then at_resolve
  else if String.eqb id ProposingSetStatusOnMultiversX then at_propose
  else if String.eqb id SigningProposedSetStatusOnMultiversX then at_propose
  else if String.eqb id WaitingForQuorumOnSetStatus then at_action
  else if String.eqb id PerformingSetStatus then at_perform
  else fun _ => False.

Definition counters (s : OSt) : Prop :=
  (0 <= quorumRetriesOnEthereum s <= maxQuorumRetriesOnEthereum E)%Z /\
  (0 <= quorumRetriesOnMultiversX s <= maxQuorumRetriesOnMultiversX E)%Z /\
  (0 <= retriesOnWasProposed s <= maxRetriesOnWasProposed E)%Z.

(** The stored batch can be handed to the clients. *)
Definition batch_ok (s : OSt) : Prop := match batch s with Some b => amounts_set b | None => True end.

Definition base (s : OSt) : Prop := tl_ok justified (hist s) /\ batch_ok s /\ counters s.
Definition inv (id : string) (s : OSt) : Prop := base s /\ at_step id s.
Definition step_ok (c : M OSt string) (P : OSt -> Prop) : Prop :=
  forall s, base s -> P s -> wp c inv s.

Lemma to_sign s : at_sign s -> at_step SigningProposedTransferOnEthereum s.
Proof. done. Qed.
Lemma to_quorum s : at_quorum s -> at_step WaitingForQuorumOnTransfer s.
Proof. done. Qed.
Lemma to_transfer s : at_transfer s -> at_step PerformingTransfer s.
Proof. done. Qed.
Lemma to_confirmation s : at_transfer s -> at_step WaitingTransferConfirmation s.
Proof. done. Qed.
Lemma to_resolve s : at_resolve s -> at_step ResolvingSetStatusOnMultiversX s.
Proof. done. Qed.
Lemma to_propose s : at_propose s -> at_step ProposingSetStatusOnMultiversX s.
Proof. done. Qed.
Lemma to_sign_status s : at_propose s -> at_step SigningProposedSetStatusOnMultiversX s.
Proof. done. Qed.
Lemma to_quorum_status s : at_action s -> at_step WaitingForQuorumOnSetStatus s.
Proof. done. Qed.
Lemma to_perform s : at_perform s -> at_step PerformingSetStatus s.
Proof. done. Qed.

(** The retry limits are [uint64] values. *)
Lemma limits_nonneg :
  (0 <= maxQuorumRetriesOnEthereum E /\ 0 <= maxQuorumRetriesOnMultiversX E /\ 0 <= maxRetriesOnWasProposed E)%Z.
Proof.
  pose proof (env_u64_quorumEth E) as [? _]. pose proof (env_u64_quorumMvx E) as [? _].
  pose proof (env_u64_wasProposed E) as [? _]. lia.
Qed.

Ltac start :=
  let b := fresh "b" in let a := fresh "a" in let h := fresh "h" in
  let qe := fresh "qe" in let qm := fresh "qm" in let rw := fresh "rw" in
  let x := fresh "x" in let tr := fresh "tr" in
  intros [b a h qe qm rw [x tr]] (Htr & Hset & Hqe & Hqm & Hrw) HP;
  unfold now, hist, batch_ok in *; cbn in Htr, Hset, Hqe, Hqm, Hrw; pose proof limits_nonneg as (Hle & Hlm & Hlw).

(** Counters that were just incremented stay in range. *)
Ltac incremented :=
  repeat match goal with
  | H : (_ <? _)%Z = true |- _ => apply Z.ltb_lt in H
  end;
  repeat match goal with
  | |- context [u64 (_ + 1)] =>
      first [ rewrite (u64_incr _ _ (env_u64_quorumEth E)) by lia
            | rewrite (u64_incr _ _ (env_u64_quorumMvx E)) by lia
            | rewrite (u64_incr _ _ (env_u64_wasProposed E)) by lia ]
  end.

Ltac sub_hist := repeat intro; repeat apply list_elem_of_further; assumption.
Ltac seen := repeat first [apply list_elem_of_here | assumption | apply list_elem_of_further].
Ltac grown :=
  cbn; first
  [ assumption
  | lazymatch goal with
    | H : pending ?b _ |- pending ?b _ => eapply pending_mono; [|exact H]; sub_hist
    | H : signed ?h ?b _ |- signed ?h ?b _ => eapply signed_mono; [|exact H]; sub_hist
    | H : settled ?b _ |- settled ?b _ => eapply settled_mono; [|exact H]; sub_hist
    | H : action_for ?a ?b _ |- action_for ?a ?b _ => eapply action_for_mono; [|exact H]; sub_hist
    | |- _ ∈ _ => seen
    | |- pending _ _ => split; seen
    | |- signed _ _ _ => split; seen
    | |- action_for _ _ _ => split; [done|seen]
    end
  | done ].

(** Which state predicate the step named next needs. *)
Ltac next_step :=
  lazymatch goal with
  | |- at_step SigningProposedTransferOnEthereum _ => apply to_sign
  | |- at_step WaitingForQuorumOnTransfer _ => apply to_quorum
  | |- at_step PerformingTransfer _ => apply to_transfer
  | |- at_step WaitingTransferConfirmation _ => apply to_confirmation
  | |- at_step ResolvingSetStatusOnMultiversX _ => apply to_resolve
  | |- at_step ProposingSetStatusOnMultiversX _ => apply to_propose
  | |- at_step SigningProposedSetStatusOnMultiversX _ => apply to_sign_status
  | |- at_step WaitingForQuorumOnSetStatus _ => apply to_quorum_status
  | |- at_step PerformingSetStatus _ => apply to_perform
  | |- at_step GettingPendingBatchFromMultiversX _ => exact I
  | _ => idtac
  end.
(** The new part of the history and the counters; the goal left is about the next step. *)
Ltac base_ok :=
  split; [split; [cbn; repeat match goal with |- _ /\ _ => split end; try exact I; try assumption
                 |split; [unfold batch_ok; cbn; assumption|unfold counters; cbn; incremented; lia]]
         |next_step].
Ltac witness_batch := eexists; cbn; repeat match goal with |- _ /\ _ => split end; first [done | grown].

Lemma m2e_getPending_ok : step_ok (getPendingStep_Execute (observed E)) (fun _ => True).
Proof.
  start. unfold getPendingStep_Execute, resetCountersOnMultiversX. obs_run. all: base_ok.
  all: witness_batch.
Qed.

Lemma signTransfer_ok : step_ok (signProposedTransferStep_Execute (observed E)) at_sign.
Proof.
  start. destruct HP as (b' & Hb & Hp & Hx). cbn in Hb, Hp, Hx. subst b.
  unfold signProposedTransferStep_Execute. obs_run. all: base_ok.
  all: try (eexists; split; [done|split; grown]).
  eexists _, _. split; [|done]. grown.
Qed.

Lemma quorumTransfer_ok : step_ok (waitForQuorumOnTransferStep_Execute (observed E)) at_quorum.
Proof.
  start. destruct HP as (b' & Hb & Hp & Hs). cbn in Hb, Hp, Hs. subst b.
  unfold waitForQuorumOnTransferStep_Execute. obs_run. all: base_ok.
  - split; [witness_batch|cbn; seen].
  - witness_batch.
Qed.

Lemma performTransfer_ok : step_ok (performTransferStep_Execute (observed E)) at_transfer.
Proof.
  start. destruct HP as [(b' & Hb & Hp & Hs) Hq]. cbn in Hb, Hp, Hs, Hq. subst b.
  unfold performTransferStep_Execute. obs_run. all: base_ok.
  all: try (eexists _, _, _; split; [done|]; split; [done|]; split; [grown|]; split; [grown|]; split; [grown|done]).
  all: first [witness_batch | split; [witness_batch|cbn; seen]].
Qed.

(** The waiting loops only add reads of the Ethereum contract to the history. *)
Definition eth_read (e : event) : Prop :=
  match e with EvEthWasExecuted _ _ | EvStatuses _ _ => True | _ => False end.

Lemma eth_reads_ok new tr : Forall eth_read new -> tl_ok justified tr -> tl_ok justified (new ++ tr).
Proof.
  intros Hn Htr. induction Hn as [|e new He Hn IH]; [done|]. cbn. split; [by destruct e|done].
Qed.

Lemma reads_round new tr : Forall eth_read new -> this_round (new ++ tr) = new ++ this_round tr.
Proof. intros Hn. apply since_app. eapply Forall_impl; [exact Hn|]. by intros []. Qed.

Lemma waitConfirmation_reads n b a h qe qm rw x tr :
  wp (waitConfirmation_loop (observed E) n)
    (fun _ s => exists x' new, s = mkExec (Some b) a h qe qm rw (x', new ++ tr) /\ Forall eth_read new)
    (mkExec (Some b) a h qe qm rw (x, tr)).
Proof.
  revert x tr. induction n as [|n IH]; intros x tr; [by eexists x, []|].
  cbn [waitConfirmation_loop]. obs_run.
  - eexists _, [_]. split; [done|]. by repeat constructor.
  - eapply wp_mono; [apply IH|]. intros _ s (x1 & new & -> & Hn). eexists _, (new ++ [_]).
    split; [by rewrite <-app_assoc|]. apply Forall_app. split; [done|by repeat constructor].
  - apply IH.
Qed.

Lemma waitStatuses_reads n b a h qe qm rw x tr :
  wp (waitStatuses_loop (observed E) n)
    (fun st s => exists x' new, s = mkExec (Some b) a h qe qm rw (x', new ++ tr) /\ Forall eth_read new /\
       (st <> [] -> EvStatuses (tb_ID b) (Ok st) ∈ new))
    (mkExec (Some b) a h qe qm rw (x, tr)).
Proof.
  revert x tr. induction n as [|n IH]; intros x tr; [by eexists x, []|].
  assert (Hagain : forall x ev, eth_read ev -> wp (waitStatuses_loop (observed E) n)
    (fun st s => exists x' new, s = mkExec (Some b) a h qe qm rw (x', new ++ tr) /\ Forall eth_read new /\
       (st <> [] -> EvStatuses (tb_ID b) (Ok st) ∈ new)) (mkExec (Some b) a h qe qm rw (x, ev :: tr))).
  { intros x1 ev Hev. eapply wp_mono; [apply IH|]. intros st s (x' & new & -> & Hn & Hst). eexists _, (new ++ [_]).
    split; [by rewrite <-app_assoc|]. split; [apply Forall_app; split; [done|by repeat constructor]|].
    intros Hne. apply elem_of_app. left. by apply Hst. }
  cbn [waitStatuses_loop]. obs_run; try by apply Hagain.
  - eexists _, [_]. split; [done|]. split; [by repeat constructor|]. intros _. constructor.
  - eexists _, []. done.
Qed.

Lemma waitConfirmation_ok : step_ok (waitTransferConfirmationStep_Execute (observed E)) at_transfer.
Proof.
  start. destruct HP as [(b' & Hb & Hp & Hs) Hq]. cbn in Hb, Hp, Hs, Hq. subst b.
  apply wp_bind. eapply wp_mono; [apply waitConfirmation_reads|]. intros _ s (x1 & new & -> & Hn).
  apply wp_ret. assert (Hsub : this_round tr ⊆ this_round (new ++ tr)).
  { rewrite reads_round by done. intros e He. apply elem_of_app. by right. }
  split; [split; [by apply eth_reads_ok|by split]|]. next_step. split; [|by apply Hsub].
  eexists. split; [done|]. split; [by eapply pending_mono|by eapply signed_mono].
Qed.

(** The length of a slice survives the conversions [int -> uint64 -> int]. *)
Lemma i64_len b : go_batch b -> i64 (u64 (Z.of_nat (length (tb_Statuses b)))) = Z.of_nat (length (tb_Statuses b)).
Proof.
  intros [Hb _]. unfold i64, u64, two64, two63 in *.
  rewrite (Z.mod_small (Z.of_nat _)) by lia. rewrite Z.mod_small by lia. lia.
Qed.

Local Opaque waitStatuses_loop.

Lemma resolve_ok : step_ok (resolveSetStatusStep_Execute (observed E)) at_resolve.
Proof.
  start. destruct HP as (b' & Hb & Hp & Hx). cbn in Hb, Hp, Hx. subst b.
  unfold resolveSetStatusStep_Execute, WaitAndReturnFinalBatchStatuses. obs_run. 2: base_ok; by exists b'.
  eapply wp_mono; [apply waitStatuses_reads|]. intros st s (x9 & new & -> & Hn & Hst). cbn beta.
  assert (Hall : tl_ok justified (new ++ EvGetPending (Ok (Some t)) :: EvClearSignatures :: tr)).
  { apply eth_reads_ok; [done|]. cbn. repeat split; [by exists b'|done]. }
  set (hist' := new ++ _) in *.
  assert (Hround : this_round hist' = new ++ EvGetPending (Ok (Some t)) :: EvClearSignatures :: this_round tr)
    by (unfold hist'; by rewrite reads_round).
  assert (Hsub : this_round tr ⊆ this_round hist').
  { intros e He. rewrite Hround. apply elem_of_app. right. seen. }
  assert (Hag : EvGetPending (Ok (Some t)) ∈ this_round hist') by (rewrite Hround; apply elem_of_app; right; seen).
  destruct st as [|c st]; [split; [split; [exact Hall|by split]|exact I]|].
  assert (HR : ResolveNewDeposits (i64 (u64 (Z.of_nat (length (tb_Statuses t))))) (set_Statuses (c :: st) b') =
    Ret (set_Statuses (resolved (length (tb_Statuses t)) (c :: st)) b')).
  { rewrite i64_len by done. rewrite ResolveNewDeposits_resolved by lia. by rewrite Nat2Z.id. }
  obs_run; [injection HR as ->|discriminate HR].
  split; [split; [exact Hall|by split]|]. next_step. eexists. split; [done|].
  exists b', t, (c :: st). split; [by eapply pending_mono|]. split; [by apply Hsub|]. split; [done|].
  split; [unfold now; cbn; rewrite Hround; apply elem_of_app; left; by apply Hst|]. done.
Qed.

Lemma m2e_propose_ok : step_ok (proposeSetStatusStep_Execute (observed E)) at_propose.
Proof.
  start. destruct HP as (b' & Hb & Hs). cbn in Hb, Hs. subst b.
  unfold proposeSetStatusStep_Execute. obs_run. all: base_ok.
  all: try (eexists _, _; split; [done|]; split; [grown|done]).
  all: eexists; split; [done|]; cbn; grown.
Qed.

Lemma signStatus_ok : step_ok (signProposedSetStatusStep_Execute (observed E)) at_propose.
Proof.
  start. destruct HP as (b' & Hb & Hs). cbn in Hb, Hs. subst b.
  unfold signProposedSetStatusStep_Execute. obs_run. all: base_ok.
  all: match goal with H : (?a =? InvalidActionID)%Z = false |- _ => apply Z.eqb_neq in H end.
  all: try (exists b'; eexists; split; [grown|]; split; [split; [done|seen]|done]).
  all: eexists; split; [done|]; cbn; split; [grown|split; [done|seen]].
Qed.

Lemma quorumStatus_ok : step_ok (waitForQuorumOnSetStatusStep_Execute (observed E)) at_action.
Proof.
  start. destruct HP as (b' & Hb & Hs & Ha). cbn in Hb, Hs, Ha. subst b.
  unfold waitForQuorumOnSetStatusStep_Execute. obs_run. all: base_ok.
  - split; [witness_batch|cbn; seen].
  - witness_batch.
Qed.

Lemma performStatus_ok : step_ok (performSetStatusStep_Execute (observed E)) at_perform.
Proof.
  start. destruct HP as [(b' & Hb & Hs & Ha) Hq]. cbn in Hb, Hs, Ha, Hq. subst b.
  unfold performSetStatusStep_Execute. obs_run. all: base_ok.
  all: try (eexists _, _; split; [done|]; split; [grown|]; split; [grown|]; split; [grown|done]).
  all: split; [witness_batch|cbn; seen].
Qed.

Abbreviation steps := (step_map (stepsSlice (observed E))).

Lemma m2e_at_step_ids id s : at_step id s -> id ∈ Identifier <$> stepsSlice (observed E).
Proof.
  unfold at_step, stepsSlice. cbn. rewrite !elem_of_cons.
  repeat (case_match eqn:Heq; [apply String.eqb_eq in Heq; tauto|clear Heq]); done.
Qed.

Lemma m2e_metric_keeps (id k v : string) s : inv id s ->
  wp (sm_metric (observed E) k v) (fun _ s' => inv id s') s.
Proof.
  destruct s as [b a h qe qm rw [x tr]]. intros [Hb Ha]. unfold sm_metric. cbn_observed.
  apply wp_silent; [eauto with total|]. intros _ x'. split; [exact Hb|].
  revert Ha. unfold at_step. by repeat case_match.
Qed.

Lemma step_cases st s : st ∈ stepsSlice (observed E) -> base s -> at_step (Identifier st) s -> wp (Execute st) inv s.
Proof.
  unfold stepsSlice. rewrite !elem_of_cons. intros Hst Hb Ha.
  destruct Hst as [->|[->|[->|[->|[->|[->|[->|[->|[->|[->|Hst]]]]]]]]]].
  - by apply m2e_getPending_ok.
  - by apply signTransfer_ok.
  - by apply quorumTransfer_ok.
  - by apply performTransfer_ok.
  - by apply waitConfirmation_ok.
  - by apply resolve_ok.
  - by apply m2e_propose_ok.
  - by apply signStatus_ok.
  - by apply quorumStatus_ok.
  - by apply performStatus_ok.
  - by apply not_elem_of_nil in Hst.
Qed.

Lemma m2e_inv_step : step_invariant (sm_metric (observed E)) steps inv.
Proof.
  intros id st s Hst Hinv. apply wp_bind. eapply wp_mono; [by apply m2e_metric_keeps|].
  clear s Hinv. intros _ s [Hbase Hat]. cbn beta.
  apply step_map_lookup in Hst as [Hst <-]; [|apply MvxToEth_ids_NoDup].
  eapply wp_mono; [by apply step_cases|]. intros next s' Hn. split; [|exact Hn].
  apply step_map_is_Some; [apply MvxToEth_ids_NoDup|]. eapply m2e_at_step_ids, Hn.
Qed.

Lemma m2e_inv_init x : sm_inv steps inv (mkSm (Some (getPendingStep (observed E))) (initExec (x, []))).
Proof.
  exists GettingPendingBatchFromMultiversX, (getPendingStep (observed E)). split; [split; [done|]|].
  - apply step_map_lookup; [apply MvxToEth_ids_NoDup|]. split; [constructor|done].
  - pose proof limits_nonneg. split; [|exact I]. split; [exact I|]. split; [exact I|]. unfold counters. cbn. lia.
Qed.

End Safety.
End MvxToEthSafety.
