(* ===== verification/Erasure.v ===== *)
(** * Observation changes nothing

    The runs of both state machines over an executor and over its observed version go through
    the same steps with the same results; only the history is added.  What the safety
    theorems say of the observed machines therefore holds of the machines themselves. *)
From S2P Require Import Prelude Go Batch Interfaces Executor StateMachine StepsEthToMvx StepsMvxToEth Machines Monitor.

Section Machine.
Context {X : Type} (E : executorDeps X).
Abbreviation OSt := (execState (X * list event)).

Definition same_step (o : Step OSt) (s : Step (execState X)) : Prop :=
  Identifier o = Identifier s /\ erases (Execute o) (Execute s).

Definition same_machine (om : smState OSt) (m : smState (execState X)) : Prop :=
  option_Forall2 same_step (currentStep om) (currentStep m) /\ inner m = erase (inner om).

(** Related computations of the two machines. *)
Definition sm_sim {A} (oc : M (smState OSt) A) (c : M (smState (execState X)) A) : Prop :=
  forall om m, same_machine om m ->
    fst (c m) = fst (oc om) /\ same_machine (snd (oc om)) (snd (c m)).

Lemma sm_sim_bind {A B} oc c (ok : A -> M _ B) k :
  sm_sim oc c -> (forall a, sm_sim (ok a) (k a)) -> sm_sim (mbind ok oc) (mbind k c).
Proof.
  intros Hc Hk om m Hm. unfold mbind, M_bind. destruct (Hc om m Hm) as [H1 H2].
  destruct (oc om) as [oo om'], (c m) as [o m']; simpl in *. subst o.
  destruct oo as [a|p]; [by apply Hk|done].
Qed.

Lemma sm_sim_ret {A} (a : A) : sm_sim (mret a) (mret a).
Proof. done. Qed.

Lemma sm_sim_inner {A} (oc : M OSt A) c : erases oc c -> sm_sim (on_inner oc) (on_inner c).
Proof.
  intros H om m [Hs Hi]. unfold on_inner, zoom. rewrite Hi, H.
  destruct (oc (inner om)) as [o s]. done.
Qed.

Lemma erases_metric k v : erases (sm_metric (observed E) k v) (sm_metric E k v).
Proof. apply erases_silent. Qed.

Context (ol : list (Step OSt)) (l : list (Step (execState X))).
Hypothesis Hl : Forall2 same_step ol l.

Lemma same_lookup id : option_Forall2 same_step (step_map ol !! id) (step_map l !! id).
Proof.
  revert Hl. clear. intros H. induction H as [|o s ol' l' [Hid He] _ IH]; [constructor|].
  unfold step_map in *. cbn. rewrite Hid. destruct (decide (Identifier s = id)) as [->|Hne].
  - rewrite !lookup_insert_eq. by constructor.
  - rewrite !lookup_insert_ne by done. exact IH.
Qed.

(** What a machine does once its current step is known. *)
Definition step_body {S} (metric : string -> string -> M S unit) (steps : gmap string (Step S)) (st : Step S)
    : M (smState S) (option error) :=
  on_inner (metric MetricCurrentStateMachineStep (Identifier st));;
  nextStepIdentifier ← on_inner (Execute st);
  match getNextStep steps nextStepIdentifier with
  | Ok st' => modify (fun m => mkSm (Some st') (inner m));; mret None
  | Err e => modify (fun m => mkSm None (inner m));; mret (Some e)
  end.

Lemma sm_Execute_body {S} metric (steps : gmap string (Step S)) m :
  sm_Execute metric steps m =
  match currentStep m with Some st => step_body metric steps st m | None => (Panic NilDereference, m) end.
Proof. unfold sm_Execute, executeStep. unfold mbind at 1, M_bind, gets. by destruct (currentStep m). Qed.

Lemma step_body_sim o st : same_step o st ->
  sm_sim (step_body (sm_metric (observed E)) (step_map ol) o) (step_body (sm_metric E) (step_map l) st).
Proof.
  intros [Hid He]. unfold step_body. rewrite Hid.
  apply sm_sim_bind; [apply sm_sim_inner, erases_metric|]. intros _.
  apply sm_sim_bind; [by apply sm_sim_inner|]. intros next om m [Hc Hin].
  unfold getNextStep. destruct (same_lookup next) as [o' s' Hos|]; cbn.
  - split; [done|]. split; [by constructor|done].
  - split; [done|]. split; [constructor|done].
Qed.

Lemma sm_Execute_sim :
  sm_sim (sm_Execute (sm_metric (observed E)) (step_map ol)) (sm_Execute (sm_metric E) (step_map l)).
Proof.
  intros om m Hm. pose proof Hm as [Hs _]. rewrite !sm_Execute_body.
  destruct Hs as [o st Hos|]; [by apply step_body_sim|done].
Qed.

Lemma run_sim n :
  sm_sim (run (sm_metric (observed E)) (step_map ol) n) (run (sm_metric E) (step_map l) n).
Proof.
  induction n as [|n IH]; [apply sm_sim_ret|]. cbn [run].
  apply sm_sim_bind; [apply sm_Execute_sim|]. intros e.
  apply sm_sim_bind; [apply IH|]. intros es. apply sm_sim_ret.
Qed.

End Machine.

Section Steps.
Context {X : Type} (E : executorDeps X).

Ltac step_erases := split; [done|]; cbn [Execute]; unfold_executor; cbn_observed; solve_erases.

Lemma waitConfirmation_erases n : erases (waitConfirmation_loop (observed E) n) (waitConfirmation_loop E n).
Proof.
  induction n as [|n IH]; [apply erases_ret|]. cbn [waitConfirmation_loop]. unfold_executor. cbn_observed.
  solve_erases. exact IH.
Qed.

Lemma waitStatuses_erases n : erases (waitStatuses_loop (observed E) n) (waitStatuses_loop E n).
Proof.
  induction n as [|n IH]; [apply erases_ret|]. cbn [waitStatuses_loop]. unfold_executor. cbn_observed.
  solve_erases; exact IH.
Qed.

Local Opaque waitStatuses_loop waitConfirmation_loop.

Lemma EthToMvx_same : Forall2 same_step (EthToMvx.stepsSlice (observed E)) (EthToMvx.stepsSlice E).
Proof.
  unfold EthToMvx.stepsSlice. repeat constructor; try done; cbn [Execute EthToMvx.getPendingStep
    EthToMvx.proposeTransferStep EthToMvx.signProposedTransferStep EthToMvx.waitForQuorumStep EthToMvx.performActionIDStep].
  - unfold EthToMvx.getPendingStep_Execute. unfold_executor. cbn_observed. solve_erases.
  - unfold EthToMvx.proposeTransferStep_Execute. unfold_executor. cbn_observed. solve_erases.
  - unfold EthToMvx.signProposedTransferStep_Execute. unfold_executor. cbn_observed. solve_erases.
  - unfold EthToMvx.waitForQuorumStep_Execute. unfold_executor. cbn_observed. solve_erases.
  - unfold EthToMvx.performActionIDStep_Execute. unfold_executor. cbn_observed. solve_erases.
Qed.

Lemma MvxToEth_same : Forall2 same_step (MvxToEth.stepsSlice (observed E)) (MvxToEth.stepsSlice E).
Proof.
  unfold MvxToEth.stepsSlice. repeat constructor; try done; cbn [Execute MvxToEth.getPendingStep
    MvxToEth.signProposedTransferStep MvxToEth.waitForQuorumOnTransferStep MvxToEth.performTransferStep
    MvxToEth.waitTransferConfirmationStep MvxToEth.resolveSetStatusStep MvxToEth.proposeSetStatusStep
    MvxToEth.signProposedSetStatusStep MvxToEth.waitForQuorumOnSetStatusStep MvxToEth.performSetStatusStep].
  - unfold MvxToEth.getPendingStep_Execute, MvxToEth.resetCountersOnMultiversX. unfold_executor. cbn_observed. solve_erases.
  - unfold MvxToEth.signProposedTransferStep_Execute. unfold_executor. cbn_observed. solve_erases.
  - unfold MvxToEth.waitForQuorumOnTransferStep_Execute. unfold_executor. cbn_observed. solve_erases.
  - unfold MvxToEth.performTransferStep_Execute. unfold_executor. cbn_observed. solve_erases.
  - apply erases_bind; [apply waitConfirmation_erases|]. intros _. apply erases_ret.
  - unfold MvxToEth.resolveSetStatusStep_Execute, WaitAndReturnFinalBatchStatuses. unfold_executor. cbn_observed.
    solve_erases. apply waitStatuses_erases.
  - unfold MvxToEth.proposeSetStatusStep_Execute. unfold_executor. cbn_observed. solve_erases.
  - unfold MvxToEth.signProposedSetStatusStep_Execute. unfold_executor. cbn_observed. solve_erases.
  - unfold MvxToEth.waitForQuorumOnSetStatusStep_Execute. unfold_executor. cbn_observed. solve_erases.
  - unfold MvxToEth.performSetStatusStep_Execute. unfold_executor. cbn_observed. solve_erases.
Qed.

End Steps.
