(* ===== verification/Hoist.v ===== *)
(** * Moving interfaces between worlds

    A client keeps its own state; the executor sees every client through one world.  A map
    [h] from computations over [X] to computations over [Y] moves each interface record, and
    if [h] preserves what a computation always returns, it preserves the interfaces' laws. *)
From S2P Require Import Prelude Go Batch Interfaces Executor Monitor.

(** Whatever a computation returns from every state, its image returns too. *)
Definition preserving {X Y} (h : forall A, M X A -> M Y A) : Prop :=
  forall A (c : M X A) (Q : A -> Prop), (forall x, wp c (fun a _ => Q a) x) -> forall y, wp (h A c) (fun a _ => Q a) y.

Section Hoist.
Context {X Y : Type} (h : forall A, M X A -> M Y A).

Definition hoist_mx (c : MultiversXClient X) : MultiversXClient Y := {|
  mx_GetPending := h _ (mx_GetPending c);
  mx_WasProposedTransfer b := h _ (mx_WasProposedTransfer c b);
  mx_QuorumReached a := h _ (mx_QuorumReached c a);
  mx_WasExecuted a := h _ (mx_WasExecuted c a);
  mx_GetActionIDForProposeTransfer b := h _ (mx_GetActionIDForProposeTransfer c b);
  mx_WasProposedSetStatus b := h _ (mx_WasProposedSetStatus c b);
  mx_GetActionIDForSetStatusOnPendingTransfer b := h _ (mx_GetActionIDForSetStatusOnPendingTransfer c b);
  mx_GetLastExecutedEthBatchID := h _ (mx_GetLastExecutedEthBatchID c);
  mx_GetLastExecutedEthTxID := h _ (mx_GetLastExecutedEthTxID c);
  mx_ProposeSetStatus b := h _ (mx_ProposeSetStatus c b);
  mx_ProposeTransfer b := h _ (mx_ProposeTransfer c b);
  mx_Sign a := h _ (mx_Sign c a);
  mx_WasSigned a := h _ (mx_WasSigned c a);
  mx_PerformAction a b := h _ (mx_PerformAction c a b);
  mx_CheckClientAvailability := h _ (mx_CheckClientAvailability c) |}.

Definition hoist_eth (c : EthereumClient X) : EthereumClient Y := {|
  eth_GetBatch n := h _ (eth_GetBatch c n);
  eth_WasExecuted n := h _ (eth_WasExecuted c n);
  eth_GenerateMessageHash b := h _ (eth_GenerateMessageHash c b);
  eth_BroadcastSignatureForMessageHash m := h _ (eth_BroadcastSignatureForMessageHash c m);
  eth_ExecuteTransfer m b q := h _ (eth_ExecuteTransfer c m b q);
  eth_GetTransactionsStatuses n := h _ (eth_GetTransactionsStatuses c n);
  eth_GetQuorumSize := h _ (eth_GetQuorumSize c);
  eth_IsQuorumReached m := h _ (eth_IsQuorumReached c m);
  eth_CheckClientAvailability := h _ (eth_CheckClientAvailability c) |}.

Definition hoist_status (c : StatusHandler X) : StatusHandler Y := {|
  sh_SetIntMetric k v := h _ (sh_SetIntMetric c k v);
  sh_AddIntMetric k v := h _ (sh_AddIntMetric c k v);
  sh_SetStringMetric k v := h _ (sh_SetStringMetric c k v) |}.

Definition hoist_topology (c : TopologyProvider X) : TopologyProvider Y :=
  {| top_MyTurnAsLeader := h _ (top_MyTurnAsLeader c) |}.

Definition hoist_holder (c : SignaturesHolder X) : SignaturesHolder Y := {|
  sig_Signatures m := h _ (sig_Signatures c m);
  sig_ClearStoredSignatures := h _ (sig_ClearStoredSignatures c) |}.

Definition hoist_validator (c : BatchValidator X) : BatchValidator Y :=
  {| val_ValidateBatch b := h _ (val_ValidateBatch c b) |}.

(** The whole executor. *)
Definition hoist (E : executorDeps X) : executorDeps Y := {|
  topologyProvider := hoist_topology (topologyProvider E);
  multiversXClient := hoist_mx (multiversXClient E);
  ethereumClient := hoist_eth (ethereumClient E);
  timeForWaitOnEthereum := timeForWaitOnEthereum E;
  statusHandler := hoist_status (statusHandler E);
  sigsHolder := hoist_holder (sigsHolder E);
  batchValidator := hoist_validator (batchValidator E);
  maxQuorumRetriesOnEthereum := maxQuorumRetriesOnEthereum E;
  maxQuorumRetriesOnMultiversX := maxQuorumRetriesOnMultiversX E;
  maxRetriesOnWasProposed := maxRetriesOnWasProposed E;
  level_String := level_String E;
  xd_select d := h _ (xd_select E d) |}.

Hypothesis h_ok : preserving h.

Lemma hoist_total {A} (c : M X A) : total c -> total (h _ c).
Proof. intros Hc. exact (h_ok A c (fun _ => True) Hc). Qed.
Local Hint Resolve hoist_total : total.

Lemma hoist_mx_laws c : MultiversXClientLaws c -> MultiversXClientLaws (hoist_mx c).
Proof. intros H. split; cbn; intros; [exact (h_ok _ _ fetched mx_pending_batch)|eauto with total..]. Qed.

Lemma hoist_eth_laws c : EthereumClientLaws c -> EthereumClientLaws (hoist_eth c).
Proof.
  intros H. split; cbn; intros; [exact (h_ok _ _ fetched (eth_batch n))| | | | | | | |]; try by eauto with total.
  exact (h_ok _ _ (fun r => match r with Ok q => (0 <= q < two63)%Z | Err _ => True end) eth_quorum).
Qed.

Lemma hoist_status_laws c : StatusHandlerLaws c -> StatusHandlerLaws (hoist_status c).
Proof. intros H. split; cbn; intros; eauto with total. Qed.

Lemma hoist_laws (E : executorDeps X) : EnvLaws E -> EnvLaws (hoist E).
Proof.
  intros H. destruct H. split; cbn; intros; try done; auto using hoist_mx_laws, hoist_eth_laws, hoist_status_laws, hoist_total.
Qed.

End Hoist.

(** A component of a larger state. *)
Lemma zoom_preserving {S X} (get : S -> X) (put : X -> S -> S) : preserving (fun A => zoom (A := A) get put).
Proof. intros A c Q Hc s. apply wp_zoom. eapply wp_mono; [apply Hc|done]. Qed.
