(* ===== verification/Demo.v ===== *)
(** * A small environment

    One relayer that is always the leader, one batch in each direction, contracts that
    remember whether the transfer and the action were executed.  It instantiates the
    interfaces of the executor, satisfies their laws, and drives the examples. *)
From S2P Require Import Prelude Go Batch Interfaces Executor Monitor.

Record demoWorld := mkDemo { ethDone : bool; mvxDone : bool; notes : list (string * string) }.

Definition demo_deposit : DepositTransfer :=
  mkDeposit 8 [Byte.x01] "to" [Byte.x02] "from" [Byte.x03] [Byte.x04] "token" (Some 1000%Z).
Definition demo_batch : TransferBatch := mkBatch 5 [demo_deposit] [Byte.x00].
Definition demo_hash : bytes := [Byte.xaa].

Definition answer {A} (a : A) : M demoWorld (res A) := mret (Ok a).
Definition note (k v : string) : M demoWorld unit := modify (fun w => mkDemo (ethDone w) (mvxDone w) ((k, v) :: notes w)).

Definition demo_mx : MultiversXClient demoWorld := {|
  mx_GetPending := answer (Some demo_batch);
  mx_WasProposedTransfer _ := answer false;
  mx_QuorumReached _ := answer true;
  mx_WasExecuted _ := gets (fun w => Ok (mvxDone w));
  mx_GetActionIDForProposeTransfer _ := answer 3%Z;
  mx_WasProposedSetStatus _ := answer false;
  mx_GetActionIDForSetStatusOnPendingTransfer _ := answer 4%Z;
  mx_GetLastExecutedEthBatchID := answer 4%Z;
  mx_GetLastExecutedEthTxID := answer 7%Z;
  mx_ProposeSetStatus _ := answer "hash";
  mx_ProposeTransfer _ := answer "hash";
  mx_Sign _ := answer "hash";
  mx_WasSigned _ := answer false;
  mx_PerformAction _ _ := (modify (fun w => mkDemo (ethDone w) true (notes w));; answer "hash");
  mx_CheckClientAvailability := mret None |}.

Definition demo_eth : EthereumClient demoWorld := {|
  eth_GetBatch _ := answer (Some demo_batch);
  eth_WasExecuted _ := gets (fun w => Ok (ethDone w));
  eth_GenerateMessageHash _ := answer demo_hash;
  eth_BroadcastSignatureForMessageHash _ := mret tt;
  eth_ExecuteTransfer _ _ _ := (modify (fun w => mkDemo true (mvxDone w) (notes w));; answer "hash");
  eth_GetTransactionsStatuses _ := answer [Executed];
  eth_GetQuorumSize := answer 1%Z;
  eth_IsQuorumReached _ := answer true;
  eth_CheckClientAvailability := mret None |}.

Definition demo_env : executorDeps demoWorld := {|
  topologyProvider := {| top_MyTurnAsLeader := mret true |};
  multiversXClient := demo_mx;
  ethereumClient := demo_eth;
  timeForWaitOnEthereum := 1000000000;
  statusHandler := {| sh_SetIntMetric _ _ := mret tt; sh_AddIntMetric _ _ := mret tt; sh_SetStringMetric := note |};
  sigsHolder := {| sig_Signatures _ := mret []; sig_ClearStoredSignatures := mret tt |};
  batchValidator := {| val_ValidateBatch _ := answer true |};
  maxQuorumRetriesOnEthereum := 3;
  maxQuorumRetriesOnMultiversX := 3;
  maxRetriesOnWasProposed := 3;
  level_String _ := "LEVEL";
  xd_select _ := mret true |}.

Definition demo_start : demoWorld := mkDemo false false [].

#[export] Instance demo_laws : EnvLaws demo_env.
Proof. repeat split; try done; first [by vm_compute | by repeat econstructor]. Qed.
