(* ===== verification/Bridge.v ===== *)
(** * What the two half-bridges guarantee

    The theorems about whole runs of the machines the factory builds: safety of both
    directions, absence of panics and errors, equality with the observed machine, and the
    bound on the waiting steps. *)
From S2P Require Import Prelude Go Batch Interfaces Executor StateMachine StepsEthToMvx StepsMvxToEth Machines Monitor SafetyEthToMvx SafetyMvxToEth Erasure Hoist Demo.
Open Scope go_scope.

(** A run of [n] calls of [Execute] on the machine a factory function returned. *)
Definition run_machine {X} (E : executorDeps X)
    (created : res (gmap string (Step (execState X)) * smState (execState X))) (n : nat)
    : res (outcome (list error) * smState (execState X)) :=
  res_map (fun '(steps, m) => run (sm_metric E) steps n m) created.

(** The run returned, without a single error, in a state that satisfies [P]. *)
Definition runs_to {S} (r : res (outcome (list error) * smState S)) (P : S -> Prop) : Prop :=
  exists m, r = Ok (Ret [], m) /\ P (inner m).

Section Runs.
Context {X : Type} (E : executorDeps X).

Definition eth_to_mvx_run (s : execState X) (n : nat) :=
  run_machine E (createEthereumToMultiversXStateMachine E s) n.
Definition mvx_to_eth_run (s : execState X) (n : nat) :=
  run_machine E (createMultiversXToEthereumStateMachine E s) n.

Lemma runs_to_wp {S} (c : M (smState S) (list error)) m (P : S -> Prop) :
  wp c (fun es m' => es = [] /\ P (inner m')) m -> runs_to (Ok (c m)) P.
Proof.
  unfold wp. destruct (c m) as [[es|p] m'] eqn:Hc; [|done]. intros [-> HP]. by exists m'.
Qed.
End Runs.

(** ** Safety *)

(** A run keeps the machine's invariant, from the first state on. *)
Lemma eth_to_mvx_runs {X} (E : executorDeps X) x n : EnvLaws E ->
  runs_to (eth_to_mvx_run (observed E) (initExec (x, [])) n)
          (fun s => tl_ok EthToMvxSafety.justified (snd (world s))).
Proof.
  intros HE. unfold eth_to_mvx_run, run_machine. rewrite EthToMvx_machine. cbn [res_map]. apply runs_to_wp.
  eapply wp_mono; [apply run_inv; [apply EthToMvxSafety.inv_step; done|apply EthToMvxSafety.inv_init; done]|].
  intros es m [-> (id & st & _ & [Hb _] & _)]. done.
Qed.

Lemma mvx_to_eth_runs {X} (E : executorDeps X) x n : EnvLaws E ->
  runs_to (mvx_to_eth_run (observed E) (initExec (x, [])) n)
          (fun s => tl_ok MvxToEthSafety.justified (snd (world s))).
Proof.
  intros HE. unfold mvx_to_eth_run, run_machine. rewrite MvxToEth_machine. cbn [res_map]. apply runs_to_wp.
  eapply wp_mono; [apply run_inv; [apply MvxToEthSafety.m2e_inv_step; done|apply MvxToEthSafety.m2e_inv_init; done]|].
  intros es m [-> (id & st & _ & [Hb _] & _)]. done.
Qed.

(** C1. For every environment that obeys the interfaces' laws and for any number of calls of
    [Execute], the Ethereum -> MultiversX machine the factory builds never panics, never
    returns an error, and every call it makes on a chain is justified by what it had observed in
    the same round (since it last asked for the last executed batch): a transfer is proposed
    only by the leader, only for the batch that follows the last executed one, fetched, non-empty, validated and with consecutive deposit nonces, and only
    if it was not proposed yet; an action is signed only when it is the action of that
    transfer and not signed yet; it is performed only by the leader, after the quorum was
    reached and while it is not executed. *)
Theorem eth_to_mvx_safe {X} (E : executorDeps X) `{!EnvLaws E} (x : X) (n : nat) :
  runs_to (eth_to_mvx_run (observed E) (initExec (x, [])) n)
          (fun s => tl_ok EthToMvxSafety.justified (snd (world s))).
Proof. apply eth_to_mvx_runs; done. Qed.

Lemma eth_to_mvx_safe_witness :
  runs_to (eth_to_mvx_run (observed demo_env) (initExec (demo_start, [])) 9)
          (fun s => tl_ok EthToMvxSafety.justified (snd (world s))).
Proof. exact (eth_to_mvx_safe demo_env demo_start 9). Defined.

(** C2. The same for the MultiversX -> Ethereum machine, whose rounds start with the batch it
    fetched and had validated: a hash is computed and signed only for that pending batch, when
    Ethereum has not executed it; the transfer is executed on Ethereum only by the leader, under the hash this relayer signed, after the quorum of
    signatures was reached, with the contract's quorum and right after seeing it not executed;
    the statuses proposed back are those Ethereum reported for the executed batch, adjusted to
    the pending batch; set-status actions are proposed, signed and performed under the same
    guards as transfers; collected signatures are dropped only once the transfer was executed. *)
Theorem mvx_to_eth_safe {X} (E : executorDeps X) `{!EnvLaws E} (x : X) (n : nat) :
  runs_to (mvx_to_eth_run (observed E) (initExec (x, [])) n)
          (fun s => tl_ok MvxToEthSafety.justified (snd (world s))).
Proof. apply mvx_to_eth_runs; done. Qed.

Lemma mvx_to_eth_safe_witness :
  runs_to (mvx_to_eth_run (observed demo_env) (initExec (demo_start, [])) 15)
          (fun s => tl_ok MvxToEthSafety.justified (snd (world s))).
Proof. exact (mvx_to_eth_safe demo_env demo_start 15). Defined.

(** ** Observation *)

Definition erase_machine {X} (r : outcome (list error) * smState (execState (X * list event)))
    : outcome (list error) * execState X := (fst r, erase (inner (snd r))).
Definition machine_result {X} (r : outcome (list error) * smState (execState X))
    : outcome (list error) * execState X := (fst r, inner (snd r)).

Lemma run_erased {X} (E : executorDeps X) ol l o st n s :
  Forall2 same_step ol l -> same_step o st ->
  erase_machine (run (sm_metric (observed E)) (step_map ol) n (mkSm (Some o) s)) =
  machine_result (run (sm_metric E) (step_map l) n (mkSm (Some st) (erase s))).
Proof.
  intros Hl Hs. destruct (run_sim E ol l Hl n (mkSm (Some o) s) (mkSm (Some st) (erase s))) as [H1 [_ H2]].
  - split; [by constructor|done].
  - unfold erase_machine, machine_result. by rewrite H1, H2.
Qed.

(** Recording the calls changes nothing: for any executor (no law is needed), any start
    state and any number of calls of [Execute], the outcome (errors, panics included) and
    every field of the executor are those of the machine without the history, for both
    machines. *)
Theorem observation_transparent {X} (E : executorDeps X) (s : execState (X * list event)) (n : nat) :
  res_map erase_machine (eth_to_mvx_run (observed E) s n) =
    res_map machine_result (eth_to_mvx_run E (erase s) n) /\
  res_map erase_machine (mvx_to_eth_run (observed E) s n) =
    res_map machine_result (mvx_to_eth_run E (erase s) n).
Proof.
  unfold eth_to_mvx_run, mvx_to_eth_run, run_machine. rewrite !EthToMvx_machine, !MvxToEth_machine. cbn [res_map].
  pose proof (EthToMvx_same E) as He. pose proof (MvxToEth_same E) as Hm.
  split; f_equal; apply run_erased; try done; [by inversion He|by inversion Hm].
Qed.

(** ** Waiting is bounded *)

(** [k] successive executions of a step that each name the same step again. *)
Fixpoint stays {S} (st : Step S) (k : nat) (s : S) : Prop :=
  match k with
  | O => True
  | Datatypes.S k' => wp (Execute st) (fun next s' => next = Identifier st /\ stays st k' s') s
  end.

(** A counter [c] that every stay of the step increments, up to a limit. *)
Lemma stays_bounded {S} (st : Step S) (c : S -> Z) (limit : Z) :
  (forall s s', Execute st s = (Ret (Identifier st), s') -> (0 <= c s <= limit)%Z ->
     (c s < limit /\ c s' = c s + 1)%Z) ->
  forall k s, (0 <= c s <= limit)%Z -> stays st k s -> (Z.of_nat k <= limit - c s)%Z.
Proof.
  intros Hc. induction k as [|k IH]; intros s Hs Hst; [lia|]. cbn [stays] in Hst.
  unfold wp in Hst. specialize (Hc s). destruct (Execute st s) as [[next|p] s'] eqn:He; [|done].
  destruct Hst as [-> Hst]. destruct (Hc _ eq_refl Hs) as [Hlt Hinc]. rewrite (Nat2Z.inj_succ k).
  specialize (IH s'). rewrite Hinc in IH. specialize (IH ltac:(lia) Hst). lia.
Qed.

(** Inverting a run that returned. *)
Lemma ext_inv {X A} (c : M X A) s a s' : ext c s = (Ret a, s') -> exists w, s' = set_world w s.
Proof. unfold ext, zoom. destruct (c (world s)) as [o w]. intros [= _ <-]. by exists w. Qed.

Lemma ret_inv {S A} (a b : A) (s s' : S) : (Ret a, s) = (Ret b, s') -> a = b /\ s = s'.
Proof. by intros [= -> ->]. Qed.

Ltac inv_ret :=
  repeat match goal with
  | H : mbind _ _ _ = (Ret _, _) |- _ => apply bind_ret_inv in H as (? & ? & ? & H)
  | H : ext _ _ = (Ret _, _) |- _ => apply ext_inv in H as [? ->]
  | H : mret _ _ = (Ret _, _) |- _ => apply ret_inv in H as [? ?]; subst
  | H : gets _ _ = (Ret _, _) |- _ => apply ret_inv in H as [? ?]; subst
  | H : modify _ _ = (Ret _, _) |- _ => apply ret_inv in H as [? ?]; subst
  | H : (match ?x with _ => _ end) _ = (Ret _, _) |- _ => destruct x eqn:?
  end.
Ltac counted :=
  repeat match goal with H : (_ <? _)%Z = true |- _ => apply Z.ltb_lt in H end; cbn in *; try done;
  repeat match goal with H : negb ?x = true |- _ => destruct x; try done end.

Lemma wait_eth_to_mvx_counts {X} (E : executorDeps X) s s' :
  is_u64 (maxQuorumRetriesOnMultiversX E) -> EthToMvx.waitForQuorumStep_Execute E s = (Ret EthToMvx.WaitingForQuorum, s') ->
  (0 <= quorumRetriesOnMultiversX s <= maxQuorumRetriesOnMultiversX E)%Z ->
  (quorumRetriesOnMultiversX s < maxQuorumRetriesOnMultiversX E /\ quorumRetriesOnMultiversX s' = quorumRetriesOnMultiversX s + 1)%Z.
Proof.
  intros Hu. unfold EthToMvx.waitForQuorumStep_Execute. unfold_executor. intros H Hr. inv_ret. all: counted.
  all: rewrite (u64_incr _ _ Hu) by lia; lia.
Qed.

Lemma wait_transfer_counts {X} (E : executorDeps X) s s' :
  is_u64 (maxQuorumRetriesOnEthereum E) -> MvxToEth.waitForQuorumOnTransferStep_Execute E s = (Ret MvxToEth.WaitingForQuorumOnTransfer, s') ->
  (0 <= quorumRetriesOnEthereum s <= maxQuorumRetriesOnEthereum E)%Z ->
  (quorumRetriesOnEthereum s < maxQuorumRetriesOnEthereum E /\ quorumRetriesOnEthereum s' = quorumRetriesOnEthereum s + 1)%Z.
Proof.
  intros Hu. unfold MvxToEth.waitForQuorumOnTransferStep_Execute. unfold_executor. intros H Hr. inv_ret. all: counted.
  all: rewrite (u64_incr _ _ Hu) by lia; lia.
Qed.

Lemma wait_set_status_counts {X} (E : executorDeps X) s s' :
  is_u64 (maxQuorumRetriesOnMultiversX E) -> MvxToEth.waitForQuorumOnSetStatusStep_Execute E s = (Ret MvxToEth.WaitingForQuorumOnSetStatus, s') ->
  (0 <= quorumRetriesOnMultiversX s <= maxQuorumRetriesOnMultiversX E)%Z ->
  (quorumRetriesOnMultiversX s < maxQuorumRetriesOnMultiversX E /\ quorumRetriesOnMultiversX s' = quorumRetriesOnMultiversX s + 1)%Z.
Proof.
  intros Hu. unfold MvxToEth.waitForQuorumOnSetStatusStep_Execute. unfold_executor. intros H Hr. inv_ret. all: counted.
  all: rewrite (u64_incr _ _ Hu) by lia; lia.
Qed.

Lemma propose_set_status_counts {X} (E : executorDeps X) s s' :
  is_u64 (maxRetriesOnWasProposed E) -> MvxToEth.proposeSetStatusStep_Execute E s = (Ret MvxToEth.ProposingSetStatusOnMultiversX, s') ->
  (0 <= retriesOnWasProposed s <= maxRetriesOnWasProposed E)%Z ->
  (retriesOnWasProposed s < maxRetriesOnWasProposed E /\ retriesOnWasProposed s' = retriesOnWasProposed s + 1)%Z.
Proof.
  intros Hu. unfold MvxToEth.proposeSetStatusStep_Execute. unfold_executor. intros H Hr. inv_ret. all: counted.
  all: rewrite (u64_incr _ _ Hu) by lia; lia.
Qed.

(** C33. No waiting step can hold the machine: once started from a counter in range, the
    quorum steps of both half-bridges and the step that proposes a set-status name themselves
    again at most as often as the configured maximum allows, whatever the chains and the
    network answer (no law of the environment is used). *)
Theorem waiting_is_bounded {X} (E : executorDeps X) (s : execState X) (k : nat) :
  is_u64 (maxQuorumRetriesOnMultiversX E) -> is_u64 (maxQuorumRetriesOnEthereum E) ->
  is_u64 (maxRetriesOnWasProposed E) ->
  (0 <= quorumRetriesOnMultiversX s <= maxQuorumRetriesOnMultiversX E)%Z ->
  (0 <= quorumRetriesOnEthereum s <= maxQuorumRetriesOnEthereum E)%Z ->
  (0 <= retriesOnWasProposed s <= maxRetriesOnWasProposed E)%Z ->
  (stays (EthToMvx.waitForQuorumStep E) k s ->
     Z.of_nat k <= maxQuorumRetriesOnMultiversX E - quorumRetriesOnMultiversX s)%Z /\
  (stays (MvxToEth.waitForQuorumOnTransferStep E) k s ->
     Z.of_nat k <= maxQuorumRetriesOnEthereum E - quorumRetriesOnEthereum s)%Z /\
  (stays (MvxToEth.waitForQuorumOnSetStatusStep E) k s ->
     Z.of_nat k <= maxQuorumRetriesOnMultiversX E - quorumRetriesOnMultiversX s)%Z /\
  (stays (MvxToEth.proposeSetStatusStep E) k s ->
     Z.of_nat k <= maxRetriesOnWasProposed E - retriesOnWasProposed s)%Z.
Proof.
  intros Hm He Hw ? ? ?. repeat split.
  - apply stays_bounded; [|done]. intros. by apply wait_eth_to_mvx_counts.
  - apply stays_bounded; [|done]. intros. by apply wait_transfer_counts.
  - apply stays_bounded; [|done]. intros. by apply wait_set_status_counts.
  - apply stays_bounded; [|done]. intros. by apply propose_set_status_counts.
Qed.

(** An environment in which the quorum is never reached: the step stays exactly three times. *)
Definition stuck_env : executorDeps demoWorld := {|
  topologyProvider := {| top_MyTurnAsLeader := mret false |};
  multiversXClient := {|
    mx_GetPending := answer (Some demo_batch); mx_WasProposedTransfer _ := answer false;
    mx_QuorumReached _ := answer false; mx_WasExecuted _ := answer false;
    mx_GetActionIDForProposeTransfer _ := answer 3%Z; mx_WasProposedSetStatus _ := answer false;
    mx_GetActionIDForSetStatusOnPendingTransfer _ := answer 4%Z;
    mx_GetLastExecutedEthBatchID := answer 4%Z; mx_GetLastExecutedEthTxID := answer 7%Z;
    mx_ProposeSetStatus _ := answer "hash"; mx_ProposeTransfer _ := answer "hash";
    mx_Sign _ := answer "hash"; mx_WasSigned _ := answer false; mx_PerformAction _ _ := answer "hash";
    mx_CheckClientAvailability := mret None |};
  ethereumClient := ethereumClient demo_env; timeForWaitOnEthereum := 1000000000;
  statusHandler := statusHandler demo_env; sigsHolder := sigsHolder demo_env;
  batchValidator := batchValidator demo_env; maxQuorumRetriesOnEthereum := 3;
  maxQuorumRetriesOnMultiversX := 3; maxRetriesOnWasProposed := 3;
  level_String _ := "LEVEL"; xd_select _ := mret true |}.

Definition stuck_state : execState demoWorld := mkExec (Some demo_batch) 3 demo_hash 0 0 0 demo_start.

Lemma waiting_is_bounded_witness :
  stays (EthToMvx.waitForQuorumStep stuck_env) 3 stuck_state /\ stays (MvxToEth.proposeSetStatusStep stuck_env) 3 stuck_state /\
  ~ stays (EthToMvx.waitForQuorumStep stuck_env) 4 stuck_state.
Proof.
  split; [by vm_compute|]. split; [by vm_compute|]. intros H.
  pose proof (waiting_is_bounded stuck_env stuck_state 4) as Hb.
  destruct Hb as [Hb _]; try (split; by vm_compute). apply Hb in H. by vm_compute in H.
Defined.

(** ** One round of each machine *)

Definition history {X} (r : res (outcome (list error) * smState (execState (X * list event)))) : option (list event) :=
  (fun m => rev (snd (world (inner (snd m))))) <$> ok_of r.

Example eth_to_mvx_round :
  history (eth_to_mvx_run (observed demo_env) (initExec (demo_start, [])) 6) =
  Some [EvLastBatchID (Ok 4%Z); EvGetBatch 5 (Ok (Some demo_batch)); EvValidate (Some demo_batch) (Ok true);
        EvLastTxID (Ok 7%Z); EvWasProposedTransfer (Some demo_batch) (Ok false); EvLeader true;
        EvProposeTransfer (Some demo_batch) (Ok "hash"); EvActionIDForTransfer (Some demo_batch) (Ok 3%Z);
        EvWasSigned 3 (Ok false); EvSign 3 (Ok "hash"); EvQuorumReached 3 (Ok true);
        EvWasExecuted 3 (Ok false); EvLeader true; EvPerformAction 3 (Some demo_batch) (Ok "hash");
        EvWasExecuted 3 (Ok true)].
Proof. by vm_compute. Qed.

Abbreviation demo_settled := (set_Statuses [Executed] demo_batch).

Example mvx_to_eth_round :
  history (mvx_to_eth_run (observed demo_env) (initExec (demo_start, [])) 12) =
  Some [EvGetPending (Ok (Some demo_batch)); EvValidate (Some demo_batch) (Ok true); EvEthWasExecuted 5 (Ok false);
        EvGenerateHash (Some demo_batch) (Ok demo_hash); EvBroadcast demo_hash;
        EvEthQuorum demo_hash (Ok true);
        EvEthWasExecuted 5 (Ok false); EvLeader true; EvQuorumSize (Ok 1%Z);
        EvExecuteTransfer demo_hash (Some demo_batch) 1 (Ok "hash");
        EvEthWasExecuted 5 (Ok true); EvEthWasExecuted 5 (Ok true);
        EvClearSignatures; EvGetPending (Ok (Some demo_batch)); EvStatuses 5 (Ok [Executed]);
        EvWasProposedSetStatus (Some demo_settled) (Ok false); EvLeader true;
        EvProposeSetStatus (Some demo_settled) (Ok "hash");
        EvActionIDForSetStatus (Some demo_settled) (Ok 4%Z); EvWasSigned 4 (Ok false); EvSign 4 (Ok "hash");
        EvQuorumReached 4 (Ok true); EvWasExecuted 4 (Ok false); EvLeader true;
        EvPerformAction 4 (Some demo_settled) (Ok "hash"); EvWasExecuted 4 (Ok true)].
Proof. by vm_compute. Qed.
