(* ===== verification/ExecutorSpec.v ===== *)
(** * Functional behaviour of the executor and of batches

    What the executor's parts do on every branch: the check of the deposits' nonces, the
    statuses of a batch whose number of deposits changed, the constructor, and the two waiting
    loops, which poll Ethereum a bounded number of times. *)
From S2P Require Import Prelude Go Batch Interfaces Executor Monitor Demo.
Open Scope go_scope.

(** The check of a batch fetched from Ethereum accepts exactly the batches whose deposits
    carry the nonces that follow the last executed one, in order and without gaps, in [uint64]
    arithmetic; every rejection is the error [ErrInvalidDepositNonce]. *)
Theorem deposit_nonces_checked (b : TransferBatch) (last : Z) :
  (verifyDepositNonces b last = None <-> consecutive (last + 1) (dt_Nonce <$> tb_Deposits b)) /\
  (forall e, verifyDepositNonces b last = Some e -> errors_Is e ErrInvalidDepositNonce = true).
Proof. split; [apply verifyDepositNonces_spec|]. intros e. apply verifyDepositNonces_loop_error. Qed.

Lemma resolved_lookup n st i s :
  resolved n st !! i = Some s ->
  (i < Nat.min n (length st) /\ st !! i = Some s) \/ (Nat.min n (length st) <= i /\ s = Rejected).
Proof.
  unfold resolved. intros H. apply lookup_app_Some in H as [H|[Hi H]].
  - left. apply lookup_take_Some in H as [H Hlt]. apply lookup_lt_Some in H as Hl. split; [lia|done].
  - right. rewrite length_take in Hi. split; [lia|]. by apply lookup_replicate in H as [-> _].
Qed.

(** Adjusting the statuses to a number of deposits keeps the batch apart from its statuses:
    those of the deposits both lists have are kept, all others, missing or in excess, are
    [Rejected], none is dropped, and there are enough; a negative number panics. *)
Theorem new_deposits_resolved (n : Z) (b : TransferBatch) :
  ((0 <= n)%Z -> exists st, ResolveNewDeposits n b = Ret (set_Statuses st b) /\
     length st = Nat.max (Z.to_nat n) (length (tb_Statuses b)) /\
     forall i s, st !! i = Some s ->
       (i < Nat.min (Z.to_nat n) (length (tb_Statuses b)) /\ tb_Statuses b !! i = Some s) \/
       (Nat.min (Z.to_nat n) (length (tb_Statuses b)) <= i /\ s = Rejected)) /\
  ((n < 0)%Z -> ResolveNewDeposits n b = Panic IndexOutOfRange).
Proof.
  split.
  - intros Hn. exists (resolved (Z.to_nat n) (tb_Statuses b)). split; [by apply ResolveNewDeposits_resolved|].
    split; [apply resolved_length|]. apply resolved_lookup.
  - intros Hn. unfold ResolveNewDeposits. destruct (Z.eqb_spec n (Z.of_nat (length (tb_Statuses b)))); [lia|].
    destruct (Z.ltb_spec n 0); [done|lia].
Qed.

(** The executor's constructor either reports an error or returns an executor with every
    component set, that waits at least a second for Ethereum and has room for at least one
    retry on each counter; it succeeds whenever the arguments are such. *)
Theorem NewBridgeExecutor_spec {X} (lv : LogLevel -> string) (sel : Z -> M X bool) (args : ArgsBridgeExecutor X) :
  match NewBridgeExecutor lv sel args with
  | Err e => createBridgeExecutor lv sel args = None \/ Args_Log args = false \/
      (Args_TimeForWaitOnEthereum args < durationLimit \/ Args_MaxQuorumRetriesOnEthereum args < 1 \/
       Args_MaxQuorumRetriesOnMultiversX args < 1 \/ Args_MaxRestriesOnWasProposed args < 1)%Z
  | Ok None => False
  | Ok (Some E) => createBridgeExecutor lv sel args = Some E /\
      (durationLimit <= timeForWaitOnEthereum E /\ 1 <= maxQuorumRetriesOnEthereum E /\
       1 <= maxQuorumRetriesOnMultiversX E /\ 1 <= maxRetriesOnWasProposed E)%Z
  end.
Proof.
  destruct args as [[] [tp|] [mx|] [eth|] t [sh|] [sg|] [bv|] qe qm rw];
    unfold NewBridgeExecutor, checkArgs, createBridgeExecutor, minRetries; cbn; try by auto.
  all: repeat match goal with |- context [(?a <? ?b)%Z] => destruct (Z.ltb_spec a b); cbn end; try by auto.
  all: try (right; right; by auto with lia).
Qed.

(** ** Waiting loops *)

Section Waiting.
Context {X : Type} (E : executorDeps X) `{!EnvLaws E}.

(** The calls a loop made: at most [n], all of one kind, on top of the old history. *)
Definition polled (n : nat) (kind : event -> Prop) (old new : list event) : Prop :=
  exists evs, new = evs ++ old /\ length evs <= n /\ Forall kind evs.

Lemma polled_nil n kind old : polled n kind old old.
Proof. exists []. split; [done|]. split; [cbn; lia|constructor]. Qed.

Lemma polled_skip n kind old new : polled n kind old new -> polled (S n) kind old new.
Proof. intros (evs & ? & ? & ?). exists evs. split; [done|]. split; [lia|done]. Qed.

Lemma polled_cons n (kind : event -> Prop) e old new :
  kind e -> polled n kind (e :: old) new -> polled (S n) kind old new.
Proof.
  intros Hk (evs & -> & ? & ?). exists (evs ++ [e]). split; [by rewrite <-app_assoc|].
  rewrite length_app. split; [cbn; lia|]. apply Forall_app. split; [done|by repeat constructor].
Qed.

Definition asks_executed (e : event) : Prop := exists id r, e = EvEthWasExecuted id r.
Definition asks_statuses (e : event) : Prop := exists id r, e = EvStatuses id r.

Lemma confirmation_loop_polls n s :
  wp (waitConfirmation_loop (observed E) n)
     (fun _ s' => batch s' = batch s /\ polled n asks_executed (snd (world s)) (snd (world s'))) s.
Proof.
  revert s. induction n as [|n IH]; intros [b a h qe qm rw [x tr]]; cbn [waitConfirmation_loop].
  { apply wp_ret. split; [done|apply polled_nil]. }
  obs_run; try (eapply wp_mono; [apply IH|]; intros _ s' [Hb Hp]; split; [done|]; cbn in *).
  all: try (split; [done|]); try by apply polled_skip.
  all: eapply polled_cons; [by eexists _, _|]; try exact Hp; apply polled_nil.
Qed.

Lemma statuses_loop_polls n s :
  wp (waitStatuses_loop (observed E) n)
     (fun st s' => polled n asks_statuses (snd (world s)) (snd (world s')) /\
        (st <> [] -> exists b, batch s = Some b /\ EvStatuses (tb_ID b) (Ok st) ∈ snd (world s'))) s.
Proof.
  revert s. induction n as [|n IH]; intros [b a h qe qm rw [x tr]]; cbn [waitStatuses_loop].
  { apply wp_ret. split; [apply polled_nil|done]. }
  obs_run; try (eapply wp_mono; [apply IH|]; intros st s' [Hp Hst]; cbn in *).
  all: try (split; [|done]); try by (apply polled_nil || apply polled_skip).
  all: try by (eapply polled_cons; [by eexists _, _|]).
  split; [eapply polled_cons; [by eexists _, _|apply polled_nil]|]. intros _. eexists. split; [done|]. constructor.
Qed.

(** After sending a transfer to Ethereum the executor polls for its execution, and later for
    its statuses, at most ten times each and with no other call: both loops return, whatever
    the chain answers, and statuses that are returned were reported for the stored batch. *)
Theorem waits_are_bounded (s : execState (X * list event)) :
  wp (WaitForTransferConfirmation (observed E))
     (fun _ s' => polled splits asks_executed (snd (world s)) (snd (world s'))) s /\
  wp (WaitAndReturnFinalBatchStatuses (observed E))
     (fun st s' => polled splits asks_statuses (snd (world s)) (snd (world s')) /\
        (st <> [] -> exists b, batch s = Some b /\ EvStatuses (tb_ID b) (Ok st) ∈ snd (world s'))) s.
Proof.
  split; [|apply statuses_loop_polls].
  eapply wp_mono; [apply confirmation_loop_polls|]. by intros _ s' [_ Hp].
Qed.
End Waiting.

Lemma waits_are_bounded_witness :
  wp (WaitForTransferConfirmation (observed demo_env))
     (fun _ s' => polled 10 asks_executed [] (snd (world s'))) (initExec (demo_start, [])).
Proof. exact (proj1 (waits_are_bounded demo_env (initExec (demo_start, [])))). Defined.
