(* ===== verification/Signatures.v ===== *)
(** * Relayer messages and the holder of collected signatures

    Models [src/bridge/core/messages.go], [src/bridge/bridges/ethMultiversX/signaturesHolder.go]
    and its disabled version.  A Go string made from bytes is the string of those bytes; the
    pointers a client receives are values ([None] is nil). *)
From S2P Require Import Prelude Go Interfaces.

Record SignedMessage := mkMsg {
  Payload : bytes;
  PublicKeyBytes : bytes;
  msg_Signature : bytes;
  Nonce : Z
}.

Record EthereumSignature := mkEthSig {
  es_Signature : bytes;
  es_MessageHash : bytes
}.

#[global] Instance SignedMessage_eq_dec : EqDecision SignedMessage.
Proof. solve_decision. Defined.
#[global] Instance EthereumSignature_eq_dec : EqDecision EthereumSignature.
Proof. solve_decision. Defined.

Definition UniqueID (msg : SignedMessage) : string :=
  sprintf "%s%s" [GStr (string_of_bytes (PublicKeyBytes msg)); GStr (string_of_bytes (Payload msg))].

(** The broadcaster notifies its clients through this interface ([core.BroadcastClient]);
    [AllStoredSignatures] ranges over a map. *)
Class BroadcastClient (C : Type) := {
  ProcessNewMessage : option SignedMessage -> option EthereumSignature -> C -> C;
  AllStoredSignatures : map_order -> C -> list SignedMessage
}.

Module SignatureHolder.

Record signaturesHolder := mkHolder {
  signedMessages : gmap string SignedMessage;
  ethMessages : list EthereumSignature
}.

Definition NewSignatureHolder : signaturesHolder := mkHolder ∅ [].

Definition holder_ProcessNewMessage (msg : option SignedMessage) (ethMsg : option EthereumSignature)
    (sh : signaturesHolder) : signaturesHolder :=
  match msg, ethMsg with
  | Some m, Some e => mkHolder (<[UniqueID m := m]> (signedMessages sh)) (ethMessages sh ++ [e])
  | _, _ => sh
  end.

Definition holder_AllStoredSignatures (o : map_order) (sh : signaturesHolder) : list SignedMessage :=
  foldl (fun result k => match signedMessages sh !! k with Some m => result ++ [m] | None => result end)
    [] (range_keys o (signedMessages sh)).

(** The set of distinct signatures is a map keyed by the signature; the second loop ranges over it. *)
Definition uniqueEthSigs (msgHash : bytes) (l : list EthereumSignature) : gmap string unit :=
  foldl (fun uniq e =>
    if bool_decide (es_MessageHash e = msgHash) then <[string_of_bytes (es_Signature e) := tt]> uniq else uniq) ∅ l.

Definition Signatures (o : map_order) (msgHash : bytes) (sh : signaturesHolder) : list bytes :=
  foldl (fun result sig => result ++ [bytes_of_string sig]) [] (range_keys o (uniqueEthSigs msgHash (ethMessages sh))).

Definition ClearStoredSignatures (_ : signaturesHolder) : signaturesHolder := mkHolder ∅ [].

#[export] Instance holder_client : BroadcastClient signaturesHolder := {
  ProcessNewMessage := holder_ProcessNewMessage;
  AllStoredSignatures := holder_AllStoredSignatures
}.

(** What the executor sees of a holder kept in the world. *)
Definition holder_interface {X} (get : X -> signaturesHolder) (put : signaturesHolder -> X -> X) (o : map_order)
    : SignaturesHolder X := {|
  sig_Signatures h := gets (fun x => Signatures o h (get x));
  sig_ClearStoredSignatures := modify (fun x => put (ClearStoredSignatures (get x)) x) |}.

(** The disabled holder of the half-bridge that collects no signatures. *)
Definition disabledSignaturesHolder {X} : SignaturesHolder X := {|
  sig_Signatures _ := mret [];
  sig_ClearStoredSignatures := mret tt |}.

(** ** Lemmas *)

Lemma uniqueEthSigs_lookup h l sig :
  is_Some (uniqueEthSigs h l !! sig) <->
  exists e, e ∈ l /\ es_MessageHash e = h /\ sig = string_of_bytes (es_Signature e).
Proof.
  unfold uniqueEthSigs. induction l as [|e l IH] using rev_ind.
  - simpl. rewrite lookup_empty, is_Some_alt. set_solver.
  - rewrite foldl_app. cbn [foldl]. set (u := foldl _ ∅ l) in *. case_bool_decide as Hh.
    + destruct (decide (sig = string_of_bytes (es_Signature e))) as [->|Hne].
      * rewrite lookup_insert_eq. split; [|eauto]. intros _. exists e. set_solver.
      * rewrite lookup_insert_ne by done. rewrite IH. set_solver.
    + rewrite IH. set_solver.
Qed.

(** ** The holder as a log of what it was told since it was last cleared *)

Inductive holder_op :=
  | OpProcess (m : option SignedMessage) (e : option EthereumSignature)
  | OpClear.

Definition apply_op (sh : signaturesHolder) (op : holder_op) : signaturesHolder :=
  match op with
  | OpProcess m e => holder_ProcessNewMessage m e sh
  | OpClear => ClearStoredSignatures sh
  end.

(** The complete messages since the last clear, oldest first. *)
Definition spec_op (log : list (SignedMessage * EthereumSignature)) (op : holder_op) :=
  match op with
  | OpProcess (Some m) (Some e) => log ++ [(m, e)]
  | OpProcess _ _ => log
  | OpClear => []
  end.

Definition stored (ops : list holder_op) : signaturesHolder := foldl apply_op NewSignatureHolder ops.
Definition spec_log (ops : list holder_op) : list (SignedMessage * EthereumSignature) := foldl spec_op [] ops.

(** Of several messages with the same identifier the last one is kept. *)
Definition last_with_id (id : string) (log : list (SignedMessage * EthereumSignature)) : option SignedMessage :=
  foldl (fun r me => if bool_decide (UniqueID me.1 = id) then Some me.1 else r) None log.

Definition represents (sh : signaturesHolder) (log : list (SignedMessage * EthereumSignature)) : Prop :=
  ethMessages sh = log.*2 /\ forall id, signedMessages sh !! id = last_with_id id log.

Lemma last_with_id_snoc id log me :
  last_with_id id (log ++ [me]) = if bool_decide (UniqueID me.1 = id) then Some me.1 else last_with_id id log.
Proof. unfold last_with_id. by rewrite foldl_app. Qed.

Lemma represents_op sh log op : represents sh log -> represents (apply_op sh op) (spec_op log op).
Proof.
  intros [He Hm]. destruct op as [[m|] [e|]|]; cbn; try done. split; cbn.
  - rewrite He, fmap_app. done.
  - intros id. rewrite last_with_id_snoc. cbn. case_bool_decide as Hid.
    + subst id. by rewrite lookup_insert_eq.
    + by rewrite lookup_insert_ne.
Qed.

Lemma represents_stored ops : represents (stored ops) (spec_log ops).
Proof.
  unfold stored, spec_log. induction ops as [|op ops IH] using rev_ind; [done|].
  rewrite !foldl_app. by apply represents_op.
Qed.

Lemma Signatures_map o h sh :
  Signatures o h sh = bytes_of_string <$> range_keys o (uniqueEthSigs h (ethMessages sh)).
Proof. unfold Signatures. by rewrite foldl_snoc. Qed.

Lemma Signatures_NoDup o h sh : NoDup (Signatures o h sh).
Proof.
  rewrite Signatures_map. apply NoDup_fmap; [|apply range_keys_NoDup].
  intros a b Hab. by rewrite <-(string_bytes_string a), Hab, string_bytes_string.
Qed.

Lemma Signatures_elem o h sh sig : sig ∈ Signatures o h sh <-> mkEthSig sig h ∈ ethMessages sh.
Proof.
  rewrite Signatures_map, list_elem_of_fmap. setoid_rewrite range_keys_elem. setoid_rewrite uniqueEthSigs_lookup.
  split.
  - intros (k & Hsig & [es eh] & He & Hh & ->). rewrite bytes_string_bytes in Hsig. cbn in *. by subst.
  - intros He. exists (string_of_bytes sig). rewrite bytes_string_bytes. split; [done|]. by eexists.
Qed.

Lemma AllStored_elem o sh m :
  m ∈ holder_AllStoredSignatures o sh <-> exists id, signedMessages sh !! id = Some m.
Proof.
  unfold holder_AllStoredSignatures. set (ks := range_keys o (signedMessages sh)).
  assert (H : m ∈ foldl (fun result k => match signedMessages sh !! k with Some m => result ++ [m] | None => result end) [] ks
    <-> exists id, id ∈ ks /\ signedMessages sh !! id = Some m).
  { induction ks as [|k ks IH] using rev_ind; [set_solver|]. rewrite foldl_app. cbn [foldl].
    destruct (signedMessages sh !! k) as [m'|] eqn:Hk; set_solver. }
  rewrite H. unfold ks. setoid_rewrite range_keys_elem. naive_solver.
Qed.

Lemma last_with_id_id id log m : last_with_id id log = Some m -> UniqueID m = id.
Proof.
  induction log as [|me log IH] using rev_ind; [done|]. rewrite last_with_id_snoc.
  case_bool_decide; [by intros [= <-]|done].
Qed.

(** C26. The holder implements its specification for any sequence of notifications and clears,
    and any map order: [Signatures] lists, without repetition, exactly the signatures received
    for that hash since the last clear, and [AllStoredSignatures] lists exactly the last
    message received under each identifier. *)
Theorem holder_refines_log (ops : list holder_op) (o : map_order) :
  (forall h, NoDup (Signatures o h (stored ops)) /\
     forall sig, sig ∈ Signatures o h (stored ops) <-> exists m, (m, mkEthSig sig h) ∈ spec_log ops) /\
  (forall m, m ∈ holder_AllStoredSignatures o (stored ops) <-> last_with_id (UniqueID m) (spec_log ops) = Some m).
Proof.
  destruct (represents_stored ops) as [He Hm]. split.
  - intros h. split; [apply Signatures_NoDup|]. intros sig. rewrite Signatures_elem, He, list_elem_of_fmap.
    split; [intros ([m e] & -> & H); by exists m|intros [m H]; by exists (m, mkEthSig sig h)].
  - intros m. rewrite AllStored_elem. split.
    + intros [id Hid]. rewrite Hm in Hid. by rewrite (last_with_id_id _ _ _ Hid).
    + intros Hid. exists (UniqueID m). by rewrite Hm.
Qed.

End SignatureHolder.
