(* ===== verification/Topology.v ===== *)
(** * Leader selection

    Models [src/bridge/bridges/ethMultiversX/topology]: the hash-based selector and the
    topology handler.  The hash function is the library's SHA-256, a parameter here; that its
    digests have at least eight bytes is what [binary.BigEndian.Uint64] needs.  A Go
    [time.Duration] is a number of nanoseconds; [int64(d.Seconds())] is its whole seconds. *)
From S2P Require Import Prelude Go Common Interfaces.
Open Scope go_scope.

Module Topology.

Definition uint64Size : nat := 8.
Definition second : Z := 1000000000.

Definition errNilPublicKeysProvider := ErrNew "topology.errNilPublicKeysProvider" "nil public keys provider".
Definition errNilTimer := ErrNew "topology.errNilTimer" "nil timer".
Definition errInvalidIntervalForLeader := ErrNew "topology.errInvalidIntervalForLeader" "invalid interval for leader".
Definition errEmptyAddress := ErrNew "topology.errEmptyAddress" "empty address".
Definition errNilLogger := ErrNew "topology.errNilLogger" "nil logger".
Definition errNilAddressConverter := ErrNew "topology.errNilAddressConverter" "nil address converter".

(** [binary.BigEndian.Uint64]: reads eight bytes, panics on a shorter slice. *)
Definition BigEndian_Uint64 (b : bytes) : outcome Z :=
  if Nat.ltb (length b) 8 then Panic IndexOutOfRange else Ret (be_val (take 8 b)).

Section Topology.
Context (sha256 : bytes -> bytes).

Definition randomInt (seed max : Z) : outcome Z :=
  if (max =? 0)%Z then Ret 0%Z
  else
    let buff := be_bytes uint64Size seed in
    match BigEndian_Uint64 (sha256 buff) with
    | Ret v => Ret (v `mod` max)%Z
    | Panic p => Panic p
    end.

Context {X : Type}.

(** [None] in the arguments is a nil component; the logger and the address converter only
    format log lines. *)
Record ArgsTopologyHandler := {
  Args_PublicKeysProvider : option (M X (list bytes));
  Args_Timer : option (M X Z);
  Args_IntervalForLeader : Z;
  Args_AddressBytes : bytes;
  Args_LogPresent : bool;
  Args_AddressConverter : bool
}.

Record topologyHandler := {
  SortedPublicKeys : M X (list bytes);
  NowUnix : M X Z;
  intervalForLeader : Z;
  addressBytes : bytes
}.

Definition int64_Seconds (d : Z) : Z := (d `quot` second)%Z.

Definition checkArgs (args : ArgsTopologyHandler) : option error :=
  match Args_PublicKeysProvider args with
  | None => Some errNilPublicKeysProvider
  | Some _ =>
  match Args_Timer args with
  | None => Some errNilTimer
  | Some _ =>
      if (int64_Seconds (Args_IntervalForLeader args) <=? 0)%Z then Some errInvalidIntervalForLeader
      else if Nat.eqb (length (Args_AddressBytes args)) 0 then Some errEmptyAddress
      else if negb (Args_LogPresent args) then Some errNilLogger
      else if negb (Args_AddressConverter args) then Some errNilAddressConverter
      else None
  end end.

Definition NewTopologyHandler (args : ArgsTopologyHandler) : res (option topologyHandler) :=
  match checkArgs args with
  | Some e => Err e
  | None => Ok (
      keys ← Args_PublicKeysProvider args;
      timer ← Args_Timer args;
      Some {| SortedPublicKeys := keys; NowUnix := timer;
              intervalForLeader := Args_IntervalForLeader args; addressBytes := Args_AddressBytes args |})
  end.

(** Indexing a slice. *)
Definition index {S A} (l : list A) (i : Z) : M S A :=
  if (i <? 0)%Z then panics IndexOutOfRange
  else match l !! Z.to_nat i with Some a => mret a | None => panics IndexOutOfRange end.

(** Go's [int64] division: truncated, and it panics on a zero divisor. *)
Definition int64_div {S} (a b : Z) : M S Z :=
  if (b =? 0)%Z then panics DivideByZero else mret (i64 (a `quot` b)).

Definition MyTurnAsLeader (t : topologyHandler) : M X bool :=
  sortedPublicKeys ← SortedPublicKeys t;
  if Nat.eqb (length sortedPublicKeys) 0 then mret false
  else
    let numberOfPeers := i64 (Z.of_nat (length sortedPublicKeys)) in
    now ← NowUnix t;
    q ← int64_div now (int64_Seconds (intervalForLeader t));
    idx ← of_outcome (randomInt (u64 q) (u64 numberOfPeers));
    leaderAddress ← index sortedPublicKeys idx;
    mret (bool_decide (leaderAddress = addressBytes t)).

Definition topology_interface (t : topologyHandler) : TopologyProvider X :=
  {| top_MyTurnAsLeader := MyTurnAsLeader t |}.

(** ** Lemmas *)

Hypothesis sha256_size : forall b, 8 <= length (sha256 b).

Lemma randomInt_ok seed max : exists v, randomInt seed max = Ret v /\ ((0 < max)%Z -> (0 <= v < max)%Z).
Proof.
  unfold randomInt, BigEndian_Uint64. destruct (Z.eqb_spec max 0) as [->|Hne].
  - exists 0%Z. split; [done|lia].
  - destruct (Nat.ltb_spec (length (sha256 (be_bytes uint64Size seed))) 8) as [H|_].
    + pose proof (sha256_size (be_bytes uint64Size seed)). lia.
    + eexists. split; [done|]. intros Hp. by apply Z.mod_pos_bound.
Qed.

(** The index every relayer computes from the same clock and number of peers. *)
Lemma leader_index now interval (keys : list bytes) :
  (0 < interval)%Z -> keys <> [] -> (Z.of_nat (length keys) < two63)%Z ->
  exists k leader,
    randomInt (u64 (i64 (now `quot` interval))) (u64 (i64 (Z.of_nat (length keys)))) = Ret (Z.of_nat k) /\
    keys !! k = Some leader.
Proof.
  intros Hi Hk Hlen.
  assert (Hn : u64 (i64 (Z.of_nat (length keys))) = Z.of_nat (length keys)).
  { rewrite u64_i64. apply u64_small. unfold is_u64, two63, two64 in *. lia. }
  rewrite Hn. destruct (randomInt_ok (u64 (i64 (now `quot` interval))) (Z.of_nat (length keys))) as (v & -> & Hv).
  destruct keys as [|a keys]; [done|]. specialize (Hv ltac:(simpl; lia)).
  destruct (lookup_lt_is_Some_2 (a :: keys) (Z.to_nat v)) as [leader Hl]; [lia|].
  exists (Z.to_nat v), leader. split; [f_equal; lia|done].
Qed.

End Topology.

Arguments topologyHandler X : clear implicits.
Arguments ArgsTopologyHandler X : clear implicits.

(** A handler of some relayer: what differs between relayers is only their address. *)
Definition handler_of {X} (keys : M X (list bytes)) (now : M X Z) (interval : Z) (me : bytes) : topologyHandler X :=
  {| SortedPublicKeys := keys; NowUnix := now; intervalForLeader := interval; addressBytes := me |}.

Lemma leader_of_keys (sha256 : bytes -> bytes) (Hsize : forall b, 8 <= length (sha256 b)) keys now interval :
  (0 < int64_Seconds interval)%Z -> keys <> [] -> (Z.of_nat (length keys) < two63)%Z ->
  exists leader, leader ∈ keys /\ forall X (t : topologyHandler X) (x : X),
    SortedPublicKeys t x = (Ret keys, x) -> NowUnix t x = (Ret now, x) -> intervalForLeader t = interval ->
    MyTurnAsLeader sha256 t x = (Ret (bool_decide (leader = addressBytes t)), x).
Proof.
  intros Hi Hne Hlen.
  destruct (leader_index sha256 Hsize now (int64_Seconds interval) keys Hi Hne Hlen) as (k & leader & Hr & Hk).
  exists leader. split; [by eapply list_elem_of_lookup_2|]. intros X t x Hkeys Hnow Hint.
  unfold MyTurnAsLeader, int64_div, index. rewrite Hint.
  unfold mbind, M_bind, mret, M_ret. rewrite Hkeys.
  destruct (Nat.eqb_spec (length keys) 0) as [H0|_]; [by rewrite (nil_length_inv _ H0) in Hk|].
  rewrite Hnow. destruct (Z.eqb_spec (int64_Seconds interval) 0) as [?|_]; [lia|].
  rewrite Hr. cbn. destruct (Z.ltb_spec (Z.of_nat k) 0) as [?|_]; [lia|].
  by rewrite Nat2Z.id, Hk.
Qed.

(** C25. Relayers that see the same list of keys at the same time elect exactly one
    leader: the handler's verdict is the same predicate [a = leader] for every address, the
    leader is one of the keys, and no relayer outside the list is ever a leader; the run never
    panics. *)
Theorem exactly_one_leader {X} (sha256 : bytes -> bytes) (Hsize : forall b, 8 <= length (sha256 b))
    (keys : list bytes) (now interval : Z) (x : X) :
  keys <> [] -> (Z.of_nat (length keys) < two63)%Z -> (0 < int64_Seconds interval)%Z ->
  exists leader, leader ∈ keys /\ forall me,
    MyTurnAsLeader sha256 (handler_of (mret keys) (mret now) interval me) x =
    (Ret (bool_decide (leader = me)), x).
Proof.
  intros Hne Hlen Hi. destruct (leader_of_keys sha256 Hsize keys now interval Hi Hne Hlen) as (leader & Hl & H).
  exists leader. split; [done|]. intros me. by apply H.
Qed.

(** A stand-in for the hash: 32 bytes that depend on the input. *)
Definition toy_sha256 (b : bytes) : bytes := take 32 (reverse b ++ replicate 32 Byte.x07).

Lemma exactly_one_leader_witness :
  exists leader, leader ∈ [[Byte.x01]; [Byte.x02]; [Byte.x03]] /\ forall me,
    MyTurnAsLeader toy_sha256 (handler_of (mret [[Byte.x01]; [Byte.x02]; [Byte.x03]]) (mret 1000%Z) (4 * second) me) tt =
    (Ret (bool_decide (leader = me)), tt).
Proof.
  apply (exactly_one_leader toy_sha256); [|done|by vm_compute|by vm_compute].
  intros b. unfold toy_sha256. rewrite length_take, length_app, length_replicate. lia.
Defined.

(** The same relayer keeps the lead for a whole interval and the lead moves on with the clock. *)
Example leader_rotates :
  let lead now me := fst (MyTurnAsLeader toy_sha256
    (handler_of (X := unit) (mret [[Byte.x01]; [Byte.x02]; [Byte.x03]]) (mret now) (4 * second) me) tt) in
  lead 1000%Z [Byte.x02] = Ret true /\ lead 1003%Z [Byte.x02] = Ret true /\
  lead 1004%Z [Byte.x02] = Ret false /\ lead 1004%Z [Byte.x03] = Ret true.
Proof. by vm_compute. Qed.

End Topology.
