(* ===== verification/RoleProviders.v ===== *)
(** * Role providers

    Models [src/bridge/clients/roleProviders]: the whitelists of relayers a relayer keeps from
    both chains.  The curve operations of go-ethereum's [crypto] package and the SDK's address
    validity check are parameters; an SDK address is the bytes it was made from, a
    [common.Address] its bytes. *)
From S2P Require Import Prelude Go Common Interfaces Keys Topology.
Open Scope go_scope.

Module RoleProviders.

Definition ErrNilEthereumChainInteractor :=
  ErrNew "roleproviders.ErrNilEthereumChainInteractor" "nil Ethereum chain interactor".
Definition ErrAddressIsNotWhitelisted :=
  ErrNew "roleproviders.ErrAddressIsNotWhitelisted" "address is not whitelisted".
Definition ErrInvalidSignature := ErrNew "roleproviders.ErrInvalidSignature" "invalid signature".
Definition ErrInvalidAddressBytes := ErrNew "roleproviders.ErrInvalidAddressBytes" "invalid address bytes".

Definition ethSignatureSize : nat := 64.

Definition checkEthereumRoleProviderSpecificArgs (interactor log : bool) : option error :=
  if negb interactor then Some ErrNilEthereumChainInteractor
  else if negb log then Some clients_ErrNilLogger else None.

Definition checkMultiversXRoleProviderSpecificArgs (dataGetter log : bool) : option error :=
  if negb dataGetter then Some clients_ErrNilDataGetter
  else if negb log then Some clients_ErrNilLogger else None.

(** ** Ethereum *)

Section Ethereum.
Context {X PubKey : Type}.
Context (Ecrecover : bytes -> bytes -> res bytes) (UnmarshalPubkey : bytes -> res PubKey)
  (PubkeyToAddress : PubKey -> bytes) (VerifySignature : bytes -> bytes -> bytes -> bool).
Context (GetRelayers : M X (res (list bytes))).

Record ethereumRoleProvider := mkErp { eth_whitelisted : gset bytes; erp_world : X }.

Definition NewEthereumRoleProvider (interactor log : bool) (x : X) : res ethereumRoleProvider :=
  match checkEthereumRoleProviderSpecificArgs interactor log with
  | Some e => Err e
  | None => Ok (mkErp ∅ x)
  end.

Definition eth_processResults (results : list bytes) (erp : ethereumRoleProvider) : ethereumRoleProvider :=
  mkErp (foldl (fun m addr => {[ addr ]} ∪ m) ∅ results) (erp_world erp).

Definition eth_Execute : M ethereumRoleProvider (option error) :=
  r ← zoom erp_world (fun x erp => mkErp (eth_whitelisted erp) x) GetRelayers;
  match r with
  | Err e => mret (Some e)
  | Ok addresses => modify (eth_processResults addresses);; mret None
  end.

Definition eth_isWhitelisted (erp : ethereumRoleProvider) (address : bytes) : bool :=
  bool_decide (address ∈ eth_whitelisted erp).

Definition VerifyEthSignature (erp : ethereumRoleProvider) (signature messageHash : bytes) : option error :=
  match Ecrecover messageHash signature with
  | Err e => Some e
  | Ok pkBytes =>
      match UnmarshalPubkey pkBytes with
      | Err e => Some e
      | Ok pk =>
          if negb (eth_isWhitelisted erp (PubkeyToAddress pk)) then Some ErrAddressIsNotWhitelisted
          else
            let signature :=
              if Nat.ltb ethSignatureSize (length signature) then take ethSignatureSize signature else signature in
            if negb (VerifySignature pkBytes messageHash signature) then Some ErrInvalidSignature else None
      end
  end.

End Ethereum.

Arguments ethereumRoleProvider X : clear implicits.

Lemma eth_processResults_elem {X} results (erp : ethereumRoleProvider X) a :
  a ∈ eth_whitelisted (eth_processResults results erp) <-> a ∈ results.
Proof.
  unfold eth_processResults. cbn [eth_whitelisted]. induction results as [|r rs IH] using rev_ind; [set_solver|].
  rewrite foldl_app. cbn [foldl]. set_solver.
Qed.


(** ** MultiversX *)

Section MultiversX.
Context {X : Type}.
Context (address_IsValid : bytes -> bool).
Context (GetAllStakedRelayers : M X (res (list bytes))).

Record multiversXRoleProvider := mkMrp { mvx_whitelisted : gmap string unit; mrp_world : X }.

Definition NewMultiversXRoleProvider (dataGetter log : bool) (x : X) : res multiversXRoleProvider :=
  match checkMultiversXRoleProviderSpecificArgs dataGetter log with
  | Some e => Err e
  | None => Ok (mkMrp ∅ x)
  end.

(** The loop over the results: the first malformed one ends it. *)
Fixpoint collect_addresses (i : Z) (results : list bytes) (temporaryMap : gmap string unit)
    : gmap string unit + error :=
  match results with
  | [] => inl temporaryMap
  | result :: rest =>
      if negb (address_IsValid result)
      then inr (Errorf "%w for index %d, malformed address: %s" ErrInvalidAddressBytes
                  [GInt i; GStr (hex_encode result)])
      else collect_addresses (i + 1) rest (<[string_of_bytes result := tt]> temporaryMap)
  end.

Definition mvx_processResults (results : list bytes) : M multiversXRoleProvider (option error) :=
  match collect_addresses 0 results ∅ with
  | inr e => mret (Some e)
  | inl temporaryMap => modify (fun erp => mkMrp temporaryMap (mrp_world erp));; mret None
  end.

Definition mvx_Execute : M multiversXRoleProvider (option error) :=
  r ← zoom mrp_world (fun x erp => mkMrp (mvx_whitelisted erp) x) GetAllStakedRelayers;
  match r with
  | Err e => mret (Some e)
  | Ok results => mvx_processResults results
  end.

(** A nil address is [None]. *)
Definition IsWhitelisted (erp : multiversXRoleProvider) (address : option bytes) : bool :=
  match address with
  | None => false
  | Some a => bool_decide (is_Some (mvx_whitelisted erp !! string_of_bytes a))
  end.

Definition SortedPublicKeys (o : map_order) (erp : multiversXRoleProvider) : list bytes :=
  sorted_keys o (mvx_whitelisted erp).

Lemma collect_addresses_ok i results tmp m :
  collect_addresses i results tmp = inl m ->
  Forall (fun r => address_IsValid r = true) results /\
  forall a, is_Some (m !! string_of_bytes a) <-> a ∈ results \/ is_Some (tmp !! string_of_bytes a).
Proof.
  revert i tmp. induction results as [|r rs IH]; intros i tmp; simpl.
  - intros [= <-]. split; [constructor|]. set_solver.
  - destruct (address_IsValid r) eqn:Hv; simpl; [|done]. intros H. apply IH in H as [Hf Hm].
    split; [by constructor|]. intros a. rewrite Hm, elem_of_cons.
    destruct (decide (a = r)) as [->|Hne].
    + rewrite lookup_insert_eq. naive_solver.
    + rewrite lookup_insert_ne; [naive_solver|]. intros Heq. apply string_of_bytes_inj in Heq. done.
Qed.

Lemma collect_addresses_fails i results tmp e :
  collect_addresses i results tmp = inr e ->
  errors_Is e ErrInvalidAddressBytes = true /\ Exists (fun r => address_IsValid r = false) results.
Proof.
  revert i tmp. induction results as [|r rs IH]; intros i tmp; simpl; [done|].
  destruct (address_IsValid r) eqn:Hv; simpl.
  - intros H. apply IH in H as [? ?]. split; [done|by right].
  - intros [= <-]. split; [done|by left].
Qed.

End MultiversX.

Arguments multiversXRoleProvider X : clear implicits.

(** C29. [Execute] of the MultiversX role provider is all or nothing: either every address the
    contract returned is valid and the whitelist becomes exactly that set, or an error is
    returned and the previous whitelist stays in force. *)
Theorem mvx_whitelist_atomic {X} (valid : bytes -> bool) (getter : M X (res (list bytes)))
    (erp erp' : multiversXRoleProvider X) (r : option error) :
  mvx_Execute valid getter erp = (Ret r, erp') ->
  match r with
  | None => exists results x', getter (mrp_world erp) = (Ret (Ok results), x') /\
              Forall (fun a => valid a = true) results /\
              forall a, IsWhitelisted erp' (Some a) = true <-> a ∈ results
  | Some _ => forall a, IsWhitelisted erp' a = IsWhitelisted erp a
  end.
Proof.
  unfold mvx_Execute, mvx_processResults, mbind, M_bind, zoom.
  destruct (getter (mrp_world erp)) as [[[results|e]|p] x'] eqn:Hg; try done.
  - destruct (collect_addresses valid 0 results ∅) as [m|e] eqn:Hc.
    + intros [= <- <-]. destruct (collect_addresses_ok _ _ _ _ _ Hc) as [Hv Hm].
      eexists _, _. split; [done|]. split; [done|]. intros a. cbn.
      rewrite bool_decide_eq_true, Hm, lookup_empty. split; [|by left].
      intros [?|[? ?]]; done.
    + intros [= <- <-]. done.
  - intros [= <- <-]. done.
Qed.

(** A toy contract answer: two valid addresses. *)
Definition toy_valid (a : bytes) : bool := Nat.eqb (length a) 2.
Definition toy_getter : M unit (res (list bytes)) := mret (Ok [[Byte.x01; Byte.x02]; [Byte.x00; Byte.xff]]).

Lemma mvx_whitelist_atomic_witness :
  exists results x', toy_getter tt = (Ret (Ok results), x') /\ Forall (fun a => toy_valid a = true) results /\
    forall a, IsWhitelisted (snd (mvx_Execute toy_valid toy_getter (mkMrp ∅ tt))) (Some a) = true <-> a ∈ results.
Proof. exact (mvx_whitelist_atomic toy_valid toy_getter (mkMrp ∅ tt) _ None eq_refl). Defined.

(** [SortedPublicKeys] lists exactly the whitelisted addresses, in strictly ascending
    lexicographic order, and the same list for every iteration order of the map: relayers with
    equal whitelists compute equal lists. *)
Theorem sorted_public_keys_spec {X} (erp erp' : multiversXRoleProvider X) (o o' : map_order) :
  Sorted bytes_le (SortedPublicKeys o erp) /\ NoDup (SortedPublicKeys o erp) /\
  (forall a, a ∈ SortedPublicKeys o erp <-> IsWhitelisted erp (Some a) = true) /\
  ((forall a, IsWhitelisted erp (Some a) = IsWhitelisted erp' (Some a)) ->
   SortedPublicKeys o erp = SortedPublicKeys o' erp').
Proof.
  split; [apply sorted_keys_sorted|]. split; [apply sorted_keys_NoDup|]. split.
  - intros a. unfold SortedPublicKeys. rewrite sorted_keys_elem. unfold IsWhitelisted. by rewrite bool_decide_eq_true.
  - intros H. unfold SortedPublicKeys. rewrite (sorted_keys_order o o'). f_equal. apply map_eq. intros k.
    specialize (H (bytes_of_string k)). unfold IsWhitelisted in H. rewrite string_bytes_string in H.
    destruct (mvx_whitelisted erp !! k) as [[]|], (mvx_whitelisted erp' !! k) as [[]|]; try done.
    all: by cbn in H.
Qed.

(** C28. Every relayer that holds the same whitelist elects the same single leader at a given
    time, however its runtime orders the map: the leader is whitelisted, and a relayer that is
    not whitelisted never leads. *)
Theorem whitelist_elects_one_leader {X} (sha256 : bytes -> bytes) (Hsize : forall b, 8 <= length (sha256 b))
    (erp : multiversXRoleProvider X) (now interval : Z) :
  mvx_whitelisted erp <> ∅ -> (Z.of_nat (size (mvx_whitelisted erp)) < two63)%Z ->
  (0 < Topology.int64_Seconds interval)%Z ->
  exists leader, IsWhitelisted erp (Some leader) = true /\ forall me o,
    Topology.MyTurnAsLeader sha256
      (Topology.handler_of (gets (SortedPublicKeys o)) (mret now) interval me) erp =
    (Ret (bool_decide (leader = me)), erp).
Proof.
  intros Hne Hsz Hi. set (keys := SortedPublicKeys some_order erp).
  assert (Hlen : length keys = size (mvx_whitelisted erp)).
  { unfold keys, SortedPublicKeys. rewrite (Permutation_length (sorted_keys_perm _ _)), !length_fmap.
    apply length_map_to_list. }
  destruct (Topology.leader_of_keys sha256 Hsize keys now interval) as (leader & Hl & Hlead).
  - done.
  - intros Hnil. rewrite Hnil in Hlen. symmetry in Hlen. by apply map_size_empty_inv in Hlen.
  - by rewrite Hlen.
  - exists leader. split; [apply sorted_keys_elem in Hl; by apply bool_decide_eq_true|].
    intros me o. apply Hlead; [|done..]. cbn. unfold gets, SortedPublicKeys. by rewrite (sorted_keys_order o some_order).
Qed.

Lemma whitelist_elects_one_leader_witness :
  let erp := snd (mvx_Execute toy_valid toy_getter (mkMrp ∅ tt)) in
  exists leader, IsWhitelisted erp (Some leader) = true /\ forall me o,
    Topology.MyTurnAsLeader Topology.toy_sha256
      (Topology.handler_of (gets (SortedPublicKeys o)) (mret 1000%Z) (4 * Topology.second) me) erp =
    (Ret (bool_decide (leader = me)), erp).
Proof.
  apply (whitelist_elects_one_leader Topology.toy_sha256); [|by vm_compute|by vm_compute|by vm_compute].
  intros b. unfold Topology.toy_sha256. rewrite length_take, length_app, length_replicate. lia.
Defined.

(** An Ethereum signature is accepted exactly when the key recovered from it is well formed,
    its address is on the whitelist fetched from the contract, and the first 64 bytes verify
    under that key; every rejection is an error. *)
Theorem VerifyEthSignature_spec {X PubKey} Ecrecover (UnmarshalPubkey : bytes -> res PubKey) PubkeyToAddress
    VerifySignature (erp : ethereumRoleProvider X) (results : list bytes) signature messageHash :
  VerifyEthSignature Ecrecover UnmarshalPubkey PubkeyToAddress VerifySignature
    (eth_processResults results erp) signature messageHash = None <->
  exists pkBytes pk, Ecrecover messageHash signature = Ok pkBytes /\ UnmarshalPubkey pkBytes = Ok pk /\
    PubkeyToAddress pk ∈ results /\ VerifySignature pkBytes messageHash (take ethSignatureSize signature) = true.
Proof.
  unfold VerifyEthSignature, eth_isWhitelisted.
  destruct (Ecrecover messageHash signature) as [pkBytes|e] eqn:Hrec; [|by split; [|intros (? & ? & [=] & _)]].
  destruct (UnmarshalPubkey pkBytes) as [pk|e] eqn:Hpk.
  2:{ split; [done|]. intros (? & ? & [= <-] & Hpk' & _). congruence. }
  assert (Htake : (if Nat.ltb ethSignatureSize (length signature) then take ethSignatureSize signature else signature)
    = take ethSignatureSize signature).
  { destruct (Nat.ltb_spec ethSignatureSize (length signature)); [done|]. by rewrite take_ge. }
  rewrite Htake. case_bool_decide as Hw; rewrite eth_processResults_elem in Hw; cbn [negb].
  2:{ split; [done|]. intros (? & ? & [= <-] & Hpk' & Hin & _). congruence. }
  destruct (VerifySignature pkBytes messageHash (take ethSignatureSize signature)) eqn:Hver; cbn [negb].
  - split; [|done]. intros _. by exists pkBytes, pk.
  - split; [done|]. intros (? & ? & [= <-] & _ & _ & Hv). congruence.
Qed.

End RoleProviders.
