(* ===== verification/P2P.v ===== *)
(** * The relayers' message exchange

    Models [src/bridge/p2p]: the broadcaster with the message handler and the nonce holder it
    embeds.  The network messenger, the antiflood component, the marshalizer and the signing
    primitives come from libraries: they are operations over a network world [N] or functions,
    collected in [netDeps].  The role provider and the signature processor are the relayer's
    own (see [RoleProviders]) and are called through their interfaces. *)
From S2P Require Import Prelude Go Keys Signatures.
Open Scope go_scope.

Module P2P.

Definition ErrPeerNotWhitelisted := ErrNew "p2p.ErrPeerNotWhitelisted" "current peer is not whitelisted".
Definition ErrNilLogger := ErrNew "p2p.ErrNilLogger" "nil logger".
Definition ErrNilKeyGenerator := ErrNew "p2p.ErrNilKeyGenerator" "nil key generator".
Definition ErrNilPrivateKey := ErrNew "p2p.ErrNilPrivateKey" "nil private key".
Definition ErrNilSingleSigner := ErrNew "p2p.ErrNilSingleSigner" "nil single signer".
Definition ErrNilMultiversXRoleProvider := ErrNew "p2p.ErrNilMultiversXRoleProvider" "nil MultiversX role provider".
Definition ErrNilMessenger := ErrNew "p2p.ErrNilMessenger" "nil network messenger".
Definition ErrInvalidSize := ErrNew "p2p.ErrInvalidSize" "invalid size".
Definition ErrNilSignatureProcessor := ErrNew "p2p.ErrNilSignatureProcessor" "nil signature processor".
Definition ErrNonceTooLowInReceivedMessage :=
  ErrNew "p2p.ErrNonceTooLowInReceivedMessage" "nonce too low in received message".
Definition ErrEmptyName := ErrNew "p2p.ErrEmptyName" "empty name".
Definition ErrNilBroadcastClient := ErrNew "p2p.ErrNilBroadcastClient" "nil broadcast client".
Definition ErrNilMessage := ErrNew "p2p.ErrNilMessage" "nil message".
Definition ErrNilAntifloodComponents := ErrNew "p2p.ErrNilAntifloodComponents" "nil antiflood components".

Definition joinTopicSuffix : string := "_join".
Definition signTopicSuffix : string := "_sign".
Definition defaultTopicIdentifier : string := "default".
Definition joinTopicMessage : string := "join topic".
Definition absolutMaxSliceSize : nat := 1024.

(** ** Nonces *)

Abbreviation nonces_map := (gmap string Z).

(** A missing entry reads as zero. *)
Definition nonce_of (nonces : nonces_map) (pk : bytes) : Z := default 0%Z (nonces !! string_of_bytes pk).

Definition processNonce (msg : SignedMessage) (nonces : nonces_map) : option error * nonces_map :=
  let oldNonce := nonce_of nonces (PublicKeyBytes msg) in
  if (Nonce msg <=? oldNonce)%Z then (Some ErrNonceTooLowInReceivedMessage, nonces)
  else (None, <[string_of_bytes (PublicKeyBytes msg) := Nonce msg]> nonces).

Definition nonces_SortedPublicKeys (o : map_order) (nonces : nonces_map) : list bytes := sorted_keys o nonces.

(** ** Messages on the wire *)

Definition PeerID := string.

Record MessageP2P := mkP2P {
  p2p_Data : bytes;
  p2p_Topic : string;
  p2p_Peer : PeerID;
  p2p_SeqNo : bytes
}.

Definition checkLengths (msg : SignedMessage) : option error :=
  if Nat.ltb absolutMaxSliceSize (length (PublicKeyBytes msg))
  then Some (Errorf "%w for PublicKeyBytes field" ErrInvalidSize [])
  else if Nat.ltb absolutMaxSliceSize (length (msg_Signature msg))
  then Some (Errorf "%w for Signature field" ErrInvalidSize [])
  else if Nat.ltb absolutMaxSliceSize (length (Payload msg))
  then Some (Errorf "%w for Payload field" ErrInvalidSize [])
  else None.

(** What is signed: the payload followed by the nonce. *)
Definition msgWithNonce (payload : bytes) (nonce : Z) : bytes := payload ++ be_bytes 8 nonce.

Record netDeps (N PubKey PrivKey : Type) := {
  Marshal_msg : SignedMessage -> res bytes;
  Unmarshal_msg : bytes -> res SignedMessage;
  Marshal_eth : EthereumSignature -> res bytes;
  Unmarshal_eth : bytes -> res EthereumSignature;
  PublicKeyFromByteArray : bytes -> res PubKey;
  Sign : PrivKey -> bytes -> res bytes;
  Verify : PubKey -> bytes -> bytes -> option error;
  CanProcessMessage : MessageP2P -> PeerID -> M N (option error);
  CanProcessMessagesOnTopic : PeerID -> string -> Z -> Z -> bytes -> M N (option error);
  BlacklistPeer : PeerID -> string -> M N unit;
  net_IsWhitelisted : bytes -> M N bool;
  net_VerifyEthSignature : bytes -> bytes -> M N (option error);
  Broadcast : string -> bytes -> M N unit;
  SendToConnectedPeer : string -> bytes -> PeerID -> M N (option error);
  CreateTopic : string -> bool -> M N (option error);
  RegisterMessageProcessor : string -> string -> M N (option error);
  net_Close : M N (option error)
}.
Arguments Marshal_msg {N PubKey PrivKey} _ _.
Arguments Unmarshal_msg {N PubKey PrivKey} _ _.
Arguments Marshal_eth {N PubKey PrivKey} _ _.
Arguments Unmarshal_eth {N PubKey PrivKey} _ _.
Arguments PublicKeyFromByteArray {N PubKey PrivKey} _ _.
Arguments Sign {N PubKey PrivKey} _ _ _.
Arguments Verify {N PubKey PrivKey} _ _ _ _.
Arguments CanProcessMessage {N PubKey PrivKey} _ _ _.
Arguments CanProcessMessagesOnTopic {N PubKey PrivKey} _ _ _ _ _ _.
Arguments BlacklistPeer {N PubKey PrivKey} _ _ _.
Arguments net_IsWhitelisted {N PubKey PrivKey} _ _.
Arguments net_VerifyEthSignature {N PubKey PrivKey} _ _ _.
Arguments Broadcast {N PubKey PrivKey} _ _ _.
Arguments SendToConnectedPeer {N PubKey PrivKey} _ _ _ _.
Arguments CreateTopic {N PubKey PrivKey} _ _ _.
Arguments RegisterMessageProcessor {N PubKey PrivKey} _ _ _.
Arguments net_Close {N PubKey PrivKey} _.

(** ** The broadcaster *)

(** The fields fixed at construction. *)
Record broadcasterConfig (PrivKey : Type) := {
  bc_name : string;
  privateKey : PrivKey;
  publicKeyBytes : bytes;
  joinTopicName : string;
  signTopicName : string
}.
Arguments bc_name {PrivKey} _.
Arguments privateKey {PrivKey} _.
Arguments publicKeyBytes {PrivKey} _.
Arguments joinTopicName {PrivKey} _.
Arguments signTopicName {PrivKey} _.

Record broadcaster (C N : Type) := mkBroadcaster {
  counter : Z;
  nonces : nonces_map;
  clients : list C;
  net : N
}.
Arguments mkBroadcaster {C N} _ _ _ _.
Arguments counter {C N} _.
Arguments nonces {C N} _.
Arguments clients {C N} _.
Arguments net {C N} _.

(** Which arguments of the constructor are present. *)
Record ArgsBroadcaster := {
  Args_Name : string;
  Args_Log : bool;
  Args_KeyGen : bool;
  Args_PrivateKey : bool;
  Args_SingleSigner : bool;
  Args_MultiversXRoleProvider : bool;
  Args_Messenger : bool;
  Args_SignatureProcessor : bool;
  Args_AntifloodComponents : bool
}.

Definition checkArgs (args : ArgsBroadcaster) : option error :=
  if String.eqb (Args_Name args) "" then Some ErrEmptyName
  else if negb (Args_Log args) then Some ErrNilLogger
  else if negb (Args_KeyGen args) then Some ErrNilKeyGenerator
  else if negb (Args_PrivateKey args) then Some ErrNilPrivateKey
  else if negb (Args_SingleSigner args) then Some ErrNilSingleSigner
  else if negb (Args_MultiversXRoleProvider args) then Some ErrNilMultiversXRoleProvider
  else if negb (Args_Messenger args) then Some ErrNilMessenger
  else if negb (Args_SignatureProcessor args) then Some ErrNilSignatureProcessor
  else if negb (Args_AntifloodComponents args) then Some ErrNilAntifloodComponents
  else None.

(** The counter starts at the clock ([time.Now().UnixNano()]); [pk] is the encoded public key
    of the private key, or the error of the encoding. *)
Definition NewBroadcaster {C N PrivKey} (args : ArgsBroadcaster) (sk : PrivKey) (pk : res bytes) (unixNano : Z) (n : N)
    : res (broadcasterConfig PrivKey * broadcaster C N) :=
  match checkArgs args with
  | Some e => Err e
  | None =>
      res_map (fun pkBytes =>
        ({| bc_name := Args_Name args; privateKey := sk; publicKeyBytes := pkBytes;
            joinTopicName := Args_Name args +:+ joinTopicSuffix;
            signTopicName := Args_Name args +:+ signTopicSuffix |},
         mkBroadcaster (u64 unixNano) ∅ [] n)) pk
  end.

Section Broadcaster.
Context {C N PubKey PrivKey : Type} `{!BroadcastClient C}.
Context (D : netDeps N PubKey PrivKey) (cfg : broadcasterConfig PrivKey).
Abbreviation St := (broadcaster C N).

Definition on_net {A} (c : M N A) : M St A :=
  zoom net (fun n b => mkBroadcaster (counter b) (nonces b) (clients b) n) c.

Definition canProcessMessage (message : option MessageP2P) (fromConnectedPeer : PeerID) : M St (option error) :=
  match message with
  | None => mret (Some ErrNilMessage)
  | Some message =>
      err ← on_net (CanProcessMessage D message fromConnectedPeer);
      match err with
      | Some e => mret (Some (Errorf "%w on resolver topic %s" e [GStr (p2p_Topic message)]))
      | None =>
          err ← on_net (CanProcessMessagesOnTopic D fromConnectedPeer (p2p_Topic message) 1
                          (u64 (Z.of_nat (length (p2p_Data message)))) (p2p_SeqNo message));
          match err with
          | Some e => mret (Some (Errorf "%w on resolver topic %s" e [GStr (p2p_Topic message)]))
          | None => mret None
          end
      end
  end.

Definition blacklist_both (message : MessageP2P) (fromConnectedPeer : PeerID) (reason : string) : M St unit :=
  on_net (BlacklistPeer D (p2p_Peer message) reason);;
  on_net (BlacklistPeer D fromConnectedPeer reason).

(** Calls methods of the message: a nil one panics. *)
Definition preProcessMessage (message : option MessageP2P) (fromConnectedPeer : PeerID)
    : M St (res SignedMessage) :=
  message ← deref message;
  match Unmarshal_msg D (p2p_Data message) with
  | Err e =>
      blacklist_both message fromConnectedPeer ("unmarshalable data got on request topic " +:+ p2p_Topic message);;
      mret (Err e)
  | Ok msg =>
      match checkLengths msg with
      | Some e => mret (Err e)
      | None =>
          match PublicKeyFromByteArray D (PublicKeyBytes msg) with
          | Err e => mret (Err e)
          | Ok pk =>
              match Verify D pk (msgWithNonce (Payload msg) (Nonce msg)) (msg_Signature msg) with
              | Some e =>
                  blacklist_both message fromConnectedPeer ("unverifiable signature on request topic " +:+ p2p_Topic message);;
                  mret (Err e)
              | None => mret (Ok msg)
              end
          end
      end
  end.

Definition createMessage (payload : bytes) : M St (res SignedMessage) :=
  modify (fun b => mkBroadcaster (counter b +u 1) (nonces b) (clients b) (net b));;
  nonce ← gets counter;
  match Sign D (privateKey cfg) (msgWithNonce payload nonce) with
  | Err e => mret (Err e)
  | Ok sig => mret (Ok (mkMsg payload (publicKeyBytes cfg) sig nonce))
  end.

Definition broadcastMessage (payload : bytes) (topic : string) : M St (option error) :=
  r ← createMessage payload;
  match r with
  | Err e => mret (Some e)
  | Ok msg =>
      match Marshal_msg D msg with
      | Err e => mret (Some e)
      | Ok buff => on_net (Broadcast D topic buff);; mret None
      end
  end.

(** An error of the marshalizer is only logged: the nil payload is sent. *)
Definition BroadcastSignature (signature messageHash : bytes) : M St unit :=
  let payload := match Marshal_eth D (mkEthSig signature messageHash) with Ok p => p | Err _ => [] end in
  broadcastMessage payload (signTopicName cfg);; mret tt.

Definition BroadcastJoinTopic : M St unit :=
  broadcastMessage (bytes_of_string joinTopicMessage) (joinTopicName cfg);; mret tt.

Definition getEthereumSignature (msg : SignedMessage) : M St (res EthereumSignature) :=
  match Unmarshal_eth D (Payload msg) with
  | Err e => mret (Err e)
  | Ok ethSignature =>
      err ← on_net (net_VerifyEthSignature D (es_Signature ethSignature) (es_MessageHash ethSignature));
      match err with
      | Some e => mret (Err e)
      | None => mret (Ok ethSignature)
      end
  end.

Definition notifyClients (msg : SignedMessage) (ethMsg : EthereumSignature) : M St unit :=
  modify (fun b => mkBroadcaster (counter b) (nonces b)
                     (map (ProcessNewMessage (Some msg) (Some ethMsg)) (clients b)) (net b)).

Definition processSignMessage (msg : SignedMessage) : M St unit :=
  r ← getEthereumSignature msg;
  match r with
  | Err _ => mret tt
  | Ok ethSignature => notifyClients msg ethSignature
  end.

Definition retrieveUniqueMessages (o : map_order) (cs : list C) : gmap string SignedMessage :=
  foldl (fun all client =>
    foldl (fun all msg => <[UniqueID msg := msg]> all) all (AllStoredSignatures o client)) ∅ cs.

Definition sendSignedMessageToPeer (msg : SignedMessage) (peerId : PeerID) : M St (option error) :=
  match Marshal_msg D msg with
  | Err e => mret (Some e)
  | Ok buff => on_net (SendToConnectedPeer D (signTopicName cfg) buff peerId)
  end.

(** Errors of single sends are only logged. *)
Fixpoint send_all (msgs : list SignedMessage) (peerId : PeerID) : M St unit :=
  match msgs with
  | [] => mret tt
  | msg :: rest => sendSignedMessageToPeer msg peerId;; send_all rest peerId
  end.

(** The loops over the clients' maps and over the collected map have their own orders. *)
Definition broadcastCurrentSignatures (o1 o2 : map_order) (peerId : PeerID) : M St (option error) :=
  cs ← gets clients;
  let allMessages := retrieveUniqueMessages o1 cs in
  send_all (omap (fun k => allMessages !! k) (range_keys o2 allMessages)) peerId;;
  mret None.

Definition processJoinMessage (o1 o2 : map_order) (message : MessageP2P) : M St unit :=
  broadcastCurrentSignatures o1 o2 (p2p_Peer message);; mret tt.

Definition processNonce_m (msg : SignedMessage) : M St (option error) := fun b =>
  let '(err, ns) := processNonce msg (nonces b) in
  (Ret err, mkBroadcaster (counter b) ns (clients b) (net b)).

Definition ProcessReceivedMessage (o1 o2 : map_order) (message : option MessageP2P) (fromConnectedPeer : PeerID)
    : M St (option error) :=
  r ← preProcessMessage message fromConnectedPeer;
  m ← deref message;
  match r with
  | Err e => mret (Some e)
  | Ok msg =>
      ok ← on_net (net_IsWhitelisted D (PublicKeyBytes msg));
      if negb ok then
        mret (Some (Errorf "%w for peer: %s" ErrPeerNotWhitelisted [GStr (hex_encode (PublicKeyBytes msg))]))
      else
        err ← processNonce_m msg;
        match err with
        | Some e => mret (Some e)
        | None =>
            err ← canProcessMessage message fromConnectedPeer;
            match err with
            | Some e => mret (Some e)
            | None =>
                (if String.eqb (p2p_Topic m) (joinTopicName cfg) then processJoinMessage o1 o2 m
                 else if String.eqb (p2p_Topic m) (signTopicName cfg) then processSignMessage msg
                 else mret tt);;
                mret None
            end
        end
  end.

Fixpoint register_topics (topics : list string) : M St (option error) :=
  match topics with
  | [] => mret None
  | topic :: rest =>
      err ← on_net (CreateTopic D topic true);
      match err with
      | Some e => mret (Some e)
      | None =>
          err ← on_net (RegisterMessageProcessor D topic defaultTopicIdentifier);
          match err with
          | Some e => mret (Some e)
          | None => register_topics rest
          end
      end
  end.

Definition RegisterOnTopics : M St (option error) := register_topics [joinTopicName cfg; signTopicName cfg].

Definition AddBroadcastClient (client : option C) : M St (option error) :=
  match client with
  | None => mret (Some ErrNilBroadcastClient)
  | Some c => modify (fun b => mkBroadcaster (counter b) (nonces b) (clients b ++ [c]) (net b));; mret None
  end.

Definition Close : M St (option error) := on_net (net_Close D).

End Broadcaster.

End P2P.
