(* ===== verification/P2PFacts.v ===== *)
(** * What the message exchange guarantees

    Replay protection, authenticity of what reaches the clients, and the round trip from a
    relayer that signs to a relayer that checks. *)
From S2P Require Import Prelude Go Keys Signatures P2P.
Open Scope go_scope.
Import P2P.

Module P2PFacts.

(** A postcondition that also speaks of runs that panic. *)
Definition post {S A} (c : M S A) (s : S) (Q : outcome A -> S -> Prop) : Prop := Q (fst (c s)) (snd (c s)).

Lemma post_bind {S A B} (c : M S A) (k : A -> M S B) s Q :
  post c s (fun o s' => match o with Ret a => post (k a) s' Q | Panic p => Q (Panic p) s' end) ->
  post (mbind k c) s Q.
Proof. unfold post, mbind, M_bind. by destruct (c s) as [[a|p] s']. Qed.

Lemma post_mono {S A} (c : M S A) s (Q Q' : outcome A -> S -> Prop) :
  post c s Q -> (forall o s', Q o s' -> Q' o s') -> post c s Q'.
Proof. unfold post. eauto. Qed.

Lemma post_run {S A} (c : M S A) s o s' (Q : outcome A -> S -> Prop) : c s = (o, s') -> Q o s' -> post c s Q.
Proof. unfold post. by intros ->. Qed.

Section Facts.
Context {C N PubKey PrivKey : Type} `{!BroadcastClient C}.
Context (D : netDeps N PubKey PrivKey) (cfg : broadcasterConfig PrivKey).
Abbreviation St := (broadcaster C N).

Definition same_but_net (b b' : St) : Prop :=
  counter b' = counter b /\ nonces b' = nonces b /\ clients b' = clients b.

(** Only the network changes. *)
Definition keeps {A} (c : M St A) : Prop := forall b, post c b (fun _ b' => same_but_net b b').

Lemma same_trans b1 b2 b3 : same_but_net b1 b2 -> same_but_net b2 b3 -> same_but_net b1 b3.
Proof. unfold same_but_net. intuition congruence. Qed.

Lemma keeps_ret {A} (a : A) : keeps (mret a).
Proof. done. Qed.
Lemma keeps_on_net {A} (c : M N A) : keeps (on_net c).
Proof. intros b. unfold post, on_net, zoom. by destruct (c (net b)). Qed.
Lemma keeps_bind {A B} (c : M St A) (k : A -> M St B) : keeps c -> (forall a, keeps (k a)) -> keeps (mbind k c).
Proof.
  intros Hc Hk b. apply post_bind. eapply post_mono; [apply Hc|]. intros [a|p] b' Hb; cbn; [|done].
  eapply post_mono; [apply Hk|]. intros o b'' Hb'. by eapply same_trans.
Qed.
Lemma keeps_deref {A} (p : option A) : keeps (deref p).
Proof. by destruct p. Qed.
Lemma keeps_gets {A} (f : St -> A) : keeps (gets f).
Proof. done. Qed.

Local Create HintDb keeps discriminated.
Local Hint Resolve keeps_ret keeps_on_net keeps_bind keeps_deref keeps_gets : keeps.
Ltac solve_keeps :=
  repeat first [apply keeps_ret | apply keeps_on_net | apply keeps_deref | apply keeps_gets
               | apply keeps_bind; [|intros ?] | case_match].

Lemma keeps_preProcess m from : keeps (preProcessMessage D m from).
Proof. unfold preProcessMessage, blacklist_both. solve_keeps. Qed.
Lemma keeps_canProcess m from : keeps (canProcessMessage D m from).
Proof. unfold canProcessMessage. solve_keeps. Qed.
Lemma keeps_send_all msgs peer : keeps (send_all D cfg msgs peer).
Proof.
  induction msgs as [|m msgs IH]; cbn [send_all]; [apply keeps_ret|].
  apply keeps_bind; [unfold sendSignedMessageToPeer; solve_keeps|done].
Qed.
Lemma keeps_join o1 o2 m : keeps (processJoinMessage D cfg o1 o2 m).
Proof.
  unfold processJoinMessage, broadcastCurrentSignatures. solve_keeps. apply keeps_send_all.
Qed.
Lemma keeps_getSignature msg : keeps (getEthereumSignature D msg).
Proof. unfold getEthereumSignature. solve_keeps. Qed.

(** ** Authenticity *)

(** The payload and the nonce were signed by the key the message carries, and no field is too long. *)
Definition authentic (msg : SignedMessage) : Prop :=
  checkLengths msg = None /\
  exists pk, PublicKeyFromByteArray D (PublicKeyBytes msg) = Ok pk /\
    Verify D pk (msgWithNonce (Payload msg) (Nonce msg)) (msg_Signature msg) = None.

(** The relayer's role provider answered that the sender is whitelisted. *)
Definition was_whitelisted (pk : bytes) : Prop := exists n n', net_IsWhitelisted D pk n = (Ret true, n').

(** The payload carries this Ethereum signature, and the signature processor accepted it. *)
Definition carries (msg : SignedMessage) (es : EthereumSignature) : Prop :=
  Unmarshal_eth D (Payload msg) = Ok es /\
  exists n n', net_VerifyEthSignature D (es_Signature es) (es_MessageHash es) n = (Ret None, n').

Lemma preProcess_spec m from (b : St) msg b' :
  preProcessMessage D (Some m) from b = (Ret (Ok msg), b') ->
  Unmarshal_msg D (p2p_Data m) = Ok msg /\ authentic msg /\ b' = b.
Proof.
  unfold preProcessMessage, blacklist_both, mbind, M_bind. cbn.
  destruct (Unmarshal_msg D (p2p_Data m)) as [msg'|e] eqn:Hu; cbn.
  2:{ destruct (on_net _ b) as [[[]|p] b1]; cbn; [|done]. by destruct (on_net _ b1) as [[[]|p] b2]. }
  destruct (checkLengths msg') eqn:Hc; cbn; [done|].
  destruct (PublicKeyFromByteArray D (PublicKeyBytes msg')) as [pk|e] eqn:Hpk; cbn; [|done].
  destruct (Verify D pk _ _) as [e|] eqn:Hv; cbn.
  - destruct (on_net _ b) as [[[]|p] b1]; cbn; [|done]. by destruct (on_net _ b1) as [[[]|p] b2].
  - intros [= -> ->]. split; [done|]. split; [|done]. split; [done|]. by exists pk.
Qed.

(** What one received message can do to the broadcaster, whatever the outcome of the call. *)
Inductive received_effect (m : option MessageP2P) (b b' : St) : Prop :=
  | Dropped : same_but_net b b' -> received_effect m b b'
  | Consumed mp msg :
      m = Some mp -> Unmarshal_msg D (p2p_Data mp) = Ok msg -> authentic msg ->
      was_whitelisted (PublicKeyBytes msg) -> (nonce_of (nonces b) (PublicKeyBytes msg) < Nonce msg)%Z ->
      counter b' = counter b -> nonces b' = <[string_of_bytes (PublicKeyBytes msg) := Nonce msg]> (nonces b) ->
      clients b' = clients b -> received_effect m b b'
  | Delivered mp msg es :
      m = Some mp -> Unmarshal_msg D (p2p_Data mp) = Ok msg -> authentic msg ->
      was_whitelisted (PublicKeyBytes msg) -> (nonce_of (nonces b) (PublicKeyBytes msg) < Nonce msg)%Z ->
      p2p_Topic mp = signTopicName cfg -> carries msg es ->
      counter b' = counter b -> nonces b' = <[string_of_bytes (PublicKeyBytes msg) := Nonce msg]> (nonces b) ->
      clients b' = map (ProcessNewMessage (Some msg) (Some es)) (clients b) -> received_effect m b b'.

Lemma on_net_inv {A} (c : M N A) (b b' : St) o : on_net c b = (o, b') ->
  exists n', c (net b) = (o, n') /\ same_but_net b b'.
Proof. unfold on_net, zoom. destruct (c (net b)) as [o' n']. intros [= <- <-]. by exists n'. Qed.

Lemma processSign_effect msg (b : St) :
  post (processSignMessage D msg) b (fun _ b' =>
    same_but_net b b' \/
    exists es, carries msg es /\ counter b' = counter b /\ nonces b' = nonces b /\
      clients b' = map (ProcessNewMessage (Some msg) (Some es)) (clients b)).
Proof.
  unfold processSignMessage, getEthereumSignature, post, mbind, M_bind.
  destruct (Unmarshal_eth D (Payload msg)) as [es|e] eqn:Hu; cbn; [|by left].
  destruct (on_net _ b) as [[[e|]|p] b1] eqn:Hv; apply on_net_inv in Hv as (n' & Hv & Hc & Hn & Hcl); cbn.
  - by left.
  - right. exists es. split; [split; [done|by eexists _, _]|]. by rewrite Hc, Hn, Hcl.
  - by left.
Qed.

Local Arguments canProcessMessage : simpl never.
Local Arguments post : simpl never.

Lemma received_has_effect o1 o2 m from (b : St) :
  post (ProcessReceivedMessage D cfg o1 o2 m from) b (fun _ b' => received_effect m b b').
Proof.
  unfold ProcessReceivedMessage. apply post_bind.
  pose proof (keeps_preProcess m from b) as Hkeep. unfold post in Hkeep.
  destruct (preProcessMessage D m from b) as [o b1] eqn:Hpre. eapply post_run; [exact Hpre|]. cbn beta.
  destruct o as [r|p]; [|by apply Dropped]. cbn [snd] in Hkeep.
  apply post_bind. destruct m as [mp|]; [|by apply Dropped].
  eapply post_run; [done|]. cbn beta iota. destruct r as [msg|e]; [|by apply Dropped].
  apply preProcess_spec in Hpre as (Hu & Ha & ->). clear Hkeep. apply post_bind.
  destruct (on_net (net_IsWhitelisted D (PublicKeyBytes msg)) b) as [o b1] eqn:Hw. eapply post_run; [exact Hw|].
  apply on_net_inv in Hw as (n' & Hw & Hsame). destruct o as [[]|p]; cbn [negb]; [|by apply Dropped..].
  assert (Hwl : was_whitelisted (PublicKeyBytes msg)) by by eexists _, _. destruct Hsame as (Hc & Hn & Hcl).
  apply post_bind. unfold post at 1, processNonce_m, processNonce. rewrite Hn.
  destruct (Z.leb_spec (Nonce msg) (nonce_of (nonces b) (PublicKeyBytes msg))) as [Hle|Hlt]; cbn [fst snd].
  { by apply Dropped. }
  set (b2 := mkBroadcaster _ _ _ _).
  assert (Hcons : forall b', same_but_net b2 b' -> received_effect (Some mp) b b').
  { intros b' (H1 & H2 & H3). eapply Consumed; try done; cbn in *; congruence. }
  apply post_bind. eapply post_mono; [apply keeps_canProcess|]. intros [[e|]|p] b3 Hs; cbn; try by apply Hcons.
  apply post_bind. destruct (String.eqb_spec (p2p_Topic mp) (joinTopicName cfg)) as [_|_].
  - eapply post_mono; [apply keeps_join|]. intros [[]|p] b4 Hs'; cbn; apply Hcons; by eapply same_trans.
  - destruct (String.eqb_spec (p2p_Topic mp) (signTopicName cfg)) as [Ht|_]; [|by apply Hcons].
    eapply post_mono; [apply processSign_effect|].
    intros o b4 Hs4. assert (received_effect (Some mp) b b4); [|by destruct o as [[]|]].
    destruct Hs4 as [Hs'|(es & He & H1 & H2 & H3)]; [apply Hcons; by eapply same_trans|].
    destruct Hs as (S1 & S2 & S3). eapply Delivered; try done; cbn in *; congruence.
Qed.

(** ** Sending *)

Lemma createMessage_run payload (b : St) :
  createMessage D cfg payload b =
  (Ret (res_map (fun sig => mkMsg payload (publicKeyBytes cfg) sig (counter b +u 1))
          (Sign D (privateKey cfg) (msgWithNonce payload (counter b +u 1)))),
   mkBroadcaster (counter b +u 1) (nonces b) (clients b) (net b)).
Proof.
  unfold createMessage, mbind, M_bind, modify, gets. cbn.
  by destruct (Sign D (privateKey cfg) (msgWithNonce payload (counter b +u 1))).
Qed.

End Facts.

(** ** Replay protection *)

(** A client that only writes down what it is told, newest first. *)
Abbreviation message_log := (list (SignedMessage * EthereumSignature)).

#[export] Instance log_client : BroadcastClient message_log := {
  ProcessNewMessage m e l := match m, e with Some m, Some e => (m, e) :: l | _, _ => l end;
  AllStoredSignatures _ l := l.*1
}.

(** A call of [ProcessReceivedMessage] by the messenger; a panic ends the call, not the relayer's state. *)
Record delivery := { d_orders : map_order * map_order; d_message : option MessageP2P; d_from : PeerID }.

Definition receive {C N PubKey PrivKey} `{!BroadcastClient C} (D : netDeps N PubKey PrivKey) cfg
    (b : broadcaster C N) (d : delivery) : broadcaster C N :=
  snd (ProcessReceivedMessage D cfg (fst (d_orders d)) (snd (d_orders d)) (d_message d) (d_from d) b).

(** The message is newer than everything the same key had delivered, properly signed by its
    key, carries a verified Ethereum signature, and its sender was whitelisted. *)
Definition fresh_and_authentic {N PubKey PrivKey} (D : netDeps N PubKey PrivKey)
    (me : SignedMessage * EthereumSignature) (old : message_log) : Prop :=
  authentic D me.1 /\ was_whitelisted D (PublicKeyBytes me.1) /\ carries D me.1 me.2 /\
  forall me', me' ∈ old -> PublicKeyBytes me'.1 = PublicKeyBytes me.1 -> (Nonce me'.1 < Nonce me.1)%Z.

Section Replay.
Context {N PubKey PrivKey : Type} (D : netDeps N PubKey PrivKey) (cfg : broadcasterConfig PrivKey).

Definition log_inv (b : broadcaster message_log N) : Prop :=
  exists log, clients b = [log] /\ tl_ok (fresh_and_authentic D) log /\
    forall me, me ∈ log -> (Nonce me.1 <= nonce_of (nonces b) (PublicKeyBytes me.1))%Z.

Lemma nonce_of_insert (ns : nonces_map) pk n pk' :
  nonce_of (<[string_of_bytes pk := n]> ns) pk' = if bool_decide (pk = pk') then n else nonce_of ns pk'.
Proof.
  unfold nonce_of. case_bool_decide as H.
  - subst. by rewrite lookup_insert_eq.
  - rewrite lookup_insert_ne; [done|]. intros Heq. by apply string_of_bytes_inj in Heq.
Qed.

Lemma log_inv_receive b d : log_inv b -> log_inv (receive D cfg b d).
Proof.
  intros (log & Hcl & Hok & Hle). unfold receive.
  pose proof (received_has_effect D cfg (fst (d_orders d)) (snd (d_orders d)) (d_message d) (d_from d) b) as He.
  unfold post in He. set (b' := snd _) in *. clearbody b'.
  destruct He as [(_ & Hn & Hc)|mp msg _ _ _ _ Hlt _ Hn Hc|mp msg es _ _ Ha Hw Hlt _ Hes _ Hn Hc].
  - exists log. rewrite Hc, Hn. done.
  - exists log. rewrite Hc, Hn. split; [done|]. split; [done|]. intros me Hme. rewrite nonce_of_insert.
    case_bool_decide as Hpk; [|by apply Hle]. specialize (Hle me Hme). rewrite <-Hpk in Hle. lia.
  - exists ((msg, es) :: log). rewrite Hc, Hn, Hcl. split; [done|].
    assert (Hold : forall me, me ∈ log -> PublicKeyBytes me.1 = PublicKeyBytes msg -> (Nonce me.1 < Nonce msg)%Z).
    { intros me Hme Hpk. specialize (Hle me Hme). rewrite Hpk in Hle. lia. }
    split; [split; [by split; [|split; [|split]]|done]|].
    intros me [->|Hme]%elem_of_cons; cbn; rewrite nonce_of_insert.
    + rewrite bool_decide_true by done. lia.
    + case_bool_decide as Hpk; [|by apply Hle]. specialize (Hold me Hme (eq_sym Hpk)). lia.
Qed.

End Replay.

(** C24. Replay protection: whatever the network delivers, in any order and however often, the
    messages that reach a registered client were signed by the key they carry over payload and
    nonce, came from a whitelisted relayer, carry an Ethereum signature the processor accepted,
    and have strictly increasing nonces per key: no message reaches a client twice. *)
Theorem no_replay {N PubKey PrivKey} (D : netDeps N PubKey PrivKey) (cfg : broadcasterConfig PrivKey)
    (start : Z) (n : N) (ds : list delivery) :
  exists log, clients (foldl (receive D cfg) (mkBroadcaster start ∅ [[] : message_log] n) ds) = [log] /\
    tl_ok (fresh_and_authentic D) log.
Proof.
  assert (H : log_inv D (foldl (receive D cfg) (mkBroadcaster start ∅ [[] : message_log] n) ds)).
  { assert (H0 : log_inv D (mkBroadcaster start ∅ [[] : message_log] n)).
    { exists []. split; [done|]. split; [done|]. intros me Hme. by apply not_elem_of_nil in Hme. }
    revert H0. generalize (mkBroadcaster start ∅ [[] : message_log] n).
    induction ds as [|d ds IH]; intros b Hb; [done|]. cbn. by apply IH, log_inv_receive. }
  destruct H as (log & Hc & Hok & _). by exists log.
Qed.

(** ** Round trip *)

(** What the libraries promise: decoding inverts encoding, and a signature made with a private
    key verifies under its public key. *)
Class WireLaws {N PubKey PrivKey} (D : netDeps N PubKey PrivKey) (sk : PrivKey) (pkBytes : bytes) : Prop := {
  unmarshal_marshal msg buff : Marshal_msg D msg = Ok buff -> Unmarshal_msg D buff = Ok msg;
  key_decodes : exists pk, PublicKeyFromByteArray D pkBytes = Ok pk /\
    forall m sig, Sign D sk m = Ok sig -> Verify D pk m sig = None
}.

(** C30. What a relayer broadcasts, another relayer accepts: if the message could be signed and
    encoded and its fields are within the limits, the receiver's pre-processing returns exactly
    the sent message and touches nothing; and as long as the counter does not wrap, the nonces
    of successive messages grow, so that the receiver that has processed one accepts the next. *)
Theorem broadcast_accepted {C N PubKey PrivKey} `{!BroadcastClient C} (D : netDeps N PubKey PrivKey)
    (cfg : broadcasterConfig PrivKey) (HW : WireLaws D (privateKey cfg) (publicKeyBytes cfg))
    (sender sender' receiver : broadcaster C N) payload msg buff topic from seq peer ns :
  createMessage D cfg payload sender = (Ret (Ok msg), sender') -> Marshal_msg D msg = Ok buff ->
  checkLengths msg = None -> (0 <= counter sender < two64 - 1)%Z ->
  (nonce_of ns (publicKeyBytes cfg) <= counter sender)%Z ->
  preProcessMessage D (Some (mkP2P buff topic from seq)) peer receiver = (Ret (Ok msg), receiver) /\
  processNonce msg ns = (None, <[string_of_bytes (publicKeyBytes cfg) := counter sender']> ns) /\
  (counter sender < counter sender')%Z /\ Payload msg = payload /\ PublicKeyBytes msg = publicKeyBytes cfg.
Proof.
  rewrite createMessage_run. intros Hm Hb Hlen Hc Hns.
  destruct (Sign D (privateKey cfg) _) as [sig|e] eqn:Hs; cbn in Hm; [|done]. injection Hm as <- <-.
  destruct HW as [Hround (pk & Hpk & Hver)].
  assert (Hu : u64 (counter sender + 1) = (counter sender + 1)%Z) by (apply u64_small; unfold is_u64; lia).
  split; [|split; [|split; [|done]]].
  - unfold preProcessMessage, mbind, M_bind. cbn [deref mret M_ret p2p_Data].
    rewrite (Hround _ _ Hb), Hlen. cbn [PublicKeyBytes]. rewrite Hpk. cbn [Payload Nonce msg_Signature].
    by rewrite (Hver _ _ Hs).
  - unfold processNonce. cbn [PublicKeyBytes Nonce counter]. rewrite Hu.
    destruct (Z.leb_spec (counter sender + 1) (nonce_of ns (publicKeyBytes cfg))); [lia|done].
  - cbn [counter]. rewrite Hu. lia.
Qed.

(** ** A small network for the witnesses

    Fields are encoded with their length in two bytes; a signature is the key followed by the
    signed text. *)
Definition toy_field (l : bytes) : bytes := be_bytes 2 (Z.of_nat (length l)) ++ l.
Definition toy_take (l : bytes) : option (bytes * bytes) :=
  let n := Z.to_nat (be_val (take 2 l)) in
  if Nat.leb (2 + n) (length l) then Some (take n (drop 2 l), drop (2 + n) l) else None.
Definition toy_small (l : bytes) : bool := (Z.of_nat (length l) <? 65536)%Z.

Lemma toy_take_field l rest : toy_small l = true -> toy_take (toy_field l ++ rest) = Some (l, rest).
Proof.
  unfold toy_small. intros H%Z.ltb_lt. unfold toy_take, toy_field. rewrite <-app_assoc.
  rewrite (take_app_length' (be_bytes 2 _)) by (by rewrite be_bytes_length).
  rewrite (drop_app_length' (be_bytes 2 _)) by (by rewrite be_bytes_length).
  rewrite be_val_bytes by (cbn; lia). rewrite Nat2Z.id.
  destruct (Nat.leb_spec (2 + length l) (length (be_bytes 2 (Z.of_nat (length l)) ++ l ++ rest))) as [_|Hgt].
  - rewrite take_app_length. rewrite <-drop_drop. rewrite (drop_app_length' (be_bytes 2 _)) by (by rewrite be_bytes_length).
    by rewrite drop_app_length.
  - rewrite !length_app, be_bytes_length in Hgt. lia.
Qed.

Definition toy_marshal (m : SignedMessage) : res bytes :=
  if toy_small (Payload m) && toy_small (PublicKeyBytes m) && toy_small (msg_Signature m) &&
     ((0 <=? Nonce m) && (Nonce m <? two64))%Z
  then Ok (toy_field (Payload m) ++ toy_field (PublicKeyBytes m) ++ toy_field (msg_Signature m) ++ be_bytes 8 (Nonce m))
  else Err (ErrExternal "too long").
Definition toy_unmarshal (l : bytes) : res SignedMessage :=
  match (p ← toy_take l; q ← toy_take p.2; r ← toy_take q.2; Some (mkMsg p.1 q.1 r.1 (be_val r.2))) with
  | Some m => Ok m
  | None => Err (ErrExternal "malformed")
  end.

Definition toy_net : netDeps (list (string * bytes)) bytes bytes := {|
  Marshal_msg := toy_marshal; Unmarshal_msg := toy_unmarshal;
  Marshal_eth e := Ok (es_Signature e ++ es_MessageHash e);
  Unmarshal_eth l := if Nat.ltb (length l) 3 then Err (ErrExternal "malformed") else Ok (mkEthSig (take 2 l) (drop 2 l));
  PublicKeyFromByteArray l := Ok l;
  Sign sk m := Ok (sk ++ m);
  Verify pk m sig := if bool_decide (sig = pk ++ m) then None else Some (ErrExternal "invalid signature");
  CanProcessMessage _ _ := mret None;
  CanProcessMessagesOnTopic _ _ _ _ _ := mret None;
  BlacklistPeer p reason := mret tt;
  net_IsWhitelisted pk := mret (bool_decide (pk ∈ [[Byte.x01]; [Byte.x02]]));
  net_VerifyEthSignature _ _ := mret None;
  Broadcast topic buff := modify (fun sent => (topic, buff) :: sent);
  SendToConnectedPeer topic buff _ := (modify (fun sent => (topic, buff) :: sent);; mret None);
  CreateTopic _ _ := mret None; RegisterMessageProcessor _ _ := mret None; net_Close := mret None |}.

Definition toy_cfg (me : bytes) : broadcasterConfig bytes :=
  {| bc_name := "eth"; privateKey := me; publicKeyBytes := me; joinTopicName := "eth_join"; signTopicName := "eth_sign" |}.

#[export] Instance toy_wire me : WireLaws toy_net (privateKey (toy_cfg me)) (publicKeyBytes (toy_cfg me)).
Proof.
  split.
  - intros [p k s n] buff. change (Marshal_msg toy_net) with toy_marshal. change (Unmarshal_msg toy_net) with toy_unmarshal.
    unfold toy_marshal. cbn [Payload PublicKeyBytes msg_Signature Nonce]. case_match eqn:H; [|done]. intros Hb%Ok_inj. subst buff.
    apply andb_true_iff in H as [H Hn]. apply andb_true_iff in H as [H Hs]. apply andb_true_iff in H as [Hp Hk].
    apply andb_true_iff in Hn as [Hn1 Hn2]. apply Z.ltb_lt in Hn2. apply Z.leb_le in Hn1.
    unfold toy_unmarshal. rewrite toy_take_field by done. cbn [mbind option_bind snd fst].
    rewrite toy_take_field by done. cbn [mbind option_bind snd fst].
    rewrite toy_take_field by done. cbn [mbind option_bind snd fst].
    rewrite be_val_bytes; [done|]. unfold two64 in *. cbn. lia.
  - exists me. split; [done|]. intros m sig [= <-]. cbn. by rewrite bool_decide_true.
Qed.

Definition toy_broadcaster : broadcaster message_log (list (string * bytes)) := mkBroadcaster 41 ∅ [[]] [].
Definition toy_payload : bytes := [Byte.xaa; Byte.xab; Byte.xcc].
Definition toy_message : SignedMessage :=
  mkMsg toy_payload [Byte.x01] ([Byte.x01] ++ msgWithNonce toy_payload 42) 42.

Lemma broadcast_accepted_witness :
  exists buff, Marshal_msg toy_net toy_message = Ok buff /\
  preProcessMessage toy_net (Some (mkP2P buff "eth_sign" "peer" [])) "peer" toy_broadcaster =
    (Ret (Ok toy_message), toy_broadcaster).
Proof.
  eexists. split; [reflexivity|].
  pose proof (broadcast_accepted toy_net (toy_cfg [Byte.x01]) (toy_wire _) toy_broadcaster _ toy_broadcaster
    toy_payload toy_message _ "eth_sign" "peer" [] "peer" ∅ eq_refl eq_refl eq_refl) as H.
  destruct H as [H _]; [by vm_compute|by vm_compute|]. exact H.
Defined.

(** The message reaches the client once: the second delivery is a replay, and so is the third,
    from another peer. *)
Example replayed_message :
  let m := mkP2P (match toy_marshal toy_message with Ok b => b | Err _ => [] end) "eth_sign" "peer" [] in
  let d := {| d_orders := (some_order, reverse_order); d_message := Some m; d_from := "peer" |} in
  let b := foldl (receive toy_net (toy_cfg [Byte.x02])) toy_broadcaster [d; d; d] in
  clients b = [[(toy_message, mkEthSig [Byte.xaa; Byte.xab] [Byte.xcc])]] /\
  fst (ProcessReceivedMessage toy_net (toy_cfg [Byte.x02]) some_order some_order (Some m) "other" b) =
    Ret (Some ErrNonceTooLowInReceivedMessage).
Proof. by vm_compute. Qed.

End P2PFacts.
