(* ===== verification/Adapters.v ===== *)
(** * Small adapters around libraries

    The logger with an identifier ([src/bridge/core/loggerWithIdentifier.go]), the NTP timer
    ([src/bridge/core/timer/ntpTimer.go]), the evaluator of denied peers
    ([src/bridge/p2p/peerDenialEvaluator.go]) and the adapter that turns the messenger's
    addresses into metrics ([src/bridge/p2p/statusHandlerAdapter.go]).  The logger, the NTP
    client, the caches and the messenger they wrap are parameters. *)
From S2P Require Import Prelude Go Common Interfaces Executor P2P.
Open Scope go_scope.

(** ** The logger *)

Module LoggerWithIdentifier.

(** A line of the logger library; the other fields are only passed on. *)
Record LogLine := mkLine {
  line_Message : string;
  line_Level : LogLevel;
  line_Args : list gval
}.

Record Logger (X : Type) := {
  log_Trace : string -> list gval -> M X unit;
  log_Debug : string -> list gval -> M X unit;
  log_Info : string -> list gval -> M X unit;
  log_Warn : string -> list gval -> M X unit;
  log_Error : string -> list gval -> M X unit;
  log_Log : LogLevel -> string -> list gval -> M X unit;
  log_LogLine : LogLine -> M X unit;
  log_SetLevel : LogLevel -> M X unit;
  log_GetLevel : M X LogLevel
}.
Arguments log_Trace {X} _ _ _.
Arguments log_Debug {X} _ _ _.
Arguments log_Info {X} _ _ _.
Arguments log_Warn {X} _ _ _.
Arguments log_Error {X} _ _ _.
Arguments log_Log {X} _ _ _ _.
Arguments log_LogLine {X} _ _.
Arguments log_SetLevel {X} _ _.
Arguments log_GetLevel {X} _.

Record loggerWithIdentifier (X : Type) := {
  logger : Logger X;
  identifier : string
}.
Arguments logger {X} _.
Arguments identifier {X} _.

(** A nil logger gives a nil decorator, which [check.IfNil] then finds. *)
Definition NewLoggerWithIdentifier {X} (l : option (Logger X)) (id : string) : option (loggerWithIdentifier X) :=
  match l with
  | None => None
  | Some l => Some {| logger := l; identifier := id |}
  end.

Section Logger.
Context {X : Type} (l : loggerWithIdentifier X).

Definition formatMessage (message : string) : string := identifier l +:+ " " +:+ message.

Definition Trace (message : string) (args : list gval) : M X unit := log_Trace (logger l) (formatMessage message) args.
Definition Debug (message : string) (args : list gval) : M X unit := log_Debug (logger l) (formatMessage message) args.
Definition Info (message : string) (args : list gval) : M X unit := log_Info (logger l) (formatMessage message) args.
Definition Warn (message : string) (args : list gval) : M X unit := log_Warn (logger l) (formatMessage message) args.
Definition Error (message : string) (args : list gval) : M X unit := log_Error (logger l) (formatMessage message) args.

(** The message is formatted here and again in [Error]. *)
Definition LogIfError (err : option error) (args : list gval) : M X unit :=
  match err with
  | None => mret tt
  | Some e => Error (formatMessage (error_text e)) args
  end.

Definition Log (level : LogLevel) (message : string) (args : list gval) : M X unit :=
  log_Log (logger l) level (formatMessage message) args.

(** The line is changed in place: the result is what the caller's pointer refers to after. *)
Definition LogLine_ (line : option LogLine) : M X (option LogLine) :=
  match line with
  | None => mret None
  | Some line =>
      let line' := mkLine (formatMessage (line_Message line)) (line_Level line) (line_Args line) in
      log_LogLine (logger l) line';; mret (Some line')
  end.

Definition SetLevel (level : LogLevel) : M X unit := log_SetLevel (logger l) level.
Definition GetLevel : M X LogLevel := log_GetLevel (logger l).

(** The decorated logger is a logger again. *)
Definition as_logger : Logger X := {|
  log_Trace := Trace; log_Debug := Debug; log_Info := Info; log_Warn := Warn; log_Error := Error;
  log_Log := Log; log_LogLine line := LogLine_ (Some line);; mret tt;
  log_SetLevel := SetLevel; log_GetLevel := GetLevel |}.
End Logger.

(** A logger that remembers its messages. *)
Definition recording : Logger (list string) :=
  let put m (_ : list gval) := modify (fun s => s ++ [m]) in
  {| log_Trace := put; log_Debug := put; log_Info := put; log_Warn := put; log_Error := put;
     log_Log _ := put; log_LogLine line := put (line_Message line) [];
     log_SetLevel _ := mret tt; log_GetLevel := mret LogNone |}.

(** An error passed to [LogIfError] carries the identifier twice. *)
Example identifier_twice :
  LogIfError {| logger := recording; identifier := "[eth]" |} (Some (ErrExternal "boom")) [] [] =
  (Ret tt, ["[eth] [eth] boom"]).
Proof. vm_compute. reflexivity. Qed.

(** One logged line of a chain of decorators carries every identifier once, the innermost first,
    on every level. *)
Lemma nested_identifiers (l1 l2 : string) (m : string) (args : list gval) (seen : list string) :
  let inner := {| logger := recording; identifier := l1 |} in
  let outer := {| logger := as_logger inner; identifier := l2 |} in
  let line := l1 +:+ " " +:+ l2 +:+ " " +:+ m in
  Trace outer m args seen = (Ret tt, seen ++ [line]) /\ Debug outer m args seen = (Ret tt, seen ++ [line]) /\
  Info outer m args seen = (Ret tt, seen ++ [line]) /\ Warn outer m args seen = (Ret tt, seen ++ [line]) /\
  Error outer m args seen = (Ret tt, seen ++ [line]).
Proof. done. Qed.

End LoggerWithIdentifier.

(** ** The timer *)

Module Timer.

(** The NTP client: [CurrentTime] is given by its [Unix()]. *)
Record SyncTimer (X : Type) := {
  CurrentTime_Unix : M X Z;
  StartSyncingTime : M X unit;
  sync_Close : M X (option error)
}.
Arguments CurrentTime_Unix {X} _.
Arguments StartSyncingTime {X} _.
Arguments sync_Close {X} _.

Record NTPConfig := mkNtp {
  ntp_Hosts : list string;
  ntp_Port : Z;
  ntp_Version : Z;
  ntp_TimeoutMilliseconds : Z;
  ntp_SyncPeriodSeconds : Z
}.

Definition defaultNTPConfig : NTPConfig := {|
  ntp_Hosts := ["time.google.com"; "time.cloudflare.com"; "time.apple.com"; "time.windows.com"];
  ntp_Port := 123; ntp_Version := 0; ntp_TimeoutMilliseconds := 100; ntp_SyncPeriodSeconds := 3600 |}.

Record ntpTimer (X : Type) := { ntpSyncTimer : SyncTimer X }.
Arguments ntpSyncTimer {X} _.

Definition NewNTPTimer {X} (NewSyncTime : NTPConfig -> SyncTimer X) : ntpTimer X :=
  {| ntpSyncTimer := NewSyncTime defaultNTPConfig |}.

Definition NowUnix {X} (n : ntpTimer X) : M X Z := CurrentTime_Unix (ntpSyncTimer n).
Definition Start {X} (n : ntpTimer X) : M X unit := StartSyncingTime (ntpSyncTimer n).
Definition Close {X} (n : ntpTimer X) : M X (option error) := sync_Close (ntpSyncTimer n).

End Timer.

(** ** Denied peers *)

Module Denial.

Definition ErrNilBlackListIDsCache := ErrNew "p2p.ErrNilBlackListIDsCache" "nil blacklist cache".
Definition ErrNilBlackListedPublicKeysCache :=
  ErrNew "p2p.ErrNilBlackListedPublicKeysCache" "nil blacklist public keys cache".

Record PeerBlackListCacher (X : Type) := {
  peer_Has : P2P.PeerID -> M X bool;
  peer_Upsert : P2P.PeerID -> Z -> M X (option error)
}.
Arguments peer_Has {X} _ _.
Arguments peer_Upsert {X} _ _ _.

(** The cache of public keys is only asked: its [Has]. *)
Record peerDenialEvaluator (X : Type) := {
  blackListIDsCache : PeerBlackListCacher X;
  blackListedPublicKeysCache : string -> M X bool
}.
Arguments blackListIDsCache {X} _.
Arguments blackListedPublicKeysCache {X} _ _.

Definition NewPeerDenialEvaluator {X} (ids : option (PeerBlackListCacher X)) (keys : option (string -> M X bool))
    : res (option (peerDenialEvaluator X)) :=
  match ids with
  | None => Err ErrNilBlackListIDsCache
  | Some _ =>
  match keys with
  | None => Err ErrNilBlackListedPublicKeysCache
  | Some _ => Ok (i ← ids; k ← keys; Some {| blackListIDsCache := i; blackListedPublicKeysCache := k |})
  end end.

Section Evaluator.
Context {X : Type} (p : peerDenialEvaluator X).

Definition IsDenied (pid : P2P.PeerID) : M X bool :=
  has ← peer_Has (blackListIDsCache p) pid;
  if (has : bool) then mret true else blackListedPublicKeysCache p pid.

Definition UpsertPeerID (pid : P2P.PeerID) (duration : Z) : M X (option error) :=
  peer_Upsert (blackListIDsCache p) pid duration.
End Evaluator.

(** A peer is denied exactly when one of the two caches holds it; the second is not asked when
    the first does. *)
Lemma IsDenied_spec {X} (p : peerDenialEvaluator X) (ids : X -> P2P.PeerID -> bool) (keys : X -> string -> bool) pid x :
  peer_Has (blackListIDsCache p) pid = gets (fun x => ids x pid) ->
  (forall k, blackListedPublicKeysCache p k = gets (fun x => keys x k)) ->
  IsDenied p pid x = (Ret (ids x pid || keys x pid), x).
Proof.
  intros Hi Hk. unfold IsDenied, mbind, M_bind. rewrite Hi, Hk. unfold gets. by destruct (ids x pid).
Qed.

End Denial.

(** ** Addresses as metrics *)

Module StatusAdapter.

Definition ErrNilStatusHandler := ErrNew "p2p.ErrNilStatusHandler" "nil status handler".

(** What the adapter uses of the messenger. *)
Record addressesOf (X : Type) := {
  Addresses : M X (list string);
  ConnectedAddresses : M X (list string)
}.
Arguments Addresses {X} _.
Arguments ConnectedAddresses {X} _.

Record statusHandlerAdapter (X : Type) := {
  adapter_status : StatusHandler X;
  adapter_messenger : addressesOf X
}.
Arguments adapter_status {X} _.
Arguments adapter_messenger {X} _.

Definition NewStatusHandlerAdapter {X} (sh : option (StatusHandler X)) (messenger : option (addressesOf X))
    : res (option (statusHandlerAdapter X)) :=
  match sh with
  | None => Err ErrNilStatusHandler
  | Some _ =>
  match messenger with
  | None => Err P2P.ErrNilMessenger
  | Some _ => Ok (s ← sh; m ← messenger; Some {| adapter_status := s; adapter_messenger := m |})
  end end.

Definition adapter_Execute {X} (adapter : statusHandlerAdapter X) : M X (option error) :=
  hostAddresses ← Addresses (adapter_messenger adapter);
  sh_SetStringMetric (adapter_status adapter) MetricRelayerP2PAddresses (join_with " " hostAddresses);;
  connectedAddresses ← ConnectedAddresses (adapter_messenger adapter);
  sh_SetStringMetric (adapter_status adapter) MetricConnectedP2PAddresses (join_with " " connectedAddresses);;
  mret None.

End StatusAdapter.
