(* ===== verification/GasStation.v ===== *)
(** * The gas station

    Models [src/bridge/clients/gasManagement] (with its disabled version and factory): the
    polling loop that keeps the latest Ethereum gas price, and the price handed to the
    Ethereum client.  The HTTP request is an operation of the world, the JSON decoder a
    function; [fmt.Sscanf] with the format [%d] is modelled on ASCII text. *)
From S2P Require Import Prelude Go Executor.
Open Scope go_scope.

Module GasStation.

Definition minPollingInterval : Z := 1000000000.
Definition minRequestTime : Z := 1000000.
Definition minGasPriceMultiplier : Z := 1.
Definition minFetchRetries : Z := 2.

Definition EthFastGasPrice : string := "FastGasPrice".
Definition EthSafeGasPrice : string := "SafeGasPrice".
Definition EthProposeGasPrice : string := "ProposeGasPrice".

Definition ErrLatestGasPricesWereNotFetched :=
  ErrNew "gasManagement.ErrLatestGasPricesWereNotFetched" "latest gas price values couldn't have been fetched".
Definition ErrInvalidGasPriceSelector := ErrNew "gasManagement.ErrInvalidGasPriceSelector" "invalid gas price selector".
Definition ErrGasPriceIsHigherThanTheMaximumSet :=
  ErrNew "gasManagement.ErrGasPriceIsHigherThanTheMaximumSet" "fetched gas price is higher than the maximum set".

(** The fields of the service's answer the code reads. *)
Record gasStationResponse := mkResponse {
  SafeGasPrice : string;
  ProposeGasPrice : string;
  FastGasPrice : string
}.

Record ArgsGasStation := {
  RequestURL : string;
  RequestPollingInterval : Z;
  RequestRetryDelay : Z;
  MaximumFetchRetries : Z;
  RequestTime : Z;
  MaximumGasPrice : Z;
  GasPriceSelector : string;
  GasPriceMultiplier : Z
}.

Definition invalid_arg (name : string) : error :=
  Errorf ("%w in checkArgs for value " +:+ name) clients_ErrInvalidValue [].

Definition checkArgs (args : ArgsGasStation) : option error :=
  if (RequestPollingInterval args <? minPollingInterval)%Z then Some (invalid_arg "RequestPollingInterval")
  else if (RequestRetryDelay args <? minPollingInterval)%Z then Some (invalid_arg "RequestRetryDelay")
  else if (RequestTime args <? minRequestTime)%Z then Some (invalid_arg "RequestTime")
  else if (GasPriceMultiplier args <? minGasPriceMultiplier)%Z then Some (invalid_arg "GasPriceMultiplier")
  else if (MaximumFetchRetries args <? minFetchRetries)%Z then Some (invalid_arg "MaximumFetchRetries")
  else if String.eqb (GasPriceSelector args) EthFastGasPrice then None
  else if String.eqb (GasPriceSelector args) EthProposeGasPrice then None
  else if String.eqb (GasPriceSelector args) EthSafeGasPrice then None
  else Some (Errorf "%w: %q" ErrInvalidGasPriceSelector [GStr (GasPriceSelector args)]).

(** ** [fmt.Sscanf(s, "%d", &v)] *)

Definition char_code (c : Ascii.ascii) : Z := Z.of_N (Ascii.N_of_ascii c).
Definition is_digit (c : Ascii.ascii) : bool := (48 <=? char_code c)%Z && (char_code c <=? 57)%Z.
Definition is_space (c : Ascii.ascii) : bool :=
  (char_code c =? 32)%Z || (char_code c =? 9)%Z || (char_code c =? 11)%Z || (char_code c =? 12)%Z || (char_code c =? 13)%Z.

Fixpoint skip_space (s : string) : res string :=
  match s with
  | String c s' =>
      if (char_code c =? 10)%Z then Err (ErrExternal "unexpected newline")
      else if is_space c then skip_space s' else Ok s
  | EmptyString => Ok EmptyString
  end.

(** The longest prefix of digits. *)
Fixpoint scan_digits (s : string) : string :=
  match s with
  | String c s' => if is_digit c then String c (scan_digits s') else EmptyString
  | EmptyString => EmptyString
  end.

Definition digits_val (s : string) : Z :=
  foldl (fun a c => a * 10 + (char_code c - 48))%Z 0%Z (String.list_ascii_of_string s).

(** [strconv.ParseInt(tok, 10, 64)] on an optional sign and digits. *)
Definition parse_token (sign : string) (neg : bool) (digits : string) : res Z :=
  let v := if neg then (- digits_val digits)%Z else digits_val digits in
  if ((- two63 <=? v) && (v <? two63))%Z then Ok v
  else Err (ErrExternal ("strconv.ParseInt: parsing " +:+ fmt_q (GStr (sign +:+ digits)) +:+ ": value out of range")).

Definition Sscanf_d (s : string) : res Z :=
  match skip_space s with
  | Err e => Err e
  | Ok EmptyString => Err (ErrExternal "unexpected EOF")
  | Ok (String c s') =>
      let '(sign, neg, rest) :=
        if Ascii.eqb c "-" then ("-", true, s') else if Ascii.eqb c "+" then ("+", false, s')
        else ("", false, String c s') in
      match scan_digits rest with
      | EmptyString => Err (ErrExternal "expected integer")
      | digits => parse_token sign neg digits
      end
  end.

(** ** The station *)

Section GasStation.
Context {X : Type}.
Context (http_get : string -> M X (res bytes)) (json_Unmarshal : bytes -> res gasStationResponse).

Record gasStation := mkGs { latestGasPrice : Z; fetchRetries : Z; gs_world : X }.

Definition NewGasStation (args : ArgsGasStation) (x : X) : res gasStation :=
  match checkArgs args with
  | Some e => Err e
  | None => Ok (mkGs (-1) 0 x)
  end.

Context (args : ArgsGasStation).

Definition doRequestReturningBytes : M gasStation (res bytes) :=
  zoom gs_world (fun x gs => mkGs (latestGasPrice gs) (fetchRetries gs) x) (http_get (RequestURL args)).

Definition set_price (p : Z) (gs : gasStation) : gasStation := mkGs p (fetchRetries gs) (gs_world gs).
Definition set_retries (n : Z) (gs : gasStation) : gasStation := mkGs (latestGasPrice gs) n (gs_world gs).

Definition selected (response : gasStationResponse) : res string :=
  if String.eqb (GasPriceSelector args) EthFastGasPrice then Ok (FastGasPrice response)
  else if String.eqb (GasPriceSelector args) EthProposeGasPrice then Ok (ProposeGasPrice response)
  else if String.eqb (GasPriceSelector args) EthSafeGasPrice then Ok (SafeGasPrice response)
  else Err (Errorf "%w: %q" ErrInvalidGasPriceSelector [GStr (GasPriceSelector args)]).

(** The price is reset before it is parsed again; a scan that fails leaves it reset. *)
Definition doRequest : M gasStation (option error) :=
  r ← doRequestReturningBytes;
  match r with
  | Err e => mret (Some (Errorf "%w: %q" e [GStr ""]))
  | Ok body =>
      match json_Unmarshal body with
      | Err e => mret (Some (Errorf "%w: %q" e [GStr (string_of_bytes body)]))
      | Ok response =>
          modify (set_price (-1));;
          match (match selected response with Ok text => Sscanf_d text | Err e => Err e end) with
          | Err e => mret (Some (Errorf "%w: %q" e [GStr (string_of_bytes body)]))
          | Ok v => modify (set_price v);; mret None
          end
      end
  end.

(** Returns the delay until the next request. *)
Definition doRequestWithRetryMechanism : M gasStation Z :=
  err ← doRequest;
  match err with
  | None => modify (set_retries 0);; mret (RequestPollingInterval args)
  | Some _ =>
      modify (fun gs => set_retries (fetchRetries gs + 1) gs);;
      n ← gets fetchRetries;
      if (n <=? MaximumFetchRetries args)%Z then mret (RequestRetryDelay args)
      else modify (set_retries 0);; mret (RequestPollingInterval args)
  end.

(** [n] turns of the polling loop, with the delays waited between them. *)
Fixpoint processLoop (n : nat) : M gasStation (list Z) :=
  match n with
  | O => mret []
  | S k => d ← doRequestWithRetryMechanism; ds ← processLoop k; mret (d :: ds)
  end.

Definition GetCurrentGasPrice (gs : gasStation) : res Z :=
  if (latestGasPrice gs =? -1)%Z then Err ErrLatestGasPricesWereNotFetched
  else if (MaximumGasPrice args <? latestGasPrice gs)%Z then
    Err (Errorf "%w maximum value: %d, fetched value: %d, gas price selector: %s" ErrGasPriceIsHigherThanTheMaximumSet
           [GInt (MaximumGasPrice args); GInt (latestGasPrice gs); GStr (GasPriceSelector args)])
  else Ok (latestGasPrice gs * GasPriceMultiplier args)%Z.

(** ** Lemmas *)

Lemma doRequest_effect gs o gs' :
  doRequest gs = (o, gs') ->
  fetchRetries gs' = fetchRetries gs /\
  match o with
  | Ret None => exists body x' response text, http_get (RequestURL args) (gs_world gs) = (Ret (Ok body), x') /\
      json_Unmarshal body = Ok response /\ selected response = Ok text /\ Sscanf_d text = Ok (latestGasPrice gs')
  | _ => latestGasPrice gs' = latestGasPrice gs \/ latestGasPrice gs' = (-1)%Z
  end.
Proof.
  unfold doRequest, doRequestReturningBytes, zoom, mbind, M_bind.
  destruct (http_get (RequestURL args) (gs_world gs)) as [[[body|e]|p] x'] eqn:Hget; cbn.
  2,3: intros [= <- <-]; by auto.
  destruct (json_Unmarshal body) as [resp|e] eqn:Hj; cbn; [|intros [= <- <-]; by auto].
  destruct (selected resp) as [text|e] eqn:Hs; cbn; [|intros [= <- <-]; by auto].
  destruct (Sscanf_d text) as [v|e] eqn:Hv; cbn; intros [= <- <-]; cbn; [|by auto].
  split; [done|]. eexists body, x', resp, text. done.
Qed.

(** What one turn of the loop does to the retry counter and which delay it chooses. *)
Lemma turn_effect gs d gs' :
  doRequestWithRetryMechanism gs = (Ret d, gs') ->
  (exists e, fst (doRequest gs) = Ret e /\
    match e with
    | None => fetchRetries gs' = 0%Z /\ d = RequestPollingInterval args
    | Some _ => if (fetchRetries gs + 1 <=? MaximumFetchRetries args)%Z
                then fetchRetries gs' = (fetchRetries gs + 1)%Z /\ d = RequestRetryDelay args
                else fetchRetries gs' = 0%Z /\ d = RequestPollingInterval args
    end).
Proof.
  unfold doRequestWithRetryMechanism, mbind, M_bind.
  destruct (doRequest gs) as [[e|p] gs1] eqn:Hr; cbn; [|done].
  pose proof (doRequest_effect _ _ _ Hr) as [Hn _]. intros H. exists e. split; [done|].
  destruct e as [e|]; cbn in H.
  - rewrite Hn in H. destruct (fetchRetries gs + 1 <=? MaximumFetchRetries args)%Z; cbn in H; by injection H as <- <-.
  - by injection H as <- <-.
Qed.

End GasStation.

Arguments gasStation X : clear implicits.

(** The disabled station and the factory. *)
Definition DisabledGasStation_GetCurrentGasPrice : res Z := Ok 0%Z.

Inductive GasHandler (X : Type) := Enabled (gs : gasStation X) | Disabled.
Arguments Enabled {X} gs.
Arguments Disabled {X}.

Definition CreateGasStation {X} (args : ArgsGasStation) (enabled : bool) (x : X) : res (GasHandler X) :=
  if enabled then res_map Enabled (NewGasStation args x) else Ok Disabled.

Definition handler_GetCurrentGasPrice {X} (args : ArgsGasStation) (h : GasHandler X) : res Z :=
  match h with Enabled gs => GetCurrentGasPrice args gs | Disabled => DisabledGasStation_GetCurrentGasPrice end.

(** ** Where the price comes from *)

(** The service with a record of what was requested and answered. *)
Definition recording {X} (http_get : string -> M X (res bytes)) (url : string) : M (X * list (string * res bytes)) (res bytes) :=
  fun '(x, l) => let '(o, x') := http_get url x in (o, (x', l ++ match o with Ret a => [(url, a)] | Panic _ => [] end)).

Section Price.
Context {X : Type} (http_get : string -> M X (res bytes)) (json_Unmarshal : bytes -> res gasStationResponse) (args : ArgsGasStation).

(** An answer that can be decoded. *)
Definition decodes (a : res bytes) : option gasStationResponse :=
  match a with Ok body => match json_Unmarshal body with Ok response => Some response | Err _ => None end | Err _ => None end.

(** The field of an answer that the configuration names. *)
Definition named_field (response : gasStationResponse) (text : string) : Prop :=
  (GasPriceSelector args = "FastGasPrice" /\ text = FastGasPrice response) \/
  (GasPriceSelector args = "ProposeGasPrice" /\ text = ProposeGasPrice response) \/
  (GasPriceSelector args = "SafeGasPrice" /\ text = SafeGasPrice response).

Lemma selected_named response text : selected args response = Ok text -> named_field response text.
Proof.
  unfold selected, named_field. destruct (String.eqb_spec (GasPriceSelector args) EthFastGasPrice) as [->|_]; [intros [= <-]; by left|].
  destruct (String.eqb_spec (GasPriceSelector args) EthProposeGasPrice) as [->|_]; [intros [= <-]; by right; left|].
  destruct (String.eqb_spec (GasPriceSelector args) EthSafeGasPrice) as [->|_]; [intros [= <-]; by right; right|done].
Qed.

(** The price after one more answer. *)
Definition next_price (price : Z) (a : res bytes) : Z :=
  match decodes a with
  | None => price
  | Some response => match (match selected args response with Ok text => Sscanf_d text | Err e => Err e end) with Ok v => v | Err _ => (-1)%Z end
  end.

(** One turn with the record: the same turn, one more answer from the configured address, and the
    price that follows from it. *)
Lemma turn_recorded (gs gs' : gasStation X) l d :
  doRequestWithRetryMechanism http_get json_Unmarshal args gs = (Ret d, gs') ->
  exists a, doRequestWithRetryMechanism (recording http_get) json_Unmarshal args (mkGs (latestGasPrice gs) (fetchRetries gs) (gs_world gs, l)) =
      (Ret d, mkGs (latestGasPrice gs') (fetchRetries gs') (gs_world gs', l ++ [(RequestURL args, a)])) /\
    latestGasPrice gs' = next_price (latestGasPrice gs) a.
Proof.
  unfold doRequestWithRetryMechanism, doRequest, doRequestReturningBytes, recording, zoom, mbind, M_bind. cbn [gs_world].
  destruct (http_get (RequestURL args) (gs_world gs)) as [[a|p] x']; [|done]. intros H. exists a. revert H. unfold next_price, decodes.
  destruct a as [body|e]; [destruct (json_Unmarshal body) as [response|e]|]; cbn;
    [destruct (match selected args response with Ok text => Sscanf_d text | Err e => Err e end) as [v|e]; cbn| |];
    try (destruct (fetchRetries gs + 1 <=? MaximumFetchRetries args)%Z; cbn); intros [= <- <-]; by split.
Qed.

Lemma loop_recorded n (gs gs' : gasStation X) l ds :
  processLoop http_get json_Unmarshal args n gs = (Ret ds, gs') ->
  exists answers, processLoop (recording http_get) json_Unmarshal args n (mkGs (latestGasPrice gs) (fetchRetries gs) (gs_world gs, l)) =
      (Ret ds, mkGs (latestGasPrice gs') (fetchRetries gs') (gs_world gs', l ++ ((RequestURL args,.) <$> answers))) /\
    length answers = n /\ latestGasPrice gs' = foldl next_price (latestGasPrice gs) answers.
Proof.
  revert gs l ds. induction n as [|n IH]; intros gs l ds; cbn [processLoop].
  { intros [= <- <-]. exists []. cbn. by rewrite app_nil_r. }
  unfold mbind, M_bind. destruct (doRequestWithRetryMechanism http_get json_Unmarshal args gs) as [[d|p] gs1] eqn:H1; [|done].
  destruct (processLoop http_get json_Unmarshal args n gs1) as [[ds1|p] gs2] eqn:H2; cbn; [|done]. intros [= <- <-].
  apply (turn_recorded _ _ l) in H1 as (a & -> & Ha). destruct (IH _ (l ++ [(RequestURL args, a)]) _ H2) as (answers & -> & Hlen & Hp).
  exists (a :: answers). cbn. rewrite <-app_assoc, Hp, Ha, Hlen. done.
Qed.

(** The price comes from the last answer that could be decoded. *)
Lemma price_from_answer answers :
  foldl next_price (-1)%Z answers <> (-1)%Z ->
  exists before body after response text,
    answers = before ++ Ok body :: after /\ Forall (fun a => decodes a = None) after /\ json_Unmarshal body = Ok response /\
    named_field response text /\ Sscanf_d text = Ok (foldl next_price (-1)%Z answers).
Proof.
  induction answers as [|a answers IH] using rev_ind; [done|]. rewrite foldl_app. cbn [foldl].
  set (price := foldl next_price (-1)%Z answers) in *. unfold next_price. intros Hne.
  destruct (decodes a) as [response|] eqn:Hd.
  - destruct (selected args response) as [text|e] eqn:Hs; [|done]. destruct (Sscanf_d text) as [v|e] eqn:Hv; [|done].
    unfold decodes in Hd. destruct a as [body|e]; [|done]. destruct (json_Unmarshal body) as [response'|e] eqn:Hj; [|done]. injection Hd as ->.
    exists answers, body, [], response, text. split_and!; try done. by apply selected_named.
  - destruct (IH Hne) as (before & body & after & response & text & -> & Hafter & Hj & Hf & Hv).
    exists before, body, (after ++ [a]), response, text. split; [by rewrite <-app_assoc|]. split_and!; try done. by apply Forall_app_2, Forall_singleton.
Qed.
End Price.

(** C34. The price handed to the Ethereum client is the gas service's.  Whatever the service answers
    over any number of turns of the polling loop: when a price is given, it is the number in the
    field the configuration selects, read from the last answer of the configured address that
    could be decoded (later answers, if any, were errors or not decodable), times the multiplier,
    and that number is at most the configured maximum.  The answers are those of the loop's own
    run, kept in a record that does not change it. *)
Theorem gas_price_from_service {X} http_get json_Unmarshal (args : ArgsGasStation) (gs gs' : gasStation X) (n : nat) ds p (x : X) :
  NewGasStation args x = Ok gs -> processLoop http_get json_Unmarshal args n gs = (Ret ds, gs') ->
  GetCurrentGasPrice args gs' = Ok p ->
  exists answers recorded,
    processLoop (recording http_get) json_Unmarshal args n (mkGs (-1) 0 (x, [])) = (Ret ds, recorded) /\
    gs_world recorded = (gs_world gs', (RequestURL args,.) <$> answers) /\ length answers = n /\
    exists before body after response text price,
      answers = before ++ Ok body :: after /\ Forall (fun a => decodes json_Unmarshal a = None) after /\
      json_Unmarshal body = Ok response /\ named_field args response text /\ Sscanf_d text = Ok price /\
      p = (price * GasPriceMultiplier args)%Z /\ (price <= MaximumGasPrice args)%Z /\
      (p <= MaximumGasPrice args * GasPriceMultiplier args)%Z.
Proof.
  intros Hnew Hrun Hget. unfold NewGasStation in Hnew. destruct (checkArgs args) eqn:Hc; [done|]. injection Hnew as <-.
  assert (Hmul : (1 <= GasPriceMultiplier args)%Z).
  { unfold checkArgs in Hc. repeat (case_match; try done).
    all: by apply Z.ltb_ge. }
  apply (loop_recorded _ _ _ _ _ _ []) in Hrun as (answers & Hrec & Hlen & Hp). cbn in Hrec, Hp. exists answers. eexists. split; [exact Hrec|].
  split; [done|]. split; [done|]. unfold GetCurrentGasPrice in Hget. rewrite Hp in Hget.
  destruct (Z.eqb_spec (foldl (next_price json_Unmarshal args) (-1)%Z answers) (-1)) as [_|Hne]; [done|].
  destruct (Z.ltb_spec (MaximumGasPrice args) (foldl (next_price json_Unmarshal args) (-1)%Z answers)) as [_|Hle]; [done|]. injection Hget as <-.
  destruct (price_from_answer _ _ _ Hne) as (before & body & after & response & text & Ha & Hafter & Hj & Hf & Hv).
  eexists before, body, after, response, text, _. split_and!; try done. nia.
Qed.

(** ** The back-off schedule *)

(** A configuration and a service that answers nothing. *)
Definition toy_args : ArgsGasStation :=
  {| RequestURL := "url"; RequestPollingInterval := 60000000000; RequestRetryDelay := 5000000000;
     MaximumFetchRetries := 3; RequestTime := 1000000000; MaximumGasPrice := 100;
     GasPriceSelector := "SafeGasPrice"; GasPriceMultiplier := 1000000000 |}.
Definition toy_http (_ : string) : M unit (res bytes) := mret (Ok []).
Definition toy_json (_ : bytes) : res gasStationResponse := Ok (mkResponse "81" "82" "83").
Definition dead_http (_ : string) : M unit (res bytes) := mret (Err (ErrExternal "connection refused")).

(** A service that answers twice and then fails: the price is that of the second answer. *)
Definition script_http (_ : string) : M nat (res bytes) := fun k =>
  (Ret (match k with 0 => Ok [Byte.x00] | 1 => Ok [] | _ => Err (ErrExternal "timeout") end), S k).
Definition script_json (b : bytes) : res gasStationResponse :=
  match b with [] => Ok (mkResponse "81" "82" "83") | _ => Ok (mkResponse "71" "72" "73") end.

Lemma gas_price_from_service_witness :
  exists gs' answers recorded,
    processLoop (recording script_http) script_json toy_args 3 (mkGs (-1) 0 (0, [])) =
      (Ret [60000000000; 60000000000; 5000000000]%Z, recorded) /\
    gs_world recorded = (gs_world (gs' : gasStation nat), ("url",.) <$> answers) /\ length answers = 3 /\
    exists before body after response text price,
      answers = before ++ Ok body :: after /\ Forall (fun a => decodes script_json a = None) after /\
      script_json body = Ok response /\ named_field toy_args response text /\ Sscanf_d text = Ok price /\
      81000000000%Z = (price * GasPriceMultiplier toy_args)%Z /\ (price <= MaximumGasPrice toy_args)%Z /\
      (81000000000 <= MaximumGasPrice toy_args * GasPriceMultiplier toy_args)%Z.
Proof.
  exists (mkGs 81 1 3).
  exact (gas_price_from_service script_http script_json toy_args _ _ 3 _ _ 0 eq_refl eq_refl eq_refl).
Defined.

(** While the service fails, the loop asks again after the retry delay for the configured
    number of retries, then waits a full polling interval, and starts over: the [i]-th delay is
    the polling interval exactly when [i + 1] is a multiple of the number of retries plus one. *)
Theorem back_off_schedule {X} http_get json_Unmarshal (args : ArgsGasStation) (gs gs' : gasStation X) n ds :
  (forall g, exists e, fst (doRequest http_get json_Unmarshal args g) = Ret (Some e)) ->
  (0 <= MaximumFetchRetries args)%Z -> (0 <= fetchRetries gs <= MaximumFetchRetries args)%Z ->
  processLoop http_get json_Unmarshal args n gs = (Ret ds, gs') ->
  length ds = n /\ forall i d, ds !! i = Some d ->
    d = if ((fetchRetries gs + Z.of_nat i + 1) mod (MaximumFetchRetries args + 1) =? 0)%Z
        then RequestPollingInterval args else RequestRetryDelay args.
Proof.
  intros Hfail Hmax. revert gs ds. induction n as [|n IH]; intros gs ds Hr; cbn [processLoop].
  { intros [= <- _]. split; [done|]. intros i d Hi. by rewrite lookup_nil in Hi. }
  unfold mbind, M_bind. destruct (doRequestWithRetryMechanism http_get json_Unmarshal args gs) as [[d|p] gs1] eqn:H1; [|done].
  destruct (processLoop http_get json_Unmarshal args n gs1) as [[ds1|p] gs2] eqn:H2; cbn; [|done].
  intros [= <- <-]. apply turn_effect in H1 as (e & He & H1). destruct (Hfail gs) as [e' He']. rewrite He' in He.
  injection He as <-. destruct (Z.leb_spec (fetchRetries gs + 1) (MaximumFetchRetries args)) as [Hle|Hgt].
  - destruct H1 as [Hn ->]. destruct (IH gs1 ds1) as [Hlen Hds]; [lia|done|]. split; [cbn; lia|].
    intros [|i] d; cbn.
    + intros [= <-]. rewrite Z.add_0_r, Z.mod_small by lia. by destruct (Z.eqb_spec (fetchRetries gs + 1) 0); [lia|].
    + intros Hi. rewrite (Hds _ _ Hi), Hn.
      by replace (fetchRetries gs + Z.of_nat (S i) + 1)%Z with (fetchRetries gs + 1 + Z.of_nat i + 1)%Z by lia.
  - destruct H1 as [Hn ->]. destruct (IH gs1 ds1) as [Hlen Hds]; [lia|done|]. split; [cbn; lia|].
    assert (Hf : fetchRetries gs = MaximumFetchRetries args) by lia. rewrite Hf. intros [|i] d; cbn.
    + intros [= <-]. by rewrite Z.add_0_r, Z.mod_same by lia.
    + intros Hi. rewrite (Hds _ _ Hi), Hn.
      replace (MaximumFetchRetries args + Z.of_nat (S i) + 1)%Z
        with (0 + Z.of_nat i + 1 + 1 * (MaximumFetchRetries args + 1))%Z by lia.
      by rewrite Z.mod_add by lia.
Qed.

Lemma back_off_schedule_witness :
  exists gs' ds, processLoop dead_http toy_json toy_args 5 (mkGs (-1) 0 tt) = (Ret ds, gs') /\
    ds = [5000000000; 5000000000; 5000000000; 60000000000; 5000000000]%Z /\
    forall i d, ds !! i = Some d ->
      d = if ((0 + Z.of_nat i + 1) mod (3 + 1) =? 0)%Z then 60000000000%Z else 5000000000%Z.
Proof.
  eexists _, _. split; [by vm_compute|]. split; [done|].
  exact (proj2 (back_off_schedule dead_http toy_json toy_args (mkGs (-1) 0 tt) _ 5 _
    (fun g => ex_intro _ _ eq_refl) ltac:(by vm_compute) ltac:(by vm_compute) eq_refl)).
Defined.

(** A negative price is not the unset marker and is below every maximum: it is handed on. *)
Example negative_price_accepted :
  Sscanf_d "-7" = Ok (-7)%Z /\ GetCurrentGasPrice toy_args (mkGs (-7) 0 tt) = Ok (-7000000000)%Z.
Proof. by vm_compute. Qed.

End GasStation.
