(* ===== verification/EthClient.v ===== *)
(** * The Ethereum client

    Models [src/bridge/clients/ethereum]: the chain wrapper over the multisig contract's
    binding, the holder of ERC20 contracts, and the client the executor uses.  The generated
    bindings, the node's client and go-ethereum's cryptography and ABI encoder are parameters:
    records of operations over a world [X], and the functions of [ethLib].  A [*big.Int]
    returned without an error is a number; a [common.Address] is its 20 bytes. *)
From S2P Require Import Prelude Go Common Batch Interfaces Executor.
Open Scope go_scope.

Module EthClient.

Definition errQuorumNotReached := ErrNew "ethereum.errQuorumNotReached" "quorum not reached".
Definition errInsufficientErc20Balance := ErrNew "ethereum.errInsufficientErc20Balance" "insufficient ERC20 balance".
Definition errInsufficientBalance := ErrNew "ethereum.errInsufficientBalance" "insufficient balance".
Definition errPublicKeyCast := ErrNew "ethereum.errPublicKeyCast" "error casting public key to ECDSA".
Definition errNilClientWrapper := ErrNew "ethereum.errNilClientWrapper" "nil client wrapper".
Definition errNilERC20ContractsHandler := ErrNew "ethereum.errNilERC20ContractsHandler" "nil ERC20 contracts handler".
Definition errNilBroadcaster := ErrNew "ethereum.errNilBroadcaster" "nil broadcaster".
Definition errNilSignaturesHolder := ErrNew "ethereum.errNilSignaturesHolder" "nil signatures holder".
Definition errNilGasHandler := ErrNew "ethereum.errNilGasHandler" "nil gas handler".
Definition errInvalidGasLimit := ErrNew "ethereum.errInvalidGasLimit" "invalid gas limit".
Definition errDepositsAndBatchDepositsCountDiffer :=
  ErrNew "ethereum.errDepositsAndBatchDepositsCountDiffer" "deposits and batch.DepositsCount differs".
Definition errNilMultiSigContract := ErrNew "wrappers.errNilMultiSigContract" "nil multi sig contract".
Definition errNilBlockchainClient := ErrNew "wrappers.errNilBlockchainClient" "nil blockchain client".
Definition errNilErc20Contract := ErrNew "wrappers.errNilErc20Contract" "nil ERC20 contract".
Definition errNilEthClient := ErrNew "ethereum.errNilEthClient" "nil eth client".

Definition messagePrefix : string := str1 "025"%char +:+ "Ethereum Signed Message:" +:+ newline +:+ "32".
Definition minQuorumValue : Z := 1.
Definition minAllowedDelta : Z := 1.

(** ** The contract's data *)

Record contract_Batch := mkCBatch {
  cb_Nonce : Z;
  cb_BlockNumber : Z;
  cb_LastUpdatedBlockNumber : Z;
  cb_DepositsCount : Z
}.

Record contract_Deposit := mkCDeposit {
  cd_Nonce : Z;
  cd_TokenAddress : bytes;
  cd_Amount : Z;
  cd_Depositor : bytes;
  cd_Recipient : bytes;
  cd_Status : Z
}.

(** The transaction options the client fills in. *)
Record TransactOpts := mkOpts { opt_Nonce : Z; opt_Value : Z; opt_GasLimit : Z; opt_GasPrice : Z }.

Record argListsBatch := mkLists {
  al_tokens : list bytes;
  al_recipients : list bytes;
  al_amounts : list Z;
  al_nonces : list Z
}.

(** ** The chain wrapper *)

Record ClientWrapper (X : Type) := {
  cw_GetBatch : Z -> M X (res contract_Batch);
  cw_GetBatchDeposits : Z -> M X (res (list contract_Deposit));
  cw_GetRelayers : M X (res (list bytes));
  cw_WasBatchExecuted : Z -> M X (res bool);
  cw_ChainID : M X (res Z);
  cw_BlockNumber : M X (res Z);
  cw_NonceAt : bytes -> Z -> M X (res Z);
  cw_ExecuteTransfer : TransactOpts -> argListsBatch -> Z -> list bytes -> M X (res string);
  cw_Quorum : M X (res Z);
  cw_GetStatusesAfterExecution : Z -> M X (res bytes);
  cw_BalanceAt : bytes -> option Z -> M X (res Z);
  cw_IsPaused : M X (res bool);
  cw_status : StatusHandler X
}.
Arguments cw_GetBatch {X} _ _.
Arguments cw_GetBatchDeposits {X} _ _.
Arguments cw_GetRelayers {X} _.
Arguments cw_WasBatchExecuted {X} _ _.
Arguments cw_ChainID {X} _.
Arguments cw_BlockNumber {X} _.
Arguments cw_NonceAt {X} _ _ _.
Arguments cw_ExecuteTransfer {X} _ _ _ _ _.
Arguments cw_Quorum {X} _.
Arguments cw_GetStatusesAfterExecution {X} _ _.
Arguments cw_BalanceAt {X} _ _ _.
Arguments cw_IsPaused {X} _.
Arguments cw_status {X} _.

(** The generated binding of the multisig contract and the node's client. *)
Record multiSigContract (X : Type) := {
  ms_GetBatch : Z -> M X (res contract_Batch);
  ms_GetBatchDeposits : Z -> M X (res (list contract_Deposit));
  ms_GetRelayers : M X (res (list bytes));
  ms_WasBatchExecuted : Z -> M X (res bool);
  ms_ExecuteTransfer : TransactOpts -> argListsBatch -> Z -> list bytes -> M X (res string);
  ms_Quorum : M X (res Z);
  ms_GetStatusesAfterExecution : Z -> M X (res bytes);
  ms_Paused : M X (res bool)
}.
Record blockchainClient (X : Type) := {
  bk_ChainID : M X (res Z);
  bk_BlockNumber : M X (res Z);
  bk_NonceAt : bytes -> Z -> M X (res Z);
  bk_BalanceAt : bytes -> option Z -> M X (res Z)
}.
Arguments ms_GetBatch {X} _ _.
Arguments ms_GetBatchDeposits {X} _ _.
Arguments ms_GetRelayers {X} _.
Arguments ms_WasBatchExecuted {X} _ _.
Arguments ms_ExecuteTransfer {X} _ _ _ _ _.
Arguments ms_Quorum {X} _.
Arguments ms_GetStatusesAfterExecution {X} _ _.
Arguments ms_Paused {X} _.
Arguments bk_ChainID {X} _.
Arguments bk_BlockNumber {X} _.
Arguments bk_NonceAt {X} _ _ _.
Arguments bk_BalanceAt {X} _ _ _.

Section Wrapper.
Context {X : Type} (sh : StatusHandler X) (ms : multiSigContract X) (bk : blockchainClient X).

Definition count_request {A} (c : M X A) : M X A := sh_AddIntMetric sh MetricNumEthClientRequests 1;; c.

Definition wrapper_checkArgs (statusHandler contract client : bool) : option error :=
  if negb statusHandler then Some clients_ErrNilStatusHandler
  else if negb contract then Some errNilMultiSigContract
  else if negb client then Some errNilBlockchainClient else None.

Definition wrapper_BlockNumber : M X (res Z) :=
  count_request (
    r ← bk_BlockNumber bk;
    match r with
    | Err e => mret (Err e)
    | Ok val => sh_SetIntMetric sh MetricLastQueriedEthereumBlockNumber (i64 val);; mret (Ok val)
    end).

Definition NewEthereumChainWrapper : ClientWrapper X := {|
  cw_GetBatch n := count_request (ms_GetBatch ms n);
  cw_GetBatchDeposits n := count_request (ms_GetBatchDeposits ms n);
  cw_GetRelayers := count_request (ms_GetRelayers ms);
  cw_WasBatchExecuted n := count_request (ms_WasBatchExecuted ms n);
  cw_ChainID := count_request (bk_ChainID bk);
  cw_BlockNumber := wrapper_BlockNumber;
  cw_NonceAt a n := count_request (bk_NonceAt bk a n);
  cw_ExecuteTransfer opts l b s := (sh_AddIntMetric sh MetricNumEthClientTransactions 1;; ms_ExecuteTransfer ms opts l b s);
  cw_Quorum := count_request (ms_Quorum ms);
  cw_GetStatusesAfterExecution n := count_request (ms_GetStatusesAfterExecution ms n);
  cw_BalanceAt a n := count_request (bk_BalanceAt bk a n);
  cw_IsPaused := ms_Paused ms;
  cw_status := sh |}.
End Wrapper.

(** ** The holder of ERC20 contracts

    The wrappers already created are the addresses in [contracts]; the binding is built by
    [NewGenericErc20] and its balance query is [erc20_call]. *)
Section Erc20.
Context {X : Type} (sh : StatusHandler X) (addr_String : bytes -> string).
Context (NewGenericErc20 : bytes -> option error) (erc20_call : bytes -> bytes -> M X (res Z)).

Record erc20SafeContractsHolder := mkErc20 { contracts : gset bytes; erc20_world : X }.

Definition NewErc20SafeContractsHolder (ethClient statusHandler : bool) (x : X) : res erc20SafeContractsHolder :=
  if negb ethClient then Err errNilEthClient
  else if negb statusHandler then Err clients_ErrNilStatusHandler
  else Ok (mkErc20 ∅ x).

Definition erc20_wrapper_BalanceOf (contract account : bytes) : M X (res Z) :=
  sh_AddIntMetric sh MetricNumEthClientRequests 1;; erc20_call contract account.

Definition holder_BalanceOf (erc20Address address : bytes) : M erc20SafeContractsHolder (res Z) :=
  known ← gets contracts;
  err ←
    (if bool_decide (erc20Address ∈ known) then mret None
     else match NewGenericErc20 erc20Address with
          | Some e => mret (Some (Errorf "%w for %s" e [GStr (addr_String erc20Address)]))
          | None => modify (fun h => mkErc20 ({[erc20Address]} ∪ contracts h) (erc20_world h));; mret None
          end);
  match err with
  | Some e => mret (Err e)
  | None => zoom erc20_world (fun x h => mkErc20 (contracts h) x) (erc20_wrapper_BalanceOf erc20Address address)
  end.
End Erc20.

Arguments erc20SafeContractsHolder X : clear implicits.

(** ** The client *)

(** Values of the ABI types the message is packed from. *)
Inductive abiValue :=
  | AbiAddresses (l : list bytes)
  | AbiUints (l : list Z)
  | AbiUint (z : Z)
  | AbiString (s : string).

Record ethLib (T : Type) := {
  abi_NewType : string -> res T;
  abi_Pack : list (string * T) -> list abiValue -> res bytes;
  Keccak256 : bytes -> bytes;
  crypto_Sign : bytes -> res bytes;
  NewKeyedTransactorWithChainID : Z -> option error;
  addr_String : bytes -> string
}.
Arguments abi_NewType {T} _ _.
Arguments abi_Pack {T} _ _ _.
Arguments Keccak256 {T} _ _.
Arguments crypto_Sign {T} _ _.
Arguments NewKeyedTransactorWithChainID {T} _ _.
Arguments addr_String {T} _ _.

Record clientDeps (X T : Type) := {
  clientWrapper : ClientWrapper X;
  erc20_BalanceOf : bytes -> bytes -> M X (res Z);
  addressConverter : AddressConverter;
  BroadcastSignature : bytes -> bytes -> M X unit;
  ConvertToken : bytes -> M X (res bytes);
  signatureHolder : SignaturesHolder X;
  safeContractAddress : bytes;
  GetCurrentGasPrice : M X (res Z);
  transferGasLimitBase : Z;
  transferGasLimitForEach : Z;
  allowDelta : Z;
  relayerAddress : bytes;
  lib : ethLib T
}.
Arguments clientWrapper {X T} _.
Arguments erc20_BalanceOf {X T} _ _ _.
Arguments addressConverter {X T} _.
Arguments BroadcastSignature {X T} _ _ _.
Arguments ConvertToken {X T} _ _.
Arguments signatureHolder {X T} _.
Arguments safeContractAddress {X T} _.
Arguments GetCurrentGasPrice {X T} _.
Arguments transferGasLimitBase {X T} _.
Arguments transferGasLimitForEach {X T} _.
Arguments allowDelta {X T} _.
Arguments relayerAddress {X T} _.
Arguments lib {X T} _.

(** An ECDSA private key: the address of the key [Public()] returns ([None] when that is not an
    [*ecdsa.PublicKey]), signing a hash, and the keyed transactor of a chain. *)
Record ecdsaKey := {
  key_Public : option bytes;
  key_Sign : bytes -> res bytes;
  key_Transactor : Z -> option error
}.

(** [None] is a nil component; [Args_Log] says whether a logger was given. *)
Record ArgsEthereumClient (X : Type) := {
  Args_ClientWrapper : option (ClientWrapper X);
  Args_Erc20ContractsHandler : option (bytes -> bytes -> M X (res Z));
  Args_Log : bool;
  Args_AddressConverter : option AddressConverter;
  Args_Broadcaster : option (bytes -> bytes -> M X unit);
  Args_PrivateKey : option ecdsaKey;
  Args_TokensMapper : option (bytes -> M X (res bytes));
  Args_SignatureHolder : option (SignaturesHolder X);
  Args_SafeContractAddress : bytes;
  Args_GasHandler : option (M X (res Z));
  Args_TransferGasLimitBase : Z;
  Args_TransferGasLimitForEach : Z;
  Args_AllowDelta : Z
}.
Arguments Args_ClientWrapper {X} _.
Arguments Args_Erc20ContractsHandler {X} _.
Arguments Args_Log {X} _.
Arguments Args_AddressConverter {X} _.
Arguments Args_Broadcaster {X} _.
Arguments Args_PrivateKey {X} _.
Arguments Args_TokensMapper {X} _.
Arguments Args_SignatureHolder {X} _.
Arguments Args_SafeContractAddress {X} _.
Arguments Args_GasHandler {X} _.
Arguments Args_TransferGasLimitBase {X} _.
Arguments Args_TransferGasLimitForEach {X} _.
Arguments Args_AllowDelta {X} _.

Definition checkArgs {X} (args : ArgsEthereumClient X) : option error :=
  if_nil (Args_ClientWrapper args) errNilClientWrapper (
  if_nil (Args_Erc20ContractsHandler args) errNilERC20ContractsHandler (
  if negb (Args_Log args) then Some clients_ErrNilLogger else
  if_nil (Args_AddressConverter args) clients_ErrNilAddressConverter (
  if_nil (Args_Broadcaster args) errNilBroadcaster (
  if_nil (Args_PrivateKey args) clients_ErrNilPrivateKey (
  if_nil (Args_TokensMapper args) clients_ErrNilTokensMapper (
  if_nil (Args_SignatureHolder args) errNilSignaturesHolder (
  if_nil (Args_GasHandler args) errNilGasHandler (
  if (Args_TransferGasLimitBase args =? 0)%Z then Some errInvalidGasLimit
  else if (Args_TransferGasLimitForEach args =? 0)%Z then Some errInvalidGasLimit
  else if (Args_AllowDelta args <? minAllowedDelta)%Z then
    Some (Errorf "%w for args.AllowedDelta, got: %d, minimum: %d" clients_ErrInvalidValue
            [GInt (Args_AllowDelta args); GInt minAllowedDelta])
  else None)))))))).

(** [common.BytesToAddress]: the last twenty bytes, padded with zeros on the left. *)
Definition BytesToAddress (b : bytes) : bytes :=
  let b' := drop (length b - 20) b in replicate (20 - length b') Byte.x00 ++ b'.

Record client (X : Type) := mkClient {
  lastBlockNumber : Z;
  retriesAvailabilityCheck : Z;
  cl_world : X
}.
Arguments mkClient {X} _ _ _.
Arguments lastBlockNumber {X} _.
Arguments retriesAvailabilityCheck {X} _.
Arguments cl_world {X} _.

(** The client in its first state. *)
Definition newClient {X} (x : X) : client X := mkClient 0 0 x.

(** The library calls that do not depend on the key are given by [L]. *)
Definition keyed {T} (L : ethLib T) (key : ecdsaKey) : ethLib T :=
  {| abi_NewType := abi_NewType L; abi_Pack := abi_Pack L; Keccak256 := Keccak256 L;
     crypto_Sign := key_Sign key; NewKeyedTransactorWithChainID := key_Transactor key;
     addr_String := addr_String L |}.

(** The fields of the client; [None] when a component is nil, which [checkArgs] has excluded. *)
Definition clientFields {X T} (L : ethLib T) (args : ArgsEthereumClient X) (key : ecdsaKey) (address : bytes)
    : option (clientDeps X T) :=
  w ← Args_ClientWrapper args;
  erc20 ← Args_Erc20ContractsHandler args;
  conv ← Args_AddressConverter args;
  bc ← Args_Broadcaster args;
  tm ← Args_TokensMapper args;
  sg ← Args_SignatureHolder args;
  gas ← Args_GasHandler args;
  Some {| clientWrapper := w; erc20_BalanceOf := erc20; addressConverter := conv; BroadcastSignature := bc;
          ConvertToken := tm; signatureHolder := sg; safeContractAddress := Args_SafeContractAddress args;
          GetCurrentGasPrice := gas; transferGasLimitBase := Args_TransferGasLimitBase args;
          transferGasLimitForEach := Args_TransferGasLimitForEach args; allowDelta := Args_AllowDelta args;
          relayerAddress := address; lib := keyed L key |}.

Definition NewEthereumClient {X T} (L : ethLib T) (args : ArgsEthereumClient X) (x : X)
    : res (option (clientDeps X T * client X)) :=
  match checkArgs args with
  | Some e => Err e
  | None =>
      match (key ← Args_PrivateKey args; address ← key_Public key; Some (key, address)) with
      | None => Err errPublicKeyCast
      | Some (key, address) => Ok ((fun D => (D, newClient x)) <$> clientFields L args key address)
      end
  end.

Section Client.
Context {X T : Type} (D : clientDeps X T).
Local Abbreviation cw := (clientWrapper D).

Definition convertDeposit (deposit : contract_Deposit) (converted : bytes) : DepositTransfer :=
  {| dt_Nonce := u64 (cd_Nonce deposit);
     dt_ToBytes := cd_Recipient deposit;
     dt_DisplayableTo := ToBech32String (addressConverter D) (cd_Recipient deposit);
     dt_FromBytes := cd_Depositor deposit;
     dt_DisplayableFrom := ToHexString (cd_Depositor deposit);
     dt_TokenBytes := cd_TokenAddress deposit;
     dt_ConvertedTokenBytes := converted;
     dt_DisplayableToken := ToHexString (cd_TokenAddress deposit);
     dt_Amount := Some (cd_Amount deposit) |}.

(** The loop over the fetched deposits, with the cache of converted tokens. *)
Fixpoint convert_deposits (cachedTokens : gmap string bytes) (deposits : list contract_Deposit)
    (acc : list DepositTransfer) : M X (res (list DepositTransfer)) :=
  match deposits with
  | [] => mret (Ok acc)
  | deposit :: rest =>
      let displayableToken := ToHexString (cd_TokenAddress deposit) in
      match cachedTokens !! displayableToken with
      | Some stored => convert_deposits cachedTokens rest (acc ++ [convertDeposit deposit stored])
      | None =>
          converted <?- ConvertToken D (cd_TokenAddress deposit);
          convert_deposits (<[displayableToken := converted]> cachedTokens) rest
            (acc ++ [convertDeposit deposit converted])
      end
  end.

Definition GetBatch (nonce : Z) : M X (res (option TransferBatch)) :=
  batch <?- cw_GetBatch cw nonce;
  deposits <?- cw_GetBatchDeposits cw nonce;
  if negb (cb_DepositsCount batch =? Z.of_nat (length deposits))%Z then
    mret (Err (Errorf "%w, batch.DepositsCount: %d, fetched deposits len: %d" errDepositsAndBatchDepositsCountDiffer
                 [GInt (cb_DepositsCount batch); GInt (Z.of_nat (length deposits))]))
  else
    ds <?- convert_deposits ∅ deposits [];
    mret (Ok (Some (mkBatch (u64 (cb_Nonce batch)) ds (replicate (length ds) Byte.x00)))).

Definition WasExecuted (batchID : Z) : M X (res bool) := cw_WasBatchExecuted cw batchID.

Definition BroadcastSignatureForMessageHash (msgHash : bytes) : M X unit :=
  match crypto_Sign (lib D) msgHash with
  | Err _ => mret tt
  | Ok signature => BroadcastSignature D signature msgHash
  end.

Definition generateTransferArgs : res (list (string * T)) :=
  match abi_NewType (lib D) "address[]" with
  | Err e => Err e
  | Ok addressesType =>
  match abi_NewType (lib D) "uint256[]" with
  | Err e => Err e
  | Ok uint256ArrayType =>
  match abi_NewType (lib D) "uint256" with
  | Err e => Err e
  | Ok uint256Type =>
  match abi_NewType (lib D) "string" with
  | Err e => Err e
  | Ok stringType =>
      Ok [("recipients", addressesType); ("tokens", addressesType); ("amounts", uint256ArrayType);
          ("nonces", uint256ArrayType); ("nonce", uint256Type); ("executeTransfer", stringType)]
  end end end end.

(** [big.NewInt(0).Set(dt.Amount)] dereferences the amount. *)
Fixpoint extract_loop (deposits : list DepositTransfer) (arg : argListsBatch) : outcome argListsBatch :=
  match deposits with
  | [] => Ret arg
  | dt :: rest =>
      match dt_Amount dt with
      | None => Panic NilDereference
      | Some amount =>
          extract_loop rest
            (mkLists (al_tokens arg ++ [BytesToAddress (dt_ConvertedTokenBytes dt)])
                     (al_recipients arg ++ [BytesToAddress (dt_ToBytes dt)])
                     (al_amounts arg ++ [amount]) (al_nonces arg ++ [dt_Nonce dt]))
      end
  end.

Definition extractList (b : TransferBatch) : outcome argListsBatch :=
  extract_loop (tb_Deposits b) (mkLists [] [] [] []).

Definition GenerateMessageHash (ob : option TransferBatch) : M X (res bytes) :=
  match ob with
  | None => mret (Err clients_ErrNilBatch)
  | Some b =>
      match generateTransferArgs with
      | Err e => mret (Err e)
      | Ok args =>
          argLists ← of_outcome (extractList b);
          match abi_Pack (lib D) args
                  [AbiAddresses (al_recipients argLists); AbiAddresses (al_tokens argLists);
                   AbiUints (al_amounts argLists); AbiUints (al_nonces argLists); AbiUint (tb_ID b);
                   AbiString "ExecuteBatchedTransfer"] with
          | Err e => mret (Err e)
          | Ok pack =>
              let hash := Keccak256 (lib D) pack in
              mret (Ok (Keccak256 (lib D) (bytes_of_string messagePrefix ++ hash)))
          end
      end
  end.

Definition getNonce (fromAddress : bytes) : M X (res Z) :=
  r ← cw_BlockNumber cw;
  match r with
  | Err e => mret (Err (wrap "%w in getNonce, BlockNumber call" e))
  | Ok blockNonce => n <?- cw_NonceAt cw fromAddress (i64 blockNonce); mret (Ok (i64 n))
  end.

(** The amounts are read by the index of the token. *)
Fixpoint cumulate (tokens : list bytes) (amounts : list Z) (transfers : gmap string Z) : outcome (gmap string Z) :=
  match tokens with
  | [] => Ret transfers
  | token :: rest =>
      match amounts with
      | [] => Panic IndexOutOfRange
      | amount :: amounts' =>
          let existing := default 0%Z (transfers !! string_of_bytes token) in
          cumulate rest amounts' (<[string_of_bytes token := (existing + amount)%Z]> transfers)
      end
  end.

Definition getCumulatedTransfers (tokens : list bytes) (amounts : list Z) : outcome (gmap string Z) :=
  cumulate tokens amounts ∅.

Fixpoint check_balances (l : list (string * Z)) : M X (option error) :=
  match l with
  | [] => mret None
  | (token, value) :: rest =>
      let erc20Address := bytes_of_string token in
      r ← erc20_BalanceOf D erc20Address (safeContractAddress D);
      match r with
      | Err e =>
          mret (Some (Errorf "%w for address %s for ERC20 token %s" e
                        [GStr (addr_String (lib D) (safeContractAddress D)); GStr (addr_String (lib D) erc20Address)]))
      | Ok existingBalance =>
          if (existingBalance <? value)%Z then
            mret (Some (Errorf "%w, existing: %s, required: %s for ERC20 token %s and address %s" errInsufficientErc20Balance
                          [GInt existingBalance; GInt value; GStr (addr_String (lib D) erc20Address);
                           GStr (addr_String (lib D) (safeContractAddress D))]))
          else check_balances rest
      end
  end.

Definition checkCumulatedTransfers (o : map_order) (transfers : gmap string Z) : M X (option error) :=
  check_balances (omap (fun k => (fun v => (k, v)) <$> transfers !! k) (range_keys o transfers)).

Definition checkAvailableTokens (o : map_order) (tokens : list bytes) (amounts : list Z) : M X (option error) :=
  transfers ← of_outcome (getCumulatedTransfers tokens amounts);
  checkCumulatedTransfers o transfers.

Definition checkRelayerFundsForFee (transferFee : Z) : M X (option error) :=
  r ← cw_BalanceAt cw (relayerAddress D) None;
  match r with
  | Err e => mret (Some e)
  | Ok existingBalance =>
      if (existingBalance <? transferFee)%Z then
        mret (Some (Errorf "%w, existing: %s, required: %s" errInsufficientBalance [GInt existingBalance; GInt transferFee]))
      else mret None
  end.

(** [signatures[:quorum]] when there are more of them. *)
Definition cut_signatures (signatures : list bytes) (quorum : Z) : outcome (list bytes) :=
  if (quorum <? Z.of_nat (length signatures))%Z then
    if (quorum <? 0)%Z then Panic SliceBoundsOutOfRange else Ret (take (Z.to_nat quorum) signatures)
  else Ret signatures.

(** The part of [ExecuteTransfer] before the transaction is sent: everything it is sent with. *)
Definition prepareTransfer (o : map_order) (msgHash : bytes) (b : TransferBatch) (quorum : Z)
    : M X (res (TransactOpts * argListsBatch * list bytes)) :=
  r ← cw_IsPaused cw;
  match wrap_err (wrap "%w in client.ExecuteTransfer") r with
  | Err e => mret (Err e)
  | Ok true => mret (Err (wrap "%w in client.ExecuteTransfer" clients_ErrMultisigContractPaused))
  | Ok false =>
      nonce <?- getNonce (relayerAddress D);
      chainId <?- cw_ChainID cw;
      match NewKeyedTransactorWithChainID (lib D) chainId with
      | Some e => mret (Err e)
      | None =>
          gasPrice <?- GetCurrentGasPrice D;
          let gasLimit := transferGasLimitBase D +u
            (u64 (Z.of_nat (length (tb_Deposits b))) *u transferGasLimitForEach D) in
          signatures ← sig_Signatures (signatureHolder D) msgHash;
          if (Z.of_nat (length signatures) <? quorum)%Z then
            mret (Err (Errorf "%w num signatures: %d, quorum: %d" errQuorumNotReached
                         [GInt (Z.of_nat (length signatures)); GInt quorum]))
          else
            signatures ← of_outcome (cut_signatures signatures quorum);
            argLists ← of_outcome (extractList b);
            err ← checkAvailableTokens o (al_tokens argLists) (al_amounts argLists);
            match err with
            | Some e => mret (Err e)
            | None =>
                err ← checkRelayerFundsForFee (i64 gasLimit * gasPrice)%Z;
                match err with
                | Some e => mret (Err e)
                | None => mret (Ok (mkOpts nonce 0 gasLimit gasPrice, argLists, signatures))
                end
            end
      end
  end.

Definition ExecuteTransfer (o : map_order) (msgHash : bytes) (ob : option TransferBatch) (quorum : Z) : M X (res string) :=
  match ob with
  | None => mret (Err clients_ErrNilBatch)
  | Some b =>
      p <?- prepareTransfer o msgHash b quorum;
      cw_ExecuteTransfer cw (fst (fst p)) (snd (fst p)) (tb_ID b) (snd p)
  end.

Definition GetTransactionsStatuses (batchId : Z) : M X (res bytes) := cw_GetStatusesAfterExecution cw batchId.

Definition GetQuorumSize : M X (res Z) := cw_Quorum cw.

(** [quorum.Uint64()] and [quorum.Int64()] keep the low 64 bits. *)
Definition IsQuorumReached (msgHash : bytes) : M X (res bool) :=
  signatures ← sig_Signatures (signatureHolder D) msgHash;
  r ← cw_Quorum cw;
  match r with
  | Err e => mret (Err (wrap "%w in IsQuorumReached, Quorum call" e))
  | Ok quorum =>
      if (u64 quorum <? minQuorumValue)%Z then
        mret (Err (Errorf "%w in IsQuorumReached, minQuorum %d, got: %s" clients_ErrInvalidValue
                     [GInt minQuorumValue; GInt quorum]))
      else mret (Ok (i64 quorum <=? Z.of_nat (length signatures))%Z)
  end.

(** ** Availability *)

Definition on_world {A} (c : M X A) : M (client X) A :=
  zoom cl_world (fun x c => mkClient (lastBlockNumber c) (retriesAvailabilityCheck c) x) c.

(** The metrics written are those of the MultiversX client. *)
Definition setStatusForAvailabilityCheck (status : Z) (message : string) (nonce : Z) : M (client X) unit :=
  on_world (sh_SetStringMetric (cw_status cw) MetricMultiversXClientStatus (status_String status));;
  on_world (sh_SetStringMetric (cw_status cw) MetricLastMultiversXClientError message);;
  on_world (sh_SetIntMetric (cw_status cw) MetricLastBlockNonce (i64 nonce)).

Definition set_checked (block retries : Z) (c : client X) : client X := mkClient block retries (cl_world c).

Definition incrementRetriesAvailabilityCheck : M (client X) unit :=
  modify (fun c => set_checked (lastBlockNumber c) (retriesAvailabilityCheck c +u 1) c).

(** The deferred increment runs when the function returns. *)
Definition CheckClientAvailability : M (client X) (option error) :=
  r ← on_world (cw_BlockNumber cw);
  match r with
  | Err e => setStatusForAvailabilityCheck Unavailable (error_text e) 0;; mret (Some e)
  | Ok currentBlock =>
      last ← gets lastBlockNumber;
      (if negb (currentBlock =? last)%Z then modify (set_checked currentBlock 0) else mret tt);;
      retries ← gets retriesAvailabilityCheck;
      (if (allowDelta D <? retries)%Z then
         setStatusForAvailabilityCheck Unavailable
           (sprintf "block %d fetched for %d times in a row" [GInt currentBlock; GInt retries]) currentBlock
       else setStatusForAvailabilityCheck Available "" currentBlock);;
      incrementRetriesAvailabilityCheck;;
      mret None
  end.

(** What the executor sees: the client with its availability state in the world. *)
Definition eth_interface (o : map_order) : EthereumClient (client X) := {|
  eth_GetBatch n := on_world (GetBatch n);
  eth_WasExecuted n := on_world (WasExecuted n);
  eth_GenerateMessageHash b := on_world (GenerateMessageHash b);
  eth_BroadcastSignatureForMessageHash h := on_world (BroadcastSignatureForMessageHash h);
  eth_ExecuteTransfer h b q := on_world (ExecuteTransfer o h b q);
  eth_GetTransactionsStatuses n := on_world (GetTransactionsStatuses n);
  eth_GetQuorumSize := on_world GetQuorumSize;
  eth_IsQuorumReached h := on_world (IsQuorumReached h);
  eth_CheckClientAvailability := CheckClientAvailability |}.

End Client.

End EthClient.
