(* ===== verification/EthClientFacts.v ===== *)
(** * What the Ethereum client guarantees

    The guards of a sent transaction, the transparency of the token cache, the quorum check,
    the message hash, the availability counter, and the laws the executor relies on, with the one about the quorum
    that depends on the contract. *)
From S2P Require Import Prelude Go Common Batch Interfaces Executor EthClient.
Open Scope go_scope.
Import EthClient.

Module EthClientFacts.

(** ** Lists of arguments *)

Definition lists_of (ds : list DepositTransfer) (amounts : list Z) : argListsBatch :=
  mkLists (BytesToAddress ∘ dt_ConvertedTokenBytes <$> ds) (BytesToAddress ∘ dt_ToBytes <$> ds) amounts (dt_Nonce <$> ds).

Lemma extract_loop_spec ds arg :
  Forall (fun d => is_Some (dt_Amount d)) ds ->
  extract_loop ds arg = Ret
    (mkLists (al_tokens arg ++ (BytesToAddress ∘ dt_ConvertedTokenBytes <$> ds))
             (al_recipients arg ++ (BytesToAddress ∘ dt_ToBytes <$> ds))
             (al_amounts arg ++ omap dt_Amount ds) (al_nonces arg ++ (dt_Nonce <$> ds))).
Proof.
  revert arg. induction ds as [|d ds IH]; intros [t r a n] H; cbn.
  - by rewrite !app_nil_r.
  - apply Forall_cons in H as [[v Hv] H]. rewrite Hv. rewrite IH by done. cbn. by rewrite <-!app_assoc.
Qed.

Lemma extractList_spec b :
  amounts_set b -> extractList b = Ret (lists_of (tb_Deposits b) (omap dt_Amount (tb_Deposits b))).
Proof. intros H. unfold extractList. by rewrite extract_loop_spec. Qed.

Lemma amounts_length ds : Forall (fun d => is_Some (dt_Amount d)) ds -> length (omap dt_Amount ds) = length ds.
Proof. induction 1 as [|d ds [v Hv] _ IH]; [done|]. cbn. rewrite Hv. cbn. by rewrite IH. Qed.

(** ** Cumulated transfers *)

(** The sum of the amounts to be transferred of one token. *)
Fixpoint total_of (token : bytes) (tokens : list bytes) (amounts : list Z) : Z :=
  match tokens, amounts with
  | t :: tokens', a :: amounts' =>
      ((if bool_decide (t = token) then a else 0) + total_of token tokens' amounts')%Z
  | _, _ => 0%Z
  end.

Lemma total_of_absent token tokens amounts : token ∉ tokens -> total_of token tokens amounts = 0%Z.
Proof.
  revert amounts. induction tokens as [|t tokens IH]; intros [|a amounts] H; try done. cbn.
  rewrite bool_decide_false by set_solver. rewrite IH by set_solver. done.
Qed.

Lemma cumulate_spec tokens amounts m :
  length tokens = length amounts ->
  exists m', cumulate tokens amounts m = Ret m' /\ forall token,
    m' !! string_of_bytes token =
    if bool_decide (token ∈ tokens) then Some (default 0%Z (m !! string_of_bytes token) + total_of token tokens amounts)%Z
    else m !! string_of_bytes token.
Proof.
  revert amounts m. induction tokens as [|t tokens IH]; intros [|a amounts] m Hl; try done; cbn [cumulate].
  { exists m. split; [done|]. intros token. by rewrite bool_decide_false by set_solver. }
  destruct (IH amounts (<[string_of_bytes t := (default 0%Z (m !! string_of_bytes t) + a)%Z]> m)) as (m' & -> & Hm);
    [by injection Hl|]. exists m'. split; [done|]. intros token. rewrite Hm. cbn [total_of].
  destruct (decide (t = token)) as [->|Hne].
  - rewrite lookup_insert_eq. cbn [default id]. rewrite (bool_decide_true (token = token)) by done.
    rewrite (bool_decide_true (token ∈ token :: tokens)) by set_solver.
    case_bool_decide as Hin; [f_equal; lia|]. rewrite total_of_absent by done. f_equal. lia.
  - rewrite lookup_insert_ne by (intros Heq; by apply string_of_bytes_inj in Heq).
    rewrite (bool_decide_false (t = token)) by done.
    destruct (decide (token ∈ tokens)); [rewrite !bool_decide_true by set_solver; f_equal; lia|].
    by rewrite !bool_decide_false by set_solver.
Qed.

(** ** The guards of a transaction *)

Section Guards.
Context {X T : Type} (D : clientDeps X T).

Lemma check_balances_ok l x x' :
  check_balances D l x = (Ret None, x') ->
  forall token v, (token, v) ∈ l ->
    exists bal, answered (erc20_BalanceOf D (bytes_of_string token) (safeContractAddress D)) (Ok bal) /\ (v <= bal)%Z.
Proof.
  revert x. induction l as [|[t v] l IH]; intros x H token w; [by rewrite elem_of_nil|].
  cbn [check_balances] in H. inv_run. case_match; [|done].
  match goal with H : context [(?a <? v)%Z] |- _ => destruct (Z.ltb_spec a v) as [?|Hle]; [done|] end.
  intros [[= -> ->]|Hin]%elem_of_cons; [|by eapply IH].
  eexists. split; [by eexists _, _|done].
Qed.

Lemma checkAvailableTokens_ok o tokens amounts x x' :
  length tokens = length amounts -> checkAvailableTokens D o tokens amounts x = (Ret None, x') ->
  forall token, token ∈ tokens ->
    exists bal, answered (erc20_BalanceOf D token (safeContractAddress D)) (Ok bal) /\
      (total_of token tokens amounts <= bal)%Z.
Proof.
  intros Hl H token Hin. unfold checkAvailableTokens, getCumulatedTransfers in H. inv_run.
  match goal with H : cumulate _ _ _ = Ret ?m |- _ => rename m into tr; rename H into Hc end.
  destruct (cumulate_spec tokens amounts ∅ Hl) as (m' & Hc' & Hm). rewrite Hc in Hc'. injection Hc' as <-.
  specialize (Hm token). rewrite bool_decide_true, lookup_empty in Hm by done. cbn in Hm.
  unfold checkCumulatedTransfers in H.
  destruct (check_balances_ok _ _ _ H (string_of_bytes token) (total_of token tokens amounts)) as (bal & Ha & Hle).
  - apply list_elem_of_omap. exists (string_of_bytes token). split; [apply range_keys_elem; by eexists|]. by rewrite Hm.
  - rewrite bytes_string_bytes in Ha. by exists bal.
Qed.

Lemma cut_signatures_ok all q sigs :
  (q <= Z.of_nat (length all))%Z -> cut_signatures all q = Ret sigs ->
  Z.of_nat (length sigs) = q /\ sigs = take (length sigs) all.
Proof.
  unfold cut_signatures. intros Hle. destruct (Z.ltb_spec q (Z.of_nat (length all))).
  - destruct (Z.ltb_spec q 0); [done|]. intros [= <-]. rewrite length_take_le by lia. split; [lia|done].
  - intros [= <-]. split; [lia|by rewrite take_ge].
Qed.

(** Everything a prepared transfer has passed. *)
Lemma prepareTransfer_inv (o : map_order) (msgHash : bytes) (b : TransferBatch) (quorum : Z) x x' opts lists sigs :
  amounts_set b ->
  prepareTransfer D o msgHash b quorum x = (Ret (Ok (opts, lists, sigs)), x') ->
  answered (cw_IsPaused (clientWrapper D)) (Ok false) /\
  Z.of_nat (length sigs) = quorum /\
  (exists all, answered (sig_Signatures (signatureHolder D) msgHash) all /\ sigs = take (length sigs) all) /\
  lists = lists_of (tb_Deposits b) (omap dt_Amount (tb_Deposits b)) /\
  (forall token, token ∈ al_tokens lists ->
     exists bal, answered (erc20_BalanceOf D token (safeContractAddress D)) (Ok bal) /\
       (total_of token (al_tokens lists) (al_amounts lists) <= bal)%Z) /\
  opt_GasLimit opts = u64 (transferGasLimitBase D +
    u64 (u64 (Z.of_nat (length (tb_Deposits b))) * transferGasLimitForEach D)) /\
  exists bal, answered (cw_BalanceAt (clientWrapper D) (relayerAddress D) None) (Ok bal) /\
    (i64 (opt_GasLimit opts) * opt_GasPrice opts <= bal)%Z.
Proof.
  intros Hset H. unfold prepareTransfer in H. apply bind_ret_inv in H as (r & x1 & Hp & H).
  destruct r as [[]|e]; cbn [wrap_err] in H; try done.
  apply bind_ok_inv in H as (nonce & x2 & _ & H). apply bind_ok_inv in H as (chainId & x3 & _ & H).
  destruct (NewKeyedTransactorWithChainID (lib D) chainId); [done|].
  apply bind_ok_inv in H as (price & x4 & _ & H). apply bind_ret_inv in H as (all & x5 & Hsig & H).
  destruct (Z.ltb_spec (Z.of_nat (length all)) quorum) as [?|Hq]; [done|].
  apply bind_ret_inv in H as (cut & x6 & Hcut & H). apply of_outcome_inv in Hcut as [Hcut ->].
  apply bind_ret_inv in H as (lists' & x7 & Hl & H). apply of_outcome_inv in Hl as [Hl ->].
  rewrite extractList_spec in Hl by done. injection Hl as <-.
  apply bind_ret_inv in H as ([e|] & x8 & Hb & H); [done|].
  apply bind_ret_inv in H as ([e|] & x9 & Hf & H); [done|]. injection H as <- <- <- <-.
  destruct (cut_signatures_ok _ _ _ Hq Hcut) as [Hlen Hpre].
  split; [by eexists _, _|]. split; [done|]. split; [exists all; split; [by eexists _, _|done]|]. split; [done|].
  split; [|split; [done|]].
  - intros token Hin. eapply checkAvailableTokens_ok; [|exact Hb|done].
    cbn. rewrite length_fmap. symmetry. by apply amounts_length.
  - unfold checkRelayerFundsForFee in Hf. apply bind_ret_inv in Hf as ([bal|e] & x10 & Hbal & Hf); [|done].
    exists bal. split; [by eexists _, _|]. cbn [opt_GasLimit opt_GasPrice].
    match type of Hf with context [(bal <? ?f)%Z] => destruct (Z.ltb_spec bal f) as [?|Hle]; [done|exact Hle] end.
Qed.


End Guards.

(** ** The token cache *)

Section Cache.
Context {X T : Type} (D : clientDeps X T).

(** The reference: every deposit's token is converted, without a cache; the first error ends it. *)
Fixpoint convert_ref (conv : bytes -> res bytes) (deposits : list contract_Deposit) : res (list DepositTransfer) :=
  match deposits with
  | [] => Ok []
  | d :: rest =>
      match conv (cd_TokenAddress d) with
      | Err e => Err e
      | Ok c => res_map (cons (convertDeposit D d c)) (convert_ref conv rest)
      end
  end.

Context (conv : bytes -> res bytes) (ask : bytes -> X -> X).

Lemma convert_deposits_ref deposits cache acc x :
  (forall t y, ConvertToken D t y = (Ret (conv t), ask t y)) ->
  (forall t v, cache !! ToHexString t = Some v -> conv t = Ok v) ->
  exists asked,
    convert_deposits D cache deposits acc x =
      (Ret (res_map (app acc) (convert_ref conv deposits)), foldl (fun y t => ask t y) x asked) /\
    NoDup asked /\ forall t, t ∈ asked -> t ∈ cd_TokenAddress <$> deposits /\ cache !! ToHexString t = None.
Proof.
  intros Hconv. revert cache acc x. induction deposits as [|d ds IH]; intros cache acc x Hcache; cbn.
  { exists []. rewrite app_nil_r. split; [done|]. split; [constructor|]. intros t Ht. by apply not_elem_of_nil in Ht. }
  destruct (cache !! ToHexString (cd_TokenAddress d)) as [stored|] eqn:Hc.
  - rewrite (Hcache _ _ Hc). destruct (IH cache (acc ++ [convertDeposit D d stored]) x Hcache) as (asked & -> & Hnd & Hin).
    exists asked. split; [|split; [done|]].
    + f_equal. f_equal. destruct (convert_ref conv ds); cbn; [|done]. by rewrite <-app_assoc.
    + intros t Ht. destruct (Hin t Ht). split; [by right|done].
  - unfold bind_ok, mbind, M_bind. rewrite Hconv. destruct (conv (cd_TokenAddress d)) as [v|e] eqn:Hv; cbn.
    2:{ exists [cd_TokenAddress d]. split; [done|]. split; [apply NoDup_singleton|].
        intros t ->%list_elem_of_singleton. split; [by left|done]. }
    destruct (IH (<[ToHexString (cd_TokenAddress d) := v]> cache) (acc ++ [convertDeposit D d v]) (ask (cd_TokenAddress d) x))
      as (asked & -> & Hnd & Hin).
    { intros t w. destruct (decide (cd_TokenAddress d = t)) as [<-|Hne].
      - rewrite lookup_insert_eq. by intros [= <-].
      - rewrite lookup_insert_ne; [apply Hcache|]. intros Heq. by apply hex_encode_inj in Heq. }
    exists (cd_TokenAddress d :: asked). split; [|split].
    + cbn. f_equal. f_equal. destruct (convert_ref conv ds); cbn; [|done]. by rewrite <-app_assoc.
    + constructor; [|done]. intros Hd. destruct (Hin _ Hd) as [_ Hno]. by rewrite lookup_insert_eq in Hno.
    + intros t [->|Ht]%elem_of_cons; [split; [by left|done]|]. destruct (Hin t Ht) as [Hds Hno].
      split; [by right|]. destruct (decide (cd_TokenAddress d = t)) as [<-|Hne]; [done|].
      rewrite lookup_insert_ne in Hno; [done|]. intros Heq. by apply hex_encode_inj in Heq.
Qed.
End Cache.

(** The token cache of [GetBatch] is transparent: with a mapper that answers [conv], the
    converted deposits are those of a loop without a cache, errors included, and the mapper is
    asked at most once per token address. *)
Theorem token_cache_transparent {X T} (D : clientDeps X T) (conv : bytes -> res bytes) (ask : bytes -> X -> X)
    (deposits : list contract_Deposit) (x : X) :
  (forall t y, ConvertToken D t y = (Ret (conv t), ask t y)) ->
  exists asked,
    convert_deposits D ∅ deposits [] x = (Ret (convert_ref D conv deposits), foldl (fun y t => ask t y) x asked) /\
    NoDup asked /\ forall t, t ∈ asked -> t ∈ cd_TokenAddress <$> deposits.
Proof.
  intros Hconv. destruct (convert_deposits_ref D conv ask deposits ∅ [] x Hconv) as (asked & -> & Hnd & Hin).
  { intros t v. by rewrite lookup_empty. }
  exists asked. split; [|split; [done|by apply Hin]]. f_equal. f_equal. by destruct (convert_ref D conv deposits).
Qed.

Lemma convert_ref_shape {X T} (D : clientDeps X T) conv ds out :
  convert_ref D conv ds = Ok out ->
  Forall2 (fun d dt => dt = convertDeposit D d (dt_ConvertedTokenBytes dt) /\
                       conv (cd_TokenAddress d) = Ok (dt_ConvertedTokenBytes dt)) ds out.
Proof.
  revert out. induction ds as [|d ds IH]; intros out; cbn; [intros [= <-]; constructor|].
  destruct (conv (cd_TokenAddress d)) as [c|e] eqn:Hc; [|done]. destruct (convert_ref D conv ds) as [out'|e]; cbn; [|done].
  intros [= <-]. constructor; [done|by apply IH].
Qed.

(** A batch fetched from Ethereum mirrors the contract: its number, one deposit per
    contract deposit with the same nonce, parties, token and amount, the token converted by the
    mapper, and one zero status per deposit; a count that disagrees with the deposits is an error. *)
Theorem GetBatch_mirrors_contract {X T} (D : clientDeps X T) (conv : bytes -> res bytes) (ask : bytes -> X -> X) n x r x' :
  (forall t y, ConvertToken D t y = (Ret (conv t), ask t y)) ->
  GetBatch D n x = (Ret (Ok r), x') ->
  exists b cb cds, r = Some b /\ answered (cw_GetBatch (clientWrapper D) n) (Ok cb) /\
    answered (cw_GetBatchDeposits (clientWrapper D) n) (Ok cds) /\
    cb_DepositsCount cb = Z.of_nat (length cds) /\ tb_ID b = u64 (cb_Nonce cb) /\
    Forall2 (fun d dt => dt = convertDeposit D d (dt_ConvertedTokenBytes dt) /\
                         conv (cd_TokenAddress d) = Ok (dt_ConvertedTokenBytes dt)) cds (tb_Deposits b) /\
    tb_Statuses b = replicate (length cds) Byte.x00.
Proof.
  intros Hconv H. unfold GetBatch in H. apply bind_ok_inv in H as (cb & x1 & Hcb & H).
  apply bind_ok_inv in H as (cds & x2 & Hcds & H).
  destruct (Z.eqb_spec (cb_DepositsCount cb) (Z.of_nat (length cds))) as [Hcount|_]; cbn [negb] in H; [|done].
  apply bind_ok_inv in H as (ds & x3 & Hds & H). injection H as <- <-.
  destruct (convert_deposits_ref D conv ask cds ∅ [] x2 Hconv) as (asked & Hrun & _).
  { intros t v. by rewrite lookup_empty. }
  rewrite Hrun in Hds. injection Hds as Hds _. destruct (convert_ref D conv cds) as [out|e] eqn:Href; [|done].
  cbn in Hds. injection Hds as <-. apply convert_ref_shape in Href.
  eexists _, cb, cds. split; [done|]. split; [by eexists _, _|]. split; [by eexists _, _|]. split; [done|].
  split; [done|]. split; [done|]. cbn. by rewrite (Forall2_length _ _ _ Href).
Qed.

(** ** Quorum *)

(** For a contract quorum between 1 and 2^63 - 1, [IsQuorumReached] answers whether the
    holder lists at least that many signatures for the hash; a zero quorum is an error. *)
Theorem IsQuorumReached_spec {X T} (D : clientDeps X T) (msgHash : bytes) (sigs : list bytes) (quorum : Z) (x : X) :
  sig_Signatures (signatureHolder D) msgHash x = (Ret sigs, x) -> cw_Quorum (clientWrapper D) x = (Ret (Ok quorum), x) ->
  (0 <= quorum < two63)%Z ->
  IsQuorumReached D msgHash x =
  (Ret (if (quorum =? 0)%Z then Err (Errorf "%w in IsQuorumReached, minQuorum %d, got: %s" clients_ErrInvalidValue [GInt 1; GInt 0])
        else Ok (bool_decide (quorum <= Z.of_nat (length sigs))%Z)), x).
Proof.
  intros Hs Hq Hr. unfold IsQuorumReached, mbind, M_bind. rewrite Hs, Hq.
  assert (Hu : u64 quorum = quorum) by (apply u64_small; unfold is_u64, two64, two63 in *; lia).
  assert (Hi : i64 quorum = quorum) by (apply i64_small; unfold two63 in *; lia).
  rewrite Hu, Hi. unfold minQuorumValue. destruct (Z.eqb_spec quorum 0) as [->|Hne]; [done|].
  destruct (Z.ltb_spec quorum 1) as [?|_]; [lia|]. unfold mret, M_ret. do 3 f_equal.
  destruct (Z.leb_spec quorum (Z.of_nat (length sigs))); symmetry; [by apply bool_decide_true|apply bool_decide_false; lia].
Qed.

(** ** The message hash *)

(** The deposits agree on what is transferred. *)
Definition same_transfer (d d' : DepositTransfer) : Prop :=
  dt_ToBytes d = dt_ToBytes d' /\ dt_ConvertedTokenBytes d = dt_ConvertedTokenBytes d' /\
  dt_Amount d = dt_Amount d' /\ dt_Nonce d = dt_Nonce d'.

Lemma extract_loop_same ds ds' arg : Forall2 same_transfer ds ds' -> extract_loop ds arg = extract_loop ds' arg.
Proof.
  intros H. revert arg. induction H as [|d d' ds ds' (H1 & H2 & H3 & H4) _ IH]; intros arg; [done|]. cbn.
  rewrite H1, H2, H3, H4. destruct (dt_Amount d'); [apply IH|done].
Qed.

(** Relayers that use the same library compute the same hash for batches that agree on the
    number and, deposit by deposit, on recipient, converted token, amount and nonce: display
    texts, senders and statuses do not enter the signed message, and no world is read or
    changed. *)
Theorem message_hash_agrees {X X' T} (D : clientDeps X T) (D' : clientDeps X' T) (b b' : TransferBatch) (x : X) (x' : X') :
  lib D = lib D' -> tb_ID b = tb_ID b' -> Forall2 same_transfer (tb_Deposits b) (tb_Deposits b') ->
  fst (GenerateMessageHash D (Some b) x) = fst (GenerateMessageHash D' (Some b') x') /\
  snd (GenerateMessageHash D (Some b) x) = x.
Proof.
  intros Hlib Hid Hds. unfold GenerateMessageHash, generateTransferArgs, extractList. rewrite Hlib, Hid, (extract_loop_same _ _ _ Hds).
  repeat (case_match; try done). all: unfold mbind, M_bind; destruct (extract_loop _ _) as [l|p]; cbn; [|done].
  all: by destruct (abi_Pack _ _ _).
Qed.


(** ** Availability *)

Section Availability.
Context {T : Type} (D : clientDeps (list (string * string)) T) (block : Z).

(** The node keeps answering [block]; string metrics are written down, newest first. *)
Definition stuck_node : Prop :=
  (forall x, cw_BlockNumber (clientWrapper D) x = (Ret (Ok block), x)) /\
  (forall k v x, sh_SetStringMetric (cw_status (clientWrapper D)) k v x = (Ret tt, (k, v) :: x)) /\
  (forall k v x, sh_SetIntMetric (cw_status (clientWrapper D)) k v x = (Ret tt, x)).

(** What the [n]-th check on the same block (counted from zero) writes. *)
Definition reported (n : Z) : list (string * string) :=
  if (allowDelta D <? n)%Z
  then [(MetricLastMultiversXClientError, sprintf "block %d fetched for %d times in a row" [GInt block; GInt n]);
        (MetricMultiversXClientStatus, "Unavailable")]
  else [(MetricLastMultiversXClientError, ""); (MetricMultiversXClientStatus, "Available")].

(** The client after [n] checks. *)
Fixpoint checks (n : nat) (c : client (list (string * string))) : client (list (string * string)) :=
  match n with O => c | S k => snd (CheckClientAvailability D (checks k c)) end.

Lemma check_once c : stuck_node ->
  let n := if (block =? lastBlockNumber c)%Z then retriesAvailabilityCheck c else 0%Z in
  CheckClientAvailability D c = (Ret None, mkClient block (u64 (n + 1)) (reported n ++ cl_world c)).
Proof.
  intros (Hb & Hs & Hi) n. destruct c as [last retries log]. cbn in n.
  unfold CheckClientAvailability, setStatusForAvailabilityCheck, incrementRetriesAvailabilityCheck, set_checked, on_world, zoom,
    mbind, M_bind, gets, modify. rewrite Hb. cbn [cl_world lastBlockNumber retriesAvailabilityCheck].
  unfold reported, n. destruct (Z.eqb_spec block last) as [->|Hne]; cbn [negb]; unfold mret, M_ret;
    cbn [cl_world lastBlockNumber retriesAvailabilityCheck];
    match goal with |- context [(?a <? ?b)%Z] => destruct (a <? b)%Z end;
    repeat (first [rewrite Hs | rewrite Hi]; cbn [cl_world lastBlockNumber retriesAvailabilityCheck]); done.
Qed.

(** When the node is stuck on one block, the client counts: the first checks report it as
    available, and from the check after [allowDelta + 1] repetitions on it is reported as
    unavailable with the number of times the block was seen.  The status goes to the metrics
    named after the MultiversX client. *)
Theorem stuck_node_reported c n :
  stuck_node -> lastBlockNumber c <> block -> (Z.of_nat n + 1 < two64)%Z ->
  exists log, checks (S n) c = mkClient block (Z.of_nat n + 1) (reported (Z.of_nat n) ++ log).
Proof.
  intros Hn Hne. induction n as [|n IH]; intros Hlt; cbn [checks].
  - rewrite check_once by done. destruct (Z.eqb_spec block (lastBlockNumber c)); [congruence|].
    eexists. cbn [snd]. rewrite u64_small by (unfold is_u64; cbn; lia). done.
  - destruct IH as [log IH]; [lia|]. cbn [checks] in IH. rewrite IH, check_once by done.
    cbn [lastBlockNumber retriesAvailabilityCheck snd]. rewrite Z.eqb_refl.
    replace (Z.of_nat n + 1)%Z with (Z.of_nat (S n)) by lia.
    rewrite u64_small by (unfold is_u64; lia). by eexists.
Qed.

End Availability.


(** ** The client implements the executor's interface *)

(** What the client needs of the wrapper, the mapper and the other components it calls:
    calls return, a batch's deposit count is a [uint16].  Nothing bounds the quorum: [setQuorum] of
    the contract does not. *)
Class ChainLaws {X T} (D : clientDeps X T) : Prop := {
  ch_batch n x : wp (cw_GetBatch (clientWrapper D) n)
    (fun r _ => match r with Ok cb => (0 <= cb_DepositsCount cb < 65536)%Z | Err _ => True end) x;
  ch_deposits n : total (cw_GetBatchDeposits (clientWrapper D) n);
  ch_executed n : total (cw_WasBatchExecuted (clientWrapper D) n);
  ch_chainid : total (cw_ChainID (clientWrapper D));
  ch_block : total (cw_BlockNumber (clientWrapper D));
  ch_nonce a n : total (cw_NonceAt (clientWrapper D) a n);
  ch_transfer o l b s : total (cw_ExecuteTransfer (clientWrapper D) o l b s);
  ch_quorum : total (cw_Quorum (clientWrapper D));
  ch_statuses n : total (cw_GetStatusesAfterExecution (clientWrapper D) n);
  ch_balance a n : total (cw_BalanceAt (clientWrapper D) a n);
  ch_paused : total (cw_IsPaused (clientWrapper D));
  ch_status :: StatusHandlerLaws (cw_status (clientWrapper D));
  ch_erc20 t a : total (erc20_BalanceOf D t a);
  ch_broadcast s h : total (BroadcastSignature D s h);
  ch_convert t : total (ConvertToken D t);
  ch_signatures h : total (sig_Signatures (signatureHolder D) h);
  ch_gas : total (GetCurrentGasPrice D)
}.

#[export] Hint Resolve ch_deposits ch_executed ch_chainid ch_block ch_nonce ch_transfer ch_quorum ch_statuses ch_balance ch_paused
  ch_erc20 ch_broadcast ch_convert ch_signatures ch_gas : total.

Section Laws.
Context {X T : Type} (D : clientDeps X T) `{!ChainLaws D}.

(** The loop returns as many deposits as it was given, all with an amount. *)
Lemma convert_deposits_wp cache ds acc x :
  Forall (fun d => is_Some (dt_Amount d)) acc ->
  wp (convert_deposits D cache ds acc) (fun r _ => match r with
    | Ok out => length out = length acc + length ds /\ Forall (fun d => is_Some (dt_Amount d)) out
    | Err _ => True end) x.
Proof.
  revert cache acc x. induction ds as [|d ds IH]; intros cache acc x Hacc; cbn [convert_deposits].
  { apply wp_ret. split; [cbn; lia|done]. }
  assert (Hone : forall v, Forall (fun d => is_Some (dt_Amount d)) (acc ++ [convertDeposit D d v])).
  { intros v. apply Forall_app. split; [done|]. constructor; [by eexists|constructor]. }
  case_match.
  - eapply wp_mono; [by apply IH|]. intros [out|e] x' H'; [|done]. rewrite length_app in H'. cbn in *.
    destruct H'. split; [lia|done].
  - apply wp_bind_ok. apply wp_total; [apply ch_convert|]. intros [v|e] x1 _; [|apply wp_ret; done].
    eapply wp_mono; [by apply IH|]. intros [out|e] x' H'; [|done]. rewrite length_app in H'. cbn in *.
    destruct H'. split; [lia|done].
Qed.

Lemma GetBatch_yields n : yields_batch (GetBatch D n).
Proof.
  intros x. unfold GetBatch. apply wp_bind_ok. eapply wp_mono; [apply ch_batch|].
  intros [cb|e] x1 Hcb; [|by apply wp_ret]. apply wp_bind_ok. apply wp_total; [apply ch_deposits|].
  intros [cds|e] x2 _; [|by apply wp_ret].
  destruct (Z.eqb_spec (cb_DepositsCount cb) (Z.of_nat (length cds))) as [Hc|_]; cbn [negb]; [|by apply wp_ret].
  apply wp_bind_ok. eapply wp_mono; [apply convert_deposits_wp; constructor|].
  intros [ds|e] x3 Hd; [|by apply wp_ret]. apply wp_ret. cbn in Hd. destruct Hd as [Hlen Hset].
  split; cbn; [|done]. rewrite length_replicate, Hlen. unfold two63. lia.
Qed.

Lemma getNonce_total a : total (getNonce D a).
Proof. unfold getNonce. solve_total. Qed.

Lemma checkBalances_total l : total (check_balances D l).
Proof. induction l as [|[t v] l IH]; cbn [check_balances]; solve_total. Qed.

Lemma checkAvailableTokens_total o tokens amounts :
  length tokens = length amounts -> total (checkAvailableTokens D o tokens amounts).
Proof.
  intros Hl. unfold checkAvailableTokens, getCumulatedTransfers.
  destruct (cumulate_spec tokens amounts ∅ Hl) as (m & -> & _). apply total_bind; [apply total_ret|].
  intros tr. apply checkBalances_total.
Qed.

Lemma prepareTransfer_total o h b q : amounts_set b -> (0 <= q)%Z -> total (prepareTransfer D o h b q).
Proof.
  intros Hset Hq. unfold prepareTransfer. apply total_bind; [auto with total|]. intros r.
  case_match; [|apply total_ret]. case_match; [apply total_ret|].
  apply total_bind_ok; [apply getNonce_total|]. intros nonce. apply total_bind_ok; [auto with total|]. intros chain.
  case_match; [apply total_ret|]. apply total_bind_ok; [auto with total|]. intros price.
  apply total_bind; [auto with total|]. intros sigs. case_match; [apply total_ret|].
  apply total_bind.
  { unfold cut_signatures. case_match; [|apply total_ret]. destruct (Z.ltb_spec q 0); [lia|apply total_ret]. }
  intros cut. rewrite extractList_spec by done. apply total_bind_outcome.
  apply total_bind; [apply checkAvailableTokens_total; cbn; rewrite length_fmap; symmetry; by apply amounts_length|].
  intros err. unfold checkRelayerFundsForFee. solve_total.
Qed.

(** ** A quorum that does not fit

    [executeTransfer] of the executor passes [int(quorum.Int64())], which is negative for a quorum
    from 2^63 on: then nothing is sent, [signatures[:quorum]] panics unless an earlier check
    returned its error. *)
Definition fails_or_panics {S A} (p : panic) (c : M S (res A)) (s : S) : Prop :=
  (exists e s', c s = (Ret (Err e), s')) \/ (exists s', c s = (Panic p, s')).

Lemma fails_bind {S A B} p (c : M S A) (k : A -> M S (res B)) s :
  total c -> (forall a s', fails_or_panics p (k a) s') -> fails_or_panics p (mbind k c) s.
Proof.
  intros Hc Hk. destruct (proj1 (wp_unfold _ _ _) (Hc s)) as (a & s' & Hrun & _). specialize (Hk a s'). unfold fails_or_panics, mbind, M_bind. by rewrite Hrun.
Qed.

Lemma fails_bind_ok {S A B} p (c : M S (res A)) (k : A -> M S (res B)) s :
  total c -> (forall a s', fails_or_panics p (k a) s') -> fails_or_panics p (bind_ok c k) s.
Proof. intros Hc Hk. apply fails_bind; [done|]. intros [a|e] s'; [apply Hk|left; by eexists _, _]. Qed.

Lemma ExecuteTransfer_negative o h b q x : (q < 0)%Z -> fails_or_panics SliceBoundsOutOfRange (ExecuteTransfer D o h (Some b) q) x.
Proof.
  intros Hq. assert (Herr : forall e (x : X), fails_or_panics (A := TransactOpts * argListsBatch * list bytes) SliceBoundsOutOfRange (mret (Err e)) x)
    by (intros; left; by eexists _, _).
  assert (Hp : forall x, fails_or_panics SliceBoundsOutOfRange (prepareTransfer D o h b q) x).
  { clear x. intros x. unfold prepareTransfer. apply fails_bind; [auto with total|]. intros r x1. case_match; [|done]. case_match; [done|].
    apply fails_bind_ok; [apply getNonce_total|]. intros nonce x2. apply fails_bind_ok; [auto with total|]. intros chain x3. case_match; [done|].
    apply fails_bind_ok; [auto with total|]. intros price x4. apply fails_bind; [auto with total|]. intros sigs x5. case_match; [done|].
    right. exists x5. unfold cut_signatures. destruct (Z.ltb_spec q (Z.of_nat (length sigs))); [|lia]. by destruct (Z.ltb_spec q 0); [|lia]. }
  unfold ExecuteTransfer. destruct (Hp x) as [(e & x' & H)|(x' & H)]; [left; exists e, x'|right; exists x'];
    unfold bind_ok, mbind, M_bind; by rewrite H.
Qed.

Lemma interface_ExecuteTransfer_negative o h b q c :
  (q < 0)%Z -> fails_or_panics SliceBoundsOutOfRange (eth_ExecuteTransfer (eth_interface D o) h (Some b) q) c.
Proof.
  intros Hq. change (eth_ExecuteTransfer _ _ _ _) with (on_world (ExecuteTransfer D o h (Some b) q)). unfold on_world, fails_or_panics, zoom.
  destruct (ExecuteTransfer_negative o h b q (cl_world c) Hq) as [(e & x' & Hr)|(x' & Hr)]; rewrite Hr; [left|right]; eauto.
Qed.

(** Each law in turn; the last one is the one thing the contract does not guarantee. *)
Lemma eth_interface_laws (o : map_order) :
  yields_quorum (cw_Quorum (clientWrapper D)) -> EthereumClientLaws (eth_interface D o).
Proof.
  intros Hquorum. split; cbn; intros.
  - intros c. unfold on_world. apply wp_zoom. eapply wp_mono; [apply GetBatch_yields|]. done.
  - apply total_zoom, ch_executed.
  - apply total_zoom. unfold GenerateMessageHash. case_match; [|apply total_ret].
    rewrite extractList_spec by done. apply total_bind_outcome. solve_total.
  - apply total_zoom. unfold BroadcastSignatureForMessageHash. solve_total.
  - apply total_zoom. unfold ExecuteTransfer. apply total_bind_ok; [by apply prepareTransfer_total|]. intros p. solve_total.
  - apply total_zoom, ch_statuses.
  - intros c. unfold on_world. apply wp_zoom. apply Hquorum.
  - apply total_zoom. unfold IsQuorumReached. apply total_bind; [auto with total|]. intros sigs.
    apply total_bind; [auto with total|]. intros r. solve_total.
  - unfold CheckClientAvailability, setStatusForAvailabilityCheck, incrementRetriesAvailabilityCheck, on_world.
    pose proof (ch_status (D := D)). solve_total.
Qed.

(** The client is as good as the contract's quorum: it satisfies the laws the executor's theorems
    assume exactly when the quorum the contract answers fits an [int64]. *)
Lemma ethereum_client_laws (o : map_order) :
  EthereumClientLaws (eth_interface D o) <-> yields_quorum (cw_Quorum (clientWrapper D)).
Proof.
  split; [|apply eth_interface_laws]. intros Hlaws x. pose proof (eth_quorum (c := eth_interface D o) (mkClient 0 0 x)) as Hq.
  revert Hq. unfold wp. cbn. unfold on_world, zoom, GetQuorumSize. cbn. by destruct (cw_Quorum (clientWrapper D) x) as [[]].
Qed.

End Laws.


(** ** A small chain for the witnesses *)

Abbreviation toy_world := (list (string * string)).

Definition toy_status : StatusHandler toy_world := {|
  sh_SetIntMetric _ _ := mret tt; sh_AddIntMetric _ _ := mret tt;
  sh_SetStringMetric k v := modify (fun l => (k, v) :: l) |}.

Definition toy_deposits : list contract_Deposit :=
  [mkCDeposit 8 [Byte.x0a] 100 [Byte.x01] [Byte.x02] 1; mkCDeposit 9 [Byte.x0b] 50 [Byte.x01] [Byte.x03] 1;
   mkCDeposit 10 [Byte.x0a] 7 [Byte.x04] [Byte.x02] 1].

Definition toy_chain : multiSigContract toy_world := {|
  ms_GetBatch n := mret (Ok (mkCBatch n 1 1 3));
  ms_GetBatchDeposits _ := mret (Ok toy_deposits);
  ms_GetRelayers := mret (Ok []);
  ms_WasBatchExecuted _ := mret (Ok false);
  ms_ExecuteTransfer _ _ _ _ := mret (Ok "0xhash");
  ms_Quorum := mret (Ok 2%Z);
  ms_GetStatusesAfterExecution _ := mret (Ok [Executed]);
  ms_Paused := mret (Ok false) |}.

Definition toy_node : blockchainClient toy_world := {|
  bk_ChainID := mret (Ok 1%Z); bk_BlockNumber := mret (Ok 77%Z); bk_NonceAt _ _ := mret (Ok 5%Z);
  bk_BalanceAt _ _ := mret (Ok 1000000%Z) |}.

Definition toy_conv (t : bytes) : res bytes := Ok (Byte.xff :: t).

Definition toy_client : clientDeps toy_world string := {|
  clientWrapper := NewEthereumChainWrapper toy_status toy_chain toy_node;
  erc20_BalanceOf _ _ := mret (Ok 110%Z);
  addressConverter := {| ToBech32String := hex_encode |};
  BroadcastSignature _ _ := mret tt;
  ConvertToken t := (modify (fun l => ("asked", hex_encode t) :: l);; mret (toy_conv t));
  signatureHolder := {| sig_Signatures _ := mret [[Byte.x21]; [Byte.x22]; [Byte.x23]]; sig_ClearStoredSignatures := mret tt |};
  safeContractAddress := [Byte.x99];
  GetCurrentGasPrice := mret (Ok 3%Z);
  transferGasLimitBase := 1000; transferGasLimitForEach := 100; allowDelta := 2; relayerAddress := [Byte.x98];
  lib := {| abi_NewType s := Ok s; abi_Pack _ vs := Ok (flat_map (fun v => match v with
              | AbiAddresses l => concat l | AbiUints l => map byte_of_Z l | AbiUint z => [byte_of_Z z]
              | AbiString s => bytes_of_string s end) vs);
            Keccak256 l := take 32 (reverse l ++ replicate 32 Byte.x00); crypto_Sign h := Ok h;
            NewKeyedTransactorWithChainID _ := None; addr_String := hex_encode |} |}.

#[export] Instance toy_chain_laws : ChainLaws toy_client.
Proof. repeat split; try done; by vm_compute. Qed.

Lemma toy_mapper t y : ConvertToken toy_client t y = (Ret (toy_conv t), ("asked", hex_encode t) :: y).
Proof. done. Qed.

Definition toy_batch : TransferBatch :=
  mkBatch 4 [convertDeposit toy_client (mkCDeposit 8 [Byte.x0a] 100 [Byte.x01] [Byte.x02] 1) [Byte.xff; Byte.x0a];
             convertDeposit toy_client (mkCDeposit 9 [Byte.x0b] 50 [Byte.x01] [Byte.x03] 1) [Byte.xff; Byte.x0b];
             convertDeposit toy_client (mkCDeposit 10 [Byte.x0a] 7 [Byte.x04] [Byte.x02] 1) [Byte.xff; Byte.x0a]]
    [Byte.x00; Byte.x00; Byte.x00].

Lemma toy_batch_amounts : amounts_set toy_batch.
Proof. repeat constructor; by eexists. Qed.

Lemma token_cache_transparent_witness :
  exists asked,
    convert_deposits toy_client ∅ toy_deposits [] [] =
      (Ret (convert_ref toy_client toy_conv toy_deposits), foldl (fun y t => ("asked", hex_encode t) :: y) [] asked) /\
    NoDup asked /\ forall t, t ∈ asked -> t ∈ cd_TokenAddress <$> toy_deposits.
Proof.
  exact (token_cache_transparent toy_client toy_conv (fun t y => ("asked", hex_encode t) :: y) toy_deposits [] toy_mapper).
Defined.

Lemma GetBatch_mirrors_contract_witness :
  exists b cb cds, Some toy_batch = Some b /\ answered (cw_GetBatch (clientWrapper toy_client) 4) (Ok cb) /\
    answered (cw_GetBatchDeposits (clientWrapper toy_client) 4) (Ok cds) /\
    cb_DepositsCount cb = Z.of_nat (length cds) /\ tb_ID b = u64 (cb_Nonce cb) /\
    Forall2 (fun d dt => dt = convertDeposit toy_client d (dt_ConvertedTokenBytes dt) /\
                         toy_conv (cd_TokenAddress d) = Ok (dt_ConvertedTokenBytes dt)) cds (tb_Deposits b) /\
    tb_Statuses b = replicate (length cds) Byte.x00.
Proof.
  exact (GetBatch_mirrors_contract toy_client toy_conv (fun t y => ("asked", hex_encode t) :: y) 4 [] (Some toy_batch)
    _ toy_mapper eq_refl).
Defined.


Lemma IsQuorumReached_spec_witness :
  IsQuorumReached toy_client [Byte.x55] [] = (Ret (Ok (bool_decide (2 <= 3)%Z)), []).
Proof.
  exact (IsQuorumReached_spec toy_client [Byte.x55] [[Byte.x21]; [Byte.x22]; [Byte.x23]] 2 [] eq_refl eq_refl ltac:(by vm_compute)).
Defined.

Lemma message_hash_agrees_witness :
  fst (GenerateMessageHash toy_client (Some toy_batch) []) =
  fst (GenerateMessageHash toy_client (Some (set_Statuses [Executed] toy_batch)) [("other", "world")]).
Proof.
  refine (proj1 (message_hash_agrees toy_client toy_client toy_batch (set_Statuses [Executed] toy_batch) [] [("other", "world")]
    eq_refl eq_refl _)).
  by repeat constructor.
Defined.

Lemma stuck_node_reported_witness :
  exists log, checks toy_client 5 (newClient []) = mkClient 77 5 (reported toy_client 77 4 ++ log).
Proof. refine (stuck_node_reported toy_client 77 (newClient []) 4 _ _ _); [by split|done|by vm_compute]. Defined.

(** A quorum of 2^63 or more is read as negative: it counts as reached without a signature. *)
Definition huge_quorum : multiSigContract toy_world := {|
  ms_GetBatch := ms_GetBatch toy_chain; ms_GetBatchDeposits := ms_GetBatchDeposits toy_chain;
  ms_GetRelayers := ms_GetRelayers toy_chain; ms_WasBatchExecuted := ms_WasBatchExecuted toy_chain;
  ms_ExecuteTransfer := ms_ExecuteTransfer toy_chain; ms_Quorum := mret (Ok two63);
  ms_GetStatusesAfterExecution := ms_GetStatusesAfterExecution toy_chain; ms_Paused := ms_Paused toy_chain |}.

Definition huge_client : clientDeps toy_world string := {|
  clientWrapper := NewEthereumChainWrapper toy_status huge_quorum toy_node;
  erc20_BalanceOf := erc20_BalanceOf toy_client; addressConverter := addressConverter toy_client;
  BroadcastSignature := BroadcastSignature toy_client; ConvertToken := ConvertToken toy_client;
  signatureHolder := {| sig_Signatures _ := mret []; sig_ClearStoredSignatures := mret tt |};
  safeContractAddress := [Byte.x99]; GetCurrentGasPrice := mret (Ok 3%Z);
  transferGasLimitBase := 1000; transferGasLimitForEach := 100; allowDelta := 2; relayerAddress := [Byte.x98];
  lib := lib toy_client |}.

Example huge_quorum_reached : fst (IsQuorumReached huge_client [Byte.x55] []) = Ret (Ok true).
Proof. by vm_compute. Qed.

(** ** Construction *)

(** The constructor returns a client only when every component is there, both gas limits are
    set, a delta of at least one block is allowed and the key yields an ECDSA public key; the
    client then signs with that key, under the address of that public key, and starts with no
    block seen.  It never returns a client with a missing component. *)
Theorem NewEthereumClient_spec {X T} (L : ethLib T) (args : ArgsEthereumClient X) (x : X) :
  match NewEthereumClient L args x with
  | Err e => checkArgs args = Some e \/ (checkArgs args = None /\ e = errPublicKeyCast)
  | Ok None => False
  | Ok (Some (D, c)) => c = newClient x /\
      transferGasLimitBase D <> 0%Z /\ transferGasLimitForEach D <> 0%Z /\ (minAllowedDelta <= allowDelta D)%Z /\
      (exists key, Args_PrivateKey args = Some key /\ key_Public key = Some (relayerAddress D) /\ lib D = keyed L key) /\
      Args_ClientWrapper args = Some (clientWrapper D) /\ Args_SignatureHolder args = Some (signatureHolder D)
  end.
Proof.
  destruct args as [[w|] [erc|] [] [conv|] [bc|] [key|] [tm|] [sg|] safe [gas|] base each delta];
    unfold NewEthereumClient, checkArgs, clientFields; cbn; try by auto.
  destruct (Z.eqb_spec base 0); [by auto|]. destruct (Z.eqb_spec each 0); [by auto|].
  destruct (Z.ltb_spec delta minAllowedDelta); [by auto|]. cbn.
  destruct (key_Public key) as [a|] eqn:Hk; cbn; [|by auto]. repeat split; try done. by exists key.
Qed.

End EthClientFacts.
