(* ===== verification/Bindings.v ===== *)
(** * The Go bindings of the contracts

    Models the callers and transactors of [src/bridge/clients/ethereum/contract/contract.go] and
    what is used of [genericErc20.go].  go-ethereum's [bind.BoundContract] is a parameter: it
    calls a method by name with values of dynamic Go types and returns such values, which the
    bindings convert - a value of another type makes the conversion panic.  Call options carry
    only a context and are left out. *)
From S2P Require Import Prelude Go Common EthClient.
Open Scope go_scope.

Module Bindings.
Import EthClient.

(** Values behind [interface{}]. *)
Inductive goValue :=
  | VAddress (a : bytes)
  | VAddresses (l : list bytes)
  | VBig (z : Z)
  | VBigs (l : list Z)
  | VBool (b : bool)
  | VUint8 (z : Z)
  | VString (s : string)
  | VUint8s (l : bytes)
  | VByteSlices (l : list bytes)
  | VBatch (b : contract_Batch)
  | VDeposits (l : list contract_Deposit).

Record BoundContract (X : Type) := {
  bound_Call : string -> list goValue -> M X (res (list goValue));
  bound_Transact : TransactOpts -> string -> list goValue -> M X (res string)
}.
Arguments bound_Call {X} _ _ _.
Arguments bound_Transact {X} _ _ _ _.

(** [*abi.ConvertType(v, new(T)).( *T)], for the result types of the bindings. *)
Definition bad_conversion : panic := PanicValue "abi: cannot convert".
Definition as_address {X} (v : goValue) : M X bytes := match v with VAddress a => mret a | _ => panics bad_conversion end.
Definition as_addresses {X} (v : goValue) : M X (list bytes) := match v with VAddresses l => mret l | _ => panics bad_conversion end.
Definition as_big {X} (v : goValue) : M X Z := match v with VBig z => mret z | _ => panics bad_conversion end.
Definition as_bool {X} (v : goValue) : M X bool := match v with VBool b => mret b | _ => panics bad_conversion end.
Definition as_uint8s {X} (v : goValue) : M X bytes := match v with VUint8s l => mret l | _ => panics bad_conversion end.
Definition as_uint8 {X} (v : goValue) : M X Z := match v with VUint8 z => mret z | _ => panics bad_conversion end.
Definition as_string {X} (v : goValue) : M X string := match v with VString s => mret s | _ => panics bad_conversion end.
Definition as_batch {X} (v : goValue) : M X contract_Batch := match v with VBatch b => mret b | _ => panics bad_conversion end.
Definition as_deposits {X} (v : goValue) : M X (list contract_Deposit) := match v with VDeposits l => mret l | _ => panics bad_conversion end.

Section Bridge.
Context {X : Type} (contract : BoundContract X).

(** The body every caller has: the call, then [out[0]] converted. *)
Definition call_one {A} (convert : goValue -> M X A) (method : string) (params : list goValue) : M X (res A) :=
  out <?- bound_Call contract method params;
  match out with
  | [] => panics IndexOutOfRange
  | out0 :: _ => a ← convert out0; mret (Ok a)
  end.

Definition Admin : M X (res bytes) := call_one as_address "admin" [].
Definition BatchSettleBlockCount : M X (res Z) := call_one as_big "batchSettleBlockCount" [].
Definition CrossTransferStatuses (arg0 : Z) : M X (res Z) := call_one as_big "crossTransferStatuses" [VBig arg0].
Definition ExecutedBatches (arg0 : Z) : M X (res bool) := call_one as_bool "executedBatches" [VBig arg0].
Definition Bridge_GetBatch (batchNonce : Z) : M X (res contract_Batch) := call_one as_batch "getBatch" [VBig batchNonce].
Definition Bridge_GetBatchDeposits (batchNonce : Z) : M X (res (list contract_Deposit)) :=
  call_one as_deposits "getBatchDeposits" [VBig batchNonce].
Definition GetRelayer (index : Z) : M X (res bytes) := call_one as_address "getRelayer" [VBig index].
Definition Bridge_GetRelayers : M X (res (list bytes)) := call_one as_addresses "getRelayers" [].
Definition GetRelayersCount : M X (res Z) := call_one as_big "getRelayersCount" [].
Definition Bridge_GetStatusesAfterExecution (batchNonceElrondETH : Z) : M X (res bytes) :=
  call_one as_uint8s "getStatusesAfterExecution" [VBig batchNonceElrondETH].
Definition IsRelayer (account : bytes) : M X (res bool) := call_one as_bool "isRelayer" [VAddress account].
Definition Paused : M X (res bool) := call_one as_bool "paused" [].
Definition Bridge_Quorum : M X (res Z) := call_one as_big "quorum" [].
Definition Bridge_WasBatchExecuted (batchNonceElrondETH : Z) : M X (res bool) :=
  call_one as_bool "wasBatchExecuted" [VBig batchNonceElrondETH].

Definition AddRelayer (opts : TransactOpts) (account : bytes) : M X (res string) :=
  bound_Transact contract opts "addRelayer" [VAddress account].
Definition Bridge_ExecuteTransfer (opts : TransactOpts) (tokens recipients : list bytes) (amounts depositNonces : list Z)
    (batchNonceElrondETH : Z) (signatures : list bytes) : M X (res string) :=
  bound_Transact contract opts "executeTransfer"
    [VAddresses tokens; VAddresses recipients; VBigs amounts; VBigs depositNonces; VBig batchNonceElrondETH; VByteSlices signatures].
Definition Pause (opts : TransactOpts) : M X (res string) := bound_Transact contract opts "pause" [].
Definition RemoveRelayer (opts : TransactOpts) (account : bytes) : M X (res string) :=
  bound_Transact contract opts "removeRelayer" [VAddress account].
Definition RenounceAdmin (opts : TransactOpts) : M X (res string) := bound_Transact contract opts "renounceAdmin" [].
Definition RenounceRelayer (opts : TransactOpts) (account : bytes) : M X (res string) :=
  bound_Transact contract opts "renounceRelayer" [VAddress account].
Definition SetQuorum (opts : TransactOpts) (newQuorum : Z) : M X (res string) :=
  bound_Transact contract opts "setQuorum" [VBig newQuorum].
Definition TransferAdmin (opts : TransactOpts) (newAdmin : bytes) : M X (res string) :=
  bound_Transact contract opts "transferAdmin" [VAddress newAdmin].
Definition Unpause (opts : TransactOpts) : M X (res string) := bound_Transact contract opts "unpause" [].

(** The binding as the chain wrapper uses it. *)
Definition Bridge : multiSigContract X := {|
  ms_GetBatch := Bridge_GetBatch;
  ms_GetBatchDeposits := Bridge_GetBatchDeposits;
  ms_GetRelayers := Bridge_GetRelayers;
  ms_WasBatchExecuted := Bridge_WasBatchExecuted;
  ms_ExecuteTransfer opts l b s := Bridge_ExecuteTransfer opts (al_tokens l) (al_recipients l) (al_amounts l) (al_nonces l) b s;
  ms_Quorum := Bridge_Quorum;
  ms_GetStatusesAfterExecution := Bridge_GetStatusesAfterExecution;
  ms_Paused := Paused |}.
End Bridge.

(** ** Binding an address *)

Section New.
Context {X : Type} (abi_JSON : string -> option error) (NewBoundContract : bytes -> string -> BoundContract X).

(** [abi] stands for the text of the ABI. *)
Definition bindBridge (abi : string) (address : bytes) : res (BoundContract X) :=
  match abi_JSON abi with
  | Some e => Err e
  | None => Ok (NewBoundContract address abi)
  end.

Definition NewBridge (abi : string) (address : bytes) : res (multiSigContract X) :=
  match bindBridge abi address with
  | Err e => Err e
  | Ok contract => Ok (Bridge contract)
  end.

Definition bindGenericErc20 (abi : string) (address : bytes) : res (BoundContract X) :=
  match abi_JSON abi with
  | Some e => Err e
  | None => Ok (NewBoundContract address abi)
  end.

Definition NewGenericErc20 (abi : string) (address : bytes) : res (BoundContract X) :=
  match bindGenericErc20 abi address with
  | Err e => Err e
  | Ok contract => Ok contract
  end.

End New.

(** ** The binding of the tokens *)

Section Erc20.
Context {X : Type} (contract : BoundContract X).

Definition Allowance (owner spender : bytes) : M X (res Z) := call_one contract as_big "allowance" [VAddress owner; VAddress spender].
Definition GenericErc20_BalanceOf (account : bytes) : M X (res Z) := call_one contract as_big "balanceOf" [VAddress account].
Definition Decimals : M X (res Z) := call_one contract as_uint8 "decimals" [].
Definition Name : M X (res string) := call_one contract as_string "name" [].
Definition Symbol : M X (res string) := call_one contract as_string "symbol" [].
Definition TotalSupply : M X (res Z) := call_one contract as_big "totalSupply" [].

Definition Approve (opts : TransactOpts) (spender : bytes) (amount : Z) : M X (res string) :=
  bound_Transact contract opts "approve" [VAddress spender; VBig amount].
Definition Brrr (opts : TransactOpts) (recipientAddress : bytes) : M X (res string) :=
  bound_Transact contract opts "brrr" [VAddress recipientAddress].
Definition DecreaseAllowance (opts : TransactOpts) (spender : bytes) (subtractedValue : Z) : M X (res string) :=
  bound_Transact contract opts "decreaseAllowance" [VAddress spender; VBig subtractedValue].
Definition IncreaseAllowance (opts : TransactOpts) (spender : bytes) (addedValue : Z) : M X (res string) :=
  bound_Transact contract opts "increaseAllowance" [VAddress spender; VBig addedValue].
Definition GenericErc20_Transfer (opts : TransactOpts) (recipient : bytes) (amount : Z) : M X (res string) :=
  bound_Transact contract opts "transfer" [VAddress recipient; VBig amount].
Definition TransferFrom (opts : TransactOpts) (sender recipient : bytes) (amount : Z) : M X (res string) :=
  bound_Transact contract opts "transferFrom" [VAddress sender; VAddress recipient; VBig amount].
End Erc20.

(** Converting the result of a call that answered with a value of the right type. *)
Lemma call_one_wp {X A} (c : BoundContract X) (convert : goValue -> M X A) method params (Q : res A -> X -> Prop) x :
  wp (bound_Call c method params) (fun r x' => match r with
    | Err e => Q (Err e) x'
    | Ok out => exists out0 a rest, out = out0 :: rest /\ convert out0 = mret a /\ Q (Ok a) x' end) x ->
  wp (call_one c convert method params) Q x.
Proof.
  intros H. unfold call_one. apply wp_bind_ok. eapply wp_mono; [exact H|]. intros [out|e] x' Hr; [|by apply wp_ret].
  destruct Hr as (out0 & a & rest & -> & Hc & Hq). apply wp_bind. rewrite Hc. by apply wp_ret.
Qed.

End Bindings.
