(* ===== verification/BindingEvents.v ===== *)
(** * Contract events in the Go bindings

    Models the iterators, filters, watchers and parsers of events that
    [src/bridge/clients/ethereum/contract/contract.go] and [genericErc20.go] generate: one code
    for every event, instantiated per event type.  The log channel is the list of logs that are in
    it, the subscription's error channel what was sent on it; go-ethereum's [FilterLogs],
    [WatchLogs] and [UnpackLog] are parameters.  A [select] with several ready cases takes any. *)
From S2P Require Import Prelude Go Common EthClient Bindings.
Open Scope go_scope.

Module BindingEvents.
Import Bindings.

Section Event.
Context {Log E : Type} (UnpackLog : string -> Log -> res E).

(** ** Iterators *)

(** [it_Event] is nil, a zero event, or an event with its log; [it_sub] is what the error channel
    delivers ([Some None] once it is closed). *)
Record iterator := mkIterator {
  it_Event : option (option (E * Log));
  it_event : string;
  it_logs : list Log;
  it_sub : option (option error);
  it_done : bool;
  it_fail : option error
}.

Definition new_iterator (event : string) (logs : list Log) (sub : option (option error)) : iterator :=
  mkIterator None event logs sub false None.

(** A log was received. *)
Definition received (log : Log) (rest : list Log) (it : iterator) : bool * iterator :=
  match UnpackLog (it_event it) log with
  | Err err => (false, mkIterator (Some None) (it_event it) rest (it_sub it) (it_done it) (Some err))
  | Ok event => (true, mkIterator (Some (Some (event, log))) (it_event it) rest (it_sub it) (it_done it) (it_fail it))
  end.

(** [Next] when [done] is set. *)
Definition Next_done (it : iterator) : bool * iterator :=
  match it_fail it with
  | Some _ => (false, it)
  | None => match it_logs it with log :: rest => received log rest it | [] => (false, it) end
  end.

Definition ended (err : option error) (it : iterator) : iterator :=
  mkIterator (it_Event it) (it_event it) (it_logs it) (it_sub it) true err.

(** [None] while it blocks; [log_first] says which case is taken when both are ready. *)
Definition Next (log_first : bool) (it : iterator) : option (bool * iterator) :=
  match it_fail it with
  | Some _ => Some (false, it)
  | None =>
      if it_done it then Some (Next_done it)
      else
        match it_logs it, it_sub it with
        | [], None => None
        | log :: rest, None => Some (received log rest it)
        | [], Some err => Some (Next_done (ended err it))
        | log :: rest, Some err => if log_first then Some (received log rest it) else Some (Next_done (ended err it))
        end
  end.

Definition Error (it : iterator) : option error := it_fail it.

(** ** Filters and parsers *)

(** The rule for an indexed address. *)
Definition address_rule (items : list bytes) : list goValue := VAddress <$> items.

Section Filter.
Context {X : Type} (FilterLogs : string -> list (list goValue) -> M X (res (list Log * option (option error)))).

Definition Filter (event : string) (rules : list (list goValue)) : M X (res iterator) :=
  found <?- FilterLogs event rules;
  mret (Ok (new_iterator event (fst found) (snd found))).
End Filter.

Definition Parse (event : string) (log : Log) : res (E * Log) :=
  match UnpackLog event log with Err err => Err err | Ok e => Ok (e, log) end.

(** ** Watchers

    The goroutine of a subscription: waiting for a log, holding an event for the sink, or ended,
    when the deferred [Unsubscribe] has run. *)
Inductive watcher := Waiting | Holding (e : E * Log) | Ended (err : option error).

Record watch := mkWatch {
  w_logs : list Log;
  w_sub : option (option error);
  w_quit : bool;
  w_sink : list (E * Log);
  w_watcher : watcher
}.

Definition unsubscribed (w : watch) : bool := match w_watcher w with Ended _ => true | _ => false end.

Inductive watch_step (event : string) : watch -> watch -> Prop :=
  | watch_arrives log logs sub quit sink st :
      watch_step event (mkWatch logs sub quit sink st) (mkWatch (logs ++ [log]) sub quit sink st)
  | watch_fails err logs quit sink st :
      watch_step event (mkWatch logs None quit sink st) (mkWatch logs (Some err) quit sink st)
  | watch_quits logs sub sink st :
      watch_step event (mkWatch logs sub false sink st) (mkWatch logs sub true sink st)
  | watch_log log logs sub quit sink :
      watch_step event (mkWatch (log :: logs) sub quit sink Waiting)
        (mkWatch logs sub quit sink (match Parse event log with Ok e => Holding e | Err err => Ended (Some err) end))
  | watch_send e logs sub quit sink :
      watch_step event (mkWatch logs sub quit sink (Holding e)) (mkWatch logs sub quit (sink ++ [e]) Waiting)
  | watch_err err logs quit sink st :
      unsubscribed (mkWatch logs (Some err) quit sink st) = false ->
      watch_step event (mkWatch logs (Some err) quit sink st) (mkWatch logs (Some err) quit sink (Ended err))
  | watch_quit logs sub sink st :
      unsubscribed (mkWatch logs sub true sink st) = false ->
      watch_step event (mkWatch logs sub true sink st) (mkWatch logs sub true sink (Ended None)).

(** The caller's part: subscribe to the logs, and start the goroutine that forwards them to the
    caller's [sink]. *)
Section Watch.
Context {X : Type} (WatchLogs : string -> list (list goValue) -> M X (res (list Log * option (option error)))).

Definition Watch (event : string) (sink : list (E * Log)) (rules : list (list goValue)) : M X (res watch) :=
  found <?- WatchLogs event rules;
  mret (Ok (mkWatch (fst found) (snd found) false sink Waiting)).
End Watch.

(** ** A loop over an iterator

    [for it.Next() { ... }] in the consumer while the producer, the goroutine of the
    subscription, sends the logs it has found and then ends with [r_result]. *)
Record run := mkRun {
  r_producer : list Log;
  r_result : option error;
  r_iter : iterator;
  r_seen : list (E * Log);
  r_stopped : bool
}.

Inductive run_step : run -> run -> Prop :=
  | step_send log rest res it seen :
      it_sub it = None ->
      run_step (mkRun (log :: rest) res it seen false)
        (mkRun rest res (mkIterator (it_Event it) (it_event it) (it_logs it ++ [log]) None (it_done it) (it_fail it)) seen false)
  | step_finish res it seen :
      it_sub it = None ->
      run_step (mkRun [] res it seen false)
        (mkRun [] res (mkIterator (it_Event it) (it_event it) (it_logs it) (Some res) (it_done it) (it_fail it)) seen false)
  | step_next pick p res it seen it' e :
      Next pick it = Some (true, it') -> it_Event it' = Some (Some e) ->
      run_step (mkRun p res it seen false) (mkRun p res it' (seen ++ [e]) false)
  | step_stop pick p res it seen it' :
      Next pick it = Some (false, it') ->
      run_step (mkRun p res it seen false) (mkRun p res it' seen true).

Definition run_start (event : string) (logs : list Log) (result : option error) : run :=
  mkRun logs result (new_iterator event [] None) [] false.

(** The events of logs that can be unpacked. *)
Definition unpacked (event : string) (log : Log) : option (E * Log) :=
  match UnpackLog event log with Ok e => Some (e, log) | Err _ => None end.

(** The logs are those already seen, in the channel, and still to come; the stopped loop has
    failed or seen them all. *)
Record run_inv (event : string) (logs : list Log) (result : option error) (r : run) : Prop := {
  ri_event : it_event (r_iter r) = event;
  ri_result : r_result r = result;
  ri_logs : exists seen lost, logs = seen ++ lost ++ it_logs (r_iter r) ++ r_producer r /\
    r_seen r = omap (unpacked event) seen /\ Forall (fun l => is_Some (unpacked event l)) seen /\
    (lost <> [] -> it_fail (r_iter r) <> None);
  ri_sub : it_sub (r_iter r) = None \/ it_sub (r_iter r) = Some result /\ r_producer r = [];
  ri_done : it_done (r_iter r) = true -> it_sub (r_iter r) <> None;
  ri_stop : r_stopped r = true -> it_fail (r_iter r) <> None \/ it_logs (r_iter r) = [] /\ r_producer r = []
}.

Lemma run_inv_start event logs result : run_inv event logs result (run_start event logs result).
Proof. split; try done; [|by left]. exists [], []. split_and!; try done. Qed.

Lemma received_inv log rest it ok it' : received log rest it = (ok, it') ->
  it_event it' = it_event it /\ it_sub it' = it_sub it /\ it_done it' = it_done it /\ it_logs it' = rest /\
  if ok then it_fail it' = it_fail it /\ exists e, unpacked (it_event it) log = Some (e, log) /\ it_Event it' = Some (Some (e, log))
  else it_fail it' <> None.
Proof.
  unfold received, unpacked. destruct (UnpackLog _ log) as [e|err]; intros [= <- <-]; cbn; split_and!; eauto.
Qed.

(** What [Next] does to an iterator: it delivers the first log of the channel, or fails, or has
    found the channel empty at the end. *)
Lemma Next_inv pick it ok it' : Next pick it = Some (ok, it') ->
  it_event it' = it_event it /\ it_sub it' = it_sub it /\ (it_done it' = true -> it_done it = true \/ it_sub it <> None) /\
  if ok then exists log rest e, it_logs it = log :: rest /\ it_logs it' = rest /\ it_fail it = None /\ it_fail it' = None /\
    unpacked (it_event it) log = Some (e, log) /\ it_Event it' = Some (Some (e, log))
  else it_fail it' <> None /\ (it_logs it' = it_logs it \/ exists log, it_logs it = log :: it_logs it') \/
    it_fail it' = it_fail it /\ it_logs it' = [] /\ it_logs it = [] /\ (it_done it = true \/ it_sub it <> None).
Proof.
  unfold Next, Next_done. destruct it as [ev event logs sub done_ fail]. cbn [it_fail it_done it_logs it_sub it_event ended].
  destruct fail as [err|]; [intros [= <- <-]; cbn; split_and!; eauto; left; eauto|].
  assert (Hrec : forall log rest d, (d = true -> done_ = true \/ sub <> None) ->
    received log rest (mkIterator ev event (log :: rest) sub d None) = (ok, it') -> logs = log :: rest ->
    it_event it' = event /\ it_sub it' = sub /\ (it_done it' = true -> done_ = true \/ sub <> None) /\
    if ok then exists log rest e, logs = log :: rest /\ it_logs it' = rest /\ @None error = None /\ it_fail it' = None /\
      unpacked event log = Some (e, log) /\ it_Event it' = Some (Some (e, log))
    else it_fail it' <> None /\ (it_logs it' = logs \/ exists log, logs = log :: it_logs it') \/
      it_fail it' = None /\ it_logs it' = [] /\ logs = [] /\ (done_ = true \/ sub <> None)).
  { intros log rest d Hd H ->. apply received_inv in H as (H1 & H2 & H3 & H4 & H5). cbn in *. rewrite H3. split_and!; try done.
    destruct ok; [|left; split; [done|right; exists log; by rewrite H4]]. destruct H5 as (H5 & e & H6 & H7).
    exists log, rest, e. split_and!; done. }
  destruct done_.
  { destruct logs as [|log rest]; [intros [= <- <-]; cbn; split_and!; eauto 6|]. intros [= H]. eapply Hrec; eauto. }
  destruct logs as [|log rest], sub as [[err|]|]; cbn; try discriminate.
  - intros [= <- <-]. cbn. split_and!; eauto; left; eauto.
  - intros [= <- <-]. cbn. split_and!; eauto; right; eauto.
  - destruct pick; [intros [= H]; eapply Hrec; eauto; discriminate|]. intros [= <- <-]. cbn. split_and!; eauto; left; eauto.
  - destruct pick; intros [= H]; eapply Hrec; eauto; by right.
  - intros [= H]. eapply Hrec; eauto; discriminate.
Qed.

Lemma run_inv_step event logs result r r' : run_inv event logs result r -> run_step r r' -> run_inv event logs result r'.
Proof.
  intros [He Hr (seen & lost & Hl & Hs & Hu & Hlost) Hsub Hd Hst] H. destruct H as
    [log rest res it sn Hn|res it sn Hn|pick p res it sn it' e Hn Hev|pick p res it sn it' Hn]; cbn in *.
  - destruct Hsub as [_|[Hsub _]]; [|congruence]. split; cbn; try done; [|by left|by intros ?%Hd].
    exists seen, lost. split_and!; try done. by rewrite Hl, <-!app_assoc.
  - split; cbn; try done; [|right; split; congruence]. exists seen, lost. split_and!; done.
  - apply Next_inv in Hn as (He' & Hsub' & Hd' & log & rest & e' & Hlogs & Hrest & Hf & Hf' & Hun & Hev').
    rewrite Hev in Hev'. injection Hev' as ->. assert (lost = []) as -> by (destruct lost; [done|by destruct Hlost]).
    split; cbn; try congruence.
    + exists (seen ++ [log]), []. rewrite Hl, Hlogs, Hrest, <-!app_assoc. split_and!; try done.
      * rewrite omap_app, Hs. cbn. by rewrite <-He, Hun.
      * apply Forall_app. split; [done|]. apply Forall_singleton. rewrite <-He, Hun. by eexists.
    + rewrite Hsub'. intros [?|?]%Hd'; auto.
  - apply Next_inv in Hn as (He' & Hsub' & Hd' & Hcase).
    assert (it_done it = true \/ it_sub it <> None -> p = []) as Hp.
    { intros H. destruct Hsub as [Hsub|[_ ->]]; [|done]. destruct H as [?%Hd|]; congruence. }
    split; cbn; try congruence.
    + destruct Hcase as [[Hf [Heq|[log Heq]]]|(Hf & Heq' & Heq & _)].
      * exists seen, lost. rewrite Heq. split_and!; try done.
      * exists seen, (lost ++ [log]). rewrite Hl, Heq, <-!app_assoc. split_and!; done.
      * exists seen, lost. rewrite Heq', Hf. rewrite Heq in Hl. split_and!; done.
    + rewrite Hsub'. intros [?|?]%Hd'; auto.
    + intros _. destruct Hcase as [[Hf _]|(_ & Heq' & _ & Hend)]; [by left|]. right. split; [done|by apply Hp].
Qed.

(** Every step makes progress. *)
Definition remaining (r : run) : nat :=
  2 * length (r_producer r) + length (it_logs (r_iter r)) +
  match it_sub (r_iter r) with Some _ => 0 | None => 1 end + (if r_stopped r then 0 else 1).

Lemma run_step_decreases r r' : run_step r r' -> remaining r' < remaining r.
Proof.
  destruct 1 as [log rest res it sn Hn|res it sn Hn|pick p res it sn it' e Hn Hev|pick p res it sn it' Hn]; unfold remaining; cbn.
  - rewrite Hn, length_app. cbn. lia.
  - rewrite Hn. lia.
  - apply Next_inv in Hn as (_ & -> & _ & log & rest & e' & -> & -> & _). cbn. lia.
  - apply Next_inv in Hn as (_ & -> & _ & Hc). destruct Hc as [[_ [->|[log ->]]]|(_ & -> & -> & _)]; cbn; lia.
Qed.

(** A loop that has not stopped can go on. *)
Lemma run_not_stuck event logs result r : run_inv event logs result r -> r_stopped r = false -> exists r', run_step r r'.
Proof.
  intros Hi Hs. destruct r as [p res it seen stopped]. cbn in Hs. subst stopped. destruct (it_sub it) as [err|] eqn:Hsub.
  - assert (exists ok it', Next true it = Some (ok, it')) as (ok & it' & Hn).
    { unfold Next. destruct (it_fail it); [by eexists _, _|]. destruct (it_done it); [destruct (Next_done it); by eexists _, _|].
      rewrite Hsub. destruct (it_logs it); [destruct (Next_done _)|destruct (received _ _ _)]; by eexists _, _. }
    destruct ok; [|eexists; by eapply step_stop]. pose proof Hn as (_ & _ & _ & log & rest & e & _ & _ & _ & _ & _ & He)%Next_inv.
    eexists. by eapply step_next.
  - destruct p as [|log p]; eexists; [by apply step_finish|by apply step_send].
Qed.

Lemma seen_all event seen : Forall (fun l => is_Some (unpacked event l)) seen ->
  Forall2 (fun l e => unpacked event l = Some e) seen (omap (unpacked event) seen).
Proof. induction 1 as [|l seen [e He] _ IH]; [constructor|]. cbn. rewrite He. by constructor. Qed.

Lemma run_inv_reachable event logs result n r : nsteps run_step n (run_start event logs result) r ->
  run_inv event logs result r /\ n + remaining r <= remaining (run_start event logs result).
Proof.
  assert (forall r0, run_inv event logs result r0 -> nsteps run_step n r0 r -> run_inv event logs result r /\ n + remaining r <= remaining r0) as H.
  { intros r0 Hi Hn. revert Hi. induction Hn as [|n r0 r1 r2 Hs _ IH]; intros Hi; [done|].
    destruct IH as [Hi' Hle]; [by eapply run_inv_step|]. apply run_step_decreases in Hs. split; [done|lia]. }
  apply H, run_inv_start.
Qed.

(** The sink gets the events of the logs that arrived, in order: what was delivered, what is
    held and what can be read of the channel is always the list of arrived events. *)
Definition held (w : watch) : list (E * Log) := match w_watcher w with Holding e => [e] | _ => [] end.

Lemma watch_in_order event w w' : watch_step event w w' ->
  w_sink w' ++ held w' = w_sink w ++ held w \/
  (exists log logs e, w_logs w = log :: logs /\ Parse event log = Ok e /\ w_sink w' ++ held w' = w_sink w ++ [e]) \/
  unsubscribed w' = true /\ w_sink w' = w_sink w.
Proof.
  destruct 1; cbn; try (by left); try (by right; right).
  - destruct (Parse event log) as [e|err] eqn:He; [right; left|by right; right]. by exists log, logs, e.
  - left. by rewrite app_nil_r.
Qed.
End Event.

(** ** The events of the contracts *)

Record BridgeAdminRoleTransferred := { PreviousAdmin : bytes; NewAdmin : bytes }.
Record BridgeQuorumChanged := { ev_Quorum : Z }.
Record BridgeRelayerAdded := { added_Account : bytes; added_Sender : bytes }.
Record BridgeRelayerRemoved := { removed_Account : bytes; removed_Sender : bytes }.
Record GenericErc20Approval := { ap_Owner : bytes; ap_Spender : bytes; ap_Value : Z }.
Record GenericErc20Transfer := { tr_From : bytes; tr_To : bytes; tr_Value : Z }.

Section Contracts.
Context {Log X : Type}.
Context (unpackAdmin : string -> Log -> res BridgeAdminRoleTransferred) (unpackQuorum : string -> Log -> res BridgeQuorumChanged).
Context (unpackAdded : string -> Log -> res BridgeRelayerAdded) (unpackRemoved : string -> Log -> res BridgeRelayerRemoved).
Context (unpackApproval : string -> Log -> res GenericErc20Approval) (unpackTransfer : string -> Log -> res GenericErc20Transfer).
Context (FilterLogs WatchLogs : string -> list (list goValue) -> M X (res (list Log * option (option error)))).

Definition BridgeAdminRoleTransferredIterator_Next := Next unpackAdmin.
Definition BridgeQuorumChangedIterator_Next := Next unpackQuorum.
Definition BridgeRelayerAddedIterator_Next := Next unpackAdded.
Definition BridgeRelayerRemovedIterator_Next := Next unpackRemoved.
Definition GenericErc20ApprovalIterator_Next := Next unpackApproval.
Definition GenericErc20TransferIterator_Next := Next unpackTransfer.

Definition FilterAdminRoleTransferred (previousAdmin newAdmin : list bytes) : M X (res (iterator (E := BridgeAdminRoleTransferred))) :=
  Filter FilterLogs "AdminRoleTransferred" [address_rule previousAdmin; address_rule newAdmin].
Definition FilterQuorumChanged : M X (res (iterator (E := BridgeQuorumChanged))) := Filter FilterLogs "QuorumChanged" [].
Definition FilterRelayerAdded (account sender : list bytes) : M X (res (iterator (E := BridgeRelayerAdded))) :=
  Filter FilterLogs "RelayerAdded" [address_rule account; address_rule sender].
Definition FilterRelayerRemoved (account sender : list bytes) : M X (res (iterator (E := BridgeRelayerRemoved))) :=
  Filter FilterLogs "RelayerRemoved" [address_rule account; address_rule sender].
Definition FilterApproval (owner spender : list bytes) : M X (res (iterator (E := GenericErc20Approval))) :=
  Filter FilterLogs "Approval" [address_rule owner; address_rule spender].
Definition FilterTransfer (from to : list bytes) : M X (res (iterator (E := GenericErc20Transfer))) :=
  Filter FilterLogs "Transfer" [address_rule from; address_rule to].

Definition WatchAdminRoleTransferred (sink : list (BridgeAdminRoleTransferred * Log)) (previousAdmin newAdmin : list bytes) : M X (res (watch (E := BridgeAdminRoleTransferred))) :=
  Watch WatchLogs "AdminRoleTransferred" sink [address_rule previousAdmin; address_rule newAdmin].
Definition WatchQuorumChanged (sink : list (BridgeQuorumChanged * Log)) : M X (res (watch (E := BridgeQuorumChanged))) :=
  Watch WatchLogs "QuorumChanged" sink [].
Definition WatchRelayerAdded (sink : list (BridgeRelayerAdded * Log)) (account sender : list bytes) : M X (res (watch (E := BridgeRelayerAdded))) :=
  Watch WatchLogs "RelayerAdded" sink [address_rule account; address_rule sender].
Definition WatchRelayerRemoved (sink : list (BridgeRelayerRemoved * Log)) (account sender : list bytes) : M X (res (watch (E := BridgeRelayerRemoved))) :=
  Watch WatchLogs "RelayerRemoved" sink [address_rule account; address_rule sender].
Definition WatchApproval (sink : list (GenericErc20Approval * Log)) (owner spender : list bytes) : M X (res (watch (E := GenericErc20Approval))) :=
  Watch WatchLogs "Approval" sink [address_rule owner; address_rule spender].
Definition WatchTransfer (sink : list (GenericErc20Transfer * Log)) (from to : list bytes) : M X (res (watch (E := GenericErc20Transfer))) :=
  Watch WatchLogs "Transfer" sink [address_rule from; address_rule to].

(** The goroutines these start. *)
Definition WatchAdminRoleTransferred_goroutine := watch_step unpackAdmin "AdminRoleTransferred".
Definition WatchQuorumChanged_goroutine := watch_step unpackQuorum "QuorumChanged".
Definition WatchRelayerAdded_goroutine := watch_step unpackAdded "RelayerAdded".
Definition WatchRelayerRemoved_goroutine := watch_step unpackRemoved "RelayerRemoved".
Definition WatchApproval_goroutine := watch_step unpackApproval "Approval".
Definition WatchTransfer_goroutine := watch_step unpackTransfer "Transfer".

Definition ParseAdminRoleTransferred := Parse unpackAdmin "AdminRoleTransferred".
Definition ParseQuorumChanged := Parse unpackQuorum "QuorumChanged".
Definition ParseRelayerAdded := Parse unpackAdded "RelayerAdded".
Definition ParseRelayerRemoved := Parse unpackRemoved "RelayerRemoved".
Definition ParseApproval := Parse unpackApproval "Approval".
Definition ParseTransfer := Parse unpackTransfer "Transfer".
End Contracts.

(** C21. A loop over the events a filter finds, with the producer of the logs running beside it and
    every choice of the [select]: it takes at most twice as many steps as there are logs and two
    more, it is never stuck, what it has seen are the first logs in order, each once, and when it
    ended without an error it has seen them all. *)
Theorem iteration_complete {Log E : Type} (UnpackLog : string -> Log -> res E) (event : string) (logs : list Log)
    (result : option error) (n : nat) (r : run) :
  nsteps (run_step UnpackLog) n (run_start event logs result) r ->
  n <= 2 * length logs + 2 /\
  (r_stopped r = false -> exists r', run_step UnpackLog r r') /\
  (exists first others, logs = first ++ others /\ Forall2 (fun l e => unpacked UnpackLog event l = Some e) first (r_seen r)) /\
  (r_stopped r = true -> Error (r_iter r) = None -> Forall2 (fun l e => unpacked UnpackLog event l = Some e) logs (r_seen r)).
Proof.
  intros [Hi Hle]%run_inv_reachable. split; [unfold remaining in Hle; cbn in Hle; lia|]. split; [by eapply run_not_stuck|].
  destruct Hi as [He Hr (seen & lost & Hl & Hs & Hu & Hlost) Hsub Hd Hst]. apply seen_all in Hu. rewrite <-Hs in Hu.
  split; [eexists seen, _; split; [exact Hl|done]|]. intros Hstop Herr. unfold Error in Herr.
  destruct (Hst Hstop) as [?|[Hlogs Hp]]; [done|]. rewrite Hlogs, Hp in Hl. destruct lost as [|x lost]; [|by destruct Hlost].
  rewrite !app_nil_r in Hl. by subst logs.
Qed.

(** Two events, the second of which arrives while the first is consumed. *)
Lemma iteration_complete_witness :
  exists n r, nsteps (run_step (fun _ (l : Z) => Ok (l * 2)%Z)) n (run_start "e" [3; 4]%Z None) r /\
    r_stopped r = true /\ Forall2 (fun l e => unpacked (fun _ (l : Z) => Ok (l * 2)%Z) "e" l = Some e) [3; 4]%Z (r_seen r).
Proof.
  eexists 6, _. assert (nsteps (run_step (fun _ (l : Z) => Ok (l * 2)%Z)) 6 (run_start "e" [3; 4]%Z None)
    (mkRun [] None (mkIterator (Some (Some (8, 4)%Z)) "e" [] (Some None) true None) [(6, 3); (8, 4)]%Z true)) as H.
  { eapply nsteps_l; [by apply step_send|]. eapply nsteps_l; [by apply (step_next _ true)|].
    eapply nsteps_l; [by apply step_send|]. eapply nsteps_l; [by apply step_finish|].
    eapply nsteps_l; [by apply (step_next _ false)|]. eapply nsteps_l; [by apply (step_stop _ true)|]. apply nsteps_O. }
  split; [exact H|]. split; [reflexivity|].
  destruct (iteration_complete (fun _ (l : Z) => Ok (l * 2)%Z) "e" [3; 4]%Z None 6 _ H) as (_ & _ & _ & Hall). by apply Hall.
Defined.
End BindingEvents.
