(* ===== verification/Solidity.v ===== *)
(** * The fragment of Solidity the contracts use

    Calls that may revert, with a reason, and then change nothing; unsigned integers of a width,
    whose arithmetic reverts when it overflows (Solidity 0.8); the head-and-tail encoding of
    [abi.encode] for the types the bridge encodes, with its injectivity. *)
From S2P Require Import Prelude.

(** ** Calls *)

Inductive result (S A : Type) :=
  | Done (a : A) (s : S)
  | Revert (reason : string).
Arguments Done {S A} a s.
Arguments Revert {S A} reason.

(** A call on the storage [S]. *)
Definition Sol (S A : Type) : Type := S -> result S A.

#[global] Instance Sol_ret S : MRet (Sol S) := fun A a s => Done a s.
#[global] Instance Sol_bind S : MBind (Sol S) := fun A B k c s =>
  match c s with Done a s' => k a s' | Revert r => Revert r end.

Definition revert {S A} (reason : string) : Sol S A := fun _ => Revert reason.
Definition require {S} (b : bool) (reason : string) : Sol S unit := if b then mret tt else revert reason.
Definition view {S A} (f : S -> A) : Sol S A := fun s => Done (f s) s.
Definition write {S} (f : S -> S) : Sol S unit := fun s => Done tt (f s).

(** A call into a part of the storage. *)
Definition at_part {S P A} (get : S -> P) (put : P -> S -> S) (c : Sol P A) : Sol S A := fun s =>
  match c (get s) with Done a p => Done a (put p s) | Revert r => Revert r end.

(** The context of a call. *)
Abbreviation address := bytes.
Record msg := { msg_sender : address; block_number : Z }.

Definition zero_address : address := replicate 20 Byte.x00.

(** ** Checked arithmetic *)

Definition arithmetic_panic : string := "panic 0x11".
Definition index_panic : string := "panic 0x32".

(** The value of an operation on unsigned integers of [w] bits. *)
Definition checked {S} (w z : Z) : Sol S Z :=
  if (0 <=? z)%Z && (z <? 2 ^ w)%Z then mret z else revert arithmetic_panic.

(** Conversion to a narrower type truncates. *)
Definition truncate (w z : Z) : Z := z `mod` 2 ^ w.

(** Reading an element of an array. *)
Definition at_index {S A} (l : list A) (i : nat) : Sol S A :=
  match l !! i with Some a => mret a | None => revert index_panic end.

(** ** Reading a successful call backwards *)

Lemma sol_bind_inv {S A B} (c : Sol S A) (k : A -> Sol S B) s b s' :
  mbind k c s = Done b s' -> exists a s1, c s = Done a s1 /\ k a s1 = Done b s'.
Proof. unfold mbind, Sol_bind. destruct (c s) as [a s1|r] eqn:E; [eauto|done]. Qed.

Lemma require_inv {S} b reason (s : S) u s' : require b reason s = Done u s' -> b = true /\ s' = s.
Proof. unfold require. destruct b; [|done]. by intros [= _ <-]. Qed.

Lemma view_inv {S A} (f : S -> A) s a s' : view f s = Done a s' -> a = f s /\ s' = s.
Proof. by intros [= <- <-]. Qed.

Lemma write_inv {S} (f : S -> S) s u s' : write f s = Done u s' -> s' = f s.
Proof. by intros [= _ <-]. Qed.

Lemma mret_inv {S A} (a b : A) (s s' : S) : mret (M := Sol S) a s = Done b s' -> b = a /\ s' = s.
Proof. by intros [= <- <-]. Qed.

Lemma checked_inv {S} w z (s : S) a s' : checked w z s = Done a s' -> a = z /\ s' = s /\ (0 <= z < 2 ^ w)%Z.
Proof.
  unfold checked. destruct (_ && _) eqn:E; [|done]. intros [= <- <-]. split; [done|]. split; [done|].
  apply andb_true_iff in E as [H1 H2]. apply Z.leb_le in H1. apply Z.ltb_lt in H2. done.
Qed.

Lemma checked_ok {S} w z (s : S) : (0 <= z < 2 ^ w)%Z -> checked w z s = Done z s.
Proof.
  intros [H1 H2]. unfold checked. apply Z.leb_le in H1. apply Z.ltb_lt in H2. by rewrite H1, H2.
Qed.

Lemma at_index_inv {S A} (l : list A) i (s : S) a s' : at_index l i s = Done a s' -> l !! i = Some a /\ s' = s.
Proof. unfold at_index. destruct (l !! i); [|done]. by intros [= <- <-]. Qed.

Lemma at_part_inv {S P A} (get : S -> P) put (c : Sol P A) s a s' :
  at_part get put c s = Done a s' -> exists p, c (get s) = Done a p /\ s' = put p s.
Proof. unfold at_part. destruct (c (get s)) as [a' p|r]; [|done]. intros [= <- <-]. eauto. Qed.

(** Inverts a successful call step by step. *)
Ltac sol_step H :=
  lazymatch type of H with
  | mbind _ _ _ = Done _ _ =>
      let a := fresh "a" in let s1 := fresh "s" in let H1 := fresh "Hc" in
      apply sol_bind_inv in H as (a & s1 & H1 & H); repeat progress (sol_step H1; try (cbv beta iota in H1))
  | require _ _ _ = Done _ _ => let Hb := fresh "Hreq" in apply require_inv in H as [Hb H]; subst
  | view _ _ = Done _ _ => let Hv := fresh "Hv" in apply view_inv in H as [Hv H]; subst
  | write _ _ = Done _ _ => apply write_inv in H; subst
  | mret _ _ = Done _ _ => let Hv := fresh "Hv" in apply mret_inv in H as [Hv H]; subst
  | checked _ _ _ = Done _ _ => let Hv := fresh "Hv" in let Hr := fresh "Hrange" in apply checked_inv in H as (Hv & H & Hr); subst
  | at_index _ _ _ = Done _ _ => let Hv := fresh "Hidx" in apply at_index_inv in H as [Hv H]; subst
  | revert _ _ = Done _ _ => discriminate H
  | at_part _ _ _ _ = Done _ _ =>
      let p := fresh "p" in let Hp := fresh "Hp" in apply at_part_inv in H as (p & Hp & H); subst; repeat progress (sol_step Hp; try (cbv beta iota in Hp))
  | (if ?b then _ else _) _ = Done _ _ => let Hb := fresh "Hif" in destruct b eqn:Hb
  | _ => idtac
  end.
Ltac sol_inv H := repeat progress (sol_step H; try (cbv beta iota in H)).

(** ** [abi.encode] *)

Inductive abi_value :=
  | AAddresses (l : list address)
  | AUints (l : list Z)
  | AUint (z : Z)
  | AString (s : bytes).

Definition abi_uint (z : Z) : bytes := be_bytes 32 z.
#[global] Arguments abi_uint : simpl never.
Definition abi_address (a : address) : bytes := replicate (32 - length a) Byte.x00 ++ a.

(** Bytes are padded to whole words. *)
Definition padding (n : nat) : nat := (32 - n mod 32) mod 32.

(** The contents of a value of a dynamic type; [None] for a static one. *)
Definition abi_tail (v : abi_value) : option bytes :=
  match v with
  | AAddresses l => Some (abi_uint (Z.of_nat (length l)) ++ concat (abi_address <$> l))
  | AUints l => Some (abi_uint (Z.of_nat (length l)) ++ concat (abi_uint <$> l))
  | AUint _ => None
  | AString s => Some (abi_uint (Z.of_nat (length s)) ++ s ++ replicate (padding (length s)) Byte.x00)
  end.

Definition abi_static (v : abi_value) : bytes := match v with AUint z => abi_uint z | _ => [] end.

(** One word per value in the head: the value, or the offset of its contents. *)
Fixpoint abi_heads (offset : Z) (l : list abi_value) : bytes :=
  match l with
  | [] => []
  | v :: rest =>
      match abi_tail v with
      | None => abi_static v ++ abi_heads offset rest
      | Some t => abi_uint offset ++ abi_heads (offset + Z.of_nat (length t)) rest
      end
  end.

Definition abi_tails (l : list abi_value) : bytes := concat (omap abi_tail l).

Definition abi_encode (l : list abi_value) : bytes := abi_heads (32 * Z.of_nat (length l)) l ++ abi_tails l.

(** Values of their type. *)
Definition is_uint256 (z : Z) : Prop := (0 <= z < 256 ^ 32)%Z.
Definition is_address (a : address) : Prop := length a = 20.

Definition abi_ok (v : abi_value) : Prop :=
  match v with
  | AAddresses l => Forall is_address l /\ is_uint256 (Z.of_nat (length l))
  | AUints l => Forall is_uint256 l /\ is_uint256 (Z.of_nat (length l))
  | AUint z => is_uint256 z
  | AString s => is_uint256 (Z.of_nat (length s))
  end.

(** Two values of the same type. *)
Definition same_type (v w : abi_value) : Prop :=
  match v, w with
  | AAddresses _, AAddresses _ | AUints _, AUints _ | AUint _, AUint _ | AString _, AString _ => True
  | _, _ => False
  end.

Lemma abi_uint_length z : length (abi_uint z) = 32.
Proof. apply be_bytes_length. Qed.

Lemma abi_uint_inj a b : is_uint256 a -> is_uint256 b -> abi_uint a = abi_uint b -> a = b.
Proof. apply (be_bytes_inj 32). Qed.

Lemma abi_address_length a : is_address a -> length (abi_address a) = 32.
Proof. unfold is_address, abi_address. intros H. rewrite length_app, length_replicate. lia. Qed.

Lemma abi_address_inj a b : is_address a -> is_address b -> abi_address a = abi_address b -> a = b.
Proof. unfold is_address, abi_address. intros Ha Hb H. rewrite Ha, Hb in H. by apply app_inj_1 in H as [_ H]. Qed.

(** Encoded elements of one word each, followed by anything, determine the list. *)
Lemma concat_words_inj {A} (P : A -> Prop) (enc : A -> bytes) (l1 l2 : list A) (r1 r2 : bytes) :
  (forall a, P a -> length (enc a) = 32) -> (forall a b, P a -> P b -> enc a = enc b -> a = b) ->
  Forall P l1 -> Forall P l2 -> length l1 = length l2 ->
  concat (enc <$> l1) ++ r1 = concat (enc <$> l2) ++ r2 -> l1 = l2 /\ r1 = r2.
Proof.
  intros Hlen Hinj H1. revert l2. induction H1 as [|a l1 Ha _ IH]; intros [|b l2] H2 Hl H; try done.
  apply Forall_cons in H2 as [Hb H2]. cbn in H. rewrite <-!app_assoc in H.
  apply app_inj_1 in H as [He H]; [|by rewrite !Hlen]. apply Hinj in He as ->; [|done..].
  injection Hl as Hl. by destruct (IH l2 H2 Hl H) as [-> ->].
Qed.

(** The contents of a dynamic value can be read off whatever follows them. *)
Lemma abi_tail_prefix v w tv tw r1 r2 :
  same_type v w -> abi_ok v -> abi_ok w -> abi_tail v = Some tv -> abi_tail w = Some tw ->
  tv ++ r1 = tw ++ r2 -> v = w /\ r1 = r2.
Proof.
  destruct v as [l|l| |s], w as [m|m| |t]; cbn [same_type abi_ok abi_tail]; try done; intros _ Hv Hw Ev Ew H;
    apply (inj Some) in Ev as <-; apply (inj Some) in Ew as <-; rewrite <-!app_assoc in H;
    apply app_inj_1 in H as [Hn H]; try by rewrite !abi_uint_length.
  - destruct Hv as [Hl Hv], Hw as [Hm Hw]. apply abi_uint_inj in Hn; [|done..]. apply Nat2Z.inj in Hn.
    eapply concat_words_inj in H as [-> ->]; eauto using abi_address_length, abi_address_inj.
  - destruct Hv as [Hl Hv], Hw as [Hm Hw]. apply abi_uint_inj in Hn; [|done..]. apply Nat2Z.inj in Hn.
    eapply concat_words_inj in H as [-> ->]; eauto using abi_uint_length, abi_uint_inj.
  - apply abi_uint_inj in Hn; [|done..]. apply Nat2Z.inj in Hn. apply app_inj_1 in H as [-> H]; [|done].
    by apply app_inj_1 in H as [_ ->].
Qed.

Lemma abi_tails_inj l m :
  Forall2 same_type l m -> Forall abi_ok l -> Forall abi_ok m -> forall r1 r2,
  abi_tails l ++ r1 = abi_tails m ++ r2 ->
  Forall2 (fun v w => abi_tail v <> None -> v = w) l m /\ r1 = r2.
Proof.
  unfold abi_tails. induction 1 as [|v w l m Hs _ IH]; intros Hl Hm r1 r2 H; [done|].
  apply Forall_cons in Hl as [Hv Hl]. apply Forall_cons in Hm as [Hw Hm]. cbn in H.
  destruct (abi_tail v) as [tv|] eqn:Ev, (abi_tail w) as [tw|] eqn:Ew; try (by destruct v, w).
  - cbn in H. rewrite <-!app_assoc in H. eapply abi_tail_prefix in H as [-> H]; [|done..].
    destruct (IH Hl Hm _ _ H) as [? ->]. split; [|done]. by constructor.
  - destruct (IH Hl Hm _ _ H) as [? ->]. split; [|done]. constructor; [|done]. by rewrite Ev.
Qed.

Lemma abi_heads_length o l : length (abi_heads o l) = 32 * length l.
Proof.
  revert o. induction l as [|v l IH]; intros o; [done|]. cbn [abi_heads length].
  destruct v; cbn [abi_tail abi_static]; rewrite length_app, abi_uint_length, IH; lia.
Qed.

Lemma abi_heads_inj l m :
  Forall2 same_type l m -> Forall abi_ok l -> Forall abi_ok m -> Forall2 (fun v w => abi_tail v <> None -> v = w) l m ->
  forall o, abi_heads o l = abi_heads o m -> l = m.
Proof.
  induction 1 as [|v w l m Hs _ IH]; intros Hl Hm Hd o H; [done|].
  apply Forall_cons in Hl as [Hv Hl]. apply Forall_cons in Hm as [Hw Hm]. apply Forall2_cons in Hd as [Hvw Hd].
  cbn in H. destruct (abi_tail v) as [t|] eqn:Ev.
  - assert (v = w) as -> by (by apply Hvw). rewrite Ev in H. apply app_inj_1 in H as [_ H]; [|done].
    f_equal. by eapply IH.
  - destruct v as [| |a|], w as [| |b|]; try done. cbn in H. apply app_inj_1 in H as [He H]; [|by rewrite !abi_uint_length].
    apply abi_uint_inj in He as ->; [|done..]. f_equal. by eapply IH.
Qed.

(** Values of the same types with the same encoding are the same. *)
Lemma abi_encode_inj l m :
  Forall2 same_type l m -> Forall abi_ok l -> Forall abi_ok m -> abi_encode l = abi_encode m -> l = m.
Proof.
  intros Hs Hl Hm H. unfold abi_encode in H. pose proof (Forall2_length _ _ _ Hs) as Hlen.
  apply app_inj_1 in H as [Hh Ht]; [|by rewrite !abi_heads_length, Hlen].
  rewrite <-(app_nil_r (abi_tails l)), <-(app_nil_r (abi_tails m)) in Ht.
  destruct (abi_tails_inj l m Hs Hl Hm _ _ Ht) as [Hd _]. rewrite Hlen in Hh. by eapply abi_heads_inj.
Qed.
