(* ===== verification/EnumerableSet.v ===== *)
(** * Sets of addresses in storage

    Models [src/sol/contracts/utils/structs/EnumerableSet.sol]: an array of the values and their
    positions plus one, where 0 means absent; removing swaps with the last value.  Proved to
    implement a set. *)
From S2P Require Import Prelude Solidity.

Module EnumerableSet.

Record AddressSet := mkSet {
  _values : list address;
  _indexes : gmap address Z
}.

Definition empty_set : AddressSet := mkSet [] ∅.

Definition index_of (set : AddressSet) (value : address) : Z := default 0%Z (_indexes set !! value).

Definition _contains (set : AddressSet) (value : address) : bool := negb (index_of set value =? 0)%Z.
Definition contains (set : AddressSet) (value : address) : bool := _contains set value.

Definition set_length (set : AddressSet) : Z := Z.of_nat (length (_values set)).

Definition set_at (set : AddressSet) (index : Z) : Sol AddressSet address :=
  require (index <? set_length set)%Z "EnumerableSet: index out of bounds";;
  at_index (_values set) (Z.to_nat index).

Definition add (value : address) : Sol AddressSet bool :=
  known ← view (fun set => _contains set value);
  if negb (known : bool) then
    write (fun set => mkSet (_values set ++ [value]) (_indexes set));;
    write (fun set => mkSet (_values set) (<[value := set_length set]> (_indexes set)));;
    mret true
  else mret false.

(** An assignment to an element of the array. *)
Definition set_index (i : Z) (a : address) : Sol AddressSet unit :=
  n ← view set_length;
  if (i <? n)%Z then write (fun set => mkSet (<[Z.to_nat i := a]> (_values set)) (_indexes set)) else revert index_panic.

Definition remove (value : address) : Sol AddressSet bool :=
  valueIndex ← view (fun set => index_of set value);
  if negb (valueIndex =? 0)%Z then
    toDeleteIndex ← checked 256 (valueIndex - 1);
    n ← view set_length;
    lastIndex ← checked 256 (n - 1);
    values ← view _values;
    lastvalue ← at_index values (Z.to_nat lastIndex);
    set_index toDeleteIndex lastvalue;;
    moved ← checked 256 (toDeleteIndex + 1);
    write (fun set => mkSet (_values set) (<[lastvalue := moved]> (_indexes set)));;
    write (fun set => mkSet (take (length (_values set) - 1) (_values set)) (_indexes set));;
    write (fun set => mkSet (_values set) (delete value (_indexes set)));;
    mret true
  else mret false.

(** ** The set it implements *)

(** A value has a position exactly when it is at that position of the array. *)
Record set_wf (set : AddressSet) : Prop := {
  wf_index a p : _indexes set !! a = Some p -> (0 < p)%Z /\ _values set !! Z.to_nat (p - 1) = Some a;
  wf_value a i : _values set !! i = Some a -> _indexes set !! a = Some (Z.of_nat i + 1)%Z
}.

Lemma empty_wf : set_wf empty_set.
Proof. split; [by intros a p H|by intros a [|i] H]. Qed.

Lemma contains_spec set a : set_wf set -> contains set a = bool_decide (a ∈ _values set).
Proof.
  intros [Hi Hv]. unfold contains, _contains, index_of. destruct (_indexes set !! a) as [p|] eqn:Ha; cbn.
  - destruct (Hi a p Ha) as [Hp Hl]. rewrite bool_decide_true by (by eapply list_elem_of_lookup_2).
    destruct (Z.eqb_spec p 0); [lia|done].
  - rewrite bool_decide_false; [done|]. intros [i Hl]%list_elem_of_lookup. apply Hv in Hl. congruence.
Qed.

Lemma values_NoDup set : set_wf set -> NoDup (_values set).
Proof. intros [_ Hv]. apply NoDup_alt. intros i j a Hl1 Hl2. apply Hv in Hl1. apply Hv in Hl2. rewrite Hl1 in Hl2. injection Hl2. lia. Qed.

Lemma add_spec set a : set_wf set ->
  exists set', add a set = Done (bool_decide (a ∉ _values set)) set' /\ set_wf set' /\
    _values set' = if bool_decide (a ∈ _values set) then _values set else _values set ++ [a].
Proof.
  intros Hwf. pose proof (contains_spec set a Hwf) as Hc. unfold contains in Hc.
  unfold add, mbind, Sol_bind, view, write. rewrite Hc.
  destruct (decide (a ∈ _values set)) as [Hin|Hin].
  - rewrite bool_decide_true, bool_decide_false by naive_solver. by exists set.
  - rewrite bool_decide_false, bool_decide_true by done. cbn. eexists. split; [done|]. split; [|done].
    destruct Hwf as [Hi Hv]. unfold set_length. cbn. rewrite length_app. cbn. split; cbn.
    + intros b p. destruct (decide (b = a)) as [->|Hne].
      * rewrite lookup_insert_eq. intros [= <-]. split; [lia|].
        replace (Z.to_nat (Z.of_nat (length (_values set) + 1) - 1)) with (length (_values set)) by lia.
        by rewrite lookup_app_r, Nat.sub_diag by lia.
      * rewrite lookup_insert_ne by done. intros [Hp Hl]%Hi. split; [done|]. by apply lookup_app_l_Some.
    + intros b i [Hl|[Hlen Hl]]%lookup_app_Some.
      * rewrite lookup_insert_ne; [by apply Hv|]. intros ->. apply Hin. by eapply list_elem_of_lookup_2.
      * apply list_lookup_singleton_Some in Hl as [Hi0 ->]. rewrite lookup_insert_eq. f_equal. lia.
Qed.

(** The array after the swap and the pop. *)
Lemma swap_pop_lookup (l : list address) k z i b :
  k < length l -> take (length l - 1) (<[k := z]> l) !! i = Some b <->
    (i < length l - 1 /\ if decide (i = k) then b = z else l !! i = Some b).
Proof.
  intros Hk. rewrite lookup_take_Some, list_lookup_insert_Some. split.
  - intros [[(-> & -> & _)|[Hne Hl]] Hlt]; split; try done; destruct (decide _); try done; congruence.
  - intros [Hlt Hb]. split; [|done]. destruct (decide (i = k)) as [->|Hne]; [left|right]; auto.
Qed.

Definition removed (set : AddressSet) (k : nat) (a z : address) : AddressSet :=
  mkSet (take (length (_values set) - 1) (<[k := z]> (_values set)))
    (delete a (<[z := (Z.of_nat k + 1)%Z]> (_indexes set))).

Lemma removed_wf set k a z :
  set_wf set -> _values set !! k = Some a -> _values set !! (length (_values set) - 1) = Some z ->
  set_wf (removed set k a z) /\ forall b, b ∈ _values (removed set k a z) <-> b ∈ _values set /\ b <> a.
Proof.
  intros [Hi Hv] Hk Hz. pose proof (lookup_lt_Some _ _ _ Hk) as Hlt.
  pose proof (Hv _ _ Hk) as Ha. pose proof (Hv _ _ Hz) as Hzi.
  assert (Hlook : forall i b, _values (removed set k a z) !! i = Some b -> b <> a /\ _values set !! (Z.to_nat (default 0%Z (_indexes set !! b)) - 1) = Some b /\
      _indexes (removed set k a z) !! b = Some (Z.of_nat i + 1)%Z).
  { intros i b. cbn. rewrite swap_pop_lookup by done. intros [Hil Hb]. destruct (decide (i = k)) as [->|Hne].
    - subst b. assert (z <> a) as Hza by (intros ->; rewrite Hzi in Ha; injection Ha; lia).
      split; [done|]. rewrite Hzi. cbn. split; [by replace (Z.to_nat _ - 1) with (length (_values set) - 1) by lia|].
      by rewrite lookup_delete_ne, lookup_insert_eq by done.
    - pose proof (Hv _ _ Hb) as Hbi. assert (b <> a) as Hba by (intros ->; rewrite Hbi in Ha; injection Ha; lia).
      assert (b <> z) as Hbz by (intros ->; rewrite Hbi in Hzi; injection Hzi; lia).
      split; [done|]. rewrite Hbi. cbn. split; [by replace (Z.to_nat _ - 1) with i by lia|].
      by rewrite lookup_delete_ne, lookup_insert_ne by done. }
  assert (Hback : forall b p, _indexes (removed set k a z) !! b = Some p -> (0 < p)%Z /\ _values (removed set k a z) !! Z.to_nat (p - 1) = Some b).
  { intros b p. cbn. rewrite lookup_delete_Some, lookup_insert_Some. intros [Hab [[-> <-]|[Hzb Hb]]].
    - split; [lia|]. apply swap_pop_lookup; [done|]. replace (Z.to_nat _) with k by lia. rewrite decide_True by done. split; [|done].
      destruct (decide (k = length (_values set) - 1)) as [->|]; [congruence|lia].
    - destruct (Hi _ _ Hb) as [Hp Hl]. split; [done|]. apply swap_pop_lookup; [done|].
      pose proof (lookup_lt_Some _ _ _ Hl). split; [|rewrite decide_False; [done|intros E; rewrite E in Hl; congruence]].
      destruct (decide (Z.to_nat (p - 1) = length (_values set) - 1)) as [E|]; [rewrite E in Hl; congruence|lia]. }
  split; [split; [exact Hback|intros b i H; by apply Hlook in H as (_ & _ & H)]|]. intros b. split.
  - intros [i H]%list_elem_of_lookup. apply Hlook in H as (Hne & H & _). split; [|done]. by eapply list_elem_of_lookup_2.
  - intros [[i H]%list_elem_of_lookup Hne]. pose proof (Hv _ _ H) as Hb.
    destruct (decide (b = z)) as [->|Hbz].
    + destruct (Hback z (Z.of_nat k + 1)%Z) as [_ Hl]; [by cbn; rewrite lookup_delete_ne, lookup_insert_eq|]. by eapply list_elem_of_lookup_2.
    + destruct (Hback b (Z.of_nat i + 1)%Z) as [_ Hl]; [|by eapply list_elem_of_lookup_2]. cbn. by rewrite lookup_delete_ne, lookup_insert_ne.
Qed.

Lemma remove_spec set a : set_wf set -> (set_length set < 2 ^ 256)%Z ->
  exists set', remove a set = Done (bool_decide (a ∈ _values set)) set' /\ set_wf set' /\
    forall b, b ∈ _values set' <-> b ∈ _values set /\ b <> a.
Proof.
  intros Hwf Hlen. pose proof (contains_spec set a Hwf) as Hc. unfold contains, _contains in Hc.
  unfold remove, mbind at 1, Sol_bind at 1, view at 1. rewrite Hc.
  destruct (decide (a ∈ _values set)) as [Hin|Hin]; [|rewrite bool_decide_false by done; exists set; naive_solver].
  rewrite bool_decide_true by done. apply list_elem_of_lookup in Hin as [k Hk]. pose proof (lookup_lt_Some _ _ _ Hk) as Hlt.
  unfold index_of. rewrite (wf_value _ Hwf _ _ Hk). cbn [default from_option]. unfold id.
  destruct (lookup_lt_is_Some_2 (_values set) (length (_values set) - 1)) as [z Hz]; [lia|].
  exists (removed set k a z). split; [|by apply removed_wf]. unfold set_length in Hlen.
  unfold set_index, set_length. unfold mbind, Sol_bind, view, at_index, write.
  rewrite !checked_ok by lia. cbv beta iota. replace (Z.to_nat (Z.of_nat (length (_values set)) - 1)) with (length (_values set) - 1) by lia.
  rewrite Hz. cbv beta iota delta [mret Sol_ret].
  rewrite (proj2 (Z.ltb_lt _ _)) by lia. cbv beta iota. rewrite checked_ok by lia. cbn [_values _indexes].
  rewrite length_insert. unfold removed. replace (Z.to_nat (Z.of_nat k + 1 - 1)) with k by lia.
  by replace (Z.of_nat k + 1 - 1 + 1)%Z with (Z.of_nat k + 1)%Z by lia.
Qed.

(** A removal that did not revert. *)
Lemma remove_keeps_wf set a r set' : set_wf set -> remove a set = Done r set' ->
  set_wf set' /\ forall b, b ∈ _values set' -> b ∈ _values set.
Proof.
  intros Hwf H. unfold remove, set_index in H. sol_inv H; [|done]. cbn [_values _indexes].
  apply negb_true_iff, Z.eqb_neq in Hif. unfold index_of in *.
  destruct (_indexes set !! a) as [p|] eqn:Ha; [|done]. cbn [default from_option] in *. unfold id in *.
  destruct (wf_index _ Hwf _ _ Ha) as [Hp Hl]. rewrite length_insert.
  destruct (removed_wf set (Z.to_nat (p - 1)) a a0 Hwf Hl) as [Hw Hv].
  { unfold set_length in Hidx. by replace (Z.to_nat (Z.of_nat (length (_values set)) - 1)) with (length (_values set) - 1) in Hidx by lia. }
  unfold removed in Hw, Hv. replace (Z.of_nat (Z.to_nat (p - 1)) + 1)%Z with (p - 1 + 1)%Z in Hw by lia.
  split; [exact Hw|]. intros b Hb. by apply (Hv b).
Qed.

(** ** Any sequence of operations *)

Inductive set_op := Add (a : address) | Remove (a : address).

Definition run_op (op : set_op) : Sol AddressSet bool := match op with Add a => add a | Remove a => remove a end.

Fixpoint run_ops (ops : list set_op) : Sol AddressSet (list bool) :=
  match ops with
  | [] => mret []
  | op :: rest => r ← run_op op; rs ← run_ops rest; mret (r :: rs)
  end.

(** The same on a mathematical set. *)
Definition set_run_op (op : set_op) (X : gset address) : bool * gset address :=
  match op with
  | Add a => (bool_decide (a ∉ X), {[a]} ∪ X)
  | Remove a => (bool_decide (a ∈ X), X ∖ {[a]})
  end.

Fixpoint set_run_ops (ops : list set_op) (X : gset address) : list bool * gset address :=
  match ops with
  | [] => ([], X)
  | op :: rest =>
      let '(r, X1) := set_run_op op X in
      let '(rs, X2) := set_run_ops rest X1 in (r :: rs, X2)
  end.

Definition represents (set : AddressSet) (X : gset address) : Prop := set_wf set /\ forall a, a ∈ _values set <-> a ∈ X.

Lemma run_op_refines op set X : represents set X -> (set_length set < 2 ^ 256)%Z ->
  exists set', run_op op set = Done (set_run_op op X).1 set' /\ represents set' (set_run_op op X).2 /\
    (set_length set' <= set_length set + 1)%Z.
Proof.
  intros [Hwf HX] Hlen. destruct op as [a|a]; cbn [run_op set_run_op fst snd].
  - destruct (add_spec set a Hwf) as (set' & Hr & Hwf' & Hv). exists set'. rewrite Hr.
    split; [f_equal; apply bool_decide_ext; by rewrite HX|]. unfold set_length. rewrite Hv. split; [split; [done|]|].
    + intros b. rewrite elem_of_union, elem_of_singleton, <-HX, Hv. case_bool_decide as Ha.
      * split; [by right|]. by intros [->|H].
      * rewrite elem_of_app, list_elem_of_singleton. clear -b. tauto.
    + case_bool_decide; rewrite ?length_app; cbn; lia.
  - destruct (remove_spec set a Hwf Hlen) as (set' & Hr & Hwf' & Hv). exists set'. rewrite Hr.
    split; [f_equal; apply bool_decide_ext; by rewrite HX|]. split; [split; [done|]; intros b; rewrite Hv, HX, elem_of_difference, elem_of_singleton; done|].
    unfold set_length. pose proof (values_NoDup _ Hwf') as Hnd.
    enough (length (_values set') <= length (_values set)) by lia.
    apply submseteq_length, NoDup_submseteq; [done|]. intros b Hb. by apply Hv.
Qed.

Lemma run_ops_refines ops set X : represents set X -> (set_length set + Z.of_nat (length ops) < 2 ^ 256)%Z ->
  exists set', run_ops ops set = Done (set_run_ops ops X).1 set' /\ represents set' (set_run_ops ops X).2.
Proof.
  revert set X. induction ops as [|op ops IH]; intros set X Hr Hlen; [by exists set|]. cbn [length] in Hlen.
  destruct (run_op_refines op set X Hr) as (set1 & H1 & Hr1 & Hl1); [lia|].
  destruct (IH set1 _ Hr1) as (set2 & H2 & Hr2); [lia|]. exists set2.
  cbn [run_ops set_run_ops]. destruct (set_run_op op X) as [r X1]. cbn [fst snd] in *.
  destruct (set_run_ops ops X1) as [rs X2]. cbn [fst snd] in *.
  split; [|done]. unfold mbind, Sol_bind. by rewrite H1, H2.
Qed.

(** The array with positions implements a set: after any sequence of additions and removals
    nothing reverted, every operation reported what it would report on a mathematical set,
    membership is that of the set, and the enumeration lists every member exactly once. *)
Theorem address_set_refines ops :
  (Z.of_nat (length ops) < 2 ^ 256)%Z ->
  exists set, run_ops ops empty_set = Done (set_run_ops ops ∅).1 set /\
    (forall a, contains set a = bool_decide (a ∈ (set_run_ops ops ∅).2)) /\
    _values set ≡ₚ elements (set_run_ops ops ∅).2.
Proof.
  intros Hlen. destruct (run_ops_refines ops empty_set ∅) as (set & Hr & Hwf & Hv); [split; [apply empty_wf|set_solver]|done|].
  exists set. split; [done|]. split.
  - intros a. rewrite contains_spec by done. apply bool_decide_ext, Hv.
  - apply NoDup_Permutation; [by apply values_NoDup|apply NoDup_elements|]. intros a. by rewrite Hv, elem_of_elements.
Qed.

Lemma address_set_refines_witness :
  exists set, run_ops [Add [Byte.x01]; Add [Byte.x02]; Add [Byte.x03]; Remove [Byte.x01]; Add [Byte.x02]] empty_set =
    Done [true; true; true; true; false] set /\ contains set [Byte.x01] = false /\ _values set = [[Byte.x03]; [Byte.x02]].
Proof.
  destruct (address_set_refines [Add [Byte.x01]; Add [Byte.x02]; Add [Byte.x03]; Remove [Byte.x01]; Add [Byte.x02]])
    as (set & Hr & Hc & _); [done|].
  exists set. split; [by rewrite Hr|]. split; [by rewrite Hc|].
  enough (match run_ops [Add [Byte.x01]; Add [Byte.x02]; Add [Byte.x03]; Remove [Byte.x01]; Add [Byte.x02]] empty_set with
    Done _ s => _values s | Revert _ => [] end = [[Byte.x03]; [Byte.x02]]) as H by (by rewrite Hr in H).
  by vm_compute.
Defined.

End EnumerableSet.
