(* ===== verification/EthSafe.v ===== *)
(** * The safe of deposits on Ethereum

    Models [src/sol/contracts/ERC20Safe.sol] with the access control it inherits
    ([access/AdminRole.sol], [access/BridgeRole.sol], [lib/Pausable.sol]) and
    [lib/BoolTokenTransfer.sol].  The ERC20 tokens and OpenZeppelin's SafeERC20 are the operations
    of [erc20] over a world [W]: token contracts do not call back into the bridge.  Events are
    left out. *)
From S2P Require Import Prelude Solidity.

Module Access.

Record access := mkAccess { _admin : address; _paused : bool }.

(** Deployed by [sender]; the constructor of [Pausable] pauses. *)
Definition deployed (sender : address) : access := mkAccess sender true.

Definition admin (a : access) : address := _admin a.
Definition paused (a : access) : bool := _paused a.

Definition onlyAdmin (m : msg) : Sol access unit :=
  a ← view admin; require (bool_decide (a = msg_sender m)) "Access Control: sender is not Admin".

Definition whenNotPaused : Sol access unit := p ← view paused; require (negb p) "Pausable: paused".
Definition whenPaused : Sol access unit := p ← view paused; require p "Pausable: not paused".

Definition renounceAdmin (m : msg) : Sol access unit :=
  onlyAdmin m;; write (fun a => mkAccess zero_address (_paused a)).

Definition transferAdmin (m : msg) (newAdmin : address) : Sol access unit :=
  onlyAdmin m;;
  require (negb (bool_decide (newAdmin = zero_address))) "AdminRole: new admin is the zero address";;
  write (fun a => mkAccess newAdmin (_paused a)).

Definition pause (m : msg) : Sol access unit := onlyAdmin m;; write (fun a => mkAccess (_admin a) true).
Definition unpause (m : msg) : Sol access unit := onlyAdmin m;; write (fun a => mkAccess (_admin a) false).

End Access.

Module Safe.
Import Access.

(** ** Data ([SharedStructs.sol]) *)

Inductive DepositStatus := StNone | StPending | StInProgress | StExecuted | StRejected.

(** The number an enumeration value is passed as. *)
Definition status_number (s : DepositStatus) : Z :=
  match s with StNone => 0 | StPending => 1 | StInProgress => 2 | StExecuted => 3 | StRejected => 4 end.

Record Deposit := mkDeposit {
  d_nonce : Z;
  d_tokenAddress : address;
  d_amount : Z;
  d_depositor : address;
  d_recipient : bytes;
  d_status : DepositStatus
}.

Record Batch := mkBatch {
  b_nonce : Z;
  b_blockNumber : Z;
  b_lastUpdatedBlockNumber : Z;
  b_depositsCount : Z
}.

Definition no_batch : Batch := mkBatch 0 0 0 0.

(** ** The tokens *)

(** [call_transfer] is the low-level call of [transfer]: [None] when it failed, otherwise what it
    returned; the SafeERC20 functions revert on failure. *)
Record erc20 (W : Type) := {
  call_transfer : address -> address -> address -> Z -> W -> option bytes * W;
  safeTransferFrom : address -> address -> address -> address -> Z -> Sol W unit;
  safeTransfer : address -> address -> address -> Z -> Sol W unit;
  balanceOf : address -> address -> Sol W Z;
  decimals : address -> Sol W Z;
  isContract : address -> W -> bool
}.
Arguments call_transfer {W} _ _ _ _ _ _.
Arguments safeTransferFrom {W} _ _ _ _ _ _ _.
Arguments safeTransfer {W} _ _ _ _ _ _.
Arguments balanceOf {W} _ _ _ _.
Arguments decimals {W} _ _ _.
Arguments isContract {W} _ _ _.

(** [abi.decode(returndata, (bool))]. *)
Definition abi_decode_bool {S} (returndata : bytes) : Sol S bool :=
  if (length returndata <? 32)%nat then revert "abi.decode"
  else
    let v := be_val (take 32 returndata) in
    if (v =? 0)%Z then mret false else if (v =? 1)%Z then mret true else revert "abi.decode".

(** ** Storage *)

Record limits := mkLimits {
  batchSize : Z;
  serviceFeePercentage : Z;
  maxServiceFee : Z;
  batchBlockLimit : Z;
  batchSettleLimit : Z;
  serviceFeeReceiver : address
}.

Record ledger := mkLedger {
  batchesCount : Z;
  depositsCount : Z;
  batches : gmap Z Batch;
  batchDeposits : gmap Z (list Deposit)
}.

Record accounts := mkAccounts {
  serviceFees : Z;
  whitelistedTokens : gset address;
  tokenMinLimits : gmap address Z;
  tokenMaxLimits : gmap address Z;
  tokenBalances : gmap address Z
}.

Record safe (W : Type) := mkSafe {
  s_access : access;
  _bridge : address;
  s_limits : limits;
  s_ledger : ledger;
  s_accounts : accounts;
  s_tokens : W
}.
Arguments mkSafe {W} _ _ _ _ _ _.
Arguments s_access {W} _.
Arguments _bridge {W} _.
Arguments s_limits {W} _.
Arguments s_ledger {W} _.
Arguments s_accounts {W} _.
Arguments s_tokens {W} _.

Definition maxBatchSize : Z := 100.
Definition fullPercent : Z := 10000.

(** The storage after deployment. *)
Definition new_safe {W} (sender : address) (w : W) : safe W :=
  mkSafe (deployed sender) zero_address (mkLimits 10 50 2500 40 40 zero_address) (mkLedger 0 0 ∅ ∅) (mkAccounts 0 ∅ ∅ ∅ ∅) w.

Definition value_at {K} `{Countable K} (m : gmap K Z) (k : K) : Z := default 0%Z (m !! k).
Definition batch_at (l : ledger) (i : Z) : Batch := default no_batch (batches l !! i).
Definition deposits_at (l : ledger) (i : Z) : list Deposit := default [] (batchDeposits l !! i).

Section Contract.
Context {W : Type} (T : erc20 W) (self : address).

Abbreviation S := (Sol (safe W)).

Definition on_access {A} (c : Sol access A) : S A :=
  at_part s_access (fun a s => mkSafe a (_bridge s) (s_limits s) (s_ledger s) (s_accounts s) (s_tokens s)) c.
Definition on_tokens {A} (c : Sol W A) : S A :=
  at_part s_tokens (fun w s => mkSafe (s_access s) (_bridge s) (s_limits s) (s_ledger s) (s_accounts s) w) c.
Definition set_limits (f : limits -> limits) : S unit :=
  write (fun s => mkSafe (s_access s) (_bridge s) (f (s_limits s)) (s_ledger s) (s_accounts s) (s_tokens s)).
Definition set_ledger (f : ledger -> ledger) : S unit :=
  write (fun s => mkSafe (s_access s) (_bridge s) (s_limits s) (f (s_ledger s)) (s_accounts s) (s_tokens s)).
Definition set_accounts (f : accounts -> accounts) : S unit :=
  write (fun s => mkSafe (s_access s) (_bridge s) (s_limits s) (s_ledger s) (f (s_accounts s)) (s_tokens s)).

(** ** Roles *)

Definition bridge (s : safe W) : address := _bridge s.

Definition onlyBridge (m : msg) : S unit :=
  b ← view bridge; require (bool_decide (b = msg_sender m)) "Access Control: sender is not Bridge".

Definition setBridge (m : msg) (newBridge : address) : S unit :=
  on_access (onlyAdmin m);;
  require (negb (bool_decide (newBridge = zero_address))) "BridgeRole: new bridge is the zero address";;
  b ← view bridge;
  require (negb (bool_decide (newBridge = b))) "BridgeRole: same address";;
  code ← view (fun s => isContract T newBridge (s_tokens s));
  require code "BridgeRole: new bridge must be a contract";;
  write (fun s => mkSafe (s_access s) newBridge (s_limits s) (s_ledger s) (s_accounts s) (s_tokens s)).

(** ** Settings *)

Definition with_whitelist (f : gset address -> gset address) (a : accounts) : accounts :=
  mkAccounts (serviceFees a) (f (whitelistedTokens a)) (tokenMinLimits a) (tokenMaxLimits a) (tokenBalances a).
Definition with_min (f : gmap address Z -> gmap address Z) (a : accounts) : accounts :=
  mkAccounts (serviceFees a) (whitelistedTokens a) (f (tokenMinLimits a)) (tokenMaxLimits a) (tokenBalances a).
Definition with_max (f : gmap address Z -> gmap address Z) (a : accounts) : accounts :=
  mkAccounts (serviceFees a) (whitelistedTokens a) (tokenMinLimits a) (f (tokenMaxLimits a)) (tokenBalances a).
Definition with_balances (f : gmap address Z -> gmap address Z) (a : accounts) : accounts :=
  mkAccounts (serviceFees a) (whitelistedTokens a) (tokenMinLimits a) (tokenMaxLimits a) (f (tokenBalances a)).
Definition with_fees (z : Z) (a : accounts) : accounts :=
  mkAccounts z (whitelistedTokens a) (tokenMinLimits a) (tokenMaxLimits a) (tokenBalances a).

Definition whitelistToken (m : msg) (token : address) (minimumAmount maximumAmount : Z) : S unit :=
  on_access (onlyAdmin m);;
  set_accounts (with_whitelist (union {[token]}));;
  set_accounts (with_min (insert token minimumAmount));;
  set_accounts (with_max (insert token maximumAmount)).

Definition removeTokenFromWhitelist (m : msg) (token : address) : S unit :=
  on_access (onlyAdmin m);; set_accounts (with_whitelist (fun l => l ∖ {[token]})).

Definition isTokenWhitelisted (token : address) (s : safe W) : bool := bool_decide (token ∈ whitelistedTokens (s_accounts s)).

Definition setTokenMinLimit (m : msg) (token : address) (amount : Z) : S unit :=
  on_access (onlyAdmin m);; set_accounts (with_min (insert token amount)).
Definition getTokenMinLimit (token : address) (s : safe W) : Z := value_at (tokenMinLimits (s_accounts s)) token.
Definition setTokenMaxLimit (m : msg) (token : address) (amount : Z) : S unit :=
  on_access (onlyAdmin m);; set_accounts (with_max (insert token amount)).
Definition getTokenMaxLimit (token : address) (s : safe W) : Z := value_at (tokenMaxLimits (s_accounts s)) token.

Definition setBatchBlockLimit (m : msg) (newBatchBlockLimit : Z) : S unit :=
  on_access (onlyAdmin m);;
  settle ← view (fun s => batchSettleLimit (s_limits s));
  require (newBatchBlockLimit <=? settle)%Z "Cannot increase batch block limit over settlement limit";;
  set_limits (fun l => mkLimits (batchSize l) (serviceFeePercentage l) (maxServiceFee l) newBatchBlockLimit (batchSettleLimit l) (serviceFeeReceiver l)).

Definition setServiceFeePercentage (m : msg) (newServiceFeePercentage : Z) : S unit :=
  on_access (onlyAdmin m);;
  require (newServiceFeePercentage <=? fullPercent)%Z "Cannot set service fee percentage higher than full percent";;
  set_limits (fun l => mkLimits (batchSize l) newServiceFeePercentage (maxServiceFee l) (batchBlockLimit l) (batchSettleLimit l) (serviceFeeReceiver l)).

Definition setMaxServiceFee (m : msg) (newMaxServiceFee : Z) : S unit :=
  on_access (onlyAdmin m);;
  set_limits (fun l => mkLimits (batchSize l) (serviceFeePercentage l) newMaxServiceFee (batchBlockLimit l) (batchSettleLimit l) (serviceFeeReceiver l)).

Definition setServiceFeeReceiver (m : msg) (newServiceFeeReceiver : address) : S unit :=
  on_access (onlyAdmin m);;
  set_limits (fun l => mkLimits (batchSize l) (serviceFeePercentage l) (maxServiceFee l) (batchBlockLimit l) (batchSettleLimit l) newServiceFeeReceiver).

Definition setBatchSize (m : msg) (newBatchSize : Z) : S unit :=
  on_access (onlyAdmin m);;
  require (newBatchSize <=? maxBatchSize)%Z "Batch size too high";;
  set_limits (fun l => mkLimits newBatchSize (serviceFeePercentage l) (maxServiceFee l) (batchBlockLimit l) (batchSettleLimit l) (serviceFeeReceiver l)).

(** ** Batches *)

Definition _isBatchFinal (m : msg) (batch : Batch) : S bool :=
  settle ← view (fun s => batchSettleLimit (s_limits s));
  t ← checked 64 (b_lastUpdatedBlockNumber batch + settle);
  mret (t <? block_number m)%Z.

Definition _isBatchProgessOver (m : msg) (depCount blockNumber : Z) : S bool :=
  if (depCount =? 0)%Z then mret false
  else
    limit ← view (fun s => batchBlockLimit (s_limits s));
    t ← checked 64 (blockNumber + limit);
    mret (t <? block_number m)%Z.

Definition _shouldCreateNewBatch (m : msg) : S bool :=
  n ← view (fun s => batchesCount (s_ledger s));
  if (n =? 0)%Z then mret true
  else
    i ← checked 64 (n - 1);
    batch ← view (fun s => batch_at (s_ledger s) i);
    over ← _isBatchProgessOver m (b_depositsCount batch) (b_blockNumber batch);
    if (over : bool) then mret true
    else size ← view (fun s => batchSize (s_limits s)); mret (size <=? b_depositsCount batch)%Z.

Definition isAnyBatchInProgress (m : msg) : S bool :=
  n ← view (fun s => batchesCount (s_ledger s));
  if (n =? 0)%Z then mret false
  else
    i ← checked 64 (n - 1);
    lastBatch ← view (fun s => batch_at (s_ledger s) i);
    fresh ← _shouldCreateNewBatch m;
    if negb (fresh : bool) then mret true
    else
      final ← _isBatchFinal m lastBatch;
      if negb (final : bool) then mret true else mret false.

Definition setBatchSettleLimit (m : msg) (newBatchSettleLimit : Z) : S unit :=
  on_access (onlyAdmin m);;
  on_access whenPaused;;
  busy ← isAnyBatchInProgress m;
  require (negb busy) "Cannot change batchSettleLimit with pending batches";;
  block ← view (fun s => batchBlockLimit (s_limits s));
  require (block <=? newBatchSettleLimit)%Z "Cannot decrease batchSettleLimit under the value of batch block limit";;
  set_limits (fun l => mkLimits (batchSize l) (serviceFeePercentage l) (maxServiceFee l) (batchBlockLimit l) newBatchSettleLimit (serviceFeeReceiver l)).

Definition getBatch (m : msg) (batchNonce : Z) : S Batch :=
  i ← checked 256 (batchNonce - 1);
  batch ← view (fun s => batch_at (s_ledger s) i);
  final ← _isBatchFinal m batch;
  if (final : bool) then mret batch else mret no_batch.

Definition getDeposits (m : msg) (batchNonce : Z) : S (list Deposit) :=
  i ← checked 256 (batchNonce - 1);
  batch ← view (fun s => batch_at (s_ledger s) i);
  final ← _isBatchFinal m batch;
  if (final : bool) then view (fun s => deposits_at (s_ledger s) i)
  else view (fun s => deposits_at (s_ledger s) (2 ^ 256 - 1)).

(** ** Deposits *)

Definition put_batch (i : Z) (f : Batch -> Batch) (l : ledger) : ledger :=
  mkLedger (batchesCount l) (depositsCount l) (<[i := f (batch_at l i)]> (batches l)) (batchDeposits l).
Definition push_deposit (i : Z) (d : Deposit) (l : ledger) : ledger :=
  mkLedger (batchesCount l) (depositsCount l) (batches l) (<[i := deposits_at l i ++ [d]]> (batchDeposits l)).
Definition put_counts (batches' deposits' : Z) (l : ledger) : ledger :=
  mkLedger batches' deposits' (batches l) (batchDeposits l).

Definition _deductServiceFee (tokenAddress : address) (amount : Z) : S Z :=
  dec ← on_tokens (decimals T tokenAddress);
  max ← view (fun s => maxServiceFee (s_limits s));
  unit_ ← checked 256 (10 ^ dec);
  fullMaxServiceFee ← checked 256 (max * unit_);
  percentage ← view (fun s => serviceFeePercentage (s_limits s));
  product ← checked 256 (amount * percentage);
  let serviceFee := (product `div` fullPercent)%Z in
  let serviceFee := if (fullMaxServiceFee <? serviceFee)%Z then fullMaxServiceFee else serviceFee in
  fees ← view (fun s => serviceFees (s_accounts s));
  fees' ← checked 256 (fees + serviceFee);
  set_accounts (with_fees fees');;
  checked 256 (amount - serviceFee).

(** The batch a new deposit goes into: a new one, or the last one. *)
Definition current_batch (m : msg) (currentBlockNumber : Z) : S Z :=
  fresh ← _shouldCreateNewBatch m;
  if (fresh : bool) then
    n ← view (fun s => batchesCount (s_ledger s));
    nonce ← checked 64 (n + 1);
    set_ledger (put_batch n (fun b => mkBatch nonce (b_blockNumber b) (b_lastUpdatedBlockNumber b) (b_depositsCount b)));;
    set_ledger (put_batch n (fun b => mkBatch (b_nonce b) currentBlockNumber (b_lastUpdatedBlockNumber b) (b_depositsCount b)));;
    n' ← checked 64 (n + 1);
    set_ledger (fun l => put_counts n' (depositsCount l) l);;
    mret n
  else
    n ← view (fun s => batchesCount (s_ledger s));
    checked 64 (n - 1).

(** The deposit is appended to its batch, which is updated, and counted. *)
Definition record_deposit (i batch currentBlockNumber : Z) (dep : Deposit) : S unit :=
  set_ledger (push_deposit i dep);;
  set_ledger (put_batch batch (fun b => mkBatch (b_nonce b) (b_blockNumber b) currentBlockNumber (b_depositsCount b)));;
  b ← view (fun s => batch_at (s_ledger s) batch);
  count ← checked 16 (b_depositsCount b + 1);
  set_ledger (put_batch batch (fun b => mkBatch (b_nonce b) (b_blockNumber b) (b_lastUpdatedBlockNumber b) count));;
  d ← view (fun s => depositsCount (s_ledger s));
  d' ← checked 64 (d + 1);
  set_ledger (fun l => put_counts (batchesCount l) d' l).

(** The tokens received are accounted for. *)
Definition increase_balance (tokenAddress : address) (amount : Z) : S unit :=
  balance ← view (fun s => value_at (tokenBalances (s_accounts s)) tokenAddress);
  balance' ← checked 256 (balance + amount);
  set_accounts (with_balances (insert tokenAddress balance')).

Definition deposit (m : msg) (tokenAddress : address) (amount : Z) (recipientAddress : bytes) : S unit :=
  on_access whenNotPaused;;
  known ← view (isTokenWhitelisted tokenAddress);
  require known "Unsupported token";;
  min ← view (getTokenMinLimit tokenAddress);
  require (min <=? amount)%Z "Tried to deposit an amount below the minimum specified limit";;
  max ← view (getTokenMaxLimit tokenAddress);
  require (amount <=? max)%Z "Tried to deposit an amount above the maximum specified limit";;
  let currentBlockNumber := truncate 64 (block_number m) in
  batch ← current_batch m currentBlockNumber;
  d ← view (fun s => depositsCount (s_ledger s));
  depositNonce ← checked 64 (d + 1);
  amountWithFees ← _deductServiceFee tokenAddress amount;
  n ← view (fun s => batchesCount (s_ledger s));
  i ← checked 64 (n - 1);
  record_deposit i batch currentBlockNumber
    (mkDeposit depositNonce tokenAddress amountWithFees (msg_sender m) recipientAddress StPending);;
  increase_balance tokenAddress amountWithFees;;
  on_tokens (safeTransferFrom T tokenAddress self (msg_sender m) self amount).

Definition initSupply (m : msg) (tokenAddress : address) (amount : Z) : S unit :=
  on_access (onlyAdmin m);;
  known ← view (isTokenWhitelisted tokenAddress);
  require known "Unsupported token";;
  increase_balance tokenAddress amount;;
  on_tokens (safeTransferFrom T tokenAddress self (msg_sender m) self amount).

(** ** Payments *)

Definition boolTransfer (token to : address) (value : Z) : S bool :=
  r ← on_tokens (fun w => let '(r, w') := call_transfer T token self to value w in Done r w');
  match r with
  | None => mret false
  | Some returndata => if (length returndata =? 0)%nat then mret true else abi_decode_bool returndata
  end.

Definition transfer (m : msg) (tokenAddress : address) (amount : Z) (recipientAddress : address) : S bool :=
  onlyBridge m;;
  transferExecuted ← boolTransfer tokenAddress recipientAddress amount;
  (if (transferExecuted : bool) then
     balance ← view (fun s => value_at (tokenBalances (s_accounts s)) tokenAddress);
     balance' ← checked 256 (balance - amount);
     set_accounts (with_balances (insert tokenAddress balance'))
   else mret tt);;
  mret transferExecuted.

Definition recoverLostFunds (m : msg) (tokenAddress : address) : S unit :=
  on_access (onlyAdmin m);;
  mainBalance ← on_tokens (balanceOf T tokenAddress self);
  known ← view (isTokenWhitelisted tokenAddress);
  availableForRecovery ←
    (if (known : bool) then
       balance ← view (fun s => value_at (tokenBalances (s_accounts s)) tokenAddress);
       checked 256 (mainBalance - balance)
     else mret mainBalance);
  on_tokens (safeTransfer T tokenAddress self (msg_sender m) availableForRecovery).

Definition claimServiceFees (tokenAddress : address) : S unit :=
  known ← view (isTokenWhitelisted tokenAddress);
  require known "Unsupported token";;
  tokensToTransfer ← view (fun s => serviceFees (s_accounts s));
  set_accounts (with_fees 0);;
  receiver ← view (fun s => serviceFeeReceiver (s_limits s));
  on_tokens (safeTransfer T tokenAddress self receiver tokensToTransfer).

(** ** Transactions *)

(** The calls that change the storage, with their arguments; integers fit their types. *)
Inductive call :=
  | RenounceAdmin
  | TransferAdmin (newAdmin : address)
  | Pause
  | Unpause
  | SetBridge (newBridge : address)
  | WhitelistToken (token : address) (minimumAmount maximumAmount : Z)
  | RemoveTokenFromWhitelist (token : address)
  | SetBatchBlockLimit (newBatchBlockLimit : Z)
  | SetServiceFeePercentage (newServiceFeePercentage : Z)
  | SetMaxServiceFee (newMaxServiceFee : Z)
  | SetServiceFeeReceiver (newServiceFeeReceiver : address)
  | SetBatchSettleLimit (newBatchSettleLimit : Z)
  | SetBatchSize (newBatchSize : Z)
  | SetTokenMinLimit (token : address) (amount : Z)
  | SetTokenMaxLimit (token : address) (amount : Z)
  | MakeDeposit (tokenAddress : address) (amount : Z) (recipientAddress : bytes)
  | InitSupply (tokenAddress : address) (amount : Z)
  | Transfer (tokenAddress : address) (amount : Z) (recipientAddress : address)
  | RecoverLostFunds (tokenAddress : address)
  | ClaimServiceFees (tokenAddress : address).

(** The arguments are of their types. *)
Definition uint_of (w z : Z) : bool := (0 <=? z)%Z && (z <? 2 ^ w)%Z.

Definition call_typed (c : call) : bool :=
  match c with
  | WhitelistToken _ a b => uint_of 256 a && uint_of 256 b
  | SetBatchBlockLimit z | SetBatchSettleLimit z => uint_of 8 z
  | SetServiceFeePercentage z | SetMaxServiceFee z | SetBatchSize z => uint_of 16 z
  | SetTokenMinLimit _ z | SetTokenMaxLimit _ z | MakeDeposit _ z _ | InitSupply _ z | Transfer _ z _ => uint_of 256 z
  | _ => true
  end.

Definition exec (m : msg) (c : call) : S unit :=
  match c with
  | RenounceAdmin => on_access (renounceAdmin m)
  | TransferAdmin a => on_access (transferAdmin m a)
  | Pause => on_access (pause m)
  | Unpause => on_access (unpause m)
  | SetBridge b => setBridge m b
  | WhitelistToken t lo hi => whitelistToken m t lo hi
  | RemoveTokenFromWhitelist t => removeTokenFromWhitelist m t
  | SetBatchBlockLimit z => setBatchBlockLimit m z
  | SetServiceFeePercentage z => setServiceFeePercentage m z
  | SetMaxServiceFee z => setMaxServiceFee m z
  | SetServiceFeeReceiver a => setServiceFeeReceiver m a
  | SetBatchSettleLimit z => setBatchSettleLimit m z
  | SetBatchSize z => setBatchSize m z
  | SetTokenMinLimit t z => setTokenMinLimit m t z
  | SetTokenMaxLimit t z => setTokenMaxLimit m t z
  | MakeDeposit t z r => deposit m t z r
  | InitSupply t z => initSupply m t z
  | Transfer t z r => transfer m t z r;; mret tt
  | RecoverLostFunds t => recoverLostFunds m t
  | ClaimServiceFees t => claimServiceFees t
  end.
End Contract.
End Safe.
