(* ===== verification/EthSafeFacts.v ===== *)
(** * What the safe guarantees

    The invariant of its ledger - batches numbered from one, deposits numbered consecutively
    across them - and that a batch it has handed out as final never changes again. *)
From S2P Require Import Prelude Solidity EnumerableSet EthSafe.
Import Access.

Module SafeFacts.
Import Safe.

(** ** Inverting calls *)

Ltac safe_inv H :=
  repeat progress (unfold on_access, on_tokens, set_limits, set_ledger, set_accounts in H; sol_step H; try (cbv beta iota in H)).

Section Facts.
Context {W : Type} (T : erc20 W) (self : address).

Lemma onlyAdmin_same m a u a' : onlyAdmin m a = Done u a' -> a' = a.
Proof. unfold onlyAdmin. intros H. sol_inv H. done. Qed.

Lemma whenNotPaused_same a u a' : whenNotPaused a = Done u a' -> a' = a.
Proof. unfold whenNotPaused. intros H. sol_inv H. done. Qed.

Lemma whenPaused_same a u a' : whenPaused a = Done u a' -> a' = a.
Proof. unfold whenPaused. intros H. sol_inv H. done. Qed.

Lemma safe_eta (s : safe W) :
  mkSafe (s_access s) (_bridge s) (s_limits s) (s_ledger s) (s_accounts s) (s_tokens s) = s.
Proof. by destruct s. Qed.

(** Calls that leave the storage as it is. *)
Definition reads {S A} (c : Sol S A) : Prop := forall s a s', c s = Done a s' -> s' = s.

Lemma isBatchFinal_inv m b (s : safe W) r s' : _isBatchFinal m b s = Done r s' ->
  s' = s /\ r = (b_lastUpdatedBlockNumber b + batchSettleLimit (s_limits s) <? block_number m)%Z.
Proof. unfold _isBatchFinal. intros H. sol_inv H. done. Qed.

Lemma progressOver_inv m n bn (s : safe W) r s' : _isBatchProgessOver m n bn s = Done r s' -> s' = s /\
  r = (negb (n =? 0) && (bn + batchBlockLimit (s_limits s) <? block_number m))%Z.
Proof. unfold _isBatchProgessOver. intros H. sol_inv H; done. Qed.

(** When the next deposit opens a new batch. *)
Definition opens_batch (m : msg) (lim : limits) (l : ledger) : bool :=
  let b := batch_at l (batchesCount l - 1) in
  ((batchesCount l =? 0) || (negb (b_depositsCount b =? 0) && (b_blockNumber b + batchBlockLimit lim <? block_number m))
   || (batchSize lim <=? b_depositsCount b))%Z.

Lemma shouldCreate_inv m (s : safe W) r s' : _shouldCreateNewBatch m s = Done r s' ->
  s' = s /\ r = opens_batch m (s_limits s) (s_ledger s).
Proof.
  unfold _shouldCreateNewBatch, opens_batch. intros H. sol_inv H; cbn; [done|..];
    apply progressOver_inv in Hc as [-> Hr]; (split; [done|]); cbn in Hr; by rewrite <-Hr.
Qed.

(** ** The ledger *)

Definition limits_ok (lim : limits) : Prop :=
  (0 <= batchBlockLimit lim <= batchSettleLimit lim)%Z /\ (batchSettleLimit lim < 256)%Z /\ (batchSize lim <= maxBatchSize)%Z.

(** The nonces of all deposits, in the order of the batches. *)
Definition deposit_nonces (l : ledger) : list Z :=
  concat ((fun i => d_nonce <$> deposits_at l i) <$> seqZ 0 (batchesCount l)).

Record ledger_ok (t : Z) (l : ledger) : Prop := {
  lo_batches i : is_Some (batches l !! i) <-> (0 <= i < batchesCount l)%Z;
  lo_deposits i : is_Some (batchDeposits l !! i) <-> (0 <= i < batchesCount l)%Z;
  lo_batch i b : batches l !! i = Some b ->
    b_nonce b = (i + 1)%Z /\ b_depositsCount b = Z.of_nat (length (deposits_at l i)) /\
    (1 <= b_depositsCount b <= maxBatchSize)%Z /\ (0 <= b_blockNumber b <= b_lastUpdatedBlockNumber b)%Z /\
    (b_lastUpdatedBlockNumber b <= t)%Z;
  lo_counts : (0 <= batchesCount l < 2 ^ 64)%Z /\ (0 <= depositsCount l < 2 ^ 64)%Z;
  lo_nonces : deposit_nonces l = seqZ 1 (depositsCount l)
}.

Lemma ledger_ok_later t t' l : ledger_ok t l -> (t <= t')%Z -> ledger_ok t' l.
Proof. intros [] Ht. split; try done. intros i b Hb. destruct (lo_batch0 i b Hb) as (?&?&?&?&?). repeat split; try done; lia. Qed.

Lemma new_ledger_ok t : ledger_ok t (mkLedger 0 0 ∅ ∅).
Proof.
  split; cbn; [intros i; rewrite lookup_empty; split; [by intros []|lia]..| | |]; [done|done|]. by vm_compute.
Qed.

(** The ledger after a deposit [d] into batch [i] at block [t]. *)
Definition deposited (t i : Z) (d : Deposit) (l : ledger) : ledger :=
  let b := batch_at l i in
  mkLedger (if (i =? batchesCount l)%Z then batchesCount l + 1 else batchesCount l) (depositsCount l + 1)
    (<[i := mkBatch (i + 1) (if (i =? batchesCount l)%Z then t else b_blockNumber b) t (b_depositsCount b + 1)]> (batches l))
    (<[i := deposits_at l i ++ [d]]> (batchDeposits l)).

Lemma batch_at_fresh t l : ledger_ok t l -> batch_at l (batchesCount l) = no_batch.
Proof.
  intros Hl. unfold batch_at. destruct (batches l !! batchesCount l) as [b|] eqn:Hb; [|done].
  assert (is_Some (batches l !! batchesCount l)) as H by (by eexists). apply (lo_batches _ _ Hl) in H. lia.
Qed.

Lemma batch_at_some t l i : ledger_ok t l -> (0 <= i < batchesCount l)%Z -> batches l !! i = Some (batch_at l i).
Proof. intros Hl Hi. apply (lo_batches _ _ Hl) in Hi as [b Hb]. unfold batch_at. by rewrite Hb. Qed.

Lemma deductServiceFee_inv t a (s : safe W) r s' : _deductServiceFee T t a s = Done r s' ->
  exists fee dec w, decimals T t (s_tokens s) = Done dec w /\ (0 <= fee)%Z /\ (0 <= r)%Z /\ r = (a - fee)%Z /\
    s' = mkSafe (s_access s) (_bridge s) (s_limits s) (s_ledger s)
           (with_fees (serviceFees (s_accounts s) + fee) (s_accounts s)) w.
Proof.
  unfold _deductServiceFee. intros H. safe_inv H. cbn in *.
  eexists _, a0, p. split; [exact Hp|]. split; [|split; [|split; reflexivity]]; [|exact (proj1 Hrange3)].
  case_match; [lia|]. apply Z.div_pos; [lia|done].
Qed.

(** Where a deposit goes, in a ledger whose counts fit their types. *)
Lemma current_batch_inv m t (s : safe W) i s' :
  ledger_ok t (s_ledger s) -> current_batch m (block_number m) s = Done i s' ->
  s_access s' = s_access s /\ _bridge s' = _bridge s /\ s_limits s' = s_limits s /\ s_accounts s' = s_accounts s /\ s_tokens s' = s_tokens s /\
  let l := s_ledger s in
  if opens_batch m (s_limits s) l
  then i = batchesCount l /\ (batchesCount l + 1 < 2 ^ 64)%Z /\
       s_ledger s' = mkLedger (batchesCount l + 1) (depositsCount l) (<[i := mkBatch (i + 1) (block_number m) 0 0]> (batches l)) (batchDeposits l)
  else i = (batchesCount l - 1)%Z /\ s_ledger s' = l.
Proof.
  intros Hl. unfold current_batch. intros H. safe_inv H; apply shouldCreate_inv in Hc as [-> Hf]; rewrite <-Hf.
  - cbn. unfold put_counts, put_batch, batch_at. cbn. rewrite !lookup_insert_eq, !insert_insert_eq. cbn.
    pose proof (batch_at_fresh _ _ Hl) as Hb. unfold batch_at in Hb. rewrite Hb. cbn. repeat split; lia.
  - done.
Qed.

(** The two ways a deposit reaches its batch have the same effect. *)
Lemma current_deposited m lim t (l l0 : ledger) i d :
  ledger_ok t l ->
  (if opens_batch m lim l
   then i = batchesCount l /\ (batchesCount l + 1 < 2 ^ 64)%Z /\
        l0 = mkLedger (batchesCount l + 1) (depositsCount l) (<[i := mkBatch (i + 1) (block_number m) 0 0]> (batches l)) (batchDeposits l)
   else i = (batchesCount l - 1)%Z /\ l0 = l) ->
  i = (if opens_batch m lim l then batchesCount l else batchesCount l - 1)%Z /\ (i + 1 < 2 ^ 64)%Z /\ depositsCount l0 = depositsCount l /\
  mkLedger (batchesCount l0) (depositsCount l0 + 1)
    (<[i := mkBatch (b_nonce (batch_at l0 i)) (b_blockNumber (batch_at l0 i)) (block_number m) (b_depositsCount (batch_at l0 i) + 1)]> (batches l0))
    (<[(batchesCount l0 - 1)%Z := deposits_at l0 (batchesCount l0 - 1) ++ [d]]> (batchDeposits l0)) =
  deposited (block_number m) i d l.
Proof.
  intros Hl. pose proof (lo_counts _ _ Hl) as [Hc _]. unfold deposited. destruct (opens_batch m lim l) eqn:Ho.
  - intros (-> & Hn & ->). cbn. rewrite Z.add_simpl_r, Z.eqb_refl. unfold batch_at at 1 2 3, deposits_at. cbn. rewrite lookup_insert_eq. cbn.
    rewrite insert_insert_eq. rewrite (batch_at_fresh _ _ Hl). done.
  - intros [-> ->]. split; [done|]. split; [lia|]. split; [done|].
    assert (0 < batchesCount l)%Z as Hpos.
    { unfold opens_batch in Ho. apply orb_false_iff in Ho as [Ho _]. apply orb_false_iff in Ho as [Ho _]. apply Z.eqb_neq in Ho. lia. }
    destruct (Z.eqb_spec (batchesCount l - 1) (batchesCount l)); [lia|].
    destruct (lo_batch _ _ Hl _ _ (batch_at_some _ _ (batchesCount l - 1) Hl ltac:(lia))) as (-> & _). done.
Qed.

Lemma record_deposit_inv i b t d (s s' : safe W) u : record_deposit i b t d s = Done u s' ->
  let l := s_ledger s in let old := batch_at l b in
  (depositsCount l + 1 < 2 ^ 64)%Z /\
  s' = mkSafe (s_access s) (_bridge s) (s_limits s)
    (mkLedger (batchesCount l) (depositsCount l + 1) (<[b := mkBatch (b_nonce old) (b_blockNumber old) t (b_depositsCount old + 1)]> (batches l))
       (<[i := deposits_at l i ++ [d]]> (batchDeposits l))) (s_accounts s) (s_tokens s).
Proof.
  unfold record_deposit. intros H. safe_inv H. cbn in *. split; [lia|]. unfold put_counts, put_batch, push_deposit, batch_at. cbn.
  rewrite !lookup_insert_eq, insert_insert_eq. done.
Qed.

Lemma increase_balance_inv t a (s s' : safe W) u : increase_balance t a s = Done u s' ->
  s' = mkSafe (s_access s) (_bridge s) (s_limits s) (s_ledger s)
    (with_balances (insert t (value_at (tokenBalances (s_accounts s)) t + a)%Z) (s_accounts s)) (s_tokens s).
Proof. unfold increase_balance. intros H. safe_inv H. done. Qed.

(** What a successful deposit does to every part of the storage. *)
Lemma deposit_inv m t tok amount rcp (s s' : safe W) u :
  ledger_ok t (s_ledger s) -> (0 <= block_number m < 2 ^ 63)%Z -> deposit T self m tok amount rcp s = Done u s' ->
  let l := s_ledger s in
  exists fee dec w1 w2, let i := (if opens_batch m (s_limits s) l then batchesCount l else batchesCount l - 1)%Z in
    tok ∈ whitelistedTokens (s_accounts s) /\ (0 <= fee)%Z /\ (0 <= amount - fee)%Z /\
    (depositsCount l + 1 < 2 ^ 64)%Z /\ (i + 1 < 2 ^ 64)%Z /\
    decimals T tok (s_tokens s) = Done dec w1 /\ safeTransferFrom T tok self (msg_sender m) self amount w1 = Done tt w2 /\
    s' = mkSafe (s_access s) (_bridge s) (s_limits s)
      (deposited (block_number m) i (mkDeposit (depositsCount l + 1) tok (amount - fee) (msg_sender m) rcp StPending) l)
      (with_balances (insert tok (value_at (tokenBalances (s_accounts s)) tok + (amount - fee))%Z)
         (with_fees (serviceFees (s_accounts s) + fee) (s_accounts s))) w2.
Proof.
  intros Hl Hm. unfold deposit, truncate. rewrite Z.mod_small by lia. intros H. safe_inv H.
  apply whenNotPaused_same in Hp as ->. rewrite safe_eta in *.
  apply current_batch_inv with (t := t) in Hc as (Ha & Hb & Hli & Hac & Hto & Hcur); [|done].
  apply deductServiceFee_inv in Hc0 as (fee & dec & w & Hd & Hfee & Hr & -> & ->).
  apply record_deposit_inv in Hc1 as [Hdc ->]. apply increase_balance_inv in Hc2 as ->. cbn in *.
  rewrite Ha, Hb, Hli, Hac, Hto in *. destruct u. unfold isTokenWhitelisted in Hreq. apply bool_decide_eq_true in Hreq.
  eapply current_deposited in Hcur as (-> & Hi & Hdd & Hled); [|done]. rewrite Hled, Hdd.
  exists fee, dec, w, p0. rewrite Hdd in Hdc. split_and!; done.
Qed.
(** ** The ledger stays well formed *)

Lemma deposits_at_deposited t i d l j :
  deposits_at (deposited t i d l) j = if decide (i = j) then deposits_at l i ++ [d] else deposits_at l j.
Proof. unfold deposits_at at 1. cbn. rewrite lookup_insert. by case_decide. Qed.

Lemma deposits_at_fresh t l : ledger_ok t l -> deposits_at l (batchesCount l) = [].
Proof.
  intros Hl. unfold deposits_at. destruct (batchDeposits l !! batchesCount l) as [b|] eqn:Hb; [|done].
  assert (is_Some (batchDeposits l !! batchesCount l)) as H by (by eexists). apply (lo_deposits _ _ Hl) in H. lia.
Qed.

Lemma seqZ_snoc a n : (0 <= n)%Z -> seqZ a (n + 1) = seqZ a n ++ [(a + n)%Z].
Proof. intros H. by rewrite seqZ_app by lia. Qed.

(** The batch of the next deposit. *)
Definition target (m : msg) (lim : limits) (l : ledger) : Z :=
  (if opens_batch m lim l then batchesCount l else batchesCount l - 1)%Z.

Lemma target_open m lim l : opens_batch m lim l = false -> (batchesCount l <> 0)%Z /\
  (b_depositsCount (batch_at l (batchesCount l - 1)) < batchSize lim)%Z /\
  ((b_depositsCount (batch_at l (batchesCount l - 1)) = 0)%Z \/ (block_number m <= b_blockNumber (batch_at l (batchesCount l - 1)) + batchBlockLimit lim)%Z).
Proof.
  unfold opens_batch. intros [[Hn Hover]%orb_false_iff Hs]%orb_false_iff.
  apply Z.eqb_neq in Hn. apply Z.leb_gt in Hs. split; [done|]. split; [done|].
  apply andb_false_iff in Hover as [Hz|Hl]; [left|right]; [apply negb_false_iff, Z.eqb_eq in Hz; done|by apply Z.ltb_ge].
Qed.

Lemma deposited_nonces t m lim l d :
  ledger_ok t l -> d_nonce d = (depositsCount l + 1)%Z ->
  deposit_nonces (deposited (block_number m) (target m lim l) d l) = seqZ 1 (depositsCount l + 1).
Proof.
  intros Hl Hd. pose proof (lo_counts _ _ Hl) as [Hc Hk]. rewrite seqZ_snoc, <-(lo_nonces _ _ Hl) by lia.
  unfold deposit_nonces, target. cbn [deposited batchesCount]. destruct (opens_batch m lim l) eqn:Ho.
  - rewrite Z.eqb_refl, seqZ_snoc, fmap_app, concat_app by lia. f_equal; cbn.
    + f_equal. apply list_fmap_ext. intros j x Hx. apply lookup_seqZ in Hx as [-> Hx]. rewrite deposits_at_deposited. rewrite decide_False by lia. done.
    + rewrite app_nil_r, deposits_at_deposited, decide_True, (deposits_at_fresh _ _ Hl) by done. cbn. by rewrite Hd, Z.add_comm.
  - apply target_open in Ho as [Hn _]. destruct (Z.eqb_spec (batchesCount l - 1) (batchesCount l)); [lia|].
    replace (seqZ 0 (batchesCount l)) with (seqZ 0 (batchesCount l - 1) ++ [(batchesCount l - 1)%Z]) by (rewrite <-seqZ_snoc by lia; f_equal; lia).
    rewrite !fmap_app, !concat_app, <-app_assoc. f_equal; cbn.
    + f_equal. apply list_fmap_ext. intros j x Hx. apply lookup_seqZ in Hx as [-> Hx]. rewrite deposits_at_deposited. rewrite decide_False by lia. done.
    + rewrite !app_nil_r, deposits_at_deposited, decide_True, fmap_app by done. cbn. by rewrite Hd, Z.add_comm.
Qed.

Lemma deposited_ok t m lim l d :
  ledger_ok t l -> limits_ok lim -> (0 <= t <= block_number m)%Z -> d_nonce d = (depositsCount l + 1)%Z ->
  (depositsCount l + 1 < 2 ^ 64)%Z -> (target m lim l + 1 < 2 ^ 64)%Z ->
  ledger_ok (block_number m) (deposited (block_number m) (target m lim l) d l).
Proof.
  intros Hl (Hbl & Hst & Hsz) Ht Hd Hdc Htc. pose proof (lo_counts _ _ Hl) as [Hc Hk].
  assert (Hcount : forall i, (0 <= i < batchesCount (deposited (block_number m) (target m lim l) d l))%Z <-> (i = target m lim l \/ (0 <= i < batchesCount l)%Z)).
  { intros i. unfold deposited, target. cbn. destruct (opens_batch m lim l) eqn:Ho; [rewrite Z.eqb_refl; lia|].
    apply target_open in Ho as [Hn _]. destruct (Z.eqb_spec (batchesCount l - 1) (batchesCount l)); lia. }
  split.
  - intros i. rewrite Hcount. cbn. rewrite lookup_insert_is_Some, (lo_batches _ _ Hl). destruct (decide (target m lim l = i)); naive_solver.
  - intros i. rewrite Hcount. cbn. rewrite lookup_insert_is_Some, (lo_deposits _ _ Hl). destruct (decide (target m lim l = i)); naive_solver.
  - intros i b. cbn. rewrite lookup_insert_Some, deposits_at_deposited. intros [[<- <-]|[Hne Hb]].
    + rewrite decide_True by done. cbn. split; [done|]. rewrite length_app. cbn [length].
      unfold target. destruct (opens_batch m lim l) eqn:Ho.
      * rewrite Z.eqb_refl, (batch_at_fresh _ _ Hl), (deposits_at_fresh _ _ Hl). cbn. unfold maxBatchSize. lia.
      * apply target_open in Ho as (Hn & Hs & _).
        destruct (lo_batch _ _ Hl _ _ (batch_at_some _ _ (batchesCount l - 1) Hl ltac:(lia))) as (_ & Hlen & H1 & H2 & H3).
        destruct (Z.eqb_spec (batchesCount l - 1) (batchesCount l)); [lia|]. lia.
    + rewrite decide_False by done. destruct (lo_batch _ _ Hl _ _ Hb) as (H1 & H2 & H3 & H4 & H5). split_and!; try done; lia.
  - cbn. unfold target in *. destruct (opens_batch m lim l) eqn:Ho; [rewrite Z.eqb_refl; lia|].
    apply target_open in Ho as [Hn _]. destruct (Z.eqb_spec (batchesCount l - 1) (batchesCount l)); lia.
  - by eapply deposited_nonces.
Qed.
(** ** Every call *)

Definition is_deposit (c : call) : bool := match c with MakeDeposit _ _ _ => true | _ => false end.

Lemma isAnyBatch_same m (s s' : safe W) r : isAnyBatchInProgress m s = Done r s' -> s' = s.
Proof.
  unfold isAnyBatchInProgress. intros H. sol_inv H; try done; apply shouldCreate_inv in Hc as [-> _]; try done;
    by apply isBatchFinal_inv in Hc0 as [-> _].
Qed.

Lemma decode_bool_same r (s s' : safe W) b : abi_decode_bool r s = Done b s' -> s' = s.
Proof. unfold abi_decode_bool. intros H. sol_inv H; done. Qed.

(** What [boolTransfer] makes of the answer of a token; [None] when it cannot be decoded. *)
Definition reported (r : option bytes) : option bool :=
  match r with
  | None => Some false
  | Some [] => Some true
  | Some d => if (length d <? 32)%nat then None
              else if (be_val (take 32 d) =? 0)%Z then Some false else if (be_val (take 32 d) =? 1)%Z then Some true else None
  end.

Lemma boolTransfer_inv t to v (s s' : safe W) b : boolTransfer T self t to v s = Done b s' ->
  exists r w, call_transfer T t self to v (s_tokens s) = (r, w) /\ reported r = Some b /\
    s' = mkSafe (s_access s) (_bridge s) (s_limits s) (s_ledger s) (s_accounts s) w.
Proof.
  unfold boolTransfer. intros H. safe_inv H. destruct (call_transfer T t self to v (s_tokens s)) as [r w] eqn:Hr.
  injection Hp as -> ->. exists a, p. split; [done|]. destruct a as [d|]; [|by sol_inv H].
  destruct d as [|x d]; [by sol_inv H|]. cbn [length Nat.eqb] in H. unfold abi_decode_bool in H.
  unfold reported. repeat (case_match; [by sol_inv H|]). by sol_inv H.
Qed.

Lemma transfer_inv m t a to (s s' : safe W) b : transfer T self m t a to s = Done b s' ->
  exists r w, call_transfer T t self to a (s_tokens s) = (r, w) /\ reported r = Some b /\ _bridge s = msg_sender m /\
    s' = mkSafe (s_access s) (_bridge s) (s_limits s) (s_ledger s)
      (if b then with_balances (insert t (value_at (tokenBalances (s_accounts s)) t - a)%Z) (s_accounts s) else s_accounts s) w.
Proof.
  unfold transfer, onlyBridge. intros H. safe_inv H; apply bool_decide_eq_true in Hreq;
    apply boolTransfer_inv in Hc as (r & w & Hr & Hb & ->); by exists r, w.
Qed.

Lemma uint_of_range w z : uint_of w z = true -> (0 <= z < 2 ^ w)%Z.
Proof. unfold uint_of. intros [H1%Z.leb_le H2%Z.ltb_lt]%andb_true_iff. done. Qed.

(** Everything but a deposit leaves the ledger alone; the limits stay consistent. *)
Lemma exec_frame m c (s s' : safe W) u : is_deposit c = false -> exec T self m c s = Done u s' ->
  s_ledger s' = s_ledger s /\ (limits_ok (s_limits s) -> call_typed c = true -> limits_ok (s_limits s')).
Proof.
  intros Hd H. destruct c; try done; cbn [exec] in H;
    unfold renounceAdmin, transferAdmin, pause, unpause, setBridge, whitelistToken, removeTokenFromWhitelist, setBatchBlockLimit,
      setServiceFeePercentage, setMaxServiceFee, setServiceFeeReceiver, setBatchSettleLimit, setBatchSize, setTokenMinLimit, setTokenMaxLimit,
      initSupply, recoverLostFunds, claimServiceFees in H; safe_inv H; try done; cbn in *.
  - split; [done|]. unfold limits_ok. cbn. intros Hl Ht. apply uint_of_range in Ht. apply Z.leb_le in Hreq. lia.
  - apply isAnyBatch_same in Hc as ->. cbn in *. split; [done|]. unfold limits_ok. cbn. intros Hl Ht. apply uint_of_range in Ht. apply Z.leb_le in Hreq0. lia.
  - split; [done|]. unfold limits_ok. cbn. intros Hl Ht. apply Z.leb_le in Hreq. lia.
  - apply increase_balance_inv in Hc as ->. done.
  - apply transfer_inv in Hc as (r & w & _ & _ & _ & ->). done.
Qed.

(** A batch the safe calls final at block [t]. *)
Definition final_at (t : Z) (s : safe W) (i : Z) : Prop :=
  (0 <= i < batchesCount (s_ledger s))%Z /\
  (b_lastUpdatedBlockNumber (batch_at (s_ledger s) i) + batchSettleLimit (s_limits s) < t)%Z.

(** A deposit does not go into a final batch. *)
Lemma target_not_final m t (s : safe W) :
  ledger_ok t (s_ledger s) -> limits_ok (s_limits s) -> ~ final_at (block_number m) s (target m (s_limits s) (s_ledger s)).
Proof.
  intros Hl (Hlim & _) [Hi Hf]. unfold target in *. destruct (opens_batch m (s_limits s) (s_ledger s)) eqn:Ho; [lia|].
  apply target_open in Ho as (Hn & _ & Ho).
  destruct (lo_batch _ _ Hl _ _ (batch_at_some _ _ _ Hl Hi)) as (_ & Hlen & H1 & H2 & H3). lia.
Qed.

Definition same_batch (i : Z) (l l' : ledger) : Prop := batch_at l' i = batch_at l i /\ deposits_at l' i = deposits_at l i.

(** Any successful call: the ledger and the limits stay well formed, batches are only added, and
    final ones do not change. *)
Lemma exec_keeps m c t (s s' : safe W) u :
  ledger_ok t (s_ledger s) -> limits_ok (s_limits s) -> call_typed c = true ->
  (0 <= t <= block_number m)%Z -> (block_number m < 2 ^ 63)%Z -> exec T self m c s = Done u s' ->
  ledger_ok (block_number m) (s_ledger s') /\ limits_ok (s_limits s') /\
  (batchesCount (s_ledger s) <= batchesCount (s_ledger s'))%Z /\
  forall i, final_at (block_number m) s i -> same_batch i (s_ledger s) (s_ledger s').
Proof.
  intros Hl Hlim Hty Ht Hm H. destruct (is_deposit c) eqn:Hd.
  - destruct c; try done. cbn in H. eapply deposit_inv in H as (fee & dec & w1 & w2 & _ & _ & _ & Hdc & Hi & _ & _ & ->); [|done|lia].
    pose proof (target_not_final m t s Hl Hlim) as Hnf. change (if opens_batch _ _ _ then _ else _) with (target m (s_limits s) (s_ledger s)) in Hi |- *.
    cbn [s_ledger s_limits]. split; [by eapply deposited_ok|]. split; [done|]. split.
    + cbn. case_match; lia.
    + intros i Hf. assert (target m (s_limits s) (s_ledger s) <> i) as Hne by (by intros <-). split.
      * unfold batch_at, deposited. cbn. by rewrite lookup_insert_ne.
      * by rewrite deposits_at_deposited, decide_False.
  - apply exec_frame in H as [-> Hl']; [|done]. split; [eapply ledger_ok_later; [done|lia]|]. split; [by apply Hl'|]. split; [lia|done].
Qed.
End Facts.
End SafeFacts.
