(* ===== verification/EthBridge.v ===== *)
(** * The bridge contract on Ethereum

    Models [src/sol/contracts/Bridge.sol] with [access/RelayerRole.sol], and the chain on which
    it and the safe run: blocks, and transactions of any account in any order.  [keccak256] and
    [ecrecover] are the machine's; the external calls of the bridge go to the safe of
    [EthSafe]. *)
From S2P Require Import Prelude Solidity EnumerableSet EthSafe.
Import Access.

Module EthBridge.
Import EnumerableSet Safe.

Record CrossTransferStatus := mkCross {
  statuses : list DepositStatus;
  createdBlockNumber : Z
}.

Record bridge (W : Type) := mkBridge {
  br_access : access;
  _relayers : AddressSet;
  batchSettleBlockCount : Z;
  quorum : Z;
  executedBatches : gset Z;
  crossTransferStatuses : gmap Z CrossTransferStatus;
  br_safe : safe W
}.
Arguments mkBridge {W} _ _ _ _ _ _ _.
Arguments br_access {W} _.
Arguments _relayers {W} _.
Arguments batchSettleBlockCount {W} _.
Arguments quorum {W} _.
Arguments executedBatches {W} _.
Arguments crossTransferStatuses {W} _.
Arguments br_safe {W} _.

Definition executeTransferAction : string := "ExecuteBatchedTransfer".
(** "\x19Ethereum Signed Message:\n32" *)
Definition prefix : bytes := Byte.x19 :: bytes_of_string "Ethereum Signed Message:" ++ Byte.x0a :: bytes_of_string "32".
Definition minimumQuorum : Z := 1.

Section Bridge.
Context {W : Type} (T : erc20 W) (bridge_address safe_address : address).
Context (keccak256 : bytes -> bytes) (ecrecover : bytes -> Z -> bytes -> bytes -> address).

Abbreviation B := (Sol (bridge W)).

Definition at_access {A} (c : Sol access A) : B A :=
  at_part br_access (fun a b => mkBridge a (_relayers b) (batchSettleBlockCount b) (quorum b) (executedBatches b) (crossTransferStatuses b) (br_safe b)) c.
Definition at_relayers {A} (c : Sol AddressSet A) : B A :=
  at_part _relayers (fun r b => mkBridge (br_access b) r (batchSettleBlockCount b) (quorum b) (executedBatches b) (crossTransferStatuses b) (br_safe b)) c.
Definition at_safe {A} (c : Sol (safe W) A) : B A :=
  at_part br_safe (fun s b => mkBridge (br_access b) (_relayers b) (batchSettleBlockCount b) (quorum b) (executedBatches b) (crossTransferStatuses b) s) c.

(** The context of a call the bridge makes. *)
Definition from_bridge (m : msg) : msg := {| msg_sender := bridge_address; block_number := block_number m |}.

(** ** Relayers *)

Definition isRelayer (account : address) (b : bridge W) : bool := contains (_relayers b) account.

Definition onlyRelayer (m : msg) : B unit :=
  r ← view (isRelayer (msg_sender m)); require r "Access Control: sender is not Relayer".

Definition _addRelayer (account : address) : B unit :=
  require (negb (bool_decide (account = zero_address))) "RelayerRole: account cannot be the 0 address";;
  added ← at_relayers (add account);
  require added "RelayerRole: address is already a relayer".

Definition _removeRelayer (account : address) : B unit :=
  removed ← at_relayers (remove account);
  require removed "RelayerRole: address is not a relayer".

Fixpoint _addRelayers (accounts : list address) : B unit :=
  match accounts with
  | [] => mret tt
  | a :: rest => _addRelayer a;; _addRelayers rest
  end.

Definition addRelayer (m : msg) (account : address) : B unit := at_access (onlyAdmin m);; _addRelayer account.
Definition removeRelayer (m : msg) (account : address) : B unit := at_access (onlyAdmin m);; _removeRelayer account.
Definition renounceRelayer (m : msg) (account : address) : B unit :=
  require (bool_decide (account = msg_sender m)) "RelayerRole: can only renounce role for self";;
  _removeRelayer account.

Definition getRelayer (index : Z) : B address := s ← view _relayers; at_relayers (set_at s index).
Definition getRelayers : B (list address) := view (fun b => _values (_relayers b)).
Definition getRelayersCount : B Z := view (fun b => set_length (_relayers b)).

(** ** Deployment and settings *)

Definition constructor (m : msg) (board : list address) (initialQuorum : Z) (erc20Safe : safe W) : result (bridge W) unit :=
  (require (minimumQuorum <=? initialQuorum)%Z "Quorum is too low.";;
   require (initialQuorum <=? Z.of_nat (length board))%Z "The board should be at least the quorum size.";;
   _addRelayers board;;
   write (fun b => mkBridge (br_access b) (_relayers b) (batchSettleBlockCount b) initialQuorum (executedBatches b) (crossTransferStatuses b) (br_safe b)))
  (mkBridge (deployed (msg_sender m)) empty_set 40 0 ∅ ∅ erc20Safe).

Definition setQuorum (m : msg) (newQuorum : Z) : B unit :=
  at_access (onlyAdmin m);;
  require (minimumQuorum <=? newQuorum)%Z "Quorum is too low.";;
  write (fun b => mkBridge (br_access b) (_relayers b) (batchSettleBlockCount b) newQuorum (executedBatches b) (crossTransferStatuses b) (br_safe b)).

Definition bridge_setBatchSettleLimit (m : msg) (newBatchSettleLimit : Z) : B unit :=
  at_access (onlyAdmin m);;
  at_access whenPaused;;
  busy ← at_safe (isAnyBatchInProgress (from_bridge m));
  require (negb busy) "Cannot change batchSettleBlockCount with pending batches";;
  write (fun b => mkBridge (br_access b) (_relayers b) newBatchSettleLimit (quorum b) (executedBatches b) (crossTransferStatuses b) (br_safe b)).

(** ** Batches of deposits *)

Definition bridge_getBatch (m : msg) (batchNonce : Z) : B Batch := at_safe (getBatch (from_bridge m) batchNonce).
Definition getBatchDeposits (m : msg) (batchNonce : Z) : B (list Deposit) := at_safe (getDeposits (from_bridge m) batchNonce).

(** ** Transfers *)

Definition _getHashedDepositData (encodedData : bytes) : bytes := keccak256 (prefix ++ keccak256 encodedData).

(** The hash the relayers sign. *)
Definition transfer_hash (tokens recipients : list address) (amounts depositNonces : list Z) (batchNonceElrondETH : Z) : bytes :=
  _getHashedDepositData
    (abi_encode [AAddresses recipients; AAddresses tokens; AUints amounts; AUints depositNonces; AUint batchNonceElrondETH;
                 AString (bytes_of_string executeTransferAction)]).

Definition _recover (signature data : bytes) : B address :=
  require (length signature =? 65)%nat "Malformed signature";;
  let r := take 32 signature in
  let s := take 32 (drop 32 signature) in
  let v := be_val (drop 64 signature) in
  let v := if (v =? 0)%Z || (v =? 1)%Z then (v + 27)%Z else v in
  mret (ecrecover data v r s).

(** The loop over the signatures from the [i]-th one on. *)
Fixpoint count_signers (data : bytes) (i : nat) (signatures : list bytes) (validSigners : list address) (signersCount : Z) : B Z :=
  match signatures with
  | [] => mret signersCount
  | signature :: rest =>
      publicKey ← _recover signature data;
      member ← view (isRelayer publicKey);
      if negb (member : bool) then count_signers data (S i) rest validSigners signersCount
      else if bool_decide (publicKey ∈ validSigners) then count_signers data (S i) rest validSigners signersCount
      else
        signersCount' ← checked 256 (signersCount + 1);
        count_signers data (S i) rest (<[i := publicKey]> validSigners) signersCount'
  end.

Definition _validateQuorum (signatures : list bytes) (data : bytes) : B unit :=
  signersCount ← count_signers data 0 signatures (replicate (length signatures) zero_address) 0;
  q ← view quorum;
  require (q <=? signersCount)%Z "Quorum was not met".

(** The loop over the tokens from the [j]-th one on. *)
Fixpoint transfer_all (m : msg) (j : nat) (tokens : list address) (amounts : list Z) (recipients : list address) : B (list DepositStatus) :=
  match tokens with
  | [] => mret []
  | token :: rest =>
      amount ← at_index amounts j;
      recipient ← at_index recipients j;
      executed ← at_safe (transfer T safe_address (from_bridge m) token amount recipient);
      others ← transfer_all m (S j) rest amounts recipients;
      mret ((if (executed : bool) then StExecuted else StRejected) :: others)
  end.

Definition executeTransfer (m : msg) (tokens recipients : list address) (amounts depositNonces : list Z)
    (batchNonceElrondETH : Z) (signatures : list bytes) : B unit :=
  at_access whenNotPaused;;
  onlyRelayer m;;
  q ← view quorum;
  require (q <=? Z.of_nat (length signatures))%Z "Not enough signatures to achieve quorum";;
  executed ← view (fun b => bool_decide (batchNonceElrondETH ∈ executedBatches b));
  require (negb executed) "Batch already executed";;
  write (fun b => mkBridge (br_access b) (_relayers b) (batchSettleBlockCount b) (quorum b) ({[batchNonceElrondETH]} ∪ executedBatches b) (crossTransferStatuses b) (br_safe b));;
  _validateQuorum signatures (transfer_hash tokens recipients amounts depositNonces batchNonceElrondETH);;
  sts ← transfer_all m 0 tokens amounts recipients;
  write (fun b => mkBridge (br_access b) (_relayers b) (batchSettleBlockCount b) (quorum b) (executedBatches b)
    (<[batchNonceElrondETH := mkCross sts (block_number m)]> (crossTransferStatuses b)) (br_safe b)).

Definition cross_at (b : bridge W) (n : Z) : CrossTransferStatus := default (mkCross [] 0) (crossTransferStatuses b !! n).

Definition getStatusesAfterExecution (m : msg) (batchNonceElrondETH : Z) : B (list DepositStatus) :=
  crossStatus ← view (fun b => cross_at b batchNonceElrondETH);
  require (0 <? createdBlockNumber crossStatus)%Z "Invalid nonce requested";;
  settle ← view batchSettleBlockCount;
  t ← checked 256 (createdBlockNumber crossStatus + settle);
  require (t <=? block_number m)%Z "Statuses not final yet";;
  mret (statuses crossStatus).

Definition wasBatchExecuted (batchNonceElrondETH : Z) : B bool :=
  view (fun b => bool_decide (batchNonceElrondETH ∈ executedBatches b)).

(** ** Transactions *)

Inductive bridge_call :=
  | BRenounceAdmin
  | BTransferAdmin (newAdmin : address)
  | BPause
  | BUnpause
  | AddRelayer (account : address)
  | RemoveRelayer (account : address)
  | RenounceRelayer (account : address)
  | SetQuorum (newQuorum : Z)
  | BSetBatchSettleLimit (newBatchSettleLimit : Z)
  | ExecuteTransfer (tokens recipients : list address) (amounts depositNonces : list Z) (batchNonceElrondETH : Z) (signatures : list bytes).

Definition bridge_exec (m : msg) (c : bridge_call) : B unit :=
  match c with
  | BRenounceAdmin => at_access (renounceAdmin m)
  | BTransferAdmin a => at_access (transferAdmin m a)
  | BPause => at_access (pause m)
  | BUnpause => at_access (unpause m)
  | AddRelayer a => addRelayer m a
  | RemoveRelayer a => removeRelayer m a
  | RenounceRelayer a => renounceRelayer m a
  | SetQuorum q => setQuorum m q
  | BSetBatchSettleLimit z => bridge_setBatchSettleLimit m z
  | ExecuteTransfer t r a n b s => executeTransfer m t r a n b s
  end.

Definition addresses_typed (l : list address) : bool := forallb (fun a => length a =? 20)%nat l && uint_of 256 (Z.of_nat (length l)).
Definition uints_typed (l : list Z) : bool := forallb (uint_of 256) l && uint_of 256 (Z.of_nat (length l)).

Definition bridge_call_typed (c : bridge_call) : bool :=
  match c with
  | SetQuorum q => uint_of 256 q
  | BSetBatchSettleLimit z => uint_of 8 z
  | ExecuteTransfer tokens recipients amounts nonces n _ =>
      addresses_typed tokens && addresses_typed recipients && uints_typed amounts && uints_typed nonces && uint_of 256 n
  | _ => true
  end.

Inductive transaction := ToBridge (c : bridge_call) | ToSafe (c : call).

Definition tx_exec (m : msg) (tx : transaction) : B unit :=
  match tx with
  | ToBridge c => bridge_exec m c
  | ToSafe c => at_safe (exec T safe_address m c)
  end.

(** ** The chain *)

Record chain := mkChain { now : Z; contracts : bridge W }.

(** A call that only reads, at the current block. *)
Definition chain_msg (sender : address) (c : chain) : msg := {| msg_sender := sender; block_number := now c |}.

Definition query {A} (f : msg -> B A) (c : chain) : option A :=
  match f (chain_msg zero_address c) (contracts c) with Done a _ => Some a | Revert _ => None end.

(** What a transaction leaves behind: nothing when it reverts. *)
Definition applied (sender : address) (tx : transaction) (c : chain) : chain :=
  match tx_exec (chain_msg sender c) tx (contracts c) with
  | Done _ b => mkChain (now c) b
  | Revert _ => c
  end.

Definition with_tokens (w : W) (b : bridge W) : bridge W :=
  let s := br_safe b in
  mkBridge (br_access b) (_relayers b) (batchSettleBlockCount b) (quorum b) (executedBatches b) (crossTransferStatuses b)
    (mkSafe (s_access s) (_bridge s) (s_limits s) (s_ledger s) (s_accounts s) w).

(** A new block, a transaction of any account, or something else that happens to the tokens. *)
Inductive event := NewBlock (n : Z) | Sent (sender : address) (tx : transaction) | TokensMove (w : W).

Definition happens (c : chain) (e : event) : chain :=
  match e with
  | NewBlock n => mkChain n (contracts c)
  | Sent sender tx => applied sender tx c
  | TokensMove w => mkChain (now c) (with_tokens w (contracts c))
  end.

Definition history (c : chain) (events : list event) : chain := foldl happens c events.

(** Blocks are numbered upwards and arguments are of their types. *)
Definition event_ok (c : chain) (e : event) : Prop :=
  match e with
  | NewBlock n => (now c <= n < 2 ^ 63)%Z
  | Sent _ (ToSafe call) => call_typed call = true
  | Sent _ (ToBridge call) => bridge_call_typed call = true
  | TokensMove _ => True
  end.

Fixpoint history_ok (c : chain) (events : list event) : Prop :=
  match events with
  | [] => True
  | e :: rest => event_ok c e /\ history_ok (happens c e) rest
  end.

#[global] Instance event_ok_dec c e : Decision (event_ok c e).
Proof. destruct e as [|? []|]; cbn [event_ok]; apply _. Defined.

#[global] Instance history_ok_dec c events : Decision (history_ok c events).
Proof. revert c. induction events as [|e rest IH]; intros c; [exact (left I)|]. cbn. apply and_dec; [apply event_ok_dec|apply IH]. Defined.

End Bridge.
Arguments chain W : clear implicits.
Arguments mkChain {W} _ _.
Arguments now {W} _.
Arguments contracts {W} _.
Arguments event W : clear implicits.
Arguments NewBlock {W} _.
Arguments Sent {W} _ _.
Arguments TokensMove {W} _.

End EthBridge.
