(* ===== verification/EthBridgeFacts.v ===== *)
(** * What the contracts on Ethereum guarantee

    Over any history of blocks and transactions: a final batch keeps its contents, its deposits
    are numbered consecutively, and a transfer is executed once, with the signatures of a quorum
    of distinct relayers over exactly that transfer; and how raising the limits reopens a batch. *)
From S2P Require Import Prelude Solidity EnumerableSet EthSafe EthSafeFacts EthBridge.
Import Access.

Module EthBridgeFacts.
Import EnumerableSet Safe SafeFacts EthBridge.

Ltac bridge_inv H :=
  repeat progress (unfold at_access, at_relayers, at_safe in H; sol_step H; try (cbv beta iota in H)).

(** The arguments of a typed transfer can be encoded. *)
Definition transfer_typed (tokens recipients : list address) (amounts nonces : list Z) (n : Z) : Prop :=
  Forall abi_ok [AAddresses recipients; AAddresses tokens; AUints amounts; AUints nonces; AUint n].

Lemma uint_of_uint256 z : uint_of 256 z = true -> is_uint256 z.
Proof. by intros H%uint_of_range. Qed.

Lemma is_uint256_typed z : is_uint256 z -> uint_of 256 z = true.
Proof. intros [H1 H2]. unfold uint_of. by rewrite (proj2 (Z.leb_le _ _)), (proj2 (Z.ltb_lt _ _)). Qed.

Lemma addresses_typed_ok l : addresses_typed l = true -> abi_ok (AAddresses l).
Proof.
  intros [Ha Hl%uint_of_uint256]%andb_true_iff. split; [|done]. apply Forall_forall. intros a Hin.
  apply list_elem_of_In in Hin. eapply forallb_forall in Ha; [|exact Hin]. by apply Nat.eqb_eq.
Qed.

Lemma uints_typed_ok l : uints_typed l = true -> abi_ok (AUints l).
Proof.
  intros [Ha Hl%uint_of_uint256]%andb_true_iff. split; [|done]. apply Forall_forall. intros a Hin.
  apply list_elem_of_In in Hin. eapply forallb_forall in Ha; [|exact Hin]. by apply uint_of_uint256.
Qed.

Lemma transfer_call_typed tokens recipients amounts nonces n sigs :
  bridge_call_typed (ExecuteTransfer tokens recipients amounts nonces n sigs) = true -> transfer_typed tokens recipients amounts nonces n.
Proof.
  cbn. intros [[[[H1 H2]%andb_true_iff H3]%andb_true_iff H4]%andb_true_iff H5]%andb_true_iff.
  apply Forall_cons. split; [by apply addresses_typed_ok|]. apply Forall_cons. split; [by apply addresses_typed_ok|].
  apply Forall_cons. split; [by apply uints_typed_ok|]. apply Forall_cons. split; [by apply uints_typed_ok|].
  apply Forall_singleton. by apply uint_of_uint256.
Qed.

Section Facts.
Context {W : Type} (T : erc20 W) (bridge_address safe_address : address).
Context (keccak256 : bytes -> bytes) (ecrecover : bytes -> Z -> bytes -> bytes -> address).

Abbreviation executeTransfer := (executeTransfer T bridge_address safe_address keccak256 ecrecover).
Abbreviation tx_exec := (tx_exec T bridge_address safe_address keccak256 ecrecover).
Abbreviation happens := (happens T bridge_address safe_address keccak256 ecrecover).
Abbreviation history := (history T bridge_address safe_address keccak256 ecrecover).
Abbreviation history_ok := (history_ok T bridge_address safe_address keccak256 ecrecover).

Lemma bridge_eta (b : bridge W) :
  mkBridge (br_access b) (_relayers b) (batchSettleBlockCount b) (quorum b) (executedBatches b) (crossTransferStatuses b) (br_safe b) = b.
Proof. by destruct b. Qed.

(** The address a signature of [data] belongs to. *)
Definition signer (data signature : bytes) : address :=
  let v := be_val (drop 64 signature) in
  ecrecover data (if (v =? 0)%Z || (v =? 1)%Z then (v + 27)%Z else v) (take 32 signature) (take 32 (drop 32 signature)).

Lemma recover_inv signature data (b b' : bridge W) a :
  _recover ecrecover signature data b = Done a b' -> b' = b /\ length signature = 65 /\ a = signer data signature.
Proof. unfold _recover. intros H. sol_inv H. apply Nat.eqb_eq in Hreq. done. Qed.

(** The relayers whose signatures are counted: distinct, and not counted before. *)
Lemma count_signers_inv data (b : bridge W) (Hzero : isRelayer zero_address b = false) signatures i valid count r b' :
  length valid = (i + length signatures)%nat -> (forall j, (i <= j < length valid)%nat -> valid !! j = Some zero_address) ->
  count_signers ecrecover data i signatures valid count b = Done r b' ->
  b' = b /\ exists signers, NoDup signers /\ r = (count + Z.of_nat (length signers))%Z /\
    forall a, a ∈ signers -> isRelayer a b = true /\ (a ∉ valid) /\ exists sig, sig ∈ signatures /\ length sig = 65 /\ signer data sig = a.
Proof.
  clear keccak256 T bridge_address safe_address.
  revert i valid count. induction signatures as [|sig rest IH]; intros i valid count Hlen Hz H; cbn [count_signers] in H.
  { sol_inv H. split; [done|]. exists []. split; [constructor|]. split; [cbn; lia|]. by intros a ?%not_elem_of_nil. }
  cbn [length] in Hlen. apply sol_bind_inv in H as (pk & b1 & Hr & H). apply recover_inv in Hr as (-> & H65 & ->).
  apply sol_bind_inv in H as (mem & b1 & Hm & H). apply view_inv in Hm as [-> ->].
  destruct (isRelayer (signer data sig) b) eqn:Hrel; cbn [negb] in H.
  2:{ apply IH in H as (-> & signers & Hnd & Hc & Hall); [|lia|intros j Hj; apply Hz; lia].
      split; [done|]. exists signers. split; [done|]. split; [done|]. intros a Ha. destruct (Hall a Ha) as (? & ? & s & ? & ?). set_solver. }
  case_bool_decide as Hin.
  { apply IH in H as (-> & signers & Hnd & Hc & Hall); [|lia|intros j Hj; apply Hz; lia].
    split; [done|]. exists signers. split; [done|]. split; [done|]. intros a Ha. destruct (Hall a Ha) as (? & ? & s & ? & ?). set_solver. }
  apply sol_bind_inv in H as (c' & b1 & Hc' & H). apply checked_inv in Hc' as (-> & -> & _).
  apply IH in H as (-> & signers & Hnd & Hc & Hall).
  2:{ rewrite length_insert. lia. }
  2:{ intros j Hj. rewrite length_insert in Hj. rewrite list_lookup_insert_ne by lia. apply Hz. lia. }
  assert (Hnew : signer data sig ∈ <[i:=signer data sig]> valid).
  { apply (list_elem_of_lookup_2 _ i). apply list_lookup_insert_eq. lia. }
  split; [done|]. exists (signer data sig :: signers). split; [|split; [cbn; lia|]].
  - apply NoDup_cons. split; [|done]. intros Hs. by destruct (Hall _ Hs) as (_ & Hn & _).
  - intros a [->|Ha]%elem_of_cons.
    + split; [done|]. split; [done|]. exists sig. set_solver.
    + destruct (Hall a Ha) as (Hra & Hn & s & Hs & Hs'). split; [done|]. split; [|exists s; set_solver].
      intros [j Hj]%list_elem_of_lookup. apply Hn, (list_elem_of_lookup_2 _ j).
      destruct (decide (j = i)) as [->|Hne]; [|by rewrite list_lookup_insert_ne].
      rewrite Hz in Hj by (apply lookup_lt_Some in Hj; lia). injection Hj as <-. congruence.
Qed.

(** A quorum: distinct relayers of [b], one signature each. *)
Definition quorum_signed (b : bridge W) (data : bytes) (signatures : list bytes) : Prop :=
  exists signers, NoDup signers /\ (quorum b <= Z.of_nat (length signers))%Z /\
    forall a, a ∈ signers -> isRelayer a b = true /\ exists sig, sig ∈ signatures /\ length sig = 65 /\ signer data sig = a.

Lemma validateQuorum_inv signatures data (b b' : bridge W) u :
  isRelayer zero_address b = false -> _validateQuorum ecrecover signatures data b = Done u b' -> b' = b /\ quorum_signed b data signatures.
Proof.
  intros Hz. unfold _validateQuorum. intros H. sol_inv H.
  apply count_signers_inv in Hc as (-> & signers & Hnd & -> & Hall); [|done|by rewrite length_replicate|].
  - split; [done|]. exists signers. split; [done|]. apply Z.leb_le in Hreq. split; [lia|].
    intros a Ha. destruct (Hall a Ha) as (? & _ & ?). done.
  - intros j Hj. rewrite length_replicate in Hj. apply lookup_replicate_2. lia.
Qed.

(** What the transfers do: they change the tokens and their balances only. *)
Lemma transfer_all_inv m j tokens amounts recipients (b b' : bridge W) sts :
  transfer_all T bridge_address safe_address m j tokens amounts recipients b = Done sts b' ->
  length sts = length tokens /\ (j + length tokens <= length amounts \/ tokens = []) /\ (j + length tokens <= length recipients \/ tokens = []) /\
  exists acc w, b' = mkBridge (br_access b) (_relayers b) (batchSettleBlockCount b) (quorum b) (executedBatches b) (crossTransferStatuses b)
    (mkSafe (s_access (br_safe b)) (_bridge (br_safe b)) (s_limits (br_safe b)) (s_ledger (br_safe b)) acc w) /\
    whitelistedTokens acc = whitelistedTokens (s_accounts (br_safe b)) /\ serviceFees acc = serviceFees (s_accounts (br_safe b)).
Proof.
  revert j b sts. induction tokens as [|t tokens IH]; intros j b sts H; cbn [transfer_all] in H; bridge_inv H.
  { split; [done|]. split; [by right|]. split; [by right|]. exists (s_accounts (br_safe b)), (s_tokens (br_safe b)).
    by rewrite safe_eta, bridge_eta. }
  apply transfer_inv in Hp as (r & w & _ & _ & _ & ->). apply IH in Hc as (Hl & Ha & Hr & acc & w' & -> & Hw & Hf).
  apply lookup_lt_Some in Hidx, Hidx0. cbn in *. split; [lia|]. split; [left; destruct Ha; subst; cbn in *; lia|].
  split; [left; destruct Hr; subst; cbn in *; lia|]. exists acc, w'. split; [done|]. rewrite Hw, Hf. by destruct a1.
Qed.
(** What a successful [executeTransfer] has checked and does. *)
Lemma executeTransfer_inv m tokens recipients amounts nonces n signatures (b b' : bridge W) u :
  isRelayer zero_address b = false -> executeTransfer m tokens recipients amounts nonces n signatures b = Done u b' ->
  _paused (br_access b) = false /\ isRelayer (msg_sender m) b = true /\ (n ∉ executedBatches b) /\
  quorum_signed b (transfer_hash keccak256 tokens recipients amounts nonces n) signatures /\
  exists sts acc w, length sts = length tokens /\
    b' = mkBridge (br_access b) (_relayers b) (batchSettleBlockCount b) (quorum b) ({[n]} ∪ executedBatches b)
      (<[n := mkCross sts (block_number m)]> (crossTransferStatuses b))
      (mkSafe (s_access (br_safe b)) (_bridge (br_safe b)) (s_limits (br_safe b)) (s_ledger (br_safe b)) acc w) /\
    whitelistedTokens acc = whitelistedTokens (s_accounts (br_safe b)) /\ serviceFees acc = serviceFees (s_accounts (br_safe b)).
Proof.
  intros Hz. unfold executeTransfer, onlyRelayer, whenNotPaused. intros H. bridge_inv H.
  cbn in Hc. apply validateQuorum_inv in Hc as [-> Hq]; [|done].
  apply transfer_all_inv in Hc0 as (Hlen & _ & _ & acc & w & -> & Hw & Hf). cbn in *.
  apply negb_true_iff in Hreq, Hreq2. apply bool_decide_eq_false in Hreq2.
  split_and!; try done. by exists a5, acc, w.
Qed.
(** ** The invariant *)

Record roles_ok (b : bridge W) : Prop := {
  ro_relayers : set_wf (_relayers b);
  ro_zero : zero_address ∉ _values (_relayers b);
  ro_quorum : (1 <= quorum b)%Z;
  ro_executed n : n ∈ executedBatches b <-> is_Some (crossTransferStatuses b !! n)
}.

Lemma zero_no_relayer b : roles_ok b -> isRelayer zero_address b = false.
Proof using Type. intros [Hw Hz _ _]. unfold isRelayer. rewrite contains_spec by done. by apply bool_decide_eq_false. Qed.

(** The batch a call executes. *)
Definition executes (c : bridge_call) : gset Z := match c with ExecuteTransfer _ _ _ _ n _ => {[n]} | _ => ∅ end.

Lemma addRelayer_ok a b u b' : roles_ok b -> _addRelayer a b = Done u b' ->
  roles_ok b' /\ br_safe b' = br_safe b /\ executedBatches b' = executedBatches b.
Proof using Type.
  intros [Hw Hz Hq He] H. unfold _addRelayer in H. bridge_inv H. apply negb_true_iff, bool_decide_eq_false in Hreq.
  destruct (add_spec (_relayers b) a Hw) as (set' & Hadd & Hw' & Hv). rewrite Hadd in Hp. injection Hp as _ <-. cbn.
  split; [|done]. split; try done. cbn. rewrite Hv. case_bool_decide; [done|]. rewrite elem_of_app, list_elem_of_singleton. by intros [?|<-].
Qed.

Lemma removeRelayer_ok a b u b' : roles_ok b -> _removeRelayer a b = Done u b' ->
  roles_ok b' /\ br_safe b' = br_safe b /\ executedBatches b' = executedBatches b.
Proof using Type.
  intros [Hw Hz Hq He] H. unfold _removeRelayer in H. bridge_inv H.
  apply remove_keeps_wf in Hp as [Hw' Hv]; [|done]. cbn. split; [|done]. split; try done. cbn. intros Hin. by apply Hz, Hv.
Qed.

(** A call to the bridge leaves the deposits alone and records what it executed. *)
Lemma bridge_exec_frame m c (b b' : bridge W) u :
  roles_ok b -> bridge_exec T bridge_address safe_address keccak256 ecrecover m c b = Done u b' ->
  roles_ok b' /\ s_ledger (br_safe b') = s_ledger (br_safe b) /\ s_limits (br_safe b') = s_limits (br_safe b) /\
  executedBatches b' = executes c ∪ executedBatches b /\ executes c ## executedBatches b.
Proof.
  intros Hr H. pose proof Hr as [Hw Hz Hq He].
  destruct c; cbn [bridge_exec executes] in *;
    try (unfold renounceAdmin, transferAdmin, pause, unpause, setQuorum, bridge_setBatchSettleLimit in H; bridge_inv H; cbn;
         try (apply isAnyBatch_same in Hp1 as ->); cbn; split; [split; cbn; done|]; split_and!; set_solver).
  - unfold addRelayer in H. bridge_inv H. apply onlyAdmin_same in Hp as ->. rewrite bridge_eta in H.
    apply addRelayer_ok in H as (? & -> & ->); [|done]. split_and!; set_solver.
  - unfold removeRelayer in H. bridge_inv H. apply onlyAdmin_same in Hp as ->. rewrite bridge_eta in H.
    apply removeRelayer_ok in H as (? & -> & ->); [|done]. split_and!; set_solver.
  - unfold renounceRelayer in H. bridge_inv H. apply removeRelayer_ok in H as (? & -> & ->); [|done]. split_and!; set_solver.
  - unfold setQuorum in H. bridge_inv H. apply Z.leb_le in Hreq. cbn. split; [split; cbn; done|]. split_and!; set_solver.
  - apply executeTransfer_inv in H as (_ & _ & Hn & _ & sts & acc & w & _ & -> & _); [|by apply zero_no_relayer]. cbn.
    split; [|split_and!; set_solver]. split; cbn; try done. intros k. rewrite lookup_insert_is_Some, elem_of_union, elem_of_singleton, He.
    destruct (decide (batchNonceElrondETH = k)); naive_solver.
Qed.
(** ** Chains *)

Abbreviation deposits_of c := (br_safe (contracts c)) (only parsing).
Abbreviation ledger_of c := (s_ledger (br_safe (contracts c))) (only parsing).
Abbreviation limits_of c := (s_limits (br_safe (contracts c))) (only parsing).

Record chain_ok (c : chain W) : Prop := {
  ck_now : (0 <= now c < 2 ^ 63)%Z;
  ck_ledger : ledger_ok (now c) (ledger_of c);
  ck_limits : limits_ok (limits_of c);
  ck_roles : roles_ok (contracts c)
}.

(** The batch an event executes, if it succeeds. *)
Definition event_executes (e : event W) : gset Z := match e with Sent _ (ToBridge c) => executes c | _ => ∅ end.

(** An event either changes the executed batches by the one it executes, or not at all. *)
Lemma happens_keeps c e : chain_ok c -> event_ok c e ->
  chain_ok (happens c e) /\ (now c <= now (happens c e))%Z /\
  (batchesCount (ledger_of c) <= batchesCount (ledger_of (happens c e)))%Z /\
  (forall i, final_at (now c) (deposits_of c) i -> same_batch i (ledger_of c) (ledger_of (happens c e))) /\
  (executedBatches (contracts (happens c e)) = executedBatches (contracts c) \/
   exists sender tx u, e = Sent sender tx /\ tx_exec (chain_msg sender c) tx (contracts c) = Done u (contracts (happens c e)) /\
     executedBatches (contracts (happens c e)) = event_executes e ∪ executedBatches (contracts c) /\
     event_executes e ## executedBatches (contracts c)).
Proof.
  intros [Hn Hl Hlim Hr] He. destruct e as [n|sender tx|w].
  - cbn in *. split; [split; cbn; try done; [lia|eapply ledger_ok_later; [done|lia]]|]. split; [lia|]. split; [lia|]. split; [done|by left].
  - cbn [happens]. unfold applied.
    destruct (tx_exec (chain_msg sender c) tx (contracts c)) as [u b'|r] eqn:Htx; cycle 1.
    { split; [by split|]. split; [lia|]. split; [lia|]. split; [done|by left]. }
    destruct tx as [call|call]; cbn [tx_exec now contracts] in *.
    + pose proof Htx as Htx'. apply bridge_exec_frame in Htx as (Hr' & Hle & Hli & Hex & Hd); [|done].
      split; [split; cbn; rewrite ?Hle, ?Hli; done|]. split; [lia|]. rewrite Hle. split; [lia|]. split; [done|].
      right. by exists sender, (ToBridge call), u.
    + unfold at_safe in Htx. apply at_part_inv in Htx as (p & Hp & ->). cbn.
      apply (exec_keeps T safe_address _ _ (now c)) in Hp as (Hl' & Hlim' & Hc' & Hsame); try done; cbn in *; try lia.
      split; [split; cbn; try done; destruct Hr; by split|]. split; [lia|]. split; [lia|]. split; [done|by left].
  - cbn. split; [split; cbn; try done; destruct Hr; by split|]. split; [lia|]. split; [lia|]. split; [done|by left].
Qed.

Lemma history_keeps c events : chain_ok c -> history_ok c events -> chain_ok (history c events).
Proof.
  revert c. induction events as [|e rest IH]; intros c Hc H; [done|]. destruct H as [He H].
  apply IH; [|done]. by apply happens_keeps.
Qed.

Lemma history_app c l1 l2 : history c (l1 ++ l2) = history (history c l1) l2.
Proof. apply foldl_app. Qed.

Lemma history_ok_app c l1 l2 : history_ok c (l1 ++ l2) <-> history_ok c l1 /\ history_ok (history c l1) l2.
Proof.
  revert c. induction l1 as [|e l1 IH]; intros c; cbn; [naive_solver|]. rewrite IH. naive_solver.
Qed.

(** *** Deployment *)

Lemma addRelayers_ok l (b : bridge W) u b' : set_wf (_relayers b) -> (zero_address ∉ _values (_relayers b)) ->
  _addRelayers l b = Done u b' -> set_wf (_relayers b') /\ (zero_address ∉ _values (_relayers b')) /\ br_safe b' = br_safe b /\
    executedBatches b' = executedBatches b /\ crossTransferStatuses b' = crossTransferStatuses b.
Proof using Type.
  revert b. induction l as [|a l IH]; intros b Hw Hz H; cbn [_addRelayers] in H; [by sol_inv H|].
  apply sol_bind_inv in H as (? & b1 & H1 & H). unfold _addRelayer in H1. bridge_inv H1.
  apply negb_true_iff, bool_decide_eq_false in Hreq.
  destruct (add_spec (_relayers b) a Hw) as (set' & Hadd & Hw' & Hv). rewrite Hadd in Hp. injection Hp as _ <-.
  apply IH in H as (? & ? & -> & -> & ->); cbn; try done.
  rewrite Hv. case_bool_decide; [done|]. rewrite elem_of_app, list_elem_of_singleton. by intros [?|<-].
Qed.

(** The chain on which the two contracts were just deployed. *)
Definition deployed_chain (c : chain W) : Prop := exists m admin_ w board q u,
  block_number m = now c /\ (0 <= now c < 2 ^ 63)%Z /\ constructor m board q (new_safe admin_ w) = Done u (contracts c).

Lemma deployed_ok c : deployed_chain c -> chain_ok c.
Proof using Type.
  intros (m & ad & w & board & q & u & Hm & Hn & H). unfold constructor in H. bridge_inv H.
  apply addRelayers_ok in Hc as (Hw & Hz & Hs & He & Hcr); [|apply empty_wf|set_solver].
  subst. destruct c as [n b]. cbn in *. subst b. split; cbn; rewrite ?Hs; cbn; try done.
  - apply new_ledger_ok.
  - split; cbn; try done. + by apply Z.leb_le in Hreq. + intros k. rewrite He, Hcr, lookup_empty. split; [set_solver|by intros []].
Qed.
Lemma deployed_fresh (c : chain W) n : deployed_chain c -> n ∉ executedBatches (contracts c).
Proof using Type.
  intros (m & ad & w & board & q & u & _ & _ & H). unfold constructor in H. bridge_inv H.
  apply addRelayers_ok in Hc as (_ & _ & _ & He & _); [|apply empty_wf|set_solver]. rewrite H. cbn. rewrite He. set_solver.
Qed.

(** *** What the queries answer *)

Definition batch_query (n : Z) (c : chain W) : option Batch := query (fun m => bridge_getBatch bridge_address m n) c.
Definition deposits_query (n : Z) (c : chain W) : option (list Deposit) := query (fun m => getBatchDeposits bridge_address m n) c.

Definition is_final (c : chain W) (i : Z) : bool :=
  ((0 <=? i) && (i <? batchesCount (ledger_of c)) &&
   (b_lastUpdatedBlockNumber (batch_at (ledger_of c) i) + batchSettleLimit (limits_of c) <? now c))%Z.

Lemma is_final_spec c i : is_final c i = true <-> final_at (now c) (deposits_of c) i.
Proof using Type. unfold is_final, final_at. by rewrite !andb_true_iff, Z.leb_le, !Z.ltb_lt. Qed.

Lemma no_batch_outside c i : chain_ok c -> (batchesCount (ledger_of c) <= i)%Z ->
  batch_at (ledger_of c) i = no_batch /\ deposits_at (ledger_of c) i = [].
Proof.
  intros Hc Hi. pose proof (ck_ledger _ Hc) as Hl. unfold batch_at, deposits_at. split.
  - destruct (batches _ !! i) eqn:E; [|done]. assert (is_Some (batches (ledger_of c) !! i)) as H by (by eexists). apply (lo_batches _ _ Hl) in H. lia.
  - destruct (batchDeposits _ !! i) eqn:E; [|done]. assert (is_Some (batchDeposits (ledger_of c) !! i)) as H by (by eexists). apply (lo_deposits _ _ Hl) in H. lia.
Qed.

(** The finality check does not overflow. *)
Lemma isBatchFinal_run c m i : chain_ok c ->
  _isBatchFinal m (batch_at (ledger_of c) i) (deposits_of c) =
    Done (b_lastUpdatedBlockNumber (batch_at (ledger_of c) i) + batchSettleLimit (limits_of c) <? block_number m)%Z (deposits_of c).
Proof.
  intros Hc. destruct (ck_limits _ Hc) as (H1 & H2 & _). destruct (ck_now _ Hc) as [H3 H4].
  assert (0 <= b_lastUpdatedBlockNumber (batch_at (ledger_of c) i) <= now c)%Z as Hb.
  { unfold batch_at. destruct (batches _ !! i) as [b|] eqn:E; [|cbn; lia].
    destruct (lo_batch _ _ (ck_ledger _ Hc) _ _ E) as (_ & _ & _ & ? & ?). cbn. lia. }
  unfold _isBatchFinal, mbind, Sol_bind, view. rewrite checked_ok by lia. done.
Qed.

(** Both queries answer for every nonce from one on: the batch if it is final, and nothing
    otherwise. *)
Lemma queries_spec c n : chain_ok c -> (0 < n < 2 ^ 256)%Z ->
  batch_query n c = Some (if is_final c (n - 1) then batch_at (ledger_of c) (n - 1) else no_batch) /\
  deposits_query n c = Some (if is_final c (n - 1) then deposits_at (ledger_of c) (n - 1) else []).
Proof.
  intros Hc Hn. pose proof (lo_counts _ _ (ck_ledger _ Hc)) as [Hcount _].
  assert (Hout : (batchesCount (ledger_of c) <= n - 1)%Z -> is_final c (n - 1) = false).
  { intros H. unfold is_final. apply andb_false_iff. left. apply andb_false_iff. right. by apply Z.ltb_ge. }
  assert (Hin : (n - 1 < batchesCount (ledger_of c))%Z -> is_final c (n - 1) =
      (b_lastUpdatedBlockNumber (batch_at (ledger_of c) (n - 1)) + batchSettleLimit (limits_of c) <? now c)%Z).
  { intros H. unfold is_final. rewrite (proj2 (Z.leb_le _ _)), (proj2 (Z.ltb_lt _ _)) by lia. done. }
  unfold batch_query, deposits_query, query, bridge_getBatch, getBatchDeposits, getBatch, getDeposits, at_safe, at_part.
  unfold mbind, Sol_bind. rewrite checked_ok by lia. unfold view.
  rewrite (isBatchFinal_run c (from_bridge bridge_address (chain_msg zero_address c)) (n - 1) Hc). cbn [from_bridge block_number chain_msg].
  destruct (no_batch_outside c (2 ^ 256 - 1) Hc) as [_ Hmax]; [lia|].
  destruct (decide (n - 1 < batchesCount (ledger_of c))%Z) as [H|H].
  - rewrite Hin by done. destruct (_ <? now c)%Z; [done|]. by rewrite Hmax.
  - destruct (no_batch_outside c (n - 1) Hc) as [Hb Hd]; [lia|]. rewrite Hout, Hb by lia.
    destruct (b_lastUpdatedBlockNumber no_batch + batchSettleLimit (limits_of c) <? now c)%Z; cbv beta iota delta [mret Sol_ret]; by rewrite ?Hd, ?Hmax.
Qed.

Lemma seqZ_app_inv a n (l1 l2 : list Z) : l1 ++ l2 = seqZ a n ->
  l1 = seqZ a (Z.of_nat (length l1)) /\ l2 = seqZ (a + Z.of_nat (length l1)) (Z.of_nat (length l2)).
Proof.
  intros H. assert (length (seqZ a n) = length l1 + length l2) as Hlen by (by rewrite <-H, length_app).
  rewrite length_seqZ in Hlen. destruct (decide (n <= 0)%Z) as [Hn|Hn].
  { destruct l1, l2; cbn in *; try lia. done. }
  replace n with (Z.of_nat (length l1) + Z.of_nat (length l2))%Z in H by lia.
  rewrite seqZ_app in H by lia. apply app_inj_1 in H as [H1 H2]; [done|]. by rewrite length_seqZ, Nat2Z.id.
Qed.

(** The deposits of the batches before the [i]-th. *)
Definition deposits_before (l : ledger) (i : Z) : Z := Z.of_nat (length (concat (deposits_at l <$> seqZ 0 i))).

Lemma batch_nonces t l i : ledger_ok t l -> (0 <= i < batchesCount l)%Z ->
  d_nonce <$> deposits_at l i = seqZ (deposits_before l i + 1) (Z.of_nat (length (deposits_at l i))).
Proof.
  intros Hl Hi. pose proof (lo_nonces _ _ Hl) as Hn. unfold deposit_nonces in Hn.
  replace (batchesCount l) with (i + 1 + (batchesCount l - i - 1))%Z in Hn by lia.
  rewrite seqZ_app, seqZ_snoc in Hn by lia. rewrite !fmap_app, !concat_app in Hn. cbn [fmap list_fmap concat] in Hn. rewrite app_nil_r in Hn.
  apply seqZ_app_inv in Hn as [Hn _]. apply seqZ_app_inv in Hn as [_ Hn].
  replace (0 + i)%Z with i in Hn by lia. rewrite length_fmap in Hn. rewrite Hn. f_equal. unfold deposits_before. rewrite Z.add_comm. f_equal. f_equal.
  rewrite !length_concat. f_equal. rewrite <-!list_fmap_compose. apply list_fmap_ext. intros j x _. cbn. by rewrite length_fmap.
Qed.
Lemma batch_query_range n c b : batch_query n c = Some b -> (0 < n < 2 ^ 256 + 1)%Z.
Proof using Type.
  unfold batch_query, query, bridge_getBatch, getBatch, at_safe, at_part. unfold mbind at 1, Sol_bind at 1.
  destruct (checked 256 (n - 1) (deposits_of c)) as [i s|] eqn:E; [|done]. apply checked_inv in E as (_ & _ & H). lia.
Qed.

(** A batch the bridge has handed out. *)
Lemma served_final n c b : chain_ok c -> (n < 2 ^ 256)%Z -> batch_query n c = Some b -> (b_nonce b <> 0)%Z ->
  (0 < n)%Z /\ final_at (now c) (deposits_of c) (n - 1) /\ b = batch_at (ledger_of c) (n - 1).
Proof using Type.
  intros Hc Hn Hb Hne. pose proof (batch_query_range _ _ _ Hb) as Hr. destruct (queries_spec c n Hc) as [Hq _]; [lia|].
  rewrite Hq in Hb. destruct (is_final c (n - 1)) eqn:Hf; [|by injection Hb as <-].
  apply is_final_spec in Hf. injection Hb as <-. split; [lia|done].
Qed.

(** ** Handed out batches *)

(** The settle limit is not raised by any of the events. *)
Fixpoint settle_not_raised (c : chain W) (events : list (event W)) : Prop :=
  match events with
  | [] => True
  | e :: rest =>
      (batchSettleLimit (limits_of (happens c e)) <= batchSettleLimit (limits_of c))%Z /\ settle_not_raised (happens c e) rest
  end.

#[global] Instance settle_not_raised_dec c events : Decision (settle_not_raised c events).
Proof. revert c. induction events as [|e rest IH]; intros c; [exact (left I)|]. cbn. apply and_dec; [apply _|apply IH]. Defined.

Lemma final_stays c e i : chain_ok c -> event_ok c e ->
  (batchSettleLimit (limits_of (happens c e)) <= batchSettleLimit (limits_of c))%Z -> final_at (now c) (deposits_of c) i ->
  final_at (now (happens c e)) (deposits_of (happens c e)) i /\ same_batch i (ledger_of c) (ledger_of (happens c e)).
Proof.
  intros Hc He Hs Hf. destruct (happens_keeps c e Hc He) as (_ & Hnow & Hcount & Hsame & _).
  destruct (Hsame i Hf) as [Hb Hd]. destruct Hf as [Hi Hf]. split; [|done]. split; [lia|]. rewrite Hb. lia.
Qed.

Lemma final_history c events i : chain_ok c -> history_ok c events -> settle_not_raised c events ->
  final_at (now c) (deposits_of c) i ->
  final_at (now (history c events)) (deposits_of (history c events)) i /\ same_batch i (ledger_of c) (ledger_of (history c events)).
Proof.
  revert c. induction events as [|e rest IH]; intros c Hc Hh Hs Hf; [done|]. destruct Hh as [He Hh]. destruct Hs as [Hs1 Hs].
  destruct (final_stays c e i Hc He Hs1 Hf) as [Hf' [Hb Hd]].
  destruct (IH (happens c e)) as [Hf2 [Hb2 Hd2]]; try done; [by apply happens_keeps|].
  split; [done|]. split; [by rewrite <-Hb|by rewrite <-Hd].
Qed.
(** ** A batch that is taken back *)

Definition put_safe (s : safe W) (b : bridge W) : bridge W :=
  mkBridge (br_access b) (_relayers b) (batchSettleBlockCount b) (quorum b) (executedBatches b) (crossTransferStatuses b) s.

Lemma happens_safe c sender call s' u :
  exec T safe_address (chain_msg sender c) call (deposits_of c) = Done u s' ->
  happens c (Sent sender (ToSafe call)) = mkChain (now c) (put_safe s' (contracts c)).
Proof using Type. intros H. cbn. unfold applied. cbn [tx_exec]. unfold at_safe, at_part. by rewrite H. Qed.

(** What the admin sends to change the two limits, and the safe afterwards. *)
Definition change_limits (admin_ : address) (settle block : Z) : list (event W) :=
  [Sent admin_ (ToSafe Pause); Sent admin_ (ToSafe (SetBatchSettleLimit settle)); Sent admin_ (ToSafe (SetBatchBlockLimit block));
   Sent admin_ (ToSafe Unpause)].

Definition limits_changed (settle block : Z) (s : safe W) : safe W :=
  let l := s_limits s in
  mkSafe (mkAccess (_admin (s_access s)) false) (_bridge s)
    (mkLimits (batchSize l) (serviceFeePercentage l) (maxServiceFee l) block settle (serviceFeeReceiver l))
    (s_ledger s) (s_accounts s) (s_tokens s).

(** Once the last batch is final, no batch is in progress. *)
Lemma final_idle m (s : safe W) : ledger_ok (block_number m) (s_ledger s) -> limits_ok (s_limits s) -> (0 <= block_number m < 2 ^ 63)%Z ->
  final_at (block_number m) s (batchesCount (s_ledger s) - 1) -> isAnyBatchInProgress m s = Done false s.
Proof using Type.
  intros Hl (Hlim & Hlim' & _) Hm [Hi Hf]. pose proof (lo_counts _ _ Hl) as [Hc _].
  destruct (lo_batch _ _ Hl _ _ (batch_at_some _ _ _ Hl Hi)) as (_ & _ & H1 & H2 & H3).
  assert (Hnz : (batchesCount (s_ledger s) =? 0)%Z = false) by (apply Z.eqb_neq; lia).
  assert (Hover : _isBatchProgessOver m (b_depositsCount (batch_at (s_ledger s) (batchesCount (s_ledger s) - 1)))
      (b_blockNumber (batch_at (s_ledger s) (batchesCount (s_ledger s) - 1))) s = Done true s).
  { unfold _isBatchProgessOver. rewrite (proj2 (Z.eqb_neq _ _)) by lia. unfold mbind, Sol_bind, view. rewrite checked_ok by lia.
    unfold mret, Sol_ret. f_equal. apply Z.ltb_lt. lia. }
  assert (Hnew : _shouldCreateNewBatch m s = Done true s).
  { unfold _shouldCreateNewBatch, mbind, Sol_bind, view. rewrite Hnz, checked_ok by lia. by rewrite Hover. }
  unfold isAnyBatchInProgress, mbind, Sol_bind, view. rewrite Hnz, checked_ok by lia. rewrite Hnew. cbn [negb].
  unfold _isBatchFinal, mbind, Sol_bind, view. rewrite checked_ok by lia. unfold mret, Sol_ret. by rewrite (proj2 (Z.ltb_lt _ _)) by lia.
Qed.

Lemma change_limits_run c settle block :
  chain_ok c -> final_at (now c) (deposits_of c) (batchesCount (ledger_of c) - 1) ->
  (batchBlockLimit (limits_of c) <= settle)%Z -> (block <= settle)%Z ->
  history c (change_limits (_admin (s_access (deposits_of c))) settle block) =
    mkChain (now c) (put_safe (limits_changed settle block (deposits_of c)) (contracts c)).
Proof using Type.
  intros Hc Hf Hs Hb. unfold EthBridge.history, change_limits. cbn [foldl].
  erewrite (happens_safe c); cycle 1.
  { cbn [exec]. unfold on_access, at_part, pause, onlyAdmin, mbind, Sol_bind, view, require, admin. cbn. by rewrite bool_decide_eq_true_2. }
  erewrite (happens_safe (mkChain _ _)); cycle 1.
  { cbn [exec contracts put_safe br_safe]. unfold setBatchSettleLimit, on_access, at_part, onlyAdmin, whenPaused, mbind, Sol_bind, view, require, admin. cbn.
    rewrite bool_decide_eq_true_2 by done. cbn. rewrite final_idle; [|apply (ck_ledger _ Hc)|apply (ck_limits _ Hc)|apply (ck_now _ Hc)|exact Hf].
    cbn. rewrite (proj2 (Z.leb_le _ _)) by done. done. }
  erewrite (happens_safe (mkChain _ _)); cycle 1.
  { cbn [exec contracts put_safe br_safe]. unfold setBatchBlockLimit, on_access, at_part, onlyAdmin, mbind, Sol_bind, view, require, admin. cbn.
    rewrite bool_decide_eq_true_2 by done. cbn. rewrite (proj2 (Z.leb_le _ _)) by done. done. }
  erewrite (happens_safe (mkChain _ _)); cycle 1.
  { cbn [exec contracts put_safe br_safe]. unfold on_access, at_part, unpause, onlyAdmin, mbind, Sol_bind, view, require, admin. cbn.
    by rewrite bool_decide_eq_true_2. }
  done.
Qed.
End Facts.

(** C7. A batch of deposits that the bridge has handed out once never changes: whatever
    transactions follow and however many blocks, as long as the settle limit is not raised, the
    bridge answers with the same batch and the same deposits. *)
Theorem served_batch_immutable {W} (T : erc20 W) (bridge_address safe_address : address) keccak256 ecrecover
    (c0 : chain W) (earlier later : list (event W)) (n : Z) (b : Batch) :
  let happened := history T bridge_address safe_address keccak256 ecrecover in
  deployed_chain c0 -> history_ok T bridge_address safe_address keccak256 ecrecover c0 (earlier ++ later) ->
  settle_not_raised T bridge_address safe_address keccak256 ecrecover (happened c0 earlier) later -> (n < 2 ^ 256)%Z ->
  batch_query bridge_address n (happened c0 earlier) = Some b -> (b_nonce b <> 0)%Z ->
  batch_query bridge_address n (happened c0 (earlier ++ later)) = Some b /\
  deposits_query bridge_address n (happened c0 (earlier ++ later)) = deposits_query bridge_address n (happened c0 earlier).
Proof.
  intros happened. subst happened. intros H0 [Hh1 Hh2]%history_ok_app Hs Hn Hb Hne. rewrite history_app.
  set (c1 := history _ _ _ _ _ c0 earlier) in *. assert (Hc1 : chain_ok c1) by (apply history_keeps; [by apply deployed_ok|done]).
  destruct (served_final bridge_address n _ b Hc1 Hn Hb Hne) as (Hn0 & Hf & ->).
  destruct (final_history T bridge_address safe_address keccak256 ecrecover _ later _ Hc1 Hh2 Hs Hf) as [Hf2 [Hb2 Hd2]].
  pose proof (history_keeps T bridge_address safe_address keccak256 ecrecover c1 later Hc1 Hh2) as Hc2.
  destruct (queries_spec bridge_address _ n Hc2) as [-> ->]; [lia|]. destruct (queries_spec bridge_address _ n Hc1) as [_ ->]; [lia|].
  apply is_final_spec in Hf, Hf2. rewrite Hf2, Hf. by rewrite Hb2, Hd2.
Qed.

(** C31. What the bridge hands out after any history since its deployment: batch [n] is numbered
    [n], its count is the number of its deposits, between 1 and 100, and the deposits are
    numbered consecutively across all batches, without a gap and without a repetition. *)
Theorem served_batch_contents {W} (T : erc20 W) (bridge_address safe_address : address) keccak256 ecrecover
    (c0 : chain W) (events : list (event W)) (n : Z) (b : Batch) :
  let c := history T bridge_address safe_address keccak256 ecrecover c0 events in
  deployed_chain c0 -> history_ok T bridge_address safe_address keccak256 ecrecover c0 events -> (n < 2 ^ 256)%Z ->
  batch_query bridge_address n c = Some b -> (b_nonce b <> 0)%Z ->
  b_nonce b = n /\ exists ds, deposits_query bridge_address n c = Some ds /\ b_depositsCount b = Z.of_nat (length ds) /\
    1 <= length ds <= 100 /\ d_nonce <$> ds = seqZ (deposits_before (s_ledger (br_safe (contracts c))) (n - 1) + 1) (Z.of_nat (length ds)).
Proof.
  intros c H0 Hh Hn Hb Hne. assert (Hc : chain_ok c) by (apply history_keeps; [by apply deployed_ok|done]).
  destruct (served_final bridge_address n _ b Hc Hn Hb Hne) as (Hn0 & Hf & ->).
  destruct (queries_spec bridge_address _ n Hc) as [_ Hd]; [lia|]. pose proof Hf as Hf'. apply is_final_spec in Hf'. rewrite Hf' in Hd.
  destruct Hf as [Hi _]. pose proof (ck_ledger _ Hc) as Hl.
  destruct (lo_batch _ _ Hl _ _ (batch_at_some _ _ _ Hl Hi)) as (H1 & H2 & H3 & _). split; [lia|].
  eexists. split; [exact Hd|]. split; [done|]. split; [unfold maxBatchSize in H3; lia|]. by eapply batch_nonces.
Qed.
(** After the limits were changed, the last batch is not full and not over: the next deposit goes
    into it. *)
Lemma reopened_takes_deposit {W} (T : erc20 W) (safe_address : address) m (s s' : safe W) settle block tok amount rcp u :
  ledger_ok (block_number m) (s_ledger s) -> (0 <= block_number m < 2 ^ 63)%Z -> (0 < batchesCount (s_ledger s))%Z ->
  (b_depositsCount (batch_at (s_ledger s) (batchesCount (s_ledger s) - 1)) < batchSize (s_limits s))%Z ->
  (block_number m <= b_blockNumber (batch_at (s_ledger s) (batchesCount (s_ledger s) - 1)) + block)%Z ->
  deposit T safe_address m tok amount rcp (limits_changed settle block s) = Done u s' ->
  exists d, d_depositor d = msg_sender m /\ d_tokenAddress d = tok /\ d_recipient d = rcp /\
    s_limits s' = s_limits (limits_changed settle block s) /\
    s_ledger s' = deposited (block_number m) (batchesCount (s_ledger s) - 1) d (s_ledger s).
Proof.
  intros Hl Hm Hn Hroom Hblock H. eapply deposit_inv in H as (fee & dec & w1 & w2 & _ & _ & _ & _ & _ & _ & _ & ->); [|exact Hl|done].
  cbn [s_ledger s_limits]. eexists. split; [|split; [|split; [|split; [reflexivity|]]]]; cycle 3.
  - f_equal. unfold opens_batch. cbn. rewrite (proj2 (Z.eqb_neq _ 0)), (proj2 (Z.ltb_ge _ _)), (proj2 (Z.leb_gt _ _)) by lia.
    by rewrite andb_false_r.
  - done.
  - done.
  - done.
Qed.

Section Reopened.
Context {W : Type} (T : erc20 W) (bridge_address safe_address : address).
Context (keccak256 : bytes -> bytes) (ecrecover : bytes -> Z -> bytes -> bytes -> address).
Context (c : chain W) (settle block : Z) (Hc : chain_ok c).
Local Abbreviation s := (br_safe (contracts c)).
Local Abbreviation n := (batchesCount (s_ledger s)).
Local Abbreviation last := (batch_at (s_ledger s) (n - 1)).
Local Abbreviation c1 := (mkChain (now c) (put_safe (limits_changed settle block s) (contracts c))).
Context (Hfinal : final_at (now c) s (n - 1)) (Hsettle : (settle < 256)%Z) (Hblock : (0 <= block <= settle)%Z).
Context (Hroom : (b_depositsCount last < batchSize (s_limits s))%Z) (Hnow : (now c <= b_blockNumber last + block)%Z).

Lemma reopened_ok : chain_ok c1.
Proof using Hc Hsettle Hblock.
  split; cbn; [apply (ck_now _ Hc)|apply (ck_ledger _ Hc)| |destruct (ck_roles _ Hc); by split].
  split; [exact Hblock|]. split; [exact Hsettle|apply (ck_limits _ Hc)].
Qed.

Lemma last_batch : (0 < n < 2 ^ 64)%Z /\ b_nonce last = n /\ (b_blockNumber last <= b_lastUpdatedBlockNumber last)%Z.
Proof using Hc Hfinal.
  pose proof (ck_ledger _ Hc) as Hl. pose proof (lo_counts _ _ Hl) as [Hcount _]. destruct Hfinal as [Hi _].
  destruct (lo_batch _ _ Hl _ _ (batch_at_some _ _ _ Hl Hi)) as (Hnum & _ & _ & H2 & _). rewrite Hnum. lia.
Qed.

Lemma reopened_denied : batch_query bridge_address n c1 = Some no_batch.
Proof using Hc Hfinal Hsettle Hblock Hnow.
  destruct last_batch as (Hn & _ & Hb). destruct (queries_spec bridge_address _ n reopened_ok) as [-> _]; [lia|]. f_equal. unfold is_final. cbn.
  rewrite (proj2 (Z.ltb_ge _ (now c))) by lia. by rewrite andb_false_r.
Qed.

Lemma reopened_served user tok amount rcp u s' later :
  is_uint256 amount -> deposit T safe_address (chain_msg user c1) tok amount rcp (br_safe (contracts c1)) = Done u s' ->
  (now c + settle < later < 2 ^ 63)%Z ->
  let c3 := history T bridge_address safe_address keccak256 ecrecover c1 [Sent user (ToSafe (MakeDeposit tok amount rcp)); NewBlock later] in
  exists d, d_depositor d = user /\ d_tokenAddress d = tok /\ d_recipient d = rcp /\
    batch_query bridge_address n c3 = Some (mkBatch n (b_blockNumber last) (now c) (b_depositsCount last + 1)) /\
    deposits_query bridge_address n c3 = Some (deposits_at (s_ledger s) (n - 1) ++ [d]).
Proof using Hc Hfinal Hsettle Hblock Hroom Hnow.
  intros Hamount Hdep Hlater. destruct last_batch as (Hn & Hnum & Hb). cbv zeta.
  assert (Hev : history_ok T bridge_address safe_address keccak256 ecrecover c1 [Sent user (ToSafe (MakeDeposit tok amount rcp)); NewBlock later]).
  { split; [by apply is_uint256_typed|]. rewrite (happens_safe T bridge_address safe_address keccak256 ecrecover c1 user (MakeDeposit tok amount rcp) s' u Hdep). cbn. lia. }
  pose proof (history_keeps T bridge_address safe_address keccak256 ecrecover _ _ reopened_ok Hev) as Hc3. revert Hc3. cbn [EthBridge.history foldl].
  unfold EthBridge.history. cbn [foldl]. rewrite (happens_safe T bridge_address safe_address keccak256 ecrecover c1 user (MakeDeposit tok amount rcp) s' u Hdep). cbn [happens now contracts]. intros Hc3.
  eapply reopened_takes_deposit in Hdep as (d & Hd1 & Hd2 & Hd3 & Hlim & Hled);
    [|apply (ck_ledger _ Hc)|apply (ck_now _ Hc)|lia|exact Hroom|exact Hnow].
  exists d. split; [exact Hd1|]. split; [exact Hd2|]. split; [exact Hd3|].
  destruct (queries_spec bridge_address _ n Hc3) as [-> ->]; [lia|]. unfold is_final. cbn [now contracts put_safe br_safe chain_msg block_number] in *.
  rewrite Hlim, Hled. cbn [batchSettleLimit s_limits limits_changed].
  assert (Hbatch : batch_at (deposited (now c) (n - 1) d (s_ledger s)) (n - 1) = mkBatch n (b_blockNumber last) (now c) (b_depositsCount last + 1)).
  { unfold batch_at at 1. unfold deposited. cbn. rewrite lookup_insert_eq. cbn. rewrite (proj2 (Z.eqb_neq _ _)) by lia. f_equal. lia. }
  rewrite Hbatch, deposits_at_deposited, decide_True by done. cbn [b_lastUpdatedBlockNumber].
  rewrite (proj2 (Z.leb_le 0 (n - 1))), (proj2 (Z.ltb_lt (now c + settle) later)) by lia.
  rewrite (proj2 (Z.ltb_lt (n - 1) _)); [done|]. cbn. case_match; lia.
Qed.
End Reopened.

(** C39. The guard of [setBatchSettleLimit] does not protect batches that were handed out.  On any
    chain reached since the deployment, let the last batch be final - the bridge hands it out -
    and not full.  Pausing, raising the settle limit, then the block limit (both at most 255) until
    the current block is within the block limit of the batch again, and unpausing are all accepted
    from the admin; the bridge then denies the batch, the next deposit of anybody is appended to
    it, and after the settle limit the bridge hands out the same batch number with that deposit
    added. *)
Theorem raised_limit_reopens_batch {W} (T : erc20 W) (bridge_address safe_address : address) keccak256 ecrecover
    (c0 : chain W) (events : list (event W)) (b : Batch) (ds : list Deposit) (settle block : Z) :
  let happened := history T bridge_address safe_address keccak256 ecrecover in
  let c := happened c0 events in
  let s := br_safe (contracts c) in
  let n := batchesCount (s_ledger s) in
  let c1 := happened c (change_limits (_admin (s_access s)) settle block) in
  deployed_chain c0 -> history_ok T bridge_address safe_address keccak256 ecrecover c0 events ->
  batch_query bridge_address n c = Some b -> (b_nonce b <> 0)%Z -> deposits_query bridge_address n c = Some ds ->
  (b_depositsCount b < batchSize (s_limits s))%Z -> (batchBlockLimit (s_limits s) <= settle < 256)%Z -> (0 <= block <= settle)%Z ->
  (now c <= b_blockNumber b + block)%Z ->
  batch_query bridge_address n c1 = Some no_batch /\
  forall user tok amount rcp u s' later,
    is_uint256 amount -> deposit T safe_address (chain_msg user c1) tok amount rcp (br_safe (contracts c1)) = Done u s' ->
    (now c + settle < later < 2 ^ 63)%Z ->
    let c3 := happened c1 [Sent user (ToSafe (MakeDeposit tok amount rcp)); NewBlock later] in
    exists d, d_depositor d = user /\ d_tokenAddress d = tok /\ d_recipient d = rcp /\
      batch_query bridge_address n c3 = Some (mkBatch n (b_blockNumber b) (now c) (b_depositsCount b + 1)) /\
      deposits_query bridge_address n c3 = Some (ds ++ [d]).
Proof.
  intros happened c s n c1 H0 Hh Hb Hne Hds Hroom Hsettle Hblock Hnow. assert (Hc : chain_ok c) by (apply history_keeps; [by apply deployed_ok|done]).
  assert (Hn : (n < 2 ^ 256)%Z) by (pose proof (lo_counts _ _ (ck_ledger _ Hc)) as [Hn _]; unfold n, s; lia).
  destruct (served_final bridge_address n c b Hc Hn Hb Hne) as (Hn0 & Hf & ->).
  destruct (queries_spec bridge_address c n Hc) as [_ Hq]; [lia|]. rewrite (proj2 (is_final_spec c (n - 1)) Hf), Hds in Hq. injection Hq as ->.
  pose proof (change_limits_run T bridge_address safe_address keccak256 ecrecover c settle block Hc Hf (proj1 Hsettle) (proj2 Hblock)) as Hrun.
  unfold c1, n, s, happened. rewrite Hrun. split; [apply reopened_denied; [done|done|apply Hsettle|done|done]|].
  intros. eapply reopened_served; [exact Hc|exact Hf|apply Hsettle|exact Hblock|exact Hroom|exact Hnow|eassumption..].
Qed.

(** ** Executed transfers *)

Section Executed.
Context {W : Type} (T : erc20 W) (bridge_address safe_address : address).
Context (keccak256 : bytes -> bytes) (ecrecover : bytes -> Z -> bytes -> bytes -> address).
Abbreviation history := (history T bridge_address safe_address keccak256 ecrecover).
Abbreviation history_ok := (history_ok T bridge_address safe_address keccak256 ecrecover).
Abbreviation executed c := (executedBatches (contracts c)) (only parsing).

Lemma executed_mono c events : chain_ok c -> history_ok c events -> executed c ⊆ executed (history c events).
Proof.
  revert c. induction events as [|e rest IH]; intros c Hc Hh; [done|]. destruct Hh as [He Hh].
  destruct (happens_keeps T bridge_address safe_address keccak256 ecrecover c e Hc He) as (Hc' & _ & _ & _ & Hex). transitivity (executed (happens T bridge_address safe_address keccak256 ecrecover c e)).
  - destruct Hex as [->|(? & ? & ? & _ & _ & -> & _)]; [done|]. apply union_subseteq_r.
  - by apply IH.
Qed.

(** A transfer that was executed by an event: the event and what was checked. *)
Definition executed_by (c : chain W) (e : event W) (n : Z) : Prop :=
  exists sender tokens recipients amounts nonces signatures,
    e = Sent sender (ToBridge (ExecuteTransfer tokens recipients amounts nonces n signatures)) /\
    (n ∉ executed c) /\ n ∈ executed (happens T bridge_address safe_address keccak256 ecrecover c e) /\
    isRelayer sender (contracts c) = true /\ _paused (br_access (contracts c)) = false /\
    quorum_signed ecrecover (contracts c) (transfer_hash keccak256 tokens recipients amounts nonces n) signatures.

Lemma executed_event c e n : chain_ok c -> event_ok c e -> n ∉ executed c ->
  n ∈ executed (happens T bridge_address safe_address keccak256 ecrecover c e) -> executed_by c e n.
Proof.
  intros Hc He Hn Hin. destruct (happens_keeps T bridge_address safe_address keccak256 ecrecover c e Hc He) as (_ & _ & _ & _ & [Heq|(sender & tx & u & -> & Htx & Hex & _)]).
  { rewrite Heq in Hin. done. }
  pose proof Hin as Hin'. rewrite Hex in Hin. destruct tx as [call|call]; cbn [event_executes] in Hin; [|by apply elem_of_union in Hin as [?%elem_of_empty|]].
  destruct call; cbn [executes] in Hin; apply elem_of_union in Hin as [Hin|]; try done; try by apply elem_of_empty in Hin.
  apply elem_of_singleton in Hin as <-. cbn [tx_exec bridge_exec] in Htx.
  apply executeTransfer_inv in Htx as (Hp & Hs & _ & Hq & _); [|by apply zero_no_relayer, ck_roles].
  by exists sender, tokens, recipients, amounts, depositNonces, signatures.
Qed.

Lemma executed_history c events n : chain_ok c -> history_ok c events -> n ∉ executed c -> n ∈ executed (history c events) ->
  exists earlier e later, events = earlier ++ e :: later /\ executed_by (history c earlier) e n.
Proof.
  revert c. induction events as [|e rest IH]; intros c Hc Hh Hn Hin; [done|]. destruct Hh as [He Hh].
  destruct (decide (n ∈ executed (happens T bridge_address safe_address keccak256 ecrecover c e))) as [Hnow|Hnow].
  - exists [], e, rest. split; [done|]. by apply executed_event.
  - destruct (IH (happens T bridge_address safe_address keccak256 ecrecover c e)) as (earlier & e' & later & -> & Hby); try done; [by apply happens_keeps|].
    by exists (e :: earlier), e', later.
Qed.
(** Two events of one history cannot both execute the batch. *)
Lemma executed_before c earlier e l e2 later n :
  chain_ok c -> history_ok c (earlier ++ e :: l ++ e2 :: later) ->
  executed_by (history c earlier) e n -> executed_by (history c (earlier ++ e :: l)) e2 n -> False.
Proof.
  intros Hc Hh (? & ? & ? & ? & ? & ? & _ & _ & Hin & _) (? & ? & ? & ? & ? & ? & _ & Hn & _). apply Hn.
  rewrite history_app. apply history_ok_app in Hh as [H1 H2]. destruct H2 as [He H2]. apply history_ok_app in H2 as [H2 _].
  pose proof (history_keeps _ _ _ _ _ _ _ Hc H1) as Hc1. cbn. eapply executed_mono; [|exact H2|exact Hin].
  by apply happens_keeps.
Qed.
End Executed.

(** C8. A transfer to Ethereum is executed at most once and never without a quorum: if the
    bridge says, after any history since its deployment, that batch [n] was executed, then
    exactly one transaction executed it; it was sent by a relayer while the bridge was not
    paused, and at least the required number of distinct relayers had signed the hash of exactly
    its tokens, recipients, amounts and nonces. *)
Theorem executed_once_by_quorum {W} (T : erc20 W) (bridge_address safe_address : address) keccak256 ecrecover
    (c0 : chain W) (events : list (event W)) (n : Z) :
  let happened := history T bridge_address safe_address keccak256 ecrecover c0 in
  let executed_by := executed_by T bridge_address safe_address keccak256 ecrecover in
  deployed_chain c0 -> history_ok T bridge_address safe_address keccak256 ecrecover c0 events ->
  n ∈ executedBatches (contracts (happened events)) ->
  exists earlier e later, events = earlier ++ e :: later /\ executed_by (happened earlier) e n /\
    forall earlier' e' later', events = earlier' ++ e' :: later' -> executed_by (happened earlier') e' n -> earlier' = earlier.
Proof.
  intros happened by_. subst happened by_. intros H0 Hh Hin. pose proof (deployed_ok _ H0) as Hc0.
  pose proof (deployed_fresh _ n H0) as Hfresh.
  destruct (executed_history T bridge_address safe_address keccak256 ecrecover c0 events n Hc0 Hh Hfresh Hin) as (earlier & e & later & -> & Hby).
  exists earlier, e, later. split; [done|]. split; [done|]. intros earlier' e' later' Heq Hby'.
  apply app_eq_app in Heq as [l [[-> Heq]|[-> Heq]]]; destruct l as [|x l]; rewrite ?app_nil_r; try done;
    injection Heq as <- Heq; exfalso.
  - eapply executed_before; [exact Hc0| |exact Hby'|exact Hby]. rewrite <-app_assoc in Hh. exact Hh.
  - eapply executed_before; [exact Hc0| |exact Hby|exact Hby']. rewrite Heq in Hh. exact Hh.
Qed.
End EthBridgeFacts.
