(* ===== verification/EthSolvency.v ===== *)
(** * The safe is backed by tokens

    As long as nobody claims service fees and the admin does not recover funds, the safe holds
    at least the tokens it owes for deposits.  The tokens behave as ERC20 prescribes: a transfer
    that succeeds moves the amount, one that fails moves nothing.  And what a claim of service fees,
    open to anybody, does to that. *)
From S2P Require Import Prelude Solidity EnumerableSet EthSafe EthSafeFacts EthBridge EthBridgeFacts.
Import Access.

Module Solvency.
Import EnumerableSet Safe SafeFacts EthBridge EthBridgeFacts.

(** What ERC20 says about the balances [bal] of a world of tokens. *)
Class Erc20Laws {W} (T : erc20 W) (bal : W -> address -> address -> Z) : Prop := {
  er_transfer t from to v w r w' : (0 <= v)%Z -> call_transfer T t from to v w = (r, w') ->
    (forall t' a, a <> from \/ t' <> t -> (bal w t' a <= bal w' t' a)%Z) /\
    match reported r with
    | Some true => (bal w t from - v <= bal w' t from)%Z
    | _ => (bal w t from <= bal w' t from)%Z
    end;
  er_transferFrom t spender from to v w w' u : (0 <= v)%Z -> safeTransferFrom T t spender from to v w = Done u w' -> from <> to ->
    (bal w t to + v <= bal w' t to)%Z /\ forall t' a, a <> from -> (bal w t' a <= bal w' t' a)%Z;
  er_decimals t w d w' : decimals T t w = Done d w' -> w' = w
}.

Section Solvency.
Context {W : Type} (T : erc20 W) (bal : W -> address -> address -> Z) `{!Erc20Laws T bal}.
Context (bridge_address safe_address : address).
Context (keccak256 : bytes -> bytes) (ecrecover : bytes -> Z -> bytes -> bytes -> address).

(** What is owed is there. *)
Definition backed (s : safe W) : Prop :=
  forall t, (value_at (tokenBalances (s_accounts s)) t <= bal (s_tokens s) t safe_address)%Z.

Lemma value_at_insert (m : gmap address Z) t t' v : value_at (<[t := v]> m) t' = if decide (t = t') then v else value_at m t'.
Proof using Type. unfold value_at. rewrite lookup_insert. by case_decide. Qed.

(** The calls that pay out tokens other than to the recipients of transfers. *)
Definition pays_out (c : call) : bool :=
  match c with RecoverLostFunds _ | ClaimServiceFees _ => true | _ => false end.

Lemma transfer_backed m t a to s s' b : (0 <= a)%Z -> transfer T safe_address m t a to s = Done b s' -> backed s -> backed s'.
Proof.
  intros Ha H Hs. apply transfer_inv in H as (r & w & Hr & Hb & _ & ->). intros t'. specialize (Hs t').
  destruct (er_transfer t safe_address to a _ _ _ Ha Hr) as [Ho Hf]. rewrite Hb in Hf. cbn.
  destruct (decide (t = t')) as [->|Hne].
  - destruct b; cbn; rewrite ?value_at_insert, ?decide_True by done; lia.
  - specialize (Ho t' safe_address (or_intror (not_eq_sym Hne))). destruct b; cbn; rewrite ?value_at_insert, ?decide_False by done; lia.
Qed.

Lemma deposit_backed m t amount rcp k s s' u :
  ledger_ok k (s_ledger s) -> (0 <= block_number m < 2 ^ 63)%Z -> (0 <= amount)%Z -> msg_sender m <> safe_address ->
  deposit T safe_address m t amount rcp s = Done u s' -> backed s -> backed s'.
Proof.
  intros Hl Hm Ha Hself H Hs. eapply deposit_inv in H as (fee & dec & w1 & w2 & _ & Hfee & _ & _ & _ & Hd & Ht & ->); [|done..].
  apply er_decimals in Hd as ->. destruct (er_transferFrom t _ _ _ _ _ _ _ Ha Ht Hself) as [H1 H2].
  intros t'. cbn. rewrite value_at_insert. specialize (Hs t'). case_decide; [subst; lia|].
  specialize (H2 t' safe_address (not_eq_sym Hself)). lia.
Qed.

Lemma initSupply_backed m t amount s s' u : (0 <= amount)%Z -> msg_sender m <> safe_address ->
  initSupply T safe_address m t amount s = Done u s' -> backed s -> backed s'.
Proof.
  intros Ha Hself H Hs. unfold initSupply in H. safe_inv H. apply increase_balance_inv in Hc as ->. cbn in Hp0.
  destruct (er_transferFrom t _ _ _ _ _ _ _ Ha Hp0 Hself) as [H1 H2].
  intros t'. cbn. rewrite value_at_insert. specialize (Hs t'). case_decide; [subst; lia|].
  specialize (H2 t' safe_address (not_eq_sym Hself)). lia.
Qed.

Lemma exec_backed m c k s s' u :
  ledger_ok k (s_ledger s) -> (0 <= block_number m < 2 ^ 63)%Z -> call_typed c = true -> pays_out c = false -> msg_sender m <> safe_address ->
  exec T safe_address m c s = Done u s' -> backed s -> backed s'.
Proof.
  intros Hl Hm Hty Hp Hself H Hs. destruct c; try done; cbn [exec call_typed] in *; try apply uint_of_range in Hty.
  16: (eapply deposit_backed; eauto; lia).
  16: (eapply initSupply_backed; eauto; lia).
  16: (apply sol_bind_inv in H as (b & s1 & H & Hr); apply mret_inv in Hr as [_ ->]; eapply transfer_backed; eauto; lia).
  all: unfold renounceAdmin, transferAdmin, pause, unpause, setBridge, whitelistToken, removeTokenFromWhitelist, setBatchBlockLimit,
      setServiceFeePercentage, setMaxServiceFee, setServiceFeeReceiver, setBatchSettleLimit, setBatchSize, setTokenMinLimit, setTokenMaxLimit in H;
      safe_inv H; try done.
  apply isAnyBatch_same in Hc as ->. done.
Qed.

Lemma transfer_all_backed m j tokens amounts recipients b b' sts :
  Forall (fun a => 0 <= a)%Z amounts -> transfer_all T bridge_address safe_address m j tokens amounts recipients b = Done sts b' ->
  backed (br_safe b) -> backed (br_safe b').
Proof.
  intros Ha. revert j b sts. induction tokens as [|t tokens IH]; intros j b sts H Hs; cbn [transfer_all] in H; bridge_inv H; [done|].
  rewrite Forall_lookup in Ha. eapply IH; [done|]. cbn. eapply transfer_backed; [by eapply Ha|done|done].
Qed.
Lemma execute_backed m tokens recipients amounts nonces n signatures b b' u :
  roles_ok b -> Forall (fun a => 0 <= a)%Z amounts ->
  executeTransfer T bridge_address safe_address keccak256 ecrecover m tokens recipients amounts nonces n signatures b = Done u b' ->
  backed (br_safe b) -> backed (br_safe b').
Proof.
  intros Hr Ha H Hs. unfold executeTransfer, onlyRelayer, whenNotPaused in H. bridge_inv H. cbn in *.
  apply validateQuorum_inv in Hc as [-> _]; [|by apply zero_no_relayer in Hr]. by eapply transfer_all_backed in Hc0.
Qed.

Lemma bridge_exec_backed m c b b' u :
  roles_ok b -> bridge_call_typed c = true -> bridge_exec T bridge_address safe_address keccak256 ecrecover m c b = Done u b' ->
  backed (br_safe b) -> backed (br_safe b').
Proof.
  intros Hr Hty H Hs. destruct c; cbn [bridge_exec bridge_call_typed] in *;
    try (unfold renounceAdmin, transferAdmin, pause, unpause, setQuorum, bridge_setBatchSettleLimit in H; bridge_inv H; cbn;
         try (apply isAnyBatch_same in Hp1 as ->); done).
  - unfold addRelayer in H. bridge_inv H. apply onlyAdmin_same in Hp as ->. rewrite bridge_eta in H. by apply addRelayer_ok in H as (_ & -> & _).
  - unfold removeRelayer in H. bridge_inv H. apply onlyAdmin_same in Hp as ->. rewrite bridge_eta in H. by apply removeRelayer_ok in H as (_ & -> & _).
  - unfold renounceRelayer in H. bridge_inv H. by apply removeRelayer_ok in H as (_ & -> & _).
  - apply (transfer_call_typed _ _ _ _ _ signatures) in Hty. unfold transfer_typed in Hty. rewrite !Forall_cons in Hty.
    destruct Hty as (_ & _ & [Ha _] & _). eapply execute_backed; [done| |done|done].
    eapply Forall_impl; [exact Ha|]. by intros a [? _].
Qed.

(** Nothing is paid out but transfers, and nobody takes tokens away from the safe. *)
Definition event_quiet (c : chain W) (e : event W) : Prop :=
  match e with
  | Sent sender tx => sender <> safe_address /\ match tx with ToSafe call => pays_out call = false | ToBridge _ => True end
  | TokensMove w => forall t, (bal (s_tokens (br_safe (contracts c))) t safe_address <= bal w t safe_address)%Z
  | NewBlock _ => True
  end.

Fixpoint history_quiet (c : chain W) (events : list (event W)) : Prop :=
  match events with
  | [] => True
  | e :: rest => event_quiet c e /\ history_quiet (happens T bridge_address safe_address keccak256 ecrecover c e) rest
  end.

Lemma happens_backed c e : chain_ok c -> event_ok c e -> event_quiet c e -> backed (br_safe (contracts c)) ->
  backed (br_safe (contracts (happens T bridge_address safe_address keccak256 ecrecover c e))).
Proof.
  intros Hc He Hq Hs. destruct e as [n|sender tx|w]; [done| |].
  - cbn [happens]. unfold applied. destruct (tx_exec _ _ _ _ _ _ _ _) as [u b'|r] eqn:Htx; [|done]. cbn [contracts].
    destruct tx as [call|call]; cbn [tx_exec] in Htx.
    + eapply bridge_exec_backed; [apply ck_roles, Hc|exact He|exact Htx|done].
    + apply at_part_inv in Htx as (p & Hp & ->). cbn. destruct Hq as [Hself Hpay].
      eapply (exec_backed (chain_msg sender c)); [apply (ck_ledger _ Hc)|exact (ck_now _ Hc)|exact He|exact Hpay|exact Hself|exact Hp|done].
  - intros t. cbn. specialize (Hq t). specialize (Hs t). lia.
Qed.
End Solvency.

(** C18. The safe stays solvent: after any history since the deployment in which nobody claimed
    service fees and the admin recovered no funds, the safe owns, of every token, at least what
    its books say it owes, whatever was deposited and whatever transfers were executed. *)
Theorem safe_solvent {W} (T : erc20 W) (bal : W -> address -> address -> Z) `{!Erc20Laws T bal}
    (bridge_address safe_address : address) keccak256 ecrecover (c0 : chain W) (events : list (event W)) :
  deployed_chain c0 -> (forall t, 0 <= bal (s_tokens (br_safe (contracts c0))) t safe_address)%Z ->
  history_ok T bridge_address safe_address keccak256 ecrecover c0 events ->
  history_quiet T bal bridge_address safe_address keccak256 ecrecover c0 events ->
  backed bal safe_address (br_safe (contracts (history T bridge_address safe_address keccak256 ecrecover c0 events))).
Proof.
  intros H0 Hpos Hh Hq. pose proof (deployed_ok _ H0) as Hc.
  assert (Hb : backed bal safe_address (br_safe (contracts c0))).
  { destruct H0 as (m & ad & w & board & q & u & _ & _ & H). unfold constructor in H. bridge_inv H.
    apply addRelayers_ok in Hc0 as (_ & _ & Hs & _); [|apply empty_wf|set_solver]. rewrite H in *. cbn in *. rewrite Hs in *.
    intros t. specialize (Hpos t). cbn in *. done. }
  clear H0 Hpos. revert c0 Hc Hb Hh Hq. induction events as [|e rest IH]; intros c Hc Hb Hh Hq; [done|].
  destruct Hh as [He Hh]. destruct Hq as [Hqe Hq]. apply IH; [by apply happens_keeps|by apply happens_backed|done|done].
Qed.

(** ** Claims of service fees *)

(** A payment that succeeds takes the amount from the payer, in that token only. *)
Class PaymentLaws {W} (T : erc20 W) (bal : W -> address -> address -> Z) : Prop :=
  pay_transfer t from to v w w' u : safeTransfer T t from to v w = Done u w' -> from <> to ->
    bal w' t from = (bal w t from - v)%Z /\ forall t', t' <> t -> bal w' t' from = bal w t' from.

Lemma claimServiceFees_inv {W} (T : erc20 W) self t (s s' : safe W) u : claimServiceFees T self t s = Done u s' ->
  t ∈ whitelistedTokens (s_accounts s) /\
  exists w, safeTransfer T t self (serviceFeeReceiver (s_limits s)) (serviceFees (s_accounts s)) (s_tokens s) = Done u w /\
    s' = mkSafe (s_access s) (_bridge s) (s_limits s) (s_ledger s) (with_fees 0 (s_accounts s)) w.
Proof.
  unfold claimServiceFees. intros H. safe_inv H. unfold isTokenWhitelisted in Hreq. apply bool_decide_eq_true in Hreq.
  split; [done|]. eexists. split; [exact Hp|done].
Qed.

End Solvency.
