(* ===== verification/EthNode.v ===== *)
(** * The relayers' view of the contracts on Ethereum

    A node answers calls of the bound contract by running the contract's code
    ([src/sol/contracts/Bridge.sol]) on the current chain, on which other accounts go on sending
    transactions.  The bindings ([contract.go]) over such a node hand the chain wrapper exactly
    the contract's answers, and no conversion of theirs panics. *)
From S2P Require Import Prelude Go Common Interfaces EthClient Bindings Solidity EnumerableSet EthSafe EthSafeFacts EthBridge EthBridgeFacts.
Import Access.

Module EthNode.
Import EnumerableSet Safe EthBridge EthBridgeFacts Bindings.
Import EthClient(multiSigContract, ms_GetBatch, ms_GetBatchDeposits, ms_GetRelayers, ms_WasBatchExecuted,
  ms_ExecuteTransfer, ms_Quorum, ms_GetStatusesAfterExecution, ms_Paused).

(** ** Values as the ABI decoder delivers them *)

Definition go_batch (b : Safe.Batch) : EthClient.contract_Batch :=
  EthClient.mkCBatch (b_nonce b) (b_blockNumber b) (b_lastUpdatedBlockNumber b) (b_depositsCount b).
Definition go_deposit (d : Safe.Deposit) : EthClient.contract_Deposit :=
  EthClient.mkCDeposit (d_nonce d) (d_tokenAddress d) (d_amount d) (d_depositor d) (d_recipient d) (status_number (d_status d)).
Definition go_statuses (l : list DepositStatus) : bytes := (fun s => byte_of_Z (status_number s)) <$> l.

Section Node.
Context {W : Type} (T : erc20 W) (bridge_address safe_address : address).
Context (keccak256 : bytes -> bytes) (ecrecover : bytes -> Z -> bytes -> bytes -> address).

(** ** Calls by name *)

Definition reply {A} (f : A -> goValue) (answer : option A) : option (list goValue) := (fun a => [f a]) <$> answer.

(** Methods without argument, with a number and with an address. *)
Definition arg0 {A} (f : A -> goValue) (q : chain W -> option A) (params : list goValue) (c : chain W) : option (list goValue) :=
  match params with [] => reply f (q c) | _ => None end.
Definition arg_uint {A} (f : A -> goValue) (q : Z -> chain W -> option A) (params : list goValue) (c : chain W) : option (list goValue) :=
  match params with [VBig n] => reply f (q n c) | _ => None end.
Definition arg_address {A} (f : A -> goValue) (q : address -> chain W -> option A) (params : list goValue) (c : chain W) : option (list goValue) :=
  match params with [VAddress a] => reply f (q a c) | _ => None end.

(** Reading the storage cannot revert. *)
Definition read {A} (f : bridge W -> A) (c : chain W) : option A := query (fun _ => view f) c.

Definition evm_methods : list (string * (list goValue -> chain W -> option (list goValue))) := [
  ("admin", arg0 VAddress (read (fun b => admin (br_access b))));
  ("batchSettleBlockCount", arg0 VBig (read batchSettleBlockCount));
  ("crossTransferStatuses", arg_uint VBig (fun n => read (fun b => createdBlockNumber (cross_at b n))));
  ("executedBatches", arg_uint VBool (fun n => read (fun b => bool_decide (n ∈ executedBatches b))));
  ("getBatch", arg_uint (VBatch ∘ go_batch) (batch_query bridge_address));
  ("getBatchDeposits", arg_uint (VDeposits ∘ fmap go_deposit) (deposits_query bridge_address));
  ("getRelayer", arg_uint VAddress (fun n => query (fun _ => getRelayer n)));
  ("getRelayers", arg0 VAddresses (query (fun _ => getRelayers)));
  ("getRelayersCount", arg0 VBig (query (fun _ => getRelayersCount)));
  ("getStatusesAfterExecution", arg_uint (VUint8s ∘ go_statuses) (fun n => query (fun m => getStatusesAfterExecution m n)));
  ("isRelayer", arg_address VBool (fun a => read (isRelayer a)));
  ("paused", arg0 VBool (read (fun b => paused (br_access b))));
  ("quorum", arg0 VBig (read quorum));
  ("wasBatchExecuted", arg_uint VBool (fun n => query (fun _ => wasBatchExecuted n))) ].

(** What a call answers; [None] when it reverts. *)
Definition evm_call (method : string) (params : list goValue) (c : chain W) : option (list goValue) :=
  f ← snd <$> list_find (fun p => fst p = method) evm_methods;
  snd f params c.

(** Numbers passed to the contract are unsigned words. *)
Definition param_ok (v : goValue) : Prop := match v with VBig z => is_uint256 z | _ => True end.

(** The chain moves on: any account may send anything, with one exception that the contract does
    allow ([ERC20Safe.sol], [setBatchSettleLimit]): the admin does not raise the settle limit.
    Raising it can take back that a batch is final and let deposits into it again
    ([EthBridgeFacts.raised_limit_reopens_batch]), so what is proved from [advances] holds as long
    as that does not happen. *)
Definition advances (c c' : chain W) : Prop := exists events,
  history_ok T bridge_address safe_address keccak256 ecrecover c events /\
  settle_not_raised T bridge_address safe_address keccak256 ecrecover c events /\
  c' = history T bridge_address safe_address keccak256 ecrecover c events.

Lemma advances_refl c : advances c c.
Proof. by exists []. Qed.

Lemma settle_not_raised_app c l1 l2 :
  settle_not_raised T bridge_address safe_address keccak256 ecrecover c l1 ->
  settle_not_raised T bridge_address safe_address keccak256 ecrecover (history T bridge_address safe_address keccak256 ecrecover c l1) l2 ->
  settle_not_raised T bridge_address safe_address keccak256 ecrecover c (l1 ++ l2).
Proof. revert c. induction l1 as [|e l1 IH]; intros c; [done|]. intros [H1 H2] H. split; [done|by apply IH]. Qed.

Lemma advances_trans c1 c2 c3 : advances c1 c2 -> advances c2 c3 -> advances c1 c3.
Proof.
  intros (l1 & H1 & S1 & ->) (l2 & H2 & S2 & ->). exists (l1 ++ l2).
  split; [by apply history_ok_app|]. split; [by apply settle_not_raised_app|by rewrite history_app].
Qed.

#[global] Instance advances_preorder : PreOrder advances.
Proof. split; [exact advances_refl|exact advances_trans]. Qed.

Lemma advances_keeps c c' : chain_ok c -> advances c c' -> chain_ok c'.
Proof. intros Hc (l & Hl & _ & ->). by apply history_keeps. Qed.

(** Any chain on which the contracts were deployed. *)
Definition reachable (c : chain W) : Prop := exists c0 events,
  deployed_chain c0 /\ history_ok T bridge_address safe_address keccak256 ecrecover c0 events /\
  c = history T bridge_address safe_address keccak256 ecrecover c0 events.

Lemma reachable_ok c : reachable c -> chain_ok c.
Proof. intros (c0 & events & H0 & Hh & ->). apply history_keeps; [by apply deployed_ok|done]. Qed.

Section View.
Context {X : Type} (chain_of : X -> chain W).

(** A call during which the chain may advance, and whose answer is [P] of the chain it leaves. *)
Definition answers {A} (P : chain W -> A -> Prop) (c : M X (res A)) : Prop := forall x,
  wp c (fun r x' => advances (chain_of x) (chain_of x') /\ match r with Ok a => P (chain_of x') a | Err _ => True end) x.

(** A call that answers nothing about the contract. *)
Definition unrelated {A} (c : M X A) : Prop := forall x, wp c (fun _ x' => advances (chain_of x) (chain_of x')) x.

(** The node behind the bound contract. *)
Class NodeLaws (bound : BoundContract X) : Prop := {
  nd_call method params : Forall param_ok params ->
    answers (fun c out => evm_call method params c = Some out) (bound_Call bound method params);
  nd_transact opts method params : unrelated (bound_Transact bound opts method params)
}.

(** What the chain wrapper is promised of the binding. *)
Class ContractView (ms : multiSigContract X) : Prop := {
  cv_batch n : is_uint256 n -> answers (fun c b => exists b0, batch_query bridge_address n c = Some b0 /\ b = go_batch b0) (ms_GetBatch ms n);
  cv_deposits n : is_uint256 n ->
    answers (fun c ds => exists ds0, deposits_query bridge_address n c = Some ds0 /\ ds = go_deposit <$> ds0) (ms_GetBatchDeposits ms n);
  cv_relayers : answers (fun c l => l = _values (_relayers (contracts c))) (ms_GetRelayers ms);
  cv_executed n : is_uint256 n -> answers (fun c b => b = bool_decide (n ∈ executedBatches (contracts c))) (ms_WasBatchExecuted ms n);
  cv_quorum : answers (fun c q => q = quorum (contracts c)) (ms_Quorum ms);
  cv_statuses n : is_uint256 n ->
    answers (fun c l => exists l0, query (fun m => getStatusesAfterExecution m n) c = Some l0 /\ l = go_statuses l0) (ms_GetStatusesAfterExecution ms n);
  cv_paused : answers (fun c b => b = _paused (br_access (contracts c))) (ms_Paused ms);
  cv_execute opts l n sigs : unrelated (ms_ExecuteTransfer ms opts l n sigs)
}.

Lemma reply_inv {A} (f : A -> goValue) o out : reply f o = Some out -> exists a, o = Some a /\ out = [f a].
Proof using Type. destruct o as [a|]; [|done]. intros [= <-]. by exists a. Qed.

Lemma getRelayer_query n (c : chain W) a : query (fun _ => getRelayer n) c = Some a -> _values (_relayers (contracts c)) !! Z.to_nat n = Some a.
Proof using Type.
  unfold query. destruct (getRelayer n (contracts c)) as [a' b|r] eqn:H; [|done]. intros [= ->].
  unfold getRelayer in H. bridge_inv H. unfold set_at in Hp. by sol_inv Hp.
Qed.

(** A caller of the binding, when the method answers with a value the conversion accepts. *)
Lemma caller_answers bound `{!NodeLaws bound} {A B} (convert : goValue -> M X A) (f : B -> goValue) (g : B -> A)
    method params (q : chain W -> option B) (P : chain W -> A -> Prop) :
  Forall param_ok params -> (forall c, evm_call method params c = reply f (q c)) ->
  (forall b, convert (f b) = mret (g b)) -> (forall c b, q c = Some b -> P c (g b)) ->
  answers P (call_one bound convert method params).
Proof.
  intros Hp He Hc HP x. apply call_one_wp. eapply wp_mono; [by apply nd_call|].
  intros [out|e] x' [Ha Hr]; [|done]. rewrite He in Hr. apply reply_inv in Hr as (b & Hq & ->).
  exists (f b), (g b), []. split; [done|]. split; [apply Hc|]. split; [done|by apply HP].
Qed.
End View.
End Node.

(** Proves that a caller answers [q], whose value [f] wraps and the conversion turns into [g]. *)
Ltac by_caller f g q :=
  eapply (caller_answers _ _ _ _ _ _ _ _ f g _ _ q);
  [first [by apply Forall_nil_2|by apply Forall_singleton]|reflexivity|reflexivity|].

(** The interface the chain wrapper relies on. *)
Lemma bridge_view {W} (T : erc20 W) (bridge_address safe_address : address) keccak256 ecrecover {X} (chain_of : X -> chain W) (bound : BoundContract X) :
  NodeLaws T bridge_address safe_address keccak256 ecrecover chain_of bound ->
  ContractView T bridge_address safe_address keccak256 ecrecover chain_of (Bridge bound).
Proof.
  intros HN. split.
  - intros n Hn. by_caller (VBatch ∘ go_batch) go_batch (batch_query (W := W) bridge_address n). eauto.
  - intros n Hn. by_caller (VDeposits ∘ fmap go_deposit) (fmap (M := list) go_deposit) (deposits_query (W := W) bridge_address n). eauto.
  - by_caller VAddresses (@id (list address)) (query (W := W) (fun _ => getRelayers)). by intros c l [= <-].
  - intros n Hn. by_caller VBool (@id bool) (query (W := W) (fun _ => wasBatchExecuted n)). by intros c b [= <-].
  - by_caller VBig (@id Z) (read (W := W) quorum). by intros c q [= <-].
  - intros n Hn. by_caller (VUint8s ∘ go_statuses) go_statuses (query (W := W) (fun m => getStatusesAfterExecution m n)). eauto.
  - by_caller VBool (@id bool) (read (W := W) (fun b => paused (br_access b))). by intros c q [= <-].
  - intros opts l n sigs. by apply nd_transact.
Qed.

(** C32. The bindings over a node that runs the contract: every caller returns without a panic of
    its conversions, and answers what the Solidity code answers on the chain at that moment,
    while other accounts' transactions keep changing it; a call that reverts is an error. *)
Theorem bindings_match_contract {W} (T : erc20 W) (bridge_address safe_address : address) keccak256 ecrecover
    {X} (chain_of : X -> chain W) (bound : BoundContract X) :
  let answers {A} := answers T bridge_address safe_address keccak256 ecrecover chain_of (A := A) in
  NodeLaws T bridge_address safe_address keccak256 ecrecover chain_of bound ->
  ContractView T bridge_address safe_address keccak256 ecrecover chain_of (Bridge bound) /\
  answers (fun c a => a = _admin (br_access (contracts c))) (Admin bound) /\
  answers (fun c z => z = batchSettleBlockCount (contracts c)) (BatchSettleBlockCount bound) /\
  answers (fun c z => z = Z.of_nat (length (_values (_relayers (contracts c))))) (GetRelayersCount bound) /\
  (forall a, answers (fun c b => b = isRelayer a (contracts c)) (IsRelayer bound a)) /\
  forall n, is_uint256 n ->
    answers (fun c z => z = createdBlockNumber (cross_at (contracts c) n)) (CrossTransferStatuses bound n) /\
    answers (fun c b => b = bool_decide (n ∈ executedBatches (contracts c))) (ExecutedBatches bound n) /\
    answers (fun c a => _values (_relayers (contracts c)) !! Z.to_nat n = Some a) (GetRelayer bound n).
Proof.
  intros answers' HN. split; [by apply bridge_view|split; [|split; [|split; [|split]]]].
  - by_caller VAddress (@id address) (read (W := W) (fun b => admin (br_access b))). by intros c q [= <-].
  - by_caller VBig (@id Z) (read (W := W) batchSettleBlockCount). by intros c q [= <-].
  - by_caller VBig (@id Z) (query (W := W) (fun _ => getRelayersCount)). by intros c q [= <-].
  - intros a. by_caller VBool (@id bool) (read (W := W) (isRelayer a)). by intros c q [= <-].
  - intros n Hn. split; [|split].
    + by_caller VBig (@id Z) (read (W := W) (fun b => createdBlockNumber (cross_at b n))). by intros c q [= <-].
    + by_caller VBool (@id bool) (read (W := W) (fun b => bool_decide (n ∈ executedBatches b))). by intros c q [= <-].
    + by_caller VAddress (@id address) (query (W := W) (fun _ => getRelayer n)). intros c a Ha. apply getRelayer_query in Ha. done.
Qed.
End EthNode.
