(* ===== verification/EthRead.v ===== *)
(** * What a relayer reads of the contracts

    The Ethereum client ([client.go], [GetBatch]) over the chain wrapper, the bindings and the
    contracts: although the chain advances between its two calls, a batch it returns is the
    contract's final batch, and all relayers get the same one. *)
From S2P Require Import Prelude Go Common Batch Interfaces Executor EthClient Solidity EthSafe EthSafeFacts EthBridge EthBridgeFacts EthNode.

Module EthRead.
Import Safe SafeFacts EthBridge EthBridgeFacts EthNode.
Import EthClient(ClientWrapper, clientDeps, clientWrapper, ConvertToken, multiSigContract, blockchainClient,
  NewEthereumChainWrapper, count_request, convertDeposit, convert_deposits, GetBatch).
Open Scope go_scope.

Section Read.
Context {W : Type} (T : erc20 W) (bridge_address safe_address : address).
Context (keccak256 : bytes -> bytes) (ecrecover : bytes -> Z -> bytes -> bytes -> address).
Abbreviation advances := (advances T bridge_address safe_address keccak256 ecrecover).

(** The client is built over a wrapper of the contract's binding; its other components do not
    touch the contracts. *)
Class OnContract {X L} (chain_of : X -> chain W) (D : clientDeps X L) (sh : StatusHandler X) (ms : multiSigContract X)
    (bk : blockchainClient X) : Prop := {
  oc_wrapper : clientWrapper D = NewEthereumChainWrapper sh ms bk;
  oc_view :: ContractView T bridge_address safe_address keccak256 ecrecover chain_of ms;
  oc_metric k v : unrelated T bridge_address safe_address keccak256 ecrecover chain_of (sh_AddIntMetric sh k v);
  oc_convert t : unrelated T bridge_address safe_address keccak256 ecrecover chain_of (ConvertToken D t)
}.

Context {X L : Type} (chain_of : X -> chain W) (D : clientDeps X L) (sh : StatusHandler X) (ms : multiSigContract X).
Context (bk : blockchainClient X) `{!OnContract chain_of D sh ms bk}.

Lemma count_request_answers {A} (P : chain W -> A -> Prop) (c : M X (res A)) :
  answers T bridge_address safe_address keccak256 ecrecover chain_of P c ->
  answers T bridge_address safe_address keccak256 ecrecover chain_of P (count_request sh c).
Proof.
  intros Hc x. unfold count_request. apply wp_bind. eapply wp_mono; [apply oc_metric|]. intros [] x1 Ha.
  eapply wp_mono; [apply Hc|]. intros r x2 [Ha2 Hr]. split; [by etransitivity|done].
Qed.

(** The deposits come out in order, whatever the mapper answers. *)
Lemma convert_deposits_reads cache ds acc x :
  wp (convert_deposits D cache ds acc) (fun r x' => advances (chain_of x) (chain_of x') /\ match r with
    | Ok out => exists out', out = acc ++ out' /\ Forall2 (fun d dt => exists c, dt = convertDeposit D d c) ds out'
    | Err _ => True end) x.
Proof.
  revert cache acc x. induction ds as [|d ds IH]; intros cache acc x; cbn [convert_deposits].
  { apply wp_ret. split; [reflexivity|]. exists []. by rewrite app_nil_r. }
  assert (Hnext : forall v cache' x0 x1, advances (chain_of x0) (chain_of x1) ->
    wp (convert_deposits D cache' ds (acc ++ [convertDeposit D d v])) (fun r x' => advances (chain_of x0) (chain_of x') /\ match r with
      | Ok out => exists out', out = acc ++ out' /\ Forall2 (fun d dt => exists c, dt = convertDeposit D d c) (d :: ds) out'
      | Err _ => True end) x1).
  { intros v cache' x0 x1 Ha. eapply wp_mono; [apply IH|]. intros [out|e] x' [Ha' Hr]; (split; [by etransitivity|]); [|done].
    destruct Hr as (out' & -> & Hf). exists (convertDeposit D d v :: out'). rewrite <-app_assoc. split; [done|]. constructor; eauto. }
  case_match; [apply Hnext; reflexivity|]. apply wp_bind_ok. eapply wp_mono; [apply oc_convert|].
  intros [v|e] x1 Ha; [by apply Hnext|by apply wp_ret].
Qed.

(** What a fetched deposit has in common with the contract's. *)
Definition mirrors (d : Deposit) (dt : DepositTransfer) : Prop :=
  dt_Nonce dt = d_nonce d /\ dt_ToBytes dt = d_recipient d /\ dt_FromBytes dt = d_depositor d /\
  dt_TokenBytes dt = d_tokenAddress d /\ dt_Amount dt = Some (d_amount d).

(** The fetched batch is the contract's final batch [n]. *)
Definition reads_batch (n : Z) (c : chain W) (b : TransferBatch) : Prop :=
  final_at (now c) (br_safe (contracts c)) (n - 1) /\ tb_ID b = n /\
  Forall2 mirrors (deposits_at (s_ledger (br_safe (contracts c))) (n - 1)) (tb_Deposits b).

Lemma nonce_u64 t l i d : ledger_ok t l -> (0 <= i < batchesCount l)%Z -> d ∈ deposits_at l i -> is_u64 (d_nonce d).
Proof using Type.
  intros Hl Hi Hd. assert (d_nonce d ∈ deposit_nonces l) as Hin.
  { unfold deposit_nonces. apply list_elem_of_In, in_concat. exists (d_nonce <$> deposits_at l i).
    rewrite <-!list_elem_of_In. split; [|by apply list_elem_of_fmap_2].
    apply (list_elem_of_fmap_2 (fun i => d_nonce <$> deposits_at l i)), elem_of_seqZ. lia. }
  rewrite (lo_nonces _ _ Hl), elem_of_seqZ in Hin. pose proof (lo_counts _ _ Hl). unfold is_u64, two64. lia.
Qed.

Lemma converted_mirrors t l i out :
  ledger_ok t l -> (0 <= i < batchesCount l)%Z ->
  Forall2 (fun d dt => exists c, dt = convertDeposit D d c) (go_deposit <$> deposits_at l i) out -> Forall2 mirrors (deposits_at l i) out.
Proof.
  intros Hl Hi H. apply Forall2_fmap_l in H. assert (Forall (fun d => is_u64 (d_nonce d)) (deposits_at l i)) as Hu.
  { apply Forall_forall. intros d. by apply nonce_u64 with t. }
  revert Hu. induction H as [|d dt ds out [c ->] _ IH]; [constructor|]. intros [Hd Hu]%Forall_cons. constructor; [|by apply IH].
  unfold mirrors. cbn. by rewrite u64_small.
Qed.

Lemma advances_final c c' i : chain_ok c -> advances c c' -> final_at (now c) (br_safe (contracts c)) i ->
  final_at (now c') (br_safe (contracts c')) i /\ same_batch i (s_ledger (br_safe (contracts c))) (s_ledger (br_safe (contracts c'))).
Proof using Type. intros Hc (l & Hl & Hs & ->). by apply final_history. Qed.

(** The two calls of [GetBatch], with the chain advancing around them: when the first one saw a
    final batch the second one sees the same, and otherwise the counts tell. *)
Lemma GetBatch_reads n x :
  chain_ok (chain_of x) -> (0 < n < two64)%Z ->
  wp (GetBatch D n) (fun r x' => advances (chain_of x) (chain_of x') /\ match r with
    | Ok ob => exists b, ob = Some b /\ (tb_ID b <> 0%Z -> reads_batch n (chain_of x') b)
    | Err _ => True end) x.
Proof.
  intros Hc Hn. assert (Hw : is_uint256 n) by (unfold is_uint256, two64 in *; lia).
  assert (Hn256 : (0 < n < 2 ^ 256)%Z) by (unfold two64 in *; lia).
  unfold GetBatch. rewrite oc_wrapper. apply wp_bind_ok.
  eapply wp_mono; [apply count_request_answers, (cv_batch _ _ _ _ _ _ n Hw)|]. intros [cb|e] x1 [Ha1 Hb]; [|by apply wp_ret].
  pose proof (advances_keeps _ _ _ _ _ _ _ Hc Ha1) as Hc1.
  apply wp_bind_ok. eapply wp_mono; [apply count_request_answers, (cv_deposits _ _ _ _ _ _ n Hw)|].
  intros [cds|e] x2 [Ha2 Hd]; [|by apply wp_ret; split; [by etransitivity|]].
  pose proof (advances_keeps _ _ _ _ _ _ _ Hc1 Ha2) as Hc2.
  destruct (Z.eqb_spec (EthClient.cb_DepositsCount cb) (Z.of_nat (length cds))) as [Hcount|_]; cbn [negb];
    [|by apply wp_ret; split; [by etransitivity|]].
  apply wp_bind_ok. eapply wp_mono; [apply convert_deposits_reads|].
  intros [out|e] x3 [Ha3 Hout]; [|by apply wp_ret; split; [by do 2 etransitivity|]].
  apply wp_ret. split; [by do 2 etransitivity|]. eexists. split; [done|]. cbn. intros Hid.
  destruct Hb as (b0 & Hb & ->), Hd as (ds0 & Hd & ->), Hout as (out' & -> & Hf).
  assert (Hne : b_nonce b0 <> 0%Z) by (intros Hz; apply Hid; cbn; by rewrite Hz).
  destruct (served_final _ _ _ _ Hc1 (proj2 Hn256) Hb Hne) as (_ & Hfin & ->).
  destruct (advances_final _ _ _ Hc1 Ha2 Hfin) as [Hfin2 [_ Hd2]].
  destruct (advances_final _ _ _ Hc1 (advances_trans _ _ _ _ _ _ _ _ Ha2 Ha3) Hfin) as [Hfin3 [_ Hd3]].
  destruct (queries_spec bridge_address _ n Hc2 Hn256) as [_ Hq]. apply is_final_spec in Hfin2. rewrite Hfin2, Hd in Hq.
  injection Hq as ->. rewrite Hd2 in Hf. pose proof Hfin as [Hi _]. pose proof (ck_ledger _ Hc1) as Hl.
  destruct (lo_batch _ _ Hl _ _ (batch_at_some _ _ _ Hl Hi)) as (Hnonce & _).
  split; [done|]. split; [|rewrite Hd3; by eapply converted_mirrors].
  cbn [tb_ID go_batch EthClient.cb_Nonce]. rewrite Hnonce, u64_small by (unfold is_u64; lia). lia.
Qed.
End Read.

(** Deposits that agree on everything the contract says about them. *)
Definition same_deposit (d d' : DepositTransfer) : Prop :=
  dt_Nonce d = dt_Nonce d' /\ dt_ToBytes d = dt_ToBytes d' /\ dt_FromBytes d = dt_FromBytes d' /\
  dt_TokenBytes d = dt_TokenBytes d' /\ dt_Amount d = dt_Amount d'.

Lemma mirrors_same ds l l' : Forall2 mirrors ds l -> Forall2 mirrors ds l' -> Forall2 same_deposit l l'.
Proof.
  intros H. revert l'. induction H as [|d dt ds l Hd _ IH]; intros l' H'; inversion H' as [|? dt' ? ? Hd' H'']; subst; [constructor|].
  constructor; [|by apply IH]. destruct Hd as (?&?&?&?&?), Hd' as (?&?&?&?&?). split_and!; congruence.
Qed.

(** The nonces follow those of all earlier batches. *)
Lemma mirrored_nonces t l i ds b :
  ledger_ok t l -> (0 <= i < batchesCount l)%Z -> ds = deposits_at l i -> Forall2 mirrors ds (tb_Deposits b) ->
  verifyDepositNonces b (deposits_before l i) = None.
Proof.
  intros Hl Hi -> Hf. apply verifyDepositNonces_spec.
  assert (dt_Nonce <$> tb_Deposits b = d_nonce <$> deposits_at l i) as Heq.
  { clear Hl. induction Hf as [|d dt ds out Hd _ IH]; [done|]. cbn. rewrite IH. f_equal. apply Hd. }
  rewrite Heq. intros k m Hk. pose proof (batch_nonces _ _ _ Hl Hi) as Hn. pose proof Hk as Hk'.
  rewrite Hn in Hk'. apply lookup_seqZ in Hk' as [-> _]. apply list_lookup_fmap_Some in Hk as (d & Heqd & Hd).
  rewrite u64_small; [done|]. rewrite Heqd. eapply nonce_u64; [done..|]. by eapply list_elem_of_lookup_2.
Qed.

(** C12. What the Go client fetches is what the Solidity contracts hold, although transactions of
    anybody are processed before, between and after its two calls (only a raise of the settle
    limit by the admin while the calls run is excluded, [advances]): [GetBatch] returns without a
    panic, and a batch with a number other than zero is the contract's batch [n] - as many
    deposits as the contract lists, between 1 and 100, in order, each with the contract's nonce,
    parties, token and amount - and it passes the executor's check of deposit nonces when the
    last executed nonce is the number of deposits of all earlier batches. *)
Theorem fetched_batch_is_contracts {W} (T : erc20 W) (bridge_address safe_address : address) keccak256 ecrecover
    {X L} (chain_of : X -> chain W) (D : clientDeps X L) sh ms bk
    `{!OnContract T bridge_address safe_address keccak256 ecrecover chain_of D sh ms bk}
    (n : Z) (x : X) :
  reachable T bridge_address safe_address keccak256 ecrecover (chain_of x) -> (0 < n < two64)%Z ->
  wp (GetBatch D n) (fun r x' => match r with
    | Ok ob => exists b, ob = Some b /\ (tb_ID b <> 0%Z ->
        tb_ID b = n /\ exists ds, deposits_query bridge_address n (chain_of x') = Some ds /\ Forall2 mirrors ds (tb_Deposits b) /\
          1 <= length ds <= 100 /\
          verifyDepositNonces b (deposits_before (s_ledger (br_safe (contracts (chain_of x')))) (n - 1)) = None)
    | Err _ => True end) x.
Proof.
  intros Hc%reachable_ok Hn.
  eapply wp_mono; [by eapply GetBatch_reads|]. intros [ob|e] x' [Ha Hr]; [|done]. destruct Hr as (b & -> & Hb).
  exists b. split; [done|]. intros Hid. destruct (Hb Hid) as (Hfin & Hidn & Hf). split; [done|].
  pose proof (advances_keeps _ _ _ _ _ _ _ Hc Ha) as Hc'. pose proof (ck_ledger _ Hc') as Hl.
  destruct (queries_spec bridge_address _ n Hc') as [_ Hq]; [unfold two64 in Hn; lia|].
  pose proof Hfin as [Hi _]. apply is_final_spec in Hfin. rewrite Hfin in Hq. eexists. split; [exact Hq|]. split; [done|].
  destruct (lo_batch _ _ Hl _ _ (batch_at_some _ _ _ Hl Hi)) as (_ & H2 & H3 & _).
  split; [unfold maxBatchSize in H3; lia|]. by eapply mirrored_nonces.
Qed.

(** C16. Relayers agree as long as the admin does not raise the settle limit: once one relayer has
    fetched batch [n] from the contracts, any relayer that later fetches it, over its own node and
    with any other transactions of anybody in between ([advances]), gets either an error, an
    unfinished batch, or the same deposits.  The condition is needed: see
    [EthBridgeFacts.raised_limit_reopens_batch]. *)
Theorem relayers_agree {W} (T : erc20 W) (bridge_address safe_address : address) keccak256 ecrecover
    {X1 X2 L1 L2} (chain_of1 : X1 -> chain W) (chain_of2 : X2 -> chain W) (D1 : clientDeps X1 L1) (D2 : clientDeps X2 L2)
    sh1 ms1 bk1 sh2 ms2 bk2
    `{!OnContract T bridge_address safe_address keccak256 ecrecover chain_of1 D1 sh1 ms1 bk1}
    `{!OnContract T bridge_address safe_address keccak256 ecrecover chain_of2 D2 sh2 ms2 bk2}
    (n : Z) (x1 : X1) :
  reachable T bridge_address safe_address keccak256 ecrecover (chain_of1 x1) -> (0 < n < two64)%Z ->
  wp (GetBatch D1 n) (fun r1 x1' => forall x2, advances T bridge_address safe_address keccak256 ecrecover (chain_of1 x1') (chain_of2 x2) ->
    wp (GetBatch D2 n) (fun r2 _ => forall b1 b2, r1 = Ok (Some b1) -> r2 = Ok (Some b2) -> tb_ID b1 <> 0%Z -> tb_ID b2 <> 0%Z ->
      tb_ID b1 = tb_ID b2 /\ Forall2 same_deposit (tb_Deposits b1) (tb_Deposits b2)) x2) x1.
Proof.
  intros Hc%reachable_ok Hn. eapply wp_mono; [by eapply GetBatch_reads|]. intros r1 x1' [Ha1 Hr1] x2 Ha.
  pose proof (advances_keeps _ _ _ _ _ _ _ Hc Ha1) as Hc1. pose proof (advances_keeps _ _ _ _ _ _ _ Hc1 Ha) as Hc2.
  eapply wp_mono; [by eapply GetBatch_reads|]. intros r2 x2' [Ha2 Hr2] b1 b2 -> -> Hid1 Hid2.
  destruct Hr1 as (? & [= <-] & Hb1), Hr2 as (? & [= <-] & Hb2).
  destruct (Hb1 Hid1) as (Hf1 & -> & Hm1), (Hb2 Hid2) as (Hf2 & -> & Hm2). split; [done|].
  destruct (advances_final _ _ _ _ _ _ _ _ Hc1 (advances_trans _ _ _ _ _ _ _ _ Ha Ha2) Hf1) as [_ [_ Hd]].
  rewrite Hd in Hm2. by eapply mirrors_same.
Qed.
End EthRead.
