(* ===== verification/EthTransfer.v ===== *)
(** * Transfers from the relayers to the contract

    The hash the Go client signs ([client.go], [GenerateMessageHash]) is the hash the contract
    checks ([Bridge.sol], [executeTransfer]); it determines the transfer; what the contract
    executes was signed by a quorum of relayers; what the client prepares is accepted.
    go-ethereum's ABI encoder is assumed to implement the ABI specification. *)
From S2P Require Import Prelude Go Common Batch Interfaces Executor EthClient EthClientFacts Solidity EnumerableSet EthSafe EthSafeFacts EthBridge EthBridgeFacts EthNode.
Import Access.

Module EthTransfer.
Import EnumerableSet Safe SafeFacts EthBridge EthBridgeFacts EthNode.
Import EthClient(ethLib, abi_NewType, abi_Pack, Keccak256, abiValue(..), clientDeps, lib, argListsBatch(..), al_tokens, al_recipients, al_amounts, al_nonces, extractList, BytesToAddress,
  generateTransferArgs, GenerateMessageHash, prepareTransfer, TransactOpts, relayerAddress).
Import EthClientFacts(lists_of, extractList_spec, total_of, prepareTransfer_inv, amounts_length).

(** ** The encoder *)

Definition sol_value (v : abiValue) : abi_value :=
  match v with
  | AbiAddresses l => AAddresses l
  | AbiUints l => AUints l
  | AbiUint z => AUint z
  | AbiString s => AString (bytes_of_string s)
  end.

Definition type_name (v : abiValue) : string :=
  match v with AbiAddresses _ => "address[]" | AbiUints _ => "uint256[]" | AbiUint _ => "uint256" | AbiString _ => "string" end.

(** Types by name; values of the types given, within their ranges, are encoded as specified. *)
Class AbiLaws {T} (L : ethLib T) (type_of : string -> T) : Prop := {
  al_type v : abi_NewType L (type_name v) = Ok (type_of (type_name v));
  al_pack args vs : snd <$> args = (type_of ∘ type_name) <$> vs -> Forall (abi_ok ∘ sol_value) vs ->
    abi_Pack L args vs = Ok (abi_encode (sol_value <$> vs))
}.

(** ** The hash *)

(** Numbers of a batch as their Go types have them, amounts as the contract takes them. *)
Record batch_typed (b : TransferBatch) : Prop := {
  bt_id : is_u64 (tb_ID b);
  bt_length : is_uint256 (Z.of_nat (length (tb_Deposits b)));
  bt_nonces : Forall (fun d => is_u64 (dt_Nonce d)) (tb_Deposits b);
  bt_amounts : Forall (fun d => exists a, dt_Amount d = Some a /\ is_uint256 a) (tb_Deposits b)
}.

(** The lists the client sends for a batch. *)
Definition batch_lists (b : TransferBatch) : argListsBatch := lists_of (tb_Deposits b) (omap dt_Amount (tb_Deposits b)).

(** The hash the contract computes for the transfer of a batch. *)
Definition batch_hash (keccak256 : bytes -> bytes) (b : TransferBatch) : bytes :=
  let l := batch_lists b in transfer_hash keccak256 (al_tokens l) (al_recipients l) (al_amounts l) (al_nonces l) (tb_ID b).

Lemma BytesToAddress_length b : length (BytesToAddress b) = 20.
Proof. unfold BytesToAddress. rewrite length_app, length_replicate, length_drop. lia. Qed.

Lemma u64_uint256 z : is_u64 z -> is_uint256 z.
Proof. unfold is_u64, is_uint256, two64. lia. Qed.

Lemma batch_typed_amounts b : batch_typed b -> amounts_set b.
Proof. intros H. eapply Forall_impl; [apply (bt_amounts _ H)|]. intros d (a & Ha & _). by exists a. Qed.

Lemma batch_lists_typed b : batch_typed b ->
  let l := batch_lists b in transfer_typed (al_tokens l) (al_recipients l) (al_amounts l) (al_nonces l) (tb_ID b).
Proof.
  intros Hb. pose proof (amounts_length _ (batch_typed_amounts _ Hb)) as Hlen. destruct Hb as [Hid Hl Hn Ha]. unfold transfer_typed, batch_lists.
  cbn [al_tokens al_recipients al_amounts al_nonces lists_of]. rewrite !Forall_cons. unfold abi_ok. rewrite !length_fmap, Hlen.
  assert (forall f : DepositTransfer -> bytes, Forall is_address (BytesToAddress ∘ f <$> tb_Deposits b)) as Haddr.
  { intros f. apply Forall_fmap, Forall_true. intros d. apply BytesToAddress_length. }
  split; [by split|]. split; [by split|]. split; [split; [|done]|split; [split; [|done]|]].
  - clear Hlen Hl Hn Haddr Hid. induction Ha as [|d ds (a & Hda & Hua) _ IH]; [constructor|]. cbn. rewrite Hda. by constructor.
  - apply Forall_fmap. eapply Forall_impl; [exact Hn|]. intros d. apply u64_uint256.
  - split; [by apply u64_uint256|by apply Forall_nil].
Qed.

(** The Go prefix is the contract's. *)
Lemma prefix_same : bytes_of_string EthClient.messagePrefix = prefix.
Proof. reflexivity. Qed.

Section Hash.
Context {X T : Type} (D : clientDeps X T) (type_of : string -> T) `{!AbiLaws (lib D) type_of}.

Lemma generateTransferArgs_ok : generateTransferArgs D = Ok
  [("recipients", type_of "address[]"); ("tokens", type_of "address[]"); ("amounts", type_of "uint256[]");
   ("nonces", type_of "uint256[]"); ("nonce", type_of "uint256"); ("executeTransfer", type_of "string")].
Proof using AbiLaws0.
  unfold generateTransferArgs. pose proof (al_type (L := lib D)) as H. pose proof (H (AbiAddresses [])) as H1.
  pose proof (H (AbiUints [])) as H2. pose proof (H (AbiUint 0)) as H3. pose proof (H (AbiString "")) as H4. cbn in *.
  by rewrite H1, H2, H3, H4.
Qed.

Lemma GenerateMessageHash_contract b x : batch_typed b ->
  GenerateMessageHash D (Some b) x = (Ret (Ok (batch_hash (Keccak256 (lib D)) b)), x).
Proof using AbiLaws0.
  intros Hb. pose proof (batch_lists_typed _ Hb) as Ht. unfold GenerateMessageHash. rewrite generateTransferArgs_ok.
  rewrite extractList_spec by (by apply batch_typed_amounts). fold (batch_lists b) in *. unfold of_outcome, mbind, M_bind.
  unfold transfer_typed in Ht. rewrite !Forall_cons in Ht. destruct Ht as (H1 & H2 & H3 & H4 & H5 & _).
  unfold mret at 1, M_ret at 1. erewrite al_pack; [|reflexivity|].
  - by rewrite prefix_same.
  - rewrite !Forall_cons. split_and!; done.
Qed.
End Hash.

(** C20. The Go client and the contract mean the same transfer: the hash the relayers sign for a
    batch is the one [executeTransfer] computes from the very token, recipient, amount and nonce
    lists and the batch number that the client sends with the transaction. *)
Theorem message_hash_matches_contract {X T} (D : clientDeps X T) (type_of : string -> T) `{!AbiLaws (lib D) type_of}
    (o : map_order) (h : bytes) (b : TransferBatch) (quorum : Z) (x x' y : X) opts lists sigs :
  batch_typed b -> prepareTransfer D o h b quorum x = (Ret (Ok (opts, lists, sigs)), x') ->
  GenerateMessageHash D (Some b) y =
    (Ret (Ok (transfer_hash (Keccak256 (lib D)) (al_tokens lists) (al_recipients lists) (al_amounts lists) (al_nonces lists) (tb_ID b))), y).
Proof.
  intros Hb Hp. apply prepareTransfer_inv in Hp as (_ & _ & _ & -> & _); [|by apply batch_typed_amounts].
  by eapply GenerateMessageHash_contract.
Qed.

(** ** What a hash commits to *)

(** Two different texts with one hash. *)
Definition collide (k : bytes -> bytes) (y y' : bytes) : Prop := y <> y' /\ k y = k y'.

(** The texts that are hashed for a transfer: its encoding, and the prefixed hash of that. *)
Definition transfer_data (tokens recipients : list address) (amounts nonces : list Z) (n : Z) : bytes :=
  abi_encode [AAddresses recipients; AAddresses tokens; AUints amounts; AUints nonces; AUint n; AString (bytes_of_string executeTransferAction)].

Definition texts_collide (k : bytes -> bytes) (y y' : bytes) : Prop := collide k y y' \/ collide k (prefix ++ k y) (prefix ++ k y').

Lemma collide_or k y y' : k y = k y' -> y = y' \/ collide k y y'.
Proof. intros H. destruct (decide (y = y')); [by left|by right]. Qed.

Lemma transfer_hash_inj k t r a d n t' r' a' d' n' :
  transfer_typed t r a d n -> transfer_typed t' r' a' d' n' -> transfer_hash k t r a d n = transfer_hash k t' r' a' d' n' ->
  (t = t' /\ r = r' /\ a = a' /\ d = d' /\ n = n') \/ texts_collide k (transfer_data t r a d n) (transfer_data t' r' a' d' n').
Proof.
  intros H H' Heq. unfold transfer_hash, _getHashedDepositData in Heq. unfold texts_collide, transfer_data.
  apply collide_or in Heq as [Heq|]; [|by right; right]. apply app_inv_head in Heq.
  apply collide_or in Heq as [Heq|]; [|by right; left]. left. apply abi_encode_inj in Heq.
  - by injection Heq as -> -> -> -> ->.
  - repeat constructor.
  - apply (Forall_app_2 _ [_; _; _; _; _] [_] H). by apply Forall_singleton.
  - apply (Forall_app_2 _ [_; _; _; _; _] [_] H'). by apply Forall_singleton.
Qed.

Definition sends (b : TransferBatch) (tokens recipients : list address) (amounts nonces : list Z) (n : Z) : Prop :=
  tokens = al_tokens (batch_lists b) /\ recipients = al_recipients (batch_lists b) /\ amounts = al_amounts (batch_lists b) /\
  nonces = al_nonces (batch_lists b) /\ n = tb_ID b.

(** The batches a Go client generates a given hash for: the transfer with that hash and no other,
    or else the two encodings are a collision. *)
Definition binds (keccak256 : bytes -> bytes) (tokens recipients : list address) (amounts nonces : list Z) (n : Z) : Prop :=
  forall X T (D : clientDeps X T) (type_of : string -> T) (b : TransferBatch) (x x' : X),
    AbiLaws (lib D) type_of -> Keccak256 (lib D) = keccak256 -> batch_typed b ->
    GenerateMessageHash D (Some b) x = (Ret (Ok (transfer_hash keccak256 tokens recipients amounts nonces n)), x') ->
    sends b tokens recipients amounts nonces n \/
    (let l := batch_lists b in texts_collide keccak256 (transfer_data tokens recipients amounts nonces n)
       (transfer_data (al_tokens l) (al_recipients l) (al_amounts l) (al_nonces l) (tb_ID b))).

Lemma typed_binds k t r a d n : transfer_typed t r a d n -> binds k t r a d n.
Proof.
  intros Ht X T D type_of b x x' Habi <- Hb Hg. rewrite (GenerateMessageHash_contract D type_of b x Hb) in Hg.
  injection Hg as Hg _. symmetry in Hg. by apply transfer_hash_inj in Hg; [|done|apply batch_lists_typed].
Qed.


(** ** What the contract accepts *)

Section Accepted.
Context {W : Type} (T : erc20 W) (bridge_address safe_address : address).
Context (keccak256 : bytes -> bytes) (ecrecover : bytes -> Z -> bytes -> bytes -> address).

Lemma sol_bind_done {S A B} (c : Sol S A) (k : A -> Sol S B) s a s1 r : c s = Done a s1 -> k a s1 = r -> mbind k c s = r.
Proof using Type. intros H <-. unfold mbind, Sol_bind. by rewrite H. Qed.

Lemma elem_of_insert {A} (l : list A) i x y : y ∈ <[i := x]> l -> y = x \/ y ∈ l.
Proof using Type.
  intros [k Hk]%list_elem_of_lookup. destruct (decide (k = i)) as [->|Hne].
  - left. apply list_lookup_insert_Some in Hk as [(_ & -> & _)|(Hne & _)]; done.
  - right. rewrite list_lookup_insert_ne in Hk by done. by eapply list_elem_of_lookup_2.
Qed.

(** The signatures of distinct relayers. *)
Definition signed_by_relayers (b : bridge W) (data : bytes) (signatures : list bytes) : Prop :=
  NoDup (signer ecrecover data <$> signatures) /\
  Forall (fun sig => length sig = 65 /\ isRelayer (signer ecrecover data sig) b = true) signatures.

(** All of them are counted. *)
Lemma count_signers_ok data (b : bridge W) signatures i valid count :
  signed_by_relayers b data signatures -> (forall a, a ∈ signer ecrecover data <$> signatures -> a ∉ valid) ->
  (0 <= count)%Z -> (count + Z.of_nat (length signatures) < 2 ^ 256)%Z ->
  count_signers ecrecover data i signatures valid count b = Done (count + Z.of_nat (length signatures))%Z b.
Proof using Type.
  revert i valid count. induction signatures as [|sig rest IH]; intros i valid count [Hnd Hall] Hv H0 Hlt.
  { cbn. by rewrite Z.add_0_r. }
  cbn [fmap list_fmap] in Hnd, Hv. apply NoDup_cons in Hnd as [Hnot Hnd]. apply Forall_cons in Hall as [[H65 Hrel] Hall].
  cbn [count_signers length] in *. eapply sol_bind_done.
  { unfold _recover. apply Nat.eqb_eq in H65. rewrite H65. unfold require, mbind, Sol_bind. cbn. reflexivity. }
  fold (signer ecrecover data sig). eapply sol_bind_done; [reflexivity|]. rewrite Hrel. cbn [negb].
  rewrite bool_decide_false by (apply Hv; by left). eapply sol_bind_done; [apply checked_ok; lia|].
  rewrite IH; [f_equal; lia|done| |lia|lia]. intros a Ha [->|Hin]%elem_of_insert; [done|]. eapply Hv; [by right|done].
Qed.

(** Transfers that the books cover, of tokens whose answers can be decoded, do not revert. *)
Definition decodable : Prop := forall t to v w, is_Some (reported (fst (call_transfer T t safe_address to v w))).

Lemma transfer_ok m t a to (s : safe W) :
  decodable -> _bridge s = msg_sender m -> (0 <= a <= value_at (tokenBalances (s_accounts s)) t)%Z ->
  (value_at (tokenBalances (s_accounts s)) t < 2 ^ 256)%Z ->
  exists r s', transfer T safe_address m t a to s = Done r s'.
Proof using Type.
  intros Hd Hb Ha Hlt. destruct (call_transfer T t safe_address to a (s_tokens s)) as [r w] eqn:Hr.
  pose proof (Hd t to a (s_tokens s)) as [rep Hrep]. rewrite Hr in Hrep. cbn in Hrep.
  assert (boolTransfer T safe_address t to a s = Done rep (mkSafe (s_access s) (_bridge s) (s_limits s) (s_ledger s) (s_accounts s) w)) as Hbt.
  { unfold boolTransfer, on_tokens, mbind, Sol_bind, at_part. rewrite Hr. destruct r as [d|]; [|by injection Hrep as <-].
    unfold reported in Hrep. destruct d as [|x d]; [by injection Hrep as <-|]. cbn [length Nat.eqb]. unfold abi_decode_bool.
    cbn [length] in Hrep. destruct (_ <? 32)%nat; [done|]. repeat (case_match; [by injection Hrep as <-|]). done. }
  assert (onlyBridge m s = Done tt s) as Honly.
  { unfold onlyBridge. eapply sol_bind_done; [reflexivity|]. unfold Safe.bridge. by rewrite bool_decide_true. }
  unfold transfer. destruct rep; eexists _, _; (eapply sol_bind_done; [exact Honly|]); (eapply sol_bind_done; [exact Hbt|]); [|reflexivity].
  eapply sol_bind_done; [|reflexivity]. eapply sol_bind_done; [reflexivity|]. cbn [s_accounts].
  eapply sol_bind_done; [apply checked_ok; lia|]. reflexivity.
Qed.

Lemma total_of_head t tokens a amounts t' :
  total_of t' (t :: tokens) (a :: amounts) = ((if bool_decide (t = t') then a else 0) + total_of t' tokens amounts)%Z.
Proof using Type. done. Qed.

Lemma total_of_nonneg t tokens amounts : Forall is_uint256 amounts -> (0 <= total_of t tokens amounts)%Z.
Proof using Type.
  intros H. revert tokens. induction H as [|a amounts [Ha _] _ IH]; intros [|t' tokens]; cbn; try lia.
  specialize (IH tokens). case_bool_decide; lia.
Qed.

(** What the books say is owed of a token. *)
Abbreviation owed b t := (value_at (tokenBalances (s_accounts (br_safe b))) t).

Lemma transfer_all_ok m tokens amounts recipients j (b : bridge W) :
  decodable -> _bridge (br_safe b) = bridge_address -> Forall is_uint256 amounts ->
  j + length tokens <= length amounts -> j + length tokens <= length recipients ->
  (forall t, total_of t tokens (drop j amounts) <= owed b t < 2 ^ 256)%Z ->
  exists sts b', transfer_all T bridge_address safe_address m j tokens amounts recipients b = Done sts b'.
Proof using Type.
  intros Hd. revert j b. induction tokens as [|t tokens IH]; intros j b Hb Hu Ha Hr Hle; [by eexists _, _|].
  cbn [length transfer_all] in *. destruct (lookup_lt_is_Some_2 amounts j) as [a Hja]; [lia|].
  destruct (lookup_lt_is_Some_2 recipients j) as [r Hjr]; [lia|].
  assert (is_uint256 a) as Hua by (by eapply Forall_lookup_1). destruct Hua as [Hpos _].
  rewrite (drop_S amounts a j Hja) in Hle.
  pose proof (total_of_nonneg t tokens (drop (S j) amounts) (Forall_drop _ _ _ Hu)) as Hrest.
  pose proof (Hle t) as Ht. rewrite total_of_head, bool_decide_true in Ht by done.
  destruct (transfer_ok (from_bridge bridge_address m) t a r (br_safe b)) as (ok & s' & Htr); [done|done|lia|lia|].
  pose proof Htr as (rr & w & _ & _ & _ & ->)%transfer_inv.
  edestruct (IH (S j)) as (sts & b' & Hall); cycle 5.
  - eexists _, b'. unfold at_index. eapply sol_bind_done; [by rewrite Hja|]. eapply sol_bind_done; [by rewrite Hjr|].
    eapply sol_bind_done; [unfold at_safe, at_part; rewrite Htr; reflexivity|]. eapply sol_bind_done; [exact Hall|reflexivity].
  - done.
  - done.
  - lia.
  - lia.
  - intros t'. specialize (Hle t'). rewrite total_of_head in Hle. cbn.
    pose proof (total_of_nonneg t' tokens (drop (S j) amounts) (Forall_drop _ _ _ Hu)).
    destruct ok; cbn; [|case_bool_decide; lia]. unfold value_at in *. destruct (decide (t = t')) as [<-|Hne].
    + rewrite lookup_insert_eq, bool_decide_true in * by done. cbn. lia.
    + rewrite lookup_insert_ne, bool_decide_false in * by done. lia.
Qed.

(** A transfer for which everything the contract asks for holds. *)
Lemma executeTransfer_ok m tokens recipients amounts nonces n signatures (b : bridge W) :
  roles_ok b -> decodable -> _paused (br_access b) = false -> isRelayer (msg_sender m) b = true -> n ∉ executedBatches b ->
  (quorum b <= Z.of_nat (length signatures) < 2 ^ 256)%Z ->
  signed_by_relayers b (transfer_hash keccak256 tokens recipients amounts nonces n) signatures ->
  _bridge (br_safe b) = bridge_address -> Forall is_uint256 amounts ->
  length tokens <= length amounts -> length tokens <= length recipients ->
  (forall t, total_of t tokens amounts <= owed b t < 2 ^ 256)%Z ->
  exists b', executeTransfer T bridge_address safe_address keccak256 ecrecover m tokens recipients amounts nonces n signatures b = Done tt b'.
Proof using Type.
  intros Hro Hd Hp Hs Hn [Hq Hlt] Hsig Hbr Hu Ha Hr Hle.
  edestruct (transfer_all_ok m tokens amounts recipients 0) as (sts & b' & Hall); cycle 6.
  - eexists. unfold executeTransfer, onlyRelayer, whenNotPaused.
    eapply sol_bind_done. { unfold at_access, at_part, mbind, Sol_bind, view, paused. rewrite Hp. reflexivity. }
    rewrite bridge_eta. eapply sol_bind_done. { eapply sol_bind_done; [reflexivity|]. rewrite Hs. reflexivity. }
    eapply sol_bind_done; [reflexivity|]. rewrite (proj2 (Z.leb_le _ _)) by done. eapply sol_bind_done; [reflexivity|].
    eapply sol_bind_done; [reflexivity|]. rewrite bool_decide_false by done. eapply sol_bind_done; [reflexivity|].
    eapply sol_bind_done; [reflexivity|]. eapply sol_bind_done.
    { unfold _validateQuorum. eapply sol_bind_done.
      - apply count_signers_ok; [exact Hsig| |lia|lia]. intros a [sig [-> Hin]]%list_elem_of_fmap [Hz _]%elem_of_replicate.
        destruct Hsig as [_ Hrel]. rewrite Forall_forall in Hrel. destruct (Hrel _ Hin) as [_ Hr']. rewrite Hz, zero_no_relayer in Hr' by done. done.
      - eapply sol_bind_done; [reflexivity|]. cbn [quorum]. rewrite (proj2 (Z.leb_le _ _)) by lia. reflexivity. }
    eapply sol_bind_done; [exact Hall|]. reflexivity.
  - done.
  - done.
  - done.
  - lia.
  - lia.
  - intros t. rewrite drop_0. apply Hle.
Qed.
End Accepted.

(** C11. What the Go client prepares, the contract accepts: if the signatures the client sends
    with the transaction are those of distinct relayers for the generated hash, the contract is
    running, the sender is a relayer, the batch was not executed before and the safe's books
    cover every token's total, then the transaction does not revert, and the contract records
    the batch as executed, with one status per deposit. *)
Theorem prepared_transfer_accepted {W} (T : erc20 W) (bridge_address safe_address : address) ecrecover
    {X L} (D : clientDeps X L) (type_of : string -> L) `{!AbiLaws (lib D) type_of}
    (o : map_order) (b : TransferBatch) (h : bytes) (x x' y : X) opts lists sigs (c : chain W) :
  let now_ := contracts c in
  let c' := happens T bridge_address safe_address (Keccak256 (lib D)) ecrecover c
    (Sent (relayerAddress D) (ToBridge
      (ExecuteTransfer (al_tokens lists) (al_recipients lists) (al_amounts lists) (al_nonces lists) (tb_ID b) sigs))) in
  batch_typed b -> GenerateMessageHash D (Some b) y = (Ret (Ok h), y) ->
  prepareTransfer D o h b (quorum now_) x = (Ret (Ok (opts, lists, sigs)), x') ->
  chain_ok c -> decodable T safe_address -> _paused (br_access now_) = false -> isRelayer (relayerAddress D) now_ = true ->
  tb_ID b ∉ executedBatches now_ -> (quorum now_ < 2 ^ 256)%Z -> signed_by_relayers ecrecover now_ h sigs ->
  _bridge (br_safe now_) = bridge_address ->
  (forall t, total_of t (al_tokens lists) (al_amounts lists) <= value_at (tokenBalances (s_accounts (br_safe now_))) t < 2 ^ 256)%Z ->
  tb_ID b ∈ executedBatches (contracts c') /\
  exists sts, crossTransferStatuses (contracts c') !! tb_ID b = Some (mkCross sts (now c)) /\ length sts = length (tb_Deposits b).
Proof.
  intros now_ c' Hb Hgen Hprep Hc Hd Hp Hs Hn Hq Hsig Hbr Hle. pose proof (ck_roles _ Hc) as Hro.
  apply prepareTransfer_inv in Hprep as (_ & Hlen & _ & -> & _); [|by apply batch_typed_amounts]. fold (batch_lists b) in *.
  rewrite (GenerateMessageHash_contract D type_of b y Hb) in Hgen. injection Hgen as <-.
  pose proof (batch_lists_typed _ Hb) as Ht. unfold transfer_typed in Ht. rewrite !Forall_cons in Ht. destruct Ht as (_ & _ & [Hu _] & _).
  pose proof (amounts_length _ (batch_typed_amounts _ Hb)) as Hal.
  edestruct (executeTransfer_ok T bridge_address safe_address (Keccak256 (lib D)) ecrecover (chain_msg (relayerAddress D) c)) as [b' Hx];
    [exact Hro|exact Hd|exact Hp|exact Hs|exact Hn| |exact Hsig|exact Hbr|exact Hu| | |exact Hle|].
  - rewrite Hlen. split; [apply Z.le_refl|exact Hq].
  - cbn. rewrite length_fmap. lia.
  - cbn. by rewrite !length_fmap.
  - subst c'. cbn [happens]. unfold applied. cbn [tx_exec bridge_exec]. rewrite Hx. cbn [contracts].
    apply executeTransfer_inv in Hx as (_ & _ & _ & _ & sts & acc & w & Hsts & -> & _); [|by apply zero_no_relayer].
    cbn. split; [set_solver|]. exists sts. rewrite lookup_insert_eq. split; [done|]. rewrite Hsts. cbn. by rewrite length_fmap.
Qed.
End EthTransfer.
