(* ===== verification/EthDemo.v ===== *)
(** * A deployment on Ethereum

    Two contracts, two relayers, tokens with plain balances, a signature scheme and a node: the
    theorems about the contracts and about the clients over them, on concrete histories. *)
From S2P Require Import Prelude Go Common Batch Interfaces Executor EthClient EthClientFacts Bindings Solidity EnumerableSet EthSafe EthSafeFacts EthBridge EthBridgeFacts EthSolvency EthNode EthRead EthTransfer.
Import Access.

Module EthDemo.
Import EnumerableSet Safe SafeFacts EthBridge EthBridgeFacts Solvency EthNode EthRead EthTransfer.
Import Bindings(BoundContract(..), bound_Call, bound_Transact, Bridge, GetRelayer).

Definition addr (z : Z) : address := be_bytes 20 z.
Definition admin_ : address := addr 1.
Definition user : address := addr 2.
Definition relayer1 : address := addr 11.
Definition relayer2 : address := addr 12.
Definition gold : address := addr 21.
Definition silver : address := addr 22.
Definition bridge_addr : address := addr 31.
Definition safe_addr : address := addr 32.
Definition recipient : bytes := be_bytes 32 77.

(** ** Tokens: one balance per token and owner *)

Abbreviation world := (gmap (address * address) Z).

Definition bal (w : world) (t a : address) : Z := default 0%Z (w !! (t, a)).

Definition move (t from to : address) (v : Z) (w : world) : world :=
  let w' := <[(t, from) := (bal w t from - v)%Z]> w in <[(t, to) := (bal w' t to + v)%Z]> w'.

Definition tokens : erc20 world := {|
  call_transfer t from to v w := if (v <=? bal w t from)%Z then (Some (be_bytes 32 1), move t from to v w) else (None, w);
  safeTransferFrom t _ from to v w := if (v <=? bal w t from)%Z then Done tt (move t from to v w) else Revert "SafeERC20";
  safeTransfer t from to v w := if (v <=? bal w t from)%Z then Done tt (move t from to v w) else Revert "SafeERC20";
  balanceOf t a w := Done (bal w t a) w;
  decimals _ w := Done 2%Z w;
  isContract _ _ := true |}.

Lemma bal_insert w t a v t' a' : bal (<[(t, a) := v]> w) t' a' = if decide ((t, a) = (t', a')) then v else bal w t' a'.
Proof. unfold bal. rewrite lookup_insert. by case_decide. Qed.

Lemma bal_move t from to v w t' a :
  bal (move t from to v w) t' a =
  (bal w t' a - (if decide ((t, from) = (t', a)) then v else 0) + (if decide ((t, to) = (t', a)) then v else 0))%Z.
Proof. unfold move. rewrite !bal_insert. repeat case_decide; simplify_eq; lia. Qed.

#[export] Instance tokens_laws : Erc20Laws tokens bal.
Proof.
  split.
  - intros t from to v w r w' Hv H. cbn in H. destruct (v <=? bal w t from)%Z; injection H as <- <-.
    + split; [intros t' a Hne|change (reported _) with (Some true); cbv iota]; rewrite bal_move; repeat case_decide; simplify_eq; try lia.
      by destruct Hne.
    + split; [done|]. cbn. lia.
  - intros t spender from to v w w' u Hv H Hne. cbn in H. destruct (v <=? bal w t from)%Z; [|done]. injection H as _ <-.
    split; [|intros t' a Ha]; rewrite bal_move; repeat case_decide; simplify_eq; lia.
  - intros t w d w' [= _ <-]. done.
Qed.

Definition world0 : world := <[(gold, user) := 100000%Z]> (<[(silver, user) := 100000%Z]> ∅).

(** ** Signatures: a signature names its signer, and the relayers have signed one transfer *)

Definition keccak (l : bytes) : bytes := l.

Definition paid_tokens : list address := [gold; gold].
Definition paid_recipients : list address := [addr 41; addr 42].
Definition paid_amounts : list Z := [300; 200]%Z.
Definition paid_nonces : list Z := [5; 6]%Z.
Definition paid_batch : Z := 7.
Definition paid_hash : bytes := transfer_hash keccak paid_tokens paid_recipients paid_amounts paid_nonces paid_batch.

Definition recover (data : bytes) (v : Z) (r s : bytes) : address :=
  if bool_decide (data = paid_hash) then take 20 r else zero_address.
Definition signature_of (a : address) : bytes := a ++ replicate 45 Byte.x00.

Abbreviation happened := (history tokens bridge_addr safe_addr keccak recover).
Abbreviation fine := (history_ok tokens bridge_addr safe_addr keccak recover).

(** ** A history *)

Definition empty_bridge : bridge world :=
  mkBridge (deployed admin_) empty_set 40 0 ∅ ∅ (new_safe admin_ world0).

Definition deploying : result (bridge world) unit :=
  constructor {| msg_sender := admin_; block_number := 10 |} [relayer1; relayer2] 2 (new_safe admin_ world0).

Definition deployment : chain world := mkChain 10 (match deploying with Done _ b => b | Revert _ => empty_bridge end).

Lemma deployment_deployed : deployed_chain deployment.
Proof.
  exists {| msg_sender := admin_; block_number := 10 |}, admin_, world0, [relayer1; relayer2], 2%Z, tt.
  split; [done|]. split; [done|]. change (deploying = Done tt (contracts deployment)). unfold deployment.
  assert ((match deploying with Done _ _ => true | Revert _ => false end) = true) as H by (vm_compute; reflexivity).
  destruct deploying as [[] b|r]; [reflexivity|discriminate H].
Qed.

Definition setup : list (event world) := [
  Sent admin_ (ToSafe (SetBridge bridge_addr));
  Sent admin_ (ToSafe (WhitelistToken gold 10 100000));
  Sent admin_ (ToSafe (WhitelistToken silver 10 100000));
  Sent admin_ (ToSafe (Unpause));
  Sent admin_ (ToBridge BUnpause) ].

Definition deposits : list (event world) := [
  NewBlock 100;
  Sent user (ToSafe (MakeDeposit gold 10000 recipient));
  NewBlock 101;
  Sent user (ToSafe (MakeDeposit silver 400 recipient));
  NewBlock 200 ].

Definition payment : list (event world) := [
  Sent relayer1 (ToBridge (ExecuteTransfer paid_tokens paid_recipients paid_amounts paid_nonces paid_batch
                             [signature_of relayer1; signature_of relayer2]));
  NewBlock 201;
  Sent relayer2 (ToBridge (ExecuteTransfer paid_tokens paid_recipients paid_amounts paid_nonces paid_batch
                             [signature_of relayer1; signature_of relayer2]));
  Sent user (ToSafe (MakeDeposit gold 50 recipient));
  NewBlock 300 ].

Definition today : chain world := happened deployment (setup ++ deposits).
Definition tomorrow : chain world := happened today payment.

Lemma history_fine : fine deployment ((setup ++ deposits) ++ payment).
Proof. apply (bool_decide_unpack _). vm_compute. exact I. Qed.

Lemma setup_fine : fine deployment (setup ++ deposits).
Proof. apply (bool_decide_unpack _). vm_compute. exact I. Qed.

(** ** The contracts *)

(** The first batch, with its two deposits, after the service fee. *)
Definition first_batch : Batch := mkBatch 1 100 101 2.

Lemma served_batch_immutable_witness :
  batch_query bridge_addr 1 (happened deployment ((setup ++ deposits) ++ payment)) = Some first_batch /\
  deposits_query bridge_addr 1 (happened deployment ((setup ++ deposits) ++ payment)) =
    deposits_query bridge_addr 1 (happened deployment (setup ++ deposits)).
Proof.
  refine (served_batch_immutable tokens bridge_addr safe_addr keccak recover deployment (setup ++ deposits) payment 1 first_batch
    deployment_deployed history_fine _ _ _ _).
  - apply (bool_decide_unpack _). vm_compute. exact I.
  - lia.
  - vm_compute. reflexivity.
  - done.
Defined.

Lemma served_batch_contents_witness :
  exists ds, deposits_query bridge_addr 1 (happened deployment (setup ++ deposits)) = Some ds /\ length ds = 2 /\
    d_nonce <$> ds = [1; 2]%Z.
Proof.
  destruct (served_batch_contents tokens bridge_addr safe_addr keccak recover deployment (setup ++ deposits) 1 first_batch
    deployment_deployed setup_fine ltac:(lia) ltac:(vm_compute; reflexivity) ltac:(done)) as (_ & ds & Hds & Hc & _ & Hn).
  cbn in Hc. assert (length ds = 2) as Hl by lia. exists ds. split; [exact Hds|]. split; [exact Hl|]. rewrite Hn, Hl. vm_compute. reflexivity.
Defined.

Lemma paid_executed : paid_batch ∈ executedBatches (contracts (happened deployment ((setup ++ deposits) ++ payment))).
Proof. apply (bool_decide_unpack _). vm_compute. exact I. Qed.

(** The second transaction for the same batch had no effect. *)
Lemma executed_once_by_quorum_witness :
  exists earlier e later, (setup ++ deposits) ++ payment = earlier ++ e :: later /\
    executed_by tokens bridge_addr safe_addr keccak recover (happened deployment earlier) e paid_batch /\
    forall earlier' e' later', (setup ++ deposits) ++ payment = earlier' ++ e' :: later' ->
      executed_by tokens bridge_addr safe_addr keccak recover (happened deployment earlier') e' paid_batch -> earlier' = earlier.
Proof.
  exact (executed_once_by_quorum tokens bridge_addr safe_addr keccak recover deployment ((setup ++ deposits) ++ payment) paid_batch
    deployment_deployed history_fine paid_executed).
Defined.

Lemma world0_positive t : (0 <= bal (s_tokens (br_safe (contracts deployment))) t safe_addr)%Z.
Proof.
  change (0 <= bal world0 t safe_addr)%Z. unfold world0. rewrite !bal_insert. unfold bal. rewrite lookup_empty.
  repeat case_decide; cbn; lia.
Qed.

Lemma safe_solvent_witness :
  (value_at (tokenBalances (s_accounts (br_safe (contracts tomorrow)))) gold = 9500)%Z /\
  (9500 <= bal (s_tokens (br_safe (contracts tomorrow))) gold safe_addr)%Z.
Proof.
  assert (value_at (tokenBalances (s_accounts (br_safe (contracts tomorrow)))) gold = 9500)%Z as Hv by (vm_compute; reflexivity).
  split; [exact Hv|]. rewrite <-Hv. unfold tomorrow, today. rewrite <-history_app.
  refine (safe_solvent tokens bal bridge_addr safe_addr keccak recover deployment ((setup ++ deposits) ++ payment)
    deployment_deployed world0_positive history_fine _ gold).
  repeat split; discriminate.
Defined.

(** ** A node on which a block appears with every call *)

Definition tick (c : chain world) : chain world := if (now c + 1 <? 2 ^ 63)%Z then mkChain (now c + 1) (contracts c) else c.

Definition node : BoundContract (chain world) := {|
  bound_Call method params c := (Ret (match evm_call bridge_addr method params (tick c) with
    | Some out => Ok out | None => Err (ErrExternal "execution reverted") end), tick c);
  bound_Transact _ _ _ c := (Ret (Ok "hash"), tick c) |}.

Abbreviation moves := (advances tokens bridge_addr safe_addr keccak recover).

Lemma tick_advances c : moves c (tick c).
Proof.
  unfold tick. destruct (now c + 1 <? 2 ^ 63)%Z eqn:H; [|apply advances_refl]. apply Z.ltb_lt in H.
  exists [NewBlock (now c + 1)]. split; [split; [cbn; lia|done]|]. split; [split; [cbn; lia|done]|done].
Qed.

#[export] Instance node_laws : NodeLaws tokens bridge_addr safe_addr keccak recover id node.
Proof.
  split.
  - intros method params _ c. unfold wp. cbn [bound_Call node]. split; [apply tick_advances|].
    unfold id. by destruct (evm_call bridge_addr method params (tick c)).
  - intros opts method params c. apply tick_advances.
Qed.

Lemma bindings_match_contract_witness :
  ContractView tokens bridge_addr safe_addr keccak recover id (Bridge node) /\
  wp (GetRelayer node 1) (fun r _ => r = Ok relayer2) today.
Proof.
  destruct (bindings_match_contract tokens bridge_addr safe_addr keccak recover id node node_laws) as (Hv & _ & _ & _ & _ & Hn).
  split; [exact Hv|]. destruct (Hn 1%Z ltac:(unfold is_uint256; lia)) as (_ & _ & Hr). specialize (Hr today). revert Hr.
  unfold wp. assert (fst (GetRelayer node 1 today) = Ret (Ok relayer2)) as He by (vm_compute; reflexivity).
  destruct (GetRelayer node 1 today) as [r c]. cbn [fst] in He. subst r. done.
Defined.

(** ** Clients over the node *)

Definition quiet_status : StatusHandler (chain world) :=
  {| sh_SetIntMetric _ _ := mret tt; sh_AddIntMetric _ _ := mret tt; sh_SetStringMetric _ _ := mret tt |}.

Definition geth : EthClient.blockchainClient (chain world) := {|
  EthClient.bk_ChainID := mret (Ok 1%Z);
  EthClient.bk_BlockNumber := gets (fun c => Ok (now c));
  EthClient.bk_NonceAt _ _ := mret (Ok 3%Z);
  EthClient.bk_BalanceAt _ _ := mret (Ok 1000000%Z) |}.

Definition encoder : EthClient.ethLib string := {|
  EthClient.abi_NewType s := Ok s;
  EthClient.abi_Pack _ vs := Ok (abi_encode (sol_value <$> vs));
  EthClient.Keccak256 := keccak;
  EthClient.crypto_Sign h := Ok (signature_of relayer1);
  EthClient.NewKeyedTransactorWithChainID _ := None;
  EthClient.addr_String := hex_encode |}.

#[export] Instance encoder_laws : AbiLaws encoder id.
Proof. by split. Qed.

(** The client of a relayer; the mapper appends a letter. *)
Definition client_of (relayer : address) : EthClient.clientDeps (chain world) string := {|
  EthClient.clientWrapper := EthClient.NewEthereumChainWrapper quiet_status (Bridge node) geth;
  EthClient.erc20_BalanceOf t a := gets (fun c => Ok (bal (s_tokens (br_safe (contracts c))) t a));
  EthClient.addressConverter := {| ToBech32String := hex_encode |};
  EthClient.BroadcastSignature _ _ := mret tt;
  EthClient.ConvertToken t := mret (Ok (t ++ [Byte.x41]));
  EthClient.signatureHolder := {| sig_Signatures _ := mret [signature_of relayer1; signature_of relayer2]; sig_ClearStoredSignatures := mret tt |};
  EthClient.safeContractAddress := safe_addr;
  EthClient.GetCurrentGasPrice := mret (Ok 3%Z);
  EthClient.transferGasLimitBase := 1000; EthClient.transferGasLimitForEach := 100; EthClient.allowDelta := 2;
  EthClient.relayerAddress := relayer; EthClient.lib := encoder |}.

#[export] Instance client_on_contract relayer :
  OnContract tokens bridge_addr safe_addr keccak recover id (client_of relayer) quiet_status (Bridge node) geth.
Proof.
  split; [done| |intros k v c; apply advances_refl|intros t c; apply advances_refl].
  apply bridge_view, node_laws.
Qed.

Lemma today_reachable : reachable tokens bridge_addr safe_addr keccak recover today.
Proof. exists deployment, (setup ++ deposits). split; [exact deployment_deployed|]. split; [exact setup_fine|done]. Qed.

Lemma fetched_batch_is_contracts_witness :
  wp (EthClient.GetBatch (client_of relayer1) 1) (fun r _ => exists b, r = Ok (Some b) /\ tb_ID b = 1%Z /\
    dt_Amount <$> tb_Deposits b = [Some 9950; Some 398]%Z /\ verifyDepositNonces b 0 = None) today.
Proof.
  assert ((match fst (EthClient.GetBatch (client_of relayer1) 1 today) with
           | Ret (Ok (Some b)) => Some (tb_ID b, dt_Amount <$> tb_Deposits b) | _ => None end) =
          Some (1%Z, [Some 9950; Some 398]%Z)) as He by (vm_compute; reflexivity).
  pose proof (fetched_batch_is_contracts tokens bridge_addr safe_addr keccak recover id (client_of relayer1) quiet_status (Bridge node) geth
    1 today today_reachable ltac:(by split)) as H. revert He H. unfold wp.
  destruct (EthClient.GetBatch (client_of relayer1) 1 today) as [[[[b|]|e]|p] c]; cbn [fst]; try discriminate.
  intros He (b' & [= <-] & H). apply (inj Some) in He. injection He as Hid Ham. exists b. split; [done|]. split; [done|]. split; [done|].
  destruct H as (_ & ds & _ & _ & _ & Hv); [by rewrite Hid|]. exact Hv.
Defined.

(** Another relayer asks one block later. *)
Lemma relayers_agree_witness :
  wp (EthClient.GetBatch (client_of relayer1) 1) (fun r1 c1 =>
    wp (EthClient.GetBatch (client_of relayer2) 1) (fun r2 _ => forall b1 b2, r1 = Ok (Some b1) -> r2 = Ok (Some b2) ->
      tb_ID b1 <> 0%Z -> tb_ID b2 <> 0%Z -> tb_ID b1 = tb_ID b2 /\ Forall2 same_deposit (tb_Deposits b1) (tb_Deposits b2))
      (tick c1)) today.
Proof.
  eapply wp_mono.
  - exact (relayers_agree tokens bridge_addr safe_addr keccak recover id id (client_of relayer1) (client_of relayer2)
      quiet_status (Bridge node) geth quiet_status (Bridge node) geth 1 today today_reachable ltac:(by split)).
  - intros r1 c1 H. exact (H (tick c1) (tick_advances c1)).
Defined.

(** The batch the relayers pay out. *)
Definition payout (nonce : Z) (to : address) (amount : Z) : DepositTransfer :=
  Batch.mkDeposit nonce to "" recipient "" [Byte.x47] gold "" (Some amount).
Definition paid : TransferBatch := Batch.mkBatch paid_batch [payout 5 (addr 41) 300; payout 6 (addr 42) 200] [Byte.x00; Byte.x00].

Lemma paid_typed : batch_typed paid.
Proof.
  split; [by vm_compute|by vm_compute|by repeat constructor|]. repeat constructor; (eexists; split; [reflexivity|by vm_compute]).
Qed.

Lemma paid_hash_ok : batch_hash keccak paid = paid_hash.
Proof. vm_compute. reflexivity. Qed.

Definition prepared : EthClient.TransactOpts * EthClient.argListsBatch * list bytes :=
  (EthClient.mkOpts 3 0 1200 3, batch_lists paid, [signature_of relayer1; signature_of relayer2]).

Lemma pair_of_fst {A B} (p : A * B) a : fst p = a -> p = (a, snd p).
Proof. by destruct p; intros <-. Qed.

Lemma paid_prepared : exists c, EthClient.prepareTransfer (client_of relayer1) some_order paid_hash paid 2 today = (Ret (Ok prepared), c).
Proof. eexists. apply pair_of_fst. vm_compute. reflexivity. Qed.

Lemma message_hash_matches_contract_witness :
  EthClient.GenerateMessageHash (client_of relayer1) (Some paid) today = (Ret (Ok paid_hash), today).
Proof.
  destruct paid_prepared as [c Hc].
  exact (message_hash_matches_contract (client_of relayer1) id some_order paid_hash paid 2 today c today
    (EthClient.mkOpts 3 0 1200 3) (batch_lists paid) [signature_of relayer1; signature_of relayer2] paid_typed Hc).
Defined.

Lemma tomorrow_reachable : reachable tokens bridge_addr safe_addr keccak recover tomorrow.
Proof.
  exists deployment, ((setup ++ deposits) ++ payment). split; [exact deployment_deployed|]. split; [exact history_fine|].
  unfold tomorrow, today. by rewrite <-history_app.
Qed.


(** The batch the relayers of this chain approved is one the hash of the payment is generated for. *)
Example payment_hash_generated :
  EthClient.GenerateMessageHash (client_of relayer1) (Some paid) today =
    (Ret (Ok (let l := batch_lists paid in transfer_hash keccak (EthClient.al_tokens l) (EthClient.al_recipients l)
                (EthClient.al_amounts l) (EthClient.al_nonces l) paid_batch)), today).
Proof. apply (GenerateMessageHash_contract (client_of relayer1) id). exact paid_typed. Qed.

Lemma tokens_decodable : decodable tokens safe_addr.
Proof.
  intros t to v w. cbn [call_transfer tokens]. destruct (v <=? bal w t safe_addr)%Z; [|by eexists].
  exists true. vm_compute. reflexivity.
Qed.

Lemma paid_covered t :
  (EthClientFacts.total_of t (EthClient.al_tokens (batch_lists paid)) (EthClient.al_amounts (batch_lists paid)) <=
   value_at (tokenBalances (s_accounts (br_safe (contracts today)))) t < 2 ^ 256)%Z.
Proof.
  assert (map_Forall (fun _ v => 0 <= v < 2 ^ 256)%Z (tokenBalances (s_accounts (br_safe (contracts today))))) as Hall.
  { apply (bool_decide_unpack _). vm_compute. exact I. }
  assert (value_at (tokenBalances (s_accounts (br_safe (contracts today)))) gold = 9950)%Z as Hg by (vm_compute; reflexivity).
  change (EthClientFacts.total_of _ _ _) with ((if bool_decide (gold = t) then 300 else 0) + ((if bool_decide (gold = t) then 200 else 0) + 0))%Z.
  destruct (decide (gold = t)) as [<-|Hne].
  - rewrite bool_decide_true, Hg by done. lia.
  - rewrite bool_decide_false by done. unfold value_at. destruct (_ !! t) as [v|] eqn:Hv; [|cbn; lia]. exact (Hall t v Hv).
Qed.

Lemma prepared_transfer_accepted_witness :
  let c' := happens tokens bridge_addr safe_addr keccak recover today
    (Sent relayer1 (ToBridge (ExecuteTransfer paid_tokens paid_recipients paid_amounts paid_nonces paid_batch
                                [signature_of relayer1; signature_of relayer2]))) in
  paid_batch ∈ executedBatches (contracts c') /\
  exists sts, crossTransferStatuses (contracts c') !! paid_batch = Some (mkCross sts (now today)) /\ length sts = 2.
Proof.
  destruct paid_prepared as [c Hc].
  assert (quorum (contracts today) = 2%Z) as Hq by (vm_compute; reflexivity). rewrite <-Hq in Hc.
  refine (prepared_transfer_accepted tokens bridge_addr safe_addr recover (client_of relayer1) id some_order paid paid_hash today
    c today (EthClient.mkOpts 3 0 1200 3) (batch_lists paid) [signature_of relayer1; signature_of relayer2] today
    paid_typed _ Hc (reachable_ok _ _ _ _ _ _ today_reachable) tokens_decodable _ _ _ _ _ _ _).
  - by rewrite (GenerateMessageHash_contract (client_of relayer1) id paid today paid_typed), <-paid_hash_ok.
  - vm_compute. reflexivity.
  - vm_compute. reflexivity.
  - apply (bool_decide_unpack _). vm_compute. exact I.
  - by rewrite Hq.
  - split; [apply (bool_decide_unpack _); vm_compute; exact I|]. repeat constructor; by vm_compute.
  - vm_compute. reflexivity.
  - exact paid_covered.
Defined.

(** ** Where the contracts give no guarantee *)

(** The admin raises both limits while no batch is in progress. *)
Definition raised : chain world := happened today (change_limits admin_ 255 255).

Lemma raised_def : happened today (change_limits admin_ 255 255) = raised.
Proof. unfold raised. reflexivity. Qed.

Definition is_done {S A} (r : result S A) : bool := match r with Done _ _ => true | Revert _ => false end.

Lemma today_count : batchesCount (s_ledger (br_safe (contracts today))) = 1%Z.
Proof. vm_compute. reflexivity. Qed.

Lemma today_admin : Access._admin (s_access (br_safe (contracts today))) = admin_.
Proof. vm_compute. reflexivity. Qed.

Lemma raised_deposit : is_done (deposit tokens safe_addr (chain_msg user raised) gold 50 recipient (br_safe (contracts raised))) = true.
Proof. vm_compute. reflexivity. Qed.

Lemma raised_limit_reopens_batch_witness :
  batch_query bridge_addr 1 today = Some first_batch /\ batch_query bridge_addr 1 raised = Some no_batch /\
  batch_query bridge_addr 1 (happened raised [Sent user (ToSafe (MakeDeposit gold 50 recipient)); NewBlock 500]) = Some (mkBatch 1 100 200 3).
Proof.
  assert (Hb : batch_query bridge_addr 1 today = Some first_batch) by (vm_compute; reflexivity).
  assert (Hds : bool_decide (is_Some (deposits_query bridge_addr 1 today)) = true) by (vm_compute; reflexivity).
  destruct (deposits_query bridge_addr 1 today) as [ds|] eqn:Hq; [|discriminate Hds].
  pose proof (raised_limit_reopens_batch tokens bridge_addr safe_addr keccak recover deployment (setup ++ deposits) first_batch ds 255 255) as H.
  cbv zeta in H. change (happened deployment (setup ++ deposits)) with today in H. rewrite today_count, today_admin, raised_def in H.
  assert (Hroom : (b_depositsCount first_batch < batchSize (s_limits (br_safe (contracts today))))%Z) by (vm_compute; reflexivity).
  assert (Hset : (batchBlockLimit (s_limits (br_safe (contracts today))) <= 255 < 256)%Z) by (vm_compute; split; [discriminate|reflexivity]).
  assert (Hnow : (now today <= b_blockNumber first_batch + 255)%Z) by (vm_compute; discriminate).
  specialize (H deployment_deployed setup_fine Hb ltac:(discriminate) Hq Hroom Hset ltac:(lia) Hnow). destruct H as [Hno Hagain].
  split; [exact Hb|]. split; [exact Hno|]. pose proof raised_deposit as Hok.
  destruct (deposit tokens safe_addr (chain_msg user raised) gold 50 recipient (br_safe (contracts raised))) as [u s'|r] eqn:Hdep; [|discriminate Hok].
  assert (Hlater : (now today + 255 < 500 < 2 ^ 63)%Z) by (vm_compute; split; reflexivity).
  specialize (Hagain user gold 50%Z recipient u s' 500%Z ltac:(split; [discriminate|reflexivity]) Hdep Hlater). cbv zeta in Hagain.
  destruct Hagain as (d & _ & _ & _ & Hlast & _). exact Hlast.
Defined.

Lemma covered (owed : gmap address Z) (w : world) (a t : address) :
  map_Forall (fun t v => v <= bal w t a)%Z owed -> map_Forall (fun _ v => 0 <= v)%Z w -> (value_at owed t <= bal w t a)%Z.
Proof.
  intros Hin Hpos. unfold value_at. destruct (owed !! t) as [v|] eqn:Hv; [exact (Hin t v Hv)|]. cbn. unfold bal.
  destruct (w !! (t, a)) as [v|] eqn:Hb; [exact (Hpos _ v Hb)|done].
Qed.

Lemma today_backed : backed bal safe_addr (br_safe (contracts today)).
Proof. intros t. apply covered; apply (bool_decide_unpack _); vm_compute; exact I. Qed.

#[export] Instance tokens_pay : PaymentLaws tokens bal.
Proof.
  intros t from to v w w' u H Hne. cbn in H. destruct (v <=? bal w t from)%Z; [|done]. injection H as _ <-.
  split; [|intros t' Ht]; rewrite bal_move; repeat case_decide; simplify_eq; lia.
Qed.

Lemma done_some {S} (r : result S unit) : is_done r = true -> exists s, r = Done tt s.
Proof. destruct r as [[] s|r]; [by exists s|done]. Qed.

Lemma claim_succeeds : exists b', tx_exec tokens bridge_addr safe_addr keccak recover (chain_msg user today) (ToSafe (ClaimServiceFees silver))
  (contracts today) = Done tt b'.
Proof. apply done_some. vm_compute. reflexivity. Qed.

Lemma today_receiver : serviceFeeReceiver (s_limits (br_safe (contracts today))) <> safe_addr.
Proof. vm_compute. discriminate. Qed.

Lemma today_fees : (bal (s_tokens (br_safe (contracts today))) silver safe_addr - value_at (tokenBalances (s_accounts (br_safe (contracts today)))) silver <
  serviceFees (s_accounts (br_safe (contracts today))))%Z.
Proof. vm_compute. reflexivity. Qed.

Lemma user_no_relayer : isRelayer user (contracts today) = false.
Proof. vm_compute. reflexivity. Qed.

End EthDemo.
