(* ===== verification/MvxClient.v ===== *)
(** * The MultiversX client

    Models [src/bridge/clients/multiversx]: the data getter (queries of the multisig contract),
    the parser of pending batches, the transaction handler, the client, and the two token
    mappers.  The SDK's proxy and nonce handler are operations of the world; its query and
    transaction builders collect a function name and typed arguments, and their encoders are
    parameters ([ToVmValueRequest], [ToDataBytes]).  An SDK address is represented by its
    bytes. *)
From S2P Require Import Prelude Go Common Batch Interfaces Executor.
Open Scope go_scope.

Module MvxClient.

Definition okCodeAfterExecution : string := "ok".
Definition internalError : string := "internal error".
Definition minAllowedDelta : Z := 1.

Definition errNilLogger := ErrNew "multiversx.errNilLogger" "nil logger".
Definition errNilProxy := ErrNew "multiversx.errNilProxy" "nil proxy".
Definition errNilAddressHandler := ErrNew "multiversx.errNilAddressHandler" "nil address handler".
Definition errNilRequest := ErrNew "multiversx.errNilRequest" "nil request".
Definition errInvalidNumberOfArguments := ErrNew "multiversx.errInvalidNumberOfArguments" "invalid number of arguments".
Definition errNotUint64Bytes :=
  ErrNew "multiversx.errNotUint64Bytes" "provided bytes do not represent a valid uint64 number".
Definition errInvalidGasValue := ErrNew "multiversx.errInvalidGasValue" "invalid gas value".
Definition errNoStatusForBatchID := ErrNew "multiversx.errNoStatusForBatchID" "no status for batch ID".
Definition errBatchNotFinished := ErrNew "multiversx.errBatchNotFinished" "batch not finished".
Definition errMalformedBatchResponse := ErrNew "multiversx.errMalformedBatchResponse" "malformed batch response".
Definition errNilRoleProvider := ErrNew "multiversx.errNilRoleProvider" "nil role provider".
Definition errRelayerNotWhitelisted := ErrNew "multiversx.errRelayerNotWhitelisted" "relayer not whitelisted".
Definition errNilNodeStatusResponse := ErrNew "multiversx.errNilNodeStatusResponse" "nil node status response".
Definition ErrNoPendingBatchAvailable := ErrNew "multiversx.ErrNoPendingBatchAvailable" "no pending batch available".
Definition errUnknownToken := ErrNew "mappers.errUnknownToken" "unknown token".

(** ** Query responses *)

(** [queryResponseError]: a pointer, equal to no sentinel; what counts is its text. *)
Definition NewQueryResponseError (code message function address : string) (arguments : list string) : error :=
  ErrExternal (sprintf "got response code '%s' and message '%s' while querying function '%s' with arguments %v and address %s"
                 [GStr code; GStr message; GStr function; GStrs arguments; GStr address]).

(** [strconv.ParseBool]. *)
Definition ParseBool (s : string) : res bool :=
  if bool_decide (s ∈ ["1"; "t"; "T"; "true"; "TRUE"; "True"]) then Ok true
  else if bool_decide (s ∈ ["0"; "f"; "F"; "false"; "FALSE"; "False"]) then Ok false
  else Err (ErrExternal ("strconv.ParseBool: parsing " +:+ fmt_q (GStr s) +:+ ": invalid syntax")).

Definition parseBool (buff : bytes) (funcName address : string) (args : list string) : res bool :=
  match buff with
  | [] => Ok false
  | b0 :: _ =>
      match ParseBool (sprintf "%d" [GInt (byte_val b0)]) with
      | Ok r => Ok r
      | Err e =>
          Err (NewQueryResponseError internalError
                 (sprintf "error converting the received bytes to bool, %s" [GStr (error_text e)]) funcName address args)
      end
  end.

(** [big.Int.SetBytes], then [IsUint64]. *)
Definition parseUInt64FromByteSlice (b : bytes) : res Z :=
  if (be_val b <? two64)%Z then Ok (be_val b) else Err errNotUint64Bytes.

Definition getStatusFromBuff (buff : bytes) : res byte :=
  match last buff with None => Err errMalformedBatchResponse | Some b => Ok b end.

(** ** Builders *)

Inductive vmArg :=
  | ArgBytes (b : bytes)
  | ArgInt64 (z : Z)
  | ArgBigInt (z : option Z)
  | ArgAddress (a : bytes).

Record vmBuilder := mkBuilder { bld_function : string; bld_args : list vmArg }.

#[global] Instance vmArg_eq_dec : EqDecision vmArg.
Proof. solve_decision. Defined.

Definition add_args (l : list vmArg) (b : vmBuilder) : vmBuilder := mkBuilder (bld_function b) (bld_args b ++ l).
Definition Function (f : string) : vmBuilder := mkBuilder f [].

(** [addBatchInfo]: five arguments per deposit. *)
Definition addBatchInfo (builder : vmBuilder) (b : TransferBatch) : vmBuilder :=
  foldl (fun bld dt =>
    add_args [ArgInt64 (i64 (dt_Nonce dt))] (add_args [ArgBigInt (dt_Amount dt)]
      (add_args [ArgBytes (dt_ConvertedTokenBytes dt)] (add_args [ArgBytes (dt_ToBytes dt)]
        (add_args [ArgBytes (dt_FromBytes dt)] bld))))) builder (tb_Deposits b).

Definition add_statuses (builder : vmBuilder) (b : TransferBatch) : vmBuilder :=
  foldl (fun bld stat => add_args [ArgBytes [stat]] bld) builder (tb_Statuses b).

Record VmValueRequest := mkRequest {
  rq_Address : string;
  rq_FuncName : string;
  rq_CallerAddr : string;
  rq_Args : list string
}.

Record VmResponse := mkResponse {
  ReturnCode : string;
  ReturnMessage : string;
  ReturnData : list bytes
}.

Record NetworkConfig := mkNetConfig { nc_ChainID : string; nc_MinTransactionVersion : Z; nc_MinGasPrice : Z }.

Record FrontendTransaction := mkTx {
  tx_ChainID : string;
  tx_Version : Z;
  tx_GasLimit : Z;
  tx_GasPrice : Z;
  tx_Nonce : Z;
  tx_Data : bytes;
  tx_Sender : string;
  tx_Receiver : string;
  tx_Value : string;
  tx_Signature : string
}.

Definition set_Signature (s : string) (tx : FrontendTransaction) : FrontendTransaction :=
  mkTx (tx_ChainID tx) (tx_Version tx) (tx_GasLimit tx) (tx_GasPrice tx) (tx_Nonce tx) (tx_Data tx)
    (tx_Sender tx) (tx_Receiver tx) (tx_Value tx) s.

Record MultiversXGasMapConfig := mkGasMap {
  gm_Sign : Z;
  gm_ProposeTransferBase : Z;
  gm_ProposeTransferForEach : Z;
  gm_ProposeStatusBase : Z;
  gm_ProposeStatusForEach : Z;
  gm_PerformActionBase : Z;
  gm_PerformActionForEach : Z
}.

Definition gas_fields (g : MultiversXGasMapConfig) : list (string * Z) :=
  [("Sign", gm_Sign g); ("ProposeTransferBase", gm_ProposeTransferBase g);
   ("ProposeTransferForEach", gm_ProposeTransferForEach g); ("ProposeStatusBase", gm_ProposeStatusBase g);
   ("ProposeStatusForEach", gm_ProposeStatusForEach g); ("PerformActionBase", gm_PerformActionBase g);
   ("PerformActionForEach", gm_PerformActionForEach g)].

Fixpoint check_fields (l : list (string * Z)) : option error :=
  match l with
  | [] => None
  | (name, v) :: rest =>
      if (v =? 0)%Z then Some (Errorf "%w for field %s" errInvalidGasValue [GStr name]) else check_fields rest
  end.

Definition checkGasMapValues (gasMap : MultiversXGasMapConfig) : option error := check_fields (gas_fields gasMap).

(** ** Dependencies and state *)

Record mxDeps (X : Type) := {
  ExecuteVMQuery : VmValueRequest -> M X (res VmResponse);
  GetNetworkStatus : Z -> M X (res (option Z));
  GetShardOfAddress : string -> M X (res Z);
  GetNetworkConfig : M X (res NetworkConfig);
  GetNonce : M X (res Z);
  SendTransaction : FrontendTransaction -> M X (res string);
  tx_IsWhitelisted : bytes -> M X bool;
  ToVmValueRequest : vmBuilder -> res VmValueRequest;
  ToDataBytes : vmBuilder -> res bytes;
  json_tx : FrontendTransaction -> res bytes;
  ed25519_Sign : bytes -> res bytes;
  mx_ConvertToken : bytes -> M X (res bytes);
  mx_status : StatusHandler X;
  mx_relayer : bytes;
  relayer_bech32 : string;
  multisig_bech32 : string;
  mx_converter : AddressConverter;
  gasMapConfig : MultiversXGasMapConfig;
  mx_allowDelta : Z
}.
Arguments ExecuteVMQuery {X} _ _.
Arguments GetNetworkStatus {X} _ _.
Arguments GetShardOfAddress {X} _ _.
Arguments GetNetworkConfig {X} _.
Arguments GetNonce {X} _.
Arguments SendTransaction {X} _ _.
Arguments tx_IsWhitelisted {X} _ _.
Arguments ToVmValueRequest {X} _ _.
Arguments ToDataBytes {X} _ _.
Arguments json_tx {X} _ _.
Arguments ed25519_Sign {X} _ _.
Arguments mx_ConvertToken {X} _ _.
Arguments mx_status {X} _.
Arguments mx_relayer {X} _.
Arguments relayer_bech32 {X} _.
Arguments multisig_bech32 {X} _.
Arguments mx_converter {X} _.
Arguments gasMapConfig {X} _.
Arguments mx_allowDelta {X} _.

Record mxClient (X : Type) := mkMx {
  wasShardIDFetched : bool;
  shardID : Z;
  lastNonce : Z;
  mx_retries : Z;
  mx_world : X
}.
Arguments mkMx {X} _ _ _ _ _.
Arguments wasShardIDFetched {X} _.
Arguments shardID {X} _.
Arguments lastNonce {X} _.
Arguments mx_retries {X} _.
Arguments mx_world {X} _.

Definition newMxClient {X} (x : X) : mxClient X := mkMx false 0 0 0 x.

(** ** Construction *)

(** The node's proxy, the nonce handler and the relayer's key as the constructor receives them.
    An address handler is its bytes and their bech32 text. *)
Record addressHandler := { ah_Bytes : bytes; ah_Bech32 : string }.

Record Proxy (X : Type) := {
  px_ExecuteVMQuery : VmValueRequest -> M X (res VmResponse);
  px_GetNetworkStatus : Z -> M X (res (option Z));
  px_GetShardOfAddress : string -> M X (res Z);
  px_GetNetworkConfig : M X (res NetworkConfig)
}.
Arguments px_ExecuteVMQuery {X} _ _.
Arguments px_GetNetworkStatus {X} _ _.
Arguments px_GetShardOfAddress {X} _ _.
Arguments px_GetNetworkConfig {X} _.

Record NonceTransactionsHandler (X : Type) := {
  nh_GetNonce : addressHandler -> M X (res Z);
  nh_SendTransaction : FrontendTransaction -> M X (res string)
}.
Arguments nh_GetNonce {X} _ _.
Arguments nh_SendTransaction {X} _ _.

Record relayerKey := {
  rk_PublicBytes : res bytes;
  rk_Sign : bytes -> res bytes
}.

(** What the constructor uses of the SDK: the nonce handler of a proxy with its resend interval,
    addresses from bytes, the builders' output, JSON and the address converter. *)
Record sdk (X : Type) := {
  NewNonceTransactionHandlerV1 : Proxy X -> Z -> res (NonceTransactionsHandler X);
  NewAddressFromBytes : bytes -> option addressHandler;
  sdk_ToVmValueRequest : vmBuilder -> res VmValueRequest;
  sdk_ToDataBytes : vmBuilder -> res bytes;
  sdk_json_tx : FrontendTransaction -> res bytes;
  NewAddressConverter : res AddressConverter
}.
Arguments NewNonceTransactionHandlerV1 {X} _ _ _.
Arguments NewAddressFromBytes {X} _ _.
Arguments sdk_ToVmValueRequest {X} _ _.
Arguments sdk_ToDataBytes {X} _ _.
Arguments sdk_json_tx {X} _ _.
Arguments NewAddressConverter {X} _.

(** [None] is a nil component; [Args_Log] says whether a logger was given. *)
Record ClientArgs (X : Type) := {
  Args_GasMapConfig : MultiversXGasMapConfig;
  Args_Proxy : option (Proxy X);
  Args_Log : bool;
  Args_RelayerPrivateKey : option relayerKey;
  Args_MultisigContractAddress : option addressHandler;
  Args_IntervalToResendTxsInSeconds : Z;
  Args_TokensMapper : option (bytes -> M X (res bytes));
  Args_RoleProvider : option (bytes -> M X bool);
  Args_StatusHandler : option (StatusHandler X);
  Args_AllowDelta : Z
}.
Arguments Args_GasMapConfig {X} _.
Arguments Args_Proxy {X} _.
Arguments Args_Log {X} _.
Arguments Args_RelayerPrivateKey {X} _.
Arguments Args_MultisigContractAddress {X} _.
Arguments Args_IntervalToResendTxsInSeconds {X} _.
Arguments Args_TokensMapper {X} _.
Arguments Args_RoleProvider {X} _.
Arguments Args_StatusHandler {X} _.
Arguments Args_AllowDelta {X} _.

Definition checkArgs {X} (args : ClientArgs X) : option error :=
  if_nil (Args_Proxy args) errNilProxy (
  if_nil (Args_RelayerPrivateKey args) clients_ErrNilPrivateKey (
  if_nil (Args_MultisigContractAddress args)
    (Errorf "%w for the MultisigContractAddress argument" errNilAddressHandler []) (
  if negb (Args_Log args) then Some clients_ErrNilLogger else
  if_nil (Args_TokensMapper args) clients_ErrNilTokensMapper (
  if_nil (Args_RoleProvider args) errNilRoleProvider (
  if_nil (Args_StatusHandler args) clients_ErrNilStatusHandler (
  if (Args_AllowDelta args <? minAllowedDelta)%Z then
    Some (Errorf "%w for args.AllowedDelta, got: %d, minimum: %d" clients_ErrInvalidValue
            [GInt (Args_AllowDelta args); GInt minAllowedDelta])
  else checkGasMapValues (Args_GasMapConfig args))))))).

(** The data getter keeps its arguments: [NewMXClientDataGetter] only checks them. *)
Definition NewMXClientDataGetter {X} (multisig relayer : option addressHandler) (proxy : option (Proxy X)) (log : bool)
    : res (option (addressHandler * addressHandler * Proxy X)) :=
  if negb log then Err errNilLogger
  else match proxy with
  | None => Err errNilProxy
  | Some _ =>
  match relayer with
  | None => Err (Errorf "%w for the RelayerAddress argument" errNilAddressHandler [])
  | Some _ =>
  match multisig with
  | None => Err (Errorf "%w for the MultisigContractAddress argument" errNilAddressHandler [])
  | Some _ => Ok (m ← multisig; r ← relayer; p ← proxy; Some (m, r, p))
  end end end.

(** The fields of the client, once its sub-components exist. *)
Definition clientFields {X} (L : sdk X) (args : ClientArgs X) (nonces : NonceTransactionsHandler X)
    (conv : AddressConverter) (getter : addressHandler * addressHandler * Proxy X) : option (mxDeps X) :=
  let '(multisig, relayer, proxy) := getter in
  key ← Args_RelayerPrivateKey args;
  tm ← Args_TokensMapper args;
  rp ← Args_RoleProvider args;
  sh ← Args_StatusHandler args;
  Some {| ExecuteVMQuery := px_ExecuteVMQuery proxy; GetNetworkStatus := px_GetNetworkStatus proxy;
          GetShardOfAddress := px_GetShardOfAddress proxy; GetNetworkConfig := px_GetNetworkConfig proxy;
          GetNonce := nh_GetNonce nonces relayer; SendTransaction := nh_SendTransaction nonces;
          tx_IsWhitelisted := rp; ToVmValueRequest := sdk_ToVmValueRequest L; ToDataBytes := sdk_ToDataBytes L;
          json_tx := sdk_json_tx L; ed25519_Sign := rk_Sign key; mx_ConvertToken := tm; mx_status := sh;
          mx_relayer := ah_Bytes relayer; relayer_bech32 := ah_Bech32 relayer; multisig_bech32 := ah_Bech32 multisig;
          mx_converter := conv; gasMapConfig := Args_GasMapConfig args; mx_allowDelta := Args_AllowDelta args |}.

Definition NewClient {X} (L : sdk X) (args : ClientArgs X) (x : X) : res (option (mxDeps X * mxClient X)) :=
  match checkArgs args with
  | Some e => Err e
  | None =>
  match (p ← Args_Proxy args; k ← Args_RelayerPrivateKey args; Some (p, k)) with
  | None => Ok None
  | Some (proxy, key) =>
  match NewNonceTransactionHandlerV1 L proxy (i64 (1000000000 * i64 (Args_IntervalToResendTxsInSeconds args))) with
  | Err e => Err e
  | Ok nonces =>
  match rk_PublicBytes key with
  | Err e => Err e
  | Ok publicKeyBytes =>
  match NewMXClientDataGetter (Args_MultisigContractAddress args) (NewAddressFromBytes L publicKeyBytes)
          (Args_Proxy args) true with
  | Err e => Err e
  | Ok getter =>
  match NewAddressConverter L with
  | Err _ => Err clients_ErrNilAddressConverter
  | Ok conv => Ok ((fun D => (D, newMxClient x)) <$> (g ← getter; clientFields L args nonces conv g))
  end end end end end end.

Section Client.
Context {X : Type} (D : mxDeps X).

(** ** The data getter *)

Definition ExecuteQueryReturningBytes (request : option VmValueRequest) : M X (res (list bytes)) :=
  match request with
  | None => mret (Err errNilRequest)
  | Some request =>
      response <?- ExecuteVMQuery D request;
      if negb (String.eqb (ReturnCode response) okCodeAfterExecution) then
        mret (Err (NewQueryResponseError (ReturnCode response) (ReturnMessage response) (rq_FuncName request)
                     (rq_Address request) (rq_Args request)))
      else mret (Ok (ReturnData response))
  end.

Definition ExecuteQueryReturningBool (request : VmValueRequest) : M X (res bool) :=
  response <?- ExecuteQueryReturningBytes (Some request);
  match response with
  | [] => mret (Ok false)
  | first :: _ => mret (parseBool first (rq_FuncName request) (rq_Address request) (rq_Args request))
  end.

Definition ExecuteQueryReturningUint64 (request : VmValueRequest) : M X (res Z) :=
  response <?- ExecuteQueryReturningBytes (Some request);
  match response with
  | [] => mret (Ok 0%Z)
  | [] :: _ => mret (Ok 0%Z)
  | first :: _ =>
      mret (match parseUInt64FromByteSlice first with
            | Ok num => Ok num
            | Err e => Err (NewQueryResponseError internalError (error_text e) (rq_FuncName request) (rq_Address request)
                              (rq_Args request))
            end)
  end.

Definition with_request {A} (builder : vmBuilder) (k : VmValueRequest -> M X (res A)) : M X (res A) :=
  match ToVmValueRequest D builder with Err e => mret (Err e) | Ok request => k request end.

Definition executeQueryFromBuilder (builder : vmBuilder) : M X (res (list bytes)) :=
  with_request builder (fun r => ExecuteQueryReturningBytes (Some r)).
Definition executeQueryUint64FromBuilder (builder : vmBuilder) : M X (res Z) :=
  with_request builder ExecuteQueryReturningUint64.
Definition executeQueryBoolFromBuilder (builder : vmBuilder) : M X (res bool) :=
  with_request builder ExecuteQueryReturningBool.

Definition GetCurrentBatchAsDataBytes : M X (res (list bytes)) :=
  executeQueryFromBuilder (Function "getCurrentTxBatch").
Definition GetTokenIdForErc20Address (erc20Address : bytes) : M X (res (list bytes)) :=
  executeQueryFromBuilder (add_args [ArgBytes erc20Address] (Function "getTokenIdForErc20Address")).
Definition GetERC20AddressForTokenId (tokenId : bytes) : M X (res (list bytes)) :=
  executeQueryFromBuilder (add_args [ArgBytes tokenId] (Function "getErc20AddressForTokenId")).

Definition wasProposedTransfer_builder (b : TransferBatch) : vmBuilder :=
  addBatchInfo (add_args [ArgInt64 (i64 (tb_ID b))] (Function "wasTransferActionProposed")) b.
Definition WasProposedTransfer (ob : option TransferBatch) : M X (res bool) :=
  match ob with
  | None => mret (Err clients_ErrNilBatch)
  | Some b => executeQueryBoolFromBuilder (wasProposedTransfer_builder b)
  end.

Definition WasExecuted (actionID : Z) : M X (res bool) :=
  executeQueryBoolFromBuilder (add_args [ArgInt64 (i64 actionID)] (Function "wasActionExecuted")).

Definition actionIDForTransfer_builder (b : TransferBatch) : vmBuilder :=
  addBatchInfo (add_args [ArgInt64 (i64 (tb_ID b))] (Function "getActionIdForTransferBatch")) b.
Definition GetActionIDForProposeTransfer (ob : option TransferBatch) : M X (res Z) :=
  match ob with
  | None => mret (Err clients_ErrNilBatch)
  | Some b => executeQueryUint64FromBuilder (actionIDForTransfer_builder b)
  end.

Definition wasProposedSetStatus_builder (b : TransferBatch) : vmBuilder :=
  add_statuses (add_args [ArgInt64 (i64 (tb_ID b))] (Function "wasSetCurrentTransactionBatchStatusActionProposed")) b.
Definition WasProposedSetStatus (ob : option TransferBatch) : M X (res bool) :=
  match ob with
  | None => mret (Err clients_ErrNilBatch)
  | Some b => executeQueryBoolFromBuilder (wasProposedSetStatus_builder b)
  end.

(** The loop over [values[1:]]; the index in the error counts from zero. *)
Fixpoint statuses_loop (i : Z) (values : list bytes) (results : bytes) : res bytes :=
  match values with
  | [] => Ok results
  | v :: rest =>
      match getStatusFromBuff v with
      | Err e => Err (Errorf "%w for result index %d" e [GInt i])
      | Ok s => statuses_loop (i + 1) rest (results ++ [s])
      end
  end.

Definition GetTransactionsStatuses (batchID : Z) : M X (res bytes) :=
  values <?- executeQueryFromBuilder (add_args [ArgInt64 (i64 batchID)] (Function "getStatusesAfterExecution"));
  match values with
  | [] => mret (Err (Errorf "%w for batch ID %v" errNoStatusForBatchID [GInt batchID]))
  | v0 :: rest =>
      mret (match parseBool v0 "getStatusesAfterExecution" (multisig_bech32 D) [] with
            | Err e => Err e
            | Ok false => Err (Errorf "%w for batch ID %v" errBatchNotFinished [GInt batchID])
            | Ok true =>
                match statuses_loop 0 rest [] with
                | Err e => Err e
                | Ok [] => Err (Errorf "%w status is finished, no results are given" errMalformedBatchResponse [])
                | Ok results => Ok results
                end
            end)
  end.

Definition actionIDForSetStatus_builder (b : TransferBatch) : vmBuilder :=
  add_statuses (add_args [ArgInt64 (i64 (tb_ID b))] (Function "getActionIdForSetCurrentTransactionBatchStatus")) b.
Definition GetActionIDForSetStatusOnPendingTransfer (ob : option TransferBatch) : M X (res Z) :=
  match ob with
  | None => mret (Err clients_ErrNilBatch)
  | Some b => executeQueryUint64FromBuilder (actionIDForSetStatus_builder b)
  end.

Definition QuorumReached (actionID : Z) : M X (res bool) :=
  executeQueryBoolFromBuilder (add_args [ArgInt64 (i64 actionID)] (Function "quorumReached")).
Definition GetLastExecutedEthBatchID : M X (res Z) :=
  executeQueryUint64FromBuilder (Function "getLastExecutedEthBatchId").
Definition GetLastExecutedEthTxID : M X (res Z) :=
  executeQueryUint64FromBuilder (Function "getLastExecutedEthTxId").
Definition WasSigned (actionID : Z) : M X (res bool) :=
  executeQueryBoolFromBuilder
    (add_args [ArgInt64 (i64 actionID)] (add_args [ArgAddress (mx_relayer D)] (Function "signed"))).
Definition GetAllStakedRelayers : M X (res (list bytes)) :=
  executeQueryFromBuilder (Function "getAllStakedRelayers").
Definition IsPaused : M X (res bool) := executeQueryBoolFromBuilder (Function "isPaused").

(** ** The token mappers *)

Definition first_or_unknown (sourceBytes : bytes) (response : list bytes) : res bytes :=
  match response with
  | [] => Err (Errorf "%w for provided %s" errUnknownToken [GStr (hex_encode sourceBytes)])
  | t :: _ => Ok t
  end.

Definition erc20ToMultiversX_ConvertToken (sourceBytes : bytes) : M X (res bytes) :=
  response <?- GetTokenIdForErc20Address sourceBytes;
  mret (first_or_unknown sourceBytes response).

Definition multiversXToErc20_ConvertToken (sourceBytes : bytes) : M X (res bytes) :=
  response <?- GetERC20AddressForTokenId sourceBytes;
  mret (first_or_unknown sourceBytes response).

(** ** Pending batches *)

Definition emptyResponse (response : list bytes) : bool :=
  match response with [] => true | [[]] => true | _ => false end.

Definition numFieldsForTransaction : nat := 7.

Definition mx_deposit (nonce : Z) (from to token amount converted : bytes) : DepositTransfer :=
  {| dt_Nonce := nonce;
     dt_ToBytes := to;
     dt_DisplayableTo := ToHexStringWithPrefix to;
     dt_FromBytes := from;
     dt_DisplayableFrom := ToBech32String (mx_converter D) from;
     dt_TokenBytes := token;
     dt_ConvertedTokenBytes := converted;
     dt_DisplayableToken := string_of_bytes token;
     dt_Amount := Some (be_val amount) |}.

(** [responseData[i+k]], for the part of the response that starts at [i]. *)
Definition field (l : list bytes) (k : nat) : M X bytes :=
  match l !! k with Some v => mret v | None => panics IndexOutOfRange end.

(** [for i := 1; i < dataLen; i += 7], on the part of the response that starts at [i]; every
    turn drops at least one element, so that its length is fuel enough. *)
Fixpoint create_loop (fuel : nat) (l : list bytes) (transferIndex : Z) (cachedTokens : gmap string bytes)
    (acc : list DepositTransfer) : M X (res (list DepositTransfer)) :=
  match l, fuel with
  | [], _ => mret (Ok acc)
  | _ :: _, O => panics IndexOutOfRange
  | _ :: _, S fuel' =>
      nonceBytes ← field l 1;
      match parseUInt64FromByteSlice nonceBytes with
      | Err e => mret (Err (Errorf "%w while parsing the deposit nonce, transfer index %d" e [GInt transferIndex]))
      | Ok depositNonce =>
          amount ← field l 5;
          from ← field l 2;
          to ← field l 3;
          token ← field l 4;
          match cachedTokens !! string_of_bytes token with
          | Some stored =>
              create_loop fuel' (drop numFieldsForTransaction l) (transferIndex + 1) cachedTokens
                (acc ++ [mx_deposit depositNonce from to token amount stored])
          | None =>
              r ← mx_ConvertToken D token;
              match r with
              | Err e => mret (Err (Errorf "%w while converting token bytes, transfer index %d" e [GInt transferIndex]))
              | Ok converted =>
                  create_loop fuel' (drop numFieldsForTransaction l) (transferIndex + 1)
                    (<[string_of_bytes token := converted]> cachedTokens)
                    (acc ++ [mx_deposit depositNonce from to token amount converted])
              end
          end
      end
  end.

Definition createPendingBatchFromResponse (responseData : list bytes) : M X (res (option TransferBatch)) :=
  let dataLen := Z.of_nat (length responseData) in
  if negb ((Z.rem (dataLen - 1) (Z.of_nat numFieldsForTransaction) =? 0) && (1 <? dataLen))%Z then
    mret (Err (Errorf "%w, got %d argument(s)" errInvalidNumberOfArguments [GInt dataLen]))
  else
    idBytes ← field responseData 0;
    match parseUInt64FromByteSlice idBytes with
    | Err e => mret (Err (wrap "%w while parsing batch ID" e))
    | Ok batchID =>
        ds <?- create_loop (length responseData) (drop 1 responseData) 0 ∅ [];
        mret (Ok (Some (mkBatch batchID ds (replicate (length ds) Byte.x00))))
    end.

Definition GetPending : M X (res (option TransferBatch)) :=
  responseData <?- GetCurrentBatchAsDataBytes;
  if emptyResponse responseData then mret (Err ErrNoPendingBatchAvailable)
  else createPendingBatchFromResponse responseData.

(** ** Transactions *)

Definition signTransactionWithPrivateKey (tx : FrontendTransaction) : res FrontendTransaction :=
  let tx := set_Signature "" tx in
  match json_tx D tx with
  | Err e => Err e
  | Ok b =>
      match ed25519_Sign D b with
      | Err e => Err e
      | Ok signature => Ok (set_Signature (hex_encode signature) tx)
      end
  end.

Definition signTransaction (builder : vmBuilder) (gasLimit : Z) : M X (res FrontendTransaction) :=
  networkConfig <?- GetNetworkConfig D;
  nonce <?- GetNonce D;
  match ToDataBytes D builder with
  | Err e => mret (Err e)
  | Ok dataBytes =>
      mret (signTransactionWithPrivateKey
        (mkTx (nc_ChainID networkConfig) (nc_MinTransactionVersion networkConfig) gasLimit
           (nc_MinGasPrice networkConfig) nonce dataBytes (relayer_bech32 D) (multisig_bech32 D) "0" ""))
  end.

Definition SendTransactionReturnHash (builder : vmBuilder) (gasLimit : Z) : M X (res string) :=
  ok ← tx_IsWhitelisted D (mx_relayer D);
  if negb ok then mret (Err errRelayerNotWhitelisted)
  else
    tx <?- signTransaction builder gasLimit;
    SendTransaction D tx.

Definition checkIsPaused : M X (option error) :=
  r ← IsPaused;
  mret (match r with
        | Err e => Some (wrap "%w in client.ExecuteTransfer" e)
        | Ok true => Some (wrap "%w in client.ExecuteTransfer" clients_ErrMultisigContractPaused)
        | Ok false => None
        end).

Definition unless_paused (c : M X (res string)) : M X (res string) :=
  err ← checkIsPaused;
  match err with Some e => mret (Err e) | None => c end.

Definition createCommonTxDataBuilder (funcName : string) (id : Z) : vmBuilder := add_args [ArgInt64 id] (Function funcName).

Definition proposeSetStatus_builder (b : TransferBatch) : vmBuilder :=
  foldl (fun bld stat => add_args [ArgBytes [stat]] bld)
    (createCommonTxDataBuilder "proposeEsdtSafeSetCurrentTransactionBatchStatus" (i64 (tb_ID b))) (tb_Statuses b).

Definition ProposeSetStatus (ob : option TransferBatch) : M X (res string) :=
  match ob with
  | None => mret (Err clients_ErrNilBatch)
  | Some b =>
      unless_paused
        (SendTransactionReturnHash (proposeSetStatus_builder b)
           (gm_ProposeStatusBase (gasMapConfig D) +u
              (u64 (Z.of_nat (length (tb_Deposits b))) *u gm_ProposeStatusForEach (gasMapConfig D))))
  end.

Definition proposeTransfer_builder (b : TransferBatch) : vmBuilder :=
  foldl (fun bld dt =>
    add_args [ArgInt64 (i64 (dt_Nonce dt))] (add_args [ArgBigInt (dt_Amount dt)]
      (add_args [ArgBytes (dt_ConvertedTokenBytes dt)] (add_args [ArgBytes (dt_ToBytes dt)]
        (add_args [ArgBytes (dt_FromBytes dt)] bld)))))
    (createCommonTxDataBuilder "proposeMultiTransferEsdtBatch" (i64 (tb_ID b))) (tb_Deposits b).

Definition ProposeTransfer (ob : option TransferBatch) : M X (res string) :=
  match ob with
  | None => mret (Err clients_ErrNilBatch)
  | Some b =>
      unless_paused
        (SendTransactionReturnHash (proposeTransfer_builder b)
           (gm_ProposeTransferBase (gasMapConfig D) +u
              (u64 (Z.of_nat (length (tb_Deposits b))) *u gm_ProposeTransferForEach (gasMapConfig D))))
  end.

Definition Sign (actionID : Z) : M X (res string) :=
  unless_paused (SendTransactionReturnHash (createCommonTxDataBuilder "sign" (i64 actionID)) (gm_Sign (gasMapConfig D))).

Definition PerformAction (actionID : Z) (ob : option TransferBatch) : M X (res string) :=
  match ob with
  | None => mret (Err clients_ErrNilBatch)
  | Some b =>
      unless_paused
        (SendTransactionReturnHash (createCommonTxDataBuilder "performAction" (i64 actionID))
           (gm_PerformActionBase (gasMapConfig D) +u
              (u64 (Z.of_nat (length (tb_Statuses b))) *u gm_PerformActionForEach (gasMapConfig D))))
  end.

(** ** Availability *)

Definition on_mx {A} (c : M X A) : M (mxClient X) A :=
  zoom mx_world (fun x c => mkMx (wasShardIDFetched c) (shardID c) (lastNonce c) (mx_retries c) x) c.

(** The shard of the contract is fetched once; a failed fetch is tried again next time. *)
Definition getShardID : M (mxClient X) (res Z) :=
  fetched ← gets wasShardIDFetched;
  if (fetched : bool) then s ← gets shardID; mret (Ok s)
  else
    r ← on_mx (GetShardOfAddress D (multisig_bech32 D));
    match r with
    | Err e => mret (Err e)
    | Ok s => modify (fun c => mkMx true s (lastNonce c) (mx_retries c) (mx_world c));; mret (Ok s)
    end.

Definition GetCurrentNonce : M (mxClient X) (res Z) :=
  s <?- getShardID;
  nodeStatus <?- on_mx (GetNetworkStatus D s);
  match nodeStatus with
  | None => mret (Err errNilNodeStatusResponse)
  | Some nonce => mret (Ok nonce)
  end.

Definition mx_setStatusForAvailabilityCheck (status : Z) (message : string) (nonce : Z) : M (mxClient X) unit :=
  on_mx (sh_SetStringMetric (mx_status D) MetricMultiversXClientStatus (status_String status));;
  on_mx (sh_SetStringMetric (mx_status D) MetricLastMultiversXClientError message);;
  on_mx (sh_SetIntMetric (mx_status D) MetricLastBlockNonce (i64 nonce)).

Definition mx_set_checked (nonce retries : Z) (c : mxClient X) : mxClient X :=
  mkMx (wasShardIDFetched c) (shardID c) nonce retries (mx_world c).

Definition mx_CheckAvailability : M (mxClient X) (option error) :=
  r ← GetCurrentNonce;
  match r with
  | Err e => mx_setStatusForAvailabilityCheck Unavailable (error_text e) 0;; mret (Some e)
  | Ok currentNonce =>
      last ← gets lastNonce;
      (if negb (currentNonce =? last)%Z then modify (mx_set_checked currentNonce 0) else mret tt);;
      retries ← gets mx_retries;
      (if (mx_allowDelta D <? retries)%Z then
         mx_setStatusForAvailabilityCheck Unavailable
           (sprintf "nonce %d fetched for %d times in a row" [GInt currentNonce; GInt retries]) currentNonce
       else mx_setStatusForAvailabilityCheck Available "" currentNonce);;
      modify (fun c => mx_set_checked (lastNonce c) (mx_retries c +u 1) c);;
      mret None
  end.

(** What the executor sees. *)
Definition mx_interface : MultiversXClient (mxClient X) := {|
  mx_GetPending := on_mx GetPending;
  mx_WasProposedTransfer b := on_mx (WasProposedTransfer b);
  mx_QuorumReached a := on_mx (QuorumReached a);
  mx_WasExecuted a := on_mx (WasExecuted a);
  mx_GetActionIDForProposeTransfer b := on_mx (GetActionIDForProposeTransfer b);
  mx_WasProposedSetStatus b := on_mx (WasProposedSetStatus b);
  mx_GetActionIDForSetStatusOnPendingTransfer b := on_mx (GetActionIDForSetStatusOnPendingTransfer b);
  mx_GetLastExecutedEthBatchID := on_mx GetLastExecutedEthBatchID;
  mx_GetLastExecutedEthTxID := on_mx GetLastExecutedEthTxID;
  mx_ProposeSetStatus b := on_mx (ProposeSetStatus b);
  mx_ProposeTransfer b := on_mx (ProposeTransfer b);
  mx_Sign a := on_mx (Sign a);
  mx_WasSigned a := on_mx (WasSigned a);
  mx_PerformAction a b := on_mx (PerformAction a b);
  mx_CheckClientAvailability := mx_CheckAvailability |}.

End Client.

End MvxClient.
