(* ===== verification/MvxClientFacts.v ===== *)
(** * What the MultiversX client guarantees

    The parser of pending batches against a reference, agreement between what is proposed and
    what is queried, what is asked before a transaction is sent, statuses and numbers of the contract's
    answers, and the laws the executor relies on. *)
From S2P Require Import Prelude Go Common Batch Interfaces Executor MvxClient.
Open Scope go_scope.
Import MvxClient.

Module MvxClientFacts.

(** ** Proposals and queries *)

Definition deposit_args (dt : DepositTransfer) : list vmArg :=
  [ArgBytes (dt_FromBytes dt); ArgBytes (dt_ToBytes dt); ArgBytes (dt_ConvertedTokenBytes dt);
   ArgBigInt (dt_Amount dt); ArgInt64 (i64 (dt_Nonce dt))].

Lemma foldl_add_args {A} (f : A -> list vmArg) (g : vmBuilder -> A -> vmBuilder) bld l :
  (forall b a, bld_function (g b a) = bld_function b /\ bld_args (g b a) = bld_args b ++ f a) ->
  bld_function (foldl g bld l) = bld_function bld /\ bld_args (foldl g bld l) = bld_args bld ++ concat (f <$> l).
Proof.
  intros Hg. revert bld. induction l as [|a l IH]; intros bld; cbn; [by rewrite app_nil_r|].
  destruct (IH (g bld a)) as [-> ->]. destruct (Hg bld a) as [-> ->]. by rewrite <-app_assoc.
Qed.

Lemma transfer_builder_args start b :
  let bld := foldl (fun bld dt =>
    add_args [ArgInt64 (i64 (dt_Nonce dt))] (add_args [ArgBigInt (dt_Amount dt)]
      (add_args [ArgBytes (dt_ConvertedTokenBytes dt)] (add_args [ArgBytes (dt_ToBytes dt)]
        (add_args [ArgBytes (dt_FromBytes dt)] bld))))) start (tb_Deposits b) in
  bld_function bld = bld_function start /\
  bld_args bld = bld_args start ++ concat (deposit_args <$> tb_Deposits b).
Proof. apply foldl_add_args. intros bld a. cbn. split; [done|]. by rewrite <-!app_assoc. Qed.

Lemma status_builder_args start b :
  let bld := foldl (fun bld stat => add_args [ArgBytes [stat]] bld) start (tb_Statuses b) in
  bld_function bld = bld_function start /\
  bld_args bld = bld_args start ++ concat ((fun s => [ArgBytes [s]]) <$> tb_Statuses b).
Proof. by apply foldl_add_args. Qed.

(** What a relayer proposes is what the relayers ask about: the transaction that proposes a
    transfer carries the batch number and, per deposit, sender, recipient, converted token,
    amount and nonce, in the order of the deposits, and the queries "was it proposed" and
    "which action is it" carry exactly the same arguments; likewise for a set-status action,
    which carries the batch number and one byte per status. *)
Theorem proposals_match_queries (b : TransferBatch) :
  bld_args (proposeTransfer_builder b) = ArgInt64 (i64 (tb_ID b)) :: concat (deposit_args <$> tb_Deposits b) /\
  bld_args (wasProposedTransfer_builder b) = bld_args (proposeTransfer_builder b) /\
  bld_args (actionIDForTransfer_builder b) = bld_args (proposeTransfer_builder b) /\
  bld_args (proposeSetStatus_builder b) = ArgInt64 (i64 (tb_ID b)) :: ((fun s => ArgBytes [s]) <$> tb_Statuses b) /\
  bld_args (wasProposedSetStatus_builder b) = bld_args (proposeSetStatus_builder b) /\
  bld_args (actionIDForSetStatus_builder b) = bld_args (proposeSetStatus_builder b).
Proof.
  unfold proposeTransfer_builder, wasProposedTransfer_builder, actionIDForTransfer_builder, addBatchInfo,
    proposeSetStatus_builder, wasProposedSetStatus_builder, actionIDForSetStatus_builder, add_statuses.
  rewrite !(proj2 (transfer_builder_args _ b)), !(proj2 (status_builder_args _ b)). cbn.
  repeat split; try done. f_equal. induction (tb_Statuses b); cbn; congruence.
Qed.

(** Two batches that differ in a deposit or in the number are proposed with different
    arguments: the arguments determine what is transferred. *)
Lemma deposit_args_inj ds ds' :
  concat (deposit_args <$> ds) = concat (deposit_args <$> ds') ->
  Forall2 (fun d d' => dt_FromBytes d = dt_FromBytes d' /\ dt_ToBytes d = dt_ToBytes d' /\
    dt_ConvertedTokenBytes d = dt_ConvertedTokenBytes d' /\ dt_Amount d = dt_Amount d' /\
    i64 (dt_Nonce d) = i64 (dt_Nonce d')) ds ds'.
Proof.
  revert ds'. induction ds as [|d ds IH]; intros [|d' ds'] H; try done.
  cbn in H. injection H as H1 H2 H3 H4 H5 H6. constructor; [done|by apply IH].
Qed.

(** ** Numbers and statuses *)

Lemma parseUInt64_bytes n : is_u64 n -> parseUInt64FromByteSlice (be_bytes 8 n) = Ok n.
Proof.
  intros H. unfold parseUInt64FromByteSlice. rewrite be_val_bytes by (unfold is_u64, two64 in H; cbn; lia).
  destruct (Z.ltb_spec n two64); [done|]. unfold is_u64 in H. lia.
Qed.

Lemma statuses_loop_spec i values results :
  match statuses_loop i values results with
  | Ok out => Forall (fun v => v <> []) values /\ out = results ++ omap last values
  | Err _ => Exists (fun v => v = []) values
  end.
Proof.
  revert i results. induction values as [|v values IH]; intros i results; cbn.
  { by rewrite app_nil_r. }
  unfold getStatusFromBuff. destruct (last v) as [s|] eqn:Hl.
  - specialize (IH (i + 1)%Z (results ++ [s])). destruct (statuses_loop (i + 1) values (results ++ [s])).
    + destruct IH as [Hf ->]. split; [|by rewrite <-app_assoc]. constructor; [|done]. intros ->. done.
    + by right.
  - left. by apply last_None.
Qed.

(** The statuses of an executed batch are returned only when the contract says it is
    finished and gives at least one status, none of them empty; each status is the last byte of
    its field, and nothing else changes them. *)
Theorem statuses_returned {X} (D : mxDeps X) batchID x st x' :
  GetTransactionsStatuses D batchID x = (Ret (Ok st), x') ->
  exists fin rest, answered (executeQueryFromBuilder D
      (add_args [ArgInt64 (i64 batchID)] (Function "getStatusesAfterExecution"))) (Ok (fin :: rest)) /\
    hd_error fin = Some Byte.x01 /\ Forall (fun v => v <> []) rest /\ st = omap last rest /\ st <> [].
Proof.
  intros H. unfold GetTransactionsStatuses in H. apply bind_ok_inv in H as (values & x1 & Hq & H).
  destruct values as [|fin rest]; [done|]. injection H as H _.
  destruct (parseBool fin _ _ _) as [[]|e] eqn:Hp; [|done..].
  pose proof (statuses_loop_spec 0 rest []) as Hs. destruct (statuses_loop 0 rest []) as [[|s out]|e]; [done| |done].
  injection H as <-. destruct Hs as [Hf Hout]. cbn in Hout.
  exists fin, rest. split; [by eexists _, _|]. split; [|done].
  unfold parseBool in Hp. destruct fin as [|b0 fin]; [done|]. cbn [hd_error].
  destruct (ParseBool (sprintf "%d" [GInt (byte_val b0)])) as [r|e] eqn:HP; [|done]. injection Hp as ->.
  destruct b0; first [reflexivity | exfalso; vm_compute in HP; discriminate HP].
Qed.

(** ** Transactions *)

(** The four transactions the client sends, with the data and the gas limit of each. *)
Inductive order :=
  | OrderTransfer (b : TransferBatch)
  | OrderSetStatus (b : TransferBatch)
  | OrderSign (actionID : Z)
  | OrderPerform (actionID : Z) (b : TransferBatch).

Definition send_order {X} (D : mxDeps X) (t : order) : M X (res string) :=
  match t with
  | OrderTransfer b => ProposeTransfer D (Some b)
  | OrderSetStatus b => ProposeSetStatus D (Some b)
  | OrderSign a => Sign D a
  | OrderPerform a b => PerformAction D a (Some b)
  end.

Definition order_data (t : order) : vmBuilder :=
  match t with
  | OrderTransfer b => proposeTransfer_builder b
  | OrderSetStatus b => proposeSetStatus_builder b
  | OrderSign a => add_args [ArgInt64 (i64 a)] (Function "sign")
  | OrderPerform a _ => add_args [ArgInt64 (i64 a)] (Function "performAction")
  end.

Definition order_gas (g : MultiversXGasMapConfig) (t : order) : Z :=
  match t with
  | OrderTransfer b => u64 (gm_ProposeTransferBase g + u64 (u64 (Z.of_nat (length (tb_Deposits b))) * gm_ProposeTransferForEach g))
  | OrderSetStatus b => u64 (gm_ProposeStatusBase g + u64 (u64 (Z.of_nat (length (tb_Deposits b))) * gm_ProposeStatusForEach g))
  | OrderSign _ => gm_Sign g
  | OrderPerform _ b => u64 (gm_PerformActionBase g + u64 (u64 (Z.of_nat (length (tb_Statuses b))) * gm_PerformActionForEach g))
  end.

(** What the client asked and sent, in order, with what came back. *)
Inductive wire :=
  | Queried (r : VmValueRequest) (answer : outcome (res VmResponse))
  | AskedWhitelist (a : bytes) (answer : outcome bool)
  | Submitted (tx : FrontendTransaction) (answer : outcome (res string)).

(** The same client over dependencies that keep the record. *)
Definition keep_record {X A} (entry : outcome A -> list wire) (c : M X A) : M (X * list wire) A := fun '(x, l) =>
  let '(o, x') := c x in (o, (x', l ++ entry o)).

Definition silent {X} (A : Type) (c : M X A) : M (X * list wire) A := keep_record (fun _ => []) c.

Definition recorded {X} (D : mxDeps X) : mxDeps (X * list wire) := {|
  ExecuteVMQuery r := keep_record (fun o => [Queried r o]) (ExecuteVMQuery D r);
  GetNetworkStatus s := silent _ (GetNetworkStatus D s);
  GetShardOfAddress a := silent _ (GetShardOfAddress D a);
  GetNetworkConfig := silent _ (GetNetworkConfig D);
  GetNonce := silent _ (GetNonce D);
  SendTransaction tx := keep_record (fun o => [Submitted tx o]) (SendTransaction D tx);
  tx_IsWhitelisted a := keep_record (fun o => [AskedWhitelist a o]) (tx_IsWhitelisted D a);
  ToVmValueRequest := ToVmValueRequest D;
  ToDataBytes := ToDataBytes D;
  json_tx := json_tx D;
  ed25519_Sign := ed25519_Sign D;
  mx_ConvertToken t := silent _ (mx_ConvertToken D t);
  mx_status := {| sh_SetIntMetric k v := silent _ (sh_SetIntMetric (mx_status D) k v);
                 sh_AddIntMetric k v := silent _ (sh_AddIntMetric (mx_status D) k v);
                 sh_SetStringMetric k v := silent _ (sh_SetStringMetric (mx_status D) k v) |};
  mx_relayer := mx_relayer D;
  relayer_bech32 := relayer_bech32 D;
  multisig_bech32 := multisig_bech32 D;
  mx_converter := mx_converter D;
  gasMapConfig := gasMapConfig D;
  mx_allowDelta := mx_allowDelta D |}.

Definition is_submitted (w : wire) : bool := match w with Submitted _ _ => true | _ => false end.

(** An answer that means no: the first value is missing, empty or starts with a zero byte. *)
Definition answers_no (response : VmResponse) : Prop :=
  ReturnCode response = okCodeAfterExecution /\
  match ReturnData response with [] => True | first :: _ => first = [] \/ hd_error first = Some Byte.x00 end.

Lemma parseBool_no v f a args : parseBool v f a args = Ok false -> v = [] \/ hd_error v = Some Byte.x00.
Proof.
  unfold parseBool. destruct v as [|b0 v]; [by left|]. intros H. right. cbn [hd_error].
  destruct (ParseBool (sprintf "%d" [GInt (byte_val b0)])) as [r|e] eqn:HP; [|done]. injection H as ->.
  destruct b0; first [reflexivity | exfalso; vm_compute in HP; discriminate HP].
Qed.

Section Transactions.
Context {X : Type} (D : mxDeps X).

(** A transaction of this relayer to the multisig, signed over its own content. *)
Definition well_made (builder : vmBuilder) (gas : Z) (tx : FrontendTransaction) : Prop :=
  ToDataBytes D builder = Ok (tx_Data tx) /\ tx_GasLimit tx = gas /\ tx_Receiver tx = multisig_bech32 D /\
  tx_Sender tx = relayer_bech32 D /\ tx_Value tx = "0" /\
  exists msg sig, json_tx D (set_Signature "" tx) = Ok msg /\ ed25519_Sign D msg = Ok sig /\ tx_Signature tx = hex_encode sig.

(** A run that sent nothing, or asked, was told twice that it may, and sent. *)
Definition guarded (builder : vmBuilder) (gas : Z) (o : outcome (res string)) (log : list wire) : Prop :=
  Forall (fun w => is_submitted w = false) log \/
  exists request response tx,
    log = [Queried request (Ret (Ok response)); AskedWhitelist (mx_relayer D) (Ret true); Submitted tx o] /\
    ToVmValueRequest D (Function "isPaused") = Ok request /\ answers_no response /\ well_made builder gas tx.

Lemma signed_well_made builder gas tx0 tx d :
  ToDataBytes D builder = Ok d -> tx_Data tx0 = d -> tx_GasLimit tx0 = gas -> tx_Receiver tx0 = multisig_bech32 D ->
  tx_Sender tx0 = relayer_bech32 D -> tx_Value tx0 = "0" -> signTransactionWithPrivateKey D tx0 = Ok tx -> well_made builder gas tx.
Proof.
  intros Hd H1 H2 H3 H4 H5. unfold signTransactionWithPrivateKey. destruct (json_tx D (set_Signature "" tx0)) as [msg|e] eqn:Hj; [|done].
  destruct (ed25519_Sign D msg) as [sig|e] eqn:Hs; [|done]. intros [= <-]. destruct tx0. cbn in *. subst.
  repeat split; try done. by exists msg, sig.
Qed.

Lemma send_recorded builder gas x l : exists o x' log,
  SendTransactionReturnHash (recorded D) builder gas (x, l) = (o, (x', l ++ log)) /\
  SendTransactionReturnHash D builder gas x = (o, x') /\
  (Forall (fun w => is_submitted w = false) log \/
   exists tx, log = [AskedWhitelist (mx_relayer D) (Ret true); Submitted tx o] /\ well_made builder gas tx).
Proof.
  unfold SendTransactionReturnHash, signTransaction, bind_ok, mbind, M_bind. cbn [recorded tx_IsWhitelisted GetNetworkConfig GetNonce SendTransaction mx_relayer].
  unfold silent, keep_record. destruct (tx_IsWhitelisted D (mx_relayer D) x) as [[[]|p] x1]; cbn [negb];
    [|by eexists _, _, [_]; split_and!; [reflexivity|reflexivity|left; repeat constructor]..].
  destruct (GetNetworkConfig D x1) as [[[nc|e]|p] x2];
    [|by eexists _, _, [_]; split_and!; [rewrite app_nil_r; reflexivity|reflexivity|left; repeat constructor]..].
  destruct (GetNonce D x2) as [[[nonce|e]|p] x3];
    [|by eexists _, _, [_]; split_and!; [rewrite !app_nil_r; reflexivity|reflexivity|left; repeat constructor]..].
  cbn [recorded ToDataBytes]. destruct (ToDataBytes D builder) as [d|e] eqn:Hd;
    [|by eexists _, _, [_]; split_and!; [rewrite !app_nil_r; reflexivity|reflexivity|left; repeat constructor]].
  change (signTransactionWithPrivateKey (recorded D)) with (signTransactionWithPrivateKey D). cbn [recorded relayer_bech32 multisig_bech32].
  set (tx0 := mkTx _ _ _ _ _ _ _ _ _ _). unfold mret, M_ret. destruct (signTransactionWithPrivateKey D tx0) as [tx|e] eqn:Hs;
    [|by eexists _, _, [_]; split_and!; [rewrite !app_nil_r; reflexivity|reflexivity|left; repeat constructor]].
  destruct (SendTransaction D tx x3) as [o x4]. exists o, x4, [AskedWhitelist (mx_relayer D) (Ret true); Submitted tx o].
  rewrite !app_nil_r, <-app_assoc. split_and!; [done|done|]. right. exists tx. split; [done|]. eapply (signed_well_made _ _ tx0 _ d); [exact Hd|reflexivity..|exact Hs].
Qed.

Lemma guarded_run builder gas x : exists o x' log,
  unless_paused (recorded D) (SendTransactionReturnHash (recorded D) builder gas) (x, []) = (o, (x', log)) /\
  unless_paused D (SendTransactionReturnHash D builder gas) x = (o, x') /\ guarded builder gas o log.
Proof.
  unfold unless_paused, checkIsPaused, IsPaused, executeQueryBoolFromBuilder, with_request, ExecuteQueryReturningBool, ExecuteQueryReturningBytes,
    bind_ok, mbind, M_bind. cbn [recorded ToVmValueRequest ExecuteVMQuery].
  destruct (ToVmValueRequest D (Function "isPaused")) as [request|e] eqn:Hreq; [|by eexists _, _, []; split_and!; [reflexivity|reflexivity|left; repeat constructor]].
  unfold keep_record. destruct (ExecuteVMQuery D request x) as [[[response|e]|p] x1];
    [|by eexists _, _, [_]; split_and!; [reflexivity|reflexivity|left; repeat constructor]..].
  destruct (String.eqb_spec (ReturnCode response) okCodeAfterExecution) as [Hcode|_]; cbn [negb];
    [|by eexists _, _, [_]; split_and!; [reflexivity|reflexivity|left; repeat constructor]].
  destruct (send_recorded builder gas x1 [Queried request (Ret (Ok response))]) as (o & x' & log & Hrec & Hrun & Hlog).
  assert (Hgo : answers_no response -> guarded builder gas o (Queried request (Ret (Ok response)) :: log)).
  { intros Hno. destruct Hlog as [Hnone|(tx & -> & Hm)]; [left; by constructor|]. right. by exists request, response, tx. }
  unfold mret, M_ret. cbn [app]. unfold answers_no in Hgo. destruct (ReturnData response) as [|first rest].
  { exists o, x', (Queried request (Ret (Ok response)) :: log). split_and!; [exact Hrec|exact Hrun|by apply Hgo]. }
  destruct (parseBool first _ _ _) as [[]|e] eqn:Hp; [by eexists _, _, [_]; split_and!; [reflexivity|reflexivity|left; repeat constructor]| |
    by eexists _, _, [_]; split_and!; [reflexivity|reflexivity|left; repeat constructor]].
  exists o, x', (Queried request (Ret (Ok response)) :: log). split_and!; [exact Hrec|exact Hrun|]. apply Hgo. split; [done|]. by eapply parseBool_no.
Qed.

(** C23. Nothing is sent to MultiversX without asking first.  For each of the four transactions -
    a proposed transfer, proposed statuses, a signature, the performing of an action - and
    whatever the proxy answers, panics included: recording what the client asks and sends does
    not change its run, and either no transaction was sent, or exactly one was, as the last
    thing, after the contract had answered that it is not paused and then the whitelist that this
    relayer is on it.  What the client returns is what sending returned.  The transaction goes
    from the relayer to the multisig with value zero, carries the data of the operation and the
    configured gas limit (base plus an amount per deposit or status), and is signed by the relayer
    over its own content. *)
Theorem transactions_guarded (t : order) (x : X) :
  exists o x' log, send_order (recorded D) t (x, []) = (o, (x', log)) /\ send_order D t x = (o, x') /\
    guarded (order_data t) (order_gas (gasMapConfig D) t) o log.
Proof. destruct t; apply guarded_run. Qed.

End Transactions.

(** ** Pending batches *)

(** The seven fields the contract returns per transfer; the first and the last are not read. *)
Record raw_transfer := mkRaw {
  rt_block : bytes; rt_nonce : bytes; rt_from : bytes; rt_to : bytes; rt_token : bytes; rt_amount : bytes; rt_extra : bytes
}.
Definition raw_fields (t : raw_transfer) : list bytes :=
  [rt_block t; rt_nonce t; rt_from t; rt_to t; rt_token t; rt_amount t; rt_extra t].
Definition raw_response (id : bytes) (ts : list raw_transfer) : list bytes := id :: concat (raw_fields <$> ts).

Lemma raw_length ts : length (concat (raw_fields <$> ts)) = 7 * length ts.
Proof. induction ts as [|t ts IH]; cbn; [done|]. cbn in IH. rewrite IH. lia. Qed.

(** Every list of 7k values is made of k transfers. *)
Lemma chunk_raw k (l : list bytes) : length l = 7 * k -> exists ts, l = concat (raw_fields <$> ts) /\ length ts = k.
Proof.
  revert l. induction k as [|k IH]; intros l Hl.
  - exists []. by destruct l.
  - destruct l as [|a [|b [|c [|d [|e [|f [|g l]]]]]]]; cbn in Hl; try lia.
    destruct (IH l) as (ts & -> & <-); [lia|]. by exists (mkRaw a b c d e f g :: ts).
Qed.

Section Pending.
Context {X : Type} (D : mxDeps X) (conv : bytes -> res bytes) (ask : bytes -> X -> X).

(** The reference parser: one transfer after the other, no cache, the first error ends it. *)
Fixpoint parse_ref (i : Z) (ts : list raw_transfer) : res (list DepositTransfer) :=
  match ts with
  | [] => Ok []
  | t :: rest =>
      match parseUInt64FromByteSlice (rt_nonce t) with
      | Err e => Err (Errorf "%w while parsing the deposit nonce, transfer index %d" e [GInt i])
      | Ok nonce =>
          match conv (rt_token t) with
          | Err e => Err (Errorf "%w while converting token bytes, transfer index %d" e [GInt i])
          | Ok c => res_map (cons (mx_deposit D nonce (rt_from t) (rt_to t) (rt_token t) (rt_amount t) c)) (parse_ref (i + 1) rest)
          end
      end
  end.

Lemma create_loop_ref fuel ts i cache acc x :
  (forall t y, mx_ConvertToken D t y = (Ret (conv t), ask t y)) ->
  length (concat (raw_fields <$> ts)) <= fuel ->
  (forall t v, cache !! string_of_bytes t = Some v -> conv t = Ok v) ->
  exists x', create_loop D fuel (concat (raw_fields <$> ts)) i cache acc x = (Ret (res_map (app acc) (parse_ref i ts)), x').
Proof.
  intros Hconv. revert fuel i cache acc x. induction ts as [|t ts IH]; intros fuel i cache acc x Hf Hcache.
  { exists x. cbn. rewrite app_nil_r. by destruct fuel. }
  destruct fuel as [|fuel]; [cbn in Hf; lia|]. cbn [fmap list_fmap concat raw_fields app create_loop parse_ref].
  unfold mbind, M_bind, field. cbn [lookup list_lookup mret M_ret].
  destruct (parseUInt64FromByteSlice (rt_nonce t)) as [nonce|e]; [|by eexists].
  cbn [lookup list_lookup mret M_ret]. cbn [drop numFieldsForTransaction].
  assert (Hf' : length (concat (raw_fields <$> ts)) <= fuel) by (cbn in Hf; cbn; lia).
  destruct (cache !! string_of_bytes (rt_token t)) as [stored|] eqn:Hc.
  - rewrite (Hcache _ _ Hc).
    destruct (IH fuel (i + 1)%Z cache (acc ++ [mx_deposit D nonce (rt_from t) (rt_to t) (rt_token t) (rt_amount t) stored]) x Hf' Hcache)
      as [x' Hx]. exists x'. etransitivity; [exact Hx|]. f_equal. f_equal.
    destruct (parse_ref (i + 1) ts); cbn; [by rewrite <-app_assoc|done].
  - rewrite Hconv. destruct (conv (rt_token t)) as [c|e] eqn:Hv; [|by eexists].
    destruct (IH fuel (i + 1)%Z (<[string_of_bytes (rt_token t) := c]> cache)
      (acc ++ [mx_deposit D nonce (rt_from t) (rt_to t) (rt_token t) (rt_amount t) c]) (ask (rt_token t) x) Hf') as [x' Hx].
    { intros t' w. destruct (decide (rt_token t = t')) as [<-|Hne]; [rewrite lookup_insert_eq; by intros [= <-]|].
      rewrite lookup_insert_ne; [apply Hcache|]. intros Heq. by apply string_of_bytes_inj in Heq. }
    exists x'. etransitivity; [exact Hx|]. f_equal. f_equal. destruct (parse_ref (i + 1) ts); cbn; [by rewrite <-app_assoc|done].
Qed.

Lemma rem_7k k : Z.rem (Z.of_nat (1 + 7 * k) - 1) (Z.of_nat numFieldsForTransaction) = 0%Z.
Proof. unfold numFieldsForTransaction. replace (Z.of_nat (1 + 7 * k) - 1)%Z with (Z.of_nat k * 7)%Z by lia. apply Z.rem_mul. lia. Qed.

(** The guard admits exactly the responses made of a number and at least one transfer. *)
Lemma guard_shape (l : list bytes) :
  ((Z.rem (Z.of_nat (length l) - 1) (Z.of_nat numFieldsForTransaction) =? 0) && (1 <? Z.of_nat (length l)))%Z = true <->
  exists id ts, ts <> [] /\ l = raw_response id ts.
Proof.
  split.
  - intros [Hr Hl]%andb_true_iff. apply Z.eqb_eq in Hr. apply Z.ltb_lt in Hl. destruct l as [|id l]; [cbn in Hl; lia|].
    unfold numFieldsForTransaction in Hr. cbn [length] in *.
    rewrite Z.rem_mod_nonneg in Hr by lia. apply Z.mod_divide in Hr as [k Hk]; [|lia].
    destruct (chunk_raw (Z.to_nat k) l) as (ts & -> & Hts); [lia|]. exists id, ts. split; [|done]. intros ->. cbn in Hts. lia.
  - intros (id & ts & Hne & ->). apply andb_true_iff. unfold raw_response. cbn [length]. rewrite raw_length.
    change (S (7 * length ts)) with (1 + 7 * length ts). rewrite rem_7k. split; [done|].
    apply Z.ltb_lt. destruct ts; [done|]. cbn. lia.
Qed.

End Pending.

(** C27. The parser of pending batches never reads out of range and agrees with the reference on
    every answer of the contract: an answer that is not a number followed by seven fields per
    transfer (at least one) is the "invalid number of arguments" error; otherwise the number,
    the nonces (checked to fit 64 bits), parties, tokens and amounts are those of the fields, in
    order, tokens converted as by a mapper called for each of them, one zero status per deposit. *)
Theorem pending_batch_parsed {X} (D : mxDeps X) (conv : bytes -> res bytes) (ask : bytes -> X -> X) (response : list bytes) (x : X) :
  (forall t y, mx_ConvertToken D t y = (Ret (conv t), ask t y)) ->
  exists r x', createPendingBatchFromResponse D response x = (Ret r, x') /\
  ((~ exists id ts, ts <> [] /\ response = raw_response id ts) ->
     r = Err (Errorf "%w, got %d argument(s)" errInvalidNumberOfArguments [GInt (Z.of_nat (length response))])) /\
  (forall id ts, ts <> [] -> response = raw_response id ts ->
     r = match parseUInt64FromByteSlice id with
         | Err e => Err (Errorf "%w while parsing batch ID" e [])
         | Ok n => res_map (fun ds => Some (mkBatch n ds (replicate (length ds) Byte.x00))) (parse_ref D conv 0 ts)
         end).
Proof.
  intros Hconv. unfold createPendingBatchFromResponse.
  destruct ((Z.rem (Z.of_nat (length response) - 1) (Z.of_nat numFieldsForTransaction) =? 0) &&
            (1 <? Z.of_nat (length response)))%Z eqn:Hg; cbn [negb].
  - apply guard_shape in Hg as (id & ts & Hne & ->). unfold field, mbind, M_bind, raw_response.
    cbn [lookup list_lookup drop mret M_ret].
    assert (Huniq : forall id' ts', id' :: concat (raw_fields <$> ts') = id :: concat (raw_fields <$> ts) -> id' = id /\ ts' = ts).
    { intros id' ts' [= -> H]. split; [done|]. clear Hne. revert ts H. induction ts' as [|t' ts' IH]; intros [|t ts]; try done.
      destruct t, t'. cbn. intros [= -> -> -> -> -> -> -> H]. f_equal. by apply IH. }
    destruct (parseUInt64FromByteSlice id) as [n|e] eqn:Hn.
    + destruct (create_loop_ref D conv ask (length (id :: concat (raw_fields <$> ts))) ts 0 ∅ [] x Hconv) as [x' Hx];
        [cbn; lia|intros t v; by rewrite lookup_empty|].
      unfold bind_ok, mbind, M_bind. rewrite drop_0, Hx. destruct (parse_ref D conv 0 ts) as [ds|e] eqn:Hp; cbn [res_map app].
      all: eexists _, x'; split; [done|]; split; [intros Hno; exfalso; apply Hno; by exists id, ts|].
      all: intros id' ts' _ H; symmetry in H; apply Huniq in H as [-> ->]; by rewrite Hn, Hp.
    + eexists _, x. split; [done|]. split; [intros Hno; exfalso; apply Hno; by exists id, ts|].
      intros id' ts' _ H. symmetry in H. apply Huniq in H as [-> ->]. by rewrite Hn.
  - eexists _, x. split; [done|]. split; [done|]. intros id ts Hne Hr. exfalso.
    assert (Htrue : ((Z.rem (Z.of_nat (length response) - 1) (Z.of_nat numFieldsForTransaction) =? 0) &&
      (1 <? Z.of_nat (length response)))%Z = true) by (apply guard_shape; by exists id, ts). congruence.
Qed.


(** ** The client implements the executor's interface *)

(** What the client needs of the SDK and the mapper: calls return, and an answer of the
    contract fits in memory. *)
Class ProxyLaws {X} (D : mxDeps X) : Prop := {
  px_query r x : wp (ExecuteVMQuery D r)
    (fun r _ => match r with Ok v => (Z.of_nat (length (ReturnData v)) < two63)%Z | Err _ => True end) x;
  px_status s : total (GetNetworkStatus D s);
  px_shard a : total (GetShardOfAddress D a);
  px_config : total (GetNetworkConfig D);
  px_nonce : total (GetNonce D);
  px_send tx : total (SendTransaction D tx);
  px_whitelisted a : total (tx_IsWhitelisted D a);
  px_convert t : total (mx_ConvertToken D t);
  px_metrics :: StatusHandlerLaws (mx_status D)
}.

Lemma px_query_total {X} (D : mxDeps X) `{!ProxyLaws D} r : total (ExecuteVMQuery D r).
Proof. intros x. eapply wp_mono; [apply px_query|done]. Qed.

#[export] Hint Resolve px_query_total px_status px_shard px_config px_nonce px_send px_whitelisted px_convert : total.

Section Laws.
Context {X : Type} (D : mxDeps X) `{!ProxyLaws D}.

Lemma query_total builder : total (executeQueryFromBuilder D builder).
Proof. unfold executeQueryFromBuilder, with_request, ExecuteQueryReturningBytes. solve_total. Qed.

Lemma query_bool_total builder : total (executeQueryBoolFromBuilder D builder).
Proof.
  unfold executeQueryBoolFromBuilder, with_request, ExecuteQueryReturningBool, ExecuteQueryReturningBytes. solve_total.
Qed.

Lemma query_uint_total builder : total (executeQueryUint64FromBuilder D builder).
Proof.
  unfold executeQueryUint64FromBuilder, with_request, ExecuteQueryReturningUint64, ExecuteQueryReturningBytes. solve_total.
Qed.

Lemma send_total builder gas : total (SendTransactionReturnHash D builder gas).
Proof. unfold SendTransactionReturnHash, signTransaction. solve_total. Qed.

Lemma unless_paused_total c : total c -> total (unless_paused D c).
Proof.
  intros Hc. unfold unless_paused, checkIsPaused, IsPaused. apply total_bind.
  - apply total_bind; [apply query_bool_total|]. intros r. apply total_ret.
  - intros e. case_match; [apply total_ret|done].
Qed.

Local Hint Resolve query_total query_bool_total query_uint_total send_total unless_paused_total : total.

(** Every turn of the parser's loop consumes seven values, so that it reads nothing out of
    range on an answer of the right length, and the deposits are counted by the answer. *)
Lemma create_loop_wp k fuel ts i cache acc x :
  length ts = k -> 7 * k <= fuel -> Forall (fun d => is_Some (dt_Amount d)) acc ->
  wp (create_loop D fuel (concat (raw_fields <$> ts)) i cache acc) (fun r _ => match r with
    | Ok ds => length ds = length acc + k /\ Forall (fun d => is_Some (dt_Amount d)) ds | Err _ => True end) x.
Proof.
  revert k fuel i cache acc x. induction ts as [|t ts IH]; intros k fuel i cache acc x Hk Hf Hacc.
  { cbn in Hk. subst k. destruct fuel; apply wp_ret; split; (lia || done). }
  cbn in Hk. subst k. destruct fuel as [|fuel]; [lia|].
  cbn [fmap list_fmap concat raw_fields app create_loop]. unfold field. cbn [lookup list_lookup].
  assert (Hone : forall n c, Forall (fun d => is_Some (dt_Amount d))
    (acc ++ [mx_deposit D n (rt_from t) (rt_to t) (rt_token t) (rt_amount t) c])).
  { intros n c. apply Forall_app. split; [done|]. constructor; [by eexists|constructor]. }
  assert (Hnext : forall n c cache' x', wp (create_loop D fuel (concat (raw_fields <$> ts)) (i + 1) cache'
      (acc ++ [mx_deposit D n (rt_from t) (rt_to t) (rt_token t) (rt_amount t) c]))
    (fun r _ => match r with Ok ds => length ds = length acc + S (length ts) /\
      Forall (fun d => is_Some (dt_Amount d)) ds | Err _ => True end) x').
  { intros n c cache' x'. eapply wp_mono; [eapply IH; [done|lia|apply Hone]|].
    intros [ds|e] x'' H; [|done]. rewrite length_app in H. cbn in *. destruct H. split; [lia|done]. }
  wp_run. case_match; [|by apply wp_ret]. wp_run. case_match; [apply Hnext|].
  wp_run. apply wp_total; [apply px_convert|]. intros [c|e] x1 _; [|by apply wp_ret]. apply Hnext.
Qed.

Lemma create_yields response x : (Z.of_nat (length response) < two63)%Z ->
  wp (createPendingBatchFromResponse D response) (fun r _ => fetched r) x.
Proof.
  intros Hlen. unfold createPendingBatchFromResponse. case_match eqn:Hg; [by apply wp_ret|].
  apply negb_false_iff, guard_shape in Hg as (id & ts & Hne & ->). unfold raw_response, field. cbn [lookup list_lookup].
  wp_run. case_match; [|by apply wp_ret]. apply wp_bind_ok. cbn [drop]; rewrite ?drop_0.
  eapply wp_mono; [eapply (create_loop_wp (length ts)); [done|cbn [length]; rewrite raw_length; lia|constructor]|].
  intros [ds|e] x1 H1; [|by apply wp_ret]. apply wp_ret. destruct H1 as [Hds Hset]. split; cbn; [|done].
  rewrite length_replicate, Hds. unfold raw_response in Hlen. cbn [length] in Hlen. rewrite raw_length in Hlen. cbn. lia.
Qed.

Lemma GetPending_yields : yields_batch (GetPending D).
Proof.
  intros x. unfold GetPending, GetCurrentBatchAsDataBytes, executeQueryFromBuilder, with_request, ExecuteQueryReturningBytes.
  apply wp_bind_ok. case_match; [|by apply wp_ret, wp_ret]. apply wp_bind_ok. eapply wp_mono; [apply px_query|].
  intros [resp|e] x1 Hr; [|by apply wp_ret, wp_ret]. case_match; apply wp_ret; [by apply wp_ret|].
  case_match; [by apply wp_ret|]. by apply create_yields.
Qed.

(** Each law in turn. *)
Lemma mx_interface_laws : MultiversXClientLaws (mx_interface D).
Proof.
  split; cbn; intros; try (apply total_zoom).
  - intros c. unfold on_mx. apply wp_zoom. eapply wp_mono; [apply GetPending_yields|]. done.
  - apply query_bool_total.
  - apply query_bool_total.
  - apply query_bool_total.
  - apply query_uint_total.
  - apply query_bool_total.
  - apply query_uint_total.
  - apply query_uint_total.
  - apply query_uint_total.
  - apply unless_paused_total, send_total.
  - apply unless_paused_total, send_total.
  - apply unless_paused_total, send_total.
  - apply query_bool_total.
  - apply unless_paused_total, send_total.
  - unfold mx_CheckAvailability, GetCurrentNonce, getShardID, mx_setStatusForAvailabilityCheck, on_mx.
    pose proof (px_metrics (D := D)). solve_total.
Qed.

(** The MultiversX client satisfies the laws the executor's theorems assume of it: every
    operation returns without a panic, and the pending batch it hands out is present, small and
    has an amount in every deposit. *)
Theorem multiversx_client_laws : MultiversXClientLaws (mx_interface D).
Proof. apply mx_interface_laws. Qed.

End Laws.

(** ** A small contract for the witnesses *)

Definition toy_transfers : list raw_transfer :=
  [mkRaw [] [Byte.x08] [Byte.xf1] [Byte.xe1] [Byte.x54] [Byte.x01; Byte.x00] []; mkRaw [] [Byte.x09] [Byte.xf1] [Byte.xe2] [Byte.x54] [Byte.x05] []].
Definition toy_response : list bytes := raw_response [Byte.x02] toy_transfers.

Definition toy_answer (r : VmValueRequest) : list bytes :=
  if String.eqb (rq_FuncName r) "getCurrentTxBatch" then toy_response
  else if String.eqb (rq_FuncName r) "getStatusesAfterExecution" then [[Byte.x01]; [Byte.x00; Byte.x03]; [Byte.x04]]
  else if String.eqb (rq_FuncName r) "getLastExecutedEthTxId" then [[Byte.x07]]
  else [[]].

Definition toy_mx_at (X : Type) : mxDeps X := {|
  ExecuteVMQuery r := mret (Ok (mkResponse "ok" "" (toy_answer r)));
  GetNetworkStatus _ := mret (Ok (Some 10%Z)); GetShardOfAddress _ := mret (Ok 1%Z);
  GetNetworkConfig := mret (Ok (mkNetConfig "T" 1 1000000000)); GetNonce := mret (Ok 3%Z);
  SendTransaction _ := mret (Ok "txhash"); tx_IsWhitelisted _ := mret true;
  ToVmValueRequest b := Ok (mkRequest "multisig" (bld_function b) "relayer" []);
  ToDataBytes b := Ok (bytes_of_string (bld_function b)); json_tx tx := Ok (tx_Data tx); ed25519_Sign m := Ok (reverse m);
  mx_ConvertToken t := mret (Ok (Byte.xee :: t));
  mx_status := {| sh_SetIntMetric _ _ := mret tt; sh_AddIntMetric _ _ := mret tt; sh_SetStringMetric _ _ := mret tt |};
  mx_relayer := [Byte.x01]; relayer_bech32 := "relayer"; multisig_bech32 := "multisig";
  mx_converter := {| ToBech32String := hex_encode |};
  gasMapConfig := mkGasMap 1 2 3 4 5 6 7; mx_allowDelta := 2 |}.
Definition toy_mx : mxDeps unit := toy_mx_at unit.

#[export] Instance toy_proxy_laws X : ProxyLaws (toy_mx_at X).
Proof.
  split; try done. intros r x. unfold wp. cbn. unfold toy_answer. by repeat case_match.
Qed.

Lemma multiversx_client_laws_witness : MultiversXClientLaws (mx_interface toy_mx).
Proof. exact (multiversx_client_laws (toy_mx_at unit)). Defined.

Definition toy_pending : TransferBatch :=
  mkBatch 2 [mx_deposit toy_mx 8 [Byte.xf1] [Byte.xe1] [Byte.x54] [Byte.x01; Byte.x00] [Byte.xee; Byte.x54];
             mx_deposit toy_mx 9 [Byte.xf1] [Byte.xe2] [Byte.x54] [Byte.x05] [Byte.xee; Byte.x54]] [Byte.x00; Byte.x00].

Lemma pending_batch_parsed_witness :
  createPendingBatchFromResponse toy_mx toy_response tt = (Ret (Ok (Some toy_pending)), tt).
Proof.
  destruct (pending_batch_parsed toy_mx (fun t => Ok (Byte.xee :: t)) (fun _ y => y) toy_response tt (fun _ _ => eq_refl))
    as (r & [] & -> & _ & H).
  specialize (H [Byte.x02] toy_transfers ltac:(done) eq_refl). subst r. by vm_compute.
Defined.

Lemma statuses_returned_witness :
  exists fin rest, answered (executeQueryFromBuilder toy_mx
      (add_args [ArgInt64 (i64 5)] (Function "getStatusesAfterExecution"))) (Ok (fin :: rest)) /\
    hd_error fin = Some Byte.x01 /\ Forall (fun v => v <> []) rest /\ [Executed; Rejected] = omap last rest /\ [Executed; Rejected] <> [].
Proof. exact (statuses_returned toy_mx 5 tt [Executed; Rejected] tt eq_refl). Defined.

(** A run that sends: the question, the whitelist, the transaction. *)
Example toy_proposal :
  snd (snd (send_order (recorded toy_mx) (OrderTransfer toy_pending) (tt, []))) =
    [Queried (mkRequest "multisig" "isPaused" "relayer" []) (Ret (Ok (mkResponse "ok" "" [[]]))); AskedWhitelist [Byte.x01] (Ret true);
     Submitted (mkTx "T" 1 8 1000000000 3 (bytes_of_string "proposeMultiTransferEsdtBatch") "relayer" "multisig" "0"
       (hex_encode (reverse (bytes_of_string "proposeMultiTransferEsdtBatch")))) (Ret (Ok "txhash"))].
Proof. vm_compute. reflexivity. Qed.

(** ** Construction *)

Lemma check_fields_spec l : check_fields l = None <-> Forall (fun f => f.2 <> 0%Z) l.
Proof.
  induction l as [|[name v] l IH]; cbn [check_fields]; [split; constructor|]. rewrite Forall_cons, <-IH. cbn.
  destruct (Z.eqb_spec v 0); naive_solver.
Qed.

(** The constructor returns a client only when every component is there, every gas value of
    the map is set and a delta of at least one nonce is allowed; the client then talks through
    the given proxy, signs with the given key and starts with no shard and no nonce seen.  It
    never returns a client with a missing component, and every error comes from the checks, from
    the SDK's nonce handler, from the key or from the address converter. *)
Theorem NewClient_spec {X} (L : sdk X) (args : ClientArgs X) (x : X) :
  match NewClient L args x with
  | Err e => checkArgs args = Some e \/ (checkArgs args = None /\ exists proxy key,
      Args_Proxy args = Some proxy /\ Args_RelayerPrivateKey args = Some key /\
      ((exists interval, NewNonceTransactionHandlerV1 L proxy interval = Err e) \/ rk_PublicBytes key = Err e \/
       (exists pk, rk_PublicBytes key = Ok pk /\ NewAddressFromBytes L pk = None) \/ e = clients_ErrNilAddressConverter))
  | Ok None => False
  | Ok (Some (D, c)) => c = newMxClient x /\ (minAllowedDelta <= mx_allowDelta D)%Z /\
      Forall (fun f => f.2 <> 0%Z) (gas_fields (gasMapConfig D)) /\
      (exists proxy, Args_Proxy args = Some proxy /\ ExecuteVMQuery D = px_ExecuteVMQuery proxy) /\
      (exists key pk relayer, Args_RelayerPrivateKey args = Some key /\ ed25519_Sign D = rk_Sign key /\
         rk_PublicBytes key = Ok pk /\ NewAddressFromBytes L pk = Some relayer /\
         mx_relayer D = ah_Bytes relayer /\ relayer_bech32 D = ah_Bech32 relayer) /\
      Args_RoleProvider args = Some (tx_IsWhitelisted D)
  end.
Proof.
  destruct args as [gm [px|] [] [key|] [ms|] interval [tm|] [rp|] [sh|] delta];
    unfold NewClient, checkArgs; cbn -[checkGasMapValues]; try by auto.
  destruct (Z.ltb_spec delta minAllowedDelta); [by auto|]. destruct (checkGasMapValues gm) eqn:Hg; [by auto|].
  apply check_fields_spec in Hg. destruct (NewNonceTransactionHandlerV1 _ _ _) eqn:Hn; [|by eauto 10].
  destruct (rk_PublicBytes key) as [pk|] eqn:Hpk; [|by eauto 10].
  destruct (NewAddressFromBytes L pk) as [relayer|] eqn:Hr; cbn; [|by eauto 12].
  destruct (NewAddressConverter L); cbn; [|by eauto 10]. repeat split; try done; [by exists px|by exists key, pk, relayer].
Qed.

End MvxClientFacts.
