(* ===== verification/MvxChain.v ===== *)
(** * The MultiversX chain of the integration tests

    Models [src/bridge/integrationTests/mock]: the multisig contract
    ([multiversXContractStateMock.go]), the tokens registry, the accounts, the converters and
    the chain ([multiversXChainMock.go]).  It is the executable specification the repository
    keeps of what the contract promises to the relayers: proposals stored under their hash,
    signatures collected per action, an action performed once enough relayers signed it.

    The hasher and the marshaller ([core.CalculateHash]), bech32 and go-ethereum's address texts
    are the fields of [testLib].  The callbacks a test installs are parameters of the
    transactions that run them.  Operations are atomic, as under the mock's mutex. *)
From S2P Require Import Prelude Go Text Common MvxClient.
Import MvxClient.

Module MvxChain.

(** ** Converters *)

Definition BoolToByteSlice (val : bool) : bytes := if val then [Byte.x01] else [Byte.x00].

Definition Uint64ByteSlice (val : Z) : bytes := big_Bytes (i64 val).

(** A hash is a Go string of bytes. *)
Definition Uint64BytesFromHash (hash : string) : outcome bytes :=
  if Nat.ltb (length (bytes_of_string hash)) 8 then Panic SliceBoundsOutOfRange
  else Ret (take 8 (bytes_of_string hash)).

Definition HashToActionID {S} (hash : string) : M S Z :=
  b ← of_outcome (Uint64BytesFromHash hash);
  match ParseUint16 (hex_encode b) with
  | Err e => panics (PanicValue (error_text e))
  | Ok result =>
      let val := i64 result in
      mret (if (val <? 0)%Z then (val * -1)%Z else val)
  end.

(** ** Data *)

Record multiversXProposedStatus := mkProposedStatus {
  ps_BatchId : Z;
  ps_Statuses : bytes
}.

Record Transfer := mkTransfer {
  tr_From : bytes;
  tr_To : bytes;
  tr_Token : string;
  tr_Amount : Z;
  tr_Nonce : Z
}.

Record multiversXProposedTransfer := mkProposedTransfer {
  pt_BatchId : Z;
  pt_Transfers : list Transfer
}.

Record MultiversXDeposit := mkMxDeposit {
  md_From : bytes;
  md_To : bytes;
  md_Ticker : string;
  md_Amount : Z;
  md_DepositNonce : Z
}.

Record MultiversXPendingBatch := mkPending {
  pb_Nonce : Z;
  pb_MultiversXDeposits : list MultiversXDeposit
}.

Record tokensRegistryMock := mkTokens {
  ethToMultiversX : gmap bytes string;
  multiversXToEth : gmap string bytes
}.

(** The fields of the contract; the handler for statuses is what it returns, [None] when no
    handler was set. *)
Record contractState := mkContract {
  tokens : tokensRegistryMock;
  proposedStatus : gmap string multiversXProposedStatus;
  proposedTransfers : gmap string multiversXProposedTransfer;
  signedActionIDs : gmap string (gset string);
  statusesHandler : option bytes;
  relayers : list bytes;
  performedAction : option Z;
  pendingBatch : option MultiversXPendingBatch;
  quorum : Z;
  lastExecutedEthBatchId : Z;
  lastExecutedEthTxId : Z
}.

Section Setters.
Implicit Type c : contractState.

Definition set_tokens v c :=
  mkContract v (proposedStatus c) (proposedTransfers c) (signedActionIDs c) (statusesHandler c) (relayers c)
    (performedAction c) (pendingBatch c) (quorum c) (lastExecutedEthBatchId c) (lastExecutedEthTxId c).
Definition set_proposedStatus v c :=
  mkContract (tokens c) v (proposedTransfers c) (signedActionIDs c) (statusesHandler c) (relayers c)
    (performedAction c) (pendingBatch c) (quorum c) (lastExecutedEthBatchId c) (lastExecutedEthTxId c).
Definition set_proposedTransfers v c :=
  mkContract (tokens c) (proposedStatus c) v (signedActionIDs c) (statusesHandler c) (relayers c)
    (performedAction c) (pendingBatch c) (quorum c) (lastExecutedEthBatchId c) (lastExecutedEthTxId c).
Definition set_signed v c :=
  mkContract (tokens c) (proposedStatus c) (proposedTransfers c) v (statusesHandler c) (relayers c)
    (performedAction c) (pendingBatch c) (quorum c) (lastExecutedEthBatchId c) (lastExecutedEthTxId c).
Definition set_relayers v c :=
  mkContract (tokens c) (proposedStatus c) (proposedTransfers c) (signedActionIDs c) (statusesHandler c) v
    (performedAction c) (pendingBatch c) (quorum c) (lastExecutedEthBatchId c) (lastExecutedEthTxId c).
Definition set_performed v c :=
  mkContract (tokens c) (proposedStatus c) (proposedTransfers c) (signedActionIDs c) (statusesHandler c) (relayers c)
    v (pendingBatch c) (quorum c) (lastExecutedEthBatchId c) (lastExecutedEthTxId c).
Definition set_pendingBatch v c :=
  mkContract (tokens c) (proposedStatus c) (proposedTransfers c) (signedActionIDs c) (statusesHandler c) (relayers c)
    (performedAction c) v (quorum c) (lastExecutedEthBatchId c) (lastExecutedEthTxId c).
Definition set_quorum v c :=
  mkContract (tokens c) (proposedStatus c) (proposedTransfers c) (signedActionIDs c) (statusesHandler c) (relayers c)
    (performedAction c) (pendingBatch c) v (lastExecutedEthBatchId c) (lastExecutedEthTxId c).
Definition set_lastBatchId v c :=
  mkContract (tokens c) (proposedStatus c) (proposedTransfers c) (signedActionIDs c) (statusesHandler c) (relayers c)
    (performedAction c) (pendingBatch c) (quorum c) v (lastExecutedEthTxId c).
Definition set_lastTxId v c :=
  mkContract (tokens c) (proposedStatus c) (proposedTransfers c) (signedActionIDs c) (statusesHandler c) (relayers c)
    (performedAction c) (pendingBatch c) (quorum c) (lastExecutedEthBatchId c) v.
End Setters.

(** ** The tokens registry *)

Definition clearTokens : tokensRegistryMock := mkTokens ∅ ∅.

Definition addTokensPair (erc20Address : bytes) (ticker : string) (t : tokensRegistryMock) : tokensRegistryMock :=
  mkTokens (<[erc20Address := ticker]> (ethToMultiversX t))
           (<[hex_encode (bytes_of_string ticker) := erc20Address]> (multiversXToEth t)).

(** ** The contract *)

Definition cleanState (c : contractState) : contractState :=
  set_pendingBatch None (set_performed None (set_signed ∅ (set_proposedTransfers ∅ (set_proposedStatus ∅ c)))).

(** The zero values of the fields, then the two cleaning calls. *)
Definition newMultiversXContractStateMock : contractState :=
  set_tokens clearTokens (cleanState (mkContract (mkTokens ∅ ∅) ∅ ∅ ∅ None [] None None 0 0 0)).

(** Code outside the repository. *)
Record testLib := {
  CalculateHash_status : multiversXProposedStatus -> res bytes;
  CalculateHash_transfer : multiversXProposedTransfer -> res bytes;
  CalculateHash_tx : FrontendTransaction -> res bytes;
  HexToAddress : string -> bytes;
  Address_String : bytes -> string;
  AddressAsBech32String : bytes -> string;
  NewAddressFromBech32String : string -> res bytes
}.

Section Contract.
Context (L : testLib) (o : map_order).
Context (ProcessFinishedHandler ProposeMultiTransferEsdtBatchCalled : option (M contractState unit)).
Abbreviation C := (M contractState).

Definition getTicker (erc20Address : bytes) : C string :=
  t ← gets tokens;
  match ethToMultiversX t !! erc20Address with
  | Some ticker => mret ticker
  | None => panics (PanicValue ("tiker for erc20 address " +:+ Address_String L erc20Address +:+ " not found"))
  end.

Definition getErc20Address (ticker : string) : C bytes :=
  t ← gets tokens;
  match multiversXToEth t !! ticker with
  | Some addr => mret addr
  | None => panics (PanicValue ("erc20 address for ticker " +:+ ticker +:+ " not found"))
  end.

(** [hex.DecodeString] followed by [panic(err)], and [panic(err)] on a failed hash. *)
Definition or_panic {S A} (r : res A) : M S A :=
  match r with Ok a => mret a | Err e => panics (PanicValue (error_text e)) end.
Definition decode (s : string) : C bytes := or_panic (hex_DecodeString s).

Definition str_index (l : list string) (k : nat) : C string :=
  match l !! k with Some s => mret s | None => panics IndexOutOfRange end.

(** [for i := 2; i < len(dataSplit); i++], on the fields from [i] on. *)
Fixpoint statuses_loop (fields : list string) (acc : bytes) : C bytes :=
  match fields with
  | [] => mret acc
  | f :: rest =>
      stat ← decode f;
      match stat with
      | [] => panics IndexOutOfRange
      | s0 :: _ => statuses_loop rest (acc ++ [s0])
      end
  end.

Definition createProposedStatus (dataSplit : list string) : C (multiversXProposedStatus * string) :=
  field ← str_index dataSplit 1;
  buff ← decode field;
  statuses ← statuses_loop (drop 2 dataSplit) [];
  pending ← gets pendingBatch;
  pb ← deref pending;
  if negb (Nat.eqb (length statuses) (length (pb_MultiversXDeposits pb))) then
    panics (PanicValue (sprintf
      "different number of statuses fetched while creating proposed status: provided %d, existing %d"
      [GInt (Z.of_nat (length statuses)); GInt (Z.of_nat (length (pb_MultiversXDeposits pb)))]))
  else
    let status := mkProposedStatus (be_val buff) statuses in
    hash ← or_panic (CalculateHash_status L status);
    mret (status, string_of_bytes hash).

(** [for i := 2; i < len(dataSplit); i += 5], on the fields from [i] on; the fields are read in
    the order of the source, the token last and as the text it is. *)
Fixpoint transfers_loop (fields : list string) (acc : list Transfer) : C (list Transfer) :=
  match fields with
  | [] => mret acc
  | f0 :: l1 =>
      from ← decode f0;
      match l1 with
      | [] => panics IndexOutOfRange
      | f1 :: l2 =>
          to ← decode f1;
          match l2 with
          | f2 :: f3 :: l4 =>
              amountBytes ← decode f3;
              match l4 with
              | [] => panics IndexOutOfRange
              | f4 :: rest =>
                  nonceBytes ← decode f4;
                  transfers_loop rest (acc ++ [mkTransfer from to f2 (be_val amountBytes) (be_val nonceBytes)])
              end
          | _ => panics IndexOutOfRange
          end
      end
  end.

(** The action ID computed at the end is only logged, but computing it can panic. *)
Definition createProposedTransfer (dataSplit : list string) : C (multiversXProposedTransfer * string) :=
  field ← str_index dataSplit 1;
  buff ← decode field;
  transfers ← transfers_loop (drop 2 dataSplit) [];
  let transfer := mkProposedTransfer (be_val buff) transfers in
  hash ← or_panic (CalculateHash_transfer L transfer);
  HashToActionID (string_of_bytes hash);;
  mret (transfer, string_of_bytes hash).

(** ** Transactions *)

Definition proposeEsdtSafeSetCurrentTransactionBatchStatus (dataSplit : list string) : C unit :=
  p ← createProposedStatus dataSplit;
  modify (fun c => set_proposedStatus (<[p.2 := p.1]> (proposedStatus c)) c).

Definition run_hook (hook : option (C unit)) : C unit := match hook with Some h => h | None => mret tt end.

Definition proposeMultiTransferEsdtBatch (dataSplit : list string) : C unit :=
  p ← createProposedTransfer dataSplit;
  modify (fun c => set_proposedTransfers (<[p.2 := p.1]> (proposedTransfers c)) c);;
  run_hook ProposeMultiTransferEsdtBatchCalled.

Definition getActionIDFromString (data : string) : C Z := buff ← decode data; mret (be_val buff).

(** Ranging over one of the two maps of proposals. *)
Fixpoint find_action (actionID : Z) (hashes : list string) : C bool :=
  match hashes with
  | [] => mret false
  | hash :: rest =>
      existingActionID ← HashToActionID hash;
      if (existingActionID =? actionID)%Z then mret true else find_action actionID rest
  end.

Definition actionIDExists (actionID : Z) : C bool :=
  transfers ← gets proposedTransfers;
  found ← find_action actionID (range_keys o transfers);
  if (found : bool) then mret true
  else statuses ← gets proposedStatus; find_action actionID (range_keys o statuses).

Definition missing_action (verb : string) (actionID : Z) (raw : string) : panic :=
  PanicValue (sprintf (verb +:+ " action ID: %v as big int, raw: %s") [GInt actionID; GStr raw]).

Definition sign (dataSplit : list string) (sender : string) : C unit :=
  raw ← str_index dataSplit 1;
  actionID ← getActionIDFromString raw;
  exists_ ← actionIDExists actionID;
  if negb exists_ then panics (missing_action "attempted to sign on a missing" actionID raw)
  else
    signed ← gets signedActionIDs;
    let m := default ∅ (signed !! pretty actionID) in
    modify (set_signed (<[pretty actionID := {[sender]} ∪ m]> signed)).

Definition performAction (dataSplit : list string) : C unit :=
  raw ← str_index dataSplit 1;
  actionID ← getActionIDFromString raw;
  exists_ ← actionIDExists actionID;
  if negb exists_ then panics (missing_action "attempted to perform on a missing" actionID raw)
  else
    signed ← gets signedActionIDs;
    match signed !! pretty actionID with
    | None => panics (missing_action "attempted to perform on a not signed" actionID raw)
    | Some m =>
        q ← gets quorum;
        if (q <=? Z.of_nat (size m))%Z then modify (set_performed (Some actionID)) else mret tt
    end.

Definition processTransaction (tx : FrontendTransaction) : C unit :=
  let dataSplit := strings_Split "@" (string_of_bytes (tx_Data tx)) in
  funcName ← str_index dataSplit 0;
  if String.eqb funcName "proposeEsdtSafeSetCurrentTransactionBatchStatus" then
    proposeEsdtSafeSetCurrentTransactionBatchStatus dataSplit
  else if String.eqb funcName "proposeMultiTransferEsdtBatch" then proposeMultiTransferEsdtBatch dataSplit
  else if String.eqb funcName "sign" then sign dataSplit (tx_Sender tx)
  else if String.eqb funcName "performAction" then performAction dataSplit;; run_hook ProcessFinishedHandler
  else panics (PanicValue ("can not execute transaction that calls function: " +:+ funcName)).

(** ** Queries *)

Definition createOkVmResponse (args : list bytes) : VmResponse := mkResponse "ok" "" args.
Definition createNokVmResponse (err : string) : VmResponse := mkResponse "nok" err [].

Definition vmRequestWasSetCurrentTransactionBatchStatusActionProposed (r : VmValueRequest) : C VmResponse :=
  p ← createProposedStatus (rq_FuncName r :: rq_Args r);
  m ← gets proposedStatus;
  mret (createOkVmResponse [BoolToByteSlice (bool_decide (is_Some (m !! p.2)))]).

Definition vmRequestGetActionIdForSetCurrentTransactionBatchStatus (r : VmValueRequest) : C VmResponse :=
  p ← createProposedStatus (rq_FuncName r :: rq_Args r);
  m ← gets proposedStatus;
  match m !! p.2 with
  | None => mret (createNokVmResponse ("proposed status not found for hash " +:+ hex_encode (bytes_of_string p.2)))
  | Some _ => b ← of_outcome (Uint64BytesFromHash p.2); mret (createOkVmResponse [b])
  end.

Definition vmRequestwasTransferActionProposed (r : VmValueRequest) : C VmResponse :=
  p ← createProposedTransfer (rq_FuncName r :: rq_Args r);
  m ← gets proposedTransfers;
  mret (createOkVmResponse [BoolToByteSlice (bool_decide (is_Some (m !! p.2)))]).

Definition vmRequestGetActionIdForTransferBatch (r : VmValueRequest) : C VmResponse :=
  p ← createProposedTransfer (rq_FuncName r :: rq_Args r);
  m ← gets proposedTransfers;
  match m !! p.2 with
  | None => mret (createOkVmResponse [big_Bytes 0])
  | Some _ => b ← of_outcome (Uint64BytesFromHash p.2); mret (createOkVmResponse [b])
  end.

Definition vmRequestGetStatusesAfterExecution : C VmResponse :=
  handler ← gets statusesHandler;
  statuses ← deref handler;
  mret (createOkVmResponse (foldl (fun args stat => args ++ [[stat]]) [BoolToByteSlice true] statuses)).

Definition vmRequestWasActionExecuted (r : VmValueRequest) : C VmResponse :=
  raw ← str_index (rq_Args r) 0;
  actionID ← getActionIDFromString raw;
  performed ← gets performedAction;
  match performed with
  | None => mret (createOkVmResponse [BoolToByteSlice false])
  | Some a => mret (createOkVmResponse [BoolToByteSlice (actionID =? a)%Z])
  end.

Definition vmRequestQuorumReached (r : VmValueRequest) : C VmResponse :=
  raw ← str_index (rq_Args r) 0;
  actionID ← getActionIDFromString raw;
  signed ← gets signedActionIDs;
  match signed !! pretty actionID with
  | None => mret (createOkVmResponse [BoolToByteSlice false])
  | Some m => q ← gets quorum; mret (createOkVmResponse [BoolToByteSlice (q <=? Z.of_nat (size m))%Z])
  end.

Definition vmRequestGetTokenIdForErc20Address (r : VmValueRequest) : C VmResponse :=
  raw ← str_index (rq_Args r) 0;
  ticker ← getTicker (HexToAddress L raw);
  mret (createOkVmResponse [bytes_of_string ticker]).

Definition vmRequestGetErc20AddressForTokenId (r : VmValueRequest) : C VmResponse :=
  raw ← str_index (rq_Args r) 0;
  addr ← getErc20Address raw;
  mret (createOkVmResponse [addr]).

Definition vmRequestGetAllStakedRelayers : C VmResponse := rs ← gets relayers; mret (createOkVmResponse rs).

Definition vmRequestGetLastExecutedEthBatchId : C VmResponse :=
  n ← gets lastExecutedEthBatchId; mret (createOkVmResponse [big_Bytes (i64 n)]).
Definition vmRequestGetLastExecutedEthTxId : C VmResponse :=
  n ← gets lastExecutedEthTxId; mret (createOkVmResponse [big_Bytes (i64 n)]).

(** Six values per deposit, the block nonce empty. *)
Definition deposit_fields (d : MultiversXDeposit) : list bytes :=
  [[]; big_Bytes (md_DepositNonce d); md_From d; md_To d; bytes_of_string (md_Ticker d); big_Bytes (md_Amount d)].

Definition vmRequestGetCurrentPendingBatch : C VmResponse :=
  pending ← gets pendingBatch;
  match pending with
  | None => mret (createOkVmResponse [])
  | Some pb =>
      mret (createOkVmResponse
        (foldl (fun args d => args ++ deposit_fields d) [big_Bytes (pb_Nonce pb)] (pb_MultiversXDeposits pb)))
  end.

Definition vmRequestSigned (r : VmValueRequest) : C VmResponse :=
  hexAddress ← str_index (rq_Args r) 0;
  raw ← str_index (rq_Args r) 1;
  actionID ← getActionIDFromString raw;
  signed ← gets signedActionIDs;
  match signed !! pretty actionID with
  | None => mret (createOkVmResponse [BoolToByteSlice false])
  | Some m =>
      addressBytes ← decode hexAddress;
      mret (createOkVmResponse [BoolToByteSlice (bool_decide (AddressAsBech32String L addressBytes ∈ m))])
  end.

Definition vmRequestIsPaused : C VmResponse := mret (createOkVmResponse [BoolToByteSlice false]).

(** The dispatch on the name of the function. *)
Definition vm_handlers : list (string * (VmValueRequest -> C VmResponse)) :=
  [("wasTransferActionProposed", vmRequestwasTransferActionProposed);
   ("getActionIdForTransferBatch", vmRequestGetActionIdForTransferBatch);
   ("wasSetCurrentTransactionBatchStatusActionProposed", vmRequestWasSetCurrentTransactionBatchStatusActionProposed);
   ("getStatusesAfterExecution", fun _ => vmRequestGetStatusesAfterExecution);
   ("getActionIdForSetCurrentTransactionBatchStatus", vmRequestGetActionIdForSetCurrentTransactionBatchStatus);
   ("wasActionExecuted", vmRequestWasActionExecuted);
   ("quorumReached", vmRequestQuorumReached);
   ("getTokenIdForErc20Address", vmRequestGetTokenIdForErc20Address);
   ("getErc20AddressForTokenId", vmRequestGetErc20AddressForTokenId);
   ("getCurrentTxBatch", fun _ => vmRequestGetCurrentPendingBatch);
   ("getAllStakedRelayers", fun _ => vmRequestGetAllStakedRelayers);
   ("getLastExecutedEthBatchId", fun _ => vmRequestGetLastExecutedEthBatchId);
   ("getLastExecutedEthTxId", fun _ => vmRequestGetLastExecutedEthTxId);
   ("signed", vmRequestSigned);
   ("isPaused", fun _ => vmRequestIsPaused)].

Fixpoint dispatch (handlers : list (string * (VmValueRequest -> C VmResponse))) (r : VmValueRequest) : C VmResponse :=
  match handlers with
  | [] => panics (PanicValue ("unimplemented function: " +:+ rq_FuncName r))
  | (name, h) :: rest => if String.eqb (rq_FuncName r) name then h r else dispatch rest r
  end.

Definition processVmRequests (vmRequest : option VmValueRequest) : C VmResponse :=
  match vmRequest with
  | None => panics (PanicValue "vmRequest is nil")
  | Some r => dispatch vm_handlers r
  end.

(** ** The chain *)

(** An account is its nonce: no other field is ever set. *)
Record MultiversXChainMock := mkChain {
  contract : contractState;
  sentTransactions : gmap string FrontendTransaction;
  accounts : gmap string Z
}.

Definition NewMultiversXChainMock : MultiversXChainMock := mkChain newMultiversXContractStateMock ∅ ∅.

Definition on_contract {A} (c : C A) : M MultiversXChainMock A :=
  zoom contract (fun x m => mkChain x (sentTransactions m) (accounts m)) c.

Definition getOrCreate (address : bytes) (accs : gmap string Z) : Z * gmap string Z :=
  match accs !! string_of_bytes address with
  | Some acc => (acc, accs)
  | None => (0%Z, <[string_of_bytes address := 0%Z]> accs)
  end.

Definition updateNonce (address : bytes) (nonce : Z) (accs : gmap string Z) : gmap string Z :=
  <[string_of_bytes address := nonce]> (snd (getOrCreate address accs)).

Definition chain_SendTransaction (transaction : option FrontendTransaction) : M MultiversXChainMock string :=
  match transaction with
  | None => panics (PanicValue "nil transaction")
  | Some tx =>
      match NewAddressFromBech32String L (tx_Sender tx) with
      | Err e => panics (PanicValue (sprintf "%v while creating address handler for string %s"
                                       [GStr (error_text e); GStr (tx_Sender tx)]))
      | Ok address =>
          hash ← or_panic (CalculateHash_tx L tx);
          modify (fun m => mkChain (contract m) (<[string_of_bytes hash := tx]> (sentTransactions m))
                             (updateNonce address (tx_Nonce tx) (accounts m)));;
          on_contract (processTransaction tx);;
          mret (hex_encode hash)
      end
  end.

Fixpoint SendTransactions_loop (txs : list (option FrontendTransaction)) (hashes : list string)
    : M MultiversXChainMock (list string) :=
  match txs with
  | [] => mret hashes
  | tx :: rest => hash ← chain_SendTransaction tx; SendTransactions_loop rest (hashes ++ [hash])
  end.
Definition SendTransactions (txs : list (option FrontendTransaction)) : M MultiversXChainMock (list string) :=
  SendTransactions_loop txs [].

Definition GetAllSentTransactions : M MultiversXChainMock (gmap string FrontendTransaction) :=
  gets (fun m => foldl (fun txs hash => match sentTransactions m !! hash with
                                       | Some tx => <[hash := tx]> txs
                                       | None => txs end) ∅ (range_keys o (sentTransactions m))).

Definition chain_ExecuteVMQuery (r : option VmValueRequest) : M MultiversXChainMock VmResponse :=
  on_contract (processVmRequests r).

Definition GetAccount (address : bytes) : M MultiversXChainMock Z := fun m =>
  let '(acc, accs) := getOrCreate address (accounts m) in (Ret acc, mkChain (contract m) (sentTransactions m) accs).

Definition chain_GetNetworkConfig : M MultiversXChainMock NetworkConfig := mret (mkNetConfig "t" 1 1000000000).
Definition chain_GetNetworkStatus (_ : Z) : M MultiversXChainMock (option Z) := mret (Some 0%Z).
Definition chain_GetShardOfAddress (_ : string) : M MultiversXChainMock Z := mret 0%Z.

Definition on_fields (f : contractState -> contractState) : M MultiversXChainMock unit := on_contract (modify f).

Definition AddRelayer (address : bytes) := on_fields (fun c => set_relayers (relayers c ++ [address]) c).
Definition SetLastExecutedEthBatchID (id : Z) := on_fields (set_lastBatchId id).
Definition SetLastExecutedEthTxId (id : Z) := on_fields (set_lastTxId id).
Definition AddTokensPair (erc20 : bytes) (ticker : string) :=
  on_fields (fun c => set_tokens (addTokensPair erc20 ticker (tokens c)) c).
Definition SetQuorum (q : Z) := on_fields (set_quorum q).
Definition SetPendingBatch (pb : option MultiversXPendingBatch) := on_fields (set_pendingBatch pb).

Definition AddDepositToCurrentBatch (d : MultiversXDeposit) : M MultiversXChainMock unit :=
  on_contract (
    pending ← gets pendingBatch;
    pb ← deref pending;
    modify (set_pendingBatch (Some (mkPending (pb_Nonce pb) (pb_MultiversXDeposits pb ++ [d]))))).

Definition PerformedActionID : M MultiversXChainMock (option Z) := gets (fun m => performedAction (contract m)).

Fixpoint find_transfer (performed : Z) (hashes : list string) (m : gmap string multiversXProposedTransfer)
    : M MultiversXChainMock (option multiversXProposedTransfer) :=
  match hashes with
  | [] => mret None
  | hash :: rest =>
      actionID ← HashToActionID hash;
      if String.eqb (pretty actionID) (pretty performed) then mret (m !! hash) else find_transfer performed rest m
  end.

Definition ProposedTransfer : M MultiversXChainMock (option multiversXProposedTransfer) :=
  performed ← gets (fun m => performedAction (contract m));
  match performed with
  | None => mret None
  | Some a =>
      transfers ← gets (fun m => proposedTransfers (contract m));
      find_transfer a (range_keys o transfers) transfers
  end.

End Contract.

End MvxChain.
