(* ===== verification/MvxChainFacts.v ===== *)
(** * What the contract of the integration tests guarantees

    The invariant of its state, that an action is performed only with a quorum of signatures,
    that queries change nothing, and the round trip of action numbers between the contract and
    the client. *)
From S2P Require Import Prelude Go Text Common Batch MvxClient MvxChain.
Import MvxClient MvxChain.

Module MvxChainFacts.

(** ** Runs with panics: [Q] holds of what is returned, [P] of the state a panic leaves behind *)

Definition triple {S A} (P : S -> Prop) (c : M S A) (Q : A -> S -> Prop) (s : S) : Prop :=
  match c s with (Ret a, s') => Q a s' | (Panic _, s') => P s' end.

Definition readonly {S A} (c : M S A) : Prop := forall s, snd (c s) = s.

Section Triples.
Context {S : Type} (P : S -> Prop).

Lemma triple_bind {A B} (c : M S A) (k : A -> M S B) Q s :
  triple P c (fun a => triple P (k a) Q) s -> triple P (mbind k c) Q s.
Proof. unfold triple, mbind, M_bind. by destruct (c s) as [[a|p] s']. Qed.

Lemma triple_read {A} (c : M S A) (Q : A -> S -> Prop) s :
  readonly c -> P s -> (forall a, c s = (Ret a, s) -> Q a s) -> triple P c Q s.
Proof.
  intros Hr HP HQ. specialize (Hr s). unfold triple. destruct (c s) as [[a|p] s'] eqn:E; cbn in Hr; subst s'; auto.
Qed.

Lemma triple_mono {A} (c : M S A) (Q Q' : A -> S -> Prop) s :
  triple P c Q s -> (forall a s', Q a s' -> Q' a s') -> triple P c Q' s.
Proof. unfold triple. destruct (c s) as [[a|p] s']; eauto. Qed.

Lemma readonly_ret {A} (a : A) : readonly (S := S) (mret a).
Proof. done. Qed.
Lemma readonly_panics {A} p : readonly (S := S) (A := A) (panics p).
Proof. done. Qed.
Lemma readonly_gets {A} (f : S -> A) : readonly (gets f).
Proof. done. Qed.
Lemma readonly_bind {A B} (c : M S A) (k : A -> M S B) : readonly c -> (forall a, readonly (k a)) -> readonly (mbind k c).
Proof.
  intros Hc Hk s. specialize (Hc s). unfold mbind, M_bind. destruct (c s) as [[a|p] s']; cbn in Hc; subst s'; [apply Hk|done].
Qed.
Lemma readonly_outcome {A} (o : outcome A) : readonly (S := S) (of_outcome o).
Proof. by destruct o. Qed.
Lemma readonly_deref {A} (o : option A) : readonly (S := S) (deref o).
Proof. by destruct o. Qed.
Lemma readonly_or_panic {A} (r : res A) : readonly (S := S) (or_panic r).
Proof. by destruct r. Qed.
End Triples.

Create HintDb readonly discriminated.
#[export] Hint Resolve readonly_ret readonly_panics readonly_gets readonly_outcome readonly_deref readonly_or_panic : readonly.
Ltac readonly :=
  repeat first [ solve [eauto with readonly] | apply readonly_bind; [|intros ?] | case_match ].

(** ** Action numbers *)

Definition action_of (h : string) : Z := Z.abs (i64 (be_val (take 8 (bytes_of_string h)))).
Definition long (h : string) : Prop := 8 <= length (bytes_of_string h).

Lemma Uint64BytesFromHash_long h : long h -> Uint64BytesFromHash h = Ret (take 8 (bytes_of_string h)).
Proof. unfold long, Uint64BytesFromHash. intros H. by destruct (Nat.ltb_spec (length (bytes_of_string h)) 8); [lia|]. Qed.

Lemma HashToActionID_run {S} h (s : S) : long h -> HashToActionID h s = (Ret (action_of h), s).
Proof.
  intros H. unfold HashToActionID. rewrite (Uint64BytesFromHash_long h H). unfold mbind, M_bind, of_outcome, mret, M_ret.
  rewrite ParseUint16_encode by (rewrite length_take; unfold long in H; lia). unfold action_of.
  set (v := i64 _). destruct (Z.ltb_spec v 0); unfold mret, M_ret; do 2 f_equal; lia.
Qed.

Lemma readonly_HashToActionID {S} h : readonly (S := S) (HashToActionID h).
Proof. unfold HashToActionID. readonly. Qed.
Lemma readonly_decode s : readonly (decode s).
Proof. unfold decode. readonly. Qed.
Lemma readonly_index l k : readonly (str_index l k).
Proof. unfold str_index. readonly. Qed.
#[export] Hint Resolve readonly_HashToActionID readonly_decode readonly_index : readonly.
Lemma readonly_getAction s : readonly (getActionIDFromString s).
Proof. unfold getActionIDFromString. readonly. Qed.
Lemma readonly_find_action a l : readonly (find_action a l).
Proof. induction l as [|h l IH]; cbn [find_action]; readonly. Qed.
#[export] Hint Resolve readonly_getAction readonly_find_action : readonly.
Lemma readonly_exists o a : readonly (actionIDExists o a).
Proof. unfold actionIDExists. readonly. Qed.
Lemma readonly_statuses_loop l acc : readonly (statuses_loop l acc).
Proof. revert acc. induction l as [|f l IH]; intros acc; cbn [statuses_loop]; readonly. Qed.
Lemma readonly_transfers_loop l acc : readonly (transfers_loop l acc).
Proof.
  remember (length l) as n eqn:Hn. revert l acc Hn.
  induction n as [n IH] using lt_wf_ind; intros [|f0 [|f1 [|f2 [|f3 [|f4 rest]]]]] acc ->; cbn [transfers_loop]; try readonly.
  repeat (apply readonly_bind; [readonly|intros ?]). eapply IH; [|done]. cbn; lia.
Qed.
#[export] Hint Resolve readonly_exists readonly_statuses_loop readonly_transfers_loop : readonly.
Lemma readonly_createStatus L l : readonly (createProposedStatus L l).
Proof. unfold createProposedStatus. readonly. Qed.
Lemma readonly_createTransfer L l : readonly (createProposedTransfer L l).
Proof. unfold createProposedTransfer. readonly. Qed.
#[export] Hint Resolve readonly_createStatus readonly_createTransfer : readonly.

(** Queries change nothing. *)
Lemma readonly_query L r : readonly (processVmRequests L r).
Proof.
  destruct r as [r|]; cbn [processVmRequests]; [|readonly]. unfold vm_handlers. cbn [dispatch].
  unfold vmRequestwasTransferActionProposed, vmRequestGetActionIdForTransferBatch,
    vmRequestWasSetCurrentTransactionBatchStatusActionProposed, vmRequestGetStatusesAfterExecution,
    vmRequestGetActionIdForSetCurrentTransactionBatchStatus, vmRequestWasActionExecuted, vmRequestQuorumReached,
    vmRequestGetTokenIdForErc20Address, vmRequestGetErc20AddressForTokenId, vmRequestGetCurrentPendingBatch,
    vmRequestGetAllStakedRelayers, vmRequestGetLastExecutedEthBatchId, vmRequestGetLastExecutedEthTxId, vmRequestSigned,
    vmRequestIsPaused, getTicker, getErc20Address.
  repeat case_match; readonly.
Qed.

(** ** The invariant *)

(** The hasher's output is longer than the eight bytes an action number is read from (blake2b
    gives 32). *)
Class HashLaws (L : testLib) : Prop := {
  hl_status x b : CalculateHash_status L x = Ok b -> 8 <= length b;
  hl_transfer x b : CalculateHash_transfer L x = Ok b -> 8 <= length b
}.

Definition proposed (c : contractState) (h : string) : Prop :=
  is_Some (proposedTransfers c !! h) \/ is_Some (proposedStatus c !! h).
Definition proposed_action (c : contractState) (a : Z) : Prop := exists h, proposed c h /\ action_of h = a.

Record contract_wf (L : testLib) (c : contractState) : Prop := {
  wf_transfers h t : proposedTransfers c !! h = Some t -> CalculateHash_transfer L t = Ok (bytes_of_string h) /\ long h;
  wf_statuses h t : proposedStatus c !! h = Some t -> CalculateHash_status L t = Ok (bytes_of_string h) /\ long h;
  wf_signed k m : signedActionIDs c !! k = Some m -> m <> ∅ /\ exists a, k = pretty a /\ proposed_action c a;
  wf_performed a : performedAction c = Some a ->
    exists m, signedActionIDs c !! pretty a = Some m /\ (quorum c <= Z.of_nat (size m))%Z
}.

Lemma find_action_spec a l (c : contractState) :
  Forall long l -> exists b, find_action a l c = (Ret b, c) /\ (b = true <-> exists h, h ∈ l /\ action_of h = a).
Proof.
  induction 1 as [|h l Hh Hl IH]; cbn [find_action].
  { exists false. split; [done|]. split; [done|]. intros (h & Hh & _). by apply elem_of_nil in Hh. }
  unfold mbind at 1, M_bind. rewrite (HashToActionID_run h c Hh). destruct (Z.eqb_spec (action_of h) a) as [He|He].
  - exists true. split; [done|]. split; [|done]. intros _. exists h. split; [constructor|done].
  - destruct IH as (b & -> & Hb). exists b. split; [done|]. rewrite Hb. split; intros (h' & H1 & H2).
    + exists h'. split; [by constructor|done].
    + apply elem_of_cons in H1 as [->|H1]; [done|]. by exists h'.
Qed.

Lemma actionIDExists_spec L o a c : contract_wf L c ->
  exists b, actionIDExists o a c = (Ret b, c) /\ (b = true <-> proposed_action c a).
Proof.
  intros Hwf. unfold actionIDExists.
  destruct (find_action_spec a (range_keys o (proposedTransfers c)) c) as (b1 & H1 & Hb1).
  { apply Forall_forall. intros h [t Ht]%range_keys_elem. by apply (wf_transfers L c Hwf) in Ht as [_ ?]. }
  destruct (find_action_spec a (range_keys o (proposedStatus c)) c) as (b2 & H2 & Hb2).
  { apply Forall_forall. intros h [t Ht]%range_keys_elem. by apply (wf_statuses L c Hwf) in Ht as [_ ?]. }
  exists (b1 || b2). unfold mbind, M_bind, gets. rewrite H1. split; [by destruct b1|].
  rewrite orb_true_iff, Hb1, Hb2. unfold proposed_action, proposed. setoid_rewrite range_keys_elem. naive_solver.
Qed.

(** ** Every transaction keeps it *)

(** What the setters of the chain change beside the proposals, the signatures, the performed
    action and the quorum; a test's callbacks do no more. *)
Definition config_step (c c' : contractState) : Prop :=
  proposedStatus c' = proposedStatus c /\ proposedTransfers c' = proposedTransfers c /\
  signedActionIDs c' = signedActionIDs c /\ performedAction c' = performedAction c /\ quorum c' = quorum c.

Definition hook_ok (hook : option (M contractState unit)) : Prop :=
  forall c, config_step c (snd (run_hook hook c)).

Lemma hook_none : hook_ok None.
Proof. done. Qed.

Lemma createTransfer_inv L l c p c' :
  createProposedTransfer L l c = (Ret p, c') -> CalculateHash_transfer L p.1 = Ok (bytes_of_string p.2) /\ c' = c.
Proof.
  intros H. pose proof (readonly_createTransfer L l c) as Hr. rewrite H in Hr. cbn in Hr. split; [|done].
  unfold createProposedTransfer in H. apply bind_ret_inv in H as (f & ? & _ & H). apply bind_ret_inv in H as (b & ? & _ & H).
  apply bind_ret_inv in H as (ts & ? & _ & H). apply bind_ret_inv in H as (hash & ? & Hh & H).
  apply bind_ret_inv in H as (a & ? & _ & H). injection H as <- _. cbn [fst snd]. rewrite bytes_string_bytes.
  unfold or_panic in Hh. destruct (CalculateHash_transfer _ _); [|done]. by injection Hh as ->.
Qed.

Lemma createStatus_inv L l c p c' :
  createProposedStatus L l c = (Ret p, c') -> CalculateHash_status L p.1 = Ok (bytes_of_string p.2) /\ c' = c.
Proof.
  intros H. pose proof (readonly_createStatus L l c) as Hr. rewrite H in Hr. cbn in Hr. split; [|done].
  unfold createProposedStatus in H. apply bind_ret_inv in H as (f & ? & _ & H). apply bind_ret_inv in H as (b & ? & _ & H).
  apply bind_ret_inv in H as (sts & ? & _ & H). apply bind_ret_inv in H as (pb & ? & _ & H).
  apply bind_ret_inv in H as (pb' & ? & _ & H). case_match; [done|].
  apply bind_ret_inv in H as (hash & ? & Hh & H). injection H as <- _. cbn [fst snd]. rewrite bytes_string_bytes.
  unfold or_panic in Hh. destruct (CalculateHash_status _ _); [|done]. by injection Hh as ->.
Qed.

Section Invariant.
Context (L : testLib) `{!HashLaws L} (o : map_order) (finished called : option (M contractState unit)).
Context (Hfinished : hook_ok finished) (Hcalled : hook_ok called).
Local Abbreviation wf := (contract_wf L).

Lemma wf_config c c' : config_step c c' -> wf c -> wf c'.
Proof.
  intros (E1 & E2 & E3 & E4 & E5) [H1 H2 H3 H4].
  split; unfold proposed_action, proposed; rewrite ?E1, ?E2, ?E3, ?E4, ?E5; eauto.
Qed.

Lemma wf_hook hook c (Q : unit -> contractState -> Prop) : hook_ok hook -> wf c ->
  (forall c', config_step c c' -> wf c' -> Q tt c') -> triple wf (run_hook hook) Q c.
Proof.
  intros Hh Hc HQ. specialize (Hh c). pose proof (wf_config _ _ Hh Hc). unfold triple.
  destruct (run_hook hook c) as [[[]|p] c']; cbn in *; auto.
Qed.

Lemma wf_add_transfer c t h :
  wf c -> CalculateHash_transfer L t = Ok (bytes_of_string h) -> wf (set_proposedTransfers (<[h := t]> (proposedTransfers c)) c).
Proof.
  intros [H1 H2 H3 H4] Ht. split; cbn.
  - intros h' t'. destruct (decide (h = h')) as [<-|Hne].
    + rewrite lookup_insert_eq. intros [= <-]. split; [done|]. by eapply hl_transfer.
    + rewrite lookup_insert_ne by done. apply H1.
  - done.
  - intros k m Hm. destruct (H3 k m Hm) as (? & a & -> & h' & Hh' & Ha). split; [done|]. exists a. split; [done|].
    exists h'. split; [|done]. destruct Hh' as [[t' Ht']|?]; [left|by right]. cbn.
    destruct (decide (h = h')) as [<-|Hne]; [rewrite lookup_insert_eq|rewrite lookup_insert_ne by done]; by eexists.
  - done.
Qed.

Lemma wf_add_status c t h :
  wf c -> CalculateHash_status L t = Ok (bytes_of_string h) -> wf (set_proposedStatus (<[h := t]> (proposedStatus c)) c).
Proof.
  intros [H1 H2 H3 H4] Ht. split; cbn.
  - done.
  - intros h' t'. destruct (decide (h = h')) as [<-|Hne].
    + rewrite lookup_insert_eq. intros [= <-]. split; [done|]. by eapply hl_status.
    + rewrite lookup_insert_ne by done. apply H2.
  - intros k m Hm. destruct (H3 k m Hm) as (? & a & -> & h' & Hh' & Ha). split; [done|]. exists a. split; [done|].
    exists h'. split; [|done]. destruct Hh' as [?|[t' Ht']]; [by left|right]. cbn.
    destruct (decide (h = h')) as [<-|Hne]; [rewrite lookup_insert_eq|rewrite lookup_insert_ne by done]; by eexists.
  - done.
Qed.

Lemma wf_add_signature c a s :
  wf c -> proposed_action c a ->
  wf (set_signed (<[pretty a := {[s]} ∪ default ∅ (signedActionIDs c !! pretty a)]> (signedActionIDs c)) c).
Proof.
  clear Hfinished Hcalled. intros [H1 H2 H3 H4] Ha. split; cbn; try done.
  - intros k m. destruct (decide (pretty a = k)) as [<-|Hne].
    + rewrite lookup_insert_eq. intros [= <-]. split; [set_solver|]. by exists a.
    + rewrite lookup_insert_ne by done. apply H3.
  - intros a' Hp. destruct (H4 a' Hp) as (m & Hm & Hq). destruct (decide (a = a')) as [<-|Hne].
    + rewrite lookup_insert_eq. eexists. split; [done|]. rewrite Hm. cbn.
      pose proof (subseteq_size m ({[s]} ∪ m) ltac:(set_solver)). lia.
    + rewrite lookup_insert_ne by (by intros ?%(inj pretty)). by exists m.
Qed.

(** The effect of each transaction that returns. *)
Lemma sign_triple dataSplit sender c (Q : unit -> contractState -> Prop) : wf c ->
  (forall raw buff a, dataSplit !! 1 = Some raw -> hex_DecodeString raw = Ok buff -> be_val buff = a -> proposed_action c a ->
     Q tt (set_signed (<[pretty a := {[sender]} ∪ default ∅ (signedActionIDs c !! pretty a)]> (signedActionIDs c)) c)) ->
  triple wf (sign o dataSplit sender) Q c.
Proof.
  intros Hwf HQ. unfold sign. apply triple_bind, triple_read; [readonly|done|]. intros raw Hraw.
  apply triple_bind, triple_read; [readonly|done|]. intros a Ha.
  apply triple_bind, triple_read; [readonly|done|]. intros e He.
  destruct (actionIDExists_spec L o a c Hwf) as (b & Hb & Hspec). rewrite Hb in He. injection He as <-.
  destruct b; cbn [negb]; [|exact Hwf]. unfold triple. cbn.
  unfold str_index in Hraw. destruct (dataSplit !! 1) eqn:H1; [|done]. injection Hraw as ->.
  unfold getActionIDFromString, decode, or_panic in Ha. destruct (hex_DecodeString raw) as [buff|] eqn:H2; [|done].
  injection Ha as <-. eapply HQ; [done|exact H2|done|by apply Hspec].
Qed.

Lemma perform_triple dataSplit c (Q : unit -> contractState -> Prop) : wf c ->
  (forall a m, signedActionIDs c !! pretty a = Some m -> proposed_action c a -> (quorum c <= Z.of_nat (size m))%Z ->
     Q tt (set_performed (Some a) c)) -> Q tt c ->
  triple wf (performAction o dataSplit) Q c.
Proof.
  intros Hwf HQ HQ'. unfold performAction. apply triple_bind, triple_read; [readonly|done|]. intros raw Hraw.
  apply triple_bind, triple_read; [readonly|done|]. intros a Ha.
  apply triple_bind, triple_read; [readonly|done|]. intros e He.
  destruct (actionIDExists_spec L o a c Hwf) as (b & Hb & Hspec). rewrite Hb in He. injection He as <-.
  destruct b; cbn [negb]; [|exact Hwf]. unfold triple, mbind, M_bind, gets, mret, M_ret. cbn.
  destruct (signedActionIDs c !! pretty a) as [m|] eqn:Hm; [|exact Hwf]. cbn.
  destruct (Z.leb_spec (quorum c) (Z.of_nat (size m))); [|exact HQ']. eapply HQ; [done|by apply Hspec|done].
Qed.

Lemma wf_performed_set c a m :
  wf c -> signedActionIDs c !! pretty a = Some m -> (quorum c <= Z.of_nat (size m))%Z -> wf (set_performed (Some a) c).
Proof. intros [H1 H2 H3 H4] Hm Hq. split; cbn; try done. intros a' [= <-]. by exists m. Qed.

Lemma processTransaction_keeps tx c : wf c -> triple wf (processTransaction L o finished called tx) (fun _ c' => wf c') c.
Proof.
  intros Hwf. unfold processTransaction. apply triple_bind, triple_read; [readonly|done|]. intros name _.
  repeat case_match; [| | | |exact Hwf].
  - apply triple_bind, triple_read; [readonly|done|]. intros p Hp. apply createStatus_inv in Hp as [Hp _].
    unfold triple. cbn. by apply wf_add_status.
  - apply triple_bind, triple_read; [readonly|done|]. intros p Hp. apply createTransfer_inv in Hp as [Hp _].
    apply triple_bind. unfold triple at 1. cbn. apply wf_hook; [done|by apply wf_add_transfer|done].
  - apply sign_triple; [done|]. intros raw buff a _ _ _ Ha. by apply wf_add_signature.
  - apply triple_bind. apply perform_triple; [done| |].
    + intros a m Hm _ Hq. apply wf_hook; [done|by eapply wf_performed_set|done].
    + by apply wf_hook.
Qed.
End Invariant.

(** ** Histories of transactions *)

Definition data_fields (tx : FrontendTransaction) : list string := strings_Split "@" (string_of_bytes (tx_Data tx)).

(** A transaction that calls a function with an action number as its first argument. *)
Definition calls_action (name : string) (a : Z) (tx : FrontendTransaction) : Prop :=
  exists raw buff, data_fields tx !! 0 = Some name /\ data_fields tx !! 1 = Some raw /\
    hex_DecodeString raw = Ok buff /\ be_val buff = a.

(** A transaction that proposes what is stored under a hash. *)
Definition proposes (L : testLib) (h : string) (tx : FrontendTransaction) : Prop :=
  (data_fields tx !! 0 = Some "proposeMultiTransferEsdtBatch" /\
     exists c t, createProposedTransfer L (data_fields tx) c = (Ret (t, h), c)) \/
  (data_fields tx !! 0 = Some "proposeEsdtSafeSetCurrentTransactionBatchStatus" /\
     exists c t, createProposedStatus L (data_fields tx) c = (Ret (t, h), c)).

(** The transactions executed from [c0], newest first, with configuration changes in between. *)
Inductive executed (L : testLib) (o : map_order) (finished called : option (M contractState unit)) (c0 : contractState)
    : list FrontendTransaction -> contractState -> Prop :=
  | ex_start : executed L o finished called c0 [] c0
  | ex_tx txs c tx c' : executed L o finished called c0 txs c ->
      processTransaction L o finished called tx c = (Ret tt, c') -> executed L o finished called c0 (tx :: txs) c'
  | ex_config txs c c' : executed L o finished called c0 txs c -> config_step c c' -> executed L o finished called c0 txs c'.

(** Nothing proposed, signed or performed yet. *)
Definition blank (c : contractState) : Prop :=
  proposedStatus c = ∅ /\ proposedTransfers c = ∅ /\ signedActionIDs c = ∅ /\ performedAction c = None.

Record explained (L : testLib) (q : Z) (txs : list FrontendTransaction) (c : contractState) : Prop := {
  ep_wf : contract_wf L c;
  ep_quorum : quorum c = q;
  ep_proposed h : proposed c h -> exists tx, tx ∈ txs /\ proposes L h tx;
  ep_signed a m s : signedActionIDs c !! pretty a = Some m -> s ∈ m -> exists tx, tx ∈ txs /\ tx_Sender tx = s /\ calls_action "sign" a tx
}.

Lemma blank_wf L c : blank c -> contract_wf L c.
Proof.
  intros (H1 & H2 & H3 & H4). split; rewrite ?H1, ?H2, ?H3, ?H4; try done; intros *; by rewrite lookup_empty.
Qed.

Section History.
Context (L : testLib) `{!HashLaws L} (o : map_order) (finished called : option (M contractState unit)).
Context (Hfinished : hook_ok finished) (Hcalled : hook_ok called).

Lemma explained_config q txs c c' : config_step c c' -> explained L q txs c -> explained L q txs c'.
Proof.
  intros Hc [H1 H2 H3 H4]. pose proof (wf_config L _ _ Hc H1). destruct Hc as (E1 & E2 & E3 & E4 & E5).
  split; [done|congruence| |]; unfold proposed; rewrite ?E1, ?E2, ?E3; eauto.
Qed.

Lemma explained_mono q txs tx c : explained L q txs c -> explained L q (tx :: txs) c.
Proof.
  intros [H1 H2 H3 H4]. split; try done.
  - intros h (t & ? & ?)%H3. exists t. split; [by right|done].
  - intros a m s Hm (t & ? & ?)%(H4 a m s Hm). exists t. split; [by right|done].
Qed.

(** Under any step that returned: either a hook (a configuration change) or one of the four. *)
Lemma explained_tx q txs c tx c' :
  explained L q txs c -> processTransaction L o finished called tx c = (Ret tt, c') -> explained L q (tx :: txs) c'.
Proof.
  intros Hex Hrun. pose proof Hex as [Hwf Hq Hprop Hsign]. apply (explained_mono q txs tx) in Hex.
  assert (Ht : triple (contract_wf L) (processTransaction L o finished called tx) (fun _ c' => explained L q (tx :: txs) c') c);
    [|unfold triple in Ht; by rewrite Hrun in Ht].
  unfold processTransaction. fold (data_fields tx). apply triple_bind, triple_read; [readonly|done|]. intros name Hname.
  unfold str_index in Hname. destruct (data_fields tx !! 0) as [n0|] eqn:H0; [|done]. injection Hname as ->.
  destruct (String.eqb_spec name "proposeEsdtSafeSetCurrentTransactionBatchStatus") as [->|_];
    [|destruct (String.eqb_spec name "proposeMultiTransferEsdtBatch") as [->|_];
    [|destruct (String.eqb_spec name "sign") as [->|_]; [|destruct (String.eqb_spec name "performAction") as [->|_]; [|exact Hwf]]]].
  - apply triple_bind, triple_read; [readonly|done|]. intros [t h] Hp. pose proof (createStatus_inv _ _ _ _ _ Hp) as [Hh _].
    unfold triple. cbn in *. split; [by apply wf_add_status|done| |apply (ep_signed _ _ _ _ Hex)].
    intros h' [Ht|Hs]; [apply (ep_proposed _ _ _ _ Hex); by left|]. cbn in Hs.
    destruct (decide (h = h')) as [<-|Hne].
    + exists tx. split; [left|]. right. split; [done|]. by exists c, t.
    + rewrite lookup_insert_ne in Hs by done. apply (ep_proposed _ _ _ _ Hex); by right.
  - apply triple_bind, triple_read; [readonly|done|]. intros [t h] Hp. pose proof (createTransfer_inv _ _ _ _ _ Hp) as [Hh _].
    apply triple_bind. unfold triple at 1. cbn in *. eapply wf_hook; [done|by apply wf_add_transfer|].
    intros c1 Hc1 _. eapply explained_config; [exact Hc1|]. split; [by apply wf_add_transfer|done| |apply (ep_signed _ _ _ _ Hex)].
    intros h' [Hs|Ht]; [|apply (ep_proposed _ _ _ _ Hex); by right]. cbn in Hs.
    destruct (decide (h = h')) as [<-|Hne].
    + exists tx. split; [left|]. left. split; [done|]. by exists c, t.
    + rewrite lookup_insert_ne in Hs by done. apply (ep_proposed _ _ _ _ Hex); by left.
  - apply (sign_triple L); [done|]. intros raw buff a H1 H2 H3 Ha. split; [by apply wf_add_signature|done|apply (ep_proposed _ _ _ _ Hex)|].
    intros a' m s Hm Hs. cbn in Hm. destruct (decide (a = a')) as [<-|Hne].
    + rewrite lookup_insert_eq in Hm. injection Hm as <-. apply elem_of_union in Hs as [->%elem_of_singleton|Hs].
      * exists tx. split; [left|]. split; [done|]. by exists raw, buff.
      * destruct (signedActionIDs c !! pretty a) as [m|] eqn:Hm; [|done]. by apply (ep_signed _ _ _ _ Hex a m).
    + rewrite lookup_insert_ne in Hm by (by intros ?%(inj pretty)). by apply (ep_signed _ _ _ _ Hex a' m).
  - apply triple_bind. apply (perform_triple L); [done| |].
    + intros a m Hm _ Hqm. eapply wf_hook; [done|by eapply wf_performed_set|]. intros c1 Hc1 _. eapply explained_config; [exact Hc1|].
      split; [by eapply wf_performed_set|done|apply (ep_proposed _ _ _ _ Hex)|apply (ep_signed _ _ _ _ Hex)].
    + eapply wf_hook; [done|done|]. intros c1 Hc1 _. by eapply explained_config.
Qed.

Lemma executed_explained c0 txs c : blank c0 -> executed L o finished called c0 txs c -> explained L (quorum c0) txs c.
Proof.
  intros Hb. induction 1 as [|txs c tx c' _ IH Hrun|txs c c' _ IH Hc].
  - split; [by apply blank_wf|done| |]; destruct Hb as (H1 & H2 & H3 & H4).
    + intros h [[t Ht]|[t Ht]]; rewrite ?H1, ?H2, lookup_empty in Ht; done.
    + intros a m s Hm. by rewrite H3, lookup_empty in Hm.
  - by eapply explained_tx.
  - by eapply explained_config.
Qed.
End History.

(** The contract's state is well formed, always: proposals are stored under their own hash,
    only proposed actions are signed and no set of signers is empty, and the performed action has
    a quorum of signatures.  A new contract is well formed, every transaction keeps it so, also
    one that panics half-way, and a query never changes the state. *)
Theorem contract_well_formed (L : testLib) `{!HashLaws L} (o : map_order) (finished called : option (M contractState unit)) :
  hook_ok finished -> hook_ok called ->
  contract_wf L newMultiversXContractStateMock /\
  (forall tx c, contract_wf L c -> contract_wf L (snd (processTransaction L o finished called tx c))) /\
  (forall r c, snd (processVmRequests L r c) = c).
Proof.
  intros Hf Hc. split; [by apply blank_wf|]. split; [|intros r c; apply readonly_query].
  intros tx c Hwf. pose proof (processTransaction_keeps L o finished called Hf Hc tx c Hwf) as H. unfold triple in H.
  by destruct (processTransaction L o finished called tx c) as [[]].
Qed.

(** No action is performed without a quorum: when a contract that started with nothing
    proposed reports a performed action, the transactions it executed contain a proposal whose
    hash gives this action number, and [sign] transactions for it from at least as many different
    senders as the quorum. *)
Theorem performed_by_quorum (L : testLib) `{!HashLaws L} (o : map_order) (finished called : option (M contractState unit))
    (c0 c : contractState) (txs : list FrontendTransaction) (a : Z) :
  hook_ok finished -> hook_ok called -> blank c0 -> executed L o finished called c0 txs c -> performedAction c = Some a ->
  (exists h tx, action_of h = a /\ tx ∈ txs /\ proposes L h tx) /\
  exists signers : gset string, (quorum c0 <= Z.of_nat (size signers))%Z /\
    forall s, s ∈ signers -> exists tx, tx ∈ txs /\ tx_Sender tx = s /\ calls_action "sign" a tx.
Proof.
  intros Hf Hc Hb Hex Ha. destruct (executed_explained L o finished called Hf Hc c0 txs c Hb Hex) as [Hwf Hq Hprop Hsign].
  destruct (wf_performed L c Hwf a Ha) as (m & Hm & Hsize). split.
  - destruct (wf_signed L c Hwf _ _ Hm) as (_ & a' & He & h & Hh & Hact). apply (inj pretty) in He as ->.
    destruct (Hprop h Hh) as (tx & ? & ?). by exists h, tx.
  - exists m. split; [by rewrite <-Hq|]. intros s Hs. by eapply Hsign.
Qed.

(** ** A short history *)

Definition toy_testLib : testLib := {|
  CalculateHash_status s := Ok (be_bytes 8 (ps_BatchId s));
  CalculateHash_transfer t := Ok (be_bytes 8 (pt_BatchId t));
  CalculateHash_tx tx := Ok (tx_Data tx);
  HexToAddress s := match hex_DecodeString s with Ok b => b | Err _ => [] end;
  Address_String := hex_encode; AddressAsBech32String := hex_encode; NewAddressFromBech32String s := hex_DecodeString s |}.

#[export] Instance toy_hash_laws : HashLaws toy_testLib.
Proof. split; intros x b H; apply Ok_inj in H; by rewrite <-H, be_bytes_length. Qed.

Definition toy_tx (sender data : string) : FrontendTransaction := mkTx "t" 1 1 1 0 (bytes_of_string data) sender "multisig" "0" "".

(** Newest first: proposed, signed by two, performed. *)
Definition toy_txs : list FrontendTransaction :=
  [toy_tx "alice" "performAction@05"; toy_tx "bob" "sign@05"; toy_tx "alice" "sign@05";
   toy_tx "alice" "proposeMultiTransferEsdtBatch@05@01@02@54@64@08"].

Fixpoint run_txs (txs : list FrontendTransaction) (c : contractState) : outcome unit * contractState :=
  match txs with
  | [] => (Ret tt, c)
  | tx :: rest => match run_txs rest c with
                  | (Ret _, c') => processTransaction toy_testLib some_order None None tx c'
                  | (Panic p, c') => (Panic p, c')
                  end
  end.

Lemma run_txs_executed txs c0 c : run_txs txs c0 = (Ret tt, c) -> executed toy_testLib some_order None None c0 txs c.
Proof.
  revert c. induction txs as [|tx txs IH]; intros c; cbn [run_txs]; [intros [= <-]; constructor|].
  destruct (run_txs txs c0) as [[[]|] c'] eqn:H; [|done]. intros Hrun. eapply ex_tx; [by apply IH|done].
Qed.

Definition toy_contract : contractState := set_quorum 2 newMultiversXContractStateMock.

Lemma contract_well_formed_witness :
  contract_wf toy_testLib (snd (processTransaction toy_testLib some_order None None (toy_tx "alice" "sign@05") toy_contract)).
Proof.
  apply (contract_well_formed toy_testLib some_order None None hook_none hook_none), blank_wf. by vm_compute.
Defined.

Lemma performed_by_quorum_witness :
  exists signers : gset string, (2 <= Z.of_nat (size signers))%Z /\
    forall s, s ∈ signers -> exists tx, tx ∈ toy_txs /\ tx_Sender tx = s /\ calls_action "sign" 5 tx.
Proof.
  refine (proj2 (performed_by_quorum toy_testLib some_order None None toy_contract (snd (run_txs toy_txs toy_contract)) toy_txs 5
    hook_none hook_none _ _ _)).
  - by vm_compute.
  - apply run_txs_executed. vm_compute. reflexivity.
  - vm_compute. reflexivity.
Defined.

End MvxChainFacts.
