(* ===== verification/EthChain.v ===== *)
(** * The Ethereum chain of the integration tests

    Models [src/bridge/integrationTests/mock/ethereumChainMock.go]: the multisig as the relayers
    see it through the client wrapper.  The marshaller and go-ethereum's transaction hash are
    parameters; the handlers a test installs are fields. *)
From S2P Require Import Prelude Go Common Batch Interfaces Executor EthClient MvxChain.
Import EthClient.

Module EthChain.

Record EthereumProposedTransfer := mkEthTransfer {
  ep_BatchNonce : Z;
  ep_Tokens : list bytes;
  ep_Recipients : list bytes;
  ep_Amounts : list Z;
  ep_Nonces : list Z;
  ep_Signatures : list bytes
}.

(** The handlers are [None] when nil. *)
Record EthereumChainMock := mkEth {
  nonces : gmap bytes Z;
  batches : gmap Z contract_Batch;
  deposits : gmap Z (list contract_Deposit);
  proposedTransfer : option EthereumProposedTransfer;
  GetStatusesAfterExecutionHandler : option bytes;
  eth_quorum_ : Z;
  eth_relayers : list bytes;
  BalanceAtCalled : option (bytes -> option Z -> res Z)
}.

Definition NewEthereumChainMock : EthereumChainMock := mkEth ∅ ∅ ∅ None None 0 [] None.

Section Mock.
Context (Marshal : EthereumProposedTransfer -> res bytes) (tx_Hash : bytes -> string).
Context (ProposeMultiTransferEsdtBatchCalled : option (M EthereumChainMock unit)).
Abbreviation C := (M EthereumChainMock).

Definition set_batches v (m : EthereumChainMock) :=
  mkEth (nonces m) v (deposits m) (proposedTransfer m) (GetStatusesAfterExecutionHandler m) (eth_quorum_ m) (eth_relayers m) (BalanceAtCalled m).
Definition set_deposits v (m : EthereumChainMock) :=
  mkEth (nonces m) (batches m) v (proposedTransfer m) (GetStatusesAfterExecutionHandler m) (eth_quorum_ m) (eth_relayers m) (BalanceAtCalled m).
Definition set_proposedTransfer v (m : EthereumChainMock) :=
  mkEth (nonces m) (batches m) (deposits m) v (GetStatusesAfterExecutionHandler m) (eth_quorum_ m) (eth_relayers m) (BalanceAtCalled m).
Definition set_eth_quorum v (m : EthereumChainMock) :=
  mkEth (nonces m) (batches m) (deposits m) (proposedTransfer m) (GetStatusesAfterExecutionHandler m) v (eth_relayers m) (BalanceAtCalled m).
Definition set_eth_relayers v (m : EthereumChainMock) :=
  mkEth (nonces m) (batches m) (deposits m) (proposedTransfer m) (GetStatusesAfterExecutionHandler m) (eth_quorum_ m) v (BalanceAtCalled m).

Definition GetBatch (batchNonce : Z) : C (res contract_Batch) :=
  bs ← gets batches;
  match bs !! u64 batchNonce with
  | None => mret (Err (ErrExternal (sprintf "batch %d not found" [GInt batchNonce])))
  | Some batch => mret (Ok batch)
  end.

Definition GetBatchDeposits (batchNonce : Z) : C (res (list contract_Deposit)) :=
  ds ← gets deposits;
  match ds !! u64 batchNonce with
  | None => mret (Err (ErrExternal (sprintf "deposits for batch %d not found" [GInt batchNonce])))
  | Some l => mret (Ok l)
  end.

Definition GetRelayers : C (res (list bytes)) := rs ← gets eth_relayers; mret (Ok rs).
Definition AddRelayer (relayer : bytes) : C unit := modify (fun m => set_eth_relayers (eth_relayers m ++ [relayer]) m).

Definition WasBatchExecuted (batchNonce : Z) : C (res bool) :=
  p ← gets proposedTransfer;
  match p with
  | None => mret (Ok false)
  | Some t => mret (Ok (batchNonce =? ep_BatchNonce t)%Z)
  end.

(** The deposits stay. *)
Definition Clean : C unit := modify (fun m => set_proposedTransfer None (set_batches ∅ m)).

Definition ChainID : C (res Z) := mret (Ok 1%Z).
Definition BlockNumber : C (res Z) := mret (Ok 0%Z).
Definition NonceAt (account : bytes) (_ : Z) : C (res Z) :=
  ns ← gets nonces; mret (Ok (default 0%Z (ns !! account))).

Definition AddBatch (batch : contract_Batch) : C unit :=
  modify (fun m => set_batches (<[u64 (cb_Nonce batch) := batch]> (batches m)) m).

(** The count is an [uint16] of the stored batch. *)
Definition AddDepositToBatch (nonce : Z) (deposit : contract_Deposit) : C unit :=
  bs ← gets batches;
  match bs !! nonce with
  | None => panics (PanicValue (sprintf "programming error in tests: no batch found for nonce %d" [GInt nonce]))
  | Some batch =>
      modify (fun m => set_deposits (<[nonce := default [] (deposits m !! nonce) ++ [deposit]]> (deposits m)) m);;
      modify (fun m => set_batches (<[nonce := mkCBatch (cb_Nonce batch) (cb_BlockNumber batch)
        (cb_LastUpdatedBlockNumber batch) ((cb_DepositsCount batch + 1) `mod` 65536)%Z]> (batches m)) m)
  end.

Definition ExecuteTransfer (_ : TransactOpts) (l : argListsBatch) (batchNonce : Z) (signatures : list bytes) : C (res string) :=
  if negb (Nat.eqb (length (al_tokens l)) (length (al_recipients l))) then
    panics (PanicValue "tokens length & recipients length mismatch")
  else if negb (Nat.eqb (length (al_recipients l)) (length (al_amounts l))) then
    panics (PanicValue "recipients length & amounts length mismatch")
  else if negb (Nat.eqb (length (al_tokens l)) (length (al_nonces l))) then
    panics (PanicValue "tokens length & nonces length mismatch")
  else
    let t := mkEthTransfer batchNonce (al_tokens l) (al_recipients l) (al_amounts l) (al_nonces l) signatures in
    mockDataField ← MvxChain.or_panic (Marshal t);
    modify (set_proposedTransfer (Some t));;
    match ProposeMultiTransferEsdtBatchCalled with Some h => h | None => mret tt end;;
    mret (Ok (tx_Hash mockDataField)).

Definition Quorum : C (res Z) := q ← gets eth_quorum_; mret (Ok (i64 q)).
Definition SetQuorum (q : Z) : C unit := modify (set_eth_quorum q).

Definition GetStatusesAfterExecution (_ : Z) : C (res bytes) :=
  h ← gets GetStatusesAfterExecutionHandler; st ← deref h; mret (Ok st).

Definition GetLastProposedTransfer : C (option EthereumProposedTransfer) := gets proposedTransfer.

Definition BalanceAt (account : bytes) (blockNumber : option Z) : C (res Z) :=
  h ← gets BalanceAtCalled;
  match h with Some f => mret (f account blockNumber) | None => mret (Ok 0%Z) end.

Definition IsPaused : C (res bool) := mret (Ok false).

(** The mock is its own status handler; it ignores the metrics. *)
Definition mock_status : StatusHandler EthereumChainMock :=
  {| sh_SetIntMetric _ _ := mret tt; sh_AddIntMetric _ _ := mret tt; sh_SetStringMetric _ _ := mret tt |}.

(** The mock in the place of the client wrapper. *)
Definition mock_wrapper : ClientWrapper EthereumChainMock := {|
  cw_GetBatch := GetBatch;
  cw_GetBatchDeposits := GetBatchDeposits;
  cw_GetRelayers := GetRelayers;
  cw_WasBatchExecuted := WasBatchExecuted;
  cw_ChainID := ChainID;
  cw_BlockNumber := BlockNumber;
  cw_NonceAt := NonceAt;
  cw_ExecuteTransfer := ExecuteTransfer;
  cw_Quorum := Quorum;
  cw_GetStatusesAfterExecution := GetStatusesAfterExecution;
  cw_BalanceAt := BalanceAt;
  cw_IsPaused := IsPaused;
  cw_status := mock_status |}.

End Mock.

(** A wrapper moved to a larger world. *)
Definition hoist_wrapper {X Y} (h : forall A, M X A -> M Y A) (c : ClientWrapper X) : ClientWrapper Y := {|
  cw_GetBatch n := h _ (cw_GetBatch c n);
  cw_GetBatchDeposits n := h _ (cw_GetBatchDeposits c n);
  cw_GetRelayers := h _ (cw_GetRelayers c);
  cw_WasBatchExecuted n := h _ (cw_WasBatchExecuted c n);
  cw_ChainID := h _ (cw_ChainID c);
  cw_BlockNumber := h _ (cw_BlockNumber c);
  cw_NonceAt a n := h _ (cw_NonceAt c a n);
  cw_ExecuteTransfer opts l n s := h _ (cw_ExecuteTransfer c opts l n s);
  cw_Quorum := h _ (cw_Quorum c);
  cw_GetStatusesAfterExecution n := h _ (cw_GetStatusesAfterExecution c n);
  cw_BalanceAt a n := h _ (cw_BalanceAt c a n);
  cw_IsPaused := h _ (cw_IsPaused c);
  cw_status := {| sh_SetIntMetric k v := h _ (sh_SetIntMetric (cw_status c) k v);
                  sh_AddIntMetric k v := h _ (sh_AddIntMetric (cw_status c) k v);
                  sh_SetStringMetric k v := h _ (sh_SetStringMetric (cw_status c) k v) |} |}.

End EthChain.
