(* ===== verification/ClientOnChain.v ===== *)
(** * The MultiversX client over the contract of the integration tests

    What each call of the client does to the contract's state when the SDK passes it on: the
    queries answer from the stored proposals and signatures, the transactions store, sign and
    perform.  The SDK's builders are characterised by their documented output: the function name
    and one hexadecimal text per argument, numbers as their absolute value. *)
From S2P Require Import Prelude Go Text Common Batch Interfaces Executor MvxClient MvxClientFacts MvxChain MvxChainFacts.
Import MvxClient MvxClientFacts MvxChain MvxChainFacts.
Open Scope go_scope.

Module ClientOnChain.

(** An argument the builders accept. *)
Definition encodable (a : vmArg) : Prop :=
  match a with
  | ArgBytes b | ArgAddress b => b <> []
  | ArgBigInt z => is_Some z
  | ArgInt64 _ => True
  end.

(** The texts of a builder's arguments. *)
Definition arg_texts (enc : vmArg -> bytes) (b : vmBuilder) : list string := (fun a => hex_encode (enc a)) <$> bld_args b.

Class OnChain {X} (D : mxDeps X) (L : testLib) (o : map_order) (finished called : option (M contractState unit))
    (enc : vmArg -> bytes) (get : X -> MultiversXChainMock) (put : MultiversXChainMock -> X -> X) : Prop := {
  oc_put_get x : put (get x) x = x;
  oc_get_put m x : get (put m x) = m;
  oc_put_put m m' x : put m (put m' x) = put m x;
  oc_query r x : ExecuteVMQuery D r x = zoom get put (v ← chain_ExecuteVMQuery L (Some r); mret (Ok v)) x;
  oc_send tx x : SendTransaction D tx x = zoom get put (h ← chain_SendTransaction L o finished called (Some tx); mret (Ok h)) x;
  oc_config x : GetNetworkConfig D x = zoom get put (v ← chain_GetNetworkConfig; mret (Ok v)) x;
  oc_nonce x : exists n, GetNonce D x = (Ret (Ok n), x);
  oc_whitelisted x : tx_IsWhitelisted D (mx_relayer D) x = (Ret true, x);
  oc_request b : Forall encodable (bld_args b) ->
    exists r, ToVmValueRequest D b = Ok r /\ rq_FuncName r = bld_function b /\ rq_Args r = arg_texts enc b;
  oc_data b : Forall encodable (bld_args b) ->
    ToDataBytes D b = Ok (bytes_of_string (join_with "@" (bld_function b :: arg_texts enc b)));
  oc_enc_bytes b : enc (ArgBytes b) = b;
  oc_enc_address b : enc (ArgAddress b) = b;
  oc_enc_int z : be_val (enc (ArgInt64 z)) = Z.abs z;
  oc_enc_big z : be_val (enc (ArgBigInt (Some z))) = Z.abs z;
  oc_json tx : exists b, json_tx D tx = Ok b;
  oc_sign b : exists s, ed25519_Sign D b = Ok s;
  oc_hash_tx tx : exists b, CalculateHash_tx L tx = Ok b;
  oc_sender : NewAddressFromBech32String L (relayer_bech32 D) = Ok (mx_relayer D);
  oc_bech32 : AddressAsBech32String L (mx_relayer D) = relayer_bech32 D;
  oc_relayer : mx_relayer D <> []
}.

Section Client.
Context {X : Type} (D : mxDeps X) (L : testLib) (o : map_order) (finished called : option (M contractState unit)).
Context (enc : vmArg -> bytes) (get : X -> MultiversXChainMock) (put : MultiversXChainMock -> X -> X).
Context `{HOC : !OnChain D L o finished called enc get put} `{!HashLaws L}.

Definition contract_of (x : X) : contractState := contract (get x).

(** ** Queries *)

(** A query through the client is the contract's handler on the texts of the arguments. *)
Definition answers (b : vmBuilder) (x : X) (v : list bytes) : Prop :=
  Forall encodable (bld_args b) /\
  forall r, rq_FuncName r = bld_function b -> rq_Args r = arg_texts enc b ->
    dispatch (vm_handlers L) r (contract_of x) = (Ret (createOkVmResponse v), contract_of x).

Lemma request_run b x v : answers b x v ->
  exists r, ToVmValueRequest D b = Ok r /\ ExecuteQueryReturningBytes D (Some r) x = (Ret (Ok v), x).
Proof.
  intros [He Hd]. destruct (oc_request (D := D) b He) as (r & Hr & Hf & Ha). exists r. split; [done|].
  unfold ExecuteQueryReturningBytes, bind_ok, mbind at 1, M_bind.
  rewrite oc_query. unfold zoom, mbind, M_bind, chain_ExecuteVMQuery, on_contract, zoom. cbn [processVmRequests].
  fold (contract_of x). rewrite (Hd r Hf Ha). unfold contract_of. cbn.
  replace (mkChain (contract (get x)) (sentTransactions (get x)) (accounts (get x))) with (get x) by (by destruct (get x)).
  by rewrite (oc_put_get (OnChain := HOC)).
Qed.

Lemma query_bytes b x v : answers b x v -> executeQueryFromBuilder D b x = (Ret (Ok v), x).
Proof.
  intros H. destruct (request_run b x v H) as (r & Hr & Hq). unfold executeQueryFromBuilder, with_request. by rewrite Hr.
Qed.

Lemma query_bool b x v : answers b x [BoolToByteSlice v] -> executeQueryBoolFromBuilder D b x = (Ret (Ok v), x).
Proof.
  intros H. destruct (request_run _ _ _ H) as (r & Hr & Hq). unfold executeQueryBoolFromBuilder, with_request. rewrite Hr.
  unfold ExecuteQueryReturningBool, bind_ok, mbind, M_bind. rewrite Hq. by destruct v.
Qed.

Lemma query_uint b x l : answers b x [l] -> (be_val l < two64)%Z -> executeQueryUint64FromBuilder D b x = (Ret (Ok (be_val l)), x).
Proof.
  intros H Hl. destruct (request_run _ _ _ H) as (r & Hr & Hq). unfold executeQueryUint64FromBuilder, with_request. rewrite Hr.
  unfold ExecuteQueryReturningUint64, bind_ok, mbind, M_bind. rewrite Hq.
  destruct l as [|b0 l]; [done|]. unfold parseUInt64FromByteSlice. by rewrite (proj2 (Z.ltb_lt _ _) Hl).
Qed.

(** ** Proposed transfers *)

(** What the contract reads out of a proposal of a batch. *)
Definition transfer_of_deposit (d : DepositTransfer) : Transfer :=
  mkTransfer (dt_FromBytes d) (dt_ToBytes d) (hex_encode (dt_ConvertedTokenBytes d))
    (Z.abs (default 0%Z (dt_Amount d))) (Z.abs (i64 (dt_Nonce d))).
Definition transfer_of (b : TransferBatch) : multiversXProposedTransfer :=
  mkProposedTransfer (Z.abs (i64 (tb_ID b))) (transfer_of_deposit <$> tb_Deposits b).

(** Every field of a deposit is there. *)
Definition deposit_ok (d : DepositTransfer) : Prop :=
  dt_FromBytes d <> [] /\ dt_ToBytes d <> [] /\ dt_ConvertedTokenBytes d <> [] /\ is_Some (dt_Amount d).
Definition batch_ok (b : TransferBatch) : Prop := Forall deposit_ok (tb_Deposits b).

Lemma deposit_args_encodable ds : Forall deposit_ok ds -> Forall encodable (concat (deposit_args <$> ds)).
Proof.
  induction 1 as [|d ds (H1 & H2 & H3 & H4) _ IH]; [constructor|]. cbn. by repeat constructor.
Qed.

Lemma decode_hex l c : decode (hex_encode l) c = (Ret l, c).
Proof. unfold decode. by rewrite hex_decode_encode. Qed.

Lemma transfers_loop_run ds acc c : Forall deposit_ok ds ->
  transfers_loop ((fun a => hex_encode (enc a)) <$> concat (deposit_args <$> ds)) acc c =
  (Ret (acc ++ (transfer_of_deposit <$> ds)), c).
Proof.
  intros H. revert acc. induction H as [|d ds (_ & _ & _ & [a Ha]) _ IH]; intros acc; [cbn; by rewrite app_nil_r|].
  cbn [fmap list_fmap concat deposit_args app transfers_loop]. unfold mbind at 1 2 3 4, M_bind.
  rewrite !decode_hex. rewrite (IH (acc ++ _)). do 2 f_equal. rewrite <-app_assoc. cbn [app]. do 2 f_equal.
  unfold transfer_of_deposit. rewrite Ha. cbn [default].
  by rewrite !(oc_enc_bytes (OnChain := HOC)), (oc_enc_big (OnChain := HOC)), (oc_enc_int (OnChain := HOC)).
Qed.

(** The hash a batch is stored under. *)
Definition stored_under (b : TransferBatch) (h : string) : Prop :=
  CalculateHash_transfer L (transfer_of b) = Ok (bytes_of_string h).

Lemma stored_long b h : stored_under b h -> long h.
Proof. apply hl_transfer. Qed.

Lemma createTransfer_run f b h bld c : batch_ok b -> stored_under b h ->
  bld_args bld = ArgInt64 (i64 (tb_ID b)) :: concat (deposit_args <$> tb_Deposits b) ->
  createProposedTransfer L (f :: arg_texts enc bld) c = (Ret (transfer_of b, h), c).
Proof.
  intros Hb Hh Hargs. unfold createProposedTransfer, arg_texts. rewrite Hargs. cbn [fmap list_fmap].
  unfold mbind at 1, M_bind, str_index. cbn [lookup list_lookup drop]. unfold mret at 1, M_ret, mbind at 1, M_bind.
  rewrite decode_hex. unfold mbind at 1, M_bind. rewrite drop_0, transfers_loop_run by done. cbn [app].
  rewrite (oc_enc_int (OnChain := HOC)). fold (transfer_of b). unfold stored_under in Hh. rewrite Hh. cbn [or_panic].
  unfold mbind, M_bind, mret, M_ret. rewrite string_bytes_string.
  by rewrite (HashToActionID_run h c (stored_long b h Hh)).
Qed.

Lemma batch_args_encodable b bld : batch_ok b ->
  bld_args bld = ArgInt64 (i64 (tb_ID b)) :: concat (deposit_args <$> tb_Deposits b) -> Forall encodable (bld_args bld).
Proof. intros Hb ->. constructor; [done|]. by apply deposit_args_encodable. Qed.

Lemma transfer_args f b :
  bld_args (addBatchInfo (add_args [ArgInt64 (i64 (tb_ID b))] (Function f)) b) =
    ArgInt64 (i64 (tb_ID b)) :: concat (deposit_args <$> tb_Deposits b) /\
  bld_function (addBatchInfo (add_args [ArgInt64 (i64 (tb_ID b))] (Function f)) b) = f.
Proof. unfold addBatchInfo. destruct (transfer_builder_args (add_args [ArgInt64 (i64 (tb_ID b))] (Function f)) b) as [-> ->]. done. Qed.

Lemma WasProposedTransfer_run b h x : batch_ok b -> stored_under b h ->
  WasProposedTransfer D (Some b) x = (Ret (Ok (bool_decide (is_Some (proposedTransfers (contract_of x) !! h)))), x).
Proof.
  intros Hb Hh. destruct (transfer_args "wasTransferActionProposed" b) as [Ha Hf]. apply query_bool.
  split; [by eapply batch_args_encodable|]. intros r Hr Hra. unfold wasProposedTransfer_builder in *. rewrite Hf in Hr.
  unfold vm_handlers. cbn [dispatch]. rewrite Hr. cbn [String.eqb Ascii.eqb Bool.eqb].
  unfold vmRequestwasTransferActionProposed. rewrite Hra. unfold mbind, M_bind. by rewrite (createTransfer_run _ b h).
Qed.

(** The action number is the first eight bytes of the hash. *)
Definition action_number (h : string) : Z := be_val (take 8 (bytes_of_string h)).

Lemma GetActionID_run b h x : batch_ok b -> stored_under b h ->
  GetActionIDForProposeTransfer D (Some b) x =
  (Ret (Ok (if bool_decide (is_Some (proposedTransfers (contract_of x) !! h)) then action_number h else 0%Z)), x).
Proof.
  intros Hb Hh. destruct (transfer_args "getActionIdForTransferBatch" b) as [Ha Hf]. pose proof (stored_long b h Hh) as Hl.
  cbn [GetActionIDForProposeTransfer].
  set (v := if bool_decide (is_Some (proposedTransfers (contract_of x) !! h)) then take 8 (bytes_of_string h) else []).
  rewrite (query_uint _ _ v).
  - unfold v. by case_bool_decide.
  - split; [by eapply batch_args_encodable|]. intros r Hr Hra. unfold actionIDForTransfer_builder in *. rewrite Hf in Hr.
    unfold vm_handlers. cbn [dispatch]. rewrite Hr. cbn [String.eqb Ascii.eqb Bool.eqb].
    unfold vmRequestGetActionIdForTransferBatch. rewrite Hra. unfold mbind, M_bind. rewrite (createTransfer_run _ b h) by done.
    unfold gets. cbn [snd]. unfold v. destruct (proposedTransfers (contract_of x) !! h) eqn:Hp.
    + rewrite bool_decide_eq_true_2 by done. by rewrite (Uint64BytesFromHash_long h Hl).
    + by rewrite bool_decide_eq_false_2 by (by intros []).
  - unfold v. case_bool_decide; [|done]. apply (be_val_8 (take 8 (bytes_of_string h))).
    rewrite length_take. unfold long in Hl. lia.
Qed.

(** ** Actions *)

(** The number the client was given comes back to the contract as the number it has computed
    from the hash, also above 2^63, where the client sends a negative [int64] and both sides take
    its absolute value. *)
Definition sent_action (aid : Z) : Z := Z.abs (i64 aid).

Lemma sent_action_number h : sent_action (action_number h) = action_of h.
Proof. done. Qed.

Lemma action_text aid c : getActionIDFromString (hex_encode (enc (ArgInt64 (i64 aid)))) c = (Ret (sent_action aid), c).
Proof.
  unfold getActionIDFromString, mbind, M_bind. rewrite decode_hex. unfold sent_action.
  by rewrite <-(oc_enc_int (OnChain := HOC)).
Qed.

Ltac handler Hr Hra :=
  split; [by repeat constructor|]; intros r Hr Hra; cbn in Hr, Hra;
  unfold vm_handlers; cbn [dispatch]; rewrite Hr; cbn [String.eqb Ascii.eqb Bool.eqb].

Definition quorum_reached (c : contractState) (a : Z) : bool :=
  match signedActionIDs c !! pretty a with None => false | Some m => (quorum c <=? Z.of_nat (size m))%Z end.
Definition signed_by (c : contractState) (a : Z) (address : string) : bool :=
  match signedActionIDs c !! pretty a with None => false | Some m => bool_decide (address ∈ m) end.
Definition performed (c : contractState) (a : Z) : bool :=
  match performedAction c with None => false | Some p => (a =? p)%Z end.

Lemma QuorumReached_run aid x :
  QuorumReached D aid x = (Ret (Ok (quorum_reached (contract_of x) (sent_action aid))), x).
Proof.
  apply query_bool. handler Hr Hra. unfold vmRequestQuorumReached. rewrite Hra. unfold mbind at 1 2, M_bind, str_index.
  cbn [lookup list_lookup mret M_ret]. unfold M_ret. rewrite action_text. unfold quorum_reached, mbind, M_bind, gets.
  by destruct (signedActionIDs (contract_of x) !! pretty (sent_action aid)).
Qed.

Lemma WasExecuted_run aid x : WasExecuted D aid x = (Ret (Ok (performed (contract_of x) (sent_action aid))), x).
Proof.
  apply query_bool. handler Hr Hra. unfold vmRequestWasActionExecuted. rewrite Hra. unfold mbind at 1 2, M_bind, str_index.
  cbn [lookup list_lookup mret M_ret]. unfold M_ret. rewrite action_text. unfold performed, mbind, M_bind, gets.
  by destruct (performedAction (contract_of x)).
Qed.

Lemma WasSigned_run aid x :
  WasSigned D aid x = (Ret (Ok (signed_by (contract_of x) (sent_action aid) (relayer_bech32 D))), x).
Proof.
  apply query_bool. split; [constructor; [apply (oc_relayer (OnChain := HOC))|by repeat constructor]|].
  intros r Hr Hra; cbn in Hr, Hra. unfold vm_handlers; cbn [dispatch]; rewrite Hr; cbn [String.eqb Ascii.eqb Bool.eqb].
  unfold vmRequestSigned. rewrite Hra. unfold mbind at 1 2 3, M_bind, str_index. cbn [lookup list_lookup mret M_ret]. unfold M_ret.
  rewrite action_text. unfold signed_by, mbind, M_bind, gets.
  destruct (signedActionIDs (contract_of x) !! pretty (sent_action aid)); [|done].
  rewrite decode_hex, (oc_enc_address (OnChain := HOC)). by rewrite (oc_bech32 (OnChain := HOC)).
Qed.

Lemma IsPaused_run x : IsPaused D x = (Ret (Ok false), x).
Proof. apply query_bool. handler Hr Hra. done. Qed.

Lemma GetLastExecutedEthBatchID_run x :
  GetLastExecutedEthBatchID D x = (Ret (Ok (Z.abs (i64 (lastExecutedEthBatchId (contract_of x))))), x).
Proof.
  unfold GetLastExecutedEthBatchID. rewrite <-be_val_big. apply query_uint; [by handler Hr Hra|].
  rewrite be_val_big. pose proof (i64_range (lastExecutedEthBatchId (contract_of x))). rewrite two64_two63. lia.
Qed.

Lemma GetLastExecutedEthTxID_run x :
  GetLastExecutedEthTxID D x = (Ret (Ok (Z.abs (i64 (lastExecutedEthTxId (contract_of x))))), x).
Proof.
  unfold GetLastExecutedEthTxID. rewrite <-be_val_big. apply query_uint; [by handler Hr Hra|].
  rewrite be_val_big. pose proof (i64_range (lastExecutedEthTxId (contract_of x))). rewrite two64_two63. lia.
Qed.

(** ** Transactions *)

(** The call was executed by the contract, and nothing else of the world changed. *)
Definition sent (r : outcome (res string) * X) (x : X) (c' : contractState) : Prop :=
  exists h m, r = (Ret (Ok h), put m x) /\ contract m = c'.

Lemma send_run b gas x c' :
  Forall encodable (bld_args b) -> free_of "@" (bld_function b) = true ->
  (forall tx, data_fields tx = bld_function b :: arg_texts enc b -> tx_Sender tx = relayer_bech32 D ->
     processTransaction L o finished called tx (contract_of x) = (Ret tt, c')) ->
  sent (SendTransactionReturnHash D b gas x) x c'.
Proof.
  intros He Hf Hrun. unfold SendTransactionReturnHash, mbind at 1, M_bind. rewrite oc_whitelisted. cbn [negb].
  unfold bind_ok, mbind at 1, M_bind, signTransaction, bind_ok, mbind at 1, M_bind.
  rewrite oc_config. unfold zoom at 1, mbind at 1, M_bind, chain_GetNetworkConfig. cbn [mret M_ret]. unfold M_ret.
  rewrite (oc_put_get (OnChain := HOC)). destruct (oc_nonce (D := D) x) as [n Hn]. unfold mbind at 1, M_bind. rewrite Hn, (oc_data (OnChain := HOC)) by done.
  unfold mret at 1, M_ret, signTransactionWithPrivateKey. set (t0 := set_Signature "" _).
  destruct (oc_json (D := D) t0) as [js Hjs]. rewrite Hjs. destruct (oc_sign (D := D) js) as [sg Hsg]. rewrite Hsg.
  rewrite oc_send. unfold zoom, mbind, M_bind, chain_SendTransaction. set (tx := set_Signature (hex_encode sg) t0).
  change (tx_Sender tx) with (relayer_bech32 D). rewrite (oc_sender (OnChain := HOC)).
  destruct (oc_hash_tx (D := D) tx) as [hb Hhb]. rewrite Hhb. cbn [or_panic]. unfold mret, M_ret, modify, mbind, M_bind, on_contract, zoom.
  cbn [contract]. fold (contract_of x). rewrite (Hrun tx); [by eexists _, _| |done].
  unfold data_fields. change (tx_Data tx) with (bytes_of_string (join_with "@" (bld_function b :: arg_texts enc b))).
  rewrite string_bytes_string. apply (split_join "@"); [done|]. constructor; [done|].
  apply Forall_fmap, Forall_true. intros a. apply hex_encode_free.
Qed.

Lemma unless_paused_run c x : unless_paused D c x = c x.
Proof. unfold unless_paused, checkIsPaused, mbind, M_bind. by rewrite IsPaused_run. Qed.

Lemma ProposeTransfer_run b h x : batch_ok b -> stored_under b h -> called = None ->
  sent (ProposeTransfer D (Some b) x) x
    (set_proposedTransfers (<[h := transfer_of b]> (proposedTransfers (contract_of x))) (contract_of x)).
Proof.
  intros Hb Hh Hc. cbn [ProposeTransfer]. rewrite unless_paused_run.
  assert (Ha : bld_args (proposeTransfer_builder b) = ArgInt64 (i64 (tb_ID b)) :: concat (deposit_args <$> tb_Deposits b) /\
    bld_function (proposeTransfer_builder b) = "proposeMultiTransferEsdtBatch").
  { unfold proposeTransfer_builder.
    destruct (transfer_builder_args (createCommonTxDataBuilder "proposeMultiTransferEsdtBatch" (i64 (tb_ID b))) b) as [-> ->]. done. }
  destruct Ha as [Ha Hf]. apply send_run; [by eapply batch_args_encodable|by rewrite Hf|].
  intros tx Htx _. unfold processTransaction. fold (data_fields tx). rewrite Htx, Hf. unfold mbind at 1, M_bind, str_index.
  cbn [lookup list_lookup mret M_ret]. unfold M_ret. cbn [String.eqb Ascii.eqb Bool.eqb]. unfold proposeMultiTransferEsdtBatch, mbind, M_bind.
  rewrite (createTransfer_run _ b h) by done. unfold modify. by rewrite Hc.
Qed.

Lemma Sign_run aid x : contract_wf L (contract_of x) -> proposed_action (contract_of x) (sent_action aid) ->
  sent (Sign D aid x) x
    (set_signed (<[pretty (sent_action aid) := {[relayer_bech32 D]} ∪
        default ∅ (signedActionIDs (contract_of x) !! pretty (sent_action aid))]> (signedActionIDs (contract_of x))) (contract_of x)).
Proof.
  intros Hwf Hp. unfold Sign. rewrite unless_paused_run. apply send_run; [by repeat constructor|done|].
  intros tx Htx Hs. unfold processTransaction. fold (data_fields tx). rewrite Htx. unfold mbind at 1, M_bind, str_index.
  cbn [lookup list_lookup mret M_ret]. unfold M_ret. cbn. unfold sign, mbind at 1, M_bind, str_index. cbn [lookup list_lookup mret M_ret].
  unfold M_ret, mbind at 1, M_bind. rewrite action_text. unfold mbind at 1, M_bind.
  destruct (actionIDExists_spec L o (sent_action aid) _ Hwf) as (e & -> & He). rewrite (proj2 He Hp). cbn. by rewrite Hs.
Qed.

Lemma PerformAction_run aid b x m : contract_wf L (contract_of x) -> finished = None ->
  proposed_action (contract_of x) (sent_action aid) -> signedActionIDs (contract_of x) !! pretty (sent_action aid) = Some m ->
  sent (PerformAction D aid (Some b) x) x
    (if quorum_reached (contract_of x) (sent_action aid) then set_performed (Some (sent_action aid)) (contract_of x) else contract_of x).
Proof.
  intros Hwf Hfin Hp Hm. cbn [PerformAction]. rewrite unless_paused_run. apply send_run; [by repeat constructor|done|].
  intros tx Htx Hs. unfold processTransaction. fold (data_fields tx). rewrite Htx. unfold mbind at 1, M_bind, str_index.
  cbn [lookup list_lookup mret M_ret]. unfold M_ret. cbn. rewrite Hfin.
  unfold performAction, mbind at 1, M_bind, mbind at 1, M_bind, str_index. cbn [lookup list_lookup mret M_ret].
  unfold M_ret, mbind at 1, M_bind. rewrite action_text. unfold mbind at 1, M_bind.
  destruct (actionIDExists_spec L o (sent_action aid) _ Hwf) as (e & -> & He). rewrite (proj2 He Hp). cbn.
  unfold mbind, M_bind, gets, quorum_reached. rewrite Hm.
  by destruct (quorum (contract_of x) <=? Z.of_nat (size m))%Z.
Qed.

(** ** Pending batches *)

Lemma pending_fields acc l :
  foldl (fun args d => args ++ deposit_fields d) acc l = acc ++ concat (deposit_fields <$> l).
Proof.
  revert acc. induction l as [|d l IH]; intros acc; [cbn; by rewrite app_nil_r|].
  change (concat (deposit_fields <$> d :: l)) with (deposit_fields d ++ concat (deposit_fields <$> l)).
  cbn [foldl]. by rewrite IH, <-app_assoc.
Qed.

Lemma pending_length (l : list MultiversXDeposit) : length (concat (deposit_fields <$> l)) = 6 * length l.
Proof. induction l as [|d l IH]; [done|]. cbn [fmap list_fmap concat]. rewrite length_app. cbn in *. lia. Qed.

(** The contract of the integration tests writes six values per deposit where the client
    reads seven: whenever it holds a pending batch with at least one deposit and a number of
    deposits that is not a multiple of seven, the client refuses it with "invalid number of
    arguments" and changes nothing; without a pending batch both agree that there is none. *)
Theorem mock_pending_refused (x : X) :
  (pendingBatch (contract_of x) = None -> GetPending D x = (Ret (Err ErrNoPendingBatchAvailable), x)) /\
  (forall pb, pendingBatch (contract_of x) = Some pb -> Nat.modulo (length (pb_MultiversXDeposits pb)) 7 <> 0 ->
     GetPending D x = (Ret (Err (Errorf "%w, got %d argument(s)" errInvalidNumberOfArguments
                                   [GInt (Z.of_nat (1 + 6 * length (pb_MultiversXDeposits pb)))])), x)).
Proof.
  assert (Hq : forall v, vmRequestGetCurrentPendingBatch (contract_of x) = (Ret (createOkVmResponse v), contract_of x) ->
    GetCurrentBatchAsDataBytes D x = (Ret (Ok v), x)).
  { intros v Hv. apply query_bytes. handler Hr Hra. exact Hv. }
  split.
  - intros Hp. unfold GetPending, bind_ok, mbind, M_bind. rewrite (Hq []); [done|].
    unfold vmRequestGetCurrentPendingBatch, mbind, M_bind, gets. by rewrite Hp.
  - intros pb Hp Hk. set (l := pb_MultiversXDeposits pb) in *.
    unfold GetPending, bind_ok, mbind, M_bind. rewrite (Hq (big_Bytes (pb_Nonce pb) :: concat (deposit_fields <$> l))).
    2:{ unfold vmRequestGetCurrentPendingBatch, mbind, M_bind, gets. rewrite Hp. by rewrite pending_fields. }
    assert (Hlen : length (big_Bytes (pb_Nonce pb) :: concat (deposit_fields <$> l)) = 1 + 6 * length l) by (cbn [length]; by rewrite pending_length).
    assert (Hne : emptyResponse (big_Bytes (pb_Nonce pb) :: concat (deposit_fields <$> l)) = false)
      by (destruct l; [done|]; cbn; by destruct (big_Bytes (pb_Nonce pb))).
    rewrite Hne. unfold createPendingBatchFromResponse. rewrite Hlen. unfold numFieldsForTransaction.
    replace (Z.rem (Z.of_nat (1 + 6 * length l) - 1) (Z.of_nat 7) =? 0)%Z with false; [done|].
    symmetry. apply Z.eqb_neq. rewrite Z.rem_mod_nonneg by lia. intros Hz. apply Hk.
    apply Nat2Z.inj. rewrite Nat2Z.inj_mod. Z.div_mod_to_equations. lia.
Qed.

End Client.

(** What one relayer proposes, every relayer finds again: after the leader's proposal of a
    batch, the queries of any other client on the same chain answer that it was proposed and give
    the number of its action; signing with that number is accepted by the contract, which finds
    the same action from the hash (also for numbers above 2^63, which travel as negative
    [int64]s), and the signature is then reported as the relayer's own. *)
Theorem proposal_round_trip {X} (D D' : mxDeps X) (L : testLib) (o : map_order) (finished : option (M contractState unit))
    (enc : vmArg -> bytes) (get : X -> MultiversXChainMock) (put : MultiversXChainMock -> X -> X)
    `{!OnChain D L o finished None enc get put} `{!OnChain D' L o finished None enc get put} `{!HashLaws L}
    (b : TransferBatch) (h : string) (x : X) :
  batch_ok b -> stored_under L b h -> contract_wf L (contract_of get x) ->
  exists hash x1, ProposeTransfer D (Some b) x = (Ret (Ok hash), x1) /\
    WasProposedTransfer D' (Some b) x1 = (Ret (Ok true), x1) /\
    GetActionIDForProposeTransfer D' (Some b) x1 = (Ret (Ok (action_number h)), x1) /\
    exists hash' x2, Sign D' (action_number h) x1 = (Ret (Ok hash'), x2) /\
      WasSigned D' (action_number h) x2 = (Ret (Ok true), x2).
Proof.
  intros Hb Hh Hwf. destruct (ProposeTransfer_run D L o finished None enc get put b h x Hb Hh eq_refl) as (hash & m & Hrun & Hm).
  set (x1 := put m x) in *. assert (Hc1 : contract_of get x1 = contract m) by (unfold contract_of, x1; by rewrite (oc_get_put (D := D))).
  assert (Hp : proposedTransfers (contract_of get x1) !! h = Some (transfer_of b)) by (rewrite Hc1, Hm; apply lookup_insert_eq).
  exists hash, x1. split; [done|]. split; [|split].
  - rewrite (WasProposedTransfer_run D' L o finished None enc get put b h x1 Hb Hh), Hp. by rewrite bool_decide_eq_true_2.
  - rewrite (GetActionID_run D' L o finished None enc get put b h x1 Hb Hh), Hp. by rewrite bool_decide_eq_true_2.
  - destruct (Sign_run D' L o finished None enc get put (action_number h) x1) as (hash' & m2 & Hs & Hm2).
    { rewrite Hc1, Hm. by apply wf_add_transfer. }
    { exists h. split; [left; by rewrite Hp|done]. }
    exists hash', (put m2 x1). split; [done|]. rewrite (WasSigned_run D' L o finished None enc get put). do 3 f_equal.
    unfold signed_by, contract_of. rewrite (oc_get_put (D := D)), Hm2. cbn [signedActionIDs set_signed]. rewrite lookup_insert_eq.
    apply bool_decide_eq_true_2. apply elem_of_union. left. by apply elem_of_singleton.
Qed.

End ClientOnChain.
