(* ===== verification/Liveness.v ===== *)
(** * A network of relayers finishes its batch

    Several relayers run the Ethereum -> MultiversX machine against one multisig.  They take
    turns in an arbitrary order, one call of [Execute] at a time, while the clock moves on in
    between.  If every relayer gets a turn as the leader again and again, the transfer of the
    pending batch is performed after finitely many turns, and no turn panics or fails.

    [Serves] states what the chains, the clients and the validator answer while this batch is the
    next one; [Testnet] discharges it for the relayer's own clients over the chains of the
    integration tests. *)
From S2P Require Import Prelude Go Batch Interfaces Executor StateMachine StepsEthToMvx Machines.
Open Scope go_scope.

Module Liveness.

(** ** What the relayers can see of the multisig *)

Record mview := mkView {
  v_proposed : bool;
  v_signers : gset nat;
  v_performed : bool;
  v_leader : nat
}.

Definition le_view (v v' : mview) : Prop :=
  (v_proposed v = true -> v_proposed v' = true) /\ v_signers v ⊆ v_signers v' /\
  (v_performed v = true -> v_performed v' = true).

#[global] Instance le_view_preorder : PreOrder le_view.
Proof. unfold le_view. split; [intros v; naive_solver|]. intros v1 v2 v3. set_solver. Qed.

Section Network.
Context {W : Type} (N : nat) (E : nat -> executorDeps W) (good : W -> Prop) (view : W -> mview).
Context (b : TransferBatch) (aid : Z) (Q : nat).

Definition quorum_at (v : mview) : Prop := Q <= size (v_signers v).

(** A call that leaves the multisig alone. *)
Definition quietly {A} (c : M W A) (w : W) (R : A -> Prop) : Prop :=
  wp c (fun a w' => R a /\ good w' /\ view w' = view w) w.

Class Serves : Prop := {
  sv_aid : aid <> InvalidActionID;
  sv_deposits : tb_Deposits b <> [];
  sv_quorum_small : Q <= N;
  sv_retries i : i < N -> (1 <= maxQuorumRetriesOnMultiversX (E i) < two64)%Z;
  sv_int i w k z : i < N -> good w -> quietly (sh_SetIntMetric (statusHandler (E i)) k z) w (fun _ => True);
  sv_string i w k z : i < N -> good w -> quietly (sh_SetStringMetric (statusHandler (E i)) k z) w (fun _ => True);
  sv_check_mx i w : i < N -> good w -> quietly (mx_CheckClientAvailability (multiversXClient (E i))) w (fun _ => True);
  sv_check_eth i w : i < N -> good w -> quietly (eth_CheckClientAvailability (ethereumClient (E i))) w (fun _ => True);
  sv_last i w : i < N -> good w -> quietly (mx_GetLastExecutedEthBatchID (multiversXClient (E i))) w
    (fun r => exists n, r = Ok n /\ u64 (n + 1) = tb_ID b);
  sv_batch i w : i < N -> good w -> quietly (eth_GetBatch (ethereumClient (E i)) (tb_ID b)) w (fun r => r = Ok (Some b));
  sv_valid i w : i < N -> good w -> quietly (val_ValidateBatch (batchValidator (E i)) (Some b)) w (fun r => r = Ok true);
  sv_nonces i w : i < N -> good w -> quietly (mx_GetLastExecutedEthTxID (multiversXClient (E i))) w
    (fun r => exists n, r = Ok n /\ verifyDepositNonces b n = None);
  sv_leader i w : i < N -> good w -> quietly (top_MyTurnAsLeader (topologyProvider (E i))) w
    (fun r => r = Nat.eqb (v_leader (view w)) i);
  sv_proposed i w : i < N -> good w -> quietly (mx_WasProposedTransfer (multiversXClient (E i)) (Some b)) w
    (fun r => r = Ok (v_proposed (view w)));
  sv_propose i w : i < N -> good w -> wp (mx_ProposeTransfer (multiversXClient (E i)) (Some b))
    (fun r w' => (exists h, r = Ok h) /\ good w' /\
       view w' = mkView true (v_signers (view w)) (v_performed (view w)) (v_leader (view w))) w;
  sv_action i w : i < N -> good w -> quietly (mx_GetActionIDForProposeTransfer (multiversXClient (E i)) (Some b)) w
    (fun r => r = Ok (if v_proposed (view w) then aid else 0%Z));
  sv_signed i w : i < N -> good w -> quietly (mx_WasSigned (multiversXClient (E i)) aid) w
    (fun r => r = Ok (bool_decide (i ∈ v_signers (view w))));
  sv_sign i w : i < N -> good w -> v_proposed (view w) = true -> wp (mx_Sign (multiversXClient (E i)) aid)
    (fun r w' => (exists h, r = Ok h) /\ good w' /\
       view w' = mkView true ({[i]} ∪ v_signers (view w)) (v_performed (view w)) (v_leader (view w))) w;
  sv_quorum i w : i < N -> good w -> quietly (mx_QuorumReached (multiversXClient (E i)) aid) w
    (fun r => exists q, r = Ok q /\ (i ∈ v_signers (view w) -> (q = true <-> quorum_at (view w))));
  sv_executed i w : i < N -> good w -> quietly (mx_WasExecuted (multiversXClient (E i)) aid) w
    (fun r => r = Ok (v_performed (view w)));
  sv_perform i w : i < N -> good w -> v_proposed (view w) = true -> i ∈ v_signers (view w) -> quorum_at (view w) ->
    wp (mx_PerformAction (multiversXClient (E i)) aid (Some b))
    (fun r w' => (exists h, r = Ok h) /\ good w' /\
       view w' = mkView true (v_signers (view w)) true (v_leader (view w))) w
}.

(** ** One relayer *)

Context {HS : Serves}.

(** What a relayer knows at each step, next to what the multisig holds. *)
Inductive node_ok (i : nat) (v : mview) (s : execState W) : string -> Prop :=
  | ok_get : node_ok i v s EthToMvx.GettingPendingBatchFromEthereum
  | ok_propose : batch s = Some b -> node_ok i v s EthToMvx.ProposingTransferOnMultiversX
  | ok_sign : batch s = Some b -> v_proposed v = true -> node_ok i v s EthToMvx.SigningProposedTransferOnMultiversX
  | ok_wait : batch s = Some b -> v_proposed v = true -> actionID s = aid -> i ∈ v_signers v ->
      node_ok i v s EthToMvx.WaitingForQuorum
  | ok_perform : batch s = Some b -> v_proposed v = true -> actionID s = aid -> i ∈ v_signers v -> quorum_at v ->
      node_ok i v s EthToMvx.PerformingActionID.

Lemma quorum_mono v v' : le_view v v' -> quorum_at v -> quorum_at v'.
Proof. intros (_ & Hs & _). unfold quorum_at. pose proof (subseteq_size _ _ Hs). lia. Qed.

Lemma node_mono i v v' s id : le_view v v' -> node_ok i v s id -> node_ok i v' s id.
Proof.
  intros Hle Hn. pose proof (quorum_mono _ _ Hle) as Hq. destruct Hle as (H1 & H2 & H3).
  destruct Hn; constructor; auto.
Qed.

(** Turns left before the action is performed, as long as every wait ends at once; a spent
    counter sends the relayer through one more round. *)
Definition step_rank (id : string) : nat :=
  if String.eqb id EthToMvx.GettingPendingBatchFromEthereum then 4
  else if String.eqb id EthToMvx.ProposingTransferOnMultiversX then 3
  else if String.eqb id EthToMvx.SigningProposedTransferOnMultiversX then 2
  else if String.eqb id EthToMvx.WaitingForQuorum then 1 else 0.

Definition spent (i : nat) (s : execState W) (id : string) : bool :=
  (maxQuorumRetriesOnMultiversX (E i) <=? quorumRetriesOnMultiversX s)%Z &&
  negb (String.eqb id EthToMvx.GettingPendingBatchFromEthereum) && negb (String.eqb id EthToMvx.PerformingActionID).

Definition rank (i : nat) (s : execState W) (id : string) : nat := step_rank id + if spent i s id then 5 else 0.

(** The outcome of one turn of relayer [i], from step [id]. *)
Definition turn_ok (i : nat) (id : string) (s : execState W) (next : string) (s' : execState W) : Prop :=
  let v := view (world s) in let v' := view (world s') in
  good (world s') /\ le_view v v' /\ v_leader v' = v_leader v /\ node_ok i v' s' next /\
  (v_performed v = false -> (id = EthToMvx.WaitingForQuorum -> quorum_at v) ->
     v_performed v' = true \/
     (rank i s' next <= rank i s id /\ (v_leader v = i -> rank i s' next < rank i s id))).

(** ** Symbolic execution of a turn *)

Lemma wp_quiet {A} (c : M W A) R s (P : A -> execState W -> Prop) :
  quietly c (world s) R ->
  (forall a w', R a -> good w' -> view w' = view (world s) -> P a (set_world w' s)) -> wp (ext c) P s.
Proof. intros Hc HP. unfold ext. apply wp_zoom. eapply wp_mono; [exact Hc|]. intros a w' (? & ? & ?). by apply HP. Qed.

Lemma set_world_same (s : execState W) : set_world (world s) s = s.
Proof. by destruct s. Qed.

Lemma wp_PrintInfo i lvl msg args s (P : unit -> execState W -> Prop) :
  i < N -> good (world s) -> (forall w', good w' -> view w' = view (world s) -> P tt (set_world w' s)) ->
  wp (PrintInfo (E i) lvl msg args) P s.
Proof.
  intros Hi Hg HP. assert (Hsame : P tt s) by (rewrite <-(set_world_same s); by apply HP).
  destruct lvl; try exact Hsame; cbn [PrintInfo]; unfold setExecutionMessageInStatusHandler;
    (eapply wp_quiet; [by apply sv_string|]; intros [] w' _ ? ?; by apply HP).
Qed.

Lemma wp_when_err i lvl e msg args s (P : unit -> execState W -> Prop) :
  i < N -> good (world s) -> (forall w', good w' -> view w' = view (world s) -> P tt (set_world w' s)) ->
  wp (when_err e (fun e => PrintInfo (E i) lvl msg (args e))) P s.
Proof.
  intros Hi Hg HP. destruct e as [e|]; cbn [when_err]; [by apply wp_PrintInfo|].
  apply wp_ret. rewrite <-(set_world_same s). by apply HP.
Qed.

Local Arguments PrintInfo : simpl never.
Local Arguments when_err : simpl never.

Lemma turn_get i s : i < N -> good (world s) ->
  wp (EthToMvx.getPendingStep_Execute (E i))
     (turn_ok i EthToMvx.GettingPendingBatchFromEthereum s) s.
Proof.
  intros Hi Hg. unfold EthToMvx.getPendingStep_Execute. apply wp_bind. eapply wp_quiet; [by apply sv_check_mx|].
  intros e1 w1 _ Hg1 Hv1. apply wp_bind. apply wp_when_err; [done|done|]. cbn. intros w2 Hg2 Hv2.
  apply wp_bind. eapply wp_quiet; [by apply sv_check_eth|]. intros e2 w3 _ Hg3 Hv3. cbn in *.
  apply wp_bind. apply wp_when_err; [done|done|]. cbn. intros w4 Hg4 Hv4.
  apply wp_bind. unfold ResetRetriesCountOnMultiversX. apply wp_modify. apply wp_bind. unfold GetLastExecutedEthBatchIDFromMultiversX.
  apply wp_bind. eapply wp_quiet; [by apply sv_last|]. intros r w5 (n & -> & Hn) Hg5 Hv5. cbn in *.
  apply wp_bind. eapply wp_quiet; [by apply sv_int|]. intros [] w6 _ Hg6 Hv6. cbn in *. apply wp_ret.
  rewrite Hn. apply wp_bind. unfold GetAndStoreBatchFromEthereum. apply wp_bind.
  eapply wp_quiet; [by apply sv_batch|]. intros r w7 -> Hg7 Hv7. cbn in *. apply wp_bind. cbn [deref]. apply wp_ret.
  rewrite Z.eqb_refl. destruct (Nat.eqb_spec (length (tb_Deposits b)) 0) as [H0|_].
  { exfalso. apply sv_deposits. by apply nil_length_inv. }
  cbn [negb orb]. apply wp_bind, wp_modify, wp_ret. apply wp_bind. unfold GetStoredBatch. apply wp_gets. cbn.
  apply wp_bind. unfold ValidateBatch. eapply wp_quiet; [by apply sv_valid|]. intros r w8 -> Hg8 Hv8. cbn in *.
  apply wp_bind. apply wp_PrintInfo; [done|done|]. cbn. intros w9 Hg9 Hv9.
  apply wp_bind. unfold VerifyLastDepositNonceExecutedOnEthereumBatch. apply wp_bind, wp_gets. cbn.
  apply wp_bind. eapply wp_quiet; [by apply sv_nonces|]. intros r w10 (m & -> & Hm) Hg10 Hv10. cbn in *. apply wp_ret.
  rewrite Hm. apply wp_ret. assert (Hv : view w10 = view (world s)) by congruence.
  unfold turn_ok. cbn. rewrite Hv. split; [done|]. split; [done|]. split; [done|]. split; [by constructor|].
  intros _ _. right. pose proof (sv_retries i Hi). unfold rank, spent, step_rank. cbn.
  rewrite (proj2 (Z.leb_gt _ _)) by lia. cbn. split; [|intros _]; lia.
Qed.

Lemma turn_propose i s : i < N -> good (world s) -> batch s = Some b ->
  wp (EthToMvx.proposeTransferStep_Execute (E i)) (turn_ok i EthToMvx.ProposingTransferOnMultiversX s) s.
Proof.
  intros Hi Hg Hb. unfold EthToMvx.proposeTransferStep_Execute, GetStoredBatch. apply wp_bind, wp_gets. rewrite Hb.
  apply wp_bind. unfold WasTransferProposedOnMultiversX. apply wp_bind, wp_gets. rewrite Hb.
  eapply wp_quiet; [by apply sv_proposed|]. intros r w1 -> Hg1 Hv1.
  destruct (v_proposed (view (world s))) eqn:Hp.
  { apply wp_ret. unfold turn_ok. cbn. rewrite Hv1. split; [done|]. split; [done|]. split; [done|]. split; [by constructor|].
    intros _ _. right. unfold rank, spent, step_rank. cbn. case_match; lia. }
  apply wp_bind. unfold MyTurnAsLeader. eapply wp_quiet; [by apply sv_leader|]. intros r w2 -> Hg2 Hv2. cbn in Hv2 |- *.
  rewrite Hv1 in *. destruct (Nat.eqb_spec (v_leader (view (world s))) i) as [Hl|Hl]; cbn [negb].
  - apply wp_bind. unfold ProposeTransferOnMultiversX. apply wp_bind, wp_gets. cbn [batch set_world]. rewrite Hb.
    apply wp_bind. unfold ext. apply wp_zoom. eapply wp_mono; [by apply sv_propose|].
    intros r w3 ([h ->] & Hg3 & Hv3). cbn in *. apply wp_ret. cbn [err_of]. apply wp_ret. rewrite Hv2 in Hv3.
    unfold turn_ok. cbn. rewrite Hv3. split; [done|]. split; [by split|]. split; [done|]. split; [by constructor|].
    intros _ _. right. unfold rank, spent, step_rank. cbn. case_match; lia.
  - apply wp_bind. apply wp_PrintInfo; [done|done|]. cbn. intros w3 Hg3 Hv3. apply wp_ret.
    assert (Hv : view w3 = view (world s)) by congruence.
    unfold turn_ok. cbn. rewrite Hv. split; [done|]. split; [done|]. split; [done|]. split; [by constructor|].
    intros _ _. right. unfold rank, spent, step_rank. cbn. split; [case_match; lia|done].
Qed.

Lemma turn_sign i s : i < N -> good (world s) -> batch s = Some b -> v_proposed (view (world s)) = true ->
  wp (EthToMvx.signProposedTransferStep_Execute (E i)) (turn_ok i EthToMvx.SigningProposedTransferOnMultiversX s) s.
Proof.
  intros Hi Hg Hb Hp. unfold EthToMvx.signProposedTransferStep_Execute, GetStoredBatch. apply wp_bind, wp_gets. rewrite Hb.
  apply wp_bind. unfold GetAndStoreActionIDForProposeTransferOnMultiversX. apply wp_bind, wp_gets. rewrite Hb.
  apply wp_bind_ok. eapply wp_quiet; [by apply sv_action|]. intros r w1 -> Hg1 Hv1. rewrite Hp.
  apply wp_bind, wp_modify, wp_ret. cbn. destruct (Z.eqb_spec aid InvalidActionID) as [Ha|_]; [by destruct sv_aid|].
  apply wp_bind. apply wp_PrintInfo; [done|done|]. cbn. intros w2 Hg2 Hv2.
  apply wp_bind. unfold WasActionSignedOnMultiversX. apply wp_bind, wp_gets. cbn.
  eapply wp_quiet; [by apply sv_signed|]. intros r w3 -> Hg3 Hv3. cbn in Hv3 |- *.
  assert (Hv : view w3 = view (world s)) by congruence. case_bool_decide as Hs.
  - apply wp_ret. unfold turn_ok. cbn. rewrite Hv. assert (i ∈ v_signers (view (world s))) by congruence.
    split; [done|]. split; [done|]. split; [done|]. split; [by constructor|].
    intros _ _. right. unfold rank, spent, step_rank. cbn. case_match; lia.
  - apply wp_bind. unfold SignActionOnMultiversX. apply wp_bind, wp_gets. cbn. apply wp_bind. unfold ext. apply wp_zoom.
    eapply wp_mono; [apply sv_sign; [done|done|cbn; congruence]|]. intros r w4 ([h ->] & Hg4 & Hv4). cbn in *. apply wp_ret.
    cbn [err_of]. apply wp_ret. rewrite Hv in Hv4. unfold turn_ok. cbn. rewrite Hv4. split; [done|].
    split; [split; [done|]; split; [cbn; clear; set_solver|done]|]. split; [done|].
    split; [constructor; cbn; try done; clear; set_solver|].
    intros _ _. right. unfold rank, spent, step_rank. cbn. case_match; lia.
Qed.

Lemma turn_wait i s : i < N -> good (world s) -> batch s = Some b -> v_proposed (view (world s)) = true -> actionID s = aid ->
  i ∈ v_signers (view (world s)) ->
  wp (EthToMvx.waitForQuorumStep_Execute (E i)) (turn_ok i EthToMvx.WaitingForQuorum s) s.
Proof.
  intros Hi Hg Hb Hp Ha Hs. unfold EthToMvx.waitForQuorumStep_Execute, ProcessMaxQuorumRetriesOnMultiversX.
  apply wp_bind, wp_bind, wp_gets. destruct (Z.ltb_spec (quorumRetriesOnMultiversX s) (maxQuorumRetriesOnMultiversX (E i))) as [Hr|Hr].
  - apply wp_bind, wp_modify, wp_ret. apply wp_bind. unfold ProcessQuorumReachedOnMultiversX. apply wp_bind, wp_gets. cbn. rewrite Ha.
    eapply wp_quiet; [by apply sv_quorum|]. intros r w1 (q & -> & Hq) Hg1 Hv1. cbn in *. specialize (Hq Hs).
    apply wp_bind. apply wp_PrintInfo; [done|done|]. cbn. intros w2 Hg2 Hv2. assert (Hv : view w2 = view (world s)) by congruence.
    destruct q; cbn [negb]; apply wp_ret; unfold turn_ok; cbn; rewrite Hv; (split; [done|]; split; [done|]; split; [done|]).
    + split; [constructor; cbn; try done; by apply Hq|]. intros _ _. right. unfold rank, spent, step_rank. cbn. rewrite andb_false_r. lia.
    + split; [by constructor|]. intros _ Hwait. specialize (Hwait eq_refl). apply Hq in Hwait. done.
  - apply wp_ret. apply wp_bind. apply wp_PrintInfo; [done|done|]. cbn. intros w1 Hg1 Hv1. apply wp_ret.
    unfold turn_ok. cbn. rewrite Hv1. split; [done|]. split; [done|]. split; [done|]. split; [constructor|].
    intros _ _. right. unfold rank, spent, step_rank. cbn. rewrite (proj2 (Z.leb_le _ _)) by lia. cbn. rewrite ?andb_false_r. cbn. lia.
Qed.

Lemma turn_perform i s : i < N -> good (world s) -> batch s = Some b -> v_proposed (view (world s)) = true -> actionID s = aid ->
  i ∈ v_signers (view (world s)) -> quorum_at (view (world s)) ->
  wp (EthToMvx.performActionIDStep_Execute (E i)) (turn_ok i EthToMvx.PerformingActionID s) s.
Proof.
  intros Hi Hg Hb Hp Ha Hs Hq. unfold EthToMvx.performActionIDStep_Execute, WasActionPerformedOnMultiversX.
  apply wp_bind, wp_bind, wp_gets. rewrite Ha. eapply wp_quiet; [by apply sv_executed|]. intros r w1 -> Hg1 Hv1.
  destruct (v_performed (view (world s))) eqn:Hperf.
  { apply wp_bind. unfold GetStoredActionID. apply wp_gets. apply wp_bind. apply wp_PrintInfo; [done|done|]. cbn. intros w2 Hg2 Hv2.
    apply wp_ret. assert (Hv : view w2 = view (world s)) by congruence. unfold turn_ok. cbn. rewrite Hv, Hperf.
    split; [done|]. split; [done|]. split; [done|]. split; [constructor|done]. }
  apply wp_bind. unfold MyTurnAsLeader. eapply wp_quiet; [by apply sv_leader|]. intros r w2 -> Hg2 Hv2. cbn in Hv2 |- *.
  rewrite Hv1 in *. destruct (Nat.eqb_spec (v_leader (view (world s))) i) as [Hl|Hl]; cbn [negb].
  - apply wp_bind. unfold PerformActionOnMultiversX. apply wp_bind, wp_gets. cbn [batch set_world]. rewrite Hb.
    apply wp_bind, wp_gets. cbn [actionID set_world]. rewrite Ha. apply wp_bind. unfold ext. apply wp_zoom.
    eapply wp_mono; [apply sv_perform; cbn; rewrite ?Hv2; done|]. intros r w3 ([h ->] & Hg3 & Hv3). cbn in *. rewrite Hv2 in Hv3.
    apply wp_ret. cbn [err_of]. apply wp_ret. unfold turn_ok. cbn. rewrite Hv3. split; [done|]. split; [by split|]. split; [done|].
    split; [by constructor|]. intros _ _. by left.
  - apply wp_bind. apply wp_PrintInfo; [done|done|]. cbn. intros w3 Hg3 Hv3. apply wp_ret.
    assert (Hv : view w3 = view (world s)) by congruence.
    unfold turn_ok. cbn. rewrite Hv. split; [done|]. split; [done|]. split; [done|]. split; [by constructor|].
    intros _ _. right. unfold rank, spent, step_rank. cbn. rewrite andb_false_r. split; [lia|done].
Qed.

(** ** The network *)

Definition steps_of_node (i : nat) : gmap string (Step (execState W)) := step_map (EthToMvx.stepsSlice (E i)).

Record network := mkNet {
  nodes : list (smState (execState W));
  shared : W
}.

Definition with_world (w : W) (m : smState (execState W)) : smState (execState W) :=
  mkSm (currentStep m) (set_world w (inner m)).

(** One call of [Execute] by relayer [i], on the world as it is now. *)
Definition tick (i : nat) (net : network) : outcome (option error) * network :=
  match nodes net !! i with
  | None => (Ret None, net)
  | Some m =>
      let '(o, m') := sm_Execute (sm_metric (E i)) (steps_of_node i) (with_world (shared net) m) in
      (o, mkNet (<[i := m']> (nodes net)) (world (inner m')))
  end.

(** The relayers' turns are [sched]; [env t] is what happens to the world before turn [t]. *)
Definition before (env : nat -> W -> W) (t : nat) (net : network) : network := mkNet (nodes net) (env t (shared net)).

Fixpoint net_at (sched : nat -> nat) (env : nat -> W -> W) (start : network) (t : nat) : network :=
  match t with
  | O => start
  | S k => snd (tick (sched k) (before env k (net_at sched env start k)))
  end.

Definition machine_ok (i : nat) (v : mview) (m : smState (execState W)) : Prop :=
  exists st, currentStep m = Some st /\ st ∈ EthToMvx.stepsSlice (E i) /\ node_ok i v (inner m) (Identifier st).

Definition net_ok (net : network) : Prop :=
  good (shared net) /\ length (nodes net) = N /\
  forall i m, nodes net !! i = Some m -> machine_ok i (view (shared net)) m.

Definition step_of (m : smState (execState W)) : string := match currentStep m with Some st => Identifier st | None => "" end.
Definition machine_rank (i : nat) (m : smState (execState W)) : nat := rank i (inner m) (step_of m).

Lemma node_ok_world i v s w id : node_ok i v (set_world w s) id <-> node_ok i v s id.
Proof. split; (intros Hn; destruct Hn; constructor; done). Qed.

Lemma node_ok_step i v s id : node_ok i v s id -> exists st, steps_of_node i !! id = Some st.
Proof.
  intros H. apply step_map_is_Some; [apply EthToMvx_ids_NoDup|]. destruct H; cbn;
    repeat first [left; reflexivity | right].
Qed.

(** A turn of any of the five steps. *)
Lemma turn_any i st s : i < N -> st ∈ EthToMvx.stepsSlice (E i) -> good (world s) ->
  node_ok i (view (world s)) s (Identifier st) -> wp (Execute st) (turn_ok i (Identifier st) s) s.
Proof.
  intros Hi Hst Hg Hn. unfold EthToMvx.stepsSlice in Hst.
  repeat (apply elem_of_cons in Hst as [->|Hst]; [cbn [Execute Identifier EthToMvx.getPendingStep EthToMvx.proposeTransferStep
    EthToMvx.signProposedTransferStep EthToMvx.waitForQuorumStep EthToMvx.performActionIDStep] in *|]); [..|by apply elem_of_nil in Hst].
  - by apply turn_get.
  - apply turn_propose; [done|done|]. by inversion Hn.
  - apply turn_sign; by inversion Hn.
  - apply turn_wait; by inversion Hn.
  - apply turn_perform; by inversion Hn.
Qed.

(** A turn at the level of the machine. *)
Definition machine_turn (i : nat) (m m' : smState (execState W)) : Prop :=
  let v := view (world (inner m)) in let v' := view (world (inner m')) in
  good (world (inner m')) /\ le_view v v' /\ v_leader v' = v_leader v /\ machine_ok i v' m' /\
  (v_performed v = false -> (step_of m = EthToMvx.WaitingForQuorum -> quorum_at v) ->
     v_performed v' = true \/
     (machine_rank i m' <= machine_rank i m /\ (v_leader v = i -> machine_rank i m' < machine_rank i m))).

Lemma machine_turns i m : i < N -> good (world (inner m)) -> machine_ok i (view (world (inner m))) m ->
  exists m', sm_Execute (sm_metric (E i)) (steps_of_node i) m = (Ret None, m') /\ machine_turn i m m'.
Proof.
  intros Hi Hg (st & Hc & Hst & Hn).
  assert (Hwp : wp (sm_Execute (sm_metric (E i)) (steps_of_node i)) (fun e m' => e = None /\ machine_turn i m m') m).
  - unfold sm_Execute, executeStep. wp_run. rewrite Hc. cbn [deref]. wp_run. unfold on_inner at 1. wp_run.
    unfold sm_metric. eapply wp_quiet; [by apply sv_string|]. intros [] w1 _ Hg1 Hv1. apply wp_bind. unfold on_inner. apply wp_zoom.
    cbn [inner]. eapply wp_mono; [apply turn_any; [done|done|done|]; cbn [world set_world]; rewrite Hv1; by apply node_ok_world|].
    intros next s2 (Hg2 & Hle & Hlead & Hn2 & Hprog). cbn [world set_world] in *. rewrite Hv1 in *.
    destruct (node_ok_step _ _ _ _ Hn2) as [st' Hst']. unfold getNextStep. rewrite Hst'. wp_run. split; [done|].
    apply step_map_lookup in Hst' as [Hin Hid]; [|apply EthToMvx_ids_NoDup].
    split; [done|]. split; [done|]. split; [done|]. split; [exists st'; cbn; by rewrite Hid|].
    unfold machine_rank, step_of. cbn [currentStep inner]. rewrite Hc, Hid. exact Hprog.
  - apply wp_unfold in Hwp as (e & m' & Hrun & -> & Ht). by exists m'.
Qed.

(** What a turn of [i] does to the network. *)
Definition net_turn (i : nat) (net net' : network) : Prop :=
  le_view (view (shared net)) (view (shared net')) /\
  (forall j, j <> i -> nodes net' !! j = nodes net !! j) /\
  (i < N -> exists m m', nodes net !! i = Some m /\ nodes net' !! i = Some m' /\
     (v_performed (view (shared net)) = false -> (step_of m = EthToMvx.WaitingForQuorum -> quorum_at (view (shared net))) ->
        v_performed (view (shared net')) = true \/
        (machine_rank i m' <= machine_rank i m /\
         (v_leader (view (shared net)) = i -> machine_rank i m' < machine_rank i m)))).

Lemma tick_ok i net : net_ok net -> exists net', tick i net = (Ret None, net') /\ net_ok net' /\ net_turn i net net'.
Proof.
  intros (Hg & Hlen & Hall). unfold tick. destruct (nodes net !! i) as [m|] eqn:Hm.
  - assert (Hi : i < N) by (rewrite <-Hlen; by eapply lookup_lt_Some).
    destruct (machine_turns i (with_world (shared net) m)) as (m' & Hrun & Hg' & Hle & _ & Hok & Hprog); [done|done| |].
    { destruct (Hall i m Hm) as (st & ? & ? & ?). exists st. split; [done|]. split; [done|]. by apply node_ok_world. }
    rewrite Hrun. cbn [inner with_world world set_world] in *. eexists. split; [done|]. split.
    + split; [done|]. split; [cbn [nodes]; by rewrite length_insert|]. intros j mj Hj. cbn [nodes shared] in *.
      destruct (decide (i = j)) as [<-|Hne].
      * rewrite list_lookup_insert_eq in Hj by (rewrite Hlen; done). injection Hj as <-. done.
      * rewrite list_lookup_insert_ne in Hj by done. destruct (Hall j mj Hj) as (st & ? & ? & ?). exists st.
        split; [done|]. split; [done|]. by eapply node_mono.
    + split; [done|]. split; [intros j Hj; cbn; by rewrite list_lookup_insert_ne|]. intros _. exists m, m'. cbn [nodes shared].
      split; [done|]. split; [rewrite list_lookup_insert_eq; [done|by rewrite Hlen]|]. exact Hprog.
  - exists net. split; [done|]. split; [done|]. split; [done|]. split; [done|]. intros Hi.
    apply lookup_ge_None in Hm. lia.
Qed.

(** ** Fair schedules *)

Section Fair.
Context (sched : nat -> nat) (env : nat -> W -> W) (leader : nat -> nat) (start : network).

(** Between turns only the clock moves; it makes [leader t] the leader of turn [t]. *)
Definition clock_only : Prop := forall t w, good w ->
  good (env t w) /\ view (env t w) = mkView (v_proposed (view w)) (v_signers (view w)) (v_performed (view w)) (leader t).

(** Every relayer gets a turn as the leader, again and again. *)
Definition fair : Prop := forall i, i < N -> forall t, exists t', t <= t' /\ sched t' = i /\ leader t' = i.

Context (Henv : clock_only) (Hfair : fair) (Hstart : net_ok start).
Local Abbreviation at_time := (net_at sched env start).
Local Abbreviation seen t := (view (shared (at_time t))).

Lemma before_ok t net : net_ok net -> net_ok (before env t net).
Proof.
  intros (Hg & Hlen & Hall). destruct (Henv t _ Hg) as [Hg' Hv]. split; [done|]. split; [done|].
  intros i m Hm. destruct (Hall i m Hm) as (st & ? & ? & Hn). exists st. split; [done|]. split; [done|].
  eapply node_mono; [|exact Hn]. cbn. rewrite Hv. by repeat split.
Qed.

Lemma net_at_step t :
  net_ok (at_time t) /\
  exists net', tick (sched t) (before env t (at_time t)) = (Ret None, net') /\ at_time (S t) = net' /\
    net_turn (sched t) (before env t (at_time t)) net'.
Proof.
  induction t as [|t IH].
  - split; [done|]. destruct (tick_ok (sched 0) (before env 0 start)) as (net' & Ht & _ & Hturn); [by apply before_ok|].
    exists net'. cbn. by rewrite Ht.
  - destruct IH as [Hok (net' & Ht & Hs & Hturn)].
    assert (Hok' : net_ok (at_time (S t))).
    { destruct (tick_ok (sched t) (before env t (at_time t))) as (n2 & Ht2 & Hn2 & _); [by apply before_ok|]. cbn. by rewrite Ht2. }
    split; [done|]. destruct (tick_ok (sched (S t)) (before env (S t) (at_time (S t)))) as (n2 & Ht2 & _ & Hturn2); [by apply before_ok|].
    exists n2. split; [done|]. split; [|done]. cbn [net_at]. cbn [net_at] in Ht2. by rewrite Ht2.
Qed.

Lemma before_view t : view (shared (before env t (at_time t))) =
  mkView (v_proposed (seen t)) (v_signers (seen t)) (v_performed (seen t)) (leader t).
Proof. apply Henv. by destruct (net_at_step t) as [[? _] _]. Qed.

Lemma seen_mono t t' : t <= t' -> le_view (seen t) (seen t').
Proof.
  induction 1 as [|t' _ IH]; [done|]. etransitivity; [exact IH|].
  destruct (net_at_step t') as [_ (net' & _ & -> & (Hle & _))]. rewrite before_view in Hle. exact Hle.
Qed.

(** The rank of relayer [i] never grows, and shrinks when it leads, until the goal is reached;
    the goal only has to hold whenever the action is performed or the relayer waits in vain. *)
Lemma rank_step i t m : i < N -> nodes (at_time t) !! i = Some m -> v_performed (seen t) = false ->
  (step_of m = EthToMvx.WaitingForQuorum -> quorum_at (seen t)) ->
  v_performed (seen (S t)) = true \/
  exists m', nodes (at_time (S t)) !! i = Some m' /\ machine_rank i m' <= machine_rank i m /\
    (sched t = i -> leader t = i -> machine_rank i m' < machine_rank i m).
Proof.
  intros Hi Hm Hp Hw. destruct (net_at_step t) as [_ (net' & _ & -> & (_ & Hothers & Hturn))].
  destruct (decide (sched t = i)) as [Hs|Hs].
  - rewrite Hs in Hturn. destruct (Hturn Hi) as (m0 & m' & Hm0 & Hm' & Hprog). cbn in Hm0. rewrite Hm in Hm0. injection Hm0 as <-.
    rewrite before_view in Hprog. cbn in Hprog. destruct (Hprog Hp Hw) as [?|[? ?]]; [by left|right]. exists m'. auto.
  - right. exists m. rewrite (Hothers i) by done. split; [done|]. split; [lia|]. intros ?. done.
Qed.

Lemma eventually (goal : mview -> bool) i t0 : i < N ->
  (forall v v', le_view v v' -> goal v = true -> goal v' = true) ->
  (forall v, v_performed v = true -> goal v = true) ->
  (forall t m, t0 <= t -> goal (seen t) = false -> nodes (at_time t) !! i = Some m ->
     step_of m = EthToMvx.WaitingForQuorum -> quorum_at (seen t)) ->
  exists t, goal (seen t) = true /\ t0 <= t.
Proof.
  intros Hi Hmono Hperf Hwait.
  assert (Hnode : forall t, exists m, nodes (at_time t) !! i = Some m).
  { intros t. apply lookup_lt_is_Some. destruct (net_at_step t) as [(_ & -> & _) _]. done. }
  assert (Hstep : forall t m, t0 <= t -> nodes (at_time t) !! i = Some m -> goal (seen (S t)) = true \/
    exists m', nodes (at_time (S t)) !! i = Some m' /\ machine_rank i m' <= machine_rank i m /\
      (sched t = i -> leader t = i -> machine_rank i m' < machine_rank i m)).
  { intros t m Ht0 Hm. destruct (goal (seen t)) eqn:Hg.
    - left. eapply Hmono; [|exact Hg]. apply seen_mono. lia.
    - assert (Hp : v_performed (seen t) = false).
      { destruct (v_performed (seen t)) eqn:Hp; [|done]. rewrite Hperf in Hg by done. done. }
      destruct (rank_step i t m Hi Hm Hp (Hwait t m Ht0 Hg Hm)) as [Hd|Hd]; [left; by apply Hperf|by right]. }
  assert (Hle : forall t d m, t0 <= t -> nodes (at_time t) !! i = Some m -> goal (seen (t + d)) = true \/
    exists m', nodes (at_time (t + d)) !! i = Some m' /\ machine_rank i m' <= machine_rank i m).
  { intros t d m Ht0 Hm. induction d as [|d [IH|(m' & Hm' & Hr)]].
    - right. exists m. rewrite Nat.add_0_r. done.
    - left. eapply Hmono; [|exact IH]. apply seen_mono. lia.
    - rewrite Nat.add_succ_r. destruct (Hstep (t + d) m' ltac:(lia) Hm') as [?|(m2 & Hm2 & Hr2 & _)]; [by left|right].
      exists m2. split; [done|]. lia. }
  destruct (Hnode t0) as [m Hm]. assert (Ht : t0 <= t0) by lia. revert Ht Hm.
  generalize t0 at 2 3 as t. remember (machine_rank i m) as r eqn:Hr.
  revert m Hr. induction r as [r IH] using lt_wf_ind. intros m Hr t Ht Hm.
  destruct (Hfair i Hi t) as (t1 & Ht1 & Hs & Hl). replace t1 with (t + (t1 - t)) in * by lia. set (u := t + (t1 - t)) in *.
  destruct (Hle t (t1 - t) m Ht Hm) as [Hg|(m1 & Hm1 & Hr1)]; [exists u; split; [done|lia]|]. fold u in Hm1.
  destruct (Hstep u m1 ltac:(lia) Hm1) as [Hg|(m2 & Hm2 & _ & Hlt)]; [exists (S u); split; [done|lia]|].
  apply (IH (machine_rank i m2)) with (m := m2) (t := S u); [|done|lia|done]. specialize (Hlt Hs Hl). lia.
Qed.

(** Each relayer signs. *)
Definition signs (i : nat) (v : mview) : bool := bool_decide (i ∈ v_signers v) || v_performed v.

Lemma eventually_signs i t : i < N -> exists t', signs i (seen t') = true /\ t <= t'.
Proof.
  intros Hi. apply (eventually (signs i) i t Hi); unfold signs.
  - intros v v' (_ & Hs & Hp) [H%bool_decide_eq_true|H]%orb_true_iff; apply orb_true_iff; [left|by right; apply Hp].
    apply bool_decide_eq_true. by apply Hs.
  - intros v ->. by rewrite orb_true_r.
  - intros u m _ [H _]%orb_false_iff Hm Hstep. apply bool_decide_eq_false in H. destruct H.
    destruct (net_at_step u) as [(_ & _ & Hall) _]. destruct (Hall i m Hm) as (st & Hc & _ & Hn).
    unfold step_of in Hstep. rewrite Hc in Hstep. rewrite Hstep in Hn. by inversion Hn.
Qed.

Lemma eventually_all_sign n t : n <= N -> exists t', t <= t' /\ (v_performed (seen t') = true \/ forall i, i < n -> i ∈ v_signers (seen t')).
Proof.
  intros Hn. induction n as [|n IH]; [exists t; split; [lia|right; lia]|].
  destruct (IH ltac:(lia)) as (t1 & Ht1 & H1). destruct (eventually_signs n t1 ltac:(lia)) as (t2 & H2 & Ht2).
  destruct (seen_mono t1 t2 Ht2) as (_ & Hs & Hp). exists t2. split; [lia|].
  destruct H1 as [H1|H1]; [left; auto|]. apply orb_true_iff in H2 as [H2%bool_decide_eq_true|H2]; [right|by left].
  intros i Hi. destruct (decide (i = n)) as [->|]; [done|]. apply Hs, H1. lia.
Qed.

Lemma all_signed_quorum v : (forall i, i < N -> i ∈ v_signers v) -> quorum_at v.
Proof.
  intros H. unfold quorum_at. pose proof sv_quorum_small. etransitivity; [eassumption|].
  assert (Hsz : size (list_to_set (seq 0 N) : gset nat) = N).
  { rewrite size_list_to_set by apply NoDup_seq. by rewrite length_seq. }
  rewrite <-Hsz at 1. apply subseteq_size. intros i Hi%elem_of_list_to_set%elem_of_seq. apply H. lia.
Qed.

Lemma eventually_performed : 0 < N -> exists t, forall t', t <= t' -> v_performed (seen t') = true.
Proof.
  intros HN. destruct (eventually_all_sign N 0 (le_n N)) as (t1 & _ & H1).
  assert (Hdone : exists t, v_performed (seen t) = true).
  { destruct H1 as [H1|H1]; [by exists t1|]. pose proof (all_signed_quorum _ H1) as Hq.
    destruct (eventually v_performed 0 t1 HN) as (t2 & H2 & _); [by intros v v' (_ & _ & Hp)|done| |by exists t2].
    intros t m Ht _ _ _. eapply quorum_mono; [by apply seen_mono|done]. }
  destruct Hdone as [t Ht]. exists t. intros t' Hle. destruct (seen_mono t t' Hle) as (_ & _ & Hp). auto.
Qed.

End Fair.
End Network.
End Liveness.
