(* ===== verification/Status.v ===== *)
(** * Metrics

    Models [src/bridge/status] (the status handler with its persistence, the metrics holder)
    and [src/bridge/facade/relayerFacade.go].  The storer and the JSON marshalizer are the
    library's: operations over a world [X] and two functions.  A Go [int] metric is 64 bits. *)
From S2P Require Import Prelude Go Common Keys Interfaces Executor.
Open Scope go_scope.

Module Status.

Definition ErrEmptyName := ErrNew "status.ErrEmptyName" "empty name".
Definition ErrStatusHandlerExists := ErrNew "status.ErrStatusHandlerExists" "status handler exists with the same name".
Definition ErrMissingStatusHandler := ErrNew "status.ErrMissingStatusHandler" "missing status handler".
Definition ErrNilStorer := ErrNew "status.ErrNilStorer" "nil storer".
Definition ErrNilMetricsHolder := ErrNew "facade.ErrNilMetricsHolder" "nil metrics holder".

Definition PersistedMetrics : list string :=
  [MetricNumBatches; MetricNumEthClientRequests; MetricNumEthClientTransactions;
   MetricLastQueriedEthereumBlockNumber; MetricLastQueriedMultiversXBlockNumber; MetricEthereumClientStatus;
   MetricMultiversXClientStatus; MetricLastEthereumClientError; MetricLastMultiversXClientError; MetricLastBlockNonce].

Fixpoint member (metric : string) (l : list string) : bool :=
  match l with
  | [] => false
  | p :: l' => if String.eqb p metric then true else member metric l'
  end.

Definition shouldPersistMetric (metric : string) : bool := member metric PersistedMetrics.

Record statusHandlerPersistenceData := mkPersistence {
  IntMetrics : gmap string Z;
  StringMetrics : gmap string string
}.

(** The loop that copies the entries of a map that should be persisted. *)
Definition copy_persisted {V} (o : map_order) (m : gmap string V) : gmap string V :=
  foldl (fun acc key =>
    if negb (shouldPersistMetric key) then acc
    else match m !! key with Some val => <[key := val]> acc | None => acc end) ∅ (range_keys o m).

(** The loop that copies all entries of a map into another one. *)
Definition copy_into {V W} (f : V -> W) (o : map_order) (m : gmap string V) (start : gmap string W) : gmap string W :=
  foldl (fun acc key => match m !! key with Some val => <[key := f val]> acc | None => acc end) start (range_keys o m).

Section Status.
Context {X : Type}.
Context (Put : string -> bytes -> M X (option error)) (Get : string -> M X (res bytes)).
Context (Marshal : statusHandlerPersistenceData -> res bytes) (Unmarshal : bytes -> res statusHandlerPersistenceData).

Record statusHandler := mkStatus {
  intMetrics : gmap string Z;
  stringMetrics : gmap string string;
  st_store : X
}.

Definition loadFromBuff (o : map_order) (buff : bytes) : res statusHandlerPersistenceData :=
  res_map (fun data => mkPersistence (copy_persisted o (IntMetrics data)) (copy_persisted o (StringMetrics data)))
    (Unmarshal buff).

Definition convertToBuff (o : map_order) (persistence : statusHandlerPersistenceData) : res bytes :=
  Marshal (mkPersistence (copy_persisted o (IntMetrics persistence)) (copy_persisted o (StringMetrics persistence))).

Definition on_store {A} (c : M X A) : M statusHandler A :=
  zoom st_store (fun x sh => mkStatus (intMetrics sh) (stringMetrics sh) x) c.

Context (name : string) (o : map_order).

Definition tryLoadPersistedData : M statusHandler unit :=
  r ← on_store (Get name);
  match r with
  | Err _ => mret tt
  | Ok data =>
      match loadFromBuff o data with
      | Err _ => mret tt
      | Ok persistence =>
          modify (fun sh => mkStatus (copy_into id o (IntMetrics persistence) (intMetrics sh))
                              (copy_into id o (StringMetrics persistence) (stringMetrics sh)) (st_store sh))
      end
  end.

(** A nil storer is [false]. *)
Definition NewStatusHandler (storer : bool) : M X (res (gmap string Z * gmap string string)) := fun x =>
  if String.eqb name "" then (Ret (Err ErrEmptyName), x)
  else if negb storer then (Ret (Err ErrNilStorer), x)
  else
    match tryLoadPersistedData (mkStatus ∅ ∅ x) with
    | (Ret _, sh) => (Ret (Ok (intMetrics sh, stringMetrics sh)), st_store sh)
    | (Panic p, sh) => (Panic p, st_store sh)
    end.

Definition persistChanges (metric : string) : M statusHandler unit :=
  if negb (shouldPersistMetric metric) then mret tt
  else
    ints ← gets intMetrics;
    strs ← gets stringMetrics;
    match convertToBuff o (mkPersistence ints strs) with
    | Err _ => mret tt
    | Ok buff => on_store (Put name buff);; mret tt
    end.

Definition SetIntMetric (metric : string) (value : Z) : M statusHandler unit :=
  modify (fun sh => mkStatus (<[metric := value]> (intMetrics sh)) (stringMetrics sh) (st_store sh));;
  persistChanges metric.

Definition AddIntMetric (metric : string) (delta : Z) : M statusHandler unit :=
  modify (fun sh => mkStatus (<[metric := i64 (default 0%Z (intMetrics sh !! metric) + delta)]> (intMetrics sh))
                      (stringMetrics sh) (st_store sh));;
  persistChanges metric.

Definition SetStringMetric (metric val : string) : M statusHandler unit :=
  modify (fun sh => mkStatus (intMetrics sh) (<[metric := val]> (stringMetrics sh)) (st_store sh));;
  persistChanges metric.

Definition GetStringMetrics (sh : statusHandler) : gmap string string := copy_into id o (stringMetrics sh) ∅.
Definition GetIntMetrics (sh : statusHandler) : gmap string Z := copy_into id o (intMetrics sh) ∅.

(** The values of the general metrics. *)
Definition GetAllMetrics (sh : statusHandler) : gmap string gval :=
  copy_into GStr o (stringMetrics sh) (copy_into GInt o (intMetrics sh) ∅).

(** What the other components see. *)
Definition status_interface : StatusHandler statusHandler := {|
  sh_SetIntMetric := SetIntMetric;
  sh_AddIntMetric := AddIntMetric;
  sh_SetStringMetric := SetStringMetric |}.

End Status.

Arguments statusHandler X : clear implicits.

(** ** The metrics holder and the facade

    The handlers registered, by name; [H] stands for the handlers. *)
Section Holder.
Context {H : Type} (handler_Name : H -> string) (handler_GetAllMetrics : H -> gmap string gval).

Definition NewMetricsHolder : gmap string H := ∅.

Definition AddStatusHandler (sh : H) (mh : gmap string H) : option error * gmap string H :=
  let name := handler_Name sh in
  match mh !! name with
  | Some _ => (Some (Errorf "%w for %s" ErrStatusHandlerExists [GStr name]), mh)
  | None => (None, <[name := sh]> mh)
  end.

(** The comparison [names[i] < names[j]] is that of the bytes. *)
Definition GetAvailableStatusHandlers (o : map_order) (mh : gmap string H) : list string :=
  string_of_bytes <$> sorted_keys o mh.

Definition holder_GetAllMetrics (mh : gmap string H) (name : string) : res (gmap string gval) :=
  match mh !! name with
  | None => Err ErrMissingStatusHandler
  | Some sh => Ok (handler_GetAllMetrics sh)
  end.

Definition availableMetrics : string := "available metrics".

Definition facade_GetMetrics (mh : gmap string H) (name : string) : res (gmap string gval) := holder_GetAllMetrics mh name.
Definition facade_GetMetricsList (o : map_order) (mh : gmap string H) : gmap string gval :=
  {[ availableMetrics := GStrs (GetAvailableStatusHandlers o mh) ]}.
End Holder.

(** ** Lemmas *)

(** A storer whose calls return makes a handler whose operations return. *)
Lemma status_interface_laws {X} (Put : string -> bytes -> M X (option error)) Marshal name o :
  (forall k v, total (Put k v)) -> StatusHandlerLaws (status_interface Put Marshal name o).
Proof. intros Hput. split; cbn; intros; unfold SetIntMetric, AddIntMetric, SetStringMetric, persistChanges, on_store; solve_total. Qed.

Lemma NewStatusHandler_total {X} (Get : string -> M X (res bytes)) Unmarshal name o storer :
  (forall k, total (Get k)) -> total (NewStatusHandler Get Unmarshal name o storer).
Proof.
  intros Hget x. unfold wp, NewStatusHandler. destruct (String.eqb name ""), (negb storer); try done.
  assert (Ht : total (tryLoadPersistedData Get Unmarshal name o)) by (unfold tryLoadPersistedData, on_store; solve_total).
  specialize (Ht (mkStatus ∅ ∅ x)). unfold wp in Ht. by destruct (tryLoadPersistedData _ _ _ _ _) as [[]].
Qed.

Lemma member_spec metric l : member metric l = true <-> metric ∈ l.
Proof.
  induction l as [|p l IH]; cbn; [split; [done|by intros ?%not_elem_of_nil]|].
  rewrite elem_of_cons. destruct (String.eqb_spec p metric) as [->|Hne]; [naive_solver|]. rewrite IH. naive_solver.
Qed.

(** What the copying loops compute, whatever the order. *)
Lemma copy_persisted_lookup {V} o (m : gmap string V) key :
  copy_persisted o m !! key = if shouldPersistMetric key then m !! key else None.
Proof.
  unfold copy_persisted. set (ks := range_keys o m).
  assert (H : forall ks (acc : gmap string V), foldl (fun acc key => if negb (shouldPersistMetric key) then acc
      else match m !! key with Some val => <[key := val]> acc | None => acc end) acc ks !! key =
    if shouldPersistMetric key && bool_decide (key ∈ ks) then (match m !! key with Some v => Some v | None => acc !! key end)
    else acc !! key).
  { clear ks. induction ks as [|k ks IH]; intros acc; cbn [foldl].
    { by rewrite bool_decide_false, andb_false_r by apply not_elem_of_nil. }
    rewrite IH. destruct (decide (k = key)) as [->|Hne].
    - rewrite (bool_decide_true (key ∈ key :: ks)) by set_solver.
      destruct (shouldPersistMetric key); cbn; [|done].
      destruct (m !! key) eqn:Hm; destruct (bool_decide (key ∈ ks)); try done. by rewrite lookup_insert_eq.
    - assert (bool_decide (key ∈ k :: ks) = bool_decide (key ∈ ks)) as -> by (apply bool_decide_ext; set_solver).
      destruct (shouldPersistMetric k); cbn; [|done]. destruct (m !! k); [|done]. by rewrite lookup_insert_ne by done. }
  rewrite H, lookup_empty. destruct (shouldPersistMetric key); cbn; [|done].
  case_bool_decide as Hin; [by destruct (m !! key)|]. unfold ks in Hin. rewrite range_keys_elem in Hin.
  by destruct (m !! key); [exfalso; apply Hin; eexists|].
Qed.

Lemma copy_into_lookup {V W} (f : V -> W) o (m : gmap string V) start key :
  copy_into f o m start !! key = match m !! key with Some v => Some (f v) | None => start !! key end.
Proof.
  unfold copy_into. set (ks := range_keys o m).
  assert (H : forall ks (acc : gmap string W), foldl (fun acc key => match m !! key with Some val => <[key := f val]> acc | None => acc end) acc ks !! key =
    if bool_decide (key ∈ ks) then (match m !! key with Some v => Some (f v) | None => acc !! key end) else acc !! key).
  { clear ks. induction ks as [|k ks IH]; intros acc; cbn [foldl].
    { by rewrite bool_decide_false by apply not_elem_of_nil. }
    rewrite IH. destruct (decide (k = key)) as [->|Hne].
    - rewrite (bool_decide_true (key ∈ key :: ks)) by set_solver. destruct (m !! key);
      destruct (bool_decide (key ∈ ks)); try done. by rewrite lookup_insert_eq.
    - assert (bool_decide (key ∈ k :: ks) = bool_decide (key ∈ ks)) as -> by (apply bool_decide_ext; set_solver).
      destruct (m !! k); [|done]. by rewrite lookup_insert_ne by done. }
  rewrite H. case_bool_decide as Hin; [done|]. unfold ks in Hin. rewrite range_keys_elem in Hin.
  by destruct (m !! key); [exfalso; apply Hin; eexists|].
Qed.

(** The persisted part of a map of metrics. *)
Definition persisted {V} (m : gmap string V) : gmap string V := filter (fun kv => kv.1 ∈ PersistedMetrics) m.

Lemma persisted_lookup {V} (m : gmap string V) key :
  persisted m !! key = if shouldPersistMetric key then m !! key else None.
Proof.
  unfold persisted, shouldPersistMetric. pose proof (member_spec key PersistedMetrics) as Hm.
  destruct (m !! key) eqn:Hk.
  - destruct (member key PersistedMetrics).
    + apply map_lookup_filter_Some. split; [done|]. by apply Hm.
    + apply map_lookup_filter_None. right. intros v0 _ H. apply Hm in H. done.
  - case_match; apply map_lookup_filter_None; by left.
Qed.

Lemma copy_persisted_eq {V} o (m : gmap string V) : copy_persisted o m = persisted m.
Proof. apply map_eq. intros k. by rewrite copy_persisted_lookup, persisted_lookup. Qed.

Lemma persisted_idem {V} (m : gmap string V) : persisted (persisted m) = persisted m.
Proof. apply map_eq. intros k. rewrite !persisted_lookup. by case_match. Qed.

Lemma copy_into_empty {V} o (m : gmap string V) : copy_into id o m ∅ = m.
Proof. apply map_eq. intros k. rewrite copy_into_lookup, lookup_empty. by destruct (m !! k). Qed.

(** Inserting a metric that is not persisted changes nothing of what is persisted. *)
Lemma persisted_insert_ne {V} (m : gmap string V) k v :
  shouldPersistMetric k = false -> persisted (<[k := v]> m) = persisted m.
Proof.
  intros H. apply map_eq. intros j. rewrite !persisted_lookup. destruct (decide (k = j)) as [->|Hne]; [by rewrite H|].
  by rewrite lookup_insert_ne.
Qed.

(** ** Restarting *)

Inductive metric_op :=
  | OpSetInt (metric : string) (value : Z)
  | OpAddInt (metric : string) (delta : Z)
  | OpSetString (metric val : string).

Section Restart.
Context {X : Type}.
Context (Put : string -> bytes -> M X (option error)) (Get : string -> M X (res bytes)).
Context (Marshal : statusHandlerPersistenceData -> res bytes) (Unmarshal : bytes -> res statusHandlerPersistenceData).
Context (name : string).

Definition run_op (o : map_order) (op : metric_op) : M (statusHandler X) unit :=
  match op with
  | OpSetInt m v => SetIntMetric Put Marshal name o m v
  | OpAddInt m d => AddIntMetric Put Marshal name o m d
  | OpSetString m v => SetStringMetric Put Marshal name o m v
  end.

(** The handler after a sequence of updates, each with its own map order. *)
Definition run_ops (ops : list (map_order * metric_op)) (sh : statusHandler X) : statusHandler X :=
  foldl (fun sh op => snd (run_op op.1 op.2 sh)) sh ops.

(** What the libraries promise: what was put is what is read back, encoding succeeds and
    decoding inverts it. *)
Class StoreLaws : Prop := {
  store_put k v x : exists x', Put k v x = (Ret None, x') /\ Get k x' = (Ret (Ok v), x');
  marshal_ok d : exists buff, Marshal d = Ok buff /\ Unmarshal buff = Ok d
}.

(** The store holds the persisted part of the metrics, or nothing if there is none. *)
Definition stored_ok (sh : statusHandler X) : Prop :=
  (exists buff, Get name (st_store sh) = (Ret (Ok buff), st_store sh) /\
     Unmarshal buff = Ok (mkPersistence (persisted (intMetrics sh)) (persisted (stringMetrics sh)))) \/
  ((exists e, Get name (st_store sh) = (Ret (Err e), st_store sh)) /\
   persisted (intMetrics sh) = ∅ /\ persisted (stringMetrics sh) = ∅).

Context {SL : StoreLaws}.

Lemma persist_stored o metric sh sh' :
  (shouldPersistMetric metric = false -> stored_ok sh) ->
  persistChanges Put Marshal name o metric sh = (Ret tt, sh') -> stored_ok sh'.
Proof.
  unfold persistChanges. destruct (shouldPersistMetric metric); cbn [negb]; intros Hn H.
  2:{ injection H as <-. by apply Hn. }
  unfold mbind, M_bind, gets, convertToBuff in H. cbn [IntMetrics StringMetrics] in H. rewrite !copy_persisted_eq in H.
  destruct (marshal_ok (mkPersistence (persisted (intMetrics sh)) (persisted (stringMetrics sh)))) as (buff & Hm & Hu).
  rewrite Hm in H. unfold on_store, zoom in H. destruct (store_put name buff (st_store sh)) as (x' & Hp & Hg).
  rewrite Hp in H. injection H as <-. left. by exists buff.
Qed.

Lemma persist_returns o metric sh : exists sh', persistChanges Put Marshal name o metric sh = (Ret tt, sh').
Proof.
  unfold persistChanges. case_match; [by eexists|]. unfold mbind, M_bind, gets. case_match; [|by eexists].
  unfold on_store, zoom. destruct (store_put name a (st_store sh)) as (x' & Hp & _). rewrite Hp. by eexists.
Qed.

Lemma stored_ok_insert sh k (v : Z + string) :
  shouldPersistMetric k = false -> stored_ok sh ->
  stored_ok (match v with
    | inl z => mkStatus (<[k := z]> (intMetrics sh)) (stringMetrics sh) (st_store sh)
    | inr s => mkStatus (intMetrics sh) (<[k := s]> (stringMetrics sh)) (st_store sh) end).
Proof.
  intros Hk Hs. unfold stored_ok. destruct v; cbn [intMetrics stringMetrics st_store]; by rewrite persisted_insert_ne.
Qed.

Lemma run_op_stored o op sh : stored_ok sh -> stored_ok (snd (run_op o op sh)).
Proof.
  intros Hs. destruct op as [m v|m d|m v]; cbn [run_op]; unfold SetIntMetric, AddIntMetric, SetStringMetric, mbind, M_bind, modify.
  all: match goal with |- stored_ok (snd (persistChanges _ _ _ _ ?m ?s)) =>
    destruct (persist_returns o m s) as [sh' Hrun]; rewrite Hrun; cbn [snd]; eapply persist_stored; [|exact Hrun]; intros Hm end.
  - by apply (stored_ok_insert sh m (inl v)).
  - by apply (stored_ok_insert sh m (inl (i64 (default 0%Z (intMetrics sh !! m) + d)))).
  - by apply (stored_ok_insert sh m (inr v)).
Qed.

Lemma run_ops_stored ops sh : stored_ok sh -> stored_ok (run_ops ops sh).
Proof. revert sh. induction ops as [|op ops IH]; intros sh Hs; [done|]. cbn. by apply IH, run_op_stored. Qed.

Lemma load_stored o sh : name <> "" -> stored_ok sh ->
  NewStatusHandler Get Unmarshal name o true (st_store sh) =
    (Ret (Ok (persisted (intMetrics sh), persisted (stringMetrics sh))), st_store sh).
Proof.
  intros Hne Hs. unfold NewStatusHandler. destruct (String.eqb_spec name ""); [done|]. cbn [negb].
  unfold tryLoadPersistedData, mbind, M_bind, on_store, zoom, loadFromBuff. cbn [st_store].
  destruct Hs as [(buff & Hg & Hu)|((e & Hg) & Hi & Hstr)]; rewrite Hg.
  - rewrite Hu. cbn [res_map IntMetrics StringMetrics]. unfold modify. cbn [intMetrics stringMetrics st_store].
    rewrite !copy_persisted_eq, !copy_into_empty, !persisted_idem. done.
  - by rewrite Hi, Hstr.
Qed.

End Restart.


(** A store that is a map, and a marshalizer that keeps the data as it is (as text keyed by its
    position in a registry). *)
Definition toy_Put (k : string) (v : bytes) : M (gmap string bytes) (option error) := modify (<[k := v]>);; mret None.
Definition toy_Get (k : string) : M (gmap string bytes) (res bytes) :=
  gets (fun m => match m !! k with Some v => Ok v | None => Err (ErrExternal "key not found") end).

(** Any injective coding will do: the countable coding of the two maps, in unary bytes. *)
Definition toy_code (d : statusHandlerPersistenceData) : positive := encode (IntMetrics d, StringMetrics d).
Definition toy_Marshal (d : statusHandlerPersistenceData) : res bytes :=
  Ok ((fix go p := match p with xH => [] | xO p => Byte.x00 :: go p | xI p => Byte.x01 :: go p end) (toy_code d)).
Definition toy_Unmarshal (b : bytes) : res statusHandlerPersistenceData :=
  match decode (A := gmap string Z * gmap string string)
          (foldr (fun c p => if bool_decide (c = Byte.x00) then xO p else xI p) xH b) with
  | Some (i, s) => Ok (mkPersistence i s)
  | None => Err (ErrExternal "malformed")
  end.

Lemma toy_store_laws : StoreLaws toy_Put toy_Get toy_Marshal toy_Unmarshal.
Proof.
  split.
  - intros k v x. eexists. split; [done|]. unfold toy_Get, gets. by rewrite lookup_insert_eq.
  - intros d. eexists. split; [done|]. unfold toy_Unmarshal.
    match goal with |- context [foldr ?f xH (?g (toy_code d))] => assert (H : forall p, foldr f xH (g p) = p) end.
    { induction p as [p IH|p IH|]; cbn; [by rewrite IH..|done]. }
    rewrite H. unfold toy_code. rewrite decode_encode. by destruct d.
Qed.


End Status.
