(* ===== verification/BatchValidator.v ===== *)
(** * The batch validator and the chain names

    Models [src/bridge/clients/batchValidator] (with its disabled version and factory) and
    [src/bridge/clients/chain/chain.go].  [http.NewRequestWithContext] fails on a malformed
    URL, [Do] is an operation of the world, and the decoders of the two answers are
    functions. *)
From S2P Require Import Prelude Go Common Batch Interfaces Executor.
Open Scope go_scope.

Module Chain.

Definition MultiversX : string := "msx".
Definition Ethereum : string := "Ethereum".
Definition Bsc : string := "Bsc".
Definition Polygon : string := "Polygon".

(** [strings.ToLower] on ASCII text. *)
Definition lower_char (c : Ascii.ascii) : Ascii.ascii :=
  let n := Ascii.N_of_ascii c in
  if (65 <=? n)%N && (n <=? 90)%N then Ascii.ascii_of_N (n + 32) else c.
Fixpoint lower (s : string) : string :=
  match s with EmptyString => EmptyString | String c s' => String (lower_char c) (lower s') end.
Definition ToLower (c : string) : string := lower c.

Definition EvmCompatibleChainToMultiversXName (c : string) : string := sprintf "%sToMultiversX" [GStr c].
Definition MultiversXToEvmCompatibleChainName (c : string) : string := sprintf "MultiversXTo%s" [GStr c].
Definition BaseLogId (c : string) : string := sprintf "%sMultiversX-Base" [GStr c].
Definition MultiversXClientLogId (c : string) : string := sprintf "%sMultiversX-MultiversXClient" [GStr c].
Definition MultiversXDataGetterLogId (c : string) : string := sprintf "%sMultiversX-MultiversXDataGetter" [GStr c].
Definition EvmCompatibleChainClientLogId (c : string) : string := sprintf "%sMultiversX-%sClient" [GStr c; GStr c].
Definition MultiversXRoleProviderLogId (c : string) : string := sprintf "%sMultiversX-MultiversXRoleProvider" [GStr c].
Definition EvmCompatibleChainRoleProviderLogId (c : string) : string := sprintf "%sMultiversX-%sRoleProvider" [GStr c; GStr c].
Definition BroadcasterLogId (c : string) : string := sprintf "%sMultiversX-Broadcaster" [GStr c].

End Chain.

Module Validator.

Definition minRequestTime : Z := 1000000.

Record ArgsBatchValidator := {
  SourceChain : string;
  DestinationChain : string;
  RequestURL : string;
  RequestTime : Z
}.

Definition known_chain (c : string) : bool :=
  String.eqb c Chain.Ethereum || String.eqb c Chain.Bsc || String.eqb c Chain.Polygon || String.eqb c Chain.MultiversX.

Definition checkArgs (args : ArgsBatchValidator) : option error :=
  if negb (known_chain (SourceChain args)) then Some (Errorf "%w: %q" clients_ErrInvalidValue [GStr (SourceChain args)])
  else if negb (known_chain (DestinationChain args)) then
    Some (Errorf "%w: %q" clients_ErrInvalidValue [GStr (DestinationChain args)])
  else if (RequestTime args <? minRequestTime)%Z then
    Some (Errorf "%w in checkArgs for value RequestTime" clients_ErrInvalidValue [])
  else None.

Record batchValidator := mkValidator { requestURL : string; requestTime : Z }.

Definition NewBatchValidator (args : ArgsBatchValidator) : res batchValidator :=
  match checkArgs args with
  | Some e => Err e
  | None =>
      Ok (mkValidator (sprintf "%s/%s/%s" [GStr (RequestURL args); GStr (Chain.ToLower (SourceChain args));
                         GStr (Chain.ToLower (DestinationChain args))]) (RequestTime args))
  end.

(** An HTTP answer: its body is what can be read of it and the error that ended the reading,
    [NoBody] marks an absent one. *)
Record httpResponse := mkHttp {
  StatusCode : Z;
  Status : string;
  NoBody : bool;
  Body : bytes;
  BodyError : option error
}.

Section Validator.
Context {X : Type}.
Context (http_NewRequest : string -> option error) (http_Do : string -> bytes -> M X (res httpResponse)).
Context (json_Valid : bytes -> res bool) (json_BadRequestMessage : bytes -> res string).
Context (bv : batchValidator).

(** The header of the request is set before the error is looked at: a nil request panics. *)
Definition doRequestReturningBytes (batch : bytes) : M X (res bytes) :=
  match http_NewRequest (requestURL bv) with
  | Some _ => panics NilDereference
  | None =>
      response <?- http_Do (requestURL bv) batch;
      if (StatusCode response =? 400)%Z && negb (NoBody response) then
        match json_BadRequestMessage (Body response) with
        | Err e => mret (Err (wrap "%w during bad response unmarshal" e))
        | Ok message => mret (Err (ErrExternal (sprintf "got status %s: %s" [GStr (Status response); GStr message])))
        end
      else if negb (StatusCode response =? 200)%Z then
        mret (Err (ErrExternal (sprintf "got status %s" [GStr (Status response)])))
      else
        match BodyError response with
        | Some e => mret (Err e)
        | None => mret (Ok (Body response))
        end
  end.

Definition doRequest (batch : bytes) : M X (res bytes) := doRequestReturningBytes batch.

(** The JSON of a nil batch is [null]; encoding the structure cannot fail. *)
Definition request_body (ob : option TransferBatch) : bytes :=
  bytes_of_string (match ob with None => "null" | Some b => json_TransferBatch b end).

Definition ValidateBatch (ob : option TransferBatch) : M X (res bool) :=
  r ← doRequest (request_body ob);
  match r with
  | Err e => mret (Err (wrap "%w while executing request" e))
  | Ok [] => mret (Err (ErrExternal "empty response"))
  | Ok responseAsBytes =>
      match json_Valid responseAsBytes with
      | Err e => mret (Err (wrap "%w during response unmarshal" e))
      | Ok valid => mret (Ok valid)
      end
  end.

Definition validator_interface : BatchValidator X := {| val_ValidateBatch := ValidateBatch |}.

(** A batch counts as valid only if the service was asked with exactly the JSON of that
    batch, at the URL of the two chains, answered with status 200 and a non-empty body, and the
    body says so: errors of any kind never validate a batch. *)
Theorem validated_only_by_service ob x x' :
  ValidateBatch ob x = (Ret (Ok true), x') ->
  exists response, answered (http_Do (requestURL bv) (request_body ob)) (Ok response) /\
    StatusCode response = 200%Z /\ BodyError response = None /\ Body response <> [] /\ json_Valid (Body response) = Ok true.
Proof.
  intros H. unfold ValidateBatch, doRequest, doRequestReturningBytes in H.
  apply bind_ret_inv in H as (r & x1 & Hd & H). destruct r as [body|e]; [|done].
  destruct (http_NewRequest (requestURL bv)); [done|]. apply bind_ok_inv in Hd as (response & x2 & Hdo & Hd).
  exists response. split; [by eexists _, _|].
  destruct ((StatusCode response =? 400)%Z && negb (NoBody response)); [by destruct (json_BadRequestMessage (Body response))|].
  destruct (Z.eqb_spec (StatusCode response) 200) as [Hs|_]; cbn [negb] in Hd; [|done].
  destruct (BodyError response); [done|]. injection Hd as <- <-.
  destruct (Body response) as [|c body] eqn:Hb; [done|]. destruct (json_Valid (c :: body)) as [v|e] eqn:Hv; [|done].
  injection H as -> _. done.
Qed.

End Validator.

(** The validator does not panic when the URL of the request is well formed. *)
Lemma validator_total {X} http_NewRequest (http_Do : string -> bytes -> M X (res httpResponse)) json_Valid json_Bad bv ob :
  http_NewRequest (requestURL bv) = None -> (forall u b, total (http_Do u b)) ->
  total (ValidateBatch http_NewRequest http_Do json_Valid json_Bad bv ob).
Proof.
  intros Hreq Hdo. unfold ValidateBatch, doRequest, doRequestReturningBytes. rewrite Hreq.
  pose proof (Hdo (requestURL bv) (request_body ob)). solve_total.
Qed.

(** On a malformed URL the validator panics instead of returning the error: the nil request is
    dereferenced before the error is looked at. *)
Theorem malformed_url_panics {X} http_NewRequest (http_Do : string -> bytes -> M X (res httpResponse)) json_Valid json_Bad bv ob x e :
  http_NewRequest (requestURL bv) = Some e ->
  ValidateBatch http_NewRequest http_Do json_Valid json_Bad bv ob x = (Panic NilDereference, x).
Proof.
  intros Hreq. unfold ValidateBatch, doRequest, doRequestReturningBytes, mbind, M_bind. by rewrite Hreq.
Qed.

(** The disabled validator and the factory. *)
Definition disabledBatchValidator {X} : BatchValidator X := {| val_ValidateBatch _ := mret (Ok true) |}.

Definition CreateBatchValidator {X} (http_NewRequest : string -> option error) (http_Do : string -> bytes -> M X (res httpResponse))
    json_Valid json_Bad (args : ArgsBatchValidator) (enabled : bool) : res (BatchValidator X) :=
  if enabled
  then res_map (fun bv => validator_interface http_NewRequest http_Do json_Valid json_Bad bv) (NewBatchValidator args)
  else Ok disabledBatchValidator.

(** ** A small service for the witness *)

Definition toy_Do (url : string) (body : bytes) : M unit (res httpResponse) :=
  mret (Ok (mkHttp 200 "200 OK" false (bytes_of_string "yes") None)).
Definition toy_Valid (b : bytes) : res bool :=
  if bool_decide (b = bytes_of_string "yes") then Ok true else Err (ErrExternal "malformed").

Lemma validated_only_by_service_witness :
  exists response, answered (toy_Do "url/ethereum/msx" (request_body None)) (Ok response) /\
    StatusCode response = 200%Z /\ BodyError response = None /\ Body response <> [] /\ toy_Valid (Body response) = Ok true.
Proof.
  exact (validated_only_by_service (fun _ => None) toy_Do toy_Valid (fun _ => Ok "") (mkValidator "url/ethereum/msx" 1000000000)
    None tt tt eq_refl).
Defined.

Lemma malformed_url_panics_witness :
  ValidateBatch (fun _ => Some (ErrExternal "missing protocol scheme")) toy_Do toy_Valid (fun _ => Ok "")
    (mkValidator ":" 1000000000) None tt = (Panic NilDereference, tt).
Proof.
  exact (malformed_url_panics (fun _ => Some (ErrExternal "missing protocol scheme")) toy_Do toy_Valid (fun _ => Ok "")
    (mkValidator ":" 1000000000) None tt _ eq_refl).
Defined.

Example validator_url :
  NewBatchValidator {| SourceChain := "Ethereum"; DestinationChain := "msx"; RequestURL := "url"; RequestTime := 1000000 |} =
  Ok (mkValidator "url/ethereum/msx" 1000000).
Proof. by vm_compute. Qed.

End Validator.
