(* ===== verification/Relayer.v ===== *)
(** * The relayer the factory assembles

    [createEthereumToMultiversXBridge], [createMultiversXToEthereumBridge] and
    [createBatchValidator] of [src/bridge/factory/ethMultiversXBridgeComponents.go]: from the
    two clients, the role provider, the timer, the storer and the configuration to the executor
    of each half-bridge, and the theorem that closes the development: the laws the
    half-bridges' theorems assume hold of the executors built here (if the contract's quorum fits an
    [int64] and the validator's address is accepted, which nobody checks), so both machines of an
    assembled relayer are safe.  The relayer's state is the clients' own state and the metrics
    next to the rest of the world. *)
From S2P Require Import Prelude Go Common Batch Interfaces Executor StateMachine StepsEthToMvx StepsMvxToEth Machines Monitor SafetyEthToMvx SafetyMvxToEth Hoist Demo Bridge Signatures Topology EthClient EthClientFacts MvxClient MvxClientFacts Status BatchValidator.
Open Scope go_scope.

Module Relayer.

Definition errMissingConfig := ErrNew "factory.errMissingConfig" "missing config".

(** ** Configuration *)

Record ConfigStateMachine := mkSmConfig {
  StepDurationInMillis : Z;
  IntervalForLeaderInSeconds : Z
}.

Record BatchValidatorConfig := mkBvConfig {
  bvc_Enabled : bool;
  bvc_URL : string;
  bvc_RequestTimeInSeconds : Z
}.

(** The fields of [config.Config] the two functions read. *)
Record Config := {
  cfg_Chain : string;
  cfg_StateMachine : gmap string ConfigStateMachine;
  cfg_BatchValidator : BatchValidatorConfig;
  eth_MaxRetriesOnQuorumReached : Z;
  eth_IntervalToWaitForTransferInSeconds : Z;
  mx_MaxRetriesOnQuorumReached : Z;
  mx_MaxRetriesOnWasTransferProposed : Z
}.

(** [time.Second * time.Duration(n)] and its like, at 64 bits. *)
Definition seconds (n : Z) : Z := i64 (1000000000 * i64 n).
Definition millis (n : Z) : Z := i64 (1000000 * i64 n).

(** ** State *)

(** The metrics of one status handler. *)
Record metrics := mkMetrics {
  mt_Name : string;
  mt_Int : gmap string Z;
  mt_String : gmap string string
}.

Record relayer (X : Type) := mkRelayer {
  r_ethBlock : Z;
  r_ethRetries : Z;
  r_mxShardFetched : bool;
  r_mxShard : Z;
  r_mxNonce : Z;
  r_mxRetries : Z;
  r_metrics : gmap string metrics;
  r_world : X
}.
Arguments mkRelayer {X} _ _ _ _ _ _ _ _.
Arguments r_ethBlock {X} _.
Arguments r_ethRetries {X} _.
Arguments r_mxShardFetched {X} _.
Arguments r_mxShard {X} _.
Arguments r_mxNonce {X} _.
Arguments r_mxRetries {X} _.
Arguments r_metrics {X} _.
Arguments r_world {X} _.

(** The components in it. *)
Section Lenses.
Context {X : Type}.
Implicit Types r : relayer X.

Definition eth_get r : EthClient.client X := EthClient.mkClient (r_ethBlock r) (r_ethRetries r) (r_world r).
Definition eth_put (c : EthClient.client X) r : relayer X :=
  mkRelayer (EthClient.lastBlockNumber c) (EthClient.retriesAvailabilityCheck c) (r_mxShardFetched r) (r_mxShard r)
    (r_mxNonce r) (r_mxRetries r) (r_metrics r) (EthClient.cl_world c).

Definition mx_get r : MvxClient.mxClient X :=
  MvxClient.mkMx (r_mxShardFetched r) (r_mxShard r) (r_mxNonce r) (r_mxRetries r) (r_world r).
Definition mx_put (c : MvxClient.mxClient X) r : relayer X :=
  mkRelayer (r_ethBlock r) (r_ethRetries r) (MvxClient.wasShardIDFetched c) (MvxClient.shardID c) (MvxClient.lastNonce c)
    (MvxClient.mx_retries c) (r_metrics r) (MvxClient.mx_world c).

Definition world_put (x : X) r : relayer X :=
  mkRelayer (r_ethBlock r) (r_ethRetries r) (r_mxShardFetched r) (r_mxShard r) (r_mxNonce r) (r_mxRetries r) (r_metrics r) x.

Definition set_metrics (m : gmap string metrics) r : relayer X :=
  mkRelayer (r_ethBlock r) (r_ethRetries r) (r_mxShardFetched r) (r_mxShard r) (r_mxNonce r) (r_mxRetries r) m (r_world r).

(** The handler registered under a name, with the store in the world. *)
Definition status_get (name : string) r : Status.statusHandler X :=
  let m := default (mkMetrics name ∅ ∅) (r_metrics r !! name) in
  Status.mkStatus (mt_Int m) (mt_String m) (r_world r).
Definition status_put (name : string) (sh : Status.statusHandler X) r : relayer X :=
  world_put (Status.st_store sh)
    (set_metrics (<[name := mkMetrics name (Status.intMetrics sh) (Status.stringMetrics sh)]> (r_metrics r)) r).
End Lenses.

Definition on_env {X} (A : Type) : M X A -> M (relayer X) A := zoom r_world world_put.
Definition on_eth {X} (A : Type) : M (EthClient.client X) A -> M (relayer X) A := zoom eth_get eth_put.
Definition on_mvx {X} (A : Type) : M (MvxClient.mxClient X) A -> M (relayer X) A := zoom mx_get mx_put.
Definition on_status {X} (name : string) (A : Type) : M (Status.statusHandler X) A -> M (relayer X) A :=
  zoom (status_get name) (status_put name).

(** ** Components *)

(** What was created before the half-bridges: the two clients, the role provider's keys, the
    timer, the storer with the encoding of metrics, the HTTP client and the runtime. *)
Record components (X T : Type) := {
  ethClient : EthClient.clientDeps X T;
  multiversXClient_ : MvxClient.mxDeps X;
  roleProvider_SortedPublicKeys : M X (list bytes);
  timer_NowUnix : M X Z;
  multiversXRelayerAddress : bytes;
  sha256 : bytes -> bytes;
  statusStorer : bool;
  storer_Put : string -> bytes -> M X (option error);
  storer_Get : string -> M X (res bytes);
  metrics_Marshal : Status.statusHandlerPersistenceData -> res bytes;
  metrics_Unmarshal : bytes -> res Status.statusHandlerPersistenceData;
  http_NewRequest : string -> option error;
  http_Do : string -> bytes -> M X (res Validator.httpResponse);
  json_Valid : bytes -> res bool;
  json_BadRequestMessage : bytes -> res string;
  map_iteration : map_order;
  log_level : LogLevel -> string;
  runtime_select : Z -> M X bool
}.
Arguments ethClient {X T} _.
Arguments multiversXClient_ {X T} _.
Arguments roleProvider_SortedPublicKeys {X T} _.
Arguments timer_NowUnix {X T} _.
Arguments multiversXRelayerAddress {X T} _.
Arguments sha256 {X T} _ _.
Arguments statusStorer {X T} _.
Arguments storer_Put {X T} _ _ _.
Arguments storer_Get {X T} _ _.
Arguments metrics_Marshal {X T} _ _.
Arguments metrics_Unmarshal {X T} _ _.
Arguments http_NewRequest {X T} _ _.
Arguments http_Do {X T} _ _ _.
Arguments json_Valid {X T} _ _.
Arguments json_BadRequestMessage {X T} _ _.
Arguments map_iteration {X T} _.
Arguments log_level {X T} _ _.
Arguments runtime_select {X T} _ _.

Section Factory.
Context {X T : Type} (C : components X T) (cfg : Config).

Definition createBatchValidator (sourceChain destinationChain : string) : res (BatchValidator X) :=
  Validator.CreateBatchValidator (http_NewRequest C) (http_Do C) (json_Valid C) (json_BadRequestMessage C)
    {| Validator.SourceChain := sourceChain; Validator.DestinationChain := destinationChain;
       Validator.RequestURL := bvc_URL (cfg_BatchValidator cfg);
       Validator.RequestTime := seconds (bvc_RequestTimeInSeconds (cfg_BatchValidator cfg)) |}
    (bvc_Enabled (cfg_BatchValidator cfg)).

Definition topologyArgs (c : ConfigStateMachine) : Topology.ArgsTopologyHandler X :=
  {| Topology.Args_PublicKeysProvider := Some (roleProvider_SortedPublicKeys C);
     Topology.Args_Timer := Some (timer_NowUnix C);
     Topology.Args_IntervalForLeader := seconds (IntervalForLeaderInSeconds c);
     Topology.Args_AddressBytes := multiversXRelayerAddress C;
     Topology.Args_LogPresent := true;
     Topology.Args_AddressConverter := true |}.

(** [status.NewStatusHandler] followed by [metricsHolder.AddStatusHandler]. *)
Definition createStatusHandler (name : string) : M (relayer X) (res unit) :=
  loaded <?- on_env _ (Status.NewStatusHandler (storer_Get C) (metrics_Unmarshal C) name (map_iteration C) (statusStorer C));
  holder ← gets r_metrics;
  match Status.AddStatusHandler mt_Name (mkMetrics name loaded.1 loaded.2) holder with
  | (Some e, _) => mret (Err e)
  | (None, holder') => modify (set_metrics holder');; mret (Ok tt)
  end.

Definition executorArgs (name : string) (th : Topology.topologyHandler X) (sigs : SignaturesHolder X)
    (bv : BatchValidator X) : ArgsBridgeExecutor (relayer X) :=
  {| Args_Log := true;
     Args_TopologyProvider := Some (hoist_topology on_env (Topology.topology_interface (sha256 C) th));
     Args_MultiversXClient := Some (hoist_mx on_mvx (MvxClient.mx_interface (multiversXClient_ C)));
     Args_EthereumClient := Some (hoist_eth on_eth (EthClient.eth_interface (ethClient C) (map_iteration C)));
     Args_TimeForWaitOnEthereum := seconds (eth_IntervalToWaitForTransferInSeconds cfg);
     Args_StatusHandler := Some (hoist_status (on_status name)
       (Status.status_interface (storer_Put C) (metrics_Marshal C) name (map_iteration C)));
     Args_SignaturesHolder := Some (hoist_holder on_env sigs);
     Args_BatchValidator := Some (hoist_validator on_env bv);
     Args_MaxQuorumRetriesOnEthereum := eth_MaxRetriesOnQuorumReached cfg;
     Args_MaxQuorumRetriesOnMultiversX := mx_MaxRetriesOnQuorumReached cfg;
     Args_MaxRestriesOnWasProposed := mx_MaxRetriesOnWasTransferProposed cfg |}.

(** The body the two functions share: they differ in the machine's name, the direction given to
    the validator, the signatures holder and the steps created from the executor.  The result
    is the duration of a step and the executor. *)
Definition createBridge (name sourceChain destinationChain : string) (sigs : SignaturesHolder X)
    : M (relayer X) (res (Z * executorDeps (relayer X))) :=
  match cfg_StateMachine cfg !! name with
  | None => mret (Err (Errorf "%w for %q" errMissingConfig [GStr name]))
  | Some c =>
  match Topology.NewTopologyHandler (topologyArgs c) with
  | Err e => mret (Err e)
  | Ok None => panics NilDereference
  | Ok (Some th) =>
      registered <?- createStatusHandler name;
      match createBatchValidator sourceChain destinationChain with
      | Err e => mret (Err e)
      | Ok bv =>
          match NewBridgeExecutor (log_level C) (fun d => on_env _ (runtime_select C d)) (executorArgs name th sigs bv) with
          | Err e => mret (Err e)
          | Ok None => panics NilDereference
          | Ok (Some E) => mret (Ok (millis (StepDurationInMillis c), E))
          end
      end
  end end.

Definition createEthereumToMultiversXBridge : M (relayer X) (res (Z * executorDeps (relayer X))) :=
  createBridge (Chain.EvmCompatibleChainToMultiversXName (cfg_Chain cfg)) (cfg_Chain cfg) Chain.MultiversX
    SignatureHolder.disabledSignaturesHolder.

(** The signatures holder is the one the Ethereum client reads and the broadcaster feeds. *)
Definition createMultiversXToEthereumBridge : M (relayer X) (res (Z * executorDeps (relayer X))) :=
  createBridge (Chain.MultiversXToEvmCompatibleChainName (cfg_Chain cfg)) Chain.MultiversX (cfg_Chain cfg)
    (EthClient.signatureHolder (ethClient C)).

End Factory.

(** ** Laws *)

(** What the relayer relies on outside its own code: the calls of the nodes, the proxy, the
    store, the HTTP client and the timer return; SHA-256 has at least eight bytes; the limits
    are [uint64] values. *)
Class RelayerLaws {X T} (C : components X T) (cfg : Config) : Prop := {
  rl_chain :: EthClientFacts.ChainLaws (ethClient C);
  rl_proxy :: MvxClientFacts.ProxyLaws (multiversXClient_ C);
  rl_keys x : wp (roleProvider_SortedPublicKeys C) (fun keys _ => (Z.of_nat (length keys) < two63)%Z) x;
  rl_now : total (timer_NowUnix C);
  rl_sha256 b : 8 <= length (sha256 C b);
  rl_put k v : total (storer_Put C k v);
  rl_get k : total (storer_Get C k);
  rl_do u b : total (http_Do C u b);
  rl_select d : total (runtime_select C d);
  rl_clear : total (sig_ClearStoredSignatures (EthClient.signatureHolder (ethClient C)));
  rl_u64_eth : is_u64 (eth_MaxRetriesOnQuorumReached cfg);
  rl_u64_mx : is_u64 (mx_MaxRetriesOnQuorumReached cfg);
  rl_u64_proposed : is_u64 (mx_MaxRetriesOnWasTransferProposed cfg)
}.

(** What it relies on without checking it.  The batch validator, when it is enabled, drops the
    error of [http.NewRequest] and uses the request: the configured address, with the direction
    appended, must be one [http.NewRequest] accepts. *)
Definition validator_url (c : BatchValidatorConfig) (src dst : string) : string :=
  sprintf "%s/%s/%s" [GStr (bvc_URL c); GStr (Chain.ToLower src); GStr (Chain.ToLower dst)].

Definition url_accepted (NewRequest : string -> option error) (c : BatchValidatorConfig) (chain : string) : Prop :=
  bvc_Enabled c = true ->
  NewRequest (validator_url c chain Chain.MultiversX) = None /\ NewRequest (validator_url c Chain.MultiversX chain) = None.

(** And the executor truncates the contract's quorum to an [int64], though the contract accepts
    any [uint256]. *)
Definition quorum_fits {X T} (C : components X T) : Prop :=
  yields_quorum (EthClient.cw_Quorum (EthClient.clientWrapper (ethClient C))).

Section Laws.
Context {X T : Type} (C : components X T) (cfg : Config) `{!RelayerLaws C cfg}.

Lemma topology_total c th :
  Topology.NewTopologyHandler (topologyArgs C c) = Ok (Some th) -> total (Topology.MyTurnAsLeader (sha256 C) th).
Proof.
  unfold Topology.NewTopologyHandler, Topology.checkArgs. cbn.
  destruct (Z.leb_spec (Topology.int64_Seconds (seconds (IntervalForLeaderInSeconds c))) 0) as [?|Hi]; [done|].
  case_match; [done|]. intros [= <-] x. unfold Topology.MyTurnAsLeader. cbn.
  apply wp_bind. eapply wp_mono; [apply rl_keys|]. intros keys x1 Hk.
  destruct (Nat.eqb_spec (length keys) 0) as [?|Hne]; [done|].
  apply wp_bind. apply wp_total; [apply (rl_now (cfg := cfg))|]. intros now x2 _.
  apply wp_bind. unfold Topology.int64_div. destruct (Z.eqb_spec (Topology.int64_Seconds (seconds (IntervalForLeaderInSeconds c))) 0); [lia|].
  apply wp_ret. destruct (Topology.leader_index (sha256 C) (rl_sha256 (cfg := cfg)) now _ keys Hi ltac:(by intros ->) Hk) as (k & leader & -> & Hl).
  apply wp_bind, wp_ret. apply wp_bind. unfold Topology.index. destruct (Z.ltb_spec (Z.of_nat k) 0); [lia|].
  rewrite Nat2Z.id, Hl. by apply wp_ret.
Qed.

Lemma validator_ok src dst bv ob :
  (bvc_Enabled (cfg_BatchValidator cfg) = true -> http_NewRequest C (validator_url (cfg_BatchValidator cfg) src dst) = None) ->
  createBatchValidator C cfg src dst = Ok bv -> total (val_ValidateBatch bv ob).
Proof.
  intros Hurl. unfold createBatchValidator, Validator.CreateBatchValidator. case_match; [|by intros [= <-]].
  unfold Validator.NewBatchValidator. case_match; [done|]. intros [= <-]. cbn.
  apply Validator.validator_total; [by apply Hurl|apply (rl_do (cfg := cfg))].
Qed.

Lemma status_laws name :
  StatusHandlerLaws (hoist_status (on_status name)
    (Status.status_interface (storer_Put C) (metrics_Marshal C) name (map_iteration C))).
Proof.
  apply hoist_status_laws; [apply zoom_preserving|]. apply Status.status_interface_laws, (rl_put (C := C) (cfg := cfg)).
Qed.

(** The executor of either half-bridge satisfies the laws. *)
Lemma createBridge_laws name src dst sigs r d E r' :
  quorum_fits C ->
  (bvc_Enabled (cfg_BatchValidator cfg) = true -> http_NewRequest C (validator_url (cfg_BatchValidator cfg) src dst) = None) ->
  total (sig_ClearStoredSignatures sigs) -> createBridge C cfg name src dst sigs r = (Ret (Ok (d, E)), r') -> EnvLaws E.
Proof.
  intros Hquorum Hurl Hsigs. unfold createBridge. case_match; [|done]. case_match eqn:Ht; [|done]. case_match; [|done]. subst.
  intros Hrun. apply bind_ok_inv in Hrun as (registered & r1 & _ & Hrun). destruct (createBatchValidator C cfg src dst) as [bv|e] eqn:Hbv; [|done].
  unfold NewBridgeExecutor in Hrun. destruct (checkArgs _) as [e|]; [done|]. cbn in Hrun. injection Hrun as <- <- _.
  split; cbn; intros; try apply (rl_u64_eth (C := C)); try apply (rl_u64_mx (C := C)); try apply (rl_u64_proposed (C := C)).
  - apply hoist_mx_laws; [apply zoom_preserving|]. apply MvxClientFacts.mx_interface_laws, rl_proxy.
  - apply hoist_eth_laws; [apply zoom_preserving|]. apply EthClientFacts.eth_interface_laws; [apply rl_chain|exact Hquorum].
  - apply status_laws.
  - apply total_zoom. by eapply topology_total.
  - by apply total_zoom.
  - apply total_zoom. by eapply validator_ok.
  - apply total_zoom, (rl_select (cfg := cfg)).
Qed.

Lemma createStatusHandler_total name : total (createStatusHandler C name).
Proof.
  unfold createStatusHandler. apply total_bind_ok.
  - apply total_zoom, Status.NewStatusHandler_total, (rl_get (C := C) (cfg := cfg)).
  - intros loaded. solve_total.
Qed.

Lemma createBridge_total name src dst sigs : total (createBridge C cfg name src dst sigs).
Proof.
  unfold createBridge. case_match; [|apply total_ret]. case_match eqn:Ht; [|apply total_ret].
  case_match; [|unfold Topology.NewTopologyHandler in Ht; by case_match].
  apply total_bind_ok; [apply createStatusHandler_total|]. intros registered. case_match; [|apply total_ret].
  case_match eqn:He; [|apply total_ret]. case_match; [apply total_ret|].
  unfold NewBridgeExecutor in He. case_match; by simplify_eq.
Qed.
End Laws.

(** The relayer the factory assembles is safe: creating either half-bridge never panics, and
    when it succeeds, the executor built from the real clients, the topology handler, the
    validator, the status handler and the signatures holder drives its state machine through
    any number of steps without a panic or an error, every call on a chain being justified by
    what was observed before.  Besides what lies outside the relayer's code, running needs the two
    unchecked inputs to be sound; creating does not. *)
Theorem relayer_safe {X T} (C : components X T) (cfg : Config) `{!RelayerLaws C cfg} (r : relayer X) (n : nat) :
  (exists res1 r1, createEthereumToMultiversXBridge C cfg r = (Ret res1, r1) /\
     forall d E, res1 = Ok (d, E) -> quorum_fits C -> url_accepted (http_NewRequest C) (cfg_BatchValidator cfg) (cfg_Chain cfg) ->
       runs_to (eth_to_mvx_run (observed E) (initExec (r1, [])) n)
               (fun s => tl_ok EthToMvxSafety.justified (snd (world s)))) /\
  (exists res2 r2, createMultiversXToEthereumBridge C cfg r = (Ret res2, r2) /\
     forall d E, res2 = Ok (d, E) -> quorum_fits C -> url_accepted (http_NewRequest C) (cfg_BatchValidator cfg) (cfg_Chain cfg) ->
       runs_to (mvx_to_eth_run (observed E) (initExec (r2, [])) n)
               (fun s => tl_ok MvxToEthSafety.justified (snd (world s)))).
Proof.
  split.
  - unfold createEthereumToMultiversXBridge. set (c := createBridge _ _ _ _ _ _).
    assert (Ht : total c) by by apply (createBridge_total C cfg). specialize (Ht r). unfold wp in Ht.
    destruct (c r) as [[res1|p] r1] eqn:Hc; [|done]. exists res1, r1. split; [done|]. intros d E -> Hq Hu.
    apply eth_to_mvx_runs. eapply (createBridge_laws C cfg); [exact Hq| | |exact Hc]; [intros He; apply (Hu He)|apply total_ret].
  - unfold createMultiversXToEthereumBridge. set (c := createBridge _ _ _ _ _ _).
    assert (Ht : total c) by by apply (createBridge_total C cfg). specialize (Ht r). unfold wp in Ht.
    destruct (c r) as [[res1|p] r1] eqn:Hc; [|done]. exists res1, r1. split; [done|]. intros d E -> Hq Hu.
    apply mvx_to_eth_runs. eapply (createBridge_laws C cfg); [exact Hq| | |exact Hc]; [intros He; apply (Hu He)|apply (rl_clear (cfg := cfg))].
Qed.


(** ** A small relayer *)

Definition toy_config : Config := {|
  cfg_Chain := Chain.Ethereum;
  cfg_StateMachine := {[ "EthereumToMultiversX" := mkSmConfig 1000 120; "MultiversXToEthereum" := mkSmConfig 1000 720 ]};
  cfg_BatchValidator := mkBvConfig false "" 1;
  eth_MaxRetriesOnQuorumReached := 3; eth_IntervalToWaitForTransferInSeconds := 20;
  mx_MaxRetriesOnQuorumReached := 3; mx_MaxRetriesOnWasTransferProposed := 3 |}.

Definition toy_components : components EthClientFacts.toy_world string := {|
  ethClient := EthClientFacts.toy_client;
  multiversXClient_ := MvxClientFacts.toy_mx_at EthClientFacts.toy_world;
  roleProvider_SortedPublicKeys := mret [[Byte.x01]];
  timer_NowUnix := mret 1700000000%Z;
  multiversXRelayerAddress := [Byte.x01];
  sha256 := Topology.toy_sha256;
  statusStorer := true;
  storer_Put _ _ := mret None;
  storer_Get k := mret (Err (ErrExternal "key not found"));
  metrics_Marshal _ := Ok [];
  metrics_Unmarshal _ := Err (ErrExternal "malformed");
  http_NewRequest _ := None;
  http_Do _ _ := mret (Err (ErrExternal "no route to host"));
  json_Valid _ := Ok true;
  json_BadRequestMessage _ := Ok "";
  map_iteration := some_order;
  log_level _ := "DEBUG";
  runtime_select _ := mret true |}.

#[export] Instance toy_relayer_laws : RelayerLaws toy_components toy_config.
Proof.
  split; intros; try (exact _ || done || by vm_compute).
  - apply MvxClientFacts.toy_proxy_laws.
  - cbn [sha256 toy_components]. unfold Topology.toy_sha256. rewrite length_take, length_app, length_replicate. lia.
Qed.


Definition toy_relayer : relayer EthClientFacts.toy_world := mkRelayer 0 0 false 0 0 0 ∅ [].

(** The executor of the first half-bridge and the relayer's state after its creation. *)
Definition toy_bridge : option (executorDeps (relayer EthClientFacts.toy_world) * relayer EthClientFacts.toy_world) :=
  match createEthereumToMultiversXBridge toy_components toy_config toy_relayer with
  | (Ret (Ok (_, E)), r) => Some (E, r)
  | _ => None
  end.

Lemma relayer_safe_witness :
  match toy_bridge with
  | Some (E, r) => runs_to (eth_to_mvx_run (observed E) (initExec (r, [])) 4)
                     (fun s => tl_ok EthToMvxSafety.justified (snd (world s)))
  | None => False
  end.
Proof.
  pose proof (relayer_safe toy_components toy_config toy_relayer 4) as [(res1 & r1 & Hc & Hsafe) _].
  unfold toy_bridge. rewrite Hc. destruct res1 as [[d E]|e]; [eapply Hsafe; [reflexivity|intros x; by vm_compute|intros Hon; discriminate Hon]|].
  assert (Hok : bool_decide (is_Some toy_bridge) = true) by (vm_compute; reflexivity).
  unfold toy_bridge in Hok. rewrite Hc in Hok. discriminate Hok.
Defined.

(** Two ticks of the assembled relayer: it fetches the next batch, checks its nonces against
    the last executed one and, being the leader, proposes its transfer. *)
Definition toy_fetched : TransferBatch :=
  mkBatch 1 (tb_Deposits EthClientFacts.toy_batch) (tb_Statuses EthClientFacts.toy_batch).

Example relayer_round :
  (fun '(E, r) => history (eth_to_mvx_run (observed E) (initExec (r, [])) 2)) <$> toy_bridge =
  Some (Some [EvLastBatchID (Ok 0%Z); EvGetBatch 1 (Ok (Some toy_fetched)); EvValidate (Some toy_fetched) (Ok true);
              EvLastTxID (Ok 7%Z); EvWasProposedTransfer (Some toy_fetched) (Ok false); EvLeader true;
              EvProposeTransfer (Some toy_fetched) (Ok "txhash")]).
Proof. vm_compute. reflexivity. Qed.

End Relayer.
