(* ===== verification/Config.v ===== *)
(** * Configuration

    The types of [src/bridge/config/config.go], field by field, and the part of them the
    half-bridges read.  Types of other repositories that occur in them (the antiflood
    configuration of the messenger, the storage configuration) are parameters; of the
    marshalizer's only the type name is used. *)
From S2P Require Import Prelude Go MvxClient Relayer.

Module Configs.

Record GasStationConfig := {
  gsc_Enabled : bool;
  gsc_URL : string;
  gsc_PollingIntervalInSeconds : Z;
  gsc_RequestRetryDelayInSeconds : Z;
  gsc_MaxFetchRetries : Z;
  gsc_RequestTimeInSeconds : Z;
  gsc_MaximumAllowedGasPrice : Z;
  gsc_GasPriceSelector : string;
  gsc_GasPriceMultiplier : Z
}.

Record EthereumConfig := {
  ec_Chain : string;
  ec_NetworkAddress : string;
  ec_MultisigContractAddress : string;
  ec_SafeContractAddress : string;
  ec_PrivateKeyFile : string;
  ec_IntervalToResendTxsInSeconds : Z;
  ec_GasLimitBase : Z;
  ec_GasLimitForEach : Z;
  ec_GasStation : GasStationConfig;
  ec_MaxRetriesOnQuorumReached : Z;
  ec_IntervalToWaitForTransferInSeconds : Z;
  ec_MaxBlocksDelta : Z
}.

Record MultiversXConfig := {
  mc_NetworkAddress : string;
  mc_MultisigContractAddress : string;
  mc_PrivateKeyFile : string;
  mc_IntervalToResendTxsInSeconds : Z;
  mc_GasMap : MvxClient.MultiversXGasMapConfig;
  mc_MaxRetriesOnQuorumReached : Z;
  mc_MaxRetriesOnWasTransferProposed : Z;
  mc_ProxyCacherExpirationSeconds : Z;
  mc_ProxyRestAPIEntityType : string;
  mc_ProxyMaxNoncesDelta : Z;
  mc_ProxyFinalityCheck : bool
}.

Record ConfigP2P (A : Type) := {
  p2pc_Port : string;
  p2pc_InitialPeerList : list string;
  p2pc_ProtocolID : string;
  p2pc_AntifloodConfig : A
}.
Arguments p2pc_Port {A} _.
Arguments p2pc_InitialPeerList {A} _.
Arguments p2pc_ProtocolID {A} _.
Arguments p2pc_AntifloodConfig {A} _.

Record RoleProviderConfig := mkRoleConfig { PollingIntervalInMillis : Z }.

Record ConfigRelayer (S : Type) := {
  rc_Marshalizer_Type : string;
  rc_RoleProvider : RoleProviderConfig;
  rc_StatusMetricsStorage : S
}.
Arguments rc_Marshalizer_Type {S} _.
Arguments rc_RoleProvider {S} _.
Arguments rc_StatusMetricsStorage {S} _.

Record LogsConfig := mkLogs { LogFileLifeSpanInSec : Z; LogFileLifeSpanInMB : Z }.

Record WebServerAntifloodConfig := mkWsFlood {
  SimultaneousRequests : Z;
  SameSourceRequests : Z;
  SameSourceResetIntervalInSec : Z
}.

Record AntifloodConfig := mkFlood {
  af_Enabled : bool;
  af_WebServer : WebServerAntifloodConfig
}.

Record PeersRatingConfig := mkRating { TopRatedCacheCapacity : Z; BadRatedCacheCapacity : Z }.

Record Config (A S : Type) := {
  cf_Eth : EthereumConfig;
  cf_MultiversX : MultiversXConfig;
  cf_P2P : ConfigP2P A;
  cf_StateMachine : gmap string Relayer.ConfigStateMachine;
  cf_Relayer : ConfigRelayer S;
  cf_Logs : LogsConfig;
  cf_Antiflood : AntifloodConfig;
  cf_BatchValidator : Relayer.BatchValidatorConfig;
  cf_PeersRatingConfig : PeersRatingConfig
}.
Arguments cf_Eth {A S} _.
Arguments cf_MultiversX {A S} _.
Arguments cf_P2P {A S} _.
Arguments cf_StateMachine {A S} _.
Arguments cf_Relayer {A S} _.
Arguments cf_Logs {A S} _.
Arguments cf_Antiflood {A S} _.
Arguments cf_BatchValidator {A S} _.
Arguments cf_PeersRatingConfig {A S} _.

Record RouteConfig := mkRoute { route_Name : string; route_Open : bool }.
Record APIPackageConfig := mkPackage { Routes : list RouteConfig }.
Record ApiLoggingConfig := mkApiLogging { LoggingEnabled : bool; ThresholdInMicroSeconds : Z }.
Record ApiRoutesConfig := mkApiRoutes {
  api_Logging : ApiLoggingConfig;
  APIPackages : gmap string APIPackageConfig
}.

Record ContextFlagsConfig := {
  fl_WorkingDir : string;
  fl_LogLevel : string;
  fl_DisableAnsiColor : bool;
  fl_ConfigurationFile : string;
  fl_ConfigurationApiFile : string;
  fl_SaveLogFile : bool;
  fl_EnableLogName : bool;
  fl_RestApiInterface : string;
  fl_EnablePprof : bool
}.

Record Configs (A S : Type) := mkConfigs {
  GeneralConfig : Config A S;
  ApiRoutes : ApiRoutesConfig;
  FlagsConfig : ContextFlagsConfig
}.
Arguments mkConfigs {A S} _ _ _.
Arguments GeneralConfig {A S} _.
Arguments ApiRoutes {A S} _.
Arguments FlagsConfig {A S} _.

(** What the creation of the half-bridges reads of it. *)
Definition relayer_config {A S} (c : Config A S) : Relayer.Config := {|
  Relayer.cfg_Chain := ec_Chain (cf_Eth c);
  Relayer.cfg_StateMachine := cf_StateMachine c;
  Relayer.cfg_BatchValidator := cf_BatchValidator c;
  Relayer.eth_MaxRetriesOnQuorumReached := ec_MaxRetriesOnQuorumReached (cf_Eth c);
  Relayer.eth_IntervalToWaitForTransferInSeconds := ec_IntervalToWaitForTransferInSeconds (cf_Eth c);
  Relayer.mx_MaxRetriesOnQuorumReached := mc_MaxRetriesOnQuorumReached (cf_MultiversX c);
  Relayer.mx_MaxRetriesOnWasTransferProposed := mc_MaxRetriesOnWasTransferProposed (cf_MultiversX c) |}.

End Configs.
