(* ===== verification/Api.v ===== *)
(** * The REST interface

    The facade ([src/bridge/facade/relayerFacade.go]), the groups of endpoints
    ([src/bridge/api/groups]) and the web server ([src/bridge/api/gin], started by
    [src/bridge/factory/webServer.go]).  The gin engine is what was registered with it: its
    middlewares and its routes; throttlers, the HTTP server and the two errors of another
    repository are parameters.  Handlers are methods of their group: they use the facade the
    group has when a request arrives. *)
From S2P Require Import Prelude Go Text Common Keys Interfaces Status Config.
Open Scope go_scope.

Module Api.

Definition ErrNilFacade := ErrNew "apiErrors.ErrNilFacade" "nil facade".
Definition ErrGettingMetrics := ErrNew "groups.ErrGettingMetrics" "error getting metrics".

Definition clientQueryParam : string := "name".
Definition statusPath : string := "/status".
Definition statusListPath : string := "/status/list".
Definition WebServerOffString : string := "off".

Abbreviation GeneralMetrics := (gmap string gval).

(** ** The facade *)

Record FacadeHandler (X : Type) := {
  RestApiInterface : string;
  PprofEnabled : bool;
  GetMetrics : string -> M X (res GeneralMetrics);
  GetMetricsList : M X GeneralMetrics
}.
Arguments RestApiInterface {X} _.
Arguments PprofEnabled {X} _.
Arguments GetMetrics {X} _ _.
Arguments GetMetricsList {X} _.

(** The metrics holder lives in the world: [None] is a nil one. *)
Record ArgsRelayerFacade (X H : Type) := {
  Args_MetricsHolder : option (X -> gmap string H);
  Args_ApiInterface : string;
  Args_PprofEnabled : bool
}.
Arguments Args_MetricsHolder {X H} _.
Arguments Args_ApiInterface {X H} _.
Arguments Args_PprofEnabled {X H} _.

Definition NewRelayerFacade {X H} (handler_GetAllMetrics : H -> GeneralMetrics) (o : map_order) (args : ArgsRelayerFacade X H)
    : res (FacadeHandler X) :=
  match Args_MetricsHolder args with
  | None => Err Status.ErrNilMetricsHolder
  | Some holder => Ok {|
      RestApiInterface := Args_ApiInterface args;
      PprofEnabled := Args_PprofEnabled args;
      GetMetrics name := gets (fun x => Status.facade_GetMetrics handler_GetAllMetrics (holder x) name);
      GetMetricsList := gets (fun x => Status.facade_GetMetricsList o (holder x)) |}
  end.

(** ** Responses *)

Inductive ReturnCode := ReturnCodeSuccess | ReturnCodeInternalError.

Record GenericAPIResponse := mkGeneric {
  rsp_Data : option GeneralMetrics;
  rsp_Error : string;
  rsp_Code : ReturnCode
}.

(** [c.JSON(status, body)]. *)
Record response := mkJSON { rsp_Status : Z; rsp_Body : GenericAPIResponse }.

Definition StatusOK : Z := 200.
Definition StatusInternalServerError : Z := 500.

(** ** Groups *)

Inductive endpoint := StatusMetrics | StatusListMetrics.

#[export] Instance endpoint_eq_dec : EqDecision endpoint.
Proof. solve_decision. Defined.

Record EndpointHandlerData := mkEndpoint {
  ep_Path : string;
  ep_Method : string;
  ep_Handler : endpoint
}.

Record endpointProperties := mkProperties { isOpen : bool }.

Fixpoint find_route (path : string) (routes : list Configs.RouteConfig) : endpointProperties :=
  match routes with
  | [] => mkProperties false
  | route :: rest =>
      if String.eqb (Configs.route_Name route) path then mkProperties (Configs.route_Open route) else find_route path rest
  end.

(** The group's name is the last token of the base path. *)
Definition getEndpointProperties (basePath path : string) (apiConfig : Configs.ApiRoutesConfig) : endpointProperties :=
  let basePath := default "" (last (strings_Split "/" basePath)) in
  match Configs.APIPackages apiConfig !! basePath with
  | None => mkProperties false
  | Some group => find_route path (Configs.Routes group)
  end.

(** The routes a group adds to the engine: the base path, the endpoint's path and the handler. *)
Record route := mkRegistered { rt_Method : string; rt_Base : string; rt_Path : string; rt_Handler : endpoint }.

#[export] Instance route_eq_dec : EqDecision route.
Proof. solve_decision. Defined.

Fixpoint RegisterRoutes (endpoints : list EndpointHandlerData) (basePath : string) (apiConfig : Configs.ApiRoutesConfig)
    (ginRouter : list route) : list route :=
  match endpoints with
  | [] => ginRouter
  | e :: rest =>
      if negb (isOpen (getEndpointProperties basePath (ep_Path e) apiConfig)) then RegisterRoutes rest basePath apiConfig ginRouter
      else RegisterRoutes rest basePath apiConfig (ginRouter ++ [mkRegistered (ep_Method e) basePath (ep_Path e) (ep_Handler e)])
  end.

Section Groups.
Context {X : Type} (ErrNilFacadeHandler : error).

Record nodeGroup := mkGroup {
  ng_endpoints : list EndpointHandlerData;
  ng_facade : FacadeHandler X
}.

Definition NewNodeGroup (facade : option (FacadeHandler X)) : res nodeGroup :=
  match facade with
  | None => Err (Errorf "%w for node group" ErrNilFacadeHandler [])
  | Some f => Ok (mkGroup [mkEndpoint statusPath "GET" StatusMetrics; mkEndpoint statusListPath "GET" StatusListMetrics] f)
  end.

Definition statusListMetrics (ng : nodeGroup) : M X response :=
  l ← GetMetricsList (ng_facade ng);
  mret (mkJSON StatusOK (mkGeneric (Some l) "" ReturnCodeSuccess)).

(** [query] is the parsed query string. *)
Definition statusMetrics (ng : nodeGroup) (query : gmap string (list string)) : M X response :=
  let name := match query !! clientQueryParam with Some (n :: _) => n | _ => "" end in
  r ← GetMetrics (ng_facade ng) name;
  match r with
  | Err e => mret (mkJSON StatusInternalServerError
      (mkGeneric None (sprintf "%s: %s" [GStr (error_text ErrGettingMetrics); GStr (error_text e)]) ReturnCodeInternalError))
  | Ok info => mret (mkJSON StatusOK (mkGeneric (Some info) "" ReturnCodeSuccess))
  end.

Definition group_UpdateFacade (newFacade : option (FacadeHandler X)) (ng : nodeGroup) : option error * nodeGroup :=
  match newFacade with
  | None => (Some ErrNilFacadeHandler, ng)
  | Some f => (None, mkGroup (ng_endpoints ng) f)
  end.

Definition call (e : endpoint) (ng : nodeGroup) (query : gmap string (list string)) : M X response :=
  match e with StatusMetrics => statusMetrics ng query | StatusListMetrics => statusListMetrics ng end.
End Groups.
Arguments nodeGroup X : clear implicits.

(** ** The web server *)

Section WebServer.
Context {X P : Type} (ErrNilFacadeHandler ErrNilHttpServer : error).
Context (NewResponseLoggerMiddleware : Z -> P) (NewSourceThrottler NewGlobalThrottler : Z -> res P).
Context (Shutdown : M X (option error)).

(** The engine after its configuration: the routes of the groups, the websocket route of the logs,
    which is always registered, and whether [pprof.Register] was called. *)
Record engine := mkEngine {
  en_middlewares : list P;
  en_routes : list route;
  en_logRoute : bool;
  en_pprof : bool
}.

(** [httpServer] holds the address and the engine of the server that was started, in a goroutine of
    its own; [resetLoop] says whether the goroutine that resets the source limiter runs,
    [ctxDone] whether its context was cancelled. *)
Record webServer := mkServer {
  ws_facade : FacadeHandler X;
  ws_apiConfig : Configs.ApiRoutesConfig;
  ws_antiFlood : Configs.AntifloodConfig;
  ws_httpServer : option (string * engine);
  ws_groups : gmap string (nodeGroup X);
  ws_cancelFunc : bool;
  ws_ctxDone : bool;
  ws_resetLoop : bool;
  ws_world : X
}.

(** The two configurations are structures: they are never nil. *)
Definition NewWebServerHandler (facade : option (FacadeHandler X)) (apiConfig : Configs.ApiRoutesConfig)
    (antiFlood : Configs.AntifloodConfig) (x : X) : res webServer :=
  match facade with
  | None => Err ErrNilFacade
  | Some f => Ok (mkServer f apiConfig antiFlood None ∅ false false false x)
  end.

Local Abbreviation W := (M webServer).

Definition set_httpServer v (w : webServer) : webServer :=
  mkServer (ws_facade w) (ws_apiConfig w) (ws_antiFlood w) v (ws_groups w) (ws_cancelFunc w) (ws_ctxDone w) (ws_resetLoop w) (ws_world w).
Definition set_groups v (w : webServer) : webServer :=
  mkServer (ws_facade w) (ws_apiConfig w) (ws_antiFlood w) (ws_httpServer w) v (ws_cancelFunc w) (ws_ctxDone w) (ws_resetLoop w) (ws_world w).
Definition set_loop (c d r : bool) (w : webServer) : webServer :=
  mkServer (ws_facade w) (ws_apiConfig w) (ws_antiFlood w) (ws_httpServer w) (ws_groups w) c d r (ws_world w).
Definition set_ws_world (x : X) (w : webServer) : webServer :=
  mkServer (ws_facade w) (ws_apiConfig w) (ws_antiFlood w) (ws_httpServer w) (ws_groups w) (ws_cancelFunc w) (ws_ctxDone w) (ws_resetLoop w) x.

Definition createGroups : W (option error) :=
  f ← gets ws_facade;
  match NewNodeGroup ErrNilFacadeHandler (Some f) with
  | Err e => mret (Some e)
  | Ok nodeGroup => modify (set_groups {["node" := nodeGroup]});; mret None
  end.

(** The reset loop of the source limiter is started before the global limiter is created. *)
Definition createAntifloodLimiters : W (res (list P)) :=
  cfg ← gets ws_antiFlood;
  if negb (Configs.af_Enabled cfg) then mret (Ok [])
  else
    let wsAntifloodCfg := Configs.af_WebServer cfg in
    match NewSourceThrottler (Configs.SameSourceRequests wsAntifloodCfg) with
    | Err e => mret (Err e)
    | Ok sourceLimiter =>
        modify (set_loop true false true);;
        match NewGlobalThrottler (Configs.SimultaneousRequests wsAntifloodCfg) with
        | Err e => mret (Err e)
        | Ok globalLimiter => mret (Ok [sourceLimiter; globalLimiter])
        end
    end.

Definition createMiddlewareLimiters : W (res (list P)) :=
  cfg ← gets ws_apiConfig;
  let logging := Configs.api_Logging cfg in
  let first := if Configs.LoggingEnabled logging
               then [NewResponseLoggerMiddleware (i64 (i64 (Configs.ThresholdInMicroSeconds logging) * 1000))] else [] in
  antiFloodLimiters <?- createAntifloodLimiters;
  mret (Ok (first ++ antiFloodLimiters)).

(** The only group is "node". *)
Definition registerRoutes (o : map_order) (middlewares : list P) (w : webServer) : engine :=
  mkEngine middlewares
    (foldl (fun router name =>
       match ws_groups w !! name with
       | Some g => RegisterRoutes (ng_endpoints g) ("/" +:+ name) (ws_apiConfig w) router
       | None => router
       end) [] (range_keys o (ws_groups w)))
    true (PprofEnabled (ws_facade w)).

Definition NewHttpServer (server : option (string * engine)) : res (string * engine) :=
  match server with
  | None => Err ErrNilHttpServer
  | Some s => Ok s
  end.

Definition StartHttpServer (o : map_order) : W (option error) :=
  f ← gets ws_facade;
  if String.eqb (RestApiInterface f) WebServerOffString then mret None
  else
    err ← createGroups;
    match err with
    | Some e => mret (Some e)
    | None =>
        r ← createMiddlewareLimiters;
        match r with
        | Err e => mret (Some e)
        | Ok processors =>
            w ← gets id;
            match NewHttpServer (Some (RestApiInterface f, registerRoutes o processors w)) with
            | Err e => mret (Some e)
            | Ok s => modify (set_httpServer (Some s));; mret None
            end
        end
    end.

Definition update_group (f : FacadeHandler X) (g : nodeGroup X) : nodeGroup X :=
  snd (group_UpdateFacade ErrNilFacadeHandler (Some f) g).

Definition UpdateFacade (facade : option (FacadeHandler X)) : W (option error) :=
  match facade with
  | None => mret (Some ErrNilFacade)
  | Some f =>
      modify (fun w => mkServer f (ws_apiConfig w) (ws_antiFlood w) (ws_httpServer w) (update_group f <$> ws_groups w)
                         (ws_cancelFunc w) (ws_ctxDone w) (ws_resetLoop w) (ws_world w));;
      mret None
  end.

(** One [select] of the reset loop: a tick of the timer resets the limiter, a cancelled context
    ends the loop. *)
Definition sourceLimiterReset_turn (Reset : M X unit) (timerFired : bool) : W unit :=
  w ← gets id;
  if negb (ws_resetLoop w) then mret tt
  else if timerFired then zoom ws_world set_ws_world Reset
  else if ws_ctxDone w then modify (set_loop (ws_cancelFunc w) true false) else mret tt.

Definition ws_Close : W (option error) :=
  w ← gets id;
  (if ws_cancelFunc w then modify (set_loop true true (ws_resetLoop w)) else mret tt);;
  match ws_httpServer w with
  | None => mret None
  | Some _ =>
      err ← zoom ws_world set_ws_world Shutdown;
      mret ((fun e => Errorf "%w while closing the http server in gin/webServer" e []) <$> err)
  end.

(** What answers a request: a handler of a group with its JSON response, the handler that upgrades
    the connection and sends the logs until it is closed, or a handler of [pprof]. *)
Inductive served := ServedJSON (r : outcome response) | ServedLogs | ServedProfile.

Definition logRoute (method path : string) : bool := String.eqb method "GET" && String.eqb path "/log".

(** Serving a request: the route of the method and path, a group's with its current facade; [None]
    when no route was registered.  [pprof_routes] says what [pprof.Register] registers. *)
Definition find_registered (method path : string) (l : list route) : option route :=
  head (filter (fun r => rt_Method r = method /\ rt_Base r +:+ rt_Path r = path) l).

Definition serve (pprof_routes : string -> string -> bool) (method path : string) (query : gmap string (list string)) (w : webServer)
    : option served :=
  s ← ws_httpServer w;
  match find_registered method path (en_routes (snd s)) with
  | Some r => g ← ws_groups w !! "node"; Some (ServedJSON (fst (call (rt_Handler r) g query (ws_world w))))
  | None =>
      if en_logRoute (snd s) && logRoute method path then Some ServedLogs
      else if en_pprof (snd s) && pprof_routes method path then Some ServedProfile
      else None
  end.
End WebServer.
Arguments webServer X P : clear implicits.


(** ** What is served *)

(** A route is open when the first one of its name in the group's configuration is. *)
Definition route_open (apiConfig : Configs.ApiRoutesConfig) (group path : string) : bool :=
  match Configs.APIPackages apiConfig !! group with
  | Some package =>
      match list_find (fun r => Configs.route_Name r = path) (Configs.Routes package) with
      | Some (_, r) => Configs.route_Open r
      | None => false
      end
  | None => false
  end.

Lemma find_route_spec path l :
  isOpen (find_route path l) = match list_find (fun r => Configs.route_Name r = path) l with Some (_, r) => Configs.route_Open r | None => false end.
Proof.
  induction l as [|r l IH]; [done|]. cbn [find_route list_find].
  destruct (String.eqb_spec (Configs.route_Name r) path) as [<-|Hne]; [by rewrite decide_True|]. rewrite decide_False by done. rewrite IH.
  by destruct (list_find _ l) as [[]|].
Qed.

Lemma properties_spec apiConfig path : isOpen (getEndpointProperties "/node" path apiConfig) = route_open apiConfig "node" path.
Proof.
  unfold getEndpointProperties, route_open. change (default "" (last (strings_Split "/" "/node"))) with "node".
  destruct (_ !! "node"); [apply find_route_spec|done].
Qed.

(** The routes of the node group: those that are open, nothing else. *)
Definition node_routes (apiConfig : Configs.ApiRoutesConfig) : list route :=
  (if route_open apiConfig "node" statusPath then [mkRegistered "GET" "/node" statusPath StatusMetrics] else []) ++
  (if route_open apiConfig "node" statusListPath then [mkRegistered "GET" "/node" statusListPath StatusListMetrics] else []).

Lemma node_group_routes apiConfig :
  RegisterRoutes [mkEndpoint statusPath "GET" StatusMetrics; mkEndpoint statusListPath "GET" StatusListMetrics] "/node" apiConfig [] =
  node_routes apiConfig.
Proof.
  cbn [RegisterRoutes ep_Path ep_Method ep_Handler]. rewrite !properties_spec. unfold node_routes.
  by destruct (route_open apiConfig "node" statusPath), (route_open apiConfig "node" statusListPath).
Qed.

Lemma node_routes_found apiConfig :
  find_registered "GET" "/node/status" (node_routes apiConfig) =
    (if route_open apiConfig "node" statusPath then Some (mkRegistered "GET" "/node" statusPath StatusMetrics) else None) /\
  find_registered "GET" "/node/status/list" (node_routes apiConfig) =
    (if route_open apiConfig "node" statusListPath then Some (mkRegistered "GET" "/node" statusListPath StatusListMetrics) else None).
Proof.
  unfold node_routes. destruct (route_open apiConfig "node" statusPath), (route_open apiConfig "node" statusListPath); split; vm_compute; reflexivity.
Qed.

Section Served.
Context {X P : Type} (e1 e2 : error) (mk_log : Z -> P) (mk_source mk_global : Z -> res P).

Lemma StartHttpServer_total (o : map_order) : total (StartHttpServer (X := X) e1 e2 mk_log mk_source mk_global o).
Proof.
  unfold StartHttpServer, createGroups, createMiddlewareLimiters, createAntifloodLimiters, NewNodeGroup, NewHttpServer. solve_total.
Qed.

Lemma StartHttpServer_serves facade apiConfig antiFlood (x : X) w (o : map_order) w' :
  NewWebServerHandler (P := P) (Some facade) apiConfig antiFlood x = Ok w -> RestApiInterface facade <> WebServerOffString ->
  StartHttpServer e1 e2 mk_log mk_source mk_global o w = (Ret None, w') ->
  (exists en, ws_httpServer w' = Some (RestApiInterface facade, en) /\ en_routes en = node_routes apiConfig /\ en_logRoute en = true /\
     en_pprof en = PprofEnabled facade) /\
  (exists g, ws_groups w' !! "node" = Some g /\ ng_facade g = facade) /\ ws_world w' = x.
Proof.
  intros [= <-] Hoff H. unfold StartHttpServer in H. apply bind_ret_inv in H as (f & w0 & Hf & H). injection Hf as <- <-. cbn [ws_facade] in H.
  destruct (String.eqb_spec (RestApiInterface facade) WebServerOffString) as [?|_]; [done|].
  apply bind_ret_inv in H as (err & w1 & Hgr & H). injection Hgr as <- Hw1'. apply bind_ret_inv in H as (r & w2 & Hm & H).
  destruct r as [ps|e]; [|done].
  assert (Hw2 : ws_facade w2 = facade /\ ws_apiConfig w2 = apiConfig /\ ws_groups w2 = ws_groups w1 /\ ws_world w2 = x).
  { subst w1. revert Hm. unfold createMiddlewareLimiters, createAntifloodLimiters, bind_ok, mbind, M_bind, gets. cbn.
    destruct (negb (Configs.af_Enabled antiFlood)); [by intros [= _ <-]|]. destruct (mk_source _); [|done]. cbn. destruct (mk_global _); [|done].
    by intros [= _ <-]. }
  destruct Hw2 as (Hf & Ha & Hg & Hx). clear Hm. cbn in H. injection H as <-. subst w1. split.
  - eexists. split; [done|]. split; [|split; [done|by cbn; rewrite Hf]]. cbn [en_routes registerRoutes]. rewrite Hg, Ha.
    cbn [ws_groups set_groups]. assert (Hk : range_keys o {["node" := mkGroup [mkEndpoint statusPath "GET" StatusMetrics;
      mkEndpoint statusListPath "GET" StatusListMetrics] facade]} = ["node"]).
    { apply Permutation_singleton_r. unfold range_keys. rewrite order_perm, map_to_list_singleton. done. }
    rewrite Hk. cbn [foldl]. rewrite lookup_singleton_eq. apply node_group_routes.
  - split; [|exact Hx]. cbn [ws_groups set_httpServer]. rewrite Hg. cbn [ws_groups set_groups]. rewrite lookup_singleton_eq. by eexists.
Qed.
End Served.

(** The name asked for. *)
Definition asked (query : gmap string (list string)) : string :=
  match query !! clientQueryParam with Some (n :: _) => n | _ => "" end.

Lemma node_routes_other apiConfig method path :
  find_registered method path (node_routes apiConfig) <> None <-> method = "GET" /\
    ((path = "/node/status" /\ route_open apiConfig "node" statusPath = true) \/
     (path = "/node/status/list" /\ route_open apiConfig "node" statusListPath = true)).
Proof.
  destruct (node_routes_found apiConfig) as [Hst Hli]. split.
  - intros Hne. unfold find_registered in Hne.
    destruct (head (filter _ (node_routes apiConfig))) as [r|] eqn:Hhead; [|done]. apply head_Some_elem_of, list_elem_of_filter in Hhead as [[<- <-] Hin].
    unfold node_routes in Hin. apply elem_of_app in Hin as [Hin|Hin]; (case_match; [apply list_elem_of_singleton in Hin as ->; auto|by apply not_elem_of_nil in Hin]).
  - intros [-> [[-> Ho]|[-> Ho]]]; [rewrite Hst, Ho|rewrite Hli, Ho]; done.
Qed.


(** After [UpdateFacade] the handlers use the new facade. *)
Lemma UpdateFacade_effect {X P} (e : error) (f : FacadeHandler X) (w : webServer X P) g :
  ws_groups w !! "node" = Some g ->
  exists w', UpdateFacade e (Some f) w = (Ret None, w') /\ ws_facade w' = f /\ ws_groups w' !! "node" = Some (mkGroup (ng_endpoints g) f).
Proof. intros Hg. eexists. split; [done|]. cbn. by rewrite lookup_fmap, Hg. Qed.

(** ** A small server *)

Definition toy_metrics : gmap string GeneralMetrics := {[ "eth-client" := {[ "num ethereum client requests" := GInt 3 ]} ]}.
Definition toy_facade_args : ArgsRelayerFacade unit GeneralMetrics :=
  {| Args_MetricsHolder := Some (fun _ => toy_metrics); Args_ApiInterface := ":8080"; Args_PprofEnabled := false |}.
Definition toy_api : Configs.ApiRoutesConfig :=
  Configs.mkApiRoutes (Configs.mkApiLogging true 100)
    {[ "node" := Configs.mkPackage [Configs.mkRoute "/status" true; Configs.mkRoute "/status/list" false] ]}.
Definition toy_facade : FacadeHandler unit := {|
  RestApiInterface := ":8080"; PprofEnabled := false;
  GetMetrics name := gets (fun _ => Status.facade_GetMetrics id toy_metrics name);
  GetMetricsList := gets (fun _ => Status.facade_GetMetricsList some_order toy_metrics) |}.
Definition toy_server : webServer unit nat :=
  mkServer toy_facade toy_api (Configs.mkFlood true (Configs.mkWsFlood 100 10000 1)) None ∅ false false false tt.
Definition toy_start : outcome (option error) * webServer unit nat :=
  StartHttpServer (ErrExternal "nil facade handler") (ErrExternal "nil http server") (fun _ => 1) (fun _ => Ok 2) (fun _ => Ok 3) some_order toy_server.

(** The routes [pprof] registers in this example. *)
Definition toy_pprof (method path : string) : bool := String.eqb method "GET" && String.eqb path "/debug/pprof/heap".


End Api.
