(* ===== verification/Factory.v ===== *)
(** * The components of a relayer, from their creation to their closing

    [src/bridge/factory/ethMultiversXBridgeComponents.go]: the arguments and their checks, the
    keys and addresses, the data getter, the role providers, the two clients, the broadcaster
    with the signatures holder, the half-bridges (in [Relayer]) with their state machines, the
    polling handlers, [Start], the loop that repeats the join message, and [Close].  The SDK,
    the key files, the antiflood components, the messenger, the NTP client and the polling
    handlers are parameters. *)
From S2P Require Import Prelude Go Text Common Batch Interfaces Executor StateMachine StepsEthToMvx StepsMvxToEth Machines Signatures Topology RoleProviders P2P Adapters GasStation EthClient MvxClient Status BatchValidator Relayer Config.
Open Scope go_scope.

Module Factory.

Definition errNilProxy := ErrNew "factory.errNilProxy" "nil proxy".
Definition errNilEthClient := ErrNew "factory.errNilEthClient" "nil eth client".
Definition errNilMessenger := ErrNew "factory.errNilMessenger" "nil network messenger".
Definition errNilStatusStorer := ErrNew "factory.errNilStatusStorer" "nil status storer".
Definition errNilErc20ContractsHolder := ErrNew "factory.errNilErc20ContractsHolder" "nil ERC20 contracts holder".
Definition errPublicKeyCast := ErrNew "factory.errPublicKeyCast" "error casting public key to ECDSA".
Definition errInvalidValue := ErrNew "factory.errInvalidValue" "invalid value".
Definition errNilMetricsHolder := ErrNew "factory.errNilMetricsHolder" "nil metrics holder".
Definition errNilStatusHandler := ErrNew "factory.errNilStatusHandler" "nil status handler".

(** Durations are in nanoseconds. *)
Definition minTimeForBootstrap : Z := 100000000.
Definition minTimeBeforeRepeatJoin : Z := 30000000000.
Definition pollingDurationOnError : Z := 5000000000.

(** ** The objects the components share

    The whitelists of the two role providers, the price of the gas station and the fields of
    the broadcaster; its clients are the signatures holders, which it feeds and the Ethereum
    client reads.  They live in the world [X], which also holds everything outside. *)
Record objects := mkObjects {
  ob_mvxRoles : gmap string unit;
  ob_ethRoles : gset bytes;
  ob_gasPrice : Z;
  ob_gasRetries : Z;
  ob_counter : Z;
  ob_nonces : P2P.nonces_map;
  ob_clients : list SignatureHolder.signaturesHolder
}.

Record memory (X : Type) := {
  load : X -> objects;
  store : objects -> X -> X
}.
Arguments load {X} _ _.
Arguments store {X} _ _ _.

Section Objects.
Context {X : Type} (m : memory X).

Definition mvx_roles (x : X) : RoleProviders.multiversXRoleProvider X := RoleProviders.mkMrp (ob_mvxRoles (load m x)) x.
Definition put_mvx_roles (r : RoleProviders.multiversXRoleProvider X) (_ : X) : X :=
  let x := RoleProviders.mrp_world r in let o := load m x in
  store m (mkObjects (RoleProviders.mvx_whitelisted r) (ob_ethRoles o) (ob_gasPrice o) (ob_gasRetries o) (ob_counter o)
             (ob_nonces o) (ob_clients o)) x.

Definition eth_roles (x : X) : RoleProviders.ethereumRoleProvider X := RoleProviders.mkErp (ob_ethRoles (load m x)) x.
Definition put_eth_roles (r : RoleProviders.ethereumRoleProvider X) (_ : X) : X :=
  let x := RoleProviders.erp_world r in let o := load m x in
  store m (mkObjects (ob_mvxRoles o) (RoleProviders.eth_whitelisted r) (ob_gasPrice o) (ob_gasRetries o) (ob_counter o)
             (ob_nonces o) (ob_clients o)) x.

Definition gas_station (x : X) : GasStation.gasStation X :=
  GasStation.mkGs (ob_gasPrice (load m x)) (ob_gasRetries (load m x)) x.
Definition put_gas_station (g : GasStation.gasStation X) (_ : X) : X :=
  let x := GasStation.gs_world g in let o := load m x in
  store m (mkObjects (ob_mvxRoles o) (ob_ethRoles o) (GasStation.latestGasPrice g) (GasStation.fetchRetries g) (ob_counter o)
             (ob_nonces o) (ob_clients o)) x.

Definition broadcaster_of (x : X) : P2P.broadcaster SignatureHolder.signaturesHolder X :=
  P2P.mkBroadcaster (ob_counter (load m x)) (ob_nonces (load m x)) (ob_clients (load m x)) x.
Definition put_broadcaster (b : P2P.broadcaster SignatureHolder.signaturesHolder X) (_ : X) : X :=
  let x := P2P.net b in let o := load m x in
  store m (mkObjects (ob_mvxRoles o) (ob_ethRoles o) (ob_gasPrice o) (ob_gasRetries o) (P2P.counter b) (P2P.nonces b)
             (P2P.clients b)) x.

(** The holder is the broadcaster's first client. *)
Definition holder_of (x : X) : SignatureHolder.signaturesHolder :=
  default SignatureHolder.NewSignatureHolder (ob_clients (load m x) !! 0).
Definition put_holder (h : SignatureHolder.signaturesHolder) (x : X) : X :=
  let o := load m x in
  store m (mkObjects (ob_mvxRoles o) (ob_ethRoles o) (ob_gasPrice o) (ob_gasRetries o) (ob_counter o) (ob_nonces o)
             (<[0 := h]> (ob_clients o))) x.
End Objects.

(** ** What is given *)

Record NetMessenger (X : Type) := {
  nm_ID : P2P.PeerID;
  nm_Bootstrap : M X (option error);
  nm_Addresses : StatusAdapter.addressesOf X;
  nm_RegisterMessageProcessor : string -> string -> M X (option error);
  nm_CreateTopic : string -> bool -> M X (option error);
  nm_Broadcast : string -> bytes -> M X unit;
  nm_SendToConnectedPeer : string -> bytes -> P2P.PeerID -> M X (option error);
  nm_SetPeerDenialEvaluator : Denial.peerDenialEvaluator X -> M X (option error);
  nm_Close : M X (option error)
}.
Arguments nm_ID {X} _.
Arguments nm_Bootstrap {X} _.
Arguments nm_Addresses {X} _.
Arguments nm_RegisterMessageProcessor {X} _ _ _.
Arguments nm_CreateTopic {X} _ _ _.
Arguments nm_Broadcast {X} _ _ _.
Arguments nm_SendToConnectedPeer {X} _ _ _ _.
Arguments nm_SetPeerDenialEvaluator {X} _ _.
Arguments nm_Close {X} _.

Record Storer (X : Type) := {
  Storer_Put : string -> bytes -> M X (option error);
  Storer_Get : string -> M X (res bytes)
}.
Arguments Storer_Put {X} _ _ _.
Arguments Storer_Get {X} _ _.

(** [None] is a nil component.  The metrics holder's content is part of the relayer's state. *)
Record ArgsEthereumToMultiversXBridge (X A S : Type) := {
  Args_Configs : Configs.Configs A S;
  Args_Messenger : option (NetMessenger X);
  Args_StatusStorer : option (Storer X);
  Args_Proxy : option (MvxClient.Proxy X);
  Args_MultiversXClientStatusHandler : option (StatusHandler X);
  Args_Erc20ContractsHolder : option (bytes -> bytes -> M X (res Z));
  Args_ClientWrapper : option (EthClient.ClientWrapper X);
  Args_TimeForBootstrap : Z;
  Args_TimeBeforeRepeatJoin : Z;
  Args_MetricsHolder : bool;
  Args_AppStatusHandler : bool
}.
Arguments Args_Configs {X A S} _.
Arguments Args_Messenger {X A S} _.
Arguments Args_StatusStorer {X A S} _.
Arguments Args_Proxy {X A S} _.
Arguments Args_MultiversXClientStatusHandler {X A S} _.
Arguments Args_Erc20ContractsHolder {X A S} _.
Arguments Args_ClientWrapper {X A S} _.
Arguments Args_TimeForBootstrap {X A S} _.
Arguments Args_TimeBeforeRepeatJoin {X A S} _.
Arguments Args_MetricsHolder {X A S} _.
Arguments Args_AppStatusHandler {X A S} _.

Definition too_short (field : string) (received minimum : Z) : error :=
  Errorf ("%w for " +:+ field +:+ ", received: %v, minimum: %v") errInvalidValue
    [GStr (Duration_String received); GStr (Duration_String minimum)].

Definition checkArgsEthereumToMultiversXBridge {X A S} (args : ArgsEthereumToMultiversXBridge X A S) : option error :=
  if_nil (Args_Proxy args) errNilProxy (
  if_nil (Args_Messenger args) errNilMessenger (
  if_nil (Args_ClientWrapper args) errNilEthClient (
  if_nil (Args_StatusStorer args) errNilStatusStorer (
  if_nil (Args_Erc20ContractsHolder args) errNilErc20ContractsHolder (
  if (Args_TimeForBootstrap args <? minTimeForBootstrap)%Z then
    Some (too_short "TimeForBootstrap" (Args_TimeForBootstrap args) minTimeForBootstrap)
  else if (Args_TimeBeforeRepeatJoin args <? minTimeBeforeRepeatJoin)%Z then
    Some (too_short "TimeBeforeRepeatJoin" (Args_TimeBeforeRepeatJoin args) minTimeBeforeRepeatJoin)
  else if negb (Args_MetricsHolder args) then Some errNilMetricsHolder
  else if negb (Args_AppStatusHandler args) then Some errNilStatusHandler
  else None))))).

(** The antiflood components: the handler's checks and the two caches. *)
Record antiFloodComponents (X : Type) := {
  af_CanProcessMessage : P2P.MessageP2P -> P2P.PeerID -> M X (option error);
  af_CanProcessMessagesOnTopic : P2P.PeerID -> string -> Z -> Z -> bytes -> M X (option error);
  af_BlacklistPeer : P2P.PeerID -> string -> M X unit;
  af_BlacklistHandler : option (Denial.PeerBlackListCacher X);
  af_PubKeysCacher : option (string -> M X bool)
}.
Arguments af_CanProcessMessage {X} _ _ _.
Arguments af_CanProcessMessagesOnTopic {X} _ _ _ _ _ _.
Arguments af_BlacklistPeer {X} _ _ _.
Arguments af_BlacklistHandler {X} _.
Arguments af_PubKeysCacher {X} _.

(** ** Polling handlers *)

(** The object a handler executes. *)
Inductive executor := MultiversXRoles | EthereumRoles | EthToMvxMachine | MvxToEthMachine.

#[export] Instance executor_eq_dec : EqDecision executor.
Proof. solve_decision. Defined.

Record ArgsPollingHandler := mkPolling {
  ph_Log : bool;
  ph_Name : string;
  ph_PollingInterval : Z;
  ph_PollingWhenError : Z;
  ph_Executor : executor
}.

(** The libraries: [X] is the world, [T] the ABI types, [P] the public keys of relayers, [K] the
    curve's public keys, [A] the antiflood configuration. *)
Record libraries (X T P K A : Type) := {
  lib_sdk : MvxClient.sdk X;
  lib_eth : EthClient.ethLib T;
  LoadPrivateKeyFromPemFile : string -> M X (res bytes);
  PrivateKeyFromByteArray : bytes -> res MvxClient.relayerKey;
  GetAddressFromPrivateKey : bytes -> res MvxClient.addressHandler;
  NewAddressFromBech32String : string -> res MvxClient.addressHandler;
  address_IsValid : bytes -> bool;
  NewSyncTime : Timer.NTPConfig -> Timer.SyncTimer X;
  NewPollingHandler : ArgsPollingHandler -> option error;
  StartProcessingLoop : string -> M X (option error);
  polling_Close : string -> M X (option error);
  nonceTxHandler_Close : M X (option error);
  NewP2PAntiFloodComponents : A -> P2P.PeerID -> M X (res (antiFloodComponents X));
  antiflood_cancel : M X unit;
  ReadFile : string -> M X (res bytes);
  HexToECDSA : string -> res EthClient.ecdsaKey;
  HexToAddress : string -> bytes;
  UnixNano : M X Z;
  Sleep : Z -> M X unit;
  msg_Marshal : SignedMessage -> res bytes;
  msg_Unmarshal : bytes -> res SignedMessage;
  eth_Marshal : EthereumSignature -> res bytes;
  eth_Unmarshal : bytes -> res EthereumSignature;
  keyGen_PublicKeyFromByteArray : bytes -> res P;
  singleSigner_Verify : P -> bytes -> bytes -> option error;
  Ecrecover : bytes -> bytes -> res bytes;
  UnmarshalPubkey : bytes -> res K;
  PubkeyToAddress : K -> bytes;
  VerifySignature : bytes -> bytes -> bytes -> bool;
  gas_http_get : string -> M X (res bytes);
  gas_json_Unmarshal : bytes -> res GasStation.gasStationResponse;
  lib_sha256 : bytes -> bytes;
  lib_metrics_Marshal : Status.statusHandlerPersistenceData -> res bytes;
  lib_metrics_Unmarshal : bytes -> res Status.statusHandlerPersistenceData;
  lib_http_NewRequest : string -> option error;
  lib_http_Do : string -> bytes -> M X (res Validator.httpResponse);
  lib_json_Valid : bytes -> res bool;
  lib_json_BadRequestMessage : bytes -> res string;
  lib_order : map_order;
  lib_log_level : LogLevel -> string;
  lib_select : Z -> M X bool
}.
Arguments lib_sdk {X T P K A} _.
Arguments lib_eth {X T P K A} _.
Arguments LoadPrivateKeyFromPemFile {X T P K A} _ _.
Arguments PrivateKeyFromByteArray {X T P K A} _ _.
Arguments GetAddressFromPrivateKey {X T P K A} _ _.
Arguments NewAddressFromBech32String {X T P K A} _ _.
Arguments address_IsValid {X T P K A} _ _.
Arguments NewSyncTime {X T P K A} _ _.
Arguments NewPollingHandler {X T P K A} _ _.
Arguments StartProcessingLoop {X T P K A} _ _.
Arguments polling_Close {X T P K A} _ _.
Arguments nonceTxHandler_Close {X T P K A} _.
Arguments NewP2PAntiFloodComponents {X T P K A} _ _ _.
Arguments antiflood_cancel {X T P K A} _.
Arguments ReadFile {X T P K A} _ _.
Arguments HexToECDSA {X T P K A} _ _.
Arguments HexToAddress {X T P K A} _ _.
Arguments UnixNano {X T P K A} _.
Arguments Sleep {X T P K A} _ _.
Arguments msg_Marshal {X T P K A} _ _.
Arguments msg_Unmarshal {X T P K A} _ _.
Arguments eth_Marshal {X T P K A} _ _.
Arguments eth_Unmarshal {X T P K A} _ _.
Arguments keyGen_PublicKeyFromByteArray {X T P K A} _ _.
Arguments singleSigner_Verify {X T P K A} _ _ _ _.
Arguments Ecrecover {X T P K A} _ _ _.
Arguments UnmarshalPubkey {X T P K A} _ _.
Arguments PubkeyToAddress {X T P K A} _ _.
Arguments VerifySignature {X T P K A} _ _ _ _.
Arguments gas_http_get {X T P K A} _ _.
Arguments gas_json_Unmarshal {X T P K A} _ _.
Arguments lib_sha256 {X T P K A} _ _.
Arguments lib_metrics_Marshal {X T P K A} _ _.
Arguments lib_metrics_Unmarshal {X T P K A} _ _.
Arguments lib_http_NewRequest {X T P K A} _ _.
Arguments lib_http_Do {X T P K A} _ _ _.
Arguments lib_json_Valid {X T P K A} _ _.
Arguments lib_json_BadRequestMessage {X T P K A} _ _.
Arguments lib_order {X T P K A} _.
Arguments lib_log_level {X T P K A} _ _.
Arguments lib_select {X T P K A} _ _.


(** ** The state of the components under construction *)

(** What is closed at the end: a client that could not be created is a nil pointer in a non-nil
    interface. *)
Inductive closable := ClosableTimer | ClosablePolling (name : string) | ClosableClient (created : bool).

#[export] Instance closable_eq_dec : EqDecision closable.
Proof. solve_decision. Defined.

(** The goroutine of [startBroadcastJoinRetriesLoop]. *)
Inductive joinLoop := LoopNotStarted | LoopSpawned | LoopWaiting | LoopEnded.

#[export] Instance joinLoop_eq_dec : EqDecision joinLoop.
Proof. solve_decision. Defined.

(** [cancelFunc] is nil until the loop sets it; [ctxDone] says whether the context was cancelled. *)
Record bridgeState (X : Type) := mkBridge {
  closableHandlers : list (option closable);
  pollingHandlers : list ArgsPollingHandler;
  cancelFunc : bool;
  ctxDone : bool;
  loop : joinLoop;
  br_relayer : Relayer.relayer X
}.
Arguments mkBridge {X} _ _ _ _ _ _.
Arguments closableHandlers {X} _.
Arguments pollingHandlers {X} _.
Arguments cancelFunc {X} _.
Arguments ctxDone {X} _.
Arguments loop {X} _.
Arguments br_relayer {X} _.

Definition on_relayer {X A} (c : M (Relayer.relayer X) A) : M (bridgeState X) A :=
  zoom br_relayer (fun r b => mkBridge (closableHandlers b) (pollingHandlers b) (cancelFunc b) (ctxDone b) (loop b) r) c.
Definition on_world {X A} (c : M X A) : M (bridgeState X) A := on_relayer (Relayer.on_env A c).

Definition set_loop {X} (l : joinLoop) (b : bridgeState X) : bridgeState X :=
  mkBridge (closableHandlers b) (pollingHandlers b) (cancelFunc b) (ctxDone b) l (br_relayer b).

(** A relayer before its components exist: only the metrics holder was given. *)
Definition new_bridge {X} (holder : gmap string Relayer.metrics) (x : X) : bridgeState X :=
  mkBridge [] [] false false LoopNotStarted (Relayer.mkRelayer 0 0 false 0 0 0 holder x).

(** Storing a new object, or the error of its constructor. *)
Definition construct {X R} (create : X -> res R) (put : R -> X -> X) : M X (res unit) := fun x =>
  match create x with
  | Err e => (Ret (Err e), x)
  | Ok r => (Ret (Ok tt), put r x)
  end.

Section Components.
Context {X T P K A S : Type} (L : libraries X T P K A) (m : memory X).
Context (args : ArgsEthereumToMultiversXBridge X A S).
Local Abbreviation B := (M (bridgeState X)).
Local Abbreviation cfg := (Configs.GeneralConfig (Args_Configs args)).
Local Abbreviation evmCompatibleChain := (Configs.ec_Chain (Configs.cf_Eth cfg)).

Definition addClosableComponent (c : option closable) : B unit :=
  modify (fun b => mkBridge (closableHandlers b ++ [c]) (pollingHandlers b) (cancelFunc b) (ctxDone b) (loop b) (br_relayer b)).

(** [polling.NewPollingHandler], registered to be closed and to be started. *)
Definition addPollingHandler (a : ArgsPollingHandler) : B (res unit) :=
  match NewPollingHandler L a with
  | Some e => mret (Err e)
  | None =>
      addClosableComponent (Some (ClosablePolling (ph_Name a)));;
      modify (fun b => mkBridge (closableHandlers b) (pollingHandlers b ++ [a]) (cancelFunc b) (ctxDone b) (loop b) (br_relayer b));;
      mret (Ok tt)
  end.

(** The relayer's key, its address and the address of the multisig contract. *)
Definition createMultiversXKeysAndAddresses
    : B (res (MvxClient.relayerKey * MvxClient.addressHandler * MvxClient.addressHandler)) :=
  let chainConfigs := Configs.cf_MultiversX cfg in
  privateKeyBytes <?- on_world (LoadPrivateKeyFromPemFile L (Configs.mc_PrivateKeyFile chainConfigs));
  mret (match PrivateKeyFromByteArray L privateKeyBytes with
        | Err e => Err e
        | Ok key =>
        match GetAddressFromPrivateKey L privateKeyBytes with
        | Err e => Err e
        | Ok relayerAddress =>
        match NewAddressFromBech32String L (Configs.mc_MultisigContractAddress chainConfigs) with
        | Err e => Err (Errorf "%w for chainConfigs.MultisigContractAddress" e [])
        | Ok multisig => Ok (key, relayerAddress, multisig)
        end end end).

Definition createDataGetter (multisig relayerAddress : MvxClient.addressHandler)
    : res (option (MvxClient.addressHandler * MvxClient.addressHandler * MvxClient.Proxy X)) :=
  MvxClient.NewMXClientDataGetter (Some multisig) (Some relayerAddress) (Args_Proxy args) true.

(** The data getter asks through the proxy; it has none of the client's other parts. *)
Definition getter_deps (getter : MvxClient.addressHandler * MvxClient.addressHandler * MvxClient.Proxy X) : MvxClient.mxDeps X :=
  let '(multisig, relayerAddress, proxy) := getter in
  {| MvxClient.ExecuteVMQuery := MvxClient.px_ExecuteVMQuery proxy;
     MvxClient.GetNetworkStatus := MvxClient.px_GetNetworkStatus proxy;
     MvxClient.GetShardOfAddress := MvxClient.px_GetShardOfAddress proxy;
     MvxClient.GetNetworkConfig := MvxClient.px_GetNetworkConfig proxy;
     MvxClient.GetNonce := panics NilDereference;
     MvxClient.SendTransaction _ := panics NilDereference;
     MvxClient.tx_IsWhitelisted _ := panics NilDereference;
     MvxClient.ToVmValueRequest := MvxClient.sdk_ToVmValueRequest (lib_sdk L);
     MvxClient.ToDataBytes _ := Err (ErrExternal "");
     MvxClient.json_tx _ := Err (ErrExternal "");
     MvxClient.ed25519_Sign _ := Err (ErrExternal "");
     MvxClient.mx_ConvertToken _ := panics NilDereference;
     MvxClient.mx_status := {| sh_SetIntMetric _ _ := panics NilDereference; sh_AddIntMetric _ _ := panics NilDereference;
                               sh_SetStringMetric _ _ := panics NilDereference |};
     MvxClient.mx_relayer := MvxClient.ah_Bytes relayerAddress;
     MvxClient.relayer_bech32 := MvxClient.ah_Bech32 relayerAddress;
     MvxClient.multisig_bech32 := MvxClient.ah_Bech32 multisig;
     MvxClient.mx_converter := {| ToBech32String _ := "" |};
     MvxClient.gasMapConfig := MvxClient.mkGasMap 0 0 0 0 0 0 0;
     MvxClient.mx_allowDelta := 0 |}.

(** The two mappers keep the getter after the nil check. *)
Definition newMapper {R} (dataGetter : option (MvxClient.mxDeps X)) (convert : MvxClient.mxDeps X -> R) : res R :=
  match dataGetter with
  | None => Err clients_ErrNilDataGetter
  | Some dg => Ok (convert dg)
  end.

Definition createMultiversXRoleProvider : B (res unit) :=
  created <?- on_world (construct (RoleProviders.NewMultiversXRoleProvider true true) (put_mvx_roles m));
  addPollingHandler
    {| ph_Log := true; ph_Name := "MultiversX role provider";
       ph_PollingInterval := Relayer.millis (Configs.PollingIntervalInMillis (Configs.rc_RoleProvider (Configs.cf_Relayer cfg)));
       ph_PollingWhenError := pollingDurationOnError; ph_Executor := MultiversXRoles |}.

Definition createEthereumRoleProvider : B (res unit) :=
  created <?- on_world (construct (RoleProviders.NewEthereumRoleProvider (bool_decide (is_Some (Args_ClientWrapper args))) true)
                          (put_eth_roles m));
  addPollingHandler
    {| ph_Log := true; ph_Name := evmCompatibleChain +:+ " role provider";
       ph_PollingInterval := Relayer.millis (Configs.PollingIntervalInMillis (Configs.rc_RoleProvider (Configs.cf_Relayer cfg)));
       ph_PollingWhenError := pollingDurationOnError; ph_Executor := EthereumRoles |}.

Definition role_IsWhitelisted (address : bytes) : M X bool :=
  gets (fun x => RoleProviders.IsWhitelisted (mvx_roles m x) (Some address)).

Definition multiversXClientArgs (key : MvxClient.relayerKey) (multisig : MvxClient.addressHandler)
    (tokensMapper : bytes -> M X (res bytes)) : MvxClient.ClientArgs X :=
  let chainConfigs := Configs.cf_MultiversX cfg in {|
    MvxClient.Args_GasMapConfig := Configs.mc_GasMap chainConfigs;
    MvxClient.Args_Proxy := Args_Proxy args;
    MvxClient.Args_Log := true;
    MvxClient.Args_RelayerPrivateKey := Some key;
    MvxClient.Args_MultisigContractAddress := Some multisig;
    MvxClient.Args_IntervalToResendTxsInSeconds := Configs.mc_IntervalToResendTxsInSeconds chainConfigs;
    MvxClient.Args_TokensMapper := Some tokensMapper;
    MvxClient.Args_RoleProvider := Some role_IsWhitelisted;
    MvxClient.Args_StatusHandler := Args_MultiversXClientStatusHandler args;
    MvxClient.Args_AllowDelta := u64 (Configs.mc_ProxyMaxNoncesDelta chainConfigs) |}.

(** The client is registered to be closed before its error is looked at. *)
Definition createMultiversXClient (key : MvxClient.relayerKey) (multisig : MvxClient.addressHandler)
    (dataGetter : option (MvxClient.mxDeps X)) : B (res (MvxClient.mxDeps X)) :=
  match newMapper dataGetter MvxClient.multiversXToErc20_ConvertToken with
  | Err e => mret (Err e)
  | Ok tokensMapper =>
      r ← gets br_relayer;
      match MvxClient.NewClient (lib_sdk L) (multiversXClientArgs key multisig tokensMapper) (Relayer.r_world r) with
      | Err e => addClosableComponent (Some (ClosableClient false));; mret (Err e)
      | Ok None => panics NilDereference
      | Ok (Some (D, c)) =>
          on_relayer (modify (Relayer.mx_put c));;
          addClosableComponent (Some (ClosableClient true));; mret (Ok D)
      end
  end.

(** The context of the antiflood components is cancelled only when they could not be created. *)
Definition createAntifloodComponents (messenger : NetMessenger X) : B (res (antiFloodComponents X)) :=
  r ← on_world (NewP2PAntiFloodComponents L (Configs.p2pc_AntifloodConfig (Configs.cf_P2P cfg)) (nm_ID messenger));
  match r with
  | Err e => on_world (antiflood_cancel L);; mret (Err e)
  | Ok a => mret (Ok a)
  end.

Definition gasStationArgs : GasStation.ArgsGasStation :=
  let gasStationConfig := Configs.ec_GasStation (Configs.cf_Eth cfg) in {|
    GasStation.RequestURL := Configs.gsc_URL gasStationConfig;
    GasStation.RequestPollingInterval := Relayer.seconds (Configs.gsc_PollingIntervalInSeconds gasStationConfig);
    GasStation.RequestRetryDelay := Relayer.seconds (Configs.gsc_RequestRetryDelayInSeconds gasStationConfig);
    GasStation.MaximumFetchRetries := Configs.gsc_MaxFetchRetries gasStationConfig;
    GasStation.RequestTime := Relayer.seconds (Configs.gsc_RequestTimeInSeconds gasStationConfig);
    GasStation.MaximumGasPrice := Configs.gsc_MaximumAllowedGasPrice gasStationConfig;
    GasStation.GasPriceSelector := Configs.gsc_GasPriceSelector gasStationConfig;
    GasStation.GasPriceMultiplier := Configs.gsc_GasPriceMultiplier gasStationConfig |}.

(** The gas handler in the world: the disabled one keeps no state. *)
Definition put_gas_handler (h : GasStation.GasHandler X) (x : X) : X :=
  match h with GasStation.Enabled g => put_gas_station m g x | GasStation.Disabled => x end.

Definition gas_GetCurrentGasPrice : M X (res Z) :=
  gets (fun x =>
    GasStation.handler_GetCurrentGasPrice gasStationArgs
      (if Configs.gsc_Enabled (Configs.ec_GasStation (Configs.cf_Eth cfg)) then GasStation.Enabled (gas_station m x)
       else GasStation.Disabled)).

(** The broadcaster's view of the messenger, the antiflood components and the role providers. *)
Definition net_deps (messenger : NetMessenger X) (af : antiFloodComponents X) : P2P.netDeps X P MvxClient.relayerKey := {|
  P2P.Marshal_msg := msg_Marshal L;
  P2P.Unmarshal_msg := msg_Unmarshal L;
  P2P.Marshal_eth := eth_Marshal L;
  P2P.Unmarshal_eth := eth_Unmarshal L;
  P2P.PublicKeyFromByteArray := keyGen_PublicKeyFromByteArray L;
  P2P.Sign := MvxClient.rk_Sign;
  P2P.Verify := singleSigner_Verify L;
  P2P.CanProcessMessage := af_CanProcessMessage af;
  P2P.CanProcessMessagesOnTopic := af_CanProcessMessagesOnTopic af;
  P2P.BlacklistPeer := af_BlacklistPeer af;
  P2P.net_IsWhitelisted := role_IsWhitelisted;
  P2P.net_VerifyEthSignature signature messageHash := gets (fun x =>
    RoleProviders.VerifyEthSignature (Ecrecover L) (UnmarshalPubkey L) (PubkeyToAddress L) (VerifySignature L)
      (eth_roles m x) signature messageHash);
  P2P.Broadcast := nm_Broadcast messenger;
  P2P.SendToConnectedPeer := nm_SendToConnectedPeer messenger;
  P2P.CreateTopic := nm_CreateTopic messenger;
  P2P.RegisterMessageProcessor := nm_RegisterMessageProcessor messenger;
  P2P.net_Close := nm_Close messenger |}.

Definition on_broadcaster {R} (c : M (P2P.broadcaster SignatureHolder.signaturesHolder X) R) : M X R :=
  zoom (broadcaster_of m) (put_broadcaster m) c.

Definition createBroadcaster (messenger : NetMessenger X) (af : antiFloodComponents X) (key : MvxClient.relayerKey)
    : B (res (P2P.broadcasterConfig MvxClient.relayerKey)) :=
  let argsBroadcaster := {|
    P2P.Args_Name := Chain.EvmCompatibleChainToMultiversXName evmCompatibleChain;
    P2P.Args_Log := true; P2P.Args_KeyGen := true; P2P.Args_PrivateKey := true; P2P.Args_SingleSigner := true;
    P2P.Args_MultiversXRoleProvider := true; P2P.Args_Messenger := true; P2P.Args_SignatureProcessor := true;
    P2P.Args_AntifloodComponents := true |} in
  now ← on_world (UnixNano L);
  on_world (fun x =>
    match P2P.NewBroadcaster argsBroadcaster key (MvxClient.rk_PublicBytes key) now x with
    | Err e => (Ret (Err e), x)
    | Ok (c, b) => (Ret (Ok c), put_broadcaster m b x)
    end).

(** The key of the Ethereum account, from its file, with its address. *)
Definition loadEthereumKey : B (res (EthClient.ecdsaKey * bytes)) :=
  privateKeyBytes <?- on_world (ReadFile L (Configs.ec_PrivateKeyFile (Configs.cf_Eth cfg)));
  mret (match HexToECDSA L (TrimWhiteSpaceCharacters (string_of_bytes privateKeyBytes)) with
        | Err e => Err e
        | Ok key =>
        match EthClient.key_Public key with
        | None => Err errPublicKeyCast
        | Some address => Ok (key, address)
        end end).

Record ethereumSide := mkEthSide {
  es_client : EthClient.clientDeps X T;
  es_broadcaster : P2P.broadcasterConfig MvxClient.relayerKey;
  es_net : P2P.netDeps X P MvxClient.relayerKey;
  es_relayerAddress : bytes
}.

Definition ethereumClientArgs (conv : AddressConverter) (net : P2P.netDeps X P MvxClient.relayerKey)
    (bc : P2P.broadcasterConfig MvxClient.relayerKey) (key : EthClient.ecdsaKey) (tokensMapper : bytes -> M X (res bytes))
    : EthClient.ArgsEthereumClient X :=
  let ethereumConfigs := Configs.cf_Eth cfg in {|
    EthClient.Args_ClientWrapper := Args_ClientWrapper args;
    EthClient.Args_Erc20ContractsHandler := Args_Erc20ContractsHolder args;
    EthClient.Args_Log := true;
    EthClient.Args_AddressConverter := Some conv;
    EthClient.Args_Broadcaster := Some (fun signature messageHash =>
      on_broadcaster (P2P.BroadcastSignature net bc signature messageHash));
    EthClient.Args_PrivateKey := Some key;
    EthClient.Args_TokensMapper := Some tokensMapper;
    EthClient.Args_SignatureHolder := Some (SignatureHolder.holder_interface (holder_of m) (put_holder m) (lib_order L));
    EthClient.Args_SafeContractAddress := HexToAddress L (Configs.ec_SafeContractAddress ethereumConfigs);
    EthClient.Args_GasHandler := Some gas_GetCurrentGasPrice;
    EthClient.Args_TransferGasLimitBase := Configs.ec_GasLimitBase ethereumConfigs;
    EthClient.Args_TransferGasLimitForEach := Configs.ec_GasLimitForEach ethereumConfigs;
    EthClient.Args_AllowDelta := Configs.ec_MaxBlocksDelta ethereumConfigs |}.

(** The last call of the function: [NewEthereumClient] with everything created before. *)
Definition newEthClient (conv : AddressConverter) (net : P2P.netDeps X P MvxClient.relayerKey)
    (bc : P2P.broadcasterConfig MvxClient.relayerKey) (key : EthClient.ecdsaKey) (address : bytes)
    (tokensMapper : bytes -> M X (res bytes)) : B (res ethereumSide) :=
  r ← gets br_relayer;
  match EthClient.NewEthereumClient (lib_eth L) (ethereumClientArgs conv net bc key tokensMapper) (Relayer.r_world r) with
  | Err e => mret (Err e)
  | Ok None => panics NilDereference
  | Ok (Some (D, c)) => on_relayer (modify (Relayer.eth_put c));; mret (Ok (mkEthSide D bc net address))
  end.

Definition createEthereumClient (conv : AddressConverter) (key : MvxClient.relayerKey) (dataGetter : option (MvxClient.mxDeps X))
    : B (res ethereumSide) :=
  messenger ← deref (Args_Messenger args);
  gs <?- on_world (construct
           (GasStation.CreateGasStation gasStationArgs (Configs.gsc_Enabled (Configs.ec_GasStation (Configs.cf_Eth cfg))))
           put_gas_handler);
  af <?- createAntifloodComponents messenger;
  match Denial.NewPeerDenialEvaluator (af_BlacklistHandler af) (af_PubKeysCacher af) with
  | Err e => mret (Err e)
  | Ok evaluator =>
      evaluator ← deref evaluator;
      err ← on_world (nm_SetPeerDenialEvaluator messenger evaluator);
      match err with
      | Some e => mret (Err e)
      | None =>
          bc <?- createBroadcaster messenger af key;
          ethKey <?- loadEthereumKey;
          match newMapper dataGetter MvxClient.erc20ToMultiversX_ConvertToken with
          | Err e => mret (Err e)
          | Ok tokensMapper =>
              err ← on_world (on_broadcaster (P2P.AddBroadcastClient (Some SignatureHolder.NewSignatureHolder)));
              match err with
              | Some e => mret (Err e)
              | None => newEthClient conv (net_deps messenger af) bc (fst ethKey) (snd ethKey) tokensMapper
              end
          end
      end
  end.

(** ** The half-bridges *)

(** What the half-bridges are made of. *)
Definition assembled (storer : Storer X) (timer : Timer.ntpTimer X) (relayerAddress : MvxClient.addressHandler)
    (mx : MvxClient.mxDeps X) (eth : EthClient.clientDeps X T) : Relayer.components X T := {|
  Relayer.ethClient := eth;
  Relayer.multiversXClient_ := mx;
  Relayer.roleProvider_SortedPublicKeys := gets (fun x => RoleProviders.SortedPublicKeys (lib_order L) (mvx_roles m x));
  Relayer.timer_NowUnix := Timer.NowUnix timer;
  Relayer.multiversXRelayerAddress := MvxClient.ah_Bytes relayerAddress;
  Relayer.sha256 := lib_sha256 L;
  Relayer.statusStorer := true;
  Relayer.storer_Put := Storer_Put storer;
  Relayer.storer_Get := Storer_Get storer;
  Relayer.metrics_Marshal := lib_metrics_Marshal L;
  Relayer.metrics_Unmarshal := lib_metrics_Unmarshal L;
  Relayer.http_NewRequest := lib_http_NewRequest L;
  Relayer.http_Do := lib_http_Do L;
  Relayer.json_Valid := lib_json_Valid L;
  Relayer.json_BadRequestMessage := lib_json_BadRequestMessage L;
  Relayer.map_iteration := lib_order L;
  Relayer.log_level := lib_log_level L;
  Relayer.runtime_select := lib_select L |}.

Local Abbreviation R := (Relayer.relayer X).

(** A half-bridge: its executor and its machine, the steps with the first state. *)
Record halfBridge := mkHalf {
  hb_executor : executorDeps R;
  hb_steps : gmap string (Step (execState R));
  hb_machine : smState (execState R)
}.

(** The state machine of a half-bridge and the handler that executes it. *)
Definition createStateMachine (create : executorDeps R -> execState R -> res (gmap string (Step (execState R)) * smState (execState R)))
    (name : string) (e : executor) (stepDuration : Z) (E : executorDeps R) : B (res halfBridge) :=
  r ← gets br_relayer;
  match create E (initExec r) with
  | Err e => mret (Err e)
  | Ok (steps, machine) =>
      added <?- addPollingHandler {| ph_Log := true; ph_Name := name +:+ " State machine"; ph_PollingInterval := stepDuration;
                                     ph_PollingWhenError := pollingDurationOnError; ph_Executor := e |};
      mret (Ok (mkHalf E steps machine))
  end.

Definition createEthereumToMultiversXStateMachine : Z -> executorDeps R -> B (res halfBridge) :=
  createStateMachine Machines.createEthereumToMultiversXStateMachine
    (Chain.EvmCompatibleChainToMultiversXName evmCompatibleChain) EthToMvxMachine.
Definition createMultiversXToEthereumStateMachine : Z -> executorDeps R -> B (res halfBridge) :=
  createStateMachine Machines.createMultiversXToEthereumStateMachine
    (Chain.MultiversXToEvmCompatibleChainName evmCompatibleChain) MvxToEthMachine.

(** ** The constructor *)

Record ethMultiversXBridgeComponents := {
  messenger : NetMessenger X;
  timer : Timer.ntpTimer X;
  timeForBootstrap : Z;
  timeBeforeRepeatJoin : Z;
  relayerAddress : MvxClient.addressHandler;
  parts : Relayer.components X T;
  ethSide : ethereumSide;
  dataGetter : MvxClient.mxDeps X;
  ethToMultiversX : halfBridge;
  multiversXToEth : halfBridge
}.

(** Everything after the checks and the keys. *)
Definition createParts (conv : AddressConverter) (tm : Timer.ntpTimer X) (key : MvxClient.relayerKey)
    (address multisig : MvxClient.addressHandler) : B (res ethMultiversXBridgeComponents) :=
  mes ← deref (Args_Messenger args);
  storer ← deref (Args_StatusStorer args);
  match createDataGetter multisig address with
  | Err e => mret (Err e)
  | Ok getter =>
      let dg := getter_deps <$> getter in
      mvxRoles <?- createMultiversXRoleProvider;
      mx <?- createMultiversXClient key multisig dg;
      ethRoles <?- createEthereumRoleProvider;
      eth <?- createEthereumClient conv key dg;
      let C := assembled storer tm address mx (es_client eth) in
      e2m <?- on_relayer (Relayer.createEthereumToMultiversXBridge C (Configs.relayer_config cfg));
      first <?- createEthereumToMultiversXStateMachine (fst e2m) (snd e2m);
      m2e <?- on_relayer (Relayer.createMultiversXToEthereumBridge C (Configs.relayer_config cfg));
      second <?- createMultiversXToEthereumStateMachine (fst m2e) (snd m2e);
      dg ← deref dg;
      mret (Ok {| messenger := mes; timer := tm; timeForBootstrap := Args_TimeForBootstrap args;
                  timeBeforeRepeatJoin := Args_TimeBeforeRepeatJoin args; relayerAddress := address; parts := C;
                  ethSide := eth; dataGetter := dg; ethToMultiversX := first; multiversXToEth := second |})
  end.

Definition NewEthMultiversXBridgeComponents : B (res ethMultiversXBridgeComponents) :=
  match checkArgsEthereumToMultiversXBridge args with
  | Some e => mret (Err e)
  | None =>
      let tm := Timer.NewNTPTimer (NewSyncTime L) in
      match MvxClient.NewAddressConverter (lib_sdk L) with
      | Err _ => mret (Err clients_ErrNilAddressConverter)
      | Ok conv =>
          addClosableComponent (Some ClosableTimer);;
          keys <?- createMultiversXKeysAndAddresses;
          let '(key, address, multisig) := keys in createParts conv tm key address multisig
      end
  end.

(** ** Running *)

Section Running.
Context (components : ethMultiversXBridgeComponents).

Fixpoint start_handlers (l : list ArgsPollingHandler) : B (option error) :=
  match l with
  | [] => mret None
  | h :: rest =>
      err ← on_world (StartProcessingLoop L (ph_Name h));
      match err with
      | Some e => mret (Some e)
      | None => start_handlers rest
      end
  end.

Definition startPollingHandlers : B (option error) := l ← gets pollingHandlers; start_handlers l.

Definition BroadcastJoinTopic : B unit :=
  on_world (on_broadcaster (P2P.BroadcastJoinTopic (es_net (ethSide components)) (es_broadcaster (ethSide components)))).

Definition Start : B (option error) :=
  err ← on_world (nm_Bootstrap (messenger components));
  match err with
  | Some e => mret (Some e)
  | None =>
      on_world (Sleep L (timeForBootstrap components));;
      err ← on_world (on_broadcaster (P2P.RegisterOnTopics (es_net (ethSide components)) (es_broadcaster (ethSide components))));
      match err with
      | Some e => mret (Some e)
      | None =>
          BroadcastJoinTopic;;
          err ← startPollingHandlers;
          match err with
          | Some e => mret (Some e)
          | None => modify (set_loop LoopSpawned);; mret None
          end
      end
  end.

(** One turn of [startBroadcastJoinRetriesLoop]'s goroutine: the first one makes the context and
    publishes its cancel function; then every turn is one [select], which takes the timer when
    [timerFired], and otherwise ends the loop if the context is done and keeps waiting if not. *)
Definition joinLoop_turn (timerFired : bool) : B unit :=
  l ← gets loop;
  match l with
  | LoopSpawned => modify (fun b => mkBridge (closableHandlers b) (pollingHandlers b) true false LoopWaiting (br_relayer b))
  | LoopWaiting =>
      if timerFired then BroadcastJoinTopic
      else done ← gets ctxDone; if (done : bool) then modify (set_loop LoopEnded) else mret tt
  | LoopNotStarted | LoopEnded => mret tt
  end.

(** Closing a client that was not created dereferences a nil pointer. *)
Definition close_one (c : closable) : B (option error) :=
  match c with
  | ClosableTimer => on_world (Timer.Close (timer components))
  | ClosablePolling name => on_world (polling_Close L name)
  | ClosableClient true => on_world (nonceTxHandler_Close L)
  | ClosableClient false => panics NilDereference
  end.

Fixpoint close_all (l : list (option closable)) (lastError : option error) : B (option error) :=
  match l with
  | [] => mret lastError
  | None :: rest => close_all rest lastError
  | Some c :: rest =>
      err ← close_one c;
      close_all rest (match err with Some e => Some e | None => lastError end)
  end.

Definition Close : B (option error) :=
  cancel ← gets cancelFunc;
  (if (cancel : bool)
   then modify (fun b => mkBridge (closableHandlers b) (pollingHandlers b) (cancelFunc b) true (loop b) (br_relayer b))
   else mret tt);;
  l ← gets closableHandlers;
  close_all l None.

Definition MultiversXRelayerAddress : MvxClient.addressHandler := relayerAddress components.
Definition EthereumRelayerAddress : bytes := es_relayerAddress (ethSide components).
End Running.

End Components.
End Factory.
