(* ===== verification/Main.v ===== *)
(** * Process start

    The parts of [src/bridge/cmd/bridge] and [src/bridge/factory] around the relayer's
    components: the command line flags ([flags.go]), the logger's set-up, the loading of the
    configuration files, the p2p messenger's configuration and the shutdown ([main.go]), the
    storer ([storageFactory.go]) and the web server ([webServer.go]).  The flag parser, the
    logger, TOML, the storage and the p2p libraries are parameters. *)
From S2P Require Import Prelude Go Text Common Interfaces Status Relayer Config Api Factory.
Open Scope go_scope.

Module Main.

Definition filePathPlaceholder : string := "[path]".
Definition defaultLogsPath : string := "logs".
Definition logFilePrefix : string := "multiversx-eth-bridge".
Definition p2pPeerNetworkDiscoverer : string := "optimized".
Definition nilListSharderType : string := "NilListSharder".
Definition disabledWatcher : string := "disabled".
Definition dbPath : string := "db".
Definition timeForBootstrap : Z := 20000000000.
Definition timeBeforeRepeatJoin : Z := 300000000000.

(** ** Flags *)

(** A flag with its name and its default; the usage text is only displayed. *)
Inductive cliFlag :=
  | StringFlag (name value : string)
  | BoolFlag (name : string).

Definition flag_Name (f : cliFlag) : string := match f with StringFlag n _ | BoolFlag n => n end.

Section Flags.
(** The names of other repositories: the default interface and the text of the debug level. *)
Context (DefaultRestInterface LogDebug_String : string).

Definition logLevel : cliFlag := StringFlag "log-level" ("*:" +:+ LogDebug_String).
Definition configurationFile : cliFlag := StringFlag "config" "config/config.toml".
Definition configurationApiFile : cliFlag := StringFlag "config-api" "config/api.toml".
Definition logSaveFile : cliFlag := BoolFlag "log-save".
Definition profileMode : cliFlag := BoolFlag "profile-mode".
Definition restApiInterface : cliFlag := StringFlag "rest-api-interface" DefaultRestInterface.
Definition workingDirectory : cliFlag := StringFlag "working-directory" "".
Definition disableAnsiColor : cliFlag := BoolFlag "disable-ansi-color".
Definition logWithLoggerName : cliFlag := BoolFlag "log-logger-name".

Definition getFlags : list cliFlag :=
  [workingDirectory; logLevel; disableAnsiColor; configurationFile; configurationApiFile; logSaveFile; logWithLoggerName;
   profileMode; restApiInterface].

(** The parsed command line. *)
Record cliContext := { GlobalString : string -> string; GlobalBool : string -> bool }.

Definition getFlagsConfig (ctx : cliContext) : Configs.ContextFlagsConfig := {|
  Configs.fl_WorkingDir := GlobalString ctx (flag_Name workingDirectory);
  Configs.fl_LogLevel := GlobalString ctx (flag_Name logLevel);
  Configs.fl_DisableAnsiColor := GlobalBool ctx (flag_Name disableAnsiColor);
  Configs.fl_ConfigurationFile := GlobalString ctx (flag_Name configurationFile);
  Configs.fl_ConfigurationApiFile := GlobalString ctx (flag_Name configurationApiFile);
  Configs.fl_SaveLogFile := GlobalBool ctx (flag_Name logSaveFile);
  Configs.fl_EnableLogName := GlobalBool ctx (flag_Name logWithLoggerName);
  Configs.fl_EnablePprof := GlobalBool ctx (flag_Name profileMode);
  Configs.fl_RestApiInterface := GlobalString ctx (flag_Name restApiInterface) |}.

(** What the parser answers when [given] are the flags of the command line. *)
Definition parsed (given : gmap string string) : cliContext := {|
  GlobalString name := default (default "" (head (omap (fun f => match f with
    | StringFlag n v => if String.eqb n name then Some v else None | BoolFlag _ => None end) getFlags))) (given !! name);
  GlobalBool name := bool_decide (is_Some (given !! name)) |}.

(** Every flag can be set on its own: no two share a name, and a flag that is not given has its
    default. *)
Lemma flags_distinct : NoDup (flag_Name <$> getFlags).
Proof. apply (bool_decide_unpack _). by vm_compute. Qed.

Lemma default_flags : getFlagsConfig (parsed ∅) = {|
  Configs.fl_WorkingDir := ""; Configs.fl_LogLevel := "*:" +:+ LogDebug_String; Configs.fl_DisableAnsiColor := false;
  Configs.fl_ConfigurationFile := "config/config.toml"; Configs.fl_ConfigurationApiFile := "config/api.toml";
  Configs.fl_SaveLogFile := false; Configs.fl_EnableLogName := false; Configs.fl_RestApiInterface := DefaultRestInterface;
  Configs.fl_EnablePprof := false |}.
Proof. reflexivity. Qed.
End Flags.

(** ** Logger and files *)

Section Files.
Context {X F A S : Type}.

(** The logging library. *)
Record logLib := {
  NewFileLogging : string -> string -> string -> M X (res F);
  SetDisplayByteSlice_ToHex : M X (option error);
  ToggleLoggerName : bool -> M X unit;
  SetLogLevel : string -> M X (option error);
  RemoveLogObserver_Stdout : M X (option error);
  AddLogObserver_Stdout_Plain : M X (option error)
}.
Context (L : logLib).

(** An error of the display setting is only logged. *)
Definition attachFileLogger (flagsConfig : Configs.ContextFlagsConfig) : M X (res (option F)) :=
  fileLogging <?- (if Configs.fl_SaveLogFile flagsConfig then
      r ← NewFileLogging L (Configs.fl_WorkingDir flagsConfig) defaultLogsPath logFilePrefix;
      mret (match r with Ok f => Ok (Some f) | Err e => Err (Errorf "%w creating a log file" e []) end)
    else mret (Ok None));
  SetDisplayByteSlice_ToHex L;;
  ToggleLoggerName L (Configs.fl_EnableLogName flagsConfig);;
  err ← SetLogLevel L (Configs.fl_LogLevel flagsConfig);
  match err with
  | Some e => mret (Err e)
  | None =>
      if Configs.fl_DisableAnsiColor flagsConfig then
        err ← RemoveLogObserver_Stdout L;
        match err with
        | Some e => mret (Err e)
        | None =>
            err ← AddLogObserver_Stdout_Plain L;
            match err with
            | Some e => mret (Err e)
            | None => mret (Ok fileLogging)
            end
        end
      else mret (Ok fileLogging)
  end.

Definition loadConfig (LoadTomlFile : string -> M X (res (Configs.Config A S))) (filepath : string) : M X (res (Configs.Config A S)) :=
  r ← LoadTomlFile filepath;
  match r with Err e => mret (Err e) | Ok cfg => mret (Ok cfg) end.

Definition loadApiConfig (LoadTomlFile : string -> M X (res Configs.ApiRoutesConfig)) (filepath : string)
    : M X (res Configs.ApiRoutesConfig) :=
  r ← LoadTomlFile filepath;
  match r with Err e => mret (Err e) | Ok cfg => mret (Ok cfg) end.
End Files.

(** ** The storer *)

Section Storer.
Context {X CacheConfig DBConfig CacherArgs DBArgs : Type}.

(** [config.StorageConfig]: the cache and the database, whose file path is used here. *)
Record StorageConfig := { sc_Cache : CacheConfig; sc_DB : DBConfig; sc_DB_FilePath : string }.

Definition CreateUnitStorer (path_Join : string -> string -> string) (GetDBFromConfig : DBConfig -> DBArgs)
    (set_FilePath : string -> DBArgs -> DBArgs) (GetCacherFromConfig : CacheConfig -> CacherArgs)
    (NewStorageUnitFromConf : CacherArgs -> DBArgs -> M X (res (Factory.Storer X)))
    (config : StorageConfig) (workingDir : string) : M X (res (Factory.Storer X)) :=
  let statusMetricsDbConfig := set_FilePath (path_Join workingDir (sc_DB_FilePath config)) (GetDBFromConfig (sc_DB config)) in
  NewStorageUnitFromConf (GetCacherFromConfig (sc_Cache config)) statusMetricsDbConfig.
End Storer.

(** ** The messenger *)

Record NodeConfig := mkNode { nc_Port : string; nc_MaximumExpectedPeerCount : Z; nc_ThresholdMinConnectedPeers : Z }.
Record KadDhtPeerDiscoveryConfig := mkKad {
  kd_Enabled : bool;
  kd_RefreshIntervalInSec : Z;
  kd_ProtocolID : string;
  kd_InitialPeerList : list string;
  kd_BucketSize : Z;
  kd_RoutingTableRefreshIntervalInSec : Z;
  kd_Type : string
}.
Record ShardingConfig := mkSharding {
  sh_TargetPeerCount : Z;
  sh_MaxIntraShardValidators : Z;
  sh_MaxCrossShardValidators : Z;
  sh_MaxIntraShardObservers : Z;
  sh_MaxCrossShardObservers : Z;
  sh_Type : string
}.
Record P2PConfig := mkP2P { pc_Node : NodeConfig; pc_KadDhtPeerDiscovery : KadDhtPeerDiscoveryConfig; pc_Sharding : ShardingConfig }.

Section Messenger.
Context {X C R A S : Type}.
Context (NewLRUCache : Z -> res C) (NewPeersRatingHandler : C -> C -> res R)
  (NewNetworkMessenger : P2PConfig -> R -> string -> M X (res (Factory.NetMessenger X))).

Definition p2pConfig (cfg : Configs.Config A S) : P2PConfig :=
  let p2p := Configs.cf_P2P cfg in
  mkP2P (mkNode (Configs.p2pc_Port p2p) 0 0)
    (mkKad true 5 (Configs.p2pc_ProtocolID p2p) (Configs.p2pc_InitialPeerList p2p) 0 300 p2pPeerNetworkDiscoverer)
    (mkSharding 0 0 0 0 0 nilListSharderType).

(** The marshalizer, the key, the signer and the other fixed arguments belong to the library. *)
Definition buildNetMessenger (cfg : Configs.Config A S) : M X (res (Factory.NetMessenger X)) :=
  let rating := Configs.cf_PeersRatingConfig cfg in
  match NewLRUCache (Configs.TopRatedCacheCapacity rating) with
  | Err e => mret (Err e)
  | Ok topRatedCache =>
  match NewLRUCache (Configs.BadRatedCacheCapacity rating) with
  | Err e => mret (Err e)
  | Ok badRatedCache =>
  match NewPeersRatingHandler topRatedCache badRatedCache with
  | Err e => mret (Err e)
  | Ok peersRatingHandler => NewNetworkMessenger (p2pConfig cfg) peersRatingHandler disabledWatcher
  end end end.
End Messenger.

(** ** The web server *)

Section Web.
Context {X P H A S : Type} (ErrNilFacadeHandler ErrNilHttpServer : error).
Context (NewResponseLoggerMiddleware : Z -> P) (NewSourceThrottler NewGlobalThrottler : Z -> res P).
Context (handler_GetAllMetrics : H -> Api.GeneralMetrics).

(** The server that was started, or the error. *)
Definition StartWebServer (o o2 : map_order) (configs : Configs.Configs A S) (metricsHolder : option (X -> gmap string H)) (x : X)
    : outcome (res (Api.webServer X P)) :=
  let argsFacade := {|
    Api.Args_MetricsHolder := metricsHolder;
    Api.Args_ApiInterface := Configs.fl_RestApiInterface (Configs.FlagsConfig configs);
    Api.Args_PprofEnabled := Configs.fl_EnablePprof (Configs.FlagsConfig configs) |} in
  match Api.NewRelayerFacade handler_GetAllMetrics o argsFacade with
  | Err e => Ret (Err e)
  | Ok relayerFacade =>
  match Api.NewWebServerHandler (Some relayerFacade) (Configs.ApiRoutes configs) (Configs.cf_Antiflood (Configs.GeneralConfig configs)) x with
  | Err e => Ret (Err e)
  | Ok ws =>
  match Api.StartHttpServer ErrNilFacadeHandler ErrNilHttpServer NewResponseLoggerMiddleware NewSourceThrottler NewGlobalThrottler o2 ws with
  | (Ret None, ws') => Ret (Ok ws')
  | (Ret (Some e), _) => Ret (Err e)
  | (Panic p, _) => Panic p
  end end end.

(** With the interface "off" nothing is served and no error is reported; a nil metrics holder is
    refused; it never panics. *)
Lemma StartWebServer_spec o o2 configs holder x :
  match holder with
  | None => StartWebServer o o2 configs holder x = Ret (Err Status.ErrNilMetricsHolder)
  | Some _ => exists r, StartWebServer o o2 configs holder x = Ret r /\
      (Configs.fl_RestApiInterface (Configs.FlagsConfig configs) = Api.WebServerOffString ->
       exists ws, r = Ok ws /\ forall pprof_routes method path query, Api.serve pprof_routes method path query ws = None)
  end.
Proof.
  unfold StartWebServer, Api.NewRelayerFacade. destruct holder as [h|]; cbn [Api.Args_MetricsHolder]; [|done]. cbn [Api.NewWebServerHandler].
  set (ws := Api.mkServer _ _ _ _ _ _ _ _ _).
  pose proof (Api.StartHttpServer_total (X := X) ErrNilFacadeHandler ErrNilHttpServer NewResponseLoggerMiddleware NewSourceThrottler NewGlobalThrottler o2 ws) as Ht.
  unfold wp in Ht. destruct (Api.StartHttpServer _ _ _ _ _ _ _) as [[r|p] ws'] eqn:Hs; [|done].
  exists (match r with Some e => Err e | None => Ok ws' end). split; [by destruct r|]. intros Hoff.
  unfold Api.StartHttpServer, mbind, M_bind, gets in Hs. cbn [Api.ws_facade Api.RestApiInterface ws] in Hs.
  rewrite (proj2 (String.eqb_eq _ _)) in Hs by exact Hoff. injection Hs as <- <-. by eexists.
Qed.
End Web.

(** ** Shutdown *)

(** After the signal: the components are closed, then the web server, also when the first failed;
    the last error is returned. *)
Definition shutdown {S} (closeComponents closeWebServer : M S (option error)) : M S (option error) :=
  err ← closeComponents;
  err' ← closeWebServer;
  mret (match err' with Some e => Some e | None => err end).

Lemma shutdown_closes_both {S} (c w : M S (option error)) (s s1 s2 : S) e1 e2 :
  c s = (Ret e1, s1) -> w s1 = (Ret e2, s2) ->
  shutdown c w s = (Ret (match e2 with Some e => Some e | None => e1 end), s2).
Proof. intros Hc Hw. unfold shutdown, mbind, M_bind. by rewrite Hc, Hw. Qed.

End Main.
