(* ===== verification/FactoryFacts.v ===== *)
(** * What the factory guarantees

    Theorems about [Factory]: which components a successful construction registers and how they
    were made, that [Close] closes every one of them, and how [Close] and the loop that repeats
    the join message interact. *)
From S2P Require Import Prelude Go Text Common Batch Interfaces Executor StateMachine StepsEthToMvx StepsMvxToEth Machines Signatures Topology RoleProviders P2P Adapters GasStation EthClient MvxClient Status BatchValidator Relayer Config Factory.
Import Factory.
Open Scope go_scope.

Module FactoryFacts.

(** ** What a construction adds *)

(** [b'] is [b] with more handlers; the loop was not touched. *)
Record extends {X} (cl : list (option closable)) (ph : list ArgsPollingHandler) (b b' : bridgeState X) : Prop := {
  ex_closable : closableHandlers b' = closableHandlers b ++ cl;
  ex_polling : pollingHandlers b' = pollingHandlers b ++ ph;
  ex_cancel : cancelFunc b' = cancelFunc b;
  ex_done : ctxDone b' = ctxDone b;
  ex_loop : loop b' = loop b
}.

Lemma extends_refl {X} (b : bridgeState X) : extends [] [] b b.
Proof. split; rewrite ?app_nil_r; done. Qed.

Lemma extends_trans {X} cl1 cl2 ph1 ph2 (b1 b2 b3 : bridgeState X) :
  extends cl1 ph1 b1 b2 -> extends cl2 ph2 b2 b3 -> extends (cl1 ++ cl2) (ph1 ++ ph2) b1 b3.
Proof. intros [] []. split; rewrite ?app_assoc; congruence. Qed.

Lemma extends_then {X} cl ph (b1 b2 b3 : bridgeState X) :
  extends [] [] b1 b2 -> extends cl ph b2 b3 -> extends cl ph b1 b3.
Proof. apply extends_trans. Qed.

Lemma extends_before {X} cl ph (b1 b2 b3 : bridgeState X) :
  extends cl ph b1 b2 -> extends [] [] b2 b3 -> extends cl ph b1 b3.
Proof. intros H1 H2. pose proof (extends_trans _ _ _ _ _ _ _ H1 H2) as H. by rewrite !app_nil_r in H. Qed.

Lemma on_relayer_extends {X A} (c : M (Relayer.relayer X) A) (b : bridgeState X) o b' :
  on_relayer c b = (o, b') -> extends [] [] b b' /\ c (br_relayer b) = (o, br_relayer b').
Proof.
  unfold on_relayer, zoom. destruct (c (br_relayer b)) as [o' r]. intros [= <- <-]. split; [|done].
  split; rewrite ?app_nil_r; done.
Qed.

Lemma on_world_extends {X A} (c : M X A) (b : bridgeState X) o b' :
  on_world c b = (o, b') -> extends [] [] b b' /\ c (Relayer.r_world (br_relayer b)) = (o, Relayer.r_world (br_relayer b')).
Proof.
  intros H. apply on_relayer_extends in H as [He H]. split; [done|]. unfold Relayer.on_env, zoom in H.
  destruct (c (Relayer.r_world (br_relayer b))) as [o' x]. injection H as <- <-. done.
Qed.

(** Reading a successful construction backwards, one call at a time. *)
Tactic Notation "step_back" hyp(H) "as" ident(v) ident(Hc) :=
  lazymatch type of H with
  | bind_ok _ _ _ = _ => apply bind_ok_inv in H as (v & ? & Hc & H)
  | mbind _ _ _ = _ => apply bind_ret_inv in H as (v & ? & Hc & H)
  end.
Ltac by_world H := apply on_world_extends in H as [? H].

Section Facts.
Context {X T P K A S : Type} (L : libraries X T P K A) (m : memory X).
Context (args : ArgsEthereumToMultiversXBridge X A S).
Local Abbreviation cfg := (Configs.GeneralConfig (Args_Configs args)).
Local Abbreviation evm := (Configs.ec_Chain (Configs.cf_Eth cfg)).
Implicit Types b : bridgeState X.

Lemma addClosable_extends c b u b' : addClosableComponent c b = (Ret u, b') -> extends [c] [] b b'.
Proof. intros [= _ <-]. split; cbn; rewrite ?app_nil_r; done. Qed.

Lemma addPolling_extends a b u b' :
  addPollingHandler L a b = (Ret (Ok u), b') -> extends [Some (ClosablePolling (ph_Name a))] [a] b b'.
Proof. unfold addPollingHandler. case_match; [done|]. intros [= _ <-]. split; done. Qed.

Definition role_polling : Z :=
  Relayer.millis (Configs.PollingIntervalInMillis (Configs.rc_RoleProvider (Configs.cf_Relayer cfg))).

Definition roleHandler (name : string) (e : executor) : ArgsPollingHandler :=
  mkPolling true name role_polling pollingDurationOnError e.

Definition machineHandler (name : string) (d : Z) (e : executor) : ArgsPollingHandler :=
  mkPolling true (name +:+ " State machine") d pollingDurationOnError e.

Lemma mvxRole_extends b u b' :
  createMultiversXRoleProvider L m args b = (Ret (Ok u), b') ->
  extends [Some (ClosablePolling "MultiversX role provider")] [roleHandler "MultiversX role provider" MultiversXRoles] b b'.
Proof.
  intros H. unfold createMultiversXRoleProvider in H. step_back H as u0 Hc. by_world Hc.
  eapply extends_then; [done|]. by apply addPolling_extends in H.
Qed.

Lemma ethRole_extends b u b' :
  createEthereumRoleProvider L m args b = (Ret (Ok u), b') ->
  extends [Some (ClosablePolling (evm +:+ " role provider"))] [roleHandler (evm +:+ " role provider") EthereumRoles] b b'.
Proof.
  intros H. unfold createEthereumRoleProvider in H. step_back H as u0 Hc. by_world Hc.
  eapply extends_then; [done|]. by apply addPolling_extends in H.
Qed.

Lemma mvxClient_created key multisig dg b mx b' :
  createMultiversXClient L m args key multisig (Some dg) b = (Ret (Ok mx), b') ->
  extends [Some (ClosableClient true)] [] b b' /\
  exists x c, MvxClient.NewClient (lib_sdk L)
    (multiversXClientArgs m args key multisig (MvxClient.multiversXToErc20_ConvertToken dg)) x = Ok (Some (mx, c)).
Proof.
  unfold createMultiversXClient. cbn [newMapper]. intros H. step_back H as r Hr. injection Hr as <- <-.
  destruct (MvxClient.NewClient _ _ _) as [[[D c]|]|e] eqn:Hn; [|done|by step_back H as u Hu].
  step_back H as u Hp. step_back H as u2 Hc. apply on_relayer_extends in Hp as [Hp _]. apply addClosable_extends in Hc. injection H as <- <-.
  split; [by eapply extends_then|]. eauto.
Qed.

Lemma antiflood_created mes b af b' :
  createAntifloodComponents L args mes b = (Ret (Ok af), b') ->
  extends [] [] b b' /\ exists x x', NewP2PAntiFloodComponents L (Configs.p2pc_AntifloodConfig (Configs.cf_P2P cfg)) (nm_ID mes) x =
    (Ret (Ok af), x').
Proof.
  unfold createAntifloodComponents. intros H. step_back H as r Hr. by_world Hr. destruct r as [a|e]; [|by step_back H as u Hu].
  injection H as <- <-. eauto.
Qed.

Lemma broadcaster_created mes af key b bc b' :
  createBroadcaster L m args mes af key b = (Ret (Ok bc), b') -> extends [] [] b b'.
Proof.
  unfold createBroadcaster. intros H. step_back H as now Hn. by_world Hn. by_world H. by eapply extends_then.
Qed.

Lemma ethereumKey_loaded b r b' :
  loadEthereumKey L args b = (Ret (Ok r), b') -> extends [] [] b b' /\ EthClient.key_Public (fst r) = Some (snd r).
Proof.
  unfold loadEthereumKey. intros H. step_back H as file Hf. by_world Hf. injection H as H <-. split; [done|].
  destruct (HexToECDSA L _) as [key|]; [|done]. destruct (EthClient.key_Public key) eqn:Hk; [|done]. by injection H as <-.
Qed.

Lemma ethClient_created conv key dg b side b' :
  createEthereumClient L m args conv key (Some dg) b = (Ret (Ok side), b') ->
  extends [] [] b b' /\ exists mes af, Args_Messenger args = Some mes /\ es_net side = net_deps L m mes af /\
  (exists x x', NewP2PAntiFloodComponents L (Configs.p2pc_AntifloodConfig (Configs.cf_P2P cfg)) (nm_ID mes) x = (Ret (Ok af), x')) /\
  exists ekey x c, EthClient.key_Public ekey = Some (es_relayerAddress side) /\
    EthClient.NewEthereumClient (lib_eth L) (ethereumClientArgs L m args conv (es_net side) (es_broadcaster side) ekey
      (MvxClient.erc20ToMultiversX_ConvertToken dg)) x = Ok (Some (es_client side, c)).
Proof.
  unfold createEthereumClient. intros H. step_back H as mes Hm. destruct (Args_Messenger args) as [mes'|]; [|done]. injection Hm as -> <-.
  step_back H as gs Hg. by_world Hg. step_back H as af Haf. apply antiflood_created in Haf as [? Haf].
  destruct (Denial.NewPeerDenialEvaluator _ _) as [ev|] in H; [|done]. step_back H as ev' Hev. destruct ev; [|done]. injection Hev as -> <-.
  step_back H as err Hset. by_world Hset. destruct err; [done|].
  step_back H as bc Hbc. apply broadcaster_created in Hbc. step_back H as ekey Hkey. apply ethereumKey_loaded in Hkey as [? Hkey].
  cbn [newMapper] in H. step_back H as err Hadd. by_world Hadd. destruct err; [done|].
  unfold newEthClient in H. step_back H as r Hr. injection Hr as <- <-.
  destruct (EthClient.NewEthereumClient _ _ _) as [[[D c]|]|e] eqn:Hn; [|done|done].
  step_back H as u Hu. apply on_relayer_extends in Hu as [Hu _]. injection H as <- <-. split.
  - repeat (eapply extends_then; [eassumption|]). apply extends_refl.
  - exists mes, af. split; [done|]. split; [done|]. split; [done|]. eauto.
Qed.

Lemma machine_created create name e d E b hb b' :
  createStateMachine L create name e d E b = (Ret (Ok hb), b') ->
  extends [Some (ClosablePolling (name +:+ " State machine"))] [machineHandler name d e] b b' /\
  hb_executor hb = E /\ create E (initExec (br_relayer b)) = Ok (hb_steps hb, hb_machine hb).
Proof.
  unfold createStateMachine. intros H. step_back H as r Hr. injection Hr as <- <-. destruct (create E _) as [[steps machine]|]; [|done].
  step_back H as u Hu. apply addPolling_extends in Hu. by injection H as <- <-.
Qed.

(** How the parts of a relayer were made. *)
Record made (comps : ethMultiversXBridgeComponents (X := X) (T := T) (P := P)) : Prop := {
  md_messenger : Args_Messenger args = Some (messenger comps);
  md_timer : timer comps = Timer.NewNTPTimer (NewSyncTime L);
  md_bootstrap : timeForBootstrap comps = Args_TimeForBootstrap args;
  md_join : timeBeforeRepeatJoin comps = Args_TimeBeforeRepeatJoin args;
  md_parts : exists storer mx, Args_StatusStorer args = Some storer /\
    parts comps = assembled L m storer (timer comps) (relayerAddress comps) mx (es_client (ethSide comps)) /\
    exists key multisig x c, MvxClient.NewClient (lib_sdk L)
      (multiversXClientArgs m args key multisig (MvxClient.multiversXToErc20_ConvertToken (dataGetter comps))) x = Ok (Some (mx, c));
  md_getter : exists multisig proxy, Args_Proxy args = Some proxy /\
    dataGetter comps = getter_deps L (multisig, relayerAddress comps, proxy);
  md_eth : exists af, es_net (ethSide comps) = net_deps L m (messenger comps) af /\
    (exists x x', NewP2PAntiFloodComponents L (Configs.p2pc_AntifloodConfig (Configs.cf_P2P cfg)) (nm_ID (messenger comps)) x =
       (Ret (Ok af), x')) /\
    exists conv ekey x c, EthClient.key_Public ekey = Some (es_relayerAddress (ethSide comps)) /\
      EthClient.NewEthereumClient (lib_eth L) (ethereumClientArgs L m args conv (es_net (ethSide comps)) (es_broadcaster (ethSide comps))
        ekey (MvxClient.erc20ToMultiversX_ConvertToken (dataGetter comps))) x = Ok (Some (es_client (ethSide comps), c));
  md_ethToMvx : exists d r r', Relayer.createEthereumToMultiversXBridge (parts comps) (Configs.relayer_config cfg) r =
      (Ret (Ok (d, hb_executor (ethToMultiversX comps))), r') /\
    Machines.createEthereumToMultiversXStateMachine (hb_executor (ethToMultiversX comps)) (initExec r') =
      Ok (hb_steps (ethToMultiversX comps), hb_machine (ethToMultiversX comps));
  md_mvxToEth : exists d r r', Relayer.createMultiversXToEthereumBridge (parts comps) (Configs.relayer_config cfg) r =
      (Ret (Ok (d, hb_executor (multiversXToEth comps))), r') /\
    Machines.createMultiversXToEthereumStateMachine (hb_executor (multiversXToEth comps)) (initExec r') =
      Ok (hb_steps (multiversXToEth comps), hb_machine (multiversXToEth comps))
}.

Definition ethToMvxName : string := Chain.EvmCompatibleChainToMultiversXName evm.
Definition mvxToEthName : string := Chain.MultiversXToEvmCompatibleChainName evm.

(** What is registered, in this order: to be closed, and to be polled. *)
Definition registered_closable : list (option closable) :=
  [Some ClosableTimer; Some (ClosablePolling "MultiversX role provider"); Some (ClosableClient true);
   Some (ClosablePolling (evm +:+ " role provider")); Some (ClosablePolling (ethToMvxName +:+ " State machine"));
   Some (ClosablePolling (mvxToEthName +:+ " State machine"))].

Definition registered_polling (d1 d2 : Z) : list ArgsPollingHandler :=
  [roleHandler "MultiversX role provider" MultiversXRoles; roleHandler (evm +:+ " role provider") EthereumRoles;
   machineHandler ethToMvxName d1 EthToMvxMachine; machineHandler mvxToEthName d2 MvxToEthMachine].

(** The duration a half-bridge is created with is the configured one. *)
Lemma createBridge_duration C c name src dst sigs (r : Relayer.relayer X) d E r' :
  Relayer.createBridge (T := T) C c name src dst sigs r = (Ret (Ok (d, E)), r') ->
  exists sm, Relayer.cfg_StateMachine c !! name = Some sm /\ d = Relayer.millis (Relayer.StepDurationInMillis sm).
Proof.
  unfold Relayer.createBridge. destruct (Relayer.cfg_StateMachine c !! name) as [sm|]; [|done]. intros H. exists sm. split; [done|].
  destruct (Topology.NewTopologyHandler _) as [[th|]|]; [|done|done]. apply bind_ok_inv in H as (u & r1 & _ & H).
  destruct (Relayer.createBatchValidator _ _ _ _); [|done]. destruct (NewBridgeExecutor _ _ _) as [[?|]|]; [|done|done].
  by injection H as <- _ _.
Qed.

Lemma createParts_made conv tm key address multisig b comps b' :
  tm = Timer.NewNTPTimer (NewSyncTime L) ->
  createParts L m args conv tm key address multisig b = (Ret (Ok comps), b') ->
  made comps /\ exists sm1 sm2, Configs.cf_StateMachine cfg !! ethToMvxName = Some sm1 /\
    Configs.cf_StateMachine cfg !! mvxToEthName = Some sm2 /\
    extends (tail registered_closable)
      (registered_polling (Relayer.millis (Relayer.StepDurationInMillis sm1)) (Relayer.millis (Relayer.StepDurationInMillis sm2))) b b'.
Proof.
  intros -> H. unfold createParts in H. step_back H as mes Hmes. destruct (Args_Messenger args) as [mes'|] eqn:Hm; [|done]. injection Hmes as -> <-.
  step_back H as storer Hst. destruct (Args_StatusStorer args) as [storer'|] eqn:Hs; [|done]. injection Hst as -> <-.
  destruct (createDataGetter args multisig address) as [getter|] eqn:Hg; [|done].
  unfold createDataGetter, MvxClient.NewMXClientDataGetter in Hg. cbn in Hg. destruct (Args_Proxy args) as [proxy|] eqn:Hp; [|done]. injection Hg as <-.
  cbn [fmap option_fmap option_map] in H. set (dg := getter_deps L _) in H.
  step_back H as u1 H1. apply mvxRole_extends in H1. step_back H as mx H2. apply mvxClient_created in H2 as [H2 (wx & cx & Hmx)].
  step_back H as u3 H3. apply ethRole_extends in H3. step_back H as eth H4.
  apply ethClient_created in H4 as [H4 (mes' & af & Hm' & Hnet & Haf & ekey & we & ce & Hek & Hec)].
  assert (mes' = mes) as -> by congruence.
  step_back H as e2m H5. apply on_relayer_extends in H5 as [H5 Hb1]. step_back H as first H6. apply machine_created in H6 as (H6 & Hx1 & Hmach1).
  step_back H as m2e H7. apply on_relayer_extends in H7 as [H7 Hb2]. step_back H as second H8. apply machine_created in H8 as (H8 & Hx2 & Hmach2).
  step_back H as dg' Hdg. injection Hdg as <- <-. injection H as <- <-. destruct e2m as [d1 E1], m2e as [d2 E2]. cbn [fst snd] in *.
  pose proof (createBridge_duration _ _ _ _ _ _ _ _ _ _ Hb1) as (sm1 & Hsm1 & ->).
  pose proof (createBridge_duration _ _ _ _ _ _ _ _ _ _ Hb2) as (sm2 & Hsm2 & ->). split.
  - subst E1 E2. split; cbn [messenger timer timeForBootstrap timeBeforeRepeatJoin relayerAddress parts ethSide dataGetter ethToMultiversX
      multiversXToEth]; try reflexivity; [exact Hm|..].
    + exists storer, mx. split; [exact Hs|]. split; [reflexivity|]. exists key, multisig, wx, cx. exact Hmx.
    + exists multisig, proxy. split; [exact Hp|reflexivity].
    + exists af. split; [exact Hnet|]. split; [exact Haf|]. exists conv, ekey, we, ce. split; [exact Hek|exact Hec].
    + eexists _, _, _. split; [exact Hb1|exact Hmach1].
    + eexists _, _, _. split; [exact Hb2|exact Hmach2].
  - exists sm1, sm2. split; [done|]. split; [done|].
    pose proof (extends_trans _ _ _ _ _ _ _ H1 (extends_trans _ _ _ _ _ _ _ H2 (extends_trans _ _ _ _ _ _ _ H3
      (extends_then _ _ _ _ _ H4 (extends_then _ _ _ _ _ H5 (extends_trans _ _ _ _ _ _ _ H6 (extends_then _ _ _ _ _ H7 H8)))))))
      as He. exact He.
Qed.

Lemma checkArgs_ok :
  checkArgsEthereumToMultiversXBridge args = None ->
  is_Some (Args_Proxy args) /\ is_Some (Args_Messenger args) /\ is_Some (Args_ClientWrapper args) /\
  is_Some (Args_StatusStorer args) /\ is_Some (Args_Erc20ContractsHolder args) /\
  (minTimeForBootstrap <= Args_TimeForBootstrap args)%Z /\ (minTimeBeforeRepeatJoin <= Args_TimeBeforeRepeatJoin args)%Z.
Proof.
  unfold checkArgsEthereumToMultiversXBridge, if_nil. repeat (case_match; [|done]).
  destruct (Z.ltb_spec (Args_TimeForBootstrap args) minTimeForBootstrap); [done|].
  destruct (Z.ltb_spec (Args_TimeBeforeRepeatJoin args) minTimeBeforeRepeatJoin); [done|]. intros _. by repeat (split; [done|]).
Qed.

Lemma New_inv b comps b' :
  NewEthMultiversXBridgeComponents L m args b = (Ret (Ok comps), b') ->
  checkArgsEthereumToMultiversXBridge args = None /\ made comps /\
  exists sm1 sm2, Configs.cf_StateMachine cfg !! ethToMvxName = Some sm1 /\ Configs.cf_StateMachine cfg !! mvxToEthName = Some sm2 /\
    extends registered_closable
      (registered_polling (Relayer.millis (Relayer.StepDurationInMillis sm1)) (Relayer.millis (Relayer.StepDurationInMillis sm2))) b b'.
Proof.
  unfold NewEthMultiversXBridgeComponents. destruct (checkArgsEthereumToMultiversXBridge args); [done|]. intros H. split; [done|].
  destruct (MvxClient.NewAddressConverter _) as [conv|]; [|done]. step_back H as u Hu. apply addClosable_extends in Hu.
  step_back H as keys Hk. destruct keys as [[key address] multisig].
  assert (Hk' : extends [] [] x x0).
  { unfold createMultiversXKeysAndAddresses in Hk. step_back Hk as file Hf. by_world Hf. by injection Hk as _ <-. }
  apply createParts_made in H as (Hmade & sm1 & sm2 & H1 & H2 & He); [|done]. split; [done|]. exists sm1, sm2. split; [done|]. split; [done|].
  exact (extends_trans _ _ _ _ _ _ _ Hu (extends_then _ _ _ _ _ Hk' He)).
Qed.
End Facts.


(** ** Creation *)

(** A relayer that was created is complete: its arguments passed the checks, the six
    components that have to be closed are registered, in the order in which they were created,
    with nothing missing, four handlers poll the two whitelists and the two machines, at the
    configured intervals and five seconds after an error, both machines are in their first step
    on the executors built from the relayer's parts, and no loop was started yet. *)
Theorem created_relayer_complete {X T P K A S} (L : libraries X T P K A) (m : memory X)
    (args : ArgsEthereumToMultiversXBridge X A S) holder (x : X) comps b :
  NewEthMultiversXBridgeComponents L m args (new_bridge holder x) = (Ret (Ok comps), b) ->
  checkArgsEthereumToMultiversXBridge args = None /\
  closableHandlers b = registered_closable args /\
  (exists sm1 sm2, let machines := Configs.cf_StateMachine (Configs.GeneralConfig (Args_Configs args)) in
     machines !! ethToMvxName args = Some sm1 /\ machines !! mvxToEthName args = Some sm2 /\
     pollingHandlers b = registered_polling args (Relayer.millis (Relayer.StepDurationInMillis sm1))
                           (Relayer.millis (Relayer.StepDurationInMillis sm2))) /\
  currentStep (hb_machine (ethToMultiversX comps)) = Some (EthToMvx.getPendingStep (hb_executor (ethToMultiversX comps))) /\
  currentStep (hb_machine (multiversXToEth comps)) = Some (MvxToEth.getPendingStep (hb_executor (multiversXToEth comps))) /\
  loop b = LoopNotStarted /\ cancelFunc b = false.
Proof.
  intros H. apply New_inv in H as (Hc & Hmade & sm1 & sm2 & H1 & H2 & [Hcl Hph Hca _ Hl]). split; [done|].
  destruct (md_ethToMvx _ _ _ _ Hmade) as (d1 & r1 & r1' & _ & Hm1). destruct (md_mvxToEth _ _ _ _ Hmade) as (d2 & r2 & r2' & _ & Hm2).
  rewrite EthToMvx_machine in Hm1. rewrite MvxToEth_machine in Hm2. apply Ok_inj in Hm1, Hm2.
  split; [done|]. split; [by exists sm1, sm2|]. split; [|split]; [by injection Hm1 as _ <-|by injection Hm2 as _ <-|done].
Qed.

(** ** Closing *)

Section Closing.
Context {X T P K A : Type} (L : libraries X T P K A) (comps : ethMultiversXBridgeComponents (X := X) (T := T) (P := P)).

(** The reference: close every component, in order, whatever the others return. *)
Fixpoint close_each (l : list closable) : M (bridgeState X) (list (option error)) :=
  match l with
  | [] => mret []
  | c :: rest => e ← close_one L comps c; es ← close_each rest; mret (e :: es)
  end.

Definition last_error (l : list (option error)) : option error := last (omap id l).

Definition cancelled (b : bridgeState X) : bridgeState X :=
  mkBridge (closableHandlers b) (pollingHandlers b) (cancelFunc b) (ctxDone b || cancelFunc b) (loop b) (br_relayer b).

Lemma close_all_each l e b :
  close_all L comps l e b =
  (es ← close_each (omap id l); mret (match last_error es with Some e' => Some e' | None => e end)) b.
Proof.
  revert e b. induction l as [|[c|] l IH]; intros e b; [done| |apply IH].
  change (omap id (Some c :: l)) with (c :: omap id l). cbn [close_all close_each].
  unfold mbind, M_bind in *. cbn beta. destruct (close_one L comps c b) as [[err|p] b1]; [|done]. rewrite IH.
  destruct (close_each (omap id l) b1) as [[es|p] b2]; [|done]. cbn. do 2 f_equal. unfold last_error.
  destruct err as [err|]; [|done]. cbn. change (omap id (Some err :: es)) with (err :: omap id es).
  destruct (omap id es) as [|e1 es'] eqn:Hes; [done|]. rewrite last_cons_cons.
  by destruct (last (e1 :: es')) eqn:Hl; [|apply last_None in Hl].
Qed.
End Closing.

(** [Close] is thorough: it cancels the join loop's context when there is one, then closes
    every registered component once, in the order of registration, also after a failure, skips
    nil entries, and returns the last error that occurred. *)
Theorem Close_closes_all {X T P K A} (L : libraries X T P K A) (comps : ethMultiversXBridgeComponents (X := X) (T := T) (P := P))
    (b : bridgeState X) :
  Close L comps b = (es ← close_each L comps (omap id (closableHandlers b)); mret (last_error es)) (cancelled b).
Proof.
  assert (H : Close L comps b = close_all L comps (closableHandlers b) None (cancelled b)).
  { destruct b as [cl ph [] d l r]; unfold cancelled; cbn; [by rewrite orb_true_r|by rewrite orb_false_r]. }
  rewrite H, close_all_each. unfold mbind, M_bind. destruct (close_each _ _ _ _) as [[es|p] b1]; [|done]. cbn. by destruct (last_error es).
Qed.


(** ** The join loop *)

Section JoinLoop.
Context {X T P K A : Type} (L : libraries X T P K A) (m : memory X).
Context (comps : ethMultiversXBridgeComponents (X := X) (T := T) (P := P)).

(** Successive turns of the goroutine. *)
Fixpoint turns (l : list bool) : M (bridgeState X) unit :=
  match l with
  | [] => mret tt
  | t :: l' => joinLoop_turn m comps t;; turns l'
  end.

(** The fields that decide what the loop does. *)
Definition same_loop (b b' : bridgeState X) : Prop :=
  loop b' = loop b /\ cancelFunc b' = cancelFunc b /\ ctxDone b' = ctxDone b.

Lemma world_same_loop {R} (c : M X R) b o b' : on_world c b = (o, b') -> same_loop b b'.
Proof. intros H. apply on_world_extends in H as [[] _]. done. Qed.

Lemma close_one_loop c b o b' : close_one L comps c b = (o, b') -> same_loop b b'.
Proof. destruct c as [| |[]]; cbn [close_one]; try apply world_same_loop. by intros [= <- <-]. Qed.

Lemma close_all_loop l e b o b' : close_all L comps l e b = (o, b') -> same_loop b b'.
Proof.
  revert e b. induction l as [|[c|] l IH]; intros e b; cbn [close_all]; [by intros [= <- <-]| |apply IH].
  unfold mbind, M_bind. destruct (close_one L comps c b) as [[err|p] b1] eqn:H1; apply close_one_loop in H1 as (? & ? & ?).
  - intros (? & ? & ?)%IH. split_and!; congruence.
  - by intros [= <- <-].
Qed.

Lemma Close_loop b o b' : Close L comps b = (o, b') -> loop b' = loop b /\ cancelFunc b' = cancelFunc b /\ ctxDone b' = ctxDone b || cancelFunc b.
Proof.
  unfold Close, mbind, M_bind, gets. destruct (cancelFunc b) eqn:Hc; cbn; intros H; apply close_all_loop in H as (H1 & H2 & H3); cbn in *.
  - by rewrite orb_true_r, H1, H2, H3.
  - by rewrite orb_false_r, H1, H2, H3.
Qed.

(** A loop whose context is never cancelled waits for ever. *)
Lemma turns_waiting l b b' : loop b = LoopWaiting -> ctxDone b = false -> turns l b = (Ret tt, b') -> same_loop b b'.
Proof.
  revert b. induction l as [|t l IH]; intros b Hl Hd H; [by injection H as <-|]. cbn [turns] in H.
  apply bind_ret_inv in H as (u & b1 & Ht & H). unfold joinLoop_turn, mbind, M_bind, gets in Ht. rewrite Hl in Ht.
  destruct t; [apply world_same_loop in Ht as (? & ? & ?)|rewrite Hd in Ht; injection Ht as _ <-];
    (apply IH in H as (? & ? & ?); [split_and!|..]; congruence).
Qed.
End JoinLoop.

(** C38. Closing ends the loop that repeats the join message, provided its goroutine had its first
    turn before: then the context is cancelled, the next turn without a tick of the timer ends
    the loop, and an ended loop does nothing more.  When [Close] comes first, right after
    [Start], the cancel function is not there yet: the loop then waits and broadcasts for ever,
    however many turns it gets. *)
Theorem Close_and_join_loop {X T P K A} (L : libraries X T P K A) (m : memory X)
    (comps : ethMultiversXBridgeComponents (X := X) (T := T) (P := P)) (b : bridgeState X) :
  loop b = LoopSpawned -> cancelFunc b = false -> ctxDone b = false ->
  (forall t l b1 e b2, turns m comps (t :: l) b = (Ret tt, b1) -> Close L comps b1 = (Ret e, b2) ->
     exists b3, joinLoop_turn m comps false b2 = (Ret tt, b3) /\ loop b3 = LoopEnded /\
       forall t', joinLoop_turn m comps t' b3 = (Ret tt, b3)) /\
  (forall e b1 t l b2, Close L comps b = (Ret e, b1) -> turns m comps (t :: l) b1 = (Ret tt, b2) -> loop b2 = LoopWaiting).
Proof.
  intros Hl Hc Hd. split.
  - intros t l b1 e b2 Ht Hclose. cbn [turns] in Ht. apply bind_ret_inv in Ht as (u & b0 & Ht & Hts).
    unfold joinLoop_turn, mbind, M_bind, gets in Ht. rewrite Hl in Ht. injection Ht as _ <-.
    apply turns_waiting in Hts as (Hw & Hcf & _); [|done..]. cbn in Hw, Hcf.
    apply Close_loop in Hclose as (H1 & H2 & H3). rewrite Hcf, orb_true_r in H3. rewrite Hw in H1.
    exists (set_loop LoopEnded b2). split; [|done]. unfold joinLoop_turn, mbind, M_bind, gets. by rewrite H1, H3.
  - intros e b1 t l b2 Hclose Ht. apply Close_loop in Hclose as (H1 & H2 & H3). rewrite Hc, orb_false_r, Hd in H3. rewrite Hl in H1.
    cbn [turns] in Ht. apply bind_ret_inv in Ht as (u & b0 & Ht & Hts). unfold joinLoop_turn, mbind, M_bind, gets in Ht. rewrite H1 in Ht.
    injection Ht as _ <-. by apply turns_waiting in Hts as (-> & _ & _).
Qed.

End FactoryFacts.
