(* ===== verification/Process.v ===== *)
(** * A whole relayer process

    The components the factory created, running: the four polling handlers, the messages of other
    relayers, the gas station's loop, the join loop, [Start] and [Close], in any order, next to
    everything that happens outside.  The theorem of this file needs no law about the
    relayer's own components: they are those of [Factory].  What lies outside the repository is
    assumed to return, and two inputs the code does not check are assumed to be sound. *)
From S2P Require Import Prelude Go Text Common Keys Batch Interfaces Executor StateMachine StepsEthToMvx StepsMvxToEth Machines Monitor SafetyEthToMvx SafetyMvxToEth Hoist Bridge Signatures Topology RoleProviders P2P Adapters GasStation EthClient EthClientFacts MvxClient MvxClientFacts Status BatchValidator Relayer Config Factory FactoryFacts.
Import Factory FactoryFacts.
Open Scope go_scope.

Module Process.
#[local] Existing Instance SignatureHolder.holder_client.

(** ** What is assumed of the outside *)

Class WrapperLaws {X} (w : EthClient.ClientWrapper X) : Prop := {
  wr_batch n x : wp (EthClient.cw_GetBatch w n)
    (fun r _ => match r with Ok cb => (0 <= EthClient.cb_DepositsCount cb < 65536)%Z | Err _ => True end) x;
  wr_deposits n : total (EthClient.cw_GetBatchDeposits w n);
  wr_relayers : total (EthClient.cw_GetRelayers w);
  wr_executed n : total (EthClient.cw_WasBatchExecuted w n);
  wr_chainid : total (EthClient.cw_ChainID w);
  wr_block : total (EthClient.cw_BlockNumber w);
  wr_nonce a n : total (EthClient.cw_NonceAt w a n);
  wr_transfer o l b s : total (EthClient.cw_ExecuteTransfer w o l b s);
  wr_quorum : total (EthClient.cw_Quorum w);
  wr_statuses n : total (EthClient.cw_GetStatusesAfterExecution w n);
  wr_balance a n : total (EthClient.cw_BalanceAt w a n);
  wr_paused : total (EthClient.cw_IsPaused w);
  wr_status :: StatusHandlerLaws (EthClient.cw_status w)
}.

Class NodeLaws {X} (p : MvxClient.Proxy X) : Prop := {
  nd_query r x : wp (MvxClient.px_ExecuteVMQuery p r)
    (fun r _ => match r with Ok v => (Z.of_nat (length (MvxClient.ReturnData v)) < two63)%Z | Err _ => True end) x;
  nd_status s : total (MvxClient.px_GetNetworkStatus p s);
  nd_shard a : total (MvxClient.px_GetShardOfAddress p a);
  nd_config : total (MvxClient.px_GetNetworkConfig p)
}.

Class MessengerLaws {X} (mes : NetMessenger X) : Prop := {
  ms_bootstrap : total (nm_Bootstrap mes);
  ms_register t i : total (nm_RegisterMessageProcessor mes t i);
  ms_topic t b : total (nm_CreateTopic mes t b);
  ms_broadcast t b : total (nm_Broadcast mes t b);
  ms_send t b p : total (nm_SendToConnectedPeer mes t b p);
  ms_evaluator e : total (nm_SetPeerDenialEvaluator mes e);
  ms_close : total (nm_Close mes)
}.

Class AntifloodLaws {X} (af : antiFloodComponents X) : Prop := {
  fl_message msg p : total (af_CanProcessMessage af msg p);
  fl_topic p t n sz seq : total (af_CanProcessMessagesOnTopic af p t n sz seq);
  fl_blacklist p r : total (af_BlacklistPeer af p r)
}.

(** The libraries, the files and the network return; hashes have at least eight bytes. *)
Class LibraryLaws {X T P K A} (L : libraries X T P K A) : Prop := {
  out_nonces p d nh : MvxClient.NewNonceTransactionHandlerV1 (lib_sdk L) p d = Ok nh ->
    (forall a, total (MvxClient.nh_GetNonce nh a)) /\ forall tx, total (MvxClient.nh_SendTransaction nh tx);
  out_antiflood c id x : wp (NewP2PAntiFloodComponents L c id) (fun r _ => match r with Ok af => AntifloodLaws af | Err _ => True end) x;
  out_cancel : total (antiflood_cancel L);
  out_pem f : total (LoadPrivateKeyFromPemFile L f);
  out_file f : total (ReadFile L f);
  out_clock : total (UnixNano L);
  out_sleep d : total (Sleep L d);
  out_ntp c : total (Timer.CurrentTime_Unix (NewSyncTime L c));
  out_ntp_close c : total (Timer.sync_Close (NewSyncTime L c));
  out_poll n : total (StartProcessingLoop L n);
  out_poll_close n : total (polling_Close L n);
  out_nonce_close : total (nonceTxHandler_Close L);
  out_gas u : total (gas_http_get L u);
  out_sha256 b : 8 <= length (lib_sha256 L b);
  out_do u b : total (lib_http_Do L u b);
  out_select d : total (lib_select L d)
}.

(** A configuration: the limits are [uint64]s, as the fields' types say. *)
Class ConfigLaws {A S} (cfg : Configs.Config A S) : Prop := {
  out_u64_eth : is_u64 (Configs.ec_MaxRetriesOnQuorumReached (Configs.cf_Eth cfg));
  out_u64_mx : is_u64 (Configs.mc_MaxRetriesOnQuorumReached (Configs.cf_MultiversX cfg));
  out_u64_proposed : is_u64 (Configs.mc_MaxRetriesOnWasTransferProposed (Configs.cf_MultiversX cfg))
}.

(** The libraries, the configuration and the nodes that are given; no map holds 2^63 entries. *)
Class Outside {X T P K A S} (L : libraries X T P K A) (m : memory X) (args : ArgsEthereumToMultiversXBridge X A S) : Prop := {
  out_libraries :: LibraryLaws L;
  out_config :: ConfigLaws (Configs.GeneralConfig (Args_Configs args));
  out_wrapper w : Args_ClientWrapper args = Some w -> WrapperLaws w;
  out_erc20 h t a : Args_Erc20ContractsHolder args = Some h -> total (h t a);
  out_proxy p : Args_Proxy args = Some p -> NodeLaws p;
  out_metrics sh : Args_MultiversXClientStatusHandler args = Some sh -> StatusHandlerLaws sh;
  out_messenger mes : Args_Messenger args = Some mes -> MessengerLaws mes;
  out_put st k v : Args_StatusStorer args = Some st -> total (Storer_Put st k v);
  out_get st k : Args_StatusStorer args = Some st -> total (Storer_Get st k);
  out_roles x : (Z.of_nat (size (ob_mvxRoles (load m x))) < two63)%Z
}.

(** What a running relayer relies on and nobody checks: the address of an enabled batch validator
    is one [http.NewRequest] accepts, and the quorum the wrapper answers fits an [int64]. *)
Definition validator_url_accepted {X T P K A S} (L : libraries X T P K A) (args : ArgsEthereumToMultiversXBridge X A S) : Prop :=
  let cfg := Configs.relayer_config (Configs.GeneralConfig (Args_Configs args)) in
  Relayer.url_accepted (lib_http_NewRequest L) (Relayer.cfg_BatchValidator cfg) (Relayer.cfg_Chain cfg).

Definition quorum_answered {X A S} (args : ArgsEthereumToMultiversXBridge X A S) : Prop :=
  forall w, Args_ClientWrapper args = Some w -> yields_quorum (EthClient.cw_Quorum w).

Section Laws.
Context {X T P K A S : Type} (L : libraries X T P K A) (m : memory X) (args : ArgsEthereumToMultiversXBridge X A S).
Context `{!Outside L m args}.
Local Abbreviation cfg := (Configs.GeneralConfig (Args_Configs args)).

(** The data getter: it uses only the proxy. *)
Lemma getter_query_total multisig address p builder :
  NodeLaws p -> total (MvxClient.executeQueryFromBuilder (getter_deps L (multisig, address, p)) builder).
Proof.
  intros Hp. assert (Hq : forall r, total (MvxClient.px_ExecuteVMQuery p r)).
  { intros r x. eapply wp_mono; [apply nd_query|done]. }
  unfold MvxClient.executeQueryFromBuilder, MvxClient.with_request, MvxClient.ExecuteQueryReturningBytes. solve_total.
Qed.

Lemma getter_converts multisig address p t :
  NodeLaws p ->
  total (MvxClient.erc20ToMultiversX_ConvertToken (getter_deps L (multisig, address, p)) t) /\
  total (MvxClient.multiversXToErc20_ConvertToken (getter_deps L (multisig, address, p)) t).
Proof.
  intros Hp. unfold MvxClient.erc20ToMultiversX_ConvertToken, MvxClient.multiversXToErc20_ConvertToken,
    MvxClient.GetTokenIdForErc20Address, MvxClient.GetERC20AddressForTokenId.
  pose proof (getter_query_total multisig address p). split; apply total_bind_ok; auto; intros; apply total_ret.
Qed.

Lemma on_broadcaster_total {R} (c : M (P2P.broadcaster SignatureHolder.signaturesHolder X) R) : total c -> total (on_broadcaster m c).
Proof. apply total_zoom. Qed.

(** The MultiversX client the factory creates. *)
Lemma mvx_client_laws key multisig mapper x mx c :
  (forall t, total (mapper t)) ->
  MvxClient.NewClient (lib_sdk L) (multiversXClientArgs m args key multisig mapper) x = Ok (Some (mx, c)) ->
  MvxClientFacts.ProxyLaws mx.
Proof.
  intros Hmap. unfold MvxClient.NewClient. destruct (MvxClient.checkArgs _); [done|]. cbn.
  destruct (Args_Proxy args) as [proxy|] eqn:Hp; [|done]. cbn.
  destruct (MvxClient.NewNonceTransactionHandlerV1 _ _ _) as [nh|] eqn:Hn; [|done]. destruct (MvxClient.rk_PublicBytes key); [|done].
  destruct (MvxClient.NewAddressFromBytes _ _) as [address|]; [|done]. cbn. destruct (MvxClient.NewAddressConverter _) as [conv|]; [|done].
  cbn. destruct (Args_MultiversXClientStatusHandler args) as [sh|] eqn:Hs; [|done]. intros [= <- <-].
  pose proof (out_proxy proxy Hp). destruct (out_nonces _ _ _ Hn) as [Hnonce Hsend]. pose proof (out_metrics sh Hs).
  split; cbn; intros; try apply nd_query; try apply nd_status; try apply nd_shard; try apply nd_config; try done; try apply Hnonce; try apply Hsend.
Qed.

(** The Ethereum client. *)
Lemma eth_client_laws conv mes af bc ekey mapper x D c :
  Args_Messenger args = Some mes -> (forall t, total (mapper t)) ->
  EthClient.NewEthereumClient (lib_eth L) (ethereumClientArgs L m args conv (net_deps L m mes af) bc ekey mapper) x = Ok (Some (D, c)) ->
  EthClientFacts.ChainLaws D.
Proof.
  intros Hmes Hmap. unfold EthClient.NewEthereumClient. destruct (EthClient.checkArgs _); [done|]. cbn.
  destruct (EthClient.key_Public ekey) as [address|]; [|done]. unfold EthClient.clientFields. cbn.
  destruct (Args_ClientWrapper args) as [w|] eqn:Hw; [|done]. destruct (Args_Erc20ContractsHolder args) as [h|] eqn:Hh; [|done].
  intros [= <- <-]. pose proof (out_wrapper w Hw). pose proof (fun t a => out_erc20 h t a Hh). pose proof (out_messenger mes Hmes).
  split; cbn; intros; try apply wr_batch; try apply wr_quorum; try (by apply wr_status); try apply wr_deposits; try apply wr_executed; try apply wr_chainid;
    try apply wr_block; try apply wr_nonce; try apply wr_transfer; try apply wr_statuses; try apply wr_balance; try apply wr_paused; try done; try apply Hmap.
  apply on_broadcaster_total. unfold P2P.BroadcastSignature, P2P.broadcastMessage, P2P.createMessage, P2P.on_net. solve_total.
  cbn. apply ms_broadcast.
Qed.

Lemma sorted_keys_bound (x : X) : (Z.of_nat (length (RoleProviders.SortedPublicKeys (lib_order L) (mvx_roles m x))) < two63)%Z.
Proof.
  pose proof (out_roles x) as H. unfold RoleProviders.SortedPublicKeys. rewrite sorted_keys_perm, !length_fmap, length_map_to_list. exact H.
Qed.

(** Parts that satisfy their own laws make a relayer that satisfies its laws. *)
Lemma assembled_laws storer address mx eth :
  Args_StatusStorer args = Some storer -> EthClientFacts.ChainLaws eth -> MvxClientFacts.ProxyLaws mx ->
  total (sig_ClearStoredSignatures (EthClient.signatureHolder eth)) ->
  Relayer.RelayerLaws (assembled L m storer (Timer.NewNTPTimer (NewSyncTime L)) address mx eth) (Configs.relayer_config cfg).
Proof.
  intros Hst Heth Hmx Hclear. split; intros; cbn; try done; [apply sorted_keys_bound|apply out_ntp|apply out_sha256|by apply out_put|by apply out_get|
    apply out_do|apply out_select|apply out_u64_eth|apply out_u64_mx|apply out_u64_proposed].
Qed.

Lemma eth_holder_clears conv net bc ekey mapper x D c :
  EthClient.NewEthereumClient (lib_eth L) (ethereumClientArgs L m args conv net bc ekey mapper) x = Ok (Some (D, c)) ->
  total (sig_ClearStoredSignatures (EthClient.signatureHolder D)).
Proof.
  intros H. pose proof (EthClientFacts.NewEthereumClient_spec (lib_eth L) (ethereumClientArgs L m args conv net bc ekey mapper) x) as Hs.
  rewrite H in Hs. destruct Hs as (_ & _ & _ & _ & _ & _ & Hs). injection Hs as <-. apply total_modify.
Qed.

(** The parts of a relayer that was created satisfy the laws of the half-bridges. *)
Lemma made_laws comps : made L m args comps -> Relayer.RelayerLaws (parts comps) (Configs.relayer_config cfg).
Proof.
  intros Hm. destruct (md_parts _ _ _ _ Hm) as (storer & mx & Hst & -> & key & multisig & x & c & Hmx).
  destruct (md_getter _ _ _ _ Hm) as (multisig' & proxy & Hp & Hdg). destruct (md_eth _ _ _ _ Hm) as (af & Hnet & _ & conv & ekey & x' & c' & _ & Heth).
  rewrite Hdg in Hmx, Heth. pose proof (eth_holder_clears _ _ _ _ _ _ _ _ Heth) as Hclear. rewrite Hnet in Heth.
  pose proof (fun t => getter_converts multisig' (relayerAddress comps) proxy t (out_proxy proxy Hp)) as Hconv.
  rewrite (md_timer _ _ _ _ Hm). apply assembled_laws; [done| | |done].
  - eapply eth_client_laws; [apply (md_messenger _ _ _ _ Hm)| |exact Heth]. intros t. apply Hconv.
  - eapply mvx_client_laws; [|exact Hmx]. intros t. apply Hconv.
Qed.

(** The half-bridges use the wrapper and the HTTP client of the arguments. *)
Lemma made_inputs comps : made L m args comps -> quorum_answered args -> validator_url_accepted L args ->
  Relayer.quorum_fits (parts comps) /\
  Relayer.url_accepted (Relayer.http_NewRequest (parts comps)) (Relayer.cfg_BatchValidator (Configs.relayer_config cfg))
    (Relayer.cfg_Chain (Configs.relayer_config cfg)).
Proof.
  intros Hm Hq Hu. destruct (md_parts _ _ _ _ Hm) as (storer & mx & Hst & -> & _). split; [|exact Hu].
  destruct (md_eth _ _ _ _ Hm) as (af & _ & _ & conv & ekey & x & c & _ & Heth). apply Hq.
  pose proof (EthClientFacts.NewEthereumClient_spec (lib_eth L) (ethereumClientArgs L m args conv (es_net (ethSide comps))
    (es_broadcaster (ethSide comps)) ekey (MvxClient.erc20ToMultiversX_ConvertToken (dataGetter comps))) x) as Hs.
  rewrite Heth in Hs. by destruct Hs as (_ & _ & _ & _ & _ & Hs & _).
Qed.

(** ** Creation never panics *)

Definition ok_post {R} (Q : R -> Prop) (r : res R) (_ : bridgeState X) : Prop :=
  match r with Ok a => Q a | Err _ => True end.

Lemma on_world_total {R} (c : M X R) : total c -> total (on_world c).
Proof. intros Hc. by apply total_zoom, total_zoom. Qed.

Lemma wp_bind_post {R R'} (c : M (bridgeState X) (res R)) (k : R -> M (bridgeState X) (res R')) (Q : R -> Prop) (Q' : R' -> Prop) b :
  wp c (ok_post Q) b -> (forall a b', Q a -> wp (k a) (ok_post Q') b') -> wp (bind_ok c k) (ok_post Q') b.
Proof. intros Hc Hk. apply wp_bind_ok. eapply wp_mono; [exact Hc|]. intros [a|e] b' Ha; [by apply Hk|done]. Qed.

Lemma total_post {R} (c : M (bridgeState X) (res R)) b : total c -> wp c (ok_post (fun _ => True)) b.
Proof. intros Hc. eapply wp_mono; [apply Hc|]. intros [] ? _; done. Qed.

Lemma construct_total {R} (create : X -> res R) put : total (construct create put).
Proof. intros x. unfold wp, construct. by destruct (create x). Qed.

Lemma addPolling_total a : total (addPollingHandler L a).
Proof. unfold addPollingHandler, addClosableComponent. case_match; solve_total. Qed.

Lemma createKeys_total : total (createMultiversXKeysAndAddresses L args).
Proof. unfold createMultiversXKeysAndAddresses. apply total_bind_ok; [apply on_world_total, out_pem|]. intros. apply total_ret. Qed.

Lemma mvxClient_post key multisig dg b :
  (forall t, total (MvxClient.multiversXToErc20_ConvertToken dg t)) ->
  wp (createMultiversXClient L m args key multisig (Some dg)) (ok_post MvxClientFacts.ProxyLaws) b.
Proof.
  intros Hdg. unfold createMultiversXClient. cbn [newMapper]. apply wp_bind, wp_gets.
  set (a := multiversXClientArgs _ _ _ _ _). pose proof (MvxClientFacts.NewClient_spec (lib_sdk L) a (Relayer.r_world (br_relayer b))) as Hs.
  destruct (MvxClient.NewClient _ _ _) as [[[D c]|]|e] eqn:Hn; [|done|done]. clear Hs.
  unfold on_relayer. wp_run. by eapply mvx_client_laws.
Qed.

Lemma antiflood_post mes b : wp (createAntifloodComponents L args mes) (ok_post AntifloodLaws) b.
Proof.
  unfold createAntifloodComponents. apply wp_bind. unfold on_world, on_relayer, Relayer.on_env. do 2 apply wp_zoom.
  eapply wp_mono; [apply out_antiflood|]. intros [af|e] x Haf; [done|]. apply wp_bind. do 2 apply wp_zoom.
  eapply wp_mono; [apply out_cancel|]. done.
Qed.

Lemma broadcaster_total mes af key : total (createBroadcaster L m args mes af key).
Proof.
  unfold createBroadcaster. apply total_bind; [apply on_world_total, out_clock|]. intros now. apply on_world_total.
  intros x. unfold wp. by destruct (P2P.NewBroadcaster _ _ _ _ _) as [[]|].
Qed.

Lemma ethClient_post conv key dg mes b :
  Args_Messenger args = Some mes -> (forall t, total (MvxClient.erc20ToMultiversX_ConvertToken dg t)) ->
  wp (createEthereumClient L m args conv key (Some dg))
    (ok_post (fun side => EthClientFacts.ChainLaws (es_client side) /\
       total (sig_ClearStoredSignatures (EthClient.signatureHolder (es_client side))))) b.
Proof.
  intros Hm Hdg. unfold createEthereumClient. apply wp_bind. rewrite Hm. apply wp_ret. pose proof (out_messenger mes Hm) as Hmes.
  eapply wp_bind_post; [apply total_post, on_world_total, construct_total|]. intros _ b1 _.
  eapply wp_bind_post; [apply antiflood_post|]. intros af b2 Haf.
  destruct (Denial.NewPeerDenialEvaluator _ _) as [ev|] eqn:Hev; [|done]. unfold Denial.NewPeerDenialEvaluator in Hev.
  destruct (af_BlacklistHandler af), (af_PubKeysCacher af); try done. injection Hev as <-. apply wp_bind, wp_ret.
  apply wp_bind, wp_total; [apply on_world_total, ms_evaluator|]. intros [e|] b3 _; [done|].
  eapply wp_bind_post; [apply total_post, broadcaster_total|]. intros bc b4 _.
  eapply wp_bind_post. { apply total_post. unfold loadEthereumKey. apply total_bind_ok; [apply on_world_total, out_file|]. intros. apply total_ret. }
  intros [ekey address] b5 _. cbn [newMapper fst snd]. apply wp_bind, wp_total; [apply on_world_total, on_broadcaster_total; cbn; solve_total|].
  intros [e|] b6 _; [done|]. unfold newEthClient. apply wp_bind, wp_gets.
  set (a := ethereumClientArgs _ _ _ _ _ _ _ _). pose proof (EthClientFacts.NewEthereumClient_spec (lib_eth L) a (Relayer.r_world (br_relayer b6))) as Hs.
  destruct (EthClient.NewEthereumClient _ _ _) as [[[D c]|]|e] eqn:Hn; [|done|done]. clear Hs.
  unfold on_relayer. wp_run. split; [by eapply eth_client_laws|by eapply eth_holder_clears].
Qed.

Lemma machine_total (create : executorDeps (Relayer.relayer X) -> _) name e d E : total (createStateMachine L create name e d E).
Proof.
  unfold createStateMachine. apply total_bind; [apply total_gets|]. intros r. destruct (create E (initExec r)) as [[]|]; [|apply total_ret].
  apply total_bind_ok; [apply addPolling_total|]. intros. apply total_ret.
Qed.

Lemma createParts_total conv key address multisig :
  checkArgsEthereumToMultiversXBridge args = None ->
  total (createParts L m args conv (Timer.NewNTPTimer (NewSyncTime L)) key address multisig).
Proof.
  intros Hc b. apply checkArgs_ok in Hc as ([proxy Hp] & [mes Hm] & _ & [storer Hs] & _).
  eapply (wp_mono _ (ok_post (fun _ => True))); [|done]. unfold createParts. rewrite Hm, Hs. do 2 (apply wp_bind, wp_ret).
  unfold createDataGetter, MvxClient.NewMXClientDataGetter. rewrite Hp. cbn [negb].
  cbn [mbind option_bind fmap option_fmap option_map]. set (dg := getter_deps L _).
  pose proof (fun t => getter_converts multisig address proxy t (out_proxy proxy Hp)) as Hconv. change (getter_deps L (multisig, address, proxy)) with dg in Hconv.
  eapply wp_bind_post; [apply total_post|intros _ b1 _].
  { unfold createMultiversXRoleProvider. apply total_bind_ok; [apply on_world_total, construct_total|]. intros. apply addPolling_total. }
  eapply wp_bind_post; [apply mvxClient_post, Hconv|intros mx b2 Hmx].
  eapply wp_bind_post; [apply total_post|intros _ b3 _].
  { unfold createEthereumRoleProvider. apply total_bind_ok; [apply on_world_total, construct_total|]. intros. apply addPolling_total. }
  eapply wp_bind_post; [apply (ethClient_post _ _ _ mes); [done|apply Hconv]|intros eth b4 [Heth Hclear]].
  pose proof (assembled_laws storer address mx (es_client eth) Hs Heth Hmx Hclear) as Hlaws.
  eapply wp_bind_post; [apply total_post, total_zoom, Relayer.createBridge_total; exact Hlaws|intros e2m b5 _].
  eapply wp_bind_post; [apply total_post, machine_total|intros first b6 _].
  eapply wp_bind_post; [apply total_post, total_zoom, Relayer.createBridge_total; exact Hlaws|intros m2e b7 _].
  eapply wp_bind_post; [apply total_post, machine_total|intros second b8 _]. done.
Qed.

Lemma New_total : total (NewEthMultiversXBridgeComponents L m args).
Proof.
  unfold NewEthMultiversXBridgeComponents. destruct (checkArgsEthereumToMultiversXBridge args) eqn:Hc; [apply total_ret|].
  destruct (MvxClient.NewAddressConverter _); [|apply total_ret]. apply total_bind; [apply total_modify|]. intros _.
  apply total_bind_ok; [apply createKeys_total|]. intros [[key address] multisig]. by apply createParts_total.
Qed.
End Laws.

(** ** Activities *)

(** What can happen in a running relayer: a handler polls its executor, a message arrives, the
    gas station's or the join loop's goroutine has a turn, the process starts or closes the
    components, or something happens outside. *)
Inductive activity (X : Type) :=
  | Poll (e : executor)
  | Receive (o1 o2 : map_order) (msg : P2P.MessageP2P) (from : P2P.PeerID)
  | GasTurn
  | JoinTurn (timerFired : bool)
  | StartAll
  | CloseAll
  | World (f : X -> X).
Arguments Poll {X} e.
Arguments Receive {X} o1 o2 msg from.
Arguments GasTurn {X}.
Arguments JoinTurn {X} timerFired.
Arguments StartAll {X}.
Arguments CloseAll {X}.
Arguments World {X} f.

(** The components' state and the two machines, each with the history of its calls. *)
Record process (X : Type) := mkProcess {
  pr_bridge : bridgeState X;
  pr_first : smState (execState (Relayer.relayer X * list event));
  pr_second : smState (execState (Relayer.relayer X * list event))
}.
Arguments mkProcess {X} _ _ _.
Arguments pr_bridge {X} _.
Arguments pr_first {X} _.
Arguments pr_second {X} _.

Definition on_bridge {X R} (c : M (bridgeState X) R) : M (process X) R :=
  zoom pr_bridge (fun b p => mkProcess b (pr_first p) (pr_second p)) c.

(** A machine works on the relayer's current state. *)
Definition attach {X} (r : Relayer.relayer X) (sm : smState (execState (Relayer.relayer X * list event))) :=
  mkSm (currentStep sm) (set_world (r, snd (world (inner sm))) (inner sm)).

Definition set_relayer {X} (r : Relayer.relayer X) (b : bridgeState X) : bridgeState X :=
  mkBridge (closableHandlers b) (pollingHandlers b) (cancelFunc b) (ctxDone b) (loop b) r.

Definition get_first {X} (p : process X) := attach (br_relayer (pr_bridge p)) (pr_first p).
Definition put_first {X} (sm : smState (execState (Relayer.relayer X * list event))) (p : process X) : process X :=
  mkProcess (set_relayer (fst (world (inner sm))) (pr_bridge p)) sm (pr_second p).
Definition get_second {X} (p : process X) := attach (br_relayer (pr_bridge p)) (pr_second p).
Definition put_second {X} (sm : smState (execState (Relayer.relayer X * list event))) (p : process X) : process X :=
  mkProcess (set_relayer (fst (world (inner sm))) (pr_bridge p)) (pr_first p) sm.

Section Running.
Context {X T P K A S : Type} (L : libraries X T P K A) (m : memory X) (args : ArgsEthereumToMultiversXBridge X A S).
Context (comps : ethMultiversXBridgeComponents (X := X) (T := T) (P := P)).
Local Abbreviation E1 := (observed (hb_executor (ethToMultiversX comps))).
Local Abbreviation E2 := (observed (hb_executor (multiversXToEth comps))).
Local Abbreviation steps1 := (step_map (EthToMvx.stepsSlice E1)).
Local Abbreviation steps2 := (step_map (MvxToEth.stepsSlice E2)).

(** The Ethereum whitelist asks the wrapper of the arguments. *)
Definition eth_relayers : M X (res (list bytes)) :=
  w ← deref (Args_ClientWrapper args); EthClient.cw_GetRelayers w.

Definition poll (e : executor) : M (process X) (option error) :=
  match e with
  | MultiversXRoles => on_bridge (on_world (zoom (mvx_roles m) (put_mvx_roles m)
      (RoleProviders.mvx_Execute (address_IsValid L) (MvxClient.GetAllStakedRelayers (dataGetter comps)))))
  | EthereumRoles => on_bridge (on_world (zoom (eth_roles m) (put_eth_roles m) (RoleProviders.eth_Execute eth_relayers)))
  | EthToMvxMachine => zoom get_first put_first (sm_Execute (sm_metric E1) steps1)
  | MvxToEthMachine => zoom get_second put_second (sm_Execute (sm_metric E2) steps2)
  end.

Definition perform (a : activity X) : M (process X) (option error) :=
  match a with
  | Poll e => poll e
  | Receive o1 o2 msg from => on_bridge (on_world (on_broadcaster m
      (P2P.ProcessReceivedMessage (es_net (ethSide comps)) (es_broadcaster (ethSide comps)) o1 o2 (Some msg) from)))
  | GasTurn => on_bridge (on_world (zoom (gas_station m) (put_gas_station m)
      (GasStation.doRequestWithRetryMechanism (gas_http_get L) (gas_json_Unmarshal L) (gasStationArgs args);; mret None)))
  | JoinTurn t => on_bridge (joinLoop_turn m comps t;; mret None)
  | StartAll => on_bridge (Start L m comps)
  | CloseAll => on_bridge (Close L comps)
  | World f => on_bridge (on_world (modify f;; mret None))
  end.

(** A run: what each activity returned. *)
Fixpoint live (l : list (activity X)) : M (process X) (list (activity X * option error)) :=
  match l with
  | [] => mret []
  | a :: rest => e ← perform a; es ← live rest; mret ((a, e) :: es)
  end.

(** The process as the constructor leaves it. *)
Definition created (b : bridgeState X) : process X :=
  mkProcess b (mkSm (Some (EthToMvx.getPendingStep E1)) (initExec (br_relayer b, [])))
              (mkSm (Some (MvxToEth.getPendingStep E2)) (initExec (br_relayer b, []))).
End Running.


(** ** Safety of the process *)

Lemma attach_first {X} (E : executorDeps (Relayer.relayer X)) r sm :
  sm_inv (step_map (EthToMvx.stepsSlice (observed E))) (EthToMvxSafety.inv E) sm ->
  sm_inv (step_map (EthToMvx.stepsSlice (observed E))) (EthToMvxSafety.inv E) (attach r sm).
Proof.
  intros (id & st & Hst & [Hbase Hat]). exists id, st. split; [exact Hst|]. clear Hst. destruct sm as [cur [? ? ? ? ? ? [? ?]]].
  split; [exact Hbase|]. clear Hbase. revert Hat. unfold EthToMvxSafety.at_step. repeat case_match; intros Hat; exact Hat.
Qed.

Lemma attach_second {X} (E : executorDeps (Relayer.relayer X)) r sm :
  sm_inv (step_map (MvxToEth.stepsSlice (observed E))) (MvxToEthSafety.inv E) sm ->
  sm_inv (step_map (MvxToEth.stepsSlice (observed E))) (MvxToEthSafety.inv E) (attach r sm).
Proof.
  intros (id & st & Hst & [Hbase Hat]). exists id, st. split; [exact Hst|]. clear Hst. destruct sm as [cur [? ? ? ? ? ? [? ?]]].
  split; [exact Hbase|]. clear Hbase. revert Hat. unfold MvxToEthSafety.at_step. repeat case_match; intros Hat; exact Hat.
Qed.


Section Safety.
Context {X T P K A S : Type} (L : libraries X T P K A) (m : memory X) (args : ArgsEthereumToMultiversXBridge X A S).
Context `{!Outside L m args} (comps : ethMultiversXBridgeComponents (X := X) (T := T) (P := P)).
Context (Hmade : made L m args comps) (Hchecked : checkArgsEthereumToMultiversXBridge args = None).
Context (Hquorum : quorum_answered args) (Hurl : validator_url_accepted L args).
Local Abbreviation E1 := (hb_executor (ethToMultiversX comps)).
Local Abbreviation E2 := (hb_executor (multiversXToEth comps)).

Lemma executors_lawful : EnvLaws E1 /\ EnvLaws E2.
Proof.
  pose proof (made_laws L m args comps Hmade) as Hlaws.
  destruct (md_ethToMvx _ _ _ _ Hmade) as (d1 & r1 & r1' & H1 & _). destruct (made_inputs L m args comps Hmade Hquorum Hurl) as [Hq Hu]. destruct (md_mvxToEth _ _ _ _ Hmade) as (d2 & r2 & r2' & H2 & _). split.
  - eapply Relayer.createBridge_laws; [exact Hlaws|exact Hq| | |exact H1]; [intros He; apply (Hu He)|apply total_ret].
  - eapply Relayer.createBridge_laws; [exact Hlaws|exact Hq| | |exact H2]; [intros He; apply (Hu He)|apply Relayer.rl_clear].
Qed.

(** What a running relayer keeps: both machines' invariants, and no component that was never
    created waits to be closed. *)
Definition process_inv (p : process X) : Prop :=
  sm_inv (step_map (EthToMvx.stepsSlice (observed E1))) (EthToMvxSafety.inv E1) (pr_first p) /\
  sm_inv (step_map (MvxToEth.stepsSlice (observed E2))) (MvxToEthSafety.inv E2) (pr_second p) /\
  Some (ClosableClient false) ∉ closableHandlers (pr_bridge p).

(** The bridge's own operations keep the list of what has to be closed. *)
Definition keeps_closable {R} (c : M (bridgeState X) R) : Prop :=
  forall b, wp c (fun _ b' => closableHandlers b' = closableHandlers b) b.

Lemma on_world_keeps {R} (c : M X R) : total c -> keeps_closable (on_world c).
Proof. intros Hc b. unfold on_world, on_relayer, Relayer.on_env. do 2 apply wp_zoom. eapply wp_mono; [apply Hc|]. done. Qed.

Lemma live_keeps_ret {R} (r : R) : keeps_closable (mret r).
Proof. done. Qed.

Lemma live_keeps_bind {R R'} (c : M (bridgeState X) R) (k : R -> M (bridgeState X) R') :
  keeps_closable c -> (forall r, keeps_closable (k r)) -> keeps_closable (mbind k c).
Proof.
  intros Hc Hk b. apply wp_bind. eapply wp_mono; [apply Hc|]. intros r b' Hb. eapply wp_mono; [apply Hk|]. intros ? ? ->. exact Hb.
Qed.

Lemma bridge_inv {R} (c : M (bridgeState X) R) p :
  keeps_closable c -> process_inv p -> wp (on_bridge c) (fun _ p' => process_inv p') p.
Proof.
  intros Hc (H1 & H2 & H3). apply wp_zoom. eapply wp_mono; [apply Hc|]. intros r b' Hb. split; [exact H1|]. split; [exact H2|]. cbn. by rewrite Hb.
Qed.

Local Hint Resolve on_world_keeps live_keeps_ret : core.

(** The network side of the broadcaster. *)
Lemma net_total mes af : Args_Messenger args = Some mes -> AntifloodLaws af -> es_net (ethSide comps) = net_deps L m mes af ->
  (forall t b, total (P2P.Broadcast (es_net (ethSide comps)) t b)) /\
  (forall t b p, total (P2P.SendToConnectedPeer (es_net (ethSide comps)) t b p)) /\
  (forall t b, total (P2P.CreateTopic (es_net (ethSide comps)) t b)) /\
  (forall t i, total (P2P.RegisterMessageProcessor (es_net (ethSide comps)) t i)) /\
  (forall msg p, total (P2P.CanProcessMessage (es_net (ethSide comps)) msg p)) /\
  (forall p t n sz q, total (P2P.CanProcessMessagesOnTopic (es_net (ethSide comps)) p t n sz q)) /\
  (forall p r, total (P2P.BlacklistPeer (es_net (ethSide comps)) p r)) /\
  (forall a, total (P2P.net_IsWhitelisted (es_net (ethSide comps)) a)) /\
  (forall s h, total (P2P.net_VerifyEthSignature (es_net (ethSide comps)) s h)).
Proof.
  intros Hm Haf ->. pose proof (out_messenger mes Hm). cbn.
  split_and!; intros; first [apply ms_broadcast|apply ms_send|apply ms_topic|apply ms_register|apply fl_message|apply fl_topic|apply fl_blacklist|apply total_gets].
Qed.

Lemma join_total : total (on_broadcaster m (P2P.BroadcastJoinTopic (es_net (ethSide comps)) (es_broadcaster (ethSide comps)))) /\
  total (on_broadcaster m (P2P.RegisterOnTopics (es_net (ethSide comps)) (es_broadcaster (ethSide comps)))).
Proof.
  destruct (md_eth _ _ _ _ Hmade) as (af & Hnet & (x & x' & Haf) & _).
  pose proof (out_antiflood (Configs.p2pc_AntifloodConfig (Configs.cf_P2P (Configs.GeneralConfig (Args_Configs args)))) (nm_ID (messenger comps)) x) as Hlaws.
  unfold wp in Hlaws. rewrite Haf in Hlaws.
  destruct (net_total _ _ (md_messenger _ _ _ _ Hmade) Hlaws Hnet) as (H1 & _ & H3 & H4 & _). split; apply on_broadcaster_total.
  - unfold P2P.BroadcastJoinTopic, P2P.broadcastMessage, P2P.createMessage, P2P.on_net. solve_total.
  - unfold P2P.RegisterOnTopics. cbn [P2P.register_topics]. unfold P2P.on_net. solve_total.
Qed.

Lemma send_all_total net cfg msgs peer :
  (forall t b p, total (P2P.SendToConnectedPeer net t b p)) ->
  total (P2P.send_all (C := SignatureHolder.signaturesHolder) (N := X) (PubKey := P) (PrivKey := MvxClient.relayerKey) net cfg msgs peer).
Proof.
  intros Hs. induction msgs as [|msg msgs IH]; cbn [P2P.send_all]; [apply total_ret|]. apply total_bind; [|intros _; exact IH].
  unfold P2P.sendSignedMessageToPeer, P2P.on_net. solve_total.
Qed.

Lemma receive_total o1 o2 msg from : total (on_broadcaster m
  (P2P.ProcessReceivedMessage (es_net (ethSide comps)) (es_broadcaster (ethSide comps)) o1 o2 (Some msg) from)).
Proof.
  destruct (md_eth _ _ _ _ Hmade) as (af & Hnet & (x & x' & Haf) & _).
  pose proof (out_antiflood (Configs.p2pc_AntifloodConfig (Configs.cf_P2P (Configs.GeneralConfig (Args_Configs args)))) (nm_ID (messenger comps)) x) as Hlaws.
  unfold wp in Hlaws. rewrite Haf in Hlaws.
  destruct (net_total _ _ (md_messenger _ _ _ _ Hmade) Hlaws Hnet) as (_ & Hsend & _ & _ & Hcan & Htopic & Hblack & Hwhite & Hverify).
  apply on_broadcaster_total. unfold P2P.ProcessReceivedMessage, P2P.preProcessMessage, P2P.blacklist_both, deref, P2P.on_net.
  apply total_bind; [solve_total|]. intros r. apply total_bind; [apply total_ret|]. intros msg'. destruct r as [signed|e]; [|apply total_ret].
  apply total_bind; [apply total_zoom, Hwhite|]. intros ok. destruct (negb ok); [apply total_ret|].
  apply total_bind. { intros b. unfold wp, P2P.processNonce_m. by destruct (P2P.processNonce _ _). }
  intros [e|]; [apply total_ret|]. apply total_bind; [unfold P2P.canProcessMessage, P2P.on_net; solve_total|].
  intros [e|]; [apply total_ret|]. apply total_bind; [|intros _; apply total_ret].
  case_match; [|case_match; [|apply total_ret]].
  - unfold P2P.processJoinMessage, P2P.broadcastCurrentSignatures. repeat (apply total_bind; [|intros ?]); try apply total_ret; [apply total_gets|by apply send_all_total].
  - unfold P2P.processSignMessage, P2P.getEthereumSignature, P2P.notifyClients, P2P.on_net. solve_total.
Qed.

Lemma roles_total : total (zoom (mvx_roles m) (put_mvx_roles m)
    (RoleProviders.mvx_Execute (address_IsValid L) (MvxClient.GetAllStakedRelayers (dataGetter comps)))) /\
  total (zoom (eth_roles m) (put_eth_roles m) (RoleProviders.eth_Execute (eth_relayers args))).
Proof.
  destruct (md_getter _ _ _ _ Hmade) as (multisig & proxy & Hp & Hdg). split; apply total_zoom.
  - unfold RoleProviders.mvx_Execute, RoleProviders.mvx_processResults, MvxClient.GetAllStakedRelayers. rewrite Hdg.
    pose proof (getter_query_total L multisig (relayerAddress comps) proxy (MvxClient.Function "getAllStakedRelayers") (out_proxy proxy Hp)).
    solve_total.
  - destruct (checkArgs_ok _ Hchecked) as (_ & _ & [w Hw] & _). unfold RoleProviders.eth_Execute, eth_relayers. rewrite Hw. cbn [deref].
    pose proof (out_wrapper w Hw). pose proof (wr_relayers (w := w)). solve_total.
Qed.

Lemma gas_total : total (zoom (gas_station m) (put_gas_station m)
  (GasStation.doRequestWithRetryMechanism (gas_http_get L) (gas_json_Unmarshal L) (gasStationArgs args);; mret (A := option error) None)).
Proof.
  pose proof out_gas. unfold GasStation.doRequestWithRetryMechanism, GasStation.doRequest, GasStation.doRequestReturningBytes. solve_total.
Qed.

Lemma join_turn_keeps t : keeps_closable (joinLoop_turn m comps t).
Proof.
  intros b. unfold joinLoop_turn. apply wp_bind, wp_gets. destruct (loop b); try done. destruct t; [apply on_world_keeps, join_total|].
  apply wp_bind, wp_gets. by destruct (ctxDone b).
Qed.

Lemma start_handlers_keeps l : keeps_closable (start_handlers L l).
Proof.
  induction l as [|h l IH]; cbn [start_handlers]; [apply live_keeps_ret|]. apply live_keeps_bind; [apply on_world_keeps, out_poll|]. intros [e|]; [apply live_keeps_ret|exact IH].
Qed.

Lemma start_keeps : keeps_closable (Start L m comps).
Proof.
  pose proof (out_messenger _ (md_messenger _ _ _ _ Hmade)). unfold Start, BroadcastJoinTopic, startPollingHandlers. destruct join_total as [Hj Hr].
  apply live_keeps_bind; [apply on_world_keeps, ms_bootstrap|]. intros [e|]; [apply live_keeps_ret|].
  apply live_keeps_bind; [apply on_world_keeps, out_sleep|]. intros _. apply live_keeps_bind; [by apply on_world_keeps|]. intros [e|]; [apply live_keeps_ret|].
  apply live_keeps_bind; [by apply on_world_keeps|]. intros _. apply live_keeps_bind; [|intros [e|]; done].
  apply live_keeps_bind; [done|]. intros l. apply start_handlers_keeps.
Qed.

Lemma close_all_keeps l e b : Some (ClosableClient false) ∉ l ->
  wp (close_all L comps l e) (fun _ b' => closableHandlers b' = closableHandlers b) b.
Proof.
  revert e b. induction l as [|[c|] l IH]; intros e b Hl; cbn [close_all]; [done| |apply IH; set_solver].
  apply wp_bind. apply (wp_mono _ (fun _ b' => closableHandlers b' = closableHandlers b)).
  - destruct c as [|n|[]]; cbn [close_one]; [..|set_solver]; apply on_world_keeps; [|apply out_poll_close|apply out_nonce_close].
    rewrite (md_timer _ _ _ _ Hmade). apply out_ntp_close.
  - intros err b1 Hb. eapply wp_mono; [apply IH; set_solver|]. intros ? ? ->. exact Hb.
Qed.

Lemma activity_ok a p : process_inv p ->
  wp (perform L m args comps a) (fun e p' => ((a = Poll EthToMvxMachine \/ a = Poll MvxToEthMachine) -> e = None) /\ process_inv p') p.
Proof.
  intros Hp. destruct executors_lawful as [He1 He2].
  assert (Hb : forall c : M (bridgeState X) (option error), keeps_closable c -> ~ (a = Poll EthToMvxMachine \/ a = Poll MvxToEthMachine) ->
    wp (on_bridge c) (fun e p' => ((a = Poll EthToMvxMachine \/ a = Poll MvxToEthMachine) -> e = None) /\ process_inv p') p).
  { intros c Hc Ha. eapply wp_mono; [by apply bridge_inv|]. intros e p' Hi. split; [by intros ?%Ha|done]. }
  destruct a as [[]|o1 o2 msg from| |t| | |f]; cbn [perform poll].
  - apply Hb; [apply on_world_keeps, roles_total|naive_solver].
  - apply Hb; [apply on_world_keeps, roles_total|naive_solver].
  - destruct Hp as (H1 & H2 & H3). apply wp_zoom. eapply wp_mono; [apply sm_Execute_inv; [by apply EthToMvxSafety.inv_step|by apply attach_first]|].
    intros e sm [-> Hsm]. split; [done|]. split; [exact Hsm|]. split; [exact H2|exact H3].
  - destruct Hp as (H1 & H2 & H3). apply wp_zoom. eapply wp_mono; [apply sm_Execute_inv; [by apply MvxToEthSafety.m2e_inv_step|by apply attach_second]|].
    intros e sm [-> Hsm]. split; [done|]. split; [exact H1|]. split; [exact Hsm|exact H3].
  - apply Hb; [apply on_world_keeps, receive_total|naive_solver].
  - apply Hb; [apply on_world_keeps, gas_total|naive_solver].
  - apply Hb; [apply live_keeps_bind; [apply join_turn_keeps|done]|naive_solver].
  - apply Hb; [apply start_keeps|naive_solver].
  - destruct Hp as (H1 & H2 & H3). apply wp_zoom. unfold Close. apply wp_bind, wp_gets.
    apply wp_bind. apply (wp_mono _ (fun _ b' => closableHandlers b' = closableHandlers (pr_bridge p))); [by destruct (cancelFunc _)|].
    intros _ b1 Hb1. apply wp_bind, wp_gets. eapply wp_mono; [apply close_all_keeps; by rewrite Hb1|]. intros e b2 Hb2. split; [naive_solver|].
    split; [exact H1|]. split; [exact H2|]. cbn. by rewrite Hb2, Hb1.
  - apply Hb; [apply on_world_keeps; solve_total|naive_solver].
Qed.

Lemma live_ok l p : process_inv p ->
  wp (live L m args comps l) (fun log p' => process_inv p' /\
    forall e err, (e = EthToMvxMachine \/ e = MvxToEthMachine) -> (Poll e, err) ∈ log -> err = None) p.
Proof.
  revert p. induction l as [|a l IH]; intros p Hp; cbn [live]; [split; [done|]; set_solver|].
  apply wp_bind. eapply wp_mono; [by apply activity_ok|]. intros err p1 [Herr Hp1]. apply wp_bind. eapply wp_mono; [by apply IH|].
  intros log p2 [Hp2 Hlog]. split; [done|]. intros e err' He [[= <- <-]|Hin]%elem_of_cons; [|by eapply Hlog]. apply Herr. naive_solver.
Qed.

Lemma created_inv b : Some (ClosableClient false) ∉ closableHandlers b -> process_inv (created comps b).
Proof.
  intros Hb. destruct executors_lawful. split; [by apply EthToMvxSafety.inv_init|]. split; [by apply MvxToEthSafety.m2e_inv_init|done].
Qed.
End Safety.


(** A relayer process is safe.  Its construction never panics, and once it succeeded, whatever
    happens in whatever order - polls of the whitelists and of the two machines, messages of
    other relayers, turns of the gas station and of the join loop, [Start], [Close], and any
    changes of the world - nothing panics, the machines never return an error, and every call
    either machine made on a chain was justified by what it had observed before.  Assumed are what
    lies outside the repository and, for the running, the two inputs nobody checks. *)
Theorem process_safe {X T P K A S} (L : libraries X T P K A) (m : memory X) (args : ArgsEthereumToMultiversXBridge X A S)
    `{!Outside L m args} (holder : gmap string Relayer.metrics) (x : X) (l : list (activity X)) :
  exists r b, NewEthMultiversXBridgeComponents L m args (new_bridge holder x) = (Ret r, b) /\
  forall comps, r = Ok comps -> quorum_answered args -> validator_url_accepted L args ->
  exists log p, live L m args comps l (created comps b) = (Ret log, p) /\
    (forall e err, (e = EthToMvxMachine \/ e = MvxToEthMachine) -> (Poll e, err) ∈ log -> err = None) /\
    tl_ok EthToMvxSafety.justified (snd (world (inner (pr_first p)))) /\
    tl_ok MvxToEthSafety.justified (snd (world (inner (pr_second p)))).
Proof.
  destruct (proj1 (wp_unfold _ _ _) (New_total L m args (new_bridge holder x))) as (r & b & Hnew & _).
  exists r, b. split; [done|]. intros comps -> Hq Hu. apply New_inv in Hnew as (Hc & Hmade & sm1 & sm2 & _ & _ & Hext).
  assert (Hb : Some (ClosableClient false) ∉ closableHandlers b).
  { rewrite (ex_closable _ _ _ _ Hext). cbn [closableHandlers new_bridge app]. unfold registered_closable. rewrite !elem_of_cons, elem_of_nil. naive_solver. }
  destruct (proj1 (wp_unfold _ _ _) (live_ok L m args comps Hmade Hc Hq Hu l _ (created_inv L m args comps Hmade Hq Hu b Hb)))
    as (log & p & Hlive & ((id1 & st1 & _ & [[H1 _] _]) & (id2 & st2 & _ & [[H2 _] _]) & _) & Hlog).
  exists log, p. done.
Qed.

End Process.
