(* ===== verification/ProcessDemo.v ===== *)
(** * A relayer process on a small world

    Concrete libraries, a memory and a configuration on which the factory succeeds: the witnesses
    of the theorems about the factory and the process, and a run that starts the relayer,
    fetches the whitelists, proposes a transfer and closes again. *)
From S2P Require Import Prelude Go Text Common Batch Interfaces Executor StateMachine StepsEthToMvx StepsMvxToEth Machines Monitor SafetyEthToMvx SafetyMvxToEth Hoist Bridge Signatures Topology RoleProviders P2P Adapters GasStation EthClient EthClientFacts MvxClient MvxClientFacts EthChain Status BatchValidator Relayer Config Factory FactoryFacts Process.
Import Factory FactoryFacts Process.
Open Scope go_scope.

Module ProcessDemo.

(** The shared objects, what went over the network, and the objects of the process start. *)
Record world_ := mkWorld {
  dw_objects : objects;
  dw_sent : list string;
  dw_status : gmap string Relayer.metrics;
  dw_erc20 : gset bytes
}.

(** A memory that cannot hold 2^63 keys. *)
Definition demo_load (w : world_) : objects :=
  let o := dw_objects w in
  if (Z.of_nat (size (ob_mvxRoles o)) <? two63)%Z then o
  else mkObjects ∅ (ob_ethRoles o) (ob_gasPrice o) (ob_gasRetries o) (ob_counter o) (ob_nonces o) (ob_clients o).
Definition demo_memory : memory world_ := {| load := demo_load; store o w := mkWorld o (dw_sent w) (dw_status w) (dw_erc20 w) |}.

Definition say (s : string) : M world_ unit := modify (fun w => mkWorld (dw_objects w) (dw_sent w ++ [s]) (dw_status w) (dw_erc20 w)).

Definition demo_wrapper : EthClient.ClientWrapper world_ :=
  EthChain.hoist_wrapper (fun A (c : M EthClientFacts.toy_world A) (w : world_) => (fst (c []), w))
    (EthClient.clientWrapper EthClientFacts.toy_client).

Definition demo_proxy : MvxClient.Proxy world_ := {|
  MvxClient.px_ExecuteVMQuery r :=
    if String.eqb (MvxClient.rq_FuncName r) "getAllStakedRelayers" then mret (Ok (MvxClient.mkResponse "ok" "" [[Byte.x01]]))
    else MvxClient.ExecuteVMQuery (MvxClientFacts.toy_mx_at world_) r;
  MvxClient.px_GetNetworkStatus := MvxClient.GetNetworkStatus (MvxClientFacts.toy_mx_at world_);
  MvxClient.px_GetShardOfAddress := MvxClient.GetShardOfAddress (MvxClientFacts.toy_mx_at world_);
  MvxClient.px_GetNetworkConfig := MvxClient.GetNetworkConfig (MvxClientFacts.toy_mx_at world_) |}.

Definition demo_messenger : NetMessenger world_ := {|
  nm_ID := "me"; nm_Bootstrap := say "bootstrap";; mret None;
  nm_Addresses := {| StatusAdapter.Addresses := mret ["here"]; StatusAdapter.ConnectedAddresses := mret [] |};
  nm_RegisterMessageProcessor t _ := say ("register " +:+ t);; mret None;
  nm_CreateTopic _ _ := mret None;
  nm_Broadcast t _ := say ("broadcast " +:+ t);
  nm_SendToConnectedPeer _ _ _ := mret None;
  nm_SetPeerDenialEvaluator _ := mret None;
  nm_Close := mret None |}.

Definition demo_key : MvxClient.relayerKey := {| MvxClient.rk_PublicBytes := Ok [Byte.x01]; MvxClient.rk_Sign b := Ok (reverse b) |}.
Definition demo_address (b : bytes) : MvxClient.addressHandler := {| MvxClient.ah_Bytes := b; MvxClient.ah_Bech32 := hex_encode b |}.
Definition demo_status : StatusHandler world_ :=
  {| sh_SetIntMetric _ _ := mret tt; sh_AddIntMetric _ _ := mret tt; sh_SetStringMetric _ _ := mret tt |}.

Definition demo_sdk : MvxClient.sdk world_ := {|
  MvxClient.NewNonceTransactionHandlerV1 _ _ := Ok {| MvxClient.nh_GetNonce _ := mret (Ok 3%Z);
    MvxClient.nh_SendTransaction _ := say "transaction";; mret (Ok "txhash") |};
  MvxClient.NewAddressFromBytes b := Some (demo_address b);
  MvxClient.sdk_ToVmValueRequest := MvxClient.ToVmValueRequest (MvxClientFacts.toy_mx_at world_);
  MvxClient.sdk_ToDataBytes := MvxClient.ToDataBytes (MvxClientFacts.toy_mx_at world_);
  MvxClient.sdk_json_tx := MvxClient.json_tx (MvxClientFacts.toy_mx_at world_);
  MvxClient.NewAddressConverter := Ok {| ToBech32String := hex_encode |} |}.

Definition demo_antiflood : antiFloodComponents world_ := {|
  af_CanProcessMessage _ _ := mret None; af_CanProcessMessagesOnTopic _ _ _ _ _ := mret None; af_BlacklistPeer _ _ := mret tt;
  af_BlacklistHandler := Some {| Denial.peer_Has _ := mret false; Denial.peer_Upsert _ _ := mret None |};
  af_PubKeysCacher := Some (fun _ => mret false) |}.

Definition demo_libraries : libraries world_ string bytes bytes unit := {|
  lib_sdk := demo_sdk;
  lib_eth := EthClient.lib EthClientFacts.toy_client;
  LoadPrivateKeyFromPemFile _ := mret (Ok [Byte.x11]);
  PrivateKeyFromByteArray _ := Ok demo_key;
  GetAddressFromPrivateKey _ := Ok (demo_address [Byte.x01]);
  NewAddressFromBech32String s := Ok (demo_address (bytes_of_string s));
  address_IsValid b := negb (Nat.eqb (length b) 0);
  NewSyncTime _ := {| Timer.CurrentTime_Unix := mret 1700000000%Z; Timer.StartSyncingTime := mret tt; Timer.sync_Close := say "close timer";; mret None |};
  NewPollingHandler _ := None;
  StartProcessingLoop n := say ("poll " +:+ n);; mret None;
  polling_Close n := say ("close " +:+ n);; mret (if String.eqb n "MultiversX role provider" then Some (ErrExternal "busy") else None);
  nonceTxHandler_Close := say "close client";; mret None;
  NewP2PAntiFloodComponents _ _ := mret (Ok demo_antiflood);
  antiflood_cancel := mret tt;
  ReadFile _ := mret (Ok []);
  HexToECDSA _ := Ok {| EthClient.key_Public := Some [Byte.x98]; EthClient.key_Sign h := Ok h; EthClient.key_Transactor _ := None |};
  HexToAddress := bytes_of_string;
  UnixNano := mret 1000%Z;
  Sleep _ := mret tt;
  msg_Marshal msg := Ok (Payload msg);
  msg_Unmarshal _ := Err (ErrExternal "malformed");
  eth_Marshal e := Ok (es_Signature e);
  eth_Unmarshal _ := Err (ErrExternal "malformed");
  keyGen_PublicKeyFromByteArray b := Ok b;
  singleSigner_Verify _ _ _ := None;
  Ecrecover _ _ := Err (ErrExternal "invalid");
  UnmarshalPubkey b := Ok b;
  PubkeyToAddress b := b;
  VerifySignature _ _ _ := false;
  gas_http_get _ := mret (Err (ErrExternal "no route to host"));
  gas_json_Unmarshal _ := Err (ErrExternal "malformed");
  lib_sha256 := Topology.toy_sha256;
  lib_metrics_Marshal _ := Ok [];
  lib_metrics_Unmarshal _ := Err (ErrExternal "malformed");
  lib_http_NewRequest _ := None;
  lib_http_Do _ _ := mret (Err (ErrExternal "no route to host"));
  lib_json_Valid _ := Ok true;
  lib_json_BadRequestMessage _ := Ok "";
  lib_order := some_order;
  lib_log_level _ := "DEBUG";
  lib_select _ := mret true |}.

Definition demo_config : Configs.Config unit unit := {|
  Configs.cf_Eth := {|
    Configs.ec_Chain := Chain.Ethereum; Configs.ec_NetworkAddress := ""; Configs.ec_MultisigContractAddress := "";
    Configs.ec_SafeContractAddress := "safe"; Configs.ec_PrivateKeyFile := "eth.sk"; Configs.ec_IntervalToResendTxsInSeconds := 60;
    Configs.ec_GasLimitBase := 1000; Configs.ec_GasLimitForEach := 100;
    Configs.ec_GasStation := {| Configs.gsc_Enabled := false; Configs.gsc_URL := ""; Configs.gsc_PollingIntervalInSeconds := 60;
      Configs.gsc_RequestRetryDelayInSeconds := 5; Configs.gsc_MaxFetchRetries := 3; Configs.gsc_RequestTimeInSeconds := 2;
      Configs.gsc_MaximumAllowedGasPrice := 300; Configs.gsc_GasPriceSelector := "SafeGasPrice"; Configs.gsc_GasPriceMultiplier := 1 |};
    Configs.ec_MaxRetriesOnQuorumReached := 3; Configs.ec_IntervalToWaitForTransferInSeconds := 600; Configs.ec_MaxBlocksDelta := 10 |};
  Configs.cf_MultiversX := {|
    Configs.mc_NetworkAddress := "gateway"; Configs.mc_MultisigContractAddress := "multisig"; Configs.mc_PrivateKeyFile := "mvx.pem";
    Configs.mc_IntervalToResendTxsInSeconds := 60; Configs.mc_GasMap := MvxClient.mkGasMap 1 2 3 4 5 6 7;
    Configs.mc_MaxRetriesOnQuorumReached := 3; Configs.mc_MaxRetriesOnWasTransferProposed := 3;
    Configs.mc_ProxyCacherExpirationSeconds := 600; Configs.mc_ProxyRestAPIEntityType := "observer";
    Configs.mc_ProxyMaxNoncesDelta := 7; Configs.mc_ProxyFinalityCheck := true |};
  Configs.cf_P2P := {| Configs.p2pc_Port := "10010"; Configs.p2pc_InitialPeerList := []; Configs.p2pc_ProtocolID := "/erd/relay/1.0.0";
    Configs.p2pc_AntifloodConfig := tt |};
  Configs.cf_StateMachine := Relayer.cfg_StateMachine Relayer.toy_config;
  Configs.cf_Relayer := {| Configs.rc_Marshalizer_Type := "gogo protobuf"; Configs.rc_RoleProvider := Configs.mkRoleConfig 60000;
    Configs.rc_StatusMetricsStorage := tt |};
  Configs.cf_Logs := Configs.mkLogs 86400 1024;
  Configs.cf_Antiflood := Configs.mkFlood false (Configs.mkWsFlood 100 10000 1);
  Configs.cf_BatchValidator := Relayer.mkBvConfig false "" 1;
  Configs.cf_PeersRatingConfig := Configs.mkRating 5000 5000 |}.

Definition demo_flags : Configs.ContextFlagsConfig := {|
  Configs.fl_WorkingDir := ""; Configs.fl_LogLevel := "*:DEBUG"; Configs.fl_DisableAnsiColor := false;
  Configs.fl_ConfigurationFile := "config/config.toml"; Configs.fl_ConfigurationApiFile := "config/api.toml";
  Configs.fl_SaveLogFile := false; Configs.fl_EnableLogName := false; Configs.fl_RestApiInterface := "off"; Configs.fl_EnablePprof := false |}.

Definition demo_args : ArgsEthereumToMultiversXBridge world_ unit unit := {|
  Args_Configs := Configs.mkConfigs demo_config (Configs.mkApiRoutes (Configs.mkApiLogging false 0) ∅) demo_flags;
  Args_Messenger := Some demo_messenger;
  Args_StatusStorer := Some {| Storer_Put _ _ := mret None; Storer_Get _ := mret (Err (ErrExternal "key not found")) |};
  Args_Proxy := Some demo_proxy;
  Args_MultiversXClientStatusHandler := Some demo_status;
  Args_Erc20ContractsHolder := Some (fun _ _ => mret (Ok 110%Z));
  Args_ClientWrapper := Some demo_wrapper;
  Args_TimeForBootstrap := 20000000000;
  Args_TimeBeforeRepeatJoin := 300000000000;
  Args_MetricsHolder := true;
  Args_AppStatusHandler := true |}.

#[export] Instance demo_libraries_lawful : LibraryLaws demo_libraries.
Proof.
  split; intros; simplify_eq/=; try done. unfold Topology.toy_sha256. rewrite length_take, length_app, length_replicate. lia.
Qed.

#[export] Instance demo_outside : Outside demo_libraries demo_memory demo_args.
Proof.
  split; [apply _|by split|..]; intros; simplify_eq/=; try done.
  - split; try done. intros r x. unfold demo_proxy. cbn. case_match; [done|]. apply (@MvxClientFacts.px_query _ _ (MvxClientFacts.toy_proxy_laws world_)).
  - unfold demo_load. destruct (Z.ltb_spec (Z.of_nat (size (ob_mvxRoles (dw_objects x)))) two63); [done|]. cbn. rewrite map_size_empty. done.
Qed.

Lemma demo_quorum : quorum_answered demo_args.
Proof. intros w [= <-] x. by vm_compute. Qed.

(** The validator is disabled. *)
Lemma demo_url : validator_url_accepted demo_libraries demo_args.
Proof. intros Hon. discriminate Hon. Qed.

Definition demo_first : world_ := mkWorld (mkObjects ∅ ∅ 0 0 0 ∅ []) [] ∅ ∅.

Definition ok_pair {R S} (r : outcome (res R) * S) : option (R * S) :=
  match r with (Ret (Ok a), s) => Some (a, s) | _ => None end.

(** The constructor succeeds. *)
Definition demo_created : option (ethMultiversXBridgeComponents * bridgeState world_) :=
  ok_pair (NewEthMultiversXBridgeComponents demo_libraries demo_memory demo_args (new_bridge ∅ demo_first)).

Definition demo_live (l : list (activity world_)) : option (list (option error) * process world_) :=
  match demo_created with
  | Some (comps, b) =>
      match live demo_libraries demo_memory demo_args comps l (created comps b) with
      | (Ret log, p) => Some (log.*2, p)
      | (Panic _, _) => None
      end
  | None => None
  end.

(** Start, fetch the whitelists, two steps of the first machine (it fetches the batch and proposes
    the transfer), one tick of the join loop, close, and the turn in which the loop ends: the
    only error is the one a polling handler returned while closing. *)
Definition demo_day : list (activity world_) :=
  [StartAll; JoinTurn false; Poll MultiversXRoles; Poll EthereumRoles; Poll EthToMvxMachine; Poll EthToMvxMachine; JoinTurn true;
   CloseAll; JoinTurn false].

Example demo_day_run :
  (fun '(errs, p) => (errs, dw_sent (Relayer.r_world (br_relayer (pr_bridge p))))) <$> demo_live demo_day =
  Some ([None; None; None; None; None; None; None; Some (ErrExternal "busy"); None],
        ["bootstrap"; "register EthereumToMultiversX_join"; "register EthereumToMultiversX_sign"; "broadcast EthereumToMultiversX_join";
         "poll MultiversX role provider"; "poll Ethereum role provider"; "poll EthereumToMultiversX State machine";
         "poll MultiversXToEthereum State machine"; "transaction"; "broadcast EthereumToMultiversX_join"; "close timer";
         "close MultiversX role provider"; "close client"; "close Ethereum role provider"; "close EthereumToMultiversX State machine";
         "close MultiversXToEthereum State machine"]) /\
  (fun '(_, p) => loop (pr_bridge p)) <$> demo_live demo_day = Some LoopEnded.
Proof. split; vm_compute; reflexivity. Qed.

Lemma demo_created_some : bool_decide (is_Some demo_created) = true.
Proof. vm_compute. reflexivity. Qed.

Lemma process_safe_witness :
  match demo_created with
  | Some (comps, b) => exists log p, live demo_libraries demo_memory demo_args comps demo_day (created comps b) = (Ret log, p) /\
      tl_ok EthToMvxSafety.justified (snd (world (inner (pr_first p)))) /\
      tl_ok MvxToEthSafety.justified (snd (world (inner (pr_second p))))
  | None => False
  end.
Proof.
  destruct (process_safe demo_libraries demo_memory demo_args ∅ demo_first demo_day) as (r & b & Hnew & Hsafe).
  pose proof demo_created_some as Hok. assert (Hc : demo_created = ok_pair (Ret r, b)) by exact (f_equal ok_pair Hnew).
  rewrite Hc in *. destruct r as [comps|e]; [|discriminate Hok].
  destruct (Hsafe comps eq_refl demo_quorum demo_url) as (log & p & Hlive & _ & H1 & H2). exists log, p. split; [exact Hlive|]. split; [exact H1|exact H2].
Defined.

Lemma created_relayer_complete_witness :
  match demo_created with
  | Some (_, b) => closableHandlers b = registered_closable demo_args /\ map ph_Name (pollingHandlers b) =
      ["MultiversX role provider"; "Ethereum role provider"; "EthereumToMultiversX State machine"; "MultiversXToEthereum State machine"]
  | None => False
  end.
Proof.
  pose proof demo_created_some as Hok.
  destruct (NewEthMultiversXBridgeComponents demo_libraries demo_memory demo_args (new_bridge ∅ demo_first)) as [r b] eqn:Hnew.
  assert (Hc : demo_created = ok_pair (r, b)) by exact (f_equal ok_pair Hnew).
  rewrite Hc in *. destruct r as [[comps|e]|p]; [|discriminate Hok|discriminate Hok].
  pose proof (created_relayer_complete demo_libraries demo_memory demo_args ∅ demo_first comps b Hnew) as (_ & Hcl & (sm1 & sm2 & _ & _ & Hp) & _).
  split; [exact Hcl|]. rewrite Hp. reflexivity.
Defined.

(** The relayer right after [Start]. *)
Definition demo_started : option (ethMultiversXBridgeComponents * bridgeState world_) :=
  match demo_created with
  | Some (comps, b) => match Start demo_libraries demo_memory comps b with (Ret None, b') => Some (comps, b') | _ => None end
  | None => None
  end.

Definition just_spawned (o : option (ethMultiversXBridgeComponents (X := world_) (T := string) (P := bytes) * bridgeState world_)) : bool :=
  match o with
  | Some (_, b) => bool_decide (loop b = LoopSpawned) && negb (cancelFunc b) && negb (ctxDone b)
  | None => false
  end.

(** Closing at once leaves the loop waiting; closing after the goroutine's first turn ends it. *)
Lemma Close_and_join_loop_witness :
  match demo_started with
  | Some (comps, b) =>
      (forall e b1 b2, Close demo_libraries comps b = (Ret e, b1) -> turns demo_memory comps [false; true; false] b1 = (Ret tt, b2) ->
         loop b2 = LoopWaiting) /\
      (forall b1 e b2, turns demo_memory comps [false; true] b = (Ret tt, b1) -> Close demo_libraries comps b1 = (Ret e, b2) ->
         exists b3, joinLoop_turn demo_memory comps false b2 = (Ret tt, b3) /\ loop b3 = LoopEnded)
  | None => False
  end.
Proof.
  assert (Hok : just_spawned demo_started = true) by (vm_compute; reflexivity).
  destruct demo_started as [[comps b]|]; [|discriminate Hok]. cbn in Hok.
  apply andb_prop in Hok as [Hok Hd]. apply andb_prop in Hok as [Hl Hc]. apply bool_decide_eq_true in Hl. apply negb_true_iff in Hc, Hd.
  destruct (Close_and_join_loop demo_libraries demo_memory comps b Hl Hc Hd) as [H1 H2]. split.
  - intros e b1 b2 Hclose Ht. exact (H2 e b1 _ _ b2 Hclose Ht).
  - intros b1 e b2 Ht Hclose. destruct (H1 _ _ b1 e b2 Ht Hclose) as (b3 & Ht3 & Hl3 & _). exists b3. split; [exact Ht3|exact Hl3].
Defined.

End ProcessDemo.
