(* ===== verification/Start.v ===== *)
(** * The start of a relayer process

    [startRelay] of [src/bridge/cmd/bridge/main.go], from the parsed command line to the closing
    after a signal: the configuration files, the status handlers of the two clients, the
    connections to the nodes with the bindings of the contracts, the messenger, the components
    of the relayer ([Factory]), the web server ([Api]), [Start], whatever the running process does
    ([Process]), and the shutdown.  The libraries that are called are parameters.

    The status handlers of the clients and the holder of ERC20 contracts are objects that several
    components share: they live in the world [X], where [startMemory] finds them. *)
From S2P Require Import Prelude Go Text Common Interfaces Hoist Status EthClient Bindings MvxClient Relayer Config Api Factory Main FactoryFacts Process.
Import Factory FactoryFacts Process.
Open Scope go_scope.

Module Start.

Definition EthClientStatusHandlerName : string := "eth-client".
Definition MultiversXClientStatusHandlerName : string := "multiversx-client".

(** ** Shared objects *)

Record startObjects := mkStart {
  so_status : gmap string Relayer.metrics;
  so_erc20 : gset bytes
}.

Record startMemory (X : Type) := {
  start_load : X -> startObjects;
  start_store : startObjects -> X -> X
}.
Arguments start_load {X} _ _.
Arguments start_store {X} _ _ _.

(** The options of the MultiversX proxy. *)
Record ArgsProxy := {
  ProxyURL : string;
  SameScState : bool;
  ShouldBeSynced : bool;
  FinalityCheck : bool;
  AllowedDeltaToFinal : Z;
  CacheExpirationTime : Z;
  EntityType : string
}.

(** ** Libraries

    [F] is an open log file, [Y] a connection to an Ethereum node, [Mar] a marshaller, [C] and [R]
    the messenger's caches and ratings, [H] a persistent status handler, [W] a middleware of the
    web server; the storage has its own configuration types. *)
Section Start.
Context {X T P K A F Y Mar C R H W CacheConfig DBConfig CacherArgs DBArgs : Type}.
Local Abbreviation S := (@Main.StorageConfig CacheConfig DBConfig).

Record startLibraries := {
  DefaultRestInterface : string;
  LogDebug_String : string;
  sl_log : @Main.logLib X F;
  ChangeFileLifeSpan : F -> Z -> Z -> M X (option error);
  LoadTomlFile_Config : string -> M X (res (Configs.Config A S));
  LoadTomlFile_Api : string -> M X (res Configs.ApiRoutesConfig);
  path_Join : string -> string -> string;
  GetDBFromConfig : DBConfig -> DBArgs;
  set_FilePath : string -> DBArgs -> DBArgs;
  GetCacherFromConfig : CacheConfig -> CacherArgs;
  NewStorageUnitFromConf : CacherArgs -> DBArgs -> M X (res (Storer X));
  NewProxy : ArgsProxy -> M X (res (MvxClient.Proxy X));
  Dial : string -> M X (res Y);
  connection_client : Y -> EthClient.blockchainClient X;
  NewBoundContract : Y -> bytes -> string -> Bindings.BoundContract X;
  abi_JSON : string -> option error;
  BridgeABI : string;
  GenericErc20ABI : string;
  address_String : bytes -> string;
  NewMarshalizer : string -> res Mar;
  NewLRUCache : Z -> res C;
  NewPeersRatingHandler : C -> C -> res R;
  NewNetworkMessenger : Mar -> Main.P2PConfig -> R -> string -> M X (res (NetMessenger X));
  NewPersistentStatusHandler : Mar -> res H;
  NewAppStatusFacadeWithHandlers : H -> option error;
  ErrNilFacadeHandler : error;
  ErrNilHttpServer : error;
  NewResponseLoggerMiddleware : Z -> W;
  NewSourceThrottler : Z -> res W;
  NewGlobalThrottler : Z -> res W;
  server_Shutdown : M X (option error)
}.

Context (L : libraries X T P K A) (m : memory X) (SL : startLibraries) (h : startMemory X).

(** ** Status handlers of the clients *)

Definition client_metrics (name : string) (x : X) : Relayer.metrics :=
  default (Relayer.mkMetrics name ∅ ∅) (so_status (start_load h x) !! name).
Definition set_client_metrics (v : Relayer.metrics) (x : X) : X :=
  let o := start_load h x in start_store h (mkStart (<[Relayer.mt_Name v := v]> (so_status o)) (so_erc20 o)) x.

Definition client_get (name : string) (x : X) : Status.statusHandler X :=
  let v := client_metrics name x in Status.mkStatus (Relayer.mt_Int v) (Relayer.mt_String v) x.
Definition client_put (name : string) (sh : Status.statusHandler X) (_ : X) : X :=
  set_client_metrics (Relayer.mkMetrics name (Status.intMetrics sh) (Status.stringMetrics sh)) (Status.st_store sh).

Definition on_client (name : string) (B : Type) : M (Status.statusHandler X) B -> M X B :=
  zoom (client_get name) (client_put name).

(** The handler as the components use it. *)
Definition client_status (storer : Storer X) (name : string) : StatusHandler X :=
  hoist_status (on_client name) (Status.status_interface (Storer_Put storer) (lib_metrics_Marshal L) name (lib_order L)).

(** [status.NewStatusHandler] and the registration of the handler with the metrics holder. *)
Definition newClientStatus (storer : Storer X) (name : string) (holder : gmap string Relayer.metrics)
    : M X (res (gmap string Relayer.metrics)) :=
  loaded <?- Status.NewStatusHandler (Storer_Get storer) (lib_metrics_Unmarshal L) name (lib_order L) true;
  let handler := Relayer.mkMetrics name (fst loaded) (snd loaded) in
  modify (set_client_metrics handler);;
  mret (match Status.AddStatusHandler Relayer.mt_Name handler holder with
        | (Some e, _) => Err e
        | (None, holder') => Ok holder'
        end).

(** ** The Ethereum side *)

(** The balance query of a token, through a binding of its address. *)
Definition erc20_BalanceOf (connection : Y) (sh : StatusHandler X) (erc20Address address : bytes) : M X (res Z) :=
  zoom (fun x => EthClient.mkErc20 (so_erc20 (start_load h x)) x)
    (fun e _ => let x := EthClient.erc20_world e in
                start_store h (mkStart (so_status (start_load h x)) (EthClient.contracts e)) x)
    (EthClient.holder_BalanceOf sh (address_String SL)
       (fun a => match Bindings.NewGenericErc20 (abi_JSON SL) (NewBoundContract SL connection) (GenericErc20ABI SL) a with
                 | Err e => Some e | Ok _ => None end)
       (fun a account => Bindings.GenericErc20_BalanceOf (NewBoundContract SL connection a (GenericErc20ABI SL)) account)
       erc20Address address).

(** [NewErc20SafeContractsHolder] with the connection and the handler, which are not nil. *)
Definition newErc20Holder : M X (res unit) := fun x =>
  match EthClient.NewErc20SafeContractsHolder true true x with
  | Err e => (Ret (Err e), x)
  | Ok e => (Ret (Ok tt), start_store h (mkStart (so_status (start_load h x)) (EthClient.contracts e)) x)
  end.

(** ** From the command line to the arguments of the factory *)

Definition no_error (c : M X (option error)) : M X (res unit) :=
  err ← c; mret (match err with Some e => Err e | None => Ok tt end).

Definition proxy_args (cfg : Configs.Config A S) : ArgsProxy :=
  let mx := Configs.cf_MultiversX cfg in {|
    ProxyURL := Configs.mc_NetworkAddress mx;
    SameScState := false;
    ShouldBeSynced := false;
    FinalityCheck := Configs.mc_ProxyFinalityCheck mx;
    AllowedDeltaToFinal := Configs.mc_ProxyMaxNoncesDelta mx;
    CacheExpirationTime := Relayer.seconds (Configs.mc_ProxyCacherExpirationSeconds mx);
    EntityType := Configs.mc_ProxyRestAPIEntityType mx |}.

(** The logger and the configuration files. *)
Definition load_configs (ctx : Main.cliContext) : M X (res (Configs.Configs A S)) :=
  let flagsConfig := Main.getFlagsConfig (DefaultRestInterface SL) (LogDebug_String SL) ctx in
  fileLogging <?- Main.attachFileLogger (sl_log SL) flagsConfig;
  level <?- no_error (Main.SetLogLevel (sl_log SL) (Configs.fl_LogLevel flagsConfig));
  cfg <?- Main.loadConfig (LoadTomlFile_Config SL) (Configs.fl_ConfigurationFile flagsConfig);
  apiRoutesConfig <?- Main.loadApiConfig (LoadTomlFile_Api SL) (Configs.fl_ConfigurationApiFile flagsConfig);
  span <?- (match fileLogging with
            | Some f => no_error (ChangeFileLifeSpan SL f (Relayer.seconds (Configs.LogFileLifeSpanInSec (Configs.cf_Logs cfg)))
                                    (u64 (Configs.LogFileLifeSpanInMB (Configs.cf_Logs cfg))))
            | None => mret (Ok tt)
            end);
  mret (Ok (Configs.mkConfigs cfg apiRoutesConfig flagsConfig)).

(** The storer, the metrics holder and the handlers of the two clients. *)
Definition create_status (configs : Configs.Configs A S) : M X (res (Storer X * gmap string Relayer.metrics)) :=
  statusStorer <?- Main.CreateUnitStorer (path_Join SL) (GetDBFromConfig SL) (set_FilePath SL) (GetCacherFromConfig SL)
    (NewStorageUnitFromConf SL) (Configs.rc_StatusMetricsStorage (Configs.cf_Relayer (Configs.GeneralConfig configs)))
    (path_Join SL (Configs.fl_WorkingDir (Configs.FlagsConfig configs)) Main.dbPath);
  holder <?- newClientStatus statusStorer EthClientStatusHandlerName Status.NewMetricsHolder;
  holder <?- newClientStatus statusStorer MultiversXClientStatusHandlerName holder;
  mret (Ok (statusStorer, holder)).

(** The handlers of the application status; both hold only metrics of the messenger. *)
Definition create_appStatus (marshaller : Mar) : res unit :=
  match NewPersistentStatusHandler SL marshaller with
  | Err e => Err e
  | Ok persistentHandler =>
      match NewAppStatusFacadeWithHandlers SL persistentHandler with
      | Some e => Err e
      | None => Ok tt
      end
  end.

(** The connections, and the arguments of the factory. *)
Definition connect (configs : Configs.Configs A S) (statusStorer : Storer X) : M X (res (ArgsEthereumToMultiversXBridge X A S)) :=
  let cfg := Configs.GeneralConfig configs in
  let ethClientStatusHandler := client_status statusStorer EthClientStatusHandlerName in
  if String.eqb (Configs.mc_NetworkAddress (Configs.cf_MultiversX cfg)) ""
  then mret (Err (ErrExternal "empty MultiversX.NetworkAddress in config file"))
  else
    proxy <?- NewProxy SL (proxy_args cfg);
    ethClient <?- Dial SL (Configs.ec_NetworkAddress (Configs.cf_Eth cfg));
    let bridgeEthAddress := HexToAddress L (Configs.ec_MultisigContractAddress (Configs.cf_Eth cfg)) in
    multiSigInstance <?- mret (Bindings.NewBridge (abi_JSON SL) (NewBoundContract SL ethClient) (BridgeABI SL) bridgeEthAddress);
    erc20ContractsHolder <?- newErc20Holder;
    marshaller <?- mret (NewMarshalizer SL (Configs.rc_Marshalizer_Type (Configs.cf_Relayer cfg)));
    messenger <?- Main.buildNetMessenger (NewLRUCache SL) (NewPeersRatingHandler SL) (NewNetworkMessenger SL marshaller) cfg;
    match EthClient.wrapper_checkArgs true true true with
    | Some e => mret (Err e)
    | None =>
        appStatus <?- mret (create_appStatus marshaller);
        mret (Ok {|
          Args_Configs := configs;
          Args_Messenger := Some messenger;
          Args_StatusStorer := Some statusStorer;
          Args_Proxy := Some proxy;
          Args_MultiversXClientStatusHandler := Some (client_status statusStorer MultiversXClientStatusHandlerName);
          Args_Erc20ContractsHolder := Some (erc20_BalanceOf ethClient ethClientStatusHandler);
          Args_ClientWrapper := Some (EthClient.NewEthereumChainWrapper ethClientStatusHandler multiSigInstance (connection_client SL ethClient));
          Args_TimeForBootstrap := Main.timeForBootstrap;
          Args_TimeBeforeRepeatJoin := Main.timeBeforeRepeatJoin;
          Args_MetricsHolder := true;
          Args_AppStatusHandler := true |})
    end.

Definition prepare (ctx : Main.cliContext) : M X (res (ArgsEthereumToMultiversXBridge X A S * gmap string Relayer.metrics)) :=
  configs <?- load_configs ctx;
  status <?- create_status configs;
  args <?- connect configs (fst status);
  mret (Ok (args, snd status)).

(** ** The start *)

Record started := mkStarted {
  st_args : ArgsEthereumToMultiversXBridge X A S;
  st_components : ethMultiversXBridgeComponents (X := X) (T := T) (P := P);
  st_server : Api.webServer (bridgeState X) W
}.

(** What the metrics holder holds: the registered handlers, those of the clients with what they
    have now. *)
Definition holder_now (b : bridgeState X) : gmap string Relayer.metrics :=
  let r := br_relayer b in so_status (start_load h (Relayer.r_world r)) ∪ Relayer.r_metrics r.

Definition handler_metrics (v : Relayer.metrics) : Api.GeneralMetrics :=
  Status.GetAllMetrics (lib_order L) (Status.mkStatus (Relayer.mt_Int v) (Relayer.mt_String v) tt).

Definition start_web_server (configs : Configs.Configs A S) : M (bridgeState X) (res (Api.webServer (bridgeState X) W)) := fun b =>
  (Main.StartWebServer (ErrNilFacadeHandler SL) (ErrNilHttpServer SL) (NewResponseLoggerMiddleware SL) (NewSourceThrottler SL)
     (NewGlobalThrottler SL) handler_metrics (lib_order L) (lib_order L) configs (Some holder_now) b, b).

(** [startRelay] up to the wait for a signal. *)
Definition startRelay_up (ctx : Main.cliContext) : M (bridgeState X) (res started) :=
  prepared <?- on_world (prepare ctx);
  let '(args, holder) := prepared in
  on_relayer (modify (Relayer.set_metrics holder));;
  components <?- NewEthMultiversXBridgeComponents L m args;
  webServer <?- start_web_server (Args_Configs args);
  err ← Factory.Start L m components;
  match err with
  | Some e => mret (Err e)
  | None => mret (Ok (mkStarted args components webServer))
  end.

(** ** Running and closing *)

(** The running process: the components with their machines, and the web server. *)
Record relay := mkRelay { rl_process : process X; rl_server : Api.webServer (bridgeState X) W }.

Definition on_process {B} (c : M (process X) B) : M relay B := zoom rl_process (fun p r => mkRelay p (rl_server r)) c.

(** The web server works on the current state of the components. *)
Definition on_server {B} (c : M (Api.webServer (bridgeState X) W) B) : M relay B :=
  zoom (fun r => Api.set_ws_world (pr_bridge (rl_process r)) (rl_server r))
    (fun w r => let p := rl_process r in mkRelay (mkProcess (Api.ws_world w) (pr_first p) (pr_second p)) w) c.

(** After the signal. *)
Definition startRelay_down (components : ethMultiversXBridgeComponents (X := X) (T := T) (P := P)) : M relay (option error) :=
  Main.shutdown (on_process (on_bridge (Close L components))) (on_server (Api.ws_Close (on_world (server_Shutdown SL)))).

(** Everything that happens until the signal, then the shutdown: what the activities and
    [startRelay] returned. *)
Definition run_until_signal (s : started) (l : list (activity X)) : M relay (list (activity X * option error) * option error) :=
  log ← on_process (live L m (st_args s) (st_components s) l);
  err ← startRelay_down (st_components s);
  mret (log, err).

End Start.
Arguments startLibraries X A F Y Mar C R H W CacheConfig DBConfig CacherArgs DBArgs : clear implicits.
End Start.
