(* ===== verification/StartFacts.v ===== *)
(** * A relayer process from its command line to its end

    What [Start] needs of the libraries it calls, and the theorem about the whole program:
    starting it never panics, and once it runs it is safe until it has been shut down, unless an
    enabled batch validator was configured with an address [http.NewRequest] rejects or the
    contract's quorum does not fit an [int64]. *)
From S2P Require Import Prelude Go Text Common Interfaces StateMachine Monitor SafetyEthToMvx SafetyMvxToEth Hoist Status EthClient Bindings MvxClient Relayer Config Api Executor Factory Main FactoryFacts Process Start.
Import Factory FactoryFacts Process Start.
Open Scope go_scope.

Module StartFacts.

(** ** What is assumed of the libraries *)

(** Go values of the types the ABI gives for a method's result: a deposit count is a [uint16], the
    quorum a [uint256]. *)
Definition output_ok (method : string) (v : Bindings.goValue) : bool :=
  if String.eqb method "getBatch" then
    match v with Bindings.VBatch b => (0 <=? EthClient.cb_DepositsCount b)%Z && (EthClient.cb_DepositsCount b <? 65536)%Z | _ => false end
  else if String.eqb method "getBatchDeposits" then match v with Bindings.VDeposits _ => true | _ => false end
  else if String.eqb method "getRelayers" then match v with Bindings.VAddresses _ => true | _ => false end
  else if String.eqb method "wasBatchExecuted" then match v with Bindings.VBool _ => true | _ => false end
  else if String.eqb method "paused" then match v with Bindings.VBool _ => true | _ => false end
  else if String.eqb method "quorum" then match v with Bindings.VBig z => (0 <=? z)%Z && (z <? 2 ^ 256)%Z | _ => false end
  else if String.eqb method "getStatusesAfterExecution" then match v with Bindings.VUint8s _ => true | _ => false end
  else if String.eqb method "balanceOf" then match v with Bindings.VBig _ => true | _ => false end
  else true.

(** Calls return; an answer is one value of the method's type. *)
Class BoundLaws {X} (b : Bindings.BoundContract X) : Prop := {
  bd_call method params x : wp (Bindings.bound_Call b method params) (fun r _ =>
    match r with Ok out => exists v, out = [v] /\ output_ok method v = true | Err _ => True end) x;
  bd_transact opts method params : total (Bindings.bound_Transact b opts method params)
}.

Class BlockchainLaws {X} (c : EthClient.blockchainClient X) : Prop := {
  bc_chain : total (EthClient.bk_ChainID c);
  bc_block : total (EthClient.bk_BlockNumber c);
  bc_nonce a n : total (EthClient.bk_NonceAt c a n);
  bc_balance a n : total (EthClient.bk_BalanceAt c a n)
}.

Section Laws.
Context {X T P K A F Y Mar C R H W CacheConfig DBConfig CacherArgs DBArgs : Type}.
Context (L : libraries X T P K A) (m : memory X) (SL : startLibraries X A F Y Mar C R H W CacheConfig DBConfig CacherArgs DBArgs).

Class StartLaws : Prop := {
  sl_libraries :: LibraryLaws L;
  sl_roles x : (Z.of_nat (size (ob_mvxRoles (load m x))) < two63)%Z;
  sl_logfile w d p : total (Main.NewFileLogging (sl_log SL) w d p);
  sl_display : total (Main.SetDisplayByteSlice_ToHex (sl_log SL));
  sl_name b : total (Main.ToggleLoggerName (sl_log SL) b);
  sl_level l : total (Main.SetLogLevel (sl_log SL) l);
  sl_remove : total (Main.RemoveLogObserver_Stdout (sl_log SL));
  sl_plain : total (Main.AddLogObserver_Stdout_Plain (sl_log SL));
  sl_span f t s : total (ChangeFileLifeSpan SL f t s);
  sl_config f x : wp (LoadTomlFile_Config SL f) (fun r _ => match r with Ok cfg => ConfigLaws cfg | Err _ => True end) x;
  sl_api f : total (LoadTomlFile_Api SL f);
  sl_storage c d x : wp (NewStorageUnitFromConf SL c d) (fun r _ => match r with
    | Ok st => (forall k v, total (Storer_Put st k v)) /\ forall k, total (Storer_Get st k) | Err _ => True end) x;
  sl_proxy a x : wp (NewProxy SL a) (fun r _ => match r with Ok p => NodeLaws p | Err _ => True end) x;
  sl_dial u : total (Dial SL u);
  sl_client y :: BlockchainLaws (connection_client SL y);
  sl_bound y a abi :: BoundLaws (NewBoundContract SL y a abi);
  sl_messenger mar c r s x : wp (NewNetworkMessenger SL mar c r s) (fun r _ => match r with Ok mes => MessengerLaws mes | Err _ => True end) x;
  sl_shutdown : total (server_Shutdown SL)
}.

(** Not a law, the contract accepts any [uint256]: the quorum that is answered fits an [int64]. *)
Definition contract_quorum_fits : Prop :=
  forall y a abi params x, wp (Bindings.bound_Call (NewBoundContract SL y a abi) "quorum" params) (fun r _ =>
    match r with Ok (Bindings.VBig z :: _) => (z < two63)%Z | _ => True end) x.
End Laws.

(** ** The bindings *)

Lemma call_output {X B} (b : Bindings.BoundContract X) `{!BoundLaws b} (convert : Bindings.goValue -> M X B) (Q : B -> Prop) method params x :
  (forall v, output_ok method v = true -> exists a, convert v = mret a /\ Q a) ->
  wp (Bindings.call_one b convert method params) (fun r _ => match r with Ok a => Q a | Err _ => True end) x.
Proof.
  intros Hc. apply Bindings.call_one_wp. eapply wp_mono; [apply bd_call|]. intros [out|e] x' Hr; [|done].
  destruct Hr as (v & -> & Hv). destruct (Hc v Hv) as (a & Ha & HQ). by exists v, a, [].
Qed.

Lemma call_total {X B} (b : Bindings.BoundContract X) `{!BoundLaws b} (convert : Bindings.goValue -> M X B) method params :
  (forall v, output_ok method v = true -> exists a, convert v = mret a) -> total (Bindings.call_one b convert method params).
Proof.
  intros Hc x. eapply wp_mono; [apply (call_output b convert (fun _ => True))|done]. intros v Hv. destruct (Hc v Hv) as [a Ha]. by exists a.
Qed.

Ltac output := intros []; cbn; intros; try done; by eexists.

Lemma bridge_calls_total {X} (b : Bindings.BoundContract X) `{!BoundLaws b} n :
  total (Bindings.Bridge_GetBatchDeposits b n) /\ total (Bindings.Bridge_GetRelayers b) /\ total (Bindings.Bridge_WasBatchExecuted b n) /\
  total (Bindings.Bridge_GetStatusesAfterExecution b n) /\ total (Bindings.Paused b).
Proof. split_and!; (apply call_total; [apply _|output]). Qed.

(** The wrapper of the chain over the bindings. *)
Lemma wrapper_laws {X} (sh : StatusHandler X) (b : Bindings.BoundContract X) (c : EthClient.blockchainClient X)
    `{!StatusHandlerLaws sh} `{!BoundLaws b} `{!BlockchainLaws c} :
  WrapperLaws (EthClient.NewEthereumChainWrapper sh (Bindings.Bridge b) c).
Proof.
  pose proof (sh_total_AddIntMetric (c := sh)). pose proof (sh_total_SetIntMetric (c := sh)).
  assert (Hcount : forall B (q : M X B), total q -> total (EthClient.count_request sh q)).
  { intros B q Hq. unfold EthClient.count_request. solve_total. }
  split; cbn; intros; try apply Hcount; try (by destruct (bridge_calls_total b 0) as (? & ? & ? & ? & ?)); try (by destruct (bridge_calls_total b n) as (? & ? & ? & ? & ?)); try done.
  - unfold EthClient.count_request. apply wp_bind. eapply wp_mono; [by apply sh_total_AddIntMetric|]. intros [] x' _.
    apply (call_output b _ (fun cb => (0 <= EthClient.cb_DepositsCount cb < 65536)%Z)). intros []; cbn; try done.
    intros ?%andb_true_iff. eexists. split; [done|]. lia.
  - apply bc_chain.
  - pose proof (bc_block (c := c)). solve_total.
  - apply bc_nonce.
  - apply total_bind; [done|]. intros _. apply bd_transact.
  - apply call_total; [apply _|output].
  - apply bc_balance.
Qed.
Lemma wrapper_quorum {X} (sh : StatusHandler X) (b : Bindings.BoundContract X) (c : EthClient.blockchainClient X)
    `{!StatusHandlerLaws sh} `{!BoundLaws b} :
  (forall params x, wp (Bindings.bound_Call b "quorum" params) (fun r _ =>
    match r with Ok (Bindings.VBig z :: _) => (z < two63)%Z | _ => True end) x) ->
  yields_quorum (EthClient.cw_Quorum (EthClient.NewEthereumChainWrapper sh (Bindings.Bridge b) c)).
Proof.
  intros Hq x. cbn. unfold EthClient.count_request. apply wp_bind. eapply wp_mono; [by apply sh_total_AddIntMetric|]. intros [] x' _.
  apply Bindings.call_one_wp. pose proof (bd_call (b := b) "quorum" [] x') as Hc. specialize (Hq [] x'). revert Hc Hq. unfold wp.
  destruct (Bindings.bound_Call b "quorum" [] x') as [[[out|e]|p] x2]; [|done|done]. intros (v & -> & Hv) Hz.
  destruct v; try done. cbn in Hv. apply andb_true_iff in Hv. eexists _, _, []. split; [done|]. split; [done|]. lia.
Qed.

(** ** The preparation *)

Definition yields {X B} (Q : B -> Prop) (r : res B) (_ : X) : Prop := match r with Ok a => Q a | Err _ => True end.

Lemma wp_yields_bind {X B B'} (c : M X (res B)) (k : B -> M X (res B')) (Q : B -> Prop) (Q' : B' -> Prop) x :
  wp c (yields Q) x -> (forall a x', Q a -> wp (k a) (yields Q') x') -> wp (bind_ok c k) (yields Q') x.
Proof. intros Hc Hk. apply wp_bind_ok. eapply wp_mono; [exact Hc|]. intros [a|e] x' Ha; [by apply Hk|done]. Qed.

Lemma total_yields {X B} (c : M X (res B)) x : total c -> wp c (yields (fun _ => True)) x.
Proof. intros Hc. eapply wp_mono; [apply Hc|]. intros [] ? _; done. Qed.

Lemma pure_yields {X B} (r : res B) (x : X) : wp (mret r) (yields (fun a => r = Ok a)) x.
Proof. by destruct r. Qed.

Definition storer_ok {X} (st : Storer X) : Prop := (forall k v, total (Storer_Put st k v)) /\ forall k, total (Storer_Get st k).

Section Prepare.
Context {X T P K A F Y Mar C R H W CacheConfig DBConfig CacherArgs DBArgs : Type}.
Context (L : libraries X T P K A) (m : memory X) (SL : startLibraries X A F Y Mar C R H W CacheConfig DBConfig CacherArgs DBArgs).
Context (h : startMemory X) `{!StartLaws L m SL}.

Lemma no_error_total (c : M X (option error)) : total c -> total (no_error c).
Proof. intros Hc. unfold no_error. solve_total. Qed.

Lemma load_configs_post ctx x : wp (load_configs SL ctx) (yields (fun c => ConfigLaws (Configs.GeneralConfig c))) x.
Proof.
  pose proof (sl_logfile L m SL). pose proof (sl_display L m SL). pose proof (sl_name L m SL). pose proof (sl_level L m SL). pose proof (sl_remove L m SL). pose proof (sl_plain L m SL).
  unfold load_configs. eapply wp_yields_bind; [apply total_yields; unfold Main.attachFileLogger; solve_total|]. intros file x1 _.
  eapply wp_yields_bind; [by apply total_yields, no_error_total|]. intros [] x2 _.
  eapply (wp_yields_bind _ _ ConfigLaws).
  { unfold Main.loadConfig. apply wp_bind. eapply wp_mono; [apply (sl_config L m SL)|]. by intros [cfg|e] ? ?; apply wp_ret. }
  intros cfg x3 Hcfg. eapply wp_yields_bind; [apply total_yields; unfold Main.loadApiConfig; pose proof (sl_api L m SL); solve_total|]. intros api x4 _.
  eapply wp_yields_bind; [apply total_yields; destruct file; [apply no_error_total, (sl_span L m SL)|apply total_ret]|]. intros [] x5 _. done.
Qed.

Lemma newClientStatus_total st name holder : storer_ok st -> total (newClientStatus L h st name holder).
Proof.
  intros [Hput Hget]. unfold newClientStatus. apply total_bind_ok; [by apply Status.NewStatusHandler_total|]. intros loaded. solve_total.
Qed.

Lemma create_status_post configs x : wp (create_status L SL h configs) (yields (fun s => storer_ok (fst s))) x.
Proof.
  unfold create_status. eapply (wp_yields_bind _ _ storer_ok); [unfold Main.CreateUnitStorer; apply (sl_storage L m SL)|].
  intros st x1 Hst. eapply wp_yields_bind; [by apply total_yields, newClientStatus_total|]. intros holder x2 _.
  eapply wp_yields_bind; [by apply total_yields, newClientStatus_total|]. done.
Qed.

Lemma client_status_laws st name : storer_ok st -> StatusHandlerLaws (client_status L h st name).
Proof. intros [Hput _]. apply hoist_status_laws; [apply zoom_preserving|]. by apply Status.status_interface_laws. Qed.

Lemma erc20_total y sh a b : StatusHandlerLaws sh -> total (erc20_BalanceOf SL h y sh a b).
Proof.
  intros Hsh. unfold erc20_BalanceOf. apply total_zoom. unfold EthClient.holder_BalanceOf, EthClient.erc20_wrapper_BalanceOf.
  pose proof (sh_total_AddIntMetric (c := sh)).
  assert (forall c acc, total (Bindings.GenericErc20_BalanceOf (NewBoundContract SL y c (GenericErc20ABI SL)) acc)).
  { intros c acc. apply call_total; [apply (sl_bound L m SL)|output]. }
  solve_total.
Qed.

Lemma connect_post configs st x : ConfigLaws (Configs.GeneralConfig configs) -> storer_ok st ->
  wp (connect L SL h configs st) (yields (fun args => Outside L m args /\ (contract_quorum_fits SL -> quorum_answered args) /\ Args_Configs args = configs)) x.
Proof.
  intros Hcfg Hst. unfold connect. case_match; [done|]. eapply (wp_yields_bind _ _ NodeLaws); [apply (sl_proxy L m SL)|]. intros proxy x1 Hproxy.
  eapply wp_yields_bind; [apply total_yields, (sl_dial L m SL)|]. intros y x2 _.
  eapply wp_yields_bind; [apply pure_yields|]. intros ms x3 Hms. unfold Bindings.NewBridge, Bindings.bindBridge in Hms.
  destruct (abi_JSON SL (BridgeABI SL)); [done|]. injection Hms as <-.
  eapply wp_yields_bind; [by apply total_yields|]. intros [] x4 _. eapply wp_yields_bind; [apply pure_yields|]. intros mar x5 _.
  eapply (wp_yields_bind _ _ MessengerLaws). { unfold Main.buildNetMessenger. repeat (case_match; [|done]). apply (sl_messenger L m SL). }
  intros mes x6 Hmes. cbn [EthClient.wrapper_checkArgs negb]. eapply wp_yields_bind; [apply pure_yields|]. intros [] x7 _. apply wp_ret.
  pose proof (client_status_laws st EthClientStatusHandlerName Hst). pose proof (client_status_laws st MultiversXClientStatusHandlerName Hst).
  split; [|split; [intros Hq w [= <-]; apply wrapper_quorum; [apply _|apply _|]; intros params x8; apply Hq|done]].
  destruct Hst as [Hput Hget]. split; cbn; try apply _; try done; intros; simplify_eq; try done; [apply wrapper_laws; apply _|by apply erc20_total|apply (sl_roles L m SL)].
Qed.

Lemma prepare_post ctx x : wp (prepare L SL h ctx) (yields (fun r => Outside L m (fst r) /\ (contract_quorum_fits SL -> quorum_answered (fst r)))) x.
Proof.
  unfold prepare. eapply wp_yields_bind; [apply load_configs_post|]. intros configs x1 Hcfg.
  eapply wp_yields_bind; [apply create_status_post|]. intros [st holder] x2 Hst.
  eapply wp_yields_bind; [by apply connect_post|]. intros args x3 (Ho & Hq & _). done.
Qed.

(** ** The start *)

Lemma web_server_total configs : total (start_web_server L SL h configs).
Proof.
  intros b. unfold wp, start_web_server.
  destruct (Main.StartWebServer_spec (ErrNilFacadeHandler SL) (ErrNilHttpServer SL) (NewResponseLoggerMiddleware SL) (NewSourceThrottler SL)
    (NewGlobalThrottler SL) (handler_metrics L) (lib_order L) (lib_order L) configs (Some (holder_now h)) b) as (r & -> & _). done.
Qed.

(** What a relayer that was started satisfies. *)
Definition up (s : started (X := X) (T := T) (P := P) (A := A) (W := W) (CacheConfig := CacheConfig) (DBConfig := DBConfig)) (b : bridgeState X) : Prop :=
  Outside L m (st_args s) /\ (contract_quorum_fits SL -> quorum_answered (st_args s)) /\ checkArgsEthereumToMultiversXBridge (st_args s) = None /\ made L m (st_args s) (st_components s) /\
  Some (ClosableClient false) ∉ closableHandlers b.

Lemma start_up_post ctx x :
  wp (startRelay_up L m SL h ctx) (fun r b => match r with Ok s => up s b | Err _ => True end) (new_bridge ∅ x).
Proof.
  unfold startRelay_up. apply wp_bind_ok. do 2 apply wp_zoom. eapply wp_mono; [apply prepare_post|]. intros [[args holder]|e] x1 Hout; [|done].
  cbn in Hout. destruct Hout as [Hout Hq]. apply wp_bind, wp_zoom, wp_modify. apply wp_bind_ok. apply wp_total; [by apply New_total|]. intros [comps|e] b Hnew; [|done].
  apply New_inv in Hnew as (Hc & Hmade & sm1 & sm2 & _ & _ & Hext).
  assert (Hb : Some (ClosableClient false) ∉ closableHandlers b).
  { rewrite (ex_closable _ _ _ _ Hext). cbn [closableHandlers new_bridge app]. unfold registered_closable. rewrite !elem_of_cons, elem_of_nil. naive_solver. }
  apply wp_bind_ok. apply wp_total; [apply web_server_total|]. intros [ws|e] b1 Hws; [|done].
  assert (b1 = b) as ->. { unfold start_web_server in Hws. congruence. }
  apply wp_bind. eapply wp_mono; [by eapply start_keeps|]. intros [e|] b2 Hb2; [done|]. apply wp_ret. split_and!; try done. by rewrite Hb2.
Qed.

(** ** Running and closing *)

(** After the shutdown the loops that can be told to stop have been told. *)
Definition loops_told (r : relay (X := X) (W := W)) : Prop :=
  (cancelFunc (pr_bridge (rl_process r)) = true -> ctxDone (pr_bridge (rl_process r)) = true) /\
  (Api.ws_cancelFunc (rl_server r) = true -> Api.ws_ctxDone (rl_server r) = true).

Lemma server_close_post p ws : (cancelFunc (pr_bridge p) = true -> ctxDone (pr_bridge p) = true) ->
  wp (on_server (Api.ws_Close (on_world (server_Shutdown SL)))) (fun _ r =>
    pr_first (rl_process r) = pr_first p /\ pr_second (rl_process r) = pr_second p /\ loops_told r) (mkRelay p ws).
Proof.
  intros Hp. unfold on_server. apply wp_zoom. unfold Api.ws_Close. apply wp_bind, wp_gets.
  set (w := Api.set_ws_world _ _). apply wp_bind.
  apply (wp_mono _ (fun _ w' => Api.ws_world w' = pr_bridge p /\ Api.ws_cancelFunc w' = Api.ws_cancelFunc w /\
    (Api.ws_cancelFunc w = true -> Api.ws_ctxDone w' = true))); [destruct (Api.ws_cancelFunc (id w)) eqn:Hw; [apply wp_modify|apply wp_ret]; cbn in *; by rewrite ?Hw|].
  intros [] w1 (H1 & H2 & H3). destruct (Api.ws_httpServer (id w)).
  - apply wp_bind, wp_zoom. apply wp_total; [apply on_world_total, (sl_shutdown L m SL)|]. intros e b1 Hb. apply wp_ret. cbn.
    apply world_same_loop in Hb as (_ & Hcf & Hcd). rewrite H1 in Hcf, Hcd. split_and!; try done; split; cbn; rewrite ?Hcf, ?Hcd, ?H2; done.
  - apply wp_ret. cbn. rewrite H1. split_and!; try done. split; cbn; rewrite ?H1, ?H2; done.
Qed.

Lemma run_post s b l : up s b -> contract_quorum_fits SL -> validator_url_accepted L (st_args s) ->
  wp (run_until_signal L m SL s l) (fun out r =>
    (forall e err, (e = EthToMvxMachine \/ e = MvxToEthMachine) -> (Poll e, err) ∈ fst out -> err = None) /\
    tl_ok EthToMvxSafety.justified (snd (world (inner (pr_first (rl_process r))))) /\
    tl_ok MvxToEthSafety.justified (snd (world (inner (pr_second (rl_process r))))) /\ loops_told r)
    (mkRelay (created (st_components s) b) (st_server s)).
Proof.
  intros (Hout & Hq & Hc & Hmade & Hb) Hfits Hu. specialize (Hq Hfits). unfold run_until_signal. apply wp_bind, wp_zoom.
  eapply wp_mono; [by eapply live_ok, created_inv|]. intros log p [Hinv Hlog]. apply wp_bind. unfold startRelay_down, Main.shutdown.
  apply wp_bind, wp_zoom. apply (wp_mono _ (fun _ p' => process_inv (st_components s) p' /\ (cancelFunc (pr_bridge p') = true -> ctxDone (pr_bridge p') = true))).
  { pose proof (activity_ok L m (st_args s) (st_components s) Hmade Hc Hq Hu CloseAll p Hinv) as Ha. cbn [perform] in Ha.
    apply wp_unfold in Ha as (e & p' & Hrun & _ & Hp'). apply wp_unfold. exists e, p'. split; [exact Hrun|]. split; [exact Hp'|].
    unfold on_bridge, zoom in Hrun. destruct (Close L (st_components s) (pr_bridge p)) as [[e'|] b'] eqn:Hclose; [|done]. injection Hrun as <- <-.
    apply Close_loop in Hclose as (_ & H1 & H2). cbn. rewrite H1, H2. intros ->. apply orb_true_r. }
  intros e p' [((id1 & st1 & _ & [[H1 _] _]) & (id2 & st2 & _ & [[H2 _] _]) & _) Htold]. apply wp_bind.
  eapply wp_mono; [by apply server_close_post|]. intros e' r (Hf & Hs & Hl). do 2 apply wp_ret. by rewrite Hf, Hs.
Qed.
End Prepare.

(** ** The theorem *)

(** C3. The program is safe from its command line to its end.  [startRelay] never panics while it
    starts, whatever the flags, files, nodes and libraries answer.  If it started, and two inputs
    that nobody checks are sound - the address of the batch validator, if that is enabled, is one
    [http.NewRequest] accepts, and the quorum the contract answers fits an [int64] - then for
    whatever happens in whatever order until the signal, nothing panics, the machines return no
    error, every call on a chain was justified by what had been observed, and the shutdown closes
    the components and the web server without a panic, after which the loops that could be
    cancelled are.  [StartLaws] says what is assumed of the libraries: calls return, and values
    have the Go types of the ABI and of the configuration's fields. *)
Theorem relay_safe_to_the_end {X T P K A F Y Mar C R H W CacheConfig DBConfig CacherArgs DBArgs}
    (L : libraries X T P K A) (m : memory X) (SL : startLibraries X A F Y Mar C R H W CacheConfig DBConfig CacherArgs DBArgs)
    (h : startMemory X) `{!StartLaws L m SL} (ctx : Main.cliContext) (x : X) (l : list (activity X)) :
  exists r b, startRelay_up L m SL h ctx (new_bridge ∅ x) = (Ret r, b) /\
  forall s, r = Ok s -> contract_quorum_fits SL -> validator_url_accepted L (st_args s) ->
  exists log err fin, run_until_signal L m SL s l (mkRelay (created (st_components s) b) (st_server s)) = (Ret (log, err), fin) /\
    (forall e err, (e = EthToMvxMachine \/ e = MvxToEthMachine) -> (Poll e, err) ∈ log -> err = None) /\
    tl_ok EthToMvxSafety.justified (snd (world (inner (pr_first (rl_process fin))))) /\
    tl_ok MvxToEthSafety.justified (snd (world (inner (pr_second (rl_process fin))))) /\
    loops_told fin.
Proof.
  destruct (proj1 (wp_unfold _ _ _) (start_up_post L m SL h ctx x)) as (r & b & Hup & Hpost).
  exists r, b. split; [exact Hup|]. intros s -> Hq Hu. destruct (proj1 (wp_unfold _ _ _) (run_post L m SL s b l Hpost Hq Hu)) as ([log err] & fin & Hrun & Hsafe).
  by exists log, err, fin.
Qed.
End StartFacts.
