(* ===== verification/StartDemo.v ===== *)
(** * A process start on a small world

    The libraries of [ProcessDemo] with those the process start calls: a run from the command
    line through a day of activities to the shutdown, and the witness of the theorem about it. *)
From S2P Require Import Prelude Go Text Common Batch Interfaces StateMachine Executor Monitor SafetyEthToMvx SafetyMvxToEth Status EthClient EthClientFacts Bindings MvxClient Relayer Config Api Factory Main FactoryFacts Process ProcessDemo Start StartFacts.
Import Factory FactoryFacts Process ProcessDemo Start StartFacts.
Open Scope go_scope.

Module StartDemo.

Definition demo_objects : startMemory world_ := {|
  start_load w := mkStart (dw_status w) (dw_erc20 w);
  start_store o w := mkWorld (dw_objects w) (dw_sent w) (so_status o) (so_erc20 o) |}.

(** A node that knows the contract of the small world, by the methods of its ABI. *)
Definition demo_answer (method : string) (params : list Bindings.goValue) : res (list Bindings.goValue) :=
  if String.eqb method "getBatch" then Ok [Bindings.VBatch (EthClient.mkCBatch (match params with [Bindings.VBig n] => n | _ => 0%Z end) 0 0 3)]
  else if String.eqb method "getBatchDeposits" then Ok [Bindings.VDeposits EthClientFacts.toy_deposits]
  else if String.eqb method "getRelayers" then Ok [Bindings.VAddresses [[Byte.x98]]]
  else if String.eqb method "wasBatchExecuted" then Ok [Bindings.VBool false]
  else if String.eqb method "paused" then Ok [Bindings.VBool false]
  else if String.eqb method "quorum" then Ok [Bindings.VBig 2]
  else if String.eqb method "getStatusesAfterExecution" then Ok [Bindings.VUint8s [Executed]]
  else if String.eqb method "balanceOf" then Ok [Bindings.VBig 110]
  else Err (ErrExternal "execution reverted").

Definition demo_bound : Bindings.BoundContract world_ := {|
  Bindings.bound_Call method params := mret (demo_answer method params);
  Bindings.bound_Transact _ method _ := say method;; mret (Ok "hash") |}.

Definition demo_blockchain : EthClient.blockchainClient world_ := {|
  EthClient.bk_ChainID := mret (Ok 1%Z); EthClient.bk_BlockNumber := mret (Ok 100%Z);
  EthClient.bk_NonceAt _ _ := mret (Ok 7%Z); EthClient.bk_BalanceAt _ _ := mret (Ok 1000000%Z) |}.

Definition demo_toml : Configs.Config unit (@Main.StorageConfig unit unit) :=
  let c := demo_config in {|
    Configs.cf_Eth := Configs.cf_Eth c; Configs.cf_MultiversX := Configs.cf_MultiversX c; Configs.cf_P2P := Configs.cf_P2P c;
    Configs.cf_StateMachine := Configs.cf_StateMachine c;
    Configs.cf_Relayer := {| Configs.rc_Marshalizer_Type := "gogo protobuf"; Configs.rc_RoleProvider := Configs.mkRoleConfig 60000;
      Configs.rc_StatusMetricsStorage := {| Main.sc_Cache := tt; Main.sc_DB := tt; Main.sc_DB_FilePath := "StatusMetricsStorageDB" |} |};
    Configs.cf_Logs := Configs.cf_Logs c; Configs.cf_Antiflood := Configs.cf_Antiflood c;
    Configs.cf_BatchValidator := Configs.cf_BatchValidator c; Configs.cf_PeersRatingConfig := Configs.cf_PeersRatingConfig c |}.

Definition demo_api : Configs.ApiRoutesConfig :=
  Configs.mkApiRoutes (Configs.mkApiLogging false 0) {["node" := Configs.mkPackage [Configs.mkRoute "/status" true]]}.

Definition demo_start : startLibraries world_ unit unit unit unit unit unit unit string unit unit unit string := {|
  DefaultRestInterface := "localhost:8080"; LogDebug_String := "DEBUG";
  sl_log := {| Main.NewFileLogging _ _ _ := mret (Ok tt); Main.SetDisplayByteSlice_ToHex := mret None; Main.ToggleLoggerName _ := mret tt;
               Main.SetLogLevel _ := mret None; Main.RemoveLogObserver_Stdout := mret None; Main.AddLogObserver_Stdout_Plain := mret None |};
  ChangeFileLifeSpan _ _ _ := mret None;
  LoadTomlFile_Config f := mret (if String.eqb f "config/config.toml" then Ok demo_toml else Err (ErrExternal "no such file"));
  LoadTomlFile_Api _ := mret (Ok demo_api);
  path_Join a b := a +:+ "/" +:+ b;
  GetDBFromConfig _ := ""; set_FilePath p _ := p; GetCacherFromConfig _ := tt;
  NewStorageUnitFromConf _ path := (say ("open " +:+ path);;
    mret (Ok {| Storer_Put _ _ := mret None; Storer_Get _ := mret (Err (ErrExternal "key not found")) |}));
  NewProxy a := (say ("proxy " +:+ ProxyURL a);; mret (Ok demo_proxy));
  Dial _ := (say "dial";; mret (Ok tt));
  connection_client _ := demo_blockchain; NewBoundContract _ _ _ := demo_bound; abi_JSON _ := None;
  BridgeABI := "[bridge]"; GenericErc20ABI := "[erc20]"; address_String := hex_encode;
  NewMarshalizer _ := Ok tt; NewLRUCache _ := Ok tt; NewPeersRatingHandler _ _ := Ok tt;
  NewNetworkMessenger _ _ _ _ := mret (Ok demo_messenger);
  NewPersistentStatusHandler _ := Ok tt; NewAppStatusFacadeWithHandlers _ := None;
  ErrNilFacadeHandler := ErrExternal "nil facade"; ErrNilHttpServer := ErrExternal "nil server";
  NewResponseLoggerMiddleware _ := "log"; NewSourceThrottler _ := Ok "source"; NewGlobalThrottler _ := Ok "global";
  server_Shutdown := (say "shutdown";; mret None) |}.

#[export] Instance demo_bound_lawful : BoundLaws demo_bound.
Proof.
  split; [|done]. intros method params x. unfold demo_bound, demo_answer, output_ok. cbn.
  repeat (destruct (String.eqb _ _); [first [done|by eexists]|]). done.
Qed.

#[export] Instance demo_start_lawful : StartLaws demo_libraries demo_memory demo_start.
Proof.
  split; intros; try apply _; try done.
  - apply (out_roles (L := demo_libraries) (m := demo_memory) (args := demo_args)).
  - unfold demo_start. cbn. destruct (String.eqb f _); [by split|done].
  - by apply (out_proxy (L := demo_libraries) (m := demo_memory) (args := demo_args)).
Qed.

(** The command line sets only the interface of the API. *)
Definition demo_command : Main.cliContext := Main.parsed (DefaultRestInterface demo_start) (LogDebug_String demo_start) {["rest-api-interface" := "localhost:9090"]}.

Definition demo_up : option (started * bridgeState world_) :=
  ok_pair (startRelay_up demo_libraries demo_memory demo_start demo_objects demo_command (new_bridge ∅ demo_first)).

(** Whitelists, two steps of the first machine, and the turns of the join loop. *)
Definition demo_activities : list (activity world_) :=
  [JoinTurn false; Poll MultiversXRoles; Poll EthereumRoles; Poll EthToMvxMachine; Poll EthToMvxMachine; JoinTurn true].

Definition demo_run : option (list (option error) * option error * relay) :=
  match demo_up with
  | Some (s, b) =>
      match run_until_signal demo_libraries demo_memory demo_start s demo_activities (mkRelay (created (st_components s) b) (st_server s)) with
      | (Ret (log, err), fin) => Some (log.*2, err, fin)
      | (Panic _, _) => None
      end
  | None => None
  end.

(** The whole run: what was done, in order, the error of the handler that fails to close, and the
    metrics of the Ethereum client that the API shows at the end. *)
Example demo_run_result :
  (fun '(errs, err, fin) => (errs, err, dw_sent (Relayer.r_world (br_relayer (pr_bridge (rl_process fin)))))) <$> demo_run =
  Some ([None; None; None; None; None; None], Some (ErrExternal "busy"),
    ["open /db/StatusMetricsStorageDB"; "proxy gateway"; "dial"; "bootstrap"; "register EthereumToMultiversX_join";
     "register EthereumToMultiversX_sign"; "broadcast EthereumToMultiversX_join"; "poll MultiversX role provider";
     "poll Ethereum role provider"; "poll EthereumToMultiversX State machine"; "poll MultiversXToEthereum State machine"; "transaction";
     "broadcast EthereumToMultiversX_join"; "close timer"; "close MultiversX role provider"; "close client";
     "close Ethereum role provider"; "close EthereumToMultiversX State machine"; "close MultiversXToEthereum State machine"; "shutdown"]).
Proof. vm_compute. reflexivity. Qed.
(** What the API answers for the Ethereum client's handler at the end. *)
Definition demo_requests : option Z :=
  '(_, _, fin) ← demo_run;
  answer ← Api.serve (fun _ _ => false) "GET" "/node/status" {[Api.clientQueryParam := [EthClientStatusHandlerName]]}
    (Api.set_ws_world (pr_bridge (rl_process fin)) (rl_server fin));
  match answer with
  | Api.ServedJSON (Ret r) => data ← Api.rsp_Data (Api.rsp_Body r); v ← data !! MetricNumEthClientRequests; match v with GInt z => Some z | _ => None end
  | _ => None
  end.

Example demo_requests_counted : demo_requests = Some 4%Z.
Proof. vm_compute. reflexivity. Qed.

(** A configuration file that does not exist is reported, and nothing is started. *)
Example demo_missing_file :
  fst (startRelay_up demo_libraries demo_memory demo_start demo_objects
    (Main.parsed "" "DEBUG" {["config" := "other.toml"]}) (new_bridge ∅ demo_first)) = Ret (Err (ErrExternal "no such file")).
Proof. vm_compute. reflexivity. Qed.

Lemma demo_up_some : bool_decide (is_Some demo_up) = true.
Proof. vm_compute. reflexivity. Qed.

Lemma demo_contract_quorum : contract_quorum_fits demo_start.
Proof.
  intros y a abi params x. change (NewBoundContract demo_start y a abi) with demo_bound. by vm_compute.
Qed.

Lemma demo_validator_disabled :
  (fun '(s, _) => Relayer.bvc_Enabled (Configs.cf_BatchValidator (Configs.GeneralConfig (Args_Configs (st_args s))))) <$> demo_up = Some false.
Proof. vm_compute. reflexivity. Qed.

Lemma relay_safe_to_the_end_witness :
  match demo_up with
  | Some (s, b) => exists log err fin,
      run_until_signal demo_libraries demo_memory demo_start s demo_activities (mkRelay (created (st_components s) b) (st_server s)) =
        (Ret (log, err), fin) /\
      tl_ok EthToMvxSafety.justified (snd (world (inner (pr_first (rl_process fin))))) /\ loops_told fin
  | None => False
  end.
Proof.
  destruct (relay_safe_to_the_end demo_libraries demo_memory demo_start demo_objects demo_command demo_first demo_activities)
    as (r & b & Hup & Hsafe).
  pose proof demo_up_some as Hok. pose proof demo_validator_disabled as Hoff.
  assert (Hc : demo_up = ok_pair (Ret r, b)) by exact (f_equal ok_pair Hup).
  rewrite Hc in *. destruct r as [s|e]; [|discriminate Hok]. injection Hoff as Hoff.
  assert (Hurl : validator_url_accepted demo_libraries (st_args s)) by (intros Hon; cbn in Hon; rewrite Hoff in Hon; discriminate Hon).
  destruct (Hsafe s eq_refl demo_contract_quorum Hurl) as (log & err & fin & Hrun & _ & H1 & _ & H2). exists log, err, fin. split; [exact Hrun|]. split; [exact H1|exact H2].
Defined.
End StartDemo.
