(* ===== verification/Testnet.v ===== *)
(** * Relayers over the chains of the integration tests

    The setting of [src/bridge/integrationTests/relayers/ethToMultiversX_test.go]: [N] relayers,
    each assembled by the factory, share one MultiversX chain, one Ethereum chain and one clock;
    Ethereum holds the batch after the last executed one, its tokens are registered.  The test
    expects the transfer of exactly this batch to be performed; here it is proved, for every
    number of relayers, quorum, batch and fair order of turns, by discharging [Serves]. *)
From S2P Require Import Prelude Go Text Common Batch Interfaces Executor StateMachine StepsEthToMvx Machines Hoist Topology EthClient MvxClient MvxClientFacts Status BatchValidator MvxChain MvxChainFacts EthChain ClientOnChain Liveness Relayer.
Import EthClient MvxClient MvxChain MvxChainFacts EthChain ClientOnChain Relayer Liveness.
Open Scope go_scope.

Module Testnet.

(** ** The world of the network: every relayer's own state, and what they share *)

Definition local := relayer unit.

Record testnet (X : Type) := mkTestnet {
  tn_locals : nat -> local;
  tn_world : X
}.
Arguments mkTestnet {X} _ _.
Arguments tn_locals {X} _.
Arguments tn_world {X} _.

Definition re_world {X Y} (y : Y) (r : relayer X) : relayer Y :=
  mkRelayer (r_ethBlock r) (r_ethRetries r) (r_mxShardFetched r) (r_mxShard r) (r_mxNonce r) (r_mxRetries r) (r_metrics r) y.

Definition get_relayer {X} (i : nat) (w : testnet X) : relayer X := re_world (tn_world w) (tn_locals w i).
Definition put_relayer {X} (i : nat) (r : relayer X) (w : testnet X) : testnet X :=
  mkTestnet (fun j => if Nat.eqb j i then re_world tt r else tn_locals w j) (r_world r).
Definition at_relayer {X} (i : nat) (A : Type) : M (relayer X) A -> M (testnet X) A := zoom (get_relayer i) (put_relayer i).

(** Runs seen from the shared world only. *)
Section Worlds.
Context {X : Type} (i : nat) (w : testnet X).

Lemma wp_on_mvx {A} (c : M X A) (P : A -> testnet X -> Prop) :
  wp c (fun a x => forall w', tn_world w' = x -> P a w') (tn_world w) -> wp (at_relayer i A (on_mvx A (on_mx c))) P w.
Proof. intros H. unfold at_relayer, on_mvx, on_mx. do 3 apply wp_zoom. eapply wp_mono; [exact H|]. intros a x HP. by apply HP. Qed.

Lemma wp_on_eth {A} (c : M X A) (P : A -> testnet X -> Prop) :
  wp c (fun a x => forall w', tn_world w' = x -> P a w') (tn_world w) -> wp (at_relayer i A (on_eth A (on_world c))) P w.
Proof. intros H. unfold at_relayer, on_eth, on_world. do 3 apply wp_zoom. eapply wp_mono; [exact H|]. intros a x HP. by apply HP. Qed.

Lemma wp_on_env {A} (c : M X A) (P : A -> testnet X -> Prop) :
  wp c (fun a x => forall w', tn_world w' = x -> P a w') (tn_world w) -> wp (at_relayer i A (on_env A c)) P w.
Proof. intros H. unfold at_relayer, on_env. do 2 apply wp_zoom. eapply wp_mono; [exact H|]. intros a x HP. by apply HP. Qed.

Lemma wp_on_status {A} name (c : M (Status.statusHandler X) A) (P : A -> testnet X -> Prop) :
  (forall sh, Status.st_store sh = tn_world w ->
     wp c (fun a sh' => forall w', tn_world w' = Status.st_store sh' -> P a w') sh) ->
  wp (at_relayer i A (on_status name A c)) P w.
Proof.
  intros H. unfold at_relayer, on_status. do 2 apply wp_zoom. eapply wp_mono; [by apply H|]. intros a sh HP. by apply HP.
Qed.
End Worlds.

(** What the factory put into an executor of this direction. *)
Lemma bridge_created {X T} (C : components X T) cfg r d E r' :
  createEthereumToMultiversXBridge C cfg r = (Ret (Ok (d, E)), r') ->
  exists name c th bv, Topology.NewTopologyHandler (topologyArgs C c) = Ok (Some th) /\
    createBatchValidator C cfg (cfg_Chain cfg) Chain.MultiversX = Ok bv /\
    cfg_StateMachine cfg !! Chain.EvmCompatibleChainToMultiversXName (cfg_Chain cfg) = Some c /\
    topologyProvider E = hoist_topology on_env (Topology.topology_interface (sha256 C) th) /\
    multiversXClient E = hoist_mx on_mvx (mx_interface (multiversXClient_ C)) /\
    ethereumClient E = hoist_eth on_eth (eth_interface (ethClient C) (map_iteration C)) /\
    statusHandler E = hoist_status (on_status name) (Status.status_interface (storer_Put C) (metrics_Marshal C) name (map_iteration C)) /\
    batchValidator E = hoist_validator on_env bv /\
    maxQuorumRetriesOnMultiversX E = mx_MaxRetriesOnQuorumReached cfg /\
    (minRetries <= mx_MaxRetriesOnQuorumReached cfg)%Z.
Proof.
  unfold createEthereumToMultiversXBridge, createBridge. intros H.
  set (name := Chain.EvmCompatibleChainToMultiversXName (cfg_Chain cfg)) in *.
  destruct (cfg_StateMachine cfg !! name) as [c|] eqn:Hc; [|done].
  destruct (Topology.NewTopologyHandler (topologyArgs C c)) as [[th|]|] eqn:Hth; [|done..].
  apply bind_ok_inv in H as (u & r1 & _ & H).
  destruct (createBatchValidator C cfg (cfg_Chain cfg) Chain.MultiversX) as [bv|] eqn:Hbv; [|done].
  unfold NewBridgeExecutor in H. destruct (Executor.checkArgs _) as [e|] eqn:Hargs; [done|].
  cbn in H. injection H as <- <- _. exists name, c, th, bv. cbn. repeat (split; [done|]).
  unfold Executor.checkArgs in Hargs. cbn in Hargs. repeat case_match; try done. by apply Z.ltb_ge.
Qed.

(** ** The setting *)

Section Setting.
Context {X T : Type} (N : nat) (C : nat -> components X T) (cfg : Config) (E : nat -> executorDeps (relayer X)).
Context (L : testLib) (o : map_order) (enc : vmArg -> bytes).
Context (mvx : X -> MultiversXChainMock) (mvx_put : MultiversXChainMock -> X -> X).
Context (eth : X -> EthereumChainMock) (eth_put : EthereumChainMock -> X -> X) (now : X -> Z) (set_now : Z -> X -> X).
Context (Marshal : EthereumProposedTransfer -> res bytes) (tx_Hash : bytes -> string) (hook : option (M EthereumChainMock unit)).
Context (keys : list bytes) (conv : AddressConverter) (sha : bytes -> bytes).

Local Abbreviation D i := (multiversXClient_ (C i)).
Local Abbreviation me i := (mx_relayer (multiversXClient_ (C i))).
Local Abbreviation addr i := (relayer_bech32 (multiversXClient_ (C i))).

(** A call that changes neither the chains nor the clock. *)
Definition aside {A} (c : M X A) : Prop :=
  forall x, exists a x', c x = (Ret a, x') /\ mvx x' = mvx x /\ eth x' = eth x /\ now x' = now x.

(** How a test wires the relayers to its chains; what is outside the repository behaves as
    documented. *)
Class Connected : Prop := {
  cn_chain i :: OnChain (D i) L o None None enc mvx mvx_put;
  cn_hash :: HashLaws L;
  cn_mvx_eth m x : eth (mvx_put m x) = eth x;
  cn_mvx_now m x : now (mvx_put m x) = now x;
  cn_eth_get x : eth_put (eth x) x = x;
  cn_clock z x : now (set_now z x) = z /\ mvx (set_now z x) = mvx x /\ eth (set_now z x) = eth x;
  cn_shard i a x : GetShardOfAddress (D i) a x = zoom mvx mvx_put (s ← chain_GetShardOfAddress a; mret (Ok s)) x;
  cn_status i s x : GetNetworkStatus (D i) s x = zoom mvx mvx_put (n ← chain_GetNetworkStatus s; mret (Ok n)) x;
  cn_metric_int i k v : aside (sh_SetIntMetric (mx_status (D i)) k v);
  cn_metric_string i k v : aside (sh_SetStringMetric (mx_status (D i)) k v);
  cn_put i k v : aside (storer_Put (C i) k v);
  cn_wrapper i : clientWrapper (ethClient (C i)) = hoist_wrapper (fun A => zoom eth eth_put) (mock_wrapper Marshal tx_Hash hook);
  cn_mapper i : ConvertToken (ethClient (C i)) = erc20ToMultiversX_ConvertToken (D i);
  cn_converter i : addressConverter (ethClient (C i)) = conv;
  cn_keys i x : roleProvider_SortedPublicKeys (C i) x = (Ret keys, x);
  cn_keys_size : keys <> [] /\ (Z.of_nat (length keys) < two63)%Z;
  cn_now i x : timer_NowUnix (C i) x = (Ret (now x), x);
  cn_me i : multiversXRelayerAddress (C i) = me i;
  cn_distinct i j : i < N -> j < N -> me i = me j -> i = j;
  cn_sha i : sha256 (C i) = sha;
  cn_sha_size b : 8 <= length (sha b);
  cn_address a : length a = 20 -> HexToAddress L (hex_encode a) = a
}.

(** The batch Ethereum holds, and what is registered for its tokens. *)
Context (eth0 : EthereumChainMock) (toks : tokensRegistryMock) (n0 t0 : Z) (Q : nat) (cb : contract_Batch) (ds : list contract_Deposit) (h : string).

Definition ticker (token : bytes) : string := default "" (ethToMultiversX toks !! token).

(** The deposit as the relayers read it. *)
Definition expected_deposit (d : contract_Deposit) : DepositTransfer :=
  {| dt_Nonce := u64 (cd_Nonce d); dt_ToBytes := cd_Recipient d; dt_DisplayableTo := ToBech32String conv (cd_Recipient d);
     dt_FromBytes := cd_Depositor d; dt_DisplayableFrom := ToHexString (cd_Depositor d); dt_TokenBytes := cd_TokenAddress d;
     dt_ConvertedTokenBytes := bytes_of_string (ticker (cd_TokenAddress d)); dt_DisplayableToken := ToHexString (cd_TokenAddress d);
     dt_Amount := Some (cd_Amount d) |}.
Definition expected_batch : TransferBatch := mkBatch (n0 + 1) (expected_deposit <$> ds) (replicate (length ds) Byte.x00).

Record scenario : Prop := {
  sc_n0 : (0 <= n0 /\ n0 + 1 < two63)%Z;
  sc_t0 : (0 <= t0 < two63)%Z;
  sc_quorum : Q <= N;
  sc_batch : batches eth0 !! (n0 + 1)%Z = Some cb;
  sc_nonce : cb_Nonce cb = (n0 + 1)%Z;
  sc_count : cb_DepositsCount cb = Z.of_nat (length ds);
  sc_deposits : deposits eth0 !! (n0 + 1)%Z = Some ds;
  sc_some : ds <> [];
  sc_deposit d : d ∈ ds -> length (cd_TokenAddress d) = 20 /\ ticker (cd_TokenAddress d) <> "" /\ cd_Depositor d <> [] /\ cd_Recipient d <> [];
  sc_nonces : consecutive (t0 + 1) (dt_Nonce <$> tb_Deposits expected_batch);
  sc_hash : stored_under L expected_batch h;
  sc_action : action_number h <> 0%Z;
  sc_validator : bvc_Enabled (cfg_BatchValidator cfg) = false;
  sc_retries : (mx_MaxRetriesOnQuorumReached cfg < two64)%Z;
  sc_created i : i < N -> exists r d r', createEthereumToMultiversXBridge (C i) cfg r = (Ret (Ok (d, E i)), r')
}.

(** The state of the chains while this batch is the next one. *)
Local Abbreviation contract_at x := (contract_of mvx x).
Local Abbreviation action := (action_of h).

Record good_world (x : X) : Prop := {
  gw_eth : eth x = eth0;
  gw_wf : contract_wf L (contract_at x);
  gw_last : lastExecutedEthBatchId (contract_at x) = n0;
  gw_tx : lastExecutedEthTxId (contract_at x) = t0;
  gw_tokens : tokens (contract_at x) = toks;
  gw_quorum : quorum (contract_at x) = Z.of_nat Q;
  gw_signers m s : signedActionIDs (contract_at x) !! pretty action = Some m -> s ∈ m -> exists i, i < N /\ s = addr i;
  gw_transfer t : proposedTransfers (contract_at x) !! h = Some t -> t = transfer_of expected_batch;
  gw_performed : performedAction (contract_at x) = Some action -> is_Some (proposedTransfers (contract_at x) !! h)
}.

(** Who leads at a time, by the relayers' own election. *)
Definition interval : Z :=
  match cfg_StateMachine cfg !! Chain.EvmCompatibleChainToMultiversXName (cfg_Chain cfg) with
  | Some c => seconds (IntervalForLeaderInSeconds c)
  | None => 0%Z
  end.
Definition elects (time : Z) (i : nat) : bool :=
  match fst (Topology.MyTurnAsLeader sha (Topology.handler_of (X := unit) (mret keys) (mret time) interval (me i)) tt) with
  | Ret b => b
  | Panic _ => false
  end.
Definition leader_at (time : Z) : nat := match List.find (elects time) (seq 0 N) with Some i => i | None => N end.

Definition signers_of (c : contractState) : gset nat :=
  list_to_set (filter (fun i => signed_by c action (addr i) = true) (seq 0 N)).

Definition world_view (x : X) : mview :=
  mkView (bool_decide (is_Some (proposedTransfers (contract_at x) !! h))) (signers_of (contract_at x))
    (performed (contract_at x) action) (leader_at (now x)).

Definition good_net (w : testnet X) : Prop := good_world (tn_world w).
Definition net_view (w : testnet X) : mview := world_view (tn_world w).
Definition deps (i : nat) : executorDeps (testnet X) := hoist (at_relayer i) (E i).

(** ** The calls of the relayers in this setting *)

Context {HC : Connected} (HS : scenario).

Lemma batch_all_ok : batch_ok expected_batch.
Proof.
  apply Forall_fmap, Forall_forall. intros d Hd. destruct (sc_deposit HS d Hd) as (_ & Ht & Hf & Hr). split; [done|]. split; [done|].
  split; [|by eexists]. cbn. intros H. apply Ht. by rewrite <-(string_bytes_string (ticker _)), H.
Qed.

Lemma same_world x x' : mvx x' = mvx x -> eth x' = eth x -> now x' = now x -> good_world x ->
  good_world x' /\ world_view x' = world_view x.
Proof.
  intros Hm He Hn [H1 H2 H3 H4 H5 H6 H7 H8 H9].
  assert (Hc : contract_of mvx x' = contract_of mvx x) by (unfold contract_of; by rewrite Hm).
  split; [split; rewrite ?Hc, ?He; done|]. unfold world_view. by rewrite Hc, Hn.
Qed.

Definition quietX {A} (c : M X A) (x : X) (R : A -> Prop) : Prop :=
  wp c (fun a x' => R a /\ good_world x' /\ world_view x' = world_view x) x.

Lemma quiet_run {A} (c : M X A) x (R : A -> Prop) a : good_world x -> c x = (Ret a, x) -> R a -> quietX c x R.
Proof. intros Hg Hc HR. unfold quietX, wp. by rewrite Hc. Qed.

Lemma quiet_aside {A} (c : M X A) x : good_world x -> aside c -> quietX c x (fun _ => True).
Proof.
  intros Hg Ha. destruct (Ha x) as (a & x' & Hc & Hm & He & Hn). unfold quietX, wp. rewrite Hc.
  destruct (same_world x x' Hm He Hn Hg) as [? ?]. done.
Qed.

Lemma mapper_run i d x : good_world x -> d ∈ ds ->
  ConvertToken (ethClient (C i)) (cd_TokenAddress d) x = (Ret (Ok (bytes_of_string (ticker (cd_TokenAddress d)))), x).
Proof.
  intros Hg Hd. destruct (sc_deposit HS d Hd) as (Hlen & Ht & _). rewrite cn_mapper.
  unfold erc20ToMultiversX_ConvertToken, GetTokenIdForErc20Address, bind_ok, mbind, M_bind.
  rewrite (query_bytes (D i) L o None None enc mvx mvx_put _ _ [bytes_of_string (ticker (cd_TokenAddress d))]); [done|].
  split.
  { constructor; [|constructor]. cbn. intros H. by rewrite H in Hlen. }
  intros r Hr Ha. cbn in Hr, Ha. unfold vm_handlers. cbn [dispatch]. rewrite Hr. cbn [String.eqb Ascii.eqb Bool.eqb].
  unfold vmRequestGetTokenIdForErc20Address. rewrite Ha. unfold mbind, M_bind, str_index. cbn [lookup list_lookup mret M_ret]. unfold M_ret.
  rewrite (oc_enc_bytes (OnChain := cn_chain i)), (cn_address _ Hlen). unfold getTicker, mbind, M_bind, gets. rewrite (gw_tokens x Hg).
  unfold ticker in *. by destruct (ethToMultiversX toks !! cd_TokenAddress d).
Qed.

Lemma convert_run i x l cache acc : good_world x -> (forall d, d ∈ l -> d ∈ ds) ->
  (forall d v, d ∈ l -> cache !! ToHexString (cd_TokenAddress d) = Some v -> v = bytes_of_string (ticker (cd_TokenAddress d))) ->
  convert_deposits (ethClient (C i)) cache l acc x = (Ret (Ok (acc ++ (expected_deposit <$> l))), x).
Proof.
  intros Hg. revert cache acc. induction l as [|d l IH]; intros cache acc Hl Hcache; cbn [convert_deposits fmap list_fmap].
  { by rewrite app_nil_r. }
  assert (Hconv : forall v, v = bytes_of_string (ticker (cd_TokenAddress d)) ->
    convertDeposit (ethClient (C i)) d v = expected_deposit d).
  { intros v ->. unfold convertDeposit, expected_deposit. by rewrite cn_converter. }
  destruct (cache !! ToHexString (cd_TokenAddress d)) as [v|] eqn:Hc.
  - rewrite (Hconv v) by (eapply Hcache; [left|done]). rewrite IH; [by rewrite <-app_assoc|intros; apply Hl; by right|].
    intros d' v' Hd'. apply Hcache. by right.
  - unfold bind_ok, mbind, M_bind. rewrite mapper_run by (done || (apply Hl; left)). rewrite Hconv by done.
    rewrite IH; [by rewrite <-app_assoc|intros; apply Hl; by right|].
    intros d' v' Hd'. destruct (decide (ToHexString (cd_TokenAddress d) = ToHexString (cd_TokenAddress d'))) as [He|He].
    + rewrite He, lookup_insert_eq. intros [= <-]. by apply hex_encode_inj in He as ->.
    + rewrite lookup_insert_ne by done. apply Hcache. by right.
Qed.

Lemma n0_u64 : u64 (n0 + 1) = (n0 + 1)%Z.
Proof. apply u64_small. pose proof (sc_n0 HS). unfold is_u64. rewrite two64_two63. lia. Qed.

Lemma GetBatch_run i x : good_world x -> EthClient.GetBatch (ethClient (C i)) (n0 + 1) x = (Ret (Ok (Some expected_batch)), x).
Proof.
  intros Hg. unfold EthClient.GetBatch. rewrite cn_wrapper. cbn [cw_GetBatch cw_GetBatchDeposits hoist_wrapper mock_wrapper].
  unfold bind_ok, mbind at 1, M_bind, zoom at 1, GetBatch, mbind at 1, M_bind, gets.
  rewrite (gw_eth x Hg), n0_u64, (sc_batch HS). cbn [mret M_ret]. unfold M_ret. rewrite <-(gw_eth x Hg) at 1. rewrite cn_eth_get.
  unfold mbind at 1, M_bind, zoom at 1, GetBatchDeposits, mbind at 1, M_bind, gets.
  rewrite (gw_eth x Hg), n0_u64, (sc_deposits HS). cbn [mret M_ret]. unfold M_ret. rewrite <-(gw_eth x Hg) at 1. rewrite cn_eth_get.
  rewrite (sc_count HS), Z.eqb_refl. cbn [negb]. unfold mbind at 1, M_bind.
  rewrite (convert_run i x ds ∅ []); [|done|done|intros d v _; by rewrite lookup_empty]. cbn [app].
  unfold mret, M_ret, expected_batch. rewrite (sc_nonce HS), n0_u64, length_fmap. done.
Qed.

(** The signatures counted by the contract are the relayers that signed. *)
Lemma elem_of_signers i c : i ∈ signers_of c <-> i < N /\ signed_by c action (addr i) = true.
Proof.
  unfold signers_of. rewrite elem_of_list_to_set, list_elem_of_filter, elem_of_seq. split; intros [? ?]; (split; [|done || lia]); (done || lia).
Qed.

Lemma addr_distinct i j : i < N -> j < N -> addr i = addr j -> i = j.
Proof.
  intros Hi Hj H. apply cn_distinct; [done|done|]. pose proof (oc_sender (OnChain := cn_chain i)) as H1.
  pose proof (oc_sender (OnChain := cn_chain j)) as H2. rewrite H in H1. congruence.
Qed.

Lemma signers_size x m : good_world x -> signedActionIDs (contract_of mvx x) !! pretty action = Some m ->
  size m = size (signers_of (contract_of mvx x)).
Proof.
  intros Hg Hm. set (c := contract_of mvx x) in *. set (l := filter (fun i => signed_by c action (addr i) = true) (seq 0 N)).
  assert (Hl : forall i, i ∈ l <-> i < N /\ addr i ∈ m).
  { intros i. unfold l. rewrite list_elem_of_filter, elem_of_seq. unfold signed_by. rewrite Hm, bool_decide_eq_true.
    split; intros [? ?]; (split; [|done || lia]); (done || lia). }
  assert (Heq : m = list_to_set ((fun i => addr i) <$> l)).
  { apply set_eq. intros s. rewrite elem_of_list_to_set, list_elem_of_fmap. split.
    - intros Hs. destruct (gw_signers x Hg m s Hm Hs) as (i & Hi & ->). exists i. split; [done|]. by apply Hl.
    - intros (i & -> & Hi). by apply Hl. }
  assert (Hnd : NoDup l) by (apply NoDup_filter, NoDup_seq).
  unfold signers_of. fold l. rewrite size_list_to_set by done. rewrite Heq, size_list_to_set; [by rewrite length_fmap|].
  apply NoDup_fmap_2_strong; [|done]. intros i j [Hi _]%Hl [Hj _]%Hl Hij. by apply addr_distinct.
Qed.

(** The election. *)
Lemma interval_created i : i < N -> (0 < Topology.int64_Seconds interval)%Z /\
  exists th, topologyProvider (E i) = hoist_topology on_env (Topology.topology_interface sha th) /\
    Topology.intervalForLeader th = interval /\ Topology.addressBytes th = me i /\
    (forall x, Topology.SortedPublicKeys th x = (Ret keys, x)) /\ (forall x, Topology.NowUnix th x = (Ret (now x), x)).
Proof.
  intros Hi. destruct (sc_created HS i Hi) as (r & d & r' & Hc).
  apply bridge_created in Hc as (name & c & th & bv & Hth & _ & Hcfg & Htop & _).
  unfold interval. rewrite Hcfg. unfold Topology.NewTopologyHandler, Topology.checkArgs in Hth. cbn in Hth.
  destruct (Z.leb_spec (Topology.int64_Seconds (seconds (IntervalForLeaderInSeconds c))) 0) as [?|Hpos]; [done|].
  split; [done|]. exists th. rewrite Htop, cn_sha. case_match; [done|]. injection Hth as <-. cbn. rewrite cn_me.
  repeat split; [apply cn_keys|apply cn_now].
Qed.

Lemma elects_leader time : 0 < N -> exists leader, forall i, elects time i = bool_decide (leader = me i).
Proof.
  intros HN. destruct (interval_created 0 HN) as [Hpos _]. destruct cn_keys_size as [Hne Hlen].
  destruct (Topology.leader_of_keys sha cn_sha_size keys time interval Hpos Hne Hlen) as (leader & _ & Hrun).
  exists leader. intros i. unfold elects. by rewrite Hrun.
Qed.

Lemma leader_at_spec time i : i < N -> elects time i = Nat.eqb (leader_at time) i.
Proof.
  intros Hi. destruct (elects_leader time ltac:(lia)) as [leader Hl]. unfold leader_at.
  destruct (List.find (elects time) (seq 0 N)) as [j|] eqn:Hf.
  - apply List.find_some in Hf as [Hj He]. apply List.in_seq in Hj. rewrite Hl in He |- *. apply bool_decide_eq_true in He as ->.
    destruct (Nat.eqb_spec j i) as [->|Hne]; [by rewrite bool_decide_eq_true_2|].
    rewrite bool_decide_eq_false_2; [done|]. intros H. apply Hne. apply cn_distinct; [lia|done|done].
  - destruct (Nat.eqb_spec N i) as [?|_]; [lia|]. apply (List.find_none _ _ Hf). apply List.in_seq. lia.
Qed.

(** A transaction that changed the contract only. *)
Lemma sent_world r x c' (P : res string -> X -> Prop) : good_world x -> sent mvx_put r x c' ->
  (forall hash x', contract_of mvx x' = c' -> eth x' = eth x -> now x' = now x -> P (Ok hash) x') ->
  match r with (Ret a, x') => P a x' | (Panic _, _) => False end.
Proof.
  intros Hg (hash & m & -> & Hm) HP. apply HP; [unfold contract_of; by rewrite (oc_get_put (OnChain := cn_chain 0))|apply cn_mvx_eth|apply cn_mvx_now].
Qed.

Lemma propose_run i x : i < N -> good_world x -> wp (ProposeTransfer (D i) (Some expected_batch)) (fun r x' => (exists hash, r = Ok hash) /\
  good_world x' /\ world_view x' = mkView true (v_signers (world_view x)) (v_performed (world_view x)) (v_leader (world_view x))) x.
Proof.
  intros Hi Hg. unfold wp. eapply sent_world; [exact Hg|apply (ProposeTransfer_run (D i) L o None None enc mvx mvx_put expected_batch h x batch_all_ok (sc_hash HS) eq_refl)|].
  intros hash x' Hc He Hn. split; [by eexists|]. split.
  - destruct Hg as [H1 H2 H3 H4 H5 H6 H7 H8 H9]. split; rewrite ?Hc, ?He; try done.
    + apply wf_add_transfer; [apply _|done|apply (sc_hash HS)].
    + cbn. intros t. rewrite lookup_insert_eq. by intros [= <-].
    + intros _. cbn. rewrite lookup_insert_eq. by eexists.
  - unfold world_view. rewrite Hc, Hn. cbn. rewrite lookup_insert_eq. by rewrite bool_decide_eq_true_2.
Qed.

(** The world without what a turn of the multisig changes. *)
Lemma proposed_spec x : v_proposed (world_view x) = true -> proposed_action (contract_of mvx x) (sent_action (action_number h)).
Proof. cbn. intros H%bool_decide_eq_true. exists h. split; [by left|done]. Qed.

Lemma sign_run i x : i < N -> good_world x -> v_proposed (world_view x) = true ->
  wp (Sign (D i) (action_number h)) (fun r x' => (exists hash, r = Ok hash) /\ good_world x' /\
    world_view x' = mkView true ({[i]} ∪ v_signers (world_view x)) (v_performed (world_view x)) (v_leader (world_view x))) x.
Proof.
  intros Hi Hg Hp. unfold wp. eapply sent_world; [exact Hg|apply (Sign_run (D i) L o None None enc mvx mvx_put _ _ (gw_wf x Hg) (proposed_spec x Hp))|].
  rewrite sent_action_number. set (c := contract_of mvx x). set (m := default ∅ (signedActionIDs c !! pretty action)).
  intros hash x' Hc He Hn. split; [by eexists|]. split.
  - pose proof (proposed_spec x Hp) as Hpa. destruct Hg as [H1 H2 H3 H4 H5 H6 H7 H8 H9]. split; rewrite ?Hc, ?He; try done.
    + apply wf_add_signature; [apply _|done|exact Hpa].
    + cbn. intros m' s. rewrite lookup_insert_eq. intros [= <-] [->%elem_of_singleton|Hs]%elem_of_union; [by exists i|].
      unfold m in Hs. destruct (signedActionIDs c !! pretty action) as [m0|] eqn:Hm; [by eapply H7|by apply elem_of_empty in Hs].
  - unfold world_view. rewrite Hc, Hn. cbn [v_proposed v_signers v_performed v_leader proposedTransfers set_signed] in *.
    unfold world_view in Hp. cbn in Hp. fold c in Hp |- *. rewrite Hp. f_equal. apply set_eq. intros j.
    rewrite elem_of_union, elem_of_singleton, !elem_of_signers. unfold signed_by. cbn [signedActionIDs set_signed].
    rewrite lookup_insert_eq, bool_decide_eq_true, elem_of_union, elem_of_singleton. unfold m.
    destruct (signedActionIDs c !! pretty action) as [m0|] eqn:Hm; cbn [default]; rewrite ?bool_decide_eq_true.
    + split; [intros [Hj [Ha|Ha]]; [left; by apply addr_distinct|by right]|]. intros [->|[Hj Ha]]; auto.
    + split; [intros [Hj [Ha|Ha]]; [left; by apply addr_distinct|by apply elem_of_empty in Ha]|]. intros [->|[Hj ?]]; auto; done.
Qed.

Lemma quorum_run x i : good_world x -> i ∈ v_signers (world_view x) ->
  (quorum_reached (contract_of mvx x) action = true <-> Q <= size (v_signers (world_view x))) /\
  exists m, signedActionIDs (contract_of mvx x) !! pretty action = Some m.
Proof.
  intros Hg Hi. cbn in Hi |- *. apply elem_of_signers in Hi as [_ Hs]. unfold signed_by in Hs. unfold quorum_reached.
  destruct (signedActionIDs (contract_of mvx x) !! pretty action) as [m|] eqn:Hm; [|done].
  split; [|by eexists]. rewrite <-(signers_size x m Hg Hm), (gw_quorum x Hg), Z.leb_le. lia.
Qed.

Lemma perform_run i x : i < N -> good_world x -> v_proposed (world_view x) = true -> i ∈ v_signers (world_view x) ->
  Q <= size (v_signers (world_view x)) -> wp (PerformAction (D i) (action_number h) (Some expected_batch)) (fun r x' =>
    (exists hash, r = Ok hash) /\ good_world x' /\
    world_view x' = mkView true (v_signers (world_view x)) true (v_leader (world_view x))) x.
Proof.
  intros Hi Hg Hp Hs Hq. destruct (quorum_run x i Hg Hs) as [Hqr [m Hm]]. pose proof (signers_size x m Hg Hm) as Hsz. unfold wp.
  eapply sent_world; [exact Hg|apply (PerformAction_run (D i) L o None None enc mvx mvx_put _ expected_batch _ m (gw_wf x Hg) eq_refl (proposed_spec x Hp) Hm)|].
  rewrite sent_action_number, (proj2 Hqr Hq). intros hash x' Hc He Hn. split; [by eexists|]. split.
  - destruct Hg as [H1 H2 H3 H4 H5 H6 H7 H8 H9]. split; rewrite ?Hc, ?He; try done.
    + eapply wf_performed_set; [done|exact Hm|]. rewrite H6, Hsz. cbn in Hq. lia.
    + intros _. cbn in Hp |- *. by apply bool_decide_eq_true in Hp.
  - unfold world_view. rewrite Hc, Hn. cbn. unfold performed. cbn. rewrite Z.eqb_refl. cbn in Hp. rewrite Hp. done.
Qed.

Lemma validator_run i : i < N -> exists bv, batchValidator (E i) = hoist_validator on_env bv /\
  forall x, val_ValidateBatch bv (Some expected_batch) x = (Ret (Ok true), x).
Proof.
  intros Hi. destruct (sc_created HS i Hi) as (r & d & r' & Hc).
  apply bridge_created in Hc as (name & c & th & bv & _ & Hbv & _ & _ & _ & _ & _ & Hb & _).
  exists bv. split; [done|]. unfold createBatchValidator, Validator.CreateBatchValidator in Hbv. rewrite (sc_validator HS) in Hbv.
  injection Hbv as <-. done.
Qed.

Lemma created_fields i : i < N -> exists name,
  multiversXClient (E i) = hoist_mx on_mvx (mx_interface (D i)) /\
  ethereumClient (E i) = hoist_eth on_eth (eth_interface (ethClient (C i)) (map_iteration (C i))) /\
  statusHandler (E i) = hoist_status (on_status name) (Status.status_interface (storer_Put (C i)) (metrics_Marshal (C i)) name (map_iteration (C i))) /\
  maxQuorumRetriesOnMultiversX (E i) = mx_MaxRetriesOnQuorumReached cfg /\ (minRetries <= mx_MaxRetriesOnQuorumReached cfg)%Z.
Proof.
  intros Hi. destruct (sc_created HS i Hi) as (r & d & r' & Hc).
  apply bridge_created in Hc as (name & c & th & bv & _ & _ & _ & _ & H1 & H2 & H3 & _ & H4 & H5). by exists name.
Qed.

(** ** Components with a state of their own *)

Section Keeps.
Context {S : Type} (proj : S -> X).

Definition keeps {A} (c : M S A) : Prop := forall s, good_world (proj s) ->
  wp c (fun _ s' => good_world (proj s') /\ world_view (proj s') = world_view (proj s)) s.

Lemma world_keeps_ret {A} (a : A) : keeps (mret a).
Proof. done. Qed.
Lemma world_keeps_gets {A} (f : S -> A) : keeps (gets f).
Proof. done. Qed.
Lemma keeps_modify f : (forall s, proj (f s) = proj s) -> keeps (modify f).
Proof. intros Hf s Hg. apply wp_modify. by rewrite Hf. Qed.
Lemma world_keeps_bind {A B} (c : M S A) (k : A -> M S B) : keeps c -> (forall a, keeps (k a)) -> keeps (mbind k c).
Proof.
  intros Hc Hk s Hg. apply wp_bind. eapply wp_mono; [by apply Hc|]. intros a s1 [Hg1 Hv1].
  eapply wp_mono; [by apply Hk|]. intros b s2 [Hg2 Hv2]. split; [done|congruence].
Qed.
Lemma keeps_zoom {A} put (c : M X A) : (forall x s, proj (put x s) = x) -> (forall x, good_world x -> quietX c x (fun _ => True)) ->
  keeps (zoom proj put c).
Proof.
  intros Hp Hc s Hg. apply wp_zoom. eapply wp_mono; [by apply Hc|]. intros a x (_ & Hg' & Hv). by rewrite !Hp.
Qed.
End Keeps.

Ltac keeps :=
  repeat first
    [ apply world_keeps_ret | apply world_keeps_gets | apply keeps_modify; done | apply world_keeps_bind; [|intros ?]
    | apply keeps_zoom; [done|intros ? ?] | case_match ].

Lemma mx_check_keeps i : keeps mx_world (mx_CheckAvailability (D i)).
Proof.
  unfold mx_CheckAvailability, GetCurrentNonce, getShardID, mx_setStatusForAvailabilityCheck, bind_ok, on_mx. keeps.
  all: try (apply quiet_aside; [done|apply cn_metric_string || apply cn_metric_int]).
  - eapply quiet_run; [done| |done]. rewrite cn_shard. unfold zoom, mbind, M_bind. cbn. by rewrite (oc_put_get (OnChain := cn_chain i)).
  - eapply quiet_run; [done| |done]. rewrite cn_status. unfold zoom, mbind, M_bind. cbn. by rewrite (oc_put_get (OnChain := cn_chain i)).
Qed.

Lemma eth_check_keeps i : keeps cl_world (EthClient.CheckClientAvailability (ethClient (C i))).
Proof.
  unfold EthClient.CheckClientAvailability, EthClient.setStatusForAvailabilityCheck, incrementRetriesAvailabilityCheck, on_world.
  rewrite cn_wrapper. cbn [cw_BlockNumber cw_status hoist_wrapper mock_wrapper]. keeps.
  all: eapply quiet_run; [done| |done]; unfold zoom; cbn; by rewrite cn_eth_get.
Qed.

Lemma metric_keeps_world i name : forall k (v : string) z,
  keeps Status.st_store (Status.SetStringMetric (storer_Put (C i)) (metrics_Marshal (C i)) name (map_iteration (C i)) k v) /\
  keeps Status.st_store (Status.SetIntMetric (storer_Put (C i)) (metrics_Marshal (C i)) name (map_iteration (C i)) k z).
Proof.
  intros k v z. unfold Status.SetStringMetric, Status.SetIntMetric, Status.persistChanges, Status.on_store. split; keeps.
  all: apply quiet_aside; [done|apply cn_put].
Qed.

(** ** The setting serves the network *)

Local Abbreviation quiet_net := (quietly good_net net_view).

Lemma quiet_mvx i {A} (c : M X A) w (R : A -> Prop) : quietX c (tn_world w) R -> quiet_net (at_relayer i A (on_mvx A (on_mx c))) w R.
Proof.
  intros H. apply wp_on_mvx. eapply wp_mono; [exact H|]. intros a x (HR & Hg & Hv) w' <-. done.
Qed.

Lemma quiet_eth i {A} (c : M X A) w (R : A -> Prop) : quietX c (tn_world w) R -> quiet_net (at_relayer i A (on_eth A (on_world c))) w R.
Proof.
  intros H. apply wp_on_eth. eapply wp_mono; [exact H|]. intros a x (HR & Hg & Hv) w' <-. done.
Qed.

Lemma quiet_env i {A} (c : M X A) w (R : A -> Prop) : quietX c (tn_world w) R -> quiet_net (at_relayer i A (on_env A c)) w R.
Proof.
  intros H. apply wp_on_env. eapply wp_mono; [exact H|]. intros a x (HR & Hg & Hv) w' <-. done.
Qed.

Lemma act_mvx i {A} (c : M X A) w (v : mview) (R : A -> Prop) :
  wp c (fun a x => R a /\ good_world x /\ world_view x = v) (tn_world w) ->
  wp (at_relayer i A (on_mvx A (on_mx c))) (fun a w' => R a /\ good_net w' /\ net_view w' = v) w.
Proof. intros H. apply wp_on_mvx. eapply wp_mono; [exact H|]. intros a x (HR & Hg & Hv) w' <-. done. Qed.

(** The interfaces of an executor the factory created, hoisted into the network. *)
Ltac mvx_op Hi Hm := destruct (created_fields _ Hi) as (? & Hm & _); cbn; rewrite Hm; cbn.
Tactic Notation "mvx_query" open_constr(run) := apply quiet_mvx; eapply quiet_run; [done|apply run|].

Lemma serves_metrics i w name (k v : string) z : good_net w ->
  quiet_net (at_relayer i _ (on_status name _
    (Status.SetIntMetric (storer_Put (C i)) (metrics_Marshal (C i)) name (map_iteration (C i)) k z))) w (fun _ => True) /\
  quiet_net (at_relayer i _ (on_status name _
    (Status.SetStringMetric (storer_Put (C i)) (metrics_Marshal (C i)) name (map_iteration (C i)) k v))) w (fun _ => True).
Proof.
  intros Hg. destruct (metric_keeps_world i name k v z) as [Hs Hz].
  split; apply wp_on_status; intros sh Hsh; (eapply wp_mono; [apply Hz || apply Hs; by rewrite Hsh|]);
    intros [] sh' [Hg' Hv'] w' Hw'; rewrite Hsh in Hv'; unfold good_net, net_view; by rewrite Hw'.
Qed.

Lemma serves_leader i w : i < N -> good_net w -> quiet_net (top_MyTurnAsLeader (topologyProvider (deps i))) w
  (fun r => r = Nat.eqb (v_leader (net_view w)) i).
Proof.
  intros Hi Hg. destruct (interval_created i Hi) as (Hpos & th & Ht & Hint & Hme & Hkeys & Hnow). cbn. rewrite Ht. cbn.
  apply quiet_env. destruct cn_keys_size as [Hne Hlen].
  destruct (Topology.leader_of_keys sha cn_sha_size keys (now (tn_world w)) interval Hpos Hne Hlen) as (leader & _ & Hrun).
  eapply quiet_run; [done|by apply Hrun|]. rewrite <-leader_at_spec by done. unfold elects. rewrite Hrun by done. by rewrite Hme.
Qed.

Lemma serves_signed i w : i < N -> good_net w -> quiet_net (mx_WasSigned (multiversXClient (deps i)) (action_number h)) w
  (fun r => r = Ok (bool_decide (i ∈ v_signers (net_view w)))).
Proof.
  intros Hi Hg. mvx_op Hi Hm. mvx_query (WasSigned_run (D i) L o None None enc mvx mvx_put). rewrite sent_action_number. f_equal.
  destruct (signed_by _ _ _) eqn:Hs; [rewrite bool_decide_eq_true_2|rewrite bool_decide_eq_false_2]; [done| |done|].
  - by apply elem_of_signers.
  - intros [_ H]%elem_of_signers. congruence.
Qed.

Lemma serves_ids i w : i < N -> good_net w ->
  quiet_net (mx_GetLastExecutedEthBatchID (multiversXClient (deps i))) w
    (fun r => exists n, r = Ok n /\ u64 (n + 1) = tb_ID expected_batch) /\
  quiet_net (mx_GetLastExecutedEthTxID (multiversXClient (deps i))) w
    (fun r => exists n, r = Ok n /\ verifyDepositNonces expected_batch n = None).
Proof.
  intros Hi Hg. mvx_op Hi Hm. pose proof (sc_n0 HS). pose proof (sc_t0 HS). split.
  - mvx_query (GetLastExecutedEthBatchID_run (D i) L o None None enc mvx mvx_put).
    exists n0. rewrite (gw_last _ Hg), i64_small by lia. split; [f_equal; lia|apply n0_u64].
  - mvx_query (GetLastExecutedEthTxID_run (D i) L o None None enc mvx mvx_put).
    exists t0. rewrite (gw_tx _ Hg), i64_small by (unfold two63 in *; lia). split; [f_equal; lia|].
    exact (proj2 (verifyDepositNonces_spec expected_batch t0) (sc_nonces HS)).
Qed.

Lemma testnet_serves : Serves N deps good_net net_view expected_batch (action_number h) Q.
Proof.
  split; [apply (sc_action HS)| |apply (sc_quorum HS)|intros i..].
  - cbn. intros H%fmap_nil_inv. by apply (sc_some HS).
  - intros Hi. destruct (created_fields i Hi) as (name & _ & _ & _ & Hm & Hmin). cbn. rewrite Hm.
    pose proof (sc_retries HS). unfold minRetries in Hmin. lia.
  - intros w k z Hi Hg. destruct (created_fields i Hi) as (name & _ & _ & Hs & _). cbn. rewrite Hs. by apply (serves_metrics i w name k "" z).
  - intros w k v Hi Hg. destruct (created_fields i Hi) as (name & _ & _ & Hs & _). cbn. rewrite Hs. by apply (serves_metrics i w name k v 0).
  - intros w Hi Hg. mvx_op Hi Hm. unfold quietly, at_relayer, on_mvx. do 2 apply wp_zoom. eapply wp_mono; [by apply mx_check_keeps|]. by intros a c [? ?].
  - intros w Hi Hg. destruct (created_fields i Hi) as (name & _ & He & _). cbn. rewrite He. cbn.
    unfold quietly, at_relayer, on_eth. do 2 apply wp_zoom. eapply wp_mono; [by apply eth_check_keeps|]. by intros a c [? ?].
  - intros w Hi Hg. by apply serves_ids.
  - intros w Hi Hg. destruct (created_fields i Hi) as (name & _ & He & _). cbn. rewrite He. cbn. apply quiet_eth.
    eapply quiet_run; [done|by apply GetBatch_run|done].
  - intros w Hi Hg. destruct (validator_run i Hi) as (bv & Hb & Hrun). cbn. rewrite Hb. cbn. apply quiet_env.
    eapply quiet_run; [done|apply Hrun|done].
  - intros w Hi Hg. by apply serves_ids.
  - intros w Hi Hg. by apply serves_leader.
  - intros w Hi Hg. mvx_op Hi Hm. by mvx_query (WasProposedTransfer_run (D i) L o None None enc mvx mvx_put _ h _ batch_all_ok (sc_hash HS)).
  - intros w Hi Hg. mvx_op Hi Hm. apply act_mvx. by apply propose_run.
  - intros w Hi Hg. mvx_op Hi Hm. by mvx_query (GetActionID_run (D i) L o None None enc mvx mvx_put _ h _ batch_all_ok (sc_hash HS)).
  - intros w Hi Hg. by apply serves_signed.
  - intros w Hi Hg Hp. mvx_op Hi Hm. apply act_mvx. by apply sign_run.
  - intros w Hi Hg. mvx_op Hi Hm. mvx_query (QuorumReached_run (D i) L o None None enc mvx mvx_put). rewrite sent_action_number.
    eexists. split; [done|]. intros Hs. apply (quorum_run _ i Hg Hs).
  - intros w Hi Hg. mvx_op Hi Hm. by mvx_query (WasExecuted_run (D i) L o None None enc mvx mvx_put).
  - intros w Hi Hg Hp Hs Hq. mvx_op Hi Hm. apply act_mvx. by apply perform_run.
Qed.

(** ** The network from its start *)

(** Only the clock moves between turns. *)
Definition clock (time : nat -> Z) (t : nat) (w : testnet X) : testnet X :=
  mkTestnet (tn_locals w) (set_now (time t) (tn_world w)).

(** Every relayer's machine as the factory creates it. *)
Definition first_machine (w : testnet X) (i : nat) : smState (execState (testnet X)) :=
  match createEthereumToMultiversXStateMachine (deps i) (initExec w) with
  | Ok (_, m) => m
  | Err _ => mkSm None (initExec w)
  end.
Definition first_network (w : testnet X) : network := mkNet (first_machine w <$> seq 0 N) w.

(** The chains before the first turn: nothing proposed, signed or performed. *)
Record initial (x : X) : Prop := {
  in_eth : eth x = eth0;
  in_blank : blank (contract_of mvx x);
  in_last : lastExecutedEthBatchId (contract_of mvx x) = n0;
  in_tx : lastExecutedEthTxId (contract_of mvx x) = t0;
  in_tokens : tokens (contract_of mvx x) = toks;
  in_quorum : quorum (contract_of mvx x) = Z.of_nat Q
}.

Lemma initial_good x : initial x -> good_world x.
Proof.
  intros [H1 H2 H3 H4 H5 H6]. pose proof (blank_wf L _ H2). destruct H2 as (E1 & E2 & E3 & E4). split; try done.
  - intros m s. rewrite E3. by rewrite lookup_empty.
  - intros t. rewrite E2. by rewrite lookup_empty.
  - rewrite E4. done.
Qed.

Lemma clock_moves time : clock_only good_net net_view (clock time) (fun t => leader_at (time t)).
Proof.
  intros t w Hg. destruct (cn_clock (time t) (tn_world w)) as (Hn & Hm & He). unfold good_net, net_view, clock in *. cbn.
  assert (Hc : contract_of mvx (set_now (time t) (tn_world w)) = contract_of mvx (tn_world w)) by (unfold contract_of; by rewrite Hm).
  destruct Hg as [H1 H2 H3 H4 H5 H6 H7 H8 H9]. split; [split; rewrite ?Hc, ?He; done|]. unfold world_view. by rewrite Hc, Hn.
Qed.

Lemma first_ok w : good_net w -> net_ok N deps good_net net_view expected_batch (action_number h) Q (first_network w).
Proof.
  intros Hg. split; [done|]. split; [cbn; by rewrite length_fmap, length_seq|]. intros i m Hm. cbn in Hm.
  apply list_lookup_fmap_Some in Hm as (j & -> & Hj). apply lookup_seq in Hj as [-> Hi]. cbn.
  unfold first_machine. rewrite EthToMvx_machine. eexists. split; [done|]. split; [left|]. constructor.
Qed.

Lemma performed_batch x : good_world x -> v_performed (world_view x) = true ->
  performedAction (contract_of mvx x) = Some action /\ proposedTransfers (contract_of mvx x) !! h = Some (transfer_of expected_batch).
Proof.
  intros Hg Hp. cbn in Hp. unfold performed in Hp. destruct (performedAction (contract_of mvx x)) as [a|] eqn:Ha; [|done].
  apply Z.eqb_eq in Hp as <-. split; [done|]. destruct (gw_performed x Hg Ha) as [t Ht]. by rewrite Ht, (gw_transfer x Hg t Ht).
Qed.

(** C4. The relayers of an integration test finish the batch: in a network of relayers that the
    factory assembled over the two chains, from a contract where nothing was proposed yet, no
    turn of any relayer panics or returns an error, and if every relayer gets a turn while it is
    the elected leader again and again, there is a turn after which the contract has performed
    the action of the transfer that holds exactly the deposits of the Ethereum batch, with their
    tokens converted, and it stays so. *)
Theorem testnet_performs_batch (locals : nat -> local) (x0 : X) (sched : nat -> nat) (time : nat -> Z) :
  0 < N -> initial x0 ->
  (forall i, i < N -> forall t, exists t', t <= t' /\ sched t' = i /\ leader_at (time t') = i) ->
  let net := net_at deps sched (clock time) (first_network (mkTestnet locals x0)) in
  (forall t, fst (tick deps (sched t) (before (clock time) t (net t))) = Ret None) /\
  exists t, forall t', t <= t' ->
    performedAction (contract (mvx (tn_world (shared (net t'))))) = Some (action_of h) /\
    proposedTransfers (contract (mvx (tn_world (shared (net t'))))) !! h = Some (transfer_of expected_batch).
Proof.
  intros HN Hx Hfair net. pose proof testnet_serves as Hserves. pose proof (clock_moves time) as Hclock.
  assert (Hok : net_ok N deps good_net net_view expected_batch (action_number h) Q (first_network (mkTestnet locals x0)))
    by by apply first_ok, initial_good.
  split.
  - intros t. destruct (net_at_step N deps good_net net_view _ _ Q sched _ _ _ Hclock Hok t) as [_ (n' & Ht & _)].
    unfold net. by rewrite Ht.
  - destruct (eventually_performed N deps good_net net_view _ _ Q sched _ _ _ Hclock Hfair Hok HN) as [t Ht].
    exists t. intros t' Hle. destruct (net_at_step N deps good_net net_view _ _ Q sched _ _ _ Hclock Hok t') as [[Hg _] _].
    by apply performed_batch; [|apply Ht].
Qed.

End Setting.
End Testnet.
