(* ===== verification/TestnetDemo.v ===== *)
(** * Two relayers and one batch

    A concrete network for [Testnet]: two relayers, a quorum of two, one deposit.  It shows that
    the setting can hold and runs it. *)
From S2P Require Import Prelude Go Text Common Batch Interfaces Executor StateMachine StepsEthToMvx Machines Hoist Signatures Topology EthClient EthClientFacts MvxClient MvxClientFacts Status BatchValidator MvxChain MvxChainFacts EthChain ClientOnChain Liveness Relayer Testnet.
Import EthClient MvxClient MvxChain MvxChainFacts EthChain ClientOnChain Relayer Liveness Testnet.
Open Scope go_scope.

Module TestnetDemo.

Record demo_world := mkDemo { dw_mvx : MultiversXChainMock; dw_eth : EthereumChainMock; dw_now : Z }.
Definition dw_mvx_put (m : MultiversXChainMock) (x : demo_world) : demo_world := mkDemo m (dw_eth x) (dw_now x).
Definition dw_eth_put (m : EthereumChainMock) (x : demo_world) : demo_world := mkDemo (dw_mvx x) m (dw_now x).
Definition dw_set_now (z : Z) (x : demo_world) : demo_world := mkDemo (dw_mvx x) (dw_eth x) z.

(** Eight bytes of the batch number stand for a hash. *)
Definition demo_lib : testLib := {|
  CalculateHash_status s := Ok (be_bytes 8 (ps_BatchId s));
  CalculateHash_transfer t := Ok (be_bytes 8 (pt_BatchId t));
  CalculateHash_tx tx := Ok (tx_Data tx);
  HexToAddress s := match hex_DecodeString s with Ok b => b | Err _ => [] end;
  Address_String := hex_encode;
  AddressAsBech32String := hex_encode;
  NewAddressFromBech32String s := hex_DecodeString s |}.

#[export] Instance demo_hash_laws : HashLaws demo_lib.
Proof. split; intros x b H; apply Ok_inj in H; by rewrite <-H, be_bytes_length. Qed.

Definition demo_enc (a : vmArg) : bytes :=
  match a with ArgBytes b | ArgAddress b => b | ArgInt64 z | ArgBigInt (Some z) => big_Bytes z | ArgBigInt None => [] end.

Definition demo_me (i : nat) : bytes := [byte_of_Z (Z.of_nat i + 1)].
Definition quiet_status {X} : StatusHandler X :=
  {| sh_SetIntMetric _ _ := mret tt; sh_AddIntMetric _ _ := mret tt; sh_SetStringMetric _ _ := mret tt |}.

Definition demo_mx (i : nat) : mxDeps demo_world := {|
  ExecuteVMQuery r := zoom dw_mvx dw_mvx_put (v ← chain_ExecuteVMQuery demo_lib (Some r); mret (Ok v));
  GetNetworkStatus s := zoom dw_mvx dw_mvx_put (n ← chain_GetNetworkStatus s; mret (Ok n));
  GetShardOfAddress a := zoom dw_mvx dw_mvx_put (n ← chain_GetShardOfAddress a; mret (Ok n));
  GetNetworkConfig := zoom dw_mvx dw_mvx_put (n ← chain_GetNetworkConfig; mret (Ok n));
  GetNonce := mret (Ok 0%Z);
  SendTransaction tx := zoom dw_mvx dw_mvx_put (h ← chain_SendTransaction demo_lib some_order None None (Some tx); mret (Ok h));
  tx_IsWhitelisted _ := mret true;
  ToVmValueRequest b := Ok (mkRequest "multisig" (bld_function b) "relayer" (arg_texts demo_enc b));
  ToDataBytes b := Ok (bytes_of_string (join_with "@" (bld_function b :: arg_texts demo_enc b)));
  json_tx tx := Ok (tx_Data tx); ed25519_Sign m := Ok m;
  mx_ConvertToken t := mret (Ok t); mx_status := quiet_status;
  mx_relayer := demo_me i; relayer_bech32 := hex_encode (demo_me i); multisig_bech32 := "multisig";
  mx_converter := {| ToBech32String := hex_encode |};
  gasMapConfig := mkGasMap 1 2 3 4 5 6 7; mx_allowDelta := 2 |}.

#[export] Instance demo_on_chain i : OnChain (demo_mx i) demo_lib some_order None None demo_enc dw_mvx dw_mvx_put.
Proof.
  split; try done.
  - by intros [].
  - intros x. by exists 0%Z.
  - intros b _. by eexists.
  - intros z. apply be_val_big.
  - intros z. apply be_val_big.
  - intros tx. by eexists.
  - intros b. by eexists.
  - intros tx. by eexists.
  - apply hex_decode_encode.
Qed.

Definition demo_eth (i : nat) : clientDeps demo_world string := {|
  clientWrapper := hoist_wrapper (fun A => zoom dw_eth dw_eth_put) (mock_wrapper (fun _ => Ok []) hex_encode None);
  erc20_BalanceOf _ _ := mret (Ok 0%Z);
  addressConverter := {| ToBech32String := hex_encode |};
  BroadcastSignature _ _ := mret tt;
  ConvertToken := erc20ToMultiversX_ConvertToken (demo_mx i);
  signatureHolder := SignatureHolder.disabledSignaturesHolder;
  safeContractAddress := []; GetCurrentGasPrice := mret (Ok 1%Z);
  transferGasLimitBase := 1; transferGasLimitForEach := 1; allowDelta := 2; relayerAddress := demo_me i;
  lib := lib EthClientFacts.toy_client |}.

(** The seed itself in the place of its hash: the lead goes round. *)
Definition demo_sha (b : bytes) : bytes := b ++ replicate 8 Byte.x00.

Definition demo_components (i : nat) : components demo_world string := {|
  ethClient := demo_eth i; multiversXClient_ := demo_mx i;
  roleProvider_SortedPublicKeys := mret [demo_me 0; demo_me 1]; timer_NowUnix := gets dw_now;
  multiversXRelayerAddress := demo_me i; sha256 := demo_sha; statusStorer := true;
  storer_Put _ _ := mret None; storer_Get k := mret (Err (ErrExternal "key not found"));
  metrics_Marshal _ := Ok []; metrics_Unmarshal _ := Err (ErrExternal "malformed");
  http_NewRequest _ := None; http_Do _ _ := mret (Err (ErrExternal "no route to host"));
  json_Valid _ := Ok true; json_BadRequestMessage _ := Ok ""; map_iteration := some_order;
  log_level _ := "DEBUG"; runtime_select _ := mret true |}.

Abbreviation demo_token := (replicate 20 Byte.x0a).
Definition demo_deposit : contract_Deposit := mkCDeposit 8 demo_token 100 [Byte.x01] [Byte.x02] 0.

(** The chains, set up by their own operations. *)
Definition demo_eth0 : EthereumChainMock :=
  snd ((AddBatch (mkCBatch 1 0 0 0);; AddDepositToBatch 1 demo_deposit) NewEthereumChainMock).
Definition demo_mvx0 : MultiversXChainMock :=
  snd ((AddTokensPair demo_token "TKN-01";; SetLastExecutedEthTxId 7;; MvxChain.SetQuorum 2) NewMultiversXChainMock).
Definition demo_start : demo_world := mkDemo demo_mvx0 demo_eth0 0.

#[export] Instance demo_connected :
  Connected 2 demo_components demo_lib some_order demo_enc dw_mvx dw_mvx_put dw_eth dw_eth_put dw_now dw_set_now
    (fun _ => Ok []) hex_encode None [demo_me 0; demo_me 1] {| ToBech32String := hex_encode |} demo_sha.
Proof.
  split; try done; try (intros; apply _); try (by intros []); try (intros ? ? ? x; by eexists _, x).
  - intros i j Hi Hj. destruct i as [|[|i]], j as [|[|j]]; try lia; intros H; vm_compute in H; discriminate H.
  - intros b. unfold demo_sha. rewrite length_app, length_replicate. lia.
  - intros a _. cbn. by rewrite hex_decode_encode.
Qed.

(** The executors the factory returns for these components. *)
Definition demo_topology (i : nat) : Topology.topologyHandler demo_world :=
  Topology.handler_of (mret [demo_me 0; demo_me 1]) (gets dw_now) (seconds 120) (demo_me i).
Definition demo_name : string := Chain.EvmCompatibleChainToMultiversXName Chain.Ethereum.

Definition demo_executor (i : nat) : executorDeps (relayer demo_world) := {|
  topologyProvider := hoist_topology on_env (Topology.topology_interface demo_sha (demo_topology i));
  multiversXClient := hoist_mx on_mvx (mx_interface (demo_mx i));
  ethereumClient := hoist_eth on_eth (eth_interface (demo_eth i) some_order);
  timeForWaitOnEthereum := seconds 20;
  statusHandler := hoist_status (on_status demo_name)
    (Status.status_interface (fun _ _ => mret None) (fun _ => Ok []) demo_name some_order);
  sigsHolder := hoist_holder on_env SignatureHolder.disabledSignaturesHolder;
  batchValidator := hoist_validator on_env {| val_ValidateBatch _ := mret (Ok true) |};
  maxQuorumRetriesOnEthereum := 3; maxQuorumRetriesOnMultiversX := 3; maxRetriesOnWasProposed := 3;
  level_String _ := "DEBUG"; xd_select d := on_env _ (mret true) |}.

Definition demo_relayer : relayer demo_world := mkRelayer 0 0 false 0 0 0 ∅ demo_start.

Lemma demo_status i : exists r', createStatusHandler (demo_components i) demo_name demo_relayer = (Ret (Ok tt), r').
Proof.
  destruct (createStatusHandler (demo_components i) demo_name demo_relayer) as [o r'] eqn:H. exists r'.
  assert (Hok : match createStatusHandler (demo_components i) demo_name demo_relayer with (Ret (Ok _), _) => true | _ => false end = true)
    by (vm_compute; reflexivity).
  rewrite H in Hok. by destruct o as [[[]|]|].
Qed.

Lemma demo_created i : exists r d r',
  createEthereumToMultiversXBridge (demo_components i) toy_config r = (Ret (Ok (d, demo_executor i)), r').
Proof.
  exists demo_relayer. destruct (demo_status i) as [r' Hr]. exists (millis 1000), r'.
  unfold createEthereumToMultiversXBridge, createBridge. change (cfg_Chain toy_config) with Chain.Ethereum. fold demo_name.
  assert (Hc : cfg_StateMachine toy_config !! demo_name = Some (mkSmConfig 1000 120)) by (vm_compute; reflexivity).
  rewrite Hc. change (Topology.NewTopologyHandler (topologyArgs (demo_components i) (mkSmConfig 1000 120)))
    with (Ok (Some (demo_topology i))).
  unfold bind_ok, mbind, M_bind. rewrite Hr. reflexivity.
Qed.

Definition demo_hash : string := string_of_bytes (be_bytes 8 1).

Lemma demo_scenario :
  scenario 2 demo_components toy_config demo_executor demo_lib {| ToBech32String := hex_encode |} demo_eth0
    (tokens (contract demo_mvx0)) 0 7 2 (mkCBatch 1 0 0 1) [demo_deposit] demo_hash.
Proof.
  split; try done.
  - intros d ->%list_elem_of_singleton. by vm_compute.
  - intros i n Hn. destruct i as [|i]; [|by destruct i]. injection Hn as <-. by vm_compute.
  - intros i _. apply demo_created.
Qed.

(** The two relayers take turns, the clock shows the interval of the one whose turn it is. *)
Definition demo_sched (t : nat) : nat := Nat.modulo t 2.
Definition demo_time (t : nat) : Z := (120 * Z.of_nat (Nat.modulo t 2))%Z.

Lemma demo_fair i : i < 2 -> forall t, exists t', t <= t' /\ demo_sched t' = i /\
  leader_at 2 demo_components toy_config [demo_me 0; demo_me 1] demo_sha (demo_time t') = i.
Proof.
  intros Hi t. exists (t * 2 + i). assert (Hm : Nat.modulo (t * 2 + i) 2 = i).
  { rewrite Nat.add_comm, Nat.Div0.mod_add. by apply Nat.mod_small. }
  unfold demo_sched, demo_time. rewrite Hm. split; [lia|]. split; [done|]. destruct i as [|[|i]]; [by vm_compute..|lia].
Qed.

Definition demo_local : local := mkRelayer 0 0 false 0 0 0 ∅ tt.
Definition demo_net : nat -> network :=
  net_at (deps demo_executor) demo_sched (clock dw_set_now demo_time) (first_network 2 demo_executor (mkTestnet (fun _ => demo_local) demo_start)).

Lemma testnet_performs_batch_witness :
  (forall t, fst (tick (deps demo_executor) (demo_sched t) (before (clock dw_set_now demo_time) t (demo_net t))) = Ret None) /\
  exists t, forall t', t <= t' ->
    performedAction (contract (dw_mvx (tn_world (shared (demo_net t'))))) = Some (action_of demo_hash) /\
    proposedTransfers (contract (dw_mvx (tn_world (shared (demo_net t'))))) !! demo_hash =
      Some (transfer_of (expected_batch {| ToBech32String := hex_encode |} (tokens (contract demo_mvx0)) 0 [demo_deposit])).
Proof.
  apply (testnet_performs_batch 2 demo_components toy_config demo_executor demo_lib some_order demo_enc dw_mvx dw_mvx_put dw_eth dw_eth_put
    dw_now dw_set_now (fun _ => Ok []) hex_encode None [demo_me 0; demo_me 1] {| ToBech32String := hex_encode |} demo_sha demo_eth0
    (tokens (contract demo_mvx0)) 0 7 2 (mkCBatch 1 0 0 1) [demo_deposit] demo_hash demo_scenario (fun _ => demo_local) demo_start);
    [lia|by split|exact demo_fair].
Defined.

(** The run itself: after eleven turns the action was performed, with both signatures. *)
Example demo_run :
  (fun c => (performedAction c, elements <$> signedActionIDs c !! "1", pt_Transfers <$> proposedTransfers c !! demo_hash))
    (contract (dw_mvx (tn_world (shared (demo_net 11))))) =
  (Some 1%Z, Some ["01"; "02"], Some [mkTransfer [Byte.x01] [Byte.x02] "544b4e2d3031" 100 8]).
Proof. vm_compute. reflexivity. Qed.

(** ** The client over the contract *)

Definition demo_batch : TransferBatch := expected_batch {| ToBech32String := hex_encode |} (tokens (contract demo_mvx0)) 0 [demo_deposit].

Lemma proposal_round_trip_witness :
  exists hash x1, ProposeTransfer (demo_mx 0) (Some demo_batch) demo_start = (Ret (Ok hash), x1) /\
    WasProposedTransfer (demo_mx 1) (Some demo_batch) x1 = (Ret (Ok true), x1) /\
    GetActionIDForProposeTransfer (demo_mx 1) (Some demo_batch) x1 = (Ret (Ok (action_number demo_hash)), x1) /\
    exists hash' x2, Sign (demo_mx 1) (action_number demo_hash) x1 = (Ret (Ok hash'), x2) /\
      WasSigned (demo_mx 1) (action_number demo_hash) x2 = (Ret (Ok true), x2).
Proof.
  apply (proposal_round_trip (demo_mx 0) (demo_mx 1) demo_lib some_order None demo_enc dw_mvx dw_mvx_put); [|by vm_compute|by apply blank_wf].
  constructor; [|constructor]. repeat split; done || by eexists.
Defined.

(** One deposit waits on MultiversX. *)
Definition demo_waiting : demo_world :=
  mkDemo (snd (SetPendingBatch (Some (mkPending 1 [mkMxDeposit [Byte.x01] demo_token "TKN-01" 5 1])) demo_mvx0)) demo_eth0 0.

Lemma mock_pending_refused_witness :
  GetPending (demo_mx 0) demo_waiting =
  (Ret (Err (Errorf "%w, got %d argument(s)" errInvalidNumberOfArguments [GInt 7])), demo_waiting).
Proof.
  exact (proj2 (mock_pending_refused (demo_mx 0) demo_lib some_order None None demo_enc dw_mvx dw_mvx_put demo_waiting)
    (mkPending 1 [mkMxDeposit [Byte.x01] demo_token "TKN-01" 5 1]) eq_refl ltac:(vm_compute; discriminate)).
Defined.

End TestnetDemo.
