(* ===== verification/TxBatch.v ===== *)
(** * Batches of transactions in the MultiversX contracts

    Models [src/rs/common/tx-batch-module] with the types of [src/rs/common/transaction]: the
    queue of batches in which the safe keeps outgoing transactions and the transfer contract
    the refunds.  A call that fails changes nothing ([Sol]); the contracts are compiled with
    overflow checks, so arithmetic on [u64] is [checked].  The storage mapper of a batch is the
    list of its transactions. *)
From S2P Require Import Prelude Text Solidity.

Module TxBatch.

Definition MIN_BLOCKS_FOR_FINALITY : Z := 10.
Definition TX_MULTIRESULT_NR_FIELDS : nat := 6.

Record Transaction := mkTransaction {
  tx_block_nonce : Z;
  tx_nonce : Z;
  tx_from : bytes;
  tx_to : bytes;
  tx_token : bytes;
  tx_amount : Z;
  tx_service_fee : Z;
  is_refund_tx : bool
}.

(** [into_multiresult], each value in its top-level encoding: numbers are big-endian without
    leading zeros. *)
Definition into_multiresult (t : Transaction) : list bytes :=
  [big_Bytes (tx_block_nonce t); big_Bytes (tx_nonce t); tx_from t; tx_to t; tx_token t; big_Bytes (tx_amount t);
   big_Bytes (tx_service_fee t)].

(** [Transaction::from] of the seven values. *)
Definition from_multiresult (t : Transaction) : Transaction :=
  mkTransaction (tx_block_nonce t) (tx_nonce t) (tx_from t) (tx_to t) (tx_token t) (tx_amount t) (tx_service_fee t) false.

Inductive TransactionStatus := StNone | StPending | StInProgress | StExecuted | StRejected.

#[global] Instance TransactionStatus_eq_dec : EqDecision TransactionStatus.
Proof. solve_decision. Defined.
#[global] Instance Transaction_eq_dec : EqDecision Transaction.
Proof. solve_decision. Defined.

Record batches := mkBatches {
  first_batch_id : Z;
  last_batch_id : Z;
  pending_batches : gmap Z (list Transaction);
  last_tx_nonce : Z;
  max_tx_batch_size : Z;
  max_tx_batch_block_duration : Z
}.

Definition pending (b : batches) (id : Z) : list Transaction := default [] (pending_batches b !! id).

Abbreviation B := (Sol batches).

(** ** Settings *)

Definition set_max_tx_batch_size (new_max_tx_batch_size : Z) : B unit :=
  require (0 <? new_max_tx_batch_size)%Z "Max tx batch size must be more than 0";;
  write (fun b => mkBatches (first_batch_id b) (last_batch_id b) (pending_batches b) (last_tx_nonce b) new_max_tx_batch_size
                    (max_tx_batch_block_duration b)).

Definition set_max_tx_batch_block_duration (new_max_tx_batch_block_duration : Z) : B unit :=
  require (0 <? new_max_tx_batch_block_duration)%Z "Max tx batch block duration must be more than 0";;
  write (fun b => mkBatches (first_batch_id b) (last_batch_id b) (pending_batches b) (last_tx_nonce b) (max_tx_batch_size b)
                    new_max_tx_batch_block_duration).

(** ** Full and final batches *)

Definition is_batch_full (current_block_nonce : Z) (b : batches) (tx_batch : list Transaction) (batch_id first_id : Z) : bool :=
  match tx_batch with
  | [] => false
  | first_tx :: _ =>
      if (Z.of_nat (length tx_batch) =? max_tx_batch_size b)%Z then true
      else if (first_id <? batch_id)%Z then false
      else if (current_block_nonce <? tx_block_nonce first_tx)%Z then false
      else (max_tx_batch_block_duration b <=? current_block_nonce - tx_block_nonce first_tx)%Z
  end.

Definition is_batch_final (current_block : Z) (tx_batch : list Transaction) : bool :=
  match last tx_batch with
  | None => false
  | Some last_tx =>
      if (current_block <? tx_block_nonce last_tx)%Z then false
      else (MIN_BLOCKS_FOR_FINALITY <? current_block - tx_block_nonce last_tx)%Z
  end.

(** ** Views *)

Definition get_current_tx_batch (now : Z) (b : batches) : option (Z * list Transaction) :=
  let first_id := first_batch_id b in
  let first_batch := pending b first_id in
  if is_batch_full now b first_batch first_id first_id && is_batch_final now first_batch then Some (first_id, first_batch) else None.

Definition get_batch (b : batches) (batch_id : Z) : option (Z * list Transaction) :=
  match pending b batch_id with [] => None | l => Some (batch_id, l) end.

Definition get_first_batch_any_status (b : batches) : option (Z * list Transaction) := get_batch b (first_batch_id b).

Inductive BatchStatus :=
  | AlreadyProcessed
  | Empty
  | PartiallyFull (end_block_nonce : Z) (tx_ids : list Z)
  | Full
  | WaitingForSignatures.

Definition get_batch_status (now : Z) (batch_id : Z) : B BatchStatus :=
  b ← view id;
  let first_id := first_batch_id b in
  if (batch_id <? first_id)%Z then mret AlreadyProcessed
  else
    match pending b batch_id with
    | [] => mret Empty
    | first_tx :: _ as tx_batch =>
        if is_batch_full now b tx_batch batch_id first_id
        then mret (if (batch_id =? first_id)%Z then WaitingForSignatures else Full)
        else
          end_block_nonce ← checked 64 (tx_block_nonce first_tx + max_tx_batch_block_duration b);
          mret (PartiallyFull end_block_nonce (tx_nonce <$> tx_batch))
    end.

(** ** Changes *)

Definition push (id : Z) (t : Transaction) (b : batches) : batches :=
  mkBatches (first_batch_id b) (last_batch_id b) (<[id := pending b id ++ [t]]> (pending_batches b)) (last_tx_nonce b)
    (max_tx_batch_size b) (max_tx_batch_block_duration b).

Definition set_last_batch_id (id : Z) (b : batches) : batches :=
  mkBatches (first_batch_id b) id (pending_batches b) (last_tx_nonce b) (max_tx_batch_size b) (max_tx_batch_block_duration b).

Definition create_new_batch (t : Transaction) : B Z :=
  last_id ← view last_batch_id;
  new_batch_id ← checked 64 (last_id + 1);
  write (push new_batch_id t);;
  write (set_last_batch_id new_batch_id);;
  mret new_batch_id.

Definition add_to_batch (now : Z) (t : Transaction) : B Z :=
  b ← view id;
  let last_id := last_batch_id b in
  if is_batch_full now b (pending b last_id) last_id (first_batch_id b)
  then create_new_batch t
  else write (push last_id t);; mret last_id.

(** The loop of [add_multiple_tx_to_batch]: the number of the last batch is a local variable. *)
Fixpoint add_loop (now first_id last_id : Z) (transactions : list Transaction) : B (list Z) :=
  match transactions with
  | [] => mret []
  | t :: rest =>
      b ← view id;
      new_id ← (if is_batch_full now b (pending b last_id) last_id first_id then create_new_batch t
                else write (push last_id t);; mret last_id);
      ids ← add_loop now first_id new_id rest;
      mret (new_id :: ids)
  end.

Definition add_multiple_tx_to_batch (now : Z) (transactions : list Transaction) : B (list Z) :=
  match transactions with
  | [] => mret []
  | _ =>
      first_id ← view first_batch_id;
      last_id ← view last_batch_id;
      add_loop now first_id last_id transactions
  end.

Definition clear_first_batch : B unit :=
  first_id ← view first_batch_id;
  new_first_batch_id ← checked 64 (first_id + 1);
  write (fun b => mkBatches new_first_batch_id (if (last_batch_id b =? first_id)%Z then new_first_batch_id else last_batch_id b)
    (delete first_id (pending_batches b)) (last_tx_nonce b) (max_tx_batch_size b) (max_tx_batch_block_duration b)).

Definition get_and_save_next_tx_id : B Z :=
  n ← view last_tx_nonce;
  n' ← checked 64 (n + 1);
  write (fun b => mkBatches (first_batch_id b) (last_batch_id b) (pending_batches b) n' (max_tx_batch_size b)
                    (max_tx_batch_block_duration b));;
  mret n'.

End TxBatch.
