(* ===== verification/TxBatchFacts.v ===== *)
(** * The queue of batches

    Calls whose outcomes are related to the state before them, composed step by step; then the
    batches of [TxBatch] as a queue: transactions are added at its end, processing a batch takes
    the first ones, and a batch that is served does not change until it is processed. *)
From S2P Require Import Prelude Text Solidity TxBatch.
Import TxBatch.

(** ** Relating the states around a call *)

Definition related {S A} (R : S -> S -> Prop) (c : Sol S A) : Prop := forall s a s', c s = Done a s' -> R s s'.

Section Related.
Context {S : Type} (R : S -> S -> Prop) `{!PreOrder R}.

Lemma related_ret {A} (a : A) : related R (mret (M := Sol S) a).
Proof. by intros s x s' [_ ->]%mret_inv. Qed.
Lemma related_bind {A B} (c : Sol S A) (k : A -> Sol S B) : related R c -> (forall a, related R (k a)) -> related R (mbind k c).
Proof. intros Hc Hk s b s' (a & s1 & H1 & H2)%sol_bind_inv. transitivity s1; [by eapply Hc|by eapply Hk]. Qed.
Lemma related_view {A} (f : S -> A) : related R (view f).
Proof. by intros s x s' [_ ->]%view_inv. Qed.
Lemma related_require b reason : related R (require b reason).
Proof. by intros s x s' [_ ->]%require_inv. Qed.
Lemma related_revert {A} reason : related R (revert (A := A) reason).
Proof. by intros s x s' [=]. Qed.
Lemma related_checked w z : related R (checked w z).
Proof. by intros s x s' (_ & -> & _)%checked_inv. Qed.
Lemma related_write (f : S -> S) : (forall s, R s (f s)) -> related R (write f).
Proof. by intros H s x s' ->%write_inv. Qed.
Lemma related_at_part {P A} (Q : P -> P -> Prop) (get : S -> P) put (c : Sol P A) :
  related Q c -> (forall s p, Q (get s) p -> R s (put p s)) -> related R (at_part get put c).
Proof. intros Hc Hp s a s' (p & H & ->)%at_part_inv. by apply Hp, (Hc _ a). Qed.
End Related.

(** A part of the state that a call does not change. *)
Definition same {S X} (f : S -> X) (s s' : S) : Prop := f s' = f s.
#[export] Instance same_preorder {S X} (f : S -> X) : PreOrder (same f).
Proof. split; unfold same; [done|congruence]. Qed.

Lemma related_true {S A} (c : Sol S A) : related (fun _ _ => True) c.
Proof. done. Qed.

Ltac related_step :=
  lazymatch goal with
  | |- related _ (mret _) => apply related_ret
  | |- related _ (mbind _ _) => apply related_bind; [| |intros ?]
  | |- related _ (view _) => apply related_view
  | |- related _ (require _ _) => apply related_require
  | |- related _ (revert _) => apply related_revert
  | |- related _ (checked _ _) => apply related_checked
  | |- related _ (write _) => apply related_write; intros ?
  | |- related _ (match ?x with _ => _ end) => destruct x
  | |- PreOrder _ => apply _
  end.
Ltac related := repeat related_step; try done.

(** ** The queue *)

Record batch_wf (b : batches) : Prop := {
  bw_order : (first_batch_id b <= last_batch_id b)%Z;
  bw_beyond : forall id, (last_batch_id b < id)%Z -> pending_batches b !! id = None
}.

Definition ids_from (first last : Z) : list Z := seqZ first (last - first + 1).
Definition queue (b : batches) : list Transaction := concat (pending b <$> ids_from (first_batch_id b) (last_batch_id b)).

Lemma ids_from_snoc f l : (f <= l)%Z -> ids_from f l = ids_from f (l - 1) ++ [l].
Proof.
  intros H. unfold ids_from. replace (l - f + 1)%Z with ((l - 1 - f + 1) + 1)%Z by lia.
  rewrite seqZ_app by lia. f_equal. rewrite seqZ_cons, (seqZ_nil _ (Z.pred 1)) by lia. f_equal. lia.
Qed.
Lemma ids_from_cons f l : (f <= l)%Z -> ids_from f l = f :: ids_from (f + 1) l.
Proof. intros H. unfold ids_from. rewrite seqZ_cons by lia. unfold Z.succ. do 2 f_equal; lia. Qed.
Lemma elem_of_ids_from f l i : i ∈ ids_from f l <-> (f <= i <= l)%Z.
Proof. unfold ids_from. rewrite elem_of_seqZ. lia. Qed.

Lemma pending_ext (b b' : batches) (l : list Z) : (forall i, i ∈ l -> pending b' i = pending b i) -> pending b' <$> l = pending b <$> l.
Proof.
  intros H. induction l as [|i l IH]; [done|]. cbn. f_equal; [apply H; set_solver|]. apply IH. intros j Hj. apply H. set_solver.
Qed.

Lemma pending_push_eq id t b : pending (push id t b) id = pending b id ++ [t].
Proof. unfold pending at 1, push. cbn. by rewrite lookup_insert_eq. Qed.
Lemma pending_push_ne id t b i : i <> id -> pending (push id t b) i = pending b i.
Proof. intros H. unfold pending, push. cbn. by rewrite lookup_insert_ne. Qed.

(** ** Adding *)

(** How batches change when [ts] is added at the time [now]. *)
Record grown (now : Z) (ts : list Transaction) (b b' : batches) : Prop := {
  gr_wf : batch_wf b -> batch_wf b';
  gr_first : first_batch_id b' = first_batch_id b;
  gr_size : max_tx_batch_size b' = max_tx_batch_size b;
  gr_duration : max_tx_batch_block_duration b' = max_tx_batch_block_duration b;
  gr_queue : batch_wf b -> queue b' = queue b ++ ts;
  gr_served : batch_wf b -> forall r, get_current_tx_batch now b = Some r -> get_current_tx_batch now b' = Some r
}.

Lemma served_inv now b r : get_current_tx_batch now b = Some r ->
  is_batch_full now b (pending b (first_batch_id b)) (first_batch_id b) (first_batch_id b) = true /\
  is_batch_final now (pending b (first_batch_id b)) = true /\ r = (first_batch_id b, pending b (first_batch_id b)).
Proof.
  unfold get_current_tx_batch. destruct (is_batch_full _ _ _ _ _), (is_batch_final _ _); cbn; try done. by intros [= <-].
Qed.

Lemma served_intro now b :
  is_batch_full now b (pending b (first_batch_id b)) (first_batch_id b) (first_batch_id b) = true ->
  is_batch_final now (pending b (first_batch_id b)) = true -> get_current_tx_batch now b = Some (first_batch_id b, pending b (first_batch_id b)).
Proof. unfold get_current_tx_batch. by intros -> ->. Qed.

(** Fullness depends on the settings and the transactions. *)
Lemma is_batch_full_ext now b b' l id first_id :
  max_tx_batch_size b' = max_tx_batch_size b -> max_tx_batch_block_duration b' = max_tx_batch_block_duration b ->
  is_batch_full now b' l id first_id = is_batch_full now b l id first_id.
Proof. unfold is_batch_full. by intros -> ->. Qed.

Lemma served_ext now b b' r :
  first_batch_id b' = first_batch_id b -> max_tx_batch_size b' = max_tx_batch_size b ->
  max_tx_batch_block_duration b' = max_tx_batch_block_duration b -> pending b' (first_batch_id b) = pending b (first_batch_id b) ->
  get_current_tx_batch now b = Some r -> get_current_tx_batch now b' = Some r.
Proof.
  intros Hf Hs Hd Hp (H1 & H2 & ->)%served_inv. rewrite <-Hp, <-Hf. apply served_intro.
  - by rewrite (is_batch_full_ext now b b'), Hf, Hp by done.
  - by rewrite Hf, Hp.
Qed.

(** A served batch is served at every later time. *)
Lemma served_later now now' b r : (now <= now')%Z -> get_current_tx_batch now b = Some r -> get_current_tx_batch now' b = Some r.
Proof.
  intros Hn (H1 & H2 & ->)%served_inv. apply served_intro.
  - unfold is_batch_full in *. destruct (pending b _) as [|t l]; [done|]. repeat case_match; try done; try lia.
  - unfold is_batch_final in *. destruct (last _) as [t|]; [|done]. repeat case_match; try done; try lia.
Qed.

(** Adding one transaction, to the last batch or to a new one. *)
Definition add_one (now first_id last_id : Z) (t : Transaction) : B Z :=
  b ← view id; if is_batch_full now b (pending b last_id) last_id first_id then create_new_batch t else write (push last_id t);; mret last_id.

Lemma push_grown now t b : is_batch_full now b (pending b (last_batch_id b)) (last_batch_id b) (first_batch_id b) = false ->
  grown now [t] b (push (last_batch_id b) t b).
Proof.
  intros Hfull. split; try done; cbn.
  - intros [Ho Hb]. split; cbn; [done|]. intros i Hi. rewrite lookup_insert_ne by lia. by apply Hb.
  - intros [Ho Hb]. unfold queue. cbn. rewrite (ids_from_snoc _ _ Ho), !fmap_app, !concat_app. cbn.
    rewrite pending_push_eq, !app_nil_r, (pending_ext b), app_assoc; [done|].
    intros i Hi%elem_of_ids_from. apply pending_push_ne. lia.
  - intros [Ho Hb] r Hr. pose proof Hr as (H1 & _)%served_inv. eapply (served_ext now b); try done. cbn.
    apply pending_push_ne. congruence.
Qed.

Lemma new_batch_grown now t b b' i : create_new_batch t b = Done i b' -> grown now [t] b b' /\ i = last_batch_id b'.
Proof.
  unfold create_new_batch. intros H. sol_inv H. split; [|done]. split; try done; cbn.
  - intros [Ho Hb]. split; cbn; [lia|]. intros i Hi. rewrite lookup_insert_ne by lia. apply Hb. lia.
  - intros [Ho Hb]. unfold queue. cbn. rewrite (ids_from_snoc _ (last_batch_id b + 1)) by lia.
    replace (last_batch_id b + 1 - 1)%Z with (last_batch_id b) by lia.
    rewrite fmap_app, concat_app. cbn. f_equal.
    + f_equal. apply pending_ext. intros i Hi%elem_of_ids_from. unfold pending. cbn. rewrite lookup_insert_ne by lia. done.
    + unfold pending. cbn. rewrite lookup_insert_eq. cbn. unfold pending. rewrite (Hb (last_batch_id b + 1)%Z) by lia. done.
  - intros [Ho Hb] r Hr. eapply (served_ext now b); try done. unfold pending. cbn. rewrite lookup_insert_ne by lia. done.
Qed.

Lemma add_one_grown now t b b' i :
  add_one now (first_batch_id b) (last_batch_id b) t b = Done i b' -> grown now [t] b b' /\ i = last_batch_id b'.
Proof.
  unfold add_one. intros H. apply sol_bind_inv in H as (b1 & s & [-> ->]%view_inv & H). cbn [id] in H.
  destruct (is_batch_full _ _ _ _ _) eqn:Hf; [by eapply new_batch_grown|]. sol_inv H. split; [|done]. by apply push_grown.
Qed.

Lemma grown_refl now b : grown now [] b b.
Proof. split; try done. intros _. by rewrite app_nil_r. Qed.

Lemma grown_trans now ts ts' b1 b2 b3 : grown now ts b1 b2 -> grown now ts' b2 b3 -> grown now (ts ++ ts') b1 b3.
Proof.
  intros [Hw Hf Hs Hd Hq Hr] [Hw' Hf' Hs' Hd' Hq' Hr']. split; try congruence; try by auto.
  intros H. rewrite Hq', Hq by auto. by rewrite app_assoc.
Qed.

Lemma add_loop_grown now ts b ids b' : add_loop now (first_batch_id b) (last_batch_id b) ts b = Done ids b' -> grown now ts b b' /\ length ids = length ts.
Proof.
  revert b ids b'. induction ts as [|t ts IH]; intros b ids b' H; cbn [add_loop] in H.
  { sol_inv H. split; [apply grown_refl|done]. }
  apply sol_bind_inv in H as (b0 & s & [-> ->]%view_inv & H). cbn [id] in H.
  apply sol_bind_inv in H as (i & b1 & H1 & H).
  assert (grown now [t] b b1 /\ i = last_batch_id b1) as [Hg ->] by (apply (add_one_grown now t b b1 i); exact H1).
  apply sol_bind_inv in H as (l & b2 & H2 & [-> ->]%mret_inv). rewrite <-(gr_first _ _ _ _ Hg) in H2.
  apply IH in H2 as [Hg2 Hl]. split; [|cbn; lia]. by apply (grown_trans now [t] ts _ _ _ Hg).
Qed.

Lemma add_to_batch_grown now t b i b' : add_to_batch now t b = Done i b' -> grown now [t] b b'.
Proof.
  unfold add_to_batch. intros H. apply (add_one_grown now t b b' i). unfold add_one.
  apply sol_bind_inv in H as (b0 & s & [-> ->]%view_inv & H). exact H.
Qed.

Lemma add_multiple_grown now ts b ids b' : add_multiple_tx_to_batch now ts b = Done ids b' -> grown now ts b b'.
Proof.
  unfold add_multiple_tx_to_batch. destruct ts as [|t ts]; intros H.
  - sol_inv H. apply grown_refl.
  - apply sol_bind_inv in H as (f & s & [-> ->]%view_inv & H). apply sol_bind_inv in H as (l & s & [-> ->]%view_inv & H).
    by apply add_loop_grown in H as [H _].
Qed.

(** ** Numbering *)

Lemma add_to_batch_nonce now t : related (same last_tx_nonce) (add_to_batch now t).
Proof. unfold add_to_batch, create_new_batch. related. Qed.

Lemma add_loop_nonce now first_id last_id ts : related (same last_tx_nonce) (add_loop now first_id last_id ts).
Proof.
  revert last_id. induction ts as [|t ts IH]; intros last_id; cbn [add_loop]; [related|].
  unfold create_new_batch. related.
Qed.

Lemma add_multiple_nonce now ts : related (same last_tx_nonce) (add_multiple_tx_to_batch now ts).
Proof. unfold add_multiple_tx_to_batch. related. apply add_loop_nonce. Qed.

(** The numbers up to [k] that end a sequence of [ts]. *)
Definition numbered_to (k : Z) (ts : list Transaction) : Prop := tx_nonce <$> ts = seqZ (k - Z.of_nat (length ts) + 1) (Z.of_nat (length ts)).

Lemma numbered_app k l1 l2 : numbered_to k (l1 ++ l2) <-> numbered_to (k - Z.of_nat (length l2)) l1 /\ numbered_to k l2.
Proof.
  unfold numbered_to. rewrite fmap_app, length_app, Nat2Z.inj_add, seqZ_app by lia.
  replace (k - (Z.of_nat (length l1) + Z.of_nat (length l2)) + 1)%Z with (k - Z.of_nat (length l2) - Z.of_nat (length l1) + 1)%Z by lia.
  replace (k - Z.of_nat (length l2) - Z.of_nat (length l1) + 1 + Z.of_nat (length l1))%Z with (k - Z.of_nat (length l2) + 1)%Z by lia.
  split; [|by intros [-> ->]]. intros H. apply app_inj_1 in H; [done|]. rewrite length_fmap, length_seqZ. lia.
Qed.

Lemma numbered_one t : numbered_to (tx_nonce t) [t].
Proof.
  unfold numbered_to. cbn [fmap list_fmap length]. change (Z.of_nat 1) with 1%Z.
  rewrite seqZ_cons by lia. by rewrite Z.sub_add.
Qed.

(** Transactions were added, numbered on from the last one, with amounts that are not negative. *)
Record extended (now : Z) (ts : list Transaction) (b b' : batches) : Prop := {
  ex_grown : grown now ts b b';
  ex_last : last_tx_nonce b' = (last_tx_nonce b + Z.of_nat (length ts))%Z;
  ex_numbers : numbered_to (last_tx_nonce b') ts;
  ex_amounts : Forall (fun t => (0 <= tx_amount t)%Z) ts;
  ex_range : (last_tx_nonce b < 2 ^ 64)%Z -> (last_tx_nonce b' < 2 ^ 64)%Z
}.

Lemma extended_refl now b : extended now [] b b.
Proof. split; [apply grown_refl|cbn; lia|done|done|done]. Qed.

Lemma extended_trans now ts ts' b1 b2 b3 : extended now ts b1 b2 -> extended now ts' b2 b3 -> extended now (ts ++ ts') b1 b3.
Proof.
  intros [G1 L1 N1 A1 R1] [G2 L2 N2 A2 R2]. split.
  - by eapply grown_trans.
  - rewrite L2, L1, length_app. lia.
  - apply numbered_app. split; [|done]. by replace (last_tx_nonce b3 - Z.of_nat (length ts'))%Z with (last_tx_nonce b2) by lia.
  - by apply Forall_app.
  - auto.
Qed.

(** The batches with another last number. *)
Definition with_nonce (n : Z) (b : batches) : batches :=
  mkBatches (first_batch_id b) (last_batch_id b) (pending_batches b) n (max_tx_batch_size b) (max_tx_batch_block_duration b).

Lemma with_nonce_grown now n b : grown now [] b (with_nonce n b).
Proof.
  split; try done; cbn.
  - intros [Ho Hb]. by split.
  - intros _. by rewrite app_nil_r.
Qed.

Lemma next_tx_id_inv b n b' : get_and_save_next_tx_id b = Done n b' ->
  n = (last_tx_nonce b + 1)%Z /\ (n < 2 ^ 64)%Z /\ b' = with_nonce n b.
Proof. unfold get_and_save_next_tx_id. intros H. sol_inv H. split; [done|]. split; [lia|done]. Qed.

(** Numbers that were taken first, transactions that were added after. *)
Lemma numbered_extended now ts b k b' : grown now ts (with_nonce k b) b' -> last_tx_nonce b' = k ->
  k = (last_tx_nonce b + Z.of_nat (length ts))%Z -> numbered_to k ts -> Forall (fun t => (0 <= tx_amount t)%Z) ts ->
  ((last_tx_nonce b < 2 ^ 64)%Z -> (k < 2 ^ 64)%Z) -> extended now ts b b'.
Proof.
  intros Hg Hl Hk Hn Ha Hr. split; [|by rewrite Hl|by rewrite Hl|done|by rewrite Hl].
  apply (grown_trans now [] ts b (with_nonce k b) b'); [apply with_nonce_grown|done].
Qed.

(** The queue holds the transactions with the last numbers, in their order. *)
Record numbered (b : batches) : Prop := {
  nu_range : (Z.of_nat (length (queue b)) <= last_tx_nonce b < 2 ^ 64)%Z;
  nu_queue : numbered_to (last_tx_nonce b) (queue b);
  nu_amounts : Forall (fun t => (0 <= tx_amount t)%Z) (queue b);
  nu_first : (1 <= first_batch_id b < 2 ^ 64)%Z
}.

Lemma extended_numbered now ts b b' : batch_wf b -> extended now ts b b' -> numbered b -> numbered b'.
Proof.
  intros Hw [Hg Hl Hn Ha Hr] [Nr Nq Na Nf]. pose proof (gr_queue _ _ _ _ Hg Hw) as Hq. split.
  - rewrite Hq, length_app, Hl. lia.
  - rewrite Hq. apply numbered_app. split; [|done]. by replace (last_tx_nonce b' - Z.of_nat (length ts))%Z with (last_tx_nonce b) by lia.
  - rewrite Hq. by apply Forall_app.
  - by rewrite (gr_first _ _ _ _ Hg).
Qed.

(** The settings have no part in it. *)
Lemma settings_numbered b b' : first_batch_id b' = first_batch_id b -> last_batch_id b' = last_batch_id b ->
  pending_batches b' = pending_batches b -> last_tx_nonce b' = last_tx_nonce b -> numbered b -> numbered b'.
Proof.
  intros Hf Hl Hp Hn. assert (Hq : queue b' = queue b).
  { unfold queue. rewrite Hf, Hl. f_equal. apply pending_ext. intros i _. unfold pending. by rewrite Hp. }
  intros [N1 N2 N3 N4]. by split; rewrite ?Hq, ?Hn, ?Hf.
Qed.

(** The first batch is the front of the queue. *)
Lemma queue_first b : batch_wf b -> exists rest, queue b = pending b (first_batch_id b) ++ rest.
Proof. intros [Ho _]. unfold queue. rewrite ids_from_cons by done. cbn. eauto. Qed.

(** ** Processing *)

Lemma clear_first_inv b u b' : clear_first_batch b = Done u b' ->
  first_batch_id b' = (first_batch_id b + 1)%Z /\ (first_batch_id b' < 2 ^ 64)%Z /\ last_tx_nonce b' = last_tx_nonce b /\ max_tx_batch_size b' = max_tx_batch_size b /\
  max_tx_batch_block_duration b' = max_tx_batch_block_duration b /\
  (batch_wf b -> batch_wf b' /\ queue b = pending b (first_batch_id b) ++ queue b').
Proof.
  unfold clear_first_batch. intros H. sol_inv H. cbn. split; [done|]. split; [lia|]. split; [done|]. split; [done|]. split; [done|]. intros [Ho Hb]. split.
  - split; cbn; [case_match; lia|]. intros i Hi. apply lookup_delete_None. case_match; [|right; apply Hb; lia].
    right. apply Hb. lia.
  - unfold queue. cbn. rewrite (ids_from_cons _ _ Ho). cbn. f_equal.
    assert (Hp : forall i, i <> first_batch_id b -> default [] (delete (first_batch_id b) (pending_batches b) !! i) = pending b i).
    { intros i Hi. unfold pending. by rewrite lookup_delete_ne. }
    destruct (last_batch_id b =? first_batch_id b)%Z eqn:E.
    + assert (last_batch_id b = first_batch_id b) as El by lia. rewrite El.
      replace (ids_from (first_batch_id b + 1) (first_batch_id b)) with ([] : list Z) by (unfold ids_from; by rewrite seqZ_nil by lia).
      rewrite ids_from_cons by lia. cbn. unfold pending at 1. cbn. rewrite Hp by lia. unfold pending at 1. rewrite Hb by lia. cbn.
      unfold ids_from. by rewrite seqZ_nil by lia.
    + f_equal. symmetry. apply pending_ext. intros i Hi%elem_of_ids_from. unfold pending at 1. cbn. apply Hp. lia.
Qed.

Lemma clear_first_numbered b u b' : batch_wf b -> clear_first_batch b = Done u b' -> numbered b -> numbered b'.
Proof.
  intros Hw (Hf & Hr & Hl & _ & _ & Hq)%clear_first_inv [Nr Nq Na Nf]. destruct (Hq Hw) as [_ Hq']. rewrite Hq' in Nr, Nq, Na.
  apply numbered_app in Nq as [_ Nq]. apply Forall_app in Na as [_ Na]. rewrite length_app in Nr.
  split; rewrite ?Hl; [lia|done|done|lia].
Qed.
