(* ===== verification/EsdtSafe.v ===== *)
(** * The safe on MultiversX

    Models [src/rs/esdt-safe/src/lib.rs] with its modules: fee estimation
    ([common/fee-estimator-module]), token whitelist ([common/token-module]), maximal amounts
    ([common/max-bridged-amount-module]) and batches ([TxBatch]).  The state is the contract's
    storage next to the world [W], which holds the token balances and every other contract;
    what the virtual machine offers is the record [vm].  The pause module is the framework's: a
    flag that the owner sets.  Events are not recorded. *)
From S2P Require Import Prelude Text Solidity TxBatch.
Import TxBatch.

(** ** The virtual machine *)

Inductive local_role := RoleMint | RoleBurn.

Record vm (W : Type) := {
  is_smart_contract : address -> bool;
  shard_of : address -> Z;
  has_local_role : address -> bytes -> local_role -> W -> bool;
  is_frozen : address -> bytes -> W -> bool;
  esdt_local_mint : address -> bytes -> Z -> W -> option W;
  esdt_local_burn : address -> bytes -> Z -> W -> option W;
  direct_esdt : address -> address -> bytes -> Z -> W -> option W;
  direct_egld : address -> address -> Z -> W -> option W;
  latest_price_feed_optional : address -> bytes -> bytes -> W -> option (option Z);
  wrap_tokens_at : address -> address -> list (bytes * Z) -> W -> option (list (bytes * Z) * W);
  unwrap_esdt_to_address : address -> address -> address -> bytes -> Z -> W -> option W
}.
Arguments is_smart_contract {W} _ _.
Arguments shard_of {W} _ _.
Arguments has_local_role {W} _ _ _ _ _.
Arguments is_frozen {W} _ _ _ _.
Arguments esdt_local_mint {W} _ _ _ _ _.
Arguments esdt_local_burn {W} _ _ _ _ _.
Arguments direct_esdt {W} _ _ _ _ _ _.
Arguments direct_egld {W} _ _ _ _ _.
Arguments latest_price_feed_optional {W} _ _ _ _ _.
Arguments wrap_tokens_at {W} _ _ _ _ _.
Arguments unwrap_esdt_to_address {W} _ _ _ _ _ _ _.

(** An operation of the machine, and what it leaves behind. *)
Definition machine {W} (f : W -> option W) : Sol W unit := fun w => match f w with Some w' => Done tt w' | None => Revert "execution failed" end.

Definition zero_addr : address := replicate 32 Byte.x00.

(** Subtraction of [BigUint]s. *)
Definition big_sub {S} (a b : Z) : Sol S Z := if (b <=? a)%Z then mret (a - b)%Z else revert "cannot subtract because result would be negative".

Definition only_owner {S} (owner : S -> address) (caller : address) : Sol S unit :=
  o ← view owner; require (bool_decide (caller = o)) "Endpoint can only be called by owner".

Module EsdtSafe.

Definition DEFAULT_MAX_TX_BATCH_SIZE : Z := 10.
Definition DEFAULT_MAX_TX_BATCH_BLOCK_DURATION : Z := 100.
Definition MAX_PERCENTAGE : Z := 10000.
Definition PERCENTAGE_TOTAL : Z := 10000.
Definition GWEI_STRING : bytes := bytes_of_string "GWEI".

Record fees := mkFees {
  fee_estimator_contract_address : address;
  service_fee_contract_address : address;
  eth_tx_gas_limit : Z;
  service_fee_percentage : Z;
  max_service_fee : Z;
  default_price_per_gas_unit : gmap bytes Z;
  token_ticker : gmap bytes bytes
}.

Record safe := mkSafe {
  s_owner : address;
  s_paused : bool;
  s_batches : batches;
  s_fees : fees;
  token_whitelist : list bytes;
  accumulated_transaction_fees : gmap bytes Z;
  max_bridged_amount : gmap bytes Z;
  refund_amount : gmap (address * bytes) Z
}.

Definition amount_at {K} `{Countable K} (m : gmap K Z) (k : K) : Z := default 0%Z (m !! k).

Definition put_paused (v : bool) (s : safe) : safe :=
  mkSafe (s_owner s) v (s_batches s) (s_fees s) (token_whitelist s) (accumulated_transaction_fees s) (max_bridged_amount s) (refund_amount s).
Definition put_batches (b : batches) (s : safe) : safe :=
  mkSafe (s_owner s) (s_paused s) b (s_fees s) (token_whitelist s) (accumulated_transaction_fees s) (max_bridged_amount s) (refund_amount s).
Definition put_fees (f : fees) (s : safe) : safe :=
  mkSafe (s_owner s) (s_paused s) (s_batches s) f (token_whitelist s) (accumulated_transaction_fees s) (max_bridged_amount s) (refund_amount s).
Definition put_whitelist (l : list bytes) (s : safe) : safe :=
  mkSafe (s_owner s) (s_paused s) (s_batches s) (s_fees s) l (accumulated_transaction_fees s) (max_bridged_amount s) (refund_amount s).
Definition put_accumulated (m : gmap bytes Z) (s : safe) : safe :=
  mkSafe (s_owner s) (s_paused s) (s_batches s) (s_fees s) (token_whitelist s) m (max_bridged_amount s) (refund_amount s).
Definition put_max_bridged (m : gmap bytes Z) (s : safe) : safe :=
  mkSafe (s_owner s) (s_paused s) (s_batches s) (s_fees s) (token_whitelist s) (accumulated_transaction_fees s) m (refund_amount s).
Definition put_refunds (m : gmap (address * bytes) Z) (s : safe) : safe :=
  mkSafe (s_owner s) (s_paused s) (s_batches s) (s_fees s) (token_whitelist s) (accumulated_transaction_fees s) (max_bridged_amount s) m.

(** [set_if_empty] on a new contract. *)
Definition init (owner fee_estimator service_fee_address : address) (gas_limit percentage max_fee : Z) : safe :=
  mkSafe owner true (mkBatches 1 1 ∅ 0 DEFAULT_MAX_TX_BATCH_SIZE DEFAULT_MAX_TX_BATCH_BLOCK_DURATION)
    (mkFees fee_estimator service_fee_address gas_limit percentage max_fee ∅ {[GWEI_STRING := GWEI_STRING]}) [] ∅ ∅ ∅.

Section Safe.
Context {W : Type} (V : vm W) (self : address).

Abbreviation S := (Sol (safe * W)).

Definition on_safe {A} (c : Sol safe A) : S A := at_part fst (fun s p => (s, snd p)) c.
Definition on_batches {A} (c : Sol batches A) : S A := on_safe (at_part s_batches put_batches c).
Definition on_world {A} (c : Sol W A) : S A := at_part snd (fun w p => (fst p, w)) c.
Definition owner_only (caller : address) : S unit := on_safe (only_owner s_owner caller).

(** ** Fees *)

Definition set_fees (caller : address) (f : fees -> fees) : S unit :=
  owner_only caller;; on_safe (write (fun s => put_fees (f (s_fees s)) s)).

Definition set_fee_estimator_contract_address (caller a : address) : S unit := set_fees caller (fun f =>
  mkFees a (service_fee_contract_address f) (eth_tx_gas_limit f) (service_fee_percentage f) (max_service_fee f)
    (default_price_per_gas_unit f) (token_ticker f)).
Definition set_service_fee_contract_address (caller a : address) : S unit := set_fees caller (fun f =>
  mkFees (fee_estimator_contract_address f) a (eth_tx_gas_limit f) (service_fee_percentage f) (max_service_fee f)
    (default_price_per_gas_unit f) (token_ticker f)).
Definition set_eth_tx_gas_limit (caller : address) (n : Z) : S unit := set_fees caller (fun f =>
  mkFees (fee_estimator_contract_address f) (service_fee_contract_address f) n (service_fee_percentage f) (max_service_fee f)
    (default_price_per_gas_unit f) (token_ticker f)).
Definition set_service_fee_percentage (caller : address) (n : Z) : S unit := set_fees caller (fun f =>
  mkFees (fee_estimator_contract_address f) (service_fee_contract_address f) (eth_tx_gas_limit f) n (max_service_fee f)
    (default_price_per_gas_unit f) (token_ticker f)).
Definition set_max_service_fee (caller : address) (n : Z) : S unit := set_fees caller (fun f =>
  mkFees (fee_estimator_contract_address f) (service_fee_contract_address f) (eth_tx_gas_limit f) (service_fee_percentage f) n
    (default_price_per_gas_unit f) (token_ticker f)).
Definition put_default_price (token : bytes) (p : option Z) (f : fees) : fees :=
  mkFees (fee_estimator_contract_address f) (service_fee_contract_address f) (eth_tx_gas_limit f) (service_fee_percentage f)
    (max_service_fee f) (partial_alter (fun _ => p) token (default_price_per_gas_unit f)) (token_ticker f).
Definition put_ticker (token : bytes) (t : option bytes) (f : fees) : fees :=
  mkFees (fee_estimator_contract_address f) (service_fee_contract_address f) (eth_tx_gas_limit f) (service_fee_percentage f)
    (max_service_fee f) (default_price_per_gas_unit f) (partial_alter (fun _ => t) token (token_ticker f)).
Definition set_default_price_per_gas_unit (caller : address) (token : bytes) (p : Z) : S unit := set_fees caller (put_default_price token (Some p)).
Definition set_token_ticker (caller : address) (token ticker : bytes) : S unit := set_fees caller (put_ticker token (Some ticker)).

(** The aggregator is asked when its address is set; a call that fails makes this call fail. *)
Definition get_aggregator_mapping (from to : bytes) : S (option Z) :=
  f ← on_safe (view s_fees);
  if bool_decide (fee_estimator_contract_address f = zero_addr) then mret None
  else
    w ← on_world (view id);
    match latest_price_feed_optional V (fee_estimator_contract_address f) (default [] (token_ticker f !! from))
            (default [] (token_ticker f !! to)) w with
    | None => revert "execution failed"
    | Some r => mret r
    end.

Definition get_price_per_gas_unit (token : bytes) : S Z :=
  opt_price ← get_aggregator_mapping GWEI_STRING token;
  match opt_price with
  | Some p => mret p
  | None => on_safe (view (fun s => amount_at (default_price_per_gas_unit (s_fees s)) token))
  end.

Definition calculate_required_fee (token : bytes) : S Z :=
  price ← get_price_per_gas_unit token;
  gas_limit ← on_safe (view (fun s => eth_tx_gas_limit (s_fees s)));
  mret (price * gas_limit)%Z.

Definition calculate_service_fee (f : fees) (token_amount : Z) : Z :=
  let percentage_amount := (token_amount * service_fee_percentage f `div` MAX_PERCENTAGE)%Z in
  if (max_service_fee f <? percentage_amount)%Z then max_service_fee f else percentage_amount.

(** ** Tokens *)

(** [swap_remove] puts the last element in the place of the removed one. *)
Definition swap_remove (token : bytes) (l : list bytes) : list bytes :=
  match list_find (fun t => t = token) l, last l with
  | Some (i, _), Some x => removelast (<[i := x]> l)
  | _, _ => l
  end.

Definition add_token_to_whitelist (caller : address) (token ticker : bytes) (opt_price : option Z) : S unit :=
  set_fees caller (put_ticker token (Some ticker));;
  match opt_price with
  | Some p => on_safe (write (fun s => put_fees (put_default_price token (Some p) (s_fees s)) s))
  | None => mret tt
  end;;
  on_safe (write (fun s => if bool_decide (token ∈ token_whitelist s) then s else put_whitelist (token_whitelist s ++ [token]) s)).

Definition remove_token_from_whitelist (caller : address) (token : bytes) : S unit :=
  set_fees caller (put_ticker token None);;
  on_safe (write (fun s => put_fees (put_default_price token None (s_fees s)) s));;
  on_safe (write (fun s => put_whitelist (swap_remove token (token_whitelist s)) s)).

(** One token's fees, sent to the addresses one after the other. *)
Fixpoint send_shares (token : bytes) (accumulated : Z) (pairs : list (address * Z)) (remaining : Z) : S Z :=
  match pairs with
  | [] => mret remaining
  | (dest, percentage) :: rest =>
      let amount_to_send := (accumulated * percentage `div` PERCENTAGE_TOTAL)%Z in
      if (0 <? amount_to_send)%Z then
        remaining' ← big_sub remaining amount_to_send;
        on_world (machine (direct_esdt V self dest token amount_to_send));;
        send_shares token accumulated rest remaining'
      else send_shares token accumulated rest remaining
  end.

Fixpoint distribute_tokens (pairs : list (address * Z)) (tokens : list bytes) : S unit :=
  match tokens with
  | [] => mret tt
  | token :: rest =>
      accumulated ← on_safe (view (fun s => amount_at (accumulated_transaction_fees s) token));
      (if (accumulated =? 0)%Z then mret tt
       else
         remaining ← send_shares token accumulated pairs accumulated;
         on_safe (write (fun s => put_accumulated (<[token := remaining]> (accumulated_transaction_fees s)) s)));;
      distribute_tokens pairs rest
  end.

Definition distribute_fees (caller : address) (pairs : list (address * Z)) : S unit :=
  owner_only caller;;
  require (foldr Z.add 0 (snd <$> pairs) =? PERCENTAGE_TOTAL)%Z "Percentages do not add up to 100%";;
  tokens ← on_safe (view token_whitelist);
  distribute_tokens pairs tokens.

(** ** Maximal amounts *)

Definition set_max_bridged_amount (caller : address) (token : bytes) (max_amount : Z) : S unit :=
  owner_only caller;; on_safe (write (fun s => put_max_bridged (<[token := max_amount]> (max_bridged_amount s)) s)).

Definition is_above_max_amount (m : gmap bytes Z) (token : bytes) (amount : Z) : bool :=
  let max_amount := amount_at m token in if (0 <? max_amount)%Z then (max_amount <? amount)%Z else false.

(** ** Settings of the batches and the pause *)

Definition safe_set_max_tx_batch_size (caller : address) (n : Z) : S unit := owner_only caller;; on_batches (set_max_tx_batch_size n).
Definition safe_set_max_tx_batch_block_duration (caller : address) (n : Z) : S unit :=
  owner_only caller;; on_batches (set_max_tx_batch_block_duration n).
Definition set_paused (caller : address) (v : bool) : S unit := owner_only caller;; on_safe (write (put_paused v)).

(** ** Statuses *)

Definition mark_refund (to : address) (token : bytes) (amount service_fee : Z) : S unit :=
  on_safe (write (fun s => put_refunds (<[(to, token) := (amount_at (refund_amount s) (to, token) + (amount + service_fee))%Z]> (refund_amount s)) s)).

Definition send_service_fee (token : bytes) (amount : Z) : S unit :=
  dest ← on_safe (view (fun s => service_fee_contract_address (s_fees s)));
  on_world (machine (direct_esdt V self dest token amount)).

Definition set_status (t : Transaction) (st : TransactionStatus) : S unit :=
  if is_refund_tx t then mret tt
  else
    match st with
    | StExecuted =>
        burns ← on_world (view (has_local_role V self (tx_token t) RoleBurn));
        if (burns : bool) then
          send_service_fee (tx_token t) (tx_service_fee t);;
          on_world (machine (esdt_local_burn V self (tx_token t) (tx_amount t)))
        else mret tt
    | StRejected =>
        require (length (tx_from t) =? 32)%nat "panic occurred";;
        mark_refund (tx_from t) (tx_token t) (tx_amount t) (tx_service_fee t)
    | _ => revert "Transaction status may only be set to Executed or Rejected"
    end.

Fixpoint set_statuses (l : list (Transaction * TransactionStatus)) : S unit :=
  match l with
  | [] => mret tt
  | (t, st) :: rest => set_status t st;; set_statuses rest
  end.

Definition set_transaction_batch_status (caller : address) (batch_id : Z) (tx_statuses : list TransactionStatus) : S unit :=
  owner_only caller;;
  b ← on_safe (view s_batches);
  require (batch_id =? first_batch_id b)%Z "Batches must be processed in order";;
  let tx_batch := pending b batch_id in
  require (length tx_batch =? length tx_statuses)%nat "Invalid number of statuses provided";;
  set_statuses (zip tx_batch tx_statuses);;
  on_batches clear_first_batch.

(** ** Refunds of transfers from Ethereum *)

(** The new transactions; the fee of a token is asked for once. *)
Fixpoint refund_loop (block_nonce : Z) (cached : gmap bytes Z) (l : list Transaction) : S (list Transaction) :=
  match l with
  | [] => mret []
  | t :: rest =>
      required_fee ← (match cached !! tx_token t with Some p => mret p | None => calculate_required_fee (tx_token t) end);
      let cached' := <[tx_token t := required_fee]> cached in
      if (tx_amount t <=? required_fee)%Z then refund_loop block_nonce cached' rest
      else
        actual_bridged_amount ← big_sub (tx_amount t) required_fee;
        n ← on_batches get_and_save_next_tx_id;
        news ← refund_loop block_nonce cached' rest;
        mret (mkTransaction block_nonce n (tx_to t) (tx_from t) (tx_token t) actual_bridged_amount (tx_service_fee t) true :: news)
  end.

Definition add_refund_batch (caller : address) (now : Z) (refund_transactions : list Transaction) : S unit :=
  owner_only caller;;
  new_transactions ← refund_loop now ∅ refund_transactions;
  on_batches (add_multiple_tx_to_batch now new_transactions);;
  mret tt.

(** ** Users *)

(** The payment has been transferred to the contract before the call. *)
Definition create_transaction (now : Z) (payment_token : bytes) (payment_amount : Z) (from to : bytes) : S unit :=
  paused ← on_safe (view s_paused);
  require (negb paused) "Cannot create transaction while paused";;
  known ← on_safe (view (fun s => bool_decide (payment_token ∈ token_whitelist s)));
  require known "Token not in whitelist";;
  required_fee ← calculate_required_fee payment_token;
  require (required_fee <? payment_amount)%Z "Transaction fees cost more than the entire bridged amount";;
  above ← on_safe (view (fun s => is_above_max_amount (max_bridged_amount s) payment_token payment_amount));
  require (negb above) "Deposit over max amount";;
  on_safe (write (fun s => put_accumulated
    (<[payment_token := (amount_at (accumulated_transaction_fees s) payment_token + required_fee)%Z]> (accumulated_transaction_fees s)) s));;
  amount_including_gas_fee ← big_sub payment_amount required_fee;
  service_fee ← on_safe (view (fun s => calculate_service_fee (s_fees s) amount_including_gas_fee));
  actual_bridged_amount ← big_sub amount_including_gas_fee service_fee;
  n ← on_batches get_and_save_next_tx_id;
  on_batches (add_to_batch now (mkTransaction now n from to payment_token actual_bridged_amount service_fee false));;
  mret tt.

Definition claim_refund (caller : address) (token : bytes) : S Z :=
  refund ← on_safe (view (fun s => amount_at (refund_amount s) (caller, token)));
  require (0 <? refund)%Z "Nothing to refund";;
  on_safe (write (fun s => put_refunds (delete (caller, token) (refund_amount s)) s));;
  on_world (machine (direct_esdt V self caller token refund));;
  mret refund.

Definition get_refund_amounts (user : address) (s : safe) : list (bytes * Z) :=
  omap (fun token => let amount := amount_at (refund_amount s) (user, token) in
                     if (0 <? amount)%Z then Some (token, amount) else None) (token_whitelist s).
End Safe.

End EsdtSafe.
