(* ===== verification/EsdtSafeFacts.v ===== *)
(** * What the safe on MultiversX does to its batches

    Users' transactions and refunds are added at the end of the queue; only the owner, by setting
    the statuses of the whole first batch, takes a batch out of it. *)
From S2P Require Import Prelude Text Solidity TxBatch TxBatchFacts EsdtSafe.
Import TxBatch.

Module EsdtSafeFacts.
Import EsdtSafe.

Section Facts.
Context {W : Type} (V : vm W) (self : address).

(** Neither the owner nor the batches change. *)
Definition core (p : safe * W) : address * batches := (s_owner (fst p), s_batches (fst p)).
Abbreviation framed := (related (same core)).

(** Transactions may have been added. *)
Definition added (now : Z) (p p' : safe * W) : Prop :=
  s_owner (fst p') = s_owner (fst p) /\ exists ts, extended now ts (s_batches (fst p)) (s_batches (fst p')).

#[export] Instance added_preorder now : PreOrder (added now).
Proof.
  split.
  - intros p. split; [done|]. exists []. apply extended_refl.
  - intros p1 p2 p3 [Ho1 [ts1 H1]] [Ho2 [ts2 H2]]. split; [congruence|]. exists (ts1 ++ ts2). by eapply extended_trans.
Qed.

Lemma framed_added now {A} (c : Sol (safe * W) A) : framed c -> related (added now) c.
Proof.
  intros H p a p' E. apply H in E. unfold same, core in E. injection E as Ho Hb. split; [done|]. exists []. rewrite Hb. apply extended_refl.
Qed.

Lemma framed_world {A} (c : Sol W A) : framed (on_world c).
Proof. apply (related_at_part _ (fun _ _ => True)); done. Qed.

Lemma framed_safe {A} (c : Sol safe A) : related (same (fun s => (s_owner s, s_batches s))) c -> framed (on_safe c).
Proof. intros H. eapply (related_at_part _ _); [exact H|]. by intros s p E. Qed.

Lemma framed_owner_only caller : framed (owner_only caller).
Proof. apply framed_safe. unfold only_owner. related. Qed.

Ltac framed_step :=
  lazymatch goal with
  | |- related _ (on_world _) => apply framed_world
  | |- related _ (on_safe _) => apply framed_safe
  | |- related _ (owner_only _) => apply framed_owner_only
  | |- _ => related_step
  end.
Ltac framed := repeat framed_step; try done.

Lemma framed_big_sub a b : framed (big_sub (S := safe * W) a b).
Proof. unfold big_sub. framed. Qed.

Lemma framed_set_fees caller f : framed (set_fees caller f).
Proof. unfold set_fees. framed. Qed.

Lemma framed_calculate_required_fee token : framed (calculate_required_fee V token).
Proof. unfold calculate_required_fee, get_price_per_gas_unit, get_aggregator_mapping. framed. Qed.

Lemma framed_send_shares token accumulated pairs remaining : framed (send_shares V self token accumulated pairs remaining).
Proof.
  revert remaining. induction pairs as [|[dest n] rest IH]; intros remaining; cbn [send_shares]; [framed|].
  case_match; [|apply IH]. apply related_bind; [apply _|apply framed_big_sub|]. intros r. framed.
Qed.

Lemma framed_distribute_tokens pairs tokens : framed (distribute_tokens V self pairs tokens).
Proof.
  induction tokens as [|t tokens IH]; cbn [distribute_tokens]; framed. apply framed_send_shares.
Qed.

Lemma framed_distribute_fees caller pairs : framed (distribute_fees V self caller pairs).
Proof. unfold distribute_fees. framed. apply framed_distribute_tokens. Qed.

Lemma framed_add_token caller token ticker price : framed (add_token_to_whitelist caller token ticker price).
Proof. unfold add_token_to_whitelist. framed; [apply framed_set_fees|]. case_match; done. Qed.

Lemma framed_remove_token caller token : framed (remove_token_from_whitelist caller token).
Proof. unfold remove_token_from_whitelist. framed. apply framed_set_fees. Qed.

Lemma framed_set_max_bridged caller token n : framed (set_max_bridged_amount caller token n).
Proof. unfold set_max_bridged_amount. framed. Qed.

Lemma framed_set_paused caller v : framed (set_paused caller v).
Proof. unfold set_paused. framed. Qed.

Lemma framed_claim_refund caller token : framed (claim_refund V self caller token).
Proof. unfold claim_refund. framed. Qed.

Lemma framed_set_statuses l : framed (set_statuses V self l).
Proof.
  induction l as [|[t st] l IH]; cbn [set_statuses]; framed.
  unfold set_status, send_service_fee, mark_refund. framed.
Qed.

(** ** Additions *)

Lemma framed_inv {A} (c : Sol (safe * W) A) p a p' : framed c -> c p = Done a p' ->
  s_owner (fst p') = s_owner (fst p) /\ s_batches (fst p') = s_batches (fst p).
Proof. intros Hc H. apply Hc in H. by injection H. Qed.

Lemma on_batches_inv {A} (c : Sol batches A) (p p' : safe * W) a : on_batches c p = Done a p' ->
  s_owner (fst p') = s_owner (fst p) /\ c (s_batches (fst p)) = Done a (s_batches (fst p')).
Proof. by intros (s & (b & Hb & ->)%at_part_inv & ->)%at_part_inv. Qed.

Lemma big_sub_inv {S} a b (s s' : S) z : big_sub a b s = Done z s' -> z = (a - b)%Z /\ (0 <= z)%Z /\ s' = s.
Proof. unfold big_sub. destruct (b <=? a)%Z eqn:E; [|done]. intros [= <- <-]. split; [done|]. split; [lia|done]. Qed.

(** The refunds take their numbers one after the other. *)
Lemma refund_loop_inv block cached l (p p' : safe * W) news : refund_loop V block cached l p = Done news p' ->
  s_owner (fst p') = s_owner (fst p) /\
  exists k, s_batches (fst p') = with_nonce k (s_batches (fst p)) /\ k = (last_tx_nonce (s_batches (fst p)) + Z.of_nat (length news))%Z /\
    numbered_to k news /\ Forall (fun t => (0 <= tx_amount t)%Z) news /\ ((last_tx_nonce (s_batches (fst p)) < 2 ^ 64)%Z -> (k < 2 ^ 64)%Z).
Proof.
  revert cached p news. induction l as [|t l IH]; intros cached p news H; cbn [refund_loop] in H.
  { apply mret_inv in H as [-> ->]. split; [done|]. exists (last_tx_nonce (s_batches (fst p))).
    split; [by destruct (s_batches (fst p))|]. split; [cbn; lia|]. done. }
  apply sol_bind_inv in H as (fee & p1 & H1 & H).
  assert (s_owner (fst p1) = s_owner (fst p) /\ s_batches (fst p1) = s_batches (fst p)) as [<- <-].
  { revert H1. apply framed_inv. destruct (cached !! tx_token t); [framed|apply framed_calculate_required_fee]. }
  destruct (tx_amount t <=? fee)%Z; [by apply IH in H|].
  apply sol_bind_inv in H as (z & p2 & (_ & Hz & ->)%big_sub_inv & H).
  apply sol_bind_inv in H as (n & p2 & [Ho2 (Hn & Hr & Hb2)%next_tx_id_inv]%on_batches_inv & H).
  apply sol_bind_inv in H as (rest & p3 & H3 & [-> ->]%mret_inv). apply IH in H3 as (Ho3 & k & Hb3 & Hk & Hnum & Ham & Hrange).
  rewrite Ho3, Hb3, Hb2 in *. cbn [with_nonce last_tx_nonce] in *. split; [done|]. exists k. split; [done|].
  assert (Hk' : k = (last_tx_nonce (s_batches (fst p1)) + Z.of_nat (length (mkTransaction block n (tx_to t) (tx_from t) (tx_token t) z (tx_service_fee t) true :: rest)))%Z)
    by (rewrite length_cons; lia).
  split; [exact Hk'|]. split; [|split; [by constructor|auto]].
  apply (numbered_app k [_] rest). split; [|done].
  replace (k - Z.of_nat (length rest))%Z with n by lia. apply numbered_one.
Qed.

Lemma added_add_refund_batch caller now l : related (added now) (add_refund_batch V caller now l).
Proof.
  unfold add_refund_batch. apply related_bind; [apply _|apply framed_added, framed_owner_only|intros []].
  intros p u p' (news & p1 & (Ho & k & Hb & Hk & Hn & Ha & Hr)%refund_loop_inv & H)%sol_bind_inv.
  apply sol_bind_inv in H as (ids & p2 & [Ho2 Hadd]%on_batches_inv & [_ ->]%mret_inv). split; [congruence|]. exists news.
  rewrite Hb in Hadd. pose proof (add_multiple_nonce _ _ _ _ _ Hadd) as Hl. apply add_multiple_grown in Hadd.
  by eapply numbered_extended.
Qed.

Lemma added_create_transaction now token amount from to : related (added now) (create_transaction V now token amount from to).
Proof.
  unfold create_transaction. do 11 (apply related_bind; [apply _| |intros ?]; [apply framed_added; framed;
    first [apply framed_calculate_required_fee|apply framed_big_sub|idtac]|]).
  intros p u p' (z & p1 & (_ & Hz & ->)%big_sub_inv & H)%sol_bind_inv.
  apply sol_bind_inv in H as (n & p2 & [Ho2 (Hn & Hr & Hb2)%next_tx_id_inv]%on_batches_inv & H).
  apply sol_bind_inv in H as (i & p3 & [Ho3 Hadd]%on_batches_inv & [_ ->]%mret_inv). split; [congruence|].
  eexists [_]. rewrite Hb2 in Hadd. pose proof (add_to_batch_nonce _ _ _ _ _ Hadd) as Hl. apply add_to_batch_grown in Hadd.
  eapply (numbered_extended now [_]); [exact Hadd|exact Hl|exact Hn|apply numbered_one|by constructor|done].
Qed.

(** ** Processing *)

Lemma owner_only_inv caller (p p' : safe * W) u : owner_only caller p = Done u p' -> caller = s_owner (fst p) /\ p' = p.
Proof.
  intros (s & (o & s1 & [-> ->]%view_inv & [->%bool_decide_eq_true ->]%require_inv)%sol_bind_inv & ->)%at_part_inv.
  split; [done|]. by destruct p.
Qed.

Lemma set_status_inv caller id sts (p p' : safe * W) u :
  set_transaction_batch_status V self caller id sts p = Done u p' ->
  let b := s_batches (fst p) in
  caller = s_owner (fst p) /\ id = first_batch_id b /\ length (pending b id) = length sts /\
  s_owner (fst p') = s_owner (fst p) /\ clear_first_batch b = Done tt (s_batches (fst p')).
Proof.
  unfold set_transaction_batch_status. intros (? & p1 & [-> ->]%owner_only_inv & H)%sol_bind_inv.
  apply sol_bind_inv in H as (b & p1 & (s & [-> ->]%view_inv & ->)%at_part_inv & H). cbn [fst snd] in H.
  apply sol_bind_inv in H as (? & p2 & [Hid ->]%require_inv & H). apply sol_bind_inv in H as (? & p2 & [Hl ->]%require_inv & H).
  apply sol_bind_inv in H as (? & p2 & Hs & H). apply framed_set_statuses in Hs. unfold same, core in Hs. cbn [fst] in Hs.
  injection Hs as Ho Hb. apply at_part_inv in H as (s & (b & H & ->)%at_part_inv & ->). cbn [fst snd].
  apply Z.eqb_eq in Hid. apply Nat.eqb_eq in Hl. rewrite Hb in H. destruct u. cbn. done.
Qed.
End Facts.

End EsdtSafeFacts.
