(* ===== verification/MultiTransfer.v ===== *)
(** * The transfers from Ethereum on MultiversX

    Models [src/rs/multi-transfer-esdt/src/lib.rs]: minting and sending the tokens of a performed
    batch, and keeping the transfers that cannot be made as batches of refunds ([TxBatch]).  The
    wrapping and the swapping contracts are reached through the addresses the owner sets: calls
    of the machine ([vm]). *)
From S2P Require Import Prelude Text Solidity TxBatch EsdtSafe.
Import TxBatch.

Module MultiTransfer.

Definition DEFAULT_MAX_TX_BATCH_SIZE : Z := 10.
Definition DEFAULT_MAX_TX_BATCH_BLOCK_DURATION : Z := 18446744073709551615.

Record EthTransaction := mkEthTx {
  et_from : bytes;
  et_to : address;
  et_token : bytes;
  et_amount : Z;
  et_nonce : Z
}.

#[global] Instance EthTransaction_eq_dec : EqDecision EthTransaction.
Proof. solve_decision. Defined.

Record transfers := mkTransfers {
  t_owner : address;
  t_batches : batches;
  t_max_bridged : gmap bytes Z;
  wrapping_contract_address : option address;
  swapping_contract_address : option address
}.

Definition put_t_batches (b : batches) (t : transfers) : transfers :=
  mkTransfers (t_owner t) b (t_max_bridged t) (wrapping_contract_address t) (swapping_contract_address t).

Definition new_transfers (owner : address) (wrapping swapping : option address) : transfers :=
  mkTransfers owner (mkBatches 1 1 ∅ 0 DEFAULT_MAX_TX_BATCH_SIZE DEFAULT_MAX_TX_BATCH_BLOCK_DURATION) ∅ wrapping swapping.

Section Transfers.
Context {W : Type} (V : vm W) (self : address).

Abbreviation S := (Sol (transfers * W)).

Definition on_transfers {A} (c : Sol transfers A) : S A := at_part fst (fun t p => (t, snd p)) c.
Definition on_t_batches {A} (c : Sol batches A) : S A := on_transfers (at_part t_batches put_t_batches c).
Definition on_machine {A} (c : Sol W A) : S A := at_part snd (fun w p => (fst p, w)) c.
Definition t_owner_only (caller : address) : S unit := on_transfers (only_owner t_owner caller).

Definition set_wrapping_contract_address (caller : address) (opt_new_address : option address) : S unit :=
  t_owner_only caller;;
  match opt_new_address with
  | Some a => require (is_smart_contract V a) "Invalid unwrapping contract address"
  | None => mret tt
  end;;
  on_transfers (write (fun t => mkTransfers (t_owner t) (t_batches t) (t_max_bridged t) opt_new_address (swapping_contract_address t))).

Definition set_swapping_contract_address (caller : address) (opt_new_address : option address) : S unit :=
  t_owner_only caller;;
  match opt_new_address with
  | Some a => require (is_smart_contract V a) "Invalid swapping contract address"
  | None => mret tt
  end;;
  on_transfers (write (fun t => mkTransfers (t_owner t) (t_batches t) (t_max_bridged t) (wrapping_contract_address t) opt_new_address)).

Definition t_set_max_bridged_amount (caller : address) (token : bytes) (max_amount : Z) : S unit :=
  t_owner_only caller;;
  on_transfers (write (fun t => mkTransfers (t_owner t) (t_batches t) (<[token := max_amount]> (t_max_bridged t))
    (wrapping_contract_address t) (swapping_contract_address t))).

Definition convert_to_refund_tx (now : Z) (t : EthTransaction) : Transaction :=
  mkTransaction now (et_nonce t) (et_from t) (et_to t) (et_token t) (et_amount t) 0 true.

Definition is_account_same_shard_frozen (dest : address) (token : bytes) (w : W) : bool :=
  if negb (shard_of V self =? shard_of V dest)%Z then false else is_frozen V dest token w.

(** Why a transfer cannot be made. *)
Definition must_refund (max_bridged : gmap bytes Z) (t : EthTransaction) (w : W) : bool :=
  bool_decide (et_to t = zero_addr) || is_smart_contract V (et_to t)
  || negb (has_local_role V self (et_token t) RoleMint w)
  || EsdtSafe.is_above_max_amount max_bridged (et_token t) (et_amount t)
  || is_account_same_shard_frozen (et_to t) (et_token t) w.

(** The valid transfers, whose tokens are minted, and the refunds. *)
Fixpoint mint_loop (now : Z) (l : list EthTransaction) : S (list EthTransaction * list Transaction) :=
  match l with
  | [] => mret ([], [])
  | t :: rest =>
      w ← on_machine (view id);
      max_bridged ← on_transfers (view t_max_bridged);
      if must_refund max_bridged t w then
        r ← mint_loop now rest;
        mret (fst r, convert_to_refund_tx now t :: snd r)
      else
        on_machine (machine (esdt_local_mint V self (et_token t) (et_amount t)));;
        r ← mint_loop now rest;
        mret (t :: fst r, snd r)
  end.

Definition wrap_tokens (payments : list (bytes * Z)) : S (list (bytes * Z)) :=
  wrapping ← on_transfers (view wrapping_contract_address);
  match wrapping with
  | None => mret payments
  | Some a => on_machine (fun w => match wrap_tokens_at V a self payments w with Some (l, w') => Done l w' | None => Revert "execution failed" end)
  end.

Fixpoint pay_loop (swapping : address) (l : list (address * (bytes * Z))) : S unit :=
  match l with
  | [] => mret tt
  | (dest, (token, amount)) :: rest =>
      on_machine (machine (unwrap_esdt_to_address V swapping self dest token amount));; pay_loop swapping rest
  end.

(** Without a payment the address of the swapping contract is not read. *)
Definition distribute_payments (dest_addresses : list address) (payments : list (bytes * Z)) : S unit :=
  match zip dest_addresses payments with
  | [] => mret tt
  | l =>
      swapping ← on_transfers (view swapping_contract_address);
      match swapping with
      | None => revert "storage decode error: bad array length"
      | Some a => pay_loop a l
      end
  end.

Definition batch_transfer_esdt_token (caller : address) (now batch_id : Z) (txs : list EthTransaction) : S unit :=
  t_owner_only caller;;
  r ← mint_loop now txs;
  payments ← wrap_tokens ((fun t => (et_token t, et_amount t)) <$> fst r);
  distribute_payments (et_to <$> fst r) payments;;
  on_t_batches (add_multiple_tx_to_batch now (snd r));;
  mret tt.

Definition get_and_clear_first_refund_batch (caller : address) : S (option (Z * list Transaction)) :=
  t_owner_only caller;;
  opt_current_batch ← on_t_batches (view get_first_batch_any_status);
  match opt_current_batch with
  | Some _ => on_t_batches clear_first_batch
  | None => mret tt
  end;;
  mret opt_current_batch.

Definition t_set_max_tx_batch_size (caller : address) (n : Z) : S unit := t_owner_only caller;; on_t_batches (set_max_tx_batch_size n).
Definition t_set_max_tx_batch_block_duration (caller : address) (n : Z) : S unit :=
  t_owner_only caller;; on_t_batches (set_max_tx_batch_block_duration n).
End Transfers.

End MultiTransfer.
