(* ===== verification/MultiTransferFacts.v ===== *)
(** * What a performed batch of transfers does

    Every transfer of the batch is either minted and paid to its receiver or kept, as it came, at
    the end of the queue of refunds. *)
From S2P Require Import Prelude Text Solidity TxBatch TxBatchFacts EsdtSafe MultiTransfer.
Import TxBatch.

Module MultiTransferFacts.
Import MultiTransfer.

Section Facts.
Context {W : Type} (V : vm W) (self : address).

(** ** What the machine is asked to do *)

Fixpoint mint_all (l : list EthTransaction) (w : W) : option W :=
  match l with
  | [] => Some w
  | t :: rest => w' ← esdt_local_mint V self (et_token t) (et_amount t) w; mint_all rest w'
  end.

Definition wrapped (wrapping : option address) (l payments : list (bytes * Z)) (w w' : W) : Prop :=
  match wrapping with
  | None => payments = l /\ w' = w
  | Some a => wrap_tokens_at V a self l w = Some (payments, w')
  end.

Fixpoint pay_all (swapping : address) (l : list (address * (bytes * Z))) (w : W) : option W :=
  match l with
  | [] => Some w
  | (dest, (token, amount)) :: rest => w' ← unwrap_esdt_to_address V swapping self dest token amount w; pay_all swapping rest w'
  end.

(** What never is paid: a transfer to nobody, to a contract, or above the maximal amount. *)
Definition payable (max_bridged : gmap bytes Z) (t : EthTransaction) : Prop :=
  et_to t <> zero_addr /\ is_smart_contract V (et_to t) = false /\ EsdtSafe.is_above_max_amount max_bridged (et_token t) (et_amount t) = false.

Lemma machine_inv (f : W -> option W) w u w' : machine f w = Done u w' -> f w = Some w'.
Proof. unfold machine. destruct (f w); [|done]. by intros [= _ ->]. Qed.

Lemma on_machine_inv {A} (c : Sol W A) (p p' : transfers * W) a : on_machine c p = Done a p' -> c (snd p) = Done a (snd p') /\ fst p' = fst p.
Proof. by intros (w & H & ->)%at_part_inv. Qed.

Lemma on_transfers_view {A} (f : transfers -> A) (p p' : transfers * W) a : on_transfers (view f) p = Done a p' -> a = f (fst p) /\ p' = p.
Proof. intros (t & [-> ->]%view_inv & ->)%at_part_inv. split; [done|]. by destruct p. Qed.

Lemma on_machine_view {A} (f : W -> A) (p p' : transfers * W) a : on_machine (view f) p = Done a p' -> a = f (snd p) /\ p' = p.
Proof. intros (t & [-> ->]%view_inv & ->)%at_part_inv. split; [done|]. by destruct p. Qed.

Lemma not_refunded_payable m t w : must_refund V self m t w = false -> payable m t.
Proof.
  unfold must_refund. intros [[[[H1 H2]%orb_false_iff _]%orb_false_iff H4]%orb_false_iff _]%orb_false_iff.
  by apply bool_decide_eq_false in H1.
Qed.

Lemma mint_loop_inv now l (p p' : transfers * W) r : mint_loop V self now l p = Done r p' ->
  fst p' = fst p /\ mint_all (fst r) (snd p) = Some (snd p') /\ Forall (payable (t_max_bridged (fst p))) (fst r) /\
  exists refunded, snd r = convert_to_refund_tx now <$> refunded /\ fst r ++ refunded ≡ₚ l.
Proof.
  revert p r. induction l as [|t l IH]; intros p r H; cbn [mint_loop] in H.
  { apply mret_inv in H as [-> ->]. split; [done|]. split; [done|]. split; [done|]. by exists []. }
  apply sol_bind_inv in H as (w & p1 & [-> ->]%on_machine_view & H).
  apply sol_bind_inv in H as (m & p1 & [-> ->]%on_transfers_view & H). cbn [id] in H.
  destruct (must_refund _ _ _ _ _) eqn:Hm.
  - apply sol_bind_inv in H as (r1 & p1 & H1 & [-> ->]%mret_inv). apply IH in H1 as (Hf & Hw & Hp & refunded & Hr & Hl). cbn.
    split; [done|]. split; [done|]. split; [done|]. exists (t :: refunded). split; [cbn; by rewrite Hr|].
    by rewrite <-Permutation_middle, Hl.
  - apply sol_bind_inv in H as (u & p1 & [Hx%machine_inv Hf1]%on_machine_inv & H).
    apply sol_bind_inv in H as (r1 & p2 & H1 & [-> ->]%mret_inv). apply IH in H1 as (Hf & Hw & Hp & refunded & Hr & Hl). cbn.
    rewrite Hf1 in *. split; [done|]. split; [by rewrite Hx|]. split; [constructor; [by eapply not_refunded_payable|done]|].
    exists refunded. split; [done|]. cbn. by rewrite Hl.
Qed.

Lemma wrap_tokens_inv l (p p' : transfers * W) payments : wrap_tokens V self l p = Done payments p' ->
  fst p' = fst p /\ wrapped (wrapping_contract_address (fst p)) l payments (snd p) (snd p').
Proof.
  unfold wrap_tokens, wrapped. intros (a & p1 & [-> ->]%on_transfers_view & H)%sol_bind_inv.
  destruct (wrapping_contract_address (fst p)) as [a|].
  - apply on_machine_inv in H as [H ->]. split; [done|]. destruct (wrap_tokens_at _ _ _ _ _) as [[x w]|]; [|done].
    injection H as -> ->. done.
  - by apply mret_inv in H as [-> ->].
Qed.

Lemma pay_loop_inv swapping l (p p' : transfers * W) u : pay_loop V self swapping l p = Done u p' ->
  fst p' = fst p /\ pay_all swapping l (snd p) = Some (snd p').
Proof.
  revert p u. induction l as [|[dest [token n]] l IH]; intros p u H; cbn [pay_loop] in H; [by apply mret_inv in H as [-> ->]|].
  apply sol_bind_inv in H as (x & p1 & [Hx%machine_inv Hf]%on_machine_inv & H). apply IH in H as [Hf' Hp].
  split; [congruence|]. cbn. rewrite Hx. exact Hp.
Qed.

(** Without a payment nothing is paid; otherwise the swapping contract pays. *)
Lemma distribute_payments_inv dests payments (p p' : transfers * W) u : distribute_payments V self dests payments p = Done u p' ->
  fst p' = fst p /\ ((zip dests payments = [] /\ snd p' = snd p) \/
    exists a, swapping_contract_address (fst p) = Some a /\ pay_all a (zip dests payments) (snd p) = Some (snd p')).
Proof.
  unfold distribute_payments. destruct (zip dests payments) as [|x l] eqn:Ez.
  - intros [_ ->]%mret_inv. split; [done|]. by left.
  - intros (a & p1 & [-> ->]%on_transfers_view & H)%sol_bind_inv. destruct (swapping_contract_address (fst p)) as [a|]; [|done].
    apply pay_loop_inv in H as [Hf Hp]. split; [done|]. right. by exists a.
Qed.

Lemma t_owner_only_inv caller (p p' : transfers * W) u : t_owner_only caller p = Done u p' -> caller = t_owner (fst p) /\ p' = p.
Proof.
  intros (s & (o & s1 & [-> ->]%view_inv & [->%bool_decide_eq_true ->]%require_inv)%sol_bind_inv & ->)%at_part_inv.
  split; [done|]. by destruct p.
Qed.

Lemma on_t_batches_inv {A} (c : Sol batches A) (p p' : transfers * W) a : on_t_batches c p = Done a p' ->
  snd p' = snd p /\ exists b, c (t_batches (fst p)) = Done a b /\ fst p' = put_t_batches b (fst p).
Proof. intros (t & (b & H & ->)%at_part_inv & ->)%at_part_inv. cbn. eauto. Qed.

(** C19. A performed batch of transfers from Ethereum loses none of them: the batch splits into the
    transfers that are paid and those that are refunded.  The paid ones - none of them to nobody,
    to a contract or above the maximal amount - are minted one by one, wrapped, and paid to their
    receivers in their order; the refunded ones stand, with their senders, receivers, amounts and
    nonces, at the end of the queue of refunds, and nothing else of the contract changes. *)
Theorem transfers_paid_or_refunded (caller : address) (now batch_id : Z) (txs : list EthTransaction) (s s' : transfers) (w w' : W) (u : unit) :
  batch_wf (t_batches s) ->
  batch_transfer_esdt_token V self caller now batch_id txs (s, w) = Done u (s', w') ->
  caller = t_owner s /\ batch_wf (t_batches s') /\ s' = put_t_batches (t_batches s') s /\
  exists paid refunded payments w1 w2,
    paid ++ refunded ≡ₚ txs /\ Forall (payable (t_max_bridged s)) paid /\
    queue (t_batches s') = queue (t_batches s) ++ (convert_to_refund_tx now <$> refunded) /\
    mint_all paid w = Some w1 /\
    wrapped (wrapping_contract_address s) ((fun t => (et_token t, et_amount t)) <$> paid) payments w1 w2 /\
    ((zip (et_to <$> paid) payments = [] /\ w' = w2) \/
     exists swapping, swapping_contract_address s = Some swapping /\ pay_all swapping (zip (et_to <$> paid) payments) w2 = Some w').
Proof.
  intros Hwf. unfold batch_transfer_esdt_token. intros (? & p & [-> ->]%t_owner_only_inv & H)%sol_bind_inv.
  apply sol_bind_inv in H as ([paid news] & p1 & (Hf1 & Hm & Hp & refunded & -> & Hl)%mint_loop_inv & H). cbn [fst snd] in *.
  apply sol_bind_inv in H as (payments & p2 & [Hf2 Hw]%wrap_tokens_inv & H).
  apply sol_bind_inv in H as (? & p3 & [Hf3 Hd]%distribute_payments_inv & H).
  apply sol_bind_inv in H as (ids & p4 & (Hw4 & b & Hb & Hf4)%on_t_batches_inv & [-> Hp4]%mret_inv).
  assert (Hs : fst p3 = s) by (rewrite Hf3, Hf2; exact Hf1). rewrite Hs in Hb, Hf4.
  rewrite <-Hp4 in Hw4, Hf4. cbn [fst snd] in Hw4, Hf4. subst s'. cbn.
  apply add_multiple_grown in Hb. split; [done|]. split; [by apply Hb|]. split; [done|].
  exists paid, refunded, payments, (snd p1), (snd p2). rewrite Hf1 in Hw. rewrite Hf2, Hf1 in Hd. rewrite Hw4.
  split; [done|]. split; [done|]. split; [by apply Hb|]. done.
Qed.

(** ** The owner stays *)

Abbreviation owned := (related (same (fun p : transfers * W => t_owner (fst p)))).

Lemma owned_transfers {A} (c : Sol transfers A) : related (same t_owner) c -> owned (on_transfers c).
Proof. intros H. eapply (related_at_part _ _); [exact H|]. by intros s p E. Qed.

Lemma owned_t_batches {A} (c : Sol batches A) : owned (on_t_batches c).
Proof. apply owned_transfers. apply (related_at_part _ (fun _ _ => True)); done. Qed.

Lemma owned_t_owner_only caller : owned (t_owner_only caller).
Proof. apply owned_transfers. unfold only_owner. related. Qed.

Ltac owned_step :=
  lazymatch goal with
  | |- related _ (on_t_batches _) => apply owned_t_batches
  | |- related _ (on_transfers _) => apply owned_transfers
  | |- related _ (t_owner_only _) => apply owned_t_owner_only
  | |- _ => related_step
  end.

Lemma owned_set_wrapping caller a : owned (set_wrapping_contract_address V caller a).
Proof. unfold set_wrapping_contract_address. repeat owned_step; done. Qed.
Lemma owned_set_swapping caller a : owned (set_swapping_contract_address V caller a).
Proof. unfold set_swapping_contract_address. repeat owned_step; done. Qed.
Lemma owned_set_max_bridged caller token n : owned (t_set_max_bridged_amount caller token n).
Proof. unfold t_set_max_bridged_amount. repeat owned_step; done. Qed.
Lemma owned_set_size caller n : owned (t_set_max_tx_batch_size caller n).
Proof. unfold t_set_max_tx_batch_size. repeat owned_step; done. Qed.
Lemma owned_set_duration caller n : owned (t_set_max_tx_batch_block_duration caller n).
Proof. unfold t_set_max_tx_batch_block_duration. repeat owned_step; done. Qed.
Lemma owned_take_refunds caller : owned (get_and_clear_first_refund_batch caller).
Proof. unfold get_and_clear_first_refund_batch. repeat owned_step; done. Qed.
Lemma owned_batch_transfer caller now id l : owned (batch_transfer_esdt_token V self caller now id l).
Proof.
  unfold batch_transfer_esdt_token. apply related_bind; [apply _|apply owned_t_owner_only|intros []].
  apply related_bind; [apply _| |intros r].
  { intros p r p' (E & _)%mint_loop_inv. unfold same. by rewrite E. }
  apply related_bind; [apply _| |intros x].
  { intros p y p' (E & _)%wrap_tokens_inv. unfold same. by rewrite E. }
  apply related_bind; [apply _| |intros []].
  { intros p y p' (E & _)%distribute_payments_inv. unfold same. by rewrite E. }
  repeat owned_step.
Qed.
End Facts.

End MultiTransferFacts.
