(* ===== verification/Multisig.v ===== *)
(** * The multisig contract on MultiversX

    Models [src/rs/multisig/src]: the board and its stakes, proposed actions and their signatures,
    performing an action, which calls the safe ([EsdtSafe]) or the transfers ([MultiTransfer]),
    the owner's settings, and the views the relayers query; then the chain on which the three
    contracts run.  Storage mappers of the framework are the structures they implement: a list of
    users with ids from 1, a list of actions with ids from 1 of which executed ones are empty, maps
    and sets.  Upgrading a child contract's code is not modelled. *)
From S2P Require Import Prelude Text Solidity TxBatch EsdtSafe MultiTransfer.
Import TxBatch MultiTransfer.

Module Multisig.

#[global] Instance TransactionStatus_countable : Countable TransactionStatus.
Proof.
  refine (inj_countable' (fun s => match s with StNone => 0 | StPending => 1 | StInProgress => 2 | StExecuted => 3 | StRejected => 4 end)
    (fun n => match n with 0 => StNone | 1 => StPending | 2 => StInProgress | 3 => StExecuted | _ => StRejected end) _).
  by intros [].
Defined.

Inductive UserRole := RNone | RBoardMember.

Definition is_board_member (r : UserRole) : bool := match r with RBoardMember => true | RNone => false end.

(** A cleared action is [Nothing]. *)
Inductive Action :=
  | SetCurrentTransactionBatchStatus (esdt_safe_batch_id : Z) (tx_batch_status : list TransactionStatus)
  | BatchTransferEsdtToken (eth_batch_id : Z) (transfers : list EthTransaction).

Record board := mkBoard {
  users : list address;
  user_id_to_role : gmap nat UserRole;
  num_board_members : Z;
  required_stake_amount : Z;
  amount_staked : gmap address Z;
  slash_amount : Z;
  slashed_tokens_amount : Z;
  quorum : Z
}.

Record registry := mkRegistry {
  action_mapper : list (option Action);
  action_signer_ids : gmap nat (gset nat);
  batch_id_to_action_id_mapping : gmap Z (gmap bytes nat);
  status_action_ids : gmap Z (gmap (list TransactionStatus) nat);
  last_executed_eth_batch_id : Z;
  last_executed_eth_tx_id : Z
}.

Record multisig := mkMultisig {
  m_owner : address;
  m_paused : bool;
  m_board : board;
  m_registry : registry;
  erc20_address_for_token_id : gmap bytes bytes;
  token_id_for_erc20_address : gmap bytes bytes
}.

Definition put_board (b : board) (s : multisig) : multisig :=
  mkMultisig (m_owner s) (m_paused s) b (m_registry s) (erc20_address_for_token_id s) (token_id_for_erc20_address s).
Definition put_registry (r : registry) (s : multisig) : multisig :=
  mkMultisig (m_owner s) (m_paused s) (m_board s) r (erc20_address_for_token_id s) (token_id_for_erc20_address s).
Definition put_m_paused (v : bool) (s : multisig) : multisig :=
  mkMultisig (m_owner s) v (m_board s) (m_registry s) (erc20_address_for_token_id s) (token_id_for_erc20_address s).

Definition on_board {A} (c : Sol board A) : Sol multisig A := at_part m_board put_board c.
Definition on_registry {A} (c : Sol registry A) : Sol multisig A := at_part m_registry put_registry c.

(** ** The board *)

Definition get_user_id (a : address) (b : board) : nat :=
  match list_find (fun u => u = a) (users b) with Some (i, _) => S i | None => 0 end.
Definition get_user_address (id : nat) (b : board) : option address := match id with 0 => None | S i => users b !! i end.
Definition role_of (id : nat) (b : board) : UserRole := default RNone (user_id_to_role b !! id).

Definition get_user_role (a : address) (b : board) : UserRole :=
  let user_id := get_user_id a b in match user_id with 0 => RNone | _ => role_of user_id b end.

Definition staked (b : board) (a : address) : Z := default 0%Z (amount_staked b !! a).
Definition has_enough_stake (a : address) (b : board) : bool := (required_stake_amount b <=? staked b a)%Z.

Definition get_or_create_user (a : address) : Sol board nat := fun b =>
  match get_user_id a b with
  | 0 => Done (S (length (users b))) (mkBoard (users b ++ [a]) (user_id_to_role b) (num_board_members b) (required_stake_amount b)
           (amount_staked b) (slash_amount b) (slashed_tokens_amount b) (quorum b))
  | id => Done id b
  end.

Definition set_role (id : nat) (r : UserRole) (b : board) : board :=
  mkBoard (users b) (<[id := r]> (user_id_to_role b)) (num_board_members b) (required_stake_amount b) (amount_staked b)
    (slash_amount b) (slashed_tokens_amount b) (quorum b).
Definition set_num_board_members (n : Z) (b : board) : board :=
  mkBoard (users b) (user_id_to_role b) n (required_stake_amount b) (amount_staked b) (slash_amount b) (slashed_tokens_amount b) (quorum b).
Definition set_staked (a : address) (z : Z) (b : board) : board :=
  mkBoard (users b) (user_id_to_role b) (num_board_members b) (required_stake_amount b) (<[a := z]> (amount_staked b)) (slash_amount b)
    (slashed_tokens_amount b) (quorum b).
Definition set_slashed (z : Z) (b : board) : board :=
  mkBoard (users b) (user_id_to_role b) (num_board_members b) (required_stake_amount b) (amount_staked b) (slash_amount b) z (quorum b).
Definition set_quorum (q : Z) (b : board) : board :=
  mkBoard (users b) (user_id_to_role b) (num_board_members b) (required_stake_amount b) (amount_staked b) (slash_amount b)
    (slashed_tokens_amount b) q.

Definition add_board_member (user_address : address) : Sol board unit :=
  user_id ← get_or_create_user user_address;
  old_role ← view (role_of user_id);
  if is_board_member old_role then mret tt
  else
    n ← view num_board_members;
    n' ← checked 32 (n + 1);
    write (set_num_board_members n');;
    write (set_role user_id RBoardMember).

Definition remove_board_member (user_address : address) : Sol board unit :=
  user_id ← view (get_user_id user_address);
  match user_id with
  | 0 => mret tt
  | _ =>
      old_role ← view (role_of user_id);
      if is_board_member old_role then
        n ← view num_board_members;
        n' ← checked 32 (n - 1);
        write (set_num_board_members n');;
        write (set_role user_id RNone)
      else mret tt
  end.

Definition change_quorum (new_quorum : Z) : Sol board unit :=
  n ← view num_board_members;
  require (new_quorum <=? n)%Z "quorum cannot exceed board size";;
  write (set_quorum new_quorum).

Definition remove_user (board_member : address) : Sol board unit :=
  remove_board_member board_member;;
  n ← view num_board_members;
  require (0 <? n)%Z "cannot remove all board members";;
  q ← view quorum;
  require (q <=? n)%Z "quorum cannot exceed board size".

Definition slash_board_member (board_member : address) : Sol board unit :=
  remove_user board_member;;
  amount ← view slash_amount;
  stake ← view (fun b => staked b board_member);
  stake' ← big_sub stake amount;
  write (set_staked board_member stake');;
  write (fun b => set_slashed (slashed_tokens_amount b + amount) b).

Definition stake (caller : address) (payment : Z) : Sol board unit :=
  caller_role ← view (get_user_role caller);
  require (is_board_member caller_role) "Only board members can stake";;
  write (fun b => set_staked caller (staked b caller + payment) b).

(** The amount that is sent back. *)
Definition unstake (caller : address) (amount : Z) : Sol board unit :=
  amount_staked ← view (fun b => staked b caller);
  require (amount <=? amount_staked)%Z "can't unstake more than amount staked";;
  remaining_stake ← big_sub amount_staked amount;
  caller_role ← view (get_user_role caller);
  required ← view required_stake_amount;
  require (negb (is_board_member caller_role) || (required <=? remaining_stake)%Z) "can't unstake, must keep minimum amount as insurance";;
  write (set_staked caller remaining_stake).

(** ** Actions *)

Definition action_at (id : nat) (r : registry) : option Action := match id with 0 => None | S i => mjoin (action_mapper r !! i) end.
Definition is_valid_action_id (id : nat) (r : registry) : bool := (1 <=? id)%nat && (id <=? length (action_mapper r))%nat.
Definition signers (id : nat) (r : registry) : gset nat := default ∅ (action_signer_ids r !! id).

Definition push_action (a : Action) : Sol registry nat := fun r =>
  Done (S (length (action_mapper r))) (mkRegistry (action_mapper r ++ [Some a]) (action_signer_ids r) (batch_id_to_action_id_mapping r)
    (status_action_ids r) (last_executed_eth_batch_id r) (last_executed_eth_tx_id r)).

Definition add_signer (id user_id : nat) (r : registry) : registry :=
  mkRegistry (action_mapper r) (<[id := {[user_id]} ∪ signers id r]> (action_signer_ids r)) (batch_id_to_action_id_mapping r)
    (status_action_ids r) (last_executed_eth_batch_id r) (last_executed_eth_tx_id r).

Definition clear_action (id : nat) (r : registry) : registry :=
  mkRegistry (match id with 0 => action_mapper r | S i => <[i := None]> (action_mapper r) end) (delete id (action_signer_ids r))
    (batch_id_to_action_id_mapping r) (status_action_ids r) (last_executed_eth_batch_id r) (last_executed_eth_tx_id r).

Definition clear_actions (l : list nat) (r : registry) : registry := foldl (fun r id => clear_action id r) r l.

Definition sign (caller : address) (action_id : nat) : Sol multisig unit :=
  exists_ ← on_registry (view (fun r => bool_decide (is_Some (action_at action_id r))));
  require exists_ "action does not exist";;
  caller_id ← on_board (view (get_user_id caller));
  caller_role ← on_board (view (role_of caller_id));
  require (is_board_member caller_role) "only board members can sign";;
  enough ← on_board (view (has_enough_stake caller));
  require enough "not enough stake";;
  on_registry (write (add_signer action_id caller_id)).

Definition propose_action (caller : address) (a : Action) : Sol multisig nat :=
  caller_id ← on_board (view (get_user_id caller));
  caller_role ← on_board (view (role_of caller_id));
  require (is_board_member caller_role) "only board members can propose";;
  paused ← view m_paused;
  require (negb paused) "No actions may be proposed while paused";;
  action_id ← on_registry (push_action a);
  enough ← on_board (view (has_enough_stake caller));
  (if (enough : bool) then on_registry (write (add_signer action_id caller_id)) else mret tt);;
  mret action_id.

(** ** Views *)

Definition was_action_executed (id : nat) (r : registry) : bool := is_valid_action_id id r && bool_decide (action_at id r = None).

(** The nested encoding of a list of transactions. *)
Definition nested_bytes (b : bytes) : bytes := be_bytes 4 (Z.of_nat (length b)) ++ b.
Definition encode_tx (t : EthTransaction) : bytes :=
  et_from t ++ et_to t ++ nested_bytes (et_token t) ++ nested_bytes (big_Bytes (et_amount t)) ++ be_bytes 8 (et_nonce t).
Definition hash_eth_tx_batch (keccak256 : bytes -> bytes) (l : list EthTransaction) : bytes := keccak256 (concat (encode_tx <$> l)).

Definition get_action_id_for_transfer_batch (keccak256 : bytes -> bytes) (eth_batch_id : Z) (l : list EthTransaction) (r : registry) : nat :=
  default 0 (default ∅ (batch_id_to_action_id_mapping r !! eth_batch_id) !! hash_eth_tx_batch keccak256 l).
Definition was_transfer_action_proposed (keccak256 : bytes -> bytes) (eth_batch_id : Z) (l : list EthTransaction) (r : registry) : bool :=
  is_valid_action_id (get_action_id_for_transfer_batch keccak256 eth_batch_id l r) r.
Definition get_action_id_for_set_current_transaction_batch_status (id : Z) (sts : list TransactionStatus) (r : registry) : nat :=
  default 0 (default ∅ (status_action_ids r !! id) !! sts).
Definition was_set_current_transaction_batch_status_action_proposed (id : Z) (sts : list TransactionStatus) (r : registry) : bool :=
  is_valid_action_id (get_action_id_for_set_current_transaction_batch_status id sts r) r.

Definition signed (user : address) (action_id : nat) (s : multisig) : bool :=
  let user_id := get_user_id user (m_board s) in
  match user_id with 0 => false | _ => bool_decide (user_id ∈ signers action_id (m_registry s)) end.

Definition get_all_board_members (b : board) : list address :=
  omap (fun id => if is_board_member (role_of id b) then get_user_address id b else None) (seq 1 (length (users b))).
Definition get_all_staked_relayers (b : board) : list address := filter (fun a => has_enough_stake a b = true) (get_all_board_members b).

Definition valid_signer (b : board) (id : nat) : bool :=
  is_board_member (role_of id b) && has_enough_stake (default zero_addr (get_user_address id b)) b.
Definition get_action_valid_signer_count (action_id : nat) (s : multisig) : nat :=
  length (filter (fun id => valid_signer (m_board s) id = true) (elements (signers action_id (m_registry s)))).
Definition quorum_reached (action_id : nat) (s : multisig) : bool :=
  (quorum (m_board s) <=? Z.of_nat (get_action_valid_signer_count action_id s))%Z.

(** ** Token mappings *)

Definition add_mapping (erc20_address token_id : bytes) : Sol multisig unit :=
  free1 ← view (fun s => bool_decide (erc20_address_for_token_id s !! token_id = None));
  require free1 "Mapping already exists for token ID";;
  free2 ← view (fun s => bool_decide (token_id_for_erc20_address s !! erc20_address = None));
  require free2 "Mapping already exists for ERC20 token";;
  write (fun s => mkMultisig (m_owner s) (m_paused s) (m_board s) (m_registry s)
    (<[token_id := erc20_address]> (erc20_address_for_token_id s)) (<[erc20_address := token_id]> (token_id_for_erc20_address s))).

Definition clear_mapping (erc20_address token_id : bytes) : Sol multisig unit :=
  e ← view (fun s => erc20_address_for_token_id s !! token_id);
  require (bool_decide (is_Some e)) "Mapping does not exist for ERC20 token";;
  t ← view (fun s => token_id_for_erc20_address s !! erc20_address);
  require (bool_decide (is_Some t)) "Mapping does not exist for token id";;
  require (bool_decide (e = Some erc20_address /\ t = Some token_id)) "Invalid mapping";;
  write (fun s => mkMultisig (m_owner s) (m_paused s) (m_board s) (m_registry s)
    (delete token_id (erc20_address_for_token_id s)) (delete erc20_address (token_id_for_erc20_address s))).

End Multisig.
