(* ===== verification/MultisigFacts.v ===== *)
(** * The board and the registry of actions

    Users keep their ids, only users are board members, and a reached quorum is a list of distinct
    board members with enough stake who have signed; an action and its signatures are only ever
    forgotten together. *)
From S2P Require Import Prelude Text Solidity TxBatch TxBatchFacts EsdtSafe MultiTransfer Multisig.
Import TxBatch.

Module MultisigFacts.
Import MultiTransfer Multisig.

(** ** The board *)

Record board_wf (b : board) : Prop := {
  bo_users : NoDup (users b);
  bo_roles : forall id, is_board_member (role_of id b) = true -> is_Some (get_user_address id b)
}.

Definition board_step (b b' : board) : Prop := (board_wf b -> board_wf b') /\ users b `prefix_of` users b'.

#[export] Instance board_step_preorder : PreOrder board_step.
Proof. split; [by intros b|]. intros b1 b2 b3 [H1 P1] [H2 P2]. split; [auto|]. by etransitivity. Qed.

Lemma get_user_id_S a b i : get_user_id a b = S i -> users b !! i = Some a.
Proof.
  unfold get_user_id. destruct (list_find _ _) as [[j x]|] eqn:E; [|done]. intros [= ->].
  by apply list_find_Some in E as (H & -> & _).
Qed.

Lemma get_user_id_0 a b : get_user_id a b = 0 -> a ∉ users b.
Proof.
  unfold get_user_id. destruct (list_find _ _) as [[j x]|] eqn:E; [done|]. intros _ Hin.
  apply list_find_None in E. rewrite Forall_forall in E. by apply (E a).
Qed.

Lemma get_user_id_address a b id : NoDup (users b) -> get_user_address id b = Some a -> get_user_id a b = id.
Proof.
  intros Hnd H. destruct id as [|i]; [done|]. cbn in H. destruct (get_user_id a b) as [|j] eqn:E.
  - apply get_user_id_0 in E. destruct E. by eapply list_elem_of_lookup_2.
  - apply get_user_id_S in E. f_equal. by eapply NoDup_lookup.
Qed.

Lemma get_user_address_mono b b' id a : users b `prefix_of` users b' -> get_user_address id b = Some a -> get_user_address id b' = Some a.
Proof. intros H. destruct id as [|i]; [done|]. cbn. intros Hi. by eapply prefix_lookup_Some. Qed.

(** A board member with an id is a user, so its role is found by its address. *)
Lemma member_address b a : board_wf b -> is_board_member (role_of (get_user_id a b) b) = true -> get_user_address (get_user_id a b) b = Some a.
Proof.
  intros Hb H. apply (bo_roles _ Hb) in H as [x Hx]. destruct (get_user_id a b) as [|i] eqn:E; [done|]. by apply get_user_id_S in E.
Qed.

(** Changes that leave the users and the roles alone. *)
Lemma board_step_same b b' : users b' = users b -> user_id_to_role b' = user_id_to_role b -> board_step b b'.
Proof.
  intros Hu Hr. split; [|by rewrite Hu]. intros [H1 H2]. split; [by rewrite Hu|].
  intros id. unfold role_of, get_user_address. rewrite Hr, Hu. apply H2.
Qed.

Lemma board_step_role id r b : (r = RBoardMember -> is_Some (get_user_address id b)) -> board_step b (set_role id r b).
Proof.
  intros Hr. split; [|done]. intros [H1 H2]. split; [done|]. intros j. unfold role_of. cbn. destruct (decide (j = id)) as [->|Hne].
  - rewrite lookup_insert_eq. cbn. destruct r; [done|]. by intros _; apply Hr.
  - rewrite lookup_insert_ne by done. apply H2.
Qed.

Lemma get_or_create_user_inv a b id b' : get_or_create_user a b = Done id b' -> board_step b b' /\ get_user_address id b' = Some a.
Proof.
  unfold get_or_create_user. destruct (get_user_id a b) as [|i] eqn:E; intros [= <- <-].
  - cbn. split; [|by rewrite lookup_app_r, Nat.sub_diag by lia]. split; [|by apply prefix_app_r]. intros [H1 H2]. split; cbn.
    + apply NoDup_app. split; [done|]. split; [|apply NoDup_singleton]. intros x Hx ->%list_elem_of_singleton. by apply get_user_id_0 in E.
    + intros j Hj. destruct (H2 j Hj) as [x Hx]. destruct j as [|j]; [done|]. exists x. cbn in *. by apply lookup_app_l_Some.
  - split; [done|]. by apply get_user_id_S in E.
Qed.

Ltac board_done := apply board_step_same; done.

Lemma add_board_member_step a : related board_step (add_board_member a).
Proof.
  intros b u b'' (id & b1 & [Hs Ha]%get_or_create_user_inv & H)%sol_bind_inv. transitivity b1; [done|]. clear Hs b.
  apply sol_bind_inv in H as (r & b2 & [-> ->]%view_inv & H). destruct (is_board_member _); [by apply mret_inv in H as [_ ->]|].
  apply sol_bind_inv in H as (n & b2 & [-> ->]%view_inv & H). apply sol_bind_inv in H as (n & b2 & (-> & -> & _)%checked_inv & H).
  apply sol_bind_inv in H as (? & b2 & ->%write_inv & ->%write_inv). transitivity (set_num_board_members (num_board_members b1 + 1) b1); [board_done|].
  by apply board_step_role.
Qed.

Lemma remove_board_member_step a : related board_step (remove_board_member a).
Proof.
  unfold remove_board_member. apply related_bind; [apply _|related|intros id]. destruct id as [|id]; [related|].
  apply related_bind; [apply _|related|intros r]. destruct (is_board_member r); [|related].
  repeat (apply related_bind; [apply _| |intros ?]); [apply related_view|apply related_checked| |]; try apply _.
  - apply related_write. intros s. board_done.
  - apply related_write. intros s. by apply board_step_role.
Qed.

Lemma change_quorum_step q : related board_step (change_quorum q).
Proof. unfold change_quorum. related. board_done. Qed.

Lemma remove_user_step a : related board_step (remove_user a).
Proof. unfold remove_user. related. apply remove_board_member_step. Qed.

Lemma slash_board_member_step a : related board_step (slash_board_member a).
Proof. unfold slash_board_member, big_sub. related; [apply remove_user_step|board_done..]. Qed.

Lemma stake_step caller n : related board_step (stake caller n).
Proof. unfold stake. related. board_done. Qed.

Lemma unstake_step caller n : related board_step (unstake caller n).
Proof. unfold unstake, big_sub. related; board_done. Qed.

(** ** The quorum *)

(** Distinct board members with enough stake, whose signatures of the action the contract keeps. *)
Definition voters (id : nat) (s : multisig) (l : list address) : Prop :=
  NoDup l /\ (quorum (m_board s) <= Z.of_nat (length l))%Z /\
  forall a, a ∈ l -> get_user_role a (m_board s) = RBoardMember /\ has_enough_stake a (m_board s) = true /\ signed a id s = true.

Lemma quorum_voters id s : board_wf (m_board s) -> quorum_reached id s = true -> exists l, voters id s l.
Proof.
  intros Hb Hq. unfold quorum_reached, get_action_valid_signer_count in Hq. apply Z.leb_le in Hq.
  set (ids := filter _ _) in Hq. pose (addr := fun uid => default zero_addr (get_user_address uid (m_board s))).
  assert (Hin : forall uid, uid ∈ ids -> uid ∈ signers id (m_registry s) /\ get_user_address uid (m_board s) = Some (addr uid) /\
    is_board_member (role_of uid (m_board s)) = true /\ has_enough_stake (addr uid) (m_board s) = true).
  { intros uid [Hv Hs%elem_of_elements]%list_elem_of_filter. apply andb_true_iff in Hv as [Hr He]. split; [done|].
    destruct (bo_roles _ Hb uid Hr) as [a Ha]. unfold addr. by rewrite Ha in *. }
  exists (addr <$> ids). split; [|split].
  - apply NoDup_fmap_2_strong; [|apply NoDup_filter, NoDup_elements]. intros x y Hx Hy Exy.
    apply Hin in Hx as (_ & Hx & _). apply Hin in Hy as (_ & Hy & _). rewrite <-Exy in Hy.
    apply get_user_id_address in Hx; [|apply Hb]. apply get_user_id_address in Hy; [|apply Hb]. congruence.
  - by rewrite length_fmap.
  - intros a (uid & -> & Hu)%list_elem_of_fmap. apply Hin in Hu as (Hs & Ha & Hr & He).
    pose proof (get_user_id_address _ _ _ (bo_users _ Hb) Ha) as Hid. unfold get_user_role, signed. rewrite Hid.
    destruct uid as [|uid]; [done|]. split; [by destruct (role_of _ _)|]. split; [done|]. by apply bool_decide_eq_true.
Qed.

(** ** The registry *)

(** Actions may have been forgotten, with their signatures. *)
Definition shrunk (r r' : registry) : Prop := forall id,
  (action_at id r' = None /\ signers id r' = ∅) \/ (action_at id r' = action_at id r /\ signers id r' = signers id r).

#[export] Instance shrunk_preorder : PreOrder shrunk.
Proof.
  split; [by right|]. intros r1 r2 r3 H1 H2 id. destruct (H2 id) as [?|[-> ->]]; [by left|apply H1].
Qed.

Lemma action_at_clear id r j : action_at j (clear_action id r) = if decide (j = id) then None else action_at j r.
Proof.
  unfold action_at, clear_action. cbn. destruct j as [|j]; [by case_decide|]. destruct id as [|i]; [by rewrite decide_False|].
  case_decide as H.
  - injection H as ->. destruct (decide (i < length (action_mapper r))) as [Hl|Hl]; [by rewrite list_lookup_insert_eq|].
    rewrite list_insert_ge by lia. by rewrite lookup_ge_None_2 by lia.
  - rewrite list_lookup_insert_ne; [done|]. congruence.
Qed.

Lemma signers_clear id r j : signers j (clear_action id r) = if decide (j = id) then ∅ else signers j r.
Proof. unfold signers, clear_action. cbn. case_decide as H; [subst; by rewrite lookup_delete_eq|by rewrite lookup_delete_ne]. Qed.

Lemma clear_action_shrunk id r : shrunk r (clear_action id r).
Proof. intros j. rewrite action_at_clear, signers_clear. case_decide; auto. Qed.

Lemma clear_actions_shrunk l r : shrunk r (clear_actions l r).
Proof.
  unfold clear_actions. revert r. induction l as [|id l IH]; intros r; [done|]. cbn. etransitivity; [apply clear_action_shrunk|apply IH].
Qed.

Lemma clear_actions_gone l r id : id ∈ l -> action_at id (clear_actions l r) = None.
Proof.
  unfold clear_actions. revert r. induction l as [|j l IH]; intros r; [by intros ?%not_elem_of_nil|]. cbn.
  intros [->|Hl]%elem_of_cons; [|by apply IH].
  destruct (clear_actions_shrunk l (clear_action j r) j) as [[H _]|[H _]]; unfold clear_actions in H; rewrite H; [done|].
  rewrite action_at_clear. by rewrite decide_True.
Qed.

Lemma action_at_push a r r' id : push_action a r = Done id r' ->
  id = S (length (action_mapper r)) /\ action_at id r = None /\
  (forall j, action_at j r' = if decide (j = id) then Some a else action_at j r) /\ (forall j, signers j r' = signers j r).
Proof.
  intros [= <- <-]. split; [done|]. split; [cbn; by rewrite lookup_ge_None_2 by lia|]. split; [|done].
  intros [|j]; [done|]. cbn. case_decide as H.
  - injection H as ->. by rewrite lookup_app_r, Nat.sub_diag by lia.
  - destruct (decide (j < length (action_mapper r))) as [Hl|Hl]; [by rewrite lookup_app_l|].
    rewrite lookup_app_r by lia. rewrite (lookup_ge_None_2 (action_mapper r)) by lia.
    destruct (j - length (action_mapper r)) as [|k] eqn:Ek; [|done]. exfalso. apply H. f_equal. lia.
Qed.

Lemma signers_add id uid r j : signers j (add_signer id uid r) = if decide (j = id) then {[uid]} ∪ signers id r else signers j r.
Proof.
  unfold signers at 1, add_signer. cbn. case_decide as H; [subst; by rewrite lookup_insert_eq|]. by rewrite lookup_insert_ne.
Qed.
End MultisigFacts.
