(* ===== verification/MvxContracts.v ===== *)
(** * The three contracts on the MultiversX chain

    The endpoints of [src/rs/multisig/src/lib.rs] and [setup.rs] that call the other contracts -
    proposing statuses and transfers, performing actions, moving refunds, the owner's settings -
    and the chain: blocks, and transactions of any account to any of the contracts. *)
From S2P Require Import Prelude Text Solidity TxBatch EsdtSafe MultiTransfer Multisig.
Import TxBatch MultiTransfer Multisig.

Module MvxContracts.

(** ** Calls of the two child contracts *)

Inductive safe_call :=
  | SafeSetFeeEstimator (a : address)
  | SafeSetServiceFeeAddress (a : address)
  | SafeSetGasLimit (n : Z)
  | SafeSetServiceFeePercentage (n : Z)
  | SafeSetMaxServiceFee (n : Z)
  | SafeSetDefaultPrice (token : bytes) (n : Z)
  | SafeSetTicker (token ticker : bytes)
  | SafeAddToken (token ticker : bytes) (price : option Z)
  | SafeRemoveToken (token : bytes)
  | SafeDistributeFees (pairs : list (address * Z))
  | SafeSetMaxBridged (token : bytes) (n : Z)
  | SafeSetBatchSize (n : Z)
  | SafeSetBatchDuration (n : Z)
  | SafeSetPaused (v : bool)
  | SafeSetStatus (batch_id : Z) (sts : list TransactionStatus)
  | SafeAddRefund (txs : list Transaction)
  | SafeCreate (token : bytes) (amount : Z) (from to : bytes)
  | SafeClaim (token : bytes).

Inductive transfer_call :=
  | TrBatchTransfer (batch_id : Z) (txs : list EthTransaction)
  | TrTakeRefunds
  | TrSetWrapping (a : option address)
  | TrSetSwapping (a : option address)
  | TrSetMaxBridged (token : bytes) (n : Z)
  | TrSetBatchSize (n : Z)
  | TrSetBatchDuration (n : Z).

(** What [setup.rs] passes on to the children. *)
Definition safe_setting (c : safe_call) : bool :=
  match c with
  | SafeSetStatus _ _ | SafeAddRefund _ | SafeCreate _ _ _ _ | SafeClaim _ | SafeDistributeFees _ => false
  | _ => true
  end.
Definition transfer_setting (c : transfer_call) : bool :=
  match c with
  | TrSetWrapping _ | TrSetMaxBridged _ _ | TrSetBatchSize _ | TrSetBatchDuration _ => true
  | _ => false
  end.

Record contracts (W : Type) := mkContracts {
  c_multisig : multisig;
  c_safe : EsdtSafe.safe;
  c_transfers : transfers;
  c_world : W
}.
Arguments mkContracts {W} _ _ _ _.
Arguments c_multisig {W} _.
Arguments c_safe {W} _.
Arguments c_transfers {W} _.
Arguments c_world {W} _.

Section Contracts.
Context {W : Type} (V : vm W) (keccak256 : bytes -> bytes) (multisig_address safe_address transfers_address : address).

Definition safe_exec (caller : address) (now : Z) (c : safe_call) : Sol (EsdtSafe.safe * W) unit :=
  match c with
  | SafeSetFeeEstimator a => EsdtSafe.set_fee_estimator_contract_address caller a
  | SafeSetServiceFeeAddress a => EsdtSafe.set_service_fee_contract_address caller a
  | SafeSetGasLimit n => EsdtSafe.set_eth_tx_gas_limit caller n
  | SafeSetServiceFeePercentage n => EsdtSafe.set_service_fee_percentage caller n
  | SafeSetMaxServiceFee n => EsdtSafe.set_max_service_fee caller n
  | SafeSetDefaultPrice t n => EsdtSafe.set_default_price_per_gas_unit caller t n
  | SafeSetTicker t k => EsdtSafe.set_token_ticker caller t k
  | SafeAddToken t k p => EsdtSafe.add_token_to_whitelist caller t k p
  | SafeRemoveToken t => EsdtSafe.remove_token_from_whitelist caller t
  | SafeDistributeFees l => EsdtSafe.distribute_fees V safe_address caller l
  | SafeSetMaxBridged t n => EsdtSafe.set_max_bridged_amount caller t n
  | SafeSetBatchSize n => EsdtSafe.safe_set_max_tx_batch_size caller n
  | SafeSetBatchDuration n => EsdtSafe.safe_set_max_tx_batch_block_duration caller n
  | SafeSetPaused v => EsdtSafe.set_paused caller v
  | SafeSetStatus id sts => EsdtSafe.set_transaction_batch_status V safe_address caller id sts
  | SafeAddRefund l => EsdtSafe.add_refund_batch V caller now l
  | SafeCreate t n from to =>
      EsdtSafe.on_world (machine (direct_esdt V caller safe_address t n));; EsdtSafe.create_transaction V now t n from to
  | SafeClaim t => EsdtSafe.claim_refund V safe_address caller t;; mret tt
  end.

Definition transfer_exec (caller : address) (now : Z) (c : transfer_call) : Sol (transfers * W) unit :=
  match c with
  | TrBatchTransfer id l => batch_transfer_esdt_token V transfers_address caller now id l
  | TrTakeRefunds => get_and_clear_first_refund_batch caller;; mret tt
  | TrSetWrapping a => set_wrapping_contract_address V caller a
  | TrSetSwapping a => set_swapping_contract_address V caller a
  | TrSetMaxBridged t n => t_set_max_bridged_amount caller t n
  | TrSetBatchSize n => t_set_max_tx_batch_size caller n
  | TrSetBatchDuration n => t_set_max_tx_batch_block_duration caller n
  end.

Abbreviation C := (Sol (contracts W)).

Definition on_multisig {A} (c : Sol multisig A) : C A :=
  at_part c_multisig (fun m s => mkContracts m (c_safe s) (c_transfers s) (c_world s)) c.
Definition on_safe {A} (c : Sol (EsdtSafe.safe * W) A) : C A :=
  at_part (fun s => (c_safe s, c_world s)) (fun p s => mkContracts (c_multisig s) (fst p) (c_transfers s) (snd p)) c.
Definition on_transfers {A} (c : Sol (transfers * W) A) : C A :=
  at_part (fun s => (c_transfers s, c_world s)) (fun p s => mkContracts (c_multisig s) (c_safe s) (fst p) (snd p)) c.
Definition on_machine {A} (c : Sol W A) : C A :=
  at_part c_world (fun w s => mkContracts (c_multisig s) (c_safe s) (c_transfers s) w) c.

Definition multisig_owner_only (caller : address) : C unit := on_multisig (only_owner m_owner caller).

(** ** Proposing *)

(** The answer is split into [TX_MULTIRESULT_NR_FIELDS] values per transaction. *)
Definition current_batch_len (txs : list Transaction) : nat := length (concat (into_multiresult <$> txs)) / TX_MULTIRESULT_NR_FIELDS.

Definition propose_esdt_safe_set_current_transaction_batch_status (caller : address) (now : Z) (esdt_safe_batch_id : Z)
    (statuses_vec : list TransactionStatus) : C nat :=
  call_result ← view (fun s => get_current_tx_batch now (EsdtSafe.s_batches (c_safe s)));
  match call_result with
  | None => revert "Current batch is empty"
  | Some (current_batch_id, current_batch_transactions) =>
      proposed ← on_multisig (view (fun s => default ∅ (status_action_ids (m_registry s) !! esdt_safe_batch_id) !! statuses_vec));
      require (bool_decide (proposed = None)) "Action already proposed";;
      require (current_batch_len current_batch_transactions =? length statuses_vec)%nat
        "Number of statuses provided must be equal to number of transactions in current batch";;
      require (esdt_safe_batch_id =? current_batch_id)%Z "Current EsdtSafe tx batch does not have the provided ID";;
      action_id ← on_multisig (propose_action caller (SetCurrentTransactionBatchStatus esdt_safe_batch_id statuses_vec));
      on_multisig (on_registry (write (fun r => mkRegistry (action_mapper r) (action_signer_ids r) (batch_id_to_action_id_mapping r)
        (<[esdt_safe_batch_id := <[statuses_vec := action_id]> (default ∅ (status_action_ids r !! esdt_safe_batch_id))]> (status_action_ids r))
        (last_executed_eth_batch_id r) (last_executed_eth_tx_id r))));;
      mret action_id
  end.

Fixpoint require_valid_eth_tx_ids (current_expected_tx_id : Z) (l : list EthTransaction) : C unit :=
  match l with
  | [] => mret tt
  | t :: rest =>
      require (et_nonce t =? current_expected_tx_id)%Z "Invalid Tx ID";;
      next ← checked 64 (current_expected_tx_id + 1);
      require_valid_eth_tx_ids next rest
  end.

Definition propose_multi_transfer_esdt_batch (caller : address) (eth_batch_id : Z) (txs : list EthTransaction) : C nat :=
  r ← on_multisig (view m_registry);
  next_eth_batch_id ← checked 64 (last_executed_eth_batch_id r + 1);
  require (eth_batch_id =? next_eth_batch_id)%Z "Can only propose for next batch ID";;
  expected ← checked 64 (last_executed_eth_tx_id r + 1);
  require_valid_eth_tx_ids expected txs;;
  let batch_hash := hash_eth_tx_batch keccak256 txs in
  require (bool_decide (default ∅ (batch_id_to_action_id_mapping r !! eth_batch_id) !! batch_hash = None)) "This batch was already proposed";;
  action_id ← on_multisig (propose_action caller (BatchTransferEsdtToken eth_batch_id txs));
  on_multisig (on_registry (write (fun r => mkRegistry (action_mapper r) (action_signer_ids r)
    (<[eth_batch_id := <[batch_hash := action_id]> (default ∅ (batch_id_to_action_id_mapping r !! eth_batch_id))]> (batch_id_to_action_id_mapping r))
    (status_action_ids r) (last_executed_eth_batch_id r) (last_executed_eth_tx_id r))));;
  mret action_id.

(** ** Performing *)

(** The actions proposed for the batch are cleared when there is more than the performed one. *)
Definition clear_proposed {K} `{Countable K} (proposed : gmap K nat) (r : registry) : registry :=
  if (1 <? size proposed)%nat then clear_actions (snd <$> map_to_list proposed) r else r.

Definition forget_statuses (id : Z) (r : registry) : registry :=
  mkRegistry (action_mapper r) (action_signer_ids r) (batch_id_to_action_id_mapping r) (delete id (status_action_ids r))
    (last_executed_eth_batch_id r) (last_executed_eth_tx_id r).
Definition forget_transfers (id : Z) (r : registry) : registry :=
  mkRegistry (action_mapper r) (action_signer_ids r) (delete id (batch_id_to_action_id_mapping r)) (status_action_ids r)
    (last_executed_eth_batch_id r) (last_executed_eth_tx_id r).
Definition set_last_executed (batch_id tx_id : Z) (r : registry) : registry :=
  mkRegistry (action_mapper r) (action_signer_ids r) (batch_id_to_action_id_mapping r) (status_action_ids r) batch_id tx_id.

Definition perform_action (now : Z) (action_id : nat) : C unit :=
  action ← on_multisig (on_registry (view (action_at action_id)));
  on_multisig (on_registry (write (clear_action action_id)));;
  match action with
  | None => mret tt
  | Some (SetCurrentTransactionBatchStatus esdt_safe_batch_id tx_batch_status) =>
      on_multisig (on_registry (write (fun r =>
        forget_statuses esdt_safe_batch_id (clear_proposed (default ∅ (status_action_ids r !! esdt_safe_batch_id)) r))));;
      on_safe (safe_exec multisig_address now (SafeSetStatus esdt_safe_batch_id tx_batch_status))
  | Some (BatchTransferEsdtToken eth_batch_id txs) =>
      on_multisig (on_registry (write (fun r =>
        forget_transfers eth_batch_id (clear_proposed (default ∅ (batch_id_to_action_id_mapping r !! eth_batch_id)) r))));;
      n ← on_multisig (on_registry (view last_executed_eth_batch_id));
      n' ← checked 64 (n + 1);
      match last txs with
      | None => revert "panic occurred"
      | Some last_tx =>
          on_multisig (on_registry (write (set_last_executed n' (et_nonce last_tx))));;
          on_transfers (transfer_exec multisig_address now (TrBatchTransfer eth_batch_id txs))
      end
  end.

Definition perform_action_endpoint (caller : address) (now : Z) (action_id : nat) : C unit :=
  valid ← on_multisig (on_registry (view (is_valid_action_id action_id)));
  require valid "index out of range";;
  pending_ ← on_multisig (on_registry (view (fun r => bool_decide (is_Some (action_at action_id r)))));
  require pending_ "Action was already executed";;
  caller_role ← on_multisig (on_board (view (get_user_role caller)));
  require (is_board_member caller_role) "only board members can perform actions";;
  reached ← on_multisig (view (quorum_reached action_id));
  require reached "quorum has not been reached";;
  paused ← on_multisig (view m_paused);
  require (negb paused) "No actions may be executed while paused";;
  perform_action now action_id.

(** ** Refunds *)

Definition move_refund_batch_to_safe (caller : address) (now : Z) : C unit :=
  multisig_owner_only caller;;
  opt ← on_transfers (get_and_clear_first_refund_batch multisig_address);
  match opt with
  | None => mret tt
  | Some (_, txs) => on_safe (safe_exec multisig_address now (SafeAddRefund (from_multiresult <$> txs)))
  end.

Definition distribute_fees_from_child_contracts (caller : address) (now : Z) (pairs : list (address * Z)) : C unit :=
  multisig_owner_only caller;;
  require (forallb (fun p => negb (is_smart_contract V (fst p))) pairs) "Cannot transfer to smart contract dest_address";;
  require (foldr Z.add 0 (snd <$> pairs) =? EsdtSafe.PERCENTAGE_TOTAL)%Z "Percentages do not add up to 100%";;
  on_safe (safe_exec multisig_address now (SafeDistributeFees pairs)).

(** ** Endpoints *)

Inductive multisig_call :=
  | Stake (payment : Z)
  | Unstake (amount : Z)
  | ProposeStatus (esdt_safe_batch_id : Z) (sts : list TransactionStatus)
  | ProposeTransfer (eth_batch_id : Z) (txs : list EthTransaction)
  | Sign (action_id : nat)
  | PerformAction (action_id : nat)
  | MoveRefunds
  | DistributeFees (pairs : list (address * Z))
  | AddBoardMember (a : address)
  | RemoveUser (a : address)
  | SlashBoardMember (a : address)
  | ChangeQuorum (q : Z)
  | AddMapping (erc20 token : bytes)
  | ClearMapping (erc20 token : bytes)
  | SetPaused (v : bool)
  | ConfigureSafe (c : safe_call)
  | ConfigureTransfers (c : transfer_call).

Definition owner_board (caller : address) (c : Sol board unit) : C unit := multisig_owner_only caller;; on_multisig (on_board c).

Definition multisig_exec (caller : address) (now : Z) (c : multisig_call) : C unit :=
  match c with
  | Stake payment =>
      on_machine (machine (direct_egld V caller multisig_address payment));; on_multisig (on_board (stake caller payment))
  | Unstake amount =>
      on_multisig (on_board (unstake caller amount));; on_machine (machine (direct_egld V multisig_address caller amount))
  | ProposeStatus id sts => propose_esdt_safe_set_current_transaction_batch_status caller now id sts;; mret tt
  | ProposeTransfer id txs => propose_multi_transfer_esdt_batch caller id txs;; mret tt
  | Sign id => on_multisig (sign caller id)
  | PerformAction id => perform_action_endpoint caller now id
  | MoveRefunds => move_refund_batch_to_safe caller now
  | DistributeFees pairs => distribute_fees_from_child_contracts caller now pairs
  | AddBoardMember a => owner_board caller (add_board_member a)
  | RemoveUser a => owner_board caller (remove_user a)
  | SlashBoardMember a => owner_board caller (slash_board_member a)
  | ChangeQuorum q => owner_board caller (change_quorum q)
  | AddMapping e t => multisig_owner_only caller;; on_multisig (add_mapping e t)
  | ClearMapping e t => multisig_owner_only caller;; on_multisig (clear_mapping e t)
  | SetPaused v => multisig_owner_only caller;; on_multisig (write (put_m_paused v))
  | ConfigureSafe c =>
      multisig_owner_only caller;; require (safe_setting c) "no such endpoint";; on_safe (safe_exec multisig_address now c)
  | ConfigureTransfers c =>
      multisig_owner_only caller;; require (transfer_setting c) "no such endpoint";; on_transfers (transfer_exec multisig_address now c)
  end.

(** The constructor: the board is given without repetition. *)
Fixpoint init_board (members : list address) : Sol board unit :=
  match members with
  | [] => mret tt
  | a :: rest =>
      known ← view (get_user_id a);
      require (known =? 0)%nat "duplicate board member";;
      id ← get_or_create_user a;
      write (set_role id RBoardMember);;
      init_board rest
  end.

Definition new_board (required_stake slash : Z) : board := mkBoard [] ∅ 0 required_stake ∅ slash 0 0.

Definition init (required_stake slash : Z) (q : Z) (members : list address) : Sol board unit :=
  init_board members;;
  n ← checked 32 (Z.of_nat (length members));
  write (set_num_board_members n);;
  change_quorum q;;
  require (slash <=? required_stake)%Z "slash amount must be less than or equal to required stake";;
  require (is_smart_contract V safe_address) "Esdt Safe address is not a Smart Contract address";;
  require (is_smart_contract V transfers_address) "Multi Transfer address is not a Smart Contract address".

(** ** The chain *)

Inductive transaction := ToMultisig (c : multisig_call) | ToSafe (c : safe_call) | ToTransfers (c : transfer_call).

Definition tx_exec (caller : address) (now : Z) (tx : transaction) : C unit :=
  match tx with
  | ToMultisig c => multisig_exec caller now c
  | ToSafe c => on_safe (safe_exec caller now c)
  | ToTransfers c => on_transfers (transfer_exec caller now c)
  end.

Record chain := mkChain { block_nonce : Z; state : contracts W }.

Inductive event := NewBlock (n : Z) | Sent (caller : address) (tx : transaction) | WorldMoves (w : W).

Definition happens (c : chain) (e : event) : chain :=
  match e with
  | NewBlock n => mkChain n (state c)
  | Sent caller tx =>
      match tx_exec caller (block_nonce c) tx (state c) with Done _ s => mkChain (block_nonce c) s | Revert _ => c end
  | WorldMoves w => mkChain (block_nonce c) (mkContracts (c_multisig (state c)) (c_safe (state c)) (c_transfers (state c)) w)
  end.

Definition history (c : chain) (events : list event) : chain := foldl happens c events.

(** Blocks are numbered upwards; the contracts send no transactions of their own. *)
Definition event_ok (c : chain) (e : event) : Prop :=
  match e with
  | NewBlock n => (block_nonce c <= n)%Z
  | Sent caller _ => caller <> multisig_address
  | WorldMoves _ => True
  end.

Fixpoint history_ok (c : chain) (events : list event) : Prop :=
  match events with
  | [] => True
  | e :: rest => event_ok c e /\ history_ok (happens c e) rest
  end.

#[global] Instance event_ok_dec c e : Decision (event_ok c e).
Proof. destruct e; cbn; apply _. Defined.
#[global] Instance history_ok_dec c events : Decision (history_ok c events).
Proof. revert c. induction events as [|e rest IH]; intros c; cbn [history_ok]; [apply _|]. apply and_dec; [apply _|apply IH]. Defined.

(** The chain right after the contracts were deployed and handed over to the multisig. *)
Definition deployed (c : chain) : Prop := exists b required_stake slash q members owner u w fee_estimator service_fee_address gas_limit percentage max_fee wrapping swapping,
  init required_stake slash q members (new_board required_stake slash) = Done u b /\
  (0 <= block_nonce c)%Z /\
  state c = mkContracts (mkMultisig owner true b (mkRegistry [] ∅ ∅ ∅ 0 0) ∅ ∅)
    (EsdtSafe.init multisig_address fee_estimator service_fee_address gas_limit percentage max_fee)
    (new_transfers multisig_address wrapping swapping) w.
End Contracts.
Arguments chain W : clear implicits.
Arguments mkChain {W} _ _.
Arguments block_nonce {W} _.
Arguments state {W} _.
Arguments event W : clear implicits.
Arguments NewBlock {W} _.
Arguments Sent {W} _ _.
Arguments WorldMoves {W} _.

End MvxContracts.
