(* ===== verification/MvxContractsFacts.v ===== *)
(** * What a transaction does to the contracts on MultiversX

    Every successful transaction is of one of six kinds ([step]): it leaves the registry of actions
    alone and at most adds to the safe's batches; it changes their settings; it proposes an action,
    signs one, or performs one - statuses or transfers. *)
From S2P Require Import Prelude Text Solidity TxBatch TxBatchFacts EsdtSafe EsdtSafeFacts MultiTransfer MultiTransferFacts Multisig MultisigFacts MvxContracts.
Import TxBatch.

Module MvxContractsFacts.
Import MultiTransfer Multisig MultisigFacts MvxContracts.
Import EsdtSafeFacts MultiTransferFacts.

(** The transaction that proposes an action. *)
Definition proposal (a : Action) : transaction :=
  match a with
  | SetCurrentTransactionBatchStatus n sts => ToMultisig (ProposeStatus n sts)
  | BatchTransferEsdtToken n ts => ToMultisig (ProposeTransfer n ts)
  end.

(** The owner changes the size or the duration of the safe's batches. *)
Definition batch_setting (tx : transaction) : bool :=
  match tx with
  | ToMultisig (ConfigureSafe (SafeSetBatchSize _)) | ToMultisig (ConfigureSafe (SafeSetBatchDuration _)) => true
  | _ => false
  end.

Section Facts.
Context {W : Type} (V : vm W) (keccak256 : bytes -> bytes) (multisig_address safe_address transfers_address : address).

Abbreviation safe_exec := (safe_exec V safe_address).
Abbreviation transfer_exec := (transfer_exec V transfers_address).
Abbreviation tx_exec := (tx_exec V keccak256 multisig_address safe_address transfers_address).
Abbreviation contracts := (contracts W).

Definition brd (s : contracts) : board := m_board (c_multisig s).
Definition reg (s : contracts) : registry := m_registry (c_multisig s).
Definition bat (s : contracts) : batches := EsdtSafe.s_batches (c_safe s).
Definition own (s : contracts) : address := EsdtSafe.s_owner (c_safe s).

(** ** The kinds of transactions *)

Definition proposable (now : Z) (s : contracts) (a : Action) : Prop :=
  match a with
  | SetCurrentTransactionBatchStatus n sts =>
      exists txs, get_current_tx_batch now (bat s) = Some (n, txs) /\ length sts = current_batch_len txs
  | BatchTransferEsdtToken n ts =>
      n = (last_executed_eth_batch_id (reg s) + 1)%Z /\
      et_nonce <$> ts = seqZ (last_executed_eth_tx_id (reg s) + 1) (Z.of_nat (length ts)) /\
      (n < 2 ^ 64)%Z /\ (last_executed_eth_tx_id (reg s) + Z.of_nat (length ts) < 2 ^ 64)%Z
  end.

(** The registry after the action [id] was stored: where it is found. *)
Definition recorded (a : Action) (id : nat) (r r' : registry) : Prop :=
  action_mapper r' = action_mapper r /\ action_signer_ids r' = action_signer_ids r /\
  last_executed_eth_batch_id r' = last_executed_eth_batch_id r /\ last_executed_eth_tx_id r' = last_executed_eth_tx_id r /\
  match a with
  | SetCurrentTransactionBatchStatus n sts =>
      batch_id_to_action_id_mapping r' = batch_id_to_action_id_mapping r /\
      default ∅ (status_action_ids r !! n) !! sts = None /\
      status_action_ids r' = <[n := <[sts := id]> (default ∅ (status_action_ids r !! n))]> (status_action_ids r)
  | BatchTransferEsdtToken n ts =>
      let h := hash_eth_tx_batch keccak256 ts in
      default ∅ (batch_id_to_action_id_mapping r !! n) !! h = None /\
      batch_id_to_action_id_mapping r' = <[n := <[h := id]> (default ∅ (batch_id_to_action_id_mapping r !! n))]> (batch_id_to_action_id_mapping r) /\
      status_action_ids r' = status_action_ids r
  end.

Definition performable (caller : address) (id : nat) (s : contracts) : Prop :=
  get_user_role caller (brd s) = RBoardMember /\ quorum_reached id (c_multisig s) = true /\ m_paused (c_multisig s) = false.

Definition same_batches (s s' : contracts) : Prop := brd s' = brd s /\ own s' = own s /\ bat s' = bat s.

Inductive step (caller : address) (now : Z) (tx : transaction) (s s' : contracts) : Prop :=
  | Other ts (H1 : board_step (brd s) (brd s')) (H2 : reg s' = reg s) (H3 : own s' = own s) (H4 : extended now ts (bat s) (bat s'))
  | Setting (H1 : batch_setting tx = true) (H2 : brd s' = brd s) (H3 : reg s' = reg s) (H4 : own s' = own s)
      (H5 : first_batch_id (bat s') = first_batch_id (bat s)) (H6 : last_batch_id (bat s') = last_batch_id (bat s))
      (H7 : pending_batches (bat s') = pending_batches (bat s)) (H8 : last_tx_nonce (bat s') = last_tx_nonce (bat s))
  | Proposed a id r1 (H1 : tx = proposal a) (H2 : same_batches s s') (H3 : is_board_member (role_of (get_user_id caller (brd s)) (brd s)) = true)
      (H4 : proposable now s a) (H5 : push_action a (reg s) = Done id r1)
      (H6 : recorded a id (if has_enough_stake caller (brd s) then add_signer id (get_user_id caller (brd s)) r1 else r1) (reg s'))
  | Signed id (H1 : tx = ToMultisig (Sign id)) (H2 : same_batches s s') (H3 : is_board_member (role_of (get_user_id caller (brd s)) (brd s)) = true)
      (H4 : is_Some (action_at id (reg s))) (H5 : reg s' = add_signer id (get_user_id caller (brd s)) (reg s))
  | StatusSet id n sts (H1 : tx = ToMultisig (PerformAction id)) (H2 : action_at id (reg s) = Some (SetCurrentTransactionBatchStatus n sts))
      (H3 : performable caller id s) (H4 : brd s' = brd s) (H5 : own s' = own s)
      (H6 : n = first_batch_id (bat s)) (H7 : length (pending (bat s) n) = length sts)
      (H8 : clear_first_batch (bat s) = Done tt (bat s'))
      (H9 : shrunk (clear_action id (reg s)) (reg s')) (H10 : batch_id_to_action_id_mapping (reg s') = batch_id_to_action_id_mapping (reg s))
      (H11 : last_executed_eth_batch_id (reg s') = last_executed_eth_batch_id (reg s))
      (H12 : last_executed_eth_tx_id (reg s') = last_executed_eth_tx_id (reg s))
      (H13 : reg s' = forget_statuses n (clear_proposed (default ∅ (status_action_ids (reg s) !! n)) (clear_action id (reg s))))
  | Transferred id n ts t (H1 : tx = ToMultisig (PerformAction id)) (H2 : action_at id (reg s) = Some (BatchTransferEsdtToken n ts))
      (H3 : performable caller id s) (H4 : same_batches s s') (H5 : last ts = Some t)
      (H6 : reg s' = set_last_executed (last_executed_eth_batch_id (reg s) + 1) (et_nonce t)
              (forget_transfers n (clear_proposed (default ∅ (batch_id_to_action_id_mapping (reg s) !! n)) (clear_action id (reg s)))))
      (H7 : transfer_exec multisig_address now (TrBatchTransfer n ts) (c_transfers s, c_world s) = Done tt (c_transfers s', c_world s')).

(** ** Calls of the children *)

Lemma safe_exec_cases caller now c (p p' : EsdtSafe.safe * W) u : safe_exec caller now c p = Done u p' ->
  match c with
  | SafeSetStatus n sts =>
      caller = EsdtSafe.s_owner (fst p) /\ n = first_batch_id (EsdtSafe.s_batches (fst p)) /\
      length (pending (EsdtSafe.s_batches (fst p)) n) = length sts /\ EsdtSafe.s_owner (fst p') = EsdtSafe.s_owner (fst p) /\
      clear_first_batch (EsdtSafe.s_batches (fst p)) = Done tt (EsdtSafe.s_batches (fst p'))
  | SafeSetBatchSize _ | SafeSetBatchDuration _ =>
      caller = EsdtSafe.s_owner (fst p) /\ EsdtSafe.s_owner (fst p') = EsdtSafe.s_owner (fst p) /\
      first_batch_id (EsdtSafe.s_batches (fst p')) = first_batch_id (EsdtSafe.s_batches (fst p)) /\
      last_batch_id (EsdtSafe.s_batches (fst p')) = last_batch_id (EsdtSafe.s_batches (fst p)) /\
      pending_batches (EsdtSafe.s_batches (fst p')) = pending_batches (EsdtSafe.s_batches (fst p)) /\
      last_tx_nonce (EsdtSafe.s_batches (fst p')) = last_tx_nonce (EsdtSafe.s_batches (fst p))
  | _ => added now p p'
  end.
Proof.
  destruct c; cbn [MvxContracts.safe_exec]; intros H;
    try (revert H; apply (framed_added now); first [apply framed_set_fees | apply framed_add_token | apply framed_remove_token
      | apply framed_distribute_fees | apply framed_set_max_bridged | apply framed_set_paused]).
  - unfold EsdtSafe.safe_set_max_tx_batch_size in H. apply sol_bind_inv in H as (? & p1 & [-> ->]%owner_only_inv & H).
    apply at_part_inv in H as (s & (b & H & ->)%at_part_inv & ->). unfold set_max_tx_batch_size in H. sol_inv H. done.
  - unfold EsdtSafe.safe_set_max_tx_batch_block_duration in H. apply sol_bind_inv in H as (? & p1 & [-> ->]%owner_only_inv & H).
    apply at_part_inv in H as (s & (b & H & ->)%at_part_inv & ->). unfold set_max_tx_batch_block_duration in H. sol_inv H. done.
  - by apply set_status_inv in H.
  - revert H. apply added_add_refund_batch.
  - revert H. apply related_bind; [apply _|apply framed_added, framed_world|intros []]. apply added_create_transaction.
  - revert H. apply related_bind; [apply _|apply framed_added, framed_claim_refund|intros z]. apply related_ret. apply _.
Qed.

(** ** The calls of the multisig *)

Lemma on_multisig_inv {A} (c : Sol multisig A) (s s' : contracts) a : on_multisig c s = Done a s' ->
  exists m, c (c_multisig s) = Done a m /\ s' = mkContracts m (c_safe s) (c_transfers s) (c_world s).
Proof. by intros (m & H & ->)%at_part_inv; eauto. Qed.

Lemma on_board_inv {A} (c : Sol board A) m m' a : on_board c m = Done a m' -> exists b, c (m_board m) = Done a b /\ m' = put_board b m.
Proof. by intros (b & H & ->)%at_part_inv; eauto. Qed.

Lemma on_registry_inv {A} (c : Sol registry A) m m' a : on_registry c m = Done a m' -> exists r, c (m_registry m) = Done a r /\ m' = put_registry r m.
Proof. by intros (b & H & ->)%at_part_inv; eauto. Qed.

Lemma on_multisig_view {A} (f : multisig -> A) (s s' : contracts) a : on_multisig (view f) s = Done a s' -> a = f (c_multisig s) /\ s' = s.
Proof. intros (m & [-> ->]%view_inv & ->)%on_multisig_inv. split; [done|]. by destruct s. Qed.

Lemma owner_only_inv' caller (s s' : contracts) u : multisig_owner_only caller s = Done u s' -> s' = s.
Proof.
  intros (m & (o & m1 & [-> ->]%view_inv & [_ ->]%require_inv)%sol_bind_inv & ->)%on_multisig_inv. by destruct s.
Qed.

Lemma on_registry_view {A} (f : registry -> A) (s s' : contracts) a : on_multisig (on_registry (view f)) s = Done a s' -> a = f (reg s) /\ s' = s.
Proof. intros (m & (r & [-> ->]%view_inv & ->)%on_registry_inv & ->)%on_multisig_inv. split; [done|]. by destruct s as [[] ? ? ?]. Qed.

Lemma on_board_view {A} (f : board -> A) (s s' : contracts) a : on_multisig (on_board (view f)) s = Done a s' -> a = f (brd s) /\ s' = s.
Proof. intros (m & (r & [-> ->]%view_inv & ->)%on_board_inv & ->)%on_multisig_inv. split; [done|]. by destruct s as [[] ? ? ?]. Qed.

Lemma on_registry_write f (s s' : contracts) u : on_multisig (on_registry (write f)) s = Done u s' ->
  s' = mkContracts (put_registry (f (reg s)) (c_multisig s)) (c_safe s) (c_transfers s) (c_world s).
Proof. by intros (m & (r & ->%write_inv & ->)%on_registry_inv & ->)%on_multisig_inv. Qed.

Lemma on_safe_inv {A} (c : Sol (EsdtSafe.safe * W) A) (s s' : contracts) a : on_safe c s = Done a s' ->
  exists p, c (c_safe s, c_world s) = Done a p /\ s' = mkContracts (c_multisig s) (fst p) (c_transfers s) (snd p).
Proof. by intros (p & H & ->)%at_part_inv; eauto. Qed.

Lemma on_transfers_inv {A} (c : Sol (transfers * W) A) (s s' : contracts) a : on_transfers c s = Done a s' ->
  exists p, c (c_transfers s, c_world s) = Done a p /\ s' = mkContracts (c_multisig s) (c_safe s) (fst p) (snd p).
Proof. by intros (p & H & ->)%at_part_inv; eauto. Qed.

(** The steps that leave the multisig's registry alone. *)
Lemma other_same caller now tx (s s' : contracts) : board_step (brd s) (brd s') -> reg s' = reg s -> c_safe s' = c_safe s -> step caller now tx s s'.
Proof. intros H1 H2 H3. apply (Other _ _ _ _ _ []); [done|done|..]; unfold own, bat; rewrite H3; [done|apply extended_refl]. Qed.

Lemma other_board caller now tx (c : Sol board unit) (s s' : contracts) u :
  related board_step c -> on_multisig (on_board c) s = Done u s' -> step caller now tx s s'.
Proof.
  intros Hc (m & (b & H & ->)%on_board_inv & ->)%on_multisig_inv. apply other_same; try done. cbn. by eapply Hc.
Qed.

Lemma other_safe caller who now tx c (s s' : contracts) u :
  match c with SafeSetStatus _ _ | SafeSetBatchSize _ | SafeSetBatchDuration _ => False | _ => True end ->
  on_safe (safe_exec who now c) s = Done u s' -> step caller now tx s s'.
Proof.
  intros Hc (p & H & ->)%on_safe_inv. apply safe_exec_cases in H.
  assert (added now (c_safe s, c_world s) p) as [Ho [ts Hg]] by (destruct c; done). by apply (Other _ _ _ _ _ ts).
Qed.

Lemma other_transfers caller now tx {A} (c : Sol (transfers * W) A) (s s' : contracts) u :
  on_transfers c s = Done u s' -> step caller now tx s s'.
Proof. intros (p & H & ->)%on_transfers_inv. by apply other_same. Qed.

(** ** Proposing and signing *)

Lemma put_registry_eta m : put_registry (m_registry m) m = m.
Proof. by destruct m. Qed.
Lemma put_board_eta m : put_board (m_board m) m = m.
Proof. by destruct m. Qed.

Lemma board_view {A} (f : board -> A) m m' a : on_board (view f) m = Done a m' -> a = f (m_board m) /\ m' = m.
Proof. intros (b & [-> ->]%view_inv & ->)%on_board_inv. by rewrite put_board_eta. Qed.
Lemma registry_view {A} (f : registry -> A) m m' a : on_registry (view f) m = Done a m' -> a = f (m_registry m) /\ m' = m.
Proof. intros (b & [-> ->]%view_inv & ->)%on_registry_inv. by rewrite put_registry_eta. Qed.

Lemma propose_action_inv caller a m m' id : propose_action caller a m = Done id m' ->
  is_board_member (role_of (get_user_id caller (m_board m)) (m_board m)) = true /\
  exists r1, push_action a (m_registry m) = Done id r1 /\
    m' = put_registry (if has_enough_stake caller (m_board m) then add_signer id (get_user_id caller (m_board m)) r1 else r1) m.
Proof.
  unfold propose_action. intros (uid & m1 & [-> ->]%board_view & H)%sol_bind_inv.
  apply sol_bind_inv in H as (role & m1 & [-> ->]%board_view & H). apply sol_bind_inv in H as (? & m1 & [Hr ->]%require_inv & H).
  apply sol_bind_inv in H as (pz & m1 & [-> ->]%view_inv & H). apply sol_bind_inv in H as (? & m1 & [_ ->]%require_inv & H).
  apply sol_bind_inv in H as (i & m1 & (r1 & Hp & ->)%on_registry_inv & H).
  apply sol_bind_inv in H as (e & m2 & [-> ->]%board_view & H). apply sol_bind_inv in H as (? & m2 & He & [-> ->]%mret_inv).
  split; [done|]. exists r1. split; [done|]. cbn [m_board put_registry] in He. destruct (has_enough_stake _ _).
  - by apply on_registry_inv in He as (r & ->%write_inv & ->).
  - by apply mret_inv in He as [_ ->].
Qed.

Lemma valid_eth_tx_ids_inv n l (s s' : contracts) u : require_valid_eth_tx_ids n l s = Done u s' ->
  s' = s /\ et_nonce <$> l = seqZ n (Z.of_nat (length l)) /\ ((n < 2 ^ 64)%Z -> (n + Z.of_nat (length l) < 2 ^ 64)%Z).
Proof.
  revert n s. induction l as [|t l IH]; intros n s H; cbn [require_valid_eth_tx_ids] in H.
  { apply mret_inv in H as [_ ->]. split; [done|]. split; [done|]. cbn [length]. lia. }
  apply sol_bind_inv in H as (? & s1 & [Hn ->]%require_inv & H). apply sol_bind_inv in H as (n' & s1 & (-> & -> & Hr)%checked_inv & H).
  apply IH in H as (-> & Hl & Hb). split; [done|]. apply Z.eqb_eq in Hn. cbn [fmap list_fmap]. rewrite Hl, length_cons, (seqZ_cons n) by lia.
  split; [|intros _; lia]. f_equal; [done|]. f_equal. lia.
Qed.

Lemma propose_status_step caller now n sts (s s' : contracts) id :
  propose_esdt_safe_set_current_transaction_batch_status caller now n sts s = Done id s' -> step caller now (ToMultisig (ProposeStatus n sts)) s s'.
Proof.
  unfold propose_esdt_safe_set_current_transaction_batch_status.
  intros (r & s1 & [-> ->]%view_inv & H)%sol_bind_inv. destruct (get_current_tx_batch _ _) as [[n' txs]|] eqn:Hb; [|done].
  apply sol_bind_inv in H as (? & s1 & [-> ->]%on_multisig_view & H). apply sol_bind_inv in H as (? & s1 & [Hnew%bool_decide_eq_true ->]%require_inv & H).
  apply sol_bind_inv in H as (? & s1 & [Hl%Nat.eqb_eq ->]%require_inv & H). apply sol_bind_inv in H as (? & s1 & [->%Z.eqb_eq ->]%require_inv & H).
  apply sol_bind_inv in H as (i & s1 & (m & (Hr & r1 & Hp & ->)%propose_action_inv & ->)%on_multisig_inv & H).
  apply sol_bind_inv in H as (? & s2 & ->%on_registry_write & [-> ->]%mret_inv).
  apply (Proposed _ _ _ _ _ (SetCurrentTransactionBatchStatus n' sts) i r1); try done; [by exists txs|].
  injection Hp as _ <-. repeat (split; [done|]). by destruct (has_enough_stake _ _).
Qed.

Lemma propose_transfer_step caller now n ts (s s' : contracts) id :
  propose_multi_transfer_esdt_batch keccak256 caller n ts s = Done id s' -> step caller now (ToMultisig (ProposeTransfer n ts)) s s'.
Proof.
  unfold propose_multi_transfer_esdt_batch. intros (r & s1 & [-> ->]%on_multisig_view & H)%sol_bind_inv.
  apply sol_bind_inv in H as (? & s1 & (-> & -> & Hr1)%checked_inv & H). apply sol_bind_inv in H as (? & s1 & [->%Z.eqb_eq ->]%require_inv & H).
  apply sol_bind_inv in H as (? & s1 & (-> & -> & Hr2)%checked_inv & H). apply sol_bind_inv in H as (? & s1 & (-> & Hn & Hr3)%valid_eth_tx_ids_inv & H).
  cbv zeta in H. set (h := hash_eth_tx_batch keccak256 ts) in *.
  apply sol_bind_inv in H as (? & s1 & [Hh%bool_decide_eq_true ->]%require_inv & H).
  apply sol_bind_inv in H as (i & s1 & (m & (Hr & r1 & Hp & ->)%propose_action_inv & ->)%on_multisig_inv & H).
  apply sol_bind_inv in H as (? & s2 & ->%on_registry_write & [-> ->]%mret_inv).
  apply (Proposed _ _ _ _ _ (BatchTransferEsdtToken (last_executed_eth_batch_id (m_registry (c_multisig s)) + 1) ts) i r1); try done.
  { split; [done|]. split; [done|]. unfold reg. cbn in Hr2. specialize (Hr3 (proj2 Hr2)). lia. }
  assert (Hm : forall (e : bool) uid, batch_id_to_action_id_mapping (if e then add_signer i uid r1 else r1) = batch_id_to_action_id_mapping (reg s)).
  { intros e uid. injection Hp as _ <-. by destruct e. }
  repeat (split; [done|]). cbn zeta. rewrite Hm. split; [done|]. split; [|done]. unfold reg, brd. cbn. by rewrite Hm.
Qed.

Lemma sign_step caller now id (s s' : contracts) u : on_multisig (sign caller id) s = Done u s' -> step caller now (ToMultisig (Sign id)) s s'.
Proof.
  intros (m & H & ->)%on_multisig_inv. unfold sign in H. apply sol_bind_inv in H as (? & m1 & [-> ->]%registry_view & H).
  apply sol_bind_inv in H as (? & m1 & [Ha%bool_decide_eq_true ->]%require_inv & H). apply sol_bind_inv in H as (? & m1 & [-> ->]%board_view & H).
  apply sol_bind_inv in H as (? & m1 & [-> ->]%board_view & H). apply sol_bind_inv in H as (? & m1 & [Hr ->]%require_inv & H).
  apply sol_bind_inv in H as (? & m1 & [-> ->]%board_view & H). apply sol_bind_inv in H as (? & m1 & [_ ->]%require_inv & H).
  apply on_registry_inv in H as (r & ->%write_inv & ->). by apply (Signed _ _ _ _ _ id).
Qed.

(** ** Performing *)

Lemma forget_statuses_shrunk n r : shrunk r (forget_statuses n r).
Proof. by right. Qed.
Lemma clear_proposed_shrunk {K} `{Countable K} (m : gmap K nat) r : shrunk r (clear_proposed m r).
Proof. unfold clear_proposed. case_match; [apply clear_actions_shrunk|done]. Qed.

(** Clearing actions touches the actions and their signers only. *)
Record same_bookkeeping (r r' : registry) : Prop := {
  sb_mapping : batch_id_to_action_id_mapping r' = batch_id_to_action_id_mapping r;
  sb_statuses : status_action_ids r' = status_action_ids r;
  sb_last_batch : last_executed_eth_batch_id r' = last_executed_eth_batch_id r;
  sb_last_tx : last_executed_eth_tx_id r' = last_executed_eth_tx_id r
}.
Lemma clear_actions_bookkeeping l r : same_bookkeeping r (clear_actions l r).
Proof. unfold clear_actions. revert r. induction l as [|i l IH]; intros r; [by split|]. cbn. destruct (IH (clear_action i r)). by split. Qed.
Lemma clear_proposed_bookkeeping {K} `{Countable K} (m : gmap K nat) r : same_bookkeeping r (clear_proposed m r).
Proof. unfold clear_proposed. case_match; [apply clear_actions_bookkeeping|by split]. Qed.

Lemma perform_step caller now id (s s' : contracts) u :
  perform_action_endpoint V multisig_address safe_address transfers_address caller now id s = Done u s' ->
  step caller now (ToMultisig (PerformAction id)) s s'.
Proof.
  unfold perform_action_endpoint. intros (? & s1 & [-> ->]%on_registry_view & H)%sol_bind_inv.
  apply sol_bind_inv in H as (? & s1 & [_ ->]%require_inv & H). apply sol_bind_inv in H as (? & s1 & [-> ->]%on_registry_view & H).
  apply sol_bind_inv in H as (? & s1 & [Ha%bool_decide_eq_true ->]%require_inv & H).
  apply sol_bind_inv in H as (? & s1 & [-> ->]%on_board_view & H). apply sol_bind_inv in H as (? & s1 & [Hr ->]%require_inv & H).
  apply sol_bind_inv in H as (? & s1 & [-> ->]%on_multisig_view & H). apply sol_bind_inv in H as (? & s1 & [Hq ->]%require_inv & H).
  apply sol_bind_inv in H as (? & s1 & [-> ->]%on_multisig_view & H). apply sol_bind_inv in H as (? & s1 & [Hz ->]%require_inv & H).
  assert (Hp : performable caller id s).
  { split; [by destruct (get_user_role _ _)|]. split; [done|]. by apply negb_true_iff in Hz. }
  unfold perform_action in H. apply sol_bind_inv in H as (? & s1 & [-> ->]%on_registry_view & H).
  apply sol_bind_inv in H as (? & s1 & ->%on_registry_write & H).
  destruct (action_at id (reg s)) as [[n sts|n ts]|] eqn:Hact; [| |by destruct Ha].
  - apply sol_bind_inv in H as (? & s1 & ->%on_registry_write & (p & H & ->)%on_safe_inv). apply safe_exec_cases in H as (_ & Hn & Hl & Ho & Hc).
    cbn [fst c_safe] in *. eapply (StatusSet _ _ _ _ _ id n sts); try done; unfold reg; cbn [c_multisig m_registry put_registry].
    + etransitivity; [|apply forget_statuses_shrunk]. apply clear_proposed_shrunk.
    + cbn. by rewrite (sb_mapping _ _ (clear_proposed_bookkeeping _ _)).
    + cbn. by rewrite (sb_last_batch _ _ (clear_proposed_bookkeeping _ _)).
    + cbn. by rewrite (sb_last_tx _ _ (clear_proposed_bookkeeping _ _)).
  - apply sol_bind_inv in H as (? & s1 & ->%on_registry_write & H). apply sol_bind_inv in H as (k & s1 & [-> ->]%on_registry_view & H).
    apply sol_bind_inv in H as (? & s1 & (-> & -> & _)%checked_inv & H). destruct (last ts) as [t|] eqn:Ht; [|done].
    apply sol_bind_inv in H as (? & s1 & ->%on_registry_write & (p & H & ->)%on_transfers_inv). destruct u.
    eapply (Transferred _ _ _ _ _ id n ts t); try done; [|by destruct p].
    unfold reg. cbn [c_multisig m_registry put_registry]. f_equal. cbn.
    by rewrite (sb_last_batch _ _ (clear_proposed_bookkeeping _ _)).
Qed.

(** ** Every transaction *)

Lemma move_refunds_step caller now tx (s s' : contracts) u :
  move_refund_batch_to_safe V multisig_address safe_address caller now s = Done u s' -> step caller now tx s s'.
Proof.
  unfold move_refund_batch_to_safe. intros (? & s1 & ->%owner_only_inv' & H)%sol_bind_inv.
  apply sol_bind_inv in H as (opt & s1 & (p & _ & ->)%on_transfers_inv & H). destruct opt as [[n txs]|].
  - apply on_safe_inv in H as (p' & H & ->). apply safe_exec_cases in H as [Ho [ts Hg]]. by apply (Other _ _ _ _ _ ts).
  - apply mret_inv in H as [_ ->]. by apply other_same.
Qed.

Lemma configure_safe_step caller now c (s s' : contracts) u : safe_setting c = true ->
  on_safe (safe_exec multisig_address now c) s = Done u s' -> step caller now (ToMultisig (ConfigureSafe c)) s s'.
Proof.
  intros Hc H. destruct c; try done; try (by eapply other_safe in H).
  all: apply on_safe_inv in H as (p & H & ->); apply safe_exec_cases in H as (_ & Ho & Hf & Hl & Hp & Hn); by apply Setting.
Qed.

(** The owner's calls on the board. *)
Lemma owner_board_step caller now tx (c : Sol board unit) (s s' : contracts) u :
  related board_step c -> owner_board caller c s = Done u s' -> step caller now tx s s'.
Proof. intros Hc (? & s1 & ->%owner_only_inv' & H)%sol_bind_inv. by eapply other_board. Qed.

(** The owner's calls on the token mappings and the pause. *)
Lemma owner_multisig_step caller now tx (c : Sol multisig unit) (s s' : contracts) u :
  related (same (fun m => (m_board m, m_registry m))) c -> (multisig_owner_only caller;; on_multisig c) s = Done u s' -> step caller now tx s s'.
Proof.
  intros Hc (? & s1 & ->%owner_only_inv' & (m & H & ->)%on_multisig_inv)%sol_bind_inv. apply Hc in H. injection H as Hb Hr.
  apply other_same; try done. unfold brd. cbn. by rewrite Hb.
Qed.

Lemma multisig_exec_step caller now c (s s' : contracts) u :
  multisig_exec V keccak256 multisig_address safe_address transfers_address caller now c s = Done u s' -> step caller now (ToMultisig c) s s'.
Proof.
  destruct c; cbn [multisig_exec].
  - intros (? & s1 & (w & _ & ->)%at_part_inv & (m & (b & H & ->)%on_board_inv & ->)%on_multisig_inv)%sol_bind_inv.
    apply other_same; try done. by eapply stake_step.
  - intros (? & s1 & (m & (b & H & ->)%on_board_inv & ->)%on_multisig_inv & (w & _ & ->)%at_part_inv)%sol_bind_inv.
    apply other_same; try done. by eapply unstake_step.
  - intros (? & s1 & H & [_ ->]%mret_inv)%sol_bind_inv. by eapply propose_status_step.
  - intros (? & s1 & H & [_ ->]%mret_inv)%sol_bind_inv. by eapply propose_transfer_step.
  - apply sign_step.
  - apply perform_step.
  - apply move_refunds_step.
  - intros (? & s1 & ->%owner_only_inv' & H)%sol_bind_inv. apply sol_bind_inv in H as (? & s1 & [_ ->]%require_inv & H).
    apply sol_bind_inv in H as (? & s1 & [_ ->]%require_inv & H). by eapply other_safe in H.
  - apply owner_board_step, add_board_member_step.
  - apply owner_board_step, remove_user_step.
  - apply owner_board_step, slash_board_member_step.
  - apply owner_board_step, change_quorum_step.
  - apply owner_multisig_step. unfold add_mapping. related.
  - apply owner_multisig_step. unfold clear_mapping. related.
  - apply owner_multisig_step. related.
  - intros (? & s1 & ->%owner_only_inv' & H)%sol_bind_inv. apply sol_bind_inv in H as (? & s1 & [Hc ->]%require_inv & H).
    by eapply configure_safe_step.
  - intros (? & s1 & ->%owner_only_inv' & H)%sol_bind_inv. apply sol_bind_inv in H as (? & s1 & [Hc ->]%require_inv & H).
    by eapply other_transfers.
Qed.

Lemma tx_exec_step caller now tx (s s' : contracts) u : caller <> multisig_address -> own s = multisig_address ->
  tx_exec caller now tx s = Done u s' -> step caller now tx s s'.
Proof.
  intros Hcaller Hown. destruct tx as [c|c|c]; cbn [MvxContracts.tx_exec].
  - apply multisig_exec_step.
  - intros H. destruct c; try (by eapply other_safe in H); apply on_safe_inv in H as (p & H & ->);
      apply safe_exec_cases in H as [H _]; by destruct Hcaller; rewrite H.
  - apply other_transfers.
Qed.

End Facts.
End MvxContractsFacts.
