(* ===== verification/MvxContractsSafety.v ===== *)
(** * What the contracts on MultiversX guarantee

    Over any history of blocks and transactions: transfers from Ethereum are executed in order,
    once, by a quorum of the board; a batch the safe serves stays as it is until a quorum sets its
    statuses; and a batch of six transactions or more never gets there. *)
From S2P Require Import Prelude Text Solidity TxBatch TxBatchFacts EsdtSafe EsdtSafeFacts MultiTransfer MultiTransferFacts Multisig MultisigFacts MvxContracts MvxContractsFacts.
Import TxBatch.

Module MvxContractsSafety.
Import MultiTransfer Multisig MultisigFacts MvxContracts MvxContractsFacts.

(** ** Clearing the actions of a batch *)

Lemma size_two {K} `{Countable K} (m : gmap K nat) h h' i j : m !! h = Some i -> m !! h' = Some j -> h <> h' -> 1 < size m.
Proof.
  intros H1 H2 Hne. assert (Hd : delete h m !! h' = Some j) by (by rewrite lookup_delete_ne).
  assert (Hs : size (delete h m) = pred (size m)) by (by apply map_size_delete_Some). assert (size (delete h m) <> 0); [|lia].
  intros E. apply map_size_empty_inv in E. by rewrite E, lookup_empty in Hd.
Qed.

(** Every action found under the batch of a performed one is gone. *)
Lemma cleared_all {K} `{Countable K} (m : gmap K nat) r h h' i j : m !! h = Some i -> m !! h' = Some j ->
  action_at j (clear_proposed m (clear_action i r)) = None.
Proof.
  intros Hi Hj. unfold clear_proposed. destruct (1 <? size m)%nat eqn:Hs.
  - apply clear_actions_gone. apply list_elem_of_fmap. exists (h', j). split; [done|]. by apply elem_of_map_to_list.
  - rewrite action_at_clear. destruct (decide (j = i)) as [->|Hne]; [done|]. exfalso. apply Nat.ltb_ge in Hs.
    assert (Hh : h <> h') by congruence. pose proof (size_two m h h' i j Hi Hj Hh). lia.
Qed.

Lemma shrunk_action r r' id a : shrunk r r' -> action_at id r' = Some a -> action_at id r = Some a /\ signers id r' = signers id r.
Proof. intros H E. destruct (H id) as [[H1 _]|[H1 H2]]; [congruence|]. split; [congruence|done]. Qed.

Lemma shrunk_signer r r' id uid : shrunk r r' -> uid ∈ signers id r' -> uid ∈ signers id r /\ action_at id r' = action_at id r.
Proof. intros H E. destruct (H id) as [[_ H1]|[H1 H2]]; [set_solver|]. split; [set_solver|done]. Qed.

Lemma transferred_shrunk {K} `{Countable K} (m : gmap K nat) r id n a b :
  shrunk r (set_last_executed a b (forget_transfers n (clear_proposed m (clear_action id r)))).
Proof.
  transitivity (clear_action id r); [apply clear_action_shrunk|].
  transitivity (clear_proposed m (clear_action id r)); [apply clear_proposed_shrunk|]. by right.
Qed.

Lemma recorded_action_at keccak256 a i r r' id : recorded keccak256 a i r r' -> action_at id r' = action_at id r /\ signers id r' = signers id r.
Proof. intros (Ha & Hs & _). unfold action_at, signers. by rewrite Ha, Hs. Qed.

(** The number of statuses that can be proposed is that of the transactions for small batches only. *)
Lemma current_batch_len_exact txs : current_batch_len txs = length txs <-> length txs < 6.
Proof.
  unfold current_batch_len, TX_MULTIRESULT_NR_FIELDS.
  assert (Hl : length (concat (into_multiresult <$> txs)) = 7 * length txs).
  { induction txs as [|t txs IH]; [done|]. cbn [fmap list_fmap concat]. rewrite length_app, IH. cbn. lia. }
  rewrite Hl. generalize (length txs) as n. intros n. split; intros H.
  - pose proof (Nat.div_mod_eq (7 * n) 6). pose proof (Nat.mod_upper_bound (7 * n) 6). lia.
  - symmetry. apply (Nat.div_unique _ _ _ n); lia.
Qed.

(** Consecutive numbers end where they should. *)
Lemma last_nonce n (ts : list EthTransaction) t : et_nonce <$> ts = seqZ n (Z.of_nat (length ts)) -> last ts = Some t ->
  et_nonce t = (n + Z.of_nat (length ts) - 1)%Z.
Proof.
  intros Hts Hl. rewrite last_lookup in Hl. assert (Hn : (et_nonce <$> ts) !! pred (length ts) = Some (et_nonce t)) by (by rewrite list_lookup_fmap, Hl).
  rewrite Hts, lookup_seqZ in Hn. lia.
Qed.

Section Safety.
Context {W : Type} (V : vm W) (keccak256 : bytes -> bytes) (multisig_address safe_address transfers_address : address).

Abbreviation tx_exec := (tx_exec V keccak256 multisig_address safe_address transfers_address).
Abbreviation happens := (happens V keccak256 multisig_address safe_address transfers_address).
Abbreviation history := (history V keccak256 multisig_address safe_address transfers_address).
Abbreviation history_ok := (history_ok V keccak256 multisig_address safe_address transfers_address).
Abbreviation event_ok := (event_ok multisig_address).
Abbreviation deployed := (deployed V multisig_address safe_address transfers_address).
Abbreviation step := (step V keccak256 multisig_address transfers_address).

(** ** The invariant *)

(** [a] has sent a signature of the action [id], or its proposal. *)
Definition approved (es : list (event W)) (id : nat) (act : Action) (a : address) : Prop :=
  Sent a (ToMultisig (Sign id)) ∈ es \/ Sent a (proposal act) ∈ es.

Record state_ok (es : list (event W)) (s : contracts W) : Prop := {
  so_owner : own s = multisig_address;
  so_batches : batch_wf (bat s);
  so_numbered : numbered (bat s);
  so_board : board_wf (brd s);
  so_signers : forall id uid, uid ∈ signers id (reg s) ->
    exists act a, action_at id (reg s) = Some act /\ get_user_address uid (brd s) = Some a /\ approved es id act a;
  so_transfers : forall id n ts, action_at id (reg s) = Some (BatchTransferEsdtToken n ts) ->
    n = (last_executed_eth_batch_id (reg s) + 1)%Z /\ et_nonce <$> ts = seqZ (last_executed_eth_tx_id (reg s) + 1) (Z.of_nat (length ts)) /\
    exists h, default ∅ (batch_id_to_action_id_mapping (reg s) !! n) !! h = Some id
}.

Lemma approved_mono es es' id act a : (forall e, e ∈ es -> e ∈ es') -> approved es id act a -> approved es' id act a.
Proof. intros H [?|?]; [left|right]; auto. Qed.

(** Signers of a registry in which actions were at most forgotten. *)
Lemma signers_kept es es' (s s' : contracts W) : state_ok es s -> (forall e, e ∈ es -> e ∈ es') ->
  users (brd s) `prefix_of` users (brd s') -> shrunk (reg s) (reg s') -> forall id uid, uid ∈ signers id (reg s') ->
  exists act a, action_at id (reg s') = Some act /\ get_user_address uid (brd s') = Some a /\ approved es' id act a.
Proof.
  intros Hok Hes Hu Hs id uid Hin. apply (shrunk_signer _ _ _ _ Hs) in Hin as [Hin ->].
  destruct (so_signers _ _ Hok _ _ Hin) as (act & a & H1 & H2 & H3). exists act, a.
  split; [done|]. split; [by eapply get_user_address_mono|by eapply approved_mono].
Qed.

(** The signers of a new registry: those of the old one, and the caller. *)
Lemma signers_step es es' (s s' : contracts W) caller id act :
  state_ok es s -> (forall e, e ∈ es -> e ∈ es') -> brd s' = brd s -> is_board_member (role_of (get_user_id caller (brd s)) (brd s)) = true ->
  action_at id (reg s') = Some act -> approved es' id act caller ->
  (forall j, j <> id -> action_at j (reg s') = action_at j (reg s)) -> (is_Some (action_at id (reg s)) -> action_at id (reg s) = Some act) ->
  (forall j uid, uid ∈ signers j (reg s') -> uid ∈ signers j (reg s) \/ (j = id /\ uid = get_user_id caller (brd s))) ->
  forall j uid, uid ∈ signers j (reg s') ->
    exists act a, action_at j (reg s') = Some act /\ get_user_address uid (brd s') = Some a /\ approved es' j act a.
Proof.
  intros Hok Hes Hb Hr Ha Happ Hsame Hid Hsig j uid Hin. rewrite Hb. apply Hsig in Hin as [Hin|[-> ->]].
  - destruct (so_signers _ _ Hok _ _ Hin) as (act' & a & H1 & H2 & H3). exists act', a.
    split; [|split; [done|by eapply approved_mono]]. destruct (decide (j = id)) as [->|Hne]; [|by rewrite Hsame].
    rewrite Hid in H1 by done. congruence.
  - exists act, caller. split; [done|]. split; [|done]. apply member_address; [apply Hok|done].
Qed.

Lemma proposed_ok es es' (s s' : contracts W) caller now a id r1 :
  state_ok es s -> (forall e, e ∈ es -> e ∈ es') -> approved es' id a caller ->
  same_batches s s' -> is_board_member (role_of (get_user_id caller (brd s)) (brd s)) = true ->
  proposable now s a -> push_action a (reg s) = Done id r1 ->
  recorded keccak256 a id (if has_enough_stake caller (brd s) then add_signer id (get_user_id caller (brd s)) r1 else r1) (reg s') ->
  state_ok es' s'.
Proof.
  intros Hok Hes Happ (Hb & Ho & Hbat) Hr Hprop Hpush Hrec.
  set (r2 := if has_enough_stake caller (brd s) then _ else _) in Hrec.
  pose proof (action_at_push _ _ _ _ Hpush) as (_ & Hnone & Hact & Hsig).
  assert (Hact' : forall j, action_at j (reg s') = if decide (j = id) then Some a else action_at j (reg s)).
  { intros j. destruct (recorded_action_at _ _ _ _ _ j Hrec) as [-> _]. rewrite <-Hact. unfold r2. by destruct (has_enough_stake _ _). }
  assert (Hbook : same_bookkeeping (reg s) r2).
  { injection Hpush as _ <-. unfold r2. destruct (has_enough_stake _ _); by split. }
  split; [by rewrite Ho; apply Hok|by rewrite Hbat; apply Hok|by rewrite Hbat; apply Hok|by rewrite Hb; apply Hok| |].
  - eapply (signers_step es es' s s' caller id a); try done.
    + by rewrite Hact', decide_True.
    + intros j Hne. by rewrite Hact', decide_False.
    + rewrite Hnone. by intros [? ?].
    + intros j uid Hin. destruct (recorded_action_at _ _ _ _ _ j Hrec) as [_ E]. rewrite E in Hin. unfold r2 in Hin.
      destruct (has_enough_stake _ _); [|left; by rewrite <-Hsig]. rewrite signers_add in Hin. case_decide as Hj; [subst j|left; by rewrite <-Hsig].
      apply elem_of_union in Hin as [->%elem_of_singleton|Hin]; [by right|left; by rewrite <-Hsig].
  - intros j n ts Hj. rewrite Hact' in Hj. destruct Hrec as (_ & _ & Hlb & Hlt & Hmap).
    rewrite Hlb, Hlt, (sb_last_batch _ _ Hbook), (sb_last_tx _ _ Hbook). case_decide as Hji.
    + injection Hj as ->. subst j. destruct Hprop as (Hn & Hts & _). split; [done|]. split; [done|].
      destruct Hmap as (_ & -> & _). exists (hash_eth_tx_batch keccak256 ts). rewrite lookup_insert_eq. cbn. by rewrite lookup_insert_eq.
    + destruct (so_transfers _ _ Hok _ _ _ Hj) as (Hn & Hts & h & Hh). split; [done|]. split; [done|].
      rewrite <-(sb_mapping _ _ Hbook) in Hh. destruct a as [m sts|m ts']; [exists h; by rewrite (proj1 Hmap)|].
      destruct Hmap as (Hfree & -> & _). exists h. destruct (decide (m = n)) as [->|Hne]; [|by rewrite lookup_insert_ne].
      rewrite lookup_insert_eq. cbn. rewrite lookup_insert_ne; [done|]. congruence.
Qed.

Lemma step_ok es caller now tx (s s' : contracts W) :
  state_ok es s -> step caller now tx s s' -> state_ok (es ++ [Sent caller tx]) s'.
Proof.
  intros Hok Hstep. assert (Hes : forall e, e ∈ es -> e ∈ es ++ [Sent caller tx]) by set_solver.
  assert (Hnew : Sent caller tx ∈ es ++ [Sent caller tx]) by set_solver.
  destruct Hstep as [ts Hb Hr Ho Hg|_ Hb Hr Ho Hf Hl Hp Hln|a id r1 -> Hs Hr Hp Hpush Hrec|id -> Hs Hr Ha Hreg
    |id n sts -> Ha Hper Hb Ho _ _ Hc Hshr Hm Hlb Hlt|id n ts t -> Ha Hper (Hb & Ho & Hbat) Hlast Hreg _].
  - split; [rewrite Ho; apply Hok|by apply Hg, Hok|eapply extended_numbered; [apply Hok|exact Hg|apply Hok]|by apply Hb, Hok| |rewrite Hr; apply Hok].
    apply (signers_kept es _ s); [done|done|apply Hb|by rewrite Hr].
  - split; [rewrite Ho; apply Hok| | |by rewrite Hb; apply Hok| |rewrite Hr; apply Hok].
    + destruct (so_batches _ _ Hok) as [H1 H2]. split; [by rewrite Hf, Hl|by rewrite Hl, Hp].
    + eapply settings_numbered; [exact Hf|exact Hl|exact Hp|exact Hln|apply Hok].
    + apply (signers_kept es _ s); [done|done|by rewrite Hb|by rewrite Hr].
  - eapply (proposed_ok es _ s s' caller now a id r1); try done. by right.
  - destruct Hs as (Hb & Ho & Hbat). destruct Ha as [act Ha].
    assert (Hact : forall j, action_at j (reg s') = action_at j (reg s)) by (intros j; by rewrite Hreg).
    split; [by rewrite Ho; apply Hok|by rewrite Hbat; apply Hok|by rewrite Hbat; apply Hok|by rewrite Hb; apply Hok| |].
    + eapply (signers_step es _ s s' caller id act); try done; [by rewrite Hact|by left|].
      intros j uid Hin. rewrite Hreg, signers_add in Hin. case_decide as Hj; [subst j|by left].
      apply elem_of_union in Hin as [->%elem_of_singleton|Hin]; [by right|by left].
    + intros j n ts. rewrite Hact, Hreg. cbn. apply Hok.
  - assert (Hall : shrunk (reg s) (reg s')) by (etransitivity; [apply clear_action_shrunk|exact Hshr]).
    pose proof (clear_first_numbered _ _ _ (so_batches _ _ Hok) Hc (so_numbered _ _ Hok)) as Hnum.
    apply clear_first_inv in Hc as (_ & _ & _ & _ & _ & Hw). destruct (Hw (so_batches _ _ Hok)) as [Hw' _].
    split; [by rewrite Ho; apply Hok|done|done|by rewrite Hb; apply Hok| |].
    + apply (signers_kept es _ s); [done|done|by rewrite Hb|done].
    + intros j m ts Hj. apply (shrunk_action _ _ _ _ Hall) in Hj as [Hj _]. rewrite Hm, Hlb, Hlt. by apply Hok.
  - assert (Hall : shrunk (reg s) (reg s')).
    { rewrite Hreg. apply transferred_shrunk. }
    split; [by rewrite Ho; apply Hok|by rewrite Hbat; apply Hok|by rewrite Hbat; apply Hok|by rewrite Hb; apply Hok| |].
    + apply (signers_kept es _ s); [done|done|by rewrite Hb|done].
    + intros j m ts' Hj. exfalso. pose proof Hj as Hj'. apply (shrunk_action _ _ _ _ Hall) in Hj as [Hj _].
      destruct (so_transfers _ _ Hok _ _ _ Hj) as (-> & _ & h' & Hh'). destruct (so_transfers _ _ Hok _ _ _ Ha) as (-> & _ & h & Hh).
      rewrite Hreg in Hj'. change (action_at j (clear_proposed (default ∅ (batch_id_to_action_id_mapping (reg s) !! (last_executed_eth_batch_id (reg s) + 1)%Z))
        (clear_action id (reg s))) = Some (BatchTransferEsdtToken (last_executed_eth_batch_id (reg s) + 1) ts')) in Hj'.
      by rewrite (cleared_all _ _ h h' id j Hh Hh') in Hj'.
Qed.
(** ** Histories *)

Lemma approved_more es e (s : contracts W) : state_ok es s -> state_ok (es ++ [e]) s.
Proof.
  intros Hok. split; [apply Hok..| |apply Hok]. apply (signers_kept es _ s); [done|set_solver|done|done].
Qed.

(** A transaction either fails and changes nothing, or is one of the steps. *)
Lemma happens_cases es c e : state_ok es (state c) -> event_ok c e ->
  (bat (state (happens c e)) = bat (state c) /\ reg (state (happens c e)) = reg (state c)) \/
  exists caller tx, e = Sent caller tx /\ step caller (block_nonce c) tx (state c) (state (happens c e)).
Proof.
  intros Hok He. destruct e as [n|caller tx|w]; [by left| |by left]. cbn [MvxContracts.happens].
  destruct (tx_exec _ _ _ _) as [u s'|r] eqn:E; [|by left]. right. exists caller, tx. split; [done|].
  eapply tx_exec_step; [exact He|apply Hok|exact E].
Qed.

Lemma happens_ok es c e : state_ok es (state c) -> event_ok c e -> state_ok (es ++ [e]) (state (happens c e)).
Proof.
  intros Hok He. destruct e as [n|caller tx|w]; cbn [MvxContracts.happens].
  - by apply approved_more.
  - destruct (tx_exec _ _ _ _) as [u s'|r] eqn:E; [|by apply approved_more]. cbn.
    eapply step_ok; [exact Hok|]. eapply tx_exec_step; [exact He|apply Hok|exact E].
  - apply approved_more. destruct Hok. by split.
Qed.

Lemma history_keeps_ok es0 c es : state_ok es0 (state c) -> history_ok c es -> state_ok (es0 ++ es) (state (history c es)).
Proof.
  revert es0 c. induction es as [|e es IH]; intros es0 c Hok Hh; [by rewrite app_nil_r|]. destruct Hh as [He Hh].
  replace (es0 ++ e :: es) with ((es0 ++ [e]) ++ es) by (by rewrite <-app_assoc). apply IH; [by apply happens_ok|done].
Qed.

Lemma history_ok_snoc c es e : history_ok c (es ++ [e]) -> history_ok c es /\ event_ok (history c es) e.
Proof. revert c. induction es as [|x es IH]; intros c; cbn; [tauto|]. intros [? [? ?]%IH]. tauto. Qed.

Lemma history_ok_app' c es es' : history_ok c (es ++ es') <-> history_ok c es /\ history_ok (history c es) es'.
Proof. revert c. induction es as [|e es IH]; intros c; cbn; [tauto|]. rewrite IH. tauto. Qed.
Lemma history_snoc c es e : history c (es ++ [e]) = happens (history c es) e.
Proof. unfold MvxContracts.history. by rewrite foldl_app. Qed.

Lemma init_board_step members : related board_step (init_board members).
Proof.
  induction members as [|a rest IH]; cbn [init_board]; [apply related_ret; apply _|].
  intros b u b' (n & b1 & [-> ->]%view_inv & H)%sol_bind_inv. apply sol_bind_inv in H as (? & b1 & [_ ->]%require_inv & H).
  apply sol_bind_inv in H as (id & b1 & [Hs Ha]%get_or_create_user_inv & H). apply sol_bind_inv in H as (? & b2 & ->%write_inv & H).
  transitivity b1; [done|]. transitivity (set_role id RBoardMember b1); [by apply board_step_role|]. by eapply IH.
Qed.

Lemma mvx_deployed_ok c : deployed c -> state_ok [] (state c).
Proof.
  intros (b & rs & sl & q & members & owner & u & w & fe & sf & gl & pc & mf & wr & sw & Hi & _ & ->).
  split; unfold own, bat, brd, reg; cbn.
  - done.
  - split; cbn; [lia|]. intros id _. apply lookup_empty.
  - by split.
  - assert (Hs : related board_step (init V safe_address transfers_address rs sl q members)).
    { unfold init. apply related_bind; [apply _|apply init_board_step|intros []]. related; [by apply board_step_same|]. apply change_quorum_step. }
    apply Hs in Hi as [Hi _]. apply Hi. split; [constructor|]. intros id. unfold role_of. cbn. by rewrite lookup_empty.
  - intros id uid. unfold signers. cbn. rewrite lookup_empty. cbn. set_solver.
  - by intros [|id].
Qed.

Lemma mvx_reachable_ok c0 es : deployed c0 -> history_ok c0 es -> state_ok es (state (history c0 es)).
Proof. intros H0 Hh. by apply (history_keeps_ok [] c0 es (mvx_deployed_ok c0 H0)). Qed.

(** A quorum of the board has approved the action, each member by a transaction of its own. *)
Definition quorum_approved (es : list (event W)) (id : nat) (act : Action) (s : contracts W) : Prop :=
  exists l, voters id (c_multisig s) l /\ forall a, a ∈ l -> approved es id act a.

Lemma performable_approved es caller id act (s : contracts W) :
  state_ok es s -> performable caller id s -> action_at id (reg s) = Some act -> quorum_approved es id act s.
Proof.
  intros Hok (_ & Hq & _) Ha. destruct (quorum_voters id (c_multisig s) (so_board _ _ Hok) Hq) as [l Hl]. exists l. split; [done|].
  intros a Hin. destruct Hl as (_ & _ & Hall). destruct (Hall a Hin) as (_ & _ & Hs). unfold signed in Hs.
  destruct (get_user_id a (m_board (c_multisig s))) as [|i] eqn:E; [done|]. apply bool_decide_eq_true in Hs.
  destruct (so_signers _ _ Hok _ _ Hs) as (act' & a' & H1 & H2 & H3). apply get_user_id_S in E. unfold brd in H2. cbn in H2.
  rewrite E in H2. rewrite Ha in H1. injection H1 as <-. by injection H2 as <-.
Qed.

(** C5. On MultiversX, transfers from Ethereum are executed in order, once, and by a quorum.  When an
    event makes the number of executed batches change, it is a transaction in which a board member
    performs a pending action to transfer exactly the next batch, whose transfers are numbered
    consecutively after the last executed one; the contract was not paused; at least a quorum of
    distinct board members with enough stake had each sent a signature of this action, or proposed
    it; and the counters advance by this batch, while its transfers are made by the transfer
    contract. *)
Theorem mvx_transfers_by_quorum (c0 : chain W) (es : list (event W)) (e : event W) :
  let c := history c0 es in let c' := happens c e in
  let r := reg (state c) in let r' := reg (state c') in
  deployed c0 -> history_ok c0 (es ++ [e]) ->
  last_executed_eth_batch_id r' <> last_executed_eth_batch_id r ->
  exists caller id ts,
    e = Sent caller (ToMultisig (PerformAction id)) /\ get_user_role caller (brd (state c)) = RBoardMember /\
    m_paused (c_multisig (state c)) = false /\
    action_at id r = Some (BatchTransferEsdtToken (last_executed_eth_batch_id r + 1) ts) /\
    quorum_approved es id (BatchTransferEsdtToken (last_executed_eth_batch_id r + 1) ts) (state c) /\
    ts <> [] /\ et_nonce <$> ts = seqZ (last_executed_eth_tx_id r + 1) (Z.of_nat (length ts)) /\
    last_executed_eth_batch_id r' = (last_executed_eth_batch_id r + 1)%Z /\
    last_executed_eth_tx_id r' = (last_executed_eth_tx_id r + Z.of_nat (length ts))%Z /\
    action_at id r' = None /\
    transfer_exec V transfers_address multisig_address (block_nonce c) (TrBatchTransfer (last_executed_eth_batch_id r + 1) ts)
      (c_transfers (state c), c_world (state c)) = Done tt (c_transfers (state c'), c_world (state c')).
Proof.
  intros c c' r r' H0 [Hh He]%history_ok_snoc Hne. pose proof (mvx_reachable_ok _ _ H0 Hh) as Hok. fold c in Hok, He.
  destruct (happens_cases _ _ _ Hok He) as [[_ E]|(caller & tx & -> & Hstep)]; [by destruct Hne; unfold r', c'; rewrite E|].
  fold c' in Hstep. destruct Hstep as [ts _ E|_ _ E|a id r1 _ _ _ _ Hpush Hrec|id _ _ _ _ E|id n sts _ _ _ _ _ _ _ _ _ _ E _
    |id n ts t -> Ha Hper _ Hlast Hreg Hex]; try (by destruct Hne; unfold r'; rewrite E).
  - destruct Hne. unfold r'. destruct Hrec as (_ & _ & -> & _). injection Hpush as _ <-. by destruct (has_enough_stake _ _).
  - destruct (so_transfers _ _ Hok _ _ _ Ha) as (-> & Hts & h & Hh'). exists caller, id, ts. fold r in Ha, Hreg, Hts, Hh'.
    pose proof (performable_approved _ _ _ _ _ Hok Hper Ha) as Hq. destruct Hper as (Hrole & _ & Hpz).
    assert (Hne' : ts <> []) by (by intros ->).
    repeat (split; [done|]). unfold r' in *. rewrite Hreg. cbn [set_last_executed last_executed_eth_batch_id last_executed_eth_tx_id].
    split; [done|]. split; [|split; [|done]].
    + rewrite (last_nonce _ _ _ Hts Hlast). lia.
    + by apply (cleared_all _ r h h id id).
Qed.

End Safety.
End MvxContractsSafety.
