(* ===== verification/MvxRegistry.v ===== *)
(** * The registry of actions and the views the relayers ask

    On every chain of the contracts, the two indices of the multisig - transfers by the hash of
    the batch, statuses by the batch and its statuses - hold exactly the pending actions: what the
    views answer is what has been proposed and neither performed nor displaced. *)
From S2P Require Import Prelude Text Solidity TxBatch TxBatchFacts EsdtSafe EsdtSafeFacts MultiTransfer MultiTransferFacts Multisig MultisigFacts MvxContracts MvxContractsFacts MvxContractsSafety.
Import TxBatch.

Module MvxRegistry.
Import MultiTransfer Multisig MultisigFacts MvxContracts MvxContractsFacts MvxContractsSafety.

(** ** Which actions are cleared *)

Lemma clear_actions_other l r j : j ∉ l -> action_at j (clear_actions l r) = action_at j r.
Proof.
  unfold clear_actions. revert r. induction l as [|i l IH]; intros r Hj; [done|]. apply not_elem_of_cons in Hj as [Hi Hj]. cbn.
  rewrite IH by done. rewrite action_at_clear. by rewrite decide_False.
Qed.

(** With the action [id] found in the index [m], exactly the actions of [m] are cleared. *)
Lemma cleared_exactly {K} `{Countable K} (m : gmap K nat) r k id j : m !! k = Some id ->
  ((exists k', m !! k' = Some j) /\ action_at j (clear_proposed m (clear_action id r)) = None) \/
  ((forall k', m !! k' <> Some j) /\ action_at j (clear_proposed m (clear_action id r)) = action_at j r).
Proof.
  intros Hk. destruct (decide (j ∈ snd <$> map_to_list m)) as [Hj|Hj].
  - left. apply list_elem_of_fmap in Hj as ([k' j'] & -> & Hj). apply elem_of_map_to_list in Hj. split; [by exists k'|].
    by eapply cleared_all.
  - right. assert (Hno : forall k', m !! k' <> Some j).
    { intros k' Hk'. apply Hj. apply list_elem_of_fmap. exists (k', j). split; [done|]. by apply elem_of_map_to_list. }
    split; [done|]. assert (j <> id) by (intros ->; by apply (Hno k)). unfold clear_proposed. case_match.
    + rewrite clear_actions_other by done. rewrite action_at_clear. by rewrite decide_False.
    + rewrite action_at_clear. by rewrite decide_False.
Qed.

(** An index of indices, after an insertion and after a deletion. *)
Lemma index_insert {K} `{Countable K} (M : gmap Z (gmap K nat)) n k id n' k' :
  default ∅ (<[n := <[k := id]> (default ∅ (M !! n))]> M !! n') !! k' = if decide (n' = n /\ k' = k) then Some id else default ∅ (M !! n') !! k'.
Proof.
  destruct (decide (n' = n)) as [->|Hn].
  - rewrite lookup_insert_eq. cbn. destruct (decide (k' = k)) as [->|Hk]; [rewrite lookup_insert_eq; by rewrite decide_True|].
    rewrite lookup_insert_ne by done. by rewrite decide_False by tauto.
  - rewrite lookup_insert_ne by done. by rewrite decide_False by tauto.
Qed.

Lemma index_delete {K} `{Countable K} (M : gmap Z (gmap K nat)) n n' k' :
  default ∅ (delete n M !! n') !! k' = if decide (n' = n) then None else default ∅ (M !! n') !! k'.
Proof.
  case_decide as Hn; [subst; rewrite lookup_delete_eq; cbn; apply lookup_empty|]. by rewrite lookup_delete_ne.
Qed.

(** ** The hash of a batch *)

(** A transfer of its type: addresses of their length, lengths that fit the encoding. *)
Record eth_tx_typed (t : EthTransaction) : Prop := {
  ety_from : length (et_from t) = 20;
  ety_to : length (et_to t) = 32;
  ety_token : (Z.of_nat (length (et_token t)) < 2 ^ 32)%Z;
  ety_amount : (0 <= et_amount t)%Z;
  ety_amount_length : (Z.of_nat (length (big_Bytes (et_amount t))) < 2 ^ 32)%Z;
  ety_nonce : (0 <= et_nonce t < 2 ^ 64)%Z
}.

Lemma nested_prefix a b r1 r2 : (Z.of_nat (length a) < 2 ^ 32)%Z -> (Z.of_nat (length b) < 2 ^ 32)%Z ->
  nested_bytes a ++ r1 = nested_bytes b ++ r2 -> a = b /\ r1 = r2.
Proof.
  intros Ha Hb H. unfold nested_bytes in H. rewrite <-!app_assoc in H. apply app_inj_1 in H as [Hl H]; [|by rewrite !be_bytes_length].
  apply be_bytes_inj in Hl; [|split; [lia|exact Ha]|split; [lia|exact Hb]]. apply app_inj_1 in H; [done|]. lia.
Qed.

Lemma encode_tx_prefix t t' r r' : eth_tx_typed t -> eth_tx_typed t' -> encode_tx t ++ r = encode_tx t' ++ r' -> t = t' /\ r = r'.
Proof.
  intros [Hf Ht Hk Ha Hal Hn] [Hf' Ht' Hk' Ha' Hal' Hn'] H. unfold encode_tx in H. rewrite <-!app_assoc in H.
  apply app_inj_1 in H as [Ef H]; [|congruence]. apply app_inj_1 in H as [Et H]; [|congruence].
  apply nested_prefix in H as [Ek H]; [|done..]. apply nested_prefix in H as [Ea H]; [|done..].
  apply app_inj_1 in H as [En H]; [|by rewrite !be_bytes_length].
  apply be_bytes_inj in En; [|exact Hn|exact Hn']. assert (et_amount t = et_amount t').
  { rewrite <-(Z.abs_eq (et_amount t)), <-(Z.abs_eq (et_amount t')) by done. by rewrite <-!be_val_big, Ea. }
  split; [|done]. destruct t, t'. cbn in *. by subst.
Qed.

Lemma encode_tx_nonempty t r : encode_tx t ++ r <> [].
Proof.
  intros E%(f_equal length). unfold encode_tx in E. rewrite !length_app, be_bytes_length in E. cbn [length] in E. lia.
Qed.

Lemma encode_txs_inj l l' : Forall eth_tx_typed l -> Forall eth_tx_typed l' -> concat (encode_tx <$> l) = concat (encode_tx <$> l') -> l = l'.
Proof.
  intros Hl. revert l'. induction Hl as [|t l Ht _ IH]; intros [|t' l'] Hl' H; [done| | |].
  - symmetry in H. by apply encode_tx_nonempty in H.
  - by apply encode_tx_nonempty in H.
  - apply Forall_cons in Hl' as [Ht' Hl']. cbn in H. apply encode_tx_prefix in H as [-> H]; [|done..]. f_equal. by apply IH.
Qed.

(** Different batches have different hashes, or the hash function has a collision. *)
Lemma batch_hash_inj keccak256 l l' : Forall eth_tx_typed l -> Forall eth_tx_typed l' ->
  hash_eth_tx_batch keccak256 l = hash_eth_tx_batch keccak256 l' -> l = l' \/ exists x y : bytes, x <> y /\ keccak256 x = keccak256 y.
Proof.
  intros Hl Hl' H. destruct (decide (concat (encode_tx <$> l) = concat (encode_tx <$> l'))) as [E|E]; [left; by apply encode_txs_inj|].
  right. by exists (concat (encode_tx <$> l)), (concat (encode_tx <$> l')).
Qed.

Section Registry.
Context {W : Type} (V : vm W) (keccak256 : bytes -> bytes) (multisig_address safe_address transfers_address : address).

Abbreviation happens := (happens V keccak256 multisig_address safe_address transfers_address).
Abbreviation history := (history V keccak256 multisig_address safe_address transfers_address).
Abbreviation history_ok := (history_ok V keccak256 multisig_address safe_address transfers_address).
Abbreviation event_ok := (event_ok multisig_address).
Abbreviation deployed := (deployed V multisig_address safe_address transfers_address).
Abbreviation state_ok := (state_ok multisig_address).
Abbreviation step := (step V keccak256 multisig_address transfers_address).
Abbreviation hash := (hash_eth_tx_batch keccak256).

(** ** The invariant *)

Definition transfer_id (r : registry) (n : Z) (h : bytes) : option nat := default ∅ (batch_id_to_action_id_mapping r !! n) !! h.
Definition status_id (r : registry) (n : Z) (sts : list TransactionStatus) : option nat := default ∅ (status_action_ids r !! n) !! sts.

Record registry_ok (r : registry) : Prop := {
  ro_batch : (0 <= last_executed_eth_batch_id r < 2 ^ 64)%Z;
  ro_tx : (0 <= last_executed_eth_tx_id r < 2 ^ 64)%Z;
  ro_transfer_id n h id : transfer_id r n h = Some id <-> exists ts, action_at id r = Some (BatchTransferEsdtToken n ts) /\ h = hash ts;
  ro_status_id n sts id : status_id r n sts = Some id <-> action_at id r = Some (SetCurrentTransactionBatchStatus n sts);
  ro_room id n ts : action_at id r = Some (BatchTransferEsdtToken n ts) ->
    (n < 2 ^ 64)%Z /\ (last_executed_eth_tx_id r + Z.of_nat (length ts) < 2 ^ 64)%Z
}.

(** A registry that finds the same actions in the same indices. *)
Lemma registry_ok_same r r' : (forall j, action_at j r' = action_at j r) ->
  batch_id_to_action_id_mapping r' = batch_id_to_action_id_mapping r -> status_action_ids r' = status_action_ids r ->
  last_executed_eth_batch_id r' = last_executed_eth_batch_id r -> last_executed_eth_tx_id r' = last_executed_eth_tx_id r ->
  registry_ok r -> registry_ok r'.
Proof.
  intros Ha Hm Hs Hb Ht [H1 H2 H3 H4 H5]. split; [by rewrite Hb|by rewrite Ht|..].
  - intros n h id. unfold transfer_id. rewrite Hm, Ha. apply H3.
  - intros n sts id. unfold status_id. rewrite Hs, Ha. apply H4.
  - intros id n ts. rewrite Ha, Ht. apply H5.
Qed.

(** ** Steps *)

Lemma proposed_registry r r2 r' a id : registry_ok r -> action_at id r = None -> same_bookkeeping r r2 ->
  (forall j, action_at j r2 = if decide (j = id) then Some a else action_at j r) -> recorded keccak256 a id r2 r' ->
  match a with
  | BatchTransferEsdtToken n ts => (n < 2 ^ 64)%Z /\ (last_executed_eth_tx_id r + Z.of_nat (length ts) < 2 ^ 64)%Z
  | _ => True
  end -> registry_ok r'.
Proof.
  intros [H1 H2 H3 H4 H5] Hnone [Bm Bs Bb Bt] Hact Hrec Hroom. assert (Hact' : forall j, action_at j r' = if decide (j = id) then Some a else action_at j r).
  { intros j. rewrite <-Hact. by destruct (recorded_action_at _ _ _ _ _ j Hrec). }
  destruct Hrec as (_ & _ & Hb & Ht & Hidx). rewrite Bb in Hb. rewrite Bt in Ht. rewrite Bm, Bs in Hidx.
  assert (Hold : forall j act, action_at j r = Some act -> action_at j r' = Some act).
  { intros j act Hj. rewrite Hact', decide_False; [done|]. intros ->. by rewrite Hnone in Hj. }
  split; [by rewrite Hb|by rewrite Ht|..].
  - intros n h j. unfold transfer_id. destruct a as [m sts|m ts].
    + destruct Hidx as (-> & _ & _). fold (transfer_id r n h). rewrite H3. rewrite Hact'. case_decide as Hj; [subst|done].
      rewrite Hnone. split; intros (? & ? & _); done.
    + destruct Hidx as (Hfree & -> & _). rewrite index_insert. fold (transfer_id r n h). rewrite Hact'.
      destruct (decide (n = m /\ h = hash ts)) as [[-> ->]|Hk].
      * split; [intros [= <-]; rewrite decide_True by done; eauto|]. intros (ts' & Hj & Hh).
        case_decide as Hj'; [by subst|]. assert (transfer_id r m (hash ts) = Some j) as E by (apply H3; eauto).
        unfold transfer_id in E. congruence.
      * rewrite H3. case_decide as Hj; [subst j|done]. rewrite Hnone. split; [by intros (? & ? & _)|]. intros (ts' & [= <- <-] & Hh). tauto.
  - intros n sts j. unfold status_id. destruct a as [m sts'|m ts].
    + destruct Hidx as (_ & Hfree & ->). rewrite index_insert. fold (status_id r n sts). rewrite Hact'.
      destruct (decide (n = m /\ sts = sts')) as [[-> ->]|Hk].
      * split; [intros [= <-]; by rewrite decide_True|]. intros Hj. case_decide as Hj'; [by subst|].
        apply H4 in Hj. unfold status_id in Hj. congruence.
      * rewrite H4. case_decide as Hj; [subst j|done]. rewrite Hnone. split; [done|]. intros [= <- <-]. tauto.
    + destruct Hidx as (_ & _ & ->). fold (status_id r n sts). rewrite H4, Hact'. case_decide as Hj; [subst; by rewrite Hnone|done].
  - intros j n ts Hj. rewrite Ht. rewrite Hact' in Hj. case_decide; [by injection Hj as ->|by eapply H5].
Qed.

Lemma status_set_registry r id n sts : registry_ok r -> action_at id r = Some (SetCurrentTransactionBatchStatus n sts) ->
  registry_ok (forget_statuses n (clear_proposed (default ∅ (status_action_ids r !! n)) (clear_action id r))).
Proof.
  intros [H1 H2 H3 H4 H5] Ha. set (r1 := clear_proposed _ _).
  assert (Hact : forall j, ((exists sts', status_id r n sts' = Some j) /\ action_at j r1 = None) \/
    ((forall sts', status_id r n sts' <> Some j) /\ action_at j r1 = action_at j r)).
  { intros j. apply (cleared_exactly _ r sts id j). by apply H4. }
  destruct (clear_proposed_bookkeeping (default ∅ (status_action_ids r !! n)) (clear_action id r)) as [Bm Bs Bb Bt]. fold r1 in Bm, Bs, Bb, Bt. cbn in Bm, Bs, Bb, Bt.
  split; cbn; [by rewrite Bb|by rewrite Bt|..].
  - intros m h j. unfold transfer_id. cbn [forget_statuses batch_id_to_action_id_mapping]. rewrite Bm. fold (transfer_id r m h).
    change (action_at j (forget_statuses n r1)) with (action_at j r1). rewrite H3. destruct (Hact j) as [[[sts' Hj] ->]|[_ ->]]; [|done].
    apply H4 in Hj. rewrite Hj. split; by intros (? & ? & _).
  - intros m sts' j. unfold status_id. cbn [forget_statuses status_action_ids]. rewrite Bs, index_delete. fold (status_id r m sts').
    change (action_at j (forget_statuses n r1)) with (action_at j r1). destruct (Hact j) as [[[sts2 Hj] ->]|[Hno ->]].
    + case_decide as Hm; [done|]. apply H4 in Hj. rewrite H4, Hj. split; [|done]. intros [= -> _]. done.
    + case_decide as Hm; [subst m|apply H4]. split; [done|]. intros Hj. apply H4 in Hj. by destruct (Hno sts').
  - intros j m ts. rewrite Bt. change (action_at j (forget_statuses n r1)) with (action_at j r1).
    destruct (Hact j) as [[_ ->]|[_ ->]]; [done|]. apply H5.
Qed.

(** Every pending transfer is of the next batch, so after one was performed none is left. *)
Lemma transferred_registry r id n ts t : registry_ok r -> action_at id r = Some (BatchTransferEsdtToken n ts) ->
  (forall j m ts', action_at j r = Some (BatchTransferEsdtToken m ts') -> m = (last_executed_eth_batch_id r + 1)%Z) ->
  last ts = Some t -> et_nonce <$> ts = seqZ (last_executed_eth_tx_id r + 1) (Z.of_nat (length ts)) ->
  registry_ok (set_last_executed (last_executed_eth_batch_id r + 1) (et_nonce t)
    (forget_transfers n (clear_proposed (default ∅ (batch_id_to_action_id_mapping r !! n)) (clear_action id r)))).
Proof.
  intros [H1 H2 H3 H4 H5] Ha Hnext Hl Hts. set (r1 := clear_proposed _ _). set (r' := set_last_executed _ _ _).
  assert (Hid : transfer_id r n (hash ts) = Some id) by (apply H3; eauto).
  assert (Hact : forall j, ((exists h, transfer_id r n h = Some j) /\ action_at j r' = None) \/
    ((forall h, transfer_id r n h <> Some j) /\ action_at j r' = action_at j r)).
  { intros j. apply (cleared_exactly _ r (hash ts) id j). exact Hid. }
  destruct (clear_proposed_bookkeeping (default ∅ (batch_id_to_action_id_mapping r !! n)) (clear_action id r)) as [Bm Bs Bb Bt]. fold r1 in Bm, Bs, Bb, Bt. cbn in Bm, Bs, Bb, Bt.
  assert (Hgone : forall j m ts', action_at j r' <> Some (BatchTransferEsdtToken m ts')).
  { intros j m ts' Hj. destruct (Hact j) as [[_ E]|[Hno E]]; rewrite E in Hj; [done|]. apply (Hno (hash ts')). apply H3.
    exists ts'. split; [|done]. by rewrite (Hnext _ _ _ Ha), <-(Hnext _ _ _ Hj). }
  destruct (H5 _ _ _ Ha) as [Hn Hroom]. pose proof (Hnext _ _ _ Ha) as ->. pose proof (last_nonce _ _ _ Hts Hl) as Ht.
  assert (length ts <> 0) by (by destruct ts). split; [cbn; lia|cbn; lia|..].
  - intros m h j. unfold transfer_id, r'. cbn [set_last_executed forget_transfers batch_id_to_action_id_mapping]. rewrite Bm, index_delete. fold (transfer_id r m h). split.
    + case_decide as Hm; [done|]. intros Hj. apply H3 in Hj as (ts' & Hj & _). by destruct Hm; rewrite (Hnext _ _ _ Hj).
    + intros (ts' & Hj & _). by destruct (Hgone j m ts').
  - intros m sts j. unfold status_id. cbn [r' set_last_executed forget_transfers status_action_ids]. rewrite Bs. fold (status_id r m sts). rewrite H4.
    destruct (Hact j) as [[[h Hj] ->]|[_ ->]]; [|done]. apply H3 in Hj as (ts' & Hj & _). by rewrite Hj.
  - intros j m ts' Hj. by destruct (Hgone j m ts').
Qed.

Lemma step_registry es caller now tx (s s' : contracts W) :
  state_ok es s -> registry_ok (reg s) -> step caller now tx s s' -> registry_ok (reg s').
Proof.
  intros Hok Hr Hstep. destruct Hstep as [ts _ E|_ _ E|a id r1 _ _ _ Hp Hpush Hrec|id _ _ _ _ E|id n sts _ Ha _ _ _ _ _ _ _ _ _ _ E
    |id n ts t _ Ha _ _ Hl E _]; rewrite ?E; try done.
  - pose proof (action_at_push _ _ _ _ Hpush) as (_ & Hnone & Hact & _).
    assert (Hbook : same_bookkeeping (reg s) (if has_enough_stake caller (brd s) then add_signer id (get_user_id caller (brd s)) r1 else r1)).
    { injection Hpush as _ <-. destruct (has_enough_stake _ _); by split. }
    eapply proposed_registry; [exact Hr|exact Hnone|exact Hbook| |exact Hrec|].
    + intros j. rewrite <-Hact. by destruct (has_enough_stake _ _).
    + destruct a; [done|]. destruct Hp as (_ & _ & Hp). exact Hp.
  - by apply (registry_ok_same (reg s)).
  - by eapply status_set_registry.
  - destruct (so_transfers _ _ _ Hok _ _ _ Ha) as (_ & Hts & _). eapply transferred_registry; try done.
    intros j m ts' Hj. by destruct (so_transfers _ _ _ Hok _ _ _ Hj).
Qed.

Lemma happens_registry es c e : state_ok es (state c) -> registry_ok (reg (state c)) -> event_ok c e -> registry_ok (reg (state (happens c e))).
Proof.
  intros Hok Hr He. destruct (happens_cases V keccak256 multisig_address safe_address transfers_address es c e Hok He) as [[_ ->]|(caller & tx & _ & Hs)]; [done|].
  by eapply step_registry.
Qed.

Lemma history_registry es0 c es : state_ok es0 (state c) -> registry_ok (reg (state c)) -> history_ok c es -> registry_ok (reg (state (history c es))).
Proof.
  revert es0 c. induction es as [|e es IH]; intros es0 c Hok Hr Hh; [done|]. destruct Hh as [He Hh].
  apply (IH (es0 ++ [e])); [by apply happens_ok|by eapply happens_registry|done].
Qed.

Lemma deployed_registry c : deployed c -> registry_ok (reg (state c)).
Proof.
  intros (b & rs & sl & q & members & owner & u & w & fe & sf & gl & pc & mf & wr & sw & _ & _ & E). rewrite E. unfold reg. cbn.
  assert (Hno : forall j, action_at j (mkRegistry [] ∅ ∅ ∅ 0 0) = None) by (by intros [|j]).
  split; cbn; try done.
  - intros n h id. unfold transfer_id. cbn. rewrite lookup_empty, Hno. cbn. rewrite lookup_empty. split; [done|]. by intros (? & ? & _).
  - intros n sts id. unfold status_id. cbn. rewrite lookup_empty, Hno. cbn. by rewrite lookup_empty.
  - intros id n ts. by rewrite Hno.
Qed.

Lemma reachable_registry c0 es : deployed c0 -> history_ok c0 es -> registry_ok (reg (state (history c0 es))).
Proof. intros H0 Hh. apply (history_registry [] c0 es); [by eapply mvx_deployed_ok|by apply deployed_registry|done]. Qed.
(** ** The views *)

Lemma pending_valid id r act : action_at id r = Some act -> is_valid_action_id id r = true /\ was_action_executed id r = false.
Proof.
  intros Ha. assert (Hv : is_valid_action_id id r = true).
  { destruct id as [|i]; [done|]. cbn in Ha. unfold is_valid_action_id. apply andb_true_iff. split; [done|]. apply Nat.leb_le.
    destruct (action_mapper r !! i) eqn:E; [|done]. by apply lookup_lt_Some in E. }
  split; [done|]. unfold was_action_executed. by rewrite Hv, Ha, bool_decide_eq_false_2.
Qed.

Lemma not_valid_0 r : is_valid_action_id 0 r = false.
Proof. done. Qed.

(** Numbers of actions are not used again, and what was executed stays so. *)
Definition at_least (r r' : registry) : Prop := length (action_mapper r) <= length (action_mapper r') /\
  forall id, is_valid_action_id id r = true -> action_at id r = None -> action_at id r' = None.

Lemma clear_action_length id r : length (action_mapper (clear_action id r)) = length (action_mapper r).
Proof. destruct id; [done|]. cbn. apply length_insert. Qed.

Lemma clear_proposed_length {K} `{Countable K} (m : gmap K nat) r : length (action_mapper (clear_proposed m r)) = length (action_mapper r).
Proof.
  unfold clear_proposed, clear_actions. case_match; [|done]. generalize (snd <$> map_to_list m). intros l. revert r.
  induction l as [|i l IH]; intros r; [done|]. cbn. by rewrite IH, clear_action_length.
Qed.

Lemma shrunk_at_least r r' : shrunk r r' -> length (action_mapper r') = length (action_mapper r) -> at_least r r'.
Proof. intros Hs Hl. split; [lia|]. intros id _ Ha. destruct (Hs id) as [[? _]|[-> _]]; done. Qed.

Lemma step_at_least caller now tx (s s' : contracts W) : step caller now tx s s' -> at_least (reg s) (reg s').
Proof.
  intros [ts _ E|_ _ E|a id r1 _ _ _ _ Hpush Hrec|id _ _ _ _ E|id n sts _ _ _ _ _ _ _ _ Hshr _ _ _ E|id n ts t _ _ _ _ _ E _]; rewrite ?E; try by split.
  - pose proof (action_at_push _ _ _ _ Hpush) as (Hid & _ & Hact & _). split.
    + destruct Hrec as (-> & _). injection Hpush as _ <-. destruct (has_enough_stake _ _); cbn; rewrite length_app; lia.
    + intros j Hv Hj. destruct (recorded_action_at _ _ _ _ _ j Hrec) as [-> _]. assert (action_at j r1 = None); [|by destruct (has_enough_stake _ _)].
      rewrite Hact. rewrite decide_False; [done|]. intros ->. apply andb_true_iff in Hv as [_ Hv%Nat.leb_le]. lia.
  - apply shrunk_at_least; [|cbn; by rewrite clear_proposed_length, clear_action_length].
    rewrite <-E. etransitivity; [apply clear_action_shrunk|exact Hshr].
  - apply shrunk_at_least; [apply transferred_shrunk|cbn; by rewrite clear_proposed_length, clear_action_length].
Qed.

Lemma executed_stays r r' id : at_least r r' -> was_action_executed id r = true -> was_action_executed id r' = true.
Proof.
  intros [Hl Hk] [Hv Ha]%andb_true_iff. apply bool_decide_eq_true in Ha. pose proof (Hk id Hv Ha) as Ha'.
  unfold was_action_executed, is_valid_action_id in *. apply andb_true_iff in Hv as [Hv1 Hv%Nat.leb_le].
  rewrite Ha', Hv1. by rewrite (proj2 (Nat.leb_le _ _)) by lia.
Qed.

Lemma history_executed es0 c es id : state_ok es0 (state c) -> history_ok c es ->
  was_action_executed id (reg (state c)) = true -> was_action_executed id (reg (state (history c es))) = true.
Proof.
  revert es0 c. induction es as [|e es IH]; intros es0 c Hok Hh Hx; [done|]. destruct Hh as [He Hh].
  apply (IH (es0 ++ [e])); [by apply happens_ok|done|].
  destruct (happens_cases V keccak256 multisig_address safe_address transfers_address es0 c e Hok He) as [[_ ->]|(caller & tx & _ & Hs)]; [done|].
  eapply executed_stays; [by eapply step_at_least|done].
Qed.

(** What the views say of a registry that keeps the invariant. *)
Lemma transfer_view r n ts id : registry_ok r -> id <> 0 ->
  get_action_id_for_transfer_batch keccak256 n ts r = id <-> exists ts', action_at id r = Some (BatchTransferEsdtToken n ts') /\ hash ts' = hash ts.
Proof.
  intros Hr Hid. unfold get_action_id_for_transfer_batch. fold (transfer_id r n (hash ts)).
  transitivity (transfer_id r n (hash ts) = Some id).
  - destruct (transfer_id _ _ _); cbn; [|by split]. split; [by intros ->|by intros [= ->]].
  - rewrite (ro_transfer_id r Hr). naive_solver.
Qed.

Lemma status_view r n sts id : registry_ok r -> id <> 0 ->
  get_action_id_for_set_current_transaction_batch_status n sts r = id <-> action_at id r = Some (SetCurrentTransactionBatchStatus n sts).
Proof.
  intros Hr Hid. unfold get_action_id_for_set_current_transaction_batch_status. fold (status_id r n sts).
  rewrite <-(ro_status_id r Hr). destruct (status_id _ _ _); cbn; [|by split]. split; [by intros ->|by intros [= ->]].
Qed.

End Registry.
End MvxRegistry.
