(* ===== verification/MvxServed.v ===== *)
(** * The batches the safe on MultiversX serves

    A batch that is full and final is served to the relayers.  As long as the owner does not change
    the settings of the batches while one is served, it stays as it is until a quorum of the board
    sets the statuses of all its transactions - which the multisig makes impossible for a batch of
    six transactions or more.  Module [MvxRead]: the contract's answer to [getCurrentTxBatch] and
    the batch the relayer's client makes of it. *)
From S2P Require Import Prelude Go Text Common Batch Interfaces Executor Solidity MvxClient MvxClientFacts TxBatch TxBatchFacts EsdtSafe EsdtSafeFacts MultiTransfer MultiTransferFacts Multisig MultisigFacts MvxContracts MvxContractsFacts MvxContractsSafety.
Import TxBatch.

Module MvxServed.
Import MultiTransfer Multisig MultisigFacts MvxContracts MvxContractsFacts MvxContractsSafety.

Section Served.
Context {W : Type} (V : vm W) (keccak256 : bytes -> bytes) (multisig_address safe_address transfers_address : address).

Abbreviation happens := (happens V keccak256 multisig_address safe_address transfers_address).
Abbreviation history := (history V keccak256 multisig_address safe_address transfers_address).
Abbreviation history_ok := (history_ok V keccak256 multisig_address safe_address transfers_address).
Abbreviation event_ok := (event_ok multisig_address).
Abbreviation deployed := (deployed V multisig_address safe_address transfers_address).
Abbreviation state_ok := (state_ok multisig_address).

Definition served (c : chain W) : option (Z * list Transaction) := get_current_tx_batch (block_nonce c) (bat (state c)).

(** The owner does not change the settings of the batches (their size and the block limit) while
    a batch is served.  The contract does not enforce it: a larger size can take a served batch
    back and let more transactions into it. *)
Definition settled (c : chain W) (e : event W) : Prop :=
  match e with Sent _ tx => batch_setting tx = true -> served c = None | _ => True end.

Fixpoint settled_history (c : chain W) (es : list (event W)) : Prop :=
  match es with
  | [] => True
  | e :: rest => settled c e /\ settled_history (happens c e) rest
  end.

#[global] Instance settled_dec c e : Decision (settled c e).
Proof. destruct e as [|a tx|]; cbn; [apply _| |apply _]. apply impl_dec; [apply _|]. destruct (served c); [by right|by left]. Defined.
#[global] Instance settled_history_dec c es : Decision (settled_history c es).
Proof. revert c. induction es as [|e rest IH]; intros c; cbn [settled_history]; [apply _|]. apply and_dec; [apply _|apply IH]. Defined.

(** A pending proposal of statuses is about an earlier batch, or has as many statuses as the
    multisig counts transactions in the served one. *)
Definition statuses_ok (c : chain W) : Prop := forall id n sts,
  action_at id (reg (state c)) = Some (SetCurrentTransactionBatchStatus n sts) ->
  (n <= first_batch_id (bat (state c)))%Z /\
  (n = first_batch_id (bat (state c)) -> exists txs, served c = Some (n, txs) /\ length sts = current_batch_len txs).

(** What a performed proposal of statuses does to the batch [n]. *)
Definition processed (es : list (event W)) (c c' : chain W) (e : event W) (n : Z) (txs : list Transaction) : Prop :=
  exists caller id sts, e = Sent caller (ToMultisig (PerformAction id)) /\ get_user_role caller (brd (state c)) = RBoardMember /\
    action_at id (reg (state c)) = Some (SetCurrentTransactionBatchStatus n sts) /\
    quorum_approved es id (SetCurrentTransactionBatchStatus n sts) (state c) /\
    length sts = length txs /\ length txs < 6 /\
    first_batch_id (bat (state c')) = (n + 1)%Z /\ queue (bat (state c)) = txs ++ queue (bat (state c')).

Lemma now_mono c e : event_ok c e -> (block_nonce c <= block_nonce (happens c e))%Z.
Proof. destruct e as [n|caller tx|w]; cbn; intros He; [done| |lia]. destruct (MvxContracts.tx_exec _ _ _ _ _ _ _ _ _); cbn; lia. Qed.

Lemma now_sent c caller tx : block_nonce (happens c (Sent caller tx)) = block_nonce c.
Proof. cbn. by destruct (MvxContracts.tx_exec _ _ _ _ _ _ _ _ _). Qed.

Lemma happens_served es c e n txs : state_ok es (state c) -> statuses_ok c -> event_ok c e -> settled c e -> served c = Some (n, txs) ->
  served (happens c e) = Some (n, txs) \/ processed es c (happens c e) e n txs.
Proof.
  intros Hok Hst He Hse Hs. pose proof (now_mono c e He) as Hnow.
  destruct (happens_cases V keccak256 multisig_address safe_address transfers_address es c e Hok He) as [[Hb _]|(caller & tx & -> & Hstep)].
  { left. unfold served in *. rewrite Hb. by eapply served_later. }
  pose proof (now_sent c caller tx) as Hn. pose proof Hs as (_ & _ & Hpair)%served_inv. injection Hpair as -> Htxs.
  destruct Hstep as [ts _ _ _ Hg|H1 _ _ _ _ _ _ _|a id r1 _ (_ & _ & Hb) _ _ _ _|id _ (_ & _ & Hb) _ _ _
    |id n sts -> Ha Hper _ _ Hn' Hl Hc _ _ _ _|id n ts t _ _ _ (_ & _ & Hb) _ _ _];
    try (left; unfold served in *; rewrite Hn, Hb; done).
  - left. unfold served in *. rewrite Hn. apply (gr_served _ _ _ _ (ex_grown _ _ _ _ Hg)); [apply Hok|done].
  - by rewrite (Hse H1) in Hs.
  - right. subst n. destruct (Hst _ _ _ Ha) as [_ Hlen]. destruct (Hlen eq_refl) as (txs' & Hs' & Hlen'). rewrite Hs in Hs'. injection Hs' as <-.
    rewrite <-Htxs in Hl. apply clear_first_inv in Hc as (Hf & _ & _ & _ & _ & Hw). destruct (Hw (so_batches _ _ _ Hok)) as [_ Hq].
    exists caller, id, sts. split; [done|]. split; [apply Hper|]. split; [done|].
    split; [by eapply performable_approved|]. split; [done|]. split; [apply current_batch_len_exact; congruence|].
    split; [done|]. by rewrite Htxs.
Qed.

(** Proposals of statuses after a step that keeps the batches. *)
Lemma statuses_kept es c e : state_ok es (state c) -> statuses_ok c -> event_ok c e -> settled c e -> statuses_ok (happens c e).
Proof.
  intros Hok Hst He Hse. pose proof (now_mono c e He) as Hnow.
  assert (Hkeep : (forall id n sts, action_at id (reg (state (happens c e))) = Some (SetCurrentTransactionBatchStatus n sts) ->
      action_at id (reg (state c)) = Some (SetCurrentTransactionBatchStatus n sts) \/ exists txs, served c = Some (n, txs) /\ length sts = current_batch_len txs) ->
    first_batch_id (bat (state (happens c e))) = first_batch_id (bat (state c)) ->
    (forall r, served c = Some r -> served (happens c e) = Some r) -> statuses_ok (happens c e)).
  { intros Hact Hf Hs id n sts Ha. rewrite Hf. apply Hact in Ha as [Ha|(txs & Htx & Hl)].
    - destruct (Hst _ _ _ Ha) as [H1 H2]. split; [done|]. intros Hn. destruct (H2 Hn) as (txs & Htx & Hl). exists txs. auto.
    - split; [|intros _; exists txs; auto]. apply served_inv in Htx as (_ & _ & Hp). injection Hp as -> _. lia. }
  destruct (happens_cases V keccak256 multisig_address safe_address transfers_address es c e Hok He) as [[Hb Hr]|(caller & tx & -> & Hstep)].
  { apply Hkeep; [rewrite Hr; by left|by rewrite Hb|]. intros r. unfold served. rewrite Hb. by apply served_later. }
  pose proof (now_sent c caller tx) as Hn.
  assert (Hsame : bat (state (happens c (Sent caller tx))) = bat (state c) -> forall r, served c = Some r -> served (happens c (Sent caller tx)) = Some r).
  { intros Hb r. unfold served. by rewrite Hn, Hb. }
  destruct Hstep as [ts _ Hr _ Hg|H1 _ Hr _ Hf _ _ _|a id r1 _ (_ & _ & Hb) _ Hp Hpush Hrec|id _ (_ & _ & Hb) _ _ Hr
    |id n sts -> Ha _ _ _ Hn' _ Hc Hshr _ _ _|id n ts t _ _ _ (_ & _ & Hb) _ Hreg _].
  - apply Hkeep; [rewrite Hr; by left|apply Hg|]. intros r. unfold served. rewrite Hn. apply (gr_served _ _ _ _ (ex_grown _ _ _ _ Hg)). apply Hok.
  - apply Hkeep; [rewrite Hr; by left|done|]. intros r. by rewrite (Hse H1).
  - apply Hkeep; [|by rewrite Hb|by apply Hsame]. intros j n sts Hj. destruct (recorded_action_at _ _ _ _ _ j Hrec) as [E _]. rewrite E in Hj.
    pose proof (action_at_push _ _ _ _ Hpush) as (_ & _ & Hact & _).
    assert (Hj' : action_at j r1 = Some (SetCurrentTransactionBatchStatus n sts)) by (by destruct (has_enough_stake _ _)).
    rewrite Hact in Hj'. case_decide; [|by left]. injection Hj' as ->. by right.
  - apply Hkeep; [|by rewrite Hb|by apply Hsame]. rewrite Hr. by left.
  - intros j m sts' Hj. apply (shrunk_action _ _ _ _ Hshr) in Hj as [Hj _]. rewrite action_at_clear in Hj. case_decide; [done|].
    destruct (Hst _ _ _ Hj) as [Hle _]. apply clear_first_inv in Hc as (Hf & _). rewrite Hf. split; [lia|]. intros ->. lia.
  - apply Hkeep; [|by rewrite Hb|by apply Hsame]. intros j m sts' Hj. left. rewrite Hreg in Hj.
    by apply (shrunk_action _ _ _ _ (transferred_shrunk _ _ _ _ _ _)) in Hj as [Hj _].
Qed.

(** ** Proposals *)

Lemma propose_action_ok caller a m :
  is_board_member (role_of (get_user_id caller (m_board m)) (m_board m)) = true -> m_paused m = false ->
  exists r1, push_action a (m_registry m) = Done (S (length (action_mapper (m_registry m)))) r1 /\
    propose_action caller a m = Done (S (length (action_mapper (m_registry m))))
      (put_registry (if has_enough_stake caller (m_board m) then add_signer (S (length (action_mapper (m_registry m)))) (get_user_id caller (m_board m)) r1 else r1) m).
Proof.
  intros Hr Hp. eexists. split; [reflexivity|]. destruct m as [o pz b r e t]. cbn in *.
  unfold propose_action, on_board, on_registry, at_part, view, mbind, Sol_bind. cbn. rewrite Hr. cbn. rewrite Hp. cbn.
  by destruct (has_enough_stake caller b).
Qed.

(** Which proposals of statuses the multisig takes.  When the safe serves a batch and a board member
    proposes one status per transaction, not proposed before, to the contract that is not paused:
    with fewer than six transactions the proposal becomes a pending action, with six or more the
    call fails, because the multisig expects another number of statuses. *)
Theorem status_proposals_decided (s : contracts W) (caller : address) (now n : Z) (txs : list Transaction) (sts : list TransactionStatus) :
  get_current_tx_batch now (bat s) = Some (n, txs) ->
  is_board_member (role_of (get_user_id caller (brd s)) (brd s)) = true -> m_paused (c_multisig s) = false ->
  default ∅ (status_action_ids (reg s) !! n) !! sts = None -> length sts = length txs ->
  let call := propose_esdt_safe_set_current_transaction_batch_status caller now n sts s in
  (length txs < 6 -> exists id s', call = Done id s' /\ action_at id (reg s) = None /\
     action_at id (reg s') = Some (SetCurrentTransactionBatchStatus n sts) /\
     get_action_id_for_set_current_transaction_batch_status n sts (reg s') = id) /\
  (6 <= length txs -> call = Revert "Number of statuses provided must be equal to number of transactions in current batch").
Proof.
  intros Hb Hr Hp Hnew Hl call. subst call. destruct s as [m sf t w]. unfold brd, bat, reg in *. cbn [c_multisig c_safe] in *.
  destruct (propose_action_ok caller (SetCurrentTransactionBatchStatus n sts) m Hr Hp) as (r1 & Hpush & Hprop).
  unfold propose_esdt_safe_set_current_transaction_batch_status, on_multisig, at_part, view, mbind, Sol_bind. cbn [c_multisig c_safe].
  rewrite Hb. cbn [c_multisig c_safe]. rewrite Hnew, bool_decide_eq_true_2 by done. cbn [require mret Sol_ret c_multisig]. rewrite Hl. split; intros Hlen.
  - rewrite (proj2 (current_batch_len_exact txs) Hlen), Nat.eqb_refl. cbn [require mret Sol_ret c_multisig].
    rewrite Z.eqb_refl. cbn [require mret Sol_ret c_multisig]. rewrite Hprop. eexists _, _. split; [reflexivity|].
    pose proof (action_at_push _ _ _ _ Hpush) as (_ & Hnone & Hact & _). split; [done|]. split.
    + pose proof (Hact (S (length (action_mapper (m_registry m))))) as Hid. rewrite decide_True in Hid by done.
      revert Hid. by destruct (has_enough_stake _ _).
    + unfold get_action_id_for_set_current_transaction_batch_status. cbn. rewrite lookup_insert_eq. cbn. by rewrite lookup_insert_eq.
  - destruct (Nat.eqb_spec (current_batch_len txs) (length txs)) as [E|_]; [|done]. apply current_batch_len_exact in E. lia.
Qed.

(** ** Histories *)

Lemma settled_app c es es' : settled_history c (es ++ es') <-> settled_history c es /\ settled_history (history c es) es'.
Proof. revert c. induction es as [|e es IH]; intros c; cbn; [tauto|]. rewrite IH. tauto. Qed.

Lemma history_statuses es0 c es : state_ok es0 (state c) -> statuses_ok c -> history_ok c es -> settled_history c es -> statuses_ok (history c es).
Proof.
  revert es0 c. induction es as [|e es IH]; intros es0 c Hok Hst Hh Hse; [done|]. destruct Hh as [He Hh], Hse as [Hs Hse].
  apply (IH (es0 ++ [e])); try done; [by apply happens_ok|by eapply statuses_kept].
Qed.

Lemma deployed_statuses c : deployed c -> statuses_ok c.
Proof.
  intros (b & rs & sl & q & members & owner & u & w & fe & sf & gl & pc & mf & wr & sw & _ & _ & E) id n sts.
  rewrite E. unfold reg. cbn. by destruct id.
Qed.

(** C10. A batch that the safe serves stays as it is until it is processed, and it is processed only by
    a quorum.  As long as the owner changes the settings of the batches only while none is served,
    after any event the same batch, with the same transactions, is still served, or the event is
    a board member performing an action approved by a quorum that gives each transaction of this
    batch a status; then the batch has left the front of the queue. *)
Theorem served_until_processed (c0 : chain W) (es : list (event W)) (e : event W) (n : Z) (txs : list Transaction) :
  let c := history c0 es in
  deployed c0 -> history_ok c0 (es ++ [e]) -> settled_history c0 (es ++ [e]) -> served c = Some (n, txs) ->
  served (happens c e) = Some (n, txs) \/ processed es c (happens c e) e n txs.
Proof.
  intros c H0 [Hh [He _]]%history_ok_app' [Hse [Hs _]]%settled_app Hserved.
  pose proof (mvx_reachable_ok _ _ _ _ _ c0 es H0 Hh) as Hok. apply happens_served; try done.
  by apply (history_statuses [] c0 es (mvx_deployed_ok _ _ _ _ c0 H0) (deployed_statuses c0 H0)).
Qed.

(** C17. A served batch of six transactions or more is not processed as long as the owner does not
    change the batch settings while a batch is served ([settled_history]).  The multisig counts the
    transactions of the batch by dividing the number of values it is given by six, while each
    transaction is given as seven, so no proposal has as many statuses as the safe requires: after
    any further history without such a change, whatever the board proposes, signs and performs, the
    safe serves the same batch, and nothing behind it is served. *)
Theorem large_batches_stuck (c0 : chain W) (es later : list (event W)) (n : Z) (txs : list Transaction) :
  deployed c0 -> history_ok c0 (es ++ later) -> settled_history c0 (es ++ later) ->
  served (history c0 es) = Some (n, txs) -> 6 <= length txs ->
  served (history c0 (es ++ later)) = Some (n, txs) /\ first_batch_id (bat (state (history c0 (es ++ later)))) = n.
Proof.
  intros H0 [Hh Hl]%history_ok_app' [Hse Hsl]%settled_app Hserved Hlen.
  assert (H : served (history (history c0 es) later) = Some (n, txs)).
  { pose proof (mvx_reachable_ok _ _ _ _ _ c0 es H0 Hh) as Hok.
    pose proof (history_statuses [] c0 es (mvx_deployed_ok _ _ _ _ c0 H0) (deployed_statuses c0 H0) Hh Hse) as Hst.
    clear H0 Hh Hse. generalize dependent (history c0 es). clear c0. revert es.
    induction later as [|e later IH]; intros es c Hl Hsl Hserved Hok Hst; [done|]. destruct Hl as [He Hl], Hsl as [Hs Hsl].
    apply (IH (es ++ [e])); try done; [|by apply happens_ok|by eapply statuses_kept].
    destruct (happens_served es c e n txs) as [H|(? & ? & ? & _ & _ & _ & _ & _ & H & _)]; try done. lia. }
  unfold MvxContracts.history in *. rewrite foldl_app. split; [done|]. apply served_inv in H as (_ & _ & H). by injection H as <-.
Qed.
End Served.
End MvxServed.

(** ** The relayer reads the batches of the safe *)
Import MvxClient MvxClientFacts TxBatch.

Module MvxRead.
Import MvxContracts MvxContractsFacts MvxContractsSafety MvxServed.

(** The values of [getCurrentTxBatch]: none, or the number of the batch and seven values per transaction. *)
Definition batch_answer (r : option (Z * list Transaction)) : list bytes :=
  match r with
  | None => []
  | Some (n, txs) => big_Bytes n :: concat (into_multiresult <$> txs)
  end.

Definition raw_of (t : Transaction) : raw_transfer :=
  mkRaw (big_Bytes (tx_block_nonce t)) (big_Bytes (tx_nonce t)) (tx_from t) (tx_to t) (tx_token t) (big_Bytes (tx_amount t)) (big_Bytes (tx_service_fee t)).

Lemma answer_raw n txs : batch_answer (Some (n, txs)) = raw_response (big_Bytes n) (raw_of <$> txs).
Proof. unfold batch_answer, raw_response. f_equal. f_equal. rewrite <-list_fmap_compose. done. Qed.

Section Read.
Context {X : Type} (D : mxDeps X) (conv : bytes -> res bytes) (ask : bytes -> X -> X).

(** A transaction as the relayer's deposit; [converted] is its token on Ethereum. *)
Definition mirrored (t : Transaction) (converted : bytes) : DepositTransfer :=
  {| dt_Nonce := tx_nonce t;
     dt_ToBytes := tx_to t;
     dt_DisplayableTo := ToHexStringWithPrefix (tx_to t);
     dt_FromBytes := tx_from t;
     dt_DisplayableFrom := ToBech32String (mx_converter D) (tx_from t);
     dt_TokenBytes := tx_token t;
     dt_ConvertedTokenBytes := converted;
     dt_DisplayableToken := string_of_bytes (tx_token t);
     dt_Amount := Some (tx_amount t) |}.

Lemma parse_big n : (0 <= n < 2 ^ 64)%Z -> parseUInt64FromByteSlice (big_Bytes n) = Ok n.
Proof.
  intros H. unfold parseUInt64FromByteSlice. rewrite be_val_big, Z.abs_eq by lia. unfold two64.
  destruct (Z.ltb_spec n 18446744073709551616) as [_|Hl]; [done|]. exfalso. change (2 ^ 64)%Z with 18446744073709551616%Z in H. lia.
Qed.

Lemma parse_mirrored i txs converted :
  Forall (fun t => (0 <= tx_nonce t < 2 ^ 64)%Z /\ (0 <= tx_amount t)%Z) txs ->
  Forall2 (fun t v => conv (tx_token t) = Ok v) txs converted ->
  parse_ref D conv i (raw_of <$> txs) = Ok (zip_with mirrored txs converted).
Proof.
  intros Ht Hc. revert i. induction Hc as [|t v txs converted Hv _ IH]; intros i; [done|]. apply Forall_cons in Ht as [[Hn Ha] Ht].
  cbn [fmap list_fmap parse_ref raw_of rt_nonce rt_token rt_from rt_to rt_amount]. rewrite parse_big by done. rewrite Hv, IH by done.
  unfold mx_deposit. rewrite be_val_big, Z.abs_eq by done. done.
Qed.

Lemma create_parsed n ts ds x : ts <> [] -> (0 <= n < 2 ^ 64)%Z -> (forall t y, mx_ConvertToken D t y = (Ret (conv t), ask t y)) ->
  parse_ref D conv 0 ts = Ok ds ->
  exists x', createPendingBatchFromResponse D (raw_response (big_Bytes n) ts) x = (Ret (Ok (Some (mkBatch n ds (replicate (length ds) Byte.x00)))), x').
Proof.
  intros Hne Hn Hconv Hp. unfold createPendingBatchFromResponse.
  rewrite (proj2 (guard_shape (raw_response (big_Bytes n) ts))) by (by exists (big_Bytes n), ts). cbn [negb].
  unfold field, mbind, M_bind, raw_response. cbn [lookup list_lookup drop mret M_ret]. rewrite parse_big by done.
  destruct (create_loop_ref D conv ask (length (big_Bytes n :: concat (raw_fields <$> ts))) ts 0 ∅ [] x Hconv) as [x' Hx];
    [cbn; lia|intros t v; by rewrite lookup_empty|].
  exists x'. unfold bind_ok, mbind, M_bind. rewrite drop_0, Hx, Hp. done.
Qed.

Context {W : Type} (V : vm W) (keccak256 : bytes -> bytes) (multisig_address safe_address transfers_address : address).

(** The transactions of a served batch: numbered consecutively, with amounts that are not negative. *)
Lemma served_typed es c n txs : state_ok multisig_address es (state c) -> served (W := W) c = Some (n, txs) ->
  (1 <= n < 2 ^ 64)%Z /\ txs <> [] /\ Forall (fun t => (0 <= tx_nonce t < 2 ^ 64)%Z /\ (0 <= tx_amount t)%Z) txs /\
  exists k, (0 <= k)%Z /\ tx_nonce <$> txs = seqZ (k + 1) (Z.of_nat (length txs)) /\ (k + Z.of_nat (length txs) <= last_tx_nonce (bat (state c)))%Z.
Proof.
  intros Hok (Hfull & _ & Hp)%served_inv. injection Hp as -> Htxs. destruct (so_numbered _ _ _ Hok) as [Nr Nq Na Nf].
  destruct (queue_first (bat (state c)) (so_batches _ _ _ Hok)) as [rest Hq]. rewrite <-Htxs in Hq, Hfull. rewrite Hq in Nr, Nq, Na.
  rewrite length_app in Nr. apply numbered_app in Nq as [Nq _]. apply Forall_app in Na as [Na _].
  split; [done|]. split; [by destruct txs|].
  pose (k := (last_tx_nonce (bat (state c)) - Z.of_nat (length rest) - Z.of_nat (length txs))%Z).
  assert (Hk : tx_nonce <$> txs = seqZ (k + 1) (Z.of_nat (length txs))) by exact Nq.
  split; [|exists k; split; [unfold k; lia|]; split; [done|unfold k; lia]].
  apply Forall_forall. intros t Ht. split; [|by eapply Forall_forall in Na].
  assert (Hin : tx_nonce t ∈ tx_nonce <$> txs) by (by apply list_elem_of_fmap_2). rewrite Hk in Hin. apply elem_of_seqZ in Hin. unfold k in Hin. lia.
Qed.

(** C13. What the relayers read of the safe is what the safe holds.  On any chain, when the node answers
    the relayer's query for the current batch with what the contract returns, then without a
    served batch the client reports that none is pending; and from a served one it makes, whenever
    its tokens are mapped, the batch with the contract's number whose deposits are the
    transactions in their order - nonces, parties, tokens, amounts - one fresh status each.  The
    nonces are consecutive, and none is above the last number the safe has given out. *)
Theorem served_batch_read (c0 : chain W) (es : list (event W)) (x x1 : X) :
  let c := history V keccak256 multisig_address safe_address transfers_address c0 es in
  deployed V multisig_address safe_address transfers_address c0 ->
  history_ok V keccak256 multisig_address safe_address transfers_address c0 es ->
  (forall t y, mx_ConvertToken D t y = (Ret (conv t), ask t y)) ->
  GetCurrentBatchAsDataBytes D x = (Ret (Ok (batch_answer (served c))), x1) ->
  (served c = None -> GetPending D x = (Ret (Err ErrNoPendingBatchAvailable), x1)) /\
  forall n txs converted, served c = Some (n, txs) -> Forall2 (fun t v => conv (tx_token t) = Ok v) txs converted ->
    (exists x', GetPending D x = (Ret (Ok (Some (mkBatch n (zip_with mirrored txs converted) (replicate (length txs) Byte.x00)))), x')) /\
    exists k, (0 <= k)%Z /\ tx_nonce <$> txs = seqZ (k + 1) (Z.of_nat (length txs)) /\ (k + Z.of_nat (length txs) <= last_tx_nonce (bat (state c)))%Z.
Proof.
  intros c H0 Hh Hconv Hans. unfold GetPending, bind_ok, mbind, M_bind. rewrite Hans. split; [by intros ->|].
  intros n txs converted Hs Hc. pose proof (mvx_reachable_ok _ _ _ _ _ c0 es H0 Hh) as Hok. fold c in Hok.
  destruct (served_typed es c n txs Hok Hs) as (Hn & Hne & Ht & Hk). split; [|done].
  destruct (create_parsed n (raw_of <$> txs) (zip_with mirrored txs converted) x1) as [x' Hx]; [by destruct txs|lia|done|by apply parse_mirrored|].
  exists x'. rewrite Hs, answer_raw. replace (emptyResponse _) with false by (destruct txs; [done|]; by destruct (big_Bytes n)).
  rewrite Hx. do 4 f_equal. rewrite length_zip_with_l_eq; [done|]. by eapply Forall2_length.
Qed.
End Read.

End MvxRead.
