(* ===== verification/MvxNode.v ===== *)
(** * The relayer's client over the contracts in Rust

    A node that runs the contracts of [src/rs]: queries are answered by the views of the multisig
    ([queries.rs], [storage.rs]) on the current chain, transactions are executed by its endpoints.
    The calls arrive by name with one text per argument; the decoding of single values by the
    contract framework is a parameter, of which the node promises that it reads what the SDK has
    written.  Over such a node every call of the Go client ([src/bridge/clients/multiversx]) is
    the view, or the transaction, of the contract. *)
From S2P Require Import Prelude Go Text Common Batch Interfaces Executor Solidity MvxClient MvxClientFacts ClientOnChain TxBatch TxBatchFacts EsdtSafe MultiTransfer Multisig MvxContracts MvxContractsFacts MvxContractsSafety MvxRegistry MvxServed.
Import MvxClient MvxClientFacts TxBatch MultiTransfer.
Import ClientOnChain(encodable, arg_texts, transfer_args).

Module MvxNode.
Import MvxContracts MvxContractsFacts MvxServed MvxRead.

(** ** Views *)

Inductive view_call :=
  | VIsPaused
  | VWasTransferActionProposed (eth_batch_id : Z) (ts : list EthTransaction)
  | VGetActionIdForTransferBatch (eth_batch_id : Z) (ts : list EthTransaction)
  | VWasSetStatusProposed (esdt_safe_batch_id : Z) (sts : list TransactionStatus)
  | VGetActionIdForSetStatus (esdt_safe_batch_id : Z) (sts : list TransactionStatus)
  | VWasActionExecuted (action_id : nat)
  | VQuorumReached (action_id : nat)
  | VSigned (user : address) (action_id : nat)
  | VGetLastExecutedEthBatchId
  | VGetLastExecutedEthTxId
  | VGetCurrentTxBatch
  | VGetTokenIdForErc20Address (erc20 : bytes)
  | VGetErc20AddressForTokenId (token : bytes)
  | VGetAllStakedRelayers.

(** Results in their top-level encoding: [false] and zero are empty. *)
Definition top_bool (b : bool) : bytes := if b then [Byte.x01] else [].
Definition top_number (z : Z) : bytes := big_Bytes z.

Definition answer {W} (keccak256 : bytes -> bytes) (v : view_call) (c : chain W) : list bytes :=
  let m := c_multisig (state c) in
  let r := Multisig.m_registry m in
  match v with
  | VIsPaused => [top_bool (Multisig.m_paused m)]
  | VWasTransferActionProposed n ts => [top_bool (Multisig.was_transfer_action_proposed keccak256 n ts r)]
  | VGetActionIdForTransferBatch n ts => [top_number (Z.of_nat (Multisig.get_action_id_for_transfer_batch keccak256 n ts r))]
  | VWasSetStatusProposed n sts => [top_bool (Multisig.was_set_current_transaction_batch_status_action_proposed n sts r)]
  | VGetActionIdForSetStatus n sts => [top_number (Z.of_nat (Multisig.get_action_id_for_set_current_transaction_batch_status n sts r))]
  | VWasActionExecuted id => [top_bool (Multisig.was_action_executed id r)]
  | VQuorumReached id => [top_bool (Multisig.quorum_reached id m)]
  | VSigned user id => [top_bool (Multisig.signed user id m)]
  | VGetLastExecutedEthBatchId => [top_number (Multisig.last_executed_eth_batch_id r)]
  | VGetLastExecutedEthTxId => [top_number (Multisig.last_executed_eth_tx_id r)]
  | VGetCurrentTxBatch => batch_answer (served c)
  | VGetTokenIdForErc20Address e => [default [] (Multisig.token_id_for_erc20_address m !! e)]
  | VGetErc20AddressForTokenId t => [default [] (Multisig.erc20_address_for_token_id m !! t)]
  | VGetAllStakedRelayers => Multisig.get_all_staked_relayers (Multisig.m_board m)
  end.

(** ** Calls by name *)

(** How the framework reads one argument. *)
Record codec := {
  top_u64 : bytes -> option Z;
  top_usize : bytes -> option nat;
  top_address : bytes -> option address;
  top_eth_address : bytes -> option bytes;
  top_big : bytes -> option Z;
  top_status : bytes -> option TransactionStatus
}.

Section Names.
Context (K : codec).

(** Five values per transfer. *)
Fixpoint parse_transfers (l : list bytes) : option (list EthTransaction) :=
  match l with
  | [] => Some []
  | from :: to :: token :: amount :: nonce :: rest =>
      f ← top_eth_address K from; t ← top_address K to; a ← top_big K amount; n ← top_u64 K nonce;
      ts ← parse_transfers rest;
      Some (mkEthTx f t token a n :: ts)
  | _ => None
  end.

Definition arg_none {A} (a : A) (args : list bytes) : option A := match args with [] => Some a | _ => None end.
Definition arg_action {A} (f : nat -> A) (args : list bytes) : option A := match args with [a] => f <$> top_usize K a | _ => None end.
Definition arg_transfers {A} (f : Z -> list EthTransaction -> A) (args : list bytes) : option A :=
  match args with n :: rest => id ← top_u64 K n; ts ← parse_transfers rest; Some (f id ts) | _ => None end.
Definition arg_statuses {A} (f : Z -> list TransactionStatus -> A) (args : list bytes) : option A :=
  match args with n :: rest => id ← top_u64 K n; sts ← mapM (top_status K) rest; Some (f id sts) | _ => None end.

Definition arg_signed (args : list bytes) : option view_call :=
  match args with [u; a] => user ← top_address K u; VSigned user <$> top_usize K a | _ => None end.

Definition views : list (string * (list bytes -> option view_call)) := [
  ("isPaused", arg_none VIsPaused);
  ("wasTransferActionProposed", arg_transfers VWasTransferActionProposed);
  ("getActionIdForTransferBatch", arg_transfers VGetActionIdForTransferBatch);
  ("wasSetCurrentTransactionBatchStatusActionProposed", arg_statuses VWasSetStatusProposed);
  ("getActionIdForSetCurrentTransactionBatchStatus", arg_statuses VGetActionIdForSetStatus);
  ("wasActionExecuted", arg_action VWasActionExecuted);
  ("quorumReached", arg_action VQuorumReached);
  ("signed", arg_signed);
  ("getLastExecutedEthBatchId", arg_none VGetLastExecutedEthBatchId);
  ("getLastExecutedEthTxId", arg_none VGetLastExecutedEthTxId);
  ("getCurrentTxBatch", arg_none VGetCurrentTxBatch);
  ("getTokenIdForErc20Address", fun args => match args with [e] => VGetTokenIdForErc20Address <$> top_eth_address K e | _ => None end);
  ("getErc20AddressForTokenId", fun args => match args with [t] => Some (VGetErc20AddressForTokenId t) | _ => None end);
  ("getAllStakedRelayers", arg_none VGetAllStakedRelayers) ].

(** The endpoints the relayers call. *)
Definition endpoints : list (string * (list bytes -> option multisig_call)) := [
  ("proposeMultiTransferEsdtBatch", arg_transfers ProposeTransfer);
  ("proposeEsdtSafeSetCurrentTransactionBatchStatus", arg_statuses ProposeStatus);
  ("sign", arg_action Sign);
  ("performAction", arg_action PerformAction) ].

Definition by_name {A} (table : list (string * (list bytes -> option A))) (name : string) (args : list bytes) : option A :=
  f ← snd <$> list_find (fun p => fst p = name) table;
  snd f args.
Definition parse_view : string -> list bytes -> option view_call := by_name views.
Definition parse_call : string -> list bytes -> option multisig_call := by_name endpoints.
End Names.

(** ** The node *)

(** A status as the client sends it. *)
Definition status_of_byte (b : byte) : option TransactionStatus :=
  match byte_val b with
  | 0%Z => Some StNone | 1%Z => Some StPending | 2%Z => Some StInProgress | 3%Z => Some StExecuted | 4%Z => Some StRejected
  | _ => None
  end.

Class RustNode {W} (V : vm W) (keccak256 : bytes -> bytes) (multisig_address safe_address transfers_address : address)
    {X} (D : mxDeps X) (K : codec) (enc : vmArg -> bytes) (get : X -> chain W) (put : chain W -> X -> X) : Prop := {
  rn_put_get x : put (get x) x = x;
  rn_get_put c x : get (put c x) = c;
  rn_put_put c c' x : put c (put c' x) = put c x;
  rn_query r args v x : rq_Args r = hex_encode <$> args -> parse_view K (rq_FuncName r) args = Some v ->
    ExecuteVMQuery D r x = (Ret (Ok (mkResponse okCodeAfterExecution "" (answer keccak256 v (get x)))), x);
  rn_send tx f args call x : tx_Sender tx = relayer_bech32 D -> tx_Receiver tx = multisig_bech32 D ->
    tx_Data tx = bytes_of_string (join_with "@" (f :: (hex_encode <$> args))) -> parse_call K f args = Some call ->
    exists h, SendTransaction D tx x = (Ret (Ok h), put (happens V keccak256 multisig_address safe_address transfers_address (get x) (Sent (mx_relayer D) (ToMultisig call))) x);
  rn_config x : exists v, GetNetworkConfig D x = (Ret (Ok v), x);
  rn_nonce x : exists n, GetNonce D x = (Ret (Ok n), x);
  rn_whitelisted x : tx_IsWhitelisted D (mx_relayer D) x = (Ret true, x);
  rn_request b : Forall encodable (bld_args b) ->
    exists r, ToVmValueRequest D b = Ok r /\ rq_FuncName r = bld_function b /\ rq_Args r = arg_texts enc b;
  rn_data b : Forall encodable (bld_args b) ->
    ToDataBytes D b = Ok (bytes_of_string (join_with "@" (bld_function b :: arg_texts enc b)));
  rn_json tx : exists b, json_tx D tx = Ok b;
  rn_sign b : exists s, ed25519_Sign D b = Ok s;
  rn_enc_bytes b : enc (ArgBytes b) = b;
  rn_enc_address b : enc (ArgAddress b) = b;
  rn_u64 z : (0 <= z < 2 ^ 63)%Z -> top_u64 K (enc (ArgInt64 z)) = Some z;
  rn_usize n : (Z.of_nat n < 2 ^ 32)%Z -> top_usize K (enc (ArgInt64 (Z.of_nat n))) = Some n;
  rn_big z : (0 <= z)%Z -> top_big K (enc (ArgBigInt (Some z))) = Some z;
  rn_address a : length a = 32 -> top_address K a = Some a;
  rn_eth_address a : length a = 20 -> top_eth_address K a = Some a;
  rn_status b s : status_of_byte b = Some s -> top_status K [b] = Some s;
  rn_relayer : length (mx_relayer D) = 32
}.

End MvxNode.

(** ** What the client's calls are on the contracts *)
Import MvxClient MvxClientFacts TxBatch MultiTransfer MvxNode.
Import ClientOnChain(encodable, arg_texts).

Module MvxNodeFacts.
Import MvxContracts MvxContractsFacts MvxRegistry MvxServed MvxRead.

(** ** Batches as the contract receives them *)

(** A deposit of the relayer as a transfer of the contract. *)
Definition eth_tx (d : DepositTransfer) : EthTransaction :=
  mkEthTx (dt_FromBytes d) (dt_ToBytes d) (dt_ConvertedTokenBytes d) (default 0%Z (dt_Amount d)) (dt_Nonce d).

Record deposit_typed (d : DepositTransfer) : Prop := {
  dy_from : length (dt_FromBytes d) = 20;
  dy_to : length (dt_ToBytes d) = 32;
  dy_token : dt_ConvertedTokenBytes d <> [];
  dy_amount : exists z, dt_Amount d = Some z /\ (0 <= z)%Z;
  dy_nonce : (0 <= dt_Nonce d < 2 ^ 63)%Z
}.

Definition batch_typed (b : TransferBatch) : Prop := (0 <= tb_ID b < 2 ^ 63)%Z /\ Forall deposit_typed (tb_Deposits b).

(** The statuses of a batch, as the contract reads them. *)
Definition statuses_typed (b : TransferBatch) (sts : list TransactionStatus) : Prop :=
  (0 <= tb_ID b < 2 ^ 63)%Z /\ mapM status_of_byte (tb_Statuses b) = Some sts.

Lemma i64_nat z : (0 <= z < 2 ^ 63)%Z -> i64 z = z.
Proof. intros H. apply i64_small. unfold two63. change (2 ^ 63)%Z with 9223372036854775808%Z in H. lia. Qed.

Lemma deposit_encodable ds : Forall deposit_typed ds -> Forall encodable (concat (deposit_args <$> ds)).
Proof.
  induction 1 as [|d ds [Hf Ht Hk (z & Ha & _) _] _ IH]; [constructor|]. cbn.
  rewrite Ha. repeat (constructor; [cbn; first [done|congruence|by intros E; rewrite E in *]|]). done.
Qed.

Lemma status_encodable (l : bytes) : Forall encodable ((fun s => ArgBytes [s]) <$> l).
Proof. apply Forall_fmap, Forall_true. done. Qed.

Section Facts.
Context {W : Type} (V : vm W) (keccak256 : bytes -> bytes) (multisig_address safe_address transfers_address : address).
Abbreviation happens := (happens V keccak256 multisig_address safe_address transfers_address).
Context {X : Type} (D : mxDeps X) (K : codec) (enc : vmArg -> bytes) (get : X -> chain W) (put : chain W -> X -> X).
Context `{HN : !RustNode V keccak256 multisig_address safe_address transfers_address D K enc get put}.

Lemma parse_deposits ds : Forall deposit_typed ds -> parse_transfers K (enc <$> concat (deposit_args <$> ds)) = Some (eth_tx <$> ds).
Proof.
  induction 1 as [|d ds [Hf Ht _ (z & Ha & Hz) Hn] _ IH]; [done|]. cbn [fmap list_fmap concat deposit_args app parse_transfers].
  rewrite !(rn_enc_bytes (RustNode := HN)), (rn_eth_address (RustNode := HN)), (rn_address (RustNode := HN)) by done. cbn.
  rewrite Ha, (rn_big (RustNode := HN)) by done. cbn. rewrite i64_nat, (rn_u64 (RustNode := HN)) by done. cbn.
  rewrite IH. cbn. unfold eth_tx. by rewrite Ha.
Qed.

Lemma parse_statuses (l : bytes) sts : mapM status_of_byte l = Some sts -> mapM (top_status K) (enc <$> ((fun s => ArgBytes [s]) <$> l)) = Some sts.
Proof.
  rewrite !mapM_Some. intros H. rewrite <-list_fmap_compose. apply Forall2_fmap_l. eapply Forall2_impl; [exact H|].
  intros b s Hb. cbn. rewrite (rn_enc_bytes (RustNode := HN)). by apply (rn_status (RustNode := HN)).
Qed.

(** ** Queries *)

(** The client's query [b] is the view [v]. *)
Definition asks (b : vmBuilder) (v : view_call) : Prop :=
  Forall encodable (bld_args b) /\ parse_view K (bld_function b) (enc <$> bld_args b) = Some v.

Lemma asks_run b v x : asks b v ->
  exists r, ToVmValueRequest D b = Ok r /\ ExecuteQueryReturningBytes D (Some r) x = (Ret (Ok (answer keccak256 v (get x))), x).
Proof.
  intros [He Hv]. destruct (rn_request (RustNode := HN) b He) as (r & Hr & Hf & Ha). exists r. split; [done|].
  unfold ExecuteQueryReturningBytes, bind_ok, mbind, M_bind. rewrite <-Hf in Hv.
  rewrite (rn_query (RustNode := HN) r (enc <$> bld_args b) v x); [done| |done]. rewrite Ha. unfold arg_texts. by rewrite <-list_fmap_compose.
Qed.

Lemma asks_bytes b v x : asks b v -> executeQueryFromBuilder D b x = (Ret (Ok (answer keccak256 v (get x))), x).
Proof. intros (r & Hr & Hq)%(asks_run b v x). unfold executeQueryFromBuilder, with_request. by rewrite Hr. Qed.

Lemma asks_bool b v x t : asks b v -> answer keccak256 v (get x) = [top_bool t] -> executeQueryBoolFromBuilder D b x = (Ret (Ok t), x).
Proof.
  intros (r & Hr & Hq)%(asks_run b v x) Ha. unfold executeQueryBoolFromBuilder, with_request. rewrite Hr.
  unfold ExecuteQueryReturningBool, bind_ok, mbind, M_bind. rewrite Hq, Ha. by destruct t.
Qed.

Lemma asks_uint b v x z : asks b v -> answer keccak256 v (get x) = [top_number z] -> (0 <= z < 2 ^ 64)%Z ->
  executeQueryUint64FromBuilder D b x = (Ret (Ok z), x).
Proof.
  intros (r & Hr & Hq)%(asks_run b v x) Ha Hz. unfold executeQueryUint64FromBuilder, with_request. rewrite Hr.
  unfold ExecuteQueryReturningUint64, bind_ok, mbind, M_bind. rewrite Hq, Ha. unfold top_number.
  pose proof (parse_big z Hz) as Hp. destruct (big_Bytes z) as [|b0 l] eqn:E; [|by rewrite Hp].
  pose proof (be_val_big z) as Hb. rewrite E in Hb. change (be_val []) with 0%Z in Hb. by replace z with 0%Z by lia.
Qed.

Lemma asks_transfers b bld v : batch_typed b ->
  bld_args bld = ArgInt64 (i64 (tb_ID b)) :: concat (deposit_args <$> tb_Deposits b) ->
  (forall args, parse_view K (bld_function bld) args = arg_transfers K v args) -> asks bld (v (tb_ID b) (eth_tx <$> tb_Deposits b)).
Proof.
  intros [Hi Hd] Ha Hv. split.
  - rewrite Ha. constructor; [done|]. by apply deposit_encodable.
  - rewrite Hv, Ha, i64_nat by done. cbn [fmap list_fmap arg_transfers]. rewrite (rn_u64 (RustNode := HN)) by done. cbn.
    by rewrite parse_deposits.
Qed.

Lemma asks_statuses b sts bld v : statuses_typed b sts ->
  bld_args bld = ArgInt64 (i64 (tb_ID b)) :: ((fun s => ArgBytes [s]) <$> tb_Statuses b) ->
  (forall args, parse_view K (bld_function bld) args = arg_statuses K v args) -> asks bld (v (tb_ID b) sts).
Proof.
  intros [Hi Hs] Ha Hv. split.
  - rewrite Ha. constructor; [done|]. apply status_encodable.
  - rewrite Hv, Ha, i64_nat by done. cbn [fmap list_fmap arg_statuses]. rewrite (rn_u64 (RustNode := HN)) by done. cbn.
    by rewrite (parse_statuses _ sts).
Qed.

Lemma asks_action f v (id : nat) : (Z.of_nat id < 2 ^ 32)%Z -> (forall args, parse_view K f args = arg_action K v args) ->
  asks (add_args [ArgInt64 (i64 (Z.of_nat id))] (Function f)) (v id).
Proof.
  intros Hid Hv. split; [by repeat constructor|]. rewrite i64_nat by (change (2 ^ 63)%Z with (2 ^ 32 * 2 ^ 31)%Z; lia).
  change (parse_view K f [enc (ArgInt64 (Z.of_nat id))] = Some (v id)). rewrite Hv. cbn. by rewrite (rn_usize (RustNode := HN)).
Qed.

(** ** Transactions *)

Lemma send_contract b gas x call : Forall encodable (bld_args b) -> parse_call K (bld_function b) (enc <$> bld_args b) = Some call ->
  exists h, SendTransactionReturnHash D b gas x = (Ret (Ok h), put (happens (get x) (Sent (mx_relayer D) (ToMultisig call))) x).
Proof.
  intros He Hc. unfold SendTransactionReturnHash, mbind at 1, M_bind. rewrite (rn_whitelisted (RustNode := HN)). cbn [negb].
  unfold bind_ok, mbind at 1, M_bind, signTransaction, bind_ok, mbind at 1, M_bind.
  destruct (rn_config (RustNode := HN) x) as [cfg ->]. unfold mbind at 1, M_bind. destruct (rn_nonce (RustNode := HN) x) as [n ->].
  rewrite (rn_data (RustNode := HN)) by done. unfold mret at 1, M_ret, signTransactionWithPrivateKey. set (t0 := set_Signature "" _).
  destruct (rn_json (RustNode := HN) t0) as [js ->]. destruct (rn_sign (RustNode := HN) js) as [sg ->].
  eapply (rn_send (RustNode := HN) _ (bld_function b) (enc <$> bld_args b)); [done|done| |done].
  cbn. unfold arg_texts. by rewrite <-list_fmap_compose.
Qed.
(** ** The operations of the client *)

Abbreviation multisig_of x := (c_multisig (state (get x))).
Abbreviation registry_of x := (reg (state (get x))).

(** The query answers [a] and changes nothing. *)
Definition reports {A} (op : M X (res A)) (x : X) (a : A) : Prop := op x = (Ret (Ok a), x).

(** The operation is the transaction [call] of the relayer, or refused when the contract is paused. *)
Definition submits (op : M X (res string)) (x : X) (call : multisig_call) : Prop :=
  if Multisig.m_paused (multisig_of x) then op x = (Ret (Err (wrap "%w in client.ExecuteTransfer" clients_ErrMultisigContractPaused)), x)
  else exists h, op x = (Ret (Ok h), put (happens (get x) (Sent (mx_relayer D) (ToMultisig call))) x).

Lemma IsPaused_reports x : reports (IsPaused D) x (Multisig.m_paused (multisig_of x)).
Proof. by apply (asks_bool _ VIsPaused). Qed.

Lemma unless_paused_submits c x call :
  (exists h, c x = (Ret (Ok h), put (happens (get x) (Sent (mx_relayer D) (ToMultisig call))) x)) -> submits (unless_paused D c) x call.
Proof.
  intros Hc. unfold submits, unless_paused, checkIsPaused, mbind, M_bind. rewrite IsPaused_reports.
  by destruct (Multisig.m_paused (multisig_of x)).
Qed.

Lemma WasProposedTransfer_reports b x : batch_typed b ->
  reports (WasProposedTransfer D (Some b)) x (Multisig.was_transfer_action_proposed keccak256 (tb_ID b) (eth_tx <$> tb_Deposits b) (registry_of x)).
Proof.
  intros Hb. pose proof (proposals_match_queries b) as (Ha & Hq & _). apply (asks_bool _ (VWasTransferActionProposed (tb_ID b) (eth_tx <$> tb_Deposits b))); [|reflexivity].
  apply (asks_transfers b _ VWasTransferActionProposed); [done|congruence|].
  intros args. unfold wasProposedTransfer_builder, actionIDForTransfer_builder, addBatchInfo.
  by rewrite (proj1 (transfer_builder_args _ b)).
Qed.

Lemma GetActionIDForProposeTransfer_reports b x : batch_typed b ->
  let id := Multisig.get_action_id_for_transfer_batch keccak256 (tb_ID b) (eth_tx <$> tb_Deposits b) (registry_of x) in
  (Z.of_nat id < 2 ^ 64)%Z -> reports (GetActionIDForProposeTransfer D (Some b)) x (Z.of_nat id).
Proof.
  intros Hb id Hid. pose proof (proposals_match_queries b) as (Ha & _ & Hq & _). apply (asks_uint _ (VGetActionIdForTransferBatch (tb_ID b) (eth_tx <$> tb_Deposits b))); [|reflexivity|lia].
  apply (asks_transfers b _ VGetActionIdForTransferBatch); [done|congruence|].
  intros args. unfold wasProposedTransfer_builder, actionIDForTransfer_builder, addBatchInfo.
  by rewrite (proj1 (transfer_builder_args _ b)).
Qed.

Lemma WasProposedSetStatus_reports b sts x : statuses_typed b sts ->
  reports (WasProposedSetStatus D (Some b)) x (Multisig.was_set_current_transaction_batch_status_action_proposed (tb_ID b) sts (registry_of x)).
Proof.
  intros Hb. pose proof (proposals_match_queries b) as (_ & _ & _ & Ha & Hq & _). apply (asks_bool _ (VWasSetStatusProposed (tb_ID b) sts)); [|reflexivity].
  apply (asks_statuses b _ _ VWasSetStatusProposed); [done|congruence|].
  intros args. unfold wasProposedSetStatus_builder, actionIDForSetStatus_builder, add_statuses.
  by rewrite (proj1 (status_builder_args _ b)).
Qed.

Lemma GetActionIDForSetStatus_reports b sts x : statuses_typed b sts ->
  let id := Multisig.get_action_id_for_set_current_transaction_batch_status (tb_ID b) sts (registry_of x) in
  (Z.of_nat id < 2 ^ 64)%Z -> reports (GetActionIDForSetStatusOnPendingTransfer D (Some b)) x (Z.of_nat id).
Proof.
  intros Hb id Hid. pose proof (proposals_match_queries b) as (_ & _ & _ & Ha & _ & Hq). apply (asks_uint _ (VGetActionIdForSetStatus (tb_ID b) sts)); [|reflexivity|lia].
  apply (asks_statuses b _ _ VGetActionIdForSetStatus); [done|congruence|].
  intros args. unfold wasProposedSetStatus_builder, actionIDForSetStatus_builder, add_statuses.
  by rewrite (proj1 (status_builder_args _ b)).
Qed.

Lemma action_reports (id : nat) x : (Z.of_nat id < 2 ^ 32)%Z ->
  reports (WasExecuted D (Z.of_nat id)) x (Multisig.was_action_executed id (registry_of x)) /\
  reports (QuorumReached D (Z.of_nat id)) x (Multisig.quorum_reached id (multisig_of x)) /\
  reports (WasSigned D (Z.of_nat id)) x (Multisig.signed (mx_relayer D) id (multisig_of x)).
Proof.
  intros Hid. split; [|split].
  - apply (asks_bool _ (VWasActionExecuted id)); [by apply (asks_action _ VWasActionExecuted)|reflexivity].
  - apply (asks_bool _ (VQuorumReached id)); [by apply (asks_action _ VQuorumReached)|reflexivity].
  - pose proof (rn_relayer (RustNode := HN)) as Hl. apply (asks_bool _ (VSigned (mx_relayer D) id)); [|reflexivity]. split.
    + constructor; [|by repeat constructor]. cbn. intros E. by rewrite E in Hl.
    + rewrite i64_nat by (change (2 ^ 63)%Z with (2 ^ 32 * 2 ^ 31)%Z; lia).
      change (arg_signed K [enc (ArgAddress (mx_relayer D)); enc (ArgInt64 (Z.of_nat id))] = Some (VSigned (mx_relayer D) id)). cbn.
      rewrite (rn_enc_address (RustNode := HN)), (rn_address (RustNode := HN)) by done. cbn. by rewrite (rn_usize (RustNode := HN)).
Qed.

Lemma GetLastExecutedEthBatchID_reports x : (0 <= Multisig.last_executed_eth_batch_id (registry_of x) < 2 ^ 64)%Z ->
  reports (GetLastExecutedEthBatchID D) x (Multisig.last_executed_eth_batch_id (registry_of x)).
Proof. intros H. by apply (asks_uint _ VGetLastExecutedEthBatchId). Qed.

Lemma GetLastExecutedEthTxID_reports x : (0 <= Multisig.last_executed_eth_tx_id (registry_of x) < 2 ^ 64)%Z ->
  reports (GetLastExecutedEthTxID D) x (Multisig.last_executed_eth_tx_id (registry_of x)).
Proof. intros H. by apply (asks_uint _ VGetLastExecutedEthTxId). Qed.

Lemma GetCurrentBatch_reports x : reports (GetCurrentBatchAsDataBytes D) x (batch_answer (served (get x))).
Proof. by apply (asks_bytes _ VGetCurrentTxBatch). Qed.

Lemma ProposeTransfer_submits b x : batch_typed b ->
  submits (MvxClient.ProposeTransfer D (Some b)) x (ProposeTransfer (tb_ID b) (eth_tx <$> tb_Deposits b)).
Proof.
  intros Hb. apply unless_paused_submits. pose proof (proposals_match_queries b) as (Ha & _).
  destruct Hb as [Hi Hd]. apply send_contract; rewrite Ha.
  - constructor; [done|]. by apply deposit_encodable.
  - unfold proposeTransfer_builder. rewrite (proj1 (transfer_builder_args _ b)), i64_nat by done.
    change (arg_transfers K ProposeTransfer (enc (ArgInt64 (tb_ID b)) :: (enc <$> concat (deposit_args <$> tb_Deposits b))) =
      Some (ProposeTransfer (tb_ID b) (eth_tx <$> tb_Deposits b))). cbn.
    rewrite (rn_u64 (RustNode := HN)) by done. cbn. by rewrite parse_deposits.
Qed.

Lemma ProposeSetStatus_submits b sts x : statuses_typed b sts ->
  submits (MvxClient.ProposeSetStatus D (Some b)) x (ProposeStatus (tb_ID b) sts).
Proof.
  intros Hb. apply unless_paused_submits. pose proof (proposals_match_queries b) as (_ & _ & _ & Ha & _).
  destruct Hb as [Hi Hd]. apply send_contract; rewrite Ha.
  - constructor; [done|]. apply status_encodable.
  - unfold proposeSetStatus_builder. rewrite (proj1 (status_builder_args _ b)), i64_nat by done.
    change (arg_statuses K ProposeStatus (enc (ArgInt64 (tb_ID b)) :: (enc <$> ((fun s => ArgBytes [s]) <$> tb_Statuses b))) =
      Some (ProposeStatus (tb_ID b) sts)). cbn.
    rewrite (rn_u64 (RustNode := HN)) by done. cbn. by rewrite (parse_statuses _ sts).
Qed.

Lemma action_submits (id : nat) x : (Z.of_nat id < 2 ^ 32)%Z ->
  submits (MvxClient.Sign D (Z.of_nat id)) x (Sign id) /\
  forall b, submits (MvxClient.PerformAction D (Z.of_nat id) (Some b)) x (PerformAction id).
Proof.
  intros Hid. split; [|intros b]; apply unless_paused_submits, send_contract; try (by repeat constructor);
    rewrite i64_nat by (change (2 ^ 63)%Z with (2 ^ 32 * 2 ^ 31)%Z; lia).
  - change (Sign <$> top_usize K (enc (ArgInt64 (Z.of_nat id))) = Some (Sign id)). by rewrite (rn_usize (RustNode := HN)).
  - change (PerformAction <$> top_usize K (enc (ArgInt64 (Z.of_nat id))) = Some (PerformAction id)). by rewrite (rn_usize (RustNode := HN)).
Qed.
(** The numbers the contract answers for batches fit, as long as the actions are numbered by 32 bits. *)
Definition numbered_32 (r : Multisig.registry) : Prop := (Z.of_nat (length (Multisig.action_mapper r)) < 2 ^ 32)%Z.

Lemma pending_fits r id act : numbered_32 r -> Multisig.action_at id r = Some act -> (Z.of_nat id < 2 ^ 32)%Z.
Proof. unfold numbered_32. intros Hn [Hv _]%pending_valid. apply andb_true_iff in Hv as [_ Hv%Nat.leb_le]. lia. Qed.

Lemma transfer_id_fits r n ts : registry_ok keccak256 r -> numbered_32 r ->
  (Z.of_nat (Multisig.get_action_id_for_transfer_batch keccak256 n ts r) < 2 ^ 32)%Z.
Proof.
  intros Hr Hn. destruct (decide (Multisig.get_action_id_for_transfer_batch keccak256 n ts r = 0)) as [->|Hz]; [done|].
  destruct (proj1 (transfer_view keccak256 r n ts _ Hr Hz) eq_refl) as (ts' & Ha & _). by eapply pending_fits.
Qed.

Lemma status_id_fits r n sts : registry_ok keccak256 r -> numbered_32 r ->
  (Z.of_nat (Multisig.get_action_id_for_set_current_transaction_batch_status n sts r) < 2 ^ 32)%Z.
Proof.
  intros Hr Hn. destruct (decide (Multisig.get_action_id_for_set_current_transaction_batch_status n sts r = 0)) as [->|Hz]; [done|].
  pose proof (proj1 (status_view keccak256 r n sts _ Hr Hz) eq_refl) as Ha. by eapply pending_fits.
Qed.

End Facts.
End MvxNodeFacts.
