(* ===== verification/MvxRound.v ===== *)
(** * A round of the relayers on MultiversX

    What proposing, signing and performing a batch of transfers do to the contracts when they
    succeed, and the round of a board's relayers that ends with the transfers made. *)
From S2P Require Import Prelude Go Text Common Batch Interfaces Executor MvxClient MvxClientFacts Solidity TxBatch TxBatchFacts EsdtSafe EsdtSafeFacts MultiTransfer MultiTransferFacts Multisig MultisigFacts MvxContracts MvxContractsFacts MvxContractsSafety MvxRegistry MvxServed MvxNode.
Import MvxClient TxBatch MvxNode MvxNodeFacts.

Module MvxRound.
Import MultiTransfer Multisig MultisigFacts MvxContracts MvxContractsFacts MvxContractsSafety MvxRegistry MvxServed.

Section Round.
Context {W : Type} (V : vm W) (keccak256 : bytes -> bytes) (multisig_address safe_address transfers_address : address).

Abbreviation happens := (happens V keccak256 multisig_address safe_address transfers_address).
Abbreviation hash := (hash_eth_tx_batch keccak256).

Definition set_reg (r : registry) (s : contracts W) : contracts W :=
  mkContracts (put_registry r (c_multisig s)) (c_safe s) (c_transfers s) (c_world s).

Definition member (b : board) (a : address) : Prop := get_user_role a b = RBoardMember /\ has_enough_stake a b = true.

(** A pending batch of transfers, found by its hash and signed by [vs]. *)
Record ballot (n : Z) (ts : list EthTransaction) (id : nat) (vs : list nat) (r : registry) : Prop := {
  ba_action : action_at id r = Some (BatchTransferEsdtToken n ts);
  ba_index : transfer_id r n (hash ts) = Some id;
  ba_signers : forall uid, uid ∈ vs -> uid ∈ signers id r;
  ba_next : n = (last_executed_eth_batch_id r + 1)%Z;
  ba_fits : numbered_32 r
}.

Lemma member_role a b : member b a -> is_board_member (role_of (get_user_id a b) b) = true /\ exists i, get_user_id a b = S i.
Proof.
  intros [Hr _]. unfold get_user_role in Hr. destruct (get_user_id a b) as [|i] eqn:E; [done|]. split; [by rewrite Hr|by exists i].
Qed.

(** ** The contract's side *)

Lemma bind_done {S A B} (c : Sol S A) (k : A -> Sol S B) s a s1 : c s = Done a s1 -> mbind k c s = k a s1.
Proof. unfold mbind, Sol_bind. by intros ->. Qed.
Lemma require_done {S} b reason (s : S) : b = true -> require b reason s = Done tt s.
Proof. by intros ->. Qed.
Lemma multisig_view_done {A} (f : multisig -> A) (s : contracts W) : on_multisig (view f) s = Done (f (c_multisig s)) s.
Proof. by destruct s. Qed.
Lemma registry_view_done {A} (f : registry -> A) (s : contracts W) : on_multisig (on_registry (view f)) s = Done (f (reg s)) s.
Proof. by destruct s as [[] ? ? ?]. Qed.
Lemma board_view_done {A} (f : board -> A) (s : contracts W) : on_multisig (on_board (view f)) s = Done (f (brd s)) s.
Proof. by destruct s as [[] ? ? ?]. Qed.
Lemma registry_write_done f (s : contracts W) : on_multisig (on_registry (write f)) s = Done tt (set_reg (f (reg s)) s).
Proof. by destruct s as [[] ? ? ?]. Qed.
Lemma set_reg_twice r r' (s : contracts W) : set_reg r (set_reg r' s) = set_reg r s.
Proof. by destruct s as [[] ? ? ?]. Qed.

(** Runs the next step of a call. *)
Ltac next H := rewrite (bind_done _ _ _ _ _ H).

Lemma valid_ids_ok n ts (s : contracts W) : et_nonce <$> ts = seqZ n (Z.of_nat (length ts)) -> (0 <= n)%Z -> (n + Z.of_nat (length ts) < 2 ^ 64)%Z ->
  require_valid_eth_tx_ids n ts s = Done tt s.
Proof.
  revert n. induction ts as [|t ts IH]; intros n Hn H0 Hl; [done|]. cbn [length] in Hl, Hn. rewrite (seqZ_cons n) in Hn by lia.
  cbn [fmap list_fmap] in Hn. injection Hn as Ht Hn. cbn [require_valid_eth_tx_ids]. unfold mbind, Sol_bind.
  rewrite Ht, Z.eqb_refl. cbn [require mret Sol_ret]. unfold Sol_ret. rewrite checked_ok by lia. apply IH; [|lia|lia].
  replace (Z.of_nat (length ts)) with (Z.pred (Z.of_nat (S (length ts)))) by lia. by replace (n + 1)%Z with (Z.succ n) by lia.
Qed.

Lemma propose_accepted caller n ts (s : contracts W) :
  member (brd s) caller -> m_paused (c_multisig s) = false -> n = (last_executed_eth_batch_id (reg s) + 1)%Z -> (0 <= n < 2 ^ 64)%Z ->
  et_nonce <$> ts = seqZ (last_executed_eth_tx_id (reg s) + 1) (Z.of_nat (length ts)) -> (0 <= last_executed_eth_tx_id (reg s))%Z ->
  (last_executed_eth_tx_id (reg s) + 1 + Z.of_nat (length ts) < 2 ^ 64)%Z -> transfer_id (reg s) n (hash ts) = None ->
  (Z.of_nat (length (action_mapper (reg s))) + 1 < 2 ^ 32)%Z ->
  exists id r', propose_multi_transfer_esdt_batch keccak256 caller n ts s = Done id (set_reg r' s) /\
    ballot n ts id [get_user_id caller (brd s)] r' /\ last_executed_eth_tx_id r' = last_executed_eth_tx_id (reg s).
Proof.
  intros Hm Hp Hn Hn0 Hts H0 Hroom Hnew Hfit. destruct (member_role _ _ Hm) as [Hr _]. destruct Hm as [_ Hst].
  destruct (propose_action_ok caller (BatchTransferEsdtToken n ts) (c_multisig s) Hr Hp) as (r1 & Hpush & Hprop).
  unfold brd, reg in *. set (m := c_multisig s) in *. set (id := S (length (action_mapper (m_registry m)))) in *. rewrite Hst in Hprop.
  set (r2 := add_signer id (get_user_id caller (m_board m)) r1) in Hprop.
  exists id, (mkRegistry (action_mapper r2) (action_signer_ids r2)
    (<[n := <[hash ts := id]> (default ∅ (batch_id_to_action_id_mapping r2 !! n))]> (batch_id_to_action_id_mapping r2))
    (status_action_ids r2) (last_executed_eth_batch_id r2) (last_executed_eth_tx_id r2)). split; [|split].
  - unfold propose_multi_transfer_esdt_batch, on_multisig, at_part, view, mbind, Sol_bind. fold m. rewrite <-Hn, checked_ok by done.
    rewrite Z.eqb_refl. cbn [require mret Sol_ret]. unfold Sol_ret. rewrite checked_ok by lia.
    replace (mkContracts m (c_safe s) (c_transfers s) (c_world s)) with s by (by destruct s). rewrite valid_ids_ok by (done || lia).
    unfold transfer_id in Hnew. rewrite bool_decide_eq_true_2 by done. cbn [require mret Sol_ret]. unfold Sol_ret. fold m. rewrite Hprop. reflexivity.
  - pose proof (action_at_push _ _ _ _ Hpush) as (_ & _ & Hact & _). split.
    + change (action_at id r1 = Some (BatchTransferEsdtToken n ts)). rewrite Hact. by rewrite decide_True.
    + unfold transfer_id. cbn. rewrite index_insert. by rewrite decide_True.
    + intros uid ->%list_elem_of_singleton. change (get_user_id caller (m_board m) ∈ signers id r2). unfold r2. rewrite signers_add, decide_True by done. set_solver.
    + injection Hpush as <-. exact Hn.
    + injection Hpush as <-. unfold numbered_32. cbn. rewrite length_app. cbn. lia.
  - by injection Hpush as <-.
Qed.

Lemma sign_accepted caller n ts id vs (s : contracts W) : member (brd s) caller -> ballot n ts id vs (reg s) ->
  exists r', on_multisig (sign caller id) s = Done tt (set_reg r' s) /\ ballot n ts id (get_user_id caller (brd s) :: vs) r' /\
    last_executed_eth_tx_id r' = last_executed_eth_tx_id (reg s).
Proof.
  intros Hm [Ha Hi Hs Hn Hf]. destruct (member_role _ _ Hm) as [Hr _]. destruct Hm as [_ Hst].
  exists (add_signer id (get_user_id caller (brd s)) (reg s)). split; [|split; [split|]; try done].
  - destruct s as [[o pz b r e t] sf tr w]. unfold brd, reg in *. cbn in *.
    unfold on_multisig, sign, on_registry, on_board, at_part, view, mbind, Sol_bind. cbn. rewrite Ha. cbn. rewrite Hr. cbn. by rewrite Hst.
  - intros uid Hin. rewrite signers_add, decide_True by done. apply elem_of_cons in Hin as [->|Hin]; [set_solver|]. apply Hs in Hin. set_solver.
Qed.

(** Distinct board members with enough stake who have all signed make a quorum. *)
Lemma signatures_make_quorum id l m : board_wf (m_board m) -> NoDup l -> (forall a, a ∈ l -> member (m_board m) a /\ get_user_id a (m_board m) ∈ signers id (m_registry m)) ->
  (quorum (m_board m) <= Z.of_nat (length l))%Z -> quorum_reached id m = true.
Proof.
  intros Hb Hnd Hl Hq. unfold quorum_reached. apply Z.leb_le. etransitivity; [exact Hq|]. apply Nat2Z.inj_le.
  rewrite <-(length_fmap (fun a => get_user_id a (m_board m)) l). apply submseteq_length. apply NoDup_submseteq.
  - apply NoDup_fmap_2_strong; [|done]. intros a a' Ha Ha' E.
    destruct (Hl _ Ha) as [Hm _], (Hl _ Ha') as [Hm' _]. apply member_role in Hm as [Hm _], Hm' as [Hm' _].
    apply (member_address _ _ Hb) in Hm, Hm'. rewrite E in Hm. congruence.
  - intros uid (a & -> & Ha)%list_elem_of_fmap. destruct (Hl _ Ha) as [Hm Hs]. apply list_elem_of_filter. split; [|by apply elem_of_elements].
    unfold valid_signer. destruct (member_role _ _ Hm) as [Hr _]. rewrite Hr, (member_address _ _ Hb Hr). cbn. apply Hm.
Qed.

Lemma perform_accepted caller now n ts id vs t (s : contracts W) t' w' :
  member (brd s) caller -> m_paused (c_multisig s) = false -> ballot n ts id vs (reg s) -> quorum_reached id (c_multisig s) = true ->
  (0 <= n < 2 ^ 64)%Z -> last ts = Some t ->
  transfer_exec V transfers_address multisig_address now (TrBatchTransfer n ts) (c_transfers s, c_world s) = Done tt (t', w') ->
  exists r', perform_action_endpoint V multisig_address safe_address transfers_address caller now id s =
      Done tt (mkContracts (put_registry r' (c_multisig s)) (c_safe s) t' w') /\
    last_executed_eth_batch_id r' = n /\ last_executed_eth_tx_id r' = et_nonce t /\ was_action_executed id r' = true.
Proof.
  intros [Hr _] Hp [Ha Hi _ Hn _] Hq Hn0 Hl Hx. pose proof (pending_valid _ _ _ Ha) as [Hv _].
  set (r1 := clear_proposed (default ∅ (batch_id_to_action_id_mapping (reg s) !! n)) (clear_action id (reg s))).
  destruct (clear_proposed_bookkeeping (default ∅ (batch_id_to_action_id_mapping (reg s) !! n)) (clear_action id (reg s))) as [_ _ Bb _]. fold r1 in Bb.
  exists (set_last_executed n (et_nonce t) (forget_transfers n r1)). split; [|split; [done|split; [done|]]].
  - unfold perform_action_endpoint. next (registry_view_done (is_valid_action_id id) s). next (require_done _ "index out of range" s Hv).
    next (registry_view_done (fun r => bool_decide (is_Some (action_at id r))) s).
    rewrite (bind_done _ _ s tt s); [|apply require_done; rewrite Ha; by apply bool_decide_eq_true_2].
    next (board_view_done (get_user_role caller) s). rewrite (bind_done _ _ s tt s); [|apply require_done; by rewrite Hr].
    next (multisig_view_done (quorum_reached id) s). next (require_done _ "quorum has not been reached" s Hq).
    next (multisig_view_done m_paused s). rewrite (bind_done _ _ s tt s); [|apply require_done; by rewrite Hp].
    unfold perform_action. next (registry_view_done (action_at id) s). next (registry_write_done (clear_action id) s). rewrite Ha.
    rewrite (bind_done _ _ _ _ _ (registry_write_done _ _)), set_reg_twice. cbn [reg set_reg c_multisig m_registry put_registry]. fold (reg s).
    next (registry_view_done last_executed_eth_batch_id (set_reg (forget_transfers n r1) s)).
    change (last_executed_eth_batch_id (reg (set_reg (forget_transfers n r1) s))) with (last_executed_eth_batch_id r1).
    rewrite Bb, Hl. change (last_executed_eth_batch_id (clear_action id (reg s))) with (last_executed_eth_batch_id (reg s)). rewrite <-Hn.
    rewrite (bind_done _ _ _ _ _ (checked_ok _ _ _ Hn0)), (bind_done _ _ _ _ _ (registry_write_done _ _)), set_reg_twice.
    unfold on_transfers, at_part. cbn [c_transfers c_world set_reg]. rewrite Hx. done.
  - assert (Hgone : action_at id r1 = None) by (by apply (cleared_all _ _ (hash ts) (hash ts) id id)).
    unfold was_action_executed. change (action_at id (set_last_executed n (et_nonce t) (forget_transfers n r1))) with (action_at id r1).
    rewrite Hgone, bool_decide_eq_true_2 by done. unfold is_valid_action_id in *.
    cbn [action_mapper set_last_executed forget_transfers]. unfold r1. by rewrite clear_proposed_length, clear_action_length, Hv.
Qed.
(** ** The relayers' side *)

Context {X : Type} (K : codec) (enc : vmArg -> bytes) (get : X -> chain W) (put : chain W -> X -> X).
Abbreviation node D := (RustNode V keccak256 multisig_address safe_address transfers_address D K enc get put).

(** A relayer signs the batch it finds proposed, unless its signature is there already. *)
Definition vote (D : mxDeps X) (b : TransferBatch) : M X (res unit) :=
  aid <?- GetActionIDForProposeTransfer D (Some b);
  was <?- WasSigned D aid;
  if (was : bool) then mret (Ok tt) else h <?- MvxClient.Sign D aid; mret (Ok tt).

Fixpoint votes (l : list (mxDeps X)) (b : TransferBatch) : M X (res unit) :=
  match l with
  | [] => mret (Ok tt)
  | D :: rest => r <?- vote D b; votes rest b
  end.

(** A relayer performs the batch once the quorum is there. *)
Definition perform_when_quorum (D : mxDeps X) (b : TransferBatch) : M X (res (option string)) :=
  aid <?- GetActionIDForProposeTransfer D (Some b);
  reached <?- QuorumReached D aid;
  if (reached : bool) then h <?- MvxClient.PerformAction D aid (Some b); mret (Ok (Some h)) else mret (Ok None).

(** The chain [c] has come from [c1] by signatures of the action [id] only. *)
Record voting (c1 c : chain W) (n : Z) (ts : list EthTransaction) (id : nat) (vs : list nat) : Prop := {
  vo_now : block_nonce c = block_nonce c1;
  vo_board : brd (state c) = brd (state c1);
  vo_paused : m_paused (c_multisig (state c)) = false;
  vo_transfers : c_transfers (state c) = c_transfers (state c1);
  vo_world : c_world (state c) = c_world (state c1);
  vo_ballot : ballot n ts id vs (reg (state c))
}.

Lemma happens_done c caller tx s' u : tx_exec V keccak256 multisig_address safe_address transfers_address caller (block_nonce c) tx (state c) = Done u s' ->
  happens c (Sent caller tx) = mkChain (block_nonce c) s'.
Proof. cbn. by intros ->. Qed.

(** What a client finds of a ballot. *)
Lemma ballot_views n ts id vs r : ballot n ts id vs r ->
  get_action_id_for_transfer_batch keccak256 n ts r = id /\ was_transfer_action_proposed keccak256 n ts r = true /\ (Z.of_nat id < 2 ^ 32)%Z.
Proof.
  intros [Ha Hi _ _ Hf]. assert (E : get_action_id_for_transfer_batch keccak256 n ts r = id).
  { unfold get_action_id_for_transfer_batch. unfold transfer_id in Hi. by rewrite Hi. }
  split; [done|]. split; [|by eapply pending_fits]. unfold was_transfer_action_proposed. rewrite E. by eapply pending_valid.
Qed.

Lemma finds_action D `{!node D} b id vs x : batch_typed b -> ballot (tb_ID b) (eth_tx <$> tb_Deposits b) id vs (reg (state (get x))) ->
  GetActionIDForProposeTransfer D (Some b) x = (Ret (Ok (Z.of_nat id)), x).
Proof.
  intros Hb (E & _ & Hid)%ballot_views. rewrite <-E in *. eapply (GetActionIDForProposeTransfer_reports V keccak256 multisig_address safe_address transfers_address); [done..|].
  change (2 ^ 64)%Z with (2 ^ 32 * 2 ^ 32)%Z. lia.
Qed.

Lemma vote_run D `{!node D} b c1 id vs x : batch_typed b -> member (brd (state c1)) (mx_relayer D) ->
  voting c1 (get x) (tb_ID b) (eth_tx <$> tb_Deposits b) id vs ->
  exists x', vote D b x = (Ret (Ok tt), x') /\
    voting c1 (get x') (tb_ID b) (eth_tx <$> tb_Deposits b) id (get_user_id (mx_relayer D) (brd (state c1)) :: vs) /\
    last_executed_eth_tx_id (reg (state (get x'))) = last_executed_eth_tx_id (reg (state (get x))).
Proof.
  intros Hb Hm [Vn Vb Vp Vt Vw Vv]. pose proof (ballot_views _ _ _ _ _ Vv) as (_ & _ & Hid).
  pose proof (action_reports V keccak256 multisig_address safe_address transfers_address D K enc get put id x Hid) as (_ & _ & Hs).
  pose proof (action_submits V keccak256 multisig_address safe_address transfers_address D K enc get put id x Hid) as [Hsend _].
  unfold vote, bind_ok, mbind, M_bind. rewrite (finds_action D b id vs x Hb Vv). unfold reports in Hs. rewrite Hs.
  rewrite <-Vb in Hm. destruct (member_role _ _ Hm) as [_ [i Hi]]. destruct (signed _ _ _) eqn:E.
  - exists x. split; [done|]. split; [|done]. split; try done. destruct Vv as [B1 B2 B3 B4 B5]. split; try done.
    intros uid [->|Hin]%elem_of_cons; [|by apply B3]. rewrite <-Vb. unfold signed in E. unfold brd in *. rewrite Hi in *. by apply bool_decide_eq_true in E.
  - unfold submits in Hsend. rewrite Vp in Hsend. destruct Hsend as [h ->].
    destruct (sign_accepted (mx_relayer D) _ _ id vs (state (get x)) Hm Vv) as (r' & Hr' & Bal & Hlast). eexists. split; [reflexivity|].
    rewrite (rn_get_put (D := D)). rewrite (happens_done (get x) (mx_relayer D) (ToMultisig (Sign id)) (set_reg r' (state (get x))) tt Hr').
    split; [|done]. split; try done. by rewrite <-Vb.
Qed.

Lemma votes_run l b c1 id vs x : Forall (fun D => node D) l -> batch_typed b -> Forall (fun D => member (brd (state c1)) (mx_relayer D)) l ->
  voting c1 (get x) (tb_ID b) (eth_tx <$> tb_Deposits b) id vs ->
  exists x' vs', votes l b x = (Ret (Ok tt), x') /\ voting c1 (get x') (tb_ID b) (eth_tx <$> tb_Deposits b) id vs' /\
    (forall uid, uid ∈ vs -> uid ∈ vs') /\ (forall D, D ∈ l -> get_user_id (mx_relayer D) (brd (state c1)) ∈ vs') /\
    last_executed_eth_tx_id (reg (state (get x'))) = last_executed_eth_tx_id (reg (state (get x))).
Proof.
  intros Hl Hb. revert vs x. induction Hl as [|D l HD _ IH]; intros vs x Hm Hv.
  { exists x, vs. split; [done|]. split; [done|]. split; [done|]. split; [by intros D ?%not_elem_of_nil|done]. }
  apply Forall_cons in Hm as [HmD Hm]. destruct (vote_run D b c1 id vs x Hb HmD Hv) as (x1 & Hr & Hv1 & Ht1).
  destruct (IH _ x1 Hm Hv1) as (x' & vs' & Hr' & Hv' & Hin & Hall & Ht). exists x', vs'. split.
  - cbn [votes]. unfold bind_ok, mbind, M_bind. rewrite Hr. exact Hr'.
  - split; [done|]. split; [intros uid Hu; apply Hin; by right|]. split; [|congruence].
    intros D' [->|HD']%elem_of_cons; [apply Hin; by left|by apply Hall].
Qed.
Lemma proposed_by_client D `{!node D} b x : let s := state (get x) in
  batch_typed b -> member (brd s) (mx_relayer D) -> m_paused (c_multisig s) = false -> registry_ok keccak256 (reg s) ->
  tb_ID b = (last_executed_eth_batch_id (reg s) + 1)%Z ->
  dt_Nonce <$> tb_Deposits b = seqZ (last_executed_eth_tx_id (reg s) + 1) (Z.of_nat (length (tb_Deposits b))) ->
  (last_executed_eth_tx_id (reg s) + Z.of_nat (length (tb_Deposits b)) < 2 ^ 63)%Z ->
  was_transfer_action_proposed keccak256 (tb_ID b) (eth_tx <$> tb_Deposits b) (reg s) = false ->
  (Z.of_nat (length (action_mapper (reg s))) + 1 < 2 ^ 32)%Z ->
  exists h x1 id, MvxClient.ProposeTransfer D (Some b) x = (Ret (Ok h), x1) /\
    voting (get x) (get x1) (tb_ID b) (eth_tx <$> tb_Deposits b) id [get_user_id (mx_relayer D) (brd s)] /\
    last_executed_eth_tx_id (reg (state (get x1))) = last_executed_eth_tx_id (reg s).
Proof.
  intros s Hb Hm Hp Hr Hid Hn Hroom Hnew Hfit. pose proof (ProposeTransfer_submits V keccak256 multisig_address safe_address transfers_address D K enc get put b x Hb) as Hs.
  unfold submits in Hs. fold s in Hs. rewrite Hp in Hs. destruct Hs as [h Hs].
  destruct (propose_accepted (mx_relayer D) (tb_ID b) (eth_tx <$> tb_Deposits b) s) as (id & r' & Hx & Bal & Hlast); try done.
  - destruct Hb as [Hb _]. change (2 ^ 64)%Z with (2 ^ 63 * 2)%Z. lia.
  - rewrite <-list_fmap_compose, length_fmap. exact Hn.
  - apply Hr.
  - rewrite length_fmap. change (2 ^ 64)%Z with (2 ^ 63 * 2)%Z. lia.
  - apply eq_None_not_Some. intros [id Hi]. apply (ro_transfer_id _ _ Hr) in Hi as (ts & Ha & Hh).
    assert (Hz : id <> 0) by (by intros ->). unfold was_transfer_action_proposed in Hnew.
    rewrite (proj2 (transfer_view keccak256 (reg s) _ _ id Hr Hz)) in Hnew by eauto. apply pending_valid in Ha as [Hv _]. congruence.
  - exists h. eexists _, id. split; [exact Hs|]. rewrite (rn_get_put (D := D)).
    rewrite (happens_done (get x) (mx_relayer D) _ (set_reg r' s) tt); [by split|]. cbn. unfold mbind, Sol_bind. fold s. by rewrite Hx.
Qed.

Lemma performed_by_client D `{!node D} b c1 id vs x (l : list (mxDeps X)) t' w' t :
  let ts := eth_tx <$> tb_Deposits b in
  batch_typed b -> voting c1 (get x) (tb_ID b) ts id vs -> board_wf (brd (state c1)) -> member (brd (state c1)) (mx_relayer D) ->
  NoDup (mx_relayer <$> l) -> (forall D, D ∈ l -> member (brd (state c1)) (mx_relayer D) /\ get_user_id (mx_relayer D) (brd (state c1)) ∈ vs) ->
  (quorum (brd (state c1)) <= Z.of_nat (length l))%Z -> last ts = Some t ->
  transfer_exec V transfers_address multisig_address (block_nonce c1) (TrBatchTransfer (tb_ID b) ts) (c_transfers (state c1), c_world (state c1)) = Done tt (t', w') ->
  exists h x' r', perform_when_quorum D b x = (Ret (Ok (Some h)), x') /\ reg (state (get x')) = r' /\
    last_executed_eth_batch_id r' = tb_ID b /\ last_executed_eth_tx_id r' = et_nonce t /\ was_action_executed id r' = true /\
    c_transfers (state (get x')) = t' /\ c_world (state (get x')) = w'.
Proof.
  intros ts Hb [Vn Vb Vp Vt Vw Vv] Hbw Hm Hnd Hl Hq Ht Hx. pose proof (ballot_views _ _ _ _ _ Vv) as (_ & _ & Hid).
  assert (Hreached : quorum_reached id (c_multisig (state (get x))) = true).
  { apply (signatures_make_quorum id (mx_relayer <$> l)); unfold brd in *; rewrite ?Vb; [done|done| |by rewrite length_fmap].
    intros a (D' & -> & HD)%list_elem_of_fmap. destruct (Hl _ HD) as [H1 H2]. split; [done|]. by apply (ba_signers _ _ _ _ _ Vv). }
  pose proof (action_reports V keccak256 multisig_address safe_address transfers_address D K enc get put id x Hid) as (_ & Hrep & _).
  pose proof (action_submits V keccak256 multisig_address safe_address transfers_address D K enc get put id x Hid) as [_ Hsend]. specialize (Hsend b).
  unfold perform_when_quorum, bind_ok, mbind, M_bind. rewrite (finds_action D b id vs x Hb Vv). unfold reports in Hrep. rewrite Hrep, Hreached.
  unfold submits in Hsend. rewrite Vp in Hsend. destruct Hsend as [h ->].
  rewrite <-Vb in Hm. rewrite <-Vt, <-Vw, <-Vn in Hx.
  destruct (perform_accepted (mx_relayer D) (block_nonce (get x)) _ _ id vs t (state (get x)) t' w' Hm Vp Vv Hreached) as (r' & Hr' & H1 & H2 & H3); [|done|done|].
  { destruct Hb as [Hb _]. change (2 ^ 64)%Z with (2 ^ 63 * 2)%Z. lia. }
  eexists h, _, r'. split; [reflexivity|]. rewrite (rn_get_put (D := D)).
  by rewrite (happens_done (get x) (mx_relayer D) (ToMultisig (PerformAction id)) _ tt Hr').
Qed.

(** C6. A board of honest relayers gets the next batch through.  Take any chain of the contracts, not
    paused; relayers with different addresses, each a board member with enough stake, at least as
    many as the quorum; and the next batch from Ethereum, with the next deposits, not proposed
    yet.  When one relayer's client proposes it, every client finds it proposed; when each then
    signs what it finds, unless its signature is there, any of them finds the quorum reached and
    performs it.  If the transfer contract can make the transfers, they are made, exactly as that
    contract makes them, and every client then reports this batch and its last deposit as the last
    executed ones, and the action as executed. *)
Theorem relayers_perform_batch (leader performer : mxDeps X) (others : list (mxDeps X)) (b : TransferBatch) (last_deposit : DepositTransfer)
    (x : X) (c0 : chain W) (es : list (event W)) (t' : transfers) (w' : W) :
  let relayers := leader :: others in let s := state (get x) in let ts := eth_tx <$> tb_Deposits b in
  Forall (fun D => node D) relayers -> performer ∈ relayers ->
  deployed V multisig_address safe_address transfers_address c0 ->
  history_ok V keccak256 multisig_address safe_address transfers_address c0 es ->
  get x = history V keccak256 multisig_address safe_address transfers_address c0 es ->
  NoDup (mx_relayer <$> relayers) -> Forall (fun D => member (brd s) (mx_relayer D)) relayers ->
  (quorum (brd s) <= Z.of_nat (length relayers))%Z -> m_paused (c_multisig s) = false ->
  batch_typed b -> last (tb_Deposits b) = Some last_deposit -> tb_ID b = (last_executed_eth_batch_id (reg s) + 1)%Z ->
  dt_Nonce <$> tb_Deposits b = seqZ (last_executed_eth_tx_id (reg s) + 1) (Z.of_nat (length (tb_Deposits b))) ->
  was_transfer_action_proposed keccak256 (tb_ID b) ts (reg s) = false -> (Z.of_nat (length (action_mapper (reg s))) + 1 < 2 ^ 32)%Z ->
  transfer_exec V transfers_address multisig_address (block_nonce (get x)) (TrBatchTransfer (tb_ID b) ts) (c_transfers s, c_world s) = Done tt (t', w') ->
  exists h h' x1 x2 x3 id,
    MvxClient.ProposeTransfer leader (Some b) x = (Ret (Ok h), x1) /\
    (forall D, D ∈ relayers -> reports (WasProposedTransfer D (Some b)) x1 true) /\
    votes relayers b x1 = (Ret (Ok tt), x2) /\
    perform_when_quorum performer b x2 = (Ret (Ok (Some h')), x3) /\
    (forall D, D ∈ relayers ->
       reports (GetLastExecutedEthBatchID D) x3 (tb_ID b) /\ reports (GetLastExecutedEthTxID D) x3 (dt_Nonce last_deposit) /\
       reports (WasExecuted D (Z.of_nat id)) x3 true) /\
    c_transfers (state (get x3)) = t' /\ c_world (state (get x3)) = w'.
Proof.
  intros relayers s ts Hnode Hperf H0 Hh Hx Hnd Hmem Hq Hp Hb Hlast Hid Hn Hnew Hfit Hexec.
  pose proof (reachable_registry V keccak256 multisig_address safe_address transfers_address c0 es H0 Hh) as Hr. rewrite <-Hx in Hr.
  pose proof (mvx_reachable_ok V keccak256 multisig_address safe_address transfers_address c0 es H0 Hh) as Hok. rewrite <-Hx in Hok.
  rewrite Forall_forall in Hnode. assert (HL : node leader) by (apply Hnode; by left).
  assert (Hnl : (0 <= dt_Nonce last_deposit < 2 ^ 63)%Z /\ dt_Nonce last_deposit = (last_executed_eth_tx_id (reg s) + Z.of_nat (length (tb_Deposits b)))%Z).
  { split; [destruct Hb as [_ Hb]; rewrite Forall_forall in Hb; apply Hb; rewrite last_lookup in Hlast; by eapply list_elem_of_lookup_2|].
    rewrite last_lookup in Hlast. assert (E : (dt_Nonce <$> tb_Deposits b) !! pred (length (tb_Deposits b)) = Some (dt_Nonce last_deposit)) by (by rewrite list_lookup_fmap, Hlast).
    rewrite Hn, lookup_seqZ in E. lia. }
  destruct (proposed_by_client leader b x Hb) as (h & x1 & id & Hprop & Hv1 & Ht1); try done; [by apply Forall_cons in Hmem as [? _]|fold s; lia|].
  destruct (votes_run relayers b (get x) id _ x1 (proj2 (Forall_forall _ _) Hnode) Hb Hmem Hv1) as (x2 & vs & Hvotes & Hv2 & _ & Hall & Ht2).
  rewrite Forall_forall in Hmem. assert (HP : node performer) by (by apply Hnode).
  destruct (performed_by_client performer b (get x) id vs x2 relayers t' w' (eth_tx last_deposit)) as (h' & x3 & r' & Hdone & Hreg & H1 & H2 & H3 & H4 & H5);
    try done; [apply Hok|by apply Hmem|by intros D HD; split; [apply Hmem|apply Hall]|by rewrite fmap_last, Hlast|].
  exists h, h', x1, x2, x3, id. split; [done|]. pose proof (ballot_views _ _ _ _ _ (vo_ballot _ _ _ _ _ _ Hv1)) as (_ & Hwas & Hid32). split; [|split; [done|split; [done|split; [|done]]]].
  - intros D HD. rewrite <-Hwas. specialize (Hnode D HD). by eapply (WasProposedTransfer_reports V keccak256 multisig_address safe_address transfers_address).
  - assert (H64 : (2 ^ 64)%Z = (2 ^ 63 * 2)%Z) by done. intros D HD. specialize (Hnode D HD). rewrite <-H1, <-H3.
    change (dt_Nonce last_deposit) with (et_nonce (eth_tx last_deposit)). rewrite <-H2, <-Hreg. split; [|split].
    + eapply (GetLastExecutedEthBatchID_reports V keccak256 multisig_address safe_address transfers_address); [done|]. rewrite Hreg, H1, H64. destruct Hb. lia.
    + eapply (GetLastExecutedEthTxID_reports V keccak256 multisig_address safe_address transfers_address); [done|]. rewrite Hreg, H2, H64. cbn. lia.
    + eapply (action_reports V keccak256 multisig_address safe_address transfers_address); done.
Qed.
End Round.
End MvxRound.
