(* ===== verification/MvxContractsDemo.v ===== *)
(** * A deployment on MultiversX

    Three contracts, a board of three relayers with a quorum of two, tokens with plain balances:
    the theorems about the contracts and about the client that reads them, on concrete histories.
    Module [MvxNodeDemo]: a node that runs them, with the documented encodings, and the clients of
    the three relayers over it. *)
From S2P Require Import Prelude Go Text Common Batch Interfaces Executor Solidity MvxClient MvxClientFacts ClientOnChain TxBatch TxBatchFacts EsdtSafe EsdtSafeFacts MultiTransfer MultiTransferFacts Multisig MultisigFacts MvxContracts MvxContractsFacts MvxContractsSafety MvxRegistry MvxServed MvxNode MvxRound.
Import MvxClient MvxClientFacts TxBatch.

Module MvxContractsDemo.
Import MultiTransfer MultiTransferFacts Multisig MultisigFacts MvxContracts MvxContractsFacts MvxContractsSafety MvxServed MvxRead.

Definition addr (z : Z) : address := be_bytes 32 z.
Definition owner_ : address := addr 1.
Definition user : address := addr 2.
Definition relayer1 : address := addr 11.
Definition relayer2 : address := addr 12.
Definition relayer3 : address := addr 13.
Definition multisig_addr : address := addr 31.
Definition safe_addr : address := addr 32.
Definition transfers_addr : address := addr 33.
Definition swap_addr : address := addr 34.
Definition eth_user : bytes := be_bytes 20 77.
Definition gold : bytes := bytes_of_string "GOLD-1".

(** ** Tokens *)

Abbreviation world := (gmap (address * bytes) Z).

Definition bal (w : world) (a : address) (t : bytes) : Z := default 0%Z (w !! (a, t)).
Definition credit (a : address) (t : bytes) (v : Z) (w : world) : world := <[(a, t) := (bal w a t + v)%Z]> w.
Definition debit (a : address) (t : bytes) (v : Z) (w : world) : option world :=
  if (v <=? bal w a t)%Z then Some (<[(a, t) := (bal w a t - v)%Z]> w) else None.
Definition pay (from to : address) (t : bytes) (v : Z) (w : world) : option world := credit to t v <$> debit from t v w.

Definition machine_ : vm world := {|
  is_smart_contract a := bool_decide (a ∈ [multisig_addr; safe_addr; transfers_addr; swap_addr]);
  shard_of _ := 0%Z;
  has_local_role _ _ _ _ := true;
  is_frozen _ _ _ := false;
  esdt_local_mint a t v w := Some (credit a t v w);
  esdt_local_burn a t v w := debit a t v w;
  direct_esdt from to t v w := pay from to t v w;
  direct_egld _ _ _ w := Some w;
  latest_price_feed_optional _ _ _ _ := Some None;
  wrap_tokens_at _ _ l w := Some (l, w);
  unwrap_esdt_to_address _ from to t v w := pay from to t v w |}.

Definition keccak (l : bytes) : bytes := l.

Abbreviation happened := (history machine_ keccak multisig_addr safe_addr transfers_addr).
Abbreviation fine := (history_ok machine_ keccak multisig_addr safe_addr transfers_addr).
Abbreviation calm := (settled_history machine_ keccak multisig_addr safe_addr transfers_addr).

Definition electing : result board unit := init machine_ safe_addr transfers_addr 0 0 2 [relayer1; relayer2; relayer3] (new_board 0 0).

Definition deployment : chain world := mkChain 1 (mkContracts
  (mkMultisig owner_ true (match electing with Done _ b => b | Revert _ => new_board 0 0 end) (mkRegistry [] ∅ ∅ ∅ 0 0) ∅ ∅)
  (EsdtSafe.init multisig_addr zero_addr (addr 40) 0 0 0) (new_transfers multisig_addr None (Some swap_addr)) (credit user gold 1000 ∅)).

Lemma mvx_deployment_deployed : deployed machine_ multisig_addr safe_addr transfers_addr deployment.
Proof.
  exists (m_board (c_multisig (state deployment))), 0%Z, 0%Z, 2%Z, [relayer1; relayer2; relayer3], owner_, tt, (credit user gold 1000 ∅),
    zero_addr, (addr 40), 0%Z, 0%Z, 0%Z, None, (Some swap_addr).
  split; [|split; [done|reflexivity]]. change (electing = Done tt (m_board (c_multisig (state deployment)))). unfold deployment.
  assert ((match electing with Done _ _ => true | Revert _ => false end) = true) as H by (vm_compute; reflexivity).
  destruct electing as [[] b|r]; [reflexivity|discriminate H].
Qed.

Definition setup : list (event world) := [
  Sent owner_ (ToMultisig (SetPaused false));
  Sent owner_ (ToMultisig (ConfigureSafe (SafeSetPaused false)));
  Sent owner_ (ToMultisig (ConfigureSafe (SafeAddToken gold gold None))) ].

(** ** Transfers from Ethereum: one is paid, one - to a contract - is refunded *)

Definition arrived : list EthTransaction := [mkEthTx eth_user user gold 50 1; mkEthTx eth_user swap_addr gold 60 2].

Definition voting : list (event world) := setup ++ [
  Sent relayer1 (ToMultisig (ProposeTransfer 1 arrived));
  Sent relayer1 (ToMultisig (PerformAction 1));
  Sent relayer2 (ToMultisig (Sign 1)) ].

Definition performing : event world := Sent relayer3 (ToMultisig (PerformAction 1)).

Lemma mvx_transfers_by_quorum_witness : exists caller id ts,
  performing = Sent caller (ToMultisig (PerformAction id)) /\ length ts = 2 /\
  quorum_approved voting id (BatchTransferEsdtToken 1 ts) (state (happened deployment voting)).
Proof.
  destruct (mvx_transfers_by_quorum machine_ keccak multisig_addr safe_addr transfers_addr deployment voting performing)
    as (caller & id & ts & He & _ & _ & Ha & Hq & _).
  - exact mvx_deployment_deployed.
  - apply (bool_decide_unpack _). vm_compute. exact I.
  - apply (bool_decide_unpack _). vm_compute. exact I.
  - exists caller, id, ts. split; [exact He|].
    assert (Hlast : last_executed_eth_batch_id (reg (state (happened deployment voting))) = 0%Z) by (vm_compute; reflexivity).
    rewrite Hlast in Ha, Hq. split; [|exact Hq]. injection He as _ <-.
    assert (Hts : action_at 1 (reg (state (happened deployment voting))) = Some (BatchTransferEsdtToken 1 arrived)) by (vm_compute; reflexivity).
    rewrite Hts in Ha. injection Ha as <-. reflexivity.
Defined.

Definition w0 : world := credit user gold 1000 ∅.
Definition transferred : result (transfers * world) unit :=
  batch_transfer_esdt_token machine_ transfers_addr multisig_addr 5 1 arrived (new_transfers multisig_addr None (Some swap_addr), w0).
Definition after_transfer : transfers * world :=
  match transferred with Done _ p => p | Revert _ => (new_transfers multisig_addr None None, w0) end.

Lemma transfers_paid_or_refunded_witness :
  queue (t_batches (fst after_transfer)) = [mkTransaction 5 2 eth_user swap_addr gold 60 0 true] /\
  exists paid refunded, paid ++ refunded ≡ₚ arrived /\
    queue (t_batches (fst after_transfer)) = [] ++ (convert_to_refund_tx 5 <$> refunded).
Proof.
  split; [vm_compute; reflexivity|].
  destruct (transfers_paid_or_refunded machine_ transfers_addr multisig_addr 5 1 arrived (new_transfers multisig_addr None (Some swap_addr))
    (fst after_transfer) w0 (snd after_transfer) tt) as (_ & _ & _ & paid & refunded & payments & w1 & w2 & Hp & _ & Hq & _).
  - split; [vm_compute; discriminate|]. intros id _. apply lookup_empty.
  - change (transferred = Done tt (fst after_transfer, snd after_transfer)). unfold after_transfer.
    assert ((match transferred with Done _ _ => true | Revert _ => false end) = true) as H by (vm_compute; reflexivity).
    destruct transferred as [[] [t w]|r]; [reflexivity|discriminate H].
  - exists paid, refunded. split; [exact Hp|exact Hq].
Defined.

(** ** Batches to Ethereum *)

Fixpoint deposits (n : nat) : list (event world) :=
  match n with 0 => [] | S n' => Sent user (ToSafe (SafeCreate gold 10 user eth_user)) :: deposits n' end.

Definition small : list (event world) := setup ++ [NewBlock 10] ++ deposits 2 ++ [NewBlock 200;
  Sent relayer1 (ToMultisig (ProposeStatus 1 [StExecuted; StRejected]));
  Sent relayer2 (ToMultisig (Sign 1)) ].

Definition deposit (n : Z) : Transaction := mkTransaction 10 n user eth_user gold 10 0 false.

Lemma served_until_processed_witness :
  served (happened deployment small) = Some (1%Z, [deposit 1; deposit 2]) /\
  served (happened deployment (small ++ [Sent relayer3 (ToMultisig (PerformAction 1))])) = None /\
  processed small (happened deployment small) (happened deployment (small ++ [Sent relayer3 (ToMultisig (PerformAction 1))]))
    (Sent relayer3 (ToMultisig (PerformAction 1))) 1 [deposit 1; deposit 2].
Proof.
  assert (Hnone : served (happened deployment (small ++ [Sent relayer3 (ToMultisig (PerformAction 1))])) = None) by (vm_compute; reflexivity).
  assert (Hs : served (happened deployment small) = Some (1%Z, [deposit 1; deposit 2])) by (vm_compute; reflexivity).
  split; [exact Hs|]. split; [exact Hnone|].
  destruct (served_until_processed machine_ keccak multisig_addr safe_addr transfers_addr deployment small
    (Sent relayer3 (ToMultisig (PerformAction 1))) 1 [deposit 1; deposit 2]) as [H|H].
  - exact mvx_deployment_deployed.
  - apply (bool_decide_unpack _). vm_compute. exact I.
  - apply (bool_decide_unpack _). vm_compute. exact I.
  - exact Hs.
  - rewrite <-history_snoc in H. rewrite Hnone in H. discriminate H.
  - rewrite <-history_snoc in H. exact H.
Defined.

(** Six transactions: the proposal with six statuses is refused, the one with seven cannot be performed. *)
Definition large : list (event world) := setup ++ [NewBlock 10] ++ deposits 6 ++ [NewBlock 200].

Definition attempts : list (event world) := [
  Sent relayer1 (ToMultisig (ProposeStatus 1 (replicate 6 StExecuted)));
  Sent relayer1 (ToMultisig (ProposeStatus 1 (replicate 7 StExecuted)));
  Sent relayer2 (ToMultisig (Sign 1));
  Sent relayer3 (ToMultisig (PerformAction 1));
  NewBlock 1000;
  Sent user (ToSafe (SafeCreate gold 10 user eth_user)) ].

Definition large_batch : list Transaction := deposit <$> [1; 2; 3; 4; 5; 6]%Z.

Lemma large_batches_stuck_witness :
  served (happened deployment (large ++ attempts)) = Some (1%Z, large_batch) /\
  first_batch_id (bat (state (happened deployment (large ++ attempts)))) = 1%Z.
Proof.
  apply (large_batches_stuck machine_ keccak multisig_addr safe_addr transfers_addr deployment large attempts 1 large_batch).
  - exact mvx_deployment_deployed.
  - apply (bool_decide_unpack _). vm_compute. exact I.
  - apply (bool_decide_unpack _). vm_compute. exact I.
  - vm_compute. reflexivity.
  - cbn. lia.
Defined.

Lemma status_proposals_decided_witness :
  propose_esdt_safe_set_current_transaction_batch_status relayer1 200 1 (replicate 6 StExecuted) (state (happened deployment large)) =
    Revert "Number of statuses provided must be equal to number of transactions in current batch".
Proof.
  apply (status_proposals_decided (state (happened deployment large)) relayer1 200 1 large_batch (replicate 6 StExecuted)).
  - vm_compute. reflexivity.
  - vm_compute. reflexivity.
  - vm_compute. reflexivity.
  - vm_compute. reflexivity.
  - reflexivity.
  - cbn. lia.
Defined.

(** ** The relayer's client *)

Definition node : mxDeps (chain world) := {|
  ExecuteVMQuery _ c := (Ret (Ok (mkResponse "ok" "" (batch_answer (served c)))), c);
  GetNetworkStatus _ := mret (Ok (Some 10%Z)); GetShardOfAddress _ := mret (Ok 1%Z);
  GetNetworkConfig := mret (Ok (mkNetConfig "T" 1 1000000000)); GetNonce := mret (Ok 3%Z);
  SendTransaction _ := mret (Ok "txhash"); tx_IsWhitelisted _ := mret true;
  ToVmValueRequest b := Ok (mkRequest "multisig" (bld_function b) "relayer" []);
  ToDataBytes b := Ok (bytes_of_string (bld_function b)); json_tx tx := Ok (tx_Data tx); ed25519_Sign m := Ok (reverse m);
  mx_ConvertToken t := mret (Ok (Byte.xee :: t));
  mx_status := {| sh_SetIntMetric _ _ := mret tt; sh_AddIntMetric _ _ := mret tt; sh_SetStringMetric _ _ := mret tt |};
  mx_relayer := [Byte.x01]; relayer_bech32 := "relayer"; multisig_bech32 := "multisig";
  mx_converter := {| ToBech32String := hex_encode |};
  gasMapConfig := mkGasMap 1 2 3 4 5 6 7; mx_allowDelta := 2 |}.

Lemma served_batch_read_witness : exists x',
  GetPending node (happened deployment small) =
    (Ret (Ok (Some (mkBatch 1 [mirrored node (deposit 1) (Byte.xee :: gold); mirrored node (deposit 2) (Byte.xee :: gold)] [Byte.x00; Byte.x00]))), x').
Proof.
  destruct (served_batch_read node (fun t => Ok (Byte.xee :: t)) (fun _ c => c) machine_ keccak multisig_addr safe_addr transfers_addr
    deployment small (happened deployment small) (happened deployment small)) as [_ H].
  - exact mvx_deployment_deployed.
  - apply (bool_decide_unpack _). vm_compute. exact I.
  - intros t y. reflexivity.
  - reflexivity.
  - apply (H 1%Z [deposit 1; deposit 2] [Byte.xee :: gold; Byte.xee :: gold]).
    + vm_compute. reflexivity.
    + repeat constructor.
Defined.

End MvxContractsDemo.

(** ** The relayers of the deployment *)
Import MvxClient MvxClientFacts TxBatch MvxNode MvxNodeFacts MvxRound.
Import ClientOnChain(encodable, arg_texts).

Module MvxNodeDemo.
Import MultiTransfer Multisig MultisigFacts MvxContracts MvxContractsFacts MvxContractsSafety MvxRegistry MvxServed MvxRead MvxContractsDemo.

(** ** Encodings *)

Definition sdk_arg (a : vmArg) : bytes :=
  match a with
  | ArgBytes b | ArgAddress b => b
  | ArgInt64 z | ArgBigInt (Some z) => if (z =? 0)%Z then [Byte.x00] else big_Bytes z
  | ArgBigInt None => []
  end.

Definition below (bound : Z) (b : bytes) : option Z := if (be_val b <? bound)%Z then Some (be_val b) else None.
Definition sized (n : nat) (b : bytes) : option bytes := if decide (length b = n) then Some b else None.

Definition framework : codec := {|
  top_u64 := below (2 ^ 64);
  top_usize b := Z.to_nat <$> below (2 ^ 32) b;
  top_address := sized 32;
  top_eth_address := sized 20;
  top_big b := Some (be_val b);
  top_status b := match b with [] => Some StNone | [v] => status_of_byte v | _ => None end |}.

Lemma sdk_number z : (0 <= z)%Z -> be_val (sdk_arg (ArgInt64 z)) = z.
Proof. intros H. cbn. destruct (Z.eqb_spec z 0) as [->|Hz]; [done|]. rewrite be_val_big. lia. Qed.

Lemma below_number bound z : (0 <= z < bound)%Z -> below bound (sdk_arg (ArgInt64 z)) = Some z.
Proof. intros H. unfold below. rewrite sdk_number by lia. destruct (Z.ltb_spec z bound); [done|lia]. Qed.

(** ** The node *)

Definition decode_args (l : list string) : option (list bytes) :=
  mapM (fun s => match hex_DecodeString s with Ok b => Some b | Err _ => None end) l.

Lemma decode_args_encode l : decode_args (hex_encode <$> l) = Some l.
Proof.
  unfold decode_args. induction l as [|b l IH]; [done|]. cbn. rewrite hex_decode_encode. cbn. by rewrite IH.
Qed.

Lemma endpoint_free f args call : parse_call framework f args = Some call -> free_of "@" f = true.
Proof.
  unfold parse_call, by_name. destruct (list_find _ _) as [[i p]|] eqn:E; [|done]. intros _. apply list_find_Some in E as (Hp & <- & _).
  assert (Hall : Forall (fun q : string * (list bytes -> option multisig_call) => free_of "@" (fst q) = true) (endpoints framework)) by (by repeat constructor).
  rewrite Forall_forall in Hall. apply Hall. by eapply list_elem_of_lookup_2.
Qed.

Definition answering (r : VmValueRequest) : M (chain world) (res VmResponse) := fun c =>
  (Ret (match args ← decode_args (rq_Args r); parse_view framework (rq_FuncName r) args with
        | Some v => Ok (mkResponse "ok" "" (answer keccak v c))
        | None => Ok (mkResponse "user error" "wrong arguments" [])
        end), c).

Definition executing (caller : address) (tx : FrontendTransaction) : M (chain world) (res string) := fun c =>
  (Ret (Ok "hash"),
   match strings_Split "@" (string_of_bytes (tx_Data tx)) with
   | f :: texts =>
       match args ← decode_args texts; parse_call framework f args with
       | Some call => happens machine_ keccak multisig_addr safe_addr transfers_addr c (Sent caller (ToMultisig call))
       | None => c
       end
   | [] => c
   end).

Definition client_of (a : address) : mxDeps (chain world) := {|
  ExecuteVMQuery := answering;
  GetNetworkStatus _ := mret (Ok (Some 10%Z)); GetShardOfAddress _ := mret (Ok 1%Z);
  GetNetworkConfig := mret (Ok (mkNetConfig "T" 1 1000000000)); GetNonce := mret (Ok 3%Z);
  SendTransaction := executing a; tx_IsWhitelisted _ := mret true;
  ToVmValueRequest b := Ok (mkRequest "multisig" (bld_function b) "relayer" (arg_texts sdk_arg b));
  ToDataBytes b := Ok (bytes_of_string (join_with "@" (bld_function b :: arg_texts sdk_arg b)));
  json_tx tx := Ok (tx_Data tx); ed25519_Sign m := Ok (reverse m);
  mx_ConvertToken t := mret (Ok (Byte.xee :: t));
  mx_status := {| sh_SetIntMetric _ _ := mret tt; sh_AddIntMetric _ _ := mret tt; sh_SetStringMetric _ _ := mret tt |};
  mx_relayer := a; relayer_bech32 := hex_encode a; multisig_bech32 := "multisig";
  mx_converter := {| ToBech32String := hex_encode |};
  gasMapConfig := mkGasMap 1 2 3 4 5 6 7; mx_allowDelta := 2 |}.

Abbreviation get_ := (fun c : chain world => c).
Abbreviation put_ := (fun c _ : chain world => c).

Lemma client_node a : length a = 32 -> RustNode machine_ keccak multisig_addr safe_addr transfers_addr (client_of a) framework sdk_arg get_ put_.
Proof.
  intros Ha. split; try done.
  - intros r args v x Hr Hv. cbn [ExecuteVMQuery client_of]. unfold answering. rewrite Hr, decode_args_encode. cbn [mbind option_bind]. by rewrite Hv.
  - intros tx f args call x _ _ Hd Hc. exists "hash". cbn [SendTransaction client_of]. unfold executing. rewrite Hd, string_bytes_string.
    rewrite (split_join "@"); [|done|].
    + rewrite decode_args_encode. cbn [mbind option_bind]. by rewrite Hc.
    + constructor; [by eapply endpoint_free|]. apply Forall_fmap, Forall_true. intros l. apply hex_encode_free.
  - intros x. by eexists.
  - intros x. by eexists.
  - intros b _. by eexists.
  - intros tx. by eexists.
  - intros b. by eexists.
  - intros z Hz. apply below_number. change (2 ^ 64)%Z with (2 ^ 63 * 2)%Z. lia.
  - intros n Hn. cbn [top_usize framework]. rewrite below_number by lia. cbn. by rewrite Nat2Z.id.
  - intros z Hz. cbn [top_big framework]. by rewrite <-(sdk_number z Hz) at 2.
  - intros b Hb. cbn. unfold sized. by rewrite decide_True.
  - intros b Hb. cbn. unfold sized. by rewrite decide_True.
Qed.

(** ** A batch of two transfers *)

Definition ready : chain world := happened deployment setup.

Definition relayed (t : EthTransaction) : DepositTransfer :=
  {| dt_Nonce := et_nonce t; dt_ToBytes := et_to t; dt_DisplayableTo := ""; dt_FromBytes := et_from t; dt_DisplayableFrom := "";
     dt_TokenBytes := []; dt_DisplayableToken := ""; dt_Amount := Some (et_amount t); dt_ConvertedTokenBytes := et_token t |}.
Definition arriving : TransferBatch := mkBatch 1 (relayed <$> arrived) [Byte.x03; Byte.x04].

Lemma arriving_typed : batch_typed arriving.
Proof.
  split; [by cbn|]. repeat (constructor; [split; [reflexivity|reflexivity|by vm_compute|eexists; split; [reflexivity|by vm_compute]|by vm_compute]|]).
  constructor.
Qed.

Definition gold_paid : result (transfers * world) unit :=
  transfer_exec machine_ transfers_addr multisig_addr (block_nonce ready) (TrBatchTransfer 1 (eth_tx <$> tb_Deposits arriving))
    (c_transfers (state ready), c_world (state ready)).
Definition paid_state : transfers * world :=
  match gold_paid with Done _ p => p | Revert _ => (c_transfers (state ready), c_world (state ready)) end.

(** Relayer 1 proposes, all three vote, relayer 3 performs: the first transfer is paid. *)
Lemma relayers_perform_batch_witness : bal (snd paid_state) user gold = 1050%Z /\
  exists h h' x1 x2 x3,
    MvxClient.ProposeTransfer (client_of relayer1) (Some arriving) ready = (Ret (Ok h), x1) /\
    votes [client_of relayer1; client_of relayer2; client_of relayer3] arriving x1 = (Ret (Ok tt), x2) /\
    perform_when_quorum (client_of relayer3) arriving x2 = (Ret (Ok (Some h')), x3) /\ c_world (state x3) = snd paid_state.
Proof.
  split; [vm_compute; reflexivity|].
  destruct (relayers_perform_batch machine_ keccak multisig_addr safe_addr transfers_addr framework sdk_arg get_ put_
    (client_of relayer1) (client_of relayer3) [client_of relayer2; client_of relayer3] arriving (relayed (mkEthTx eth_user swap_addr gold 60 2))
    ready deployment setup (fst paid_state) (snd paid_state)) as (h & h' & x1 & x2 & x3 & id & H1 & _ & H2 & H3 & _ & _ & H4).
  - repeat (constructor; [apply client_node; reflexivity|]). constructor.
  - right. right. left.
  - exact mvx_deployment_deployed.
  - apply (bool_decide_unpack _). vm_compute. exact I.
  - reflexivity.
  - apply (bool_decide_unpack _). vm_compute. exact I.
  - repeat (constructor; [split; vm_compute; reflexivity|]). constructor.
  - vm_compute. discriminate.
  - vm_compute. reflexivity.
  - exact arriving_typed.
  - reflexivity.
  - vm_compute. reflexivity.
  - vm_compute. reflexivity.
  - vm_compute. reflexivity.
  - vm_compute. reflexivity.
  - change (gold_paid = Done tt (fst paid_state, snd paid_state)). unfold paid_state.
    assert ((match gold_paid with Done _ _ => true | Revert _ => false end) = true) as H by (vm_compute; reflexivity).
    destruct gold_paid as [[] [t w]|r]; [reflexivity|discriminate H].
  - exists h, h', x1, x2, x3. split; [exact H1|]. split; [exact H2|]. split; [exact H3|exact H4].
Defined.

(** The clients on the chain on which relayer 1 has proposed and relayer 2 signed. *)
Definition midway : chain world := happened deployment voting.



End MvxNodeDemo.
